(* ===== verification/_CoqProject ===== *)
-Q . S2P
Prelude.v
Bits.v
Q931Defs.v
Q931Tables.v
Q931Sets.v
Q931IE.v
Q931IEThm.v
Q931World.v
Q931Base.v
Q931Wire.v
Q931Decode.v
Q931Ces.v
Q931Call.v
Q931CallRequests.v
Q931Global.v
Q931CallTimers.v
Q931CallEstablish.v
Q931CallClearing.v
Q931CallStatus.v
Q931CesHandlers.v
Q931Input.v
Q931Machine.v
Q931Core.v
Q931Inv.v
Q931InvOps.v
Q931InvCalls.v
Q931InvHandlers.v
Q931InvEntry.v
Q931Refine.v
Q931Scenario.v
Q931Steps.v
Q931Callref.v
Q931Header.v
Q931Message.v
Q931Faults.v
LapdProto.v
LapdSock.v
LapdOutput.v
LapdTei.v
LapdDatalink.v
LapdInput.v
LapdUser.v
LapdPeer.v
LapdSide.v
LapdHandlers.v
LapdEvents.v
LapdDelivery.v
LapdMachine.v
LapdSafe.v
LapdRun.v
LapdFaults.v
LapdTeiThm.v
LapdRelease.v
VgsmText.v
VgsmTextThm.v
VgsmSms.v
VgsmStandard.v
VgsmDeliverThm.v
VgsmSubmitThm.v
VgsmComm.v
VgsmCommInv.v
VgsmCommThm.v
VgsmCommLine.v
VgsmCommRun.v
KsProto.v
KsKernel.v
KsPipeline.v
KsTopology.v
KsWire.v
KsInv.v
KsStatus.v
KsReach.v
KsThm.v
KsLib.v
KsRouterThm.v
KsMirror.v
KsConn.v
KsConnInv.v
KsConnOps.v
KsConnThm.v
