(* ===== verification/Prelude.v ===== *)
(** * vstuff: a verification library for the telephony stack of vISDN

    vstuff is the vISDN telephony stack: kernel drivers for ISDN and GSM hardware
    ([modules/]), the LAPD data link protocol ([modules/lapd]), the media switching core
    ([modules/kstreamer]), the user space library of the network layer protocol Q.931
    ([libq931/]) and the Asterisk channel drivers that use them ([chan_visdn/],
    [chan_vgsm/]).  The library below models [libq931], which decides what happens to a
    call, [modules/lapd], which carries its messages, the codecs of [chan_vgsm] for short
    messages and its requests to the module, and kstreamer on both sides of its socket.

    ** The system

    Q.931.  An interface ([struct q931_interface]) has two or thirty bearer channels, the
    data link connections (DLC) to its peers, a global call for restarts, and a list of
    calls.  A call is created by the application ([q931_call_alloc_out]) or by a SETUP or
    RESUME from the peer; it is driven by primitives of the application
    ([q931_ccb_dispatch]), frames and link events ([q931_receive]) and timers
    ([q931_run_timers]).  A call that the network side offers on a bus has one connection
    endpoint suffix (CES) per terminal that answered.  Calls are reference counted: by
    the application, by the list of calls, by running timers, by CES.

    LAPD.  A device has the sockets of its data links and of its management.  A process
    drives a socket by system calls; layer 1 hands frames and primitives to the device,
    which chooses the socket by SAPI and TEI; timers T200 and T203 drive a link that is
    silent.  The TEI entities of both sides assign, check and remove TEIs.

    Short messages.  The driver writes the PDU of a message to send, which the module
    takes in hexadecimal, and decodes the PDUs of messages, status reports and
    broadcasts the module reports; both pack texts in septets of the GSM alphabet and
    numbers in semi-octets.

    Requests to the module.  The driver writes the text of a request to the serial line of
    the GSM module, which echoes it and answers with lines; the last one has the result.
    Lines the module sends of its own accord, unsolicited result codes (URC), come in
    between.  A channel has a thread that writes and reads, driven by the line, a pipe
    and a timer, and two threads that call completion functions and the handlers of URC.

    Kstreamer.  Drivers register nodes and directed channels between them with the
    kernel.  A process puts channels together to a pipeline, which the kernel takes
    through the states NULL, CONNECTED, OPEN and FLOWING by calls of the drivers.
    Processes talk to the kernel by messages over a netlink socket, may lock the
    topology for a while, and get multicasts of what changes; a message that must wait
    for the lock is kept in a backlog.  A library keeps a copy of the topology for a
    process, from the messages, and finds routes in it.  Its operations queue requests and
    wait; a thread of the protocol sends them, gives the answers to the requests they
    belong to and gives up on requests after five seconds.

    ** The model and where it is in the source

    The stateful code is written in the monad [M] below: state passing with faults as
    errors.  A fault is any way the C code leaves defined behaviour.  Objects of Q.931
    are records in heaps indexed by addresses; freed addresses are not reused.

    - [Bits]: machine integers and bit fields, error numbers

    Q.931 ([libq931/]), state [q931_world]:
    - [Q931Defs]: enumerations, information elements ([libq931/*.h])
    - [Q931Tables]: the tables of [ie.c] with their look-ups
    - [Q931Sets]: [chanset.c] and [ies.c] with their theorems
    - [Q931IE]: the readers and writers of the [ie_*.c]; [Q931IEThm]: their round trips
    - [Q931World]: the state of an interface, its DLC, calls, CES, timers and effects
    - [Q931Base]: heap access, [timer.c], [dlc.c], [channel.c], reference counts
    - [Q931Wire]: [callref.c], [output.c], the allocation of [intf.c]
    - [Q931Decode]: the decoder of [input.c]
    - [Q931Call], [Q931CallRequests], [Q931CallTimers],
      [Q931CallEstablish], [Q931CallClearing], [Q931CallStatus]: [call.c] in the order
      status answers, indications of CES, primitives, timers, messages
    - [Q931Ces], [Q931CesHandlers]: [ces.c]
    - [Q931Global]: [global.c]
    - [Q931Input]: the entry points of [input.c], [timer.c], [ccb.c], [intf.c]

    LAPD ([modules/lapd/]), state [lapd_link] for a socket with its device:
    - [LapdProto]: [proto.h], the octets of a frame
    - [LapdSock]: sockets, devices, entities ([lapd.h], [device.h], [tei_mgmt_*.h])
    - [LapdOutput]: [output.c], primitives and frames to the process, timers; the
      procedures of [datalink.c] and the management primitives
    - [LapdTei]: [tei_mgmt.c], [tei_mgmt_nt.c], [tei_mgmt_te.c]
    - [LapdDatalink]: the frame handlers, primitives and timers of [datalink.c]
    - [LapdInput]: [input.c]; [LapdUser]: the system calls of [af_lapd.c]

    Short messages ([chan_vgsm/]), functions of buffers:
    - [VgsmText]: [util.c], [bcd.c], [gsm_charset.c], [7bit.c], [base64.c],
      [quotprint.c], [number.c]
    - [VgsmSms]: [sms_submit.c], [sms_deliver.c], [sms_status_report.c], [cbm.c]

    Requests to the module ([chan_vgsm/]), state [vgsm_comm]:
    - [VgsmComm]: [comm.c] and [timer.c]; the class [Timers] is what the timers need of
      the state they are part of, [vcomm_event] what can happen to a channel

    Kstreamer ([modules/kstreamer/], [libkstreamer/], [libskb/]):
    - [KsProto]: [netlink.h], buffers, messages and attributes, with the theorems on
      attributes
    - [KsKernel]: objects, reference counts and buffers of the kernel, state [ks_world];
      the class [KsEnv] stands for the drivers and the rest of the kernel
    - [KsPipeline]: [pipeline.c] of the kernel
    - [KsTopology]: [feature.c], [node.c], [channel.c], [netlink.c] of the kernel
    - [KsLib]: the topology of the library, state [ks_conn], its updates and [router.c]
    - [KsConn]: the requests of the library, state [ks_io]: [req.c], [timer.c], [conn.c]
      and the operations that wait ([libkstreamer.c], [pipeline.c], [channel.c]); the
      class [ConnEnv] stands for what memory holds; [ks_client] is where an operation
      waits, [ks_event] what can happen to an application

    A definition has the name of its C function; a switch over a state is a match over
    the type of states.  Macros of the form [q931_call_send_*] and [report_*] are
    definitions too: a report dereferences what it prints.

    ** The theorems

    Q.931:
    - [Q931Core]: which operations leave calls, CES and timers alone.
    - [Q931Inv], [Q931InvOps], [Q931InvCalls], [Q931InvHandlers],
      [Q931InvEntry]: every operation keeps the reference count invariant [refs_inv]
      and every [Stable] property; the class [Stable] is the interface between a
      property of worlds and the operations.
    - [Q931Scenario], [Q931Steps]: the states an interface can reach by entry points
      that complete; in all of them the references to calls are counted, calls that are
      listed, timed or referred to exist, call references are unique, the network side
      keeps to its states.
    - [Q931Machine], [Q931Refine], [Q931Steps]: the state machine of a call as tables of
      successor states for each primitive, message and timer; the code refines it.
    - [Q931Callref], [Q931Header], [Q931Message]: allocation and lookup of call
      references; headers and messages read back.
    - [Q931Faults]: frames and primitives that have no effect; what leaves defined
      behaviour, with concrete inputs, and what does dangle: the call of a channel, the CES
      of a timer.
    - [Q931Scenario] has equations of single operations and the concrete interfaces the
      witnesses evaluate.

    LAPD:
    - [LapdPeer], [LapdSide], [LapdHandlers], [LapdEvents], [LapdDelivery]:
      frames are read back by the other side; two links over a channel that loses frames deliver
      the data in order, once, and meet no fault.  [LapdPeer] has the channel
      and counters that do not wrap, [LapdSide] the invariant of a side.
    - [LapdMachine]: the table of the states of a link; the code follows it
      and reaches every entry.
    - [LapdSafe], [LapdRun], [LapdFaults]: a link meets no fault
      but a pointer into a queue that was emptied, and it does meet that one.
    - [LapdRun], [LapdFaults], [LapdTeiThm], [LapdRelease]: equations of single
      operations; a link whose peer is silent gives up; the network assigns free TEIs;
      releasing a socket returns.

    Short messages:
    - [VgsmTextThm]: texts, numbers and base 64 are read
      back; the limits of texts, tokens and numbers.
    - [VgsmStandard]: the alphabet of TS 23.038 and the octets of TS 23.040, written down
      without the code, and that tables and encoders of the code agree with them.
    - [VgsmDeliverThm]: what is made of an incoming message of the standard's layout, with
      the extension table and the time zone taken wrongly; the decoder stops.
    - [VgsmSubmitThm]: the octets of an outgoing message are the standard's and carry its
      text; what validity period is asked for.

    Requests to the module:
    - [VgsmCommInv]: equations of the operations; the invariant [places] of requests, each
      of which is in one queue, being answered or completed.
    - [VgsmCommThm]: the states a channel reaches ([comm_reach]) as long as the driver
      makes requests of one line, opens a channel that is idle and closes it once; in them
      it meets no fault, and requests are completed once and in their order.
    - [VgsmCommLine]: the receiver refines [spec_receive], which takes lines from a list of
      characters, as long as the module keeps to the protocol ([proto_reach]).
    - [VgsmCommRun]: it does not matter in which pieces the line is read; an answer
      completes its request; a silent module lets the requests fail; a prompt that does
      not begin a line, and closing with requests left.  The executions of the witnesses.

    Kstreamer:
    - [KsInv], [KsStatus], [KsReach]: what getting, putting and linking do to the
      invariant [KInv] of references; the state machine of a pipeline meets no fault;
      commands of processes and operations of drivers keep the invariant.
    - [KsWire]: whole messages are read back.
    - [KsThm]: concrete executions; the references in reachable states, the lock, the
      backlog, termination of reception, and what a process can do to the kernel.
    - [KsRouterThm]: Dijkstra's invariant; the route found is a shortest one.
    - [KsMirror]: the library's objects are those the kernel announces.
    - [KsConnInv]: the invariant [IoInv] of the requests, what the primitives of requests
      and timers do to it; [KsConnOps]: answers, sending, operations that wait.
    - [KsConnThm]: requests are counted until an operation that puts its request twice
      goes on after a failure; in the states reached without that ([reached]) the thread
      of the protocol is safe, no operation waits for ever, answers in parts are
      collected, requests arrive as they are; what a refused change and a stray answer do.

    The safety theorems of Q.931 are about executions that meet no fault; [Q931Faults]
    shows that faults are possible.  Where a theorem says that something completes it
    says so.

    ** Fuel

    The decoder of messages runs with as many iterations as the message has octets,
    proved to be enough ([decode_ies_terminates]).  The search for a call reference runs
    with one iteration more than there are calls, proved to be enough
    ([reachable_find_free_reference]).  [q931_run_timers] takes its fuel from the caller;
    that the loop ends is not proved, since it depends on the clock.  Primitives to the
    management of a link recur at most twice ([mdl_primitive_depth]).  The backlog of a
    socket that is released runs with five iterations per item, proved to be enough
    ([release_sock_returns]).  The loop over a user data header runs with as many
    iterations as the header has octets, proved to be enough ([deliver_decoder_stops]).
    In kstreamer, the loops over attributes run once per four octets, the loop over
    messages once per sixteen, the passes over the backlog once more than there are
    buffers; all proved to be enough ([ks_attrs_no_divergence], [reception_ends]).  A
    search for an identifier runs once more than there are objects.  The search for a
    route and the walk back run once more than there are nodes ([autoroute_correct]).
    The timers of requests run once each ([waits_end]).
    The loop of the receiver of a channel to the module runs as many times as its buffer has
    characters, enough while the module keeps to the protocol ([receive_refines]); where
    it does not the loop may not end in the code either ([prompt_loops]).  The one timer of
    a channel fires at most once in a pass, for which two iterations are enough.  Sending a request is tried three
    times, since an attempt in an empty buffer that fails is like the next one; in the
    states an application reaches the first decides ([requests_sent]).
    The loops that retry until an allocation or a buffer lets a message through run
    [retries] times, a number of the environment, since in the code they may run forever.

    ** Not modelled

    Q.931: reference counts of information elements and messages (both are values;
    where the code releases one that it uses afterwards the model faults), threads and
    the queues between them (a primitive is a call of the library or an event), sockets
    and options of an interface, text and log output, [q931_intf_close].

    LAPD: locks and interrupts (a handler runs to its end), failing allocations, the
    reference count of the network side entity, [ioctl], [poll], [getsockopt] and the
    files under /proc.  Two links are composed for windows of at most 127 frames.

    Short messages: what prints, spools or hands a message to the manager interface.
    [iconv] and [mktime] are parameters.

    Requests to the module: failing writes and allocations of lines, debugging output.  A
    lock is held for one access, so that steps of the threads between two waits are
    atomic; what the module sends, the clock and the order of the threads are events.

    Kstreamer: semaphores and locks (an operation that has the topology lock is one
    step), the files of sysfs, duplex objects, module initialisation; in the library,
    opening and closing a connection, the pipe that wakes its thread, look-ups by path,
    reports.

    Everything else is left out: hardware drivers and command line tools because they
    are I/O; the rest of [chan_vgsm] (the logic of a module in [me.c], SIM files, hunt
    groups) and [chan_visdn], which are mostly texts of commands, configuration and
    callbacks of Asterisk, are not begun. *)

From stdpp Require Import base list gmap functions.
From Stdlib Require Import ZArith Lia.

Open Scope Z_scope.

(** ** Faults: the ways in which the C code leaves defined behaviour. *)

Inductive fault : Set :=
| AssertFail      (** an [assert()] of the source fails: abort *)
| NullDeref       (** a NULL pointer is dereferenced *)
| InvalidFree     (** [free] of something [malloc] did not return *)
| UseAfterFree    (** an object that was freed is dereferenced *)
| OutOfBounds     (** a buffer or an array is accessed out of its bounds *)
| Uninitialised   (** a field is read that no code has written *)
| ListCorruption  (** a node is linked into a list while it is in another one *)
| Diverges        (** the loop never terminates *)
| Deadlock        (** a lock is waited for that nobody will release *)
.

#[export] Instance fault_eq_dec : EqDecision fault.
Proof. solve_decision. Defined.

Inductive outcome (A : Type) : Type :=
| Done (a : A)
| Fault (f : fault).
Arguments Done {A} a.
Arguments Fault {A} f.

#[export] Instance outcome_ret : MRet outcome := @Done.
#[export] Instance outcome_bind : MBind outcome :=
  λ A B k m, match m with Done a => k a | Fault f => Fault f end.
#[export] Instance outcome_fmap : FMap outcome :=
  λ A B g m, match m with Done a => Done (g a) | Fault f => Fault f end.

(** ** The state-and-fault monad the stateful code is written in. *)

Definition M (S A : Type) : Type := S → outcome (A * S).

#[export] Instance M_ret {S} : MRet (M S) := λ A a s, Done (a, s).
#[export] Instance M_bind {S} : MBind (M S) :=
  λ A B k m s, match m s with Done (a, s') => k a s' | Fault f => Fault f end.

Definition get {S} : M S S := λ s, Done (s, s).
Definition put {S} (s : S) : M S unit := λ _, Done (tt, s).
Definition modify {S} (f : S → S) : M S unit := λ s, Done (tt, f s).
Definition fail {S A} (f : fault) : M S A := λ _, Fault f.
Definition lift {S A} (o : outcome A) : M S A :=
  λ s, match o with Done a => Done (a, s) | Fault f => Fault f end.

(** [assert(b)] *)
Definition c_assert {S} (b : bool) : M S unit := if b then mret tt else fail AssertFail.
(** the dereference of a pointer that may be NULL *)
Definition deref {S A} (o : option A) : M S A :=
  match o with Some a => mret a | None => fail NullDeref end.

Fixpoint forM {S A} (l : list A) (f : A → M S unit) : M S unit :=
  match l with
  | [] => mret tt
  | x :: l' => f x ;; forM l' f
  end.

(** [when b m]: an [if] without an [else]. *)
Definition when {S} (b : bool) (m : M S unit) : M S unit := if b then m else mret tt.

(** [upd_field getter eta v r]: the record [r] with the field of [getter] set to
    [v]; [eta] rebuilds a record field by field. *)
Ltac upd_field getter eta v r :=
  let body := eval unfold eta in (eta r) in
  let ctx := eval pattern (getter r) in body in
  match ctx with
  | ?F _ => let t := eval cbv beta in (F v) in exact t
  end.

(** ** Hoare triples.

    [wp m Q s] (total): [m] run from [s] meets no fault and ends in [Q].
    [wlp m Q s] (partial): if [m] meets no fault it ends in [Q]. *)

Definition wp {S A} (m : M S A) (Q : A → S → Prop) (s : S) : Prop :=
  match m s with Done (a, s') => Q a s' | Fault _ => False end.
Definition wlp {S A} (m : M S A) (Q : A → S → Prop) (s : S) : Prop :=
  match m s with Done (a, s') => Q a s' | Fault _ => True end.

(** [m] keeps the invariant [I] whenever it completes. *)
Definition preserves {S A} (I : S → Prop) (m : M S A) : Prop :=
  ∀ s, I s → wlp m (λ _, I) s.

Section hoare.
Context {S : Type}.
Implicit Types (s : S) (I : S → Prop).

Lemma wlp_mono {A} (m : M S A) (P Q : A → S → Prop) s :
  wlp m P s → (∀ a s', P a s' → Q a s') → wlp m Q s.
Proof. unfold wlp. destruct (m s) as [[a s']|]; auto. Qed.

Lemma wp_mono {A} (m : M S A) (P Q : A → S → Prop) s :
  wp m P s → (∀ a s', P a s' → Q a s') → wp m Q s.
Proof. unfold wp. destruct (m s) as [[a s']|]; auto. Qed.

Lemma wlp_conj {A} (m : M S A) (P Q : A → S → Prop) s :
  wlp m P s → wlp m Q s → wlp m (λ a s', P a s' ∧ Q a s') s.
Proof. unfold wlp. destruct (m s) as [[a s']|]; auto. Qed.

Lemma wp_bind {A B} (m : M S A) (k : A → M S B) Q s :
  wp m (λ a, wp (k a) Q) s → wp (m ≫= k) Q s.
Proof. unfold wp, mbind, M_bind. by destruct (m s) as [[a s']|]. Qed.

Lemma wlp_bind {A B} (m : M S A) (k : A → M S B) Q s :
  wlp m (λ a, wlp (k a) Q) s → wlp (m ≫= k) Q s.
Proof. unfold wlp, mbind, M_bind. by destruct (m s) as [[a s']|]. Qed.

Lemma wp_ret {A} (a : A) Q s : Q a s → wp (mret a) Q s.
Proof. done. Qed.

(** the continuation of a computation that keeps [I] *)
Lemma wlp_bind_preserves {A B} I (m : M S A) (k : A → M S B) Q s :
  preserves I m → I s → (∀ a s', I s' → wlp (k a) Q s') → wlp (m ≫= k) Q s.
Proof. intros Hm Hs Hk. apply wlp_bind. eapply wlp_mono; [by apply Hm|]. auto. Qed.

Lemma preserves_bind {A B} I (m : M S A) (k : A → M S B) :
  preserves I m → (∀ a, preserves I (k a)) → preserves I (m ≫= k).
Proof.
  intros Hm Hk s Hs. apply wlp_bind.
  eapply wlp_mono; [by apply Hm|]. intros a s' Hs'. by apply Hk.
Qed.

Lemma preserves_ret {A} I (a : A) : preserves I (mret a : M S A).
Proof. by intros s Hs. Qed.

Lemma preserves_fail {A} I f : preserves I (fail f : M S A).
Proof. by intros s Hs. Qed.

Lemma preserves_lift {A} I (o : outcome A) : preserves I (lift o : M S A).
Proof. intros s Hs. unfold wlp, lift. by destruct o. Qed.

Lemma preserves_get I : preserves I (get : M S S).
Proof. by intros s Hs. Qed.

Lemma preserves_c_assert I b : preserves I (c_assert b : M S unit).
Proof. intros s Hs. unfold c_assert. by destruct b. Qed.

Lemma preserves_deref {A} I (o : option A) : preserves I (deref o : M S A).
Proof. intros s Hs. unfold deref. by destruct o. Qed.

Lemma preserves_when I b (m : M S unit) :
  preserves I m → preserves I (when b m).
Proof. intros Hm. unfold when. destruct b; [done|apply preserves_ret]. Qed.

Lemma preserves_forM {A} I (l : list A) f :
  (∀ x, x ∈ l → preserves I (f x)) → preserves I (forM l f : M S unit).
Proof.
  induction l as [|x l IH]; intros Hf; cbn [forM]; [apply preserves_ret|].
  apply preserves_bind; [apply Hf; left|].
  intros _. apply IH. intros y Hy. apply Hf. by right.
Qed.
End hoare.

Create HintDb preserve.
#[export] Hint Resolve preserves_ret preserves_fail preserves_lift preserves_get
  preserves_c_assert preserves_deref preserves_when : preserve.

(** ** How often an address is in a list *)

Definition occ (a : nat) (l : list nat) : nat := length (filter (λ b, b = a) l).
#[global] Arguments occ : simpl never.

Lemma occ_app a l k : occ a (l ++ k) = (occ a l + occ a k)%nat.
Proof. unfold occ. by rewrite list.filter_app, length_app. Qed.
Lemma occ_cons a b l : occ a (b :: l) = ((if decide (b = a) then 1 else 0) + occ a l)%nat.
Proof. unfold occ. rewrite filter_cons. by case_decide. Qed.
Lemma occ_perm a l k : l ≡ₚ k → occ a l = occ a k.
Proof. unfold occ. by intros ->. Qed.
Lemma occ_elem a l : a ∈ l ↔ (0 < occ a l)%nat.
Proof.
  induction l as [|b l IH]; [by split; [intros ?%elem_of_nil|unfold occ; cbn; lia]|].
  rewrite elem_of_cons, occ_cons, IH. case_decide; split; intros; subst; try lia.
Qed.
Lemma occ_not_elem a l : a ∉ l ↔ occ a l = 0%nat.
Proof. rewrite occ_elem. lia. Qed.
Lemma occ_filter_ne a b l : a ≠ b → occ a (filter (.≠ b) l) = occ a l.
Proof.
  intros Hab. induction l as [|c l IH]; [done|].
  rewrite filter_cons. case_decide as Hc; rewrite ?occ_cons, IH; [done|].
  destruct (decide (c = b)); [|done]. subst. case_decide; [congruence|done].
Qed.
Lemma occ_filter_eq a l : occ a (filter (.≠ a) l) = 0%nat.
Proof. apply occ_not_elem. rewrite list_elem_of_filter. tauto. Qed.
Lemma occ_nodup a l : NoDup l → a ∈ l → occ a l = 1%nat.
Proof.
  induction 1 as [|b l Hb Hl IH]; intros Ha; [by apply elem_of_nil in Ha|].
  rewrite occ_cons. apply elem_of_cons in Ha as [->|Ha].
  - rewrite decide_True by done. apply occ_not_elem in Hb. lia.
  - rewrite decide_False by congruence. by rewrite IH.
Qed.

Lemma filter_ne_id (a : nat) (l : list nat) : a ∉ l → filter (.≠ a) l = l.
Proof.
  induction l as [|b l IH]; intros Ha; [done|]. apply not_elem_of_cons in Ha as [? ?].
  rewrite filter_cons_True by congruence. by rewrite IH.
Qed.

Lemma occ_head a H : occ a (a :: H) = S (occ a H).
Proof. rewrite occ_cons. by rewrite decide_True. Qed.
Lemma occ_tail a b H : b ≠ a → occ b (a :: H) = occ b H.
Proof. intros. rewrite occ_cons. rewrite decide_False; [done|congruence]. Qed.
