(* ===== verification/Bits.v ===== *)
(** * Octets and their bit fields

    The on-wire structures of the protocol are octets made of bit fields.  An
    octet is a [Z] in [[0, 256)]; a field is its value, its lowest bit and its
    width.  [octet] builds an octet from fields the way an assignment to a C bit
    field does (the value is truncated to the width), [bits] reads a field. *)

From stdpp Require Import base list.
From Stdlib Require Import ZArith Lia.
From S2P Require Import Prelude.
Local Open Scope Z_scope.

(** [w] ones *)
Definition mask (w : Z) : Z := Z.ones w.

(** the field of width [w] whose lowest bit is [s] *)
Definition bits (b s w : Z) : Z := Z.land (Z.shiftr b s) (mask w).

(** the value [v] stored in that field *)
Definition field (f : Z * Z * Z) : Z :=
  let '(v, s, w) := f in Z.shiftl (Z.land v (mask w)) s.

Definition octet (fs : list (Z * Z * Z)) : Z := foldr (λ f o, Z.lor (field f) o) 0 fs.

#[global] Arguments bits : simpl never.
#[global] Arguments field : simpl never.
#[global] Arguments octet : simpl never.

(** a value truncated to an octet: the conversion to [__u8] *)
Definition u8 (v : Z) : Z := Z.land v 255.
(** the conversion to [int] of a value *)
Definition i32 (v : Z) : Z := (v + 2147483648) mod 4294967296 - 2147483648.

Definition is_octet (b : Z) : Prop := 0 ≤ b < 256.

Lemma bits_lor a b s w : bits (Z.lor a b) s w = Z.lor (bits a s w) (bits b s w).
Proof. unfold bits. by rewrite Z.shiftr_lor, Z.land_lor_distr_l. Qed.

Lemma bits_0 s w : bits 0 s w = 0.
Proof. unfold bits. by rewrite Z.shiftr_0_l. Qed.

Lemma bits_same v s w :
  0 ≤ s → 0 ≤ w → 0 ≤ v < 2 ^ w → bits (field (v, s, w)) s w = v.
Proof.
  intros Hs Hw Hv. unfold bits, field, mask.
  rewrite Z.shiftr_shiftl_l, Z.sub_diag, Z.shiftl_0_r by lia.
  rewrite !Z.land_ones by lia. rewrite Z.mod_mod by lia. by apply Z.mod_small.
Qed.

(** reading one field of an octet does not see the other ones *)
Lemma bits_other v s w s' w' :
  0 ≤ s → 0 ≤ w → 0 ≤ s' → 0 ≤ w' → s + w ≤ s' ∨ s' + w' ≤ s →
  bits (field (v, s, w)) s' w' = 0.
Proof.
  intros Hs Hw Hs' Hw' Hd. apply Z.bits_inj'. intros n Hn. unfold bits, field, mask.
  rewrite Z.land_spec, Z.shiftr_spec, Z.bits_0 by lia.
  destruct (decide (n < w')) as [Hlt|Hge].
  - rewrite Z.ones_spec_low, andb_true_r by lia.
    destruct (decide (s ≤ n + s')) as [Hle|Hlt'].
    + rewrite Z.shiftl_spec, Z.land_spec by lia.
      rewrite Z.ones_spec_high by lia. apply andb_false_r.
    + rewrite Z.shiftl_spec_low by lia. done.
  - rewrite Z.ones_spec_high by lia. apply andb_false_r.
Qed.

Lemma lor_bound a b k : 0 ≤ k → 0 ≤ a < 2 ^ k → 0 ≤ b < 2 ^ k → 0 ≤ Z.lor a b < 2 ^ k.
Proof.
  intros Hk Ha Hb. replace (Z.lor a b) with (Z.land (Z.lor a b) (Z.ones k)).
  { rewrite Z.land_ones by done. apply Z.mod_pos_bound. lia. }
  rewrite Z.land_lor_distr_l, !Z.land_ones by done. by rewrite !Z.mod_small.
Qed.

Lemma field_bound v s w k :
  0 ≤ s → 0 ≤ w → s + w ≤ k → 0 ≤ field (v, s, w) < 2 ^ k.
Proof.
  intros Hs Hw Hk. unfold field, mask. rewrite Z.land_ones, Z.shiftl_mul_pow2 by done.
  pose proof (Z.mod_pos_bound v (2 ^ w) ltac:(lia)) as Hm.
  assert (2 ^ w * 2 ^ s ≤ 2 ^ k) by (rewrite <-Z.pow_add_r by lia; apply Z.pow_le_mono_r; lia).
  nia.
Qed.

(** every octet built from fields inside its 8 bits is an octet *)
Lemma octet_is_octet fs :
  Forall (λ f, let '(v, s, w) := f in 0 ≤ s ∧ 0 ≤ w ∧ s + w ≤ 8) fs →
  is_octet (octet fs).
Proof.
  unfold is_octet, octet. change 256 with (2 ^ 8). induction 1 as [|[[v s] w] fs Hf Hfs IH];
    cbn [foldr]; [lia|].
  apply lor_bound; [lia|apply field_bound; lia|done].
Qed.

Lemma u8_is_octet v : is_octet (u8 v).
Proof.
  unfold is_octet, u8. change 255 with (Z.ones 8). rewrite Z.land_ones by lia.
  apply Z.mod_pos_bound. lia.
Qed.

Lemma u8_small v : is_octet v → u8 v = v.
Proof.
  intros Hv. unfold u8. change 255 with (Z.ones 8). rewrite Z.land_ones by lia.
  by apply Z.mod_small.
Qed.

Lemma i32_small v : -2147483648 ≤ v < 2147483648 → i32 v = v.
Proof. intros Hv. unfold i32. rewrite Z.mod_small; lia. Qed.

(** reads a field of an [octet]: the other fields vanish, the field itself is
    left with its bound as the goal *)
Ltac octet_bits :=
  unfold octet; cbn [foldr];
  repeat rewrite bits_lor; rewrite ?bits_0;
  repeat first [ rewrite bits_other by lia
               | rewrite bits_same by first [ lia | split; vm_compute; congruence ] ];
  rewrite ?Z.lor_0_l, ?Z.lor_0_r.

(** reads of the octets of a buffer: [*(__u8 * )(buf + i)] *)
Definition oct (buf : list Z) (i : nat) : outcome Z :=
  match buf !! i with Some b => Done b | None => Fault OutOfBounds end.

(** [memcpy(dst, buf + i, n)] of a buffer into an array of [size] octets *)
Definition memcpy_from (buf : list Z) (i n size : Z) : outcome (list Z) :=
  if (n <? 0) || (size <? n) || (Z.of_nat (length buf) <? i + n) then Fault OutOfBounds
  else Done (take (Z.to_nat n) (drop (Z.to_nat i) buf)).

(** the characters of an array up to its first NUL: [strlen], [strcpy] *)
Fixpoint c_str (s : list Z) : list Z :=
  match s with
  | [] => []
  | ch :: s' => if ch =? 0 then [] else ch :: c_str s'
  end.

Lemma c_str_id s : Forall (λ ch, ch ≠ 0) s → c_str s = s.
Proof.
  induction 1 as [|ch s Hc Hs IH]; cbn; [done|].
  destruct (Z.eqb_spec ch 0); [done|]. by rewrite IH.
Qed.

Lemma memcpy_from_app a b c n :
  n = Z.of_nat (length b) →
  ∀ i size, i = Z.of_nat (length a) → n ≤ size →
  memcpy_from (a ++ b ++ c) i n size = Done b.
Proof.
  intros -> i size -> Hsize. unfold memcpy_from. rewrite !length_app.
  destruct (Z.ltb_spec (Z.of_nat (length b)) 0); [lia|].
  destruct (Z.ltb_spec size (Z.of_nat (length b))); [lia|].
  match goal with |- context [?x <? ?y] => destruct (Z.ltb_spec x y); [lia|] end. cbn.
  rewrite !Nat2Z.id. by rewrite drop_app_length, take_app_length.
Qed.

(** the two headers the numbers have in front of their digits *)
Lemma memcpy_from_1 x b c n size :
  n = Z.of_nat (length b) → n ≤ size → memcpy_from (x :: b ++ c) 1 n size = Done b.
Proof. intros Hn Hs. by apply (memcpy_from_app [x]). Qed.

Lemma memcpy_from_2 x y b c n size :
  n = Z.of_nat (length b) → n ≤ size → memcpy_from (x :: y :: b ++ c) 2 n size = Done b.
Proof. intros Hn Hs. by apply (memcpy_from_app [x; y]). Qed.

(** ** Error numbers of the kernel interface *)

Definition EPERM : Z := 1.
Definition EWOULDBLOCK : Z := 11.
Definition ENODEV : Z := 19.
Definition EINVAL : Z := 22.
Definition ENOSPC : Z := 28.
Definition EPIPE : Z := 32.
Definition EMSGSIZE : Z := 90.
Definition ENOPROTOOPT : Z := 92.
Definition ENETDOWN : Z := 100.
Definition ECONNRESET : Z := 104.
Definition EISCONN : Z := 106.
Definition ENOTCONN : Z := 107.
Definition EALREADY : Z := 114.
