(* ===== verification/Q931Defs.v ===== *)
(** * The data of libq931

    The enumerations, information elements (IEs) and containers the rest of
    the library is written with: [libq931/call.h], [ces.h], [channel.h],
    [ccb.h], [msgtype.h], [chanset.c], [ies.c] and the structures of the
    [ie_*.h] headers.  Enumerators whose numeric value matters are [Z]
    constants; the others are constructors. *)

From stdpp Require Import base list gmap functions.
From Stdlib Require Import ZArith Lia.
From S2P Require Import Prelude.
Local Open Scope Z_scope.

(** ** Enumerations *)

Inductive q931_call_direction : Set :=
| Q931_CALL_DIRECTION_OUTBOUND
| Q931_CALL_DIRECTION_INBOUND.

Inductive q931_call_state : Set :=
| U0_NULL_STATE
| U1_CALL_INITIATED
| U2_OVERLAP_SENDING
| U3_OUTGOING_CALL_PROCEEDING
| U4_CALL_DELIVERED
| U6_CALL_PRESENT
| U7_CALL_RECEIVED
| U8_CONNECT_REQUEST
| U9_INCOMING_CALL_PROCEEDING
| U10_ACTIVE
| U11_DISCONNECT_REQUEST
| U12_DISCONNECT_INDICATION
| U15_SUSPEND_REQUEST
| U17_RESUME_REQUEST
| U19_RELEASE_REQUEST
| U25_OVERLAP_RECEIVING
| N0_NULL_STATE
| N1_CALL_INITIATED
| N2_OVERLAP_SENDING
| N3_OUTGOING_CALL_PROCEEDING
| N4_CALL_DELIVERED
| N6_CALL_PRESENT
| N7_CALL_RECEIVED
| N8_CONNECT_REQUEST
| N9_INCOMING_CALL_PROCEEDING
| N10_ACTIVE
| N11_DISCONNECT_REQUEST
| N12_DISCONNECT_INDICATION
| N15_SUSPEND_REQUEST
| N17_RESUME_REQUEST
| N19_RELEASE_REQUEST
| N22_CALL_ABORT
| N25_OVERLAP_RECEIVING.

(** The integer a state is in C: its position in the enumeration. *)
Definition q931_call_state_int (s : q931_call_state) : Z :=
  match s with
  | U0_NULL_STATE => 0 | U1_CALL_INITIATED => 1 | U2_OVERLAP_SENDING => 2
  | U3_OUTGOING_CALL_PROCEEDING => 3 | U4_CALL_DELIVERED => 4
  | U6_CALL_PRESENT => 5 | U7_CALL_RECEIVED => 6 | U8_CONNECT_REQUEST => 7
  | U9_INCOMING_CALL_PROCEEDING => 8 | U10_ACTIVE => 9
  | U11_DISCONNECT_REQUEST => 10 | U12_DISCONNECT_INDICATION => 11
  | U15_SUSPEND_REQUEST => 12 | U17_RESUME_REQUEST => 13
  | U19_RELEASE_REQUEST => 14 | U25_OVERLAP_RECEIVING => 15
  | N0_NULL_STATE => 16 | N1_CALL_INITIATED => 17 | N2_OVERLAP_SENDING => 18
  | N3_OUTGOING_CALL_PROCEEDING => 19 | N4_CALL_DELIVERED => 20
  | N6_CALL_PRESENT => 21 | N7_CALL_RECEIVED => 22 | N8_CONNECT_REQUEST => 23
  | N9_INCOMING_CALL_PROCEEDING => 24 | N10_ACTIVE => 25
  | N11_DISCONNECT_REQUEST => 26 | N12_DISCONNECT_INDICATION => 27
  | N15_SUSPEND_REQUEST => 28 | N17_RESUME_REQUEST => 29
  | N19_RELEASE_REQUEST => 30 | N22_CALL_ABORT => 31
  | N25_OVERLAP_RECEIVING => 32
  end.

Inductive q931_ces_state : Set :=
| I0_NULL_STATE
| I7_CALL_RECEIVED
| I8_CONNECT_REQUEST
| I9_INCOMING_CALL_PROCEEDING
| I19_RELEASE_REQUEST
| I25_OVERLAP_RECEIVING.

Definition q931_ces_state_int (s : q931_ces_state) : Z :=
  match s with
  | I0_NULL_STATE => 0 | I7_CALL_RECEIVED => 1 | I8_CONNECT_REQUEST => 2
  | I9_INCOMING_CALL_PROCEEDING => 3 | I19_RELEASE_REQUEST => 4
  | I25_OVERLAP_RECEIVING => 5
  end.

Inductive q931_channel_state : Set :=
| Q931_CHANSTATE_MAINTAINANCE
| Q931_CHANSTATE_AVAILABLE
| Q931_CHANSTATE_SELECTED
| Q931_CHANSTATE_CONNECTED
| Q931_CHANSTATE_DISCONNECTED
| Q931_CHANSTATE_LEASED.

Inductive q931_tone_type : Set :=
| Q931_TONE_DIAL
| Q931_TONE_BUSY
| Q931_TONE_HANGUP
| Q931_TONE_FAILURE.

Inductive q931_global_state : Set :=
| Q931_GLOBAL_STATE_NULL
| Q931_GLOBAL_STATE_RESTART_REQUEST
| Q931_GLOBAL_STATE_RESTART.

Inductive q931_dlc_status : Set :=
| Q931_DLC_STATUS_DISCONNECTED
| Q931_DLC_STATUS_AWAITING_CONNECTION
| Q931_DLC_STATUS_AWAITING_DISCONNECTION
| Q931_DLC_STATUS_CONNECTED.

Inductive q931_interface_network_role : Set :=
| Q931_INTF_NET_USER
| Q931_INTF_NET_PRIVATE
| Q931_INTF_NET_LOCAL
| Q931_INTF_NET_TRANSIT
| Q931_INTF_NET_INTERNATIONAL.

Inductive lapd_intf_type : Set := LAPD_INTF_TYPE_BRA | LAPD_INTF_TYPE_PRA.
Inductive lapd_intf_mode : Set :=
| LAPD_INTF_MODE_POINT_TO_POINT | LAPD_INTF_MODE_MULTIPOINT.
Inductive lapd_intf_role : Set := LAPD_INTF_ROLE_TE | LAPD_INTF_ROLE_NT.

Inductive q931_callref_flag : Set :=
| Q931_CALLREF_FLAG_FROM_ORIGINATING_SIDE
| Q931_CALLREF_FLAG_TO_ORIGINATING_SIDE.

Inductive q931_setup_confirm_status : Set :=
| Q931_SETUP_CONFIRM_OK | Q931_SETUP_CONFIRM_ERROR.
Inductive q931_setup_complete_indication_status : Set :=
| Q931_SETUP_COMPLETE_INDICATION_OK | Q931_SETUP_COMPLETE_INDICATION_ERROR.
Inductive q931_suspend_confirm_status : Set :=
| Q931_SUSPEND_CONFIRM_OK | Q931_SUSPEND_CONFIRM_ERROR
| Q931_SUSPEND_CONFIRM_TIMEOUT.
Inductive q931_release_confirm_status : Set :=
| Q931_RELEASE_CONFIRM_OK | Q931_RELEASE_CONFIRM_ERROR.
Inductive q931_resume_confirm_status : Set :=
| Q931_RESUME_CONFIRM_OK | Q931_RESUME_CONFIRM_ERROR
| Q931_RESUME_CONFIRM_TIMEOUT.
Inductive q931_status_indication_status : Set :=
| Q931_STATUS_INDICATION_OK | Q931_STATUS_INDICATION_ERROR.

(** The primitives the library passes to the call control block, the statuses
    it passes as [par1] being arguments of the constructor. *)
Inductive q931_primitive : Set :=
| Q931_CCB_ALERTING_INDICATION
| Q931_CCB_CONNECT_INDICATION
| Q931_CCB_DISCONNECT_INDICATION
| Q931_CCB_INFO_INDICATION
| Q931_CCB_MORE_INFO_INDICATION
| Q931_CCB_NOTIFY_INDICATION
| Q931_CCB_PROCEEDING_INDICATION
| Q931_CCB_PROGRESS_INDICATION
| Q931_CCB_REJECT_INDICATION
| Q931_CCB_RELEASE_CONFIRM (st : q931_release_confirm_status)
| Q931_CCB_RELEASE_INDICATION
| Q931_CCB_RESUME_CONFIRM (st : q931_resume_confirm_status)
| Q931_CCB_RESUME_INDICATION
| Q931_CCB_SETUP_CONFIRM (st : q931_setup_confirm_status)
| Q931_CCB_SETUP_COMPLETE_INDICATION (st : q931_setup_complete_indication_status)
| Q931_CCB_SETUP_INDICATION
| Q931_CCB_STATUS_INDICATION (st : q931_status_indication_status)
| Q931_CCB_SUSPEND_CONFIRM (st : q931_suspend_confirm_status)
| Q931_CCB_SUSPEND_INDICATION
| Q931_CCB_TIMEOUT_MANAGEMENT_INDICATION
| Q931_CCB_STATUS_MANAGEMENT_INDICATION
| Q931_CCB_MANAGEMENT_RESTART_CONFIRM (chans : option (list nat))
| Q931_CCB_CONNECT_CHANNEL (chan : nat)
| Q931_CCB_DISCONNECT_CHANNEL (chan : nat)
| Q931_CCB_START_TONE (chan : nat) (tone : q931_tone_type)
| Q931_CCB_STOP_TONE (chan : nat).

#[export] Instance q931_call_direction_eq_dec : EqDecision q931_call_direction.
Proof. solve_decision. Defined.
#[export] Instance q931_ces_state_eq_dec : EqDecision q931_ces_state.
Proof. solve_decision. Defined.
#[export] Instance q931_channel_state_eq_dec : EqDecision q931_channel_state.
Proof. solve_decision. Defined.
#[export] Instance q931_tone_type_eq_dec : EqDecision q931_tone_type.
Proof. solve_decision. Defined.
#[export] Instance q931_global_state_eq_dec : EqDecision q931_global_state.
Proof. solve_decision. Defined.
#[export] Instance q931_dlc_status_eq_dec : EqDecision q931_dlc_status.
Proof. solve_decision. Defined.
#[export] Instance q931_network_role_eq_dec : EqDecision q931_interface_network_role.
Proof. solve_decision. Defined.
#[export] Instance lapd_intf_type_eq_dec : EqDecision lapd_intf_type.
Proof. solve_decision. Defined.
#[export] Instance lapd_intf_mode_eq_dec : EqDecision lapd_intf_mode.
Proof. solve_decision. Defined.
#[export] Instance lapd_intf_role_eq_dec : EqDecision lapd_intf_role.
Proof. solve_decision. Defined.
#[export] Instance q931_callref_flag_eq_dec : EqDecision q931_callref_flag.
Proof. solve_decision. Defined.

Lemma q931_call_state_int_inj s t :
  q931_call_state_int s = q931_call_state_int t → s = t.
Proof. by destruct s, t. Qed.

#[export] Instance q931_call_state_eq_dec : EqDecision q931_call_state.
Proof.
  refine (λ s t, cast_if (decide (q931_call_state_int s = q931_call_state_int t))).
  - by apply q931_call_state_int_inj.
  - by intros ->.
Defined.

(** ** Message types *)

Definition Q931_MT_ALERTING := 0x01.
Definition Q931_MT_CALL_PROCEEDING := 0x02.
Definition Q931_MT_CONNECT := 0x07.
Definition Q931_MT_CONNECT_ACKNOWLEDGE := 0x0f.
Definition Q931_MT_PROGRESS := 0x03.
Definition Q931_MT_SETUP := 0x05.
Definition Q931_MT_SETUP_ACKNOWLEDGE := 0x0d.
Definition Q931_MT_DISCONNECT := 0x45.
Definition Q931_MT_RELEASE := 0x4d.
Definition Q931_MT_RELEASE_COMPLETE := 0x5a.
Definition Q931_MT_RESTART := 0x46.
Definition Q931_MT_RESTART_ACKNOWLEDGE := 0x4e.
Definition Q931_MT_STATUS := 0x7d.
Definition Q931_MT_STATUS_ENQUIRY := 0x75.
Definition Q931_MT_USER_INFORMATION := 0x20.
Definition Q931_MT_SEGMENT := 0x60.
Definition Q931_MT_CONGESTION_CONTROL := 0x79.
Definition Q931_MT_INFORMATION := 0x7b.
Definition Q931_MT_FACILITY := 0x62.
Definition Q931_MT_REGISTER := 0x64.
Definition Q931_MT_NOTIFY := 0x6e.
Definition Q931_MT_HOLD := 0x24.
Definition Q931_MT_HOLD_ACKNOWLEDGE := 0x28.
Definition Q931_MT_HOLD_REJECT := 0x30.
Definition Q931_MT_RETRIEVE := 0x31.
Definition Q931_MT_RETRIEVE_ACKNOWLEDGE := 0x33.
Definition Q931_MT_RETRIEVE_REJECT := 0x37.
Definition Q931_MT_RESUME := 0x26.
Definition Q931_MT_RESUME_ACKNOWLEDGE := 0x2e.
Definition Q931_MT_RESUME_REJECT := 0x22.
Definition Q931_MT_SUSPEND := 0x25.
Definition Q931_MT_SUSPEND_ACKNOWLEDGE := 0x2d.
Definition Q931_MT_SUSPEND_REJECT := 0x21.

(** ** Information elements

    One record per [struct q931_ie_*]; the fields are the numbers the C
    enumerations and bit fields hold.  A [char] array is the list of the bytes
    stored in it, a channel pointer is the index of the channel in
    [intf->channels].  The reference counts of IEs are not modelled: a set
    holds values.  Where the code writes to an element it has added, or uses one
    it has released, the definition concerned says what is done instead. *)

Record q931_ie_cause := {
  c_coding_standard : Z;
  c_location : Z;
  c_value : Z;
  c_recommendation : Z;
  c_diagnostics : list Z;
}.

Record q931_ie_call_state := {
  cs_coding_standard : Z;
  cs_value : Z;
}.

Record q931_ie_channel_identification := {
  ci_interface_id_present : Z;
  ci_interface_type : Z;
  ci_preferred_exclusive : Z;
  ci_d_channel_indicator : Z;
  ci_coding_standard : Z;
  ci_any_channel : bool;
  ci_chanset : list nat;
}.

Record q931_ie_progress_indicator := {
  pi_coding_standard : Z;
  pi_location : Z;
  pi_progress_description : Z;
}.

Record q931_ie_bearer_capability := {
  bc_coding_standard : Z;
  bc_information_transfer_capability : Z;
  bc_transfer_mode : Z;
  bc_information_transfer_rate : Z;
  bc_user_information_layer_1_protocol : Z;
  bc_user_information_layer_2_protocol : Z;
  bc_user_information_layer_3_protocol : Z;
}.

Record q931_ie_high_layer_compatibility := {
  hlc_coding_standard : Z;
  hlc_interpretation : Z;
  hlc_presentation_method : Z;
  hlc_characteristics_identification : Z;
  hlc_extended_characteristics_identification : Z;
}.

Record q931_ie_called_party_number := {
  cdpn_type_of_number : Z;
  cdpn_numbering_plan_identificator : Z;
  cdpn_number : list Z;
}.

Record q931_ie_calling_party_number := {
  cgpn_type_of_number : Z;
  cgpn_numbering_plan_identificator : Z;
  cgpn_presentation_indicator : Z;
  cgpn_screening_indicator : Z;
  cgpn_number : list Z;
}.

Inductive q931_ie : Type :=
| IE_SENDING_COMPLETE
| IE_BEARER_CAPABILITY (bc : q931_ie_bearer_capability)
| IE_CAUSE (c : q931_ie_cause)
| IE_CALL_IDENTITY (data : list Z)
| IE_CALL_STATE (cs : q931_ie_call_state)
| IE_CHANNEL_IDENTIFICATION (ci : q931_ie_channel_identification)
| IE_PROGRESS_INDICATOR (pi : q931_ie_progress_indicator)
| IE_NOTIFICATION_INDICATOR (description : Z)
| IE_DISPLAY (text : list Z)
| IE_DATETIME (time : Z)
| IE_CONNECTED_NUMBER (cn : q931_ie_calling_party_number)
| IE_CALLING_PARTY_NUMBER (cgpn : q931_ie_calling_party_number)
| IE_CALLED_PARTY_NUMBER (cdpn : q931_ie_called_party_number)
| IE_RESTART_INDICATOR (restart_class : Z)
| IE_LOW_LAYER_COMPATIBILITY (llc : q931_ie_bearer_capability)
| IE_HIGH_LAYER_COMPATIBILITY (hlc : q931_ie_high_layer_compatibility).

Definition Q931_IE_SHIFT := 0x90.
Definition Q931_IE_CONGESTION_LEVEL := 0xb0.
Definition Q931_IE_MORE_DATA := 0xa0.
Definition Q931_IE_SENDING_COMPLETE := 0xa1.
Definition Q931_IE_REPEAT_INDICATOR := 0xd0.
Definition Q931_IE_SEGMENTED_MESSAGE := 0x00.
Definition Q931_IE_CHANGE_STATUS := 0x01.
Definition Q931_IE_SPECIAL := 0x02.
Definition Q931_IE_CONNECTED_ADDRESS := 0x0c.
Definition Q931_IE_EXTENDED_FACILITY := 0x0d.
Definition Q931_IE_BEARER_CAPABILITY := 0x04.
Definition Q931_IE_CAUSE := 0x08.
Definition Q931_IE_CALL_IDENTITY := 0x10.
Definition Q931_IE_CALL_STATE := 0x14.
Definition Q931_IE_CHANNEL_IDENTIFICATION := 0x18.
Definition Q931_IE_FACILITY := 0x1c.
Definition Q931_IE_PROGRESS_INDICATOR := 0x1e.
Definition Q931_IE_NETWORK_SPECIFIC_FACILITIES := 0x20.
Definition Q931_IE_ENDPOINT_ID := 0x26.
Definition Q931_IE_NOTIFICATION_INDICATOR := 0x27.
Definition Q931_IE_DISPLAY := 0x28.
Definition Q931_IE_DATETIME := 0x29.
Definition Q931_IE_KEYPAD_FACILITY := 0x2c.
Definition Q931_IE_CALL_STATUS := 0x2d.
Definition Q931_IE_UPDATE := 0x31.
Definition Q931_IE_INFO_REQUEST := 0x32.
Definition Q931_IE_SIGNAL := 0x34.
Definition Q931_IE_SWITCHHOOK := 0x36.
Definition Q931_IE_FEATURE_ACTIVATION := 0x38.
Definition Q931_IE_FEATURE_INDICATION := 0x39.
Definition Q931_IE_INFORMATION_RATE := 0x40.
Definition Q931_IE_END_TO_END_TRANSIT_DELAY := 0x42.
Definition Q931_IE_TRANSIT_DELAY_SELECTION_AND_INDICATION := 0x43.
Definition Q931_IE_PACKET_LAYER_BINARY_PARAMETERS := 0x44.
Definition Q931_IE_PACKET_LAYER_WINDOW_SIZE := 0x45.
Definition Q931_IE_PACKET_SIZE := 0x46.
Definition Q931_IE_CLOSED_USER_GROUP := 0x47.
Definition Q931_IE_REVERSE_CHARGE_INDICATION := 0x4a.
Definition Q931_IE_CONNECTED_NUMBER := 0x4c.
Definition Q931_IE_CALLING_PARTY_NUMBER := 0x6c.
Definition Q931_IE_CALLING_PARTY_SUBADDRESS := 0x6d.
Definition Q931_IE_CALLED_PARTY_NUMBER := 0x70.
Definition Q931_IE_CALLED_PARTY_SUBADDRESS := 0x71.
Definition Q931_IE_ORIGINAL_CALLED_NUMBER := 0x73.
Definition Q931_IE_REDIRECTING_NUMBER := 0x74.
Definition Q931_IE_REDIRECTING_SUBADDRESS := 0x75.
Definition Q931_IE_REDIRECTION_NUMBER := 0x76.
Definition Q931_IE_REDIRECTION_SUBADDRESS := 0x77.
Definition Q931_IE_TRANSIT_NETWORK_SELECTION := 0x78.
Definition Q931_IE_RESTART_INDICATOR := 0x79.
Definition Q931_IE_USER_USER_FACILITY := 0x7a.
Definition Q931_IE_LOW_LAYER_COMPATIBILITY := 0x7c.
Definition Q931_IE_USER_USER := 0x7e.
Definition Q931_IE_HIGH_LAYER_COMPATIBILITY := 0x7d.
Definition Q931_IE_ESCAPE_FOR_EXTENSION := 0x7f.

(** [ie->cls->id] *)
Definition ie_id (ie : q931_ie) : Z :=
  match ie with
  | IE_SENDING_COMPLETE => Q931_IE_SENDING_COMPLETE
  | IE_BEARER_CAPABILITY _ => Q931_IE_BEARER_CAPABILITY
  | IE_CAUSE _ => Q931_IE_CAUSE
  | IE_CALL_IDENTITY _ => Q931_IE_CALL_IDENTITY
  | IE_CALL_STATE _ => Q931_IE_CALL_STATE
  | IE_CHANNEL_IDENTIFICATION _ => Q931_IE_CHANNEL_IDENTIFICATION
  | IE_PROGRESS_INDICATOR _ => Q931_IE_PROGRESS_INDICATOR
  | IE_NOTIFICATION_INDICATOR _ => Q931_IE_NOTIFICATION_INDICATOR
  | IE_DISPLAY _ => Q931_IE_DISPLAY
  | IE_DATETIME _ => Q931_IE_DATETIME
  | IE_CONNECTED_NUMBER _ => Q931_IE_CONNECTED_NUMBER
  | IE_CALLING_PARTY_NUMBER _ => Q931_IE_CALLING_PARTY_NUMBER
  | IE_CALLED_PARTY_NUMBER _ => Q931_IE_CALLED_PARTY_NUMBER
  | IE_RESTART_INDICATOR _ => Q931_IE_RESTART_INDICATOR
  | IE_LOW_LAYER_COMPATIBILITY _ => Q931_IE_LOW_LAYER_COMPATIBILITY
  | IE_HIGH_LAYER_COMPATIBILITY _ => Q931_IE_HIGH_LAYER_COMPATIBILITY
  end.

(** [cause->value] when the IE is a cause *)
Definition ie_cause_value (ie : q931_ie) : option Z :=
  match ie with IE_CAUSE c => Some (c_value c) | _ => None end.

(** ** Channels and the interface record *)

Record q931_channel := {
  ch_id : Z;
  ch_state : q931_channel_state;
  ch_call : option nat;   (** [call], a reference to a call or NULL *)
  ch_intf : bool;         (** [intf] has been set by [q931_channel_init] *)
}.

(** [struct q931_timer]; the function and its argument are the identity of the
    timer. *)
Record q931_timer := {
  t_pending : bool;
  t_expires : Z;
}.
