(* ===== verification/Q931Tables.v ===== *)
(** * The tables of [ie.c]: the classes of the information elements and their use

    [q931_ie_classes] and [q931_ie_usages], entry by entry and in the order of
    the source, with the two look-up functions and the octet classification of
    [ie.h].  The functions of a class are represented by whether it has them:
    the codecs themselves are in [Q931IE]. *)

From stdpp Require Import base list.
From Stdlib Require Import ZArith Lia.
From S2P Require Import Prelude.
From S2P Require Import Q931Defs.
Local Open Scope Z_scope.

Inductive q931_ie_type : Set := Q931_IE_TYPE_SO | Q931_IE_TYPE_VL.

#[export] Instance q931_ie_type_eq_dec : EqDecision q931_ie_type.
Proof. solve_decision. Defined.

Definition Q931_NT_UNKNOWN := 0.
Definition Q931_NT_ETSI := 1.

Record q931_ie_class := ie_class_mk {
  cls_type : q931_ie_type;
  cls_max_len : Z;
  cls_max_occur : Z;
  cls_network_type : Z;
  cls_codeset : Z;
  cls_id : Z;
  cls_read_from_buf : bool;  (** [alloc], [read_from_buf] and [write_to_buf] are set *)
}.

Inductive q931_ie_direction : Set := Q931_IE_DIR_N_TO_U | Q931_IE_DIR_U_TO_N | Q931_IE_DIR_BOTH.
Inductive q931_ie_presence : Set := Q931_IE_OPTIONAL | Q931_IE_MANDATORY.

#[export] Instance q931_ie_direction_eq_dec : EqDecision q931_ie_direction.
Proof. solve_decision. Defined.
#[export] Instance q931_ie_presence_eq_dec : EqDecision q931_ie_presence.
Proof. solve_decision. Defined.

Record q931_ie_usage := ie_usage_mk {
  use_message_type : Z;
  use_codeset : Z;
  use_ie_id : Z;
  use_direction : q931_ie_direction;
  use_presence : q931_ie_presence;
}.

Definition q931_ie_classes_0 : list q931_ie_class := [
  ie_class_mk Q931_IE_TYPE_SO 1 1 Q931_NT_ETSI 0 Q931_IE_SHIFT false;
  ie_class_mk Q931_IE_TYPE_SO 1 1 Q931_NT_ETSI 0 Q931_IE_MORE_DATA false;
  ie_class_mk Q931_IE_TYPE_SO 1 1 Q931_NT_ETSI 0 Q931_IE_SENDING_COMPLETE true;
  ie_class_mk Q931_IE_TYPE_SO 1 1 Q931_NT_ETSI 0 Q931_IE_CONGESTION_LEVEL false;
  ie_class_mk Q931_IE_TYPE_SO 1 1 Q931_NT_UNKNOWN 0 Q931_IE_REPEAT_INDICATOR false;
  ie_class_mk Q931_IE_TYPE_VL 4 1 Q931_NT_ETSI 0 Q931_IE_SEGMENTED_MESSAGE false;
  ie_class_mk Q931_IE_TYPE_VL 2147483647 1 Q931_NT_UNKNOWN 0 Q931_IE_CHANGE_STATUS false;
  ie_class_mk Q931_IE_TYPE_VL 2147483647 1 Q931_NT_UNKNOWN 0 Q931_IE_SPECIAL false;
  ie_class_mk Q931_IE_TYPE_VL 2147483647 1 Q931_NT_UNKNOWN 0 Q931_IE_CONNECTED_ADDRESS false;
  ie_class_mk Q931_IE_TYPE_VL 2147483647 2147483647 Q931_NT_ETSI 0 Q931_IE_EXTENDED_FACILITY false;
  ie_class_mk Q931_IE_TYPE_VL 12 1 Q931_NT_ETSI 0 Q931_IE_BEARER_CAPABILITY true;
  ie_class_mk Q931_IE_TYPE_VL 32 1 Q931_NT_ETSI 0 Q931_IE_CAUSE true;
  ie_class_mk Q931_IE_TYPE_VL 10 1 Q931_NT_ETSI 0 Q931_IE_CALL_IDENTITY true
].

Definition q931_ie_classes_1 : list q931_ie_class := [
  ie_class_mk Q931_IE_TYPE_VL 3 1 Q931_NT_ETSI 0 Q931_IE_CALL_STATE true;
  ie_class_mk Q931_IE_TYPE_VL 2147483647 2147483647 Q931_NT_ETSI 0 Q931_IE_CHANNEL_IDENTIFICATION true;
  ie_class_mk Q931_IE_TYPE_VL 2147483647 2147483647 Q931_NT_ETSI 0 Q931_IE_FACILITY false;
  ie_class_mk Q931_IE_TYPE_VL 4 2 Q931_NT_ETSI 0 Q931_IE_PROGRESS_INDICATOR true;
  ie_class_mk Q931_IE_TYPE_VL 2147483647 4 Q931_NT_ETSI 0 Q931_IE_NETWORK_SPECIFIC_FACILITIES false;
  ie_class_mk Q931_IE_TYPE_VL 2147483647 1 Q931_NT_UNKNOWN 0 Q931_IE_ENDPOINT_ID false;
  ie_class_mk Q931_IE_TYPE_VL 3 1 Q931_NT_ETSI 0 Q931_IE_NOTIFICATION_INDICATOR true;
  ie_class_mk Q931_IE_TYPE_VL 82 1 Q931_NT_ETSI 0 Q931_IE_DISPLAY true;
  ie_class_mk Q931_IE_TYPE_VL 8 1 Q931_NT_ETSI 0 Q931_IE_DATETIME true;
  ie_class_mk Q931_IE_TYPE_VL 34 1 Q931_NT_ETSI 0 Q931_IE_KEYPAD_FACILITY false;
  ie_class_mk Q931_IE_TYPE_VL 2147483647 1 Q931_NT_UNKNOWN 0 Q931_IE_CALL_STATUS false;
  ie_class_mk Q931_IE_TYPE_VL 2147483647 1 Q931_NT_UNKNOWN 0 Q931_IE_UPDATE false;
  ie_class_mk Q931_IE_TYPE_VL 2147483647 1 Q931_NT_UNKNOWN 0 Q931_IE_INFO_REQUEST false
].

Definition q931_ie_classes_2 : list q931_ie_class := [
  ie_class_mk Q931_IE_TYPE_VL 3 1 Q931_NT_ETSI 0 Q931_IE_SIGNAL false;
  ie_class_mk Q931_IE_TYPE_VL 3 1 Q931_NT_UNKNOWN 0 Q931_IE_SWITCHHOOK false;
  ie_class_mk Q931_IE_TYPE_VL 4 1 Q931_NT_UNKNOWN 0 Q931_IE_FEATURE_ACTIVATION false;
  ie_class_mk Q931_IE_TYPE_VL 5 1 Q931_NT_UNKNOWN 0 Q931_IE_FEATURE_INDICATION false;
  ie_class_mk Q931_IE_TYPE_VL 6 1 Q931_NT_ETSI 0 Q931_IE_INFORMATION_RATE false;
  ie_class_mk Q931_IE_TYPE_VL 11 1 Q931_NT_ETSI 0 Q931_IE_END_TO_END_TRANSIT_DELAY false;
  ie_class_mk Q931_IE_TYPE_VL 5 1 Q931_NT_ETSI 0 Q931_IE_TRANSIT_DELAY_SELECTION_AND_INDICATION false;
  ie_class_mk Q931_IE_TYPE_VL 3 1 Q931_NT_ETSI 0 Q931_IE_PACKET_LAYER_BINARY_PARAMETERS false;
  ie_class_mk Q931_IE_TYPE_VL 4 1 Q931_NT_ETSI 0 Q931_IE_PACKET_LAYER_WINDOW_SIZE false;
  ie_class_mk Q931_IE_TYPE_VL 4 1 Q931_NT_ETSI 0 Q931_IE_PACKET_SIZE false;
  ie_class_mk Q931_IE_TYPE_VL 2147483647 1 Q931_NT_UNKNOWN 0 Q931_IE_CLOSED_USER_GROUP false;
  ie_class_mk Q931_IE_TYPE_VL 2147483647 1 Q931_NT_UNKNOWN 0 Q931_IE_REVERSE_CHARGE_INDICATION false;
  ie_class_mk Q931_IE_TYPE_VL 2147483647 1 Q931_NT_UNKNOWN 0 Q931_IE_CONNECTED_NUMBER true;
  ie_class_mk Q931_IE_TYPE_VL 24 1 Q931_NT_ETSI 0 Q931_IE_CALLING_PARTY_NUMBER true;
  ie_class_mk Q931_IE_TYPE_VL 23 1 Q931_NT_ETSI 0 Q931_IE_CALLING_PARTY_SUBADDRESS false
].

Definition q931_ie_classes_3 : list q931_ie_class := [
  ie_class_mk Q931_IE_TYPE_VL 23 1 Q931_NT_ETSI 0 Q931_IE_CALLED_PARTY_NUMBER true;
  ie_class_mk Q931_IE_TYPE_VL 23 1 Q931_NT_ETSI 0 Q931_IE_CALLED_PARTY_SUBADDRESS false;
  ie_class_mk Q931_IE_TYPE_VL 2147483647 1 Q931_NT_UNKNOWN 0 Q931_IE_ORIGINAL_CALLED_NUMBER false;
  ie_class_mk Q931_IE_TYPE_VL 2147483647 1 Q931_NT_ETSI 0 Q931_IE_REDIRECTING_NUMBER false;
  ie_class_mk Q931_IE_TYPE_VL 2147483647 1 Q931_NT_UNKNOWN 0 Q931_IE_REDIRECTING_SUBADDRESS false;
  ie_class_mk Q931_IE_TYPE_VL 2147483647 1 Q931_NT_UNKNOWN 0 Q931_IE_REDIRECTION_NUMBER false;
  ie_class_mk Q931_IE_TYPE_VL 2147483647 1 Q931_NT_UNKNOWN 0 Q931_IE_REDIRECTION_SUBADDRESS false;
  ie_class_mk Q931_IE_TYPE_VL 2147483647 1 Q931_NT_ETSI 0 Q931_IE_TRANSIT_NETWORK_SELECTION false;
  ie_class_mk Q931_IE_TYPE_VL 3 1 Q931_NT_ETSI 0 Q931_IE_RESTART_INDICATOR true;
  ie_class_mk Q931_IE_TYPE_VL 2147483647 2147483647 Q931_NT_UNKNOWN 0 Q931_IE_USER_USER_FACILITY false;
  ie_class_mk Q931_IE_TYPE_VL 16 1 Q931_NT_ETSI 0 Q931_IE_LOW_LAYER_COMPATIBILITY true;
  ie_class_mk Q931_IE_TYPE_VL 5 1 Q931_NT_ETSI 0 Q931_IE_HIGH_LAYER_COMPATIBILITY true;
  ie_class_mk Q931_IE_TYPE_VL 131 1 Q931_NT_ETSI 0 Q931_IE_USER_USER false;
  ie_class_mk Q931_IE_TYPE_VL 2147483647 1 Q931_NT_UNKNOWN 0 Q931_IE_ESCAPE_FOR_EXTENSION false
].

Definition q931_ie_classes : list q931_ie_class :=
  q931_ie_classes_0 ++ q931_ie_classes_1 ++ q931_ie_classes_2 ++ q931_ie_classes_3.

Definition q931_ie_usages_alerting : list q931_ie_usage := [
  ie_usage_mk Q931_MT_ALERTING 0 Q931_IE_BEARER_CAPABILITY Q931_IE_DIR_BOTH Q931_IE_OPTIONAL;
  ie_usage_mk Q931_MT_ALERTING 0 Q931_IE_CHANNEL_IDENTIFICATION Q931_IE_DIR_BOTH Q931_IE_OPTIONAL;
  ie_usage_mk Q931_MT_ALERTING 0 Q931_IE_FACILITY Q931_IE_DIR_BOTH Q931_IE_OPTIONAL;
  ie_usage_mk Q931_MT_ALERTING 0 Q931_IE_EXTENDED_FACILITY Q931_IE_DIR_BOTH Q931_IE_OPTIONAL;
  ie_usage_mk Q931_MT_ALERTING 0 Q931_IE_PROGRESS_INDICATOR Q931_IE_DIR_BOTH Q931_IE_OPTIONAL;
  ie_usage_mk Q931_MT_ALERTING 0 Q931_IE_DISPLAY Q931_IE_DIR_N_TO_U Q931_IE_OPTIONAL;
  ie_usage_mk Q931_MT_ALERTING 0 Q931_IE_USER_USER Q931_IE_DIR_BOTH Q931_IE_OPTIONAL
].

Definition q931_ie_usages_call_proceeding : list q931_ie_usage := [
  ie_usage_mk Q931_MT_CALL_PROCEEDING 0 Q931_IE_BEARER_CAPABILITY Q931_IE_DIR_BOTH Q931_IE_OPTIONAL;
  ie_usage_mk Q931_MT_CALL_PROCEEDING 0 Q931_IE_CHANNEL_IDENTIFICATION Q931_IE_DIR_BOTH Q931_IE_OPTIONAL;
  ie_usage_mk Q931_MT_CALL_PROCEEDING 0 Q931_IE_PROGRESS_INDICATOR Q931_IE_DIR_BOTH Q931_IE_OPTIONAL;
  ie_usage_mk Q931_MT_CALL_PROCEEDING 0 Q931_IE_DISPLAY Q931_IE_DIR_N_TO_U Q931_IE_OPTIONAL;
  ie_usage_mk Q931_MT_CALL_PROCEEDING 0 Q931_IE_HIGH_LAYER_COMPATIBILITY Q931_IE_DIR_BOTH Q931_IE_OPTIONAL
].

Definition q931_ie_usages_connect : list q931_ie_usage := [
  ie_usage_mk Q931_MT_CONNECT 0 Q931_IE_BEARER_CAPABILITY Q931_IE_DIR_BOTH Q931_IE_OPTIONAL;
  ie_usage_mk Q931_MT_CONNECT 0 Q931_IE_CHANNEL_IDENTIFICATION Q931_IE_DIR_BOTH Q931_IE_OPTIONAL;
  ie_usage_mk Q931_MT_CONNECT 0 Q931_IE_FACILITY Q931_IE_DIR_BOTH Q931_IE_OPTIONAL;
  ie_usage_mk Q931_MT_CONNECT 0 Q931_IE_EXTENDED_FACILITY Q931_IE_DIR_BOTH Q931_IE_OPTIONAL;
  ie_usage_mk Q931_MT_CONNECT 0 Q931_IE_PROGRESS_INDICATOR Q931_IE_DIR_BOTH Q931_IE_OPTIONAL;
  ie_usage_mk Q931_MT_CONNECT 0 Q931_IE_DISPLAY Q931_IE_DIR_N_TO_U Q931_IE_OPTIONAL;
  ie_usage_mk Q931_MT_CONNECT 0 Q931_IE_DATETIME Q931_IE_DIR_N_TO_U Q931_IE_OPTIONAL;
  ie_usage_mk Q931_MT_CONNECT 0 Q931_IE_LOW_LAYER_COMPATIBILITY Q931_IE_DIR_BOTH Q931_IE_OPTIONAL;
  ie_usage_mk Q931_MT_CONNECT 0 Q931_IE_HIGH_LAYER_COMPATIBILITY Q931_IE_DIR_BOTH Q931_IE_OPTIONAL;
  ie_usage_mk Q931_MT_CONNECT 0 Q931_IE_USER_USER Q931_IE_DIR_BOTH Q931_IE_OPTIONAL;
  ie_usage_mk Q931_MT_CONNECT 0 Q931_IE_CONNECTED_NUMBER Q931_IE_DIR_BOTH Q931_IE_OPTIONAL
].

Definition q931_ie_usages_congestion_control : list q931_ie_usage := [
  ie_usage_mk Q931_MT_CONGESTION_CONTROL 0 Q931_IE_CONGESTION_LEVEL Q931_IE_DIR_BOTH Q931_IE_MANDATORY;
  ie_usage_mk Q931_MT_CONGESTION_CONTROL 0 Q931_IE_CAUSE Q931_IE_DIR_BOTH Q931_IE_OPTIONAL;
  ie_usage_mk Q931_MT_CONGESTION_CONTROL 0 Q931_IE_DISPLAY Q931_IE_DIR_N_TO_U Q931_IE_OPTIONAL
].

Definition q931_ie_usages_connect_acknowledge : list q931_ie_usage := [
  ie_usage_mk Q931_MT_CONNECT_ACKNOWLEDGE 0 Q931_IE_DISPLAY Q931_IE_DIR_N_TO_U Q931_IE_OPTIONAL
].

Definition q931_ie_usages_disconnect : list q931_ie_usage := [
  ie_usage_mk Q931_MT_DISCONNECT 0 Q931_IE_CAUSE Q931_IE_DIR_BOTH Q931_IE_MANDATORY;
  ie_usage_mk Q931_MT_DISCONNECT 0 Q931_IE_FACILITY Q931_IE_DIR_BOTH Q931_IE_OPTIONAL;
  ie_usage_mk Q931_MT_DISCONNECT 0 Q931_IE_EXTENDED_FACILITY Q931_IE_DIR_BOTH Q931_IE_OPTIONAL;
  ie_usage_mk Q931_MT_DISCONNECT 0 Q931_IE_PROGRESS_INDICATOR Q931_IE_DIR_BOTH Q931_IE_OPTIONAL;
  ie_usage_mk Q931_MT_DISCONNECT 0 Q931_IE_DISPLAY Q931_IE_DIR_N_TO_U Q931_IE_OPTIONAL;
  ie_usage_mk Q931_MT_DISCONNECT 0 Q931_IE_USER_USER Q931_IE_DIR_BOTH Q931_IE_OPTIONAL
].

Definition q931_ie_usages_facility : list q931_ie_usage := [
  ie_usage_mk Q931_MT_FACILITY 0 Q931_IE_FACILITY Q931_IE_DIR_BOTH Q931_IE_MANDATORY;
  ie_usage_mk Q931_MT_FACILITY 0 Q931_IE_EXTENDED_FACILITY Q931_IE_DIR_BOTH Q931_IE_MANDATORY;
  ie_usage_mk Q931_MT_FACILITY 0 Q931_IE_CALLED_PARTY_NUMBER Q931_IE_DIR_BOTH Q931_IE_OPTIONAL;
  ie_usage_mk Q931_MT_FACILITY 0 Q931_IE_CALLED_PARTY_SUBADDRESS Q931_IE_DIR_BOTH Q931_IE_OPTIONAL;
  ie_usage_mk Q931_MT_FACILITY 0 Q931_IE_DISPLAY Q931_IE_DIR_N_TO_U Q931_IE_OPTIONAL
].

Definition q931_ie_usages_register : list q931_ie_usage := [
  ie_usage_mk Q931_MT_REGISTER 0 Q931_IE_FACILITY Q931_IE_DIR_BOTH Q931_IE_OPTIONAL;
  ie_usage_mk Q931_MT_REGISTER 0 Q931_IE_EXTENDED_FACILITY Q931_IE_DIR_BOTH Q931_IE_OPTIONAL;
  ie_usage_mk Q931_MT_REGISTER 0 Q931_IE_DISPLAY Q931_IE_DIR_N_TO_U Q931_IE_OPTIONAL
].

Definition q931_ie_usages_information : list q931_ie_usage := [
  ie_usage_mk Q931_MT_INFORMATION 0 Q931_IE_SENDING_COMPLETE Q931_IE_DIR_BOTH Q931_IE_OPTIONAL;
  ie_usage_mk Q931_MT_INFORMATION 0 Q931_IE_CAUSE Q931_IE_DIR_N_TO_U Q931_IE_OPTIONAL;
  ie_usage_mk Q931_MT_INFORMATION 0 Q931_IE_DISPLAY Q931_IE_DIR_N_TO_U Q931_IE_OPTIONAL;
  ie_usage_mk Q931_MT_INFORMATION 0 Q931_IE_KEYPAD_FACILITY Q931_IE_DIR_U_TO_N Q931_IE_OPTIONAL;
  ie_usage_mk Q931_MT_INFORMATION 0 Q931_IE_CALLED_PARTY_NUMBER Q931_IE_DIR_BOTH Q931_IE_OPTIONAL
].

Definition q931_ie_usages_notify : list q931_ie_usage := [
  ie_usage_mk Q931_MT_NOTIFY 0 Q931_IE_NOTIFICATION_INDICATOR Q931_IE_DIR_N_TO_U Q931_IE_MANDATORY;
  ie_usage_mk Q931_MT_NOTIFY 0 Q931_IE_DISPLAY Q931_IE_DIR_N_TO_U Q931_IE_OPTIONAL
].

Definition q931_ie_usages_hold : list q931_ie_usage := [
  ie_usage_mk Q931_MT_HOLD 0 Q931_IE_DISPLAY Q931_IE_DIR_N_TO_U Q931_IE_OPTIONAL
].

Definition q931_ie_usages_hold_acknowledge : list q931_ie_usage := [
  ie_usage_mk Q931_MT_HOLD_ACKNOWLEDGE 0 Q931_IE_DISPLAY Q931_IE_DIR_N_TO_U Q931_IE_OPTIONAL
].

Definition q931_ie_usages_hold_reject : list q931_ie_usage := [
  ie_usage_mk Q931_MT_HOLD_REJECT 0 Q931_IE_CAUSE Q931_IE_DIR_BOTH Q931_IE_MANDATORY;
  ie_usage_mk Q931_MT_HOLD_REJECT 0 Q931_IE_DISPLAY Q931_IE_DIR_N_TO_U Q931_IE_OPTIONAL
].

Definition q931_ie_usages_retrieve : list q931_ie_usage := [
  ie_usage_mk Q931_MT_RETRIEVE 0 Q931_IE_CHANNEL_IDENTIFICATION Q931_IE_DIR_BOTH Q931_IE_OPTIONAL;
  ie_usage_mk Q931_MT_RETRIEVE 0 Q931_IE_DISPLAY Q931_IE_DIR_N_TO_U Q931_IE_OPTIONAL
].

Definition q931_ie_usages_retrieve_acknowledge : list q931_ie_usage := [
  ie_usage_mk Q931_MT_RETRIEVE_ACKNOWLEDGE 0 Q931_IE_CHANNEL_IDENTIFICATION Q931_IE_DIR_BOTH Q931_IE_OPTIONAL;
  ie_usage_mk Q931_MT_RETRIEVE_ACKNOWLEDGE 0 Q931_IE_DISPLAY Q931_IE_DIR_N_TO_U Q931_IE_OPTIONAL
].

Definition q931_ie_usages_retrieve_reject : list q931_ie_usage := [
  ie_usage_mk Q931_MT_RETRIEVE_REJECT 0 Q931_IE_CAUSE Q931_IE_DIR_BOTH Q931_IE_MANDATORY;
  ie_usage_mk Q931_MT_RETRIEVE_REJECT 0 Q931_IE_DISPLAY Q931_IE_DIR_N_TO_U Q931_IE_OPTIONAL
].

Definition q931_ie_usages_progress : list q931_ie_usage := [
  ie_usage_mk Q931_MT_PROGRESS 0 Q931_IE_BEARER_CAPABILITY Q931_IE_DIR_BOTH Q931_IE_OPTIONAL;
  ie_usage_mk Q931_MT_PROGRESS 0 Q931_IE_CAUSE Q931_IE_DIR_BOTH Q931_IE_OPTIONAL;
  ie_usage_mk Q931_MT_PROGRESS 0 Q931_IE_PROGRESS_INDICATOR Q931_IE_DIR_BOTH Q931_IE_MANDATORY;
  ie_usage_mk Q931_MT_PROGRESS 0 Q931_IE_DISPLAY Q931_IE_DIR_N_TO_U Q931_IE_OPTIONAL;
  ie_usage_mk Q931_MT_PROGRESS 0 Q931_IE_HIGH_LAYER_COMPATIBILITY Q931_IE_DIR_BOTH Q931_IE_OPTIONAL;
  ie_usage_mk Q931_MT_PROGRESS 0 Q931_IE_USER_USER Q931_IE_DIR_N_TO_U Q931_IE_OPTIONAL
].

Definition q931_ie_usages_release : list q931_ie_usage := [
  ie_usage_mk Q931_MT_RELEASE 0 Q931_IE_CAUSE Q931_IE_DIR_BOTH Q931_IE_OPTIONAL;
  ie_usage_mk Q931_MT_RELEASE 0 Q931_IE_FACILITY Q931_IE_DIR_BOTH Q931_IE_OPTIONAL;
  ie_usage_mk Q931_MT_RELEASE 0 Q931_IE_EXTENDED_FACILITY Q931_IE_DIR_BOTH Q931_IE_OPTIONAL;
  ie_usage_mk Q931_MT_RELEASE 0 Q931_IE_DISPLAY Q931_IE_DIR_N_TO_U Q931_IE_OPTIONAL;
  ie_usage_mk Q931_MT_RELEASE 0 Q931_IE_USER_USER Q931_IE_DIR_BOTH Q931_IE_OPTIONAL
].

Definition q931_ie_usages_release_complete : list q931_ie_usage := [
  ie_usage_mk Q931_MT_RELEASE_COMPLETE 0 Q931_IE_CAUSE Q931_IE_DIR_BOTH Q931_IE_OPTIONAL;
  ie_usage_mk Q931_MT_RELEASE_COMPLETE 0 Q931_IE_FACILITY Q931_IE_DIR_BOTH Q931_IE_OPTIONAL;
  ie_usage_mk Q931_MT_RELEASE_COMPLETE 0 Q931_IE_EXTENDED_FACILITY Q931_IE_DIR_BOTH Q931_IE_OPTIONAL;
  ie_usage_mk Q931_MT_RELEASE_COMPLETE 0 Q931_IE_DISPLAY Q931_IE_DIR_N_TO_U Q931_IE_OPTIONAL;
  ie_usage_mk Q931_MT_RELEASE_COMPLETE 0 Q931_IE_USER_USER Q931_IE_DIR_U_TO_N Q931_IE_OPTIONAL
].

Definition q931_ie_usages_restart : list q931_ie_usage := [
  ie_usage_mk Q931_MT_RESTART 0 Q931_IE_CHANNEL_IDENTIFICATION Q931_IE_DIR_BOTH Q931_IE_OPTIONAL;
  ie_usage_mk Q931_MT_RESTART 0 Q931_IE_DISPLAY Q931_IE_DIR_N_TO_U Q931_IE_OPTIONAL;
  ie_usage_mk Q931_MT_RESTART 0 Q931_IE_RESTART_INDICATOR Q931_IE_DIR_BOTH Q931_IE_MANDATORY
].

Definition q931_ie_usages_restart_acknowledge : list q931_ie_usage := [
  ie_usage_mk Q931_MT_RESTART_ACKNOWLEDGE 0 Q931_IE_CHANNEL_IDENTIFICATION Q931_IE_DIR_BOTH Q931_IE_OPTIONAL;
  ie_usage_mk Q931_MT_RESTART_ACKNOWLEDGE 0 Q931_IE_DISPLAY Q931_IE_DIR_N_TO_U Q931_IE_OPTIONAL;
  ie_usage_mk Q931_MT_RESTART_ACKNOWLEDGE 0 Q931_IE_RESTART_INDICATOR Q931_IE_DIR_BOTH Q931_IE_MANDATORY
].

Definition q931_ie_usages_resume : list q931_ie_usage := [
  ie_usage_mk Q931_MT_RESUME 0 Q931_IE_CALL_IDENTITY Q931_IE_DIR_U_TO_N Q931_IE_OPTIONAL
].

Definition q931_ie_usages_resume_acknowledge : list q931_ie_usage := [
  ie_usage_mk Q931_MT_RESUME_ACKNOWLEDGE 0 Q931_IE_CHANNEL_IDENTIFICATION Q931_IE_DIR_N_TO_U Q931_IE_MANDATORY;
  ie_usage_mk Q931_MT_RESUME_ACKNOWLEDGE 0 Q931_IE_DISPLAY Q931_IE_DIR_N_TO_U Q931_IE_OPTIONAL
].

Definition q931_ie_usages_resume_reject : list q931_ie_usage := [
  ie_usage_mk Q931_MT_RESUME_REJECT 0 Q931_IE_CAUSE Q931_IE_DIR_N_TO_U Q931_IE_MANDATORY;
  ie_usage_mk Q931_MT_RESUME_REJECT 0 Q931_IE_DISPLAY Q931_IE_DIR_N_TO_U Q931_IE_OPTIONAL
].

Definition q931_ie_usages_setup : list q931_ie_usage := [
  ie_usage_mk Q931_MT_SETUP 0 Q931_IE_SENDING_COMPLETE Q931_IE_DIR_BOTH Q931_IE_OPTIONAL;
  ie_usage_mk Q931_MT_SETUP 0 Q931_IE_BEARER_CAPABILITY Q931_IE_DIR_BOTH Q931_IE_MANDATORY;
  ie_usage_mk Q931_MT_SETUP 0 Q931_IE_CHANNEL_IDENTIFICATION Q931_IE_DIR_BOTH Q931_IE_OPTIONAL;
  ie_usage_mk Q931_MT_SETUP 0 Q931_IE_FACILITY Q931_IE_DIR_BOTH Q931_IE_OPTIONAL;
  ie_usage_mk Q931_MT_SETUP 0 Q931_IE_EXTENDED_FACILITY Q931_IE_DIR_BOTH Q931_IE_OPTIONAL;
  ie_usage_mk Q931_MT_SETUP 0 Q931_IE_PROGRESS_INDICATOR Q931_IE_DIR_BOTH Q931_IE_OPTIONAL;
  ie_usage_mk Q931_MT_SETUP 0 Q931_IE_NETWORK_SPECIFIC_FACILITIES Q931_IE_DIR_BOTH Q931_IE_OPTIONAL;
  ie_usage_mk Q931_MT_SETUP 0 Q931_IE_DISPLAY Q931_IE_DIR_N_TO_U Q931_IE_OPTIONAL;
  ie_usage_mk Q931_MT_SETUP 0 Q931_IE_KEYPAD_FACILITY Q931_IE_DIR_U_TO_N Q931_IE_OPTIONAL;
  ie_usage_mk Q931_MT_SETUP 0 Q931_IE_CALLING_PARTY_NUMBER Q931_IE_DIR_BOTH Q931_IE_OPTIONAL;
  ie_usage_mk Q931_MT_SETUP 0 Q931_IE_CALLING_PARTY_SUBADDRESS Q931_IE_DIR_BOTH Q931_IE_OPTIONAL;
  ie_usage_mk Q931_MT_SETUP 0 Q931_IE_CALLED_PARTY_NUMBER Q931_IE_DIR_BOTH Q931_IE_OPTIONAL;
  ie_usage_mk Q931_MT_SETUP 0 Q931_IE_CALLED_PARTY_SUBADDRESS Q931_IE_DIR_BOTH Q931_IE_OPTIONAL;
  ie_usage_mk Q931_MT_SETUP 0 Q931_IE_TRANSIT_NETWORK_SELECTION Q931_IE_DIR_U_TO_N Q931_IE_OPTIONAL;
  ie_usage_mk Q931_MT_SETUP 0 Q931_IE_LOW_LAYER_COMPATIBILITY Q931_IE_DIR_BOTH Q931_IE_OPTIONAL;
  ie_usage_mk Q931_MT_SETUP 0 Q931_IE_HIGH_LAYER_COMPATIBILITY Q931_IE_DIR_BOTH Q931_IE_OPTIONAL;
  ie_usage_mk Q931_MT_SETUP 0 Q931_IE_DATETIME Q931_IE_DIR_N_TO_U Q931_IE_OPTIONAL;
  ie_usage_mk Q931_MT_SETUP 0 Q931_IE_USER_USER Q931_IE_DIR_BOTH Q931_IE_OPTIONAL
].

Definition q931_ie_usages_setup_acknowledge : list q931_ie_usage := [
  ie_usage_mk Q931_MT_SETUP_ACKNOWLEDGE 0 Q931_IE_CHANNEL_IDENTIFICATION Q931_IE_DIR_BOTH Q931_IE_OPTIONAL;
  ie_usage_mk Q931_MT_SETUP_ACKNOWLEDGE 0 Q931_IE_PROGRESS_INDICATOR Q931_IE_DIR_BOTH Q931_IE_OPTIONAL;
  ie_usage_mk Q931_MT_SETUP_ACKNOWLEDGE 0 Q931_IE_DISPLAY Q931_IE_DIR_N_TO_U Q931_IE_OPTIONAL
].

Definition q931_ie_usages_status : list q931_ie_usage := [
  ie_usage_mk Q931_MT_STATUS 0 Q931_IE_CAUSE Q931_IE_DIR_BOTH Q931_IE_MANDATORY;
  ie_usage_mk Q931_MT_STATUS 0 Q931_IE_CALL_STATE Q931_IE_DIR_BOTH Q931_IE_MANDATORY;
  ie_usage_mk Q931_MT_STATUS 0 Q931_IE_DISPLAY Q931_IE_DIR_N_TO_U Q931_IE_OPTIONAL
].

Definition q931_ie_usages_status_enquiry : list q931_ie_usage := [
  ie_usage_mk Q931_MT_STATUS_ENQUIRY 0 Q931_IE_DISPLAY Q931_IE_DIR_N_TO_U Q931_IE_OPTIONAL
].

Definition q931_ie_usages_suspend : list q931_ie_usage := [
  ie_usage_mk Q931_MT_SUSPEND 0 Q931_IE_CALL_IDENTITY Q931_IE_DIR_U_TO_N Q931_IE_OPTIONAL
].

Definition q931_ie_usages_suspend_acknowledge : list q931_ie_usage := [
  ie_usage_mk Q931_MT_SUSPEND_ACKNOWLEDGE 0 Q931_IE_DISPLAY Q931_IE_DIR_N_TO_U Q931_IE_OPTIONAL
].

Definition q931_ie_usages_suspend_reject : list q931_ie_usage := [
  ie_usage_mk Q931_MT_SUSPEND_REJECT 0 Q931_IE_CAUSE Q931_IE_DIR_N_TO_U Q931_IE_MANDATORY;
  ie_usage_mk Q931_MT_SUSPEND_REJECT 0 Q931_IE_DISPLAY Q931_IE_DIR_N_TO_U Q931_IE_OPTIONAL
].

Definition q931_ie_usages_user_information : list q931_ie_usage := [
  ie_usage_mk Q931_MT_USER_INFORMATION 0 Q931_IE_MORE_DATA Q931_IE_DIR_BOTH Q931_IE_OPTIONAL;
  ie_usage_mk Q931_MT_USER_INFORMATION 0 Q931_IE_USER_USER Q931_IE_DIR_BOTH Q931_IE_MANDATORY
].

Definition q931_ie_usages : list q931_ie_usage :=
  q931_ie_usages_alerting ++
  q931_ie_usages_call_proceeding ++
  q931_ie_usages_connect ++
  q931_ie_usages_congestion_control ++
  q931_ie_usages_connect_acknowledge ++
  q931_ie_usages_disconnect ++
  q931_ie_usages_facility ++
  q931_ie_usages_register ++
  q931_ie_usages_information ++
  q931_ie_usages_notify ++
  q931_ie_usages_hold ++
  q931_ie_usages_hold_acknowledge ++
  q931_ie_usages_hold_reject ++
  q931_ie_usages_retrieve ++
  q931_ie_usages_retrieve_acknowledge ++
  q931_ie_usages_retrieve_reject ++
  q931_ie_usages_progress ++
  q931_ie_usages_release ++
  q931_ie_usages_release_complete ++
  q931_ie_usages_restart ++
  q931_ie_usages_restart_acknowledge ++
  q931_ie_usages_resume ++
  q931_ie_usages_resume_acknowledge ++
  q931_ie_usages_resume_reject ++
  q931_ie_usages_setup ++
  q931_ie_usages_setup_acknowledge ++
  q931_ie_usages_status ++
  q931_ie_usages_status_enquiry ++
  q931_ie_usages_suspend ++
  q931_ie_usages_suspend_acknowledge ++
  q931_ie_usages_suspend_reject ++
  q931_ie_usages_user_information.

Definition q931_get_ie_class (codeset id : Z) : option q931_ie_class :=
  head (filter (λ c, cls_codeset c = codeset ∧ cls_id c = id) q931_ie_classes).

(** the message type is not looked at *)
Definition q931_get_ie_usage (message_type codeset ie_id : Z) : option q931_ie_usage :=
  head (filter (λ u, use_codeset u = codeset ∧ use_ie_id u = ie_id) q931_ie_usages).

(** ** Classification of single octet elements ([ie.h]) *)

Definition q931_is_so_ie (ie_id : Z) : bool := negb (Z.land ie_id 0x80 =? 0).
(** type 2 elements carry no value *)
Definition q931_get_so_ie_type2 (ie_id : Z) : bool := Z.land ie_id 0x70 =? 0x20.
Definition q931_get_so_ie_id (ie_id : Z) : Z :=
  if q931_get_so_ie_type2 ie_id then ie_id else Z.land ie_id 0xf0.
Definition q931_get_so_ie_type2_value (ie_id : Z) : Z := Z.land ie_id 0x0f.
Definition q931_ie_comprehension_required (ie_id : Z) : bool := Z.land ie_id 0xf0 =? 0.
