(* ===== verification/Q931Sets.v ===== *)
(** * The containers of libq931: [chanset.c] and [ies.c]

    A [struct q931_chanset] is the list of its first [nchans] channels (each the
    index of a channel of the interface), a [struct q931_ies] the list of its
    first [count] elements.  The [assert]s on the fixed sizes of the C arrays
    are the faults of the [outcome] monad. *)

From stdpp Require Import base list gmap sorting.
From Stdlib Require Import ZArith Lia.
From S2P Require Import Prelude.
From S2P Require Import Q931Defs.
Local Open Scope Z_scope.

(** ** chanset.c *)

Definition Q931_CHANSET_MAX_SIZE : nat := 32.

Definition q931_chanset_init : list nat := [].

Definition q931_chanset_contains (chanset : list nat) (channel : nat) : bool :=
  existsb (Nat.eqb channel) chanset.

Definition q931_chanset_add (chanset : list nat) (channel : nat) : outcome (list nat) :=
  if negb (length chanset <? Q931_CHANSET_MAX_SIZE)%nat then Fault AssertFail
  else if q931_chanset_contains chanset channel then Done chanset
  else Done (chanset ++ [channel]).

(** The loop of [q931_chanset_del]: the first occurrence is removed and the
    elements after it move down. *)
Fixpoint chanset_remove (chanset : list nat) (channel : nat) : list nat :=
  match chanset with
  | [] => []
  | c :: cs => if (c =? channel)%nat then cs else c :: chanset_remove cs channel
  end.

Definition q931_chanset_del (chanset : list nat) (channel : nat) : outcome (list nat) :=
  match chanset with
  | [] => Fault AssertFail
  | _ => Done (chanset_remove chanset channel)
  end.

Fixpoint q931_chanset_merge (chanset src_chanset : list nat) : outcome (list nat) :=
  match src_chanset with
  | [] => Done chanset
  | c :: cs =>
      if q931_chanset_contains chanset c then q931_chanset_merge chanset cs
      else chanset' ← q931_chanset_add chanset c; q931_chanset_merge chanset' cs
  end.

(** The loop of [q931_chanset_intersect] from index [i]; [i] grows at every
    iteration, so [length chanset] iterations are enough. *)
Fixpoint chanset_intersect_loop (fuel i : nat) (chanset chanset2 : list nat)
    : outcome (list nat) :=
  match fuel with
  | O => Done chanset
  | S fuel' =>
      match chanset !! i with
      | None => Done chanset
      | Some c =>
          if q931_chanset_contains chanset2 c
          then chanset_intersect_loop fuel' (S i) chanset chanset2
          else chanset' ← q931_chanset_del chanset c;
               chanset_intersect_loop fuel' (S i) chanset' chanset2
      end
  end.

Definition q931_chanset_intersect (chanset chanset2 : list nat) : outcome (list nat) :=
  chanset_intersect_loop (length chanset) 0 chanset chanset2.

(** ** ies.c *)

Abbreviation q931_ies := (list q931_ie).

Definition Q931_IES_NUM_IES : nat := 260.

Definition q931_ies_add (ies : q931_ies) (ie : q931_ie) : outcome q931_ies :=
  if (length ies <? Q931_IES_NUM_IES)%nat then Done (ies ++ [ie])
  else Fault AssertFail.

(** [q931_ies_add] and the release of the caller's reference *)
Definition q931_ies_add_put (ies : q931_ies) (ie : q931_ie) : outcome q931_ies :=
  q931_ies_add ies ie.

(** [q931_ies_del], [i] being the position at which the pointer was found: the
    inner loop runs over [j] but assigns [ies[i] = ies[i+1]]. *)
Definition q931_ies_del (ies : q931_ies) (i : nat) : q931_ies :=
  take (length ies - 1)
    (match ies !! S i with Some ie => <[i := ie]> ies | None => ies end).

(** the inner loop of [q931_ies_merge]: is there a cause with this value? *)
Definition ies_have_cause (ies : q931_ies) (v : Z) : bool :=
  existsb (λ ie, match ie_cause_value ie with Some v' => v' =? v | None => false end) ies.

Fixpoint ies_merge_loop (ies src_ies : q931_ies) : outcome q931_ies :=
  match src_ies with
  | [] => Done ies
  | ie :: src' =>
      match ie_cause_value ie with
      | Some v =>
          if ies_have_cause ies v then ies_merge_loop ies src'
          else ies' ← q931_ies_add ies ie; ies_merge_loop ies' src'
      | None => ies' ← q931_ies_add ies ie; ies_merge_loop ies' src'
      end
  end.

Definition q931_ies_merge (ies : q931_ies) (src_ies : option q931_ies) : outcome q931_ies :=
  match src_ies with
  | None => Done ies
  | Some src =>
      if (length ies + length src <? Q931_IES_NUM_IES)%nat then ies_merge_loop ies src
      else Fault AssertFail
  end.

Fixpoint ies_add_all (ies src_ies : q931_ies) : outcome q931_ies :=
  match src_ies with
  | [] => Done ies
  | ie :: src' => ies' ← q931_ies_add ies ie; ies_add_all ies' src'
  end.

Definition q931_ies_copy (ies : q931_ies) (src_ies : option q931_ies) : outcome q931_ies :=
  match src_ies with
  | None => Done ies
  | Some src => ies_add_all [] src
  end.

(** [qsort] with [q931_ies_compare]; elements of equal id keep their order. *)
Fixpoint ies_insert (ie : q931_ie) (ies : q931_ies) : q931_ies :=
  match ies with
  | [] => [ie]
  | x :: xs => if ie_id ie <=? ie_id x then ie :: x :: xs else x :: ies_insert ie xs
  end.

Fixpoint q931_ies_sort (ies : q931_ies) : q931_ies :=
  match ies with
  | [] => []
  | ie :: ies' => ies_insert ie (q931_ies_sort ies')
  end.

(** [q931_ies_contain_cause] of [ie_cause.c] *)
Definition q931_ies_contain_cause (ies : q931_ies) (v : Z) : bool := ies_have_cause ies v.

(** ** Channel sets: membership and the set invariant *)

Lemma chanset_contains_spec cs c : q931_chanset_contains cs c = true ↔ c ∈ cs.
Proof.
  unfold q931_chanset_contains. rewrite existsb_exists. split.
  - intros (x & Hx & ->%Nat.eqb_eq). by apply list_elem_of_In.
  - intros Hc. exists c. split; [by apply list_elem_of_In|apply Nat.eqb_refl].
Qed.

Lemma chanset_contains_false cs c : q931_chanset_contains cs c = false ↔ c ∉ cs.
Proof. rewrite <-chanset_contains_spec. by destruct q931_chanset_contains. Qed.

(** what every set of the library satisfies *)
Definition chanset_ok (cs : list nat) : Prop :=
  NoDup cs ∧ (length cs ≤ Q931_CHANSET_MAX_SIZE)%nat.

Lemma chanset_add_inv cs c cs' :
  q931_chanset_add cs c = Done cs' →
  (length cs < Q931_CHANSET_MAX_SIZE)%nat ∧
  cs' = if q931_chanset_contains cs c then cs else cs ++ [c].
Proof.
  unfold q931_chanset_add. destruct (Nat.ltb_spec (length cs) Q931_CHANSET_MAX_SIZE);
    cbn; [|done]. by destruct q931_chanset_contains; intros [= <-].
Qed.

Lemma chanset_add_elem cs c cs' x :
  q931_chanset_add cs c = Done cs' → x ∈ cs' ↔ x = c ∨ x ∈ cs.
Proof.
  intros [_ ->]%chanset_add_inv. destruct (q931_chanset_contains cs c) eqn:E.
  - apply chanset_contains_spec in E. naive_solver.
  - set_solver.
Qed.

Lemma chanset_add_ok cs c cs' :
  chanset_ok cs → q931_chanset_add cs c = Done cs' → chanset_ok cs'.
Proof.
  intros [Hnd Hlen] [Hlt ->]%chanset_add_inv.
  destruct (q931_chanset_contains cs c) eqn:E; [by split|].
  apply chanset_contains_false in E. split.
  - apply NoDup_app. split_and!; [done|set_solver|apply NoDup_singleton].
  - rewrite length_app. cbn. lia.
Qed.

Lemma chanset_remove_elem cs c x : NoDup cs → x ∈ chanset_remove cs c ↔ x ≠ c ∧ x ∈ cs.
Proof.
  induction 1 as [|y cs Hy Hnd IH]; cbn; [set_solver|].
  destruct (Nat.eqb_spec y c) as [->|Hne]; set_solver.
Qed.

Lemma chanset_remove_ok cs c : chanset_ok cs → chanset_ok (chanset_remove cs c).
Proof.
  intros [Hnd Hlen]. split.
  - clear Hlen. induction Hnd as [|y cs Hy Hnd IH]; cbn; [constructor|].
    destruct (y =? c)%nat; [done|]. constructor; [|done].
    rewrite chanset_remove_elem by done. tauto.
  - transitivity (length cs); [|done]. clear Hnd Hlen.
    induction cs as [|y cs IH]; cbn; [done|]. destruct (y =? c)%nat; cbn; lia.
Qed.

Lemma chanset_del_inv cs c cs' :
  q931_chanset_del cs c = Done cs' → cs ≠ [] ∧ cs' = chanset_remove cs c.
Proof. destruct cs; cbn; [done|]. by intros [= <-]. Qed.

Lemma chanset_merge_elem cs src cs' x :
  q931_chanset_merge cs src = Done cs' → x ∈ cs' ↔ x ∈ cs ∨ x ∈ src.
Proof.
  revert cs. induction src as [|c src IH]; intros cs; cbn.
  { intros [= <-]. set_solver. }
  destruct (q931_chanset_contains cs c) eqn:E.
  - intros H. rewrite (IH _ H). apply chanset_contains_spec in E. set_solver.
  - destruct (q931_chanset_add cs c) as [cs1|] eqn:Ea; cbn; [|done].
    intros H. rewrite (IH _ H). rewrite (chanset_add_elem _ _ _ x Ea). set_solver.
Qed.

Lemma chanset_merge_ok cs src cs' :
  chanset_ok cs → q931_chanset_merge cs src = Done cs' → chanset_ok cs'.
Proof.
  revert cs. induction src as [|c src IH]; intros cs Hok; cbn; [by intros [= <-]|].
  destruct (q931_chanset_contains cs c); [by apply IH|].
  destruct (q931_chanset_add cs c) as [cs1|] eqn:Ea; cbn; [|done].
  apply IH. by eapply chanset_add_ok.
Qed.

Lemma chanset_merge_total cs src :
  (length cs + length src ≤ Q931_CHANSET_MAX_SIZE)%nat →
  ∃ cs', q931_chanset_merge cs src = Done cs'.
Proof.
  revert cs. induction src as [|c src IH]; intros cs Hlen; cbn in *; [eauto|].
  destruct (q931_chanset_contains cs c) eqn:E; [apply IH; lia|].
  unfold q931_chanset_add. rewrite E.
  destruct (Nat.ltb_spec (length cs) Q931_CHANSET_MAX_SIZE); cbn; [|lia].
  apply IH. rewrite length_app. cbn. lia.
Qed.

(** [q931_chanset_merge] is set union: given two sets that fit together in
    the 32 slots it meets no assertion, its result has exactly the channels of
    the two and is again free of duplicates and within bounds. *)
Theorem chanset_merge_union cs src :
  chanset_ok cs → (length cs + length src ≤ Q931_CHANSET_MAX_SIZE)%nat →
  ∃ cs', q931_chanset_merge cs src = Done cs' ∧ chanset_ok cs' ∧
         ∀ c, c ∈ cs' ↔ c ∈ cs ∨ c ∈ src.
Proof.
  intros Hok Hlen. destruct (chanset_merge_total cs src Hlen) as [cs' Hm].
  exists cs'. split_and!; [done|by eapply chanset_merge_ok|].
  intros c. by eapply chanset_merge_elem.
Qed.

Lemma chanset_merge_union_witness :
  chanset_ok [0; 1]%nat ∧
  ∃ cs', q931_chanset_merge [0; 1]%nat [1; 5]%nat = Done cs' ∧ chanset_ok cs' ∧
         ∀ c, c ∈ cs' ↔ c ∈ [0; 1]%nat ∨ c ∈ [1; 5]%nat.
Proof.
  assert (H : chanset_ok [0; 1]%nat).
  { split; [|unfold Q931_CHANSET_MAX_SIZE; cbn; lia]. apply (bool_decide_unpack (NoDup [0; 1]%nat)). vm_compute. exact I. }
  split; [exact H|]. apply (chanset_merge_union [0; 1]%nat [1; 5]%nat H). unfold Q931_CHANSET_MAX_SIZE. cbn. lia.
Defined.

(** One pass of the intersection loop keeps every channel of [chanset2] and
    invents none. *)
Lemma chanset_intersect_loop_bounds fuel i cs cs2 cs' :
  NoDup cs → chanset_intersect_loop fuel i cs cs2 = Done cs' →
  NoDup cs' ∧ (∀ c, c ∈ cs → c ∈ cs2 → c ∈ cs') ∧ (∀ c, c ∈ cs' → c ∈ cs).
Proof.
  revert i cs. induction fuel as [|fuel IH]; intros i cs Hnd; cbn.
  { by intros [= <-]. }
  destruct (cs !! i) as [c|] eqn:Ei; [|by intros [= <-]].
  destruct (q931_chanset_contains cs2 c) eqn:Ec; [by apply IH|].
  apply chanset_contains_false in Ec.
  destruct (q931_chanset_del cs c) as [cs1|] eqn:Ed; cbn; [|done].
  apply chanset_del_inv in Ed as [_ ->]. intros H.
  assert (Hok : NoDup (chanset_remove cs c)).
  { clear -Hnd. induction Hnd as [|y cs Hy Hnd IH]; cbn; [constructor|].
    destruct (y =? c)%nat; [done|]. constructor; [|done].
    rewrite chanset_remove_elem by done. tauto. }
  destruct (IH _ _ Hok H) as (Hnd' & Hkeep & Hsub). split_and!; [done|..].
  - intros d Hd Hd2. apply Hkeep; [|done]. apply chanset_remove_elem; [done|].
    split; [by intros ->|done].
  - intros d Hd. by apply Hsub, chanset_remove_elem in Hd as [_ Hd].
Qed.

Lemma chanset_intersect_loop_total fuel i cs cs2 :
  ∃ cs', chanset_intersect_loop fuel i cs cs2 = Done cs'.
Proof.
  revert i cs. induction fuel as [|fuel IH]; intros i cs; cbn; [eauto|].
  destruct (cs !! i) as [c|] eqn:Ei; [|eauto].
  destruct (q931_chanset_contains cs2 c); [apply IH|].
  destruct cs as [|d cs]; [by rewrite lookup_nil in Ei|]. cbn. apply IH.
Qed.

(** [q931_chanset_intersect] always completes, never loses a channel that is in
    both sets and never adds one: its result lies between the intersection and
    the first set (it is not the intersection, see
    [chanset_intersect_keeps_foreign]). *)
Theorem chanset_intersect_bounds cs cs2 :
  NoDup cs →
  ∃ cs', q931_chanset_intersect cs cs2 = Done cs' ∧ NoDup cs' ∧
    (∀ c, c ∈ cs → c ∈ cs2 → c ∈ cs') ∧ (∀ c, c ∈ cs' → c ∈ cs).
Proof.
  intros Hnd. unfold q931_chanset_intersect.
  destruct (chanset_intersect_loop_total (length cs) 0 cs cs2) as [cs' H].
  exists cs'. split; [done|]. by eapply chanset_intersect_loop_bounds.
Qed.

Lemma chanset_intersect_bounds_witness :
  NoDup [0; 1; 2]%nat ∧
  ∃ cs', q931_chanset_intersect [0; 1; 2]%nat [1]%nat = Done cs' ∧ NoDup cs' ∧
    (∀ c, c ∈ [0; 1; 2]%nat → c ∈ [1]%nat → c ∈ cs') ∧
    (∀ c, c ∈ cs' → c ∈ [0; 1; 2]%nat).
Proof.
  assert (H : NoDup [0; 1; 2]%nat).
  { apply (bool_decide_unpack (NoDup [0; 1; 2]%nat)). vm_compute. exact I. }
  split; [exact H|]. apply (chanset_intersect_bounds [0; 1; 2]%nat [1]%nat H).
Defined.

(** The deletion inside the loop shifts the array under the index: the channel
    after a deleted one is skipped and stays. *)
Lemma chanset_intersect_keeps_foreign :
  q931_chanset_intersect [3; 4]%nat [] = Done [4]%nat.
Proof. reflexivity. Qed.

(** ** Sets of information elements *)

(** the values of the causes of a set, in order *)
Definition ies_causes (ies : q931_ies) : list Z := omap ie_cause_value ies.

Lemma ies_have_cause_spec ies v : ies_have_cause ies v = true ↔ v ∈ ies_causes ies.
Proof.
  unfold ies_have_cause, ies_causes. rewrite existsb_exists, list_elem_of_omap.
  split; intros (ie & Hie & Hv); exists ie; rewrite list_elem_of_In in *.
  - destruct (ie_cause_value ie) as [v'|]; [|done].
    apply Z.eqb_eq in Hv as ->. done.
  - rewrite Hv. split; [done|apply Z.eqb_refl].
Qed.

Lemma ies_add_inv ies ie ies' :
  q931_ies_add ies ie = Done ies' →
  (length ies < Q931_IES_NUM_IES)%nat ∧ ies' = ies ++ [ie].
Proof.
  unfold q931_ies_add. destruct (Nat.ltb_spec (length ies) Q931_IES_NUM_IES); [|done].
  by intros [= <-].
Qed.

Lemma ies_causes_app ies1 ies2 : ies_causes (ies1 ++ ies2) = ies_causes ies1 ++ ies_causes ies2.
Proof. apply omap_app. Qed.

Lemma ies_causes_cons ie ies :
  ies_causes (ie :: ies) =
  match ie_cause_value ie with Some v => v :: ies_causes ies | None => ies_causes ies end.
Proof. reflexivity. Qed.

Lemma ies_merge_loop_total ies src :
  (length ies + length src ≤ Q931_IES_NUM_IES)%nat →
  ∃ ies', ies_merge_loop ies src = Done ies'.
Proof.
  revert ies. induction src as [|ie src IH]; intros ies Hlen; cbn in *; [eauto|].
  assert (Hadd : q931_ies_add ies ie = Done (ies ++ [ie])).
  { unfold q931_ies_add. destruct (Nat.ltb_spec (length ies) Q931_IES_NUM_IES); [done|lia]. }
  assert (Hrec : ∃ ies', ies_merge_loop (ies ++ [ie]) src = Done ies').
  { apply IH. rewrite length_app. cbn. lia. }
  destruct (ie_cause_value ie) as [v|]; [destruct (ies_have_cause ies v)|];
    rewrite ?Hadd; cbn; [apply IH; lia|done..].
Qed.

Lemma ies_merge_loop_spec ies src ies' :
  NoDup (ies_causes ies) → ies_merge_loop ies src = Done ies' →
  NoDup (ies_causes ies') ∧
  (∀ v, v ∈ ies_causes ies' ↔ v ∈ ies_causes ies ∨ v ∈ ies_causes src) ∧
  (∀ ie, ie_cause_value ie = None → ie ∈ ies' ↔ ie ∈ ies ∨ ie ∈ src) ∧
  ∃ tl, ies' = ies ++ tl.
Proof.
  revert ies. induction src as [|ie src IH]; intros ies Hnd; cbn [ies_merge_loop].
  { intros [= <-]. cbn. split_and!; [done|set_solver..|]. exists []. by rewrite app_nil_r. }
  destruct (ie_cause_value ie) as [v|] eqn:Ev.
  - destruct (ies_have_cause ies v) eqn:Eh.
    + intros H. destruct (IH _ Hnd H) as (Hnd' & Hc & Hn & tl).
      apply ies_have_cause_spec in Eh. split_and!; [done|..|done].
      * intros w. rewrite Hc, ies_causes_cons, Ev. set_solver.
      * intros ie' Hie'. rewrite (Hn ie' Hie'). rewrite elem_of_cons.
        assert (ie' ≠ ie) by congruence. tauto.
    + destruct (q931_ies_add ies ie) as [ies1|] eqn:Ea; cbn [mbind outcome_bind]; [|done].
      apply ies_add_inv in Ea as [_ ->]. intros H.
      assert (Hv : v ∉ ies_causes ies).
      { intros Hin. apply ies_have_cause_spec in Hin. congruence. }
      assert (Hnd1 : NoDup (ies_causes (ies ++ [ie]))).
      { rewrite ies_causes_app. cbn. rewrite Ev. apply NoDup_app.
        split_and!; [done|set_solver|apply NoDup_singleton]. }
      destruct (IH _ Hnd1 H) as (Hnd' & Hc & Hn & tl & ->).
      split_and!; [done|..].
      * intros w. rewrite Hc, ies_causes_app, !ies_causes_cons, Ev. set_solver.
      * intros ie' Hie'. rewrite (Hn ie' Hie'). set_solver.
      * exists (ie :: tl). by rewrite <-app_assoc.
  - destruct (q931_ies_add ies ie) as [ies1|] eqn:Ea; cbn [mbind outcome_bind]; [|done].
    apply ies_add_inv in Ea as [_ ->]. intros H.
    assert (Hc1 : ies_causes (ies ++ [ie]) = ies_causes ies).
    { rewrite ies_causes_app. cbn. rewrite Ev. by rewrite app_nil_r. }
    rewrite <-Hc1 in Hnd.
    destruct (IH _ Hnd H) as (Hnd' & Hc & Hn & tl & ->). split_and!; [done|..].
    + intros w. by rewrite Hc, Hc1, ies_causes_cons, Ev.
    + intros ie' Hie'. rewrite (Hn ie' Hie'). set_solver.
    + exists (ie :: tl). by rewrite <-app_assoc.
Qed.

(** [q931_ies_merge] on sets that fit (fewer than 260 elements together)
    meets no assertion; if no two causes of the target had the same value then no two
    of the result have; the causes of the result are those of both sets, every
    element that is not a cause is kept, and the target's elements stay in
    place in front. *)
Theorem ies_merge_spec ies src :
  (length ies + length src < Q931_IES_NUM_IES)%nat → NoDup (ies_causes ies) →
  ∃ ies', q931_ies_merge ies (Some src) = Done ies' ∧
    NoDup (ies_causes ies') ∧
    (∀ v, v ∈ ies_causes ies' ↔ v ∈ ies_causes ies ∨ v ∈ ies_causes src) ∧
    (∀ ie, ie_cause_value ie = None → ie ∈ ies' ↔ ie ∈ ies ∨ ie ∈ src) ∧
    ∃ tl, ies' = ies ++ tl.
Proof.
  intros Hlen Hnd. unfold q931_ies_merge.
  destruct (Nat.ltb_spec (length ies + length src) Q931_IES_NUM_IES); [|lia].
  destruct (ies_merge_loop_total ies src) as [ies' H']; [lia|].
  exists ies'. split; [done|]. by eapply ies_merge_loop_spec.
Qed.

Definition cause_of_value (v : Z) : q931_ie :=
  IE_CAUSE {| c_coding_standard := 0; c_location := 0; c_value := v;
              c_recommendation := 0; c_diagnostics := [] |}.

Lemma ies_merge_spec_witness :
  ∃ ies', q931_ies_merge [cause_of_value 16] (Some [cause_of_value 16; IE_SENDING_COMPLETE])
            = Done ies' ∧
    NoDup (ies_causes ies') ∧
    (∀ v, v ∈ ies_causes ies' ↔ v ∈ ies_causes [cause_of_value 16] ∨
       v ∈ ies_causes [cause_of_value 16; IE_SENDING_COMPLETE]) ∧
    (∀ ie, ie_cause_value ie = None → ie ∈ ies' ↔ ie ∈ [cause_of_value 16] ∨
       ie ∈ [cause_of_value 16; IE_SENDING_COMPLETE]) ∧
    ∃ tl, ies' = [cause_of_value 16] ++ tl.
Proof.
  apply (ies_merge_spec [cause_of_value 16] [cause_of_value 16; IE_SENDING_COMPLETE]).
  - unfold Q931_IES_NUM_IES. cbn. lia.
  - apply NoDup_singleton.
Defined.

(** The deletion loop assigns the same slot over and over: deleting the first of four
    elements duplicates the second and drops the last. *)
Lemma ies_del_wrong :
  q931_ies_del [IE_SENDING_COMPLETE; IE_DATETIME 1; IE_DATETIME 2; IE_DATETIME 3] 0
  = [IE_DATETIME 1; IE_DATETIME 1; IE_DATETIME 2].
Proof. reflexivity. Qed.

Lemma ies_insert_perm ie ies : ies_insert ie ies ≡ₚ ie :: ies.
Proof.
  induction ies as [|x xs IH]; cbn; [done|].
  destruct (ie_id ie <=? ie_id x); [done|]. rewrite IH. apply perm_swap.
Qed.

Lemma ies_sort_perm ies : q931_ies_sort ies ≡ₚ ies.
Proof. induction ies as [|x xs IH]; cbn; [done|]. by rewrite ies_insert_perm, IH. Qed.

Lemma ies_sort_length ies : length (q931_ies_sort ies) = length ies.
Proof. apply Permutation_length, ies_sort_perm. Qed.

Lemma ies_sort_elem ies ie : ie ∈ q931_ies_sort ies ↔ ie ∈ ies.
Proof. by rewrite ies_sort_perm. Qed.

Lemma ies_insert_sorted ie ies :
  StronglySorted (λ a b, ie_id a ≤ ie_id b) ies →
  StronglySorted (λ a b, ie_id a ≤ ie_id b) (ies_insert ie ies).
Proof.
  induction 1 as [|x xs Hs IH Hx]; cbn; [repeat constructor|].
  destruct (Z.leb_spec (ie_id ie) (ie_id x)).
  - constructor; [by constructor|]. constructor; [done|].
    eapply Forall_impl; [exact Hx|]. cbn. lia.
  - constructor; [done|]. rewrite ies_insert_perm. constructor; [lia|done].
Qed.

Lemma ies_sort_sorted ies : StronglySorted (λ a b, ie_id a ≤ ie_id b) (q931_ies_sort ies).
Proof. induction ies; cbn; [constructor|]. by apply ies_insert_sorted. Qed.

Lemma ies_add_all_total ies src :
  (length ies + length src ≤ Q931_IES_NUM_IES)%nat → ies_add_all ies src = Done (ies ++ src).
Proof.
  revert ies. induction src as [|ie src IH]; intros ies Hlen; cbn in *;
    [by rewrite app_nil_r|].
  unfold q931_ies_add. destruct (Nat.ltb_spec (length ies) Q931_IES_NUM_IES); cbn; [|lia].
  rewrite IH; [by rewrite <-app_assoc|]. rewrite length_app. cbn. lia.
Qed.
