(* ===== verification/Q931IE.v ===== *)
(** * The information elements of libq931: [ie_*.c]

    One reader ([q931_ie_*_read_from_buf]) and one writer
    ([q931_ie_*_write_to_buf]) per element.  A reader gets the rest of the raw
    message buffer from the first octet of the element's contents and the length
    octet; [Done None] is the [FALSE] of the C code.  A writer returns the octets
    it stores, [Done None] being a negative length.  Accesses outside the raw
    buffer or outside a fixed array of the element are [OutOfBounds] faults. *)

From stdpp Require Import base list gmap.
From Stdlib Require Import ZArith Lia.
From S2P Require Import Prelude.
From S2P Require Import Bits.
From S2P Require Import Q931Defs.
From S2P Require Import Q931Sets.
Local Open Scope Z_scope.

(** ** Constants *)

Definition Q931_IE_C_CS_CCITT := 0.
Definition Q931_IE_C_L_USER := 0x0.
Definition Q931_IE_C_L_PRIVATE_NETWORK_SERVING_LOCAL_USER := 0x1.
Definition Q931_IE_C_L_PUBLIC_NETWORK_SERVING_LOCAL_USER := 0x2.
Definition Q931_IE_C_L_TRANSIT_NETWORK := 0x3.
Definition Q931_IE_C_L_PUBLIC_NETWORK_SERVING_REMOTE_USER := 0x4.
Definition Q931_IE_C_L_PRIVATE_NETWORK_SERVING_REMOTE_USER := 0x5.
Definition Q931_IE_C_L_INTERNATIONAL_NETWORK := 0x7.

Definition Q931_IE_C_CV_CHANNEL_UNACCEPTABLE := 6.
Definition Q931_IE_C_CV_NORMAL_CALL_CLEARING := 16.
Definition Q931_IE_C_CV_NO_USER_RESPONDING := 18.
Definition Q931_IE_C_CV_NO_ANSWER_FROM_USER := 19.
Definition Q931_IE_C_CV_NON_SELECTED_USER_CLEARING := 26.
Definition Q931_IE_C_CV_DESTINATION_OUT_OF_ORDER := 27.
Definition Q931_IE_C_CV_INVALID_NUMBER_FORMAT := 28.
Definition Q931_IE_C_CV_FACILITY_REJECTED := 29.
Definition Q931_IE_C_CV_RESPONSE_TO_STATUS_ENQUIRY := 30.
Definition Q931_IE_C_CV_NORMAL_UNSPECIFIED := 31.
Definition Q931_IE_C_CV_NO_CIRCUIT_CHANNEL_AVAILABLE := 34.
Definition Q931_IE_C_CV_NETWORK_OUT_OF_ORDER := 38.
Definition Q931_IE_C_CV_TEMPORARY_FAILURE := 41.
Definition Q931_IE_C_CV_ACCESS_INFORMATION_DISCARDED := 43.
Definition Q931_IE_C_CV_REQUESTED_CIRCUIT_CHANNEL_NOT_AVAILABLE := 44.
Definition Q931_IE_C_CV_RESOURCES_UNAVAILABLE := 47.
Definition Q931_IE_C_CV_INVALID_CALL_REFERENCE_VALUE := 81.
Definition Q931_IE_C_CV_IDENTIFIED_CHANNEL_DOES_NOT_EXIST := 82.
Definition Q931_IE_C_CV_CALL_IDENTIFIED_HAS_BEEN_CLEARED := 86.
Definition Q931_IE_C_CV_INCOMPATIBLE_DESTINATION := 88.
Definition Q931_IE_C_CV_INVALID_MESSAGE_UNSPECIFIED := 95.
Definition Q931_IE_C_CV_MANDATORY_INFORMATION_ELEMENT_IS_MISSING := 96.
Definition Q931_IE_C_CV_MESSAGE_TYPE_NON_EXISTENT_OR_IMPLEMENTED := 97.
Definition Q931_IE_C_CV_MESSAGE_TYPE_NOT_COMPATIBLE_WITH_STATE := 98.
Definition Q931_IE_C_CV_INFORMATION_ELEMENT_NON_EXISTENT := 99.
Definition Q931_IE_C_CV_INVALID_INFORMATION_ELEMENT_CONTENTS := 100.
Definition Q931_IE_C_CV_MESSAGE_NOT_COMPATIBLE_WITH_CALL_STATE := 101.
Definition Q931_IE_C_CV_RECOVERY_ON_TIMER_EXPIRY := 102.
Definition Q931_IE_C_CV_PROTOCOL_ERROR_UNSPECIFIED := 111.

Definition Q931_IE_CS_CS_CCITT := 0.
Definition Q931_IE_PI_CS_CCITT := 0.
Definition Q931_IE_PI_PD_CALL_NOT_END_TO_END := 0x1.
Definition Q931_IE_PI_PD_DESTINATION_ADDRESS_IS_NON_ISDN := 0x2.
Definition Q931_IE_PI_PD_IN_BAND_INFORMATION := 0x8.

Definition Q931_IE_CI_IIP_IMPLICIT := 0.
Definition Q931_IE_CI_IIP_EXPLICIT := 1.
Definition Q931_IE_CI_IT_BASIC := 0.
Definition Q931_IE_CI_IT_PRIMARY := 1.
Definition Q931_IE_CI_PE_PREFERRED := 0.
Definition Q931_IE_CI_PE_EXCLUSIVE := 1.
Definition Q931_IE_CI_DCI_IS_NOT_D_CHAN := 0.
Definition Q931_IE_CI_DCI_IS_D_CHAN := 1.
Definition Q931_IE_CI_ICS_BRA_NO_CHANNEL := 0.
Definition Q931_IE_CI_ICS_BRA_B1 := 1.
Definition Q931_IE_CI_ICS_BRA_B2 := 2.
Definition Q931_IE_CI_ICS_BRA_ANY := 3.
Definition Q931_IE_CI_ICS_PRA_NO_CHANNEL := 0.
Definition Q931_IE_CI_ICS_PRA_INDICATED := 1.
Definition Q931_IE_CI_ICS_PRA_ANY := 3.
Definition Q931_IE_CI_CS_CCITT := 0.
Definition Q931_IE_CI_NM_NUMBER := 0.
Definition Q931_IE_CI_NM_MAP := 1.
Definition Q931_IE_CI_ET_B := 3.

Definition Q931_IE_RI_C_INDICATED := 0.
Definition Q931_IE_RI_C_SINGLE_INTERFACE := 6.
Definition Q931_IE_RI_C_ALL_INTERFACES := 7.

Definition Q931_IE_BC_ITC_UNRESTRICTED_DIGITAL := 0x08.
Definition Q931_IE_BC_ITC_RESTRICTED_DIGITAL := 0x09.
Definition Q931_IE_BC_TM_CIRCUIT := 0.
Definition Q931_IE_BC_TM_PACKET := 2.
Definition Q931_IE_BC_UIL1P_V110 := 0x01.
Definition Q931_IE_BC_UIL1P_V120 := 0x08.
Definition Q931_IE_BC_UIL1P_UNUSED := -1.
Definition Q931_IE_BC_UIL2P_UNUSED := -1.
Definition Q931_IE_BC_UIL3P_UNUSED := -1.
Definition Q931_IE_BC_LAYER_1_IDENT := 0x1.
Definition Q931_IE_BC_LAYER_2_IDENT := 0x2.
Definition Q931_IE_BC_LAYER_3_IDENT := 0x2.

Definition Q931_IE_HLC_CI_RESERVED_FOR_MAINTENANCE := 0x5e.
Definition Q931_IE_HLC_CI_RESERVED_FOR_MANAGEMENT := 0x5f.

(** [struct tm], as far as the elements use it, and the two functions of the C
    library on it. *)
Record tm := {
  tm_year : Z; tm_mon : Z; tm_mday : Z; tm_hour : Z; tm_min : Z; tm_sec : Z
}.

Record time_functions := {
  mktime : tm → Z;
  localtime : Z → tm;
}.

Definition b2o {A} (b : bool) (a : A) : option A := if b then Some a else None.

(** ** Elements of fixed layout *)

Definition q931_ie_sending_complete_write_to_buf : outcome (option (list Z)) :=
  Done (Some [Q931_IE_SENDING_COMPLETE]).

Definition q931_ie_cause_read_from_buf (buf : list Z) (len : Z)
    : outcome (option q931_ie_cause) :=
  if len <? 2 then Done None
  else
    oct_3 ← oct buf 0;
    (* octet 3a, when octet 3 is extended, moves octet 4 *)
    next ← (if bits oct_3 7 1 =? 0 then
              oct_3a ← oct buf 1;
              if bits oct_3a 7 1 =? 0 then Done None
              else if bits oct_3a 0 7 =? 0 then Done (Some 2%nat) else Done None
            else Done (Some 1%nat));
    match next with
    | None => Done None
    | Some nextoct =>
        oct_4 ← oct buf nextoct;
        Done (Some {| c_coding_standard := bits oct_3 5 2; c_location := 0;
                      c_value := bits oct_4 0 7; c_recommendation := 0;
                      c_diagnostics := [] |})
    end.

Definition q931_ie_cause_write_to_buf (ie : q931_ie_cause) : outcome (option (list Z)) :=
  Done (Some ([octet [(1, 7, 1); (c_coding_standard ie, 5, 2); (c_location ie, 0, 4)];
               octet [(1, 7, 1); (c_value ie, 0, 7)]] ++ c_diagnostics ie)).

Definition q931_ie_call_state_read_from_buf (buf : list Z) (len : Z)
    : outcome (option q931_ie_call_state) :=
  if len <? 1 then Done None
  else
    oct_3 ← oct buf 0;
    if negb (bits oct_3 6 2 =? Q931_IE_CS_CS_CCITT) then Done None
    else Done (Some {| cs_coding_standard := bits oct_3 6 2; cs_value := bits oct_3 0 6 |}).

Definition q931_ie_call_state_write_to_buf (ie : q931_ie_call_state)
    : outcome (option (list Z)) :=
  Done (Some [octet [(cs_coding_standard ie, 6, 2); (cs_value ie, 0, 6)]]).

Definition q931_ie_progress_indicator_read_from_buf (buf : list Z) (len : Z)
    : outcome (option q931_ie_progress_indicator) :=
  if len <? 2 then Done None
  else
    oct_3 ← oct buf 0;
    if bits oct_3 7 1 =? 0 then Done None
    else
      oct_4 ← oct buf 1;
      if bits oct_4 7 1 =? 0 then Done None
      else Done (Some {| pi_coding_standard := bits oct_3 5 2; pi_location := bits oct_3 0 4;
                         pi_progress_description := bits oct_4 0 7 |}).

Definition q931_ie_progress_indicator_write_to_buf (ie : q931_ie_progress_indicator)
    : outcome (option (list Z)) :=
  Done (Some [octet [(1, 7, 1); (pi_coding_standard ie, 5, 2); (pi_location ie, 0, 4)];
              octet [(1, 7, 1); (pi_progress_description ie, 0, 7)]]).

Definition q931_ie_notification_indicator_read_from_buf (buf : list Z) (len : Z)
    : outcome (option Z) :=
  if negb (len =? 1) then Done None
  else
    oct_3 ← oct buf 0;
    if bits oct_3 7 1 =? 0 then Done None else Done (Some (bits oct_3 0 7)).

Definition q931_ie_notification_indicator_write_to_buf (description : Z)
    : outcome (option (list Z)) :=
  Done (Some [octet [(1, 7, 1); (description, 0, 7)]]).

Definition q931_ie_restart_indicator_read_from_buf (buf : list Z) (len : Z)
    : outcome (option Z) :=
  if len <? 1 then Done None
  else
    oct_3 ← oct buf 0;
    if negb (bits oct_3 7 1 =? 1) then Done None
    else
      let restart_class := bits oct_3 0 3 in
      if negb (restart_class =? Q931_IE_RI_C_INDICATED) &&
         negb (restart_class =? Q931_IE_RI_C_SINGLE_INTERFACE) &&
         negb (restart_class =? Q931_IE_RI_C_ALL_INTERFACES)
      then Done None else Done (Some restart_class).

Definition q931_ie_restart_indicator_write_to_buf (restart_class : Z)
    : outcome (option (list Z)) :=
  Done (Some [octet [(1, 7, 1); (restart_class, 0, 3)]]).

(** [data] has 8 octets although lengths up to 10 are accepted. *)
Definition q931_ie_call_identity_read_from_buf (buf : list Z) (len : Z)
    : outcome (option (list Z)) :=
  if len <? 1 then Done None
  else if 10 <? len then Done None
  else data ← memcpy_from buf 0 len 8; Done (Some data).

Definition q931_ie_call_identity_write_to_buf (data : list Z) : outcome (option (list Z)) :=
  Done (Some data).

(** [text] has 83 octets, the last one for the NUL. *)
Definition q931_ie_display_read_from_buf (buf : list Z) (len : Z)
    : outcome (option (list Z)) :=
  if len <? 1 then Done None
  else if 82 <? len then Done None
  else text ← memcpy_from buf 0 len 83; Done (Some text).

Definition q931_ie_display_write_to_buf (text : list Z) : outcome (option (list Z)) :=
  Done (Some (c_str text)).

(** ** Numbers.  The [number] arrays have 21 octets. *)

Definition Q931_NUMBER_SIZE := 21.

(** the NUL is stored at [number[len]], one past the end of the digits *)
Definition q931_ie_called_party_number_read_from_buf (buf : list Z) (len : Z)
    : outcome (option q931_ie_called_party_number) :=
  if len <? 1 then Done None
  else
    oct_3 ← oct buf 0;
    number ← memcpy_from buf 1 (len - 1) Q931_NUMBER_SIZE;
    if Q931_NUMBER_SIZE <=? len then Fault OutOfBounds
    else Done (Some {| cdpn_type_of_number := bits oct_3 4 3;
                       cdpn_numbering_plan_identificator := bits oct_3 0 4;
                       cdpn_number := number |}).

Definition q931_ie_called_party_number_write_to_buf (ie : q931_ie_called_party_number)
    : outcome (option (list Z)) :=
  Done (Some (octet [(1, 7, 1); (cdpn_type_of_number ie, 4, 3);
                     (cdpn_numbering_plan_identificator ie, 0, 4)]
              :: c_str (cdpn_number ie))).

(** The common part of the calling party number and of the connected number,
    from octet 3 on. *)
Definition number_read (buf : list Z) (len : Z)
    : outcome (option q931_ie_calling_party_number) :=
  oct_3 ← oct buf 0;
  ind ← (if bits oct_3 7 1 =? 0 then
           oct_3a ← oct buf 1; Done (2, bits oct_3a 5 2, bits oct_3a 0 2)
         else Done (1, 0, 0));
  let '(nextoct, presentation, screening) := ind in
  number ← memcpy_from buf nextoct (len - nextoct) Q931_NUMBER_SIZE;
  if Q931_NUMBER_SIZE <=? len - nextoct then Fault OutOfBounds
  else Done (Some {| cgpn_type_of_number := bits oct_3 4 3;
                     cgpn_numbering_plan_identificator := bits oct_3 0 4;
                     cgpn_presentation_indicator := presentation;
                     cgpn_screening_indicator := screening;
                     cgpn_number := number |}).

Definition number_write (ie : q931_ie_calling_party_number) : outcome (option (list Z)) :=
  Done (Some (octet [(0, 7, 1); (cgpn_type_of_number ie, 4, 3);
                     (cgpn_numbering_plan_identificator ie, 0, 4)]
              :: octet [(1, 7, 1); (cgpn_presentation_indicator ie, 5, 2);
                        (cgpn_screening_indicator ie, 0, 2)]
              :: c_str (cgpn_number ie))).

Definition q931_ie_calling_party_number_read_from_buf (buf : list Z) (len : Z)
    : outcome (option q931_ie_calling_party_number) :=
  if len =? 0 then
    Done (Some {| cgpn_type_of_number := 0; cgpn_numbering_plan_identificator := 0;
                  cgpn_presentation_indicator := 0; cgpn_screening_indicator := 0;
                  cgpn_number := [] |})
  else number_read buf len.

Definition q931_ie_calling_party_number_write_to_buf (ie : q931_ie_calling_party_number)
    : outcome (option (list Z)) := number_write ie.

Definition q931_ie_connected_number_read_from_buf (buf : list Z) (len : Z)
    : outcome (option q931_ie_calling_party_number) :=
  if len <? 1 then Done None else number_read buf len.

Definition q931_ie_connected_number_write_to_buf (ie : q931_ie_calling_party_number)
    : outcome (option (list Z)) := number_write ie.

(** ** Date and time *)

Section datetime.
  Context (tf : time_functions).

(** The thresholds on [len] count the two octets of the element's header too. *)
Definition q931_ie_datetime_read_from_buf (buf : list Z) (len : Z) : outcome (option Z) :=
  if len <? 2 then Done None
  else if 8 <? len then Done None
  else
    year ← oct buf 0;
    if 99 <? year then Done None else
    month ← (if 4 <=? len then oct buf 1 else Done 1);
    if (month <? 1) || (12 <? month) then Done None else
    day ← (if 5 <=? len then oct buf 2 else Done 1);
    if (day <? 1) || (31 <? day) then Done None else
    hour ← (if 6 <=? len then oct buf 3 else Done 0);
    if 24 <? hour then Done None else
    minute ← (if 7 <=? len then oct buf 4 else Done 0);
    if 59 <? minute then Done None else
    second ← (if 8 <=? len then oct buf 5 else Done 0);
    if 61 <? second then Done None else
    Done (Some (mktime tf {| tm_year := year; tm_mon := month - 1; tm_mday := day;
                             tm_hour := hour; tm_min := minute; tm_sec := second |})).

Definition q931_ie_datetime_write_to_buf (time : Z) : outcome (option (list Z)) :=
  let tm := localtime tf time in
  Done (Some [u8 (Z.rem (tm_year tm) 100); u8 (tm_mon tm + 1); u8 (tm_mday tm);
              u8 (tm_hour tm); u8 (tm_min tm); u8 (tm_sec tm)]).
End datetime.

(** ** Bearer capability, low and high layer compatibility *)

(** [q931_ie_bearer_capability_oct_ident] *)
Definition oct_ident (b : Z) : Z := Z.shiftr (Z.land b 0x60) 5.

(** Octets 4 to 4b: where octet 5 starts, or [None] when 4b is extended. *)
Definition bc_read_oct_4 (buf : list Z) : outcome (option nat) :=
  oct_4 ← oct buf 1;
  if negb (bits oct_4 7 1 =? 0) then Done (Some 2%nat) else
  oct_4a ← oct buf 2;
  if negb (bits oct_4a 7 1 =? 0) then Done (Some 3%nat) else
  oct_4b ← oct buf 3;
  if bits oct_4b 7 1 =? 0 then Done None else Done (Some 4%nat).

(** Octets 5 to 5d: the layer 1 protocol and where octet 6 starts. *)
Definition bc_read_oct_5 (buf : list Z) (nextoct : nat) : outcome (option (Z * nat)) :=
  b ← oct buf nextoct;
  if negb (oct_ident b =? Q931_IE_BC_LAYER_1_IDENT)
  then Done (Some (Q931_IE_BC_UIL1P_UNUSED, nextoct)) else
  let proto := bits b 0 5 in
  if negb (bits b 7 1 =? 0) then Done (Some (proto, nextoct + 1)%nat) else
  oct_5a ← oct buf (nextoct + 1);
  if negb (bits oct_5a 7 1 =? 0) then Done (Some (proto, nextoct + 2)%nat) else
  if negb ((proto =? Q931_IE_BC_UIL1P_V110) || (proto =? Q931_IE_BC_UIL1P_V120))
  then Done None else
  oct_5b ← oct buf (nextoct + 2);
  if negb (bits oct_5b 7 1 =? 0) then Done (Some (proto, nextoct + 3)%nat) else
  oct_5c ← oct buf (nextoct + 3);
  if negb (bits oct_5c 7 1 =? 0) then Done (Some (proto, nextoct + 4)%nat) else
  oct_5d ← oct buf (nextoct + 4);
  if negb (bits oct_5d 7 1 =? 0) then Done None
  else Done (Some (proto, nextoct + 5)%nat).

(** Octets 6 and 7 of the bearer capability; [ident] is the layer's mark. *)
Definition bc_read_layer (buf : list Z) (nextoct : nat) (ident : Z)
    : outcome (option (Z * nat)) :=
  b ← oct buf nextoct;
  if negb (oct_ident b =? ident) then Done (Some (-1, nextoct)) else
  if negb (bits b 7 1 =? 0) then Done None
  else Done (Some (bits b 0 5, nextoct + 1)%nat).

Definition q931_ie_bearer_capability_read_from_buf (buf : list Z) (len : Z)
    : outcome (option q931_ie_bearer_capability) :=
  if len <? 2 then Done None else
  oct_3 ← oct buf 0;
  if bits oct_3 7 1 =? 0 then Done None else
  oct_4 ← oct buf 1;
  let ie l1 l2 l3 :=
    Some {| bc_coding_standard := bits oct_3 5 2;
            bc_information_transfer_capability := bits oct_3 0 5;
            bc_transfer_mode := bits oct_4 5 2;
            bc_information_transfer_rate := bits oct_4 0 5;
            bc_user_information_layer_1_protocol := l1;
            bc_user_information_layer_2_protocol := l2;
            bc_user_information_layer_3_protocol := l3 |} in
  oct_4_end ← bc_read_oct_4 buf;
  match oct_4_end with
  | None => Done None
  | Some n4 =>
      oct_5_end ← bc_read_oct_5 buf n4;
      match oct_5_end with
      | None => Done None
      | Some (l1, n5) =>
          if len <=? Z.of_nat n5 then Done (ie l1 (-1) (-1)) else
          layer_2 ← bc_read_layer buf n5 Q931_IE_BC_LAYER_2_IDENT;
          match layer_2 with
          | None => Done None
          | Some (l2, n6) =>
              if len <=? Z.of_nat n6 then Done (ie l1 l2 (-1)) else
              layer_3 ← bc_read_layer buf n6 Q931_IE_BC_LAYER_3_IDENT;
              match layer_3 with
              | None => Done None
              | Some (l3, _) => Done (ie l1 l2 l3)
              end
          end
      end
  end.

(** The last test is on the layer 2 protocol again. *)
Definition q931_ie_bearer_capability_write_to_buf (ie : q931_ie_bearer_capability)
    : outcome (option (list Z)) :=
  let oct_3 := octet [(1, 7, 1); (bc_coding_standard ie, 5, 2);
                      (bc_information_transfer_capability ie, 0, 5)] in
  let oct_4 := octet [(1, 7, 1); (bc_transfer_mode ie, 5, 2);
                      (bc_information_transfer_rate ie, 0, 5)] in
  let oct_5 :=
    if negb ((bc_transfer_mode ie =? Q931_IE_BC_TM_CIRCUIT) &&
             ((bc_information_transfer_capability ie =? Q931_IE_BC_ITC_UNRESTRICTED_DIGITAL) ||
              (bc_information_transfer_capability ie =? Q931_IE_BC_ITC_RESTRICTED_DIGITAL)) &&
             (bc_user_information_layer_1_protocol ie =? Q931_IE_BC_UIL1P_UNUSED))
    then [octet [(1, 7, 1); (Q931_IE_BC_LAYER_1_IDENT, 5, 2);
                 (bc_user_information_layer_1_protocol ie, 0, 5)]]
    else [] in
  if (bc_transfer_mode ie =? Q931_IE_BC_TM_PACKET) ||
     negb (bc_user_information_layer_2_protocol ie =? Q931_IE_BC_UIL2P_UNUSED)
  then Done None
  else if negb (bc_user_information_layer_2_protocol ie =? Q931_IE_BC_UIL3P_UNUSED)
  then Done None
  else Done (Some ([oct_3; oct_4] ++ oct_5)).

(** Octets 6/6a and 7/7a of the low layer compatibility. *)
Definition llc_read_layer_2 (buf : list Z) (nextoct : nat) (len : Z)
    : outcome (option (Z * nat)) :=
  b ← oct buf nextoct;
  if negb (oct_ident b =? Q931_IE_BC_LAYER_2_IDENT) then Done (Some (-1, nextoct)) else
  if negb (bits b 7 1 =? 0) then Done (Some (bits b 0 5, nextoct + 1)%nat) else
  if len <=? Z.of_nat (nextoct + 1) then Done (Some (bits b 0 5, nextoct + 1)%nat) else
  oct_6a ← oct buf (nextoct + 1);
  if negb (bits oct_6a 7 1 =? 0) then Done None
  else Done (Some (bits b 0 5, nextoct + 2)%nat).

Definition llc_read_layer_3 (buf : list Z) (nextoct : nat) : outcome (option Z) :=
  b ← oct buf nextoct;
  if negb (oct_ident b =? Q931_IE_BC_LAYER_3_IDENT) then Done (Some (-1)) else
  if negb (bits b 7 1 =? 0) then Done (Some (bits b 0 5)) else
  oct_7a ← oct buf (nextoct + 1);
  if negb (bits oct_7a 7 1 =? 0) then Done None else Done (Some (bits b 0 5)).

Definition q931_ie_low_layer_compatibility_read_from_buf (buf : list Z) (len : Z)
    : outcome (option q931_ie_bearer_capability) :=
  if len <? 2 then Done None else
  oct_3 ← oct buf 0;
  if bits oct_3 7 1 =? 0 then Done None else
  oct_4 ← oct buf 1;
  let ie l1 l2 l3 :=
    Some {| bc_coding_standard := bits oct_3 5 2;
            bc_information_transfer_capability := bits oct_3 0 5;
            bc_transfer_mode := bits oct_4 5 2;
            bc_information_transfer_rate := bits oct_4 0 5;
            bc_user_information_layer_1_protocol := l1;
            bc_user_information_layer_2_protocol := l2;
            bc_user_information_layer_3_protocol := l3 |} in
  oct_4_end ← bc_read_oct_4 buf;
  match oct_4_end with
  | None => Done None
  | Some n4 =>
      oct_5_end ← bc_read_oct_5 buf n4;
      match oct_5_end with
      | None => Done None
      | Some (l1, n5) =>
          if len <=? Z.of_nat n5 then Done (ie l1 (-1) (-1)) else
          layer_2 ← llc_read_layer_2 buf n5 len;
          match layer_2 with
          | None => Done None
          | Some (l2, n6) =>
              if len <=? Z.of_nat n6 then Done (ie l1 l2 (-1)) else
              layer_3 ← llc_read_layer_3 buf n6;
              match layer_3 with
              | None => Done None
              | Some l3 => Done (ie l1 l2 l3)
              end
          end
      end
  end.

Definition q931_ie_low_layer_compatibility_write_to_buf (ie : q931_ie_bearer_capability)
    : outcome (option (list Z)) := q931_ie_bearer_capability_write_to_buf ie.

(** ** Channel identification *)

(** [&intf->channels[n]]: the array has 32 channels. *)
Definition intf_channel_ptr (n : Z) : outcome nat :=
  if (0 <=? n) && (n <? 32) then Done (Z.to_nat n) else Fault OutOfBounds.

(** The loop over octets 3d, from octet [nextoct]; an octet is read at every
    iteration, so the length of the buffer bounds the loop. *)
Fixpoint ci_read_oct_3d (fuel : nat) (buf : list Z) (len : Z) (nextoct : nat)
    (chanset : list nat) : outcome (list nat) :=
  match fuel with
  | O => Fault OutOfBounds
  | S fuel' =>
      oct_3d ← oct buf nextoct;
      chan ← intf_channel_ptr (bits oct_3d 0 7);
      chanset' ← q931_chanset_add chanset chan;
      if (bits oct_3d 7 1 =? 0) && (Z.of_nat (nextoct + 1) <? len)
      then ci_read_oct_3d fuel' buf len (nextoct + 1) chanset'
      else Done chanset'
  end.

Fixpoint ci_add_channels (chans chanset : list nat) : outcome (list nat) :=
  match chans with
  | [] => Done chanset
  | c :: cs => chanset' ← q931_chanset_add chanset c; ci_add_channels cs chanset'
  end.

Definition q931_ie_channel_identification_read_from_buf
    (intf_type : lapd_intf_type) (n_channels : nat) (buf : list Z) (len : Z)
    : outcome (option q931_ie_channel_identification) :=
  if len <? 1 then Done None else
  oct_3 ← oct buf 0;
  if bits oct_3 6 1 =? Q931_IE_CI_IIP_EXPLICIT then Done None else
  if bits oct_3 2 1 =? Q931_IE_CI_DCI_IS_D_CHAN then Done None else
  let ie any chanset :=
    Some {| ci_interface_id_present := bits oct_3 6 1;
            ci_interface_type := bits oct_3 5 1;
            ci_preferred_exclusive := bits oct_3 3 1;
            ci_d_channel_indicator := bits oct_3 2 1;
            ci_coding_standard := 0;
            ci_any_channel := any;
            ci_chanset := chanset |} in
  let selection := bits oct_3 0 2 in
  if bits oct_3 5 1 =? Q931_IE_CI_IT_PRIMARY then
    if len <? 2 then Done None else
    if decide (intf_type = LAPD_INTF_TYPE_BRA) then Done None else
    oct_3c ← oct buf 1;
    if negb (bits oct_3c 5 2 =? Q931_IE_CI_CS_CCITT) then Done None else
    if bits oct_3c 4 1 =? Q931_IE_CI_NM_MAP then Done None else
    if selection =? Q931_IE_CI_ICS_PRA_INDICATED then
      chanset ← ci_read_oct_3d (length buf) buf len 2 q931_chanset_init;
      Done (ie false chanset)
    else if selection =? Q931_IE_CI_ICS_PRA_ANY then
      chanset ← ci_add_channels (seq 0 n_channels) q931_chanset_init;
      Done (ie true chanset)
    else Done (ie false q931_chanset_init)
  else
    if decide (intf_type = LAPD_INTF_TYPE_PRA) then Done None else
    if selection =? Q931_IE_CI_ICS_BRA_B1 then
      chanset ← q931_chanset_add q931_chanset_init 0; Done (ie false chanset)
    else if selection =? Q931_IE_CI_ICS_BRA_B2 then
      chanset ← q931_chanset_add q931_chanset_init 1; Done (ie false chanset)
    else if selection =? Q931_IE_CI_ICS_BRA_ANY then
      chanset ← ci_add_channels [0; 1]%nat q931_chanset_init;
      if bits oct_3 3 1 =? Q931_IE_CI_PE_EXCLUSIVE then Done None
      else Done (ie true chanset)
    else Done (ie false q931_chanset_init).

Section channel_identification.
  (** [chan->id] of the channels of the interface *)
  Context (chan_id : nat → Z).

Definition ci_oct_3 (ie : q931_ie_channel_identification) (itype selection : Z) : Z :=
  octet [(1, 7, 1); (Q931_IE_CI_IIP_IMPLICIT, 6, 1); (itype, 5, 1);
         (ci_preferred_exclusive ie, 3, 1); (ci_d_channel_indicator ie, 2, 1);
         (selection, 0, 2)].

Definition q931_ie_channel_identification_write_to_buf_bra
    (ie : q931_ie_channel_identification) : outcome (list Z) :=
  let is_b c := (chan_id c =? 0) || (chan_id c =? 1) in
  selection ←
    (if ci_any_channel ie then Done Q931_IE_CI_ICS_BRA_ANY
     else match ci_chanset ie with
          | [] => Done Q931_IE_CI_ICS_BRA_NO_CHANNEL
          | [c] => if chan_id c =? 0 then Done Q931_IE_CI_ICS_BRA_B1
                   else if chan_id c =? 1 then Done Q931_IE_CI_ICS_BRA_B2
                   else Fault AssertFail
          | [c1; c2] => if is_b c1 && is_b c2 then Done Q931_IE_CI_ICS_BRA_ANY
                        else Fault AssertFail
          | _ => Fault AssertFail
          end);
  Done [ci_oct_3 ie Q931_IE_CI_IT_BASIC selection].

(** every octet 3d is marked as the last one *)
Definition q931_ie_channel_identification_write_to_buf_pra
    (ie : q931_ie_channel_identification) : outcome (list Z) :=
  let selection :=
    if ci_any_channel ie then Q931_IE_CI_ICS_PRA_ANY
    else match ci_chanset ie with
         | [] => Q931_IE_CI_ICS_PRA_NO_CHANNEL
         | _ => Q931_IE_CI_ICS_PRA_INDICATED
         end in
  let oct_3c := octet [(1, 7, 1); (Q931_IE_CI_CS_CCITT, 5, 2); (Q931_IE_CI_NM_NUMBER, 4, 1);
                       (Q931_IE_CI_ET_B, 0, 4)] in
  Done ([ci_oct_3 ie Q931_IE_CI_IT_PRIMARY selection; oct_3c] ++
        (if selection =? Q931_IE_CI_ICS_PRA_INDICATED
         then map (λ c, octet [(1, 7, 1); (chan_id c, 0, 7)]) (ci_chanset ie) else [])).

Definition q931_ie_channel_identification_write_to_buf
    (ie : q931_ie_channel_identification) : outcome (option (list Z)) :=
  if ci_interface_type ie =? Q931_IE_CI_IT_BASIC
  then os ← q931_ie_channel_identification_write_to_buf_bra ie; Done (Some os)
  else os ← q931_ie_channel_identification_write_to_buf_pra ie; Done (Some os).
End channel_identification.

(** [q931_ie_channel_identification_alloc] and the fields every caller sets *)
Definition q931_ie_channel_identification_intftype (t : lapd_intf_type) : Z :=
  match t with
  | LAPD_INTF_TYPE_BRA => Q931_IE_CI_IT_BASIC
  | LAPD_INTF_TYPE_PRA => Q931_IE_CI_IT_PRIMARY
  end.

(** ** High layer compatibility *)

Definition q931_ie_high_layer_compatibility_read_from_buf (buf : list Z) (len : Z)
    : outcome (option q931_ie_high_layer_compatibility) :=
  if len <? 2 then Done None else
  oct_3 ← oct buf 0;
  oct_4 ← oct buf 1;
  let ie ext :=
    Some {| hlc_coding_standard := bits oct_3 5 2;
            hlc_interpretation := bits oct_3 2 3;
            hlc_presentation_method := bits oct_3 0 2;
            hlc_characteristics_identification := bits oct_4 0 7;
            hlc_extended_characteristics_identification := ext |} in
  if bits oct_4 7 1 =? 0 then
    if len <? 3 then Done None else
    oct_4a ← oct buf 2;
    if negb (bits oct_4a 7 1 =? 0) then Done None else Done (ie (bits oct_4a 0 7))
  else Done (ie 0).

Definition q931_ie_high_layer_compatibility_write_to_buf
    (ie : q931_ie_high_layer_compatibility) : outcome (option (list Z)) :=
  let oct_3 := octet [(1, 7, 1); (hlc_coding_standard ie, 5, 2);
                      (hlc_interpretation ie, 2, 3); (hlc_presentation_method ie, 0, 2)] in
  let chars := hlc_characteristics_identification ie in
  if (chars =? Q931_IE_HLC_CI_RESERVED_FOR_MAINTENANCE) ||
     (chars =? Q931_IE_HLC_CI_RESERVED_FOR_MANAGEMENT)
  then Done (Some [oct_3; octet [(0, 7, 1); (chars, 0, 7)];
                   octet [(1, 7, 1); (hlc_extended_characteristics_identification ie, 0, 7)]])
  else Done (Some [oct_3; octet [(1, 7, 1); (chars, 0, 7)]]).

(** ** The location of the party a cause or a progress indicator comes from *)

Definition q931_ie_cause_location_private (d : q931_call_direction) (role : lapd_intf_role) : Z :=
  match role, d with
  | LAPD_INTF_ROLE_NT, Q931_CALL_DIRECTION_INBOUND =>
      Q931_IE_C_L_PRIVATE_NETWORK_SERVING_LOCAL_USER
  | LAPD_INTF_ROLE_NT, _ => Q931_IE_C_L_PRIVATE_NETWORK_SERVING_REMOTE_USER
  | _, Q931_CALL_DIRECTION_INBOUND => Q931_IE_C_L_PRIVATE_NETWORK_SERVING_REMOTE_USER
  | _, _ => Q931_IE_C_L_PRIVATE_NETWORK_SERVING_LOCAL_USER
  end.

Definition q931_ie_cause_location_local (d : q931_call_direction) (role : lapd_intf_role) : Z :=
  match role, d with
  | LAPD_INTF_ROLE_NT, Q931_CALL_DIRECTION_INBOUND =>
      Q931_IE_C_L_PUBLIC_NETWORK_SERVING_LOCAL_USER
  | LAPD_INTF_ROLE_NT, _ => Q931_IE_C_L_PUBLIC_NETWORK_SERVING_REMOTE_USER
  | _, Q931_CALL_DIRECTION_INBOUND => Q931_IE_C_L_PUBLIC_NETWORK_SERVING_REMOTE_USER
  | _, _ => Q931_IE_C_L_PUBLIC_NETWORK_SERVING_LOCAL_USER
  end.

Definition q931_ie_cause_location (d : q931_call_direction)
    (network_role : q931_interface_network_role) (role : lapd_intf_role) : Z :=
  match network_role with
  | Q931_INTF_NET_USER => Q931_IE_C_L_USER
  | Q931_INTF_NET_PRIVATE => q931_ie_cause_location_private d role
  | Q931_INTF_NET_LOCAL => q931_ie_cause_location_local d role
  | Q931_INTF_NET_TRANSIT => Q931_IE_C_L_TRANSIT_NETWORK
  | Q931_INTF_NET_INTERNATIONAL => Q931_IE_C_L_INTERNATIONAL_NETWORK
  end.

(** The numbers of the progress indicator's locations are those of the cause. *)
Definition q931_ie_progress_indicator_location (d : q931_call_direction)
    (network_role : q931_interface_network_role) (role : lapd_intf_role) : Z :=
  match network_role with
  | Q931_INTF_NET_USER => Q931_IE_C_L_USER
  | Q931_INTF_NET_PRIVATE => q931_ie_cause_location_private d role
  | Q931_INTF_NET_LOCAL | Q931_INTF_NET_TRANSIT => q931_ie_cause_location_local d role
  | Q931_INTF_NET_INTERNATIONAL => Q931_IE_C_L_INTERNATIONAL_NETWORK
  end.

(** ** The functions of a class, by the element's identifier *)

Record ie_env := {
  env_time : time_functions;
  env_type : lapd_intf_type;
  env_n_channels : nat;
  env_chan_id : nat → Z;
}.

Definition as_ie {A} (f : A → q931_ie) (o : outcome (option A)) : outcome (option q931_ie) :=
  r ← o; Done (option_map f r).

(** [ie->cls->read_from_buf] of the class of identifier [id]; [None] when the
    class has no reader. *)
Definition q931_ie_read_from_buf (env : ie_env) (id : Z)
    : option (list Z → Z → outcome (option q931_ie)) :=
  if id =? Q931_IE_SENDING_COMPLETE then Some (λ _ _, Done (Some IE_SENDING_COMPLETE))
  else if id =? Q931_IE_BEARER_CAPABILITY then
    Some (λ b l, as_ie IE_BEARER_CAPABILITY (q931_ie_bearer_capability_read_from_buf b l))
  else if id =? Q931_IE_CAUSE then
    Some (λ b l, as_ie IE_CAUSE (q931_ie_cause_read_from_buf b l))
  else if id =? Q931_IE_CALL_IDENTITY then
    Some (λ b l, as_ie IE_CALL_IDENTITY (q931_ie_call_identity_read_from_buf b l))
  else if id =? Q931_IE_CALL_STATE then
    Some (λ b l, as_ie IE_CALL_STATE (q931_ie_call_state_read_from_buf b l))
  else if id =? Q931_IE_CHANNEL_IDENTIFICATION then
    Some (λ b l, as_ie IE_CHANNEL_IDENTIFICATION
            (q931_ie_channel_identification_read_from_buf
               (env_type env) (env_n_channels env) b l))
  else if id =? Q931_IE_PROGRESS_INDICATOR then
    Some (λ b l, as_ie IE_PROGRESS_INDICATOR (q931_ie_progress_indicator_read_from_buf b l))
  else if id =? Q931_IE_NOTIFICATION_INDICATOR then
    Some (λ b l, as_ie IE_NOTIFICATION_INDICATOR
            (q931_ie_notification_indicator_read_from_buf b l))
  else if id =? Q931_IE_DISPLAY then
    Some (λ b l, as_ie IE_DISPLAY (q931_ie_display_read_from_buf b l))
  else if id =? Q931_IE_DATETIME then
    Some (λ b l, as_ie IE_DATETIME (q931_ie_datetime_read_from_buf (env_time env) b l))
  else if id =? Q931_IE_CONNECTED_NUMBER then
    Some (λ b l, as_ie IE_CONNECTED_NUMBER (q931_ie_connected_number_read_from_buf b l))
  else if id =? Q931_IE_CALLING_PARTY_NUMBER then
    Some (λ b l, as_ie IE_CALLING_PARTY_NUMBER
            (q931_ie_calling_party_number_read_from_buf b l))
  else if id =? Q931_IE_CALLED_PARTY_NUMBER then
    Some (λ b l, as_ie IE_CALLED_PARTY_NUMBER
            (q931_ie_called_party_number_read_from_buf b l))
  else if id =? Q931_IE_RESTART_INDICATOR then
    Some (λ b l, as_ie IE_RESTART_INDICATOR (q931_ie_restart_indicator_read_from_buf b l))
  else if id =? Q931_IE_LOW_LAYER_COMPATIBILITY then
    Some (λ b l, as_ie IE_LOW_LAYER_COMPATIBILITY
            (q931_ie_low_layer_compatibility_read_from_buf b l))
  else if id =? Q931_IE_HIGH_LAYER_COMPATIBILITY then
    Some (λ b l, as_ie IE_HIGH_LAYER_COMPATIBILITY
            (q931_ie_high_layer_compatibility_read_from_buf b l))
  else None.

(** [ie->cls->write_to_buf(ie, ...)] *)
Definition q931_ie_write_to_buf (env : ie_env) (ie : q931_ie) : outcome (option (list Z)) :=
  match ie with
  | IE_SENDING_COMPLETE => q931_ie_sending_complete_write_to_buf
  | IE_BEARER_CAPABILITY bc => q931_ie_bearer_capability_write_to_buf bc
  | IE_CAUSE c => q931_ie_cause_write_to_buf c
  | IE_CALL_IDENTITY d => q931_ie_call_identity_write_to_buf d
  | IE_CALL_STATE cs => q931_ie_call_state_write_to_buf cs
  | IE_CHANNEL_IDENTIFICATION ci =>
      q931_ie_channel_identification_write_to_buf (env_chan_id env) ci
  | IE_PROGRESS_INDICATOR pi => q931_ie_progress_indicator_write_to_buf pi
  | IE_NOTIFICATION_INDICATOR d => q931_ie_notification_indicator_write_to_buf d
  | IE_DISPLAY t => q931_ie_display_write_to_buf t
  | IE_DATETIME t => q931_ie_datetime_write_to_buf (env_time env) t
  | IE_CONNECTED_NUMBER n => q931_ie_connected_number_write_to_buf n
  | IE_CALLING_PARTY_NUMBER n => q931_ie_calling_party_number_write_to_buf n
  | IE_CALLED_PARTY_NUMBER n => q931_ie_called_party_number_write_to_buf n
  | IE_RESTART_INDICATOR r => q931_ie_restart_indicator_write_to_buf r
  | IE_LOW_LAYER_COMPATIBILITY l => q931_ie_low_layer_compatibility_write_to_buf l
  | IE_HIGH_LAYER_COMPATIBILITY h => q931_ie_high_layer_compatibility_write_to_buf h
  end.
