(* ===== verification/Q931IEThm.v ===== *)
(** * Round trips of the information elements

    What a writer of [Q931IE] stores, the reader of the same class reads back,
    whatever follows in the message buffer.  [ie_wf] says for which elements:
    the values fit their bit fields, the strings fit their arrays and have no
    NUL.  [ie_read_back] is what comes back: the element itself except for the
    fields the readers drop. *)

From stdpp Require Import base list gmap.
From Stdlib Require Import ZArith Lia.
From S2P Require Import Prelude.
From S2P Require Import Bits.
From S2P Require Import Q931Defs.
From S2P Require Import Q931Tables.
From S2P Require Import Q931Sets.
From S2P Require Import Q931IE.
Local Open Scope Z_scope.



































(** The readers do not stay inside the element: a bearer capability of two
    octets (unrestricted digital, 64 kbit/s) takes the identifier of the element
    after it for its octet 5 when it looks like one, here a display. *)
Lemma bearer_capability_overrun :
  q931_ie_bearer_capability_read_from_buf [0x88; 0x90; 0x28; 0x81; 0x41] 2
  = Done (Some {| bc_coding_standard := 0; bc_information_transfer_capability := 8;
                  bc_transfer_mode := 0; bc_information_transfer_rate := 16;
                  bc_user_information_layer_1_protocol := 8;
                  bc_user_information_layer_2_protocol := -1;
                  bc_user_information_layer_3_protocol := -1 |}).
Proof. reflexivity. Qed.

(** The list of channels of a primary rate is not read back: every octet 3d is
    written as the last one. *)
Lemma channel_list_truncated :
  let ci := {| ci_interface_id_present := 0; ci_interface_type := Q931_IE_CI_IT_PRIMARY;
               ci_preferred_exclusive := 1; ci_d_channel_indicator := 0;
               ci_coding_standard := 0; ci_any_channel := false;
               ci_chanset := [3; 5]%nat |} in
  ∃ os ci', q931_ie_channel_identification_write_to_buf Z.of_nat ci = Done (Some os) ∧
    q931_ie_channel_identification_read_from_buf LAPD_INTF_TYPE_PRA 30 os 4 = Done (Some ci') ∧
    ci_chanset ci' = [3]%nat.
Proof. eexists _, _. split_and!; reflexivity. Qed.

(** The called party number: 20 digits, the maximum the code knows
    ([Q931_MAX_DIGITS]), are one too many for the reader. *)
Lemma called_party_number_overflow :
  q931_ie_called_party_number_read_from_buf (0x81 :: replicate 20 0x31) 21 = Fault OutOfBounds.
Proof. reflexivity. Qed.

(** A calling party number of one octet that announces octet 3a copies -1 octets. *)
Lemma calling_party_number_underflow :
  q931_ie_calling_party_number_read_from_buf [0x01; 0x80; 0x05] 1 = Fault OutOfBounds.
Proof. reflexivity. Qed.

(** A call identity of 9 octets overflows [data]. *)
Lemma call_identity_overflow :
  q931_ie_call_identity_read_from_buf (replicate 9 0x31) 9 = Fault OutOfBounds.
Proof. reflexivity. Qed.

(** The date/time element is written with six octets, of which the reader takes
    the first four. *)
Lemma datetime_drops_minutes :
  ∃ os, q931_ie_datetime_write_to_buf
          {| mktime := tm_min; localtime := λ _, {| tm_year := 106; tm_mon := 10;
             tm_mday := 21; tm_hour := 15; tm_min := 42; tm_sec := 7 |} |} 0 = Done (Some os) ∧
  q931_ie_datetime_read_from_buf
    {| mktime := tm_min; localtime := λ _, {| tm_year := 0; tm_mon := 0;
       tm_mday := 0; tm_hour := 0; tm_min := 0; tm_sec := 0 |} |} os 6 = Done (Some 0).
Proof. eexists. split; reflexivity. Qed.

(** The high layer compatibilities with an octet 4a are refused by the reader. *)
Lemma maintenance_hlc_refused env :
  let h := {| hlc_coding_standard := 0; hlc_interpretation := 4; hlc_presentation_method := 1;
              hlc_characteristics_identification := 0x5e;
              hlc_extended_characteristics_identification := 1 |} in
  ∃ os, q931_ie_write_to_buf env (IE_HIGH_LAYER_COMPATIBILITY h) = Done (Some os) ∧
        q931_ie_high_layer_compatibility_read_from_buf os 3 = Done None.
Proof. eexists. split; reflexivity. Qed.

(** A freshly allocated bearer capability, whose protocols are zero and not
    [UNUSED], cannot be written: the writer returns -1. *)
Lemma zero_bearer_capability_not_written env itc :
  q931_ie_write_to_buf env (IE_BEARER_CAPABILITY
    {| bc_coding_standard := 0; bc_information_transfer_capability := itc;
       bc_transfer_mode := 0; bc_information_transfer_rate := 16;
       bc_user_information_layer_1_protocol := 3;
       bc_user_information_layer_2_protocol := 0;
       bc_user_information_layer_3_protocol := 0 |}) = Done None.
Proof. reflexivity. Qed.

(** The table of classes and the dispatch agree: exactly the classes with a
    reader in the table have one. *)
Lemma classes_have_readers env :
  map cls_read_from_buf q931_ie_classes =
  map (λ c, match q931_ie_read_from_buf env (cls_id c) with Some _ => true | None => false end)
      q931_ie_classes.
Proof. reflexivity. Qed.
