(* ===== verification/Q931World.v ===== *)
(** * The state of an interface and the primitive operations on it

    One interface ([struct q931_interface]) with everything reachable from it:
    the calls, the connection endpoint suffixes (CES) and the data link
    connections (DLC) are objects of three heaps indexed by addresses; the
    addresses of freed objects are never used again, so that a use after free
    is a fault.  [w_timers] is the list [q931_timers], [w_trace] the observable
    effects so far: frames handed to the sockets, connection requests,
    primitives queued for the call control block.  [w_env] is what the code asks
    the system: the clocks ([longtime_now], [time]), the results of [connect] and [sendmsg], the
    [is_number_complete] call-back; each may depend on the effects so far.
    Memory allocations succeed. *)

From stdpp Require Import base list gmap functions.
From Stdlib Require Import ZArith Lia.
From S2P Require Import Prelude.
From S2P Require Import Bits.
From S2P Require Import Q931Defs.
From S2P Require Import Q931Tables.
From S2P Require Import Q931Sets.
From S2P Require Import Q931IE.
Local Open Scope Z_scope.

Inductive call_timer : Set :=
| T301 | T302 | T303 | T304 | T305 | T306 | T308 | T309 | T310 | T312 | T313 | T314
| T316 | T318 | T319 | T320 | T321 | T322.

Inductive ces_timer : Set := CES_T304 | CES_T308 | CES_T322.
Inductive global_timer : Set := GLOBAL_T316 | GLOBAL_T317.

#[export] Instance call_timer_eq_dec : EqDecision call_timer.
Proof. solve_decision. Defined.
#[export] Instance ces_timer_eq_dec : EqDecision ces_timer.
Proof. solve_decision. Defined.
#[export] Instance global_timer_eq_dec : EqDecision global_timer.
Proof. solve_decision. Defined.

(** a [struct q931_timer] is named by the object it is part of *)
Inductive timer_id : Set :=
| TimerCall (call : nat) (t : call_timer)
| TimerCes (ces : nat) (t : ces_timer)
| TimerDlc (dlc : nat)
| TimerGlobal (t : global_timer).

#[export] Instance timer_id_eq_dec : EqDecision timer_id.
Proof. solve_decision. Defined.

Definition idle_timer : q931_timer := {| t_pending := false; t_expires := 0 |}.

(** ** Observable effects *)

Inductive event : Type :=
| EvFrame (dlc : nat) (frame : list Z)      (** [sendmsg(dlc->socket, frame, 0)] *)
| EvFrameOOB (dlc : nat) (frame : list Z)   (** the same with [MSG_OOB] *)
| EvConnect (dlc : nat)                     (** [connect(dlc->socket)] *)
| EvShutdown (dlc : nat)                    (** [shutdown(dlc->socket)] *)
| EvPrim (call : option nat) (p : q931_primitive) (ies : option q931_ies).

(** ** Records *)

(** [struct q931_call] *)
Record q931_call := {
  call_refcnt : Z;
  call_ces : list nat;
  call_preselected_ces : option nat;
  call_selected_ces : option nat;
  call_dlc : option nat;
  call_direction : q931_call_direction;
  call_call_reference : Z;
  call_state : q931_call_state;
  call_broadcast_setup : bool;
  call_tones_option : bool;
  call_T303_fired : bool;
  call_T308_fired : bool;
  call_senq_status_97_98_received : bool;
  call_senq_cnt : Z;
  call_disconnect_indication_sent : bool;
  call_release_complete_received : bool;
  call_digits_dialled : bool;
  call_setup_ies : list q931_ie;
  call_disconnect_cause : list q931_ie;
  call_saved_cause : list q931_ie;
  call_release_cause : list q931_ie;
  call_channel : option nat;
  call_timers : call_timer → q931_timer;
}.

Definition eta_q931_call (r : q931_call) : q931_call :=
  {| call_refcnt := call_refcnt r;
     call_ces := call_ces r;
     call_preselected_ces := call_preselected_ces r;
     call_selected_ces := call_selected_ces r;
     call_dlc := call_dlc r;
     call_direction := call_direction r;
     call_call_reference := call_call_reference r;
     call_state := call_state r;
     call_broadcast_setup := call_broadcast_setup r;
     call_tones_option := call_tones_option r;
     call_T303_fired := call_T303_fired r;
     call_T308_fired := call_T308_fired r;
     call_senq_status_97_98_received := call_senq_status_97_98_received r;
     call_senq_cnt := call_senq_cnt r;
     call_disconnect_indication_sent := call_disconnect_indication_sent r;
     call_release_complete_received := call_release_complete_received r;
     call_digits_dialled := call_digits_dialled r;
     call_setup_ies := call_setup_ies r;
     call_disconnect_cause := call_disconnect_cause r;
     call_saved_cause := call_saved_cause r;
     call_release_cause := call_release_cause r;
     call_channel := call_channel r;
     call_timers := call_timers r |}.

Definition set_call_refcnt (v : Z) (r : q931_call) : q931_call :=
  ltac:(upd_field call_refcnt eta_q931_call v r).
Definition set_call_ces (v : list nat) (r : q931_call) : q931_call :=
  ltac:(upd_field call_ces eta_q931_call v r).
Definition set_call_preselected_ces (v : option nat) (r : q931_call) : q931_call :=
  ltac:(upd_field call_preselected_ces eta_q931_call v r).
Definition set_call_selected_ces (v : option nat) (r : q931_call) : q931_call :=
  ltac:(upd_field call_selected_ces eta_q931_call v r).
Definition set_call_dlc (v : option nat) (r : q931_call) : q931_call :=
  ltac:(upd_field call_dlc eta_q931_call v r).
Definition set_call_direction (v : q931_call_direction) (r : q931_call) : q931_call :=
  ltac:(upd_field call_direction eta_q931_call v r).
Definition set_call_call_reference (v : Z) (r : q931_call) : q931_call :=
  ltac:(upd_field call_call_reference eta_q931_call v r).
Definition set_call_state (v : q931_call_state) (r : q931_call) : q931_call :=
  ltac:(upd_field call_state eta_q931_call v r).
Definition set_call_broadcast_setup (v : bool) (r : q931_call) : q931_call :=
  ltac:(upd_field call_broadcast_setup eta_q931_call v r).
Definition set_call_tones_option (v : bool) (r : q931_call) : q931_call :=
  ltac:(upd_field call_tones_option eta_q931_call v r).
Definition set_call_T303_fired (v : bool) (r : q931_call) : q931_call :=
  ltac:(upd_field call_T303_fired eta_q931_call v r).
Definition set_call_T308_fired (v : bool) (r : q931_call) : q931_call :=
  ltac:(upd_field call_T308_fired eta_q931_call v r).
Definition set_call_senq_status_97_98_received (v : bool) (r : q931_call) : q931_call :=
  ltac:(upd_field call_senq_status_97_98_received eta_q931_call v r).
Definition set_call_senq_cnt (v : Z) (r : q931_call) : q931_call :=
  ltac:(upd_field call_senq_cnt eta_q931_call v r).
Definition set_call_disconnect_indication_sent (v : bool) (r : q931_call) : q931_call :=
  ltac:(upd_field call_disconnect_indication_sent eta_q931_call v r).
Definition set_call_release_complete_received (v : bool) (r : q931_call) : q931_call :=
  ltac:(upd_field call_release_complete_received eta_q931_call v r).
Definition set_call_digits_dialled (v : bool) (r : q931_call) : q931_call :=
  ltac:(upd_field call_digits_dialled eta_q931_call v r).
Definition set_call_setup_ies (v : list q931_ie) (r : q931_call) : q931_call :=
  ltac:(upd_field call_setup_ies eta_q931_call v r).
Definition set_call_disconnect_cause (v : list q931_ie) (r : q931_call) : q931_call :=
  ltac:(upd_field call_disconnect_cause eta_q931_call v r).
Definition set_call_saved_cause (v : list q931_ie) (r : q931_call) : q931_call :=
  ltac:(upd_field call_saved_cause eta_q931_call v r).
Definition set_call_release_cause (v : list q931_ie) (r : q931_call) : q931_call :=
  ltac:(upd_field call_release_cause eta_q931_call v r).
Definition set_call_channel (v : option nat) (r : q931_call) : q931_call :=
  ltac:(upd_field call_channel eta_q931_call v r).
Definition set_call_timers (v : call_timer → q931_timer) (r : q931_call) : q931_call :=
  ltac:(upd_field call_timers eta_q931_call v r).

(** [struct q931_ces]; the fields no code initialises are options *)
Record q931_ces := {
  ces_call : nat;
  ces_dlc : nat;
  ces_state : q931_ces_state;
  ces_timers : ces_timer → q931_timer;
  ces_T308_fired : option bool;
  ces_senq_cause_97_98_received : option bool;
  ces_senq_cnt : option Z;
}.

Definition eta_q931_ces (r : q931_ces) : q931_ces :=
  {| ces_call := ces_call r;
     ces_dlc := ces_dlc r;
     ces_state := ces_state r;
     ces_timers := ces_timers r;
     ces_T308_fired := ces_T308_fired r;
     ces_senq_cause_97_98_received := ces_senq_cause_97_98_received r;
     ces_senq_cnt := ces_senq_cnt r |}.

Definition set_ces_call (v : nat) (r : q931_ces) : q931_ces :=
  ltac:(upd_field ces_call eta_q931_ces v r).
Definition set_ces_dlc (v : nat) (r : q931_ces) : q931_ces :=
  ltac:(upd_field ces_dlc eta_q931_ces v r).
Definition set_ces_state (v : q931_ces_state) (r : q931_ces) : q931_ces :=
  ltac:(upd_field ces_state eta_q931_ces v r).
Definition set_ces_timers (v : ces_timer → q931_timer) (r : q931_ces) : q931_ces :=
  ltac:(upd_field ces_timers eta_q931_ces v r).
Definition set_ces_T308_fired (v : option bool) (r : q931_ces) : q931_ces :=
  ltac:(upd_field ces_T308_fired eta_q931_ces v r).
Definition set_ces_senq_cause_97_98_received (v : option bool) (r : q931_ces) : q931_ces :=
  ltac:(upd_field ces_senq_cause_97_98_received eta_q931_ces v r).
Definition set_ces_senq_cnt (v : option Z) (r : q931_ces) : q931_ces :=
  ltac:(upd_field ces_senq_cnt eta_q931_ces v r).

(** [struct q931_dlc]; [dlc_intf]: is [intf] set? *)
Record q931_dlc := {
  dlc_intf : bool;
  dlc_holdcnt : Z;
  dlc_refcnt : Z;
  dlc_status : q931_dlc_status;
  dlc_tei : Z;
  dlc_autorelease_timer : q931_timer;
  dlc_outgoing_queue : list (list Z);
}.

Definition eta_q931_dlc (r : q931_dlc) : q931_dlc :=
  {| dlc_intf := dlc_intf r;
     dlc_holdcnt := dlc_holdcnt r;
     dlc_refcnt := dlc_refcnt r;
     dlc_status := dlc_status r;
     dlc_tei := dlc_tei r;
     dlc_autorelease_timer := dlc_autorelease_timer r;
     dlc_outgoing_queue := dlc_outgoing_queue r |}.

Definition set_dlc_intf (v : bool) (r : q931_dlc) : q931_dlc :=
  ltac:(upd_field dlc_intf eta_q931_dlc v r).
Definition set_dlc_holdcnt (v : Z) (r : q931_dlc) : q931_dlc :=
  ltac:(upd_field dlc_holdcnt eta_q931_dlc v r).
Definition set_dlc_refcnt (v : Z) (r : q931_dlc) : q931_dlc :=
  ltac:(upd_field dlc_refcnt eta_q931_dlc v r).
Definition set_dlc_status (v : q931_dlc_status) (r : q931_dlc) : q931_dlc :=
  ltac:(upd_field dlc_status eta_q931_dlc v r).
Definition set_dlc_tei (v : Z) (r : q931_dlc) : q931_dlc :=
  ltac:(upd_field dlc_tei eta_q931_dlc v r).
Definition set_dlc_autorelease_timer (v : q931_timer) (r : q931_dlc) : q931_dlc :=
  ltac:(upd_field dlc_autorelease_timer eta_q931_dlc v r).
Definition set_dlc_outgoing_queue (v : list (list Z)) (r : q931_dlc) : q931_dlc :=
  ltac:(upd_field dlc_outgoing_queue eta_q931_dlc v r).

(** [struct q931_global_call] *)
Record q931_global_call := {
  gc_state : q931_global_state;
  gc_timers : global_timer → q931_timer;
  gc_T317_expired : bool;
  gc_restart_retransmit_count : Z;
  gc_restart_responded : bool;
  gc_restart_acknowledged : bool;
  gc_restart_indicator : option Z;
  gc_restart_reqd_chans : list nat;
  gc_restart_acked_chans : list nat;
  gc_restart_dlc : option nat;
}.

Definition eta_q931_global_call (r : q931_global_call) : q931_global_call :=
  {| gc_state := gc_state r;
     gc_timers := gc_timers r;
     gc_T317_expired := gc_T317_expired r;
     gc_restart_retransmit_count := gc_restart_retransmit_count r;
     gc_restart_responded := gc_restart_responded r;
     gc_restart_acknowledged := gc_restart_acknowledged r;
     gc_restart_indicator := gc_restart_indicator r;
     gc_restart_reqd_chans := gc_restart_reqd_chans r;
     gc_restart_acked_chans := gc_restart_acked_chans r;
     gc_restart_dlc := gc_restart_dlc r |}.

Definition set_gc_state (v : q931_global_state) (r : q931_global_call) : q931_global_call :=
  ltac:(upd_field gc_state eta_q931_global_call v r).
Definition set_gc_timers (v : global_timer → q931_timer) (r : q931_global_call) : q931_global_call :=
  ltac:(upd_field gc_timers eta_q931_global_call v r).
Definition set_gc_T317_expired (v : bool) (r : q931_global_call) : q931_global_call :=
  ltac:(upd_field gc_T317_expired eta_q931_global_call v r).
Definition set_gc_restart_retransmit_count (v : Z) (r : q931_global_call) : q931_global_call :=
  ltac:(upd_field gc_restart_retransmit_count eta_q931_global_call v r).
Definition set_gc_restart_responded (v : bool) (r : q931_global_call) : q931_global_call :=
  ltac:(upd_field gc_restart_responded eta_q931_global_call v r).
Definition set_gc_restart_acknowledged (v : bool) (r : q931_global_call) : q931_global_call :=
  ltac:(upd_field gc_restart_acknowledged eta_q931_global_call v r).
Definition set_gc_restart_indicator (v : option Z) (r : q931_global_call) : q931_global_call :=
  ltac:(upd_field gc_restart_indicator eta_q931_global_call v r).
Definition set_gc_restart_reqd_chans (v : list nat) (r : q931_global_call) : q931_global_call :=
  ltac:(upd_field gc_restart_reqd_chans eta_q931_global_call v r).
Definition set_gc_restart_acked_chans (v : list nat) (r : q931_global_call) : q931_global_call :=
  ltac:(upd_field gc_restart_acked_chans eta_q931_global_call v r).
Definition set_gc_restart_dlc (v : option nat) (r : q931_global_call) : q931_global_call :=
  ltac:(upd_field gc_restart_dlc eta_q931_global_call v r).

(** [struct q931_interface]; [intf_T t] is the duration of timer [t] *)
Record q931_interface := {
  intf_type : lapd_intf_type;
  intf_mode : lapd_intf_mode;
  intf_role : lapd_intf_role;
  intf_network_role : q931_interface_network_role;
  intf_dlc_autorelease_time : Z;
  intf_enable_bumping : bool;
  intf_next_call_reference : Z;
  intf_call_reference_len : Z;
  intf_ncalls : Z;
  intf_calls : list nat;
  intf_channels : list q931_channel;
  intf_n_channels : nat;
  intf_T : call_timer → Z;
  intf_T317 : Z;
  intf_dlcs : list nat;
}.

Definition eta_q931_interface (r : q931_interface) : q931_interface :=
  {| intf_type := intf_type r;
     intf_mode := intf_mode r;
     intf_role := intf_role r;
     intf_network_role := intf_network_role r;
     intf_dlc_autorelease_time := intf_dlc_autorelease_time r;
     intf_enable_bumping := intf_enable_bumping r;
     intf_next_call_reference := intf_next_call_reference r;
     intf_call_reference_len := intf_call_reference_len r;
     intf_ncalls := intf_ncalls r;
     intf_calls := intf_calls r;
     intf_channels := intf_channels r;
     intf_n_channels := intf_n_channels r;
     intf_T := intf_T r;
     intf_T317 := intf_T317 r;
     intf_dlcs := intf_dlcs r |}.

Definition set_intf_type (v : lapd_intf_type) (r : q931_interface) : q931_interface :=
  ltac:(upd_field intf_type eta_q931_interface v r).
Definition set_intf_mode (v : lapd_intf_mode) (r : q931_interface) : q931_interface :=
  ltac:(upd_field intf_mode eta_q931_interface v r).
Definition set_intf_role (v : lapd_intf_role) (r : q931_interface) : q931_interface :=
  ltac:(upd_field intf_role eta_q931_interface v r).
Definition set_intf_network_role (v : q931_interface_network_role) (r : q931_interface) : q931_interface :=
  ltac:(upd_field intf_network_role eta_q931_interface v r).
Definition set_intf_dlc_autorelease_time (v : Z) (r : q931_interface) : q931_interface :=
  ltac:(upd_field intf_dlc_autorelease_time eta_q931_interface v r).
Definition set_intf_enable_bumping (v : bool) (r : q931_interface) : q931_interface :=
  ltac:(upd_field intf_enable_bumping eta_q931_interface v r).
Definition set_intf_next_call_reference (v : Z) (r : q931_interface) : q931_interface :=
  ltac:(upd_field intf_next_call_reference eta_q931_interface v r).
Definition set_intf_call_reference_len (v : Z) (r : q931_interface) : q931_interface :=
  ltac:(upd_field intf_call_reference_len eta_q931_interface v r).
Definition set_intf_ncalls (v : Z) (r : q931_interface) : q931_interface :=
  ltac:(upd_field intf_ncalls eta_q931_interface v r).
Definition set_intf_calls (v : list nat) (r : q931_interface) : q931_interface :=
  ltac:(upd_field intf_calls eta_q931_interface v r).
Definition set_intf_channels (v : list q931_channel) (r : q931_interface) : q931_interface :=
  ltac:(upd_field intf_channels eta_q931_interface v r).
Definition set_intf_n_channels (v : nat) (r : q931_interface) : q931_interface :=
  ltac:(upd_field intf_n_channels eta_q931_interface v r).
Definition set_intf_T (v : call_timer → Z) (r : q931_interface) : q931_interface :=
  ltac:(upd_field intf_T eta_q931_interface v r).
Definition set_intf_T317 (v : Z) (r : q931_interface) : q931_interface :=
  ltac:(upd_field intf_T317 eta_q931_interface v r).
Definition set_intf_dlcs (v : list nat) (r : q931_interface) : q931_interface :=
  ltac:(upd_field intf_dlcs eta_q931_interface v r).

(** what the code asks the system *)
Record world_env := {
  e_now : list event → Z;
  e_clock : list event → Z;
  e_connect : list event → nat → Z;
  e_sendmsg : list event → nat → Z;
  e_time : time_functions;
  e_is_number_complete : option (q931_call → bool);
}.

(** the interface and its objects *)
Record q931_world := {
  w_intf : q931_interface;
  w_calls : gmap nat q931_call;
  w_cess : gmap nat q931_ces;
  w_dlcs : gmap nat q931_dlc;
  w_gc : q931_global_call;
  w_timers : list timer_id;
  w_next : nat;
  w_trace : list event;
  w_env : world_env;
}.

Definition eta_q931_world (r : q931_world) : q931_world :=
  {| w_intf := w_intf r;
     w_calls := w_calls r;
     w_cess := w_cess r;
     w_dlcs := w_dlcs r;
     w_gc := w_gc r;
     w_timers := w_timers r;
     w_next := w_next r;
     w_trace := w_trace r;
     w_env := w_env r |}.

Definition set_w_intf (v : q931_interface) (r : q931_world) : q931_world :=
  ltac:(upd_field w_intf eta_q931_world v r).
Definition set_w_calls (v : gmap nat q931_call) (r : q931_world) : q931_world :=
  ltac:(upd_field w_calls eta_q931_world v r).
Definition set_w_cess (v : gmap nat q931_ces) (r : q931_world) : q931_world :=
  ltac:(upd_field w_cess eta_q931_world v r).
Definition set_w_dlcs (v : gmap nat q931_dlc) (r : q931_world) : q931_world :=
  ltac:(upd_field w_dlcs eta_q931_world v r).
Definition set_w_gc (v : q931_global_call) (r : q931_world) : q931_world :=
  ltac:(upd_field w_gc eta_q931_world v r).
Definition set_w_timers (v : list timer_id) (r : q931_world) : q931_world :=
  ltac:(upd_field w_timers eta_q931_world v r).
Definition set_w_next (v : nat) (r : q931_world) : q931_world :=
  ltac:(upd_field w_next eta_q931_world v r).
Definition set_w_trace (v : list event) (r : q931_world) : q931_world :=
  ltac:(upd_field w_trace eta_q931_world v r).
Definition set_w_env (v : world_env) (r : q931_world) : q931_world :=
  ltac:(upd_field w_env eta_q931_world v r).

(** the array [intf->channels] *)
Definition set_ch_state (s : q931_channel_state) (c : q931_channel) : q931_channel :=
  {| ch_id := ch_id c; ch_state := s; ch_call := ch_call c; ch_intf := ch_intf c |}.
Definition set_ch_call (o : option nat) (c : q931_channel) : q931_channel :=
  {| ch_id := ch_id c; ch_state := ch_state c; ch_call := o; ch_intf := ch_intf c |}.

Abbreviation W := (M q931_world).
