(* ===== verification/Q931Base.v ===== *)
(** * The primitive operations: heap access, [timer.c], [dlc.c], [channel.c],
    reference counting and allocation of calls and messages

    [read_*] is the dereference of a pointer, a fault when the object has been
    freed; [upd_*] the assignment to a field through a pointer.  The report
    macros dereference what they print: [report_call] and its like are reads
    without a result. *)

From stdpp Require Import base list gmap functions.
From Stdlib Require Import ZArith Lia.
From S2P Require Import Prelude.
From S2P Require Import Bits.
From S2P Require Import Q931Defs.
From S2P Require Import Q931Tables.
From S2P Require Import Q931Sets.
From S2P Require Import Q931IE.
From S2P Require Import Q931World.
Local Open Scope Z_scope.

(** ** Heap access *)

Definition read_call (c : nat) : W q931_call := λ w,
  match w_calls w !! c with Some r => Done (r, w) | None => Fault UseAfterFree end.
Definition read_ces (s : nat) : W q931_ces := λ w,
  match w_cess w !! s with Some r => Done (r, w) | None => Fault UseAfterFree end.
Definition read_dlc (d : nat) : W q931_dlc := λ w,
  match w_dlcs w !! d with Some r => Done (r, w) | None => Fault UseAfterFree end.
Definition read_chan (i : nat) : W q931_channel := λ w,
  match intf_channels (w_intf w) !! i with
  | Some r => Done (r, w) | None => Fault OutOfBounds end.
Definition read_intf : W q931_interface := λ w, Done (w_intf w, w).
Definition read_gc : W q931_global_call := λ w, Done (w_gc w, w).
Definition read_env : W world_env := λ w, Done (w_env w, w).

Definition put_call (c : nat) (r : q931_call) : W unit :=
  modify (λ w, set_w_calls (<[c := r]> (w_calls w)) w).
Definition put_ces (s : nat) (r : q931_ces) : W unit :=
  modify (λ w, set_w_cess (<[s := r]> (w_cess w)) w).
Definition put_dlc (d : nat) (r : q931_dlc) : W unit :=
  modify (λ w, set_w_dlcs (<[d := r]> (w_dlcs w)) w).
Definition put_chan (i : nat) (r : q931_channel) : W unit :=
  modify (λ w, set_w_intf (set_intf_channels (<[i := r]> (intf_channels (w_intf w)))
                                             (w_intf w)) w).

Definition upd_call (c : nat) (f : q931_call → q931_call) : W unit :=
  r ← read_call c; put_call c (f r).
Definition upd_ces (s : nat) (f : q931_ces → q931_ces) : W unit :=
  r ← read_ces s; put_ces s (f r).
Definition upd_dlc (d : nat) (f : q931_dlc → q931_dlc) : W unit :=
  r ← read_dlc d; put_dlc d (f r).
Definition upd_chan (i : nat) (f : q931_channel → q931_channel) : W unit :=
  r ← read_chan i; put_chan i (f r).
Definition upd_intf (f : q931_interface → q931_interface) : W unit :=
  modify (λ w, set_w_intf (f (w_intf w)) w).
Definition upd_gc (f : q931_global_call → q931_global_call) : W unit :=
  modify (λ w, set_w_gc (f (w_gc w)) w).

(** [free] of an object *)
Definition free_call (c : nat) : W unit :=
  modify (λ w, set_w_calls (delete c (w_calls w)) w).
Definition free_ces (s : nat) : W unit :=
  modify (λ w, set_w_cess (delete s (w_cess w)) w).

(** [malloc]: an address that has never been used *)
Definition fresh : W nat := λ w, Done (w_next w, set_w_next (S (w_next w)) w).

Definition emit (e : event) : W unit := modify (λ w, set_w_trace (w_trace w ++ [e]) w).

(** the reads of the report macros *)
Definition report_call (c : nat) : W unit := _ ← read_call c; mret tt.
Definition report_dlc (d : nat) : W unit :=
  r ← read_dlc d; if dlc_intf r then mret tt else fail NullDeref.
Definition report_chan (i : nat) : W unit :=
  r ← read_chan i; if ch_intf r then mret tt else fail NullDeref.
Definition report_ces (s : nat) : W unit :=
  r ← read_ces s; report_dlc (ces_dlc r).

(** [&intf->dlc] and [&intf->bc_dlc], the two connections inside the interface *)
Definition intf_dlc : nat := 0.
Definition intf_bc_dlc : nat := 1.
Definition LAPD_BROADCAST_TEI := 127.
Definition LAPD_DYNAMIC_TEI := 255.

(** ** timer.c *)

Definition get_timer (t : timer_id) : W q931_timer :=
  match t with
  | TimerCall c n => r ← read_call c; mret (call_timers r n)
  | TimerCes s n => r ← read_ces s; mret (ces_timers r n)
  | TimerDlc d => r ← read_dlc d; mret (dlc_autorelease_timer r)
  | TimerGlobal n => r ← read_gc; mret (gc_timers r n)
  end.

Definition put_timer (t : timer_id) (tm : q931_timer) : W unit :=
  match t with
  | TimerCall c n => upd_call c (λ r, set_call_timers (<[n := tm]> (call_timers r)) r)
  | TimerCes s n => upd_ces s (λ r, set_ces_timers (<[n := tm]> (ces_timers r)) r)
  | TimerDlc d => upd_dlc d (set_dlc_autorelease_timer tm)
  | TimerGlobal n => upd_gc (λ r, set_gc_timers (<[n := tm]> (gc_timers r)) r)
  end.

Definition q931_timer_pending (t : timer_id) : W bool :=
  tm ← get_timer t; mret (t_pending tm).

Definition timers_add_tail (t : timer_id) : W unit :=
  modify (λ w, set_w_timers (w_timers w ++ [t]) w).
(** [list_del(&timer->node)] *)
Definition timers_del (t : timer_id) : W unit :=
  modify (λ w, set_w_timers (filter (λ x, x ≠ t) (w_timers w)) w).

Definition q931_start_timer (t : timer_id) (expires : Z) : W unit :=
  tm ← get_timer t;
  put_timer t {| t_pending := true; t_expires := expires |} ;;
  when (negb (t_pending tm)) (timers_add_tail t).

Definition longtime_now : W Z := λ w, Done (e_now (w_env w) (w_trace w), w).

Definition q931_start_timer_delta (t : timer_id) (delta : Z) : W unit :=
  now ← longtime_now; q931_start_timer t (now + delta).

Definition q931_stop_timer (t : timer_id) : W unit :=
  tm ← get_timer t;
  when (t_pending tm)
    (timers_del t ;; put_timer t {| t_pending := false; t_expires := t_expires tm |}).

(** ** dlc.c *)

Definition q931_dlc_hold (d : nat) : W unit :=
  r ← read_dlc d;
  c_assert (0 <=? dlc_holdcnt r) ;;
  c_assert (negb (dlc_tei r =? LAPD_BROADCAST_TEI)) ;;
  upd_dlc d (set_dlc_holdcnt (dlc_holdcnt r + 1)) ;;
  report_dlc d ;;
  when (dlc_holdcnt r + 1 =? 1) (q931_stop_timer (TimerDlc d) ;; report_dlc d).

Definition q931_dlc_release (d : nat) : W unit :=
  r ← read_dlc d;
  c_assert (0 <? dlc_holdcnt r) ;;
  c_assert (negb (dlc_tei r =? LAPD_BROADCAST_TEI)) ;;
  upd_dlc d (set_dlc_holdcnt (dlc_holdcnt r - 1)) ;;
  when (dlc_holdcnt r - 1 =? 0)
    ((if dlc_intf r then mret tt else fail NullDeref) ;;
     intf ← read_intf;
     when (negb (intf_dlc_autorelease_time intf =? 0))
       (q931_start_timer_delta (TimerDlc d) (intf_dlc_autorelease_time intf * 1000000) ;;
        report_dlc d)).

Definition q931_dlc_get (d : nat) : W nat :=
  r ← read_dlc d;
  c_assert (0 <? dlc_refcnt r) ;;
  report_dlc d ;;
  upd_dlc d (set_dlc_refcnt (dlc_refcnt r + 1)) ;;
  mret d.

(** the connections inside the interface have not been allocated *)
Definition free_dlc (d : nat) : W unit :=
  if (d <=? intf_bc_dlc)%nat then fail InvalidFree
  else modify (λ w, set_w_dlcs (delete d (w_dlcs w)) w).

Definition q931_dlc_put (d : nat) : W unit :=
  r ← read_dlc d;
  c_assert (0 <? dlc_refcnt r) ;;
  c_assert (dlc_intf r) ;;
  report_dlc d ;;
  upd_dlc d (set_dlc_refcnt (dlc_refcnt r - 1)) ;;
  when (dlc_refcnt r - 1 =? 0) (report_dlc d ;; free_dlc d).

Definition q931_dlc_autorelease (d : nat) : W unit := report_dlc d ;; emit (EvShutdown d).

Definition q931_dlc_init (intf : bool) : q931_dlc :=
  {| dlc_intf := intf; dlc_holdcnt := 0; dlc_refcnt := 1;
     dlc_status := Q931_DLC_STATUS_DISCONNECTED; dlc_tei := 0;
     dlc_autorelease_timer := idle_timer; dlc_outgoing_queue := [] |}.

Definition q931_broadcast_dlc_init (d : q931_dlc) : q931_dlc :=
  set_dlc_refcnt 1 (set_dlc_holdcnt 0 (set_dlc_tei LAPD_BROADCAST_TEI (set_dlc_intf true d))).

(** ** Primitives to the call control block *)

Definition q931_queue_primitive (call : option nat) (p : q931_primitive)
    (ies : option q931_ies) : W unit := emit (EvPrim call p ies).
Definition q931_call_primitive (call : nat) (p : q931_primitive) (ies : option q931_ies)
    : W unit := q931_queue_primitive (Some call) p ies.

(** ** channel.c.  A channel is the index of an element of [intf->channels]. *)

Definition q931_channel_set_state (chan : nat) (state : q931_channel_state) : W unit :=
  report_chan chan ;; upd_chan chan (set_ch_state state).

Fixpoint channel_alloc_loop (call i : nat) (n : nat) : W (option nat) :=
  match n with
  | O => mret None
  | S n' =>
      r ← read_chan i;
      if decide (ch_state r = Q931_CHANSTATE_AVAILABLE) then
        upd_chan i (set_ch_state Q931_CHANSTATE_SELECTED) ;;
        upd_chan i (set_ch_call (Some call)) ;;
        mret (Some i)
      else channel_alloc_loop call (S i) n'
  end.

Definition q931_channel_alloc (call : nat) : W (option nat) :=
  _ ← read_call call; intf ← read_intf;
  channel_alloc_loop call 0 (intf_n_channels intf).

Definition q931_channel_connect (chan : option nat) : W unit :=
  match chan with
  | None => fail AssertFail
  | Some i =>
      r ← read_chan i;
      match ch_call r with
      | None => fail AssertFail
      | Some _ =>
          when (bool_decide (ch_state r ≠ Q931_CHANSTATE_CONNECTED))
            (q931_channel_set_state i Q931_CHANSTATE_CONNECTED ;;
             q931_queue_primitive None (Q931_CCB_CONNECT_CHANNEL i) None)
      end
  end.

(** the same function under another name *)
Definition q931_channel_control (chan : option nat) : W unit := q931_channel_connect chan.

Definition q931_channel_disconnect (chan : option nat) : W unit :=
  match chan with
  | None => mret tt
  | Some i =>
      r ← read_chan i;
      match ch_call r with
      | None => fail AssertFail
      | Some _ =>
          when (bool_decide (ch_state r = Q931_CHANSTATE_CONNECTED))
            (upd_chan i (set_ch_state Q931_CHANSTATE_DISCONNECTED) ;;
             q931_queue_primitive None (Q931_CCB_DISCONNECT_CHANNEL i) None)
      end
  end.

Definition q931_channel_release (chan : option nat) : W unit :=
  match chan with
  | None => mret tt
  | Some i =>
      r ← read_chan i;
      when (bool_decide (ch_state r = Q931_CHANSTATE_CONNECTED))
        (q931_queue_primitive None (Q931_CCB_DISCONNECT_CHANNEL i) None) ;;
      c ← deref (ch_call r);
      upd_call c (set_call_channel None) ;;
      upd_chan i (set_ch_call None) ;;
      q931_channel_set_state i Q931_CHANSTATE_AVAILABLE
  end.

Definition q931_channel_start_tone (chan : option nat) (tone : q931_tone_type) : W unit :=
  match chan with
  | None => fail AssertFail
  | Some i => q931_queue_primitive None (Q931_CCB_START_TONE i tone) None
  end.

Definition q931_channel_stop_tone (chan : option nat) : W unit :=
  match chan with
  | None => fail AssertFail
  | Some i => q931_queue_primitive None (Q931_CCB_STOP_TONE i) None
  end.

Definition q931_channel_init (id : Z) : q931_channel :=
  {| ch_id := id; ch_state := Q931_CHANSTATE_AVAILABLE; ch_call := None; ch_intf := true |}.

(** ** Calls: reference counting, allocation, timers *)

Definition q931_intf_add_call (c : nat) : W unit :=
  upd_intf (λ i, set_intf_ncalls (intf_ncalls i + 1) (set_intf_calls (intf_calls i ++ [c]) i)).

(** [list_del] of a node that is in no list follows its poisoned pointers. *)
Definition q931_intf_del_call (c : nat) : W unit :=
  _ ← read_call c; intf ← read_intf;
  if bool_decide (c ∈ intf_calls intf) then
    upd_intf (λ i, set_intf_ncalls (intf_ncalls i - 1)
                     (set_intf_calls (filter (λ x, x ≠ c) (intf_calls i)) i))
  else fail UseAfterFree.

Definition q931_call_get (c : nat) : W nat :=
  r ← read_call c;
  c_assert (0 <? call_refcnt r) ;;
  upd_call c (set_call_refcnt (call_refcnt r + 1)) ;;
  mret c.

Definition q931_call_put (c : nat) : W unit :=
  r ← read_call c;
  c_assert (0 <? call_refcnt r) ;;
  upd_call c (set_call_refcnt (call_refcnt r - 1)) ;;
  when (call_refcnt r - 1 =? 0)
    (match call_dlc r with
     | Some d => q931_dlc_release d ;; q931_dlc_put d
     | None => mret tt
     end ;;
     free_call c).

Definition q931_call_release_reference (c : nat) : W unit :=
  q931_intf_del_call c ;; q931_call_put c.

Definition call_restart_timer (c : nat) (t : call_timer) (delta : Z) : W unit :=
  pending ← q931_timer_pending (TimerCall c t);
  when (negb pending) (_ ← q931_call_get c; mret tt) ;;
  q931_start_timer_delta (TimerCall c t) delta.

Definition call_start_timer (c : nat) (t : call_timer) (delta : Z) : W unit :=
  pending ← q931_timer_pending (TimerCall c t);
  when (negb pending)
    (_ ← q931_call_get c; q931_start_timer_delta (TimerCall c t) delta).

(** the macros: the duration is the interface's, passed as an [int] *)
Definition q931_call_start_timer (c : nat) (t : call_timer) : W unit :=
  intf ← read_intf; call_start_timer c t (i32 (intf_T intf t)) ;; report_call c.
Definition q931_call_restart_timer (c : nat) (t : call_timer) : W unit :=
  intf ← read_intf; call_restart_timer c t (i32 (intf_T intf t)) ;; report_call c.

Definition call_stop_timer (c : nat) (t : call_timer) : W unit :=
  pending ← q931_timer_pending (TimerCall c t);
  when pending (q931_stop_timer (TimerCall c t) ;; q931_call_put c).

(** the macro reports on the call after the reference of the timer is gone *)
Definition q931_call_stop_timer (c : nat) (t : call_timer) : W unit :=
  call_stop_timer c t ;; report_call c.

Definition q931_call_timer_running (c : nat) (t : call_timer) : W bool :=
  q931_timer_pending (TimerCall c t).

Definition all_call_timers : list call_timer :=
  [T301; T302; T303; T304; T305; T306; T308; T309; T310; T312; T313; T314;
   T316; T318; T319; T320; T321; T322].

Definition q931_call_stop_any_timer (c : nat) : W unit :=
  forM all_call_timers (q931_call_stop_timer c).

(** the user/network check of the function never fires: no state is both *)
Definition q931_call_set_state (c : nat) (state : q931_call_state) : W unit :=
  report_call c ;; upd_call c (set_call_state state).

Definition new_call (state : q931_call_state) : q931_call := {|
  call_refcnt := 1; call_ces := []; call_preselected_ces := None; call_selected_ces := None;
  call_dlc := None; call_direction := Q931_CALL_DIRECTION_OUTBOUND; call_call_reference := 0;
  call_state := state; call_broadcast_setup := false; call_tones_option := false;
  call_T303_fired := false; call_T308_fired := false;
  call_senq_status_97_98_received := false; call_senq_cnt := 0;
  call_disconnect_indication_sent := false; call_release_complete_received := false;
  call_digits_dialled := false; call_setup_ies := []; call_disconnect_cause := [];
  call_saved_cause := []; call_release_cause := []; call_channel := None;
  call_timers := λ _, idle_timer |}.

Definition q931_call_alloc : W nat :=
  intf ← read_intf; c ← fresh;
  put_call c (new_call (match intf_role intf with
                        | LAPD_INTF_ROLE_TE => U0_NULL_STATE
                        | LAPD_INTF_ROLE_NT => N0_NULL_STATE end)) ;;
  mret c.

Definition q931_call_alloc_in (d : nat) (call_reference : Z) : W nat :=
  c ← q931_call_alloc;
  dr ← read_dlc d;
  (if dlc_tei dr =? LAPD_BROADCAST_TEI then
     (if dlc_intf dr then mret tt else fail NullDeref) ;;
     d' ← q931_dlc_get intf_dlc;
     upd_call c (set_call_dlc (Some d')) ;;
     q931_dlc_hold intf_dlc ;;
     upd_call c (set_call_broadcast_setup true)
   else
     d' ← q931_dlc_get d;
     upd_call c (set_call_dlc (Some d')) ;;
     q931_dlc_hold d ;;
     upd_call c (set_call_broadcast_setup false)) ;;
  upd_call c (set_call_direction Q931_CALL_DIRECTION_INBOUND) ;;
  upd_call c (set_call_call_reference call_reference) ;;
  c' ← q931_call_get c;
  q931_intf_add_call c' ;;
  mret c.

Fixpoint get_call_loop (l : list nat) (direction : q931_call_direction) (cr : Z)
    : W (option nat) :=
  match l with
  | [] => mret None
  | c :: l' =>
      r ← read_call c;
      if bool_decide (call_direction r = direction) && (call_call_reference r =? cr)
      then c' ← q931_call_get c; mret (Some c')
      else get_call_loop l' direction cr
  end.

Definition q931_get_call_by_reference (direction : q931_call_direction) (cr : Z)
    : W (option nat) :=
  intf ← read_intf; get_call_loop (intf_calls intf) direction cr.
