(* ===== verification/Q931Wire.v ===== *)
(** * Messages on the wire: [callref.c], [output.c], the decoder of [input.c] and
    the allocation of call references of [intf.c]

    A frame is the list of its octets.  Sending is the [sendmsg] event with the
    octets of the frame, or the queue of the data link connection while it is not
    connected.  The decoder works on the rest of the 512 octets of the message
    buffer, of which [rawies_len] belong to the message. *)

From stdpp Require Import base list gmap functions.
From Stdlib Require Import ZArith Lia.
From S2P Require Import Prelude.
From S2P Require Import Bits.
From S2P Require Import Q931Defs.
From S2P Require Import Q931Tables.
From S2P Require Import Q931Sets.
From S2P Require Import Q931IE.
From S2P Require Import Q931World.
From S2P Require Import Q931Base.
Local Open Scope Z_scope.

Definition Q931_MSG_SIZE : nat := 512.
Definition Q931_PROTOCOL_DISCRIMINATOR_Q931 := 0x08.

(** ** intf.c: a free call reference *)

(** [1 << ((len * 8) - 1)], an [int] *)
Definition callref_limit (len : Z) : Z := i32 (Z.shiftl 1 (len * 8 - 1)).

(** one pass over [intf->calls] *)
Fixpoint callref_in_use (l : list nat) (cr : Z) : W bool :=
  match l with
  | [] => mret false
  | c :: l' =>
      r ← read_call c;
      if bool_decide (call_direction r = Q931_CALL_DIRECTION_OUTBOUND) &&
         (call_call_reference r =? cr) then mret true
      else callref_in_use l' cr
  end.

(** The [try_again] loop.  Each call in the list can refuse one reference, so
    one more iteration than calls finds a free one if there is one. *)
Fixpoint find_free_loop (fuel : nat) : W Z :=
  match fuel with
  | O => fail Diverges
  | S fuel' =>
      intf ← read_intf;
      let cr := intf_next_call_reference intf in
      let next := if callref_limit (intf_call_reference_len intf) <=? cr + 1
                  then 1 else cr + 1 in
      upd_intf (set_intf_next_call_reference next) ;;
      used ← callref_in_use (intf_calls intf) cr;
      if (used : bool) then (if cr =? next then mret (-1) else find_free_loop fuel') else mret cr
  end.

Definition q931_intf_find_free_call_reference : W Z :=
  intf ← read_intf; find_free_loop (S (length (intf_calls intf))).

(** [None]: no reference is available; the memory of the call is released again *)
Definition q931_call_alloc_out : W (option nat) :=
  c ← q931_call_alloc;
  upd_call c (set_call_direction Q931_CALL_DIRECTION_OUTBOUND) ;;
  cr ← q931_intf_find_free_call_reference;
  upd_call c (set_call_call_reference cr) ;;
  if cr <? 0 then free_call c ;; mret None
  else
    intf ← read_intf;
    (if bool_decide (intf_role intf = LAPD_INTF_ROLE_TE) ||
        bool_decide (intf_mode intf = LAPD_INTF_MODE_POINT_TO_POINT)
     then d ← q931_dlc_get intf_dlc;
          upd_call c (set_call_dlc (Some d)) ;; q931_dlc_hold d
     else upd_call c (set_call_dlc None)) ;;
    c' ← q931_call_get c;
    q931_intf_add_call c' ;;
    mret (Some c).

(** ** callref.c *)

(** octet [i] of the [int] [v] in memory (little endian) *)
Definition raw_octet (v i : Z) : Z := bits v (8 * i) 8.

(** The first octet carries the flag; with no octets there is nowhere to store
    it. *)
Definition q931_make_callref (len : nat) (callref : Z) (direction : q931_callref_flag)
    : outcome (list Z) :=
  if negb (len <=? 4)%nat then Fault AssertFail
  else
    let octets := map (λ i, raw_octet callref (Z.of_nat len - 1 - Z.of_nat i)) (seq 0 len) in
    match direction, octets with
    | Q931_CALLREF_FLAG_TO_ORIGINATING_SIDE, o :: os => Done (Z.lor o 0x80 :: os)
    | Q931_CALLREF_FLAG_TO_ORIGINATING_SIDE, [] => Fault OutOfBounds
    | Q931_CALLREF_FLAG_FROM_ORIGINATING_SIDE, _ => Done octets
    end.

(** ** output.c *)

Definition q931_prepare_header (c : nat) (message_type : Z) : W (list Z) :=
  r ← read_call c; intf ← read_intf;
  let len := intf_call_reference_len intf in
  c_assert ((1 <=? len) && (len <=? 4)) ;;
  c_assert ((0 <? call_call_reference r) && (call_call_reference r <? callref_limit len)) ;;
  cr ← lift (q931_make_callref (Z.to_nat len) (call_call_reference r)
               (match call_direction r with
                | Q931_CALL_DIRECTION_INBOUND => Q931_CALLREF_FLAG_TO_ORIGINATING_SIDE
                | Q931_CALL_DIRECTION_OUTBOUND => Q931_CALLREF_FLAG_FROM_ORIGINATING_SIDE
                end));
  mret ([Q931_PROTOCOL_DISCRIMINATOR_Q931; octet [(0, 4, 4); (len, 0, 4)]] ++ cr ++
        [u8 message_type]).

Definition q931_global_prepare_header (message_type : Z) : W (list Z) :=
  intf ← read_intf;
  let len := intf_call_reference_len intf in
  c_assert ((1 <=? len) && (len <=? 4)) ;;
  cr ← lift (q931_make_callref (Z.to_nat len) 0 Q931_CALLREF_FLAG_TO_ORIGINATING_SIDE);
  mret ([Q931_PROTOCOL_DISCRIMINATOR_Q931; octet [(0, 4, 4); (len, 0, 4)]] ++ cr ++
        [u8 message_type]).

(** [sendmsg] failed: the code reports on the connection and returns [errno] *)
Definition q931_send_frame (d : nat) (frame : list Z) : W Z :=
  c_assert (negb (bool_decide (frame = []))) ;;
  _ ← read_dlc d; env ← read_env; w ← get;
  emit (EvFrame d frame) ;;
  let err := e_sendmsg env (w_trace w) d in
  if err =? 0 then mret 0 else report_dlc d ;; mret err.

Definition q931_send_frame_bc (d : nat) (frame : list Z) : W Z :=
  _ ← read_dlc d; env ← read_env; w ← get;
  emit (EvFrameOOB d frame) ;;
  let err := e_sendmsg env (w_trace w) d in
  if err =? 0 then mret 0 else report_dlc d ;; mret err.

(** the messages of the queue each hold a reference to the connection *)
Fixpoint flush_loop (d : nat) (queue : list (list Z)) : W unit :=
  match queue with
  | [] => mret tt
  | frame :: queue' =>
      _ ← q931_send_frame d frame;
      upd_dlc d (set_dlc_outgoing_queue queue') ;;
      q931_dlc_put d ;;
      flush_loop d queue'
  end.

Definition q931_flush_outgoing_queue (d : nat) : W unit :=
  r ← read_dlc d; flush_loop d (dlc_outgoing_queue r).

Definition the_ie_env (w : q931_world) : ie_env := {|
  env_time := e_time (w_env w);
  env_type := intf_type (w_intf w);
  env_n_channels := intf_n_channels (w_intf w);
  env_chan_id := λ i, match intf_channels (w_intf w) !! i with
                      | Some c => ch_id c | None => 0 end |}.

(** [ies->ies[i]->cls->type] *)
Definition ie_cls_type (ie : q931_ie) : q931_ie_type :=
  match q931_get_ie_class 0 (ie_id ie) with
  | Some c => cls_type c | None => Q931_IE_TYPE_VL end.

(** the octets of one element behind the octets written so far *)
Definition write_ie (env : ie_env) (frame : list Z) (ie : q931_ie) : outcome (list Z) :=
  r ← q931_ie_write_to_buf env ie;
  match r with
  | None => Fault AssertFail
  | Some os =>
      let frame' :=
        match ie_cls_type ie with
        | Q931_IE_TYPE_VL => frame ++ [ie_id ie; u8 (Z.of_nat (length os))] ++ os
        | Q931_IE_TYPE_SO => frame ++ os
        end in
      if (Q931_MSG_SIZE <? length frame')%nat then Fault OutOfBounds else Done frame'
  end.

Fixpoint write_ies_loop (env : ie_env) (frame : list Z) (ies : q931_ies) : outcome (list Z) :=
  match ies with
  | [] => Done frame
  | ie :: ies' => frame' ← write_ie env frame ie; write_ies_loop env frame' ies'
  end.

Definition q931_write_ies (env : ie_env) (frame : list Z) (user_ies : option q931_ies)
    : outcome (list Z) :=
  ies ← q931_ies_copy [] user_ies;
  write_ies_loop env frame (q931_ies_sort ies).

Definition EAGAIN := 11.

(** [call = None] stands for the global call. *)
Definition q931_send_message (call : option nat) (d : nat) (mt : Z)
    (user_ies : option q931_ies) : W Z :=
  _ ← q931_dlc_get d;
  hdr ← (match call with
         | Some c => h ← q931_prepare_header c mt; report_call c ;; mret h
         | None => q931_global_prepare_header mt
         end);
  w ← get;
  frame ← (match user_ies with
           | Some _ => lift (q931_write_ies (the_ie_env w) hdr user_ies)
           | None => mret hdr end);
  dr ← read_dlc d;
  err ← (if decide (dlc_status dr = Q931_DLC_STATUS_DISCONNECTED) then
           report_dlc d ;;
           upd_dlc d (set_dlc_status Q931_DLC_STATUS_AWAITING_CONNECTION) ;;
           env ← read_env; w ← get;
           emit (EvConnect d) ;;
           let err := e_connect env (w_trace w) d in
           if (err =? 0) || (err =? EAGAIN) then mret 0
           else report_dlc d ;; mret err
         else mret 0);
  if negb (err =? 0) then q931_dlc_put d ;; mret err
  else
    dr ← read_dlc d;
    res ← (if decide (dlc_status dr = Q931_DLC_STATUS_AWAITING_CONNECTION) then
             report_dlc d ;;
             upd_dlc d (set_dlc_outgoing_queue (dlc_outgoing_queue dr ++ [frame])) ;;
             mret 0
           else
             res ← q931_send_frame d frame;
             q931_dlc_put d ;; mret res);
    mret res.

Definition q931_call_send_message (c : nat) (d : option nat) (mt : Z)
    (user_ies : option q931_ies) : W unit :=
  match d with
  | None => fail AssertFail
  | Some d => _ ← q931_send_message (Some c) d mt user_ies; mret tt
  end.

Definition q931_global_send_message (d : nat) (mt : Z) (user_ies : option q931_ies) : W unit :=
  _ ← q931_send_message None d mt user_ies; mret tt.

(** the message is never released: the connection keeps a reference *)
Definition q931_call_send_message_bc (c : nat) (d : nat) (mt : Z)
    (user_ies : option q931_ies) : W unit :=
  _ ← q931_dlc_get d;
  report_call c ;;
  hdr ← q931_prepare_header c mt;
  w ← get;
  frame ← (match user_ies with
           | Some _ => lift (q931_write_ies (the_ie_env w) hdr user_ies)
           | None => mret hdr end);
  _ ← q931_send_frame_bc d frame;
  mret tt.

(** ** The inline functions of [call_inline.h] and [ces_inline.h] *)

Definition call_send (c : nat) (mt : Z) (ies : option q931_ies) : W unit :=
  r ← read_call c; q931_call_send_message c (call_dlc r) mt ies.

Definition q931_call_send_alerting c := call_send c Q931_MT_ALERTING.
Definition q931_call_send_call_proceeding c := call_send c Q931_MT_CALL_PROCEEDING.
Definition q931_call_send_connect c := call_send c Q931_MT_CONNECT.
Definition q931_call_send_connect_acknowledge c := call_send c Q931_MT_CONNECT_ACKNOWLEDGE.
Definition q931_call_send_disconnect c := call_send c Q931_MT_DISCONNECT.
Definition q931_call_send_information c := call_send c Q931_MT_INFORMATION.
Definition q931_call_send_notify c := call_send c Q931_MT_NOTIFY.
Definition q931_call_send_progress c := call_send c Q931_MT_PROGRESS.
Definition q931_call_send_release c := call_send c Q931_MT_RELEASE.
Definition q931_call_send_release_complete c := call_send c Q931_MT_RELEASE_COMPLETE.
Definition q931_call_send_resume c := call_send c Q931_MT_RESUME.
Definition q931_call_send_resume_acknowledge c := call_send c Q931_MT_RESUME_ACKNOWLEDGE.
Definition q931_call_send_resume_reject c := call_send c Q931_MT_RESUME_REJECT.
Definition q931_call_send_setup c := call_send c Q931_MT_SETUP.
Definition q931_call_send_setup_bc (c : nat) (ies : option q931_ies) : W unit :=
  q931_call_send_message_bc c intf_bc_dlc Q931_MT_SETUP ies.
Definition q931_call_send_setup_acknowledge c := call_send c Q931_MT_SETUP_ACKNOWLEDGE.
Definition q931_call_send_status c := call_send c Q931_MT_STATUS.
Definition q931_call_send_status_enquiry c := call_send c Q931_MT_STATUS_ENQUIRY.
Definition q931_call_send_suspend c := call_send c Q931_MT_SUSPEND.
Definition q931_call_send_suspend_acknowledge c := call_send c Q931_MT_SUSPEND_ACKNOWLEDGE.
Definition q931_call_send_suspend_reject c := call_send c Q931_MT_SUSPEND_REJECT.

Definition ces_send (s : nat) (mt : Z) (ies : option q931_ies) : W unit :=
  r ← read_ces s; q931_call_send_message (ces_call r) (Some (ces_dlc r)) mt ies.

Definition q931_ces_send_alerting s := ces_send s Q931_MT_ALERTING.
Definition q931_ces_send_call_proceeding s := ces_send s Q931_MT_CALL_PROCEEDING.
Definition q931_ces_send_connect s := ces_send s Q931_MT_CONNECT.
Definition q931_ces_send_connect_acknowledge s := ces_send s Q931_MT_CONNECT_ACKNOWLEDGE.
Definition q931_ces_send_information s := ces_send s Q931_MT_INFORMATION.
Definition q931_ces_send_release s := ces_send s Q931_MT_RELEASE.
Definition q931_ces_send_release_complete s := ces_send s Q931_MT_RELEASE_COMPLETE.
Definition q931_ces_send_setup_acknowledge s := ces_send s Q931_MT_SETUP_ACKNOWLEDGE.
Definition q931_ces_send_status s := ces_send s Q931_MT_STATUS.
Definition q931_ces_send_status_enquiry s := ces_send s Q931_MT_STATUS_ENQUIRY.
