(* ===== verification/Q931Decode.v ===== *)
(** * The message decoder of [input.c]

    [q931_decode_ies] turns the octets behind the message header into a set of
    information elements and the lists of elements the decoder complains about;
    [q931_call_decode_ies] answers the complaints. *)

From stdpp Require Import base list gmap functions.
From Stdlib Require Import ZArith Lia.
From S2P Require Import Prelude.
From S2P Require Import Bits.
From S2P Require Import Q931Defs.
From S2P Require Import Q931Tables.
From S2P Require Import Q931Sets.
From S2P Require Import Q931IE.
From S2P Require Import Q931World.
From S2P Require Import Q931Base.
From S2P Require Import Q931Wire.
Local Open Scope Z_scope.

(** [struct q931_message] of a received message; [msg_rawies] is the message
    buffer from the first element on, to the end of its 512 octets. *)
Record q931_message := {
  msg_dlc : nat;
  msg_message_type : Z;
  msg_callref : Z;
  msg_callref_len : Z;
  msg_callref_direction : q931_callref_flag;
  msg_rawies : list Z;
  msg_rawies_len : Z;
  msg_ies : q931_ies;
}.

Definition set_msg_ies (ies : q931_ies) (m : q931_message) : q931_message := {|
  msg_dlc := msg_dlc m; msg_message_type := msg_message_type m; msg_callref := msg_callref m;
  msg_callref_len := msg_callref_len m; msg_callref_direction := msg_callref_direction m;
  msg_rawies := msg_rawies m; msg_rawies_len := msg_rawies_len m; msg_ies := ies |}.

(** an entry of the lists of element identifiers *)
Record q931_ieid_entry := ieid { ent_codeset : Z; ent_id : Z }.

Record q931_decoder_status := {
  ds_active_codeset : Z;
  ds_mandatory_ies : list q931_ieid_entry;
  ds_invalid_mand_ies : list q931_ieid_entry;
  ds_invalid_opt_ies : list q931_ieid_entry;
  ds_invalid_access_ies : list q931_ieid_entry;
  ds_unrecognized_ies : list q931_ieid_entry;
}.

Definition q931_decoder_status_init : q931_decoder_status :=
  {| ds_active_codeset := 0; ds_mandatory_ies := []; ds_invalid_mand_ies := [];
     ds_invalid_opt_ies := []; ds_invalid_access_ies := []; ds_unrecognized_ies := [] |}.

Definition eta_ds (d : q931_decoder_status) : q931_decoder_status :=
  {| ds_active_codeset := ds_active_codeset d; ds_mandatory_ies := ds_mandatory_ies d;
     ds_invalid_mand_ies := ds_invalid_mand_ies d; ds_invalid_opt_ies := ds_invalid_opt_ies d;
     ds_invalid_access_ies := ds_invalid_access_ies d;
     ds_unrecognized_ies := ds_unrecognized_ies d |}.
Definition set_active_codeset (v : Z) (d : q931_decoder_status) : q931_decoder_status :=
  ltac:(upd_field ds_active_codeset eta_ds v d).
Definition set_mandatory_ies v (d : q931_decoder_status) : q931_decoder_status :=
  ltac:(upd_field ds_mandatory_ies eta_ds v d).
Definition set_invalid_mand_ies v (d : q931_decoder_status) : q931_decoder_status :=
  ltac:(upd_field ds_invalid_mand_ies eta_ds v d).
Definition set_invalid_opt_ies v (d : q931_decoder_status) : q931_decoder_status :=
  ltac:(upd_field ds_invalid_opt_ies eta_ds v d).
Definition set_invalid_access_ies v (d : q931_decoder_status) : q931_decoder_status :=
  ltac:(upd_field ds_invalid_access_ies eta_ds v d).
Definition set_unrecognized_ies v (d : q931_decoder_status) : q931_decoder_status :=
  ltac:(upd_field ds_unrecognized_ies eta_ds v d).

Definition INT_MAX := 2147483647.

(** [true]: the element is not bigger than its class allows *)
Definition q931_check_ie_size (ie_class : q931_ie_class) (ie_len : Z) : bool :=
  negb (negb (cls_max_len ie_class =? INT_MAX) && (cls_max_len ie_class <? ie_len)).

(** the diagnostics octets of a list, 27 at most *)
Fixpoint fill_diagnostic (max_len : nat) (l : list q931_ieid_entry) (diag : list Z)
    : list Z :=
  match l with
  | [] => diag
  | e :: es =>
      if (max_len <=? length diag)%nat then diag
      else
        let diag := if negb (ent_codeset e =? 0)
                    then diag ++ [Z.lor (Z.lor Q931_IE_SHIFT 0x08) (ent_codeset e)]
                    else diag in
        if (max_len <=? length diag)%nat then diag
        else fill_diagnostic max_len es (diag ++ [ent_id e])
  end.

Definition q931_ieid_fill_diagnostic_from_list (l : list q931_ieid_entry) : list Z :=
  fill_diagnostic 27 l [].

Definition q931_ie_has_content_errors (ds : q931_decoder_status) (ie_class : q931_ie_class)
    (ie_usage : q931_ie_usage) : q931_decoder_status :=
  let e := ieid (cls_codeset ie_class) (cls_id ie_class) in
  if q931_ie_comprehension_required (cls_id ie_class) ||
     bool_decide (use_presence ie_usage = Q931_IE_MANDATORY)
  then set_invalid_mand_ies (ds_invalid_mand_ies ds ++ [e]) ds
  else set_invalid_opt_ies (ds_invalid_opt_ies ds ++ [e]) ds.

Definition unrecognized (ds : q931_decoder_status) (codeset ie_id : Z) : q931_decoder_status :=
  if q931_ie_comprehension_required ie_id
  then set_unrecognized_ies (ds_unrecognized_ies ds ++ [ieid codeset ie_id]) ds
  else ds.

(** how often a class occurs in the elements decoded so far *)
Definition count_ies (ies : q931_ies) (ie_class : q931_ie_class) : Z :=
  Z.of_nat (length (filter (λ ie, ie_id ie = cls_id ie_class) ies)).

Definition q931_decode_ie (env : ie_env) (message_type : Z)
    (st : q931_decoder_status * q931_ies) (codeset id : Z) (buf : list Z) (len : Z)
    : outcome (q931_decoder_status * q931_ies) :=
  let '(ds, ies) := st in
  match q931_get_ie_class codeset id with
  | None => Done (unrecognized ds codeset id, ies)
  | Some ie_class =>
  match q931_get_ie_usage message_type codeset id with
  | None => Done (unrecognized ds codeset id, ies)
  | Some ie_usage =>
  if (0 <? cls_max_occur ie_class) && negb (cls_max_occur ie_class =? INT_MAX) &&
     (cls_max_occur ie_class <? count_ies ies ie_class)
  then Done (ds, ies)
  else match (if cls_read_from_buf ie_class then q931_ie_read_from_buf env (cls_id ie_class)
              else None) with
  | None => Done (unrecognized ds (cls_codeset ie_class) (cls_id ie_class), ies)
  | Some read_from_buf =>
  let big := negb (q931_check_ie_size ie_class len) in
  if big && ((cls_id ie_class =? Q931_IE_USER_USER) ||
             (cls_id ie_class =? Q931_IE_LOW_LAYER_COMPATIBILITY) ||
             (cls_id ie_class =? Q931_IE_HIGH_LAYER_COMPATIBILITY) ||
             (cls_id ie_class =? Q931_IE_CALLED_PARTY_SUBADDRESS))
  then Done (set_invalid_access_ies
               (ds_invalid_access_ies ds ++ [ieid (cls_codeset ie_class) (cls_id ie_class)]) ds,
             ies)
  else if big && negb (cls_id ie_class =? Q931_IE_CALL_IDENTITY)
  then Done (q931_ie_has_content_errors ds ie_class ie_usage, ies)
  else
    let len := if big then cls_max_len ie_class else len in
    r ← read_from_buf buf len;
    match r with
    | None =>
        (* the contents are printed in hexadecimal *)
        if (Z.of_nat (length buf) <? len) then Fault OutOfBounds
        else Done (q931_ie_has_content_errors ds ie_class ie_usage, ies)
    | Some ie => ies' ← q931_ies_add_put ies ie; Done (ds, ies')
    end
  end end end.

(** the codeset that follows a shift element; a locking one stays active *)
Definition q931_decode_shift_ie (ds : q931_decoder_status) (ie_id : Z)
    : q931_decoder_status * Z :=
  let codeset := Z.land (q931_get_so_ie_type2_value ie_id) 0x07 in
  if negb (Z.land (q931_get_so_ie_type2_value ie_id) 0x08 =? 0) then (ds, codeset)
  else (set_active_codeset codeset ds, codeset).

(** removal of the first entry for the element from the mandatory ones *)
Fixpoint remove_mandatory (l : list q931_ieid_entry) (codeset id : Z)
    : list q931_ieid_entry :=
  match l with
  | [] => []
  | e :: es => if (ent_codeset e =? codeset) && (ent_id e =? id) then es
               else e :: remove_mandatory es codeset id
  end.

Definition mandatory_ies_of (message_type : Z) (role : lapd_intf_role) : list q931_ieid_entry :=
  map (λ u, ieid (use_codeset u) (use_ie_id u))
    (filter (λ u, use_message_type u = message_type ∧ use_presence u = Q931_IE_MANDATORY)
       q931_ie_usages) ++
  (if (message_type =? Q931_MT_SETUP) && bool_decide (role = LAPD_INTF_ROLE_TE)
   then [ieid 0 Q931_IE_CHANNEL_IDENTIFICATION] else []).

(** The loop over the elements from position [pos] of [rawies]; every iteration
    advances, so [rawies_len] iterations are enough. *)
Fixpoint decode_ies_loop (fuel : nat) (env : ie_env) (message_type : Z)
    (rawies : list Z) (rawies_len : Z) (pos codeset : Z)
    (st : q931_decoder_status * q931_ies) : outcome (q931_decoder_status * q931_ies) :=
  match fuel with
  | O => Done st
  | S fuel' =>
      if rawies_len <=? pos then Done st else
      id ← oct rawies (Z.to_nat pos);
      let next pos st :=
        let ds := remove_mandatory (ds_mandatory_ies (fst st)) codeset id in
        let ds := set_mandatory_ies ds (fst st) in
        decode_ies_loop fuel' env message_type rawies rawies_len pos (ds_active_codeset ds)
          (ds, snd st) in
      if q931_is_so_ie id then
        if q931_get_so_ie_id id =? Q931_IE_SHIFT then
          let '(ds, codeset') := q931_decode_shift_ie (fst st) id in
          decode_ies_loop fuel' env message_type rawies rawies_len (pos + 1) codeset'
            (ds, snd st)
        else
          st' ← q931_decode_ie env message_type st codeset (q931_get_so_ie_id id)
                  (drop (Z.to_nat pos) rawies) 1;
          next (pos + 1) st'
      else
        ie_len ← oct rawies (Z.to_nat (pos + 1));
        st' ← q931_decode_ie env message_type st codeset id
                (drop (Z.to_nat (pos + 2)) rawies) ie_len;
        if rawies_len <? pos + ie_len + 2 then Done st'  (* malformed frame *)
        else next (pos + ie_len + 2) st'
  end.

Definition q931_decode_ies (env : ie_env) (role : lapd_intf_role) (m : q931_message)
    : outcome (q931_decoder_status * q931_ies) :=
  let ds := set_mandatory_ies (mandatory_ies_of (msg_message_type m) role)
              q931_decoder_status_init in
  decode_ies_loop (Z.to_nat (msg_rawies_len m)) env (msg_message_type m) (msg_rawies m)
    (msg_rawies_len m) 0 (ds_active_codeset ds) (ds, msg_ies m).

Definition new_cause (location value : Z) (diagnostics : list Z) : q931_ie :=
  IE_CAUSE {| c_coding_standard := Q931_IE_C_CS_CCITT; c_location := location;
              c_value := value; c_recommendation := 0; c_diagnostics := diagnostics |}.

(** [q931_ie_cause_location_call] *)
Definition cause_location_call (c : nat) : W Z :=
  r ← read_call c; intf ← read_intf;
  mret (q931_ie_cause_location (call_direction r) (intf_network_role intf) (intf_role intf)).

(** A set with one cause of the call's location. *)
Definition call_cause_ies (c : nat) (value : Z) (diagnostics : list Z) : W q931_ies :=
  location ← cause_location_call c; mret [new_cause location value diagnostics].

(** The answer to missing, invalid mandatory or unrecognised elements; [false]:
    the message is not processed. *)
Definition decode_complaint (c : nat) (message_type value : Z) (l : list q931_ieid_entry)
    : W bool :=
  ies ← call_cause_ies c value (q931_ieid_fill_diagnostic_from_list l);
  if (message_type =? Q931_MT_SETUP) || (message_type =? Q931_MT_RELEASE) then
    q931_call_send_release_complete c (Some ies) ;; mret false
  else if (message_type =? Q931_MT_DISCONNECT) || (message_type =? Q931_MT_RELEASE_COMPLETE)
  then mret true
  else q931_call_send_status c (Some ies) ;; mret false.

Definition complain_if (l : list q931_ieid_entry) (m : W bool) : W bool :=
  match l with [] => mret true | _ => m end.

(** [Some m]: the message with its elements; [None]: it must not be processed. *)
Definition q931_call_decode_ies (c : nat) (m : q931_message) : W (option q931_message) :=
  _ ← read_call c; w ← get;
  r ← lift (q931_decode_ies (the_ie_env w) (intf_role (w_intf w)) m);
  let '(ds, ies) := r in
  let mt := msg_message_type m in
  ok ← complain_if (ds_mandatory_ies ds)
         (c_assert (forallb (λ e, bool_decide (is_Some (q931_get_ie_class (ent_codeset e)
                                                          (ent_id e)))) (ds_mandatory_ies ds)) ;;
          decode_complaint c mt Q931_IE_C_CV_MANDATORY_INFORMATION_ELEMENT_IS_MISSING
            (ds_mandatory_ies ds));
  if negb (ok : bool) then mret None else
  ok ← complain_if (ds_invalid_mand_ies ds)
         (decode_complaint c mt Q931_IE_C_CV_INVALID_INFORMATION_ELEMENT_CONTENTS
            (ds_invalid_mand_ies ds));
  if negb (ok : bool) then mret None else
  ok ← complain_if (ds_invalid_access_ies ds)
         (ies ← call_cause_ies c Q931_IE_C_CV_ACCESS_INFORMATION_DISCARDED
                  (q931_ieid_fill_diagnostic_from_list (ds_invalid_access_ies ds));
          q931_call_send_status c (Some ies) ;; mret true);
  ok ← complain_if (ds_invalid_opt_ies ds)
         (ies ← call_cause_ies c Q931_IE_C_CV_INVALID_INFORMATION_ELEMENT_CONTENTS
                  (q931_ieid_fill_diagnostic_from_list (ds_invalid_opt_ies ds));
          q931_call_send_status c (Some ies) ;; mret true);
  ok ← complain_if (ds_unrecognized_ies ds)
         (decode_complaint c mt Q931_IE_C_CV_INFORMATION_ELEMENT_NON_EXISTENT
            (ds_unrecognized_ies ds));
  if negb (ok : bool) then mret None else mret (Some (set_msg_ies ies m)).

Definition q931_gc_decode_ies (m : q931_message) : W q931_message :=
  w ← get;
  r ← lift (q931_decode_ies (the_ie_env w) (intf_role (w_intf w)) m);
  mret (set_msg_ies (snd r) m).
