(* ===== verification/Q931Ces.v ===== *)
(** * Connection endpoint suffixes, first part of [ces.c]

    Allocation, release, timers, status messages and the requests the call makes
    of a CES.  The message handlers and timer functions, which call back into the
    call, are in [Q931CesHandlers]. *)

From stdpp Require Import base list gmap functions.
From Stdlib Require Import ZArith Lia.
From S2P Require Import Prelude.
From S2P Require Import Bits.
From S2P Require Import Q931Defs.
From S2P Require Import Q931Tables.
From S2P Require Import Q931Sets.
From S2P Require Import Q931IE.
From S2P Require Import Q931World.
From S2P Require Import Q931Base.
From S2P Require Import Q931Wire.
From S2P Require Import Q931Decode.
Local Open Scope Z_scope.

Definition q931_ces_set_state (s : nat) (state : q931_ces_state) : W unit :=
  report_ces s ;; upd_ces s (set_ces_state state).

(** [malloc] without [memset]: the last three fields are not initialised. *)
Definition q931_ces_alloc (c d : nat) : W nat :=
  s ← fresh;
  _ ← q931_call_get c;
  d' ← q931_dlc_get d;
  put_ces s {| ces_call := c; ces_dlc := d'; ces_state := I0_NULL_STATE;
               ces_timers := λ _, idle_timer; ces_T308_fired := None;
               ces_senq_cause_97_98_received := None; ces_senq_cnt := None |} ;;
  q931_dlc_hold d ;;
  report_ces s ;;
  upd_call c (λ r, set_call_ces (s :: call_ces r) r) ;;
  mret s.

(** the timers of the CES keep running *)
Definition q931_ces_free (s : nat) : W unit :=
  r ← read_ces s;
  report_ces s ;;
  cr ← read_call (ces_call r);
  (if bool_decide (s ∈ call_ces cr)
   then upd_call (ces_call r) (λ k, set_call_ces (filter (λ x, x ≠ s) (call_ces k)) k)
   else fail UseAfterFree) ;;
  q931_dlc_release (ces_dlc r) ;;
  q931_dlc_put (ces_dlc r) ;;
  q931_call_put (ces_call r) ;;
  free_ces s.

Definition ces_timer_duration (t : ces_timer) (intf : q931_interface) : Z :=
  match t with
  | CES_T304 => intf_T intf T304
  | CES_T308 => intf_T intf T308
  | CES_T322 => intf_T intf T322
  end.

(** the macro reads the duration through [ces->call->intf] *)
Definition q931_ces_start_timer (s : nat) (t : ces_timer) : W unit :=
  r ← read_ces s; _ ← read_call (ces_call r); intf ← read_intf;
  q931_start_timer_delta (TimerCes s t) (ces_timer_duration t intf) ;;
  report_ces s.

Definition q931_ces_stop_timer (s : nat) (t : ces_timer) : W unit :=
  q931_stop_timer (TimerCes s t) ;; report_ces s.

Definition q931_ces_stop_any_timer (s : nat) : W unit :=
  q931_ces_stop_timer s CES_T304 ;;
  q931_ces_stop_timer s CES_T308 ;;
  q931_ces_stop_timer s CES_T322.

Definition q931_ces_state_to_ie_state (state : q931_ces_state) : Z :=
  match state with
  | I0_NULL_STATE => 0x00
  | I7_CALL_RECEIVED => 0x07
  | I8_CONNECT_REQUEST => 0x08
  | I9_INCOMING_CALL_PROCEEDING => 0x09
  | I19_RELEASE_REQUEST => 0x13
  | I25_OVERLAP_RECEIVING => 0x19
  end.

Definition new_call_state_ie (value : Z) : q931_ie :=
  IE_CALL_STATE {| cs_coding_standard := Q931_IE_CS_CS_CCITT; cs_value := value |}.

Definition q931_ces_send_ces_status (s : nat) (user_ies : option q931_ies) : W unit :=
  ies ← lift (q931_ies_merge [] user_ies);
  r ← read_ces s;
  ies ← lift (q931_ies_add_put ies (new_call_state_ie (q931_ces_state_to_ie_state (ces_state r))));
  q931_ces_send_status s (Some ies).

Definition q931_ces_unexpected_timer (s : nat) : W unit := report_ces s.
Definition q931_ces_unexpected_primitive (s : nat) : W unit := report_ces s.

(** [&ces->call] is read for the location of the cause *)
Definition ces_cause_ies (s : nat) (value : Z) (diagnostics : list Z) : W q931_ies :=
  r ← read_ces s; call_cause_ies (ces_call r) value diagnostics.

Definition q931_ces_message_not_compatible_with_state (s : nat) (m : q931_message) : W unit :=
  r ← read_ces s;
  match ces_state r with
  | I0_NULL_STATE => mret tt
  | I7_CALL_RECEIVED | I8_CONNECT_REQUEST | I9_INCOMING_CALL_PROCEEDING
  | I19_RELEASE_REQUEST | I25_OVERLAP_RECEIVING =>
      ies ← ces_cause_ies s Q931_IE_C_CV_MESSAGE_NOT_COMPATIBLE_WITH_CALL_STATE
              [msg_message_type m];
      q931_ces_send_ces_status s (Some ies)
  end ;;
  report_ces s.

(** ** Requests of the call *)

(** the four requests that only act in the null state *)
Definition ces_from_null (s : nat) (m : W unit) : W unit :=
  report_ces s ;;
  r ← read_ces s;
  match ces_state r with
  | I0_NULL_STATE => m
  | _ => q931_ces_unexpected_primitive s
  end.

Definition q931_ces_alerting_request (s : nat) (user_ies : option q931_ies) : W unit :=
  ces_from_null s (q931_ces_set_state s I7_CALL_RECEIVED).
Definition q931_ces_connect_request (s : nat) (user_ies : option q931_ies) : W unit :=
  ces_from_null s (q931_ces_set_state s I8_CONNECT_REQUEST).
Definition q931_ces_call_proceeding_request (s : nat) (user_ies : option q931_ies) : W unit :=
  ces_from_null s (q931_ces_set_state s I9_INCOMING_CALL_PROCEEDING).
Definition q931_ces_setup_ack_request (s : nat) (user_ies : option q931_ies) : W unit :=
  ces_from_null s
    (q931_ces_start_timer s CES_T304 ;; q931_ces_set_state s I25_OVERLAP_RECEIVING).

Definition q931_ces_release_request (s : nat) (ies : option q931_ies) : W unit :=
  report_ces s ;;
  r ← read_ces s;
  match ces_state r with
  | I0_NULL_STATE | I7_CALL_RECEIVED | I8_CONNECT_REQUEST | I9_INCOMING_CALL_PROCEEDING =>
      q931_ces_start_timer s CES_T308 ;;
      q931_ces_send_release s ies ;;
      q931_ces_set_state s I19_RELEASE_REQUEST
  | I25_OVERLAP_RECEIVING =>
      q931_ces_stop_timer s CES_T304 ;;
      q931_ces_start_timer s CES_T308 ;;
      q931_ces_send_release s ies ;;
      q931_ces_set_state s I19_RELEASE_REQUEST
  | I19_RELEASE_REQUEST => q931_ces_unexpected_primitive s
  end.

Definition q931_ces_info_request (s : nat) (ies : option q931_ies) : W unit :=
  report_ces s ;;
  r ← read_ces s;
  match ces_state r with
  | I7_CALL_RECEIVED | I8_CONNECT_REQUEST | I9_INCOMING_CALL_PROCEEDING =>
      q931_ces_send_information s ies
  | I25_OVERLAP_RECEIVING =>
      q931_ces_stop_timer s CES_T304 ;;
      q931_ces_send_information s ies ;;
      q931_ces_start_timer s CES_T304
  | I0_NULL_STATE | I19_RELEASE_REQUEST => q931_ces_unexpected_primitive s
  end.

(** the test is on the timer of the call, not on the one of the CES *)
Definition q931_ces_status_enquiry_request (s : nat) (user_ies : option q931_ies) : W unit :=
  report_ces s ;;
  r ← read_ces s;
  match ces_state r with
  | I7_CALL_RECEIVED | I8_CONNECT_REQUEST | I9_INCOMING_CALL_PROCEEDING
  | I25_OVERLAP_RECEIVING | I19_RELEASE_REQUEST =>
      running ← q931_call_timer_running (ces_call r) T322;
      when (negb running)
        (q931_ces_send_status_enquiry s user_ies ;; q931_ces_start_timer s CES_T322)
  | I0_NULL_STATE => q931_ces_unexpected_primitive s
  end.

(** ** Iteration over the CES of a call

    [list_for_each_entry] reads the link of the current node after the body,
    [list_for_each_entry_safe] before it. *)
Fixpoint ces_for_each (l : list nat) (body : nat → W unit) : W unit :=
  match l with
  | [] => mret tt
  | s :: l' => _ ← read_ces s; body s ;; _ ← read_ces s; ces_for_each l' body
  end.

Definition for_each_ces (c : nat) (body : nat → W unit) : W unit :=
  r ← read_call c; ces_for_each (call_ces r) body.

Fixpoint ces_for_each_safe (l : list nat) (body : nat → W unit) : W unit :=
  match l with
  | [] => mret tt
  | s :: l' => _ ← read_ces s; body s ;; ces_for_each_safe l' body
  end.

Definition for_each_ces_safe (c : nat) (body : nat → W unit) : W unit :=
  r ← read_call c; ces_for_each_safe (call_ces r) body.
