(* ===== verification/Q931Call.v ===== *)
(** * The call, first part of [call.c]: status messages, the answer to unexpected
    messages, channel selection and the internal indications of the CES *)

From stdpp Require Import base list gmap functions.
From Stdlib Require Import ZArith Lia.
From S2P Require Import Prelude.
From S2P Require Import Bits.
From S2P Require Import Q931Defs.
From S2P Require Import Q931Tables.
From S2P Require Import Q931Sets.
From S2P Require Import Q931IE.
From S2P Require Import Q931World.
From S2P Require Import Q931Base.
From S2P Require Import Q931Wire.
From S2P Require Import Q931Decode.
From S2P Require Import Q931Ces.
Local Open Scope Z_scope.

(** ** Small combinators *)

(** a field of the call *)
Definition getc {A} (c : nat) (f : q931_call → A) : W A := r ← read_call c; mret (f r).
Definition ifM {A} (m : W bool) (a b : W A) : W A := x ← m; if (x : bool) then a else b.
Definition whenM (m : W bool) (a : W unit) : W unit := ifM m a (mret tt).
(** an operation on [call->channel] *)
Definition on_channel (c : nat) (f : option nat → W unit) : W unit :=
  ch ← getc c call_channel; f ch.

(** ** Elements the calls put into their messages *)

Definition call_progress_location (c : nat) : W Z :=
  r ← read_call c; intf ← read_intf;
  mret (q931_ie_progress_indicator_location (call_direction r) (intf_network_role intf)
          (intf_role intf)).

(** [ies] with the progress indicator "in-band information" *)
Definition add_in_band_pi (c : nat) (ies : q931_ies) : W q931_ies :=
  location ← call_progress_location c;
  lift (q931_ies_add_put ies
    (IE_PROGRESS_INDICATOR {| pi_coding_standard := Q931_IE_PI_CS_CCITT;
       pi_location := location;
       pi_progress_description := Q931_IE_PI_PD_IN_BAND_INFORMATION |})).

Definition add_cause (c : nat) (value : Z) (diagnostics : list Z) (ies : q931_ies)
    : W q931_ies :=
  location ← cause_location_call c;
  lift (q931_ies_add_put ies (new_cause location value diagnostics)).

(** a channel identification of the interface's type with a set of channels *)
Definition new_channel_identification (intf : q931_interface) (preferred_exclusive : Z)
    (chans : list nat) : q931_ie :=
  IE_CHANNEL_IDENTIFICATION {|
    ci_interface_id_present := Q931_IE_CI_IIP_IMPLICIT;
    ci_interface_type := q931_ie_channel_identification_intftype (intf_type intf);
    ci_preferred_exclusive := preferred_exclusive;
    ci_d_channel_indicator := 0;
    ci_coding_standard := Q931_IE_CI_CS_CCITT;
    ci_any_channel := false;
    ci_chanset := chans |}.

(** [ies] with the call's channel; [q931_chanset_add] asserts that there is one *)
Definition add_call_channel (c : nat) (preferred_exclusive : Z) (ies : q931_ies)
    : W q931_ies :=
  ch ← getc c call_channel; intf ← read_intf;
  match ch with
  | None => fail AssertFail
  | Some i =>
      chans ← lift (q931_chanset_add q931_chanset_init i);
      lift (q931_ies_add_put ies (new_channel_identification intf preferred_exclusive chans))
  end.

Definition new_datetime : W q931_ie := λ w,
  Done (IE_DATETIME (e_clock (w_env w) (w_trace w)), w).

(** ** Status *)

Definition q931_call_state_to_ie_state (state : q931_call_state) : Z :=
  match state with
  | N0_NULL_STATE | U0_NULL_STATE => 0x00
  | N1_CALL_INITIATED | U1_CALL_INITIATED => 0x01
  | N2_OVERLAP_SENDING | U2_OVERLAP_SENDING => 0x02
  | N3_OUTGOING_CALL_PROCEEDING | U3_OUTGOING_CALL_PROCEEDING => 0x03
  | N4_CALL_DELIVERED | U4_CALL_DELIVERED => 0x04
  | N6_CALL_PRESENT | U6_CALL_PRESENT => 0x06
  | N7_CALL_RECEIVED | U7_CALL_RECEIVED => 0x07
  | N8_CONNECT_REQUEST | U8_CONNECT_REQUEST => 0x08
  | N9_INCOMING_CALL_PROCEEDING | U9_INCOMING_CALL_PROCEEDING => 0x09
  | N10_ACTIVE | U10_ACTIVE => 0x0a
  | N11_DISCONNECT_REQUEST | U11_DISCONNECT_REQUEST => 0x0b
  | N12_DISCONNECT_INDICATION | U12_DISCONNECT_INDICATION => 0x0c
  | N15_SUSPEND_REQUEST | U15_SUSPEND_REQUEST => 0x0f
  | N17_RESUME_REQUEST | U17_RESUME_REQUEST => 0x11
  | N19_RELEASE_REQUEST | U19_RELEASE_REQUEST => 0x13
  | N22_CALL_ABORT => 0x16
  | N25_OVERLAP_RECEIVING | U25_OVERLAP_RECEIVING => 0x19
  end.

Definition q931_call_send_call_status_with_state (c : nat) (user_ies : option q931_ies)
    (state : q931_call_state) : W unit :=
  ies ← lift (q931_ies_copy [] user_ies);
  ies ← lift (q931_ies_add_put ies (new_call_state_ie (q931_call_state_to_ie_state state)));
  q931_call_send_status c (Some ies).

Definition q931_call_send_call_status (c : nat) (user_ies : option q931_ies) : W unit :=
  state ← getc c call_state; q931_call_send_call_status_with_state c user_ies state.

Definition q931_call_unexpected_primitive (c : nat) : W unit := report_call c.
Definition q931_call_unexpected_timer (c : nat) : W unit := report_call c.

(** [new_state = None] is the -1 of the macro: the call's state.  After the null
    state of the network side there is no [else]: the second test sees the state
    the first branch has set, changes the value of the cause that is already in
    the set and adds the same object again.  The set then holds two pointers for
    one reference: releasing them touches freed memory. *)
Definition message_not_compatible (c : nat) (m : q931_message)
    (new_state : option q931_call_state) : W unit :=
  report_call c ;;
  location ← cause_location_call c;
  state ← getc c call_state;
  let was_n0 := bool_decide (state = N0_NULL_STATE) in
  when was_n0
    (ies ← lift (q931_ies_add_put []
              (new_cause location Q931_IE_C_CV_INVALID_CALL_REFERENCE_VALUE []));
     q931_call_send_release c (Some ies) ;;
     q931_call_start_timer c T308 ;;
     q931_call_set_state c N19_RELEASE_REQUEST) ;;
  state ← getc c call_state;
  if decide (state = U0_NULL_STATE) then
    ies ← lift (q931_ies_add_put []
            (new_cause location Q931_IE_C_CV_INVALID_CALL_REFERENCE_VALUE []));
    q931_call_send_release c (Some ies) ;;
    q931_call_start_timer c T308 ;;
    q931_call_set_state c N19_RELEASE_REQUEST
  else
    let cause := new_cause location Q931_IE_C_CV_MESSAGE_NOT_COMPATIBLE_WITH_CALL_STATE
                   [msg_message_type m] in
    ies ← lift (q931_ies_add_put (if was_n0 then [cause] else []) cause);
    match new_state with
    | None => q931_call_send_call_status c (Some ies)
    | Some state => q931_call_send_call_status_with_state c (Some ies) state
    end ;;
    when was_n0 (fail UseAfterFree).

Definition q931_call_message_not_compatible_with_state (c : nat) (m : q931_message) : W unit :=
  message_not_compatible c m None.
Definition q931_call_message_not_compatible_with_state_n6 (c : nat) (m : q931_message)
    : W unit := message_not_compatible c m (Some N6_CALL_PRESENT).

(** ** Channel selection *)

Fixpoint find_channel_identification (ies : q931_ies) : option q931_ie_channel_identification :=
  match ies with
  | [] => None
  | IE_CHANNEL_IDENTIFICATION ci :: _ => Some ci
  | _ :: ies' => find_channel_identification ies'
  end.

Definition chan_available (i : nat) : W bool :=
  r ← read_chan i; mret (bool_decide (ch_state r = Q931_CHANSTATE_AVAILABLE)).

(** [call->channel = chan], selected for the call *)
Definition take_channel (c i : nat) : W unit :=
  upd_call c (set_call_channel (Some i)) ;;
  upd_chan i (set_ch_call (Some c)) ;;
  q931_channel_set_state i Q931_CHANSTATE_SELECTED.

(** The loop [for (i=0; ci->chanset.nchans; i++)] over a set that is not empty: it
    stops at an available channel only, and then runs off the channels of the
    set into the null pointers of the array or over its end. *)
Fixpoint select_first_available (chans : list nat) (n : nat) : W nat :=
  match chans with
  | [] => if (n <? Q931_CHANSET_MAX_SIZE)%nat then fail NullDeref else fail OutOfBounds
  | i :: chans' => ifM (chan_available i) (mret i) (select_first_available chans' n)
  end.

(** the result and the causes it adds to [causes] *)
Definition q931_channel_select_response (c : nat) (ies : q931_ies) : W (bool * q931_ies) :=
  ch ← getc c call_channel;
  match find_channel_identification ies with
  | None =>
      match ch with
      | None => mret (false, [])
      | Some i => upd_chan i (set_ch_call (Some c)) ;; mret (true, [])
      end
  | Some ci =>
      let chans := ci_chanset ci in
      match ch with
      | None =>
          match chans with
          | [] => causes ← add_cause c Q931_IE_C_CV_CHANNEL_UNACCEPTABLE [] [];
                  mret (false, causes)
          | _ => i ← select_first_available chans (length chans);
                 take_channel c i ;; mret (true, [])
          end
      | Some ch =>
          if q931_chanset_contains chans ch then mret (true, [])
          else
            match chans with
            | [] => causes ← add_cause c Q931_IE_C_CV_REQUESTED_CIRCUIT_CHANNEL_NOT_AVAILABLE
                               [] [];
                    mret (false, causes)
            | _ => i ← select_first_available chans (length chans);
                   q931_channel_release (Some ch) ;;
                   take_channel c i ;; mret (true, [])
            end
      end
  end.

(** the first available channel of the interface *)
Fixpoint first_available (i n : nat) : W (option nat) :=
  match n with
  | O => mret None
  | S n' => ifM (chan_available i) (mret (Some i)) (first_available (S i) n')
  end.

(** the channel, the causes it adds and [*bumping_needed] *)
Definition q931_channel_select_setup (c : nat) (setup_ies : q931_ies)
    : W (option nat * q931_ies * bool) :=
  intf ← read_intf;
  let any_channel :=
    i ← first_available 0 (intf_n_channels intf);
    match i with
    | Some i => mret (Some i, [], false)
    | None => causes ← add_cause c Q931_IE_C_CV_NO_CIRCUIT_CHANNEL_AVAILABLE [] [];
              mret (None, causes, false)
    end in
  _ ← read_call c;
  match find_channel_identification setup_ies with
  | None => any_channel
  | Some ci =>
      match ci_chanset ci with
      | [] => mret (None, [], true)
      | chans =>
          (fix loop (l : list nat) : W (option nat * q931_ies * bool) :=
             match l with
             | [] => any_channel
             | i :: l' =>
                 ifM (chan_available i) (mret (Some i, [], false))
                   (if ci_preferred_exclusive ci =? Q931_IE_CI_PE_EXCLUSIVE then
                      causes ← add_cause c
                        Q931_IE_C_CV_REQUESTED_CIRCUIT_CHANNEL_NOT_AVAILABLE [] [];
                      mret (None, causes, false)
                    else loop l')
             end) chans
      end
  end.

(** the assertion that the call has no channel *)
Definition q931_channel_acquire (c : nat) : W unit :=
  ch ← getc c call_channel;
  match ch with Some _ => fail AssertFail | None => mret tt end ;;
  intf ← read_intf;
  i ← first_available 0 (intf_n_channels intf);
  match i with
  | Some i =>
      upd_chan i (set_ch_call (Some c)) ;;
      upd_call c (set_call_channel (Some i)) ;;
      q931_channel_set_state i Q931_CHANSTATE_SELECTED
  | None => mret tt
  end.

(** ** The internal indications of the CES to their call ([q931_int_*] of
    [call.c]) *)

Definition q931_int_alerting_indication (c s : nat) (ies : option q931_ies) : W unit :=
  report_call c ;;
  state ← getc c call_state;
  match state with
  | N7_CALL_RECEIVED | N8_CONNECT_REQUEST => mret tt
  | N9_INCOMING_CALL_PROCEEDING =>
      q931_call_stop_timer c T310 ;;
      q931_call_start_timer c T301 ;;
      q931_call_set_state c N7_CALL_RECEIVED ;;
      q931_call_primitive c Q931_CCB_ALERTING_INDICATION ies
  | N25_OVERLAP_RECEIVING =>
      q931_call_stop_timer c T304 ;;
      q931_call_start_timer c T301 ;;
      q931_call_set_state c N7_CALL_RECEIVED ;;
      q931_call_primitive c Q931_CCB_ALERTING_INDICATION ies
  | _ => q931_call_unexpected_primitive c
  end.

Definition q931_int_connect_indication (c s : nat) (ies : q931_ies) : W unit :=
  report_call c ;;
  state ← getc c call_state;
  match state with
  | N7_CALL_RECEIVED =>
      r ← q931_channel_select_response c ies;
      if (fst r : bool) then
        upd_call c (set_call_preselected_ces (Some s)) ;;
        q931_call_stop_timer c T301 ;;
        q931_call_set_state c N8_CONNECT_REQUEST ;;
        q931_call_primitive c Q931_CCB_CONNECT_INDICATION (Some ies)
      else q931_ces_release_request s (Some (snd r))
  | N8_CONNECT_REQUEST => mret tt
  | N9_INCOMING_CALL_PROCEEDING =>
      q931_call_stop_timer c T310 ;;
      upd_call c (set_call_preselected_ces (Some s)) ;;
      q931_call_set_state c N8_CONNECT_REQUEST ;;
      q931_call_primitive c Q931_CCB_CONNECT_INDICATION (Some ies)
  | N25_OVERLAP_RECEIVING =>
      q931_call_stop_timer c T304 ;;
      upd_call c (set_call_preselected_ces (Some s)) ;;
      q931_call_set_state c N8_CONNECT_REQUEST ;;
      q931_call_primitive c Q931_CCB_CONNECT_INDICATION (Some ies)
  | _ => q931_call_unexpected_primitive c
  end.

Definition q931_int_call_proceeding_indication (c s : nat) (ies : option q931_ies) : W unit :=
  report_call c ;;
  state ← getc c call_state;
  match state with
  | N7_CALL_RECEIVED | N8_CONNECT_REQUEST => mret tt
  | N25_OVERLAP_RECEIVING =>
      q931_call_stop_timer c T304 ;;
      q931_call_start_timer c T310 ;;
      q931_call_set_state c N9_INCOMING_CALL_PROCEEDING ;;
      q931_call_primitive c Q931_CCB_PROCEEDING_INDICATION ies
  | _ => q931_call_unexpected_primitive c
  end.

Definition q931_int_release_complete_indication (c s : nat) (ies : option q931_ies) : W unit :=
  report_call c ;;
  state ← getc c call_state;
  match state with
  | N0_NULL_STATE | N6_CALL_PRESENT | N7_CALL_RECEIVED | N8_CONNECT_REQUEST
  | N9_INCOMING_CALL_PROCEEDING | N10_ACTIVE | N19_RELEASE_REQUEST
  | N25_OVERLAP_RECEIVING =>
      q931_ces_free s
  | N22_CALL_ABORT =>
      q931_ces_free s ;;
      l ← getc c call_ces;
      match l with
      | [] =>
          whenM (getc c call_disconnect_indication_sent)
            (q931_call_primitive c Q931_CCB_RELEASE_INDICATION ies) ;;
          on_channel c q931_channel_release ;;
          q931_call_set_state c N0_NULL_STATE ;;
          q931_call_release_reference c
      | _ => mret tt
      end
  | _ => q931_call_unexpected_primitive c
  end.

Definition q931_int_info_indication (c s : nat) (ies : option q931_ies) : W unit :=
  report_call c ;;
  state ← getc c call_state;
  match state with
  | N7_CALL_RECEIVED | N8_CONNECT_REQUEST | N9_INCOMING_CALL_PROCEEDING
  | N19_RELEASE_REQUEST | N25_OVERLAP_RECEIVING =>
      q931_call_primitive c Q931_CCB_INFO_INDICATION ies
  | _ => q931_call_unexpected_primitive c
  end.

Definition q931_int_progress_indication (c s : nat) (ies : option q931_ies) : W unit :=
  report_call c ;;
  state ← getc c call_state;
  match state with
  | N7_CALL_RECEIVED | N8_CONNECT_REQUEST =>
      q931_call_primitive c Q931_CCB_PROGRESS_INDICATION ies
  | N9_INCOMING_CALL_PROCEEDING =>
      q931_call_stop_timer c T310 ;;
      q931_call_primitive c Q931_CCB_PROGRESS_INDICATION ies
  | N25_OVERLAP_RECEIVING =>
      q931_call_primitive c Q931_CCB_PROGRESS_INDICATION ies
  | _ => q931_call_unexpected_primitive c
  end.

(** "Are other CES able to proceed?"  The states of the CES are compared with
    states of the call, whose numbers no CES state has. *)
Fixpoint ces_able_to_proceed (l : list nat) (s : nat) : W bool :=
  match l with
  | [] => mret false
  | t :: l' =>
      r ← read_ces t;
      if negb (t =? s)%nat &&
         negb (q931_ces_state_int (ces_state r) =? q931_call_state_int N0_NULL_STATE) &&
         negb (q931_ces_state_int (ces_state r) =? q931_call_state_int N19_RELEASE_REQUEST)
      then mret true else ces_able_to_proceed l' s
  end.

Definition able_to_proceed (c s : nat) : W bool :=
  l ← getc c call_ces; ces_able_to_proceed l s.

Definition save_cause (c : nat) (ies : option q931_ies) : W unit :=
  saved ← getc c call_saved_cause;
  saved' ← lift (q931_ies_merge saved ies);
  upd_call c (set_call_saved_cause saved').

(** In state N8 the parameters [ies] and [ces] are shadowed. *)
Definition q931_int_release_indication (c s : nat) (ies : option q931_ies) : W unit :=
  report_call c ;;
  state ← getc c call_state;
  match state with
  | N7_CALL_RECEIVED =>
      ifM (able_to_proceed c s) (save_cause c ies)
        (ifM (q931_call_timer_running c T312) (save_cause c ies)
          (q931_call_stop_timer c T301 ;;
           on_channel c q931_channel_release ;;
           q931_call_set_state c N0_NULL_STATE ;;
           q931_call_release_reference c ;;
           q931_call_primitive c Q931_CCB_RELEASE_INDICATION ies))
  | N8_CONNECT_REQUEST =>
      pre ← getc c call_preselected_ces;
      match pre with
      | None => mret tt
      | Some _ =>
          ies ← call_cause_ies c Q931_IE_C_CV_NON_SELECTED_USER_CLEARING [];
          for_each_ces c (λ s, q931_ces_release_request s (Some ies)) ;;
          on_channel c q931_channel_release ;;
          ifM (q931_call_timer_running c T312)
            (q931_call_set_state c N22_CALL_ABORT)
            (q931_call_set_state c N0_NULL_STATE ;; q931_call_release_reference c) ;;
          q931_call_primitive c Q931_CCB_RELEASE_INDICATION (Some ies)
      end
  | N9_INCOMING_CALL_PROCEEDING =>
      ifM (able_to_proceed c s) (save_cause c ies)
        (ifM (q931_call_timer_running c T312) (save_cause c ies)
          (q931_call_stop_timer c T310 ;;
           on_channel c q931_channel_release ;;
           q931_call_release_reference c ;;
           q931_call_set_state c N0_NULL_STATE ;;
           q931_call_primitive c Q931_CCB_RELEASE_INDICATION ies))
  | N25_OVERLAP_RECEIVING =>
      ifM (able_to_proceed c s) (save_cause c ies)
        (ifM (q931_call_timer_running c T312) (save_cause c ies)
          (on_channel c q931_channel_release ;;
           q931_call_set_state c N0_NULL_STATE ;;
           q931_call_release_reference c ;;
           q931_call_primitive c Q931_CCB_RELEASE_INDICATION ies))
  | _ => q931_call_unexpected_primitive c
  end.
