(* ===== verification/Q931CallRequests.v ===== *)
(** * The requests of the call control block ([q931_*_request], [q931_*_response]
    of [call.c]) *)

From stdpp Require Import base list gmap functions.
From Stdlib Require Import ZArith Lia.
From S2P Require Import Prelude.
From S2P Require Import Bits.
From S2P Require Import Q931Defs.
From S2P Require Import Q931Tables.
From S2P Require Import Q931Sets.
From S2P Require Import Q931IE.
From S2P Require Import Q931World.
From S2P Require Import Q931Base.
From S2P Require Import Q931Wire.
From S2P Require Import Q931Decode.
From S2P Require Import Q931Ces.
From S2P Require Import Q931Call.
Local Open Scope Z_scope.

(** [q931_ies_merge] into an empty set and the call's channel *)
Definition ies_with_channel (c : nat) (user_ies : option q931_ies) (preferred_exclusive : Z)
    : W q931_ies :=
  ies ← lift (q931_ies_merge [] user_ies);
  add_call_channel c preferred_exclusive ies.

Definition q931_alerting_request (c : nat) (user_ies : option q931_ies) : W unit :=
  report_call c ;;
  state ← getc c call_state;
  match state with
  | N2_OVERLAP_SENDING =>
      q931_call_stop_timer c T302 ;;
      q931_call_send_alerting c user_ies ;;
      q931_call_set_state c N4_CALL_DELIVERED
  | N3_OUTGOING_CALL_PROCEEDING =>
      q931_call_send_alerting c user_ies ;;
      q931_call_set_state c N4_CALL_DELIVERED
  | U6_CALL_PRESENT =>
      ies ← ies_with_channel c user_ies Q931_IE_CI_PE_PREFERRED;
      q931_call_send_alerting c (Some ies) ;;
      q931_call_set_state c U7_CALL_RECEIVED
  | U8_CONNECT_REQUEST | U9_INCOMING_CALL_PROCEEDING =>
      q931_call_send_alerting c user_ies ;;
      q931_call_set_state c U7_CALL_RECEIVED
  | U25_OVERLAP_RECEIVING =>
      q931_call_stop_timer c T302 ;;
      q931_call_send_alerting c user_ies ;;
      q931_call_set_state c U7_CALL_RECEIVED
  | _ => q931_call_unexpected_primitive c
  end.

(** DISCONNECT with tones on the channel, or after disconnecting it *)
Definition disconnect_with_tones (c : nat) (ies : q931_ies) : W unit :=
  ifM (getc c call_tones_option)
    (ies ← add_in_band_pi c ies;
     q931_call_send_disconnect c (Some ies) ;;
     on_channel c (λ ch, q931_channel_start_tone ch Q931_TONE_HANGUP) ;;
     q931_call_start_timer c T306)
    (on_channel c q931_channel_disconnect ;;
     q931_call_send_disconnect c (Some ies) ;;
     q931_call_start_timer c T305) ;;
  q931_call_set_state c N12_DISCONNECT_INDICATION.

(** the end of a broadcast call with T312 over (states N8, N9 and N25) *)
Definition abort_broadcast (c : nat) (user_ies : option q931_ies) : W unit :=
  on_channel c q931_channel_release ;;
  ifM (q931_call_timer_running c T312)
    (q931_call_set_state c N22_CALL_ABORT ;;
     for_each_ces c (λ s, q931_ces_release_request s user_ies))
    (q931_call_set_state c N0_NULL_STATE ;;
     q931_call_release_reference c ;;
     for_each_ces c (λ s, q931_ces_release_request s user_ies) ;;
     q931_call_primitive c Q931_CCB_RELEASE_INDICATION None).

Definition disconnect_u11 (c : nat) (ies : q931_ies) : W unit :=
  q931_call_send_disconnect c (Some ies) ;;
  q931_call_start_timer c T305 ;;
  q931_call_set_state c U11_DISCONNECT_REQUEST.

Definition disconnect_n12 (c : nat) (ies : q931_ies) : W unit :=
  q931_call_send_disconnect c (Some ies) ;;
  q931_call_start_timer c T305 ;;
  q931_call_set_state c N12_DISCONNECT_INDICATION.

Definition q931_disconnect_request (c : nat) (user_ies : option q931_ies) : W unit :=
  report_call c ;;
  upd_call c (set_call_disconnect_indication_sent true) ;;
  ies ← lift (q931_ies_copy [] user_ies);
  state ← getc c call_state;
  match state with
  | N2_OVERLAP_SENDING =>
      q931_call_stop_timer c T302 ;; disconnect_with_tones c ies
  | N3_OUTGOING_CALL_PROCEEDING | N4_CALL_DELIVERED => disconnect_with_tones c ies
  | N6_CALL_PRESENT =>
      q931_call_stop_timer c T303 ;;
      ifM (getc c call_broadcast_setup)
        (on_channel c q931_channel_disconnect ;;
         q931_call_set_state c N22_CALL_ABORT)
        (disconnect_with_tones c ies)
  | N7_CALL_RECEIVED =>
      q931_call_stop_timer c T301 ;;
      ifM (getc c call_broadcast_setup)
        (on_channel c q931_channel_release ;;
         ifM (q931_call_timer_running c T312)
           (q931_call_set_state c N22_CALL_ABORT ;;
            for_each_ces c (λ s, q931_ces_release_request s user_ies))
           (for_each_ces c (λ s, q931_ces_release_request s user_ies) ;;
            q931_call_primitive c Q931_CCB_RELEASE_INDICATION user_ies ;;
            q931_call_set_state c N0_NULL_STATE ;;
            q931_call_release_reference c))
        (disconnect_n12 c ies)
  | N8_CONNECT_REQUEST =>
      ifM (getc c call_broadcast_setup) (abort_broadcast c user_ies) (disconnect_n12 c ies)
  | N9_INCOMING_CALL_PROCEEDING =>
      q931_call_stop_timer c T310 ;;
      ifM (getc c call_broadcast_setup) (abort_broadcast c user_ies)
        (q931_call_send_disconnect c (Some ies) ;;
         on_channel c q931_channel_release ;;
         q931_call_start_timer c T305 ;;
         q931_call_set_state c N12_DISCONNECT_INDICATION)
  | N10_ACTIVE => disconnect_with_tones c ies
  | N15_SUSPEND_REQUEST => disconnect_with_tones c ies
  | N25_OVERLAP_RECEIVING =>
      q931_call_stop_timer c T304 ;;
      ifM (getc c call_broadcast_setup) (abort_broadcast c user_ies)
        (q931_call_send_disconnect c (Some ies) ;;
         on_channel c q931_channel_disconnect ;;
         q931_call_start_timer c T305 ;;
         q931_call_set_state c N12_DISCONNECT_INDICATION)
  | U1_CALL_INITIATED =>
      q931_call_stop_timer c T303 ;; disconnect_u11 c ies
  | U2_OVERLAP_SENDING =>
      q931_call_stop_timer c T304 ;; on_channel c q931_channel_disconnect ;; disconnect_u11 c ies
  | U3_OUTGOING_CALL_PROCEEDING | U4_CALL_DELIVERED | U7_CALL_RECEIVED
  | U9_INCOMING_CALL_PROCEEDING | U10_ACTIVE =>
      on_channel c q931_channel_disconnect ;; disconnect_u11 c ies
  | U8_CONNECT_REQUEST =>
      q931_call_stop_timer c T313 ;; on_channel c q931_channel_disconnect ;; disconnect_u11 c ies
  | U25_OVERLAP_RECEIVING =>
      q931_call_stop_timer c T302 ;; on_channel c q931_channel_disconnect ;; disconnect_u11 c ies
  | _ => q931_call_unexpected_primitive c
  end.

Definition q931_info_request (c : nat) (ies : option q931_ies) : W unit :=
  report_call c ;;
  state ← getc c call_state;
  match state with
  | N2_OVERLAP_SENDING | N3_OUTGOING_CALL_PROCEEDING | N4_CALL_DELIVERED | N10_ACTIVE
  | N11_DISCONNECT_REQUEST | N12_DISCONNECT_INDICATION => q931_call_send_information c ies
  | N6_CALL_PRESENT => mret tt
  | N7_CALL_RECEIVED | N8_CONNECT_REQUEST | N9_INCOMING_CALL_PROCEEDING =>
      ifM (getc c call_broadcast_setup)
        (for_each_ces c (λ s, q931_ces_info_request s ies))
        (q931_call_send_information c ies)
  | U1_CALL_INITIATED => mret tt
  | U2_OVERLAP_SENDING =>
      q931_call_send_information c ies ;;
      whenM (q931_call_timer_running c T304) (q931_call_restart_timer c T304)
  | U3_OUTGOING_CALL_PROCEEDING | U4_CALL_DELIVERED | U7_CALL_RECEIVED | U8_CONNECT_REQUEST
  | U9_INCOMING_CALL_PROCEEDING | U10_ACTIVE | U11_DISCONNECT_REQUEST
  | U12_DISCONNECT_INDICATION | U25_OVERLAP_RECEIVING => q931_call_send_information c ies
  | _ => q931_call_unexpected_primitive c
  end.

Definition q931_more_info_request (c : nat) (user_ies : option q931_ies) : W unit :=
  report_call c ;;
  state ← getc c call_state;
  match state with
  | N1_CALL_INITIATED =>
      ies ← lift (q931_ies_merge [] user_ies);
      q931_call_start_timer c T302 ;;
      ies ← add_call_channel c Q931_IE_CI_PE_EXCLUSIVE ies;
      ies ← ifM (getc c call_tones_option) (add_in_band_pi c ies) (mret ies);
      q931_call_send_setup_acknowledge c (Some ies) ;;
      on_channel c q931_channel_connect ;;
      r ← read_call c;
      when (negb (call_digits_dialled r) && call_tones_option r)
        (q931_channel_start_tone (call_channel r) Q931_TONE_DIAL) ;;
      q931_call_set_state c N2_OVERLAP_SENDING
  | N25_OVERLAP_RECEIVING =>
      ifM (getc c call_broadcast_setup)
        (for_each_ces c (λ s, q931_ces_info_request s user_ies))
        (q931_call_send_information c user_ies ;; q931_call_start_timer c T304)
  | U6_CALL_PRESENT =>
      ies ← ies_with_channel c user_ies Q931_IE_CI_PE_EXCLUSIVE;
      q931_call_send_setup_acknowledge c (Some ies) ;;
      q931_call_start_timer c T302 ;;
      q931_call_set_state c U25_OVERLAP_RECEIVING
  | _ => q931_call_unexpected_primitive c
  end.

Definition q931_notify_request (c : nat) (user_ies : option q931_ies) : W unit :=
  report_call c ;;
  state ← getc c call_state;
  match state with
  | N0_NULL_STATE => mret tt
  | N10_ACTIVE | N15_SUSPEND_REQUEST => q931_call_send_notify c user_ies
  | U10_ACTIVE => q931_call_send_notify c user_ies
  | _ => q931_call_unexpected_primitive c
  end.

Definition q931_proceeding_request (c : nat) (user_ies : option q931_ies) : W unit :=
  report_call c ;;
  state ← getc c call_state;
  match state with
  | N1_CALL_INITIATED =>
      ies ← ies_with_channel c user_ies Q931_IE_CI_PE_EXCLUSIVE;
      q931_call_send_call_proceeding c (Some ies) ;;
      on_channel c q931_channel_connect ;;
      q931_call_set_state c N3_OUTGOING_CALL_PROCEEDING
  | N2_OVERLAP_SENDING =>
      q931_call_stop_timer c T302 ;;
      q931_call_send_call_proceeding c user_ies ;;
      q931_call_set_state c N3_OUTGOING_CALL_PROCEEDING
  | U6_CALL_PRESENT =>
      ies ← ies_with_channel c user_ies Q931_IE_CI_PE_EXCLUSIVE;
      q931_call_send_call_proceeding c (Some ies) ;;
      q931_call_set_state c U9_INCOMING_CALL_PROCEEDING
  | U25_OVERLAP_RECEIVING =>
      q931_call_stop_timer c T302 ;;
      q931_call_send_call_proceeding c user_ies ;;
      q931_call_set_state c U9_INCOMING_CALL_PROCEEDING
  | _ => q931_call_unexpected_primitive c
  end.

Definition q931_progress_request (c : nat) (user_ies : option q931_ies) : W unit :=
  report_call c ;;
  state ← getc c call_state;
  match state with
  | N2_OVERLAP_SENDING | N3_OUTGOING_CALL_PROCEEDING | N4_CALL_DELIVERED | U7_CALL_RECEIVED
  | U8_CONNECT_REQUEST => q931_call_send_progress c user_ies
  | U25_OVERLAP_RECEIVING =>
      q931_call_stop_timer c T302 ;; q931_call_send_progress c user_ies
  | _ => q931_call_unexpected_primitive c
  end.

Definition q931_reject_request (c : nat) (user_ies : option q931_ies) : W unit :=
  report_call c ;;
  state ← getc c call_state;
  match state with
  | N1_CALL_INITIATED =>
      q931_call_send_release_complete c user_ies ;;
      on_channel c q931_channel_release ;;
      q931_call_set_state c N0_NULL_STATE ;;
      q931_call_release_reference c
  | U6_CALL_PRESENT =>
      q931_call_send_release_complete c user_ies ;;
      q931_call_set_state c U0_NULL_STATE ;;
      q931_call_release_reference c
  | _ => q931_call_unexpected_primitive c
  end.

(** the diagnostics [struct q931_ie_cause_diag_1_2] with [ext2 = 1] and
    [condition = PERMANENT], as stored on a little endian machine *)
Definition diag_1_2_permanent : list Z := [0x81; 0x00].

Definition q931_release_request (c : nat) (user_ies : option q931_ies) : W unit :=
  report_call c ;;
  state ← getc c call_state;
  match state with
  | N11_DISCONNECT_REQUEST =>
      ies ← lift (q931_ies_merge [] user_ies);
      ies ← add_cause c Q931_IE_C_CV_NORMAL_CALL_CLEARING diag_1_2_permanent ies;
      q931_call_send_release c (Some ies) ;;
      q931_call_start_timer c T308 ;;
      q931_call_set_state c N19_RELEASE_REQUEST
  | U12_DISCONNECT_INDICATION =>
      cause ← getc c call_disconnect_cause;
      ies ← lift (q931_ies_merge [] (Some cause));
      ies ← lift (q931_ies_merge ies user_ies);
      on_channel c q931_channel_disconnect ;;
      q931_call_send_release c (Some ies) ;;
      q931_call_start_timer c T308 ;;
      q931_call_set_state c U19_RELEASE_REQUEST
  | _ => q931_call_unexpected_primitive c
  end.

(** the report of a wrong interface type does not end the function *)
Definition q931_resume_request (c : nat) (user_ies : option q931_ies) : W unit :=
  report_call c ;;
  intf ← read_intf;
  when (bool_decide (intf_type intf ≠ LAPD_INTF_TYPE_BRA)) (q931_call_unexpected_primitive c) ;;
  state ← getc c call_state;
  match state with
  | U0_NULL_STATE =>
      q931_call_send_resume c user_ies ;;
      q931_call_start_timer c T318 ;;
      q931_call_set_state c U17_RESUME_REQUEST
  | _ => q931_call_unexpected_primitive c
  end.

Definition q931_resume_reject_request (c : nat) (user_ies : option q931_ies) : W unit :=
  report_call c ;;
  state ← getc c call_state;
  match state with
  | N17_RESUME_REQUEST =>
      q931_call_send_resume_reject c user_ies ;;
      q931_call_release_reference c ;;
      q931_call_set_state c N0_NULL_STATE
  | _ => q931_call_unexpected_primitive c
  end.

Definition q931_resume_response (c : nat) (user_ies : option q931_ies) : W unit :=
  report_call c ;;
  state ← getc c call_state;
  match state with
  | N17_RESUME_REQUEST =>
      q931_call_send_resume_acknowledge c user_ies ;;
      q931_call_set_state c N10_ACTIVE
  | _ => q931_call_unexpected_primitive c
  end.

(** [call->selected_ces] still points to the CES after it has been freed. *)
Definition q931_setup_complete_request (c : nat) (user_ies : option q931_ies) : W unit :=
  report_call c ;;
  state ← getc c call_state;
  match state with
  | N8_CONNECT_REQUEST =>
      on_channel c q931_channel_connect ;;
      ifM (getc c call_broadcast_setup)
        (pre ← getc c call_preselected_ces;
         upd_call c (set_call_selected_ces pre) ;;
         s ← deref pre;
         sr ← read_ces s;
         d ← q931_dlc_get (ces_dlc sr);
         upd_call c (set_call_dlc (Some d)) ;;
         q931_dlc_hold (ces_dlc sr) ;;
         q931_call_send_connect_acknowledge c user_ies ;;
         q931_ces_free s ;;
         ies ← call_cause_ies c Q931_IE_C_CV_NON_SELECTED_USER_CLEARING [];
         for_each_ces c (λ s, q931_ces_release_request s (Some ies)))
        (q931_call_send_connect_acknowledge c user_ies) ;;
      q931_call_set_state c N10_ACTIVE
  | _ => q931_call_unexpected_primitive c
  end.

Definition q931_setup_request (c : nat) (user_ies : option q931_ies) : W unit :=
  report_call c ;;
  state ← getc c call_state;
  match state with
  | N0_NULL_STATE =>
      q931_channel_acquire c ;;
      ch ← getc c call_channel; intf ← read_intf;
      if bool_decide (is_Some ch) || intf_enable_bumping intf then
        q931_call_start_timer c T303 ;;
        setup ← getc c call_setup_ies;
        setup ← lift (q931_ies_copy setup user_ies);
        chans ← (match ch with
                 | Some i => lift (q931_chanset_add q931_chanset_init i)
                 | None => mret q931_chanset_init end);
        (* [preferred_exclusive] is assigned when the element is in the set *)
        let multipoint := bool_decide (intf_mode intf = LAPD_INTF_MODE_MULTIPOINT) in
        setup ← lift (q931_ies_add_put setup
                  (new_channel_identification intf
                     (if multipoint then Q931_IE_CI_PE_EXCLUSIVE else Q931_IE_CI_PE_PREFERRED)
                     chans));
        dt ← new_datetime;
        setup ← lift (q931_ies_add_put setup dt);
        upd_call c (set_call_setup_ies setup) ;;
        (if multipoint then
           upd_call c (set_call_broadcast_setup true) ;;
           q931_call_start_timer c T312 ;;
           q931_call_send_setup_bc c (Some setup)
         else q931_call_send_setup c (Some setup)) ;;
        q931_call_set_state c N6_CALL_PRESENT
      else
        ies ← call_cause_ies c Q931_IE_C_CV_NO_CIRCUIT_CHANNEL_AVAILABLE [];
        q931_call_primitive c Q931_CCB_RELEASE_INDICATION (Some ies)
  | U0_NULL_STATE =>
      setup ← getc c call_setup_ies;
      setup ← lift (q931_ies_copy setup user_ies);
      upd_call c (set_call_setup_ies setup) ;;
      q931_call_send_setup c (Some setup) ;;
      q931_call_start_timer c T303 ;;
      q931_call_set_state c U1_CALL_INITIATED
  | _ => q931_call_unexpected_primitive c
  end.

Definition q931_setup_response (c : nat) (user_ies : option q931_ies) : W unit :=
  report_call c ;;
  ies ← lift (q931_ies_merge [] user_ies);
  state ← getc c call_state;
  match state with
  | N2_OVERLAP_SENDING =>
      dt ← new_datetime;
      ies ← lift (q931_ies_add_put ies dt);
      q931_call_stop_timer c T302 ;;
      q931_call_send_connect c (Some ies) ;;
      q931_call_set_state c N10_ACTIVE
  | N3_OUTGOING_CALL_PROCEEDING | N4_CALL_DELIVERED =>
      dt ← new_datetime;
      ies ← lift (q931_ies_add_put ies dt);
      q931_call_send_connect c (Some ies) ;;
      q931_call_set_state c N10_ACTIVE
  | U6_CALL_PRESENT =>
      ies ← add_call_channel c Q931_IE_CI_PE_EXCLUSIVE ies;
      q931_call_send_connect c (Some ies) ;;
      q931_call_start_timer c T313 ;;
      q931_call_set_state c U8_CONNECT_REQUEST
  | U7_CALL_RECEIVED | U9_INCOMING_CALL_PROCEEDING =>
      q931_call_send_connect c user_ies ;;
      q931_call_start_timer c T313 ;;
      q931_call_set_state c U8_CONNECT_REQUEST
  | U25_OVERLAP_RECEIVING =>
      q931_call_stop_timer c T302 ;;
      q931_call_send_connect c user_ies ;;
      q931_call_start_timer c T313 ;;
      q931_call_set_state c U8_CONNECT_REQUEST
  | _ => q931_call_unexpected_primitive c
  end.

(** a STATUS ENQUIRY of the call itself, unless one is pending *)
Definition call_status_enquiry (c : nat) (user_ies : option q931_ies) : W unit :=
  ifM (q931_call_timer_running c T322) (mret tt)
    (q931_call_send_status_enquiry c user_ies ;;
     upd_call c (set_call_senq_status_97_98_received false) ;;
     upd_call c (set_call_senq_cnt 0) ;;
     q931_call_start_timer c T322).

Definition q931_status_enquiry_request (c : nat) (ces : option nat)
    (user_ies : option q931_ies) : W unit :=
  report_call c ;;
  state ← getc c call_state;
  match state with
  | N0_NULL_STATE | N6_CALL_PRESENT | N7_CALL_RECEIVED | N8_CONNECT_REQUEST
  | N9_INCOMING_CALL_PROCEEDING | N19_RELEASE_REQUEST | N25_OVERLAP_RECEIVING =>
      ifM (getc c call_broadcast_setup)
        (when (bool_decide (state ≠ N6_CALL_PRESENT))
           (match ces with
            | Some s => q931_ces_status_enquiry_request s user_ies
            | None => for_each_ces c (λ s, q931_ces_status_enquiry_request s user_ies)
            end))
        (call_status_enquiry c user_ies)
  | _ => call_status_enquiry c user_ies
  end.

Definition q931_suspend_reject_request (c : nat) (user_ies : option q931_ies) : W unit :=
  report_call c ;;
  state ← getc c call_state;
  match state with
  | N15_SUSPEND_REQUEST =>
      q931_call_send_suspend_reject c user_ies ;;
      q931_call_set_state c N10_ACTIVE
  | _ => q931_call_unexpected_primitive c
  end.

Definition q931_suspend_response (c : nat) (user_ies : option q931_ies) : W unit :=
  report_call c ;;
  state ← getc c call_state;
  match state with
  | N15_SUSPEND_REQUEST =>
      q931_call_send_suspend_acknowledge c user_ies ;;
      q931_call_release_reference c ;;
      q931_call_set_state c N0_NULL_STATE
  | _ => q931_call_unexpected_primitive c
  end.

Definition q931_suspend_request (c : nat) (user_ies : option q931_ies) : W unit :=
  report_call c ;;
  state ← getc c call_state;
  match state with
  | U10_ACTIVE =>
      q931_call_send_suspend c user_ies ;;
      q931_call_start_timer c T319 ;;
      q931_call_set_state c U15_SUSPEND_REQUEST
  | _ => q931_call_unexpected_primitive c
  end.
