(* ===== verification/Q931Global.v ===== *)
(** * The global call ([global.c]) and [q931_restart_request] of [call.c]

    The restart procedure: as the initiator (state RESTART REQUEST) and as the
    responder (state RESTART), where every call on a restarted channel is
    cleared. *)

From stdpp Require Import base list gmap functions.
From Stdlib Require Import ZArith Lia.
From S2P Require Import Prelude.
From S2P Require Import Bits.
From S2P Require Import Q931Defs.
From S2P Require Import Q931Tables.
From S2P Require Import Q931Sets.
From S2P Require Import Q931IE.
From S2P Require Import Q931World.
From S2P Require Import Q931Base.
From S2P Require Import Q931Wire.
From S2P Require Import Q931Decode.
From S2P Require Import Q931Ces.
From S2P Require Import Q931Call.
Local Open Scope Z_scope.

Definition getg {A} (f : q931_global_call → A) : W A := g ← read_gc; mret (f g).

Definition q931_global_set_state (state : q931_global_state) : W unit :=
  upd_gc (set_gc_state state).

Definition global_timer_duration (t : global_timer) (intf : q931_interface) : Z :=
  match t with GLOBAL_T316 => intf_T intf T316 | GLOBAL_T317 => intf_T317 intf end.

Definition q931_global_start_timer (t : global_timer) : W unit :=
  intf ← read_intf; q931_start_timer_delta (TimerGlobal t) (global_timer_duration t intf).
Definition q931_global_stop_timer (t : global_timer) : W unit :=
  q931_stop_timer (TimerGlobal t).
Definition q931_global_timer_running (t : global_timer) : W bool :=
  q931_timer_pending (TimerGlobal t).

Definition q931_global_primitive (p : q931_primitive) : W unit :=
  q931_queue_primitive None p None.

(** [q931_ie_cause_location_gc] *)
Definition global_cause_ies (value : Z) : W q931_ies :=
  intf ← read_intf;
  mret [new_cause (q931_ie_cause_location Q931_CALL_DIRECTION_INBOUND
                     (intf_network_role intf) (intf_role intf)) value []].

(** channel identification and restart indicator, by class; [other] is the rest of
    the [if] chain *)
Definition restart_ies (restart_class : Z) (chans : list nat) (other : W q931_ies)
    : W q931_ies :=
  intf ← read_intf;
  if restart_class =? Q931_IE_RI_C_INDICATED then
    mret [new_channel_identification intf Q931_IE_CI_PE_EXCLUSIVE chans;
          IE_RESTART_INDICATOR Q931_IE_RI_C_INDICATED]
  else if restart_class =? Q931_IE_RI_C_SINGLE_INTERFACE then
    mret [IE_RESTART_INDICATOR Q931_IE_RI_C_SINGLE_INTERFACE]
  else other.

(** The set of elements is emptied before the message is sent. *)
Definition q931_management_restart_request (d : option nat) (chanset : list nat)
    (user_ies : option q931_ies) : W unit :=
  state ← getg gc_state;
  match state with
  | Q931_GLOBAL_STATE_NULL =>
      upd_gc (set_gc_T317_expired false) ;;
      upd_gc (set_gc_restart_retransmit_count 0) ;;
      upd_gc (set_gc_restart_responded false) ;;
      upd_gc (set_gc_restart_acknowledged false) ;;
      ri ← getg gc_restart_indicator;
      restart_class ← deref ri;
      when (restart_class =? Q931_IE_RI_C_INDICATED)
        (upd_gc (set_gc_restart_acked_chans q931_chanset_init) ;;
         upd_gc (set_gc_restart_reqd_chans chanset)) ;;
      _ ← restart_ies restart_class chanset
            (if restart_class =? Q931_IE_RI_C_ALL_INTERFACES then fail AssertFail else mret []);
      upd_gc (set_gc_restart_dlc d) ;;
      match d with
      | None => fail AssertFail
      | Some d => q931_global_send_message d Q931_MT_RESTART (Some [])
      end ;;
      q931_global_start_timer GLOBAL_T316 ;;
      q931_global_set_state Q931_GLOBAL_STATE_RESTART_REQUEST
  | Q931_GLOBAL_STATE_RESTART_REQUEST | Q931_GLOBAL_STATE_RESTART => mret tt
  end.

(** [chan] has been restarted: it moves from the requested to the acknowledged *)
Definition restart_move_channel (chan : option nat) : W unit :=
  match chan with
  | None => mret tt
  | Some i =>
      reqd ← getg gc_restart_reqd_chans;
      reqd ← lift (q931_chanset_del reqd i);
      upd_gc (set_gc_restart_reqd_chans reqd) ;;
      acked ← getg gc_restart_acked_chans;
      acked ← lift (q931_chanset_add acked i);
      upd_gc (set_gc_restart_acked_chans acked)
  end.

(** [restart_reqd_chans] is intersected in place; the set that is reported has
    just been initialised. *)
Definition restart_intersect : W (list nat) :=
  reqd ← getg gc_restart_reqd_chans;
  acked ← getg gc_restart_acked_chans;
  reqd ← lift (q931_chanset_intersect reqd acked);
  upd_gc (set_gc_restart_reqd_chans reqd) ;;
  mret q931_chanset_init.

Definition q931_global_restart_confirm (d chan : option nat) : W unit :=
  state ← getg gc_state;
  match state with
  | Q931_GLOBAL_STATE_RESTART_REQUEST =>
      restart_move_channel chan ;;
      reqd ← getg gc_restart_reqd_chans;
      when (bool_decide (reqd = []))
        (q931_global_stop_timer GLOBAL_T317 ;;
         ifM (getg gc_restart_acknowledged)
           (cs ← restart_intersect;
            q931_global_set_state Q931_GLOBAL_STATE_NULL ;;
            q931_global_primitive (Q931_CCB_MANAGEMENT_RESTART_CONFIRM (Some cs)))
           (upd_gc (set_gc_restart_responded true)))
  | Q931_GLOBAL_STATE_RESTART =>
      restart_move_channel chan ;;
      reqd ← getg gc_restart_reqd_chans;
      when (bool_decide (reqd = []))
        (q931_global_stop_timer GLOBAL_T317 ;;
         q931_global_set_state Q931_GLOBAL_STATE_NULL ;;
         ri ← getg gc_restart_indicator;
         restart_class ← deref ri;
         acked ← getg gc_restart_acked_chans;
         ies ← restart_ies restart_class acked
                 (if restart_class =? Q931_IE_RI_C_ALL_INTERFACES then fail AssertFail
                  else mret []);
         match d with
         | None => fail AssertFail
         | Some d => q931_global_send_message d Q931_MT_RESTART_ACKNOWLEDGE (Some ies)
         end)
  | Q931_GLOBAL_STATE_NULL => mret tt
  end.

(** [q931_restart_request] of [call.c]: every state of the user side leads to U0,
    every state of the network side to N0. *)
Definition null_state_of (state : q931_call_state) : q931_call_state :=
  match state with
  | U0_NULL_STATE | U1_CALL_INITIATED | U2_OVERLAP_SENDING | U3_OUTGOING_CALL_PROCEEDING
  | U4_CALL_DELIVERED | U6_CALL_PRESENT | U7_CALL_RECEIVED | U8_CONNECT_REQUEST
  | U9_INCOMING_CALL_PROCEEDING | U10_ACTIVE | U11_DISCONNECT_REQUEST
  | U12_DISCONNECT_INDICATION | U15_SUSPEND_REQUEST | U17_RESUME_REQUEST
  | U19_RELEASE_REQUEST | U25_OVERLAP_RECEIVING => U0_NULL_STATE
  | _ => N0_NULL_STATE
  end.

Definition q931_restart_request (c : nat) (user_ies : option q931_ies) : W unit :=
  report_call c ;;
  r ← read_call c;
  let callchannel := call_channel r in
  q931_call_stop_any_timer c ;;
  on_channel c q931_channel_release ;;
  q931_call_set_state c (null_state_of (call_state r)) ;;
  q931_call_release_reference c ;;
  q931_call_primitive c Q931_CCB_RELEASE_INDICATION user_ies ;;
  d ← getc c call_dlc;
  q931_global_restart_confirm d callchannel.

Definition q931_global_state_to_ie_state (state : q931_global_state) : Z :=
  match state with
  | Q931_GLOBAL_STATE_NULL => 0x00
  | Q931_GLOBAL_STATE_RESTART_REQUEST => 0x3d
  | Q931_GLOBAL_STATE_RESTART => 0x3e
  end.

Definition find_call_state (ies : q931_ies) : option q931_ie_call_state :=
  head (omap (λ ie, match ie with IE_CALL_STATE cs => Some cs | _ => None end) ies).

Definition q931_global_handle_status (m : q931_message) : W unit :=
  state ← getg gc_state;
  match state with
  | Q931_GLOBAL_STATE_NULL => mret tt
  | Q931_GLOBAL_STATE_RESTART_REQUEST | Q931_GLOBAL_STATE_RESTART =>
      m ← q931_gc_decode_ies m;
      cs ← deref (find_call_state (msg_ies m));
      when (negb (cs_value cs =? q931_global_state_to_ie_state state))
        (q931_global_primitive Q931_CCB_STATUS_MANAGEMENT_INDICATION)
  end.

Definition q931_channel_is_restartable (i : nat) : W bool :=
  r ← read_chan i;
  mret (bool_decide (ch_state r ≠ Q931_CHANSTATE_MAINTAINANCE) &&
        bool_decide (ch_state r ≠ Q931_CHANSTATE_LEASED)).

(** the restartable ones of [chans] join the requested channels *)
Definition restart_add_channels (chans : list nat) : W unit :=
  forM chans (λ i,
    whenM (q931_channel_is_restartable i)
      (reqd ← getg gc_restart_reqd_chans;
       reqd ← lift (q931_chanset_add reqd i);
       upd_gc (set_gc_restart_reqd_chans reqd))).

(** the elements of a RESTART *)
Definition restart_take_ies (ies : q931_ies) : W unit :=
  forM ies (λ ie,
    match ie with
    | IE_CHANNEL_IDENTIFICATION ci => restart_add_channels (ci_chanset ci)
    | IE_RESTART_INDICATOR ri => upd_gc (set_gc_restart_indicator (Some ri))
    | _ => mret tt
    end).

Definition is_channel_identification (ie : q931_ie) : bool :=
  match ie with IE_CHANNEL_IDENTIFICATION _ => true | _ => false end.

Definition global_send_status (d : nat) (cause : Z) : W unit :=
  ies ← global_cause_ies cause; q931_global_send_message d Q931_MT_STATUS (Some ies).

Definition q931_global_handle_restart (m : q931_message) : W unit :=
  state ← getg gc_state;
  match state with
  | Q931_GLOBAL_STATE_NULL =>
      m ← q931_gc_decode_ies m;
      upd_gc (set_gc_T317_expired false) ;;
      upd_gc (set_gc_restart_retransmit_count 0) ;;
      upd_gc (set_gc_restart_responded false) ;;
      upd_gc (set_gc_restart_acknowledged false) ;;
      upd_gc (set_gc_restart_dlc (Some (msg_dlc m))) ;;
      upd_gc (set_gc_restart_reqd_chans q931_chanset_init) ;;
      upd_gc (set_gc_restart_acked_chans q931_chanset_init) ;;
      restart_take_ies (msg_ies m) ;;
      intf ← read_intf;
      when (negb (existsb is_channel_identification (msg_ies m)))
        (restart_add_channels (seq 0 (intf_n_channels intf))) ;;
      reqd ← getg gc_restart_reqd_chans;
      match reqd with
      | [] => global_send_status (msg_dlc m) Q931_IE_C_CV_IDENTIFIED_CHANNEL_DOES_NOT_EXIST
      | _ =>
          q931_global_set_state Q931_GLOBAL_STATE_RESTART ;;
          forM reqd (λ i,
            ch ← read_chan i;
            match ch_call ch with
            | Some c =>
                q931_restart_request c (Some (msg_ies m)) ;;
                ifM (q931_global_timer_running GLOBAL_T317) (mret tt)
                  (q931_global_start_timer GLOBAL_T317)
            | None => q931_global_restart_confirm (Some (msg_dlc m)) (Some i)
            end)
      end
  | Q931_GLOBAL_STATE_RESTART_REQUEST | Q931_GLOBAL_STATE_RESTART =>
      global_send_status (msg_dlc m) Q931_IE_C_CV_INVALID_CALL_REFERENCE_VALUE
  end.

Definition q931_global_handle_restart_acknowledge (m : q931_message) : W unit :=
  state ← getg gc_state;
  match state with
  | Q931_GLOBAL_STATE_RESTART_REQUEST =>
      m ← q931_gc_decode_ies m;
      q931_global_stop_timer GLOBAL_T316 ;;
      g ← read_gc;
      if gc_restart_responded g || gc_T317_expired g then
        cs ← restart_intersect;
        q931_global_primitive (Q931_CCB_MANAGEMENT_RESTART_CONFIRM (Some cs)) ;;
        q931_global_set_state Q931_GLOBAL_STATE_NULL
      else
        match find_channel_identification (msg_ies m) with
        | Some ci =>
            acked ← lift (q931_chanset_merge (gc_restart_acked_chans g) (ci_chanset ci));
            upd_gc (set_gc_restart_acked_chans acked)
        | None => mret tt
        end ;;
        upd_gc (set_gc_restart_acknowledged true)
  | Q931_GLOBAL_STATE_NULL | Q931_GLOBAL_STATE_RESTART =>
      global_send_status (msg_dlc m) Q931_IE_C_CV_INVALID_CALL_REFERENCE_VALUE
  end.

Definition q931_global_timer_T316 : W unit :=
  state ← getg gc_state;
  match state with
  | Q931_GLOBAL_STATE_RESTART_REQUEST =>
      n ← getg gc_restart_retransmit_count;
      upd_gc (set_gc_restart_retransmit_count (n + 1)) ;;
      if 2 <=? n + 1 then
        q931_global_set_state Q931_GLOBAL_STATE_NULL ;;
        q931_global_primitive (Q931_CCB_MANAGEMENT_RESTART_CONFIRM None)
      else
        ri ← getg gc_restart_indicator;
        restart_class ← deref ri;
        reqd ← getg gc_restart_reqd_chans;
        ies ← restart_ies restart_class reqd
                (if restart_class =? Q931_IE_RI_C_ALL_INTERFACES then mret []
                 else fail AssertFail);
        d ← getg gc_restart_dlc;
        match d with
        | None => fail AssertFail
        | Some d => q931_global_send_message d Q931_MT_RESTART (Some ies)
        end ;;
        q931_global_start_timer GLOBAL_T316
  | Q931_GLOBAL_STATE_NULL | Q931_GLOBAL_STATE_RESTART => mret tt
  end.

Definition q931_global_timer_T317 : W unit :=
  state ← getg gc_state;
  match state with
  | Q931_GLOBAL_STATE_NULL => mret tt
  | Q931_GLOBAL_STATE_RESTART_REQUEST =>
      ifM (getg gc_restart_acknowledged)
        (cs ← restart_intersect;
         q931_global_set_state Q931_GLOBAL_STATE_NULL ;;
         q931_global_primitive (Q931_CCB_MANAGEMENT_RESTART_CONFIRM (Some cs)))
        (upd_gc (set_gc_T317_expired true))
  | Q931_GLOBAL_STATE_RESTART =>
      acked ← getg gc_restart_acked_chans;
      when (negb (bool_decide (acked = [])))
        (intf ← read_intf;
         d ← getg gc_restart_dlc;
         match d with
         | None => fail AssertFail
         | Some d =>
             q931_global_send_message d Q931_MT_RESTART
               (Some [new_channel_identification intf Q931_IE_CI_PE_EXCLUSIVE acked;
                      IE_RESTART_INDICATOR Q931_IE_RI_C_INDICATED])
         end) ;;
      q931_global_set_state Q931_GLOBAL_STATE_NULL ;;
      q931_global_primitive Q931_CCB_TIMEOUT_MANAGEMENT_INDICATION
  end.

Definition q931_dispatch_global_message (m : q931_message) : W unit :=
  let mt := msg_message_type m in
  if mt =? Q931_MT_STATUS then q931_global_handle_status m
  else if mt =? Q931_MT_RESTART then q931_global_handle_restart m
  else if mt =? Q931_MT_RESTART_ACKNOWLEDGE then q931_global_handle_restart_acknowledge m
  else
    ies ← global_cause_ies Q931_IE_C_CV_INVALID_CALL_REFERENCE_VALUE;
    state ← getg gc_state;
    ies ← lift (q931_ies_add_put ies
                  (new_call_state_ie (q931_global_state_to_ie_state state)));
    q931_global_send_message (msg_dlc m) Q931_MT_STATUS (Some ies).

Definition q931_global_init : q931_global_call := {|
  gc_state := Q931_GLOBAL_STATE_NULL; gc_timers := λ _, idle_timer; gc_T317_expired := false;
  gc_restart_retransmit_count := 0; gc_restart_responded := false;
  gc_restart_acknowledged := false; gc_restart_indicator := None;
  gc_restart_reqd_chans := []; gc_restart_acked_chans := []; gc_restart_dlc := None |}.
