(* ===== verification/Q931CallTimers.v ===== *)
(** * The timers of the call ([q931_timer_T301] to [q931_timer_T322] of [call.c])

    A timer function owns the reference its timer held on the call and gives it
    up at its end. *)

From stdpp Require Import base list gmap functions.
From Stdlib Require Import ZArith Lia.
From S2P Require Import Prelude.
From S2P Require Import Bits.
From S2P Require Import Q931Defs.
From S2P Require Import Q931Tables.
From S2P Require Import Q931Sets.
From S2P Require Import Q931IE.
From S2P Require Import Q931World.
From S2P Require Import Q931Base.
From S2P Require Import Q931Wire.
From S2P Require Import Q931Decode.
From S2P Require Import Q931Ces.
From S2P Require Import Q931Call.
Local Open Scope Z_scope.

(** the cause "recovery on timer expiry" with the digits of the timer as its
    diagnostics: "301" is [timer_cause c 0x30 0x31] *)
Definition timer_cause (c : nat) (d1 d2 : Z) : W q931_ies :=
  call_cause_ies c Q931_IE_C_CV_RECOVERY_ON_TIMER_EXPIRY [0x33; d1; d2].

(** the end of a broadcast call: [N22_CALL_ABORT] while T312 runs *)
Definition abort_or_null (c : nat) : W unit :=
  ifM (q931_call_timer_running c T312)
    (q931_call_set_state c N22_CALL_ABORT)
    (q931_call_set_state c N0_NULL_STATE ;; q931_call_release_reference c).

Definition q931_timer_T301 (c : nat) : W unit :=
  report_call c ;;
  state ← getc c call_state;
  match state with
  | N7_CALL_RECEIVED =>
      ies ← timer_cause c 0x30 0x31;
      ifM (getc c call_broadcast_setup)
        (for_each_ces c (λ s, q931_ces_release_request s (Some ies)) ;;
         on_channel c q931_channel_release ;;
         abort_or_null c)
        (q931_call_send_disconnect c (Some ies) ;;
         q931_call_start_timer c T305 ;;
         q931_call_set_state c N12_DISCONNECT_INDICATION) ;;
      q931_call_primitive c Q931_CCB_RELEASE_INDICATION None
  | _ => q931_call_unexpected_primitive c
  end ;;
  q931_call_put c.

Definition q931_timer_T302 (c : nat) : W unit :=
  report_call c ;;
  state ← getc c call_state;
  match state with
  | N2_OVERLAP_SENDING | U25_OVERLAP_RECEIVING =>
      ies ← lift (q931_ies_add_put [] IE_SENDING_COMPLETE);
      q931_call_primitive c Q931_CCB_INFO_INDICATION (Some ies)
  | _ => q931_call_unexpected_timer c
  end ;;
  q931_call_put c.

(** SETUP again, on the broadcast connection too *)
Definition resend_setup (c : nat) : W unit :=
  setup ← getc c call_setup_ies;
  q931_call_send_setup c (Some setup) ;;
  q931_call_start_timer c T303.

Definition q931_timer_T303 (c : nat) : W unit :=
  report_call c ;;
  r ← read_call c;
  match call_state r with
  | N6_CALL_PRESENT =>
      if negb (call_T303_fired r) then
        if call_broadcast_setup r then
          if call_release_complete_received r then
            on_channel c q931_channel_release ;;
            q931_call_set_state c N22_CALL_ABORT ;;
            q931_call_primitive c Q931_CCB_RELEASE_INDICATION None
          else
            q931_call_send_setup_bc c (Some (call_setup_ies r)) ;;
            q931_call_start_timer c T303 ;;
            q931_call_restart_timer c T312
        else resend_setup c
      else
        if call_broadcast_setup r then
          on_channel c q931_channel_release ;;
          q931_call_set_state c N22_CALL_ABORT ;;
          (* the set of the cause is not passed on *)
          _ ← call_cause_ies c Q931_IE_C_CV_NO_USER_RESPONDING [];
          q931_call_primitive c Q931_CCB_RELEASE_INDICATION None
        else
          q931_call_start_timer c T305 ;;
          ies ← timer_cause c 0x30 0x33;
          q931_call_send_disconnect c (Some ies) ;;
          q931_call_set_state c N12_DISCONNECT_INDICATION ;;
          q931_call_primitive c Q931_CCB_DISCONNECT_INDICATION None
  | U1_CALL_INITIATED =>
      if negb (call_T303_fired r) then resend_setup c
      else
        ies ← timer_cause c 0x30 0x33;
        q931_call_primitive c Q931_CCB_RELEASE_INDICATION None ;;
        q931_call_send_release_complete c (Some ies) ;;
        q931_call_set_state c U0_NULL_STATE ;;
        q931_call_release_reference c
  | _ => q931_call_unexpected_timer c
  end ;;
  upd_call c (set_call_T303_fired true) ;;
  q931_call_put c.

Definition q931_timer_T304 (c : nat) : W unit :=
  report_call c ;;
  state ← getc c call_state;
  match state with
  | N25_OVERLAP_RECEIVING =>
      ifM (getc c call_broadcast_setup)
        (on_channel c q931_channel_release ;;
         abort_or_null c ;;
         ies ← timer_cause c 0x30 0x34;
         for_each_ces c (λ s, q931_ces_release_request s (Some ies)))
        (ies ← timer_cause c 0x30 0x34;
         q931_call_send_disconnect c (Some ies) ;;
         on_channel c q931_channel_disconnect ;;
         q931_call_start_timer c T305 ;;
         q931_call_set_state c N12_DISCONNECT_INDICATION) ;;
      q931_call_primitive c Q931_CCB_RELEASE_INDICATION None
  | U2_OVERLAP_SENDING =>
      on_channel c q931_channel_disconnect ;;
      ies ← timer_cause c 0x30 0x34;
      q931_call_send_disconnect c (Some ies) ;;
      q931_call_start_timer c T305 ;;
      q931_call_set_state c U11_DISCONNECT_REQUEST ;;
      q931_call_primitive c (Q931_CCB_SETUP_CONFIRM Q931_SETUP_CONFIRM_ERROR) None
  | _ => q931_call_unexpected_timer c
  end ;;
  q931_call_put c.

(** RELEASE with the cause of the disconnection, then T308 *)
Definition release_after_disconnect (c : nat) (state : q931_call_state) : W unit :=
  cause ← getc c call_disconnect_cause;
  q931_call_send_release c (Some cause) ;;
  q931_call_start_timer c T308 ;;
  q931_call_set_state c state.

Definition q931_timer_T305 (c : nat) : W unit :=
  report_call c ;;
  state ← getc c call_state;
  match state with
  | N12_DISCONNECT_INDICATION => release_after_disconnect c N19_RELEASE_REQUEST
  | U11_DISCONNECT_REQUEST => release_after_disconnect c U19_RELEASE_REQUEST
  | _ => q931_call_unexpected_timer c
  end ;;
  q931_call_put c.

Definition q931_timer_T306 (c : nat) : W unit :=
  report_call c ;;
  state ← getc c call_state;
  match state with
  | N12_DISCONNECT_INDICATION =>
      on_channel c q931_channel_stop_tone ;;
      release_after_disconnect c N19_RELEASE_REQUEST
  | _ => q931_call_unexpected_timer c
  end ;;
  q931_call_put c.

Definition q931_timer_T308 (c : nat) : W unit :=
  report_call c ;;
  r ← read_call c;
  intf ← read_intf;
  let multipoint := bool_decide (intf_mode intf = LAPD_INTF_MODE_MULTIPOINT) in
  match call_state r with
  | N19_RELEASE_REQUEST =>
      if call_T308_fired r then
        ies ← timer_cause c 0x30 0x38;
        ies ← lift (q931_ies_merge ies (Some (call_release_cause r)));
        q931_call_send_release c (Some ies) ;;
        q931_call_start_timer c T308
      else
        match call_channel r with
        | Some i => if multipoint then q931_channel_release (Some i)
                    else q931_channel_set_state i Q931_CHANSTATE_MAINTAINANCE
        | None => mret tt
        end ;;
        q931_call_set_state c N0_NULL_STATE ;;
        q931_call_release_reference c ;;
        q931_call_primitive c (Q931_CCB_RELEASE_CONFIRM Q931_RELEASE_CONFIRM_OK) None
  | U19_RELEASE_REQUEST =>
      if negb (call_T308_fired r) then
        q931_call_send_release c None ;;
        q931_call_start_timer c T308
      else
        match call_channel r with
        | Some i => when (negb multipoint)
                      (q931_channel_set_state i Q931_CHANSTATE_MAINTAINANCE)
        | None => mret tt
        end ;;
        on_channel c q931_channel_release ;;
        q931_call_set_state c U0_NULL_STATE ;;
        q931_call_release_reference c ;;
        q931_call_primitive c (Q931_CCB_RELEASE_CONFIRM Q931_RELEASE_CONFIRM_ERROR) None
  | _ => q931_call_unexpected_timer c
  end ;;
  upd_call c (set_call_T308_fired true) ;;
  q931_call_put c.

(** the call ends and the call control block is told *)
Definition release_to_null (c : nat) (null : q931_call_state) : W unit :=
  on_channel c q931_channel_release ;;
  q931_call_set_state c null ;;
  q931_call_release_reference c ;;
  q931_call_primitive c Q931_CCB_RELEASE_INDICATION None.

Definition q931_timer_T309 (c : nat) : W unit :=
  report_call c ;;
  state ← getc c call_state;
  match state with
  | N10_ACTIVE => release_to_null c N0_NULL_STATE
  | U10_ACTIVE => release_to_null c U0_NULL_STATE
  | _ => q931_call_unexpected_timer c
  end ;;
  q931_call_put c.

Definition q931_timer_T310 (c : nat) : W unit :=
  report_call c ;;
  state ← getc c call_state;
  match state with
  | N9_INCOMING_CALL_PROCEEDING =>
      ifM (getc c call_broadcast_setup)
        (on_channel c q931_channel_release ;;
         abort_or_null c ;;
         ies ← timer_cause c 0x31 0x30;
         cause ← getc c call_release_cause;
         ies ← lift (q931_ies_merge ies (Some cause));
         for_each_ces c (λ s, q931_ces_release_request s (Some ies)))
        (ies ← timer_cause c 0x31 0x30;
         q931_call_send_disconnect c (Some ies) ;;
         on_channel c q931_channel_release ;;
         q931_call_start_timer c T305 ;;
         q931_call_set_state c N12_DISCONNECT_INDICATION) ;;
      q931_call_primitive c Q931_CCB_RELEASE_INDICATION None
  | _ => q931_call_unexpected_timer c
  end ;;
  q931_call_put c.

(** The states of the CES are compared with states of the call, whose numbers no
    CES state has: any CES is able to proceed. *)
Fixpoint any_ces_able_to_proceed (l : list nat) : W bool :=
  match l with
  | [] => mret false
  | s :: l' =>
      r ← read_ces s;
      if negb (q931_ces_state_int (ces_state r) =? q931_call_state_int N0_NULL_STATE) &&
         negb (q931_ces_state_int (ces_state r) =? q931_call_state_int N19_RELEASE_REQUEST)
      then mret true else any_ces_able_to_proceed l'
  end.

Definition q931_timer_T312 (c : nat) : W unit :=
  report_call c ;;
  r ← read_call c;
  match call_state r with
  | N7_CALL_RECEIVED =>
      ifM (any_ces_able_to_proceed (call_ces r)) (mret tt)
        (q931_call_stop_timer c T301 ;; release_to_null c N0_NULL_STATE)
  | N9_INCOMING_CALL_PROCEEDING =>
      ifM (any_ces_able_to_proceed (call_ces r)) (mret tt)
        (q931_call_stop_timer c T310 ;; release_to_null c N0_NULL_STATE)
  | N22_CALL_ABORT =>
      match call_ces r with
      | [] =>
          when (call_disconnect_indication_sent r)
            (q931_call_primitive c Q931_CCB_RELEASE_INDICATION None) ;;
          on_channel c q931_channel_release ;;
          q931_call_set_state c N0_NULL_STATE ;;
          q931_call_release_reference c
      | _ => mret tt
      end
  | N25_OVERLAP_RECEIVING =>
      ifM (any_ces_able_to_proceed (call_ces r)) (mret tt)
        (release_to_null c N0_NULL_STATE)
  | _ => mret tt
  end ;;
  q931_call_put c.

Definition q931_timer_T313 (c : nat) : W unit :=
  report_call c ;;
  state ← getc c call_state;
  match state with
  | U8_CONNECT_REQUEST =>
      on_channel c q931_channel_disconnect ;;
      ies ← timer_cause c 0x31 0x33;
      q931_call_send_disconnect c (Some ies) ;;
      q931_call_start_timer c T305 ;;
      q931_call_set_state c U11_DISCONNECT_REQUEST ;;
      q931_call_primitive c
        (Q931_CCB_SETUP_COMPLETE_INDICATION Q931_SETUP_COMPLETE_INDICATION_ERROR) None
  | _ => q931_call_unexpected_timer c
  end ;;
  q931_call_put c.

(** T314, T316, T320 and T321 are only reported *)
Definition q931_timer_T314 (c : nat) : W unit := report_call c ;; q931_call_put c.
Definition q931_timer_T316 (c : nat) : W unit := report_call c ;; q931_call_put c.
Definition q931_timer_T320 (c : nat) : W unit := report_call c ;; q931_call_put c.
Definition q931_timer_T321 (c : nat) : W unit := report_call c ;; q931_call_put c.

Definition q931_timer_T318 (c : nat) : W unit :=
  report_call c ;;
  state ← getc c call_state;
  match state with
  | U17_RESUME_REQUEST =>
      ies ← timer_cause c 0x31 0x38;
      q931_call_send_release c (Some ies) ;;
      q931_call_start_timer c T308 ;;
      q931_call_set_state c U19_RELEASE_REQUEST ;;
      q931_call_primitive c (Q931_CCB_RESUME_CONFIRM Q931_RESUME_CONFIRM_TIMEOUT) None
  | _ => q931_call_unexpected_timer c
  end ;;
  q931_call_put c.

(** the state tested is the network's, the state set the user's *)
Definition q931_timer_T319 (c : nat) : W unit :=
  report_call c ;;
  state ← getc c call_state;
  (if decide (state = N15_SUSPEND_REQUEST) then
     q931_call_primitive c (Q931_CCB_SUSPEND_CONFIRM Q931_SUSPEND_CONFIRM_TIMEOUT) None ;;
     q931_call_set_state c U10_ACTIVE
   else q931_call_unexpected_timer c) ;;
  q931_call_put c.

Definition q931_timer_T322 (c : nat) : W unit :=
  report_call c ;;
  r ← read_call c;
  match call_state r with
  | N0_NULL_STATE | U0_NULL_STATE => q931_call_unexpected_timer c
  | _ =>
      if call_senq_status_97_98_received r then mret tt
      else if 3 <? call_senq_cnt r then
        ies ← call_cause_ies c Q931_IE_C_CV_TEMPORARY_FAILURE [];
        q931_call_send_release c (Some ies) ;;
        q931_call_start_timer c T308 ;;
        q931_call_set_state c N19_RELEASE_REQUEST ;;
        q931_call_primitive c Q931_CCB_RELEASE_INDICATION (Some ies)
      else
        q931_call_send_status_enquiry c None ;;
        q931_call_start_timer c T322 ;;
        upd_call c (λ r, set_call_senq_cnt (call_senq_cnt r + 1) r)
  end ;;
  q931_call_put c.

(** the functions [q931_call_alloc] gives to the timers *)
Definition q931_call_timer_func (t : call_timer) : nat → W unit :=
  match t with
  | T301 => q931_timer_T301 | T302 => q931_timer_T302 | T303 => q931_timer_T303
  | T304 => q931_timer_T304 | T305 => q931_timer_T305 | T306 => q931_timer_T306
  | T308 => q931_timer_T308 | T309 => q931_timer_T309 | T310 => q931_timer_T310
  | T312 => q931_timer_T312 | T313 => q931_timer_T313 | T314 => q931_timer_T314
  | T316 => q931_timer_T316 | T318 => q931_timer_T318 | T319 => q931_timer_T319
  | T320 => q931_timer_T320 | T321 => q931_timer_T321 | T322 => q931_timer_T322
  end.
