(* ===== verification/Q931CallEstablish.v ===== *)
(** * The message handlers of the call, first part: the messages of call
    establishment ([q931_handle_alerting] to [q931_handle_progress] of [call.c]) *)

From stdpp Require Import base list gmap functions.
From Stdlib Require Import ZArith Lia.
From S2P Require Import Prelude.
From S2P Require Import Bits.
From S2P Require Import Q931Defs.
From S2P Require Import Q931Tables.
From S2P Require Import Q931Sets.
From S2P Require Import Q931IE.
From S2P Require Import Q931World.
From S2P Require Import Q931Base.
From S2P Require Import Q931Wire.
From S2P Require Import Q931Decode.
From S2P Require Import Q931Ces.
From S2P Require Import Q931Call.
From S2P Require Import Q931CallTimers.
Local Open Scope Z_scope.

(** [if (q931_call_decode_ies(call, msg) < 0) break;] *)
Definition with_ies (c : nat) (m : q931_message) (body : q931_message → W unit) : W unit :=
  m' ← q931_call_decode_ies c m;
  match m' with Some m' => body m' | None => mret tt end.

(** A new CES answers a broadcast SETUP: it is accepted if its channel suits. *)
Definition with_new_ces (c : nat) (m : q931_message) (accept : nat → W unit) : W unit :=
  s ← q931_ces_alloc c (msg_dlc m);
  r ← q931_channel_select_response c (msg_ies m);
  if (fst r : bool) then accept s
  else q931_ces_release_request s (Some (snd r)).

(** a new CES is released with the cause [ies] *)
Definition release_new_ces (c : nat) (m : q931_message) (ies : W q931_ies) : W unit :=
  s ← q931_ces_alloc c (msg_dlc m);
  ies ← ies;
  q931_ces_release_request s (Some ies).

(** the cause for a CES that has not been selected *)
Definition non_selected_cause (c : nat) : W q931_ies :=
  call_cause_ies c Q931_IE_C_CV_NON_SELECTED_USER_CLEARING [].
(** the same cause whether T312 runs or not *)
Definition t312_cause (c : nat) : W q931_ies :=
  ifM (q931_call_timer_running c T312) (timer_cause c 0x31 0x32) (timer_cause c 0x31 0x32).

(** The channel in the answer to a point-to-point SETUP does not suit. *)
Definition reject_response (c : nat) (causes : q931_ies) : W unit :=
  q931_call_send_release c (Some causes) ;;
  q931_call_start_timer c T308 ;;
  q931_call_set_state c N19_RELEASE_REQUEST ;;
  q931_call_primitive c Q931_CCB_RELEASE_INDICATION (Some causes).

(** the new state and the primitive that reports it *)
Definition enter (c : nat) (state : q931_call_state) (p : q931_primitive) (m : q931_message)
    : W unit :=
  q931_call_set_state c state ;;
  q931_call_primitive c p (Some (msg_ies m)).

Definition q931_handle_alerting (c : nat) (m : q931_message) : W unit :=
  let accept := enter c N7_CALL_RECEIVED Q931_CCB_ALERTING_INDICATION in
  state ← getc c call_state;
  match state with
  | N6_CALL_PRESENT =>
      with_ies c m (λ m,
        ifM (getc c call_broadcast_setup)
          (with_new_ces c m (λ s,
             q931_call_stop_timer c T303 ;;
             q931_call_start_timer c T301 ;;
             accept m ;;
             q931_ces_alerting_request s (Some (msg_ies m))))
          (q931_call_stop_timer c T303 ;;
           r ← q931_channel_select_response c (msg_ies m);
           if (fst r : bool) then q931_call_start_timer c T301 ;; accept m
           else reject_response c (snd r)))
  | N7_CALL_RECEIVED =>
      ifM (getc c call_broadcast_setup)
        (with_ies c m (λ m,
           with_new_ces c m (λ s, q931_ces_alerting_request s (Some (msg_ies m)))))
        (q931_call_message_not_compatible_with_state c m)
  | N8_CONNECT_REQUEST =>
      ifM (getc c call_broadcast_setup)
        (with_ies c m (λ m, release_new_ces c m (non_selected_cause c)))
        (q931_call_message_not_compatible_with_state c m)
  | N9_INCOMING_CALL_PROCEEDING =>
      with_ies c m (λ m,
        ifM (getc c call_broadcast_setup)
          (with_new_ces c m (λ s,
             q931_call_stop_timer c T310 ;;
             q931_call_start_timer c T301 ;;
             accept m ;;
             q931_ces_alerting_request s (Some (msg_ies m))))
          (q931_call_stop_timer c T310 ;;
           q931_call_start_timer c T301 ;;
           accept m))
  | N22_CALL_ABORT => release_new_ces c m (t312_cause c)
  | N25_OVERLAP_RECEIVING =>
      with_ies c m (λ m,
        ifM (getc c call_broadcast_setup)
          (with_new_ces c m (λ s,
             q931_call_start_timer c T301 ;;
             accept m ;;
             q931_ces_alerting_request s (Some (msg_ies m))))
          (q931_call_stop_timer c T304 ;;
           q931_call_start_timer c T301 ;;
           accept m))
  | U2_OVERLAP_SENDING =>
      with_ies c m (λ m,
        q931_call_stop_timer c T304 ;;
        on_channel c q931_channel_control ;;
        enter c U4_CALL_DELIVERED Q931_CCB_ALERTING_INDICATION m)
  | U3_OUTGOING_CALL_PROCEEDING =>
      with_ies c m (λ m,
        on_channel c q931_channel_control ;;
        enter c U4_CALL_DELIVERED Q931_CCB_ALERTING_INDICATION m)
  | _ => q931_call_message_not_compatible_with_state c m
  end.

(** in state U1 a channel that does not suit leaves the state as it is *)
Definition q931_handle_call_proceeding (c : nat) (m : q931_message) : W unit :=
  state ← getc c call_state;
  match state with
  | N6_CALL_PRESENT =>
      with_ies c m (λ m,
        ifM (getc c call_broadcast_setup)
          (with_new_ces c m (λ s,
             q931_call_stop_timer c T303 ;;
             q931_call_start_timer c T310 ;;
             q931_call_primitive c Q931_CCB_PROCEEDING_INDICATION (Some (msg_ies m)) ;;
             q931_ces_call_proceeding_request s (Some (msg_ies m)) ;;
             q931_call_set_state c N9_INCOMING_CALL_PROCEEDING))
          (q931_call_stop_timer c T303 ;;
           r ← q931_channel_select_response c (msg_ies m);
           if (fst r : bool) then
             q931_call_start_timer c T310 ;;
             enter c N9_INCOMING_CALL_PROCEEDING Q931_CCB_PROCEEDING_INDICATION m
           else reject_response c (snd r)))
  | N7_CALL_RECEIVED | N9_INCOMING_CALL_PROCEEDING =>
      ifM (getc c call_broadcast_setup)
        (with_ies c m (λ m,
           with_new_ces c m (λ s, q931_ces_call_proceeding_request s (Some (msg_ies m)))))
        (q931_call_message_not_compatible_with_state c m)
  | N8_CONNECT_REQUEST =>
      ifM (getc c call_broadcast_setup)
        (release_new_ces c m (non_selected_cause c))
        (q931_call_message_not_compatible_with_state c m)
  | N22_CALL_ABORT => release_new_ces c m (t312_cause c)
  | N25_OVERLAP_RECEIVING =>
      with_ies c m (λ m,
        ifM (getc c call_broadcast_setup)
          (with_new_ces c m (λ s,
             q931_call_start_timer c T310 ;;
             enter c N9_INCOMING_CALL_PROCEEDING Q931_CCB_PROCEEDING_INDICATION m ;;
             q931_ces_call_proceeding_request s (Some (msg_ies m))))
          (q931_call_stop_timer c T304 ;;
           q931_call_start_timer c T310 ;;
           enter c N9_INCOMING_CALL_PROCEEDING Q931_CCB_PROCEEDING_INDICATION m))
  | U1_CALL_INITIATED =>
      with_ies c m (λ m,
        q931_call_stop_timer c T303 ;;
        r ← q931_channel_select_response c (msg_ies m);
        if (fst r : bool) then
          q931_call_set_state c U3_OUTGOING_CALL_PROCEEDING ;;
          on_channel c q931_channel_control ;;
          q931_call_primitive c Q931_CCB_PROCEEDING_INDICATION (Some (msg_ies m))
        else
          q931_call_send_release c (Some (snd r)) ;;
          q931_call_start_timer c T308 ;;
          q931_call_primitive c Q931_CCB_RELEASE_INDICATION (Some (snd r)))
  | U2_OVERLAP_SENDING =>
      with_ies c m (λ m,
        q931_call_stop_timer c T304 ;;
        on_channel c q931_channel_control ;;
        enter c U3_OUTGOING_CALL_PROCEEDING Q931_CCB_PROCEEDING_INDICATION m)
  | _ => q931_call_message_not_compatible_with_state c m
  end.

(** CONNECT of a CES the call then prefers *)
Definition connect_new_ces (c : nat) (m : q931_message) (stop : W unit) (p : q931_primitive)
    : W unit :=
  with_new_ces c m (λ s,
    stop ;;
    upd_call c (set_call_preselected_ces (Some s)) ;;
    enter c N8_CONNECT_REQUEST p m ;;
    q931_ces_connect_request s (Some (msg_ies m))).

Definition connected (c : nat) (m : q931_message) : W unit :=
  on_channel c q931_channel_connect ;;
  q931_call_send_connect_acknowledge c None ;;
  enter c U10_ACTIVE (Q931_CCB_SETUP_CONFIRM Q931_SETUP_CONFIRM_OK) m.

Definition q931_handle_connect (c : nat) (m : q931_message) : W unit :=
  let confirm := Q931_CCB_SETUP_CONFIRM Q931_SETUP_CONFIRM_OK in
  state ← getc c call_state;
  match state with
  | N6_CALL_PRESENT =>
      with_ies c m (λ m,
        ifM (getc c call_broadcast_setup)
          (connect_new_ces c m (q931_call_stop_timer c T303) confirm)
          (q931_call_stop_timer c T303 ;;
           r ← q931_channel_select_response c (msg_ies m);
           if (fst r : bool) then enter c N8_CONNECT_REQUEST confirm m
           else reject_response c (snd r)))
  | N7_CALL_RECEIVED =>
      with_ies c m (λ m,
        ifM (getc c call_broadcast_setup)
          (connect_new_ces c m (q931_call_stop_timer c T301) Q931_CCB_CONNECT_INDICATION)
          (q931_call_stop_timer c T301 ;;
           enter c N8_CONNECT_REQUEST Q931_CCB_CONNECT_INDICATION m))
  | N8_CONNECT_REQUEST =>
      ifM (getc c call_broadcast_setup)
        (release_new_ces c m (non_selected_cause c))
        (q931_call_message_not_compatible_with_state c m)
  | N9_INCOMING_CALL_PROCEEDING =>
      with_ies c m (λ m,
        ifM (getc c call_broadcast_setup)
          (connect_new_ces c m (q931_call_stop_timer c T310) Q931_CCB_CONNECT_INDICATION)
          (q931_call_stop_timer c T310 ;;
           enter c N8_CONNECT_REQUEST Q931_CCB_CONNECT_INDICATION m))
  | N22_CALL_ABORT => release_new_ces c m (t312_cause c)
  | N25_OVERLAP_RECEIVING =>
      with_ies c m (λ m,
        ifM (getc c call_broadcast_setup)
          (connect_new_ces c m (mret tt) Q931_CCB_CONNECT_INDICATION)
          (q931_call_stop_timer c T304 ;;
           enter c N8_CONNECT_REQUEST Q931_CCB_CONNECT_INDICATION m))
  | U2_OVERLAP_SENDING =>
      with_ies c m (λ m, q931_call_stop_timer c T304 ;; connected c m)
  | U3_OUTGOING_CALL_PROCEEDING | U4_CALL_DELIVERED => with_ies c m (connected c)
  | _ => q931_call_message_not_compatible_with_state c m
  end.

Definition q931_handle_connect_acknowledge (c : nat) (m : q931_message) : W unit :=
  state ← getc c call_state;
  match state with
  | N10_ACTIVE => mret tt
  | U8_CONNECT_REQUEST =>
      with_ies c m (λ m,
        q931_call_stop_timer c T313 ;;
        on_channel c q931_channel_connect ;;
        enter c U10_ACTIVE
          (Q931_CCB_SETUP_COMPLETE_INDICATION Q931_SETUP_COMPLETE_INDICATION_OK) m)
  | _ => q931_call_message_not_compatible_with_state c m
  end.

Fixpoint find_progress_indicator (ies : q931_ies) : option q931_ie_progress_indicator :=
  match ies with
  | [] => None
  | IE_PROGRESS_INDICATOR pi :: _ => Some pi
  | _ :: ies' => find_progress_indicator ies'
  end.

(** in state U2 the progress indicator is read without a test for NULL *)
Definition q931_handle_progress (c : nat) (m : q931_message) : W unit :=
  let indicate m :=
    q931_call_primitive c Q931_CCB_PROGRESS_INDICATION (Some (msg_ies m)) in
  state ← getc c call_state;
  match state with
  | N7_CALL_RECEIVED | N25_OVERLAP_RECEIVING =>
      ifM (getc c call_broadcast_setup)
        (q931_call_message_not_compatible_with_state c m)
        (with_ies c m indicate)
  | N9_INCOMING_CALL_PROCEEDING =>
      ifM (getc c call_broadcast_setup)
        (q931_call_message_not_compatible_with_state c m)
        (with_ies c m (λ m, q931_call_stop_timer c T310 ;; indicate m))
  | U2_OVERLAP_SENDING =>
      with_ies c m (λ m,
        on_channel c q931_channel_control ;;
        pi ← deref (find_progress_indicator (msg_ies m));
        let d := pi_progress_description pi in
        when ((d =? Q931_IE_PI_PD_CALL_NOT_END_TO_END) ||
              (d =? Q931_IE_PI_PD_DESTINATION_ADDRESS_IS_NON_ISDN))
          (q931_call_stop_timer c T304) ;;
        indicate m)
  | U3_OUTGOING_CALL_PROCEEDING | U4_CALL_DELIVERED =>
      with_ies c m (λ m, on_channel c q931_channel_control ;; indicate m)
  | _ => q931_call_message_not_compatible_with_state c m
  end.
