(* ===== verification/Q931CallClearing.v ===== *)
(** * The message handlers of the call, second part: SETUP, SETUP ACKNOWLEDGE and
    the messages that clear a call ([q931_handle_setup] to
    [q931_handle_release_complete] of [call.c]) *)

From stdpp Require Import base list gmap functions.
From Stdlib Require Import ZArith Lia.
From S2P Require Import Prelude.
From S2P Require Import Bits.
From S2P Require Import Q931Defs.
From S2P Require Import Q931Tables.
From S2P Require Import Q931Sets.
From S2P Require Import Q931IE.
From S2P Require Import Q931World.
From S2P Require Import Q931Base.
From S2P Require Import Q931Wire.
From S2P Require Import Q931Decode.
From S2P Require Import Q931Ces.
From S2P Require Import Q931Call.
From S2P Require Import Q931CallTimers.
From S2P Require Import Q931CallEstablish.
Local Open Scope Z_scope.

(** a called party number with digits *)
Definition has_digits (ies : q931_ies) : bool :=
  existsb (λ ie, match ie with
                 | IE_CALLED_PARTY_NUMBER n =>
                     negb (bool_decide (c_str (cdpn_number n) = []))
                 | _ => false end) ies.

(** On the user side the channel is not marked as selected, and on the network
    side a call without a channel is released without a change of its state. *)
Definition q931_handle_setup (c : nat) (m : q931_message) : W unit :=
  let setup_indication c m state :=
    setup ← getc c call_setup_ies;
    setup ← lift (q931_ies_copy setup (Some (msg_ies m)));
    upd_call c (set_call_setup_ies setup) ;;
    enter c state Q931_CCB_SETUP_INDICATION m in
  state ← getc c call_state;
  match state with
  | N0_NULL_STATE =>
      with_ies c m (λ m,
        when (has_digits (msg_ies m)) (upd_call c (set_call_digits_dialled true)) ;;
        r ← q931_channel_select_setup c (msg_ies m);
        let '(chan, causes, _) := r in
        match chan with
        | Some i => take_channel c i ;; setup_indication c m N1_CALL_INITIATED
        | None =>
            q931_call_send_release_complete c (Some causes) ;;
            q931_call_release_reference c
        end)
  | U0_NULL_STATE =>
      with_ies c m (λ m,
        r ← q931_channel_select_setup c (msg_ies m);
        let '(chan, causes, _) := r in
        upd_call c (set_call_channel chan) ;;
        match chan with
        | None =>
            q931_call_send_release_complete c (Some causes) ;;
            q931_call_set_state c U0_NULL_STATE ;;
            q931_call_release_reference c
        | Some i =>
            upd_chan i (set_ch_call (Some c)) ;;
            setup_indication c m U6_CALL_PRESENT
        end)
  | _ => mret tt
  end.

Definition q931_handle_setup_acknowledge (c : nat) (m : q931_message) : W unit :=
  state ← getc c call_state;
  match state with
  | N6_CALL_PRESENT =>
      with_ies c m (λ m,
        ifM (getc c call_broadcast_setup)
          (r ← q931_channel_select_response c (msg_ies m);
           if (fst r : bool) then
             q931_call_stop_timer c T303 ;;
             s ← q931_ces_alloc c (msg_dlc m);
             q931_call_start_timer c T304 ;;
             enter c N25_OVERLAP_RECEIVING Q931_CCB_MORE_INFO_INDICATION m ;;
             q931_ces_setup_ack_request s (Some (msg_ies m))
           else release_new_ces c m (mret (snd r)))
          (q931_call_stop_timer c T303 ;;
           r ← q931_channel_select_response c (msg_ies m);
           if (fst r : bool) then
             q931_call_start_timer c T304 ;;
             enter c N25_OVERLAP_RECEIVING Q931_CCB_MORE_INFO_INDICATION m
           else reject_response c (snd r)))
  | N7_CALL_RECEIVED | N9_INCOMING_CALL_PROCEEDING | N25_OVERLAP_RECEIVING =>
      ifM (getc c call_broadcast_setup)
        (with_ies c m (λ m,
           with_new_ces c m (λ s, q931_ces_setup_ack_request s (Some (msg_ies m)))))
        (q931_call_message_not_compatible_with_state c m)
  | N8_CONNECT_REQUEST =>
      ifM (getc c call_broadcast_setup)
        (with_ies c m (λ m, release_new_ces c m (non_selected_cause c)))
        (q931_call_message_not_compatible_with_state c m)
  | N22_CALL_ABORT => release_new_ces c m (t312_cause c)
  | U1_CALL_INITIATED =>
      with_ies c m (λ m,
        q931_call_stop_timer c T303 ;;
        r ← q931_channel_select_response c (msg_ies m);
        if (fst r : bool) then
          q931_call_start_timer c T304 ;;
          q931_call_set_state c U2_OVERLAP_SENDING ;;
          on_channel c q931_channel_control ;;
          q931_call_primitive c Q931_CCB_MORE_INFO_INDICATION (Some (msg_ies m))
        else
          q931_call_send_release c (Some (snd r)) ;;
          q931_call_start_timer c T308 ;;
          q931_call_primitive c Q931_CCB_RELEASE_INDICATION (Some (snd r)))
  | _ => q931_call_message_not_compatible_with_state c m
  end.

(** [q931_save_cause] *)
Definition q931_save_cause (c : nat) (src : q931_ies) : W unit :=
  saved ← getc c call_disconnect_cause;
  saved ← lift (foldl (λ acc ie, acc ← acc;
                        if ie_id ie =? Q931_IE_CAUSE then q931_ies_add acc ie
                        else Done acc) (Done saved) src);
  upd_call c (set_call_disconnect_cause saved).

(** the cause is kept, the call control block told *)
Definition disconnected (c : nat) (state : q931_call_state) (m : q931_message) : W unit :=
  q931_save_cause c (msg_ies m) ;;
  enter c state Q931_CCB_DISCONNECT_INDICATION m.

Definition q931_handle_disconnect (c : nat) (m : q931_message) : W unit :=
  let network (pre : W unit) := with_ies c m (λ m,
    pre ;; on_channel c q931_channel_disconnect ;; disconnected c N11_DISCONNECT_REQUEST m) in
  let user (pre : W unit) := with_ies c m (λ m,
    pre ;; disconnected c U12_DISCONNECT_INDICATION m) in
  let unless_broadcast (a : W unit) :=
    ifM (getc c call_broadcast_setup)
      (q931_call_message_not_compatible_with_state_n6 c m) a in
  state ← getc c call_state;
  match state with
  | N1_CALL_INITIATED | N3_OUTGOING_CALL_PROCEEDING | N4_CALL_DELIVERED | N10_ACTIVE
  | N17_RESUME_REQUEST => network (mret tt)
  | N2_OVERLAP_SENDING => network (q931_call_stop_timer c T302)
  | N7_CALL_RECEIVED => unless_broadcast (network (q931_call_stop_timer c T301))
  | N8_CONNECT_REQUEST =>
      unless_broadcast (with_ies c m (λ m,
        on_channel c q931_channel_release ;; disconnected c N11_DISCONNECT_REQUEST m))
  | N9_INCOMING_CALL_PROCEEDING => unless_broadcast (network (q931_call_stop_timer c T310))
  | N12_DISCONNECT_INDICATION =>
      q931_call_stop_timer c T305 ;;
      q931_call_stop_timer c T306 ;;
      on_channel c q931_channel_stop_tone ;;
      release_after_disconnect c N19_RELEASE_REQUEST
  | N25_OVERLAP_RECEIVING => unless_broadcast (network (q931_call_stop_timer c T304))
  | U2_OVERLAP_SENDING =>
      user (q931_call_stop_timer c T304 ;; on_channel c q931_channel_control)
  | U3_OUTGOING_CALL_PROCEEDING | U4_CALL_DELIVERED =>
      user (on_channel c q931_channel_control)
  | U6_CALL_PRESENT | U7_CALL_RECEIVED | U10_ACTIVE => user (mret tt)
  | U8_CONNECT_REQUEST | U9_INCOMING_CALL_PROCEEDING => user (q931_call_stop_timer c T313)
  | U11_DISCONNECT_REQUEST =>
      q931_call_stop_timer c T305 ;; release_after_disconnect c U19_RELEASE_REQUEST
  | U15_SUSPEND_REQUEST => user (q931_call_stop_timer c T319)
  | U17_RESUME_REQUEST =>
      q931_call_stop_timer c T318 ;; release_after_disconnect c U19_RELEASE_REQUEST
  | U25_OVERLAP_RECEIVING => user (q931_call_stop_timer c T302)
  | N19_RELEASE_REQUEST | U19_RELEASE_REQUEST => mret tt
  | _ => q931_call_message_not_compatible_with_state c m
  end.

(** the call reaches its null state and gives up its reference; the
    primitive comes last *)
Definition cleared (c : nat) (null : q931_call_state) (p : q931_primitive) (m : q931_message)
    : W unit :=
  q931_call_set_state c null ;;
  q931_call_release_reference c ;;
  q931_call_primitive c p (Some (msg_ies m)).

(** the reference goes before the state is set *)
Definition dereferenced (c : nat) (null : q931_call_state) (p : q931_primitive)
    (m : q931_message) : W unit :=
  q931_call_release_reference c ;;
  enter c null p m.

(** In state N7 it is T302 that is stopped, not T301. *)
Definition q931_handle_release (c : nat) (m : q931_message) : W unit :=
  let complete := q931_call_send_release_complete c None in
  let release := on_channel c q931_channel_release in
  let gone null (pre : W unit) := with_ies c m (λ m,
    pre ;; release ;; complete ;; cleared c null Q931_CCB_RELEASE_INDICATION m) in
  let unless_broadcast (pre : W unit) := with_ies c m (λ m,
    complete ;;
    ifM (getc c call_broadcast_setup) (mret tt)
      (pre ;; release ;; cleared c N0_NULL_STATE Q931_CCB_RELEASE_INDICATION m)) in
  let confirm null := with_ies c m (λ m,
    q931_call_stop_timer c T308 ;; release ;;
    cleared c null (Q931_CCB_RELEASE_CONFIRM Q931_RELEASE_CONFIRM_OK) m) in
  state ← getc c call_state;
  match state with
  | N0_NULL_STATE | U0_NULL_STATE =>
      ies ← call_cause_ies c Q931_IE_C_CV_INVALID_CALL_REFERENCE_VALUE [];
      q931_call_send_release_complete c (Some ies) ;;
      q931_call_release_reference c
  | N1_CALL_INITIATED | N3_OUTGOING_CALL_PROCEEDING | N4_CALL_DELIVERED | N10_ACTIVE
  | N11_DISCONNECT_REQUEST => gone N0_NULL_STATE (mret tt)
  | N2_OVERLAP_SENDING => gone N0_NULL_STATE (q931_call_stop_timer c T302)
  | N6_CALL_PRESENT =>
      with_ies c m (λ m,
        complete ;;
        ifM (getc c call_broadcast_setup) (mret tt)
          (q931_call_stop_timer c T303 ;; release ;;
           dereferenced c N0_NULL_STATE Q931_CCB_RELEASE_INDICATION m))
  | N7_CALL_RECEIVED => unless_broadcast (q931_call_stop_timer c T302)
  | N8_CONNECT_REQUEST => unless_broadcast (mret tt)
  | N9_INCOMING_CALL_PROCEEDING => unless_broadcast (q931_call_stop_timer c T310)
  | N12_DISCONNECT_INDICATION =>
      gone N0_NULL_STATE (q931_call_stop_timer c T305 ;; q931_call_stop_timer c T306 ;;
                          on_channel c q931_channel_stop_tone)
  | N19_RELEASE_REQUEST => confirm N0_NULL_STATE
  | N22_CALL_ABORT => complete
  | N25_OVERLAP_RECEIVING =>
      with_ies c m (λ m,
        ifM (getc c call_broadcast_setup) complete
          (q931_call_stop_timer c T304 ;; release ;; complete ;;
           cleared c N0_NULL_STATE Q931_CCB_RELEASE_INDICATION m))
  | U1_CALL_INITIATED =>
      with_ies c m (λ m, q931_call_stop_timer c T303 ;; complete ;;
        cleared c U0_NULL_STATE Q931_CCB_RELEASE_INDICATION m)
  | U2_OVERLAP_SENDING => gone U0_NULL_STATE (q931_call_stop_timer c T304)
  | U3_OUTGOING_CALL_PROCEEDING | U4_CALL_DELIVERED | U6_CALL_PRESENT | U7_CALL_RECEIVED
  | U9_INCOMING_CALL_PROCEEDING | U10_ACTIVE | U12_DISCONNECT_INDICATION =>
      gone U0_NULL_STATE (mret tt)
  | U8_CONNECT_REQUEST => gone U0_NULL_STATE (q931_call_stop_timer c T313)
  | U11_DISCONNECT_REQUEST => gone U0_NULL_STATE (q931_call_stop_timer c T305)
  | U15_SUSPEND_REQUEST => gone U0_NULL_STATE (q931_call_stop_timer c T319)
  | U17_RESUME_REQUEST =>
      with_ies c m (λ m, q931_call_stop_timer c T318 ;; complete ;;
        cleared c U0_NULL_STATE Q931_CCB_RELEASE_INDICATION m)
  | U19_RELEASE_REQUEST => confirm U0_NULL_STATE
  | U25_OVERLAP_RECEIVING =>
      with_ies c m (λ m, q931_call_stop_timer c T302 ;; complete ;; release ;;
        cleared c U0_NULL_STATE Q931_CCB_RELEASE_INDICATION m)
  | _ => q931_call_message_not_compatible_with_state c m
  end.

Definition q931_handle_release_complete (c : nat) (m : q931_message) : W unit :=
  let release := on_channel c q931_channel_release in
  let gone null (pre : W unit) := with_ies c m (λ m,
    pre ;; release ;; cleared c null Q931_CCB_RELEASE_INDICATION m) in
  let deref_first (pre : W unit) := with_ies c m (λ m,
    pre ;; release ;; dereferenced c N0_NULL_STATE Q931_CCB_RELEASE_INDICATION m) in
  let unless_broadcast (pre : W unit) := with_ies c m (λ m,
    ifM (getc c call_broadcast_setup) (mret tt)
      (pre ;; release ;; cleared c N0_NULL_STATE Q931_CCB_RELEASE_INDICATION m)) in
  let confirm null t := with_ies c m (λ m,
    q931_call_stop_timer c t ;; release ;;
    cleared c null (Q931_CCB_RELEASE_CONFIRM Q931_RELEASE_CONFIRM_OK) m) in
  upd_call c (set_call_release_complete_received true) ;;
  state ← getc c call_state;
  match state with
  | N0_NULL_STATE | N22_CALL_ABORT | U0_NULL_STATE => mret tt
  | N1_CALL_INITIATED | N3_OUTGOING_CALL_PROCEEDING | N4_CALL_DELIVERED =>
      deref_first (mret tt)
  | N2_OVERLAP_SENDING => deref_first (q931_call_stop_timer c T302)
  | N6_CALL_PRESENT =>
      with_ies c m (λ m,
        ifM (getc c call_broadcast_setup)
          (saved ← getc c call_saved_cause;
           saved ← lift (q931_ies_copy saved (Some (msg_ies m)));
           upd_call c (set_call_saved_cause saved))
          (q931_call_stop_timer c T303 ;; release ;;
           dereferenced c N0_NULL_STATE Q931_CCB_REJECT_INDICATION m))
  | N7_CALL_RECEIVED => unless_broadcast (q931_call_stop_timer c T301)
  | N8_CONNECT_REQUEST => unless_broadcast (mret tt)
  | N9_INCOMING_CALL_PROCEEDING => unless_broadcast (q931_call_stop_timer c T310)
  | N10_ACTIVE | N11_DISCONNECT_REQUEST => gone N0_NULL_STATE (mret tt)
  | N12_DISCONNECT_INDICATION =>
      gone N0_NULL_STATE (q931_call_stop_timer c T305 ;; q931_call_stop_timer c T306 ;;
                          on_channel c q931_channel_stop_tone)
  | N19_RELEASE_REQUEST => confirm N0_NULL_STATE T308
  | N25_OVERLAP_RECEIVING => unless_broadcast (q931_call_stop_timer c T304)
  | U1_CALL_INITIATED =>
      with_ies c m (λ m, release ;; q931_call_stop_timer c T303 ;;
        dereferenced c U0_NULL_STATE Q931_CCB_REJECT_INDICATION m)
  | U2_OVERLAP_SENDING => gone U0_NULL_STATE (q931_call_stop_timer c T304)
  | U3_OUTGOING_CALL_PROCEEDING | U4_CALL_DELIVERED | U6_CALL_PRESENT | U7_CALL_RECEIVED
  | U9_INCOMING_CALL_PROCEEDING | U10_ACTIVE | U12_DISCONNECT_INDICATION =>
      gone U0_NULL_STATE (mret tt)
  | U8_CONNECT_REQUEST => gone U0_NULL_STATE (q931_call_stop_timer c T313)
  | U11_DISCONNECT_REQUEST => gone U0_NULL_STATE (q931_call_stop_timer c T305)
  | U15_SUSPEND_REQUEST => gone U0_NULL_STATE (q931_call_stop_timer c T319)
  | U17_RESUME_REQUEST =>
      with_ies c m (λ m, q931_call_stop_timer c T318 ;;
        cleared c U0_NULL_STATE Q931_CCB_RELEASE_INDICATION m)
  | U19_RELEASE_REQUEST => confirm U0_NULL_STATE T308
  | U25_OVERLAP_RECEIVING => confirm U0_NULL_STATE T302
  | _ => q931_call_message_not_compatible_with_state c m
  end.
