(* ===== verification/Q931CallStatus.v ===== *)
(** * The message handlers of the call, third part: STATUS, INFORMATION, NOTIFY,
    suspending and resuming, the events of the data link and the dispatch
    ([q931_handle_status] to [q931_dispatch_message] of [call.c]) *)

From stdpp Require Import base list gmap functions.
From Stdlib Require Import ZArith Lia.
From S2P Require Import Prelude.
From S2P Require Import Bits.
From S2P Require Import Q931Defs.
From S2P Require Import Q931Tables.
From S2P Require Import Q931Sets.
From S2P Require Import Q931IE.
From S2P Require Import Q931World.
From S2P Require Import Q931Base.
From S2P Require Import Q931Wire.
From S2P Require Import Q931Decode.
From S2P Require Import Q931Ces.
From S2P Require Import Q931Call.
From S2P Require Import Q931CallTimers.
From S2P Require Import Q931CallEstablish.
From S2P Require Import Q931CallClearing.
Local Open Scope Z_scope.

(** the last call state of the message: the loop does not stop at the first *)
Definition last_call_state (ies : q931_ies) : option q931_ie_call_state :=
  head (reverse (omap (λ ie, match ie with IE_CALL_STATE cs => Some cs | _ => None end) ies)).

Definition message_causes (ies : q931_ies) : q931_ies :=
  filter (λ ie, ie_id ie = Q931_IE_CAUSE) ies.

(** [q931_ies_add_put] of the causes of the message moves the message's own
    references into a local set, which [Q931_UNDECLARE_IES] then gives up: the
    causes are freed while the message still points to them, and a primitive
    that copies the set of the message touches freed memory. *)
Definition primitive_of_freed (c : nat) (p : q931_primitive) (m : q931_message) : W unit :=
  match message_causes (msg_ies m) with
  | [] => q931_call_primitive c p (Some (msg_ies m))
  | _ => fail UseAfterFree
  end.

Definition status_release (c : nat) (m : q931_message) : W unit :=
  ies ← call_cause_ies c Q931_IE_C_CV_MESSAGE_NOT_COMPATIBLE_WITH_CALL_STATE
          [msg_message_type m];
  q931_call_send_release c (Some ies).

(** STATUS in the null state; T308 is started after the change of the state *)
Definition status_in_null (c : nat) (release : q931_call_state) (m : q931_message) : W unit :=
  with_ies c m (λ m,
    cs ← deref (last_call_state (msg_ies m));
    when (negb (cs_value cs =? q931_call_state_to_ie_state N0_NULL_STATE))
      (status_release c m ;;
       q931_call_set_state c release ;;
       q931_call_start_timer c T308)).

(** STATUS while the call waits for RELEASE COMPLETE *)
Definition status_in_release (c : nat) (null : q931_call_state) (m : q931_message) : W unit :=
  with_ies c m (λ m,
    cs ← deref (last_call_state (msg_ies m));
    when (cs_value cs =? q931_call_state_to_ie_state N0_NULL_STATE)
      (q931_call_stop_timer c T308 ;;
       on_channel c q931_channel_release ;;
       cleared c null (Q931_CCB_STATUS_INDICATION Q931_STATUS_INDICATION_ERROR) m)).

(** STATUS in any other state.  A user side call whose peer is in the null state
    goes to the null state of the network side. *)
Definition status_in_call (c : nat) (release : q931_call_state) (m : q931_message) : W unit :=
  with_ies c m (λ m,
    causes ← lift (foldl (λ acc ie, acc ← acc; q931_ies_add_put acc ie) (Done [])
                     (message_causes (msg_ies m)));
    whenM (q931_call_timer_running c T322)
      (if q931_ies_contain_cause causes
            Q931_IE_C_CV_MESSAGE_TYPE_NON_EXISTENT_OR_IMPLEMENTED ||
          q931_ies_contain_cause causes Q931_IE_C_CV_MESSAGE_TYPE_NOT_COMPATIBLE_WITH_STATE
       then mret tt
       else when (q931_ies_contain_cause causes Q931_IE_C_CV_RESPONSE_TO_STATUS_ENQUIRY)
              (q931_call_stop_timer c T322)) ;;
    cs ← deref (last_call_state (msg_ies m));
    state ← getc c call_state;
    let indicate :=
      primitive_of_freed c (Q931_CCB_STATUS_INDICATION Q931_STATUS_INDICATION_ERROR) m ;;
      primitive_of_freed c Q931_CCB_RELEASE_INDICATION m in
    if cs_value cs =? q931_call_state_to_ie_state N0_NULL_STATE then
      q931_call_stop_any_timer c ;;
      on_channel c q931_channel_release ;;
      q931_call_set_state c N0_NULL_STATE ;;
      q931_call_release_reference c ;;
      indicate
    else if cs_value cs =? q931_call_state_to_ie_state state then mret tt
    else
      q931_call_stop_any_timer c ;;
      status_release c m ;;
      q931_call_start_timer c T308 ;;
      q931_call_set_state c release ;;
      indicate).

Definition q931_handle_status (c : nat) (m : q931_message) : W unit :=
  state ← getc c call_state;
  match state with
  | N0_NULL_STATE => status_in_null c N19_RELEASE_REQUEST m
  | N19_RELEASE_REQUEST => status_in_release c N0_NULL_STATE m
  | N1_CALL_INITIATED | N2_OVERLAP_SENDING | N3_OUTGOING_CALL_PROCEEDING
  | N4_CALL_DELIVERED | N6_CALL_PRESENT | N7_CALL_RECEIVED | N8_CONNECT_REQUEST
  | N9_INCOMING_CALL_PROCEEDING | N10_ACTIVE | N11_DISCONNECT_REQUEST
  | N12_DISCONNECT_INDICATION | N15_SUSPEND_REQUEST | N17_RESUME_REQUEST | N22_CALL_ABORT
  | N25_OVERLAP_RECEIVING => status_in_call c N19_RELEASE_REQUEST m
  | U0_NULL_STATE => status_in_null c U19_RELEASE_REQUEST m
  | U19_RELEASE_REQUEST => status_in_release c U0_NULL_STATE m
  | _ => status_in_call c U19_RELEASE_REQUEST m
  end.

Definition q931_handle_status_enquiry (c : nat) (m : q931_message) : W unit :=
  ies ← add_cause c Q931_IE_C_CV_RESPONSE_TO_STATUS_ENQUIRY [] [];
  state ← getc c call_state;
  ies ← lift (q931_ies_add_put ies (new_call_state_ie (q931_call_state_to_ie_state state)));
  q931_call_send_status c (Some ies).

Definition q931_handle_info (c : nat) (m : q931_message) : W unit :=
  let indicate (pre : W unit) := with_ies c m (λ m,
    pre ;; q931_call_primitive c Q931_CCB_INFO_INDICATION (Some (msg_ies m))) in
  state ← getc c call_state;
  match state with
  | N2_OVERLAP_SENDING =>
      indicate (q931_call_stop_timer c T302 ;;
                on_channel c q931_channel_stop_tone ;;
                q931_call_start_timer c T302)
  | N3_OUTGOING_CALL_PROCEEDING | N4_CALL_DELIVERED | N10_ACTIVE | N11_DISCONNECT_REQUEST
  | N12_DISCONNECT_INDICATION | N19_RELEASE_REQUEST => indicate (mret tt)
  | N7_CALL_RECEIVED | N8_CONNECT_REQUEST | N9_INCOMING_CALL_PROCEEDING
  | N25_OVERLAP_RECEIVING =>
      ifM (getc c call_broadcast_setup)
        (q931_call_message_not_compatible_with_state_n6 c m) (indicate (mret tt))
  | U2_OVERLAP_SENDING | U3_OUTGOING_CALL_PROCEEDING | U4_CALL_DELIVERED | U6_CALL_PRESENT
  | U8_CONNECT_REQUEST | U9_INCOMING_CALL_PROCEEDING | U10_ACTIVE | U11_DISCONNECT_REQUEST
  | U12_DISCONNECT_INDICATION | U15_SUSPEND_REQUEST | U19_RELEASE_REQUEST =>
      indicate (mret tt)
  | U25_OVERLAP_RECEIVING => indicate (q931_call_restart_timer c T302)
  | _ => q931_call_message_not_compatible_with_state c m
  end.

Definition q931_handle_notify (c : nat) (m : q931_message) : W unit :=
  state ← getc c call_state;
  match state with
  | N10_ACTIVE | U10_ACTIVE | U11_DISCONNECT_REQUEST | U15_SUSPEND_REQUEST =>
      with_ies c m (λ m,
        q931_call_primitive c Q931_CCB_NOTIFY_INDICATION (Some (msg_ies m)))
  | _ => mret tt
  end.

Definition q931_handle_resume (c : nat) (m : q931_message) : W unit :=
  state ← getc c call_state;
  match state with
  | N0_NULL_STATE =>
      intf ← read_intf;
      if bool_decide (intf_type intf ≠ LAPD_INTF_TYPE_BRA) then
        ies ← call_cause_ies c Q931_IE_C_CV_INVALID_CALL_REFERENCE_VALUE [];
        q931_call_send_release c (Some ies) ;;
        q931_call_start_timer c T308 ;;
        q931_call_set_state c N19_RELEASE_REQUEST
      else with_ies c m (enter c N17_RESUME_REQUEST Q931_CCB_RESUME_INDICATION)
  | _ => q931_call_message_not_compatible_with_state c m
  end.

(** the handlers that act in one state of the user side only *)
Definition only_in (c : nat) (m : q931_message) (state : q931_call_state)
    (body : q931_message → W unit) : W unit :=
  s ← getc c call_state;
  if decide (s = state) then with_ies c m body
  else q931_call_message_not_compatible_with_state c m.

Definition q931_handle_resume_acknowledge (c : nat) (m : q931_message) : W unit :=
  only_in c m U17_RESUME_REQUEST (λ m,
    q931_call_stop_timer c T318 ;;
    on_channel c q931_channel_connect ;;
    enter c U10_ACTIVE (Q931_CCB_RESUME_CONFIRM Q931_RESUME_CONFIRM_OK) m).

Definition q931_handle_resume_reject (c : nat) (m : q931_message) : W unit :=
  only_in c m U17_RESUME_REQUEST (λ m,
    q931_call_stop_timer c T318 ;;
    cleared c U0_NULL_STATE (Q931_CCB_RESUME_CONFIRM Q931_RESUME_CONFIRM_ERROR) m).

Definition q931_handle_suspend (c : nat) (m : q931_message) : W unit :=
  state ← getc c call_state;
  match state with
  | N10_ACTIVE =>
      intf ← read_intf;
      if bool_decide (intf_type intf ≠ LAPD_INTF_TYPE_BRA) then
        ies ← call_cause_ies c Q931_IE_C_CV_FACILITY_REJECTED [];
        q931_call_send_suspend_reject c (Some ies)
      else with_ies c m (enter c N15_SUSPEND_REQUEST Q931_CCB_SUSPEND_INDICATION)
  | _ => q931_call_message_not_compatible_with_state c m
  end.

Definition q931_handle_suspend_acknowledge (c : nat) (m : q931_message) : W unit :=
  only_in c m U15_SUSPEND_REQUEST (λ m,
    q931_call_stop_timer c T319 ;;
    on_channel c q931_channel_release ;;
    cleared c U0_NULL_STATE (Q931_CCB_SUSPEND_CONFIRM Q931_SUSPEND_CONFIRM_OK) m).

Definition q931_handle_suspend_reject (c : nat) (m : q931_message) : W unit :=
  only_in c m U15_SUSPEND_REQUEST (λ m,
    q931_call_stop_timer c T319 ;;
    enter c U10_ACTIVE (Q931_CCB_SUSPEND_CONFIRM Q931_SUSPEND_CONFIRM_ERROR) m).

(** ** Events of the data link *)

Definition q931_call_dl_establish_indication (c : nat) : W unit :=
  ies ← call_cause_ies c Q931_IE_C_CV_TEMPORARY_FAILURE [];
  let disconnect ies state p :=
    q931_call_send_disconnect c (Some ies) ;;
    q931_call_start_timer c T305 ;;
    q931_call_set_state c state ;;
    q931_call_primitive c p None in
  state ← getc c call_state;
  match state with
  | N2_OVERLAP_SENDING =>
      q931_call_stop_any_timer c ;;
      ifM (getc c call_tones_option)
        (ies ← add_in_band_pi c ies;
         q931_call_send_disconnect c (Some ies) ;;
         on_channel c (λ ch, q931_channel_start_tone ch Q931_TONE_FAILURE) ;;
         q931_call_start_timer c T306)
        (on_channel c q931_channel_disconnect ;;
         q931_call_send_disconnect c (Some ies) ;;
         q931_call_start_timer c T305) ;;
      q931_call_set_state c N12_DISCONNECT_INDICATION ;;
      q931_call_primitive c Q931_CCB_DISCONNECT_INDICATION None
  | N25_OVERLAP_RECEIVING =>
      ifM (getc c call_broadcast_setup) (mret tt)
        (on_channel c q931_channel_disconnect ;;
         disconnect ies N12_DISCONNECT_INDICATION Q931_CCB_RELEASE_INDICATION)
  | U2_OVERLAP_SENDING =>
      q931_call_stop_timer c T304 ;;
      on_channel c q931_channel_release ;;
      disconnect ies U11_DISCONNECT_REQUEST Q931_CCB_DISCONNECT_INDICATION
  | U25_OVERLAP_RECEIVING =>
      q931_call_stop_timer c T302 ;;
      on_channel c q931_channel_release ;;
      disconnect ies U11_DISCONNECT_REQUEST Q931_CCB_DISCONNECT_INDICATION
  | _ => mret tt
  end.

Definition q931_call_dl_establish_confirm (c : nat) : W unit :=
  ies ← call_cause_ies c Q931_IE_C_CV_NORMAL_UNSPECIFIED [];
  state ← getc c call_state;
  match state with
  | N10_ACTIVE | U10_ACTIVE =>
      q931_call_stop_timer c T309 ;;
      q931_call_send_call_status c (Some ies)
  | _ => mret tt
  end.

(** The call ends because its data link is gone. *)
Definition link_lost (c : nat) (null : q931_call_state) (value : Z) : W unit :=
  on_channel c q931_channel_release ;;
  q931_call_set_state c null ;;
  q931_call_release_reference c ;;
  ies ← call_cause_ies c value [];
  q931_call_primitive c Q931_CCB_RELEASE_INDICATION (Some ies).

(** An active call waits for T309; the second loss ends it, on the user side too
    in the null state of the network side. *)
Definition active_link_lost (c : nat) (value : Z) : W unit :=
  ifM (q931_call_timer_running c T309)
    (q931_call_stop_timer c T309 ;; link_lost c N0_NULL_STATE value)
    (q931_call_start_timer c T309 ;;
     d ← getc c call_dlc; d ← deref d;
     _ ← read_dlc d;
     env ← read_env; w ← get;
     emit (EvConnect d) ;;
     let err := e_connect env (w_trace w) d in
     when (negb ((err =? 0) || (err =? EAGAIN))) (report_call c)).

Definition q931_call_dl_release_indication (c : nat) : W unit :=
  r ← read_call c;
  match call_state r with
  | N0_NULL_STATE | U0_NULL_STATE => mret tt
  | N1_CALL_INITIATED | N2_OVERLAP_SENDING | N3_OUTGOING_CALL_PROCEEDING
  | N4_CALL_DELIVERED | N6_CALL_PRESENT | N7_CALL_RECEIVED | N8_CONNECT_REQUEST
  | N9_INCOMING_CALL_PROCEEDING | N11_DISCONNECT_REQUEST | N12_DISCONNECT_INDICATION
  | N15_SUSPEND_REQUEST | N17_RESUME_REQUEST | N19_RELEASE_REQUEST | N22_CALL_ABORT
  | N25_OVERLAP_RECEIVING =>
      when (negb (call_broadcast_setup r) || bool_decide (call_state r = N6_CALL_PRESENT))
        (q931_call_stop_any_timer c ;;
         link_lost c N0_NULL_STATE Q931_IE_C_CV_DESTINATION_OUT_OF_ORDER)
  | N10_ACTIVE => active_link_lost c Q931_IE_C_CV_DESTINATION_OUT_OF_ORDER
  | U10_ACTIVE => active_link_lost c Q931_IE_C_CV_NETWORK_OUT_OF_ORDER
  | _ =>
      q931_call_stop_any_timer c ;;
      link_lost c U0_NULL_STATE Q931_IE_C_CV_NETWORK_OUT_OF_ORDER
  end.

Definition q931_call_dl_release_confirm (c : nat) : W unit := mret tt.

(** ** Dispatch *)

(** A message type of no handler.  The network null state has no [else]: after
    RELEASE it also sends STATUS. *)
Definition unrecognized_message (c : nat) : W unit :=
  let release state :=
    ies ← call_cause_ies c Q931_IE_C_CV_INVALID_CALL_REFERENCE_VALUE [];
    q931_call_send_release c (Some ies) ;;
    q931_call_start_timer c T308 ;;
    q931_call_set_state c state in
  state ← getc c call_state;
  when (bool_decide (state = N0_NULL_STATE)) (release N19_RELEASE_REQUEST) ;;
  state ← getc c call_state;
  if decide (state = U0_NULL_STATE) then release U19_RELEASE_REQUEST
  else
    ies ← call_cause_ies c Q931_IE_C_CV_MESSAGE_TYPE_NON_EXISTENT_OR_IMPLEMENTED [];
    q931_call_send_call_status c (Some ies).

Definition q931_dispatch_message (c : nat) (m : q931_message) : W unit :=
  report_call c ;;
  let mt := msg_message_type m in
  if mt =? Q931_MT_ALERTING then q931_handle_alerting c m
  else if mt =? Q931_MT_CALL_PROCEEDING then q931_handle_call_proceeding c m
  else if mt =? Q931_MT_CONNECT then q931_handle_connect c m
  else if mt =? Q931_MT_CONNECT_ACKNOWLEDGE then q931_handle_connect_acknowledge c m
  else if mt =? Q931_MT_PROGRESS then q931_handle_progress c m
  else if mt =? Q931_MT_SETUP then q931_handle_setup c m
  else if mt =? Q931_MT_SETUP_ACKNOWLEDGE then q931_handle_setup_acknowledge c m
  else if mt =? Q931_MT_DISCONNECT then q931_handle_disconnect c m
  else if mt =? Q931_MT_RELEASE then q931_handle_release c m
  else if mt =? Q931_MT_RELEASE_COMPLETE then q931_handle_release_complete c m
  else if mt =? Q931_MT_STATUS then q931_handle_status c m
  else if mt =? Q931_MT_STATUS_ENQUIRY then q931_handle_status_enquiry c m
  else if mt =? Q931_MT_INFORMATION then q931_handle_info c m
  else if mt =? Q931_MT_NOTIFY then q931_handle_notify c m
  else if mt =? Q931_MT_RESUME then q931_handle_resume c m
  else if mt =? Q931_MT_RESUME_ACKNOWLEDGE then q931_handle_resume_acknowledge c m
  else if mt =? Q931_MT_RESUME_REJECT then q931_handle_resume_reject c m
  else if mt =? Q931_MT_SUSPEND then q931_handle_suspend c m
  else if mt =? Q931_MT_SUSPEND_ACKNOWLEDGE then q931_handle_suspend_acknowledge c m
  else if mt =? Q931_MT_SUSPEND_REJECT then q931_handle_suspend_reject c m
  else unrecognized_message c ;; report_call c.
