(* ===== verification/Q931CesHandlers.v ===== *)
(** * Connection endpoint suffixes, second part of [ces.c]: the events of the data
    link, the message handlers, the timers and the dispatch

    They report to the call through the [q931_int_*] indications. *)

From stdpp Require Import base list gmap functions.
From Stdlib Require Import ZArith Lia.
From S2P Require Import Prelude.
From S2P Require Import Bits.
From S2P Require Import Q931Defs.
From S2P Require Import Q931Tables.
From S2P Require Import Q931Sets.
From S2P Require Import Q931IE.
From S2P Require Import Q931World.
From S2P Require Import Q931Base.
From S2P Require Import Q931Wire.
From S2P Require Import Q931Decode.
From S2P Require Import Q931Ces.
From S2P Require Import Q931Call.
From S2P Require Import Q931CallTimers.
From S2P Require Import Q931CallEstablish.
From S2P Require Import Q931CallStatus.
Local Open Scope Z_scope.

Definition get_ces_call (s : nat) : W nat := r ← read_ces s; mret (ces_call r).
Definition get_ces_state (s : nat) : W q931_ces_state := r ← read_ces s; mret (ces_state r).

(** [q931_int_release_indication(ces->call, ces, ...)] and its like *)
Definition int_indicate {A} (f : nat → nat → A → W unit) (s : nat) (ies : A) : W unit :=
  c ← get_ces_call s; f c s ies.

Definition ces_released (s : nat) (ies : option q931_ies) : W unit :=
  int_indicate q931_int_release_indication s ies ;;
  int_indicate q931_int_release_complete_indication s ies.

(** RELEASE, T308 and the state that waits for RELEASE COMPLETE *)
Definition ces_release (s : nat) (ies : option q931_ies) : W unit :=
  q931_ces_send_release s ies ;;
  q931_ces_start_timer s CES_T308 ;;
  q931_ces_set_state s I19_RELEASE_REQUEST.

(** ** Events of the data link *)

(** the cause that is built is not added to the set that is sent *)
Definition q931_ces_dl_establish_indication (s : nat) : W unit :=
  state ← get_ces_state s;
  match state with
  | I25_OVERLAP_RECEIVING =>
      _ ← ces_cause_ies s Q931_IE_C_CV_TEMPORARY_FAILURE [];
      q931_ces_stop_timer s CES_T304 ;;
      ces_release s (Some []) ;;
      int_indicate q931_int_release_indication s None
  | _ => mret tt
  end.

Definition q931_ces_dl_establish_confirm (s : nat) : W unit := mret tt.

Definition q931_ces_dl_release_indication (s : nat) : W unit :=
  state ← get_ces_state s;
  match state with
  | I0_NULL_STATE => mret tt
  | _ => q931_ces_stop_any_timer s ;; ces_released s None
  end.

Definition q931_ces_dl_release_confirm (s : nat) : W unit := mret tt.

(** ** Message handlers *)

(** the elements are decoded on behalf of the call *)
Definition ces_with_ies (s : nat) (m : q931_message) (body : q931_message → W unit) : W unit :=
  c ← get_ces_call s; with_ies c m body.

Definition q931_ces_handle_alerting (s : nat) (m : q931_message) : W unit :=
  let accept (pre : W unit) := ces_with_ies s m (λ m,
    pre ;;
    q931_ces_set_state s I7_CALL_RECEIVED ;;
    int_indicate q931_int_alerting_indication s (Some (msg_ies m))) in
  state ← get_ces_state s;
  match state with
  | I9_INCOMING_CALL_PROCEEDING => accept (mret tt)
  | I25_OVERLAP_RECEIVING => accept (q931_ces_stop_timer s CES_T304)
  | _ => q931_ces_message_not_compatible_with_state s m
  end.

Definition q931_ces_handle_call_proceeding (s : nat) (m : q931_message) : W unit :=
  state ← get_ces_state s;
  match state with
  | I25_OVERLAP_RECEIVING =>
      ces_with_ies s m (λ m,
        q931_ces_stop_timer s CES_T304 ;;
        q931_ces_set_state s I9_INCOMING_CALL_PROCEEDING ;;
        int_indicate q931_int_call_proceeding_indication s (Some (msg_ies m)))
  | _ => q931_ces_message_not_compatible_with_state s m
  end.

Definition q931_ces_handle_connect (s : nat) (m : q931_message) : W unit :=
  let accept (pre : W unit) := ces_with_ies s m (λ m,
    pre ;;
    q931_ces_set_state s I8_CONNECT_REQUEST ;;
    int_indicate q931_int_connect_indication s (msg_ies m)) in
  state ← get_ces_state s;
  match state with
  | I7_CALL_RECEIVED | I9_INCOMING_CALL_PROCEEDING => accept (mret tt)
  | I25_OVERLAP_RECEIVING => accept (q931_ces_stop_timer s CES_T304)
  | _ => q931_ces_message_not_compatible_with_state s m
  end.

Definition q931_ces_handle_progress (s : nat) (m : q931_message) : W unit :=
  let accept (pre : W unit) := ces_with_ies s m (λ m,
    pre ;; int_indicate q931_int_progress_indication s (Some (msg_ies m))) in
  state ← get_ces_state s;
  match state with
  | I7_CALL_RECEIVED | I9_INCOMING_CALL_PROCEEDING => accept (mret tt)
  | I25_OVERLAP_RECEIVING => accept (q931_ces_stop_timer s CES_T304)
  | _ => q931_ces_message_not_compatible_with_state s m
  end.

Definition q931_ces_handle_disconnect (s : nat) (m : q931_message) : W unit :=
  let accept (pre : W unit) := ces_with_ies s m (λ m,
    pre ;;
    ces_release s None ;;
    int_indicate q931_int_release_indication s (Some (msg_ies m))) in
  state ← get_ces_state s;
  match state with
  | I7_CALL_RECEIVED | I8_CONNECT_REQUEST | I9_INCOMING_CALL_PROCEEDING => accept (mret tt)
  | I19_RELEASE_REQUEST => mret tt
  | I25_OVERLAP_RECEIVING => accept (q931_ces_stop_timer s CES_T304)
  | I0_NULL_STATE => q931_ces_message_not_compatible_with_state s m
  end.

(** RELEASE and RELEASE COMPLETE differ in the answer to the first *)
Definition ces_handle_clearing (s : nat) (m : q931_message) (answer : W unit) : W unit :=
  let accept (pre : W unit) := ces_with_ies s m (λ m,
    pre ;; answer ;; ces_released s (Some (msg_ies m))) in
  state ← get_ces_state s;
  match state with
  | I7_CALL_RECEIVED | I8_CONNECT_REQUEST | I9_INCOMING_CALL_PROCEEDING => accept (mret tt)
  | I19_RELEASE_REQUEST =>
      ces_with_ies s m (λ m,
        q931_ces_stop_timer s CES_T308 ;;
        int_indicate q931_int_release_complete_indication s (Some (msg_ies m)))
  | I25_OVERLAP_RECEIVING => accept (q931_ces_stop_timer s CES_T304)
  | I0_NULL_STATE => q931_ces_message_not_compatible_with_state s m
  end.

Definition q931_ces_handle_release (s : nat) (m : q931_message) : W unit :=
  ces_handle_clearing s m (q931_ces_send_release_complete s None).
Definition q931_ces_handle_release_complete (s : nat) (m : q931_message) : W unit :=
  ces_handle_clearing s m (mret tt).

(** the last cause of the message *)
Definition last_cause (ies : q931_ies) : option q931_ie_cause :=
  head (reverse (omap (λ ie, match ie with IE_CAUSE c => Some c | _ => None end) ies)).

Definition cs_is (cs : option q931_ie_call_state) (state : q931_ces_state) : bool :=
  match cs with
  | Some cs => cs_value cs =? q931_ces_state_to_ie_state state
  | None => false
  end.

(** the timer tested is the T322 of the call, the one stopped that of the CES;
    the cause is read without a test for NULL *)
Definition q931_ces_handle_status (s : nat) (m : q931_message) : W unit :=
  state ← get_ces_state s;
  match state with
  | I7_CALL_RECEIVED | I8_CONNECT_REQUEST | I9_INCOMING_CALL_PROCEEDING
  | I25_OVERLAP_RECEIVING =>
      ces_with_ies s m (λ m,
        let cs := last_call_state (msg_ies m) in
        c ← get_ces_call s;
        stop ← ifM (q931_timer_pending (TimerCall c T322))
          (cause ← deref (last_cause (msg_ies m));
           if c_value cause =? Q931_IE_C_CV_MESSAGE_TYPE_NON_EXISTENT_OR_IMPLEMENTED
           then mret true
           else when (c_value cause =? Q931_IE_C_CV_RESPONSE_TO_STATUS_ENQUIRY)
                  (q931_ces_stop_timer s CES_T322) ;;
                mret false)
          (mret false);
        if (stop : bool) then mret tt
        else
          state ← get_ces_state s;
          if cs_is cs I0_NULL_STATE then
            q931_ces_stop_any_timer s ;;
            ces_released s (Some (msg_ies m))
          else if cs_is cs state then mret tt
          else
            q931_ces_stop_any_timer s ;;
            ies ← ces_cause_ies s Q931_IE_C_CV_MESSAGE_NOT_COMPATIBLE_WITH_CALL_STATE [];
            ces_release s (Some ies) ;;
            q931_call_primitive c (Q931_CCB_STATUS_INDICATION Q931_STATUS_INDICATION_ERROR)
              (Some (msg_ies m)) ;;
            int_indicate q931_int_release_indication s (Some (msg_ies m)))
  | I19_RELEASE_REQUEST =>
      ces_with_ies s m (λ m,
        when (cs_is (last_call_state (msg_ies m)) I0_NULL_STATE)
          (q931_ces_stop_timer s CES_T308 ;;
           int_indicate q931_int_release_complete_indication s (Some (msg_ies m))))
  | I0_NULL_STATE => q931_ces_message_not_compatible_with_state s m
  end.

Definition q931_ces_handle_info (s : nat) (m : q931_message) : W unit :=
  state ← get_ces_state s;
  match state with
  | I7_CALL_RECEIVED | I8_CONNECT_REQUEST | I9_INCOMING_CALL_PROCEEDING =>
      ces_with_ies s m (λ m,
        int_indicate q931_int_info_indication s (Some (msg_ies m)))
  | I19_RELEASE_REQUEST | I25_OVERLAP_RECEIVING => mret tt
  | I0_NULL_STATE => q931_ces_message_not_compatible_with_state s m
  end.

(** STATUS without a call state *)
Definition q931_ces_handle_status_enquiry (s : nat) (m : q931_message) : W unit :=
  ies ← ces_cause_ies s Q931_IE_C_CV_RESPONSE_TO_STATUS_ENQUIRY [];
  q931_ces_send_status s (Some ies).

(** ** Timers *)

Definition q931_ces_timer_T304 (s : nat) : W unit :=
  state ← get_ces_state s;
  match state with
  | I25_OVERLAP_RECEIVING =>
      c ← get_ces_call s;
      ies ← timer_cause c 0x30 0x34;
      ces_release s (Some ies) ;;
      int_indicate q931_int_release_indication s None
  | _ => q931_ces_unexpected_timer s
  end.

(** a field of the CES that no code has initialised *)
Definition initialised {A} (v : option A) : W A :=
  match v with Some a => mret a | None => fail Uninitialised end.

Definition q931_ces_timer_T308 (s : nat) : W unit :=
  r ← read_ces s;
  match ces_state r with
  | I19_RELEASE_REQUEST =>
      fired ← initialised (ces_T308_fired r);
      if negb (fired : bool) then
        q931_ces_send_release s None ;;
        q931_ces_start_timer s CES_T308 ;;
        upd_ces s (set_ces_T308_fired (Some true))
      else int_indicate q931_int_release_complete_indication s None
  | _ => q931_ces_unexpected_timer s
  end.

Definition q931_ces_timer_T322 (s : nat) : W unit :=
  r ← read_ces s;
  match ces_state r with
  | I0_NULL_STATE => q931_ces_unexpected_timer s
  | _ =>
      received ← initialised (ces_senq_cause_97_98_received r);
      if (received : bool) then mret tt
      else
        cnt ← initialised (ces_senq_cnt r);
        if 3 <? cnt then
          ies ← ces_cause_ies s Q931_IE_C_CV_TEMPORARY_FAILURE [];
          q931_ces_send_release s (Some ies) ;;
          q931_ces_start_timer s CES_T308 ;;
          int_indicate q931_int_release_indication s None
        else
          q931_ces_send_status_enquiry s None ;;
          q931_ces_start_timer s CES_T322 ;;
          upd_ces s (set_ces_senq_cnt (Some (cnt + 1)))
  end.

(** the functions [q931_ces_alloc] gives to the timers *)
Definition q931_ces_timer_func (t : ces_timer) : nat → W unit :=
  match t with
  | CES_T304 => q931_ces_timer_T304
  | CES_T308 => q931_ces_timer_T308
  | CES_T322 => q931_ces_timer_T322
  end.

(** ** Dispatch *)

(** the message types answered with STATUS *)
Definition ces_incompatible_messages : list Z :=
  [Q931_MT_CONNECT_ACKNOWLEDGE; Q931_MT_SETUP_ACKNOWLEDGE; Q931_MT_RESTART;
   Q931_MT_RESTART_ACKNOWLEDGE; Q931_MT_USER_INFORMATION; Q931_MT_SEGMENT;
   Q931_MT_CONGESTION_CONTROL; Q931_MT_FACILITY; Q931_MT_NOTIFY; Q931_MT_HOLD;
   Q931_MT_HOLD_ACKNOWLEDGE; Q931_MT_HOLD_REJECT; Q931_MT_RETRIEVE;
   Q931_MT_RETRIEVE_ACKNOWLEDGE; Q931_MT_RETRIEVE_REJECT; Q931_MT_RESUME;
   Q931_MT_RESUME_ACKNOWLEDGE; Q931_MT_RESUME_REJECT; Q931_MT_SUSPEND;
   Q931_MT_SUSPEND_ACKNOWLEDGE; Q931_MT_SUSPEND_REJECT].

Definition q931_ces_dispatch_message (s : nat) (m : q931_message) : W unit :=
  report_ces s ;;
  let mt := msg_message_type m in
  if mt =? Q931_MT_ALERTING then q931_ces_handle_alerting s m
  else if mt =? Q931_MT_CALL_PROCEEDING then q931_ces_handle_call_proceeding s m
  else if mt =? Q931_MT_CONNECT then q931_ces_handle_connect s m
  else if mt =? Q931_MT_PROGRESS then q931_ces_handle_progress s m
  else if mt =? Q931_MT_DISCONNECT then q931_ces_handle_disconnect s m
  else if mt =? Q931_MT_RELEASE then q931_ces_handle_release s m
  else if mt =? Q931_MT_RELEASE_COMPLETE then q931_ces_handle_release_complete s m
  else if mt =? Q931_MT_STATUS then q931_ces_handle_status s m
  else if mt =? Q931_MT_INFORMATION then q931_ces_handle_info s m
  else if mt =? Q931_MT_STATUS_ENQUIRY then q931_ces_handle_status_enquiry s m
  else if mt =? Q931_MT_SETUP then mret tt
  else if bool_decide (mt ∈ ces_incompatible_messages)
       then q931_ces_message_not_compatible_with_state s m
  else report_ces s.
