(* ===== verification/Q931Input.v ===== *)
(** * The entry points of the library: [q931_receive] and the data link events of
    [input.c], [q931_run_timers] of [timer.c], [q931_ccb_dispatch] of [ccb.c] and
    [q931_intf_open] of [intf.c]

    The walks over the calls of an interface and over the CES of a call read the
    next link before the body ([list_for_each_entry_safe]); the bodies take no
    other element out of the list, so that the walk is over the list as it is at
    the start, and a node that has been freed is a fault. *)

From stdpp Require Import base list gmap functions.
From Stdlib Require Import ZArith Lia.
From S2P Require Import Prelude.
From S2P Require Import Bits.
From S2P Require Import Q931Defs.
From S2P Require Import Q931Tables.
From S2P Require Import Q931Sets.
From S2P Require Import Q931IE.
From S2P Require Import Q931World.
From S2P Require Import Q931Base.
From S2P Require Import Q931Wire.
From S2P Require Import Q931Decode.
From S2P Require Import Q931Ces.
From S2P Require Import Q931Call.
From S2P Require Import Q931CallRequests.
From S2P Require Import Q931Global.
From S2P Require Import Q931CallTimers.
From S2P Require Import Q931CallEstablish.
From S2P Require Import Q931CallClearing.
From S2P Require Import Q931CallStatus.
From S2P Require Import Q931CesHandlers.
Local Open Scope Z_scope.

(** ** Events of the data link *)

(** for every call and CES of the connection *)
Definition dl_for_call (d : nat) (on_ces on_call : nat → W unit) (c : nat) : W unit :=
  _ ← q931_call_get c;
  for_each_ces_safe c (λ s,
    r ← read_ces s; when (bool_decide (ces_dlc r = d)) (on_ces s)) ;;
  whenM (r ← read_call c; mret (bool_decide (call_dlc r = Some d))) (on_call c) ;;
  q931_call_put c.

Definition dl_for_each (d : nat) (on_ces on_call : nat → W unit) : W unit :=
  intf ← read_intf; forM (intf_calls intf) (dl_for_call d on_ces on_call).

(** hold and release: the autorelease timer starts if nothing holds the link *)
Definition force_autorelease (d : nat) : W unit := q931_dlc_hold d ;; q931_dlc_release d.

Definition q931_dl_establish_confirm (d : nat) : W unit :=
  report_dlc d ;;
  upd_dlc d (set_dlc_status Q931_DLC_STATUS_CONNECTED) ;;
  dl_for_each d q931_ces_dl_establish_confirm q931_call_dl_establish_confirm ;;
  q931_flush_outgoing_queue d ;;
  force_autorelease d.

Definition q931_dl_establish_indication (d : nat) : W unit :=
  report_dlc d ;;
  upd_dlc d (set_dlc_status Q931_DLC_STATUS_CONNECTED) ;;
  force_autorelease d ;;
  dl_for_each d q931_ces_dl_establish_indication q931_call_dl_establish_indication ;;
  q931_flush_outgoing_queue d.

Definition q931_dl_release_confirm (d : nat) : W unit :=
  report_dlc d ;;
  upd_dlc d (set_dlc_status Q931_DLC_STATUS_DISCONNECTED) ;;
  dl_for_each d q931_ces_dl_release_confirm q931_call_dl_release_confirm.

Definition q931_dl_release_indication (d : nat) : W unit :=
  report_dlc d ;;
  upd_dlc d (set_dlc_status Q931_DLC_STATUS_DISCONNECTED) ;;
  dl_for_each d q931_ces_dl_release_indication q931_call_dl_release_indication.

(** ** Reception *)

(** what [recvmsg] returns: a frame, or the [errno] of a primitive or an error *)
Inductive received :=
| RecvFrame (frame : list Z)
| RecvConnReset | RecvAlready | RecvNotConn | RecvIsConn
| RecvError.

Definition Q931_RECEIVE_OK := 0.
Definition EBADMSG := 74.
Definition EIO := 5.

(** the call reference of the octets [os], most significant first, and its flag *)
Definition decode_callref (os : list Z) : Z * q931_callref_flag :=
  let n := length os in
  let flag := match os with o :: _ => negb (Z.land o 0x80 =? 0) | [] => false end in
  (snd (foldl (λ '(i, acc) o,
          let val := if (i =? 0)%nat then Z.land o 0x7f else o in
          (S i, Z.lor acc (Z.shiftl val ((Z.of_nat n - Z.of_nat i - 1) * 8))))
        (O, 0) os),
   if flag then Q931_CALLREF_FLAG_TO_ORIGINATING_SIDE
   else Q931_CALLREF_FLAG_FROM_ORIGINATING_SIDE).

(** The checks of the header.  [raw] are the 512 octets of the buffer, of which
    [rawlen] have been received; [None]: the frame is ignored. *)
Definition decode_header (d : nat) (raw : list Z) (rawlen : Z) : option q931_message :=
  if rawlen <? 2 then None
  else
    let o i := nth i raw 0 in
    if negb (o 0%nat =? Q931_PROTOCOL_DISCRIMINATOR_Q931) then None
    else if negb (bits (o 1%nat) 4 4 =? 0) then None
    else
      let len := bits (o 1%nat) 0 4 in
      if 4 <? len then None
      else
        let '(callref, direction) := decode_callref (take (Z.to_nat len) (drop 2 raw)) in
        if rawlen <? 2 + len + 1 then None
        else Some {|
          msg_dlc := d;
          msg_message_type := o (2 + Z.to_nat len)%nat;
          msg_callref := callref;
          msg_callref_len := len;
          msg_callref_direction := direction;
          msg_rawies := drop (2 + Z.to_nat len + 1) raw;
          msg_rawies_len := rawlen - (2 + len + 1);
          msg_ies := [] |}.

(** no handler of a message with the dummy call reference is compiled in *)
Definition q931_dispatch_dummy_message (m : q931_message) : W unit := mret tt.

(** A call for a message to us as the originator of a call we do not know.  It
    exists to send RELEASE or RELEASE COMPLETE. *)
Definition alloc_unknown_out (d : nat) (callref : Z) : W nat :=
  c ← q931_call_alloc;
  upd_call c (set_call_direction Q931_CALL_DIRECTION_OUTBOUND) ;;
  upd_call c (set_call_call_reference callref) ;;
  intf ← read_intf; dr ← read_dlc d;
  c_assert (bool_decide (intf_role intf = LAPD_INTF_ROLE_TE) ||
            negb (dlc_tei dr =? LAPD_BROADCAST_TEI)) ;;
  let d := if dlc_tei dr =? LAPD_BROADCAST_TEI then intf_dlc else d in
  d' ← q931_dlc_get d;
  upd_call c (set_call_dlc (Some d')) ;;
  q931_dlc_hold d ;;
  c' ← q931_call_get c;
  q931_intf_add_call c' ;;
  mret c.

(** the first message of an unknown call reference; [true]: it goes on to the
    handlers *)
Definition unknown_callref (c : nat) (m : q931_message) : W bool :=
  let mt := msg_message_type m in
  if mt =? Q931_MT_RELEASE then
    report_call c ;;
    ies ← call_cause_ies c Q931_IE_C_CV_INVALID_CALL_REFERENCE_VALUE [];
    q931_call_send_release_complete c (Some ies) ;;
    q931_call_release_reference c ;;
    mret false
  else if mt =? Q931_MT_RELEASE_COMPLETE then
    report_call c ;;
    q931_call_release_reference c ;;
    mret false
  else if (mt =? Q931_MT_SETUP) || (mt =? Q931_MT_RESUME) then
    match msg_callref_direction m with
    | Q931_CALLREF_FLAG_TO_ORIGINATING_SIDE =>
        report_call c ;;
        q931_call_release_reference c ;;
        mret false
    | Q931_CALLREF_FLAG_FROM_ORIGINATING_SIDE => mret true
    end
  else if mt =? Q931_MT_STATUS then mret true
  else
    ies ← call_cause_ies c Q931_IE_C_CV_INVALID_CALL_REFERENCE_VALUE [];
    q931_call_send_release c (Some ies) ;;
    q931_call_start_timer c T308 ;;
    state ← getc c call_state;
    (if decide (state = N0_NULL_STATE) then q931_call_set_state c N19_RELEASE_REQUEST
     else q931_call_set_state c U19_RELEASE_REQUEST) ;;
    mret false.

(** The CES of the connection takes the message, [true]; a selected CES passes it
    on to the call as well.  (A CES that is selected has left the list: see
    [q931_setup_complete_request].) *)
Fixpoint ces_take_message (l : list nat) (c d : nat) (m : q931_message) : W bool :=
  match l with
  | [] => mret false
  | s :: l' =>
      r ← read_ces s;
      if decide (ces_dlc r = d) then
        selected ← getc c call_selected_ces;
        q931_ces_dispatch_message s m ;;
        mret (negb (bool_decide (selected = Some s)))
      else ces_take_message l' c d m
  end.

Definition dispatch_to_call (c d : nat) (m : q931_message) : W unit :=
  l ← getc c call_ces;
  taken ← ces_take_message l c d m;
  when (negb taken) (q931_dispatch_message c m).

(** a message whose call reference names a call *)
Definition receive_call_message (d : nat) (m : q931_message) : W unit :=
  let inbound := bool_decide (msg_callref_direction m =
                              Q931_CALLREF_FLAG_FROM_ORIGINATING_SIDE) in
  call ← q931_get_call_by_reference
           (if inbound then Q931_CALL_DIRECTION_INBOUND else Q931_CALL_DIRECTION_OUTBOUND)
           (msg_callref m);
  match call with
  | Some c => dispatch_to_call c d m ;; q931_call_put c
  | None =>
      c ← (if inbound then q931_call_alloc_in d (msg_callref m)
           else alloc_unknown_out d (msg_callref m));
      go ← unknown_callref c m;
      when go (dispatch_to_call c d m) ;;
      q931_call_put c
  end.

Definition receive_message (d : nat) (m : q931_message) : W unit :=
  if msg_callref_len m =? 0 then q931_dispatch_dummy_message m
  else if msg_callref m =? 0 then q931_dispatch_global_message m
  else receive_call_message d m.

(** the message holds a reference to the connection while it is processed *)
Definition receive_frame (d : nat) (frame : list Z) : W Z :=
  let frame := take Q931_MSG_SIZE frame in
  let raw := frame ++ replicate (Q931_MSG_SIZE - length frame) 0 in
  d ← q931_dlc_get d;
  ret ← match decode_header d raw (Z.of_nat (length frame)) with
        | None => report_dlc d ;; mret (- EBADMSG)
        | Some m => report_dlc d ;; receive_message d m ;; mret Q931_RECEIVE_OK
        end;
  report_dlc d ;;
  q931_dlc_put d ;;
  mret ret.

Definition q931_receive (d : nat) (r : received) : W Z :=
  dr ← read_dlc d;
  c_assert (dlc_intf dr) ;;
  match r with
  | RecvFrame frame => receive_frame d frame
  | RecvConnReset => q931_dl_release_indication d ;; mret Q931_RECEIVE_OK
  | RecvAlready => q931_dl_establish_indication d ;; mret Q931_RECEIVE_OK
  | RecvNotConn => q931_dl_release_confirm d ;; mret Q931_RECEIVE_OK
  | RecvIsConn => q931_dl_establish_confirm d ;; mret Q931_RECEIVE_OK
  | RecvError => report_dlc d ;; mret (- EIO)
  end.

(** ** Timers *)

Definition timer_func (t : timer_id) : W unit :=
  match t with
  | TimerCall c n => q931_call_timer_func n c
  | TimerCes s n => q931_ces_timer_func n s
  | TimerDlc d => q931_dlc_autorelease d
  | TimerGlobal GLOBAL_T316 => q931_global_timer_T316
  | TimerGlobal GLOBAL_T317 => q931_global_timer_T317
  end.

(** the expired timer leaves the list and its function runs *)
Definition fire_timer (t : timer_id) : W unit :=
  tm ← get_timer t;
  timers_del t ;;
  put_timer t {| t_pending := false; t_expires := t_expires tm |} ;;
  timer_func t.

(** One walk over the list: the first expired timer, if any, and the earliest
    expiry seen before it. *)
Fixpoint scan_timers (now : Z) (l : list timer_id) (next : option Z)
    : W (option timer_id * option Z) :=
  match l with
  | [] => mret (None, next)
  | t :: l' =>
      tm ← get_timer t;
      if t_expires tm <? now then mret (Some t, next)
      else
        let earlier := match next with None => true | Some n => t_expires tm <? n end in
        scan_timers now l'
          (if t_pending tm && earlier then Some (t_expires tm) else next)
  end.

Fixpoint run_timers_loop (fuel : nat) (now : Z) (next : option Z) : W (option Z) :=
  match fuel with
  | O => fail Diverges
  | S fuel' =>
      w ← get;
      r ← scan_timers now (w_timers w) next;
      match r with
      | (None, next) => mret next
      | (Some t, next) => fire_timer t ;; run_timers_loop fuel' now next
      end
  end.

(** the time to the next expiry, or -1 *)
Definition q931_run_timers (fuel : nat) : W Z :=
  now ← longtime_now;
  next ← run_timers_loop fuel now None;
  mret (match next with
        | None => -1
        | Some n => if n =? -1 then -1 else n - now
        end).

(** ** Primitives from the call control block *)

Inductive q931_ccb_request :=
| Q931_CCB_ALERTING_REQUEST | Q931_CCB_DISCONNECT_REQUEST | Q931_CCB_INFO_REQUEST
| Q931_CCB_MORE_INFO_REQUEST | Q931_CCB_NOTIFY_REQUEST | Q931_CCB_PROCEEDING_REQUEST
| Q931_CCB_PROGRESS_REQUEST | Q931_CCB_REJECT_REQUEST | Q931_CCB_RELEASE_REQUEST
| Q931_CCB_RESUME_REQUEST | Q931_CCB_RESUME_REJECT_REQUEST | Q931_CCB_RESUME_RESPONSE
| Q931_CCB_SETUP_COMPLETE_REQUEST | Q931_CCB_SETUP_REQUEST | Q931_CCB_SETUP_RESPONSE
| Q931_CCB_STATUS_ENQUIRY_REQUEST (ces : option nat)
| Q931_CCB_SUSPEND_REJECT_REQUEST | Q931_CCB_SUSPEND_RESPONSE | Q931_CCB_SUSPEND_REQUEST.

Definition q931_ccb_dispatch (p : q931_ccb_request) (c : nat) (ies : q931_ies) : W unit :=
  match p with
  | Q931_CCB_ALERTING_REQUEST => q931_alerting_request c (Some ies)
  | Q931_CCB_DISCONNECT_REQUEST => q931_disconnect_request c (Some ies)
  | Q931_CCB_INFO_REQUEST => q931_info_request c (Some ies)
  | Q931_CCB_MORE_INFO_REQUEST => q931_more_info_request c (Some ies)
  | Q931_CCB_NOTIFY_REQUEST => q931_notify_request c (Some ies)
  | Q931_CCB_PROCEEDING_REQUEST => q931_proceeding_request c (Some ies)
  | Q931_CCB_PROGRESS_REQUEST => q931_progress_request c (Some ies)
  | Q931_CCB_REJECT_REQUEST => q931_reject_request c (Some ies)
  | Q931_CCB_RELEASE_REQUEST => q931_release_request c (Some ies)
  | Q931_CCB_RESUME_REQUEST => q931_resume_request c (Some ies)
  | Q931_CCB_RESUME_REJECT_REQUEST => q931_resume_reject_request c (Some ies)
  | Q931_CCB_RESUME_RESPONSE => q931_resume_response c (Some ies)
  | Q931_CCB_SETUP_COMPLETE_REQUEST => q931_setup_complete_request c (Some ies)
  | Q931_CCB_SETUP_REQUEST => q931_setup_request c (Some ies)
  | Q931_CCB_SETUP_RESPONSE => q931_setup_response c (Some ies)
  | Q931_CCB_STATUS_ENQUIRY_REQUEST ces => q931_status_enquiry_request c ces (Some ies)
  | Q931_CCB_SUSPEND_REJECT_REQUEST => q931_suspend_reject_request c (Some ies)
  | Q931_CCB_SUSPEND_RESPONSE => q931_suspend_response c (Some ies)
  | Q931_CCB_SUSPEND_REQUEST => q931_suspend_request c (Some ies)
  end.

(** ** intf.c: the timers and the initial state of an interface *)

Definition seconds (n : Z) : Z := n * 1000000.

(** the durations that are not assigned are 0 *)
Definition nt_timers (t : call_timer) : Z :=
  match t with
  | T301 => seconds 180 | T302 => seconds 12 | T303 => seconds 4 | T304 => seconds 20
  | T305 => seconds 30 | T306 => seconds 30 | T308 => seconds 4 | T309 => seconds 6
  | T310 => seconds 35 | T312 => seconds 4 + seconds 2 | T314 => seconds 4
  | T316 => seconds 120 | T320 => seconds 30 | T321 => seconds 30 | T322 => seconds 4
  | T313 | T318 | T319 => 0
  end.

Definition te_timers (t : call_timer) : Z :=
  match t with
  | T301 => seconds 180 | T302 => seconds 6 | T303 => seconds 5 | T304 => seconds 999
  | T305 => seconds 30 | T308 => seconds 4 | T309 => seconds 6 | T310 => seconds 40
  | T313 => seconds 4 | T314 => seconds 4 | T316 => seconds 120 | T318 => seconds 4
  | T319 => seconds 4 | T321 => seconds 30 | T322 => seconds 4
  | T306 | T312 | T320 => 0
  end.

Definition n_channels_of (type : lapd_intf_type) : nat :=
  match type with LAPD_INTF_TYPE_BRA => 2 | LAPD_INTF_TYPE_PRA => 30 end.
Definition call_reference_len_of (type : lapd_intf_type) : Z :=
  match type with LAPD_INTF_TYPE_BRA => 1 | LAPD_INTF_TYPE_PRA => 2 end.

(** an element of [intf->channels] no code has initialised *)
Definition zero_channel : q931_channel :=
  {| ch_id := 0; ch_state := Q931_CHANSTATE_MAINTAINANCE; ch_call := None;
     ch_intf := false |}.

(** The interface [q931_intf_open] makes when the kernel grants the sockets:
    [type], [mode] and [role] are the options it reads from them, [rand] the
    random number, [net] the network role the application sets. *)
Definition new_interface (type : lapd_intf_type) (mode : lapd_intf_mode)
    (role : lapd_intf_role) (net : q931_interface_network_role) (rand : Z)
    : q931_interface := {|
  intf_type := type; intf_mode := mode; intf_role := role; intf_network_role := net;
  intf_dlc_autorelease_time := 0; intf_enable_bumping := true;
  intf_next_call_reference :=
    Z.land rand (callref_limit (call_reference_len_of type) - 2) + 1;
  intf_call_reference_len := call_reference_len_of type;
  intf_ncalls := 0; intf_calls := [];
  intf_channels := map (λ i, q931_channel_init (Z.of_nat i)) (seq 0 (n_channels_of type))
                   ++ replicate (32 - n_channels_of type) zero_channel;
  intf_n_channels := n_channels_of type;
  intf_T := match role with LAPD_INTF_ROLE_NT => nt_timers
                          | LAPD_INTF_ROLE_TE => te_timers end;
  intf_T317 := seconds 60;
  intf_dlcs := [] |}.

(** a network side without a point-to-point link has no connection of its own *)
Definition own_dlc (mode : lapd_intf_mode) (role : lapd_intf_role) : q931_dlc :=
  q931_dlc_init
    (match mode, role with
     | LAPD_INTF_MODE_MULTIPOINT, LAPD_INTF_ROLE_NT => false
     | _, _ => true end).

Definition q931_intf_open (type : lapd_intf_type) (mode : lapd_intf_mode)
    (role : lapd_intf_role) (net : q931_interface_network_role) (rand : Z)
    (env : world_env) : q931_world := {|
  w_intf := new_interface type mode role net rand;
  w_calls := ∅; w_cess := ∅;
  w_dlcs := <[intf_dlc := own_dlc mode role]>
              (<[intf_bc_dlc := q931_broadcast_dlc_init (q931_dlc_init true)]> ∅);
  w_gc := q931_global_init; w_timers := []; w_next := 2; w_trace := []; w_env := env |}.

(** [q931_accept] *)
Definition q931_accept (tei : Z) : W nat :=
  d ← fresh;
  put_dlc d (set_dlc_tei tei (q931_dlc_init true)) ;;
  upd_intf (λ i, set_intf_dlcs (intf_dlcs i ++ [d]) i) ;;
  mret d.
