(* ===== verification/Q931Machine.v ===== *)
(** * The state machine of a call, as tables

    The abstract specification of [call.c]: for every stimulus and every state the
    states the call may go to.  A call may always stay where it is (a message may be
    refused, a channel may be missing); no other state is possible.  [Q931Refine]
    proves that the code keeps to the tables.  The states of the network side begin
    with [N], those of the user side with [U]; the numbers are those of Q.931. *)

From stdpp Require Import base list gmap relations.
From Stdlib Require Import ZArith Lia.
From S2P Require Import Prelude.
From S2P Require Import Q931Defs.
From S2P Require Import Q931World.
From S2P Require Import Q931Base.
From S2P Require Import Q931Input.
Local Open Scope Z_scope.

Notation states := (list q931_call_state).

(** ** Primitives of the call control block *)

Definition request_next (p : q931_ccb_request) (s : q931_call_state) : states :=
  match p, s with
  | Q931_CCB_ALERTING_REQUEST, (N2_OVERLAP_SENDING | N3_OUTGOING_CALL_PROCEEDING) =>
      [N4_CALL_DELIVERED]
  | Q931_CCB_ALERTING_REQUEST,
    (U6_CALL_PRESENT | U8_CONNECT_REQUEST | U9_INCOMING_CALL_PROCEEDING
    | U25_OVERLAP_RECEIVING) => [U7_CALL_RECEIVED]
  | Q931_CCB_DISCONNECT_REQUEST,
    (N2_OVERLAP_SENDING | N3_OUTGOING_CALL_PROCEEDING | N4_CALL_DELIVERED | N10_ACTIVE
    | N15_SUSPEND_REQUEST) => [N12_DISCONNECT_INDICATION]
  | Q931_CCB_DISCONNECT_REQUEST, N6_CALL_PRESENT =>
      [N22_CALL_ABORT; N12_DISCONNECT_INDICATION]
  | Q931_CCB_DISCONNECT_REQUEST,
    (N7_CALL_RECEIVED | N8_CONNECT_REQUEST | N9_INCOMING_CALL_PROCEEDING
    | N25_OVERLAP_RECEIVING) => [N22_CALL_ABORT; N0_NULL_STATE; N12_DISCONNECT_INDICATION]
  | Q931_CCB_DISCONNECT_REQUEST,
    (U1_CALL_INITIATED | U2_OVERLAP_SENDING | U3_OUTGOING_CALL_PROCEEDING
    | U4_CALL_DELIVERED | U7_CALL_RECEIVED | U8_CONNECT_REQUEST
    | U9_INCOMING_CALL_PROCEEDING | U10_ACTIVE | U25_OVERLAP_RECEIVING) =>
      [U11_DISCONNECT_REQUEST]
  | Q931_CCB_MORE_INFO_REQUEST, N1_CALL_INITIATED => [N2_OVERLAP_SENDING]
  | Q931_CCB_MORE_INFO_REQUEST, U6_CALL_PRESENT => [U25_OVERLAP_RECEIVING]
  | Q931_CCB_PROCEEDING_REQUEST, (N1_CALL_INITIATED | N2_OVERLAP_SENDING) =>
      [N3_OUTGOING_CALL_PROCEEDING]
  | Q931_CCB_PROCEEDING_REQUEST, (U6_CALL_PRESENT | U25_OVERLAP_RECEIVING) =>
      [U9_INCOMING_CALL_PROCEEDING]
  | Q931_CCB_REJECT_REQUEST, N1_CALL_INITIATED => [N0_NULL_STATE]
  | Q931_CCB_REJECT_REQUEST, U6_CALL_PRESENT => [U0_NULL_STATE]
  | Q931_CCB_RELEASE_REQUEST, N11_DISCONNECT_REQUEST => [N19_RELEASE_REQUEST]
  | Q931_CCB_RELEASE_REQUEST, U12_DISCONNECT_INDICATION => [U19_RELEASE_REQUEST]
  | Q931_CCB_RESUME_REQUEST, U0_NULL_STATE => [U17_RESUME_REQUEST]
  | Q931_CCB_RESUME_REJECT_REQUEST, N17_RESUME_REQUEST => [N0_NULL_STATE]
  | Q931_CCB_RESUME_RESPONSE, N17_RESUME_REQUEST => [N10_ACTIVE]
  | Q931_CCB_SETUP_COMPLETE_REQUEST, N8_CONNECT_REQUEST => [N10_ACTIVE]
  | Q931_CCB_SETUP_REQUEST, N0_NULL_STATE => [N6_CALL_PRESENT]
  | Q931_CCB_SETUP_REQUEST, U0_NULL_STATE => [U1_CALL_INITIATED]
  | Q931_CCB_SETUP_RESPONSE,
    (N2_OVERLAP_SENDING | N3_OUTGOING_CALL_PROCEEDING | N4_CALL_DELIVERED) => [N10_ACTIVE]
  | Q931_CCB_SETUP_RESPONSE,
    (U6_CALL_PRESENT | U7_CALL_RECEIVED | U9_INCOMING_CALL_PROCEEDING
    | U25_OVERLAP_RECEIVING) => [U8_CONNECT_REQUEST]
  | Q931_CCB_SUSPEND_REJECT_REQUEST, N15_SUSPEND_REQUEST => [N10_ACTIVE]
  | Q931_CCB_SUSPEND_RESPONSE, N15_SUSPEND_REQUEST => [N0_NULL_STATE]
  | Q931_CCB_SUSPEND_REQUEST, U10_ACTIVE => [U15_SUSPEND_REQUEST]
  | _, _ => []
  end.

(** ** Messages of the peer *)

(** a message the state does not expect: the null state of the user side goes to a
    state of the network side, a slip of the code *)
Definition unexpected_next (s : q931_call_state) : states :=
  match s with U0_NULL_STATE => [N19_RELEASE_REQUEST] | _ => [] end.

Definition alerting_next (s : q931_call_state) : states :=
  match s with
  | N6_CALL_PRESENT => [N7_CALL_RECEIVED; N19_RELEASE_REQUEST]
  | N9_INCOMING_CALL_PROCEEDING | N25_OVERLAP_RECEIVING => [N7_CALL_RECEIVED]
  | U2_OVERLAP_SENDING | U3_OUTGOING_CALL_PROCEEDING => [U4_CALL_DELIVERED]
  | _ => unexpected_next s
  end.
Definition call_proceeding_next (s : q931_call_state) : states :=
  match s with
  | N6_CALL_PRESENT => [N9_INCOMING_CALL_PROCEEDING; N19_RELEASE_REQUEST]
  | N25_OVERLAP_RECEIVING => [N9_INCOMING_CALL_PROCEEDING]
  | U1_CALL_INITIATED | U2_OVERLAP_SENDING => [U3_OUTGOING_CALL_PROCEEDING]
  | _ => unexpected_next s
  end.
Definition connect_next (s : q931_call_state) : states :=
  match s with
  | N6_CALL_PRESENT => [N8_CONNECT_REQUEST; N19_RELEASE_REQUEST]
  | N7_CALL_RECEIVED | N9_INCOMING_CALL_PROCEEDING | N25_OVERLAP_RECEIVING =>
      [N8_CONNECT_REQUEST]
  | U2_OVERLAP_SENDING | U3_OUTGOING_CALL_PROCEEDING | U4_CALL_DELIVERED => [U10_ACTIVE]
  | _ => unexpected_next s
  end.
Definition connect_acknowledge_next (s : q931_call_state) : states :=
  match s with U8_CONNECT_REQUEST => [U10_ACTIVE] | _ => unexpected_next s end.
Definition setup_next (s : q931_call_state) : states :=
  match s with
  | N0_NULL_STATE => [N1_CALL_INITIATED]
  | U0_NULL_STATE => [U6_CALL_PRESENT]
  | _ => []
  end.
Definition setup_acknowledge_next (s : q931_call_state) : states :=
  match s with
  | N6_CALL_PRESENT => [N25_OVERLAP_RECEIVING; N19_RELEASE_REQUEST]
  | U1_CALL_INITIATED => [U2_OVERLAP_SENDING]
  | _ => unexpected_next s
  end.
Definition disconnect_next (s : q931_call_state) : states :=
  match s with
  | N1_CALL_INITIATED | N2_OVERLAP_SENDING | N3_OUTGOING_CALL_PROCEEDING
  | N4_CALL_DELIVERED | N7_CALL_RECEIVED | N8_CONNECT_REQUEST
  | N9_INCOMING_CALL_PROCEEDING | N10_ACTIVE | N17_RESUME_REQUEST
  | N25_OVERLAP_RECEIVING => [N11_DISCONNECT_REQUEST]
  | N12_DISCONNECT_INDICATION => [N19_RELEASE_REQUEST]
  | U2_OVERLAP_SENDING | U3_OUTGOING_CALL_PROCEEDING | U4_CALL_DELIVERED | U6_CALL_PRESENT
  | U7_CALL_RECEIVED | U8_CONNECT_REQUEST | U9_INCOMING_CALL_PROCEEDING | U10_ACTIVE
  | U15_SUSPEND_REQUEST | U25_OVERLAP_RECEIVING => [U12_DISCONNECT_INDICATION]
  | U11_DISCONNECT_REQUEST | U17_RESUME_REQUEST => [U19_RELEASE_REQUEST]
  | _ => unexpected_next s
  end.

Definition network_side (s : q931_call_state) : bool :=
  16 <=? q931_call_state_int s.

(** RELEASE and RELEASE COMPLETE end the call in all states but few *)
Definition release_next (s : q931_call_state) : states :=
  match s with
  | N15_SUSPEND_REQUEST | N17_RESUME_REQUEST | N22_CALL_ABORT => []
  | _ => if network_side s then [N0_NULL_STATE] else [U0_NULL_STATE]
  end.
Definition release_complete_next (s : q931_call_state) : states := release_next s.

(** STATUS with a state that does not fit, or with the null state *)
Definition status_next (s : q931_call_state) : states :=
  match s with
  | N0_NULL_STATE => [N19_RELEASE_REQUEST]
  | U0_NULL_STATE => [U19_RELEASE_REQUEST]
  | N19_RELEASE_REQUEST => [N0_NULL_STATE]
  | U19_RELEASE_REQUEST => [U0_NULL_STATE]
  | _ => N0_NULL_STATE ::
         (if network_side s then [N19_RELEASE_REQUEST] else [U19_RELEASE_REQUEST])
  end.
Definition resume_next (s : q931_call_state) : states :=
  match s with
  | N0_NULL_STATE => [N17_RESUME_REQUEST; N19_RELEASE_REQUEST]
  | _ => unexpected_next s
  end.
Definition resume_acknowledge_next (s : q931_call_state) : states :=
  match s with U17_RESUME_REQUEST => [U10_ACTIVE] | _ => unexpected_next s end.
Definition resume_reject_next (s : q931_call_state) : states :=
  match s with U17_RESUME_REQUEST => [U0_NULL_STATE] | _ => unexpected_next s end.
Definition suspend_next (s : q931_call_state) : states :=
  match s with N10_ACTIVE => [N15_SUSPEND_REQUEST] | _ => unexpected_next s end.
Definition suspend_acknowledge_next (s : q931_call_state) : states :=
  match s with U15_SUSPEND_REQUEST => [U0_NULL_STATE] | _ => unexpected_next s end.
Definition suspend_reject_next (s : q931_call_state) : states :=
  match s with U15_SUSPEND_REQUEST => [U10_ACTIVE] | _ => unexpected_next s end.
(** a message type of no handler *)
Definition unrecognized_next (s : q931_call_state) : states :=
  match s with
  | N0_NULL_STATE => [N19_RELEASE_REQUEST]
  | U0_NULL_STATE => [U19_RELEASE_REQUEST]
  | _ => []
  end.

Definition message_next (mt : Z) : q931_call_state → states :=
  if mt =? Q931_MT_ALERTING then alerting_next
  else if mt =? Q931_MT_CALL_PROCEEDING then call_proceeding_next
  else if mt =? Q931_MT_CONNECT then connect_next
  else if mt =? Q931_MT_CONNECT_ACKNOWLEDGE then connect_acknowledge_next
  else if mt =? Q931_MT_PROGRESS then unexpected_next
  else if mt =? Q931_MT_SETUP then setup_next
  else if mt =? Q931_MT_SETUP_ACKNOWLEDGE then setup_acknowledge_next
  else if mt =? Q931_MT_DISCONNECT then disconnect_next
  else if mt =? Q931_MT_RELEASE then release_next
  else if mt =? Q931_MT_RELEASE_COMPLETE then release_complete_next
  else if mt =? Q931_MT_STATUS then status_next
  else if mt =? Q931_MT_STATUS_ENQUIRY then λ _, []
  else if mt =? Q931_MT_INFORMATION then unexpected_next
  else if mt =? Q931_MT_NOTIFY then λ _, []
  else if mt =? Q931_MT_RESUME then resume_next
  else if mt =? Q931_MT_RESUME_ACKNOWLEDGE then resume_acknowledge_next
  else if mt =? Q931_MT_RESUME_REJECT then resume_reject_next
  else if mt =? Q931_MT_SUSPEND then suspend_next
  else if mt =? Q931_MT_SUSPEND_ACKNOWLEDGE then suspend_acknowledge_next
  else if mt =? Q931_MT_SUSPEND_REJECT then suspend_reject_next
  else unrecognized_next.

(** ** Timers *)

Definition timer_next (t : call_timer) (s : q931_call_state) : states :=
  match t, s with
  | T301, N7_CALL_RECEIVED | T304, N25_OVERLAP_RECEIVING
  | T310, N9_INCOMING_CALL_PROCEEDING =>
      [N22_CALL_ABORT; N0_NULL_STATE; N12_DISCONNECT_INDICATION]
  | T303, N6_CALL_PRESENT => [N22_CALL_ABORT; N12_DISCONNECT_INDICATION]
  | T303, U1_CALL_INITIATED => [U0_NULL_STATE]
  | T304, U2_OVERLAP_SENDING | T313, U8_CONNECT_REQUEST => [U11_DISCONNECT_REQUEST]
  | T305, N12_DISCONNECT_INDICATION | T306, N12_DISCONNECT_INDICATION =>
      [N19_RELEASE_REQUEST]
  | T305, U11_DISCONNECT_REQUEST | T318, U17_RESUME_REQUEST => [U19_RELEASE_REQUEST]
  | T308, N19_RELEASE_REQUEST | T309, N10_ACTIVE => [N0_NULL_STATE]
  | T308, U19_RELEASE_REQUEST | T309, U10_ACTIVE => [U0_NULL_STATE]
  | T312, (N7_CALL_RECEIVED | N9_INCOMING_CALL_PROCEEDING | N22_CALL_ABORT
          | N25_OVERLAP_RECEIVING) => [N0_NULL_STATE]
  | T319, N15_SUSPEND_REQUEST => [U10_ACTIVE]
  | T322, (N0_NULL_STATE | U0_NULL_STATE) => []
  | T322, _ => [N19_RELEASE_REQUEST]
  | _, _ => []
  end.

(** ** The data link, the restart procedure and the terminals of a bus *)

Definition link_up_next (s : q931_call_state) : states :=
  match s with
  | N2_OVERLAP_SENDING | N25_OVERLAP_RECEIVING => [N12_DISCONNECT_INDICATION]
  | U2_OVERLAP_SENDING | U25_OVERLAP_RECEIVING => [U11_DISCONNECT_REQUEST]
  | _ => []
  end.

(** the second loss of the link of an active call of the user side leads to the null
    state of the network side, another slip *)
Definition link_lost_next (s : q931_call_state) : states :=
  match s with
  | U10_ACTIVE => [N0_NULL_STATE]
  | _ => if network_side s then [N0_NULL_STATE] else [U0_NULL_STATE]
  end.

Definition restart_next (s : q931_call_state) : states :=
  if network_side s then [N0_NULL_STATE] else [U0_NULL_STATE].

Inductive terminal_event : Set :=
| TerminalAlerting | TerminalConnect | TerminalProceeding | TerminalRelease
| TerminalReleaseComplete | TerminalInfo | TerminalProgress.

Definition terminal_next (i : terminal_event) (s : q931_call_state) : states :=
  match i, s with
  | TerminalAlerting, (N9_INCOMING_CALL_PROCEEDING | N25_OVERLAP_RECEIVING) =>
      [N7_CALL_RECEIVED]
  | TerminalConnect,
    (N7_CALL_RECEIVED | N9_INCOMING_CALL_PROCEEDING | N25_OVERLAP_RECEIVING) =>
      [N8_CONNECT_REQUEST]
  | TerminalProceeding, N25_OVERLAP_RECEIVING => [N9_INCOMING_CALL_PROCEEDING]
  | TerminalReleaseComplete, N22_CALL_ABORT => [N0_NULL_STATE]
  | TerminalRelease,
    (N7_CALL_RECEIVED | N9_INCOMING_CALL_PROCEEDING | N25_OVERLAP_RECEIVING) =>
      [N0_NULL_STATE]
  | TerminalRelease, N8_CONNECT_REQUEST => [N22_CALL_ABORT; N0_NULL_STATE]
  | _, _ => []
  end.

(** the first message of a call reference nobody knows *)
Definition unknown_next (s : q931_call_state) : states :=
  match s with
  | N0_NULL_STATE => [N19_RELEASE_REQUEST]
  | U0_NULL_STATE => [U19_RELEASE_REQUEST]
  | _ => []
  end.

(** ** The machine *)

Inductive stimulus : Set :=
| Request (p : q931_ccb_request)
| Message (mt : Z)
| Expiry (t : call_timer)
| LinkUp
| LinkLost
| Restarted
| Terminal (i : terminal_event)
| Unknown.

Definition next (x : stimulus) : q931_call_state → states :=
  match x with
  | Request p => request_next p
  | Message mt => message_next mt
  | Expiry t => timer_next t
  | LinkUp => link_up_next
  | LinkLost => link_lost_next
  | Restarted => restart_next
  | Terminal i => terminal_next i
  | Unknown => unknown_next
  end.

(** one step of a call *)
Definition call_step (s s' : q931_call_state) : Prop := ∃ x, s' ∈ next x s.

(** ** Clearing

    Once the clearing of a call has begun only clearing goes on. *)

Definition clearing (s : q931_call_state) : bool :=
  match s with
  | N11_DISCONNECT_REQUEST | N12_DISCONNECT_INDICATION | N19_RELEASE_REQUEST
  | N22_CALL_ABORT | U11_DISCONNECT_REQUEST | U12_DISCONNECT_INDICATION
  | U19_RELEASE_REQUEST => true
  | _ => false
  end.
Definition is_null (s : q931_call_state) : bool :=
  match s with N0_NULL_STATE | U0_NULL_STATE => true | _ => false end.

(** a table by cases on the state *)
Ltac each_state := match goal with s : q931_call_state |- _ => destruct s end.

Definition clears (l : states) : bool := forallb (λ s, clearing s || is_null s) l.

Lemma message_next_clears mt s : clearing s = true → clears (message_next mt s) = true.
Proof. intros Hs. unfold message_next. repeat case_match; each_state; done. Qed.

Lemma next_clears x s : clearing s = true → clears (next x s) = true.
Proof.
  intros Hs. destruct x as [p|mt|t| | | |i|]; cbn [next];
    [destruct p|by apply message_next_clears|destruct t| | | |destruct i|];
    each_state; done.
Qed.

Lemma call_step_clearing s s' :
  call_step s s' → clearing s = true → clearing s' = true ∨ is_null s' = true.
Proof.
  intros [x Hx] Hs. pose proof (next_clears x s Hs) as Hc. unfold clears in Hc.
  rewrite forallb_forall in Hc. specialize (Hc s').
  rewrite orb_true_iff in Hc. apply Hc. by apply list_elem_of_In.
Qed.
