(* ===== verification/Q931Core.v ===== *)
(** * Operations that leave calls, CES and their timers alone

    [core_le w w']: from [w] to [w'] no call, no CES and no pending timer of a call
    has changed and the interface keeps its identity; connections, channels, the
    global call and the trace may have.  Sending a message, for instance, is such
    an operation. *)

From stdpp Require Import base list gmap functions.
From Stdlib Require Import ZArith Lia.
From S2P Require Import Prelude.
From S2P Require Import Bits.
From S2P Require Import Q931Defs.
From S2P Require Import Q931Tables.
From S2P Require Import Q931Sets.
From S2P Require Import Q931IE.
From S2P Require Import Q931World.
From S2P Require Import Q931Base.
From S2P Require Import Q931Wire.
From S2P Require Import Q931Decode.
From S2P Require Import Q931Ces.
From S2P Require Import Q931Call.
From S2P Require Import Q931CallRequests.
From S2P Require Import Q931Global.
From S2P Require Import Q931CallTimers.
From S2P Require Import Q931CallEstablish.
From S2P Require Import Q931CallClearing.
From S2P Require Import Q931CallStatus.
From S2P Require Import Q931CesHandlers.
From S2P Require Import Q931Input.
Local Open Scope Z_scope.

(** ** The interface but for its channels and the next call reference *)

(** a valid value of [intf->next_call_reference] *)
Definition next_valid (i : q931_interface) : Prop :=
  1 ≤ intf_next_call_reference i < callref_limit (intf_call_reference_len i).

Record same_intf (i j : q931_interface) : Prop := {
  si_type : intf_type j = intf_type i;
  si_mode : intf_mode j = intf_mode i;
  si_role : intf_role j = intf_role i;
  si_len : intf_call_reference_len j = intf_call_reference_len i;
  si_calls : intf_calls j = intf_calls i;
  si_channels : length (intf_channels j) = length (intf_channels i);
  si_n_channels : intf_n_channels j = intf_n_channels i;
  si_T : intf_T j = intf_T i;
  si_next : next_valid i → next_valid j;
}.

Record core_le (w w' : q931_world) : Prop := {
  cl_calls : w_calls w' = w_calls w;
  cl_cess : w_cess w' = w_cess w;
  cl_intf : same_intf (w_intf w) (w_intf w');
  cl_next : (w_next w ≤ w_next w')%nat;
  cl_timers : ∀ c t, TimerCall c t ∈ w_timers w' ↔ TimerCall c t ∈ w_timers w;
  cl_trace : w_trace w `prefix_of` w_trace w';
  cl_env : w_env w' = w_env w;
}.

#[export] Instance same_intf_preorder : PreOrder same_intf.
Proof. split; [by constructor|]. intros i j k [] []; constructor; try congruence. auto. Qed.

#[export] Instance core_le_preorder : PreOrder core_le.
Proof.
  split; [intros w; by constructor|].
  intros u v w [] []. constructor; try congruence; try lia.
  - by etrans.
  - intros c t. rewrite cl_timers1. apply cl_timers0.
  - by etrans.
Qed.

(** ** The operations below [core_le] *)

Definition core {A} (m : W A) : Prop := ∀ w, wlp m (λ _ w', core_le w w') w.

Lemma core_bind {A B} (m : W A) (k : A → W B) :
  core m → (∀ a, core (k a)) → core (m ≫= k).
Proof.
  intros Hm Hk w. apply wlp_bind. eapply wlp_mono; [apply Hm|].
  intros a w' Hw. eapply wlp_mono; [apply Hk|]. intros b w'' Hw'. exact (transitivity Hw Hw').
Qed.
(** a computation that reads only *)
Lemma core_pure {A} (m : W A) : (∀ w, wlp m (λ _ w', w' = w) w) → core m.
Proof.
  intros Hm w. eapply wlp_mono; [apply Hm|]. intros a w' ->. reflexivity.
Qed.
Lemma core_ret {A} (a : A) : core (mret a : W A).
Proof. by apply core_pure. Qed.
Lemma core_fail {A} f : core (fail f : W A).
Proof. by intros w. Qed.
Lemma core_get : core (get : W _).
Proof. by apply core_pure. Qed.
Lemma core_lift {A} (o : outcome A) : core (lift o : W A).
Proof. apply core_pure. intros w. unfold wlp, lift. by destruct o. Qed.
Lemma core_c_assert b : core (c_assert b : W unit).
Proof. unfold c_assert. destruct b; [apply core_ret|apply core_fail]. Qed.
Lemma core_deref {A} (o : option A) : core (deref o : W A).
Proof. unfold deref. destruct o; [apply core_ret|apply core_fail]. Qed.
Lemma core_when b m : core m → core (when b m).
Proof. unfold when. destruct b; [done|intros _; apply core_ret]. Qed.
Lemma core_forM {A} (l : list A) (f : A → W unit) : (∀ x, core (f x)) → core (forM l f).
Proof.
  intros Hf. induction l; cbn [forM]; [apply core_ret|]. by apply core_bind.
Qed.

Create HintDb core.
#[export] Hint Resolve core_ret core_fail core_get core_lift core_c_assert core_deref
  : core.

(* the inline functions are [call_send] and [ces_send] with a message type *)
#[export] Hint Unfold q931_call_send_alerting q931_call_send_call_proceeding
  q931_call_send_connect q931_call_send_connect_acknowledge q931_call_send_disconnect
  q931_call_send_information q931_call_send_notify q931_call_send_progress
  q931_call_send_release q931_call_send_release_complete q931_call_send_resume
  q931_call_send_resume_acknowledge q931_call_send_resume_reject q931_call_send_setup
  q931_call_send_setup_acknowledge q931_call_send_status q931_call_send_status_enquiry
  q931_call_send_suspend q931_call_send_suspend_acknowledge q931_call_send_suspend_reject
  q931_ces_send_alerting q931_ces_send_call_proceeding q931_ces_send_connect
  q931_ces_send_connect_acknowledge q931_ces_send_information q931_ces_send_release
  q931_ces_send_release_complete q931_ces_send_setup_acknowledge q931_ces_send_status
  q931_ces_send_status_enquiry : core.

(** splits a computation into its operations *)
Ltac core_step :=
  match goal with
  | |- core (_ ≫= _) => apply core_bind; [|intros ?]
  | |- core (when _ _) => apply core_when
  | |- core (forM _ _) => apply core_forM; intros ?
  | |- core (if ?b then _ else _) => destruct b
  | |- core (match ?x with _ => _ end) => destruct x
  | |- core (ifM _ _ _) => unfold ifM
  | |- core (whenM _ _) => unfold whenM
  | _ => progress autounfold with core
  end.
Ltac solve_core := intros; repeat (solve [eauto 2 with core] || core_step).

Lemma core_read_call c : core (read_call c).
Proof. apply core_pure. intros w. unfold wlp, read_call. by destruct (w_calls w !! c). Qed.
Lemma core_read_ces s : core (read_ces s).
Proof. apply core_pure. intros w. unfold wlp, read_ces. by destruct (w_cess w !! s). Qed.
Lemma core_read_dlc d : core (read_dlc d).
Proof. apply core_pure. intros w. unfold wlp, read_dlc. by destruct (w_dlcs w !! d). Qed.
Lemma core_read_chan i : core (read_chan i).
Proof.
  apply core_pure. intros w. unfold wlp, read_chan.
  by destruct (intf_channels (w_intf w) !! i).
Qed.
Lemma core_read_intf : core read_intf.
Proof. by apply core_pure. Qed.
Lemma core_read_gc : core read_gc.
Proof. by apply core_pure. Qed.
Lemma core_read_env : core read_env.
Proof. by apply core_pure. Qed.
#[export] Hint Resolve core_read_call core_read_ces core_read_dlc core_read_chan
  core_read_intf core_read_gc core_read_env : core.

Lemma core_fresh : core fresh.
Proof. intros w. constructor; simpl; auto using Nat.le_succ_diag_r. by constructor. Qed.
Lemma core_emit ev : core (emit ev).
Proof. intros w. constructor; simpl; try done. by exists [ev]. Qed.
Lemma core_put_dlc d r : core (put_dlc d r).
Proof. intros w. by constructor. Qed.
Lemma core_put_chan i r : core (put_chan i r).
Proof. intros w. constructor; simpl; try done. constructor; simpl; try done. apply length_insert. Qed.
Lemma core_upd_gc f : core (upd_gc f).
Proof. intros w. by constructor. Qed.
(** the reference after that of [intf->next_call_reference] *)
Definition advance (i : q931_interface) : q931_interface :=
  let cr := intf_next_call_reference i in
  set_intf_next_call_reference
    (if callref_limit (intf_call_reference_len i) <=? cr + 1 then 1 else cr + 1) i.
Lemma core_advance w : core_le w (set_w_intf (advance (w_intf w)) w).
Proof.
  constructor; try done. constructor; try done. unfold next_valid. simpl.
  destruct (Z.leb_spec (callref_limit (intf_call_reference_len (w_intf w)))
    (intf_next_call_reference (w_intf w) + 1)); lia.
Qed.
#[export] Hint Resolve core_fresh core_emit core_put_dlc core_put_chan core_upd_gc : core.

Lemma core_upd_dlc d f : core (upd_dlc d f).
Proof. unfold upd_dlc. solve_core. Qed.
Lemma core_upd_chan i f : core (upd_chan i f).
Proof. unfold upd_chan. solve_core. Qed.
Lemma core_free_dlc d : core (free_dlc d).
Proof. unfold free_dlc. case_match; [apply core_fail|]. intros w. by constructor. Qed.
Lemma core_report_call c : core (report_call c).
Proof. unfold report_call. solve_core. Qed.
Lemma core_report_dlc d : core (report_dlc d).
Proof. unfold report_dlc. solve_core. Qed.
Lemma core_report_chan i : core (report_chan i).
Proof. unfold report_chan. solve_core. Qed.
#[export] Hint Resolve core_upd_dlc core_upd_chan core_free_dlc core_report_call
  core_report_dlc core_report_chan : core.
Lemma core_report_ces s : core (report_ces s).
Proof. unfold report_ces. solve_core. Qed.
#[export] Hint Resolve core_report_ces : core.

(** ** Timers of connections and of the global call *)

Definition link_timer (t : timer_id) : bool :=
  match t with TimerDlc _ | TimerGlobal _ => true | _ => false end.

Lemma core_get_timer t : core (get_timer t).
Proof. destruct t; unfold get_timer; solve_core. Qed.
#[export] Hint Resolve core_get_timer : core.
Lemma core_put_timer t tm : link_timer t = true → core (put_timer t tm).
Proof. destruct t; try done; unfold put_timer; solve_core. Qed.
Lemma core_timers_add t : link_timer t = true → core (timers_add_tail t).
Proof.
  intros Ht w. constructor; simpl; try done. intros c u.
  rewrite elem_of_app, list_elem_of_singleton. destruct t; naive_solver.
Qed.
Lemma core_timers_del t : link_timer t = true → core (timers_del t).
Proof.
  intros Ht w. constructor; simpl; try done. intros c u.
  rewrite list_elem_of_filter. destruct t; naive_solver.
Qed.
#[export] Hint Resolve core_put_timer core_timers_add core_timers_del : core.
Lemma core_longtime_now : core longtime_now.
Proof. by apply core_pure. Qed.
#[export] Hint Resolve core_longtime_now : core.
Lemma core_start_timer t x : link_timer t = true → core (q931_start_timer t x).
Proof. unfold q931_start_timer. solve_core. Qed.
Lemma core_stop_timer t : link_timer t = true → core (q931_stop_timer t).
Proof. unfold q931_stop_timer. solve_core. Qed.
#[export] Hint Resolve core_start_timer core_stop_timer : core.
Lemma core_start_timer_delta t x : link_timer t = true → core (q931_start_timer_delta t x).
Proof. unfold q931_start_timer_delta. solve_core. Qed.
#[export] Hint Resolve core_start_timer_delta : core.
Lemma core_timer_pending t : core (q931_timer_pending t).
Proof. unfold q931_timer_pending. solve_core. Qed.
#[export] Hint Resolve core_timer_pending : core.

(** ** Connections and channels *)

Lemma core_dlc_hold d : core (q931_dlc_hold d).
Proof. unfold q931_dlc_hold. solve_core. Qed.
Lemma core_dlc_release d : core (q931_dlc_release d).
Proof. unfold q931_dlc_release. solve_core. Qed.
Lemma core_dlc_get d : core (q931_dlc_get d).
Proof. unfold q931_dlc_get. solve_core. Qed.
Lemma core_dlc_put d : core (q931_dlc_put d).
Proof. unfold q931_dlc_put. solve_core. Qed.
Lemma core_dlc_autorelease d : core (q931_dlc_autorelease d).
Proof. unfold q931_dlc_autorelease. solve_core. Qed.
Lemma core_queue_primitive c p ies : core (q931_queue_primitive c p ies).
Proof. apply core_emit. Qed.
Lemma core_call_primitive c p ies : core (q931_call_primitive c p ies).
Proof. apply core_emit. Qed.
#[export] Hint Resolve core_dlc_hold core_dlc_release core_dlc_get core_dlc_put
  core_dlc_autorelease core_queue_primitive core_call_primitive : core.

Lemma core_channel_set_state i s : core (q931_channel_set_state i s).
Proof. unfold q931_channel_set_state. solve_core. Qed.
#[export] Hint Resolve core_channel_set_state : core.
Lemma core_channel_connect o : core (q931_channel_connect o).
Proof. unfold q931_channel_connect. solve_core. Qed.
Lemma core_channel_disconnect o : core (q931_channel_disconnect o).
Proof. unfold q931_channel_disconnect. solve_core. Qed.
Lemma core_channel_start_tone o t : core (q931_channel_start_tone o t).
Proof. unfold q931_channel_start_tone. solve_core. Qed.
Lemma core_channel_stop_tone o : core (q931_channel_stop_tone o).
Proof. unfold q931_channel_stop_tone. solve_core. Qed.
#[export] Hint Resolve core_channel_connect core_channel_disconnect core_channel_start_tone
  core_channel_stop_tone : core.
Lemma core_channel_control o : core (q931_channel_control o).
Proof. apply core_channel_connect. Qed.
#[export] Hint Resolve core_channel_control : core.

(** ** Sending, decoding and the global call are below [core_le]

    None of the messages the library sends, none of its complaints about a
    received message and no operation of the global call changes a call, a CES or
    one of their timers. *)

(** ** Output *)

Lemma core_callref_in_use l cr : core (callref_in_use l cr).
Proof. induction l; cbn [callref_in_use]; solve_core. Qed.
#[export] Hint Resolve core_callref_in_use : core.
Lemma core_find_free_loop n : core (find_free_loop n).
Proof.
  induction n; cbn [find_free_loop]; [apply core_fail|]. intros w. apply wlp_bind.
  unfold read_intf, wlp at 1. apply wlp_bind. unfold upd_intf, modify, wlp at 1.
  eapply wlp_mono; [|intros a w' Hw'; exact (transitivity (core_advance w) Hw')].
  apply core_bind; [apply core_callref_in_use|]. intros []; solve_core.
Qed.
#[export] Hint Resolve core_find_free_loop : core.
Lemma core_find_free : core q931_intf_find_free_call_reference.
Proof. unfold q931_intf_find_free_call_reference. solve_core. Qed.
#[export] Hint Resolve core_find_free : core.

Lemma core_prepare_header c mt : core (q931_prepare_header c mt).
Proof. unfold q931_prepare_header. solve_core. Qed.
Lemma core_global_prepare_header mt : core (q931_global_prepare_header mt).
Proof. unfold q931_global_prepare_header. solve_core. Qed.
Lemma core_send_frame d f : core (q931_send_frame d f).
Proof. unfold q931_send_frame. solve_core. Qed.
Lemma core_send_frame_bc d f : core (q931_send_frame_bc d f).
Proof. unfold q931_send_frame_bc. solve_core. Qed.
#[export] Hint Resolve core_prepare_header core_global_prepare_header core_send_frame
  core_send_frame_bc : core.
Lemma core_flush_loop d q : core (flush_loop d q).
Proof. induction q; cbn [flush_loop]; solve_core. Qed.
#[export] Hint Resolve core_flush_loop : core.
Lemma core_flush d : core (q931_flush_outgoing_queue d).
Proof. unfold q931_flush_outgoing_queue. solve_core. Qed.
#[export] Hint Resolve core_flush : core.
Lemma core_send_message o d mt ies : core (q931_send_message o d mt ies).
Proof. unfold q931_send_message. solve_core. Qed.
#[export] Hint Resolve core_send_message : core.
Lemma core_call_send_message c d mt ies : core (q931_call_send_message c d mt ies).
Proof. unfold q931_call_send_message. solve_core. Qed.
Lemma core_global_send_message d mt ies : core (q931_global_send_message d mt ies).
Proof. unfold q931_global_send_message. solve_core. Qed.
Lemma core_call_send_message_bc c d mt ies : core (q931_call_send_message_bc c d mt ies).
Proof. unfold q931_call_send_message_bc. solve_core. Qed.
#[export] Hint Resolve core_call_send_message core_global_send_message
  core_call_send_message_bc : core.
Lemma core_call_send c mt ies : core (call_send c mt ies).
Proof. unfold call_send. solve_core. Qed.
Lemma core_ces_send s mt ies : core (ces_send s mt ies).
Proof. unfold ces_send. solve_core. Qed.
Lemma core_send_setup_bc c ies : core (q931_call_send_setup_bc c ies).
Proof. unfold q931_call_send_setup_bc. solve_core. Qed.
#[export] Hint Resolve core_call_send core_ces_send core_send_setup_bc : core.
(** ** Decoding *)

Lemma core_getc {A} c (f : q931_call → A) : core (getc c f).
Proof. unfold getc. solve_core. Qed.
Lemma core_cause_location c : core (cause_location_call c).
Proof. unfold cause_location_call. solve_core. Qed.
#[export] Hint Resolve @core_getc core_cause_location : core.
Lemma core_call_cause_ies c v l : core (call_cause_ies c v l).
Proof. unfold call_cause_ies. solve_core. Qed.
#[export] Hint Resolve core_call_cause_ies : core.
Lemma core_decode_complaint c mt v l : core (decode_complaint c mt v l).
Proof. unfold decode_complaint. solve_core. Qed.
Lemma core_complain_if l m : core m → core (complain_if l m).
Proof. unfold complain_if. solve_core. Qed.
#[export] Hint Resolve core_decode_complaint core_complain_if : core.
Lemma core_call_decode_ies c m : core (q931_call_decode_ies c m).
Proof.
  unfold q931_call_decode_ies. solve_core.
  all: apply core_complain_if; solve_core.
Qed.
Lemma core_gc_decode_ies m : core (q931_gc_decode_ies m).
Proof. unfold q931_gc_decode_ies. solve_core. Qed.
#[export] Hint Resolve core_call_decode_ies core_gc_decode_ies : core.

(** ** Elements, status and channels of a call *)

Lemma core_add_cause c v l ies : core (add_cause c v l ies).
Proof. unfold add_cause. solve_core. Qed.
Lemma core_add_in_band_pi c ies : core (add_in_band_pi c ies).
Proof. unfold add_in_band_pi, call_progress_location. solve_core. Qed.
Lemma core_add_call_channel c p ies : core (add_call_channel c p ies).
Proof. unfold add_call_channel. solve_core. Qed.
Lemma core_new_datetime : core new_datetime.
Proof. by apply core_pure. Qed.
Lemma core_status_with_state c ies s : core (q931_call_send_call_status_with_state c ies s).
Proof. unfold q931_call_send_call_status_with_state. solve_core. Qed.
#[export] Hint Resolve core_add_cause core_add_in_band_pi core_add_call_channel
  core_new_datetime core_status_with_state : core.
Lemma core_call_status c ies : core (q931_call_send_call_status c ies).
Proof. unfold q931_call_send_call_status. solve_core. Qed.
Lemma core_unexpected_primitive c : core (q931_call_unexpected_primitive c).
Proof. apply core_report_call. Qed.
Lemma core_unexpected_timer c : core (q931_call_unexpected_timer c).
Proof. apply core_report_call. Qed.
Lemma core_chan_available i : core (chan_available i).
Proof. unfold chan_available. solve_core. Qed.
#[export] Hint Resolve core_call_status core_unexpected_primitive core_unexpected_timer
  core_chan_available : core.
Lemma core_select_first l n : core (select_first_available l n).
Proof. induction l; cbn [select_first_available]; solve_core. Qed.
Lemma core_first_available i n : core (first_available i n).
Proof. revert i. induction n; intros i; cbn [first_available]; solve_core. Qed.
#[export] Hint Resolve core_select_first core_first_available : core.
Lemma core_select_setup c ies : core (q931_channel_select_setup c ies).
Proof.
  unfold q931_channel_select_setup. solve_core.
  match goal with |- core (_ ?l) => induction l end; solve_core.
Qed.
Lemma core_on_channel c f : (∀ o, core (f o)) → core (on_channel c f).
Proof. unfold on_channel. solve_core. Qed.
Lemma core_ies_with_channel c ies p : core (ies_with_channel c ies p).
Proof. unfold ies_with_channel. solve_core. Qed.
Lemma core_timer_cause c a b : core (timer_cause c a b).
Proof. unfold timer_cause. solve_core. Qed.
Lemma core_timer_running c t : core (q931_call_timer_running c t).
Proof. unfold q931_call_timer_running. solve_core. Qed.
#[export] Hint Resolve core_select_setup core_on_channel core_ies_with_channel
  core_timer_cause core_timer_running : core.

(** ** The global call *)

Lemma core_getg {A} (f : q931_global_call → A) : core (getg f).
Proof. unfold getg. solve_core. Qed.
Lemma core_global_primitive p : core (q931_global_primitive p).
Proof. unfold q931_global_primitive. solve_core. Qed.
#[export] Hint Resolve @core_getg core_global_primitive : core.
Lemma core_global_start_timer t : core (q931_global_start_timer t).
Proof. unfold q931_global_start_timer. solve_core. Qed.
Lemma core_global_stop_timer t : core (q931_global_stop_timer t).
Proof. unfold q931_global_stop_timer. solve_core. Qed.
Lemma core_global_timer_running t : core (q931_global_timer_running t).
Proof. unfold q931_global_timer_running. solve_core. Qed.
#[export] Hint Resolve core_global_start_timer core_global_stop_timer
  core_global_timer_running : core.
Lemma core_global_set_state s : core (q931_global_set_state s).
Proof. apply core_upd_gc. Qed.
Lemma core_global_cause_ies v : core (global_cause_ies v).
Proof. unfold global_cause_ies. solve_core. Qed.
Lemma core_restart_ies x l o : core o → core (restart_ies x l o).
Proof. unfold restart_ies. solve_core. Qed.
Lemma core_restart_move o : core (restart_move_channel o).
Proof. unfold restart_move_channel. solve_core. Qed.
Lemma core_restart_intersect : core restart_intersect.
Proof. unfold restart_intersect. solve_core. Qed.
#[export] Hint Resolve core_global_set_state core_global_cause_ies core_restart_ies
  core_restart_move core_restart_intersect : core.
Lemma core_management_restart d l ies : core (q931_management_restart_request d l ies).
Proof.
  unfold q931_management_restart_request. solve_core. apply core_restart_ies. solve_core.
Qed.
Lemma core_restart_confirm d ch : core (q931_global_restart_confirm d ch).
Proof.
  unfold q931_global_restart_confirm. solve_core. apply core_restart_ies. solve_core.
Qed.
Lemma core_global_status m : core (q931_global_handle_status m).
Proof. unfold q931_global_handle_status. solve_core. Qed.
Lemma core_is_restartable i : core (q931_channel_is_restartable i).
Proof. unfold q931_channel_is_restartable. solve_core. Qed.
Lemma core_global_send_status d v : core (global_send_status d v).
Proof. unfold global_send_status. solve_core. Qed.
#[export] Hint Resolve core_management_restart core_restart_confirm core_global_status
  core_is_restartable core_global_send_status : core.
Lemma core_restart_add_channels l : core (restart_add_channels l).
Proof. unfold restart_add_channels. solve_core. Qed.
#[export] Hint Resolve core_restart_add_channels : core.
Lemma core_restart_take_ies l : core (restart_take_ies l).
Proof. unfold restart_take_ies. solve_core. Qed.
#[export] Hint Resolve core_restart_take_ies : core.
Lemma core_restart_acknowledge m : core (q931_global_handle_restart_acknowledge m).
Proof. unfold q931_global_handle_restart_acknowledge. solve_core. Qed.
Lemma core_global_T316 : core q931_global_timer_T316.
Proof. unfold q931_global_timer_T316. solve_core. apply core_restart_ies. solve_core. Qed.
Lemma core_global_T317 : core q931_global_timer_T317.
Proof. unfold q931_global_timer_T317. solve_core. Qed.
#[export] Hint Resolve core_restart_acknowledge core_global_T316 core_global_T317 : core.

(** ** CES and walks that only read *)

Lemma core_ces_cause_ies s v l : core (ces_cause_ies s v l).
Proof. unfold ces_cause_ies. solve_core. Qed.
Lemma core_get_ces_call s : core (get_ces_call s).
Proof. unfold get_ces_call. solve_core. Qed.
Lemma core_get_ces_state s : core (get_ces_state s).
Proof. unfold get_ces_state. solve_core. Qed.
Lemma core_initialised {A} (o : option A) : core (initialised o).
Proof. unfold initialised. solve_core. Qed.
Lemma core_able l s : core (ces_able_to_proceed l s).
Proof. induction l; cbn [ces_able_to_proceed]; solve_core. Qed.
Lemma core_any_able l : core (any_ces_able_to_proceed l).
Proof. induction l; cbn [any_ces_able_to_proceed]; solve_core. Qed.
#[export] Hint Resolve core_ces_cause_ies core_get_ces_call core_get_ces_state
  @core_initialised core_able core_any_able : core.
Lemma core_able_to_proceed c s : core (able_to_proceed c s).
Proof. unfold able_to_proceed. solve_core. Qed.
Lemma core_ces_unexpected_primitive s : core (q931_ces_unexpected_primitive s).
Proof. apply core_report_ces. Qed.
Lemma core_ces_unexpected_timer s : core (q931_ces_unexpected_timer s).
Proof. apply core_report_ces. Qed.
Lemma core_non_selected_cause c : core (non_selected_cause c).
Proof. unfold non_selected_cause. solve_core. Qed.
Lemma core_t312_cause c : core (t312_cause c).
Proof. unfold t312_cause. solve_core. Qed.
#[export] Hint Resolve core_able_to_proceed core_ces_unexpected_primitive
  core_ces_unexpected_timer core_non_selected_cause core_t312_cause : core.
