(* ===== verification/Q931Inv.v ===== *)
(** * The reference count invariant and properties stable under the operations

    [refs_inv e w]: every call that is alive counts exactly its references: one of
    the interface's list, one of each pending timer, one of each of its CES and
    the [e c] references held outside (by the application, or by the function
    that runs); nothing refers to a call that has been freed.

    [Stable P base J]: the property [J] of worlds, whose calls have states in [P],
    is kept by every elementary change of the state the code makes.  The
    operations of the library are shown to keep [refs_inv e] together with any
    stable [J]. *)

From Stdlib Require Import ZArith Lia.
From stdpp Require Import base list gmap functions.
From S2P Require Import Prelude.
From S2P Require Import Bits.
From S2P Require Import Q931Defs.
From S2P Require Import Q931Tables.
From S2P Require Import Q931Sets.
From S2P Require Import Q931IE.
From S2P Require Import Q931World.
From S2P Require Import Q931Base.
From S2P Require Import Q931Wire.
From S2P Require Import Q931Decode.
From S2P Require Import Q931Ces.
From S2P Require Import Q931Call.
From S2P Require Import Q931Core.
Local Open Scope Z_scope.

(** the states of the network side *)
Definition is_network (s : q931_call_state) : bool :=
  match s with
  | N0_NULL_STATE | N1_CALL_INITIATED | N2_OVERLAP_SENDING | N3_OUTGOING_CALL_PROCEEDING
  | N4_CALL_DELIVERED | N6_CALL_PRESENT | N7_CALL_RECEIVED | N8_CONNECT_REQUEST
  | N9_INCOMING_CALL_PROCEEDING | N10_ACTIVE | N11_DISCONNECT_REQUEST
  | N12_DISCONNECT_INDICATION | N15_SUSPEND_REQUEST | N17_RESUME_REQUEST
  | N19_RELEASE_REQUEST | N22_CALL_ABORT | N25_OVERLAP_RECEIVING => true
  | _ => false
  end.

(** ** The invariant *)

Definition count_pending (f : call_timer → q931_timer) (l : list call_timer) : Z :=
  foldr (λ t n, Z.b2z (t_pending (f t)) + n) 0 l.
Definition pending_count (r : q931_call) : Z := count_pending (call_timers r) all_call_timers.

Lemma count_pending_cons f t l :
  count_pending f (t :: l) = Z.b2z (t_pending (f t)) + count_pending f l.
Proof. done. Qed.
Lemma count_pending_ext f g l :
  (∀ t, t_pending (f t) = t_pending (g t)) → count_pending f l = count_pending g l.
Proof.
  intros Hfg. induction l as [|t l IH]; [done|]. by rewrite !count_pending_cons, Hfg, IH.
Qed.
Lemma count_pending_nonneg f l : 0 ≤ count_pending f l.
Proof.
  induction l as [|t l IH]; [done|]. rewrite count_pending_cons.
  destruct (t_pending (f t)); simpl; lia.
Qed.
Lemma count_pending_zero f l t :
  count_pending f l = 0 → t ∈ l → t_pending (f t) = false.
Proof.
  induction l as [|u l IH]; [set_solver|]. rewrite count_pending_cons.
  pose proof (count_pending_nonneg f l).
  intros E [->|Ht]%elem_of_cons; destruct (t_pending (f u)) eqn:Eu; simpl in E;
    auto with lia.
Qed.

Definition in_list (c : nat) (w : q931_world) : Z :=
  if bool_decide (c ∈ intf_calls (w_intf w)) then 1 else 0.

Record refs_inv (e : nat → Z) (w : q931_world) : Prop := {
  ri_outside : ∀ c, 0 ≤ e c;
  ri_dead : ∀ c, w_calls w !! c = None →
    e c = 0 ∧ c ∉ intf_calls (w_intf w) ∧ ∀ t, TimerCall c t ∉ w_timers w;
  ri_count : ∀ c r, w_calls w !! c = Some r →
    call_refcnt r = e c + in_list c w + pending_count r + Z.of_nat (length (call_ces r));
  ri_alive : ∀ c r, w_calls w !! c = Some r → 0 < call_refcnt r;
  ri_pending : ∀ c r t, w_calls w !! c = Some r →
    TimerCall c t ∈ w_timers w ↔ t_pending (call_timers r t) = true;
  ri_calls : NoDup (intf_calls (w_intf w));
  ri_ces : ∀ c r s, w_calls w !! c = Some r → s ∈ call_ces r →
    ∃ q, w_cess w !! s = Some q ∧ ces_call q = c;
  ri_ces_nodup : ∀ c r, w_calls w !! c = Some r → NoDup (call_ces r);
  ri_fresh : ∀ a, (w_next w ≤ a)%nat → w_calls w !! a = None ∧ w_cess w !! a = None;
}.

Definition bump (c : nat) (e : nat → Z) : nat → Z :=
  λ x, if decide (x = c) then e x + 1 else e x.
Lemma bump_eq c e : bump c e c = e c + 1.
Proof. unfold bump. by rewrite decide_True. Qed.
Lemma bump_ne c e x : x ≠ c → bump c e x = e x.
Proof. intros. unfold bump. by rewrite decide_False. Qed.

(** taking one element out of a list without duplicates *)
Lemma filter_ne_notin (x : nat) (l : list nat) : x ∉ l → filter (λ y, y ≠ x) l = l.
Proof.
  induction l as [|y l IH]; [done|]. intros Hx. rewrite filter_cons_True by set_solver.
  f_equal. apply IH. set_solver.
Qed.
Lemma length_filter_ne (l : list nat) x :
  NoDup l → x ∈ l → length l = S (length (filter (λ y, y ≠ x) l)).
Proof.
  induction 1 as [|y l Hy Hl IH]; [set_solver|]. intros [<-|Hin]%elem_of_cons.
  - rewrite filter_cons_False by naive_solver. by rewrite filter_ne_notin.
  - rewrite filter_cons_True by (intros ->; done). simpl. f_equal. by apply IH.
Qed.

(** ** The elementary changes *)

Definition with_call (c : nat) (r : q931_call) (w : q931_world) : q931_world :=
  set_w_calls (<[c := r]> (w_calls w)) w.
Definition without_call (c : nat) (w : q931_world) : q931_world :=
  set_w_calls (delete c (w_calls w)) w.
Definition with_calls (n : Z) (l : list nat) (w : q931_world) : q931_world :=
  set_w_intf (set_intf_ncalls n (set_intf_calls l (w_intf w))) w.

(** the null state of the interface's side *)
Definition null_state (role : lapd_intf_role) : q931_call_state :=
  match role with
  | LAPD_INTF_ROLE_TE => U0_NULL_STATE
  | LAPD_INTF_ROLE_NT => N0_NULL_STATE
  end.

(** [r'] may replace [r]: unless the call is [young], which has not been added to the
    interface yet, it keeps its direction and call reference *)
Record call_law (P : q931_call_state → Prop) (young : Prop) (r r' : q931_call) : Prop := {
  law_identity : young ∨
    (call_direction r' = call_direction r ∧ call_call_reference r' = call_call_reference r);
  law_state : P (call_state r) → P (call_state r');
  law_T319 : t_pending (call_timers r' T319) = true →
    t_pending (call_timers r T319) = true ∨ P U10_ACTIVE;
}.

(** no call of the interface has the reference [cr] of direction [dir] *)
Definition unused (dir : q931_call_direction) (cr : Z) (w : q931_world) : Prop :=
  ∀ c r, c ∈ intf_calls (w_intf w) → w_calls w !! c = Some r →
    ¬ (call_direction r = dir ∧ call_call_reference r = cr).

Class Stable (P : q931_call_state → Prop) (base : nat) (J : q931_world → Prop) : Prop := {
  st_network : ∀ s, is_network s = true → P s;
  st_user : ∀ a, P a → is_network a = false → ∀ b, P b;
  st_state : ∀ w c r, J w → w_calls w !! c = Some r → P (call_state r);
  st_T319 : ∀ w c r, J w → w_calls w !! c = Some r →
    t_pending (call_timers r T319) = true → P U10_ACTIVE;
  st_base : ∀ w, J w → (base ≤ w_next w)%nat;
  st_core : ∀ w w', core_le w w' → J w → J w';
  st_del : ∀ w n c, J w → J (with_calls n (filter (λ x, x ≠ c) (intf_calls (w_intf w))) w);
  st_add : ∀ w n c r, J w → w_calls w !! c = Some r →
    unused (call_direction r) (call_call_reference r) w →
    J (with_calls n (intf_calls (w_intf w) ++ [c]) w);
  st_timers : ∀ w l, J w → J (set_w_timers l w);
  st_cess : ∀ w m, J w → J (set_w_cess m w);
  st_call : ∀ w c r r', J w → w_calls w !! c = Some r →
    call_law P ((base ≤ c)%nat ∧ c ∉ intf_calls (w_intf w)) r r' → J (with_call c r' w);
  st_free : ∀ w c, J w → J (without_call c w);
  st_new : ∀ w c, J w → w_calls w !! c = None → (base ≤ c)%nat →
    c ∉ intf_calls (w_intf w) → J (with_call c (new_call (null_state (intf_role (w_intf w)))) w);
}.

(** ** The invariant under the elementary changes *)

Lemma in_list_core w w' c : core_le w w' → in_list c w' = in_list c w.
Proof. intros Hw. unfold in_list. by rewrite (si_calls _ _ (cl_intf _ _ Hw)). Qed.

Lemma refs_core e w w' : core_le w w' → refs_inv e w → refs_inv e w'.
Proof.
  intros Hw H. constructor; try apply H.
  - intros c. rewrite (cl_calls _ _ Hw), (si_calls _ _ (cl_intf _ _ Hw)).
    intros Hc. destruct (ri_dead _ _ H c Hc) as (? & ? & ?). split_and!; try done.
    intros t. by rewrite (cl_timers _ _ Hw).
  - intros c r. rewrite (cl_calls _ _ Hw), (in_list_core _ _ _ Hw). apply H.
  - intros c r. rewrite (cl_calls _ _ Hw). apply H.
  - intros c r t. rewrite (cl_calls _ _ Hw), (cl_timers _ _ Hw). apply H.
  - rewrite (si_calls _ _ (cl_intf _ _ Hw)). apply H.
  - intros c r s. rewrite (cl_calls _ _ Hw), (cl_cess _ _ Hw). apply H.
  - intros c r. rewrite (cl_calls _ _ Hw). apply H.
  - intros a Ha. rewrite (cl_calls _ _ Hw), (cl_cess _ _ Hw). apply H.
    pose proof (cl_next _ _ Hw). lia.
Qed.

(** a change of one call and of the references outside; the other calls agree *)
Lemma refs_call e e' w c r r' :
  refs_inv e w → w_calls w !! c = Some r →
  call_ces r' = call_ces r →
  (∀ t, t_pending (call_timers r' t) = t_pending (call_timers r t)) →
  (∀ x, x ≠ c → e' x = e x) → 0 ≤ e' c →
  call_refcnt r' - e' c = call_refcnt r - e c → 0 < call_refcnt r' →
  refs_inv e' (with_call c r' w).
Proof.
  intros H Hc Hces Ht He He0 Hcnt Hpos.
  assert (Hp : pending_count r' = pending_count r).
  { by apply count_pending_ext. }
  constructor; simpl; unfold in_list; simpl.
  - intros x. destruct (decide (x = c)) as [->|]; [done|]. rewrite He by done. apply H.
  - intros x [Hx Hne]%lookup_insert_None. rewrite He by done. by apply H.
  - intros x rx [[<- <-]|[Hne Hx]]%lookup_insert_Some.
    + pose proof (ri_count _ _ H _ _ Hc) as E. unfold in_list in E. rewrite Hces, Hp. lia.
    + rewrite He by done. by apply (ri_count _ _ H).
  - intros x rx [[<- <-]|[Hne Hx]]%lookup_insert_Some; [done|by eapply (ri_alive _ _ H)].
  - intros x rx t [[<- <-]|[Hne Hx]]%lookup_insert_Some.
    + rewrite Ht. by apply (ri_pending _ _ H).
    + by apply (ri_pending _ _ H).
  - apply H.
  - intros x rx s [[<- <-]|[Hne Hx]]%lookup_insert_Some;
      [rewrite Hces; by apply (ri_ces _ _ H)|by apply (ri_ces _ _ H)].
  - intros x rx [[<- <-]|[Hne Hx]]%lookup_insert_Some;
      [rewrite Hces; by eapply (ri_ces_nodup _ _ H)|by eapply (ri_ces_nodup _ _ H)].
  - intros a Ha. destruct (ri_fresh _ _ H a Ha) as [Ha1 Ha2]. split; [|done].
    apply lookup_insert_None. split; [done|]. intros ->. congruence.
Qed.

(** the elements of [intf->calls]: taking [c] out hands its reference over *)
Lemma refs_list_del e w n c :
  refs_inv e w → c ∈ intf_calls (w_intf w) →
  refs_inv (bump c e) (with_calls n (filter (λ x, x ≠ c) (intf_calls (w_intf w))) w).
Proof.
  intros H Hc. constructor; simpl; try apply H; unfold in_list; simpl.
  - intros x. pose proof (ri_outside _ _ H x). unfold bump. case_decide; lia.
  - intros x Hx. destruct (ri_dead _ _ H x Hx) as (? & ? & ?).
    assert (x ≠ c) by (intros ->; done). rewrite bump_ne by done.
    split_and!; try done. rewrite list_elem_of_filter. naive_solver.
  - intros x r Hx. rewrite (ri_count _ _ H _ _ Hx). unfold in_list.
    destruct (decide (x = c)) as [->|Hne].
    + rewrite bump_eq, bool_decide_true, bool_decide_false by
        (rewrite ?list_elem_of_filter; naive_solver). lia.
    + rewrite bump_ne by done. do 3 f_equal.
      erewrite (bool_decide_ext (x ∈ intf_calls _)); [done|].
      rewrite list_elem_of_filter. naive_solver.
  - apply list.NoDup_filter, H.
Qed.

Lemma refs_list_add e w n c :
  refs_inv (bump c e) w → is_Some (w_calls w !! c) → 0 ≤ e c →
  c ∉ intf_calls (w_intf w) →
  refs_inv e (with_calls n (intf_calls (w_intf w) ++ [c]) w).
Proof.
  intros H [r0 Hr0] He Hc. constructor; simpl; try apply H; unfold in_list; simpl.
  - intros x. pose proof (ri_outside _ _ H x) as E. unfold bump in E. case_decide; subst; lia.
  - intros x Hx. assert (x ≠ c) by (intros ->; congruence).
    destruct (ri_dead _ _ H x Hx) as (E & ? & ?). rewrite bump_ne in E by done.
    split_and!; try done. rewrite elem_of_app, list_elem_of_singleton. naive_solver.
  - intros x r Hx. rewrite (ri_count _ _ H _ _ Hx). unfold in_list.
    destruct (decide (x = c)) as [->|Hne].
    + rewrite bump_eq, bool_decide_false, bool_decide_true; [lia|set_solver|done].
    + rewrite bump_ne by done. do 3 f_equal.
      erewrite (bool_decide_ext (x ∈ intf_calls _)); [done|]. set_solver.
  - apply list.NoDup_app. split_and!; [apply H|set_solver|apply NoDup_singleton].
Qed.

(** ** Pending timers *)

Lemma all_call_timers_full t : t ∈ all_call_timers.
Proof. destruct t; unfold all_call_timers; set_solver. Qed.
Lemma all_call_timers_nodup : NoDup all_call_timers.
Proof. apply (bool_decide_unpack _). by vm_compute. Qed.

(** the number of pending timers changes by one with the timer *)
Lemma count_pending_insert f t tm l :
  NoDup l →
  count_pending (<[t := tm]> f) l = count_pending f l +
  (if bool_decide (t ∈ l) then Z.b2z (t_pending tm) - Z.b2z (t_pending (f t)) else 0).
Proof.
  induction 1 as [|u l Hu Hl IH]; [done|]. rewrite !count_pending_cons, IH.
  destruct (decide (u = t)) as [->|Hne].
  - rewrite fn_lookup_insert, bool_decide_false, bool_decide_true by set_solver. lia.
  - rewrite fn_lookup_insert_ne by done.
    rewrite (bool_decide_ext (t ∈ u :: l) (t ∈ l)) by set_solver. lia.
Qed.

Lemma pending_count_insert r t tm :
  pending_count (set_call_timers (<[t := tm]> (call_timers r)) r) =
  pending_count r + Z.b2z (t_pending tm) - Z.b2z (t_pending (call_timers r t)).
Proof.
  unfold pending_count. simpl call_timers.
  rewrite count_pending_insert by apply all_call_timers_nodup.
  rewrite bool_decide_true by apply all_call_timers_full. lia.
Qed.

(** a pending timer holds a reference: it takes one over when it starts and hands
    it back when it stops *)
Lemma refs_timer_on e w c r t x :
  refs_inv (bump c e) w → w_calls w !! c = Some r → 0 ≤ e c →
  t_pending (call_timers r t) = false →
  refs_inv e (set_w_timers (w_timers w ++ [TimerCall c t])
    (with_call c (set_call_timers (<[t := {| t_pending := true; t_expires := x |}]>
                                     (call_timers r)) r) w)).
Proof.
  intros H Hc He Ht. constructor; simpl; unfold in_list; simpl.
  - intros y. pose proof (ri_outside _ _ H y) as E. unfold bump in E. case_decide; subst; lia.
  - intros y [Hy Hne]%lookup_insert_None. destruct (ri_dead _ _ H y Hy) as (E & ? & ?).
    rewrite bump_ne in E by done. split_and!; try done. intros u.
    rewrite elem_of_app, list_elem_of_singleton. naive_solver.
  - intros y ry [[<- <-]|[Hne Hy]]%lookup_insert_Some.
    + rewrite pending_count_insert. pose proof (ri_count _ _ H _ _ Hc) as E.
      rewrite bump_eq in E. unfold in_list in E. simpl. rewrite Ht. simpl. lia.
    + rewrite (ri_count _ _ H _ _ Hy), bump_ne by done. done.
  - intros y ry [[<- <-]|[Hne Hy]]%lookup_insert_Some;
      [exact (ri_alive _ _ H _ _ Hc)|exact (ri_alive _ _ H _ _ Hy)].
  - intros y ry u [[<- <-]|[Hne Hy]]%lookup_insert_Some;
      rewrite elem_of_app, list_elem_of_singleton.
    + rewrite (ri_pending _ _ H _ _ u Hc). simpl. destruct (decide (u = t)) as [->|].
      * rewrite fn_lookup_insert. simpl. naive_solver.
      * rewrite fn_lookup_insert_ne by done. naive_solver.
    + rewrite (ri_pending _ _ H _ _ u Hy). naive_solver.
  - apply H.
  - intros y ry s [[<- <-]|[Hne Hy]]%lookup_insert_Some;
      [exact (ri_ces _ _ H _ _ _ Hc)|exact (ri_ces _ _ H _ _ _ Hy)].
  - intros y ry [[<- <-]|[Hne Hy]]%lookup_insert_Some;
      [exact (ri_ces_nodup _ _ H _ _ Hc)|exact (ri_ces_nodup _ _ H _ _ Hy)].
  - intros a Ha. destruct (ri_fresh _ _ H a Ha) as [Ha1 Ha2]. split; [|done].
    apply lookup_insert_None. split; [done|]. intros ->. congruence.
Qed.

Lemma refs_timer_off e w c r t x :
  refs_inv e w → w_calls w !! c = Some r → t_pending (call_timers r t) = true →
  refs_inv (bump c e) (with_call c (set_call_timers
      (<[t := {| t_pending := false; t_expires := x |}]> (call_timers r)) r)
    (set_w_timers (filter (λ u, u ≠ TimerCall c t) (w_timers w)) w)).
Proof.
  intros H Hc Ht. constructor; simpl; unfold in_list; simpl.
  - intros y. pose proof (ri_outside _ _ H y). unfold bump. case_decide; lia.
  - intros y [Hy Hne]%lookup_insert_None. destruct (ri_dead _ _ H y Hy) as (E & ? & ?).
    rewrite bump_ne by done. split_and!; try done. intros u.
    rewrite list_elem_of_filter. naive_solver.
  - intros y ry [[<- <-]|[Hne Hy]]%lookup_insert_Some.
    + rewrite pending_count_insert, bump_eq. pose proof (ri_count _ _ H _ _ Hc) as E.
      unfold in_list in E. simpl. rewrite Ht. simpl. lia.
    + rewrite (ri_count _ _ H _ _ Hy), bump_ne by done. done.
  - intros y ry [[<- <-]|[Hne Hy]]%lookup_insert_Some;
      [exact (ri_alive _ _ H _ _ Hc)|exact (ri_alive _ _ H _ _ Hy)].
  - intros y ry u [[<- <-]|[Hne Hy]]%lookup_insert_Some; rewrite list_elem_of_filter.
    + rewrite (ri_pending _ _ H _ _ u Hc). simpl. destruct (decide (u = t)) as [->|].
      * rewrite fn_lookup_insert. simpl. naive_solver.
      * rewrite fn_lookup_insert_ne by done. naive_solver.
    + rewrite (ri_pending _ _ H _ _ u Hy). naive_solver.
  - apply H.
  - intros y ry s [[<- <-]|[Hne Hy]]%lookup_insert_Some;
      [exact (ri_ces _ _ H _ _ _ Hc)|exact (ri_ces _ _ H _ _ _ Hy)].
  - intros y ry [[<- <-]|[Hne Hy]]%lookup_insert_Some;
      [exact (ri_ces_nodup _ _ H _ _ Hc)|exact (ri_ces_nodup _ _ H _ _ Hy)].
  - intros a Ha. destruct (ri_fresh _ _ H a Ha) as [Ha1 Ha2]. split; [|done].
    apply lookup_insert_None. split; [done|]. intros ->. congruence.
Qed.

(** ** Allocation and release *)

Lemma refs_free e w c r :
  refs_inv (bump c e) w → w_calls w !! c = Some r → call_refcnt r = 1 → 0 ≤ e c →
  refs_inv e (without_call c w).
Proof.
  intros H Hc Hr He. pose proof (ri_count _ _ H _ _ Hc) as E. rewrite bump_eq, Hr in E.
  pose proof (count_pending_nonneg (call_timers r) all_call_timers) as Hp.
  fold (pending_count r) in Hp.
  assert (0 ≤ in_list c w) as Hl by (unfold in_list; case_bool_decide; lia).
  assert (e c = 0 ∧ in_list c w = 0 ∧ pending_count r = 0) as (E1 & E2 & E3) by lia.
  constructor; simpl; try apply H; unfold in_list; simpl.
  - intros y. pose proof (ri_outside _ _ H y) as Ey. unfold bump in Ey.
    case_decide; subst; lia.
  - intros y Hy%lookup_delete_None. destruct (decide (y = c)) as [->|Hne].
    + split_and!; [done| |].
      * unfold in_list in E2. case_bool_decide; [lia|done].
      * intros t. rewrite (ri_pending _ _ H _ _ t Hc).
        rewrite (count_pending_zero _ all_call_timers); auto using all_call_timers_full.
    + destruct Hy as [?|Hy]; [congruence|].
      destruct (ri_dead _ _ H y Hy) as (E' & ? & ?). by rewrite bump_ne in E'.
  - intros y ry [Hne Hy]%lookup_delete_Some. rewrite (ri_count _ _ H _ _ Hy), bump_ne by done.
    done.
  - intros y ry [Hne Hy]%lookup_delete_Some. by eapply (ri_alive _ _ H).
  - intros y ry u [Hne Hy]%lookup_delete_Some. by apply H.
  - intros y ry s [Hne Hy]%lookup_delete_Some. by apply (ri_ces _ _ H).
  - intros y ry [Hne Hy]%lookup_delete_Some. by eapply (ri_ces_nodup _ _ H).
  - intros a Ha. destruct (ri_fresh _ _ H a Ha). split; [|done].
    by apply lookup_delete_None; right.
Qed.

Lemma refs_new e w c st :
  refs_inv e w → w_calls w !! c = None → (c < w_next w)%nat →
  refs_inv (bump c e) (with_call c (new_call st) w).
Proof.
  intros H Hc Hlt. destruct (ri_dead _ _ H c Hc) as (E & Hl & Ht).
  constructor; simpl; unfold in_list; simpl.
  - intros y. pose proof (ri_outside _ _ H y). unfold bump. case_decide; lia.
  - intros y [Hy Hne]%lookup_insert_None. rewrite bump_ne by done. by apply H.
  - intros y ry [[<- <-]|[Hne Hy]]%lookup_insert_Some.
    + rewrite bump_eq, E, bool_decide_false by done. done.
    + rewrite bump_ne by done. by apply H.
  - intros y ry [[<- <-]|[Hne Hy]]%lookup_insert_Some;
      [done|exact (ri_alive _ _ H _ _ Hy)].
  - intros y ry u [[<- <-]|[Hne Hy]]%lookup_insert_Some.
    + simpl. split; [|done]. by intros ?%Ht.
    + by apply H.
  - apply H.
  - intros y ry s [[<- <-]|[Hne Hy]]%lookup_insert_Some; [set_solver|by apply (ri_ces _ _ H)].
  - intros y ry [[<- <-]|[Hne Hy]]%lookup_insert_Some;
      [constructor|by eapply (ri_ces_nodup _ _ H)].
  - intros a Ha. destruct (ri_fresh _ _ H a Ha) as [Ha1 Ha2]. split; [|done].
    apply lookup_insert_None. split; [done|lia].
Qed.

(** a new CES joins the list of its call and takes a reference over *)
Lemma refs_ces_add e w c r s q :
  refs_inv (bump c e) w → w_calls w !! c = Some r → w_cess w !! s = Some q →
  ces_call q = c → (∀ y ry, w_calls w !! y = Some ry → s ∉ call_ces ry) → 0 ≤ e c →
  refs_inv e (with_call c (set_call_ces (s :: call_ces r) r) w).
Proof.
  intros H Hc Hs Hq Hn He. constructor; simpl; unfold in_list; simpl.
  - intros y. pose proof (ri_outside _ _ H y) as Ey. unfold bump in Ey.
    case_decide; subst; lia.
  - intros y [Hy Hne]%lookup_insert_None. destruct (ri_dead _ _ H y Hy) as (E & ? & ?).
    by rewrite bump_ne in E.
  - intros y ry [[<- <-]|[Hne Hy]]%lookup_insert_Some.
    + pose proof (ri_count _ _ H _ _ Hc) as E. rewrite bump_eq in E.
      unfold in_list, pending_count in *.
      cbn [call_refcnt call_timers call_ces set_call_ces]. rewrite length_cons. lia.
    + rewrite (ri_count _ _ H _ _ Hy), bump_ne by done. done.
  - intros y ry [[<- <-]|[Hne Hy]]%lookup_insert_Some;
      [exact (ri_alive _ _ H _ _ Hc)|exact (ri_alive _ _ H _ _ Hy)].
  - intros y ry u [[<- <-]|[Hne Hy]]%lookup_insert_Some;
      [exact (ri_pending _ _ H _ _ u Hc)|exact (ri_pending _ _ H _ _ u Hy)].
  - apply H.
  - intros y ry u [[<- <-]|[Hne Hy]]%lookup_insert_Some Hin;
      [|exact (ri_ces _ _ H _ _ _ Hy Hin)].
    simpl in Hin. apply elem_of_cons in Hin as [->|Hin]; [by exists q|].
    exact (ri_ces _ _ H _ _ _ Hc Hin).
  - intros y ry [[<- <-]|[Hne Hy]]%lookup_insert_Some;
      [|exact (ri_ces_nodup _ _ H _ _ Hy)].
    simpl. constructor; [by eapply Hn|exact (ri_ces_nodup _ _ H _ _ Hc)].
  - intros a Ha. destruct (ri_fresh _ _ H a Ha) as [Ha1 Ha2]. split; [|done].
    apply lookup_insert_None. split; [done|]. intros ->. congruence.
Qed.

(** the CES leaves the list of its call *)
Lemma refs_ces_del e w c r s :
  refs_inv e w → w_calls w !! c = Some r → s ∈ call_ces r →
  refs_inv (bump c e) (with_call c (set_call_ces (filter (λ x, x ≠ s) (call_ces r)) r) w).
Proof.
  intros H Hc Hs. pose proof (ri_ces_nodup _ _ H _ _ Hc) as Hnd.
  constructor; simpl; unfold in_list; simpl.
  - intros y. pose proof (ri_outside _ _ H y). unfold bump. case_decide; lia.
  - intros y [Hy Hne]%lookup_insert_None. rewrite bump_ne by done. by apply H.
  - intros y ry [[<- <-]|[Hne Hy]]%lookup_insert_Some.
    + pose proof (ri_count _ _ H _ _ Hc) as E. rewrite (length_filter_ne _ s Hnd Hs) in E.
      rewrite bump_eq. unfold in_list, pending_count in *.
      cbn [call_refcnt call_timers call_ces set_call_ces]. lia.
    + rewrite (ri_count _ _ H _ _ Hy), bump_ne by done. done.
  - intros y ry [[<- <-]|[Hne Hy]]%lookup_insert_Some;
      [exact (ri_alive _ _ H _ _ Hc)|exact (ri_alive _ _ H _ _ Hy)].
  - intros y ry u [[<- <-]|[Hne Hy]]%lookup_insert_Some;
      [exact (ri_pending _ _ H _ _ u Hc)|exact (ri_pending _ _ H _ _ u Hy)].
  - apply H.
  - intros y ry u [[<- <-]|[Hne Hy]]%lookup_insert_Some Hin;
      [|exact (ri_ces _ _ H _ _ _ Hy Hin)].
    apply list_elem_of_filter in Hin as [_ Hin]. exact (ri_ces _ _ H _ _ _ Hc Hin).
  - intros y ry [[<- <-]|[Hne Hy]]%lookup_insert_Some;
      [|exact (ri_ces_nodup _ _ H _ _ Hy)].
    by apply list.NoDup_filter.
  - intros a Ha. destruct (ri_fresh _ _ H a Ha) as [Ha1 Ha2]. split; [|done].
    apply lookup_insert_None. split; [done|]. intros ->. congruence.
Qed.

(** a change of the CES records that none is lost and none moves to another call *)
Lemma refs_cess e w m :
  refs_inv e w →
  (∀ c r s q, w_calls w !! c = Some r → s ∈ call_ces r → w_cess w !! s = Some q →
     ∃ q', m !! s = Some q' ∧ ces_call q' = ces_call q) →
  (∀ a, (w_next w ≤ a)%nat → m !! a = None) →
  refs_inv e (set_w_cess m w).
Proof.
  intros H Hm Hf. constructor; simpl; try apply H.
  - intros c r s Hc Hs. destruct (ri_ces _ _ H _ _ _ Hc Hs) as (q & Hq & <-).
    by apply (Hm _ _ _ _ Hc Hs Hq).
  - intros a Ha. split; [by apply (ri_fresh _ _ H)|by apply Hf].
Qed.

Lemma refs_timers e w l :
  refs_inv e w → (∀ c t, TimerCall c t ∈ l ↔ TimerCall c t ∈ w_timers w) →
  refs_inv e (set_w_timers l w).
Proof.
  intros H Hl. constructor; simpl; try apply H.
  - intros c Hc. destruct (ri_dead _ _ H c Hc) as (? & ? & ?). split_and!; try done.
    intros t. by rewrite Hl.
  - intros c r t Hc. rewrite Hl. by apply H.
Qed.
