(* ===== verification/Q931InvOps.v ===== *)
(** * The operations on calls, CES and their timers keep the invariant *)

From stdpp Require Import base list gmap functions.
From Stdlib Require Import ZArith Lia.
From S2P Require Import Prelude.
From S2P Require Import Bits.
From S2P Require Import Q931Defs.
From S2P Require Import Q931Tables.
From S2P Require Import Q931Sets.
From S2P Require Import Q931IE.
From S2P Require Import Q931World.
From S2P Require Import Q931Base.
From S2P Require Import Q931Wire.
From S2P Require Import Q931Decode.
From S2P Require Import Q931Ces.
From S2P Require Import Q931Call.
From S2P Require Import Q931Input.
From S2P Require Import Q931Core.
From S2P Require Import Q931Inv.
Local Open Scope Z_scope.

(** ** Rules for the elementary operations *)

Lemma wlp_ret {S A} (a : A) (Q : A → S → Prop) s : Q a s → wlp (mret a) Q s.
Proof. done. Qed.

Lemma wlp_read_call c (Q : q931_call → q931_world → Prop) w :
  (∀ r, w_calls w !! c = Some r → Q r w) → wlp (read_call c) Q w.
Proof. intros HQ. unfold wlp, read_call. destruct (w_calls w !! c) eqn:E; auto. Qed.

Lemma wlp_read_ces s (Q : q931_ces → q931_world → Prop) w :
  (∀ r, w_cess w !! s = Some r → Q r w) → wlp (read_ces s) Q w.
Proof. intros HQ. unfold wlp, read_ces. destruct (w_cess w !! s) eqn:E; auto. Qed.

Lemma wlp_upd_call c f (Q : unit → q931_world → Prop) w :
  (∀ r, w_calls w !! c = Some r → Q tt (with_call c (f r) w)) → wlp (upd_call c f) Q w.
Proof. intros HQ. unfold upd_call. apply wlp_bind, wlp_read_call. intros r Hr. by apply HQ. Qed.

Lemma wlp_upd_ces s f (Q : unit → q931_world → Prop) w :
  (∀ q, w_cess w !! s = Some q → Q tt (set_w_cess (<[s := f q]> (w_cess w)) w)) →
  wlp (upd_ces s f) Q w.
Proof. intros HQ. unfold upd_ces. apply wlp_bind, wlp_read_ces. intros r Hr. by apply HQ. Qed.

Lemma wlp_c_assert {S} b (Q : unit → S → Prop) s : (b = true → Q tt s) → wlp (c_assert b) Q s.
Proof. destruct b; [intros HQ; by apply HQ|done]. Qed.

Lemma wlp_core {A} (m : W A) (Q : A → q931_world → Prop) w :
  core m → (∀ a w', core_le w w' → Q a w') → wlp m Q w.
Proof. intros Hm HQ. eapply wlp_mono; [apply Hm|]. auto. Qed.

Lemma wlp_bind_core {A B} (m : W A) (k : A → W B) Q w :
  core m → (∀ a w', core_le w w' → wlp (k a) Q w') → wlp (m ≫= k) Q w.
Proof. intros Hm HQ. apply wlp_bind. by apply wlp_core. Qed.

(** ** Getting and putting a reference *)

Lemma wlp_call_get c (Q : nat → q931_world → Prop) w :
  (∀ r, w_calls w !! c = Some r → 0 < call_refcnt r →
     Q c (with_call c (set_call_refcnt (call_refcnt r + 1) r) w)) →
  wlp (q931_call_get c) Q w.
Proof.
  intros HQ. unfold q931_call_get. apply wlp_bind, wlp_read_call. intros r Hr.
  apply wlp_bind, wlp_c_assert. intros Hp%Z.ltb_lt.
  apply wlp_bind, wlp_upd_call. intros r' Hr'. simplify_eq. apply wlp_ret. by apply HQ.
Qed.

(** the call is freed, after its connection, with its last reference *)
Lemma wlp_call_put c (Q : unit → q931_world → Prop) w :
  (∀ r, w_calls w !! c = Some r → 1 < call_refcnt r →
     Q tt (with_call c (set_call_refcnt (call_refcnt r - 1) r) w)) →
  (∀ r w1, w_calls w !! c = Some r → call_refcnt r = 1 →
     core_le (without_call c w) w1 → Q tt w1) →
  wlp (q931_call_put c) Q w.
Proof.
  intros HQ1 HQ2. unfold q931_call_put. apply wlp_bind, wlp_read_call. intros r Hr.
  apply wlp_bind, wlp_c_assert. intros Hp%Z.ltb_lt.
  apply wlp_bind, wlp_upd_call. intros r' Hr'. simplify_eq. unfold when.
  destruct (_ =? 0) eqn:E; [apply Z.eqb_eq in E|apply Z.eqb_neq in E].
  - apply wlp_bind_core; [destruct (call_dlc r); solve_core|]. intros [] w1 Hw1.
    change (Q tt (without_call c w1)). apply (HQ2 r); [done|lia|].
    replace (without_call c w) with
      (without_call c (with_call c (set_call_refcnt (call_refcnt r - 1) r) w)).
    + destruct Hw1. constructor; try done; simpl in *. by rewrite cl_calls.
    + unfold without_call, with_call. simpl. by rewrite delete_insert_eq.
  - apply wlp_ret, HQ1; [done|lia].
Qed.

(** ** Operations keep the invariant *)

Section stable.
Context {P : q931_call_state → Prop} {base : nat} {J : q931_world → Prop}.
Context {HJ : Stable P base J}.
Implicit Types (e : nat → Z) (w : q931_world) (c s : nat).

Definition inv (e : nat → Z) (w : q931_world) : Prop := refs_inv e w ∧ J w.

(** a field that is neither counted nor part of the identity may change *)
Record soft (r r' : q931_call) : Prop := {
  soft_refcnt : call_refcnt r' = call_refcnt r;
  soft_ces : call_ces r' = call_ces r;
  soft_pending : ∀ t, t_pending (call_timers r' t) = t_pending (call_timers r t);
  soft_direction : call_direction r' = call_direction r;
  soft_reference : call_call_reference r' = call_call_reference r;
  soft_state : P (call_state r) → P (call_state r');
}.

Lemma inv_core e w w' : core_le w w' → inv e w → inv e w'.
Proof. intros Hw []. split; [by eapply refs_core|by eapply st_core]. Qed.

Lemma inv_soft e w c r r' :
  inv e w → w_calls w !! c = Some r → soft r r' → inv e (with_call c r' w).
Proof.
  intros [HR HJw] Hc []. split.
  - eapply refs_call; try done; [apply HR|lia|]. pose proof (ri_alive _ _ HR _ _ Hc). lia.
  - eapply st_call; [done..|]. constructor; [by right|done|].
    rewrite soft_pending0. by left.
Qed.

Lemma preserves_core {A} e (m : W A) : core m → preserves (inv e) m.
Proof. intros Hm w Hw. apply wlp_core; [done|]. intros _ w' Hle. by eapply inv_core. Qed.

Lemma preserves_upd_call e c f : (∀ r, soft r (f r)) → preserves (inv e) (upd_call c f).
Proof. intros Hf w Hw. apply wlp_upd_call. intros r Hr. by eapply inv_soft. Qed.

(** what the state of a call is known to satisfy *)
Lemma preserves_read_call {B} e c (k : q931_call → W B) :
  (∀ r, P (call_state r) → preserves (inv e) (k r)) → preserves (inv e) (read_call c ≫= k).
Proof.
  intros Hk w Hw. apply wlp_bind, wlp_read_call. intros r Hr. apply Hk; [|done].
  by eapply st_state; [apply Hw|].
Qed.
Lemma preserves_getc_state {B} e c (k : q931_call_state → W B) :
  (∀ st, P st → preserves (inv e) (k st)) →
  preserves (inv e) (getc c call_state ≫= k).
Proof.
  intros Hk w Hw. apply wlp_bind. unfold getc. apply wlp_bind, wlp_read_call.
  intros r Hr. apply wlp_ret, Hk; [|done]. by eapply st_state; [apply Hw|].
Qed.

Lemma preserves_set_state e c st : P st → preserves (inv e) (q931_call_set_state c st).
Proof.
  intros Hst. unfold q931_call_set_state.
  apply preserves_bind; [apply preserves_core, core_report_call|]. intros _.
  apply preserves_upd_call. intros r. by constructor.
Qed.

Lemma inv_get e c : ∀ w, inv e w →
  wlp (q931_call_get c) (λ a w', a = c ∧ inv (bump c e) w' ∧
    ∃ r, w_calls w !! c = Some r ∧
      w' = with_call c (set_call_refcnt (call_refcnt r + 1) r) w) w.
Proof.
  intros w [HR HJw]. apply wlp_call_get. intros r Hr Hpos. split; [done|].
  split; [split|by exists r].
  - eapply refs_call; [done..| | | |]; simpl.
    + intros x Hx. by apply bump_ne.
    + rewrite bump_eq. pose proof (ri_outside _ _ HR c). lia.
    + rewrite bump_eq. lia.
    + lia.
  - eapply st_call; [done..|]. constructor; simpl; auto.
Qed.

Lemma inv_put e c : 0 ≤ e c → ∀ w, inv (bump c e) w →
  wlp (q931_call_put c) (λ _, inv e) w.
Proof.
  intros He w [HR HJw]. apply wlp_call_put.
  - intros r Hr Hne. split.
    + eapply refs_call; [done..| | | |]; simpl.
      * intros x Hx. by rewrite bump_ne.
      * done.
      * rewrite bump_eq. lia.
      * lia.
    + eapply st_call; [done..|]. constructor; simpl; auto.
  - intros r w1 Hr H1 Hle. eapply inv_core; [done|]. split; [by eapply refs_free|by apply st_free].
Qed.

Lemma inv_outside e w c : inv e w → 0 ≤ e c.
Proof. intros [HR _]. apply HR. Qed.

(** a computation between getting a reference and putting it back *)
Lemma preserves_get_put e c (m : W unit) :
  (∀ e', preserves (inv e') m) →
  preserves (inv e) (_ ← q931_call_get c; m ;; q931_call_put c).
Proof.
  intros Hm w Hw. apply wlp_bind. eapply wlp_mono; [by apply inv_get|].
  intros ? w' (-> & Hw' & _). apply wlp_bind. eapply wlp_mono; [by apply Hm|].
  intros [] w'' Hw''. apply inv_put; [by eapply inv_outside|done].
Qed.

(** ** Timers of a call *)

Lemma wlp_timer_pending c t (Q : bool → q931_world → Prop) w :
  (∀ r, w_calls w !! c = Some r → Q (t_pending (call_timers r t)) w) →
  wlp (q931_timer_pending (TimerCall c t)) Q w.
Proof.
  intros HQ. unfold q931_timer_pending, get_timer.
  apply wlp_bind, wlp_bind, wlp_read_call. intros r Hr. by apply wlp_ret, wlp_ret, HQ.
Qed.

Lemma preserves_timer_pending_false e w c t x :
  inv (bump c e) w → 0 ≤ e c → (t = T319 → P U10_ACTIVE) →
  (∀ r, w_calls w !! c = Some r → t_pending (call_timers r t) = false) →
  wlp (q931_start_timer_delta (TimerCall c t) x) (λ _, inv e) w.
Proof.
  intros [HR HJw] He Ht Hp. unfold q931_start_timer_delta, q931_start_timer, get_timer, put_timer.
  apply wlp_bind. unfold longtime_now. cbn.
  apply wlp_bind, wlp_bind, wlp_read_call. intros r Hr. apply wlp_ret.
  apply wlp_bind, wlp_upd_call. intros r' Hr'. simplify_eq.
  rewrite (Hp _ Hr). cbn. split.
  - by apply refs_timer_on; auto.
  - apply (st_timers (P:=P) (base:=base)).
    eapply st_call; [done..|]. constructor; simpl; auto.
    destruct (decide (t = T319)) as [->|Hne]; [by auto|].
    rewrite fn_lookup_insert_ne by done. by left.
Qed.

Lemma preserves_start_timer_pending e w c t x :
  inv e w → (t = T319 → P U10_ACTIVE) →
  (∀ r, w_calls w !! c = Some r → t_pending (call_timers r t) = true) →
  wlp (q931_start_timer_delta (TimerCall c t) x) (λ _, inv e) w.
Proof.
  intros Hw Ht Hp. unfold q931_start_timer_delta, q931_start_timer, get_timer, put_timer.
  apply wlp_bind. unfold longtime_now. cbn.
  apply wlp_bind, wlp_bind, wlp_read_call. intros r Hr. apply wlp_ret.
  apply wlp_bind, wlp_upd_call. intros r' Hr'. simplify_eq.
  rewrite (Hp _ Hr). cbn. eapply inv_soft; [done..|]. constructor; simpl; auto.
  intros u. destruct (decide (u = t)) as [->|Hne].
  - by rewrite fn_lookup_insert, (Hp _ Hr).
  - by rewrite fn_lookup_insert_ne.
Qed.

Lemma preserves_start_call_timer e c t d :
  (t = T319 → P U10_ACTIVE) → preserves (inv e) (call_start_timer c t d).
Proof.
  intros Ht w Hw. unfold call_start_timer. apply wlp_bind, wlp_timer_pending. intros r Hr.
  unfold when. destruct (t_pending _) eqn:Hp; simpl; [done|].
  apply wlp_bind. eapply wlp_mono; [by apply inv_get|].
  intros ? w' (-> & Hw' & r0 & Hr0 & ->). simplify_eq.
  apply preserves_timer_pending_false; [done|by eapply inv_outside|done|].
  intros r'. simpl. by intros [[_ <-]|[??]]%lookup_insert_Some.
Qed.

Lemma preserves_restart_call_timer e c t d :
  (t = T319 → P U10_ACTIVE) → preserves (inv e) (call_restart_timer c t d).
Proof.
  intros Ht w Hw. unfold call_restart_timer. apply wlp_bind, wlp_timer_pending. intros r Hr.
  apply wlp_bind. unfold when. destruct (t_pending _) eqn:Hp; simpl.
  - apply wlp_ret, preserves_start_timer_pending; [done..|]. intros. by simplify_eq.
  - apply wlp_bind. eapply wlp_mono; [by apply inv_get|].
    intros ? w' (-> & Hw' & r0 & Hr0 & ->). simplify_eq. apply wlp_ret.
    apply preserves_timer_pending_false; [done|by eapply inv_outside|done|].
    intros r'. simpl. by intros [[_ <-]|[??]]%lookup_insert_Some.
Qed.

Lemma inv_del_timer e w c t x :
  inv e w → (∀ r, w_calls w !! c = Some r → t_pending (call_timers r t) = true) →
  wlp (timers_del (TimerCall c t) ;;
       put_timer (TimerCall c t) {| t_pending := false; t_expires := x |})
    (λ _, inv (bump c e)) w.
Proof.
  intros [HR HJw] Hp. apply wlp_bind. unfold timers_del, modify, put_timer. cbn.
  apply wlp_upd_call. intros r Hr. split; [by apply refs_timer_off; auto|].
  eapply st_call; [by apply (st_timers (P:=P) (base:=base))|done|].
  constructor; simpl; auto. destruct (decide (t = T319)) as [->|Hne].
  - by rewrite fn_lookup_insert.
  - rewrite fn_lookup_insert_ne by done. by left.
Qed.

Lemma preserves_stop_call_timer e c t : preserves (inv e) (call_stop_timer c t).
Proof.
  intros w Hw. unfold call_stop_timer. apply wlp_bind, wlp_timer_pending. intros r Hr.
  unfold when. destruct (t_pending _) eqn:Hp; [|done].
  apply wlp_bind. unfold q931_stop_timer, get_timer.
  apply wlp_bind, wlp_bind, wlp_read_call. intros r' Hr'. simplify_eq. apply wlp_ret.
  rewrite Hp. unfold when. eapply wlp_mono.
  - apply inv_del_timer; [done|]. intros. by simplify_eq.
  - intros [] w' Hw'. apply inv_put; [by eapply inv_outside|done].
Qed.

Lemma preserves_start_timer e c t :
  (t = T319 → P U10_ACTIVE) → preserves (inv e) (q931_call_start_timer c t).
Proof.
  intros Ht. unfold q931_call_start_timer.
  apply preserves_bind; [apply preserves_core; solve_core|intros intf].
  apply preserves_bind; [by apply preserves_start_call_timer|].
  intros _. apply preserves_core. solve_core.
Qed.
Lemma preserves_restart_timer e c t :
  (t = T319 → P U10_ACTIVE) → preserves (inv e) (q931_call_restart_timer c t).
Proof.
  intros Ht. unfold q931_call_restart_timer.
  apply preserves_bind; [apply preserves_core; solve_core|intros intf].
  apply preserves_bind; [by apply preserves_restart_call_timer|].
  intros _. apply preserves_core. solve_core.
Qed.
Lemma preserves_stop_timer e c t : preserves (inv e) (q931_call_stop_timer c t).
Proof.
  unfold q931_call_stop_timer. apply preserves_bind; [apply preserves_stop_call_timer|].
  intros _. apply preserves_core. solve_core.
Qed.
Lemma preserves_stop_any_timer e c : preserves (inv e) (q931_call_stop_any_timer c).
Proof. apply preserves_forM. intros t _. apply preserves_stop_timer. Qed.

(** ** The list of calls *)

Lemma preserves_release_reference e c : preserves (inv e) (q931_call_release_reference c).
Proof.
  intros w Hw. unfold q931_call_release_reference, q931_intf_del_call.
  apply wlp_bind, wlp_bind, wlp_read_call. intros r Hr. apply wlp_bind. unfold read_intf. cbn.
  case_bool_decide; [|done]. cbn. apply (inv_put e c).
  - by eapply inv_outside.
  - destruct Hw as [HR HJw]. split; [by apply refs_list_del|].
    by apply (st_del (P:=P) (base:=base)).
Qed.

(** ** Allocation of calls *)

Definition in_null_state (r : q931_call) : Prop :=
  call_state r = N0_NULL_STATE ∨ call_state r = U0_NULL_STATE.

(** a call that only the running function refers to; [D] says what is known of its
    direction and call reference, [U] of the calls of the interface *)
Record young (D : q931_call_direction → Z → Prop) (U : q931_world → Prop)
    (e : nat → Z) (c : nat) (w : q931_world) : Prop := {
  yo_inv : inv (bump c e) w;
  yo_base : (base ≤ c)%nat;
  yo_list : c ∉ intf_calls (w_intf w);
  yo_call : ∃ r, w_calls w !! c = Some r ∧ call_refcnt r = 1 ∧ in_null_state r ∧
    D (call_direction r) (call_call_reference r);
  yo_outside : 0 ≤ e c;
  yo_world : U w;
}.

Definition any_id (dir : q931_call_direction) (cr : Z) : Prop := True.
Definition directed (dir : q931_call_direction) (dir' : q931_call_direction) (cr : Z) : Prop :=
  dir' = dir.
Definition named (dir : q931_call_direction) (cr : Z) (dir' : q931_call_direction) (cr' : Z)
  : Prop := dir' = dir ∧ cr' = cr.

Lemma unused_core dir cr w w' : core_le w w' → unused dir cr w → unused dir cr w'.
Proof.
  intros Hle Hu c r. rewrite (si_calls _ _ (cl_intf _ _ Hle)), (cl_calls _ _ Hle). apply Hu.
Qed.

(** what [U] may be: a property of the calls of the interface *)
Class Listed (U : q931_world → Prop) : Prop := {
  listed_core : ∀ w w', core_le w w' → U w → U w';
  listed_call : ∀ w c r, c ∉ intf_calls (w_intf w) → U w → U (with_call c r w);
}.
#[export] Instance listed_unused dir cr : Listed (unused dir cr).
Proof.
  split; [intros; by eapply unused_core|].
  intros w c r Hc Hu x rx Hx. simpl. rewrite lookup_insert_ne by (intros ->; done).
  by apply Hu.
Qed.
#[export] Instance listed_true : Listed (λ _, True).
Proof. by split. Qed.

Lemma young_core {A} D U `{!Listed U} e c (m : W A) : core m → preserves (young D U e c) m.
Proof.
  intros Hm w []. apply wlp_core; [done|]. intros _ w' Hle.
  constructor; try done; [by eapply inv_core| | |by eapply listed_core].
  - by rewrite (si_calls _ _ (cl_intf _ _ Hle)).
  - by rewrite (cl_calls _ _ Hle).
Qed.

Lemma young_upd D D' U `{!Listed U} e c f w :
  (∀ r, call_refcnt (f r) = call_refcnt r ∧ call_ces (f r) = call_ces r ∧
        call_timers (f r) = call_timers r ∧ call_state (f r) = call_state r) →
  (∀ r, D (call_direction r) (call_call_reference r) →
        D' (call_direction (f r)) (call_call_reference (f r))) →
  young D U e c w → wlp (upd_call c f) (λ _, young D' U e c) w.
Proof.
  intros Hf HD [[HR HJw] Hb Hl Hs He HU]. apply wlp_upd_call. intros r Hr.
  destruct (Hf r) as (E1 & E2 & E3 & E4). constructor; try done.
  - split.
    + eapply refs_call; [done..| | | | | |]; simpl; try done;
        [by rewrite E3|apply HR|lia|]. rewrite E1. by eapply (ri_alive _ _ HR).
    + eapply st_call; [done..|]. constructor; [by left|by rewrite E4|rewrite E3; by left].
  - simpl. rewrite lookup_insert_eq. eexists. split; [done|].
    destruct Hs as (r0 & Hr0 & H1 & Hn & HD0). simplify_eq. unfold in_null_state.
    rewrite E4, E1. auto.
  - by apply listed_call.
Qed.

Lemma young_upd_same D U `{!Listed U} e c f :
  (∀ r, call_refcnt (f r) = call_refcnt r ∧ call_ces (f r) = call_ces r ∧
        call_timers (f r) = call_timers r ∧ call_state (f r) = call_state r) →
  (∀ r, call_direction (f r) = call_direction r ∧
        call_call_reference (f r) = call_call_reference r) →
  preserves (young D U e c) (upd_call c f).
Proof.
  intros Hf HD w. apply young_upd; [done..|]. intros r. by destruct (HD r) as [-> ->].
Qed.

Lemma inv_call_alloc U `{!Listed U} e w :
  inv e w → U w → wlp q931_call_alloc (λ c, young any_id U e c) w.
Proof.
  intros [HR HJw] HU. unfold q931_call_alloc, read_intf, fresh, put_call, modify. cbn.
  destruct (ri_fresh _ _ HR (w_next w)) as [Hn _]; [lia|].
  destruct (ri_dead _ _ HR _ Hn) as (E & Hl & _).
  pose proof (core_fresh w) as Hle. unfold wlp, fresh in Hle.
  constructor; try done.
  - split.
    + apply refs_new; [by eapply refs_core|done|simpl; lia].
    + apply (st_new (P:=P) (base:=base)); [by eapply st_core|done| |done].
      by eapply st_base.
  - by eapply st_base.
  - simpl. eexists. rewrite lookup_insert_eq. split_and!; [done..| |done].
    unfold in_null_state. simpl. destruct (intf_role _); auto.
  - simpl. lia.
  - apply listed_call; [done|]. by eapply listed_core.
Qed.

(** the interface's list takes a second reference; its name is not in use *)
Lemma young_get_add {A} dir cr e c (a : A) w :
  young (named dir cr) (unused dir cr) e c w →
  wlp (c' ← q931_call_get c; q931_intf_add_call c' ;; mret a)
    (λ a' w', a' = a ∧ inv (bump c e) w' ∧
      ∃ r, w_calls w' !! c = Some r ∧ in_null_state r) w.
Proof.
  intros [Hw Hb Hl Hs He HU]. apply wlp_bind.
  eapply wlp_mono; [by apply inv_get|].
  intros ? w' (-> & [HR HJw] & r0 & Hr0 & ->).
  destruct Hs as (r & Hr & _ & Hn & <- & <-). simplify_eq.
  unfold q931_intf_add_call, upd_intf, modify, wlp. cbn. split; [done|].
  split; [split|].
  - refine (refs_list_add _ _ _ _ HR _ _ _); [by simpl; rewrite lookup_insert_eq| |done].
    rewrite bump_eq. lia.
  - eapply (st_add (P:=P) (base:=base) _ _ _ _ HJw); [apply lookup_insert_eq|].
    by apply listed_call.
  - eexists. split; [apply lookup_insert_eq|done].
Qed.

Ltac young_steps :=
  repeat first
    [ solve [apply young_upd_same; [apply _|intros; split_and!; reflexivity|done]]
    | solve [apply young_core; [apply _|solve_core]]
    | apply preserves_bind; [|intros ?] | apply preserves_when
    | match goal with |- preserves _ (if ?b then _ else _) => destruct b end ].

(** the operation [m] keeps the call young and may name it *)
Ltac young_bind D :=
  cbv beta in *; lazymatch goal with Hw : young _ ?U ?e ?c _ |- wlp (_ ≫= _) _ _ =>
    let w' := fresh "w" in let Hw' := fresh "Hw" in
    apply wlp_bind; eapply (wlp_mono _ (λ _, young D U e c));
    [first [ refine (young_upd _ D U e c _ _ _ _ Hw);
               [by intros|by unfold any_id, directed, named; intros r;
                          simpl; intuition congruence]
           | match goal with |- wlp ?m _ _ =>
               assert (HK : preserves (young D U e c) m) by young_steps;
               exact (HK _ Hw) end ]
    |clear Hw; intros ? w' Hw']
  end.

Lemma inv_alloc_in e w d cr :
  inv e w → unused Q931_CALL_DIRECTION_INBOUND cr w →
  wlp (q931_call_alloc_in d cr) (λ c w', inv (bump c e) w' ∧
    ∃ r, w_calls w' !! c = Some r ∧ in_null_state r) w.
Proof.
  intros Hw HU. unfold q931_call_alloc_in. apply wlp_bind.
  eapply wlp_mono; [by eapply (inv_call_alloc _ _ _ Hw HU)|]. intros c w1 Hw1.
  do 2 young_bind any_id. young_bind (directed Q931_CALL_DIRECTION_INBOUND).
  young_bind (named Q931_CALL_DIRECTION_INBOUND cr).
  eapply wlp_mono; [by eapply young_get_add|]. by intros ? w' (-> & ? & ?).
Qed.

Lemma inv_alloc_unknown_out e w d cr :
  inv e w → unused Q931_CALL_DIRECTION_OUTBOUND cr w →
  wlp (alloc_unknown_out d cr) (λ c w', inv (bump c e) w' ∧
    ∃ r, w_calls w' !! c = Some r ∧ in_null_state r) w.
Proof.
  intros Hw HU. unfold alloc_unknown_out. apply wlp_bind.
  eapply wlp_mono; [by eapply (inv_call_alloc _ _ _ Hw HU)|]. intros c w1 Hw1.
  young_bind (directed Q931_CALL_DIRECTION_OUTBOUND).
  do 7 young_bind (named Q931_CALL_DIRECTION_OUTBOUND cr).
  eapply wlp_mono; [by eapply young_get_add|]. by intros ? w' (-> & ? & ?).
Qed.

Lemma young_free D U e c w : young D U e c w → inv e (without_call c w).
Proof.
  intros [[HR HJw] Hb Hl (r & Hr & H1 & _) He _].
  split; [by eapply refs_free|by apply (st_free (P:=P) (base:=base))].
Qed.

(** the reference that is found is not in use *)
Lemma callref_in_use_spec l cr w :
  wlp (callref_in_use l cr) (λ (b : bool) w', w' = w ∧ if b then True else
    ∀ c r, c ∈ l → w_calls w !! c = Some r →
      ¬ (call_direction r = Q931_CALL_DIRECTION_OUTBOUND ∧ call_call_reference r = cr)) w.
Proof.
  induction l as [|c l IH]; cbn [callref_in_use]; [split; [done|set_solver]|].
  apply wlp_bind, wlp_read_call. intros r Hr. destruct (_ && _) eqn:E; [done|].
  eapply wlp_mono; [apply IH|]. intros [] w' [-> Hl]; split; try done.
  intros x rx [->|Hx]%elem_of_cons Hrx; [|by eapply Hl]. simplify_eq. intros [E1 E2].
  rewrite bool_decide_true, E2, Z.eqb_refl in E by done. done.
Qed.

Lemma find_free_loop_spec fuel w :
  wlp (find_free_loop fuel) (λ cr w', core_le w w' ∧
    (cr < 0 ∨ unused Q931_CALL_DIRECTION_OUTBOUND cr w')) w.
Proof.
  revert w. induction fuel as [|fuel IH]; intros w; cbn [find_free_loop]; [done|].
  apply wlp_bind. unfold read_intf, wlp at 1.
  apply wlp_bind. unfold upd_intf, modify, wlp at 1. pose proof (core_advance w) as Hw1.
  fold (advance (w_intf w)). generalize dependent (set_w_intf (advance (w_intf w)) w).
  intros w1 Hw1. apply wlp_bind.
  eapply wlp_mono; [apply callref_in_use_spec|]. intros [] w2 [-> Hu]; simpl in Hu.
  - case_match; [split; [done|left; lia]|]. eapply wlp_mono; [apply IH|].
    intros cr w2 [Hle Hcr]. split; [exact (transitivity Hw1 Hle)|done].
  - apply wlp_ret. split; [done|]. right. intros c r Hc.
    rewrite <- (si_calls _ _ (cl_intf _ _ Hw1)) in Hu. by apply Hu.
Qed.

(** the application receives a reference *)
Lemma inv_alloc_out e w :
  inv e w → wlp q931_call_alloc_out
    (λ o, match o with Some c => inv (bump c e) | None => inv e end) w.
Proof.
  intros Hw. unfold q931_call_alloc_out. apply wlp_bind.
  eapply wlp_mono; [by apply (inv_call_alloc (λ _, True))|]. intros c w1 Hw1.
  young_bind (directed Q931_CALL_DIRECTION_OUTBOUND).
  apply wlp_bind. unfold q931_intf_find_free_call_reference. apply wlp_bind.
  unfold read_intf, wlp at 1. eapply wlp_mono; [apply find_free_loop_spec|].
  intros cr w2 [Hle Hcr].
  assert (HU : young (directed Q931_CALL_DIRECTION_OUTBOUND)
    (λ w, cr < 0 ∨ unused Q931_CALL_DIRECTION_OUTBOUND cr w) e c w2).
  { destruct Hw0. constructor; try done; [by eapply inv_core| |].
    - by rewrite (si_calls _ _ (cl_intf _ _ Hle)).
    - by rewrite (cl_calls _ _ Hle). }
  clear dependent w0.
  assert (Listed (λ w, cr < 0 ∨ unused Q931_CALL_DIRECTION_OUTBOUND cr w)).
  { split; [intros w0 w3 H3 [?|?]; [by left|right; by eapply unused_core]|].
    intros w0 x r Hx [?|?]; [by left|right; by apply listed_call]. }
  young_bind (named Q931_CALL_DIRECTION_OUTBOUND cr). case_match.
  - by eapply young_free.
  - do 2 young_bind (named Q931_CALL_DIRECTION_OUTBOUND cr).
    eapply wlp_mono; [eapply young_get_add|by intros ? w' (-> & ? & ?)].
    match goal with H : young _ _ e c ?v |- young _ _ e c ?v =>
      destruct H as [????? [?|?]]; [lia|by constructor] end.
Qed.

End stable.
