(* ===== verification/Q931InvCalls.v ===== *)
(** * The operations on CES keep the invariant *)

From stdpp Require Import base list gmap functions.
From Stdlib Require Import ZArith Lia.
From S2P Require Import Prelude.
From S2P Require Import Bits.
From S2P Require Import Q931Defs.
From S2P Require Import Q931Tables.
From S2P Require Import Q931Sets.
From S2P Require Import Q931IE.
From S2P Require Import Q931World.
From S2P Require Import Q931Base.
From S2P Require Import Q931Wire.
From S2P Require Import Q931Decode.
From S2P Require Import Q931Ces.
From S2P Require Import Q931Call.
From S2P Require Import Q931CallRequests.
From S2P Require Import Q931Global.
From S2P Require Import Q931CallTimers.
From S2P Require Import Q931CallEstablish.
From S2P Require Import Q931CallClearing.
From S2P Require Import Q931CallStatus.
From S2P Require Import Q931CesHandlers.
From S2P Require Import Q931Input.
From S2P Require Import Q931Core.
From S2P Require Import Q931Inv.
From S2P Require Import Q931InvOps.
Local Open Scope Z_scope.

Section stable.
Context {P : q931_call_state → Prop} {base : nat} {J : q931_world → Prop}.
Context {HJ : Stable P base J}.
Notation inv := (inv (J := J)).
Implicit Types (e : nat → Z) (w : q931_world) (c s : nat).

(** ** Fields and timers of a CES *)

Lemma inv_put_ces e w s q q' :
  inv e w → w_cess w !! s = Some q → ces_call q' = ces_call q →
  inv e (set_w_cess (<[s := q']> (w_cess w)) w).
Proof.
  intros [HR HJw] Hs Hq. split; [|by apply (st_cess (P:=P) (base:=base))].
  apply refs_cess; [done| |].
  - intros c r t p Hc Ht Hp. destruct (decide (t = s)) as [->|].
    + exists q'. rewrite lookup_insert_eq. simplify_eq. done.
    + exists p. by rewrite lookup_insert_ne.
  - intros a Ha. destruct (ri_fresh _ _ HR a Ha) as [_ Ha2].
    apply lookup_insert_None. split; [done|]. intros ->. congruence.
Qed.

Lemma preserves_upd_ces e s f :
  (∀ q, ces_call (f q) = ces_call q) → preserves (inv e) (upd_ces s f).
Proof. intros Hf w Hw. apply wlp_upd_ces. intros q Hq. by eapply inv_put_ces. Qed.

Lemma preserves_put_ces_timer e s t tm : preserves (inv e) (put_timer (TimerCes s t) tm).
Proof. unfold put_timer. by apply preserves_upd_ces. Qed.

Lemma inv_timers e w l :
  inv e w → (∀ c t, TimerCall c t ∈ l ↔ TimerCall c t ∈ w_timers w) →
  inv e (set_w_timers l w).
Proof.
  intros [HR HJw] Hl. split; [by apply refs_timers|by apply (st_timers (P:=P) (base:=base))].
Qed.

Lemma preserves_ces_timer_add e s t : preserves (inv e) (timers_add_tail (TimerCes s t)).
Proof.
  intros w Hw. unfold timers_add_tail, modify, wlp. apply inv_timers; [done|].
  intros c u. rewrite elem_of_app, list_elem_of_singleton. naive_solver.
Qed.
Lemma preserves_ces_timer_del e s t : preserves (inv e) (timers_del (TimerCes s t)).
Proof.
  intros w Hw. unfold timers_del, modify, wlp. apply inv_timers; [done|].
  intros c u. rewrite list_elem_of_filter. naive_solver.
Qed.

Lemma preserves_ces_start_timer e s t x :
  preserves (inv e) (q931_start_timer_delta (TimerCes s t) x).
Proof.
  unfold q931_start_timer_delta, q931_start_timer.
  apply preserves_bind; [apply preserves_core; solve_core|intros now].
  apply preserves_bind; [apply preserves_core; solve_core|intros tm].
  apply preserves_bind; [apply preserves_put_ces_timer|intros _].
  apply preserves_when, preserves_ces_timer_add.
Qed.
Lemma preserves_ces_stop_timer e s t : preserves (inv e) (q931_stop_timer (TimerCes s t)).
Proof.
  unfold q931_stop_timer.
  apply preserves_bind; [apply preserves_core; solve_core|intros tm]. apply preserves_when.
  apply preserves_bind; [apply preserves_ces_timer_del|intros _].
  apply preserves_put_ces_timer.
Qed.

(** ** Allocation *)

Definition no_ces (s : nat) (w : q931_world) : Prop :=
  ∀ y ry, w_calls w !! y = Some ry → s ∉ call_ces ry.

Lemma inv_new_ces e w s q :
  inv e w → no_ces s w → (s < w_next w)%nat →
  inv e (set_w_cess (<[s := q]> (w_cess w)) w).
Proof.
  intros [HR HJw] Hn Hlt. split; [|by apply (st_cess (P:=P) (base:=base))].
  apply refs_cess; [done| |].
  - intros c r t p Hc Ht Hp. exists p. rewrite lookup_insert_ne; [done|].
    intros <-. by apply (Hn _ _ Hc).
  - intros a Ha. apply lookup_insert_None. split; [by apply (ri_fresh _ _ HR)|lia].
Qed.

Lemma no_ces_core w w' s : core_le w w' → no_ces s w → no_ces s w'.
Proof. intros Hle Hn y ry. rewrite (cl_calls _ _ Hle). apply Hn. Qed.
Lemma no_ces_with_call w c r r' s :
  w_calls w !! c = Some r → (s ∉ call_ces r → s ∉ call_ces r') → no_ces s w →
  no_ces s (with_call c r' w).
Proof.
  intros Hc Hr Hn y ry. simpl.
  intros [[<- <-]|[? Hy]]%lookup_insert_Some; [by apply Hr, (Hn c)|by apply (Hn y)].
Qed.

Lemma preserves_ces_alloc e c d : preserves (inv e) (q931_ces_alloc c d).
Proof.
  intros w Hw. unfold q931_ces_alloc. apply wlp_bind. unfold fresh, wlp at 1.
  assert (Hle : core_le w (set_w_next (S (w_next w)) w)) by apply (core_fresh w).
  set (w1 := set_w_next _ w) in *. set (s := w_next w).
  assert (Hw1 : inv e w1) by (by eapply inv_core).
  assert (Hn1 : no_ces s w1).
  { intros y ry Hy Hin. destruct Hw as [HR _].
    destruct (ri_ces _ _ HR _ _ _ Hy Hin) as (q & Hq & _).
    destruct (ri_fresh _ _ HR s) as [_ ?]; [lia|]. congruence. }
  apply wlp_bind. eapply wlp_mono; [by apply inv_get|].
  intros ? w2 (-> & Hw2 & r & Hr & ->).
  assert (He : 0 ≤ e c) by by eapply inv_outside.
  apply wlp_bind_core; [solve_core|]. intros d' w3 Hle3.
  apply wlp_bind. unfold put_ces, modify, wlp at 1.
  match goal with |- context [<[s := ?q]> _] => set (q0 := q) end.
  set (w4 := set_w_cess _ w3).
  assert (Hn3 : no_ces s w3).
  { eapply no_ces_core; [done|]. by eapply no_ces_with_call. }
  assert (Hw4 : inv (bump c e) w4).
  { apply inv_new_ces; [by eapply inv_core|done|].
    pose proof (cl_next _ _ Hle3). simpl in *. subst s. lia. }
  apply wlp_bind_core; [solve_core|]. intros [] w5 Hle5.
  apply wlp_bind_core; [solve_core|]. intros [] w6 Hle6.
  assert (Hle46 : core_le w4 w6) by by etrans.
  apply wlp_bind, wlp_upd_call. intros r6 Hr6. apply wlp_ret.
  assert (Hw6 : inv (bump c e) w6) by by eapply inv_core.
  destruct Hw6 as [HR6 HJ6]. split.
  - eapply refs_ces_add; [done|done| | | |done].
    + rewrite (cl_cess _ _ Hle46). apply lookup_insert_eq.
    + done.
    + eapply no_ces_core; [done|]. exact Hn3.
  - eapply st_call; [done..|]. constructor; simpl; auto.
Qed.

(** ** Release *)

Lemma inv_free_ces e w s : inv e w → no_ces s w → inv e (set_w_cess (delete s (w_cess w)) w).
Proof.
  intros [HR HJw] Hn. split; [|by apply (st_cess (P:=P) (base:=base))].
  apply refs_cess; [done| |].
  - intros c r t p Hc Ht Hp. exists p. rewrite lookup_delete_ne; [done|].
    intros <-. by apply (Hn _ _ Hc).
  - intros a Ha. apply lookup_delete_None. right. by apply (ri_fresh _ _ HR).
Qed.

Lemma preserves_ces_free e s : preserves (inv e) (q931_ces_free s).
Proof.
  intros w Hw. unfold q931_ces_free. apply wlp_bind, wlp_read_ces. intros q Hq.
  set (c := ces_call q).
  apply wlp_bind_core; [solve_core|]. intros [] w0 Hle0.
  apply wlp_bind, wlp_read_call. intros r Hr. apply wlp_bind.
  assert (Hw0 : inv e w0) by by eapply inv_core.
  case_bool_decide as Hin; [|done]. apply wlp_upd_call. intros r' Hr'. simplify_eq.
  set (w1 := with_call c _ w0).
  assert (Hw1 : inv (bump c e) w1).
  { destruct Hw0 as [HR HJ0]. split; [by apply refs_ces_del|].
    eapply st_call; [done..|]. constructor; simpl; auto. }
  assert (Hn1 : no_ces s w1).
  { intros y ry. simpl. intros [[<- <-]|[Hne Hy]]%lookup_insert_Some.
    - simpl. rewrite list_elem_of_filter. naive_solver.
    - intros Hs. destruct Hw0 as [HR _]. destruct (ri_ces _ _ HR _ _ _ Hy Hs) as (p & Hp & Hpc).
      rewrite (cl_cess _ _ Hle0) in Hp. simplify_eq. }
  apply wlp_bind_core; [solve_core|]. intros [] w2 Hle2.
  apply wlp_bind_core; [solve_core|]. intros [] w3 Hle3.
  assert (Hle : core_le w1 w3) by by etrans.
  assert (Hw3 : inv (bump c e) w3) by by eapply inv_core.
  assert (Hn3 : no_ces s w3) by by eapply no_ces_core.
  apply wlp_bind. eapply wlp_mono with (P := λ _ w', inv e w' ∧ no_ces s w').
  - assert (He : 0 ≤ e c) by by eapply inv_outside.
    pose proof (inv_put e c He w3 Hw3) as Hput.
    apply wlp_conj; [exact Hput|]. apply wlp_call_put.
    + intros r3 Hr3 _. by eapply no_ces_with_call.
    + intros r3 w4 Hr3 _ Hle4. eapply no_ces_core; [done|].
      intros y ry. simpl. intros [_ Hy]%lookup_delete_Some. by apply (Hn3 y).
  - intros [] w4 [Hw4 Hn4]. unfold free_ces, modify, wlp. by apply inv_free_ces.
Qed.

End stable.

(** ** Every request, handler and timer function keeps the invariant

    [refs_inv e] together with any [Stable] property is kept by every operation of
    the call, of its CES and of the global call: the references a function takes
    it gives back, and nothing refers to a freed call. *)

Create HintDb inv.
#[export] Hint Resolve preserves_ret preserves_fail : inv.
#[export] Hint Resolve preserves_set_state preserves_start_timer preserves_restart_timer
  preserves_stop_timer preserves_stop_any_timer preserves_release_reference
  preserves_ces_start_timer preserves_ces_stop_timer preserves_ces_alloc
  preserves_ces_free : inv.

(** the state may be set: it is on the network side, or the call was on the user
    side already; T319 only starts on the user side *)
Ltac solve_state :=
  solve [ assumption | apply st_network; reflexivity
        | match goal with H : ?P ?a |- ?P _ => apply (st_user a H); reflexivity end
        | intros; discriminate
        | intros _; match goal with H : ?P ?a |- ?P _ => apply (st_user a H); reflexivity end ].
#[export] Hint Extern 1 => solve_state : inv.

Ltac inv_step :=
  match goal with
  | |- preserves _ (getc _ call_state ≫= _) =>
      apply preserves_getc_state; let st := fresh "st" in intros st ?
  | |- preserves _ (read_call _ ≫= _) => apply preserves_read_call; intros ? ?
  | |- preserves _ (_ ≫= _) => apply preserves_bind; [|intros ?]
  | |- preserves _ (when _ _) => apply preserves_when
  | |- preserves _ (ifM _ _ _) => unfold ifM
  | |- preserves _ (whenM _ _) => unfold whenM
  | |- preserves _ (forM _ _) => apply preserves_forM; intros ? ?
  | |- preserves _ (upd_call _ _) => apply preserves_upd_call; intros; constructor; reflexivity || auto
  | |- preserves _ (upd_ces _ _) => apply preserves_upd_ces; intros; reflexivity
  | H : ?P (call_state ?r) |- preserves _ (match call_state ?r with _ => _ end) =>
      let E := fresh in destruct (call_state r) eqn:E; rewrite ?E in *
  | |- preserves _ (if decide (?a = _) then _ else _) =>
      destruct (decide (a = _)); [subst a|]
  | |- preserves _ (if ?b then _ else _) => destruct b
  | |- preserves _ (match ?x with _ => _ end) => destruct x
  | |- preserves _ _ => progress autounfold with core
  end.
(** an operation below [core_le], an operation shown before, or a step *)
Ltac solve_inv :=
  intros; cbv zeta;
  repeat first [ solve [apply preserves_core; eauto 3 with core] | solve [eauto 3 with inv]
               | inv_step; cbv zeta ].

Section stable.
Context {P : q931_call_state → Prop} {base : nat} {J : q931_world → Prop}.
Context {HJ : Stable P base J}.
Notation inv := (inv (J := J)).
Implicit Types (e : nat → Z) (c s : nat) (m : q931_message).

(** ** Channels *)
Lemma inv_channel_release e o : preserves (inv e) (q931_channel_release o).
Proof. unfold q931_channel_release. solve_inv. Qed.
#[local] Hint Resolve inv_channel_release : inv.
Lemma inv_take_channel e c i : preserves (inv e) (take_channel c i).
Proof. unfold take_channel. solve_inv. Qed.
#[local] Hint Resolve inv_take_channel : inv.
Lemma inv_channel_select_response e c ies : preserves (inv e) (q931_channel_select_response c ies).
Proof. unfold q931_channel_select_response. solve_inv. Qed.
#[local] Hint Resolve inv_channel_select_response : inv.
Lemma inv_channel_acquire e c : preserves (inv e) (q931_channel_acquire c).
Proof. unfold q931_channel_acquire. solve_inv. Qed.
#[local] Hint Resolve inv_channel_acquire : inv.

(** ** CES *)
Lemma inv_ces_set_state e s st : preserves (inv e) (q931_ces_set_state s st).
Proof. unfold q931_ces_set_state. solve_inv. Qed.
#[local] Hint Resolve inv_ces_set_state : inv.
Lemma inv_ces_start_timer e s t : preserves (inv e) (q931_ces_start_timer s t).
Proof. unfold q931_ces_start_timer. solve_inv. Qed.
#[local] Hint Resolve inv_ces_start_timer : inv.
Lemma inv_ces_stop_timer e s t : preserves (inv e) (q931_ces_stop_timer s t).
Proof. unfold q931_ces_stop_timer. solve_inv. Qed.
#[local] Hint Resolve inv_ces_stop_timer : inv.
Lemma inv_ces_stop_any_timer e s : preserves (inv e) (q931_ces_stop_any_timer s).
Proof. unfold q931_ces_stop_any_timer. solve_inv. Qed.
#[local] Hint Resolve inv_ces_stop_any_timer : inv.
Lemma inv_ces_send_ces_status e s ies : preserves (inv e) (q931_ces_send_ces_status s ies).
Proof. unfold q931_ces_send_ces_status. solve_inv. Qed.
#[local] Hint Resolve inv_ces_send_ces_status : inv.
Lemma inv_ces_message_not_compatible_with_state e s m : preserves (inv e) (q931_ces_message_not_compatible_with_state s m).
Proof. unfold q931_ces_message_not_compatible_with_state. solve_inv. Qed.
#[local] Hint Resolve inv_ces_message_not_compatible_with_state : inv.
Lemma inv_ces_alerting_request e s ies : preserves (inv e) (q931_ces_alerting_request s ies).
Proof. unfold q931_ces_alerting_request, ces_from_null. solve_inv. Qed.
#[local] Hint Resolve inv_ces_alerting_request : inv.
Lemma inv_ces_connect_request e s ies : preserves (inv e) (q931_ces_connect_request s ies).
Proof. unfold q931_ces_connect_request, ces_from_null. solve_inv. Qed.
#[local] Hint Resolve inv_ces_connect_request : inv.
Lemma inv_ces_call_proceeding_request e s ies : preserves (inv e) (q931_ces_call_proceeding_request s ies).
Proof. unfold q931_ces_call_proceeding_request, ces_from_null. solve_inv. Qed.
#[local] Hint Resolve inv_ces_call_proceeding_request : inv.
Lemma inv_ces_setup_ack_request e s ies : preserves (inv e) (q931_ces_setup_ack_request s ies).
Proof. unfold q931_ces_setup_ack_request, ces_from_null. solve_inv. Qed.
#[local] Hint Resolve inv_ces_setup_ack_request : inv.
Lemma inv_ces_release_request e s ies : preserves (inv e) (q931_ces_release_request s ies).
Proof. unfold q931_ces_release_request. solve_inv. Qed.
#[local] Hint Resolve inv_ces_release_request : inv.
Lemma inv_ces_info_request e s ies : preserves (inv e) (q931_ces_info_request s ies).
Proof. unfold q931_ces_info_request. solve_inv. Qed.
#[local] Hint Resolve inv_ces_info_request : inv.
Lemma inv_ces_status_enquiry_request e s ies : preserves (inv e) (q931_ces_status_enquiry_request s ies).
Proof. unfold q931_ces_status_enquiry_request. solve_inv. Qed.
#[local] Hint Resolve inv_ces_status_enquiry_request : inv.

Lemma preserves_for_each_ces e c (body : nat → W unit) :
  (∀ s, preserves (inv e) (body s)) → preserves (inv e) (for_each_ces c body).
Proof.
  intros Hb. unfold for_each_ces. apply preserves_read_call. intros r _.
  induction (call_ces r) as [|s l IH]; cbn [ces_for_each]; solve_inv.
Qed.
Lemma preserves_for_each_ces_safe e c (body : nat → W unit) :
  (∀ s, preserves (inv e) (body s)) → preserves (inv e) (for_each_ces_safe c body).
Proof.
  intros Hb. unfold for_each_ces_safe. apply preserves_read_call. intros r _.
  induction (call_ces r) as [|s l IH]; cbn [ces_for_each_safe]; solve_inv.
Qed.
Lemma preserves_on_channel e c (f : option nat → W unit) :
  (∀ o, preserves (inv e) (f o)) → preserves (inv e) (on_channel c f).
Proof. unfold on_channel. solve_inv. Qed.
#[local] Hint Resolve preserves_for_each_ces preserves_for_each_ces_safe
  preserves_on_channel : inv.

(** ** The call *)
Lemma inv_message_not_compatible e c m st : preserves (inv e) (message_not_compatible c m st).
Proof. unfold message_not_compatible. solve_inv. Qed.
#[local] Hint Resolve inv_message_not_compatible : inv.
Lemma inv_call_message_not_compatible_with_state e c m : preserves (inv e) (q931_call_message_not_compatible_with_state c m).
Proof. unfold q931_call_message_not_compatible_with_state. solve_inv. Qed.
#[local] Hint Resolve inv_call_message_not_compatible_with_state : inv.
Lemma inv_call_message_not_compatible_with_state_n6 e c m : preserves (inv e) (q931_call_message_not_compatible_with_state_n6 c m).
Proof. unfold q931_call_message_not_compatible_with_state_n6. solve_inv. Qed.
#[local] Hint Resolve inv_call_message_not_compatible_with_state_n6 : inv.
Lemma inv_abort_or_null e c : preserves (inv e) (abort_or_null c).
Proof. unfold abort_or_null. solve_inv. Qed.
#[local] Hint Resolve inv_abort_or_null : inv.

(** ** Indications of the CES *)
Lemma inv_save_cause e c ies : preserves (inv e) (save_cause c ies).
Proof. unfold save_cause. solve_inv. Qed.
#[local] Hint Resolve inv_save_cause : inv.
Lemma inv_int_alerting_indication e c s ies : preserves (inv e) (q931_int_alerting_indication c s ies).
Proof. unfold q931_int_alerting_indication. solve_inv. Qed.
#[local] Hint Resolve inv_int_alerting_indication : inv.
Lemma inv_int_connect_indication e c s ies : preserves (inv e) (q931_int_connect_indication c s ies).
Proof. unfold q931_int_connect_indication. solve_inv. Qed.
#[local] Hint Resolve inv_int_connect_indication : inv.
Lemma inv_int_call_proceeding_indication e c s ies : preserves (inv e) (q931_int_call_proceeding_indication c s ies).
Proof. unfold q931_int_call_proceeding_indication. solve_inv. Qed.
#[local] Hint Resolve inv_int_call_proceeding_indication : inv.
Lemma inv_int_release_complete_indication e c s ies : preserves (inv e) (q931_int_release_complete_indication c s ies).
Proof. unfold q931_int_release_complete_indication. solve_inv. Qed.
#[local] Hint Resolve inv_int_release_complete_indication : inv.
Lemma inv_int_info_indication e c s ies : preserves (inv e) (q931_int_info_indication c s ies).
Proof. unfold q931_int_info_indication. solve_inv. Qed.
#[local] Hint Resolve inv_int_info_indication : inv.
Lemma inv_int_progress_indication e c s ies : preserves (inv e) (q931_int_progress_indication c s ies).
Proof. unfold q931_int_progress_indication. solve_inv. Qed.
#[local] Hint Resolve inv_int_progress_indication : inv.
Lemma inv_int_release_indication e c s ies : preserves (inv e) (q931_int_release_indication c s ies).
Proof. unfold q931_int_release_indication. solve_inv. Qed.
#[local] Hint Resolve inv_int_release_indication : inv.

(** ** Requests of the call control block *)
Lemma inv_alerting_request e c ies : preserves (inv e) (q931_alerting_request c ies).
Proof. unfold q931_alerting_request. solve_inv. Qed.
#[local] Hint Resolve inv_alerting_request : inv.
Lemma inv_disconnect_with_tones e c ies : preserves (inv e) (disconnect_with_tones c ies).
Proof. unfold disconnect_with_tones. solve_inv. Qed.
#[local] Hint Resolve inv_disconnect_with_tones : inv.
Lemma inv_abort_broadcast e c ies : preserves (inv e) (abort_broadcast c ies).
Proof. unfold abort_broadcast. solve_inv. Qed.
#[local] Hint Resolve inv_abort_broadcast : inv.
Lemma inv_disconnect_n12 e c ies : preserves (inv e) (disconnect_n12 c ies).
Proof. unfold disconnect_n12. solve_inv. Qed.
#[local] Hint Resolve inv_disconnect_n12 : inv.
Lemma inv_disconnect_request e c ies : preserves (inv e) (q931_disconnect_request c ies).
Proof. unfold q931_disconnect_request, disconnect_u11. solve_inv. Qed.
#[local] Hint Resolve inv_disconnect_request : inv.
Lemma inv_info_request e c ies : preserves (inv e) (q931_info_request c ies).
Proof. unfold q931_info_request. solve_inv. Qed.
#[local] Hint Resolve inv_info_request : inv.
Lemma inv_more_info_request e c ies : preserves (inv e) (q931_more_info_request c ies).
Proof. unfold q931_more_info_request. solve_inv. Qed.
#[local] Hint Resolve inv_more_info_request : inv.
Lemma inv_notify_request e c ies : preserves (inv e) (q931_notify_request c ies).
Proof. unfold q931_notify_request. solve_inv. Qed.
#[local] Hint Resolve inv_notify_request : inv.
Lemma inv_proceeding_request e c ies : preserves (inv e) (q931_proceeding_request c ies).
Proof. unfold q931_proceeding_request. solve_inv. Qed.
#[local] Hint Resolve inv_proceeding_request : inv.
Lemma inv_progress_request e c ies : preserves (inv e) (q931_progress_request c ies).
Proof. unfold q931_progress_request. solve_inv. Qed.
#[local] Hint Resolve inv_progress_request : inv.
Lemma inv_reject_request e c ies : preserves (inv e) (q931_reject_request c ies).
Proof. unfold q931_reject_request. solve_inv. Qed.
#[local] Hint Resolve inv_reject_request : inv.
Lemma inv_release_request e c ies : preserves (inv e) (q931_release_request c ies).
Proof. unfold q931_release_request. solve_inv. Qed.
#[local] Hint Resolve inv_release_request : inv.
Lemma inv_resume_request e c ies : preserves (inv e) (q931_resume_request c ies).
Proof. unfold q931_resume_request. solve_inv. Qed.
#[local] Hint Resolve inv_resume_request : inv.
Lemma inv_resume_reject_request e c ies : preserves (inv e) (q931_resume_reject_request c ies).
Proof. unfold q931_resume_reject_request. solve_inv. Qed.
#[local] Hint Resolve inv_resume_reject_request : inv.
Lemma inv_resume_response e c ies : preserves (inv e) (q931_resume_response c ies).
Proof. unfold q931_resume_response. solve_inv. Qed.
#[local] Hint Resolve inv_resume_response : inv.
Lemma inv_setup_complete_request e c ies : preserves (inv e) (q931_setup_complete_request c ies).
Proof. unfold q931_setup_complete_request. solve_inv. Qed.
#[local] Hint Resolve inv_setup_complete_request : inv.
Lemma inv_setup_request e c ies : preserves (inv e) (q931_setup_request c ies).
Proof. unfold q931_setup_request. solve_inv. Qed.
#[local] Hint Resolve inv_setup_request : inv.
Lemma inv_setup_response e c ies : preserves (inv e) (q931_setup_response c ies).
Proof. unfold q931_setup_response. solve_inv. Qed.
#[local] Hint Resolve inv_setup_response : inv.
Lemma inv_call_status_enquiry e c ies : preserves (inv e) (call_status_enquiry c ies).
Proof. unfold call_status_enquiry. solve_inv. Qed.
#[local] Hint Resolve inv_call_status_enquiry : inv.
Lemma inv_status_enquiry_request e c o ies : preserves (inv e) (q931_status_enquiry_request c o ies).
Proof. unfold q931_status_enquiry_request. solve_inv. Qed.
#[local] Hint Resolve inv_status_enquiry_request : inv.
Lemma inv_suspend_reject_request e c ies : preserves (inv e) (q931_suspend_reject_request c ies).
Proof. unfold q931_suspend_reject_request. solve_inv. Qed.
#[local] Hint Resolve inv_suspend_reject_request : inv.
Lemma inv_suspend_response e c ies : preserves (inv e) (q931_suspend_response c ies).
Proof. unfold q931_suspend_response. solve_inv. Qed.
#[local] Hint Resolve inv_suspend_response : inv.
Lemma inv_suspend_request e c ies : preserves (inv e) (q931_suspend_request c ies).
Proof. unfold q931_suspend_request. solve_inv. Qed.
#[local] Hint Resolve inv_suspend_request : inv.

(** ** The global call *)

Lemma null_state_ok st : P st → P (null_state_of st).
Proof. intros Hst. destruct st; cbn [null_state_of]; solve_state. Qed.
#[local] Hint Resolve null_state_ok : inv.

Lemma inv_restart_request e c ies : preserves (inv e) (q931_restart_request c ies).
Proof. unfold q931_restart_request. solve_inv. Qed.
#[local] Hint Resolve inv_restart_request : inv.
Lemma inv_global_handle_restart e m : preserves (inv e) (q931_global_handle_restart m).
Proof. unfold q931_global_handle_restart. solve_inv. Qed.
#[local] Hint Resolve inv_global_handle_restart : inv.
Lemma inv_dispatch_global_message e m : preserves (inv e) (q931_dispatch_global_message m).
Proof. unfold q931_dispatch_global_message. solve_inv. Qed.
#[local] Hint Resolve inv_dispatch_global_message : inv.

End stable.

#[export] Hint Resolve inv_channel_release inv_take_channel inv_channel_select_response inv_channel_acquire
  inv_ces_set_state inv_ces_start_timer inv_ces_stop_timer inv_ces_stop_any_timer
  inv_ces_send_ces_status inv_ces_message_not_compatible_with_state
  inv_ces_alerting_request inv_ces_connect_request inv_ces_call_proceeding_request
  inv_ces_setup_ack_request inv_ces_release_request inv_ces_info_request
  inv_ces_status_enquiry_request preserves_for_each_ces preserves_for_each_ces_safe
  preserves_on_channel inv_message_not_compatible
  inv_call_message_not_compatible_with_state
  inv_call_message_not_compatible_with_state_n6 inv_abort_or_null inv_save_cause
  inv_int_alerting_indication inv_int_connect_indication
  inv_int_call_proceeding_indication inv_int_release_complete_indication
  inv_int_info_indication inv_int_progress_indication inv_int_release_indication
  inv_alerting_request inv_disconnect_with_tones inv_abort_broadcast inv_disconnect_n12
  inv_disconnect_request inv_info_request inv_more_info_request inv_notify_request
  inv_proceeding_request inv_progress_request inv_reject_request inv_release_request
  inv_resume_request inv_resume_reject_request inv_resume_response
  inv_setup_complete_request inv_setup_request inv_setup_response
  inv_call_status_enquiry inv_status_enquiry_request inv_suspend_reject_request
  inv_suspend_response inv_suspend_request inv_restart_request inv_global_handle_restart
  inv_dispatch_global_message : inv.
