(* ===== verification/Q931InvHandlers.v ===== *)
(** * Every timer function, message handler and entry point keeps the invariant *)

From stdpp Require Import base list gmap functions.
From Stdlib Require Import ZArith Lia.
From S2P Require Import Prelude.
From S2P Require Import Bits.
From S2P Require Import Q931Defs.
From S2P Require Import Q931Tables.
From S2P Require Import Q931Sets.
From S2P Require Import Q931IE.
From S2P Require Import Q931World.
From S2P Require Import Q931Base.
From S2P Require Import Q931Wire.
From S2P Require Import Q931Decode.
From S2P Require Import Q931Ces.
From S2P Require Import Q931Call.
From S2P Require Import Q931CallRequests.
From S2P Require Import Q931Global.
From S2P Require Import Q931CallTimers.
From S2P Require Import Q931CallEstablish.
From S2P Require Import Q931CallClearing.
From S2P Require Import Q931CallStatus.
From S2P Require Import Q931CesHandlers.
From S2P Require Import Q931Input.
From S2P Require Import Q931Core.
From S2P Require Import Q931Inv.
From S2P Require Import Q931InvOps.
From S2P Require Import Q931InvCalls.
Local Open Scope Z_scope.


Section stable.
Context {P : q931_call_state → Prop} {base : nat} {J : q931_world → Prop}.
Context {HJ : Stable P base J}.
Notation inv := (inv (J := J)).
Implicit Types (e : nat → Z) (c s : nat) (m : q931_message).

(** ** Timers of the call

    [releases c m]: [m] gives up one reference to [c]. *)

Definition releases (c : nat) (m : W unit) : Prop :=
  ∀ e w, 0 ≤ e c → inv (bump c e) w → wlp m (λ _, inv e) w.

Lemma releases_put c : releases c (q931_call_put c).
Proof. intros e w He Hw. by apply inv_put. Qed.
Lemma releases_bind {A} c (m : W A) k :
  (∀ e, preserves (inv e) m) → (∀ a, releases c (k a)) → releases c (m ≫= k).
Proof.
  intros Hm Hk e w He Hw. eapply wlp_bind_preserves; [apply Hm|done|].
  intros a w' Hw'. by apply Hk.
Qed.
Lemma releases_getc_state c c' k :
  (∀ st, P st → releases c (k st)) → releases c (getc c' call_state ≫= k).
Proof.
  intros Hk e w He Hw. apply wlp_bind. unfold getc. apply wlp_bind, wlp_read_call.
  intros r Hr. apply wlp_ret, Hk; [|done..]. by eapply st_state; [apply Hw|].
Qed.
Lemma releases_read_call c c' k :
  (∀ r, P (call_state r) → releases c (k r)) → releases c (read_call c' ≫= k).
Proof.
  intros Hk e w He Hw. apply wlp_bind, wlp_read_call.
  intros r Hr. apply Hk; [|done..]. by eapply st_state; [apply Hw|].
Qed.

Ltac solve_releases :=
  intros; cbv zeta;
  repeat first
    [ apply releases_put
    | apply releases_getc_state; intros ? ?
    | apply releases_read_call; intros ? ?
    | apply releases_bind; [intros ?; solve_inv|intros ?]; cbv zeta ].

Lemma inv_resend_setup e c : preserves (inv e) (resend_setup c).
Proof. unfold resend_setup. solve_inv. Qed.
#[local] Hint Resolve inv_resend_setup : inv.
Lemma inv_release_after_disconnect e c st : P st → preserves (inv e) (release_after_disconnect c st).
Proof. unfold release_after_disconnect. solve_inv. Qed.
#[local] Hint Resolve inv_release_after_disconnect : inv.
Lemma inv_release_to_null e c st : P st → preserves (inv e) (release_to_null c st).
Proof. unfold release_to_null. solve_inv. Qed.
#[local] Hint Resolve inv_release_to_null : inv.

Lemma inv_timer_T301 c : releases c (q931_timer_T301 c).
Proof. unfold q931_timer_T301. solve_releases. Qed.
Lemma inv_timer_T302 c : releases c (q931_timer_T302 c).
Proof. unfold q931_timer_T302. solve_releases. Qed.
Lemma inv_timer_T303 c : releases c (q931_timer_T303 c).
Proof. unfold q931_timer_T303. solve_releases. Qed.
Lemma inv_timer_T304 c : releases c (q931_timer_T304 c).
Proof. unfold q931_timer_T304. solve_releases. Qed.
Lemma inv_timer_T305 c : releases c (q931_timer_T305 c).
Proof. unfold q931_timer_T305. solve_releases. Qed.
Lemma inv_timer_T306 c : releases c (q931_timer_T306 c).
Proof. unfold q931_timer_T306. solve_releases. Qed.
Lemma inv_timer_T308 c : releases c (q931_timer_T308 c).
Proof. unfold q931_timer_T308. solve_releases. Qed.
Lemma inv_timer_T309 c : releases c (q931_timer_T309 c).
Proof. unfold q931_timer_T309. solve_releases. Qed.
Lemma inv_timer_T310 c : releases c (q931_timer_T310 c).
Proof. unfold q931_timer_T310. solve_releases. Qed.
Lemma inv_timer_T312 c : releases c (q931_timer_T312 c).
Proof. unfold q931_timer_T312. solve_releases. Qed.
Lemma inv_timer_T313 c : releases c (q931_timer_T313 c).
Proof. unfold q931_timer_T313. solve_releases. Qed.
Lemma inv_timer_T314 c : releases c (q931_timer_T314 c).
Proof. unfold q931_timer_T314. solve_releases. Qed.
Lemma inv_timer_T316 c : releases c (q931_timer_T316 c).
Proof. unfold q931_timer_T316. solve_releases. Qed.
Lemma inv_timer_T318 c : releases c (q931_timer_T318 c).
Proof. unfold q931_timer_T318. solve_releases. Qed.
Lemma inv_timer_T320 c : releases c (q931_timer_T320 c).
Proof. unfold q931_timer_T320. solve_releases. Qed.
Lemma inv_timer_T321 c : releases c (q931_timer_T321 c).
Proof. unfold q931_timer_T321. solve_releases. Qed.
Lemma inv_timer_T322 c : releases c (q931_timer_T322 c).
Proof. unfold q931_timer_T322. solve_releases. Qed.
(** T319 is the user side's: it sets a state of that side *)
Lemma inv_timer_T319 c : P U10_ACTIVE → releases c (q931_timer_T319 c).
Proof. unfold q931_timer_T319. solve_releases. Qed.

Lemma inv_call_timer_func c t :
  (t = T319 → P U10_ACTIVE) → releases c (q931_call_timer_func t c).
Proof.
  intros Ht. destruct t; cbn [q931_call_timer_func]; auto using inv_timer_T301, inv_timer_T302,
    inv_timer_T303, inv_timer_T304, inv_timer_T305, inv_timer_T306, inv_timer_T308,
    inv_timer_T309, inv_timer_T310, inv_timer_T312, inv_timer_T313, inv_timer_T314,
    inv_timer_T316, inv_timer_T318, inv_timer_T319, inv_timer_T320, inv_timer_T321,
    inv_timer_T322.
Qed.

(** ** Messages of the call *)

Lemma inv_with_ies e c m (body : q931_message → W unit) :
  (∀ m, preserves (inv e) (body m)) → preserves (inv e) (with_ies c m body).
Proof. unfold with_ies. solve_inv. Qed.
Lemma inv_with_new_ces e c m (accept : nat → W unit) :
  (∀ s, preserves (inv e) (accept s)) → preserves (inv e) (with_new_ces c m accept).
Proof. unfold with_new_ces. solve_inv. Qed.
Lemma inv_release_new_ces e c m (ies : W q931_ies) :
  core ies → preserves (inv e) (release_new_ces c m ies).
Proof. unfold release_new_ces. solve_inv. Qed.
Lemma inv_reject_response e c ies : preserves (inv e) (reject_response c ies).
Proof. unfold reject_response. solve_inv. Qed.
Lemma inv_enter e c st p m : P st → preserves (inv e) (enter c st p m).
Proof. unfold enter. solve_inv. Qed.
#[local] Hint Resolve inv_reject_response inv_enter : inv.

Ltac handler_step :=
  match goal with
  | |- preserves _ (with_ies _ _ _) => apply inv_with_ies; intros ?
  | |- preserves _ (with_new_ces _ _ _) => apply inv_with_new_ces; intros ?
  | |- preserves _ (release_new_ces _ _ _) => apply inv_release_new_ces; solve [solve_core]
  end.
Ltac solve_handler :=
  intros; cbv zeta;
  repeat first [ solve [apply preserves_core; eauto 3 with core] | solve [eauto 3 with inv]
               | handler_step | inv_step; cbv zeta ].

Lemma inv_connect_new_ces e c m stop p :
  preserves (inv e) stop → preserves (inv e) (connect_new_ces c m stop p).
Proof. unfold connect_new_ces. solve_handler. Qed.
Lemma inv_connected e c m : P U10_ACTIVE → preserves (inv e) (connected c m).
Proof. unfold connected. solve_handler. Qed.
#[local] Hint Resolve inv_connect_new_ces inv_connected : inv.
Lemma inv_handle_alerting e c m : preserves (inv e) (q931_handle_alerting c m).
Proof. unfold q931_handle_alerting. solve_handler. Qed.
#[local] Hint Resolve inv_handle_alerting : inv.
Lemma inv_handle_call_proceeding e c m : preserves (inv e) (q931_handle_call_proceeding c m).
Proof. unfold q931_handle_call_proceeding. solve_handler. Qed.
#[local] Hint Resolve inv_handle_call_proceeding : inv.
Lemma inv_handle_connect e c m : preserves (inv e) (q931_handle_connect c m).
Proof. unfold q931_handle_connect. solve_handler. Qed.
#[local] Hint Resolve inv_handle_connect : inv.
Lemma inv_handle_connect_acknowledge e c m : preserves (inv e) (q931_handle_connect_acknowledge c m).
Proof. unfold q931_handle_connect_acknowledge. solve_handler. Qed.
#[local] Hint Resolve inv_handle_connect_acknowledge : inv.
Lemma inv_handle_progress e c m : preserves (inv e) (q931_handle_progress c m).
Proof. unfold q931_handle_progress. solve_handler. Qed.
#[local] Hint Resolve inv_handle_progress : inv.
Lemma inv_handle_setup e c m : preserves (inv e) (q931_handle_setup c m).
Proof. unfold q931_handle_setup. solve_handler. Qed.
#[local] Hint Resolve inv_handle_setup : inv.
Lemma inv_handle_setup_acknowledge e c m : preserves (inv e) (q931_handle_setup_acknowledge c m).
Proof. unfold q931_handle_setup_acknowledge. solve_handler. Qed.
#[local] Hint Resolve inv_handle_setup_acknowledge : inv.
Lemma inv_call_save_cause e c ies : preserves (inv e) (q931_save_cause c ies).
Proof. unfold q931_save_cause. solve_handler. Qed.
#[local] Hint Resolve inv_call_save_cause : inv.
Lemma inv_disconnected e c st m : P st → preserves (inv e) (disconnected c st m).
Proof. unfold disconnected. solve_handler. Qed.
#[local] Hint Resolve inv_disconnected : inv.
Lemma inv_handle_disconnect e c m : preserves (inv e) (q931_handle_disconnect c m).
Proof. unfold q931_handle_disconnect. solve_handler. Qed.
#[local] Hint Resolve inv_handle_disconnect : inv.
Lemma inv_cleared e c st p m : P st → preserves (inv e) (cleared c st p m).
Proof. unfold cleared. solve_handler. Qed.
#[local] Hint Resolve inv_cleared : inv.
Lemma inv_dereferenced e c st p m : P st → preserves (inv e) (dereferenced c st p m).
Proof. unfold dereferenced. solve_handler. Qed.
#[local] Hint Resolve inv_dereferenced : inv.
Lemma inv_handle_release e c m : preserves (inv e) (q931_handle_release c m).
Proof. unfold q931_handle_release. solve_handler. Qed.
#[local] Hint Resolve inv_handle_release : inv.
Lemma inv_handle_release_complete e c m : preserves (inv e) (q931_handle_release_complete c m).
Proof. unfold q931_handle_release_complete. solve_handler. Qed.
#[local] Hint Resolve inv_handle_release_complete : inv.
Lemma inv_primitive_of_freed e c p m : preserves (inv e) (primitive_of_freed c p m).
Proof. unfold primitive_of_freed. solve_handler. Qed.
#[local] Hint Resolve inv_primitive_of_freed : inv.
Lemma inv_status_release e c m : preserves (inv e) (status_release c m).
Proof. unfold status_release. solve_handler. Qed.
#[local] Hint Resolve inv_status_release : inv.
Lemma inv_status_in_null e c st m : P st → preserves (inv e) (status_in_null c st m).
Proof. unfold status_in_null. solve_handler. Qed.
#[local] Hint Resolve inv_status_in_null : inv.
Lemma inv_status_in_release e c st m : P st → preserves (inv e) (status_in_release c st m).
Proof. unfold status_in_release. solve_handler. Qed.
#[local] Hint Resolve inv_status_in_release : inv.
Lemma inv_status_in_call e c st m : P st → preserves (inv e) (status_in_call c st m).
Proof. unfold status_in_call. solve_handler. Qed.
#[local] Hint Resolve inv_status_in_call : inv.
Lemma inv_handle_status e c m : preserves (inv e) (q931_handle_status c m).
Proof. unfold q931_handle_status. solve_handler. Qed.
#[local] Hint Resolve inv_handle_status : inv.
Lemma inv_handle_status_enquiry e c m : preserves (inv e) (q931_handle_status_enquiry c m).
Proof. unfold q931_handle_status_enquiry. solve_handler. Qed.
#[local] Hint Resolve inv_handle_status_enquiry : inv.
Lemma inv_handle_info e c m : preserves (inv e) (q931_handle_info c m).
Proof. unfold q931_handle_info. solve_handler. Qed.
#[local] Hint Resolve inv_handle_info : inv.
Lemma inv_handle_notify e c m : preserves (inv e) (q931_handle_notify c m).
Proof. unfold q931_handle_notify. solve_handler. Qed.
#[local] Hint Resolve inv_handle_notify : inv.
Lemma inv_handle_resume e c m : preserves (inv e) (q931_handle_resume c m).
Proof. unfold q931_handle_resume. solve_handler. Qed.
#[local] Hint Resolve inv_handle_resume : inv.
Lemma inv_only_in e c m st (body : q931_message → W unit) :
  (P st → ∀ m, preserves (inv e) (body m)) → preserves (inv e) (only_in c m st body).
Proof.
  intros Hb. unfold only_in. apply preserves_getc_state. intros st' Hst'.
  case_decide; subst; [apply inv_with_ies; auto|solve_handler].
Qed.
Lemma inv_handle_resume_acknowledge e c m : preserves (inv e) (q931_handle_resume_acknowledge c m).
Proof. unfold q931_handle_resume_acknowledge. apply inv_only_in. solve_handler. Qed.
#[local] Hint Resolve inv_handle_resume_acknowledge : inv.
Lemma inv_handle_resume_reject e c m : preserves (inv e) (q931_handle_resume_reject c m).
Proof. unfold q931_handle_resume_reject. apply inv_only_in. solve_handler. Qed.
#[local] Hint Resolve inv_handle_resume_reject : inv.
Lemma inv_handle_suspend_acknowledge e c m : preserves (inv e) (q931_handle_suspend_acknowledge c m).
Proof. unfold q931_handle_suspend_acknowledge. apply inv_only_in. solve_handler. Qed.
#[local] Hint Resolve inv_handle_suspend_acknowledge : inv.
Lemma inv_handle_suspend_reject e c m : preserves (inv e) (q931_handle_suspend_reject c m).
Proof. unfold q931_handle_suspend_reject. apply inv_only_in. solve_handler. Qed.
#[local] Hint Resolve inv_handle_suspend_reject : inv.
Lemma inv_handle_suspend e c m : preserves (inv e) (q931_handle_suspend c m).
Proof. unfold q931_handle_suspend. solve_handler. Qed.
#[local] Hint Resolve inv_handle_suspend : inv.
Lemma inv_unrecognized_message e c : preserves (inv e) (unrecognized_message c).
Proof. unfold unrecognized_message. solve_handler. Qed.
#[local] Hint Resolve inv_unrecognized_message : inv.
Lemma inv_dispatch_message e c m : preserves (inv e) (q931_dispatch_message c m).
Proof. unfold q931_dispatch_message. solve_handler. Qed.
#[local] Hint Resolve inv_dispatch_message : inv.

(** ** Events of the data link *)
Lemma inv_link_lost e c st v : P st → preserves (inv e) (link_lost c st v).
Proof. unfold link_lost. solve_handler. Qed.
#[local] Hint Resolve inv_link_lost : inv.
Lemma inv_active_link_lost e c v : preserves (inv e) (active_link_lost c v).
Proof. unfold active_link_lost. solve_handler. Qed.
#[local] Hint Resolve inv_active_link_lost : inv.
Lemma inv_call_dl_establish_indication e c : preserves (inv e) (q931_call_dl_establish_indication c).
Proof. unfold q931_call_dl_establish_indication. solve_handler. Qed.
#[local] Hint Resolve inv_call_dl_establish_indication : inv.
Lemma inv_call_dl_establish_confirm e c : preserves (inv e) (q931_call_dl_establish_confirm c).
Proof. unfold q931_call_dl_establish_confirm. solve_handler. Qed.
#[local] Hint Resolve inv_call_dl_establish_confirm : inv.
Lemma inv_call_dl_release_indication e c : preserves (inv e) (q931_call_dl_release_indication c).
Proof. unfold q931_call_dl_release_indication. solve_handler. Qed.
#[local] Hint Resolve inv_call_dl_release_indication : inv.
Lemma inv_call_dl_release_confirm e c : preserves (inv e) (q931_call_dl_release_confirm c).
Proof. unfold q931_call_dl_release_confirm. solve_handler. Qed.
#[local] Hint Resolve inv_call_dl_release_confirm : inv.

(** ** Messages and timers of the CES *)
Lemma inv_int_indicate {A} e (f : nat → nat → A → W unit) s (ies : A) :
  (∀ c, preserves (inv e) (f c s ies)) → preserves (inv e) (int_indicate f s ies).
Proof. unfold int_indicate. solve_handler. Qed.
Lemma inv_ces_with_ies e s m (body : q931_message → W unit) :
  (∀ m, preserves (inv e) (body m)) → preserves (inv e) (ces_with_ies s m body).
Proof. unfold ces_with_ies. solve_handler. Qed.
#[local] Hint Resolve inv_int_indicate inv_ces_with_ies : inv.

Ltac handler_step ::=
  match goal with
  | |- preserves _ (with_ies _ _ _) => apply inv_with_ies; intros ?
  | |- preserves _ (with_new_ces _ _ _) => apply inv_with_new_ces; intros ?
  | |- preserves _ (release_new_ces _ _ _) => apply inv_release_new_ces; solve [solve_core]
  | |- preserves _ (int_indicate _ _ _) => apply inv_int_indicate; intros ?
  | |- preserves _ (ces_with_ies _ _ _) => apply inv_ces_with_ies; intros ?
  end.
Lemma inv_ces_released e s ies : preserves (inv e) (ces_released s ies).
Proof. unfold ces_released. solve_handler. Qed.
#[local] Hint Resolve inv_ces_released : inv.
Lemma inv_ces_release e s ies : preserves (inv e) (ces_release s ies).
Proof. unfold ces_release. solve_handler. Qed.
#[local] Hint Resolve inv_ces_release : inv.
Lemma inv_ces_dl_establish_indication e s : preserves (inv e) (q931_ces_dl_establish_indication s).
Proof. unfold q931_ces_dl_establish_indication. solve_handler. Qed.
#[local] Hint Resolve inv_ces_dl_establish_indication : inv.
Lemma inv_ces_dl_establish_confirm e s : preserves (inv e) (q931_ces_dl_establish_confirm s).
Proof. unfold q931_ces_dl_establish_confirm. solve_handler. Qed.
#[local] Hint Resolve inv_ces_dl_establish_confirm : inv.
Lemma inv_ces_dl_release_indication e s : preserves (inv e) (q931_ces_dl_release_indication s).
Proof. unfold q931_ces_dl_release_indication. solve_handler. Qed.
#[local] Hint Resolve inv_ces_dl_release_indication : inv.
Lemma inv_ces_dl_release_confirm e s : preserves (inv e) (q931_ces_dl_release_confirm s).
Proof. unfold q931_ces_dl_release_confirm. solve_handler. Qed.
#[local] Hint Resolve inv_ces_dl_release_confirm : inv.
Lemma inv_ces_handle_alerting e s m : preserves (inv e) (q931_ces_handle_alerting s m).
Proof. unfold q931_ces_handle_alerting. solve_handler. Qed.
#[local] Hint Resolve inv_ces_handle_alerting : inv.
Lemma inv_ces_handle_call_proceeding e s m : preserves (inv e) (q931_ces_handle_call_proceeding s m).
Proof. unfold q931_ces_handle_call_proceeding. solve_handler. Qed.
#[local] Hint Resolve inv_ces_handle_call_proceeding : inv.
Lemma inv_ces_handle_connect e s m : preserves (inv e) (q931_ces_handle_connect s m).
Proof. unfold q931_ces_handle_connect. solve_handler. Qed.
#[local] Hint Resolve inv_ces_handle_connect : inv.
Lemma inv_ces_handle_progress e s m : preserves (inv e) (q931_ces_handle_progress s m).
Proof. unfold q931_ces_handle_progress. solve_handler. Qed.
#[local] Hint Resolve inv_ces_handle_progress : inv.
Lemma inv_ces_handle_disconnect e s m : preserves (inv e) (q931_ces_handle_disconnect s m).
Proof. unfold q931_ces_handle_disconnect. solve_handler. Qed.
#[local] Hint Resolve inv_ces_handle_disconnect : inv.
Lemma inv_ces_handle_release e s m : preserves (inv e) (q931_ces_handle_release s m).
Proof. unfold q931_ces_handle_release, ces_handle_clearing. solve_handler. Qed.
#[local] Hint Resolve inv_ces_handle_release : inv.
Lemma inv_ces_handle_release_complete e s m : preserves (inv e) (q931_ces_handle_release_complete s m).
Proof. unfold q931_ces_handle_release_complete, ces_handle_clearing. solve_handler. Qed.
#[local] Hint Resolve inv_ces_handle_release_complete : inv.
Lemma inv_ces_handle_status e s m : preserves (inv e) (q931_ces_handle_status s m).
Proof. unfold q931_ces_handle_status. solve_handler. Qed.
#[local] Hint Resolve inv_ces_handle_status : inv.
Lemma inv_ces_handle_info e s m : preserves (inv e) (q931_ces_handle_info s m).
Proof. unfold q931_ces_handle_info. solve_handler. Qed.
#[local] Hint Resolve inv_ces_handle_info : inv.
Lemma inv_ces_handle_status_enquiry e s m : preserves (inv e) (q931_ces_handle_status_enquiry s m).
Proof. unfold q931_ces_handle_status_enquiry. solve_handler. Qed.
#[local] Hint Resolve inv_ces_handle_status_enquiry : inv.
Lemma inv_ces_timer_T304 e s : preserves (inv e) (q931_ces_timer_T304 s).
Proof. unfold q931_ces_timer_T304. solve_handler. Qed.
#[local] Hint Resolve inv_ces_timer_T304 : inv.
Lemma inv_ces_timer_T308 e s : preserves (inv e) (q931_ces_timer_T308 s).
Proof. unfold q931_ces_timer_T308. solve_handler. Qed.
#[local] Hint Resolve inv_ces_timer_T308 : inv.
Lemma inv_ces_timer_T322 e s : preserves (inv e) (q931_ces_timer_T322 s).
Proof. unfold q931_ces_timer_T322. solve_handler. Qed.
#[local] Hint Resolve inv_ces_timer_T322 : inv.
Lemma inv_ces_dispatch_message e s m : preserves (inv e) (q931_ces_dispatch_message s m).
Proof. unfold q931_ces_dispatch_message. solve_handler. Qed.
#[local] Hint Resolve inv_ces_dispatch_message : inv.

End stable.

#[export] Hint Resolve inv_resend_setup inv_release_after_disconnect inv_release_to_null inv_reject_response
  inv_enter inv_connect_new_ces inv_connected inv_handle_alerting
  inv_handle_call_proceeding inv_handle_connect inv_handle_connect_acknowledge
  inv_handle_progress inv_handle_setup inv_handle_setup_acknowledge inv_call_save_cause
  inv_disconnected inv_handle_disconnect inv_cleared inv_dereferenced inv_handle_release
  inv_handle_release_complete inv_primitive_of_freed inv_status_release
  inv_status_in_null inv_status_in_release inv_status_in_call inv_handle_status
  inv_handle_status_enquiry inv_handle_info inv_handle_notify inv_handle_resume
  inv_handle_resume_acknowledge inv_handle_resume_reject inv_handle_suspend_acknowledge
  inv_handle_suspend_reject inv_handle_suspend inv_unrecognized_message
  inv_dispatch_message inv_link_lost inv_active_link_lost
  inv_call_dl_establish_indication inv_call_dl_establish_confirm
  inv_call_dl_release_indication inv_call_dl_release_confirm inv_int_indicate
  inv_ces_with_ies inv_ces_released inv_ces_release inv_ces_dl_establish_indication
  inv_ces_dl_establish_confirm inv_ces_dl_release_indication inv_ces_dl_release_confirm
  inv_ces_handle_alerting inv_ces_handle_call_proceeding inv_ces_handle_connect
  inv_ces_handle_progress inv_ces_handle_disconnect inv_ces_handle_release
  inv_ces_handle_release_complete inv_ces_handle_status inv_ces_handle_info
  inv_ces_handle_status_enquiry inv_ces_timer_T304 inv_ces_timer_T308 inv_ces_timer_T322
  inv_ces_dispatch_message : inv.
