(* ===== verification/Q931InvEntry.v ===== *)
(** * The entry points keep the invariant *)

From stdpp Require Import base list gmap functions.
From Stdlib Require Import ZArith Lia.
From S2P Require Import Prelude.
From S2P Require Import Bits.
From S2P Require Import Q931Defs.
From S2P Require Import Q931Tables.
From S2P Require Import Q931Sets.
From S2P Require Import Q931IE.
From S2P Require Import Q931World.
From S2P Require Import Q931Base.
From S2P Require Import Q931Wire.
From S2P Require Import Q931Decode.
From S2P Require Import Q931Ces.
From S2P Require Import Q931Call.
From S2P Require Import Q931CallRequests.
From S2P Require Import Q931Global.
From S2P Require Import Q931CallTimers.
From S2P Require Import Q931CallEstablish.
From S2P Require Import Q931CallClearing.
From S2P Require Import Q931CallStatus.
From S2P Require Import Q931CesHandlers.
From S2P Require Import Q931Input.
From S2P Require Import Q931Core.
From S2P Require Import Q931Inv.
From S2P Require Import Q931InvOps.
From S2P Require Import Q931InvCalls.
From S2P Require Import Q931InvHandlers.
Local Open Scope Z_scope.

Section stable.
Context {P : q931_call_state → Prop} {base : nat} {J : q931_world → Prop}.
Context {HJ : Stable P base J}.
Notation inv := (inv (J := J)).
Implicit Types (e : nat → Z) (w : q931_world) (c s d : nat) (m : q931_message).

(** ** Events of the data link *)

Lemma inv_dl_for_each e d (on_ces on_call : nat → W unit) :
  (∀ e s, preserves (inv e) (on_ces s)) → (∀ e c, preserves (inv e) (on_call c)) →
  preserves (inv e) (dl_for_each d on_ces on_call).
Proof.
  intros Hs Hc. unfold dl_for_each. apply preserves_bind; [solve_inv|intros intf].
  apply preserves_forM. intros c _. unfold dl_for_call.
  intros w Hw. apply wlp_bind. eapply wlp_mono; [by apply inv_get|].
  intros ? w1 (-> & Hw1 & _).
  eapply (wlp_bind_preserves (inv (bump c e))); [|done|clear dependent w1; intros [] w1 Hw1].
  { apply preserves_for_each_ces_safe. intros s. solve_inv. }
  eapply (wlp_bind_preserves (inv (bump c e))); [|done|clear dependent w1; intros [] w1 Hw1].
  { unfold whenM, ifM. solve_inv. }
  apply inv_put; [by eapply inv_outside|done].
Qed.

Lemma inv_dl_establish_confirm e d : preserves (inv e) (q931_dl_establish_confirm d).
Proof.
  unfold q931_dl_establish_confirm, force_autorelease. solve_inv.
  apply inv_dl_for_each; solve_inv.
Qed.
Lemma inv_dl_establish_indication e d : preserves (inv e) (q931_dl_establish_indication d).
Proof.
  unfold q931_dl_establish_indication, force_autorelease. solve_inv.
  apply inv_dl_for_each; solve_inv.
Qed.
Lemma inv_dl_release_confirm e d : preserves (inv e) (q931_dl_release_confirm d).
Proof. unfold q931_dl_release_confirm. solve_inv. apply inv_dl_for_each; solve_inv. Qed.
Lemma inv_dl_release_indication e d : preserves (inv e) (q931_dl_release_indication d).
Proof. unfold q931_dl_release_indication. solve_inv. apply inv_dl_for_each; solve_inv. Qed.

(** ** Reception *)

(** the call that is found, with a reference *)
Lemma inv_get_call_by_reference e w dir cr :
  inv e w → wlp (q931_get_call_by_reference dir cr)
    (λ o w', match o with Some c => inv (bump c e) w'
                        | None => inv e w' ∧ unused dir cr w' end) w.
Proof.
  intros Hw. unfold q931_get_call_by_reference. apply wlp_bind. unfold read_intf, wlp at 1.
  assert (Hl : wlp (get_call_loop (intf_calls (w_intf w)) dir cr)
    (λ o w', match o with Some c => inv (bump c e) w'
      | None => w' = w ∧ ∀ c r, c ∈ intf_calls (w_intf w) → w_calls w !! c = Some r →
          ¬ (call_direction r = dir ∧ call_call_reference r = cr) end) w).
  - induction (intf_calls (w_intf w)) as [|c l IH]; cbn [get_call_loop];
      [split; [done|set_solver]|].
    apply wlp_bind, wlp_read_call. intros r Hr. destruct (_ && _) eqn:E.
    + apply wlp_bind. eapply wlp_mono; [by apply inv_get|]. by intros ? w1 (-> & Hw1 & _).
    + eapply wlp_mono; [apply IH|]. intros [x|] w1; [done|]. intros [-> Hl]. split; [done|].
      intros x rx [->|Hx]%elem_of_cons Hrx; [|by eapply Hl]. simplify_eq. intros [E1 E2].
      by rewrite bool_decide_true, E2, Z.eqb_refl in E.
  - eapply wlp_mono; [apply Hl|]. intros [c|] w1; [done|]. by intros [-> ?].
Qed.

Lemma inv_ces_take_message e l c d m : preserves (inv e) (ces_take_message l c d m).
Proof. induction l as [|s l IH]; cbn [ces_take_message]; solve_inv. Qed.
Lemma inv_dispatch_to_call e c d m : preserves (inv e) (dispatch_to_call c d m).
Proof. unfold dispatch_to_call. solve_inv. apply inv_ces_take_message. Qed.

(** the state of a call [c] that has just been allocated *)
Definition null_call c w : Prop := ∃ r, w_calls w !! c = Some r ∧ in_null_state r.

Lemma null_call_core {A} c (m : W A) : core m → preserves (null_call c) m.
Proof.
  intros Hm w (r & Hr & Hn). apply wlp_core; [done|]. intros _ w' Hle.
  exists r. by rewrite (cl_calls _ _ Hle).
Qed.
Lemma null_call_upd c f :
  (∀ r, call_state (f r) = call_state r) → preserves (null_call c) (upd_call c f).
Proof.
  intros Hf w (r & Hr & Hn). apply wlp_upd_call. intros r' Hr'. simplify_eq.
  eexists. split; [apply lookup_insert_eq|]. unfold in_null_state. by rewrite Hf.
Qed.
Lemma null_call_start_timer c t : preserves (null_call c) (q931_call_start_timer c t).
Proof.
  unfold q931_call_start_timer, call_start_timer, q931_start_timer_delta, q931_start_timer,
    put_timer, q931_call_get.
  repeat first [ apply null_call_upd; intros; reflexivity
               | solve [apply null_call_core; solve_core]
               | intros w (r & Hr & Hn); exists r; by split
               | apply preserves_bind; [|intros ?] | apply preserves_when ].
Qed.

Ltac by_preserves Hw :=
  match type of Hw with ?I ?w =>
    match goal with |- wlp ?m _ _ =>
      let H := fresh in assert (H : preserves I m) by solve_inv; exact (H _ Hw)
    end
  end.

Lemma inv_unknown_callref e c m w :
  inv e w → null_call c w → wlp (unknown_callref c m) (λ _, inv e) w.
Proof.
  intros Hw Hn. unfold unknown_callref.
  destruct (_ =? Q931_MT_RELEASE); [by_preserves Hw|].
  destruct (_ =? Q931_MT_RELEASE_COMPLETE); [by_preserves Hw|].
  destruct (_ || _); [destruct (msg_callref_direction m); [done|by_preserves Hw]|].
  destruct (_ =? Q931_MT_STATUS); [done|].
  set (K w := inv e w ∧ null_call c w).
  assert (HK : ∀ A (x : W A), preserves (inv e) x → preserves (null_call c) x → preserves K x).
  { intros A x H1 H2 v [Hv1 Hv2]. apply wlp_conj; auto. }
  assert (HC : ∀ A (x : W A), core x → preserves K x).
  { intros A x Hx. apply HK; [by apply preserves_core|by apply null_call_core]. }
  eapply (wlp_bind_preserves K); [apply HC; solve_core|by split|intros ies w1 Hw1].
  eapply (wlp_bind_preserves K); [apply HC; solve_core|done|intros [] w2 Hw2].
  eapply (wlp_bind_preserves K); [|done|intros [] w3 [Hw3 Hn3]].
  { apply HK; [apply preserves_start_timer; done|apply null_call_start_timer]. }
  destruct Hn3 as (r & Hr & Hs). apply wlp_bind. unfold getc.
  apply wlp_bind, wlp_read_call. intros r' Hr'. simplify_eq. apply wlp_ret.
  match goal with H : w_calls w3 !! c = Some ?x |- _ =>
    assert (Hst : P (call_state x)) by (eapply st_state; [apply Hw3|done]) end.
  destruct Hs as [Hs|Hs]; rewrite Hs in *;
    [rewrite decide_True by done|rewrite decide_False by done]; by_preserves Hw3.
Qed.

Lemma inv_receive_call_message e d m : preserves (inv e) (receive_call_message d m).
Proof.
  intros w Hw. unfold receive_call_message. apply wlp_bind.
  eapply wlp_mono; [by apply inv_get_call_by_reference|]. intros [c|] w1 Hw1.
  - eapply (wlp_bind_preserves (inv (bump c e)));
      [apply inv_dispatch_to_call|done|intros [] w2 Hw2].
    apply inv_put; [by eapply inv_outside|done].
  - apply wlp_bind.
    eapply wlp_mono with (P := λ c w', inv (bump c e) w' ∧ null_call c w').
    { destruct Hw1 as [Hw1 HU]. case_match; [by apply inv_alloc_in|by apply inv_alloc_unknown_out]. }
    intros c w2 [Hw2 Hn2]. apply wlp_bind.
    eapply wlp_mono; [by apply inv_unknown_callref|]. intros go w3 Hw3.
    eapply (wlp_bind_preserves (inv (bump c e)));
      [apply preserves_when, inv_dispatch_to_call|done|intros [] w4 Hw4].
    apply inv_put; [by eapply inv_outside|done].
Qed.

Lemma inv_receive_message e d m : preserves (inv e) (receive_message d m).
Proof. unfold receive_message. solve_inv. apply inv_receive_call_message. Qed.
Lemma inv_receive e d r : preserves (inv e) (q931_receive d r).
Proof.
  unfold q931_receive, receive_frame. solve_inv;
    auto using inv_receive_message, inv_dl_release_indication, inv_dl_release_confirm,
      inv_dl_establish_confirm, inv_dl_establish_indication.
Qed.

(** ** Timers *)

Lemma inv_fire_timer e w t :
  inv e w → t ∈ w_timers w → wlp (fire_timer t) (λ _, inv e) w.
Proof.
  intros Hw Ht. unfold fire_timer. destruct t as [c n|s n|d|n].
  - apply wlp_bind. unfold get_timer. apply wlp_bind, wlp_read_call. intros r Hr.
    apply wlp_ret. pose proof Hw as [HR HJw].
    assert (Hp : t_pending (call_timers r n) = true)
      by by apply (proj1 (ri_pending _ _ HR c r n Hr)).
    assert (H319 : n = T319 → P U10_ACTIVE).
    { intros ->. by eapply (st_T319 (P:=P)). }
    pose proof (inv_del_timer e w c n (t_expires (call_timers r n)) Hw) as Hd.
    apply wlp_bind. unfold timers_del, modify, wlp at 1. apply wlp_bind.
    eapply wlp_mono; [apply Hd; intros; by simplify_eq|]. intros [] w1 Hw1.
    apply inv_call_timer_func; [done|by eapply inv_outside|done].
  - revert Hw. generalize w. change (preserves (inv e) (fire_timer (TimerCes s n))).
    unfold fire_timer. solve_inv.
    + apply preserves_ces_timer_del.
    + apply preserves_put_ces_timer.
    + destruct n; cbn [timer_func q931_ces_timer_func]; solve_inv.
  - revert Hw. generalize w. change (preserves (inv e) (fire_timer (TimerDlc d))).
    unfold fire_timer. cbn [timer_func]. solve_inv.
  - revert Hw. generalize w. change (preserves (inv e) (fire_timer (TimerGlobal n))).
    unfold fire_timer. cbn [timer_func]. solve_inv.
Qed.

(** the scan reads only and returns a timer of the list *)
Lemma scan_timers_spec now l next w :
  wlp (scan_timers now l next)
    (λ r w', w' = w ∧ match fst r with Some t => t ∈ l | None => True end) w.
Proof.
  revert next. induction l as [|t l IH]; intros next; cbn [scan_timers]; [done|].
  assert (Hg : ∀ (k : q931_timer → W (option timer_id * option Z)) Q,
    (∀ tm, wlp (k tm) Q w) → wlp (get_timer t ≫= k) Q w).
  { intros k Q Hk. apply wlp_bind.
    destruct t; unfold get_timer, read_gc; apply wlp_bind;
      first [apply wlp_read_call | apply wlp_read_ces | idtac];
      try (intros r _; apply wlp_ret, Hk); [|apply Hk].
    unfold wlp, read_dlc. destruct (w_dlcs w !! dlc); [apply Hk|done]. }
  apply Hg. intros tm. case_match; [split; [done|left]|].
  eapply wlp_mono; [apply IH|]. intros [[u|] n] w' [-> Hu]; split; try done. by right.
Qed.

Lemma inv_run_timers_loop e fuel now next : preserves (inv e) (run_timers_loop fuel now next).
Proof.
  revert next. induction fuel as [|fuel IH]; intros next w Hw; cbn [run_timers_loop]; [done|].
  apply wlp_bind. unfold get, wlp at 1. apply wlp_bind.
  eapply wlp_mono; [apply scan_timers_spec|]. intros [[t|] n] w' [-> Ht]; simpl in Ht.
  - apply wlp_bind. eapply wlp_mono; [by apply inv_fire_timer|]. intros [] w' Hw'. by apply IH.
  - done.
Qed.
Lemma inv_run_timers e fuel : preserves (inv e) (q931_run_timers fuel).
Proof. unfold q931_run_timers. solve_inv. apply inv_run_timers_loop. Qed.

(** ** The call control block and new connections *)

Lemma inv_ccb_dispatch e p c ies : preserves (inv e) (q931_ccb_dispatch p c ies).
Proof. destruct p; cbn [q931_ccb_dispatch]; solve_inv. Qed.

Lemma core_accept tei : core (q931_accept tei).
Proof. unfold q931_accept. solve_core. intros w. by constructor. Qed.
Lemma inv_accept e tei : preserves (inv e) (q931_accept tei).
Proof. apply preserves_core, core_accept. Qed.
End stable.
