(* ===== verification/Q931Refine.v ===== *)
(** * Following the state of a call through the code

    [StateInv K]: the property [K] of worlds depends on the states of the calls
    only.  An operation is [quiet] when it keeps every such property: it changes the
    state of no call and creates none.  [moves c T T' m]: if the state of [c]
    satisfies [T] before, it satisfies [T'] after [m], and no other call changes its
    state.  With it the code is shown to keep to the state machine of [Q931Machine]. *)

From stdpp Require Import base list gmap functions relations.
From Stdlib Require Import ZArith Lia.
From S2P Require Import Prelude.
From S2P Require Import Bits.
From S2P Require Import Q931Defs.
From S2P Require Import Q931Tables.
From S2P Require Import Q931Sets.
From S2P Require Import Q931IE.
From S2P Require Import Q931World.
From S2P Require Import Q931Base.
From S2P Require Import Q931Wire.
From S2P Require Import Q931Decode.
From S2P Require Import Q931Ces.
From S2P Require Import Q931Call.
From S2P Require Import Q931CallRequests.
From S2P Require Import Q931Global.
From S2P Require Import Q931CallTimers.
From S2P Require Import Q931CallEstablish.
From S2P Require Import Q931CallClearing.
From S2P Require Import Q931CallStatus.
From S2P Require Import Q931CesHandlers.
From S2P Require Import Q931Input.
From S2P Require Import Q931Machine.
From S2P Require Import Q931Core.
From S2P Require Import Q931Inv.
From S2P Require Import Q931InvOps.
Local Open Scope Z_scope.

(** ** Properties of the states *)

Class StateInv (K : q931_world → Prop) : Prop := {
  sv_ext : ∀ w w', K w → w_calls w' = w_calls w → (w_next w ≤ w_next w')%nat → K w';
  sv_call : ∀ w c r r', K w → w_calls w !! c = Some r → call_state r' = call_state r →
    K (with_call c r' w);
  sv_free : ∀ w c, K w → K (without_call c w);
}.

Definition quiet {A} (m : W A) : Prop := ∀ K, StateInv K → preserves K m.

Section quiet.

Lemma quiet_preserves {A} K `{!StateInv K} (m : W A) : quiet m → preserves K m.
Proof. intros Hm. by apply Hm. Qed.
Lemma quiet_frame {A} (m : W A) :
  (∀ w, wlp m (λ _ w', w_calls w' = w_calls w ∧ (w_next w ≤ w_next w')%nat) w) → quiet m.
Proof.
  intros Hm K HK w Hw. eapply wlp_mono; [apply Hm|]. intros a w' [H1 H2]. by eapply sv_ext.
Qed.
Lemma quiet_core {A} (m : W A) : core m → quiet m.
Proof.
  intros Hm. apply quiet_frame. intros w. eapply wlp_mono; [apply Hm|].
  intros a w' Hle. split; apply Hle.
Qed.
Lemma quiet_bind {A B} (m : W A) (k : A → W B) :
  quiet m → (∀ a, quiet (k a)) → quiet (m ≫= k).
Proof. intros Hm Hk K HK. apply preserves_bind; [by apply Hm|]. intros a. by apply Hk. Qed.
Lemma quiet_ret {A} (a : A) : quiet (mret a : W A).
Proof. apply quiet_core, core_ret. Qed.
Lemma quiet_when b (m : W unit) : quiet m → quiet (when b m).
Proof. unfold when. destruct b; [done|intros _; apply quiet_ret]. Qed.
Lemma quiet_forM {A} (l : list A) (f : A → W unit) : (∀ x, quiet (f x)) → quiet (forM l f).
Proof. intros Hf K HK. apply preserves_forM. intros x _. by apply Hf. Qed.
Lemma quiet_upd_call c f : (∀ r, call_state (f r) = call_state r) → quiet (upd_call c f).
Proof. intros Hf K HK w Hw. apply wlp_upd_call. intros r Hr. by eapply sv_call. Qed.
Lemma quiet_put_ces s q : quiet (put_ces s q).
Proof. by apply quiet_frame. Qed.
Lemma quiet_free_ces s : quiet (free_ces s).
Proof. by apply quiet_frame. Qed.
Lemma quiet_upd_intf f : quiet (upd_intf f).
Proof. by apply quiet_frame. Qed.
Lemma quiet_timers_add t : quiet (timers_add_tail t).
Proof. by apply quiet_frame. Qed.
Lemma quiet_timers_del t : quiet (timers_del t).
Proof. by apply quiet_frame. Qed.
Lemma quiet_free_call c : quiet (free_call c).
Proof. intros K HK w Hw. unfold free_call, modify, wlp. by apply (sv_free (K := K) w c). Qed.
End quiet.

Create HintDb quiet.
#[export] Hint Resolve quiet_ret quiet_put_ces quiet_free_ces quiet_upd_intf quiet_timers_add
  quiet_timers_del quiet_free_call : quiet.

Ltac quiet_step :=
  match goal with
  | |- quiet (_ ≫= _) => apply quiet_bind; [|intros ?]
  | |- quiet (when _ _) => apply quiet_when
  | |- quiet (forM _ _) => apply quiet_forM; intros ?
  | |- quiet (upd_call _ _) => apply quiet_upd_call; reflexivity
  | |- quiet (upd_ces _ _) => unfold upd_ces
  | |- quiet (ifM _ _ _) => unfold ifM
  | |- quiet (whenM _ _) => unfold whenM
  | |- quiet (if ?b then _ else _) => destruct b
  | |- quiet (match ?x with _ => _ end) => destruct x
  | |- quiet _ => progress autounfold with core
  end.
Ltac solve_quiet :=
  intros; cbv zeta;
  repeat first [ solve [apply quiet_core; eauto 3 with core] | solve [eauto 3 with quiet]
               | quiet_step; cbv zeta ].

(** ** The operations that set no state *)

Lemma quiet_call_get c : quiet (q931_call_get c).
Proof. unfold q931_call_get. solve_quiet. Qed.
Lemma quiet_call_put c : quiet (q931_call_put c).
Proof. unfold q931_call_put. solve_quiet. Qed.
#[export] Hint Resolve quiet_call_get quiet_call_put : quiet.
Lemma quiet_release_reference c : quiet (q931_call_release_reference c).
Proof. unfold q931_call_release_reference, q931_intf_del_call. solve_quiet. Qed.
Lemma quiet_put_timer t tm : quiet (put_timer t tm).
Proof. destruct t; unfold put_timer; solve_quiet. Qed.
#[export] Hint Resolve quiet_release_reference quiet_put_timer : quiet.
Lemma quiet_start_timer t x : quiet (q931_start_timer t x).
Proof. unfold q931_start_timer. solve_quiet. Qed.
#[export] Hint Resolve quiet_start_timer : quiet.
Lemma quiet_start_timer_delta t x : quiet (q931_start_timer_delta t x).
Proof. unfold q931_start_timer_delta. solve_quiet. Qed.
Lemma quiet_stop_timer t : quiet (q931_stop_timer t).
Proof. unfold q931_stop_timer. solve_quiet. Qed.
#[export] Hint Resolve quiet_start_timer_delta quiet_stop_timer : quiet.
Lemma quiet_call_start_timer c t : quiet (q931_call_start_timer c t).
Proof. unfold q931_call_start_timer, call_start_timer. solve_quiet. Qed.
Lemma quiet_call_restart_timer c t : quiet (q931_call_restart_timer c t).
Proof. unfold q931_call_restart_timer, call_restart_timer. solve_quiet. Qed.
Lemma quiet_call_stop_timer c t : quiet (q931_call_stop_timer c t).
Proof. unfold q931_call_stop_timer, call_stop_timer. solve_quiet. Qed.
#[export] Hint Resolve quiet_call_start_timer quiet_call_restart_timer
  quiet_call_stop_timer : quiet.
Lemma quiet_call_stop_any_timer c : quiet (q931_call_stop_any_timer c).
Proof. unfold q931_call_stop_any_timer. solve_quiet. Qed.
#[export] Hint Resolve quiet_call_stop_any_timer : quiet.

Lemma quiet_channel_release o : quiet (q931_channel_release o).
Proof. unfold q931_channel_release. solve_quiet. Qed.
Lemma quiet_take_channel c i : quiet (take_channel c i).
Proof. unfold take_channel. solve_quiet. Qed.
#[export] Hint Resolve quiet_channel_release quiet_take_channel : quiet.
Lemma quiet_channel_select_response c ies : quiet (q931_channel_select_response c ies).
Proof. unfold q931_channel_select_response. solve_quiet. Qed.
Lemma quiet_channel_acquire c : quiet (q931_channel_acquire c).
Proof. unfold q931_channel_acquire. solve_quiet. Qed.
Lemma quiet_on_channel c (f : option nat → W unit) :
  (∀ o, quiet (f o)) → quiet (on_channel c f).
Proof. unfold on_channel. solve_quiet. Qed.
#[export] Hint Resolve quiet_channel_select_response quiet_channel_acquire
  quiet_on_channel : quiet.

Lemma quiet_ces_alloc c d : quiet (q931_ces_alloc c d).
Proof. unfold q931_ces_alloc. solve_quiet. Qed.
Lemma quiet_ces_free s : quiet (q931_ces_free s).
Proof. unfold q931_ces_free. solve_quiet. Qed.
Lemma quiet_ces_start_timer s t : quiet (q931_ces_start_timer s t).
Proof. unfold q931_ces_start_timer. solve_quiet. Qed.
Lemma quiet_ces_stop_timer s t : quiet (q931_ces_stop_timer s t).
Proof. unfold q931_ces_stop_timer. solve_quiet. Qed.
Lemma quiet_ces_set_state s st : quiet (q931_ces_set_state s st).
Proof. unfold q931_ces_set_state. solve_quiet. Qed.
#[export] Hint Resolve quiet_ces_alloc quiet_ces_free quiet_ces_start_timer
  quiet_ces_stop_timer quiet_ces_set_state : quiet.
Lemma quiet_ces_stop_any_timer s : quiet (q931_ces_stop_any_timer s).
Proof. unfold q931_ces_stop_any_timer. solve_quiet. Qed.
Lemma quiet_ces_not_compatible s m : quiet (q931_ces_message_not_compatible_with_state s m).
Proof. unfold q931_ces_message_not_compatible_with_state, q931_ces_send_ces_status. solve_quiet. Qed.
Lemma quiet_ces_send_ces_status s ies : quiet (q931_ces_send_ces_status s ies).
Proof. unfold q931_ces_send_ces_status. solve_quiet. Qed.
#[export] Hint Resolve quiet_ces_stop_any_timer quiet_ces_not_compatible
  quiet_ces_send_ces_status : quiet.
Lemma quiet_ces_alerting_request s ies : quiet (q931_ces_alerting_request s ies).
Proof. unfold q931_ces_alerting_request, ces_from_null. solve_quiet. Qed.
Lemma quiet_ces_connect_request s ies : quiet (q931_ces_connect_request s ies).
Proof. unfold q931_ces_connect_request, ces_from_null. solve_quiet. Qed.
Lemma quiet_ces_call_proceeding_request s ies : quiet (q931_ces_call_proceeding_request s ies).
Proof. unfold q931_ces_call_proceeding_request, ces_from_null. solve_quiet. Qed.
Lemma quiet_ces_setup_ack_request s ies : quiet (q931_ces_setup_ack_request s ies).
Proof. unfold q931_ces_setup_ack_request, ces_from_null. solve_quiet. Qed.
Lemma quiet_ces_release_request s ies : quiet (q931_ces_release_request s ies).
Proof. unfold q931_ces_release_request. solve_quiet. Qed.
Lemma quiet_ces_info_request s ies : quiet (q931_ces_info_request s ies).
Proof. unfold q931_ces_info_request. solve_quiet. Qed.
Lemma quiet_ces_status_enquiry_request s ies : quiet (q931_ces_status_enquiry_request s ies).
Proof. unfold q931_ces_status_enquiry_request. solve_quiet. Qed.
#[export] Hint Resolve quiet_ces_alerting_request quiet_ces_connect_request
  quiet_ces_call_proceeding_request quiet_ces_setup_ack_request quiet_ces_release_request
  quiet_ces_info_request quiet_ces_status_enquiry_request : quiet.
Lemma quiet_for_each_ces c (body : nat → W unit) :
  (∀ s, quiet (body s)) → quiet (for_each_ces c body).
Proof.
  intros Hb. unfold for_each_ces. apply quiet_bind; [solve_quiet|]. intros r.
  induction (call_ces r) as [|s l IH]; cbn [ces_for_each]; solve_quiet.
Qed.
Lemma quiet_for_each_ces_safe c (body : nat → W unit) :
  (∀ s, quiet (body s)) → quiet (for_each_ces_safe c body).
Proof.
  intros Hb. unfold for_each_ces_safe. apply quiet_bind; [solve_quiet|]. intros r.
  induction (call_ces r) as [|s l IH]; cbn [ces_for_each_safe]; solve_quiet.
Qed.
#[export] Hint Resolve quiet_for_each_ces quiet_for_each_ces_safe : quiet.
Lemma quiet_resend_setup c : quiet (resend_setup c).
Proof. unfold resend_setup. solve_quiet. Qed.
Lemma quiet_save_cause c ies : quiet (save_cause c ies).
Proof. unfold save_cause. solve_quiet. Qed.
Lemma quiet_call_save_cause c ies : quiet (q931_save_cause c ies).
Proof. unfold q931_save_cause. solve_quiet. Qed.
Lemma quiet_primitive_of_freed c p m : quiet (primitive_of_freed c p m).
Proof. unfold primitive_of_freed. solve_quiet. Qed.
Lemma quiet_status_release c m : quiet (status_release c m).
Proof. unfold status_release. solve_quiet. Qed.
#[export] Hint Resolve quiet_resend_setup quiet_save_cause quiet_call_save_cause
  quiet_primitive_of_freed quiet_status_release : quiet.
Lemma quiet_new_ces c m (ies : W q931_ies) : core ies → quiet (release_new_ces c m ies).
Proof. unfold release_new_ces. solve_quiet. Qed.

(** ** The code keeps to the state machine of [Q931Machine] *)

(** ** Following one call *)

(** since [w0] no call has changed its state but [c], whose state is in [T], and no
    call is new *)
Definition track (c : nat) (w0 : q931_world) (T : q931_call_state → Prop)
    (w : q931_world) : Prop :=
  (w_next w0 ≤ w_next w)%nat ∧
  ∀ y r', w_calls w !! y = Some r' → ∃ r, w_calls w0 !! y = Some r ∧
    (y = c → T (call_state r')) ∧ (y ≠ c → call_state r' = call_state r).

Definition moves {A} (c : nat) (T T' : q931_call_state → Prop) (m : W A) : Prop :=
  ∀ w0 w, track c w0 T w → wlp m (λ _, track c w0 T') w.

#[export] Instance track_inv c w0 T : StateInv (track c w0 T).
Proof.
  split.
  - intros w w' [Hn Hw] Hc ?. split; [lia|]. by rewrite Hc.
  - intros w x r r' [Hn Hw] Hr Hs. split; [done|]. intros y ry. simpl.
    intros [[<- <-]|[Hne Hy]]%lookup_insert_Some; [|by apply Hw].
    rewrite Hs. by apply Hw.
  - intros w x [Hn Hw]. split; [done|]. intros y ry. simpl.
    intros [_ Hy]%lookup_delete_Some. by apply Hw.
Qed.

Section moves.
Context {A B : Type}.
Implicit Types (c : nat) (T : q931_call_state → Prop).

Lemma track_weaken c w0 T T' w : (∀ s, T s → T' s) → track c w0 T w → track c w0 T' w.
Proof.
  intros HT [Hn Hw]. split; [done|]. intros y r' Hy. destruct (Hw y r' Hy) as (r & H0 & H1 & H2). exists r.
  split; [done|]. split; [|done]. intros E. by apply HT, H1.
Qed.
Lemma moves_quiet c T T' (m : W A) : quiet m → (∀ s, T s → T' s) → moves c T T' m.
Proof.
  intros Hm HT w0 w Hw. eapply wlp_mono; [by apply (quiet_preserves (track c w0 T))|].
  intros ? w'. by apply track_weaken.
Qed.
Lemma moves_fail c T T' f : moves c T T' (fail f : W A).
Proof. by intros w0 w. Qed.
Lemma moves_bind_quiet c T T' (m : W A) (k : A → W B) :
  quiet m → (∀ a, moves c T T' (k a)) → moves c T T' (m ≫= k).
Proof.
  intros Hm Hk w0 w Hw. eapply wlp_bind_preserves; [|exact Hw|].
  - by apply (quiet_preserves (track c w0 T)).
  - intros a w' Hw'. by apply Hk.
Qed.
Lemma moves_bind c T U T' (m : W A) (k : A → W B) :
  moves c T U m → (∀ a, moves c U T' (k a)) → moves c T T' (m ≫= k).
Proof.
  intros Hm Hk w0 w Hw. apply wlp_bind. eapply wlp_mono; [by apply Hm|].
  intros a w' Hw'. by apply Hk.
Qed.
Lemma moves_assoc {D} c T T' (m : W A) (h : A → W D) (k : D → W B) :
  moves c T T' (m ≫= λ a, h a ≫= k) → moves c T T' ((m ≫= h) ≫= k).
Proof.
  intros Hm w0 w Hw. specialize (Hm w0 w Hw). unfold wlp, mbind, M_bind in *.
  by destruct (m w) as [[a w']|].
Qed.
Lemma moves_when_true c T T' (m : W unit) (k : unit → W B) :
  moves c T T' (m ≫= k) → moves c T T' (when true m ≫= k).
Proof. done. Qed.
Lemma moves_set_state c T T' st : T' st → moves c T T' (q931_call_set_state c st).
Proof.
  intros Hst w0 w Hw. unfold q931_call_set_state. eapply wlp_bind_preserves; [|exact Hw|].
  - apply (quiet_preserves (track c w0 T)). solve_quiet.
  - intros ? w' Hw'. apply wlp_upd_call. intros r Hr.
    destruct Hw' as [Hn' Hw']. split; [done|]. intros y ry. simpl.
    intros [[<- <-]|[Hne Hy]]%lookup_insert_Some.
    + destruct (Hw' _ _ Hr) as (r0 & H0 & _). exists r0. by split_and!.
    + destruct (Hw' _ _ Hy) as (r0 & H0 & _ & H2). exists r0. by split_and!; [|intros ->|].
Qed.
Lemma moves_read_call c T T' (k : q931_call → W B) :
  (∀ r, T (call_state r) → moves c (eq (call_state r)) T' (k r)) →
  moves c T T' (read_call c ≫= k).
Proof.
  intros Hk w0 w Hw. apply wlp_bind, wlp_read_call. intros r Hr.
  destruct Hw as [Hn Hw]. destruct (Hw _ _ Hr) as (r0 & H0 & HT & _).
  apply Hk; [by apply HT|]. split; [done|]. intros y ry Hy. destruct (Hw _ _ Hy) as (r1 & H1 & _ & H2). exists r1. split_and!; [done| |done].
  intros ->. by simplify_eq.
Qed.
Lemma moves_getc_state c T T' (k : q931_call_state → W B) :
  (∀ s, T s → moves c (eq s) T' (k s)) → moves c T T' (getc c call_state ≫= k).
Proof.
  intros Hk w0 w Hw. pose proof (moves_read_call c T T' (λ r, k (call_state r))) as H.
  unfold getc, wlp, mbind, M_bind, mret, M_ret. specialize (H (λ r, Hk (call_state r)) w0 w Hw).
  unfold wlp, mbind, M_bind in H. by destruct (read_call c w) as [[r w']|].
Qed.
(** a run from a world where [c] is in state [s], or has been freed *)
Lemma moves_run c s T (m : W A) w :
  (∀ r, w_calls w !! c = Some r → call_state r = s) → moves c (eq s) T m →
  wlp m (λ _, track c w T) w.
Proof.
  intros Hs Hm. apply Hm. split; [done|]. intros y ry Hy. exists ry. split_and!; [done| |done].
  intros ->. symmetry. by apply Hs.
Qed.
End moves.

(** the successors of [s] in the table [l], and [s] itself *)
Definition within (s : q931_call_state) (l : states) (s' : q931_call_state) : Prop :=
  s' ∈ s :: l.

Create HintDb moves.
#[export] Hint Unfold enter cleared dereferenced disconnected release_to_null
  release_after_disconnect reject_response link_lost active_link_lost abort_or_null
  disconnect_with_tones abort_broadcast disconnect_u11 disconnect_n12 with_ies with_new_ces
  connect_new_ces connected status_in_null status_in_release status_in_call only_in
  release_new_ces : moves.

(** membership in a table, by computation *)
Ltac in_table :=
  unfold within;
  solve [ apply (bool_decide_unpack _); vm_compute; exact I
        | intros ? <-; apply (bool_decide_unpack _); vm_compute; exact I
        | intros ? ?; assumption | reflexivity ].

Ltac moves_step :=
  match goal with
  | |- moves _ _ _ (fail _) => apply moves_fail
  | |- moves _ _ _ (q931_call_set_state _ _) => apply moves_set_state; in_table
  | |- moves ?c (eq _) _ (getc ?c call_state ≫= _) =>
      apply moves_getc_state; intros ? <-; cbv beta iota
  | |- moves ?c (eq _) _ (read_call ?c ≫= _) =>
      apply moves_read_call; let r := fresh "r" in let H := fresh in
      intros r H; rewrite <- H; cbv beta iota
  | |- moves _ _ _ (q931_call_set_state _ ?st ≫= _) =>
      apply (moves_bind _ _ (eq st)); [apply moves_set_state; reflexivity|intros _]
  | |- moves _ _ _ (_ ≫= _) => apply moves_bind_quiet; [solve [solve_quiet]|intros ?]
  | |- moves _ _ _ ((_ ≫= _) ≫= _) => apply moves_assoc
  | |- moves _ _ _ (when (bool_decide (?a = ?b)) _ ≫= _) =>
      first [ rewrite (bool_decide_false (a = b)) by discriminate
            | rewrite (bool_decide_true (a = b)) by reflexivity ]
  | |- moves _ _ _ (when true _ ≫= _) => apply moves_when_true
  | |- moves _ _ ?T (_ ≫= _) => apply (moves_bind _ _ T); [|intros ?]
  | |- moves _ _ _ (when (bool_decide (?a = ?b)) _) =>
      first [ rewrite (bool_decide_false (a = b)) by discriminate
            | rewrite (bool_decide_true (a = b)) by reflexivity ]
  | |- moves _ _ _ (when true ?m) => unfold when; cbv iota
  | |- moves _ _ _ (when ?b _) => destruct b eqn:?; unfold when
  | |- moves _ _ _ (ifM _ _ _) => unfold ifM
  | |- moves _ _ _ (whenM _ _) => unfold whenM
  | |- moves _ _ _ (if decide (?a = ?b) then _ else _) =>
      destruct (decide (a = b)); [try discriminate|try congruence]
  | |- moves _ _ _ (if ?b then _ else _) => destruct b eqn:?
  | |- moves _ _ _ (match ?x with _ => _ end) => destruct x eqn:?
  | |- moves _ _ _ _ => progress autounfold with moves
  | |- moves _ _ _ _ => apply moves_quiet; [solve [solve_quiet]|in_table]
  end.
Ltac solve_moves := cbv zeta; repeat (moves_step; cbv zeta).

(** an operation with a table of its own that is part of the one to be shown *)
Lemma moves_table {A} c s l l' (m : W A) :
  moves c (eq s) (within s l) m → forallb (λ x, bool_decide (x ∈ s :: l')) l = true →
  moves c (eq s) (within s l') m.
Proof.
  intros Hm Hl w0 w Hw. eapply wlp_mono; [by apply Hm|]. intros ? w'.
  apply track_weaken. intros x [->|Hx]%elem_of_cons; [left|].
  rewrite forallb_forall in Hl. apply list_elem_of_In, Hl in Hx.
  by apply bool_decide_eq_true in Hx.
Qed.

(** ** Primitives of the call control block *)

Lemma moves_request p c ies s :
  moves c (eq s) (within s (request_next p s)) (q931_ccb_dispatch p c ies).
Proof.
  destruct p; cbn [q931_ccb_dispatch];
    [ unfold q931_alerting_request | unfold q931_disconnect_request
    | unfold q931_info_request | unfold q931_more_info_request | unfold q931_notify_request
    | unfold q931_proceeding_request | unfold q931_progress_request
    | unfold q931_reject_request | unfold q931_release_request | unfold q931_resume_request
    | unfold q931_resume_reject_request | unfold q931_resume_response
    | unfold q931_setup_complete_request | unfold q931_setup_request
    | unfold q931_setup_response | unfold q931_status_enquiry_request, call_status_enquiry
    | unfold q931_suspend_reject_request | unfold q931_suspend_response
    | unfold q931_suspend_request ];
    destruct s; solve_moves.
Qed.

(** ** The indications of the terminals of a bus *)

Lemma moves_int_alerting c x ies s :
  moves c (eq s) (within s (terminal_next TerminalAlerting s))
    (q931_int_alerting_indication c x ies).
Proof. unfold q931_int_alerting_indication. destruct s; solve_moves. Qed.
Lemma moves_int_connect c x ies s :
  moves c (eq s) (within s (terminal_next TerminalConnect s))
    (q931_int_connect_indication c x ies).
Proof. unfold q931_int_connect_indication. destruct s; solve_moves. Qed.
Lemma moves_int_call_proceeding c x ies s :
  moves c (eq s) (within s (terminal_next TerminalProceeding s))
    (q931_int_call_proceeding_indication c x ies).
Proof. unfold q931_int_call_proceeding_indication. destruct s; solve_moves. Qed.
Lemma moves_int_release_complete c x ies s :
  moves c (eq s) (within s (terminal_next TerminalReleaseComplete s))
    (q931_int_release_complete_indication c x ies).
Proof. unfold q931_int_release_complete_indication. destruct s; solve_moves. Qed.
Lemma moves_int_info c x ies s :
  moves c (eq s) (within s (terminal_next TerminalInfo s)) (q931_int_info_indication c x ies).
Proof. unfold q931_int_info_indication. destruct s; solve_moves. Qed.
Lemma moves_int_progress c x ies s :
  moves c (eq s) (within s (terminal_next TerminalProgress s))
    (q931_int_progress_indication c x ies).
Proof. unfold q931_int_progress_indication. destruct s; solve_moves. Qed.
Lemma moves_int_release c x ies s :
  moves c (eq s) (within s (terminal_next TerminalRelease s))
    (q931_int_release_indication c x ies).
Proof. unfold q931_int_release_indication. destruct s; solve_moves. Qed.

(** ** Timers *)

Lemma moves_timer t c s :
  moves c (eq s) (within s (timer_next t s)) (q931_call_timer_func t c).
Proof.
  destruct t; cbn [q931_call_timer_func];
    [ unfold q931_timer_T301 | unfold q931_timer_T302 | unfold q931_timer_T303
    | unfold q931_timer_T304 | unfold q931_timer_T305 | unfold q931_timer_T306
    | unfold q931_timer_T308 | unfold q931_timer_T309 | unfold q931_timer_T310
    | unfold q931_timer_T312 | unfold q931_timer_T313 | unfold q931_timer_T314
    | unfold q931_timer_T316 | unfold q931_timer_T318 | unfold q931_timer_T319
    | unfold q931_timer_T320 | unfold q931_timer_T321 | unfold q931_timer_T322 ];
    destruct s; solve_moves.
Qed.

(** ** The data link and the restart procedure *)

Lemma moves_link_up c s :
  moves c (eq s) (within s (link_up_next s)) (q931_call_dl_establish_indication c).
Proof. unfold q931_call_dl_establish_indication. destruct s; solve_moves. Qed.
Lemma moves_link_confirm c s : moves c (eq s) (eq s) (q931_call_dl_establish_confirm c).
Proof. unfold q931_call_dl_establish_confirm. destruct s; solve_moves. Qed.
Lemma moves_link_lost c s :
  moves c (eq s) (within s (link_lost_next s)) (q931_call_dl_release_indication c).
Proof. unfold q931_call_dl_release_indication. destruct s; solve_moves. Qed.
Lemma moves_restart c ies s :
  moves c (eq s) (within s (restart_next s)) (q931_restart_request c ies).
Proof. unfold q931_restart_request. destruct s; solve_moves. Qed.

(** ** The messages of the peer keep to the state machine of [Q931Machine] *)

Lemma moves_not_compatible c m st s :
  moves c (eq s) (within s (unexpected_next s)) (message_not_compatible c m st).
Proof.
  unfold message_not_compatible. destruct s; solve_moves.
Qed.

Lemma moves_unrecognized c s :
  moves c (eq s) (within s (unrecognized_next s)) (unrecognized_message c).
Proof.
  unfold unrecognized_message. destruct s; solve_moves.
Qed.

Ltac message_step :=
  match goal with
  | |- moves _ _ _ (q931_call_message_not_compatible_with_state _ _) =>
      eapply moves_table; [apply moves_not_compatible|vm_compute; reflexivity]
  | |- moves _ _ _ (q931_call_message_not_compatible_with_state_n6 _ _) =>
      eapply moves_table; [apply moves_not_compatible|vm_compute; reflexivity]
  | _ => moves_step
  end.
Ltac solve_message := cbv zeta; repeat (message_step; cbv zeta).

Lemma moves_handle_alerting c m s :
  moves c (eq s) (within s (alerting_next s)) (q931_handle_alerting c m).
Proof.
  unfold q931_handle_alerting. destruct s; solve_message.
Qed.
Lemma moves_handle_call_proceeding c m s :
  moves c (eq s) (within s (call_proceeding_next s)) (q931_handle_call_proceeding c m).
Proof.
  unfold q931_handle_call_proceeding. destruct s; solve_message.
Qed.
Lemma moves_handle_connect c m s :
  moves c (eq s) (within s (connect_next s)) (q931_handle_connect c m).
Proof.
  unfold q931_handle_connect. destruct s; solve_message.
Qed.
Lemma moves_handle_connect_acknowledge c m s :
  moves c (eq s) (within s (connect_acknowledge_next s)) (q931_handle_connect_acknowledge c m).
Proof.
  unfold q931_handle_connect_acknowledge. destruct s; solve_message.
Qed.
Lemma moves_handle_progress c m s :
  moves c (eq s) (within s (unexpected_next s)) (q931_handle_progress c m).
Proof.
  unfold q931_handle_progress. destruct s; solve_message.
Qed.
Lemma moves_handle_setup c m s :
  moves c (eq s) (within s (setup_next s)) (q931_handle_setup c m).
Proof.
  unfold q931_handle_setup. destruct s; solve_message.
Qed.
Lemma moves_handle_setup_acknowledge c m s :
  moves c (eq s) (within s (setup_acknowledge_next s)) (q931_handle_setup_acknowledge c m).
Proof.
  unfold q931_handle_setup_acknowledge. destruct s; solve_message.
Qed.
Lemma moves_handle_disconnect c m s :
  moves c (eq s) (within s (disconnect_next s)) (q931_handle_disconnect c m).
Proof.
  unfold q931_handle_disconnect. destruct s; solve_message.
Qed.
Lemma moves_handle_release c m s :
  moves c (eq s) (within s (release_next s)) (q931_handle_release c m).
Proof.
  unfold q931_handle_release. destruct s; solve_message.
Qed.
Lemma moves_handle_release_complete c m s :
  moves c (eq s) (within s (release_complete_next s)) (q931_handle_release_complete c m).
Proof.
  unfold q931_handle_release_complete. destruct s; solve_message.
Qed.
Lemma moves_handle_status c m s :
  moves c (eq s) (within s (status_next s)) (q931_handle_status c m).
Proof.
  unfold q931_handle_status. destruct s; solve_message.
Qed.
Lemma moves_handle_status_enquiry c m s :
  moves c (eq s) (within s []) (q931_handle_status_enquiry c m).
Proof.
  unfold q931_handle_status_enquiry. destruct s; solve_message.
Qed.
Lemma moves_handle_info c m s :
  moves c (eq s) (within s (unexpected_next s)) (q931_handle_info c m).
Proof.
  unfold q931_handle_info. destruct s; solve_message.
Qed.
Lemma moves_handle_notify c m s :
  moves c (eq s) (within s []) (q931_handle_notify c m).
Proof.
  unfold q931_handle_notify. destruct s; solve_message.
Qed.
Lemma moves_handle_resume c m s :
  moves c (eq s) (within s (resume_next s)) (q931_handle_resume c m).
Proof.
  unfold q931_handle_resume. destruct s; solve_message.
Qed.
Lemma moves_handle_resume_acknowledge c m s :
  moves c (eq s) (within s (resume_acknowledge_next s)) (q931_handle_resume_acknowledge c m).
Proof.
  unfold q931_handle_resume_acknowledge. destruct s; solve_message.
Qed.
Lemma moves_handle_resume_reject c m s :
  moves c (eq s) (within s (resume_reject_next s)) (q931_handle_resume_reject c m).
Proof.
  unfold q931_handle_resume_reject. destruct s; solve_message.
Qed.
Lemma moves_handle_suspend c m s :
  moves c (eq s) (within s (suspend_next s)) (q931_handle_suspend c m).
Proof.
  unfold q931_handle_suspend. destruct s; solve_message.
Qed.
Lemma moves_handle_suspend_acknowledge c m s :
  moves c (eq s) (within s (suspend_acknowledge_next s)) (q931_handle_suspend_acknowledge c m).
Proof.
  unfold q931_handle_suspend_acknowledge. destruct s; solve_message.
Qed.
Lemma moves_handle_suspend_reject c m s :
  moves c (eq s) (within s (suspend_reject_next s)) (q931_handle_suspend_reject c m).
Proof.
  unfold q931_handle_suspend_reject. destruct s; solve_message.
Qed.

(** ** The dispatch of messages *)

Lemma moves_dispatch_message c m s :
  moves c (eq s) (within s (message_next (msg_message_type m) s)) (q931_dispatch_message c m).
Proof.
  unfold q931_dispatch_message, message_next. cbv zeta.
  apply moves_bind_quiet; [solve_quiet|intros _].
  repeat (case_match;
    [first
      [ apply moves_handle_alerting | apply moves_handle_call_proceeding
      | apply moves_handle_connect | apply moves_handle_connect_acknowledge
      | apply moves_handle_progress | apply moves_handle_setup
      | apply moves_handle_setup_acknowledge | apply moves_handle_disconnect
      | apply moves_handle_release | apply moves_handle_release_complete
      | apply moves_handle_status | apply moves_handle_status_enquiry
      | apply moves_handle_info | apply moves_handle_notify | apply moves_handle_resume
      | apply moves_handle_resume_acknowledge | apply moves_handle_resume_reject
      | apply moves_handle_suspend | apply moves_handle_suspend_acknowledge
      | apply moves_handle_suspend_reject ]|]).
  eapply moves_bind; [apply moves_unrecognized|intros _].
  apply moves_quiet; [solve_quiet|done].
Qed.
