(* ===== verification/Q931Scenario.v ===== *)
(** * The reachable states of an interface

    [reachable e0 w0 e w]: [w] comes about from [w0] by the entry points, each of
    which completed; [e c] is the number of references to the call [c] the
    application holds ([e0] in [w0], none in an interface just opened).  The theorems are invariants of the
    reachable states and properties of single entry points. *)

From stdpp Require Import base list gmap functions.
From Stdlib Require Import ZArith Lia.
From S2P Require Import Prelude.
From S2P Require Import Bits.
From S2P Require Import Q931Defs.
From S2P Require Import Q931Tables.
From S2P Require Import Q931Sets.
From S2P Require Import Q931IE.
From S2P Require Import Q931World.
From S2P Require Import Q931Base.
From S2P Require Import Q931Wire.
From S2P Require Import Q931Decode.
From S2P Require Import Q931Ces.
From S2P Require Import Q931Call.
From S2P Require Import Q931CallRequests.
From S2P Require Import Q931Global.
From S2P Require Import Q931CallTimers.
From S2P Require Import Q931CallEstablish.
From S2P Require Import Q931CallClearing.
From S2P Require Import Q931CallStatus.
From S2P Require Import Q931CesHandlers.
From S2P Require Import Q931Input.
From S2P Require Import Q931Core.
From S2P Require Import Q931Inv.
From S2P Require Import Q931InvOps.
From S2P Require Import Q931InvCalls.
From S2P Require Import Q931InvHandlers.
From S2P Require Import Q931InvEntry.
Local Open Scope Z_scope.

Definition unbump (c : nat) (e : nat → Z) : nat → Z :=
  λ x, if decide (x = c) then e x - 1 else e x.

Inductive reachable (e0 : nat → Z) (w0 : q931_world) : (nat → Z) → q931_world → Prop :=
| reach_start : reachable e0 w0 e0 w0
| reach_receive e w d r ret w' :
    reachable e0 w0 e w → q931_receive d r w = Done (ret, w') → reachable e0 w0 e w'
| reach_timers e w fuel ret w' :
    reachable e0 w0 e w → q931_run_timers fuel w = Done (ret, w') → reachable e0 w0 e w'
| reach_request e w p c ies w' :
    reachable e0 w0 e w → q931_ccb_dispatch p c ies w = Done (tt, w') → reachable e0 w0 e w'
| reach_restart e w d chans ies w' :
    reachable e0 w0 e w → q931_management_restart_request d chans ies w = Done (tt, w') →
    reachable e0 w0 e w'
| reach_accept e w tei d w' :
    reachable e0 w0 e w → q931_accept tei w = Done (d, w') → reachable e0 w0 e w'
| reach_new_call e w c w' :
    reachable e0 w0 e w → q931_call_alloc_out w = Done (Some c, w') →
    reachable e0 w0 (bump c e) w'
| reach_no_call e w w' :
    reachable e0 w0 e w → q931_call_alloc_out w = Done (None, w') → reachable e0 w0 e w'
| reach_get e w c w' :
    reachable e0 w0 e w → q931_call_get c w = Done (c, w') → reachable e0 w0 (bump c e) w'
| reach_put e w c w' :
    reachable e0 w0 e w → 0 < e c → q931_call_put c w = Done (tt, w') →
    reachable e0 w0 (unbump c e) w'.

(** an interface just opened *)
Definition opened (w : q931_world) : Prop :=
  ∃ type mode role net rand env, w = q931_intf_open type mode role net rand env.

(** ** The rule of induction for stable properties *)

Section stable.
Context {P : q931_call_state → Prop} {base : nat} {J : q931_world → Prop}.
Context {HJ : Stable P base J}.
Notation inv := (inv (J := J)).

Lemma refs_ext e e' w : (∀ x, e' x = e x) → refs_inv e w → refs_inv e' w.
Proof.
  intros He H. constructor; try apply H.
  - intros c. rewrite He. apply H.
  - intros c. rewrite He. apply H.
  - intros c r. rewrite He. apply H.
Qed.

Lemma wlp_elim {A} (m : W A) Q w a w' : wlp m Q w → m w = Done (a, w') → Q a w'.
Proof. unfold wlp. intros H E. by rewrite E in H. Qed.

Lemma preserves_elim {A} (m : W A) I w a w' :
  preserves I m → I w → m w = Done (a, w') → I w'.
Proof. intros Hm Hw. apply (wlp_elim m (λ _, I)). by apply Hm. Qed.

Lemma reachable_inv e0 w0 e w : inv e0 w0 → reachable e0 w0 e w → inv e w.
Proof.
  intros H0. induction 1 as [|e w d r ret w' _ IH E|e w fuel ret w' _ IH E
    |e w p c ies w' _ IH E|e w d chans ies w' _ IH E|e w tei d w' _ IH E|e w c w' _ IH E
    |e w w' _ IH E|e w c w' _ IH E|e w c w' _ IH Hc E].
  - done.
  - eapply preserves_elim; [apply inv_receive|done..].
  - eapply preserves_elim; [apply inv_run_timers|done..].
  - eapply preserves_elim; [apply inv_ccb_dispatch|done..].
  - eapply preserves_elim; [apply preserves_core, core_management_restart|done..].
  - eapply preserves_elim; [apply inv_accept|done..].
  - by apply (wlp_elim _ _ _ _ _ (inv_alloc_out e w IH) E).
  - by apply (wlp_elim _ _ _ _ _ (inv_alloc_out e w IH) E).
  - by destruct (wlp_elim _ _ _ _ _ (inv_get e c w IH) E) as (_ & ? & _).
  - assert (IH' : inv (bump c (unbump c e)) w).
    { destruct IH as [HR HJw]. split; [|done]. eapply refs_ext; [|done].
      intros x. unfold bump, unbump. case_decide; lia. }
    eapply (wlp_elim _ _ _ _ _ (inv_put (unbump c e) c _ w IH') E).
    Unshelve. unfold unbump. rewrite decide_True by done. lia.
Qed.
End stable.

(** ** Instances *)

Definition any_state (s : q931_call_state) : Prop := True.
Definition any_world (w : q931_world) : Prop := True.

#[export] Instance any_stable : Stable any_state 0 any_world.
Proof. split; unfold any_state, any_world; auto with lia. Qed.

Lemma opened_refs w : opened w → refs_inv (λ _, 0) w.
Proof.
  intros (type & mode & role & net & rand & env & ->). constructor; simpl; try done.
  - intros c _. split_and!; [done|set_solver|set_solver].
  - constructor.
Qed.

(** the network side *)
Definition network_state (s : q931_call_state) : Prop := is_network s = true.
Definition network_world (w : q931_world) : Prop :=
  intf_role (w_intf w) = LAPD_INTF_ROLE_NT ∧
  ∀ c r, w_calls w !! c = Some r →
    is_network (call_state r) = true ∧ t_pending (call_timers r T319) = false.

#[export] Instance network_stable : Stable network_state 0 network_world.
Proof.
  unfold network_state. split; try done.
  - congruence.
  - intros w c r [_ H] Hc. by apply (H c).
  - intros w c r [_ H] Hc Ht. destruct (H c r Hc). congruence.
  - intros w _. lia.
  - intros w w' Hle [H1 H2]. split.
    + by rewrite (si_role _ _ (cl_intf _ _ Hle)).
    + intros c r. rewrite (cl_calls _ _ Hle). apply H2.
  - intros w c r r' [H1 H2] Hc Hl. split; [done|]. simpl.
    intros x rx [[<- <-]|[? Hx]]%lookup_insert_Some; [|by apply (H2 x)].
    destruct (H2 c r Hc) as [H3 H4]. split; [by apply (law_state _ _ _ _ Hl)|].
    destruct (t_pending (call_timers r' T319)) eqn:E; [|done].
    destruct (law_T319 _ _ _ _ Hl E); [congruence|done].
  - intros w c [H1 H2]. split; [done|]. simpl.
    intros x rx [? Hx]%lookup_delete_Some. by apply (H2 x).
  - intros w c [H1 H2] Hc _ _. split; [done|]. simpl. rewrite H1.
    intros x rx [[<- <-]|[? Hx]]%lookup_insert_Some; [done|by apply (H2 x)].
Qed.

(** the calls of the interface have different names *)
Definition unique_names (w : q931_world) : Prop :=
  ∀ c c' r r', c ∈ intf_calls (w_intf w) → c' ∈ intf_calls (w_intf w) →
    w_calls w !! c = Some r → w_calls w !! c' = Some r' →
    call_direction r = call_direction r' → call_call_reference r = call_call_reference r' →
    c = c'.

Lemma unique_names_with_call w c r r' :
  unique_names w →
  (c ∈ intf_calls (w_intf w) → w_calls w !! c = Some r ∧
     call_direction r' = call_direction r ∧ call_call_reference r' = call_call_reference r) →
  unique_names (with_call c r' w).
Proof.
  intros H Hc x y rx ry Hx Hy. simpl in *.
  intros [[<- <-]|[? Hrx]]%lookup_insert_Some [[<- <-]|[? Hry]]%lookup_insert_Some;
    [done| | |by apply H].
  - destruct (Hc Hx) as (Hr & -> & ->). by apply H.
  - destruct (Hc Hy) as (Hr & -> & ->). by apply H.
Qed.

#[export] Instance unique_stable : Stable any_state 0 unique_names.
Proof.
  split; try done.
  - intros. lia.
  - intros w w' Hle H. unfold unique_names.
    rewrite (si_calls _ _ (cl_intf _ _ Hle)), (cl_calls _ _ Hle). apply H.
  - intros w n c H x y rx ry. simpl. rewrite !list_elem_of_filter.
    intros [_ Hx] [_ Hy]. by apply H.
  - intros w n c r H Hc Hu x y rx ry. simpl. rewrite !elem_of_app, !list_elem_of_singleton.
    intros [Hx| ->] [Hy| ->] Hrx Hry E1 E2; simplify_eq; [by eapply H| | |done].
    + by destruct (Hu x rx Hx Hrx).
    + by destruct (Hu y ry Hy Hry).
  - intros w c r r' H Hc Hl. eapply unique_names_with_call; [done|]. intros Hin.
    by destruct (law_identity _ _ _ _ Hl) as [[_ ?]|?].
  - intros w c H x y rx ry. simpl. intros Hx Hy [_ Hrx]%lookup_delete_Some [_ Hry]%lookup_delete_Some.
    by apply H.
  - intros w c H _ _ Hc. by apply (unique_names_with_call _ _ (new_call U0_NULL_STATE)).
Qed.

(** nothing of [w0] changes its identity: calls keep direction and reference or are
    gone for good, the interface keeps its configuration, the trace grows *)
Record same_identity (w0 w : q931_world) : Prop := {
  sid_next : (w_next w0 ≤ w_next w)%nat;
  sid_calls : ∀ c, (c < w_next w0)%nat →
    match w_calls w !! c with
    | None => True
    | Some r => ∃ r0, w_calls w0 !! c = Some r0 ∧ call_direction r = call_direction r0 ∧
                      call_call_reference r = call_call_reference r0
    end;
  sid_type : intf_type (w_intf w) = intf_type (w_intf w0);
  sid_mode : intf_mode (w_intf w) = intf_mode (w_intf w0);
  sid_role : intf_role (w_intf w) = intf_role (w_intf w0);
  sid_len : intf_call_reference_len (w_intf w) = intf_call_reference_len (w_intf w0);
  sid_valid : next_valid (w_intf w0) → next_valid (w_intf w);
  sid_channels : length (intf_channels (w_intf w)) = length (intf_channels (w_intf w0));
  sid_trace : w_trace w0 `prefix_of` w_trace w;
  sid_env : w_env w = w_env w0;
}.

Lemma identity_stable w0 : Stable any_state (w_next w0) (same_identity w0).
Proof.
  split; try done.
  - intros w H. apply H.
  - intros w w' Hle []. destruct (cl_intf _ _ Hle). constructor; try congruence; auto.
    + etrans; [done|apply Hle].
    + intros c. rewrite (cl_calls _ _ Hle). apply sid_calls0.
    + etrans; [done|apply Hle].
    + by rewrite (cl_env _ _ Hle).
  - intros w n c []. by constructor.
  - intros w n c r []. by constructor.
  - intros w l []. by constructor.
  - intros w m []. by constructor.
  - intros w c r r' H Hc Hl. constructor; simpl; try apply H. intros x Hx.
    destruct (decide (x = c)) as [->|Hne].
    + rewrite lookup_insert_eq. pose proof (sid_calls _ _ H c Hx) as E. rewrite Hc in E.
      destruct E as (r0 & Hr0 & E1 & E2). exists r0.
      destruct (law_identity _ _ _ _ Hl) as [[? _]|[E3 E4]]; [lia|]. by rewrite E3, E4.
    + rewrite lookup_insert_ne by done. by apply H.
  - intros w c H. constructor; simpl; try apply H. intros x Hx.
    destruct (decide (x = c)) as [->|Hne]; [by rewrite lookup_delete_eq|].
    rewrite lookup_delete_ne by done. by apply H.
  - intros w c H Hc Hb _. constructor; simpl; try apply H. intros x Hx.
    rewrite lookup_insert_ne by lia. by apply H.
Qed.

Lemma same_identity_refl e w : refs_inv e w → same_identity w w.
Proof.
  intros H. constructor; try done. intros c _. destruct (w_calls w !! c) eqn:E; eauto.
Qed.

(** ** Equations of the operations: what they do when nothing fails

    For the theorems that say that an operation completes and with which result. *)

Lemma bind_done {S A B} (m : M S A) (k : A → M S B) s a s' :
  m s = Done (a, s') → (m ≫= k) s = k a s'.
Proof. intros E. unfold mbind, M_bind. by rewrite E. Qed.
Lemma bind_fault {S A B} (m : M S A) (k : A → M S B) s f :
  m s = Fault f → (m ≫= k) s = Fault f.
Proof. intros E. unfold mbind, M_bind. by rewrite E. Qed.

(** runs the first operation of a sequence with the equation [E] for it *)
Tactic Notation "step" "with" uconstr(E) := erewrite bind_done by (eapply E; eauto).

Definition with_dlc (d : nat) (r : q931_dlc) (w : q931_world) : q931_world :=
  set_w_dlcs (<[d := r]> (w_dlcs w)) w.

Lemma with_call_same c r w : w_calls w !! c = Some r → with_call c r w = w.
Proof. intros E. unfold with_call. rewrite insert_id by done. by destruct w. Qed.
Lemma with_call_call c r r' w : with_call c r (with_call c r' w) = with_call c r w.
Proof. unfold with_call. cbn. by rewrite insert_insert_eq. Qed.
Lemma with_dlc_same d r w : w_dlcs w !! d = Some r → with_dlc d r w = w.
Proof. intros E. unfold with_dlc. rewrite insert_id by done. by destruct w. Qed.
Lemma with_dlc_dlc d r r' w : with_dlc d r (with_dlc d r' w) = with_dlc d r w.
Proof. unfold with_dlc. cbn. by rewrite insert_insert_eq. Qed.
Lemma lookup_with_dlc d r w : w_dlcs (with_dlc d r w) !! d = Some r.
Proof. apply lookup_insert_eq. Qed.
Lemma lookup_with_call c r w : w_calls (with_call c r w) !! c = Some r.
Proof. apply lookup_insert_eq. Qed.

Section step.
Context (w : q931_world).

Lemma read_call_eq c r : w_calls w !! c = Some r → read_call c w = Done (r, w).
Proof. intros E. unfold read_call. by rewrite E. Qed.
Lemma report_call_eq c r : w_calls w !! c = Some r → report_call c w = Done (tt, w).
Proof. intros E. unfold report_call. by rewrite (bind_done _ _ _ _ _ (read_call_eq c r E)). Qed.
Lemma upd_call_eq c r f : w_calls w !! c = Some r → upd_call c f w = Done (tt, with_call c (f r) w).
Proof. intros E. unfold upd_call. by rewrite (bind_done _ _ _ _ _ (read_call_eq c r E)). Qed.

Lemma read_dlc_eq d r : w_dlcs w !! d = Some r → read_dlc d w = Done (r, w).
Proof. intros E. unfold read_dlc. by rewrite E. Qed.
Lemma report_dlc_eq d r :
  w_dlcs w !! d = Some r → dlc_intf r = true → report_dlc d w = Done (tt, w).
Proof.
  intros E Hi. unfold report_dlc. rewrite (bind_done _ _ _ _ _ (read_dlc_eq d r E)). by rewrite Hi.
Qed.
Lemma upd_dlc_eq d r f : w_dlcs w !! d = Some r → upd_dlc d f w = Done (tt, with_dlc d (f r) w).
Proof. intros E. unfold upd_dlc. by rewrite (bind_done _ _ _ _ _ (read_dlc_eq d r E)). Qed.

Lemma dlc_get_eq d r :
  w_dlcs w !! d = Some r → dlc_intf r = true → 0 < dlc_refcnt r →
  q931_dlc_get d w = Done (d, with_dlc d (set_dlc_refcnt (dlc_refcnt r + 1) r) w).
Proof.
  intros E Hi Hp. unfold q931_dlc_get. rewrite (bind_done _ _ _ _ _ (read_dlc_eq d r E)).
  rewrite (proj2 (Z.ltb_lt _ _) Hp). cbn [c_assert].
  rewrite (bind_done _ _ _ tt w) by done.
  rewrite (bind_done _ _ _ _ _ (report_dlc_eq d r E Hi)).
  by rewrite (bind_done _ _ _ _ _ (upd_dlc_eq d r _ E)).
Qed.
Lemma dlc_put_eq d r :
  w_dlcs w !! d = Some r → dlc_intf r = true → 1 < dlc_refcnt r →
  q931_dlc_put d w = Done (tt, with_dlc d (set_dlc_refcnt (dlc_refcnt r - 1) r) w).
Proof.
  intros E Hi Hp. unfold q931_dlc_put. rewrite (bind_done _ _ _ _ _ (read_dlc_eq d r E)).
  rewrite (proj2 (Z.ltb_lt 0 _)) by lia. rewrite Hi. cbn [c_assert].
  rewrite !(bind_done _ _ _ tt w) by done.
  rewrite (bind_done _ _ _ _ _ (report_dlc_eq d r E Hi)).
  rewrite (bind_done _ _ _ _ _ (upd_dlc_eq d r _ E)).
  unfold when. by rewrite (proj2 (Z.eqb_neq _ 0)) by lia.
Qed.
End step.

(** a reference that is taken and given back *)
Lemma dlc_get_put_same d r w :
  w_dlcs w !! d = Some r →
  with_dlc d (set_dlc_refcnt (dlc_refcnt r + 1 - 1) (set_dlc_refcnt (dlc_refcnt r + 1) r))
    (with_dlc d (set_dlc_refcnt (dlc_refcnt r + 1) r) w) = w.
Proof.
  intros E. rewrite with_dlc_dlc. replace (dlc_refcnt r + 1 - 1) with (dlc_refcnt r) by lia.
  destruct r. by apply with_dlc_same.
Qed.

(** ** Two concrete interfaces and what happens on them

    The witnesses of the theorems evaluate the model on these.  [te] is a basic
    rate interface of a user, point to point; [nt] the network side of one;
    [ntm] the network side of a bus with several terminals. *)

(** the clock moves by a millisecond with every event; the kernel never fails *)
Definition quiet_env : world_env := {|
  e_now := λ tr, 1000 * Z.of_nat (length tr);
  e_clock := λ tr, Z.of_nat (length tr);
  e_connect := λ _ _, 0;
  e_sendmsg := λ _ _, 0;
  e_time := {| mktime := tm_sec; localtime := λ _, {| tm_year := 106; tm_mon := 0;
                 tm_mday := 1; tm_hour := 0; tm_min := 0; tm_sec := 0 |} |};
  e_is_number_complete := None |}.

(** the world after [m]; the world before it if [m] meets a fault *)
Definition after {A} (m : W A) (w : q931_world) : q931_world :=
  match m w with Done (_, w') => w' | Fault _ => w end.
Definition completes {A} (m : W A) (w : q931_world) : bool :=
  match m w with Done _ => true | Fault _ => false end.
Definition fault_of {A} (m : W A) (w : q931_world) : option fault :=
  match m w with Done _ => None | Fault f => Some f end.

Lemma completes_unit (m : W unit) w : completes m w = true → m w = Done (tt, after m w).
Proof. unfold completes, after. by destruct (m w) as [[[] w']|]. Qed.
Lemma completes_ret {A} (m : W A) w :
  completes m w = true → ∃ a, m w = Done (a, after m w).
Proof. unfold completes, after. destruct (m w) as [[a w']|]; [by exists a|done]. Qed.

Definition te : q931_world :=
  q931_intf_open LAPD_INTF_TYPE_BRA LAPD_INTF_MODE_POINT_TO_POINT LAPD_INTF_ROLE_TE
    Q931_INTF_NET_PRIVATE 0 quiet_env.
Definition nt : q931_world :=
  q931_intf_open LAPD_INTF_TYPE_BRA LAPD_INTF_MODE_POINT_TO_POINT LAPD_INTF_ROLE_NT
    Q931_INTF_NET_PRIVATE 0 quiet_env.
Definition ntm : q931_world :=
  q931_intf_open LAPD_INTF_TYPE_BRA LAPD_INTF_MODE_MULTIPOINT LAPD_INTF_ROLE_NT
    Q931_INTF_NET_PRIVATE 0 quiet_env.

Definition state_of (c : nat) (w : q931_world) : option q931_call_state :=
  call_state <$> w_calls w !! c.
Definition channel_of (c : nat) (w : q931_world) : option nat :=
  w_calls w !! c ≫= call_channel.
Definition timer_running (c : nat) (t : call_timer) (w : q931_world) : bool :=
  match w_calls w !! c with Some r => t_pending (call_timers r t) | None => false end.

(** ** Frames *)

(** speech, circuit mode, 64 kbit/s, A-law *)
Definition bc_octets : list Z := [0x04; 0x03; 0x80; 0x90; 0xa3].
(** channel identification: basic rate, exclusive, B1 or B2 *)
Definition ci_octets (b : Z) : list Z := [0x18; 0x01; Z.lor 0x88 b].
(** cause [v], location user *)
Definition cause_octets (v : Z) : list Z := [0x08; 0x02; 0x80; Z.lor 0x80 v].
Definition call_state_octets (v : Z) : list Z := [0x14; 0x01; v].
(** a message from the originator of call [cr] of a basic rate interface, or to it *)
Definition frame_from (cr mt : Z) (ies : list Z) : list Z := [0x08; 0x01; cr; mt] ++ ies.
Definition frame_to (cr mt : Z) (ies : list Z) : list Z :=
  [0x08; 0x01; Z.lor 0x80 cr; mt] ++ ies.

Definition user_ies : q931_ies := [
  IE_BEARER_CAPABILITY {| bc_coding_standard := 0; bc_information_transfer_capability := 0;
    bc_transfer_mode := 0; bc_information_transfer_rate := 16;
    bc_user_information_layer_1_protocol := 3; bc_user_information_layer_2_protocol := -1;
    bc_user_information_layer_3_protocol := -1 |}].

(** ** A call from the application on [te]

    The call is object 2: 0 and 1 are the connections of the interface.  It has the
    call reference 1; the data link comes up, the call is accepted and answered. *)

Definition te_call : nat := 2.
Definition te_allocated : q931_world := after q931_call_alloc_out te.
Definition te_request : W unit := q931_ccb_dispatch Q931_CCB_SETUP_REQUEST te_call user_ies.
Definition te_calling : q931_world := after te_request te_allocated.
Definition te_linked : q931_world := after (q931_receive intf_dlc RecvIsConn) te_calling.
Definition te_receive (mt : Z) (ies : list Z) : W Z :=
  q931_receive intf_dlc (RecvFrame (frame_to 1 mt ies)).
Definition te_proceeding : q931_world :=
  after (te_receive Q931_MT_CALL_PROCEEDING (ci_octets 1)) te_linked.
Definition te_active : q931_world := after (te_receive Q931_MT_CONNECT []) te_proceeding.

Example te_active_call : state_of te_call te_active = Some U10_ACTIVE.
Proof. vm_compute. reflexivity. Qed.
