(* ===== verification/Q931Steps.v ===== *)
(** * Safety of the reachable states

    What every state that comes about from an interface just opened satisfies:
    calls are counted and do not dangle, call references are names, the network side keeps
    to its states; and the step of the state machine each stimulus is. *)

From stdpp Require Import base list gmap functions relations.
From Stdlib Require Import ZArith Lia.
From S2P Require Import Prelude.
From S2P Require Import Bits.
From S2P Require Import Q931Defs.
From S2P Require Import Q931Tables.
From S2P Require Import Q931Sets.
From S2P Require Import Q931IE.
From S2P Require Import Q931World.
From S2P Require Import Q931Base.
From S2P Require Import Q931Wire.
From S2P Require Import Q931Decode.
From S2P Require Import Q931Ces.
From S2P Require Import Q931Call.
From S2P Require Import Q931CallRequests.
From S2P Require Import Q931Global.
From S2P Require Import Q931CallTimers.
From S2P Require Import Q931CallEstablish.
From S2P Require Import Q931CallClearing.
From S2P Require Import Q931CallStatus.
From S2P Require Import Q931CesHandlers.
From S2P Require Import Q931Input.
From S2P Require Import Q931Machine.
From S2P Require Import Q931Core.
From S2P Require Import Q931Inv.
From S2P Require Import Q931InvOps.
From S2P Require Import Q931InvCalls.
From S2P Require Import Q931InvHandlers.
From S2P Require Import Q931InvEntry.
From S2P Require Import Q931Refine.
From S2P Require Import Q931Scenario.
Local Open Scope Z_scope.

Notation no_refs := (λ _ : nat, 0).

Lemma reachable_refs e0 w0 e w : refs_inv e0 w0 → reachable e0 w0 e w → refs_inv e w.
Proof. intros H0 H. by apply (reachable_inv (J := any_world) e0 w0 e w (conj H0 I) H). Qed.

Lemma opened_unique w : opened w → unique_names w.
Proof. intros (type & mode & role & net & rand & env & ->). intros c c' r r' []%not_elem_of_nil. Qed.

Lemma opened_network w :
  opened w → intf_role (w_intf w) = LAPD_INTF_ROLE_NT → network_world w.
Proof. intros (type & mode & role & net & rand & env & ->) H. by split. Qed.

(** the call of the scenario *)
Lemma te_opened : opened te.
Proof. unfold te, opened. eauto 10. Qed.

Lemma reach_after_request e0 w0 e w p c ies :
  reachable e0 w0 e w → completes (q931_ccb_dispatch p c ies) w = true →
  reachable e0 w0 e (after (q931_ccb_dispatch p c ies) w).
Proof. intros H Hc. eapply reach_request; [exact H|]. by apply completes_unit. Qed.
Lemma reach_after_receive e0 w0 e w d r :
  reachable e0 w0 e w → completes (q931_receive d r) w = true →
  reachable e0 w0 e (after (q931_receive d r) w).
Proof. intros H [a Ha]%completes_ret. eapply reach_receive; [exact H|exact Ha]. Qed.

Lemma reach_te_active : reachable no_refs te (bump te_call no_refs) te_active.
Proof.
  apply reach_after_receive; [|vm_compute; reflexivity].
  apply reach_after_receive; [|vm_compute; reflexivity].
  apply reach_after_receive; [|vm_compute; reflexivity].
  apply (reach_after_request _ _ _ _ Q931_CCB_SETUP_REQUEST); [|vm_compute; reflexivity].
  eapply reach_new_call; [apply reach_start|]. vm_compute. reflexivity.
Qed.

(** C1. Reference counting: in every state an interface can reach, the reference
    count of every call that exists is positive and is the number of references to
    it: those of the application, one of the list of calls if the call is in it,
    one per running timer of the call and one per CES. *)
Theorem reachable_references_counted w0 e w c r :
  opened w0 → reachable no_refs w0 e w → w_calls w !! c = Some r →
  0 < call_refcnt r ∧
  call_refcnt r = e c + in_list c w + pending_count r + Z.of_nat (length (call_ces r)).
Proof.
  intros H0 H Hc. pose proof (reachable_refs _ _ _ _ (opened_refs _ H0) H) as HR.
  split; [exact (ri_alive _ _ HR _ _ Hc)|exact (ri_count _ _ HR _ _ Hc)].
Qed.

Lemma reachable_references_counted_witness :
  ∃ r, w_calls te_active !! te_call = Some r ∧ call_refcnt r = 2 ∧
    call_refcnt r = bump te_call no_refs te_call + in_list te_call te_active +
                    pending_count r + Z.of_nat (length (call_ces r)).
Proof.
  eexists. split; [vm_compute; reflexivity|]. split; [reflexivity|].
  eapply (reachable_references_counted te _ te_active te_call _ te_opened reach_te_active).
  vm_compute. reflexivity.
Defined.

(** C2. Calls do not dangle: in every reachable state a call the application refers to,
    a call in the interface's list of calls and a call with a timer in the list of timers
    exists; a timer of it is in the list if and only if the call has it as running; and
    the CES in the call's list of CES exist and belong to it.  The theorem is about the
    pointers that are counted and the lists the call hangs in.  The two other pointers the
    structures hold are not safe: [reject_leaves_channel] of [Q931Faults] leaves a
    channel with a call that was freed, and [freed_ces_timer_listed] a timer with a CES
    that was. *)
Theorem reachable_no_dangling w0 e w c :
  opened w0 → reachable no_refs w0 e w →
  (0 < e c ∨ c ∈ intf_calls (w_intf w) ∨ (∃ t, TimerCall c t ∈ w_timers w)) →
  ∃ r, w_calls w !! c = Some r ∧
    (∀ t, TimerCall c t ∈ w_timers w ↔ t_pending (call_timers r t) = true) ∧
    (∀ s, s ∈ call_ces r → ∃ q, w_cess w !! s = Some q ∧ ces_call q = c).
Proof.
  intros H0 H Hc. pose proof (reachable_refs _ _ _ _ (opened_refs _ H0) H) as HR.
  destruct (w_calls w !! c) as [r|] eqn:Hr.
  - exists r. split; [done|]. split; intros; [by apply (ri_pending _ _ HR)|].
    by eapply (ri_ces _ _ HR).
  - destruct (ri_dead _ _ HR c Hr) as (E & Hl & Ht).
    destruct Hc as [?|[?|[t Ht']]]; [lia|done|]. by destruct (Ht t).
Qed.

Lemma reachable_no_dangling_witness :
  te_call ∈ intf_calls (w_intf te_active) ∧
  ∃ r, w_calls te_active !! te_call = Some r ∧
    (∀ t, TimerCall te_call t ∈ w_timers te_active ↔ t_pending (call_timers r t) = true) ∧
    (∀ s, s ∈ call_ces r → ∃ q, w_cess te_active !! s = Some q ∧ ces_call q = te_call).
Proof.
  assert (H : te_call ∈ intf_calls (w_intf te_active)) by (vm_compute; left).
  split; [exact H|].
  exact (reachable_no_dangling te _ te_active te_call te_opened reach_te_active
           (or_intror (or_introl H))).
Defined.

(** C30. Call references are names: in every reachable state two calls of the
    interface with the same direction and the same call reference are the same
    call, so a message on the wire has at most one call it can be for. *)
Theorem reachable_unique_references w0 e w c c' r r' :
  opened w0 → reachable no_refs w0 e w →
  c ∈ intf_calls (w_intf w) → c' ∈ intf_calls (w_intf w) →
  w_calls w !! c = Some r → w_calls w !! c' = Some r' →
  call_direction r = call_direction r' → call_call_reference r = call_call_reference r' →
  c = c'.
Proof.
  intros H0 H. apply (reachable_inv (J := unique_names) no_refs w0 e w); [|done].
  split; [by apply opened_refs|by apply opened_unique].
Qed.

Lemma reachable_unique_references_witness :
  ∃ r, w_calls te_active !! te_call = Some r ∧ te_call = te_call.
Proof.
  eexists. split; [vm_compute; reflexivity|].
  eapply (reachable_unique_references te _ te_active te_call te_call _ _
            te_opened reach_te_active);
    first [vm_compute; left | vm_compute; reflexivity].
Defined.

(** C3. The two sides: on an interface of the network side every call is in a state
    of the network side, whatever the peer, the application and the timers do, and
    T319, a timer of the user side, is not running. *)
Theorem reachable_network_side w0 e w c r :
  opened w0 → intf_role (w_intf w0) = LAPD_INTF_ROLE_NT → reachable no_refs w0 e w →
  w_calls w !! c = Some r →
  is_network (call_state r) = true ∧ t_pending (call_timers r T319) = false.
Proof.
  intros H0 Hr H. apply (reachable_inv (J := network_world) no_refs w0 e w); [|done].
  split; [by apply opened_refs|by apply opened_network].
Qed.

(** a call that reaches the network side, and what the network answers *)
Definition nt_setup : list Z := frame_from 1 Q931_MT_SETUP bc_octets.
Definition nt_called : q931_world := after (q931_receive intf_dlc (RecvFrame nt_setup)) nt.

Lemma reach_nt_called : reachable no_refs nt no_refs nt_called.
Proof. apply reach_after_receive; [apply reach_start|]. vm_compute. reflexivity. Qed.

Lemma reachable_network_side_witness :
  state_of 2 nt_called = Some N1_CALL_INITIATED ∧
  ∃ r, w_calls nt_called !! 2%nat = Some r ∧
    is_network (call_state r) = true ∧ t_pending (call_timers r T319) = false.
Proof.
  split; [vm_compute; reflexivity|]. eexists. split; [vm_compute; reflexivity|].
  eapply (reachable_network_side nt _ nt_called 2); [unfold nt, opened; eauto 10|reflexivity|
    exact reach_nt_called|vm_compute; reflexivity].
Defined.

(** Identity: whatever happens, a call that exists keeps its direction and its call
    reference until it is freed and no other call takes its place; the interface keeps
    its type, mode, role, call reference length and channels; and the effects so far
    are never taken back. *)
Theorem reachable_identity e0 w0 e w :
  refs_inv e0 w0 → reachable e0 w0 e w → same_identity w0 w.
Proof.
  intros H0 H. apply (reachable_inv (HJ := identity_stable w0) e0 w0 e w); [|done].
  split; [done|by eapply same_identity_refl].
Qed.

Lemma reachable_identity_witness : same_identity te te_active.
Proof.
  exact (reachable_identity no_refs te _ te_active (opened_refs te te_opened) reach_te_active).
Defined.

(** ** The state machine of a call: what every primitive, message and timer may do *)

(** from [w] to [w'] the call [c] made at most one step of the table [next_of], all
    other calls kept their states and no call is new *)
Definition one_step (next_of : q931_call_state → states) (c : nat) (w w' : q931_world)
    : Prop :=
  ∀ y r', w_calls w' !! y = Some r' → ∃ r, w_calls w !! y = Some r ∧
    if decide (y = c) then call_state r' ∈ call_state r :: next_of (call_state r)
    else call_state r' = call_state r.

Lemma moves_one_step {A} next_of c (m : W A) w a w' :
  (∀ s, moves c (eq s) (within s (next_of s)) m) → m w = Done (a, w') →
  one_step next_of c w w'.
Proof.
  intros Hm E y r' Hy.
  destruct (w_calls w !! c) as [rc|] eqn:Hc.
  - destruct (wlp_elim _ _ _ _ _ (moves_run c (call_state rc) _ m w ltac:(congruence)
      (Hm _)) E) as [_ Ht].
    destruct (Ht y r' Hy) as (r & Hr & H1 & H2). exists r. split; [done|].
    case_decide; [|by apply H2]. subst y. simplify_eq. by apply H1.
  - destruct (wlp_elim _ _ _ _ _ (moves_run c N0_NULL_STATE _ m w ltac:(congruence)
      (Hm _)) E) as [_ Ht].
    destruct (Ht y r' Hy) as (r & Hr & H1 & H2). exists r. split; [done|].
    case_decide; [|by apply H2]. congruence.
Qed.

(** C27. The state machine, primitives: a primitive of the call control block that
    completes takes its call at most one step along the table of the primitive, from the
    state it was in; no other call changes its state and no call appears. *)
Theorem request_follows_table p c ies w w' :
  q931_ccb_dispatch p c ies w = Done (tt, w') → one_step (request_next p) c w w'.
Proof. apply moves_one_step. intros s. apply moves_request. Qed.

Lemma request_follows_table_witness :
  state_of te_call te_allocated = Some U0_NULL_STATE ∧
  state_of te_call te_calling = Some U1_CALL_INITIATED ∧
  one_step (request_next Q931_CCB_SETUP_REQUEST) te_call te_allocated te_calling.
Proof.
  split; [vm_compute; reflexivity|]. split; [vm_compute; reflexivity|].
  apply (request_follows_table Q931_CCB_SETUP_REQUEST te_call user_ies).
  apply completes_unit. vm_compute. reflexivity.
Defined.

(** C28. The state machine, messages: a message of the peer, handled without a fault,
    takes the call it is for at most one step along the table of its type; no other
    call changes its state. *)
Theorem message_follows_table c m w w' :
  q931_dispatch_message c m w = Done (tt, w') →
  one_step (message_next (msg_message_type m)) c w w'.
Proof. apply moves_one_step. intros s. apply moves_dispatch_message. Qed.

Definition connect_message : q931_message := {|
  msg_dlc := intf_dlc; msg_message_type := Q931_MT_CONNECT; msg_callref := 1;
  msg_callref_len := 1; msg_callref_direction := Q931_CALLREF_FLAG_TO_ORIGINATING_SIDE;
  msg_rawies := replicate 508 0; msg_rawies_len := 0; msg_ies := [] |}.

Lemma message_follows_table_witness :
  state_of te_call te_proceeding = Some U3_OUTGOING_CALL_PROCEEDING ∧
  one_step connect_next te_call te_proceeding
    (after (q931_dispatch_message te_call connect_message) te_proceeding).
Proof.
  split; [vm_compute; reflexivity|].
  apply (message_follows_table te_call connect_message).
  apply completes_unit. vm_compute. reflexivity.
Defined.

(** C29. The state machine, timers: the function of a timer that expires takes its call
    at most one step along the table of the timer; no other call changes its state. *)
Theorem timer_follows_table t c w w' :
  q931_call_timer_func t c w = Done (tt, w') → one_step (timer_next t) c w w'.
Proof. apply moves_one_step. intros s. apply moves_timer. Qed.

Lemma timer_follows_table_witness :
  state_of te_call te_calling = Some U1_CALL_INITIATED ∧
  one_step (timer_next T303) te_call te_calling
    (after (q931_call_timer_func T303 te_call) te_calling).
Proof.
  split; [vm_compute; reflexivity|]. apply timer_follows_table.
  apply completes_unit. vm_compute. reflexivity.
Defined.
