(* ===== verification/Q931Callref.v ===== *)
(** * Call references: allocation, lookup, their form on the wire *)

From stdpp Require Import base list gmap functions.
From Stdlib Require Import ZArith Lia.
From S2P Require Import Prelude.
From S2P Require Import Bits.
From S2P Require Import Q931Defs.
From S2P Require Import Q931Tables.
From S2P Require Import Q931Sets.
From S2P Require Import Q931IE.
From S2P Require Import Q931World.
From S2P Require Import Q931Base.
From S2P Require Import Q931Wire.
From S2P Require Import Q931Decode.
From S2P Require Import Q931Ces.
From S2P Require Import Q931Call.
From S2P Require Import Q931Input.
From S2P Require Import Q931Core.
From S2P Require Import Q931Inv.
From S2P Require Import Q931InvOps.
From S2P Require Import Q931InvEntry.
From S2P Require Import Q931Scenario.
From S2P Require Import Q931Scenario.
From S2P Require Import Q931Steps.
Local Open Scope Z_scope.

(** ** Allocation *)

(** the references are cyclic: one after [cr] *)
Definition next_reference (limit cr : Z) : Z := if limit <=? cr + 1 then 1 else cr + 1.
(** the one [i] after [cr] *)
Definition nth_reference (limit cr : Z) (i : nat) : Z :=
  (cr - 1 + Z.of_nat i) mod (limit - 1) + 1.

Definition with_next_reference (n : Z) (w : q931_world) : q931_world :=
  set_w_intf (set_intf_next_call_reference n (w_intf w)) w.

Lemma nth_reference_0 limit cr : 1 ≤ cr < limit → nth_reference limit cr 0 = cr.
Proof. intros H. unfold nth_reference. rewrite Z.mod_small; lia. Qed.
Lemma nth_reference_S limit cr i :
  1 ≤ cr < limit → nth_reference limit (next_reference limit cr) i = nth_reference limit cr (S i).
Proof.
  intros H. unfold nth_reference, next_reference. destruct (Z.leb_spec limit (cr + 1)).
  - replace (cr - 1 + Z.of_nat (S i)) with (1 - 1 + Z.of_nat i + 1 * (limit - 1)) by lia.
    by rewrite Z.mod_add by lia.
  - do 2 f_equal. lia.
Qed.
Lemma next_reference_bound limit cr :
  1 ≤ cr < limit → 1 ≤ next_reference limit cr < limit.
Proof. unfold next_reference. destruct (Z.leb_spec limit (cr + 1)); lia. Qed.

Lemma callref_in_use_total l cr w :
  (∀ c, c ∈ l → is_Some (w_calls w !! c)) →
  (callref_in_use l cr w = Done (false, w) ∧
   ∀ c r, c ∈ l → w_calls w !! c = Some r →
     ¬ (call_direction r = Q931_CALL_DIRECTION_OUTBOUND ∧ call_call_reference r = cr)) ∨
  (callref_in_use l cr w = Done (true, w) ∧
   ∃ c r, c ∈ l ∧ w_calls w !! c = Some r ∧
     call_direction r = Q931_CALL_DIRECTION_OUTBOUND ∧ call_call_reference r = cr).
Proof.
  induction l as [|c l IH]; intros Hl; [left; split; [done|set_solver]|].
  destruct (Hl c) as [r Hr]; [left|].
  cbn [callref_in_use]. unfold mbind, M_bind, read_call. rewrite Hr. destruct (_ && _) eqn:E.
  - apply andb_true_iff in E as [E1%bool_decide_eq_true E2%Z.eqb_eq].
    right. split; [done|]. exists c, r. split_and!; try done. left.
  - destruct IH as [[IH H]|[IH (x & rx & ? & ?)]].
    + intros x Hx. apply Hl. by right.
    + left. split; [done|]. intros x rx [->|Hx]%elem_of_cons Hrx; [|by eapply H].
      simplify_eq. intros [E1 E2]. by rewrite bool_decide_true, E2, Z.eqb_refl in E.
    + right. split; [done|]. exists x, rx. split; [by right|done].
Qed.

Section find_free.
Context (w : q931_world) (limit : Z).
Context (Hlimit : callref_limit (intf_call_reference_len (w_intf w)) = limit).
Context (Hlive : ∀ c, c ∈ intf_calls (w_intf w) → is_Some (w_calls w !! c)).
Notation used cr := (¬ unused Q931_CALL_DIRECTION_OUTBOUND cr w).

(** the loop from reference [cr] on: the first one that is not in use, or all the
    ones it has tried are *)
Lemma find_free_loop_total fuel cr : 3 ≤ limit → 1 ≤ cr < limit →
  (∃ i, find_free_loop fuel (with_next_reference cr w) =
        Done (nth_reference limit cr i,
              with_next_reference (next_reference limit (nth_reference limit cr i)) w) ∧
        unused Q931_CALL_DIRECTION_OUTBOUND (nth_reference limit cr i) w) ∨
  (find_free_loop fuel (with_next_reference cr w) = Fault Diverges ∧
   ∀ i, (i < fuel)%nat → used (nth_reference limit cr i)).
Proof.
  intros H3. revert cr. induction fuel as [|fuel IH]; intros cr Hcr; [right; split; [done|lia]|].
  cbn [find_free_loop]. unfold mbind, M_bind, read_intf, upd_intf, modify, with_next_reference.
  cbn -[callref_limit]. rewrite Hlimit. fold (next_reference limit cr).
  pose proof (nth_reference_0 limit cr Hcr) as H0.
  destruct (callref_in_use_total (intf_calls (w_intf w)) cr
    (with_next_reference (next_reference limit cr) w)) as [[E Hu]|[E (c & r & Hc & Hr & Hd)]];
    [done|change (callref_in_use _ _ _) with (callref_in_use (intf_calls (w_intf w)) cr
       (with_next_reference (next_reference limit cr) w)); rewrite E..].
  - left. exists O. rewrite H0. split; [done|]. exact Hu.
  - assert (cr =? next_reference limit cr = false) as ->.
    { apply Z.eqb_neq. unfold next_reference. case_match; lia. }
    destruct (IH _ (next_reference_bound _ _ Hcr)) as [(i & Ei & Hi)|[Ei Hi]].
    + left. exists (S i). rewrite <- nth_reference_S by done. split; [exact Ei|exact Hi].
    + right. split; [exact Ei|]. intros [|i] Hi'.
      * rewrite H0. intros Hn. by apply (Hn c r).
      * rewrite <- nth_reference_S by done. apply Hi. lia.
Qed.

Definition outbound_references : list Z :=
  omap (λ c, r ← w_calls w !! c; mret (call_call_reference r)) (intf_calls (w_intf w)).

Lemma used_in cr : used cr → cr ∈ outbound_references.
Proof.
  intros Hu. destruct (decide (cr ∈ outbound_references)) as [|Hn]; [done|].
  destruct Hu. intros c r Hc Hr [_ <-]. apply Hn. unfold outbound_references.
  apply list_elem_of_omap. exists c. rewrite Hr. done.
Qed.

(** one iteration more than there are calls is enough *)
Lemma find_free_enough cr v : 3 ≤ limit → 1 ≤ cr < limit → 1 ≤ v < limit →
  (∀ i, (i < S (length (intf_calls (w_intf w))))%nat → used (nth_reference limit cr i)) →
  used v.
Proof.
  intros H3 Hcr Hv Hused Hunused.
  set (i0 := Z.to_nat ((v - cr) mod (limit - 1))).
  assert (Hm := Z.mod_pos_bound (v - cr) (limit - 1) ltac:(lia)).
  assert (Hi0 : nth_reference limit cr i0 = v).
  { unfold nth_reference, i0. rewrite Z2Nat.id by lia.
    rewrite Z.add_mod_idemp_r by lia. replace (cr - 1 + (v - cr)) with (v - 1) by lia.
    rewrite Z.mod_small; lia. }
  destruct (decide (i0 < S (length (intf_calls (w_intf w))))%nat) as [Hlt|Hge].
  { apply (Hused i0 Hlt). by rewrite Hi0. }
  set (n := S (length (intf_calls (w_intf w)))) in *.
  assert (Hlen : (n ≤ length outbound_references)%nat).
  { rewrite <- (length_seq n 0), <- (length_map (nth_reference limit cr)).
    apply submseteq_length, NoDup_submseteq.
    - apply NoDup_fmap_2_strong; [|apply NoDup_seq].
      intros x y Hx%elem_of_seq Hy%elem_of_seq. unfold nth_reference. intros E.
      assert (E' : (cr - 1 + Z.of_nat x) mod (limit - 1) =
                   (cr - 1 + Z.of_nat y) mod (limit - 1)) by lia.
      pose proof (Z.div_mod (cr - 1 + Z.of_nat x) (limit - 1) ltac:(lia)) as Ex.
      pose proof (Z.div_mod (cr - 1 + Z.of_nat y) (limit - 1) ltac:(lia)) as Ey.
      rewrite E' in Ex.
      generalize dependent ((cr - 1 + Z.of_nat x) / (limit - 1)). intros a Ea.
      generalize dependent ((cr - 1 + Z.of_nat y) / (limit - 1)). intros b Eb.
      assert (Z.of_nat x - Z.of_nat y = (limit - 1) * (a - b)) as Ed by lia.
      assert (a = b) by (subst i0; nia). lia.
    - intros x [i [-> Hi%elem_of_seq]]%list_elem_of_fmap. apply used_in, Hused. lia. }
  assert (length outbound_references ≤ length (intf_calls (w_intf w)))%nat; [|lia].
  unfold outbound_references. clear. induction (intf_calls (w_intf w)) as [|c l IH]; [done|].
  cbn. destruct (w_calls w !! c); simpl; lia.
Qed.
End find_free.

Lemma find_free_total w e :
  refs_inv e w → 3 ≤ callref_limit (intf_call_reference_len (w_intf w)) →
  next_valid (w_intf w) →
  match q931_intf_find_free_call_reference w with
  | Done (cr, w') =>
      1 ≤ cr < callref_limit (intf_call_reference_len (w_intf w)) ∧
      unused Q931_CALL_DIRECTION_OUTBOUND cr w ∧
      w' = with_next_reference
             (next_reference (callref_limit (intf_call_reference_len (w_intf w))) cr) w
  | Fault f => f = Diverges ∧
      ∀ cr, 1 ≤ cr < callref_limit (intf_call_reference_len (w_intf w)) →
        ¬ unused Q931_CALL_DIRECTION_OUTBOUND cr w
  end.
Proof.
  intros HR H3 Hv. set (limit := callref_limit _) in *.
  assert (Hlive : ∀ c, c ∈ intf_calls (w_intf w) → is_Some (w_calls w !! c)).
  { intros c Hc. destruct (w_calls w !! c) eqn:E; [done|].
    by destruct (ri_dead _ _ HR c E) as (_ & ? & _). }
  pose proof (find_free_loop_total w limit eq_refl Hlive (S (length (intf_calls (w_intf w))))
    _ H3 Hv) as Hl.
  replace (with_next_reference (intf_next_call_reference (w_intf w)) w) with w in Hl.
  2: { destruct w as [[] ? ? ? ? ? ? ?]. done. }
  unfold q931_intf_find_free_call_reference, mbind, M_bind, read_intf.
  destruct Hl as [(i & -> & Hi)|[-> Hi]].
  - split_and!; try done; unfold nth_reference;
      pose proof (Z.mod_pos_bound (intf_next_call_reference (w_intf w) - 1 + Z.of_nat i)
        (limit - 1)); lia.
  - split; [done|]. intros v Hv'. by apply (find_free_enough w limit _ v H3 Hv Hv').
Qed.

Lemma opened_next_valid w :
  opened w → 3 ≤ callref_limit (intf_call_reference_len (w_intf w)) ∧ next_valid (w_intf w).
Proof.
  intros (type & mode & role & net & rand & env & ->). unfold next_valid. simpl.
  assert (∀ k, 0 ≤ k → 0 ≤ Z.land rand k ≤ k) as Hland.
  { intros k Hk. split; [apply Z.land_nonneg; by right|].
    assert (0 ≤ k - Z.land rand k); [|lia].
    rewrite Z.sub_nocarry_ldiff; [apply Z.ldiff_nonneg; by left|].
    apply Z.bits_inj'. intros n Hn. rewrite Z.ldiff_spec, Z.land_spec, Z.bits_0.
    destruct (Z.testbit rand n), (Z.testbit k n); done. }
  destruct type; simpl.
  - change (callref_limit 1) with 128. change (128 - 2) with 126. pose proof (Hland 126 ltac:(lia)). lia.
  - change (callref_limit 2) with 32768. change (32768 - 2) with 32766.
    pose proof (Hland 32766 ltac:(lia)). lia.
Qed.

(** C31. Allocation of call references: in every reachable state the search returns a
    reference between 1 and the limit of the interface (127 for a basic rate, 32767
    for a primary rate) that no outbound call of the interface has, and changes nothing
    but the point where the next search starts; it does so whenever such a reference
    exists.  If none exists the loop of the code never ends. *)
Theorem reachable_find_free_reference w0 e w :
  opened w0 → reachable no_refs w0 e w →
  match q931_intf_find_free_call_reference w with
  | Done (cr, w') =>
      1 ≤ cr < callref_limit (intf_call_reference_len (w_intf w)) ∧
      unused Q931_CALL_DIRECTION_OUTBOUND cr w ∧
      w' = with_next_reference
             (next_reference (callref_limit (intf_call_reference_len (w_intf w))) cr) w
  | Fault f => f = Diverges ∧
      ∀ cr, 1 ≤ cr < callref_limit (intf_call_reference_len (w_intf w)) →
        ¬ unused Q931_CALL_DIRECTION_OUTBOUND cr w
  end.
Proof.
  intros H0 H. pose proof (reachable_refs _ _ _ _ (opened_refs _ H0) H) as HR.
  destruct (opened_next_valid _ H0) as [H3 Hv].
  pose proof (proj2 (reachable_inv (HJ := identity_stable w0) no_refs w0 e w
    (conj (opened_refs _ H0) (same_identity_refl _ _ (opened_refs _ H0))) H)) as Hid.
  eapply find_free_total; [done| |by apply (sid_valid _ _ Hid)].
  by rewrite (sid_len _ _ Hid).
Qed.

Lemma reachable_find_free_reference_witness :
  ∃ w', q931_intf_find_free_call_reference te_active = Done (2, w') ∧
        unused Q931_CALL_DIRECTION_OUTBOUND 2 te_active.
Proof.
  pose proof (reachable_find_free_reference te _ te_active te_opened reach_te_active) as H.
  assert (E : q931_intf_find_free_call_reference te_active =
              Done (2, with_next_reference 3 te_active)) by (vm_compute; reflexivity).
  rewrite E in H. destruct H as (_ & Hu & _). eexists. split; [exact E|exact Hu].
Defined.

(** ** Lookup *)

Lemma get_call_loop_found e w l c r :
  refs_inv e w → unique_names w → (∀ x, x ∈ l → x ∈ intf_calls (w_intf w)) →
  c ∈ l → w_calls w !! c = Some r →
  get_call_loop l (call_direction r) (call_call_reference r) w =
    Done (Some c, with_call c (set_call_refcnt (call_refcnt r + 1) r) w).
Proof.
  intros HR HU Hl Hc Hr. induction l as [|x l IH]; [by apply elem_of_nil in Hc|].
  destruct (w_calls w !! x) as [rx|] eqn:Hrx.
  2: { destruct (ri_dead _ _ HR x Hrx) as (_ & Hx & _). destruct Hx. apply Hl. left. }
  cbn [get_call_loop]. unfold mbind, M_bind, read_call. rewrite Hrx.
  destruct (_ && _) eqn:E.
  - apply andb_true_iff in E as [E1%bool_decide_eq_true E2%Z.eqb_eq].
    assert (x = c) as ->.
    { eapply HU; [apply Hl; left|apply Hl, Hc|done..]. }
    simplify_eq. unfold q931_call_get, upd_call, mbind, M_bind, read_call, c_assert. rewrite Hr.
    rewrite (proj2 (Z.ltb_lt _ _) (ri_alive _ _ HR _ _ Hr)). cbn. by rewrite Hr.
  - apply elem_of_cons in Hc as [->|Hc].
    + simplify_eq. by rewrite bool_decide_true, Z.eqb_refl in E.
    + apply IH; [|done]. intros y Hy. apply Hl. by right.
Qed.

Lemma get_call_loop_missing w l dir cr :
  (∀ x, x ∈ l → is_Some (w_calls w !! x)) →
  (∀ c r, c ∈ l → w_calls w !! c = Some r →
     ¬ (call_direction r = dir ∧ call_call_reference r = cr)) →
  get_call_loop l dir cr w = Done (None, w).
Proof.
  intros Hl Hu. induction l as [|x l IH]; [done|]. destruct (Hl x) as [rx Hrx]; [left|].
  cbn [get_call_loop]. unfold mbind, M_bind, read_call. rewrite Hrx.
  destruct (_ && _) eqn:E.
  - apply andb_true_iff in E as [E1%bool_decide_eq_true E2%Z.eqb_eq].
    destruct (Hu x rx); [left|done|done].
  - apply IH; intros; [apply Hl; by right|]. eapply Hu; [by right|done].
Qed.

(** C32. Lookup of call references: in every reachable state the call of the interface
    with the direction and reference of a message is found, wherever it is in the
    list, and comes with one more reference; and a direction and reference that no call
    has is not found and nothing changes.  The lookup never faults. *)
Theorem reachable_get_call_by_reference w0 e w dir cr :
  opened w0 → reachable no_refs w0 e w →
  (∃ c r, c ∈ intf_calls (w_intf w) ∧ w_calls w !! c = Some r ∧
     call_direction r = dir ∧ call_call_reference r = cr ∧
     q931_get_call_by_reference dir cr w =
       Done (Some c, with_call c (set_call_refcnt (call_refcnt r + 1) r) w)) ∨
  (unused dir cr w ∧ q931_get_call_by_reference dir cr w = Done (None, w)).
Proof.
  intros H0 H. pose proof (reachable_refs _ _ _ _ (opened_refs _ H0) H) as HR.
  assert (HU : unique_names w).
  { apply (reachable_inv (J := unique_names) no_refs w0 e w); [|done].
    split; [by apply opened_refs|by apply opened_unique]. }
  assert (Hlive : ∀ c, c ∈ intf_calls (w_intf w) → is_Some (w_calls w !! c)).
  { intros c Hc. destruct (w_calls w !! c) eqn:E; [done|].
    by destruct (ri_dead _ _ HR c E) as (_ & ? & _). }
  unfold q931_get_call_by_reference, mbind, M_bind, read_intf.
  set (named c := match w_calls w !! c with
    | Some r => bool_decide (call_direction r = dir) && (call_call_reference r =? cr)
    | None => false end).
  destruct (decide (Exists (λ c, named c = true) (intf_calls (w_intf w))))
    as [(c & Hc & Hn)%list.Exists_exists|Hn].
  - left. unfold named in Hn. destruct (w_calls w !! c) as [r|] eqn:Hr; [|done].
    apply andb_true_iff in Hn as [<-%bool_decide_eq_true <-%Z.eqb_eq].
    exists c, r. split_and!; try done. by eapply get_call_loop_found.
  - right. assert (Hu : unused dir cr w).
    { intros c r Hc Hr [<- <-]. apply Hn, list.Exists_exists. exists c. split; [done|].
      unfold named. by rewrite Hr, bool_decide_true, Z.eqb_refl. }
    split; [done|]. by apply get_call_loop_missing.
Qed.

Lemma reachable_get_call_by_reference_witness :
  ∃ c r w', c ∈ intf_calls (w_intf te_active) ∧ w_calls te_active !! c = Some r ∧
    q931_get_call_by_reference Q931_CALL_DIRECTION_OUTBOUND 1 te_active = Done (Some c, w').
Proof.
  destruct (reachable_get_call_by_reference te _ te_active Q931_CALL_DIRECTION_OUTBOUND 1
    te_opened reach_te_active) as [(c & r & Hc & Hr & _ & _ & E)|[Hu E]].
  - exists c, r. eexists. split; [exact Hc|]. split; [exact Hr|exact E].
  - vm_compute in E. discriminate E.
Defined.
