(* ===== verification/Q931Header.v ===== *)
(** * The header of a message on the wire and back

    [q931_prepare_header] and [decode_header] are inverse to each other; the flag
    tells the receiver which side the call reference belongs to. *)

From stdpp Require Import base list gmap functions.
From Stdlib Require Import ZArith Lia.
From S2P Require Import Prelude.
From S2P Require Import Bits.
From S2P Require Import Q931Defs.
From S2P Require Import Q931Tables.
From S2P Require Import Q931Sets.
From S2P Require Import Q931IE.
From S2P Require Import Q931World.
From S2P Require Import Q931Base.
From S2P Require Import Q931Wire.
From S2P Require Import Q931Decode.
From S2P Require Import Q931Ces.
From S2P Require Import Q931Call.
From S2P Require Import Q931Input.
From S2P Require Import Q931Scenario.
Local Open Scope Z_scope.

(** ** Bits of octets *)

Lemma testbit_bits v s w n : 0 ≤ s → 0 ≤ w →
  Z.testbit (bits v s w) n = ((0 <=? n) && (n <? w)) && Z.testbit v (n + s).
Proof.
  intros Hs Hw. unfold bits, mask. rewrite Z.land_spec.
  destruct (Z.leb_spec 0 n); simpl.
  - rewrite Z.shiftr_spec by lia. destruct (Z.ltb_spec n w); simpl.
    + by rewrite Z.ones_spec_low, andb_true_r by lia.
    + by rewrite Z.ones_spec_high, andb_false_r by lia.
  - by rewrite !(Z.testbit_neg_r _ n) by lia.
Qed.

Lemma testbit_shiftl v s n : 0 ≤ s →
  Z.testbit (Z.shiftl v s) n = (s <=? n) && Z.testbit v (n - s).
Proof.
  intros Hs. destruct (Z.leb_spec s n); simpl.
  - by rewrite Z.shiftl_spec by lia.
  - destruct (Z.leb_spec 0 n); [by rewrite Z.shiftl_spec_low|by rewrite Z.testbit_neg_r].
Qed.

Lemma testbit_ones k n : 0 ≤ k → Z.testbit (Z.ones k) n = (0 <=? n) && (n <? k).
Proof.
  intros Hk. destruct (Z.leb_spec 0 n); simpl; [|by rewrite Z.testbit_neg_r].
  destruct (Z.ltb_spec n k); [by rewrite Z.ones_spec_low|by rewrite Z.ones_spec_high].
Qed.

Lemma testbit_above v k n : 0 ≤ v < 2 ^ k → k ≤ n → Z.testbit v n = false.
Proof.
  intros Hv Hn. destruct (decide (v = 0)) as [->|]; [apply Z.bits_0|].
  apply Z.bits_above_log2; [lia|]. apply Z.log2_lt_pow2; [lia|].
  assert (2 ^ k ≤ 2 ^ n); [|lia]. apply Z.pow_le_mono_r; lia.
Qed.

(** equality of two numbers below [2 ^ k], bit by bit *)
Ltac bitwise k :=
  apply Z.bits_inj'; let n := fresh "n" in let Hn := fresh "Hn" in intros n Hn;
  repeat first [ rewrite Z.lor_spec | rewrite Z.land_spec | rewrite testbit_shiftl by lia
               | rewrite testbit_bits by lia | rewrite testbit_ones by lia ];
  repeat match goal with
    | |- context [?a <=? ?b] => destruct (Z.leb_spec a b); try lia
    | |- context [?a <? ?b] => destruct (Z.ltb_spec a b); try lia
    end;
  repeat match goal with
    | |- context [Z.testbit ?v ?e] =>
        first [ constr_eq e n; fail 1 | replace e with n by lia ]
    end;
  cbn [andb orb];
  rewrite ?andb_false_r, ?andb_true_r, ?orb_false_r, ?orb_false_l, ?Z.bits_0;
  try reflexivity; try (symmetry; apply (testbit_above _ k); lia);
  try (apply (testbit_above _ k); lia).

(** ** The call reference *)

Definition callref_octets (len : nat) (cr : Z) : list Z :=
  map (λ i, raw_octet cr (Z.of_nat len - 1 - Z.of_nat i)) (seq 0 len).

Lemma flag_lor o : Z.land (Z.lor o 0x80) 0x7f = Z.land o 0x7f.
Proof.
  rewrite Z.land_lor_distr_l. change (Z.land 128 127) with 0. apply Z.lor_0_r.
Qed.

Lemma flag_set o : negb (Z.land (Z.lor o 0x80) 0x80 =? 0) = true.
Proof.
  rewrite Z.land_lor_distr_l. change (Z.land 128 128) with 128.
  apply negb_true_iff, Z.eqb_neq. intros E%Z.lor_eq_0_iff. destruct E; lia.
Qed.

Lemma callref_limit_small len : 1 ≤ len ≤ 4 → 0 < callref_limit len →
  len ≤ 3 ∧ callref_limit len = 2 ^ (8 * len - 1).
Proof.
  intros Hl. assert (len = 1 ∨ len = 2 ∨ len = 3 ∨ len = 4) as [->|[->|[->| ->]]] by lia;
    vm_compute; intuition congruence.
Qed.

Definition set_flag (direction : q931_callref_flag) (os : list Z) : list Z :=
  match direction, os with
  | Q931_CALLREF_FLAG_TO_ORIGINATING_SIDE, o :: os' => Z.lor o 0x80 :: os'
  | _, _ => os
  end.

Lemma top_octet_flag cr len :
  0 ≤ len → 0 ≤ cr < 2 ^ (8 * len + 7) → Z.land (bits cr (8 * len) 8) 0x80 = 0.
Proof.
  intros Hl Hcr. change 0x80 with (Z.shiftl (Z.ones 1) 7). bitwise (8 * len + 7).
Qed.

Lemma callref_roundtrip len cr direction :
  (1 ≤ len ≤ 3)%nat → 0 ≤ cr < 2 ^ (8 * Z.of_nat len - 1) →
  decode_callref (set_flag direction (callref_octets len cr)) = (cr, direction).
Proof.
  intros Hl Hcr.
  assert (Hdec : ∀ o os, callref_octets len cr = o :: os →
    fst (decode_callref (o :: os)) = cr ∧
    fst (decode_callref (Z.lor o 128 :: os)) = cr ∧ Z.land o 0x80 = 0).
  { assert (len = 1 ∨ len = 2 ∨ len = 3)%nat as [->|[->| ->]] by lia;
      intros o os; unfold callref_octets, raw_octet; cbn [map seq]; intros [= <- <-];
      cbv [decode_callref fst snd foldl length Nat.eqb]; rewrite ?flag_lor;
      repeat match goal with |- context [Z.of_nat ?k] =>
        let z := eval vm_compute in (Z.of_nat k) in change (Z.of_nat k) with z end;
      change 0x7f with (Z.ones 7); split_and!.
    - bitwise 7.
    - bitwise 7.
    - apply (top_octet_flag cr 0); lia.
    - bitwise 15.
    - bitwise 15.
    - apply (top_octet_flag cr 1); lia.
    - bitwise 23.
    - bitwise 23.
    - apply (top_octet_flag cr 2); lia. }
  destruct (callref_octets len cr) as [|o os] eqn:E.
  { destruct len; [lia|done]. }
  destruct (Hdec o os eq_refl) as (H1 & H2 & H3).
  destruct direction; simpl set_flag.
  - rewrite (surjective_pairing (decode_callref _)), H1. unfold decode_callref, snd at 1.
    by rewrite H3.
  - rewrite (surjective_pairing (decode_callref _)), H2. unfold decode_callref, snd at 1.
    by rewrite flag_set.
Qed.

(** ** The header *)

(** the flag a side puts on the reference of a call of this direction *)
Definition flag_of (direction : q931_call_direction) : q931_callref_flag :=
  match direction with
  | Q931_CALL_DIRECTION_INBOUND => Q931_CALLREF_FLAG_TO_ORIGINATING_SIDE
  | Q931_CALL_DIRECTION_OUTBOUND => Q931_CALLREF_FLAG_FROM_ORIGINATING_SIDE
  end.

Definition header_octets (len : Z) (cr : Z) (direction : q931_callref_flag) (mt : Z)
    : list Z :=
  [Q931_PROTOCOL_DISCRIMINATOR_Q931; octet [(0, 4, 4); (len, 0, 4)]] ++
  set_flag direction (callref_octets (Z.to_nat len) cr) ++ [u8 mt].

Lemma make_callref_octets len cr direction :
  (1 ≤ len ≤ 4)%nat →
  q931_make_callref len cr direction = Done (set_flag direction (callref_octets len cr)).
Proof.
  intros Hl. unfold q931_make_callref. destruct (Nat.leb_spec len 4); [simpl negb|lia].
  fold (callref_octets len cr). destruct len; [lia|]. by destruct direction.
Qed.

Lemma length_set_flag direction os : length (set_flag direction os) = length os.
Proof. by destruct direction, os. Qed.
Lemma length_callref_octets len cr : length (callref_octets len cr) = len.
Proof. unfold callref_octets. by rewrite length_map, length_seq. Qed.
Lemma length_header_octets len cr direction mt :
  0 ≤ len → Z.of_nat (length (header_octets len cr direction mt)) = 3 + len.
Proof.
  intros Hl. unfold header_octets.
  rewrite !length_app, length_set_flag, length_callref_octets. simpl. lia.
Qed.

Lemma prepare_header_octets c r mt w :
  let len := intf_call_reference_len (w_intf w) in
  w_calls w !! c = Some r → 1 ≤ len ≤ 4 → 0 < call_call_reference r < callref_limit len →
  q931_prepare_header c mt w =
    Done (header_octets len (call_call_reference r) (flag_of (call_direction r)) mt, w).
Proof.
  intros len Hr Hl Hcr. unfold q931_prepare_header, mbind, M_bind, read_call, read_intf.
  rewrite Hr. fold len. unfold c_assert.
  rewrite (proj2 (Z.leb_le 1 len)), (proj2 (Z.leb_le len 4)) by lia.
  rewrite !(proj2 (Z.ltb_lt _ _)) by lia. cbn -[octet q931_make_callref].
  rewrite make_callref_octets by lia. cbn -[octet].
  unfold header_octets, flag_of. by destruct (call_direction r).
Qed.

Lemma decode_header_octets d len cr direction mt body n :
  1 ≤ len ≤ 3 → 0 ≤ cr < 2 ^ (8 * len - 1) → 0 ≤ mt < 256 → 0 ≤ n →
  decode_header d (header_octets len cr direction mt ++ body) (3 + len + n) =
  Some {| msg_dlc := d; msg_message_type := mt; msg_callref := cr; msg_callref_len := len;
          msg_callref_direction := direction; msg_rawies := body; msg_rawies_len := n;
          msg_ies := [] |}.
Proof.
  intros Hl Hcr Hmt Hn. unfold decode_header, header_octets.
  set (os := set_flag direction (callref_octets (Z.to_nat len) cr)).
  assert (Hos : length os = Z.to_nat len).
  { unfold os. by rewrite length_set_flag, length_callref_octets. }
  rewrite (proj2 (Z.ltb_ge _ 2)) by lia. rewrite <- !app_assoc. cbn [app nth].
  rewrite Z.eqb_refl. cbn [negb].
  assert (bits (octet [(0, 4, 4); (len, 0, 4)]) 4 4 = 0) as ->.
  { by octet_bits. }
  assert (bits (octet [(0, 4, 4); (len, 0, 4)]) 0 4 = len) as ->.
  { by octet_bits. }
  cbn [Z.eqb negb]. rewrite (proj2 (Z.ltb_ge 4 len)) by lia.
  replace (drop 2 _) with (os ++ [u8 mt] ++ body) by done.
  rewrite (take_app_length' os) by done.
  unfold os at 1. rewrite callref_roundtrip; [|lia|].
  2: { rewrite Z2Nat.id by lia. done. }
  rewrite (proj2 (Z.ltb_ge _ (2 + len + 1))) by lia.
  replace (2 + Z.to_nat len)%nat with (S (S (length os))) by lia.
  cbn [nth drop Nat.add]. rewrite nth_middle.
  replace (length os + 1)%nat with (length (os ++ [u8 mt])) by (rewrite length_app; simpl; lia).
  rewrite (cons_middle _ os body), app_assoc, drop_app_length.
  rewrite u8_small by (unfold is_octet; lia).
  do 2 f_equal. lia.
Qed.

(** The header of a message reads back: what [q931_prepare_header] writes for a
    call, followed by any elements, is decoded by the peer to the message type, the
    call reference and its length, the elements, and the flag that names the side
    which allocated the reference. *)
Theorem header_roundtrip c r w d mt body :
  let len := intf_call_reference_len (w_intf w) in
  w_calls w !! c = Some r → 1 ≤ len ≤ 4 → 0 < call_call_reference r < callref_limit len →
  0 ≤ mt < 256 →
  ∃ hdr, q931_prepare_header c mt w = Done (hdr, w) ∧
    decode_header d (hdr ++ body) (Z.of_nat (length (hdr ++ body))) =
    Some {| msg_dlc := d; msg_message_type := mt; msg_callref := call_call_reference r;
            msg_callref_len := len;
            msg_callref_direction := flag_of (call_direction r);
            msg_rawies := body; msg_rawies_len := Z.of_nat (length body); msg_ies := [] |}.
Proof.
  intros len Hr Hl Hcr Hmt. eexists. split; [by apply prepare_header_octets|].
  destruct (callref_limit_small len) as [Hl' E]; [done|lia|].
  rewrite length_app, Nat2Z.inj_add, length_header_octets by lia.
  apply decode_header_octets; lia.
Qed.

Lemma header_roundtrip_witness :
  ∃ hdr, q931_prepare_header te_call Q931_MT_SETUP te_allocated = Done (hdr, te_allocated) ∧
    hdr = [8; 1; 1; 5] ∧
    ∃ m, decode_header 1 (hdr ++ bc_octets) 9 = Some m ∧ msg_rawies m = bc_octets.
Proof.
  assert (E : ∃ r, w_calls te_allocated !! te_call = Some r ∧ call_call_reference r = 1).
  { eexists. split; vm_compute; reflexivity. }
  destruct E as (r & Hr & Hcr).
  destruct (header_roundtrip te_call r te_allocated 1 Q931_MT_SETUP bc_octets Hr)
    as (hdr & H1 & H2).
  - vm_compute. split; discriminate.
  - rewrite Hcr. vm_compute. split; reflexivity.
  - vm_compute. split; [discriminate|reflexivity].
  - exists hdr. split; [exact H1|].
    assert (E : hdr = [8; 1; 1; 5]) by (vm_compute in H1; congruence).
    split; [exact E|]. eexists. split; [rewrite E in H2 |- *; exact H2|reflexivity].
Defined.
