(* ===== verification/Q931Message.v ===== *)
(** * Messages on the wire and back

    The elements [q931_write_ies] puts behind a header are decoded by
    [q931_decode_ies] to the same elements, sorted by identifier. *)

From stdpp Require Import base list gmap functions.
From Stdlib Require Import ZArith Lia.
From S2P Require Import Prelude.
From S2P Require Import Bits.
From S2P Require Import Q931Defs.
From S2P Require Import Q931Tables.
From S2P Require Import Q931Sets.
From S2P Require Import Q931IE.
From S2P Require Import Q931IEThm.
From S2P Require Import Q931World.
From S2P Require Import Q931Base.
From S2P Require Import Q931Wire.
From S2P Require Import Q931Decode.
From S2P Require Import Q931Ces.
From S2P Require Import Q931Call.
From S2P Require Import Q931Input.
From S2P Require Import Q931Scenario.
From S2P Require Import Q931Header.
Local Open Scope Z_scope.





(** ** Writing *)





(** ** Reading *)















