(* ===== verification/Q931Faults.v ===== *)
(** * Frames without effect, and faults

    The decoder terminates on every message, and a frame without a valid header
    leaves no trace. *)

From stdpp Require Import base list gmap functions.
From Stdlib Require Import ZArith Lia.
From S2P Require Import Prelude.
From S2P Require Import Bits.
From S2P Require Import Q931Defs.
From S2P Require Import Q931Tables.
From S2P Require Import Q931Sets.
From S2P Require Import Q931IE.
From S2P Require Import Q931World.
From S2P Require Import Q931Base.
From S2P Require Import Q931Wire.
From S2P Require Import Q931Decode.
From S2P Require Import Q931Ces.
From S2P Require Import Q931Call.
From S2P Require Import Q931CallRequests.
From S2P Require Import Q931Global.
From S2P Require Import Q931CallTimers.
From S2P Require Import Q931CallEstablish.
From S2P Require Import Q931CallClearing.
From S2P Require Import Q931CallStatus.
From S2P Require Import Q931CesHandlers.
From S2P Require Import Q931Input.
From S2P Require Import Q931Core.
From S2P Require Import Q931Inv.
From S2P Require Import Q931InvOps.
From S2P Require Import Q931Scenario.
Local Open Scope Z_scope.

(** ** Termination of the decoder *)

(** with enough fuel for the octets from [pos] on, more fuel makes no difference *)
Lemma decode_ies_fuel env mt raw n :
  Forall (λ o, 0 ≤ o) raw →
  ∀ fuel fuel' pos codeset st, 0 ≤ pos →
    n - pos ≤ Z.of_nat fuel → n - pos ≤ Z.of_nat fuel' →
    decode_ies_loop fuel env mt raw n pos codeset st =
    decode_ies_loop fuel' env mt raw n pos codeset st.
Proof.
  intros Hraw. induction fuel as [|fuel IH]; intros fuel' pos codeset st Hpos Hf Hf'.
  - destruct fuel' as [|fuel']; [done|]. cbn [decode_ies_loop].
    by rewrite (proj2 (Z.leb_le n pos)) by lia.
  - destruct fuel' as [|fuel'].
    { cbn [decode_ies_loop]. by rewrite (proj2 (Z.leb_le n pos)) by lia. }
    cbn [decode_ies_loop]. destruct (Z.leb_spec n pos); [done|].
    destruct (oct raw (Z.to_nat pos)) as [id|]; [|done]. cbn [mbind outcome_bind].
    destruct (q931_is_so_ie id).
    + destruct (q931_get_so_ie_id id =? Q931_IE_SHIFT).
      * destruct (q931_decode_shift_ie (fst st) id). apply IH; lia.
      * destruct (q931_decode_ie _ _ _ _ _ _ _); [|done]. cbn [mbind outcome_bind].
        apply IH; lia.
    + destruct (oct raw (Z.to_nat (pos + 1))) as [len|] eqn:E; [|done].
      cbn [mbind outcome_bind]. destruct (q931_decode_ie _ _ _ _ _ _ _); [|done].
      cbn [mbind outcome_bind]. destruct (_ <? _); [done|].
      assert (0 ≤ len).
      { unfold oct in E. destruct (raw !! Z.to_nat (pos + 1)) as [x|] eqn:Ex; [|done].
        injection E as <-. rewrite list.Forall_forall in Hraw. apply Hraw.
        by eapply list_elem_of_lookup_2. }
      apply IH; lia.
Qed.

(** The decoder of the elements terminates: each iteration consumes at least one
    octet of the message, so as many iterations as the message has octets give the
    final result, and any larger bound gives the same one. *)
Theorem decode_ies_terminates env role m fuel :
  Forall (λ o, 0 ≤ o) (msg_rawies m) → (Z.to_nat (msg_rawies_len m) ≤ fuel)%nat →
  decode_ies_loop fuel env (msg_message_type m) (msg_rawies m) (msg_rawies_len m) 0 0
    (set_mandatory_ies (mandatory_ies_of (msg_message_type m) role) q931_decoder_status_init,
     msg_ies m) =
  q931_decode_ies env role m.
Proof. intros Hraw Hf. unfold q931_decode_ies. apply decode_ies_fuel; [done|lia..]. Qed.

Definition example_message : q931_message := {|
  msg_dlc := 0; msg_message_type := Q931_MT_SETUP; msg_callref := 1; msg_callref_len := 1;
  msg_callref_direction := Q931_CALLREF_FLAG_FROM_ORIGINATING_SIDE;
  msg_rawies := bc_octets ++ [0xa1; 0x91; 0x42]; msg_rawies_len := 8; msg_ies := [] |}.

Lemma decode_ies_terminates_witness :
  decode_ies_loop 100 (the_ie_env nt) Q931_MT_SETUP (msg_rawies example_message) 8 0 0
    (set_mandatory_ies (mandatory_ies_of Q931_MT_SETUP LAPD_INTF_ROLE_NT)
       q931_decoder_status_init, []) =
  q931_decode_ies (the_ie_env nt) LAPD_INTF_ROLE_NT example_message.
Proof.
  apply (decode_ies_terminates (the_ie_env nt) LAPD_INTF_ROLE_NT example_message 100).
  - repeat constructor; vm_compute; discriminate.
  - vm_compute. repeat constructor.
Defined.

(** ** Frames that are ignored *)

(** the buffer a frame is received into *)
Definition receive_buffer (frame : list Z) : list Z :=
  take Q931_MSG_SIZE frame ++ replicate (Q931_MSG_SIZE - length (take Q931_MSG_SIZE frame)) 0.

(** A frame that is too short, has another protocol discriminator, a call
    reference of more than four octets or a header longer than itself is ignored: the
    receiver reports [EBADMSG] and the interface is exactly what it was. *)
Theorem bad_frames_ignored d r frame w :
  w_dlcs w !! d = Some r → dlc_intf r = true → 0 < dlc_refcnt r →
  decode_header d (receive_buffer frame)
    (Z.of_nat (length (take Q931_MSG_SIZE frame))) = None →
  q931_receive d (RecvFrame frame) w = Done (- EBADMSG, w).
Proof.
  intros Hd Hi Hr Hh. unfold q931_receive.
  rewrite (bind_done _ _ _ _ _ (read_dlc_eq w d r Hd)), Hi.
  rewrite (bind_done _ _ _ tt w) by done. unfold receive_frame.
  rewrite (bind_done _ _ _ _ _ (dlc_get_eq w d r Hd Hi Hr)).
  set (r1 := set_dlc_refcnt (dlc_refcnt r + 1) r). set (w1 := with_dlc d r1 w).
  assert (H1 : w_dlcs w1 !! d = Some r1) by apply lookup_with_dlc.
  unfold receive_buffer in Hh. rewrite Hh.
  rewrite (bind_done _ _ _ (- EBADMSG) w1).
  2: { by rewrite (bind_done _ _ _ _ _ (report_dlc_eq w1 d r1 H1 Hi)). }
  rewrite (bind_done _ _ _ _ _ (report_dlc_eq w1 d r1 H1 Hi)).
  rewrite (bind_done _ _ _ _ _ (dlc_put_eq w1 d r1 H1 Hi ltac:(subst r1; simpl; lia))).
  unfold mret, M_ret. do 2 f_equal. by apply dlc_get_put_same.
Qed.

Lemma bad_frames_ignored_witness :
  q931_receive intf_dlc (RecvFrame [0x03; 0x01; 0x81; 0x05]) te_active = Done (- EBADMSG, te_active).
Proof.
  assert (E : ∃ r, w_dlcs te_active !! intf_dlc = Some r ∧ dlc_intf r = true ∧ 0 < dlc_refcnt r).
  { eexists. split; [vm_compute; reflexivity|]. split; reflexivity. }
  destruct E as (r & H1 & H2 & H3).
  apply (bad_frames_ignored intf_dlc r _ te_active H1 H2 H3). vm_compute. reflexivity.
Defined.

(** ** Primitives the state of a call does not admit *)

(** the states in which a primitive is acted on *)
Definition admits (p : q931_ccb_request) (s : q931_call_state) : bool :=
  match p, s with
  | Q931_CCB_ALERTING_REQUEST,
    (N2_OVERLAP_SENDING | N3_OUTGOING_CALL_PROCEEDING | U6_CALL_PRESENT | U8_CONNECT_REQUEST
    | U9_INCOMING_CALL_PROCEEDING | U25_OVERLAP_RECEIVING)
  | Q931_CCB_DISCONNECT_REQUEST,
    (N2_OVERLAP_SENDING | N3_OUTGOING_CALL_PROCEEDING | N4_CALL_DELIVERED | N6_CALL_PRESENT
    | N7_CALL_RECEIVED | N8_CONNECT_REQUEST | N9_INCOMING_CALL_PROCEEDING | N10_ACTIVE
    | N15_SUSPEND_REQUEST | N25_OVERLAP_RECEIVING | U1_CALL_INITIATED | U2_OVERLAP_SENDING
    | U3_OUTGOING_CALL_PROCEEDING | U4_CALL_DELIVERED | U7_CALL_RECEIVED | U8_CONNECT_REQUEST
    | U9_INCOMING_CALL_PROCEEDING | U10_ACTIVE | U25_OVERLAP_RECEIVING)
  | Q931_CCB_INFO_REQUEST,
    (N2_OVERLAP_SENDING | N3_OUTGOING_CALL_PROCEEDING | N4_CALL_DELIVERED | N7_CALL_RECEIVED
    | N8_CONNECT_REQUEST | N9_INCOMING_CALL_PROCEEDING | N10_ACTIVE | N11_DISCONNECT_REQUEST
    | N12_DISCONNECT_INDICATION | U2_OVERLAP_SENDING | U3_OUTGOING_CALL_PROCEEDING
    | U4_CALL_DELIVERED | U7_CALL_RECEIVED | U8_CONNECT_REQUEST
    | U9_INCOMING_CALL_PROCEEDING | U10_ACTIVE | U11_DISCONNECT_REQUEST
    | U12_DISCONNECT_INDICATION | U25_OVERLAP_RECEIVING)
  | Q931_CCB_MORE_INFO_REQUEST, (N1_CALL_INITIATED | N25_OVERLAP_RECEIVING | U6_CALL_PRESENT)
  | Q931_CCB_NOTIFY_REQUEST, (N10_ACTIVE | N15_SUSPEND_REQUEST | U10_ACTIVE)
  | Q931_CCB_PROCEEDING_REQUEST,
    (N1_CALL_INITIATED | N2_OVERLAP_SENDING | U6_CALL_PRESENT | U25_OVERLAP_RECEIVING)
  | Q931_CCB_PROGRESS_REQUEST,
    (N2_OVERLAP_SENDING | N3_OUTGOING_CALL_PROCEEDING | N4_CALL_DELIVERED | U7_CALL_RECEIVED
    | U8_CONNECT_REQUEST | U25_OVERLAP_RECEIVING)
  | Q931_CCB_REJECT_REQUEST, (N1_CALL_INITIATED | U6_CALL_PRESENT)
  | Q931_CCB_RELEASE_REQUEST, (N11_DISCONNECT_REQUEST | U12_DISCONNECT_INDICATION)
  | Q931_CCB_RESUME_REQUEST, U0_NULL_STATE
  | Q931_CCB_RESUME_REJECT_REQUEST, N17_RESUME_REQUEST
  | Q931_CCB_RESUME_RESPONSE, N17_RESUME_REQUEST
  | Q931_CCB_SETUP_COMPLETE_REQUEST, N8_CONNECT_REQUEST
  | Q931_CCB_SETUP_REQUEST, (N0_NULL_STATE | U0_NULL_STATE)
  | Q931_CCB_SETUP_RESPONSE,
    (N2_OVERLAP_SENDING | N3_OUTGOING_CALL_PROCEEDING | N4_CALL_DELIVERED | U6_CALL_PRESENT
    | U7_CALL_RECEIVED | U9_INCOMING_CALL_PROCEEDING | U25_OVERLAP_RECEIVING)
  | Q931_CCB_STATUS_ENQUIRY_REQUEST _, _
  | Q931_CCB_SUSPEND_REJECT_REQUEST, N15_SUSPEND_REQUEST
  | Q931_CCB_SUSPEND_RESPONSE, N15_SUSPEND_REQUEST
  | Q931_CCB_SUSPEND_REQUEST, U10_ACTIVE => true
  | _, _ => false
  end.

(** what a refused primitive does all the same *)
Definition refused_effect (p : q931_ccb_request) (c : nat) (r : q931_call) (w : q931_world)
    : q931_world :=
  match p with
  | Q931_CCB_DISCONNECT_REQUEST => with_call c (set_call_disconnect_indication_sent true r) w
  | _ => w
  end.

Lemma report_getc {A B} c r w (f : q931_call → A) (k : A → W B) :
  w_calls w !! c = Some r → (report_call c ;; x ← getc c f; k x) w = k (f r) w.
Proof.
  intros Hr. rewrite (bind_done _ _ _ _ _ (report_call_eq w c r Hr)).
  apply bind_done. unfold getc. by rewrite (bind_done _ _ _ _ _ (read_call_eq w c r Hr)).
Qed.

(** The states guard the primitives: a primitive of the call control block that the
    state of the call does not admit completes and changes nothing: no message, no
    timer, no other call, no state.  (DISCONNECT notes that it was requested before it
    looks at the state.) *)
Theorem refused_primitive c r p ies w :
  w_calls w !! c = Some r → admits p (call_state r) = false →
  (length ies < Q931_IES_NUM_IES)%nat →
  q931_ccb_dispatch p c ies w = Done (tt, refused_effect p c r w).
Proof.
  intros Hr Ha Hl. pose proof (report_call_eq w c r Hr) as Hrep.
  destruct p; cbn [q931_ccb_dispatch refused_effect] in *.
  2: { set (r' := set_call_disconnect_indication_sent true r).
       unfold q931_disconnect_request. rewrite (bind_done _ _ _ _ _ Hrep).
       rewrite (bind_done _ _ _ _ _ (upd_call_eq w c r _ Hr)). fold r'.
       unfold q931_ies_copy. rewrite ies_add_all_total by (simpl; lia).
       rewrite (bind_done _ _ _ ies (with_call c r' w)) by done.
       rewrite (bind_done _ _ _ (call_state r) (with_call c r' w)).
       2: { unfold getc. by rewrite (bind_done _ _ _ _ _ (read_call_eq _ c r' (lookup_with_call c r' w))). }
       destruct (call_state r); try done;
         apply (report_call_eq _ c r' (lookup_with_call c r' w)). }
  9: { unfold q931_resume_request. rewrite (bind_done _ _ _ _ _ Hrep).
       unfold mbind at 1, M_bind at 1, read_intf.
       rewrite (bind_done _ _ _ tt w) by (unfold when; by case_match).
       unfold getc. rewrite (bind_done _ _ _ (call_state r) w)
         by by rewrite (bind_done _ _ _ _ _ (read_call_eq w c r Hr)).
       by destruct (call_state r). }
  13: { unfold q931_setup_response. rewrite (bind_done _ _ _ _ _ Hrep).
        destruct (q931_ies_merge [] (Some ies)) as [l|] eqn:El.
        2: { unfold q931_ies_merge in El. destruct (_ <? _)%nat eqn:E.
             - destruct (ies_merge_loop_total [] ies) as [l El']; [simpl; lia|].
               by rewrite El in El'.
             - apply Nat.ltb_ge in E. simpl in E. lia. }
        rewrite (bind_done _ _ _ l w) by done.
        unfold getc. rewrite (bind_done _ _ _ (call_state r) w)
          by by rewrite (bind_done _ _ _ _ _ (read_call_eq w c r Hr)).
        by destruct (call_state r). }
  all: lazymatch goal with |- ?f _ = _ =>
         let g := lazymatch f with ?g _ _ _ => g | ?g _ _ => g end in unfold g end.
  all: rewrite (report_getc c r w _ _ Hr); by destruct (call_state r).
Qed.

Lemma refused_primitive_witness :
  q931_ccb_dispatch Q931_CCB_SETUP_REQUEST te_call user_ies te_active = Done (tt, te_active).
Proof.
  assert (E : ∃ r, w_calls te_active !! te_call = Some r ∧ call_state r = U10_ACTIVE).
  { eexists. split; [vm_compute; reflexivity|reflexivity]. }
  destruct E as (r & Hr & Hs).
  apply (refused_primitive te_call r Q931_CCB_SETUP_REQUEST user_ies te_active Hr).
  - rewrite Hs. reflexivity.
  - vm_compute. repeat constructor.
Defined.

(** ** Where the code leaves defined behaviour

    Each lemma is a way for the peer or the application to make an interface that
    was just opened fail an assertion, touch freed memory or run out of a buffer, or
    a state of the calls that no one asked for. *)

(** ** A message that does not fit the null state of the network side *)

Lemma wlp_false {A} (m : W A) w : wlp m (λ _ _, False) w → ∃ f, m w = Fault f.
Proof. unfold wlp. destruct (m w) as [[a w']|f]; [done|]. by exists f. Qed.

Lemma wlp_any {A} (m : W A) w (Q : A → q931_world → Prop) :
  (∀ a w', Q a w') → wlp m Q w.
Proof. intros HQ. unfold wlp. destruct (m w) as [[a w']|]; auto. Qed.

Lemma wlp_set_state c st (Q : unit → q931_world → Prop) w :
  (∀ r w', w_calls w' !! c = Some (set_call_state st r) → Q tt w') →
  wlp (q931_call_set_state c st) Q w.
Proof.
  intros HQ. unfold q931_call_set_state. apply wlp_bind, wlp_any. intros [] w1.
  apply wlp_upd_call. intros r Hr. eapply HQ. apply lookup_insert_eq.
Qed.

(** The null state of the network side: when a message arrives that this state does
    not expect, the code answers twice, RELEASE and then STATUS, with one cause that
    it has put into the list of elements twice and releases twice: it never gets
    through without touching freed memory or failing earlier, whatever the message and
    the rest of the interface. *)
Theorem not_compatible_in_null_state_faults c m new_state r w :
  w_calls w !! c = Some r → call_state r = N0_NULL_STATE →
  ∃ f, message_not_compatible c m new_state w = Fault f.
Proof.
  intros Hr Hs. apply wlp_false. unfold message_not_compatible.
  apply wlp_bind_core; [apply core_report_call|]. intros [] w1 H1.
  apply wlp_bind_core; [unfold cause_location_call; solve_core|]. intros l w2 H2.
  apply wlp_bind. unfold getc. apply wlp_bind, wlp_read_call. intros r2 Hr2. apply wlp_ret.
  rewrite (cl_calls _ _ H2), (cl_calls _ _ H1) in Hr2. simplify_eq.
  rewrite Hs, bool_decide_true by done. unfold when at 1. apply wlp_bind.
  apply wlp_bind, wlp_any. intros ies w3. apply wlp_bind, wlp_any. intros [] w4.
  apply wlp_bind, wlp_any. intros [] w5. apply wlp_set_state. intros r6 w6 Hr6.
  apply wlp_bind, wlp_bind, wlp_read_call. intros r7 Hr7. apply wlp_ret.
  rewrite Hr6 in Hr7. injection Hr7 as <-. rewrite decide_False by done.
  apply wlp_bind, wlp_any. intros ies' w7. apply wlp_bind, wlp_any. intros [] w8. done.
Qed.

(** a call of the application on the network side; the peer answers it before it has
    been set up *)
Definition nt_allocated : q931_world := after q931_call_alloc_out nt.

Definition example_alerting : q931_message := {|
  msg_dlc := 0; msg_message_type := Q931_MT_ALERTING; msg_callref := 1; msg_callref_len := 1;
  msg_callref_direction := Q931_CALLREF_FLAG_TO_ORIGINATING_SIDE;
  msg_rawies := replicate 508 0; msg_rawies_len := 0; msg_ies := [] |}.

Lemma not_compatible_in_null_state_faults_witness :
  state_of 2 nt_allocated = Some N0_NULL_STATE ∧
  ∃ f, message_not_compatible 2 example_alerting None nt_allocated = Fault f.
Proof.
  assert (E : ∃ r, w_calls nt_allocated !! 2%nat = Some r ∧ call_state r = N0_NULL_STATE).
  { eexists. split; [vm_compute; reflexivity|reflexivity]. }
  split; [vm_compute; reflexivity|]. destruct E as (r & H1 & H2).
  exact (not_compatible_in_null_state_faults 2 example_alerting None r nt_allocated H1 H2).
Defined.

Lemma alerting_before_setup_frees_twice :
  fault_of (q931_receive intf_dlc (RecvFrame (frame_to 1 Q931_MT_ALERTING []))) nt_allocated =
  Some UseAfterFree.
Proof. vm_compute. reflexivity. Qed.

(** ** Assertions the peer can fail *)

(** A call reference longer than those of the interface is accepted; the answer to
    the message asserts that it fits. *)
Lemma foreign_reference_asserts :
  fault_of (q931_receive intf_dlc
    (RecvFrame [0x08; 0x02; 0x12; 0x34; Q931_MT_DISCONNECT])) te = Some AssertFail.
Proof. vm_compute. reflexivity. Qed.

(** RESTART of all interfaces, on an interface that is idle. *)
Lemma restart_all_interfaces_asserts :
  fault_of (q931_receive intf_dlc
    (RecvFrame [0x08; 0x01; 0x00; Q931_MT_RESTART; 0x79; 0x01; 0x87])) te = Some AssertFail.
Proof. vm_compute. reflexivity. Qed.

(** ** Memory *)

(** STATUS with a cause in another state than the call's: the cause is released
    with the list it is moved to and then copied from the message. *)
Lemma status_mismatch_uses_freed_cause :
  fault_of (te_receive Q931_MT_STATUS (cause_octets 97 ++ call_state_octets 3)) te_active =
  Some UseAfterFree.
Proof. vm_compute. reflexivity. Qed.

(** SETUP with a called party number of 20 digits, the maximum. *)
Lemma twenty_digits_overflow :
  fault_of (q931_receive intf_dlc (RecvFrame (frame_from 5 Q931_MT_SETUP
    (bc_octets ++ ci_octets 1 ++ [0x70; 21; 0x81] ++ replicate 20 0x31)))) te =
  Some OutOfBounds.
Proof. vm_compute. reflexivity. Qed.

(** The first restart the management asks for: there is no restart indicator yet. *)
Lemma management_restart_null d chans ies w :
  gc_state (w_gc w) = Q931_GLOBAL_STATE_NULL → gc_restart_indicator (w_gc w) = None →
  q931_management_restart_request d chans ies w = Fault NullDeref.
Proof.
  intros Hs Hr. unfold q931_management_restart_request, getg, read_gc, upd_gc, modify.
  unfold mbind, M_bind, mret, M_ret. rewrite Hs. cbn. rewrite Hr. done.
Qed.

(** ** Several terminals: the call is object 3, the connection of the terminal 2 *)

Definition ntm_call : nat := 3.
Definition ntm_receive (mt : Z) : W Z := q931_receive 2 (RecvFrame (frame_to 1 mt [])).
(** the call is set up, a terminal rings, the caller gives up *)
Definition ntm_cleared : q931_world :=
  after (q931_ccb_dispatch Q931_CCB_DISCONNECT_REQUEST ntm_call [])
    (after (ntm_receive Q931_MT_ALERTING)
      (after (q931_receive 2 RecvIsConn)
        (after (q931_ccb_dispatch Q931_CCB_SETUP_REQUEST ntm_call user_ies)
          (after q931_call_alloc_out (after (q931_accept 64) ntm))))).

Lemma ntm_cleared_state :
  state_of ntm_call ntm_cleared = Some N22_CALL_ABORT ∧
  w_timers ntm_cleared = [TimerCall ntm_call T312; TimerCes 4 CES_T308].
Proof. vm_compute. split; reflexivity. Qed.

(** T308 of a CES reads a field no code has written. *)
Lemma ces_T308_uninitialised :
  fault_of (fire_timer (TimerCes 4 CES_T308)) ntm_cleared = Some Uninitialised.
Proof. vm_compute. reflexivity. Qed.

(** A CES that is freed keeps its timer in the list of timers: the terminal is asked
    for its status and answers that the call is over.  When T322 expires its function is
    run on the CES that is no more. *)
Definition ntm_ringing : q931_world :=
  after (ntm_receive Q931_MT_ALERTING)
    (after (q931_ccb_dispatch Q931_CCB_SETUP_REQUEST ntm_call user_ies)
      (after q931_call_alloc_out (after (q931_accept 64) ntm))).
Definition ntm_released : q931_world :=
  after (q931_receive 2 (RecvFrame (frame_to 1 Q931_MT_RELEASE_COMPLETE (cause_octets 17))))
    (after (q931_ccb_dispatch (Q931_CCB_STATUS_ENQUIRY_REQUEST (Some 4%nat)) ntm_call []) ntm_ringing).

Lemma freed_ces_timer_listed :
  option_map ces_call (w_cess ntm_ringing !! 4%nat) = Some ntm_call ∧
  w_cess ntm_released !! 4%nat = None ∧ TimerCes 4 CES_T322 ∈ w_timers ntm_released ∧
  fault_of (fire_timer (TimerCes 4 CES_T322)) ntm_released = Some UseAfterFree.
Proof.
  split; [vm_compute; reflexivity|]. split; [vm_compute; reflexivity|].
  split; [|vm_compute; reflexivity].
  assert (H : existsb (λ t, bool_decide (t = TimerCes 4 CES_T322)) (w_timers ntm_released) = true)
    by (vm_compute; reflexivity).
  apply existsb_exists in H as (t & Hin & Ht). apply bool_decide_eq_true in Ht as ->.
  by apply list_elem_of_In.
Qed.

(** ** One channel for two calls *)

Definition te_offered (cr : Z) : W Z :=
  q931_receive intf_dlc
    (RecvFrame (frame_from cr Q931_MT_SETUP (bc_octets ++ ci_octets 1))).

(** Two calls are offered on channel B1, one after the other: the user side gives the
    channel to both, since it marks the channel as selected only later. *)
Lemma setup_shares_channel :
  let w := after (te_offered 2) (after (te_offered 1) te) in
  state_of 2 w = Some U6_CALL_PRESENT ∧ state_of 3 w = Some U6_CALL_PRESENT ∧
  channel_of 2 w = Some 0%nat ∧ channel_of 3 w = Some 0%nat.
Proof. vm_compute. repeat split; reflexivity. Qed.

(** Rejecting an offered call frees it, but not its channel: the channel is left with a
    call that does not exist. *)
Lemma reject_leaves_channel :
  let w := after (te_offered 1) te in
  let w' := after (q931_ccb_dispatch Q931_CCB_REJECT_REQUEST 2 []) w in
  state_of 2 w = Some U6_CALL_PRESENT ∧ w_calls w' !! 2%nat = None ∧
  option_map ch_call (intf_channels (w_intf w') !! 0%nat) = Some (Some 2%nat).
Proof. vm_compute. repeat split; reflexivity. Qed.

(** ** The loop that never ends *)

Fixpoint allocate (n : nat) : W unit :=
  match n with
  | O => mret tt
  | S n' => _ ← q931_call_alloc_out; allocate n'
  end.

(** 127 calls use up the references of a basic rate interface. *)
Lemma references_exhausted :
  completes (allocate 127) te = true ∧
  fault_of q931_call_alloc_out (after (allocate 127) te) = Some Diverges.
Proof. vm_compute. split; reflexivity. Qed.
