(* ===== verification/LapdProto.v ===== *)
(** * The LAPD (Q.921) protocol: frames, control octets, address octets

    [src/modules/lapd/proto.h] and the constants of [lapd.h].  A frame is the list
    of its octets, as the code reads it through [struct lapd_data_hdr] and
    [struct lapd_data_hdr_e]; the headers the code writes are built by [octet]
    from the bit fields it assigns. *)

From stdpp Require Import base list.
From Stdlib Require Import ZArith Lia.
From S2P Require Import Prelude.
From S2P Require Import Bits.
Local Open Scope Z_scope.

Definition LAPD_SAPI_Q931 : Z := 0.
Definition LAPD_SAPI_X25 : Z := 15.
Definition LAPD_SAPI_MGMT : Z := 16.
Definition LAPD_SAPI_TEI_MGMT : Z := 63.
Definition LAPD_BROADCAST_TEI : Z := 127.
Definition LAPD_DYNAMIC_TEI : Z := 255.

Inductive lapd_intf_role : Set := LAPD_INTF_ROLE_TE | LAPD_INTF_ROLE_NT.
Inductive lapd_intf_mode : Set := LAPD_INTF_MODE_POINT_TO_POINT | LAPD_INTF_MODE_MULTIPOINT.

Inductive lapd_datalink_state : Set :=
| LAPD_DLS_NULL
| LAPD_DLS_1_TEI_UNASSIGNED
| LAPD_DLS_2_AWAITING_TEI
| LAPD_DLS_3_ESTABLISH_AWAITING_TEI
| LAPD_DLS_4_TEI_ASSIGNED
| LAPD_DLS_5_AWAITING_ESTABLISH
| LAPD_DLS_6_AWAITING_RELEASE
| LAPD_DLS_7_LINK_CONNECTION_ESTABLISHED
| LAPD_DLS_8_TIMER_RECOVERY
| LAPD_DLS_LISTENING.

Inductive lapd_cr : Set := LAPD_COMMAND | LAPD_RESPONSE.

Inductive lapd_frame_kind : Set :=
| LAPD_FRAME_TYPE_IFRAME | LAPD_FRAME_TYPE_SFRAME | LAPD_FRAME_TYPE_UFRAME.

Inductive lapd_sframe_function : Set :=
| LAPD_SFRAME_FUNC_INVALID
| LAPD_SFRAME_FUNC_RR | LAPD_SFRAME_FUNC_RNR | LAPD_SFRAME_FUNC_REJ.

Inductive lapd_uframe_function : Set :=
| LAPD_UFRAME_FUNC_INVALID
| LAPD_UFRAME_FUNC_SABME | LAPD_UFRAME_FUNC_DM | LAPD_UFRAME_FUNC_UI | LAPD_UFRAME_FUNC_DISC
| LAPD_UFRAME_FUNC_UA | LAPD_UFRAME_FUNC_FRMR | LAPD_UFRAME_FUNC_XID.

#[export] Instance lapd_intf_role_eq_dec : EqDecision lapd_intf_role.
Proof. solve_decision. Defined.
#[export] Instance lapd_intf_mode_eq_dec : EqDecision lapd_intf_mode.
Proof. solve_decision. Defined.
#[export] Instance lapd_datalink_state_eq_dec : EqDecision lapd_datalink_state.
Proof. solve_decision. Defined.
#[export] Instance lapd_cr_eq_dec : EqDecision lapd_cr.
Proof. solve_decision. Defined.
#[export] Instance lapd_frame_kind_eq_dec : EqDecision lapd_frame_kind.
Proof. solve_decision. Defined.
#[export] Instance lapd_sframe_function_eq_dec : EqDecision lapd_sframe_function.
Proof. solve_decision. Defined.
#[export] Instance lapd_uframe_function_eq_dec : EqDecision lapd_uframe_function.
Proof. solve_decision. Defined.

(** the values of [enum lapd_sframe_function] *)
Definition sframe_code (f : lapd_sframe_function) : Z :=
  match f with
  | LAPD_SFRAME_FUNC_INVALID => -1
  | LAPD_SFRAME_FUNC_RR => 0x00
  | LAPD_SFRAME_FUNC_RNR => 0x04
  | LAPD_SFRAME_FUNC_REJ => 0x08
  end.

(** the values of [enum lapd_uframe_function] *)
Definition uframe_code (f : lapd_uframe_function) : Z :=
  match f with
  | LAPD_UFRAME_FUNC_INVALID => -1
  | LAPD_UFRAME_FUNC_SABME => 0x6C
  | LAPD_UFRAME_FUNC_DM => 0x0C
  | LAPD_UFRAME_FUNC_UI => 0x00
  | LAPD_UFRAME_FUNC_DISC => 0x40
  | LAPD_UFRAME_FUNC_UA => 0x60
  | LAPD_UFRAME_FUNC_FRMR => 0x84
  | LAPD_UFRAME_FUNC_XID => 0xAC
  end.

Definition LAPD_UFRAME_FUNCTIONS_MASK : Z := 0xEC.
Definition LAPD_SFRAME_FUNCTIONS_MASK : Z := 0xFE.

(** [c_r] is the C/R bit of a received frame *)
Definition lapd_rx_is_command (role : lapd_intf_role) (c_r : Z) : bool :=
  negb (eqb (bool_decide (role = LAPD_INTF_ROLE_TE)) (c_r =? 0)).
Definition lapd_rx_is_response (role : lapd_intf_role) (c_r : Z) : bool :=
  eqb (bool_decide (role = LAPD_INTF_ROLE_TE)) (c_r =? 0).
Definition lapd_make_cr (role : lapd_intf_role) (c_r : lapd_cr) : Z :=
  if eqb (bool_decide (role = LAPD_INTF_ROLE_TE)) (negb (bool_decide (c_r = LAPD_COMMAND)))
  then 1 else 0.

Definition lapd_frame_type (control : Z) : lapd_frame_kind :=
  if Z.land control 0x01 =? 0 then LAPD_FRAME_TYPE_IFRAME
  else if Z.land control 0x02 =? 0 then LAPD_FRAME_TYPE_SFRAME
  else LAPD_FRAME_TYPE_UFRAME.

Definition lapd_uframe_function_of (control : Z) : lapd_uframe_function :=
  let v := Z.land control LAPD_UFRAME_FUNCTIONS_MASK in
  if v =? uframe_code LAPD_UFRAME_FUNC_SABME then LAPD_UFRAME_FUNC_SABME
  else if v =? uframe_code LAPD_UFRAME_FUNC_DM then LAPD_UFRAME_FUNC_DM
  else if v =? uframe_code LAPD_UFRAME_FUNC_UI then LAPD_UFRAME_FUNC_UI
  else if v =? uframe_code LAPD_UFRAME_FUNC_DISC then LAPD_UFRAME_FUNC_DISC
  else if v =? uframe_code LAPD_UFRAME_FUNC_UA then LAPD_UFRAME_FUNC_UA
  else if v =? uframe_code LAPD_UFRAME_FUNC_FRMR then LAPD_UFRAME_FUNC_FRMR
  else if v =? uframe_code LAPD_UFRAME_FUNC_XID then LAPD_UFRAME_FUNC_XID
  else LAPD_UFRAME_FUNC_INVALID.

Definition lapd_sframe_function_of (control : Z) : lapd_sframe_function :=
  let v := Z.land control LAPD_SFRAME_FUNCTIONS_MASK in
  if v =? sframe_code LAPD_SFRAME_FUNC_RR then LAPD_SFRAME_FUNC_RR
  else if v =? sframe_code LAPD_SFRAME_FUNC_RNR then LAPD_SFRAME_FUNC_RNR
  else if v =? sframe_code LAPD_SFRAME_FUNC_REJ then LAPD_SFRAME_FUNC_REJ
  else LAPD_SFRAME_FUNC_INVALID.

Definition lapd_uframe_make_control (function : lapd_uframe_function) (p_f : bool) : Z :=
  u8 (Z.lor (Z.lor 0x03 (uframe_code function)) (if p_f then 0x10 else 0)).
Definition lapd_sframe_make_control (function : lapd_sframe_function) : Z :=
  u8 (Z.lor 0x01 (sframe_code function)).
Definition lapd_sframe_make_control2 (n_r : Z) (p_f : bool) : Z :=
  u8 (Z.lor (Z.shiftl n_r 1) (if p_f then 1 else 0)).

(** ** Headers *)

(** [struct lapd_address]: the two octets of the assigned bit fields *)
Definition lapd_address (sapi c_r tei : Z) : list Z :=
  [octet [(0, 0, 1); (c_r, 1, 1); (sapi, 2, 6)]; octet [(1, 0, 1); (tei, 1, 7)]].

(** the control octets of [struct lapd_i_frame] *)
Definition lapd_i_control (ft n_s p n_r : Z) : list Z :=
  [octet [(ft, 0, 1); (n_s, 1, 7)]; octet [(p, 0, 1); (n_r, 1, 7)]].

(** [struct lapd_data_hdr_e] seen through a received buffer; for a short
    unnumbered frame [h_control2] is the octet after the header *)
Record lapd_data_hdr_e := {
  h_addr1 : Z;
  h_addr2 : Z;
  h_control : Z;
  h_control2 : Z;
}.

Definition data_hdr_e (skb : list Z) : outcome lapd_data_hdr_e :=
  a1 ← oct skb 0; a2 ← oct skb 1; c1 ← oct skb 2; c2 ← oct skb 3;
  mret {| h_addr1 := a1; h_addr2 := a2; h_control := c1; h_control2 := c2 |}.

Definition addr_ea1 (h : lapd_data_hdr_e) : Z := bits (h_addr1 h) 0 1.
Definition addr_c_r (h : lapd_data_hdr_e) : Z := bits (h_addr1 h) 1 1.
Definition addr_sapi (h : lapd_data_hdr_e) : Z := bits (h_addr1 h) 2 6.
Definition addr_ea2 (h : lapd_data_hdr_e) : Z := bits (h_addr2 h) 0 1.
Definition addr_tei (h : lapd_data_hdr_e) : Z := bits (h_addr2 h) 1 7.
Definition i_n_s (h : lapd_data_hdr_e) : Z := bits (h_control h) 1 7.
Definition i_p (h : lapd_data_hdr_e) : bool := negb (bits (h_control2 h) 0 1 =? 0).
(** [hdr->i.n_r] and [hdr->s.n_r] are the same bits *)
Definition s_n_r (h : lapd_data_hdr_e) : Z := bits (h_control2 h) 1 7.
Definition s_p_f (h : lapd_data_hdr_e) : bool := negb (bits (h_control2 h) 0 1 =? 0).
Definition u_p_f (h : lapd_data_hdr_e) : bool := negb (bits (h_control h) 4 1 =? 0).
