(* ===== verification/LapdSock.v ===== *)
(** * LAPD sockets and devices

    The state of a data link: [struct lapd_sock] of [src/modules/lapd/lapd.h] with
    what the code uses of the kernel's [struct sock], the device it is bound to
    ([struct lapd_device], [device.h]) and the TEI management entities
    ([tei_mgmt_te.h], [tei_mgmt_nt.h]).

    The buffers of the write queue have names ([skb_id]): [sk_send_head] is a
    pointer to one of them, and dereferencing it when the buffer was freed is the
    fault [UseAfterFree].  [N(S)] and [N(R)] of a buffer are written at transmission
    only, so they are options.  A kernel timer is whether it is pending.  Memory
    allocations succeed.  [bind] allocates a TEI management entity for the socket
    alone, so the entity is a component of the socket. *)

From stdpp Require Import base list.
From Stdlib Require Import ZArith Lia.
From S2P Require Import Prelude.
From S2P Require Import Bits.
From S2P Require Import LapdProto.
Local Open Scope Z_scope.

Inductive lapd_sk_state : Set :=
| LAPD_SK_STATE_NULL | LAPD_SK_STATE_LISTEN | LAPD_SK_STATE_NORMAL_DLC
| LAPD_SK_STATE_NORMAL_DLC_CLOSING | LAPD_SK_STATE_BROADCAST_DLC | LAPD_SK_STATE_MGMT
| LAPD_SK_STATE_CLOSE.

Inductive lapd_l1_state : Set :=
| LAPD_L1_STATE_UNAVAILABLE | LAPD_L1_STATE_AVAILABLE | LAPD_L1_STATE_ACTIVATING.

Inductive lapd_tei_state : Set := LAPD_TME_TEI_UNASSIGNED | LAPD_TME_TEI_ASSIGNED.

Inductive lapd_dl_primitive_type : Set :=
| LAPD_DL_RELEASE_INDICATION | LAPD_DL_RELEASE_CONFIRM
| LAPD_DL_ESTABLISH_INDICATION | LAPD_DL_ESTABLISH_CONFIRM.

Inductive lapd_mdl_primitive_type : Set :=
| LAPD_MDL_ASSIGN_REQUEST | LAPD_MDL_REMOVE_REQUEST | LAPD_MDL_ERROR_RESPONSE
| LAPD_MDL_ERROR_INDICATION | LAPD_MDL_PERSISTENT_DEACTIVATION.

(** [enum lapd_mdl_error_indications] *)
Definition LAPD_MDL_ERROR_INDICATION_A : Z := Z.shiftl 1 0.
Definition LAPD_MDL_ERROR_INDICATION_B : Z := Z.shiftl 1 1.
Definition LAPD_MDL_ERROR_INDICATION_C : Z := Z.shiftl 1 2.
Definition LAPD_MDL_ERROR_INDICATION_D : Z := Z.shiftl 1 3.
Definition LAPD_MDL_ERROR_INDICATION_E : Z := Z.shiftl 1 4.
Definition LAPD_MDL_ERROR_INDICATION_F : Z := Z.shiftl 1 5.
Definition LAPD_MDL_ERROR_INDICATION_G : Z := Z.shiftl 1 6.
Definition LAPD_MDL_ERROR_INDICATION_H : Z := Z.shiftl 1 7.
Definition LAPD_MDL_ERROR_INDICATION_I : Z := Z.shiftl 1 8.
Definition LAPD_MDL_ERROR_INDICATION_J : Z := Z.shiftl 1 9.
Definition LAPD_MDL_ERROR_INDICATION_K : Z := Z.shiftl 1 10.
Definition LAPD_MDL_ERROR_INDICATION_L : Z := Z.shiftl 1 11.
Definition LAPD_MDL_ERROR_INDICATION_M : Z := Z.shiftl 1 12.
Definition LAPD_MDL_ERROR_INDICATION_N : Z := Z.shiftl 1 13.
Definition LAPD_MDL_ERROR_INDICATION_O : Z := Z.shiftl 1 14.

(** [enum lapd_format_errors] *)
Definition LAPD_FE_LENGTH : Z := 0.
Definition LAPD_FE_N201 : Z := 1.
Definition LAPD_FE_UNDEFINED_COMMAND : Z := 2.
Definition LAPD_FE_I_FIELD_NOT_PERMITTED : Z := 3.

(** which [struct lapd_sap] of the device [lapd_sock->sap] points to *)
Inductive lapd_sap_ref : Set := SapQ931 | SapX25.

(** an I frame in the write queue: the fields of [struct lapd_data_hdr_e] and the
    user data *)
Record lapd_iskb := {
  skb_id : nat;
  skb_sapi : Z;
  skb_c_r : Z;
  skb_tei : Z;
  skb_n_s : option Z;
  skb_n_r : option Z;
  skb_data : list Z;
}.

(** what the receive queue of a socket holds: frames and DL primitives *)
Inductive rx_item : Set :=
| RxFrame (skb : list Z)
| RxPrimitive (type : lapd_dl_primitive_type).

(** what the backlog of a socket holds *)
Inductive backlog_item : Set :=
| BlFrame (skb : list Z)
| BlPrimitive (type : lapd_mdl_primitive_type) (param : Z).

(** the primitives given to layer 1 *)
Inductive ph_primitive : Set :=
| PH_DATA_REQUEST (skb : list Z)
| PH_ACTIVATE_REQUEST.

#[export] Instance lapd_sk_state_eq_dec : EqDecision lapd_sk_state.
Proof. solve_decision. Defined.
#[export] Instance lapd_l1_state_eq_dec : EqDecision lapd_l1_state.
Proof. solve_decision. Defined.
#[export] Instance lapd_tei_state_eq_dec : EqDecision lapd_tei_state.
Proof. solve_decision. Defined.
#[export] Instance lapd_mdl_primitive_type_eq_dec : EqDecision lapd_mdl_primitive_type.
Proof. solve_decision. Defined.
#[export] Instance lapd_dl_primitive_type_eq_dec : EqDecision lapd_dl_primitive_type.
Proof. solve_decision. Defined.

(** [struct lapd_sap]: the parameters of a service access point *)
Record lapd_sap := {
  k : Z;  (** maximum number of outstanding I frames *)
  N200 : Z;  (** maximum number of retransmissions *)
  N201 : Z;
  T200 : Z;
  T203 : Z;
}.

Definition eta_lapd_sap (r : lapd_sap) : lapd_sap :=
  {| k := k r;
     N200 := N200 r;
     N201 := N201 r;
     T200 := T200 r;
     T203 := T203 r |}.

Definition set_k (v : Z) (r : lapd_sap) : lapd_sap :=
  ltac:(upd_field k eta_lapd_sap v r).
Definition set_N200 (v : Z) (r : lapd_sap) : lapd_sap :=
  ltac:(upd_field N200 eta_lapd_sap v r).
Definition set_N201 (v : Z) (r : lapd_sap) : lapd_sap :=
  ltac:(upd_field N201 eta_lapd_sap v r).
Definition set_T200 (v : Z) (r : lapd_sap) : lapd_sap :=
  ltac:(upd_field T200 eta_lapd_sap v r).
Definition set_T203 (v : Z) (r : lapd_sap) : lapd_sap :=
  ltac:(upd_field T203 eta_lapd_sap v r).

(** [struct lapd_utme]: the TEI management entity of a user side socket *)
Record lapd_utme := {
  u_refcnt : Z;
  u_T202 : Z;
  u_N202 : Z;
  u_T202_timer : bool;  (** [timer_pending] *)
  u_retrans_cnt : Z;
  u_state : lapd_tei_state;
  u_tei : Z;
  u_tei_request_ri : Z;
  u_tei_request_pending : bool;
}.

Definition eta_lapd_utme (r : lapd_utme) : lapd_utme :=
  {| u_refcnt := u_refcnt r;
     u_T202 := u_T202 r;
     u_N202 := u_N202 r;
     u_T202_timer := u_T202_timer r;
     u_retrans_cnt := u_retrans_cnt r;
     u_state := u_state r;
     u_tei := u_tei r;
     u_tei_request_ri := u_tei_request_ri r;
     u_tei_request_pending := u_tei_request_pending r |}.

Definition set_u_refcnt (v : Z) (r : lapd_utme) : lapd_utme :=
  ltac:(upd_field u_refcnt eta_lapd_utme v r).
Definition set_u_T202 (v : Z) (r : lapd_utme) : lapd_utme :=
  ltac:(upd_field u_T202 eta_lapd_utme v r).
Definition set_u_N202 (v : Z) (r : lapd_utme) : lapd_utme :=
  ltac:(upd_field u_N202 eta_lapd_utme v r).
Definition set_u_T202_timer (v : bool) (r : lapd_utme) : lapd_utme :=
  ltac:(upd_field u_T202_timer eta_lapd_utme v r).
Definition set_u_retrans_cnt (v : Z) (r : lapd_utme) : lapd_utme :=
  ltac:(upd_field u_retrans_cnt eta_lapd_utme v r).
Definition set_u_state (v : lapd_tei_state) (r : lapd_utme) : lapd_utme :=
  ltac:(upd_field u_state eta_lapd_utme v r).
Definition set_u_tei (v : Z) (r : lapd_utme) : lapd_utme :=
  ltac:(upd_field u_tei eta_lapd_utme v r).
Definition set_u_tei_request_ri (v : Z) (r : lapd_utme) : lapd_utme :=
  ltac:(upd_field u_tei_request_ri eta_lapd_utme v r).
Definition set_u_tei_request_pending (v : bool) (r : lapd_utme) : lapd_utme :=
  ltac:(upd_field u_tei_request_pending eta_lapd_utme v r).

(** [struct lapd_ntme_tei_check] *)
Record lapd_ntme_tei_check := {
  tc_count : Z;
  tc_responses : list (Z * Z);  (** [u8 responses[128][2]] *)
  tc_tei : Z;
}.

Definition eta_lapd_ntme_tei_check (r : lapd_ntme_tei_check) : lapd_ntme_tei_check :=
  {| tc_count := tc_count r;
     tc_responses := tc_responses r;
     tc_tei := tc_tei r |}.

Definition set_tc_count (v : Z) (r : lapd_ntme_tei_check) : lapd_ntme_tei_check :=
  ltac:(upd_field tc_count eta_lapd_ntme_tei_check v r).
Definition set_tc_responses (v : list (Z * Z)) (r : lapd_ntme_tei_check) : lapd_ntme_tei_check :=
  ltac:(upd_field tc_responses eta_lapd_ntme_tei_check v r).
Definition set_tc_tei (v : Z) (r : lapd_ntme_tei_check) : lapd_ntme_tei_check :=
  ltac:(upd_field tc_tei eta_lapd_ntme_tei_check v r).

(** [struct lapd_ntme]: the TEI management entity of the network side *)
Record lapd_ntme := {
  n_T201 : Z;
  n_tei_checks : list lapd_ntme_tei_check;  (** their T201 timers are pending *)
  n_cur_dyn_tei : Z;
  n_teis : list bool;  (** [u8 teis[LAPD_NUM_DYN_TEIS]] *)
}.

Definition eta_lapd_ntme (r : lapd_ntme) : lapd_ntme :=
  {| n_T201 := n_T201 r;
     n_tei_checks := n_tei_checks r;
     n_cur_dyn_tei := n_cur_dyn_tei r;
     n_teis := n_teis r |}.

Definition set_n_T201 (v : Z) (r : lapd_ntme) : lapd_ntme :=
  ltac:(upd_field n_T201 eta_lapd_ntme v r).
Definition set_n_tei_checks (v : list lapd_ntme_tei_check) (r : lapd_ntme) : lapd_ntme :=
  ltac:(upd_field n_tei_checks eta_lapd_ntme v r).
Definition set_n_cur_dyn_tei (v : Z) (r : lapd_ntme) : lapd_ntme :=
  ltac:(upd_field n_cur_dyn_tei eta_lapd_ntme v r).
Definition set_n_teis (v : list bool) (r : lapd_ntme) : lapd_ntme :=
  ltac:(upd_field n_teis eta_lapd_ntme v r).

(** [struct lapd_device] with the [net_device] under it *)
Record lapd_device := {
  role : lapd_intf_role;
  mode : lapd_intf_mode;
  l1_state : lapd_l1_state;
  out_queue : list (list Z);
  q931 : lapd_sap;
  x25 : lapd_sap;
  net_tme : option lapd_ntme;
  mtu : Z;
  xmit : list ph_primitive;  (** what [dev_queue_xmit] was given, in order *)
  entropy : list Z;  (** what [get_random_bytes] will return *)
}.

Definition eta_lapd_device (r : lapd_device) : lapd_device :=
  {| role := role r;
     mode := mode r;
     l1_state := l1_state r;
     out_queue := out_queue r;
     q931 := q931 r;
     x25 := x25 r;
     net_tme := net_tme r;
     mtu := mtu r;
     xmit := xmit r;
     entropy := entropy r |}.

Definition set_role (v : lapd_intf_role) (r : lapd_device) : lapd_device :=
  ltac:(upd_field role eta_lapd_device v r).
Definition set_mode (v : lapd_intf_mode) (r : lapd_device) : lapd_device :=
  ltac:(upd_field mode eta_lapd_device v r).
Definition set_l1_state (v : lapd_l1_state) (r : lapd_device) : lapd_device :=
  ltac:(upd_field l1_state eta_lapd_device v r).
Definition set_out_queue (v : list (list Z)) (r : lapd_device) : lapd_device :=
  ltac:(upd_field out_queue eta_lapd_device v r).
Definition set_q931 (v : lapd_sap) (r : lapd_device) : lapd_device :=
  ltac:(upd_field q931 eta_lapd_device v r).
Definition set_x25 (v : lapd_sap) (r : lapd_device) : lapd_device :=
  ltac:(upd_field x25 eta_lapd_device v r).
Definition set_net_tme (v : option lapd_ntme) (r : lapd_device) : lapd_device :=
  ltac:(upd_field net_tme eta_lapd_device v r).
Definition set_mtu (v : Z) (r : lapd_device) : lapd_device :=
  ltac:(upd_field mtu eta_lapd_device v r).
Definition set_xmit (v : list ph_primitive) (r : lapd_device) : lapd_device :=
  ltac:(upd_field xmit eta_lapd_device v r).
Definition set_entropy (v : list Z) (r : lapd_device) : lapd_device :=
  ltac:(upd_field entropy eta_lapd_device v r).

(** [struct lapd_sock] with the [struct sock] in it *)
Record lapd_sock := {
  sk_state : lapd_sk_state;
  sk_protocol : Z;
  sk_shutdown : bool;  (** [sk->sk_shutdown & SHUTDOWN_MASK] *)
  sk_err : Z;
  dev_bound : bool;  (** [lapd_sock->dev] is not NULL *)
  sk_hashed : bool;  (** it is in [lapd_hash] *)
  sk_owned : bool;  (** [sock_owned_by_user] *)
  sk_backlog : list backlog_item;
  sk_write_queue : list lapd_iskb;
  sk_send_head : option nat;  (** a pointer into [sk_write_queue] *)
  sk_receive_queue : list rx_item;
  sk_rmem_alloc : Z;
  sk_rcvbuf : Z;
  sk_timer : bool;  (** the unhash timer is pending *)
  skb_next : nat;  (** names for new buffers *)
  u_queue : list (list Z);
  retrans_cnt : Z;
  timer_T200 : bool;  (** [timer_pending] *)
  timer_T203 : bool;
  v_s : Z;
  v_r : Z;
  v_a : Z;
  state : lapd_datalink_state;
  peer_receiver_busy : bool;
  own_receiver_busy : bool;
  reject_exception : bool;
  acknowledge_pending : bool;
  layer_3_initiated : bool;
  sap : option lapd_sap_ref;
  usr_tme : option lapd_utme;
  tei : Z;
  sapi : Z;
  new_dlcs : list nat;  (** the sockets [accept] has not handed out yet *)
}.

Definition eta_lapd_sock (r : lapd_sock) : lapd_sock :=
  {| sk_state := sk_state r;
     sk_protocol := sk_protocol r;
     sk_shutdown := sk_shutdown r;
     sk_err := sk_err r;
     dev_bound := dev_bound r;
     sk_hashed := sk_hashed r;
     sk_owned := sk_owned r;
     sk_backlog := sk_backlog r;
     sk_write_queue := sk_write_queue r;
     sk_send_head := sk_send_head r;
     sk_receive_queue := sk_receive_queue r;
     sk_rmem_alloc := sk_rmem_alloc r;
     sk_rcvbuf := sk_rcvbuf r;
     sk_timer := sk_timer r;
     skb_next := skb_next r;
     u_queue := u_queue r;
     retrans_cnt := retrans_cnt r;
     timer_T200 := timer_T200 r;
     timer_T203 := timer_T203 r;
     v_s := v_s r;
     v_r := v_r r;
     v_a := v_a r;
     state := state r;
     peer_receiver_busy := peer_receiver_busy r;
     own_receiver_busy := own_receiver_busy r;
     reject_exception := reject_exception r;
     acknowledge_pending := acknowledge_pending r;
     layer_3_initiated := layer_3_initiated r;
     sap := sap r;
     usr_tme := usr_tme r;
     tei := tei r;
     sapi := sapi r;
     new_dlcs := new_dlcs r |}.

Definition set_sk_state (v : lapd_sk_state) (r : lapd_sock) : lapd_sock :=
  ltac:(upd_field sk_state eta_lapd_sock v r).
Definition set_sk_protocol (v : Z) (r : lapd_sock) : lapd_sock :=
  ltac:(upd_field sk_protocol eta_lapd_sock v r).
Definition set_sk_shutdown (v : bool) (r : lapd_sock) : lapd_sock :=
  ltac:(upd_field sk_shutdown eta_lapd_sock v r).
Definition set_sk_err (v : Z) (r : lapd_sock) : lapd_sock :=
  ltac:(upd_field sk_err eta_lapd_sock v r).
Definition set_dev_bound (v : bool) (r : lapd_sock) : lapd_sock :=
  ltac:(upd_field dev_bound eta_lapd_sock v r).
Definition set_sk_hashed (v : bool) (r : lapd_sock) : lapd_sock :=
  ltac:(upd_field sk_hashed eta_lapd_sock v r).
Definition set_sk_owned (v : bool) (r : lapd_sock) : lapd_sock :=
  ltac:(upd_field sk_owned eta_lapd_sock v r).
Definition set_sk_backlog (v : list backlog_item) (r : lapd_sock) : lapd_sock :=
  ltac:(upd_field sk_backlog eta_lapd_sock v r).
Definition set_sk_write_queue (v : list lapd_iskb) (r : lapd_sock) : lapd_sock :=
  ltac:(upd_field sk_write_queue eta_lapd_sock v r).
Definition set_sk_send_head (v : option nat) (r : lapd_sock) : lapd_sock :=
  ltac:(upd_field sk_send_head eta_lapd_sock v r).
Definition set_sk_receive_queue (v : list rx_item) (r : lapd_sock) : lapd_sock :=
  ltac:(upd_field sk_receive_queue eta_lapd_sock v r).
Definition set_sk_rmem_alloc (v : Z) (r : lapd_sock) : lapd_sock :=
  ltac:(upd_field sk_rmem_alloc eta_lapd_sock v r).
Definition set_sk_rcvbuf (v : Z) (r : lapd_sock) : lapd_sock :=
  ltac:(upd_field sk_rcvbuf eta_lapd_sock v r).
Definition set_sk_timer (v : bool) (r : lapd_sock) : lapd_sock :=
  ltac:(upd_field sk_timer eta_lapd_sock v r).
Definition set_skb_next (v : nat) (r : lapd_sock) : lapd_sock :=
  ltac:(upd_field skb_next eta_lapd_sock v r).
Definition set_u_queue (v : list (list Z)) (r : lapd_sock) : lapd_sock :=
  ltac:(upd_field u_queue eta_lapd_sock v r).
Definition set_retrans_cnt (v : Z) (r : lapd_sock) : lapd_sock :=
  ltac:(upd_field retrans_cnt eta_lapd_sock v r).
Definition set_timer_T200 (v : bool) (r : lapd_sock) : lapd_sock :=
  ltac:(upd_field timer_T200 eta_lapd_sock v r).
Definition set_timer_T203 (v : bool) (r : lapd_sock) : lapd_sock :=
  ltac:(upd_field timer_T203 eta_lapd_sock v r).
Definition set_v_s (v : Z) (r : lapd_sock) : lapd_sock :=
  ltac:(upd_field v_s eta_lapd_sock v r).
Definition set_v_r (v : Z) (r : lapd_sock) : lapd_sock :=
  ltac:(upd_field v_r eta_lapd_sock v r).
Definition set_v_a (v : Z) (r : lapd_sock) : lapd_sock :=
  ltac:(upd_field v_a eta_lapd_sock v r).
Definition set_state (v : lapd_datalink_state) (r : lapd_sock) : lapd_sock :=
  ltac:(upd_field state eta_lapd_sock v r).
Definition set_peer_receiver_busy (v : bool) (r : lapd_sock) : lapd_sock :=
  ltac:(upd_field peer_receiver_busy eta_lapd_sock v r).
Definition set_own_receiver_busy (v : bool) (r : lapd_sock) : lapd_sock :=
  ltac:(upd_field own_receiver_busy eta_lapd_sock v r).
Definition set_reject_exception (v : bool) (r : lapd_sock) : lapd_sock :=
  ltac:(upd_field reject_exception eta_lapd_sock v r).
Definition set_acknowledge_pending (v : bool) (r : lapd_sock) : lapd_sock :=
  ltac:(upd_field acknowledge_pending eta_lapd_sock v r).
Definition set_layer_3_initiated (v : bool) (r : lapd_sock) : lapd_sock :=
  ltac:(upd_field layer_3_initiated eta_lapd_sock v r).
Definition set_sap (v : option lapd_sap_ref) (r : lapd_sock) : lapd_sock :=
  ltac:(upd_field sap eta_lapd_sock v r).
Definition set_usr_tme (v : option lapd_utme) (r : lapd_sock) : lapd_sock :=
  ltac:(upd_field usr_tme eta_lapd_sock v r).
Definition set_tei (v : Z) (r : lapd_sock) : lapd_sock :=
  ltac:(upd_field tei eta_lapd_sock v r).
Definition set_sapi (v : Z) (r : lapd_sock) : lapd_sock :=
  ltac:(upd_field sapi eta_lapd_sock v r).
Definition set_new_dlcs (v : list nat) (r : lapd_sock) : lapd_sock :=
  ltac:(upd_field new_dlcs eta_lapd_sock v r).

(** a socket and its device *)
Record lapd_link := {
  ls : lapd_sock;
  dev : lapd_device;
  truesize : Z → Z;  (** the memory the kernel charges a socket for a buffer of that length *)
}.

Definition eta_lapd_link (r : lapd_link) : lapd_link :=
  {| ls := ls r;
     dev := dev r;
     truesize := truesize r |}.

Definition set_ls (v : lapd_sock) (r : lapd_link) : lapd_link :=
  ltac:(upd_field ls eta_lapd_link v r).
Definition set_dev (v : lapd_device) (r : lapd_link) : lapd_link :=
  ltac:(upd_field dev eta_lapd_link v r).
Definition set_truesize (v : Z → Z) (r : lapd_link) : lapd_link :=
  ltac:(upd_field truesize eta_lapd_link v r).
