(* ===== verification/LapdOutput.v ===== *)
(** * LAPD: timers, output and the receive queue

    The primitive operations on a socket and its device: [output.c], the timer
    macros and the frame builders of [datalink.c], and the queueing towards the
    user of [af_lapd.c], all under [src/modules/lapd/]. *)

From stdpp Require Import base list.
From Stdlib Require Import ZArith Lia.
From S2P Require Import Prelude.
From S2P Require Import Bits.
From S2P Require Import LapdProto.
From S2P Require Import LapdSock.
Local Open Scope Z_scope.

(** operations on a device, and on a socket with its device *)
Definition D (A : Type) : Type := M lapd_device A.
Definition L (A : Type) : Type := M lapd_link A.

(** [lapd_sock->f], [dev->f] *)
Definition sk {A} (f : lapd_sock → A) : L A := l ← get; mret (f (ls l)).
Definition dv {A} (f : lapd_device → A) : D A := d ← get; mret (f d).
Definition upd (f : lapd_sock → lapd_sock) : L unit := modify (λ l, set_ls (f (ls l)) l).
Definition upd_dev (f : lapd_device → lapd_device) : D unit := modify f.
Definition on_dev {A} (m : D A) : L A := λ l,
  match m (dev l) with Done (a, d) => Done (a, set_dev d l) | Fault f => Fault f end.

(** ** Timers *)

(** [(ls)->sap->...]: the SAP the socket points to *)
Definition the_sap : L lapd_sap :=
  r ← sk sap; r ← deref r;
  on_dev (match r with SapQ931 => dv q931 | SapX25 => dv x25 end).

(** the time the timer is armed for is read through the [sap] pointer *)
Definition lapd_start_timer_T200 : L unit := _ ← the_sap; upd (set_timer_T200 true).
Definition lapd_start_timer_T203 : L unit := _ ← the_sap; upd (set_timer_T203 true).
Definition lapd_stop_timer_T200 : L unit := upd (set_timer_T200 false).
Definition lapd_stop_timer_T203 : L unit := upd (set_timer_T203 false).

Definition lapd_change_state (newstate : lapd_datalink_state) : L unit := upd (set_state newstate).

(** ** Frames to layer 1 *)

(** the header and the space for the CRC of a frame given to the driver *)
Definition dev_queue_xmit (p : ph_primitive) : D unit :=
  upd_dev (λ d, set_xmit (xmit d ++ [p]) d).

Definition lapd_send_ph_primitive : D unit := dev_queue_xmit PH_ACTIVATE_REQUEST.

Definition lapd_ph_data_request (skb : list Z) : D unit :=
  s ← dv l1_state;
  match s with
  | LAPD_L1_STATE_UNAVAILABLE =>
      upd_dev (set_l1_state LAPD_L1_STATE_ACTIVATING) ;;
      lapd_send_ph_primitive ;;
      upd_dev (λ d, set_out_queue (out_queue d ++ [skb]) d)
  | LAPD_L1_STATE_ACTIVATING => upd_dev (λ d, set_out_queue (out_queue d ++ [skb]) d)
  | LAPD_L1_STATE_AVAILABLE => dev_queue_xmit (PH_DATA_REQUEST (skb ++ [0; 0]))
  end.

(** the loop ends: it dequeues a frame each time *)
Definition lapd_out_queue_flush : D unit :=
  q ← dv out_queue;
  upd_dev (set_out_queue []) ;;
  forM q (λ skb, dev_queue_xmit (PH_DATA_REQUEST (skb ++ [0; 0]))).

Definition lapd_out_queue_drop : D unit := upd_dev (set_out_queue []).

(** [get_random_bytes] into an object of [w] bits *)
Definition get_random_bytes (w : Z) : D Z :=
  e ← dv entropy;
  match e with
  | [] => mret 0
  | r :: e' => upd_dev (set_entropy e') ;; mret (Z.land r (Z.ones w))
  end.

Definition uframe_cr (function : lapd_uframe_function) : lapd_cr :=
  match function with
  | LAPD_UFRAME_FUNC_SABME => LAPD_COMMAND
  | LAPD_UFRAME_FUNC_DM => LAPD_RESPONSE
  | LAPD_UFRAME_FUNC_UI => LAPD_COMMAND
  | LAPD_UFRAME_FUNC_DISC => LAPD_COMMAND
  | LAPD_UFRAME_FUNC_UA => LAPD_RESPONSE
  | LAPD_UFRAME_FUNC_FRMR => LAPD_RESPONSE
  | LAPD_UFRAME_FUNC_XID => LAPD_COMMAND
  | LAPD_UFRAME_FUNC_INVALID => LAPD_COMMAND
  end.

(** the octets [lapd_prepare_uframe] puts in the buffer *)
Definition lapd_prepare_uframe (function : lapd_uframe_function) (p_f : bool) : L (list Z) :=
  l ← get;
  when (bool_decide (function = LAPD_UFRAME_FUNC_INVALID)) (fail AssertFail) ;;
  let c_r := if eqb (bool_decide (uframe_cr function = LAPD_RESPONSE))
                    (bool_decide (role (dev l) = LAPD_INTF_ROLE_TE)) then 1 else 0 in
  let t := if decide (state (ls l) = LAPD_DLS_LISTENING) then LAPD_BROADCAST_TEI
           else tei (ls l) in
  mret (lapd_address (sapi (ls l)) c_r t ++ [lapd_uframe_make_control function p_f]).

Definition lapd_send_uframe (function : lapd_uframe_function) (p_f : bool) : L unit :=
  skb ← lapd_prepare_uframe function p_f;
  on_dev (lapd_ph_data_request skb).

Definition lapd_sock_queue_uframe (skb : list Z) : L unit :=
  upd (λ s, set_u_queue (u_queue s ++ [skb]) s).

Definition lapd_prepare_sframe (c_r : lapd_cr) (function : lapd_sframe_function) (p_f : bool) :
    L (list Z) :=
  l ← get;
  mret (lapd_address (sapi (ls l)) (lapd_make_cr (role (dev l)) c_r) (tei (ls l)) ++
        [lapd_sframe_make_control function; lapd_sframe_make_control2 (v_r (ls l)) p_f]).

Definition lapd_send_sframe (c_r : lapd_cr) (function : lapd_sframe_function) (p_f : bool) :
    L unit :=
  skb ← lapd_prepare_sframe c_r function p_f;
  on_dev (lapd_ph_data_request skb).

(** ** Queues towards the user *)

(** [skb_set_owner_r], [skb_queue_tail] *)
Definition receive_queue_tail (len : Z) (x : rx_item) : L unit :=
  l ← get;
  upd (λ s, set_sk_rmem_alloc (sk_rmem_alloc s + truesize l len) s) ;;
  upd (λ s, set_sk_receive_queue (sk_receive_queue s ++ [x]) s).

Definition lapd_dl_primitive (type : lapd_dl_primitive_type) : L unit :=
  closing ← sk sk_state;
  if bool_decide (closing = LAPD_SK_STATE_NORMAL_DLC_CLOSING) &&
     bool_decide (type = LAPD_DL_RELEASE_CONFIRM)
  then upd (set_sk_timer true)
  else receive_queue_tail 8 (RxPrimitive type).

Definition lapd_dl_unit_data_indication (skb : list Z) : L bool :=
  receive_queue_tail (Z.of_nat (length skb)) (RxFrame skb) ;;
  mret true.

Definition lapd_dl_data_indication (skb : list Z) : L unit :=
  receive_queue_tail (Z.of_nat (length skb)) (RxFrame skb).

(** ** Data link procedures and the primitives of layer management

    The first part of [src/modules/lapd/datalink.c]: establishment, the I and UI
    queues, retransmission, acknowledgement, and the handlers of the primitives
    MDL-ASSIGN, MDL-REMOVE, MDL-ERROR-response and persistent deactivation. *)

Definition lapd_clear_exception_conditions_procedure : L unit :=
  upd (set_own_receiver_busy false) ;;
  upd (set_peer_receiver_busy false) ;;
  upd (set_reject_exception false) ;;
  upd (set_acknowledge_pending false).

Definition lapd_establish_datalink_procedure : L unit :=
  lapd_clear_exception_conditions_procedure ;;
  upd (set_retrans_cnt 0) ;;
  lapd_send_uframe LAPD_UFRAME_FUNC_SABME true ;;
  lapd_stop_timer_T203 ;;
  lapd_start_timer_T200.

Definition lapd_transmit_enquiry_procedure : L unit :=
  busy ← sk own_receiver_busy;
  (if (busy : bool) then lapd_send_sframe LAPD_COMMAND LAPD_SFRAME_FUNC_RNR true
   else lapd_send_sframe LAPD_COMMAND LAPD_SFRAME_FUNC_RR true) ;;
  upd (set_acknowledge_pending false) ;;
  lapd_start_timer_T200.

Definition lapd_enquiry_response_procedure : L unit :=
  busy ← sk own_receiver_busy;
  (if (busy : bool) then lapd_send_sframe LAPD_RESPONSE LAPD_SFRAME_FUNC_RNR true
   else lapd_send_sframe LAPD_RESPONSE LAPD_SFRAME_FUNC_RR true) ;;
  upd (set_acknowledge_pending false).

(** [V(A) <= N(R) <= V(S)] modulo 128 *)
Definition lapd_is_valid_nr (s : lapd_sock) (n_r : Z) : bool :=
  Z.rem (n_r - v_a s + 128) 128 <=? Z.rem (v_s s - v_a s + 128) 128.

(** ** Queues *)

Definition lapd_run_ui_queue : L unit :=
  q ← sk u_queue;
  upd (set_u_queue []) ;;
  forM q (λ skb, on_dev (lapd_ph_data_request skb)).

Definition lapd_discard_ui_queue : L unit := upd (set_u_queue []).

(** [sk_send_head] keeps its value *)
Definition lapd_discard_i_queue : L unit := upd (set_sk_write_queue []).

(** the queue from the buffer a pointer designates on *)
Fixpoint skb_from (id : nat) (q : list lapd_iskb) : list lapd_iskb :=
  match q with
  | [] => []
  | b :: q' => if decide (skb_id b = id) then b :: q' else skb_from id q'
  end.

(** [hdr->i.n_s = n_s; hdr->i.n_r = n_r] in the buffer [id] of the queue *)
Definition skb_set_nsnr (id : nat) (n_s n_r : Z) (q : list lapd_iskb) : list lapd_iskb :=
  (λ b, if decide (skb_id b = id)
        then {| skb_id := skb_id b; skb_sapi := skb_sapi b; skb_c_r := skb_c_r b;
                skb_tei := skb_tei b; skb_n_s := Some n_s; skb_n_r := Some n_r;
                skb_data := skb_data b |}
        else b) <$> q.

(** the octets of the copy handed to layer 1 *)
Definition iframe_octets (b : lapd_iskb) (n_s n_r : Z) : list Z :=
  lapd_address (skb_sapi b) (skb_c_r b) (skb_tei b) ++ lapd_i_control 0 n_s 0 n_r ++ skb_data b.

(** [lapd_sock->v_s == (lapd_sock->v_a + lapd_sock->sap->k) % 128] *)
Definition window_closed : L bool :=
  p ← the_sap;
  s ← sk (λ s, s);
  mret (v_s s =? Z.rem (v_a s + k p) 128).

(** the body of the loop of [lapd_run_i_queue] *)
Definition transmit_iframe (b : lapd_iskb) : L unit :=
  s ← sk (λ s, s);
  upd (λ s, set_sk_write_queue (skb_set_nsnr (skb_id b) (v_s s) (v_r s) (sk_write_queue s)) s) ;;
  when (negb (timer_T200 s)) (lapd_start_timer_T200 ;; lapd_stop_timer_T203) ;;
  on_dev (lapd_ph_data_request (iframe_octets b (v_s s) (v_r s))) ;;
  upd (λ s, set_v_s (Z.rem (v_s s + 1) 128) s).

(** the loop, over what is left of the queue; [skb->next] of the last buffer is
    the queue itself, for which [sk_send_head] becomes NULL *)
Fixpoint run_i_queue_loop (q : list lapd_iskb) : L unit :=
  match q with
  | [] => mret tt
  | b :: q' =>
      closed ← window_closed;
      if (closed : bool) then mret tt
      else transmit_iframe b ;;
           upd (set_sk_send_head (skb_id <$> head q')) ;;
           run_i_queue_loop q'
  end.

Definition lapd_run_i_queue : L unit :=
  s ← sk (λ s, s);
  if negb (bool_decide (state s = LAPD_DLS_7_LINK_CONNECTION_ESTABLISHED)) then mret tt
  else if peer_receiver_busy s then mret tt
  else
    match sk_send_head s with
    | None => mret tt
    | Some id =>
        match skb_from id (sk_write_queue s) with
        | [] => closed ← window_closed; when (negb closed) (fail UseAfterFree)
        | q => run_i_queue_loop q
        end
    end ;;
    _ ← window_closed; mret tt.

Definition lapd_invoke_retransmission_procedure : L unit :=
  q ← sk sk_write_queue;
  match (q : list lapd_iskb) with
  | [] => mret tt
  | b :: _ => upd (set_sk_send_head (Some (skb_id b)))
  end ;;
  upd (λ s, set_v_s (v_a s) s) ;;
  lapd_run_i_queue.

(** the buffers [lapd_ack_frames] leaves in the queue *)
Fixpoint ack_loop (n_r : Z) (send_head : option nat) (q : list lapd_iskb) :
    outcome (list lapd_iskb) :=
  match q with
  | [] => Done []
  | b :: q' =>
      if decide (send_head = Some (skb_id b)) then Done q
      else match skb_n_s b with
           | None => Fault Uninitialised
           | Some n_s => if n_s =? n_r then Done q else ack_loop n_r send_head q'
           end
  end.

Definition lapd_ack_frames (n_r : Z) : L unit :=
  s ← sk (λ s, s);
  if n_r =? v_a s then mret tt
  else q ← lift (ack_loop n_r (sk_send_head s) (sk_write_queue s));
       upd (set_sk_write_queue q).

Definition lapd_sock_queue_iframe (b : lapd_iskb) : L unit :=
  upd (λ s, set_sk_write_queue (sk_write_queue s ++ [b]) s) ;;
  h ← sk sk_send_head;
  match h with
  | None => upd (set_sk_send_head (Some (skb_id b)))
  | Some _ => mret tt
  end.

(** the buffer [lapd_sendmsg] builds for the user's data *)
Definition lapd_prepare_iframe (data : list Z) : L lapd_iskb :=
  l ← get;
  upd (λ s, set_skb_next (S (skb_next s)) s) ;;
  mret {| skb_id := skb_next (ls l); skb_sapi := sapi (ls l);
          skb_c_r := lapd_make_cr (role (dev l)) LAPD_COMMAND; skb_tei := tei (ls l);
          skb_n_s := None; skb_n_r := None; skb_data := data |}.

(** ** Primitives of layer management *)

(** [lapd_unexpected_primitive], [lapd_unexpected_message], [lapd_unexpected_timer]:
    a line in the log *)
Definition lapd_unexpected : L unit := mret tt.

Definition lapd_mdl_assign_request (new_tei : Z) : L unit :=
  st ← sk state;
  match st with
  | LAPD_DLS_1_TEI_UNASSIGNED | LAPD_DLS_2_AWAITING_TEI =>
      upd (set_tei new_tei) ;;
      lapd_change_state LAPD_DLS_4_TEI_ASSIGNED
  | LAPD_DLS_3_ESTABLISH_AWAITING_TEI =>
      upd (set_tei new_tei) ;;
      lapd_establish_datalink_procedure ;;
      upd (set_layer_3_initiated true) ;;
      lapd_change_state LAPD_DLS_5_AWAITING_ESTABLISH
  | _ => lapd_unexpected
  end.

Definition lapd_mdl_remove_request : L unit :=
  st ← sk state;
  match st with
  | LAPD_DLS_4_TEI_ASSIGNED =>
      lapd_discard_ui_queue ;;
      lapd_change_state LAPD_DLS_1_TEI_UNASSIGNED
  | LAPD_DLS_5_AWAITING_ESTABLISH =>
      lapd_discard_i_queue ;;
      lapd_discard_ui_queue ;;
      lapd_stop_timer_T200 ;;
      lapd_change_state LAPD_DLS_1_TEI_UNASSIGNED ;;
      lapd_dl_primitive LAPD_DL_RELEASE_INDICATION
  | LAPD_DLS_6_AWAITING_RELEASE =>
      lapd_discard_ui_queue ;;
      lapd_stop_timer_T200 ;;
      lapd_change_state LAPD_DLS_1_TEI_UNASSIGNED ;;
      lapd_dl_primitive LAPD_DL_RELEASE_CONFIRM
  | LAPD_DLS_7_LINK_CONNECTION_ESTABLISHED =>
      lapd_discard_i_queue ;;
      lapd_discard_ui_queue ;;
      lapd_stop_timer_T200 ;;
      lapd_stop_timer_T203 ;;
      lapd_change_state LAPD_DLS_1_TEI_UNASSIGNED ;;
      lapd_dl_primitive LAPD_DL_RELEASE_INDICATION
  | LAPD_DLS_8_TIMER_RECOVERY =>
      lapd_discard_i_queue ;;
      lapd_discard_ui_queue ;;
      lapd_stop_timer_T200 ;;
      lapd_change_state LAPD_DLS_1_TEI_UNASSIGNED ;;
      lapd_dl_primitive LAPD_DL_RELEASE_INDICATION
  | _ => lapd_unexpected
  end.

Definition lapd_mdl_error_response : L unit :=
  st ← sk state;
  match st with
  | LAPD_DLS_2_AWAITING_TEI =>
      lapd_discard_ui_queue ;;
      lapd_change_state LAPD_DLS_1_TEI_UNASSIGNED
  | LAPD_DLS_3_ESTABLISH_AWAITING_TEI =>
      lapd_discard_ui_queue ;;
      lapd_change_state LAPD_DLS_1_TEI_UNASSIGNED ;;
      lapd_dl_primitive LAPD_DL_RELEASE_INDICATION
  | _ => lapd_unexpected
  end.

Definition lapd_persistent_deactivation : L unit :=
  st ← sk state;
  match st with
  | LAPD_DLS_1_TEI_UNASSIGNED => mret tt
  | LAPD_DLS_2_AWAITING_TEI =>
      lapd_discard_ui_queue ;;
      lapd_change_state LAPD_DLS_1_TEI_UNASSIGNED
  | LAPD_DLS_3_ESTABLISH_AWAITING_TEI =>
      lapd_discard_ui_queue ;;
      lapd_change_state LAPD_DLS_1_TEI_UNASSIGNED ;;
      lapd_dl_primitive LAPD_DL_RELEASE_INDICATION
  | LAPD_DLS_4_TEI_ASSIGNED => lapd_discard_ui_queue
  | LAPD_DLS_5_AWAITING_ESTABLISH =>
      lapd_discard_i_queue ;;
      lapd_discard_ui_queue ;;
      lapd_stop_timer_T200 ;;
      lapd_change_state LAPD_DLS_4_TEI_ASSIGNED ;;
      lapd_dl_primitive LAPD_DL_RELEASE_INDICATION
  | LAPD_DLS_6_AWAITING_RELEASE =>
      lapd_discard_ui_queue ;;
      lapd_stop_timer_T200 ;;
      lapd_change_state LAPD_DLS_4_TEI_ASSIGNED ;;
      lapd_dl_primitive LAPD_DL_RELEASE_CONFIRM
  | LAPD_DLS_7_LINK_CONNECTION_ESTABLISHED =>
      lapd_discard_i_queue ;;
      lapd_discard_ui_queue ;;
      lapd_stop_timer_T200 ;;
      lapd_stop_timer_T203 ;;
      lapd_change_state LAPD_DLS_4_TEI_ASSIGNED ;;
      lapd_dl_primitive LAPD_DL_RELEASE_INDICATION
  | LAPD_DLS_8_TIMER_RECOVERY =>
      lapd_discard_i_queue ;;
      lapd_discard_ui_queue ;;
      lapd_stop_timer_T200 ;;
      lapd_change_state LAPD_DLS_4_TEI_ASSIGNED ;;
      lapd_dl_primitive LAPD_DL_RELEASE_INDICATION
  | _ => lapd_unexpected
  end.
