(* ===== verification/LapdTei.v ===== *)
(** * TEI management

    [src/modules/lapd/tei_mgmt.c], [tei_mgmt_nt.c] and [tei_mgmt_te.c].  The network
    side entity belongs to the device, the user side one to the socket; the loops
    over [lapd_ntme_hash] and [lapd_hash] that look for an entity's device or
    socket find just that one.  The locks are not part of the model.  [ri] is
    stored in host order, little endian here. *)

From stdpp Require Import base list.
From Stdlib Require Import ZArith Lia.
From S2P Require Import Prelude.
From S2P Require Import Bits.
From S2P Require Import LapdProto.
From S2P Require Import LapdSock.
From S2P Require Import LapdOutput.
Local Open Scope Z_scope.

Definition LAPD_TEI_ENTITY : Z := 0x0f.
Definition LAPD_TEI_MT_REQUEST : Z := 0x01.
Definition LAPD_TEI_MT_ASSIGNED : Z := 0x02.
Definition LAPD_TEI_MT_DENIED : Z := 0x03.
Definition LAPD_TEI_MT_CHK_REQ : Z := 0x04.
Definition LAPD_TEI_MT_CHK_RES : Z := 0x05.
Definition LAPD_TEI_MT_REMOVE : Z := 0x06.
Definition LAPD_TEI_MT_VERIFY : Z := 0x07.
Definition LAPD_MAX_STA_TEI : Z := 63.
Definition LAPD_MIN_DYN_TEI : Z := 64.
Definition LAPD_MAX_DYN_TEI : Z := 126.
Definition LAPD_NUM_DYN_TEIS : Z := LAPD_MAX_DYN_TEI - LAPD_MIN_DYN_TEI + 1.
Definition LAPD_TEI_UNASSIGNED : Z := 255.

(** [struct lapd_tei_mgmt_ai] *)
Definition tei_mgmt_ai (value : Z) (ext : bool) : Z :=
  octet [(if ext then 1 else 0, 0, 1); (value, 1, 7)].

(** the action indicators; the last one has the extension bit *)
Fixpoint tei_mgmt_ais (ais : list Z) : list Z :=
  match ais with
  | [] => []
  | [a] => [tei_mgmt_ai a true]
  | a :: ais' => tei_mgmt_ai a false :: tei_mgmt_ais ais'
  end.

Definition lapd_tm_send_multiai (message_type ri : Z) (ais : list Z) : D unit :=
  r ← dv role;
  lapd_ph_data_request
    (lapd_address LAPD_SAPI_TEI_MGMT (lapd_make_cr r LAPD_COMMAND) LAPD_BROADCAST_TEI ++
     [lapd_uframe_make_control LAPD_UFRAME_FUNC_UI false;
      LAPD_TEI_ENTITY; Z.land ri 255; Z.land (Z.shiftr ri 8) 255; message_type] ++
     tei_mgmt_ais ais).

Definition lapd_tm_send (message_type ri ai : Z) : D unit :=
  lapd_tm_send_multiai message_type ri [ai].

(** [struct lapd_tei_mgmt_frame] seen through a received buffer *)
Record lapd_tei_mgmt_frame := {
  tm_hdr : lapd_data_hdr_e;
  tm_entity : Z;
  tm_ri : Z;
  tm_message_type : Z;
  tm_ai : Z;
}.

Definition tei_mgmt_frame (skb : list Z) : outcome lapd_tei_mgmt_frame :=
  h ← data_hdr_e skb;
  e ← oct skb 3; r0 ← oct skb 4; r1 ← oct skb 5; m ← oct skb 6; a ← oct skb 7;
  mret {| tm_hdr := h; tm_entity := e; tm_ri := Z.lor r0 (Z.shiftl r1 8);
          tm_message_type := m; tm_ai := a |}.

Definition ai_value (f : lapd_tei_mgmt_frame) : Z := bits (tm_ai f) 1 7.

(** ** The network side *)

Definition lapd_ntme_send_tei_assigned (ri tei : Z) : D unit :=
  lapd_tm_send LAPD_TEI_MT_ASSIGNED ri tei.
Definition lapd_ntme_send_tei_denied (ri tei : Z) : D unit :=
  lapd_tm_send LAPD_TEI_MT_DENIED ri tei.
Definition lapd_ntme_send_tei_check_request (tei : Z) : D unit :=
  lapd_tm_send LAPD_TEI_MT_CHK_REQ 0 tei.
Definition lapd_ntme_send_tei_remove (tei : Z) : D unit :=
  lapd_tm_send LAPD_TEI_MT_REMOVE 0 tei.

Definition the_ntme : D lapd_ntme := t ← dv net_tme; deref t.
Definition upd_ntme (f : lapd_ntme → lapd_ntme) : D unit :=
  t ← the_ntme; upd_dev (set_net_tme (Some (f t))).

(** [tc->responses[tei][i]] *)
Definition response (tc : lapd_ntme_tei_check) (tei : Z) (second : bool) : D Z :=
  match tc_responses tc !! Z.to_nat tei with
  | None => fail OutOfBounds
  | Some r => mret (if second then snd r else fst r)
  end.

Definition lapd_ntme_tc_check_first (tc : lapd_ntme_tei_check) (tei : Z) : D unit :=
  r0 ← response tc tei false;
  when (1 <? r0) (lapd_ntme_send_tei_remove tei).

Definition lapd_ntme_tc_check_second (tc : lapd_ntme_tei_check) (tei : Z) : D unit :=
  r0 ← response tc tei false;
  r1 ← response tc tei true;
  if (r0 =? 0) && (r1 =? 0) then
    when ((LAPD_MIN_DYN_TEI <=? tei) && (tei <=? LAPD_MAX_DYN_TEI))
      (upd_ntme (λ t, set_n_teis
         (<[Z.to_nat (tei - LAPD_MIN_DYN_TEI) := false]> (n_teis t)) t))
  else if (r0 <=? 1) && (r1 <=? 1) then mret tt
  else lapd_ntme_send_tei_remove tei.

(** the indices of [tc->responses] *)
Definition all_teis : list Z := seqZ 0 128.

(** The T201 timer of the [i]-th check; the check is unlinked and freed, or gets
    its second window. *)
Definition lapd_ntme_tc_T201_timer (i : nat) : D unit :=
  t ← the_ntme;
  match n_tei_checks t !! i with
  | None => mret tt
  | Some tc =>
      let free := upd_ntme (λ t, set_n_tei_checks (delete i (n_tei_checks t)) t) in
      if tc_count tc =? 0 then
        if tc_tei tc =? LAPD_BROADCAST_TEI then
          forM all_teis (lapd_ntme_tc_check_first tc) ;;
          upd_ntme (λ t, set_n_tei_checks
            (alter (set_tc_count (tc_count tc + 1)) i (n_tei_checks t)) t) ;;
          lapd_ntme_send_tei_check_request (tc_tei tc)
        else
          lapd_ntme_tc_check_first tc (tc_tei tc) ;;
          free
      else
        (if tc_tei tc =? LAPD_BROADCAST_TEI
         then forM all_teis (lapd_ntme_tc_check_second tc)
         else lapd_ntme_tc_check_second tc (tc_tei tc)) ;;
        free
  end.

Definition lapd_ntme_start_tei_check (tei : Z) : D unit :=
  t ← the_ntme;
  if existsb (λ tc, tc_tei tc =? tei) (n_tei_checks t) then mret tt
  else
    upd_ntme (λ t, set_n_tei_checks (n_tei_checks t ++
      [{| tc_count := 0; tc_responses := replicate 128 (0, 0); tc_tei := u8 tei |}]) t) ;;
    lapd_ntme_send_tei_check_request tei.

(** the search for a free dynamic TEI, [n] more turns of the loop, after [cur]:
    the last TEI tried, and whether it was free *)
Fixpoint find_dyn_tei (n : nat) (teis : list bool) (cur : Z) : outcome (Z * bool) :=
  match n with
  | O => Done (cur, false)
  | S n =>
      let cur := if LAPD_MAX_DYN_TEI <? cur + 1 then LAPD_MIN_DYN_TEI else cur + 1 in
      match teis !! Z.to_nat (cur - LAPD_MIN_DYN_TEI) with
      | None => Fault OutOfBounds
      | Some true => find_dyn_tei n teis cur
      | Some false => Done (cur, true)
      end
  end.

Definition lapd_ntme_handle_tei_request (tm : lapd_tei_mgmt_frame) : D unit :=
  d ← get;
  if decide (mode d = LAPD_INTF_MODE_POINT_TO_POINT)
  then lapd_tm_send LAPD_TEI_MT_DENIED (tm_ri tm) (ai_value tm)
  else
    match net_tme d with
    | None => mret tt
    | Some t =>
        if ai_value tm <=? LAPD_MAX_STA_TEI then mret tt
        else if (LAPD_MIN_DYN_TEI <=? ai_value tm) && (ai_value tm <=? LAPD_MAX_DYN_TEI)
        then lapd_ntme_send_tei_denied (tm_ri tm) (ai_value tm)
        else
          r ← lift (find_dyn_tei (Z.to_nat LAPD_NUM_DYN_TEIS) (n_teis t) (n_cur_dyn_tei t));
          let '(cur, found) := r in
          upd_ntme (set_n_cur_dyn_tei cur) ;;
          if (found : bool) then
            upd_ntme (λ t, set_n_teis
              (<[Z.to_nat (cur - LAPD_MIN_DYN_TEI) := true]> (n_teis t)) t) ;;
            lapd_ntme_send_tei_assigned (tm_ri tm) cur
          else
            lapd_ntme_send_tei_denied (tm_ri tm) (ai_value tm) ;;
            forM (seqZ LAPD_MIN_DYN_TEI LAPD_NUM_DYN_TEIS) lapd_ntme_start_tei_check
    end.

(** The TEIs of a check response, as the code collects them into [u8 teis[128]]:
    from the first octet of the frame on, up to an octet with the extension bit. *)
Fixpoint check_response_teis (n : nat) (skb : list Z) : outcome (list Z) :=
  match n with
  | O => Fault OutOfBounds
  | S n =>
      match skb with
      | [] => Fault OutOfBounds
      | o :: skb' =>
          if bits o 0 1 =? 0
          then ts ← check_response_teis n skb'; Done (Z.land (bits o 1 7) 0x7F :: ts)
          else Done [Z.land (bits o 1 7) 0x7F]
      end
  end.

Definition count_response (second : bool) (r : Z * Z) : Z * Z :=
  if second then (fst r, u8 (snd r + 1)) else (u8 (fst r + 1), snd r).

(** what one answered TEI adds to a check *)
Definition tc_count_tei (tc : lapd_ntme_tei_check) (tei : Z) : lapd_ntme_tei_check :=
  if (tc_tei tc =? LAPD_BROADCAST_TEI) || (tc_tei tc =? tei)
  then set_tc_responses
         (alter (count_response (negb (tc_count tc =? 0))) (Z.to_nat tei) (tc_responses tc)) tc
  else tc.

Definition lapd_ntme_handle_tei_check_response (skb : list Z) : D unit :=
  teis ← lift (check_response_teis 128 skb);
  t ← dv net_tme;
  match t with
  | None => mret tt
  | Some _ =>
      upd_ntme (λ t, set_n_tei_checks ((λ tc, foldl tc_count_tei tc teis) <$> n_tei_checks t) t)
  end.

Definition lapd_ntme_handle_tei_verify (tm : lapd_tei_mgmt_frame) : D unit :=
  if ai_value tm =? LAPD_BROADCAST_TEI then mret tt
  else
    t ← dv net_tme;
    match t with
    | None => mret tt
    | Some _ => lapd_ntme_start_tei_check (ai_value tm)
    end.

Definition lapd_ntme_handle_frame (skb : list Z) : D unit :=
  if Z.of_nat (length skb) <? 8 then mret tt
  else
    tm ← lift (tei_mgmt_frame skb);
    if negb (bool_decide (lapd_frame_type (h_control (tm_hdr tm)) = LAPD_FRAME_TYPE_UFRAME))
    then mret tt
    else if negb (bool_decide (lapd_uframe_function_of (h_control (tm_hdr tm)) =
                               LAPD_UFRAME_FUNC_UI))
    then mret tt
    else if negb (tm_entity tm =? 0x0f) then mret tt
    else
      let m := tm_message_type tm in
      if m =? LAPD_TEI_MT_CHK_RES then lapd_ntme_handle_tei_check_response skb
      else if m =? LAPD_TEI_MT_VERIFY then lapd_ntme_handle_tei_verify tm
      else if m =? LAPD_TEI_MT_REQUEST then lapd_ntme_handle_tei_request tm
      else mret tt.

Definition lapd_ntme_audit : D unit :=
  t ← dv net_tme;
  match t with
  | None => mret tt
  | Some _ => lapd_ntme_start_tei_check LAPD_BROADCAST_TEI
  end.

(** [random_byte] is what [get_random_bytes] gave; [HZ] as in the kernel of the time *)
Definition HZ : Z := 250.
Definition lapd_ntme_alloc : D lapd_ntme :=
  random_byte ← get_random_bytes 8;
  mret {| n_T201 := 1 * HZ; n_tei_checks := [];
          n_cur_dyn_tei := Z.rem random_byte LAPD_NUM_DYN_TEIS + LAPD_MIN_DYN_TEI;
          n_teis := replicate (Z.to_nat LAPD_NUM_DYN_TEIS) false |}.

(** ** The user side *)

Definition the_utme : L lapd_utme :=
  u ← sk usr_tme; u ← deref u;
  if u_refcnt u <=? 0 then fail UseAfterFree else mret u.
Definition upd_utme (f : lapd_utme → lapd_utme) : L unit :=
  u ← the_utme; upd (set_usr_tme (Some (f u))).

Definition lapd_utme_change_state (new_state : lapd_tei_state) : L unit :=
  upd_utme (set_u_state new_state).

Definition lapd_utme_get : L unit := upd_utme (λ u, set_u_refcnt (u_refcnt u + 1) u).

(** the last reference stops the timer, if it was pending, and frees the entity *)
Definition lapd_utme_put : L unit :=
  u ← the_utme;
  let u := set_u_refcnt (u_refcnt u - 1) u in
  upd (set_usr_tme (Some (if u_refcnt u =? 0 then set_u_T202_timer false u else u))).

(** [mod_timer] tells whether the timer was pending *)
Definition lapd_utme_reset_timer : L unit :=
  u ← the_utme;
  upd_utme (set_u_T202_timer true) ;;
  when (negb (u_T202_timer u)) lapd_utme_get.
Definition lapd_utme_stop_timer : L unit :=
  u ← the_utme;
  when (u_T202_timer u) (upd_utme (set_u_T202_timer false) ;; lapd_utme_put).

Definition lapd_utme_send_tei_request : L unit :=
  ri ← on_dev (get_random_bytes 16);
  upd_utme (set_u_tei_request_ri ri) ;;
  on_dev (lapd_tm_send LAPD_TEI_MT_REQUEST ri 127).

Definition lapd_utme_send_tei_check_response : L unit :=
  ri ← on_dev (get_random_bytes 16);
  u ← the_utme;
  on_dev (lapd_tm_send LAPD_TEI_MT_CHK_RES ri (u_tei u)).

Definition lapd_utme_send_tei_check_response_multi (teis : list Z) : D unit :=
  ri ← get_random_bytes 16;
  lapd_tm_send_multiai LAPD_TEI_MT_CHK_RES ri teis.

Definition lapd_utme_mdl_assign_indication : L unit :=
  upd_utme (set_u_retrans_cnt 0) ;;
  lapd_utme_reset_timer ;;
  upd_utme (λ u, set_u_retrans_cnt (u_retrans_cnt u + 1) u) ;;
  upd_utme (set_u_tei_request_pending true) ;;
  lapd_utme_change_state LAPD_TME_TEI_UNASSIGNED ;;
  lapd_utme_send_tei_request.

(** What the entity tells its socket; [mdl_primitive] is [lapd_mdl_primitive] of
    [datalink.c], which in turn may remove a TEI. *)
Section user_side.
Context (mdl_primitive : lapd_mdl_primitive_type → Z → L unit).

(** the loop over [lapd_hash] for the sockets of the entity *)
Definition for_the_socket (m : L unit) : L unit :=
  h ← sk sk_hashed;
  r ← on_dev (dv role);
  when (h && bool_decide (r = LAPD_INTF_ROLE_TE)) m.

Definition lapd_utme_T202_timer : L unit :=
  u ← the_utme;
  (if u_N202 u <=? u_retrans_cnt u then
     lapd_utme_change_state LAPD_TME_TEI_UNASSIGNED ;;
     upd_utme (set_u_tei_request_pending false) ;;
     upd_utme (set_u_tei_request_ri 0) ;;
     for_the_socket (mdl_primitive LAPD_MDL_ERROR_RESPONSE 0)
   else
     upd_utme (λ u, set_u_retrans_cnt (u_retrans_cnt u + 1) u) ;;
     lapd_utme_send_tei_request ;;
     lapd_utme_reset_timer) ;;
  lapd_utme_put.

(** the TEI is taken away from the entity and its socket *)
Definition lapd_utme_tei_remove : L unit :=
  upd_utme (set_u_tei LAPD_TEI_UNASSIGNED) ;;
  lapd_utme_change_state LAPD_TME_TEI_UNASSIGNED ;;
  for_the_socket (mdl_primitive LAPD_MDL_REMOVE_REQUEST 0).

(** the turn of the loop of [lapd_utme_handle_tei_assigned] for this entity;
    [true]: the message was for it, the loop ends *)
Definition lapd_utme_handle_tei_assigned (tm : lapd_tei_mgmt_frame) : L bool :=
  u ← the_utme;
  if negb (bool_decide (u_state u = LAPD_TME_TEI_UNASSIGNED)) && (ai_value tm =? u_tei u) then
    lapd_utme_tei_remove ;;
    mret false
  else if u_tei_request_pending u && (tm_ri tm =? u_tei_request_ri u) then
    upd_utme (set_u_tei_request_pending false) ;;
    upd_utme (set_u_tei_request_ri 0) ;;
    upd_utme (set_u_tei (ai_value tm)) ;;
    lapd_utme_change_state LAPD_TME_TEI_ASSIGNED ;;
    lapd_utme_stop_timer ;;
    for_the_socket (mdl_primitive LAPD_MDL_ASSIGN_REQUEST (ai_value tm)) ;;
    mret true
  else mret false.

Definition lapd_utme_assign_static_tei (tei : Z) : L unit :=
  upd_utme (set_u_tei_request_pending false) ;;
  upd_utme (set_u_tei_request_ri 0) ;;
  upd_utme (set_u_tei (u8 tei)) ;;
  lapd_utme_change_state LAPD_TME_TEI_ASSIGNED ;;
  lapd_utme_stop_timer ;;
  for_the_socket (mdl_primitive LAPD_MDL_ASSIGN_REQUEST (u8 tei)).

(** the turn of the loop of [lapd_utme_remove_tei] for this entity *)
Definition lapd_utme_remove_tei (tei : Z) : L unit :=
  u ← the_utme;
  when (negb (bool_decide (u_state u = LAPD_TME_TEI_UNASSIGNED)) &&
        ((tei =? LAPD_BROADCAST_TEI) || (tei =? u_tei u)))
    lapd_utme_tei_remove.
End user_side.

Definition lapd_utme_set_static_tei (tei : Z) : L unit :=
  upd_utme (set_u_tei (u8 tei)) ;;
  lapd_utme_change_state LAPD_TME_TEI_ASSIGNED.

(** [tme->tei = -1] in a [u8] *)
Definition lapd_utme_alloc : lapd_utme :=
  {| u_refcnt := 1; u_T202 := 2 * HZ; u_N202 := 3; u_T202_timer := false;
     u_retrans_cnt := 0; u_state := LAPD_TME_TEI_UNASSIGNED; u_tei := u8 (-1);
     u_tei_request_ri := 0; u_tei_request_pending := false |}.
