(* ===== verification/LapdDatalink.v ===== *)
(** * The data link layer state machine

    [src/modules/lapd/datalink.c]: the frames of the peer, the primitives of layer 3
    and the timers, for one socket, and [lapd_mdl_error_indication] of [af_lapd.c].
    A handler of a received frame returns whether the buffer was queued.

    [lapd_mdl_primitive] reaches itself again when an error indication removes the
    TEI of a user side socket; [mdl_primitive_depth] bounds that recursion and
    [Diverges] would mark the bound as reached. *)

From stdpp Require Import base list.
From Stdlib Require Import ZArith Lia.
From S2P Require Import Prelude.
From S2P Require Import Bits.
From S2P Require Import LapdProto.
From S2P Require Import LapdSock.
From S2P Require Import LapdOutput.
From S2P Require Import LapdTei.
Local Open Scope Z_scope.

(** ** Layer management *)

(** the indications that put the TEI in doubt *)
Definition tei_in_doubt (indication : Z) : bool :=
  let has i := negb (Z.land indication i =? 0) in
  has LAPD_MDL_ERROR_INDICATION_C || has LAPD_MDL_ERROR_INDICATION_D ||
  has LAPD_MDL_ERROR_INDICATION_G || has LAPD_MDL_ERROR_INDICATION_H.

Section error_indication.
Context (mdl_primitive : lapd_mdl_primitive_type → Z → L unit).

Definition lapd_mdl_error_indication (indication : Z) : L unit :=
  when (tei_in_doubt indication)
    (l ← get;
     if decide (role (dev l) = LAPD_INTF_ROLE_NT) then
       when (bool_decide (is_Some (net_tme (dev l))))
         (on_dev (lapd_ntme_start_tei_check (tei (ls l))))
     else
       when (bool_decide (is_Some (usr_tme (ls l)))) (lapd_utme_tei_remove mdl_primitive)).

(** the primitives of layer management in [lapd_dlc_recv] *)
Definition mdl_recv (type : lapd_mdl_primitive_type) (param : Z) : L unit :=
  match type with
  | LAPD_MDL_ASSIGN_REQUEST => lapd_mdl_assign_request param
  | LAPD_MDL_ERROR_RESPONSE => lapd_mdl_error_response
  | LAPD_MDL_ERROR_INDICATION => lapd_mdl_error_indication param
  | LAPD_MDL_REMOVE_REQUEST => lapd_mdl_remove_request
  | LAPD_MDL_PERSISTENT_DEACTIVATION => lapd_persistent_deactivation
  end.
End error_indication.

Fixpoint mdl_primitive_depth (n : nat) (type : lapd_mdl_primitive_type) (param : Z) : L unit :=
  match n with
  | O => fail Diverges
  | S n =>
      owned ← sk sk_owned;
      if (owned : bool)
      then upd (λ s, set_sk_backlog (sk_backlog s ++ [BlPrimitive type param]) s)
      else mdl_recv (mdl_primitive_depth n) type param
  end.

Definition lapd_mdl_primitive : lapd_mdl_primitive_type → Z → L unit := mdl_primitive_depth 2.

Definition mdl_error (indication : Z) : L unit :=
  lapd_mdl_primitive LAPD_MDL_ERROR_INDICATION indication.

(** ** Procedures that report errors *)

Definition lapd_nr_error_recovery_procedure : L unit :=
  mdl_error LAPD_MDL_ERROR_INDICATION_J ;;
  lapd_establish_datalink_procedure ;;
  upd (set_layer_3_initiated false).

Definition lapd_set_own_receiver_busy : L unit :=
  s ← sk (λ s, s);
  match state s with
  | LAPD_DLS_7_LINK_CONNECTION_ESTABLISHED | LAPD_DLS_8_TIMER_RECOVERY =>
      when (negb (own_receiver_busy s))
        (upd (set_own_receiver_busy true) ;;
         lapd_send_sframe LAPD_RESPONSE LAPD_SFRAME_FUNC_RNR false ;;
         upd (set_acknowledge_pending false))
  | _ => lapd_unexpected
  end.

Definition lapd_clear_own_receiver_busy : L unit :=
  s ← sk (λ s, s);
  match state s with
  | LAPD_DLS_7_LINK_CONNECTION_ESTABLISHED | LAPD_DLS_8_TIMER_RECOVERY =>
      when (own_receiver_busy s)
        (upd (set_own_receiver_busy false) ;;
         lapd_send_sframe LAPD_RESPONSE LAPD_SFRAME_FUNC_RR false ;;
         upd (set_acknowledge_pending false))
  | _ => lapd_unexpected
  end.

(** [switch (error == LAPD_FE_LENGTH)]: the value switched on is 0 or 1 *)
Definition lapd_frame_reject (error : Z) : L unit :=
  let v := if error =? LAPD_FE_LENGTH then 1 else 0 in
  (if v =? LAPD_FE_LENGTH then mdl_error LAPD_MDL_ERROR_INDICATION_N
   else if v =? LAPD_FE_N201 then mdl_error LAPD_MDL_ERROR_INDICATION_O
   else if v =? LAPD_FE_UNDEFINED_COMMAND then mdl_error LAPD_MDL_ERROR_INDICATION_L
   else if v =? LAPD_FE_I_FIELD_NOT_PERMITTED then mdl_error LAPD_MDL_ERROR_INDICATION_M
   else mret tt) ;;
  st ← sk state;
  when (bool_decide (st = LAPD_DLS_7_LINK_CONNECTION_ESTABLISHED) ||
        bool_decide (st = LAPD_DLS_8_TIMER_RECOVERY))
    (lapd_establish_datalink_procedure ;;
     upd (set_layer_3_initiated false) ;;
     lapd_change_state LAPD_DLS_5_AWAITING_ESTABLISH).

(** [lapd_ack_frames(lapd_sock, n_r); lapd_sock->v_a = n_r;] *)
Definition ack (n_r : Z) : L unit := lapd_ack_frames n_r ;; upd (set_v_a n_r).

(** [lapd_change_state] to state 5 and the recovery from an invalid N(R), in the
    order of state 7 and in that of state 8 *)
Definition recover_7 : L unit :=
  lapd_change_state LAPD_DLS_5_AWAITING_ESTABLISH ;;
  lapd_nr_error_recovery_procedure.
Definition recover_8 : L unit :=
  lapd_nr_error_recovery_procedure ;;
  lapd_change_state LAPD_DLS_5_AWAITING_ESTABLISH.

(** ** I frames *)

(** the first half of the handling of an I frame in states 7 and 8: the sequence
    number; [clear]: whether a REJ clears the pending acknowledgement *)
Definition iframe_receive (h : lapd_data_hdr_e) (skb : list Z) (clear : bool) : L bool :=
  s ← sk (λ s, s);
  if own_receiver_busy s then
    when (i_p h)
      (lapd_send_sframe LAPD_RESPONSE LAPD_SFRAME_FUNC_RNR true ;;
       upd (set_acknowledge_pending false)) ;;
    mret false
  else if i_n_s h =? v_r s then
    upd (λ s, set_v_r (Z.rem (v_r s + 1) 128) s) ;;
    upd (set_reject_exception false) ;;
    lapd_dl_data_indication skb ;;
    (if i_p h then
       lapd_send_sframe LAPD_RESPONSE LAPD_SFRAME_FUNC_RR true ;;
       upd (set_acknowledge_pending false)
     else lapd_send_sframe LAPD_RESPONSE LAPD_SFRAME_FUNC_RR false) ;;
    mret true
  else if reject_exception s then
    when (i_p h)
      (lapd_send_sframe LAPD_RESPONSE LAPD_SFRAME_FUNC_RR true ;;
       upd (set_acknowledge_pending false)) ;;
    mret false
  else
    upd (set_reject_exception true) ;;
    lapd_send_sframe LAPD_RESPONSE LAPD_SFRAME_FUNC_REJ (i_p h) ;;
    when clear (upd (set_acknowledge_pending false)) ;;
    mret false.

(** the acknowledgement in state 7: T200 is stopped when all is acknowledged, and
    restarted when something is *)
Definition ack_7 (n_r : Z) : L unit :=
  s ← sk (λ s, s);
  if n_r =? v_s s then
    ack n_r ;;
    lapd_stop_timer_T200 ;;
    lapd_start_timer_T203
  else when (negb (n_r =? v_a s)) (ack n_r ;; lapd_start_timer_T200).

(** the cases of [lapd_socket_handle_iframe] *)
Definition iframe_7 (h : lapd_data_hdr_e) (skb : list Z) : L bool :=
  queued ← iframe_receive h skb true;
  (s ← sk (λ s, s);
   if lapd_is_valid_nr s (s_n_r h) then
     (if peer_receiver_busy s then ack (s_n_r h) else ack_7 (s_n_r h))
   else recover_7) ;;
  mret queued.
Definition iframe_8 (h : lapd_data_hdr_e) (skb : list Z) : L bool :=
  queued ← iframe_receive h skb false;
  (s ← sk (λ s, s);
   if lapd_is_valid_nr s (s_n_r h) then ack (s_n_r h) else recover_7) ;;
  mret queued.

Definition lapd_socket_handle_iframe (skb : list Z) : L bool :=
  h ← lift (data_hdr_e skb);
  l ← get;
  if mtu (dev l) <? Z.of_nat (length skb) then
    lapd_frame_reject LAPD_FE_N201 ;;
    mret false
  else
    when ((sk_rmem_alloc (ls l) <? sk_rcvbuf (ls l)) && own_receiver_busy (ls l))
      lapd_clear_own_receiver_busy ;;
    if sk_rcvbuf (ls l) <=? sk_rmem_alloc (ls l) then
      lapd_set_own_receiver_busy ;;
      mret false
    else
      st ← sk state;
      match st with
      | LAPD_DLS_7_LINK_CONNECTION_ESTABLISHED => iframe_7 h skb
      | LAPD_DLS_8_TIMER_RECOVERY => iframe_8 h skb
      | _ => mret false
      end.

(** ** Supervisory frames *)

(** the C/R and P/F bits of a supervisory frame in state 7 *)
Definition sframe_poll_7 (h : lapd_data_hdr_e) : L unit :=
  r ← on_dev (dv role);
  if lapd_rx_is_response r (addr_c_r h)
  then when (s_p_f h) (mdl_error LAPD_MDL_ERROR_INDICATION_A)
  else when (s_p_f h) lapd_enquiry_response_procedure.

(** [if (lapd_is_valid_nr(...)) { ack } else { recover }] in state 8 *)
Definition ack_8 (n_r : Z) : L unit :=
  s ← sk (λ s, s);
  if lapd_is_valid_nr s n_r then ack n_r else recover_8.

(** state 8: [timers] is what the frame does to the timers when it is the answer
    to the enquiry *)
Definition sframe_8 (h : lapd_data_hdr_e) (timers : L unit) : L unit :=
  r ← on_dev (dv role);
  if lapd_rx_is_response r (addr_c_r h) then
    if s_p_f h then
      s ← sk (λ s, s);
      if lapd_is_valid_nr s (s_n_r h) then
        ack (s_n_r h) ;;
        timers ;;
        lapd_change_state LAPD_DLS_7_LINK_CONNECTION_ESTABLISHED ;;
        lapd_invoke_retransmission_procedure
      else recover_8
    else ack_8 (s_n_r h)
  else
    when (s_p_f h) lapd_enquiry_response_procedure ;;
    ack_8 (s_n_r h).

Definition lapd_socket_handle_sframe_rr (h : lapd_data_hdr_e) : L bool :=
  st ← sk state;
  match st with
  | LAPD_DLS_7_LINK_CONNECTION_ESTABLISHED =>
      upd (set_peer_receiver_busy false) ;;
      sframe_poll_7 h ;;
      s ← sk (λ s, s);
      if lapd_is_valid_nr s (s_n_r h) then ack_7 (s_n_r h) else recover_7
  | LAPD_DLS_8_TIMER_RECOVERY =>
      upd (set_peer_receiver_busy false) ;;
      sframe_8 h (lapd_stop_timer_T200 ;; lapd_start_timer_T203)
  | _ => mret tt
  end ;;
  mret false.

Definition lapd_socket_handle_sframe_rnr (h : lapd_data_hdr_e) : L bool :=
  st ← sk state;
  match st with
  | LAPD_DLS_7_LINK_CONNECTION_ESTABLISHED =>
      upd (set_peer_receiver_busy true) ;;
      sframe_poll_7 h ;;
      s ← sk (λ s, s);
      if lapd_is_valid_nr s (s_n_r h) then
        ack (s_n_r h) ;;
        lapd_invoke_retransmission_procedure ;;
        lapd_stop_timer_T203 ;;
        lapd_start_timer_T200
      else recover_7
  | LAPD_DLS_8_TIMER_RECOVERY =>
      upd (set_peer_receiver_busy true) ;;
      sframe_8 h lapd_start_timer_T200
  | _ => mret tt
  end ;;
  mret false.

Definition lapd_socket_handle_sframe_rej (h : lapd_data_hdr_e) : L bool :=
  st ← sk state;
  match st with
  | LAPD_DLS_7_LINK_CONNECTION_ESTABLISHED =>
      upd (set_peer_receiver_busy false) ;;
      sframe_poll_7 h ;;
      s ← sk (λ s, s);
      if lapd_is_valid_nr s (s_n_r h) then
        ack (s_n_r h) ;;
        lapd_stop_timer_T200 ;;
        lapd_start_timer_T203 ;;
        lapd_invoke_retransmission_procedure
      else recover_7
  | LAPD_DLS_8_TIMER_RECOVERY =>
      upd (set_peer_receiver_busy false) ;;
      sframe_8 h (lapd_stop_timer_T200 ;; lapd_start_timer_T203)
  | _ => mret tt
  end ;;
  mret false.

Definition lapd_socket_handle_sframe (skb : list Z) : L bool :=
  h ← lift (data_hdr_e skb);
  if negb (Z.of_nat (length skb) =? 6) then
    lapd_frame_reject LAPD_FE_LENGTH ;;
    mret false
  else
    match lapd_sframe_function_of (h_control h) with
    | LAPD_SFRAME_FUNC_RR => lapd_socket_handle_sframe_rr h
    | LAPD_SFRAME_FUNC_RNR => lapd_socket_handle_sframe_rnr h
    | LAPD_SFRAME_FUNC_REJ => lapd_socket_handle_sframe_rej h
    | LAPD_SFRAME_FUNC_INVALID => mret false
    end.

(** ** Unnumbered frames *)

(** [V(S) = V(R) = V(A) = 0] *)
Definition reset_variables : L unit := upd (set_v_s 0) ;; upd (set_v_r 0) ;; upd (set_v_a 0).

(** the test that follows the reset of the variables *)
Definition discard_if_outstanding : L unit :=
  s ← sk (λ s, s);
  when (negb (v_s s =? v_a s))
    (lapd_discard_i_queue ;; lapd_dl_primitive LAPD_DL_ESTABLISH_INDICATION).

Definition lapd_socket_handle_uframe_ua (h : lapd_data_hdr_e) : L bool :=
  s ← sk (λ s, s);
  match state s with
  | LAPD_DLS_4_TEI_ASSIGNED =>
      mdl_error (Z.lor LAPD_MDL_ERROR_INDICATION_C LAPD_MDL_ERROR_INDICATION_D)
  | LAPD_DLS_5_AWAITING_ESTABLISH =>
      if negb (u_p_f h) then mdl_error LAPD_MDL_ERROR_INDICATION_D
      else
        lapd_stop_timer_T200 ;;
        lapd_start_timer_T203 ;;
        reset_variables ;;
        lapd_change_state LAPD_DLS_7_LINK_CONNECTION_ESTABLISHED ;;
        if layer_3_initiated s then
          lapd_dl_primitive LAPD_DL_ESTABLISH_CONFIRM ;;
          lapd_run_i_queue
        else discard_if_outstanding
  | LAPD_DLS_6_AWAITING_RELEASE =>
      if negb (u_p_f h) then mdl_error LAPD_MDL_ERROR_INDICATION_D
      else
        lapd_stop_timer_T200 ;;
        lapd_change_state LAPD_DLS_4_TEI_ASSIGNED ;;
        lapd_dl_primitive LAPD_DL_RELEASE_CONFIRM
  | LAPD_DLS_7_LINK_CONNECTION_ESTABLISHED | LAPD_DLS_8_TIMER_RECOVERY =>
      mdl_error (Z.lor LAPD_MDL_ERROR_INDICATION_C LAPD_MDL_ERROR_INDICATION_D)
  | _ => lapd_unexpected
  end ;;
  mret false.

Definition lapd_socket_handle_uframe_disc (h : lapd_data_hdr_e) : L bool :=
  st ← sk state;
  match st with
  | LAPD_DLS_4_TEI_ASSIGNED | LAPD_DLS_5_AWAITING_ESTABLISH =>
      lapd_send_uframe LAPD_UFRAME_FUNC_DM (u_p_f h)
  | LAPD_DLS_6_AWAITING_RELEASE => lapd_send_uframe LAPD_UFRAME_FUNC_UA (u_p_f h)
  | LAPD_DLS_7_LINK_CONNECTION_ESTABLISHED =>
      lapd_discard_i_queue ;;
      lapd_send_uframe LAPD_UFRAME_FUNC_UA (u_p_f h) ;;
      lapd_stop_timer_T200 ;;
      lapd_stop_timer_T203 ;;
      lapd_change_state LAPD_DLS_4_TEI_ASSIGNED ;;
      lapd_dl_primitive LAPD_DL_RELEASE_INDICATION
  | LAPD_DLS_8_TIMER_RECOVERY =>
      lapd_discard_i_queue ;;
      lapd_send_uframe LAPD_UFRAME_FUNC_UA (u_p_f h) ;;
      lapd_stop_timer_T200 ;;
      lapd_change_state LAPD_DLS_4_TEI_ASSIGNED ;;
      lapd_dl_primitive LAPD_DL_RELEASE_INDICATION
  | _ => lapd_unexpected
  end ;;
  mret false.

Definition lapd_socket_handle_uframe_frmr : L bool :=
  mdl_error LAPD_MDL_ERROR_INDICATION_K ;;
  lapd_establish_datalink_procedure ;;
  upd (set_layer_3_initiated false) ;;
  lapd_change_state LAPD_DLS_5_AWAITING_ESTABLISH ;;
  mret false.

Definition lapd_socket_handle_uframe_dm (h : lapd_data_hdr_e) : L bool :=
  s ← sk (λ s, s);
  match state s with
  | LAPD_DLS_4_TEI_ASSIGNED =>
      when (negb (u_p_f h) && bool_decide (sk_state s = LAPD_SK_STATE_NORMAL_DLC))
        (lapd_establish_datalink_procedure ;;
         upd (set_layer_3_initiated true) ;;
         lapd_change_state LAPD_DLS_5_AWAITING_ESTABLISH)
  | LAPD_DLS_5_AWAITING_ESTABLISH =>
      when (u_p_f h)
        (lapd_discard_i_queue ;;
         lapd_stop_timer_T200 ;;
         lapd_change_state LAPD_DLS_4_TEI_ASSIGNED ;;
         lapd_dl_primitive LAPD_DL_RELEASE_INDICATION)
  | LAPD_DLS_6_AWAITING_RELEASE =>
      when (u_p_f h)
        (lapd_stop_timer_T200 ;;
         lapd_change_state LAPD_DLS_4_TEI_ASSIGNED ;;
         lapd_dl_primitive LAPD_DL_RELEASE_CONFIRM)
  | LAPD_DLS_7_LINK_CONNECTION_ESTABLISHED | LAPD_DLS_8_TIMER_RECOVERY =>
      if u_p_f h then mdl_error LAPD_MDL_ERROR_INDICATION_B
      else
        mdl_error LAPD_MDL_ERROR_INDICATION_E ;;
        lapd_establish_datalink_procedure ;;
        upd (set_layer_3_initiated false) ;;
        lapd_change_state LAPD_DLS_5_AWAITING_ESTABLISH
  | _ => lapd_unexpected
  end ;;
  mret false.

Definition lapd_socket_handle_uframe_sabme (h : lapd_data_hdr_e) : L bool :=
  s ← sk (λ s, s);
  match state s with
  | LAPD_DLS_4_TEI_ASSIGNED =>
      if bool_decide (sk_state s = LAPD_SK_STATE_NORMAL_DLC) then
        lapd_clear_exception_conditions_procedure ;;
        reset_variables ;;
        lapd_start_timer_T203 ;;
        lapd_change_state LAPD_DLS_7_LINK_CONNECTION_ESTABLISHED ;;
        lapd_send_uframe LAPD_UFRAME_FUNC_UA (u_p_f h) ;;
        lapd_dl_primitive LAPD_DL_ESTABLISH_INDICATION
      else lapd_send_uframe LAPD_UFRAME_FUNC_DM (u_p_f h)
  | LAPD_DLS_5_AWAITING_ESTABLISH => lapd_send_uframe LAPD_UFRAME_FUNC_UA (u_p_f h)
  | LAPD_DLS_6_AWAITING_RELEASE => lapd_send_uframe LAPD_UFRAME_FUNC_DM (u_p_f h)
  | LAPD_DLS_7_LINK_CONNECTION_ESTABLISHED | LAPD_DLS_8_TIMER_RECOVERY =>
      lapd_send_uframe LAPD_UFRAME_FUNC_UA (u_p_f h) ;;
      lapd_clear_exception_conditions_procedure ;;
      mdl_error LAPD_MDL_ERROR_INDICATION_F ;;
      lapd_stop_timer_T200 ;;
      lapd_start_timer_T203 ;;
      reset_variables ;;
      discard_if_outstanding
  | _ => lapd_unexpected
  end ;;
  mret false.

Definition lapd_socket_handle_uframe_ui (skb : list Z) : L bool :=
  lapd_dl_unit_data_indication skb.

Definition lapd_socket_handle_uframe_xid : L bool := mret false.

Definition lapd_socket_handle_uframe (skb : list Z) : L bool :=
  h ← lift (data_hdr_e skb);
  let function := lapd_uframe_function_of (h_control h) in
  if negb (bool_decide (function = LAPD_UFRAME_FUNC_UI)) &&
     negb (Z.of_nat (length skb) =? 5) then
    lapd_frame_reject LAPD_FE_LENGTH ;;
    mret false
  else
    match function with
    | LAPD_UFRAME_FUNC_SABME => lapd_socket_handle_uframe_sabme h
    | LAPD_UFRAME_FUNC_DM => lapd_socket_handle_uframe_dm h
    | LAPD_UFRAME_FUNC_UI => lapd_socket_handle_uframe_ui skb
    | LAPD_UFRAME_FUNC_DISC => lapd_socket_handle_uframe_disc h
    | LAPD_UFRAME_FUNC_UA => lapd_socket_handle_uframe_ua h
    | LAPD_UFRAME_FUNC_FRMR => lapd_socket_handle_uframe_frmr
    | LAPD_UFRAME_FUNC_XID => lapd_socket_handle_uframe_xid
    | LAPD_UFRAME_FUNC_INVALID =>
        lapd_frame_reject LAPD_FE_UNDEFINED_COMMAND ;;
        mret false
    end.

(** ** What a socket receives *)

(** a frame: [lapd_dlc_recv] of a buffer with a device *)
Definition dlc_recv_frame (skb : list Z) : L bool :=
  h ← lift (data_hdr_e skb);
  match lapd_frame_type (h_control h) with
  | LAPD_FRAME_TYPE_IFRAME => lapd_socket_handle_iframe skb
  | LAPD_FRAME_TYPE_SFRAME => lapd_socket_handle_sframe skb
  | LAPD_FRAME_TYPE_UFRAME => lapd_socket_handle_uframe skb
  end.

Definition lapd_dlc_recv (x : backlog_item) : L bool :=
  match x with
  | BlPrimitive type param => mdl_recv (mdl_primitive_depth 1) type param ;; mret true
  | BlFrame skb => dlc_recv_frame skb
  end.

(** ** Primitives of layer 3 *)

Definition lapd_dl_establish_request : L bool :=
  st ← sk state;
  match st with
  | LAPD_DLS_1_TEI_UNASSIGNED =>
      lapd_utme_mdl_assign_indication ;;
      lapd_change_state LAPD_DLS_3_ESTABLISH_AWAITING_TEI ;;
      mret true
  | LAPD_DLS_2_AWAITING_TEI =>
      lapd_change_state LAPD_DLS_3_ESTABLISH_AWAITING_TEI ;; mret true
  | LAPD_DLS_3_ESTABLISH_AWAITING_TEI => mret true
  | LAPD_DLS_4_TEI_ASSIGNED =>
      lapd_establish_datalink_procedure ;;
      upd (set_layer_3_initiated true) ;;
      lapd_change_state LAPD_DLS_5_AWAITING_ESTABLISH ;;
      mret true
  | LAPD_DLS_5_AWAITING_ESTABLISH =>
      lapd_establish_datalink_procedure ;;
      lapd_discard_i_queue ;;
      upd (set_layer_3_initiated true) ;;
      mret true
  | LAPD_DLS_7_LINK_CONNECTION_ESTABLISHED | LAPD_DLS_8_TIMER_RECOVERY =>
      lapd_discard_i_queue ;;
      lapd_establish_datalink_procedure ;;
      upd (set_layer_3_initiated true) ;;
      lapd_change_state LAPD_DLS_5_AWAITING_ESTABLISH ;;
      mret true
  | _ => lapd_unexpected ;; mret false
  end.

Definition lapd_dl_release_request : L bool :=
  st ← sk state;
  match st with
  | LAPD_DLS_4_TEI_ASSIGNED => lapd_dl_primitive LAPD_DL_RELEASE_CONFIRM ;; mret true
  | LAPD_DLS_5_AWAITING_ESTABLISH => mret true
  | LAPD_DLS_7_LINK_CONNECTION_ESTABLISHED =>
      lapd_discard_i_queue ;;
      upd (set_retrans_cnt 0) ;;
      lapd_send_uframe LAPD_UFRAME_FUNC_DISC true ;;
      lapd_start_timer_T200 ;;
      lapd_stop_timer_T203 ;;
      lapd_change_state LAPD_DLS_6_AWAITING_RELEASE ;;
      mret true
  | LAPD_DLS_8_TIMER_RECOVERY =>
      lapd_discard_i_queue ;;
      upd (set_retrans_cnt 0) ;;
      lapd_send_uframe LAPD_UFRAME_FUNC_DISC true ;;
      lapd_start_timer_T200 ;;
      lapd_change_state LAPD_DLS_6_AWAITING_RELEASE ;;
      mret true
  | _ => lapd_unexpected ;; mret false
  end.

Definition lapd_dl_data_request (skb : lapd_iskb) : L unit :=
  s ← sk (λ s, s);
  match state s with
  | LAPD_DLS_4_TEI_ASSIGNED => mret tt
  | LAPD_DLS_5_AWAITING_ESTABLISH =>
      when (layer_3_initiated s) (lapd_sock_queue_iframe skb)
  | LAPD_DLS_7_LINK_CONNECTION_ESTABLISHED => lapd_sock_queue_iframe skb ;; lapd_run_i_queue
  | LAPD_DLS_8_TIMER_RECOVERY => lapd_sock_queue_iframe skb
  | _ => lapd_unexpected
  end.

Definition lapd_dl_unit_data_request (skb : list Z) : L unit :=
  st ← sk state;
  match st with
  | LAPD_DLS_1_TEI_UNASSIGNED =>
      lapd_sock_queue_uframe skb ;;
      lapd_change_state LAPD_DLS_2_AWAITING_TEI ;;
      lapd_utme_mdl_assign_indication
  | LAPD_DLS_2_AWAITING_TEI | LAPD_DLS_3_ESTABLISH_AWAITING_TEI => lapd_sock_queue_uframe skb
  | _ => lapd_sock_queue_uframe skb ;; lapd_run_ui_queue
  end.

(** ** Timers.  The kernel runs them when they are no longer pending. *)

Definition lapd_timer_T200 : L unit :=
  s ← sk (λ s, s);
  if sk_owned s then upd (set_timer_T200 true)
  else
    match state s with
    | LAPD_DLS_5_AWAITING_ESTABLISH =>
        p ← the_sap;
        if retrans_cnt s =? N200 p then
          lapd_discard_i_queue ;;
          lapd_change_state LAPD_DLS_4_TEI_ASSIGNED ;;
          mdl_error LAPD_MDL_ERROR_INDICATION_G ;;
          lapd_dl_primitive LAPD_DL_RELEASE_INDICATION
        else
          upd (λ s, set_retrans_cnt (retrans_cnt s + 1) s) ;;
          lapd_send_uframe LAPD_UFRAME_FUNC_SABME true ;;
          lapd_start_timer_T200
    | LAPD_DLS_6_AWAITING_RELEASE =>
        p ← the_sap;
        if retrans_cnt s =? N200 p then
          lapd_change_state LAPD_DLS_4_TEI_ASSIGNED ;;
          lapd_dl_primitive LAPD_DL_RELEASE_CONFIRM ;;
          mdl_error LAPD_MDL_ERROR_INDICATION_H
        else
          upd (λ s, set_retrans_cnt (retrans_cnt s + 1) s) ;;
          lapd_send_uframe LAPD_UFRAME_FUNC_DISC true ;;
          lapd_start_timer_T200
    | LAPD_DLS_7_LINK_CONNECTION_ESTABLISHED =>
        upd (set_retrans_cnt 0) ;;
        lapd_transmit_enquiry_procedure ;;
        upd (λ s, set_retrans_cnt (retrans_cnt s + 1) s) ;;
        lapd_change_state LAPD_DLS_8_TIMER_RECOVERY
    | LAPD_DLS_8_TIMER_RECOVERY =>
        p ← the_sap;
        if retrans_cnt s =? N200 p then
          mdl_error LAPD_MDL_ERROR_INDICATION_I ;;
          lapd_establish_datalink_procedure ;;
          upd (set_layer_3_initiated false) ;;
          lapd_change_state LAPD_DLS_5_AWAITING_ESTABLISH
        else
          lapd_transmit_enquiry_procedure ;;
          upd (λ s, set_retrans_cnt (retrans_cnt s + 1) s)
    | _ => lapd_unexpected
    end.

(** a socket owned by a process re-arms T200, not T203 *)
Definition lapd_timer_T203 : L unit :=
  s ← sk (λ s, s);
  if sk_owned s then upd (set_timer_T200 true)
  else
    match state s with
    | LAPD_DLS_7_LINK_CONNECTION_ESTABLISHED =>
        lapd_transmit_enquiry_procedure ;;
        upd (set_retrans_cnt 0) ;;
        lapd_change_state LAPD_DLS_8_TIMER_RECOVERY
    | _ => lapd_unexpected
    end.

Definition lapd_datalink_state_init : L unit :=
  upd (set_timer_T200 false) ;;
  upd (set_timer_T203 false) ;;
  upd (set_state LAPD_DLS_NULL) ;;
  upd (set_peer_receiver_busy false) ;;
  upd (set_own_receiver_busy false) ;;
  upd (set_reject_exception false) ;;
  upd (set_acknowledge_pending false).
