(* ===== verification/LapdInput.v ===== *)
(** * LAPD: received primitives and the choice of the socket

    [src/modules/lapd/input.c], [lapd_new_sock] of [af_lapd.c] and the loops over
    the entities of [tei_mgmt_te.c].  The state is one device with the sockets bound to it.

    A received buffer is one object: a socket that queues it owns it.  The loops that
    pass it to several sockets are to clone it; linking the original into a second
    queue is [ListCorruption], freeing it while it is in a queue [UseAfterFree]. *)

From stdpp Require Import base list gmap.
From Stdlib Require Import ZArith Lia.
From S2P Require Import Prelude.
From S2P Require Import Bits.
From S2P Require Import LapdProto.
From S2P Require Import LapdSock.
From S2P Require Import LapdOutput.
From S2P Require Import LapdTei.
From S2P Require Import LapdDatalink.
Local Open Scope Z_scope.

(** one device, its sockets and the hash chains they are on *)
Record lapd_node := {
  n_dev : lapd_device;
  n_socks : gmap nat lapd_sock;
  n_hash : list nat;  (** [lapd_get_hash(dev)] *)
  n_utme_hash : list nat;  (** [lapd_utme_hash]: the sockets of the entities *)
  n_next : nat;  (** names for new sockets *)
  n_truesize : Z → Z;
}.

Definition eta_lapd_node (r : lapd_node) : lapd_node :=
  {| n_dev := n_dev r;
     n_socks := n_socks r;
     n_hash := n_hash r;
     n_utme_hash := n_utme_hash r;
     n_next := n_next r;
     n_truesize := n_truesize r |}.

Definition set_n_dev (v : lapd_device) (r : lapd_node) : lapd_node :=
  ltac:(upd_field n_dev eta_lapd_node v r).
Definition set_n_socks (v : gmap nat lapd_sock) (r : lapd_node) : lapd_node :=
  ltac:(upd_field n_socks eta_lapd_node v r).
Definition set_n_hash (v : list nat) (r : lapd_node) : lapd_node :=
  ltac:(upd_field n_hash eta_lapd_node v r).
Definition set_n_utme_hash (v : list nat) (r : lapd_node) : lapd_node :=
  ltac:(upd_field n_utme_hash eta_lapd_node v r).
Definition set_n_next (v : nat) (r : lapd_node) : lapd_node :=
  ltac:(upd_field n_next eta_lapd_node v r).
Definition set_n_truesize (v : Z → Z) (r : lapd_node) : lapd_node :=
  ltac:(upd_field n_truesize eta_lapd_node v r).

Definition N (A : Type) : Type := M lapd_node A.

(** an operation on the socket [i] and the device *)
Definition on_sock {A} (i : nat) (m : L A) : N A := λ n,
  match n_socks n !! i with
  | None => Fault UseAfterFree
  | Some s =>
      match m {| ls := s; dev := n_dev n; truesize := n_truesize n |} with
      | Done (a, l) => Done (a, set_n_dev (dev l) (set_n_socks (<[i := ls l]> (n_socks n)) n))
      | Fault f => Fault f
      end
  end.
Definition on_device {A} (m : D A) : N A := λ n,
  match m (n_dev n) with
  | Done (a, d) => Done (a, set_n_dev d n)
  | Fault f => Fault f
  end.

(** [sk_add_node], [sk_del_node_init] on the chain of the device *)
Definition sk_add_node (i : nat) : N unit :=
  modify (λ n, set_n_hash (i :: n_hash n) n) ;;
  on_sock i (upd (set_sk_hashed true)).
Definition sk_del_node_init (i : nat) : N unit :=
  modify (λ n, set_n_hash (filter (λ j, j ≠ i) (n_hash n)) n) ;;
  on_sock i (upd (set_sk_hashed false)).

(** ** Frames *)

(** a frame for a socket in use by a process waits in the backlog *)
Definition pass_frame (skb : list Z) : L bool :=
  owned ← sk sk_owned;
  if (owned : bool)
  then upd (λ s, set_sk_backlog (sk_backlog s ++ [BlFrame skb]) s) ;; mret true
  else dlc_recv_frame skb.

Definition lapd_pass_frame_to_socket (i : nat) (skb : list Z) : N bool := on_sock i (pass_frame skb).

Definition lapd_socketless_reply_dm (h : lapd_data_hdr_e) : D unit :=
  r ← dv role;
  lapd_ph_data_request
    (lapd_address (addr_sapi h) (if decide (r = LAPD_INTF_ROLE_NT) then 0 else 1) (addr_tei h) ++
     [lapd_uframe_make_control LAPD_UFRAME_FUNC_DM (u_p_f h)]).

Definition lapd_handle_socketless_frame (h : lapd_data_hdr_e) : D unit :=
  when (bool_decide (lapd_frame_type (h_control h) = LAPD_FRAME_TYPE_UFRAME) &&
        (bool_decide (lapd_uframe_function_of (h_control h) = LAPD_UFRAME_FUNC_SABME) ||
         bool_decide (lapd_uframe_function_of (h_control h) = LAPD_UFRAME_FUNC_DISC)))
    (lapd_socketless_reply_dm h).

(** the socket [lapd_new_sock] makes for the listening socket [p] *)
Definition lapd_new_sock (p : lapd_sock) (new_tei new_sapi : Z) : lapd_sock :=
  {| sk_state := LAPD_SK_STATE_NORMAL_DLC; sk_protocol := sk_protocol p; sk_shutdown := false;
     sk_err := 0; dev_bound := true; sk_hashed := false; sk_owned := false;
     sk_backlog := []; sk_write_queue := []; sk_send_head := None; sk_receive_queue := [];
     sk_rmem_alloc := 0; sk_rcvbuf := sk_rcvbuf p; sk_timer := false; skb_next := 0;
     u_queue := []; retrans_cnt := 0; timer_T200 := false; timer_T203 := false;
     v_s := 0; v_r := 0; v_a := 0; state := LAPD_DLS_4_TEI_ASSIGNED;
     peer_receiver_busy := false; own_receiver_busy := false; reject_exception := false;
     acknowledge_pending := false; layer_3_initiated := false;
     sap := if new_sapi =? LAPD_SAPI_Q931 then Some SapQ931
            else if new_sapi =? LAPD_SAPI_X25 then Some SapX25 else None;
     usr_tme := None; tei := u8 new_tei; sapi := new_sapi; new_dlcs := [] |}.

(** the walk of the chain in [lapd_pass_frame_to_socket_nt]: the socket of the
    address, or else the last listening one *)
Fixpoint find_sock_nt (socks : gmap nat lapd_sock) (h : lapd_data_hdr_e) (l : list nat)
    (listening : option nat) : outcome (option nat * option nat) :=
  match l with
  | [] => Done (None, listening)
  | i :: l =>
      match socks !! i with
      | None => Fault UseAfterFree
      | Some s =>
          if decide (sk_state s = LAPD_SK_STATE_LISTEN) then find_sock_nt socks h l (Some i)
          else if (sapi s =? addr_sapi h) && (tei s =? addr_tei h) then Done (Some i, listening)
          else find_sock_nt socks h l listening
      end
  end.

Definition lapd_pass_frame_to_socket_nt (skb : list Z) : N bool :=
  h ← lift (data_hdr_e skb);
  n ← get;
  r ← lift (find_sock_nt (n_socks n) h (n_hash n) None);
  match (r : option nat * option nat) with
  | (Some i, _) => lapd_pass_frame_to_socket i skb
  | (None, Some p) =>
      ps ← deref (n_socks n !! p);
      let i := n_next n in
      modify (λ n, set_n_next (S i)
        (set_n_socks (<[i := lapd_new_sock ps (addr_tei h) (addr_sapi h)]> (n_socks n)) n)) ;;
      sk_add_node i ;;
      on_sock p (upd (λ s, set_new_dlcs (i :: new_dlcs s) s)) ;;
      lapd_pass_frame_to_socket i skb
  | (None, None) => on_device (lapd_handle_socketless_frame h) ;; mret false
  end.

(** [queued] is the variable of the C code, [taken] whether a socket owns the
    original buffer *)
Fixpoint pass_frame_te_loop (skb : list Z) (h : lapd_data_hdr_e) (l : list nat)
    (queued taken : bool) : N (bool * bool) :=
  match l with
  | [] => mret (queued, taken)
  | i :: l =>
      n ← get;
      match n_socks n !! i with
      | None => fail UseAfterFree
      | Some s =>
          if (bool_decide (sk_state s = LAPD_SK_STATE_NORMAL_DLC) ||
              bool_decide (sk_state s = LAPD_SK_STATE_BROADCAST_DLC)) &&
             (sapi s =? addr_sapi h) && (tei s =? addr_tei h)
          then
            let original := negb queued in
            when (original && taken) (fail ListCorruption) ;;
            q ← lapd_pass_frame_to_socket i skb;
            pass_frame_te_loop skb h l q (taken || (original && q))
          else pass_frame_te_loop skb h l queued taken
      end
  end.

(** a buffer that is not queued is freed by the caller *)
Definition lapd_pass_frame_to_socket_te (skb : list Z) : N bool :=
  h ← lift (data_hdr_e skb);
  n ← get;
  r ← pass_frame_te_loop skb h (n_hash n) false false;
  let '(queued, taken) := r in
  when (negb queued && taken) (fail UseAfterFree) ;;
  mret queued.

(** ** Primitives for the management sockets *)

Definition lapd_mgmt_queue_primitive (skb : list Z) : L bool :=
  receive_queue_tail (Z.of_nat (length skb)) (RxFrame skb) ;;
  mret true.

(** every management socket is given the buffer itself, not the clone *)
Fixpoint dispatch_mph_loop (skb : list Z) (l : list nat) (queued : bool) : N bool :=
  match l with
  | [] => mret queued
  | i :: l =>
      n ← get;
      match n_socks n !! i with
      | None => fail UseAfterFree
      | Some s =>
          if decide (sk_state s = LAPD_SK_STATE_MGMT) then
            when queued (fail ListCorruption) ;;
            q ← on_sock i
              (if sk_owned s
               then upd (λ s, set_sk_backlog (sk_backlog s ++ [BlFrame skb]) s) ;; mret true
               else lapd_mgmt_queue_primitive skb);
            dispatch_mph_loop skb l q
          else dispatch_mph_loop skb l queued
      end
  end.

Definition lapd_dispatch_mph_primitive (skb : list Z) : N bool :=
  n ← get; dispatch_mph_loop skb (n_hash n) false.

(** ** TEI management frames of the user side *)

Fixpoint tei_assigned_loop (tm : lapd_tei_mgmt_frame) (l : list nat) : N unit :=
  match l with
  | [] => mret tt
  | i :: l =>
      found ← on_sock i (lapd_utme_handle_tei_assigned lapd_mdl_primitive tm);
      if (found : bool) then mret tt else tei_assigned_loop tm l
  end.

Definition utme_handle_tei_assigned (tm : lapd_tei_mgmt_frame) : N unit :=
  n ← get; tei_assigned_loop tm (n_utme_hash n).

(** the entities that have a TEI, in the order of the chain *)
Definition assigned_entities (n : lapd_node) : list (nat * Z) :=
  omap (λ i, s ← n_socks n !! i; u ← usr_tme s;
             if decide (u_state u = LAPD_TME_TEI_UNASSIGNED) then None else Some (i, u_tei u))
       (n_utme_hash n).

Definition lapd_utme_handle_tei_check_request (tm : lapd_tei_mgmt_frame) : N unit :=
  n ← get;
  if ai_value tm =? LAPD_BROADCAST_TEI then
    let teis := snd <$> assigned_entities n in
    when (128 <? length teis)%nat (fail OutOfBounds) ;;
    when (negb (bool_decide (teis = []))) (on_device (lapd_utme_send_tei_check_response_multi teis))
  else
    forM (filter (λ e, e.2 = ai_value tm) (assigned_entities n))
      (λ e, on_sock e.1 lapd_utme_send_tei_check_response).

Definition lapd_utme_remove_tei_all (tei : Z) : N unit :=
  n ← get; forM (n_utme_hash n) (λ i, on_sock i (lapd_utme_remove_tei lapd_mdl_primitive tei)).

Definition lapd_utme_handle_frame (skb : list Z) : N unit :=
  if Z.of_nat (length skb) <? 8 + 2 then mret tt
  else
    tm ← lift (tei_mgmt_frame skb);
    if negb (bool_decide (lapd_frame_type (h_control (tm_hdr tm)) = LAPD_FRAME_TYPE_UFRAME))
    then mret tt
    else if negb (bool_decide (lapd_uframe_function_of (h_control (tm_hdr tm)) =
                               LAPD_UFRAME_FUNC_UI))
    then mret tt
    else if negb (tm_entity tm =? 0x0f) then mret tt
    else
      let m := tm_message_type tm in
      if m =? LAPD_TEI_MT_ASSIGNED then utme_handle_tei_assigned tm
      else if m =? LAPD_TEI_MT_DENIED then mret tt
      else if m =? LAPD_TEI_MT_CHK_REQ then lapd_utme_handle_tei_check_request tm
      else if m =? LAPD_TEI_MT_REMOVE then lapd_utme_remove_tei_all (ai_value tm)
      else mret tt.

(** ** Primitives of layer 1 *)

(** [dev->role && LAPD_INTF_ROLE_NT]: whether the role is not 0 *)
Definition lapd_ph_data_indication (skb : list Z) : N bool :=
  if Z.of_nat (length skb) <? 3 + 2 then mret false
  else
    h ← lift (data_hdr_e skb);
    if negb (addr_ea1 h =? 0) || (addr_ea2 h =? 0) then mret false
    else
      r ← on_device (dv role);
      match r with
      | LAPD_INTF_ROLE_NT =>
          if addr_sapi h =? LAPD_SAPI_TEI_MGMT
          then on_device (lapd_ntme_handle_frame skb) ;; mret false
          else lapd_pass_frame_to_socket_nt skb
      | LAPD_INTF_ROLE_TE =>
          if addr_sapi h =? LAPD_SAPI_TEI_MGMT
          then lapd_utme_handle_frame skb ;; mret false
          else lapd_pass_frame_to_socket_te skb
      end.

Definition lapd_ph_activate_indication : N bool :=
  on_device (upd_dev (set_l1_state LAPD_L1_STATE_AVAILABLE) ;; lapd_out_queue_flush) ;;
  mret false.

Definition lapd_ph_deactivate_indication : N bool :=
  on_device (upd_dev (set_l1_state LAPD_L1_STATE_UNAVAILABLE)) ;;
  n ← get;
  forM (n_hash n) (λ i,
    on_sock i (st ← sk sk_state;
               when (bool_decide (st = LAPD_SK_STATE_NORMAL_DLC))
                 (lapd_mdl_primitive LAPD_MDL_PERSISTENT_DEACTIVATION 0))) ;;
  mret false.

Definition LAPD_MPH_II_DISCONNECTED : Z := 1.

(** [param] is the octet after the primitive header *)
Definition lapd_mph_information_indication (skb : list Z) : N unit :=
  if Z.of_nat (length skb) <? 4 + 1 then mret tt
  else
    param ← lift (oct skb 4);
    when (param =? LAPD_MPH_II_DISCONNECTED) (lapd_utme_remove_tei_all LAPD_BROADCAST_TEI).

Definition LAPD_PH_DATA_INDICATION : Z := 2.
Definition LAPD_PH_ACTIVATE_INDICATION : Z := 3.
Definition LAPD_PH_DEACTIVATE_INDICATION : Z := 4.
Definition LAPD_MPH_ERROR_INDICATION : Z := 6.
Definition LAPD_MPH_ACTIVATE_INDICATION : Z := 7.
Definition LAPD_MPH_DEACTIVATE_INDICATION : Z := 8.
Definition LAPD_MPH_INFORMATION_INDICATION : Z := 10.

(** a buffer for this host: the primitive header and what follows it; the result
    is whether it was queued (otherwise it is freed) *)
Definition lapd_rcv (skb : list Z) : N bool :=
  if Z.of_nat (length skb) <? 4 then mret false
  else
    p ← lift (oct skb 0);
    if p =? LAPD_PH_DATA_INDICATION then lapd_ph_data_indication (drop 4 skb)
    else if p =? LAPD_PH_ACTIVATE_INDICATION then lapd_ph_activate_indication
    else if p =? LAPD_PH_DEACTIVATE_INDICATION then lapd_ph_deactivate_indication
    else if p =? LAPD_MPH_ERROR_INDICATION then lapd_dispatch_mph_primitive skb
    else if p =? LAPD_MPH_ACTIVATE_INDICATION then lapd_dispatch_mph_primitive skb
    else if p =? LAPD_MPH_DEACTIVATE_INDICATION then lapd_dispatch_mph_primitive skb
    else if p =? LAPD_MPH_INFORMATION_INDICATION then
      lapd_mph_information_indication skb ;;
      lapd_dispatch_mph_primitive skb
    else mret false.
