(* ===== verification/LapdUser.v ===== *)
(** * LAPD: the socket calls of a process

    [src/modules/lapd/af_lapd.c] and [device.c].  A call holds the socket: what the
    peer, the timers and layer management have for it meanwhile waits in the backlog,
    and [lapd_release_sock] works through it, still holding the socket.  The calls that sleep
    ([connect], [accept], [shutdown]) are modelled up to the point where they sleep.
    A result below 0 is an error code; [sk_alloc] succeeds. *)

From stdpp Require Import base list gmap.
From Stdlib Require Import ZArith Lia.
From S2P Require Import Prelude.
From S2P Require Import Bits.
From S2P Require Import LapdProto.
From S2P Require Import LapdSock.
From S2P Require Import LapdOutput.
From S2P Require Import LapdTei.
From S2P Require Import LapdDatalink.
From S2P Require Import LapdInput.
From S2P Require Import Bits.
Local Open Scope Z_scope.

(** ** Holding a socket *)

Definition lapd_lock_sock : L unit := upd (set_sk_owned true).

(** [sk->sk_backlog_rcv] *)
Definition backlog_rcv (x : backlog_item) : L unit :=
  p ← sk sk_protocol;
  if p =? LAPD_SAPI_MGMT then
    match x with
    | BlFrame skb => _ ← lapd_mgmt_queue_primitive skb; mret tt
    | BlPrimitive _ _ => receive_queue_tail 8 (RxFrame [])
    end
  else _ ← lapd_dlc_recv x; mret tt.

Fixpoint release_loop (fuel : nat) : L unit :=
  match fuel with
  | O => fail Diverges
  | S fuel =>
      b ← sk sk_backlog;
      match (b : list backlog_item) with
      | [] => upd (set_sk_owned false)
      | x :: b' => upd (set_sk_backlog b') ;; backlog_rcv x ;; release_loop fuel
      end
  end.

(** a frame leaves at most two error indications in the backlog, an error
    indication at most the removal of the TEI *)
Definition lapd_release_sock : L unit :=
  b ← sk sk_backlog;
  release_loop (S (5 * length (b : list backlog_item) + 5)).

(** ** Sending and receiving *)

(** the checks of [lapd_sendmsg] *)
Definition sendmsg_checks (len : Z) : L Z :=
  l ← get;
  let s := ls l in
  if negb (sk_err s =? 0) then upd (set_sk_err 0) ;; mret (- sk_err s)
  else if negb (bool_decide (sk_state s = LAPD_SK_STATE_NORMAL_DLC)) &&
          negb (bool_decide (sk_state s = LAPD_SK_STATE_BROADCAST_DLC)) &&
          negb (bool_decide (sk_state s = LAPD_SK_STATE_MGMT))
  then mret (- EINVAL)
  else if sk_shutdown s then mret (- EPIPE)
  else if negb (dev_bound s) then mret (- ENODEV)
  else if mtu (dev l) <? len then mret (- EMSGSIZE)
  else mret 0.

(** the data goes to the peer: with [MSG_OOB] in an UI frame *)
Definition sendmsg_send (oob : bool) (data : list Z) : L unit :=
  if oob then
    hdr ← lapd_prepare_uframe LAPD_UFRAME_FUNC_UI false;
    lapd_dl_unit_data_request (hdr ++ data)
  else
    skb ← lapd_prepare_iframe data;
    lapd_dl_data_request skb.

(** the socket is released while the buffer is allocated *)
Definition lapd_sendmsg (oob : bool) (data : list Z) : L Z :=
  lapd_lock_sock ;;
  err ← sendmsg_checks (Z.of_nat (length data));
  lapd_release_sock ;;
  if (err <? 0) then mret err
  else
    lapd_lock_sock ;;
    sendmsg_send oob data ;;
    lapd_release_sock ;;
    mret (Z.of_nat (length data)).

(** what [lapd_recvmsg] copies to the process, and its result *)
Record recv_result := {
  rcv_copied : Z;
  rcv_oob : bool;
  rcv_data : list Z;
}.
Definition recv_error (e : Z) : recv_result :=
  {| rcv_copied := - e; rcv_oob := false; rcv_data := [] |}.

(** [copied > size] compares an [int] with a [size_t]: a negative value is large *)
Definition recv_frame (protocol : Z) (skb : list Z) (size : Z) : outcome recv_result :=
  if protocol =? LAPD_SAPI_MGMT then
    Done {| rcv_copied := Z.of_nat (length skb); rcv_oob := false; rcv_data := skb |}
  else
    h ← data_hdr_e skb;
    let oob := bool_decide (lapd_frame_type (h_control h) = LAPD_FRAME_TYPE_UFRAME) in
    let hdrsize := if oob then 3 else 4 in
    let copied := Z.of_nat (length skb) - hdrsize - 2 in
    let copied := if (copied <? 0) || (size <? copied) then size else copied in
    Done {| rcv_copied := copied; rcv_oob := oob;
            rcv_data := take (Z.to_nat copied) (drop (Z.to_nat hdrsize) skb) |}.

Definition recv_primitive (type : lapd_dl_primitive_type) : recv_result :=
  match type with
  | LAPD_DL_ESTABLISH_INDICATION => recv_error EALREADY
  | LAPD_DL_ESTABLISH_CONFIRM => recv_error EISCONN
  | LAPD_DL_RELEASE_INDICATION => recv_error ECONNRESET
  | LAPD_DL_RELEASE_CONFIRM => recv_error ENOTCONN
  end.

(** the length of the buffer of an item of the receive queue *)
Definition rx_len (x : rx_item) : Z :=
  match x with RxFrame skb => Z.of_nat (length skb) | RxPrimitive _ => 8 end.

(** [skb_recv_datagram], [skb_free_datagram]: the first item of the queue, and its
    memory is given back *)
Definition recv_datagram : L (option rx_item) :=
  l ← get;
  match sk_receive_queue (ls l) with
  | [] => mret None
  | x :: q =>
      upd (set_sk_receive_queue q) ;;
      upd (λ s, set_sk_rmem_alloc (sk_rmem_alloc s - truesize l (rx_len x)) s) ;;
      mret (Some x)
  end.

Definition lapd_recvmsg (size : Z) : L recv_result :=
  lapd_lock_sock ;;
  s ← sk (λ s, s);
  lapd_release_sock ;;
  if negb (bool_decide (sk_state s = LAPD_SK_STATE_NORMAL_DLC)) &&
     negb (bool_decide (sk_state s = LAPD_SK_STATE_BROADCAST_DLC)) &&
     negb (bool_decide (sk_state s = LAPD_SK_STATE_MGMT))
  then mret (recv_error EINVAL)
  else if sk_shutdown s then mret (recv_error EPIPE)
  else if negb (dev_bound s) then mret (recv_error ENODEV)
  else
    x ← recv_datagram;
    match x with
    | None => mret (recv_error EWOULDBLOCK)
    | Some (RxFrame skb) => lift (recv_frame (sk_protocol s) skb size)
    | Some (RxPrimitive type) => mret (recv_primitive type)
    end.

(** ** Connections *)

(** [lapd_create]: a socket of a process; [rcvbuf] is the kernel's default *)
Definition lapd_create (protocol rcvbuf : Z) : lapd_sock :=
  {| sk_state := LAPD_SK_STATE_NULL; sk_protocol := protocol; sk_shutdown := false;
     sk_err := 0; dev_bound := false; sk_hashed := false; sk_owned := false;
     sk_backlog := []; sk_write_queue := []; sk_send_head := None; sk_receive_queue := [];
     sk_rmem_alloc := 0; sk_rcvbuf := rcvbuf; sk_timer := false; skb_next := 0;
     u_queue := []; retrans_cnt := 0; timer_T200 := false; timer_T203 := false;
     v_s := 0; v_r := 0; v_a := 0; state := LAPD_DLS_NULL;
     peer_receiver_busy := false; own_receiver_busy := false; reject_exception := false;
     acknowledge_pending := false; layer_3_initiated := false;
     sap := None; usr_tme := None; tei := 0; sapi := protocol; new_dlcs := [] |}.

(** [setsockopt(SO_BINDTODEVICE)] with the device, which is up *)
Definition lapd_bind_to_device (i : nat) : N unit :=
  on_sock i
    (upd (set_state LAPD_DLS_1_TEI_UNASSIGNED) ;;
     upd (set_dev_bound true) ;;
     s ← sk (λ s, s);
     if sapi s =? LAPD_SAPI_Q931 then upd (set_sap (Some SapQ931))
     else if sapi s =? LAPD_SAPI_X25 then upd (set_sap (Some SapX25))
     else when (sk_protocol s =? LAPD_SAPI_MGMT) (upd (set_sk_state LAPD_SK_STATE_MGMT))) ;;
  sk_add_node i.

(** [hlist_del], [hlist_add_head] on [lapd_utme_hash] *)
Definition utme_del (i : nat) : N unit :=
  modify (λ n, set_n_utme_hash (filter (λ j, j ≠ i) (n_utme_hash n)) n).
Definition utme_add (i : nat) : N unit :=
  modify (λ n, set_n_utme_hash (i :: n_utme_hash n) n).

(** the end of [lapd_bind] on the user side: a new entity, on the hash, and the
    static TEI if one is asked for *)
Definition bind_user (i : nat) (sal_tei : Z) : N unit :=
  u ← on_sock i (sk usr_tme);
  when (bool_decide (is_Some u)) (utme_del i) ;;
  on_sock i (upd (set_usr_tme (Some lapd_utme_alloc)) ;; lapd_utme_get) ;;
  utme_add i ;;
  when (sal_tei <=? LAPD_MAX_STA_TEI)
    (on_sock i (lapd_utme_assign_static_tei lapd_mdl_primitive sal_tei)).

(** the cases of [lapd_bind] once the socket is held *)
Definition bind_locked (i : nat) (sal_tei : Z) : N Z :=
  s ← on_sock i (sk (λ s, s));
  if negb (bool_decide (sk_state s = LAPD_SK_STATE_NULL)) then mret (- EINVAL)
  else if sk_shutdown s then mret (- EPIPE)
  else if negb (dev_bound s) then mret (- ENODEV)
  else if sal_tei =? LAPD_BROADCAST_TEI then
    on_sock i
      (upd (set_usr_tme None) ;;
       upd (set_tei sal_tei) ;;
       upd (set_state LAPD_DLS_4_TEI_ASSIGNED) ;;
       upd (set_sk_state LAPD_SK_STATE_BROADCAST_DLC)) ;;
    mret 0
  else if (sal_tei =? LAPD_DYNAMIC_TEI) || (sal_tei <=? LAPD_MAX_STA_TEI) then
    on_sock i (upd (set_sk_state LAPD_SK_STATE_NORMAL_DLC)) ;;
    r ← on_device (dv role);
    match r with
    | LAPD_INTF_ROLE_NT =>
        if sal_tei =? LAPD_DYNAMIC_TEI then mret (- EINVAL)
        else on_sock i (upd (set_state LAPD_DLS_4_TEI_ASSIGNED)) ;; mret 0
    | LAPD_INTF_ROLE_TE =>
        on_sock i (upd (set_state LAPD_DLS_1_TEI_UNASSIGNED)) ;;
        bind_user i sal_tei ;;
        mret 0
    end
  else mret (- EINVAL).

(** [sal_tei] is an octet *)
Definition lapd_bind (i : nat) (sal_tei : Z) : N Z :=
  on_sock i lapd_lock_sock ;;
  r ← bind_locked i sal_tei;
  on_sock i lapd_release_sock ;;
  mret r.

(** [lapd_connect] and the first turn of [lapd_multiframe_wait_for_establishment];
    [None]: the process sleeps, having released the socket *)
Definition lapd_connect (nonblock : bool) : L (option Z) :=
  lapd_lock_sock ;;
  s ← sk (λ s, s);
  r ← (if negb (bool_decide (sk_state s = LAPD_SK_STATE_NORMAL_DLC)) then mret (Some (- EINVAL))
       else if sk_shutdown s then mret (Some (- EPIPE))
       else
         ok ← lapd_dl_establish_request;
         st ← sk state;
         mret (if negb (ok : bool) then Some (- EINVAL)
               else if decide (st = LAPD_DLS_7_LINK_CONNECTION_ESTABLISHED)
               then Some (- EISCONN)
               else if nonblock then Some (- EWOULDBLOCK) else None));
  lapd_release_sock ;;
  mret r.

Definition lapd_listen : L Z :=
  lapd_lock_sock ;;
  s ← sk (λ s, s);
  r ← (if negb (bool_decide (sk_state s = LAPD_SK_STATE_NULL)) then mret (- EINVAL)
       else if sk_shutdown s then mret (- EPIPE)
       else if negb (dev_bound s) then mret (- ENODEV)
       else upd (set_sk_state LAPD_SK_STATE_LISTEN) ;;
            upd (set_state LAPD_DLS_LISTENING) ;;
            mret 0);
  lapd_release_sock ;;
  mret r.

(** the result is an error or the socket handed out; without a new connection the
    call would block *)
Definition lapd_accept : L (Z + nat) :=
  lapd_lock_sock ;;
  s ← sk (λ s, s);
  r ← (if negb (bool_decide (sk_state s = LAPD_SK_STATE_LISTEN)) then mret (inl (- EINVAL))
       else if sk_shutdown s then mret (inl (- EPIPE))
       else match new_dlcs s with
            | [] => mret (inl (- EWOULDBLOCK))
            | i :: l => upd (set_new_dlcs l) ;; mret (inr i)
            end);
  lapd_release_sock ;;
  mret r.

(** [lapd_shutdown] up to where [lapd_multiframe_wait_for_release] sleeps *)
Definition lapd_shutdown (nonblock : bool) : L (option Z) :=
  lapd_lock_sock ;;
  _ ← lapd_dl_release_request;
  st ← sk state;
  lapd_release_sock ;;
  mret (if bool_decide (st = LAPD_DLS_4_TEI_ASSIGNED) ||
           bool_decide (st = LAPD_DLS_1_TEI_UNASSIGNED)
        then Some 0 else if nonblock then Some (- EWOULDBLOCK) else None).

(** the socket stays on the hash until the peer confirms the release *)
Definition lapd_release (i : nat) : N unit :=
  on_sock i lapd_lock_sock ;;
  s ← on_sock i (sk (λ s, s));
  (if bool_decide (sk_state s = LAPD_SK_STATE_NORMAL_DLC) &&
      (bool_decide (state s = LAPD_DLS_7_LINK_CONNECTION_ESTABLISHED) ||
       bool_decide (state s = LAPD_DLS_8_TIMER_RECOVERY))
   then
     on_sock i (upd (set_sk_state LAPD_SK_STATE_NORMAL_DLC_CLOSING) ;;
                _ ← lapd_dl_release_request; mret tt)
   else
     on_sock i (upd (set_sk_state LAPD_SK_STATE_CLOSE)) ;;
     sk_del_node_init i) ;;
  on_sock i lapd_release_sock.

Definition lapd_unhash_timer (i : nat) : N unit := sk_del_node_init i.

(** ** Options and the device *)

(** the options of a socket that take an [int] *)
Inductive lapd_sockopt : Set :=
| LAPD_TEI_MGMT_T201 | LAPD_TEI_MGMT_N202 | LAPD_TEI_MGMT_T202
| LAPD_T200 | LAPD_N200 | LAPD_T203 | LAPD_N201 | LAPD_K.

(** [(ls)->sap->...] as the target of an assignment *)
Definition upd_sap (f : lapd_sap → lapd_sap) : L unit :=
  r ← sk sap; r ← deref r;
  on_dev (upd_dev (λ d, match r with
                        | SapQ931 => set_q931 (f (q931 d)) d
                        | SapX25 => set_x25 (f (x25 d)) d
                        end)).

Definition sockopt_limit (o : lapd_sockopt) : Z :=
  match o with LAPD_N201 => 512 | _ => 30 end.

Definition set_option (o : lapd_sockopt) (v : Z) : L Z :=
  if (v <=? 0) || (sockopt_limit o <? v) then mret (- EINVAL)
  else
    l ← get;
    match o with
    | LAPD_TEI_MGMT_T201 =>
        if negb (dev_bound (ls l)) then mret (- ENODEV)
        else if decide (role (dev l) = LAPD_INTF_ROLE_TE) then mret (- EINVAL)
        else on_dev (upd_ntme (set_n_T201 (Z.quot (v * HZ) 1000))) ;; mret 0
    | LAPD_TEI_MGMT_N202 =>
        if negb (dev_bound (ls l)) then mret (- ENODEV)
        else if decide (role (dev l) = LAPD_INTF_ROLE_NT) then mret (- EINVAL)
        else upd_utme (set_u_N202 v) ;; mret 0
    | LAPD_TEI_MGMT_T202 =>
        if negb (dev_bound (ls l)) then mret (- ENODEV)
        else if decide (role (dev l) = LAPD_INTF_ROLE_NT) then mret (- EINVAL)
        else upd_utme (set_u_N202 (Z.quot (v * HZ) 1000)) ;; mret 0
    | LAPD_T200 => upd_sap (set_T200 (Z.quot (v * HZ) 1000)) ;; mret 0
    | LAPD_N200 => upd_sap (set_N200 v) ;; mret 0
    | LAPD_T203 => upd_sap (set_T203 (Z.quot (v * HZ) 1000)) ;; mret 0
    | LAPD_N201 => upd_sap (set_N201 v) ;; mret 0
    | LAPD_K => upd_sap (set_k v) ;; mret 0
    end.

Definition lapd_setsockopt (o : lapd_sockopt) (v : Z) : L Z :=
  s ← sk sk_shutdown;
  if (s : bool) then mret (- EPIPE)
  else
    lapd_lock_sock ;;
    r ← set_option o v;
    lapd_release_sock ;;
    mret r.

Definition default_sap : lapd_sap :=
  {| k := 7; N200 := 3; N201 := 260; T200 := 1 * HZ; T203 := 10 * HZ |}.

(** [lapd_device_up]: the flags of the interface choose mode and role *)
Definition lapd_device_up (multipoint nt : bool) (dev_mtu : Z) (random : list Z) :
    outcome lapd_device :=
  let d := {| role := if nt then LAPD_INTF_ROLE_NT else LAPD_INTF_ROLE_TE;
              mode := if multipoint then LAPD_INTF_MODE_MULTIPOINT
                      else LAPD_INTF_MODE_POINT_TO_POINT;
              l1_state := LAPD_L1_STATE_UNAVAILABLE; out_queue := [];
              q931 := default_sap; x25 := default_sap; net_tme := None; mtu := dev_mtu;
              xmit := []; entropy := random |} in
  if nt then
    match lapd_ntme_alloc d with
    | Done (t, d) => Done (set_net_tme (Some t) d)
    | Fault f => Fault f
    end
  else Done d.

Definition lapd_kill_by_device : N unit :=
  n ← get;
  forM (n_hash n) (λ i, on_sock i (upd (set_sk_shutdown true) ;; upd (set_sk_err ENETDOWN))).

Definition lapd_device_down : N unit :=
  lapd_kill_by_device ;;
  on_device (lapd_out_queue_drop ;; upd_dev (set_net_tme None)).
