(* ===== verification/LapdPeer.v ===== *)
(** * Frames read by the other side, and two links with the channel between them

    The control and address octets of a frame; two data link entities over a channel
    that loses frames; counters of frames that do not wrap. *)

From stdpp Require Import base list.
From Stdlib Require Import ZArith Lia.
From S2P Require Import Prelude.
From S2P Require Import Bits.
From S2P Require Import LapdProto.
From S2P Require Import LapdSock.
From S2P Require Import LapdOutput.
From S2P Require Import LapdTei.
From S2P Require Import LapdDatalink.
From S2P Require Import LapdInput.
From S2P Require Import LapdUser.
Local Open Scope Z_scope.

(** ** Control octets *)

Lemma uframe_control_read f p :
  f ≠ LAPD_UFRAME_FUNC_INVALID →
  let c := lapd_uframe_make_control f p in
  lapd_frame_type c = LAPD_FRAME_TYPE_UFRAME ∧ lapd_uframe_function_of c = f ∧
  negb (bits c 4 1 =? 0) = p.
Proof. by destruct f, p. Qed.

Lemma sframe_control_read f :
  f ≠ LAPD_SFRAME_FUNC_INVALID →
  let c := lapd_sframe_make_control f in
  lapd_frame_type c = LAPD_FRAME_TYPE_SFRAME ∧ lapd_sframe_function_of c = f.
Proof. by destruct f. Qed.

(** the second control octet of a supervisory frame is built with shifts, that of
    an I frame with bit fields *)
Lemma sframe_control2_octet n_r p :
  0 ≤ n_r < 128 →
  lapd_sframe_make_control2 n_r p = octet [(if p then 1 else 0, 0, 1); (n_r, 1, 7)].
Proof.
  intros Hn. unfold lapd_sframe_make_control2, octet, field, mask, u8. cbn [foldr].
  rewrite Z.lor_0_r, (Z.land_ones n_r) by lia. rewrite (Z.mod_small n_r) by (cbn; lia).
  change 255 with (Z.ones 8). rewrite Z.land_ones by lia.
  assert (0 ≤ Z.lor (Z.shiftl n_r 1) (if p then 1 else 0) < 2 ^ 8) as Hb.
  { apply lor_bound; [lia| |destruct p; lia]. rewrite Z.shiftl_mul_pow2 by lia. lia. }
  rewrite Z.mod_small by done. rewrite Z.lor_comm. f_equal. by destruct p.
Qed.

Lemma control2_n_r v n_r : 0 ≤ n_r < 128 → bits (octet [(v, 0, 1); (n_r, 1, 7)]) 1 7 = n_r.
Proof. intros Hn. octet_bits. done. Qed.

Lemma control2_p v n_r : 0 ≤ v < 2 → bits (octet [(v, 0, 1); (n_r, 1, 7)]) 0 1 = v.
Proof. intros Hn. octet_bits. done. Qed.

(** an octet whose lowest bit field is 0 is the control octet of an I frame *)
Lemma land_1_bits c : Z.land c 1 = bits c 0 1.
Proof. unfold bits, mask. by rewrite Z.shiftr_0_r. Qed.

Lemma i_control_type n_s : lapd_frame_type (octet [(0, 0, 1); (n_s, 1, 7)]) = LAPD_FRAME_TYPE_IFRAME.
Proof.
  unfold lapd_frame_type. rewrite land_1_bits.
  replace (bits _ 0 1) with 0; [done|]. by octet_bits.
Qed.

(** ** The C/R bit: the peer has the other role *)

Definition peer_role (r : lapd_intf_role) : lapd_intf_role :=
  match r with LAPD_INTF_ROLE_TE => LAPD_INTF_ROLE_NT | LAPD_INTF_ROLE_NT => LAPD_INTF_ROLE_TE end.

(** A frame sent as a command is received as a command by the other side of the
    interface, and a response as a response, whatever side sends it: the C/R bit is
    written and read with opposite meanings. *)
Theorem command_response_roundtrip r c :
  lapd_rx_is_command (peer_role r) (lapd_make_cr r c) = bool_decide (c = LAPD_COMMAND) ∧
  lapd_rx_is_response (peer_role r) (lapd_make_cr r c) = bool_decide (c = LAPD_RESPONSE).
Proof. by destruct r, c. Qed.

(** ** Headers *)

(** The header of an I frame survives the wire: what the receiver reads in the
    octets [lapd_run_i_queue] transmits are the address, the sequence numbers N(S)
    and N(R) and the P bit 0 that were written, and the frame is recognised as an I
    frame. *)
Theorem iframe_header_roundtrip b n_s n_r crc h :
  0 ≤ skb_sapi b < 64 → 0 ≤ skb_c_r b < 2 → 0 ≤ skb_tei b < 128 →
  0 ≤ n_s < 128 → 0 ≤ n_r < 128 →
  data_hdr_e (iframe_octets b n_s n_r ++ crc) = Done h →
  lapd_frame_type (h_control h) = LAPD_FRAME_TYPE_IFRAME ∧
  addr_sapi h = skb_sapi b ∧ addr_c_r h = skb_c_r b ∧ addr_tei h = skb_tei b ∧
  addr_ea1 h = 0 ∧ addr_ea2 h = 1 ∧
  i_n_s h = n_s ∧ s_n_r h = n_r ∧ i_p h = false.
Proof.
  intros H1 H2 H3 H4 H5 Hh. cbn in Hh. injection Hh as <-.
  unfold addr_sapi, addr_c_r, addr_tei, addr_ea1, addr_ea2, i_n_s, s_n_r, i_p. cbn [h_addr1 h_addr2
    h_control h_control2].
  split; [apply i_control_type|].
  repeat split; octet_bits; try done; try lia.
Qed.

Definition sample_iskb : lapd_iskb :=
  {| skb_id := 0; skb_sapi := 0; skb_c_r := 1; skb_tei := 64; skb_n_s := None; skb_n_r := None;
     skb_data := [8; 1] |}.

Lemma iframe_header_roundtrip_witness :
  ∃ h, data_hdr_e (iframe_octets sample_iskb 5 127 ++ [0; 0]) = Done h ∧
  lapd_frame_type (h_control h) = LAPD_FRAME_TYPE_IFRAME ∧
  addr_sapi h = 0 ∧ addr_c_r h = 1 ∧ addr_tei h = 64 ∧ addr_ea1 h = 0 ∧ addr_ea2 h = 1 ∧
  i_n_s h = 5 ∧ s_n_r h = 127 ∧ i_p h = false.
Proof.
  eexists. split; [reflexivity|].
  apply (iframe_header_roundtrip sample_iskb 5 127 [0; 0]); cbn; lia || reflexivity.
Defined.

(** ** Two data link entities and the channel between them

    Two sockets connected by a D channel that delivers the frames of each side in
    order and may lose any of them.  What a side gave to its driver, and what waits
    for layer 1 to be activated, is the list [wire]; the channel towards the other
    side is the part of it that was neither delivered nor lost yet. *)

(** the frames for the other side, with the two octets of the CRC *)
Definition wire (d : lapd_device) : list (list Z) :=
  omap (λ p, match p with PH_DATA_REQUEST skb => Some skb | PH_ACTIVATE_REQUEST => None end)
       (xmit d) ++ ((λ skb, skb ++ [0; 0]) <$> out_queue d).

Record lapd_side := {
  side_link : lapd_link;
  side_taken : nat;              (** frames of its wire that left the channel *)
  side_read : list rx_item;      (** what its process has read *)
  side_sent : list (list Z);     (** the data its process has sent *)
}.

(** ** Steps.  An operation that ends in a fault is a fault of the system. *)

Inductive side_event : Type :=
| Receive                         (** the next frame of the channel arrives *)
| Lose                            (** the next frame of the channel is lost *)
| SendData (data : list Z)        (** [sendmsg] *)
| SendUnitData (data : list Z)    (** [sendmsg] with [MSG_OOB] *)
| ReadItem                        (** [recvmsg] takes an item *)
| ExpireT200 | ExpireT203         (** a pending timer expires *)
| ActivateL1                      (** PH-ACTIVATE-indication *)
| ReleaseRequest | EstablishRequest.

(** [m] on the side [x] *)
Definition run_side {A} (m : L A) (x : lapd_side) : outcome lapd_side :=
  match m (side_link x) with
  | Done (_, l) => Done {| side_link := l; side_taken := side_taken x; side_read := side_read x;
                           side_sent := side_sent x |}
  | Fault f => Fault f
  end.

Definition take_frame (x : lapd_side) : lapd_side :=
  {| side_link := side_link x; side_taken := S (side_taken x); side_read := side_read x;
     side_sent := side_sent x |}.
Definition note_sent (data : list Z) (x : lapd_side) : lapd_side :=
  {| side_link := side_link x; side_taken := side_taken x; side_read := side_read x;
     side_sent := side_sent x ++ [data] |}.
Definition note_read (i : rx_item) (x : lapd_side) : lapd_side :=
  {| side_link := side_link x; side_taken := side_taken x; side_read := side_read x ++ [i];
     side_sent := side_sent x |}.

(** the next frame on its way from [y] *)
Definition next_frame (y : lapd_side) : option (list Z) :=
  wire (dev (side_link y)) !! side_taken y.

(** an event of the side [x], whose peer is [y] *)
Definition side_step (e : side_event) (x y : lapd_side) : outcome (lapd_side * lapd_side) :=
  match e with
  | Receive =>
      match next_frame y with
      | None => Done (x, y)
      | Some skb => x' ← run_side (dlc_recv_frame skb) x; Done (x', take_frame y)
      end
  | Lose =>
      match next_frame y with
      | None => Done (x, y)
      | Some _ => Done (x, take_frame y)
      end
  | SendData data => x' ← run_side (sendmsg_send false data) x; Done (note_sent data x', y)
  | SendUnitData data => x' ← run_side (sendmsg_send true data) x; Done (x', y)
  | ReadItem =>
      match sk_receive_queue (ls (side_link x)) with
      | [] => Done (x, y)
      | i :: _ => x' ← run_side recv_datagram x; Done (note_read i x', y)
      end
  | ExpireT200 =>
      if timer_T200 (ls (side_link x))
      then x' ← run_side (upd (set_timer_T200 false) ;; lapd_timer_T200) x; Done (x', y)
      else Done (x, y)
  | ExpireT203 =>
      if timer_T203 (ls (side_link x))
      then x' ← run_side (upd (set_timer_T203 false) ;; lapd_timer_T203) x; Done (x', y)
      else Done (x, y)
  | ActivateL1 =>
      x' ← run_side (on_dev (upd_dev (set_l1_state LAPD_L1_STATE_AVAILABLE) ;;
                             lapd_out_queue_flush)) x;
      Done (x', y)
  | ReleaseRequest => x' ← run_side lapd_dl_release_request x; Done (x', y)
  | EstablishRequest => x' ← run_side lapd_dl_establish_request x; Done (x', y)
  end.

Definition system : Type := lapd_side * lapd_side.

Inductive who : Set := SideA | SideB.

Definition system_step (e : who * side_event) (w : system) : outcome system :=
  match e.1 with
  | SideA => side_step e.2 w.1 w.2
  | SideB => r ← side_step e.2 w.2 w.1; Done (r.2, r.1)
  end.

(** ** Multiple frame operation *)

Definition multiframe (s : lapd_datalink_state) : bool :=
  bool_decide (s = LAPD_DLS_7_LINK_CONNECTION_ESTABLISHED) ||
  bool_decide (s = LAPD_DLS_8_TIMER_RECOVERY).

Definition both_multiframe (w : system) : bool :=
  multiframe (state (ls (side_link w.1))) && multiframe (state (ls (side_link w.2))).

(** a run, as long as neither side leaves multiple frame operation; [None]: one did *)
Fixpoint run_multiframe (es : list (who * side_event)) (w : system) : outcome (option system) :=
  match es with
  | [] => Done (Some w)
  | e :: es =>
      w' ← system_step e w;
      if both_multiframe w' then run_multiframe es w' else Done None
  end.

(** what the process of a side has got or can get: the data of the I frames, of
    those it has read and of those in the receive queue *)
Definition rx_data (i : rx_item) : option (list Z) :=
  match i with
  | RxPrimitive _ => None
  | RxFrame skb =>
      match data_hdr_e skb with
      | Fault _ => None
      | Done h =>
          if decide (lapd_frame_type (h_control h) = LAPD_FRAME_TYPE_UFRAME) then None
          else Some (take (length skb - 6) (drop 4 skb))
      end
  end.

Definition data_received (x : lapd_side) : list (list Z) :=
  omap rx_data (side_read x ++ sk_receive_queue (ls (side_link x))).

(** ** Absolute counters for the sequence numbers

    The protocol counts frames modulo 128.  The proofs count them from the
    establishment of the link on: a ghost description of a frame in transit ([gframe])
    says which data it carries, where the window of the sender stood and what it
    acknowledges.  [fwd_ok] and [ack_ok] are what holds of the channel for the
    data and for the acknowledgements. *)

(** [m128 n]: the sequence number of the [n]-th frame *)
Definition m128 (n : nat) : Z := Z.of_nat n mod 128.

Lemma m128_bound n : 0 ≤ m128 n < 128.
Proof. apply Z.mod_pos_bound. lia. Qed.

Lemma m128_S n : Z.rem (m128 n + 1) 128 = m128 (S n).
Proof.
  pose proof (m128_bound n). rewrite Z.rem_mod_nonneg by lia. unfold m128.
  rewrite Z.add_mod_idemp_l by lia. f_equal. lia.
Qed.

Lemma m128_inj a b : m128 a = m128 b → (a ≤ b + 127)%nat → (b ≤ a + 127)%nat → a = b.
Proof. unfold m128. intros H Ha Hb. Z.to_euclidean_division_equations. lia. Qed.

(** the distance between two sequence numbers is the distance of the frames *)
Lemma m128_distance a n : (a ≤ n)%nat → (n ≤ a + 127)%nat →
  Z.rem (m128 n - m128 a + 128) 128 = Z.of_nat (n - a).
Proof.
  intros H1 H2. pose proof (m128_bound n). pose proof (m128_bound a).
  rewrite Z.rem_mod_nonneg by lia. unfold m128 in *.
  Z.to_euclidean_division_equations. lia.
Qed.

Lemma m128_window a s k : (a ≤ s)%nat → (s ≤ a + 127)%nat → 0 ≤ k ≤ 127 →
  (m128 s =? Z.rem (m128 a + k) 128) = (Z.of_nat (s - a) =? k).
Proof.
  intros H1 H2 Hk. pose proof (m128_bound s). pose proof (m128_bound a).
  rewrite Z.rem_mod_nonneg by lia. unfold m128 in *.
  destruct (Z.eqb_spec (Z.of_nat (s - a)) k), (Z.eqb_spec (Z.of_nat s mod 128)
    ((Z.of_nat a mod 128 + k) mod 128)); try done; Z.to_euclidean_division_equations; lia.
Qed.

(** ** Frames in transit *)

Inductive gframe : Type :=
| GI (i w n : nat)   (** the [i]-th data, sent with [V(A) = w], acknowledging up to [n] *)
| GS (n : nat)       (** a supervisory frame *)
| GU.                (** an UI frame *)

(** the octets [f] are such a frame; [sub] is the data in the order of submission *)
Definition encodes (sub : list (list Z)) (g : gframe) (f : list Z) : Prop :=
  match g with
  | GI i w n => ∃ a1 a2 c1 c2 data crc,
      f = a1 :: a2 :: c1 :: c2 :: data ++ crc ∧ length crc = 2%nat ∧ sub !! i = Some data ∧
      lapd_frame_type c1 = LAPD_FRAME_TYPE_IFRAME ∧ bits c1 1 7 = m128 i ∧ bits c2 1 7 = m128 n
  | GS n => ∃ a1 a2 c1 c2 rest,
      f = a1 :: a2 :: c1 :: c2 :: rest ∧
      lapd_frame_type c1 = LAPD_FRAME_TYPE_SFRAME ∧ bits c2 1 7 = m128 n
  | GU => ∃ a1 a2 c1 c2 rest,
      f = a1 :: a2 :: c1 :: c2 :: rest ∧
      lapd_frame_type c1 = LAPD_FRAME_TYPE_UFRAME ∧
      lapd_uframe_function_of c1 = LAPD_UFRAME_FUNC_UI
  end.

Lemma encodes_sub sub d g f : encodes sub g f → encodes (sub ++ d) g f.
Proof.
  destruct g; [|done|done]. intros (a1&a2&c1&c2&data&crc&?&?&Hi&?).
  exists a1, a2, c1, c2, data, crc. split_and!; try done; [|naive_solver..].
  by apply lookup_app_l_Some.
Qed.

(** ** The channel for the data: towards a receiver that expects the [r]-th *)

Fixpoint fwd_ok (k a hs r : nat) (l : list gframe) : Prop :=
  match l with
  | [] => True
  | GI i w _ :: l =>
      ((w ≤ i ∧ i < w + k ∧ i < hs ∧ w ≤ a ∧ r ≤ w + k) ∧ fwd_ok k a hs (r `max` S i) l)%nat
  | _ :: l => fwd_ok k a hs r l
  end.

Lemma fwd_ok_mono k a hs r a' hs' r' l :
  fwd_ok k a hs r l → (a ≤ a' → hs ≤ hs' → r' ≤ r → fwd_ok k a' hs' r' l)%nat.
Proof.
  revert r r'. induction l as [|[i w n|n|] l IH]; cbn; intros r r' H Ha Hh Hr; [done| | |].
  - destruct H as [H1 H2]. split; [lia|]. eapply IH; [done|lia..].
  - by eapply IH.
  - by eapply IH.
Qed.

Lemma fwd_ok_tail k a hs r g l : fwd_ok k a hs r (g :: l) → fwd_ok k a hs r l.
Proof. destruct g; cbn; try done. intros [_ H]. eapply fwd_ok_mono; [done|lia..]. Qed.

(** the receiver takes the first frame of the channel *)
Lemma fwd_ok_accept k a hs r w n l :
  fwd_ok k a hs r (GI r w n :: l) → fwd_ok k a hs (S r) (GI r w n :: l).
Proof.
  cbn. intros [H1 H2]. split; [lia|].
  eapply fwd_ok_mono; [exact H2|lia..].
Qed.

Lemma fwd_ok_snoc_GI k a hs hs' r l i n :
  fwd_ok k a hs r l → (r ≤ hs → hs ≤ hs' → hs ≤ a + k → a ≤ i → i < a + k → i < hs' →
  fwd_ok k a hs' r (l ++ [GI i a n]))%nat.
Proof.
  revert r. induction l as [|[j w m|m|] l IH]; cbn; intros r H H1 H2 H3 H4 H5 H6; [lia| | |].
  - destruct H as [H H']. split; [lia|]. apply IH; lia || done.
  - by apply IH.
  - by apply IH.
Qed.

Definition no_data (g : gframe) : Prop := match g with GI _ _ _ => False | _ => True end.

Lemma fwd_ok_snoc k a hs r l g : no_data g → fwd_ok k a hs r l → fwd_ok k a hs r (l ++ [g]).
Proof.
  intros Hg. revert r. induction l as [|[j w m|m|] l IH]; cbn; intros r H.
  - by destruct g.
  - destruct H as [H H']. split; [done|]. by apply IH.
  - by apply IH.
  - by apply IH.
Qed.

(** ** The channel for the acknowledgements: between [lo], acknowledged already, and
    [hi], what the receiver has *)

Fixpoint ack_ok (lo hi : nat) (l : list gframe) : Prop :=
  match l with
  | [] => (lo ≤ hi)%nat
  | GI _ _ n :: l | GS n :: l => (lo ≤ n)%nat ∧ ack_ok n hi l
  | GU :: l => ack_ok lo hi l
  end.

Lemma ack_ok_mono lo hi lo' hi' l :
  ack_ok lo hi l → (lo' ≤ lo → hi ≤ hi' → ack_ok lo' hi' l)%nat.
Proof.
  revert lo lo'. induction l as [|[i w n|n|] l IH]; cbn; intros lo lo' H H1 H2; [lia| | |].
  - destruct H as [H H']. split; [lia|]. by eapply IH.
  - destruct H as [H H']. split; [lia|]. by eapply IH.
  - by eapply IH.
Qed.

Lemma ack_ok_bound lo hi l : ack_ok lo hi l → (lo ≤ hi)%nat.
Proof.
  revert lo. induction l as [|[i w n|n|] l IH]; cbn; intros lo H; [lia| | |].
  - destruct H as [H H']. apply IH in H'. lia.
  - destruct H as [H H']. apply IH in H'. lia.
  - by apply IH.
Qed.

Lemma ack_ok_tail lo hi g l : ack_ok lo hi (g :: l) → ack_ok lo hi l.
Proof.
  destruct g; cbn; try done; intros [H1 H2]; (eapply ack_ok_mono; [done|lia..]).
Qed.

(** what a frame acknowledges *)
Definition g_ack (g : gframe) : option nat :=
  match g with GI _ _ n => Some n | GS n => Some n | GU => None end.

(** the sender takes the acknowledgement of the first frame *)
Lemma ack_ok_take lo hi g l n :
  ack_ok lo hi (g :: l) → g_ack g = Some n → (lo ≤ n ≤ hi)%nat ∧ ack_ok n hi (g :: l).
Proof.
  destruct g; cbn; intros H [= ->]; destruct H as [H1 H2];
    pose proof (ack_ok_bound _ _ _ H2); repeat split; try lia; done.
Qed.

Lemma ack_ok_snoc lo hi l g :
  ack_ok lo hi l → (g_ack g = Some hi ∨ g_ack g = None) → ack_ok lo hi (l ++ [g]).
Proof.
  revert lo. induction l as [|[i w n|n|] l IH]; cbn; intros lo H Hg.
  - destruct g; cbn in *; destruct Hg as [[= ->]|Hg]; try done; lia.
  - destruct H as [H H']. split; [done|]. by apply IH.
  - destruct H as [H H']. split; [done|]. by apply IH.
  - by apply IH.
Qed.
