(* ===== verification/LapdSide.v ===== *)
(** * One side of a link in multiple frame operation, and what keeps it

    The invariant [linked] of a side whose peer is described by the ghost state
    [gy], and the operations that keep it: what the peer has acknowledged is gone from
    the write queue, what was sent and not acknowledged is at its front with the
    right N(S), [sk_send_head] points to the first buffer that was not sent, and
    V(S), V(A), V(R) are the counters modulo 128. *)

From stdpp Require Import base list.
From Stdlib Require Import ZArith Lia.
From S2P Require Import Prelude.
From S2P Require Import Bits.
From S2P Require Import LapdProto.
From S2P Require Import LapdSock.
From S2P Require Import LapdOutput.
From S2P Require Import LapdTei.
From S2P Require Import LapdDatalink.
From S2P Require Import LapdInput.
From S2P Require Import LapdUser.
From S2P Require Import LapdPeer.
Local Open Scope Z_scope.

(** ** Ghost state of a side *)

Record gside := {
  g_sub : list (list Z);   (** the data submitted *)
  g_a : nat;               (** V(A) *)
  g_s : nat;               (** V(S) *)
  g_hs : nat;              (** the largest V(S) so far *)
  g_r : nat;               (** V(R) *)
  g_out : list gframe;     (** the channel towards the peer *)
  g_del : list (list Z);   (** the data delivered *)
}.

(** the parameter [k] of the SAP of a socket *)
Definition sap_k (l : lapd_link) : option Z :=
  match sap (ls l) with
  | None => None
  | Some SapQ931 => Some (k (q931 (dev l)))
  | Some SapX25 => Some (k (x25 (dev l)))
  end.

Record sender_ok (kx : nat) (s : lapd_sock) (g : gside) : Prop := {
  so_va : v_a s = m128 (g_a g);
  so_vs : v_s s = m128 (g_s g);
  so_order : (g_a g ≤ g_s g ≤ g_hs g ∧ g_hs g ≤ length (g_sub g) ∧ g_hs g ≤ g_a g + kx)%nat;
  so_data : skb_data <$> sk_write_queue s = drop (g_a g) (g_sub g);
  so_ids : NoDup (skb_id <$> sk_write_queue s);
  so_fresh : Forall (λ b, skb_id b < skb_next s)%nat (sk_write_queue s);
  so_head : sk_send_head s = skb_id <$> sk_write_queue s !! (g_s g - g_a g)%nat;
  so_sent : ∀ i b, (i < g_s g - g_a g)%nat → sk_write_queue s !! i = Some b →
              skb_n_s b = Some (m128 (g_a g + i));
}.

Record side_ok (kx taken : nat) (read : list rx_item) (l : lapd_link) (g : gside) : Prop := {
  sd_sender : sender_ok kx (ls l) g;
  sd_vr : v_r (ls l) = m128 (g_r g);
  sd_del : omap rx_data (read ++ sk_receive_queue (ls l)) = g_del g;
  sd_wire : Forall2 (encodes (g_sub g)) (g_out g) (drop taken (wire (dev l)));
  sd_taken : (taken ≤ length (wire (dev l)))%nat;
  sd_l1 : l1_state (dev l) = LAPD_L1_STATE_AVAILABLE → out_queue (dev l) = [];
  sd_k : sap_k l = Some (Z.of_nat kx);
  sd_uq : u_queue (ls l) = [];
}.

(** the data from [gx] to [gy] and its acknowledgements *)
Record half_ok (kx : nat) (gx gy : gside) : Prop := {
  ho_fwd : fwd_ok kx (g_a gx) (g_hs gx) (g_r gy) (g_out gx);
  ho_ack : ack_ok (g_a gx) (g_r gy) (g_out gy);
  ho_r : (g_r gy ≤ g_hs gx)%nat;
  ho_del : g_del gy = take (g_r gy) (g_sub gx);
}.

(** ** Changes of the ghost state *)

Definition g_emit (x : gframe) (g : gside) : gside :=
  {| g_sub := g_sub g; g_a := g_a g; g_s := g_s g; g_hs := g_hs g; g_r := g_r g;
     g_out := g_out g ++ [x]; g_del := g_del g |}.
Definition g_send (s : nat) (g : gside) : gside :=
  {| g_sub := g_sub g; g_a := g_a g; g_s := s; g_hs := g_hs g `max` s; g_r := g_r g;
     g_out := g_out g; g_del := g_del g |}.
Definition g_acked (n : nat) (g : gside) : gside :=
  {| g_sub := g_sub g; g_a := n; g_s := g_s g; g_hs := g_hs g; g_r := g_r g;
     g_out := g_out g; g_del := g_del g |}.
Definition g_accept (data : list Z) (g : gside) : gside :=
  {| g_sub := g_sub g; g_a := g_a g; g_s := g_s g; g_hs := g_hs g; g_r := S (g_r g);
     g_out := g_out g; g_del := g_del g ++ [data] |}.
Definition g_submit (data : list Z) (g : gside) : gside :=
  {| g_sub := g_sub g ++ [data]; g_a := g_a g; g_s := g_s g; g_hs := g_hs g; g_r := g_r g;
     g_out := g_out g; g_del := g_del g |}.

(** ** The wire *)

Lemma wire_xmit_data d skb :
  out_queue d = [] → wire (set_xmit (xmit d ++ [PH_DATA_REQUEST skb]) d) = wire d ++ [skb].
Proof. intros Hq. unfold wire. cbn. rewrite Hq, omap_app. cbn. by rewrite !app_nil_r. Qed.

Lemma wire_ph_data_request skb d :
  (l1_state d = LAPD_L1_STATE_AVAILABLE → out_queue d = []) →
  wp (lapd_ph_data_request skb)
    (λ _ d', wire d' = wire d ++ [skb ++ [0; 0]] ∧
             (l1_state d' = LAPD_L1_STATE_AVAILABLE → out_queue d' = []) ∧
             q931 d' = q931 d ∧ x25 d' = x25 d ∧ role d' = role d) d.
Proof.
  intros Hl. unfold lapd_ph_data_request, dv, wp, mbind, M_bind, get. cbn.
  destruct (l1_state d) eqn:Hs; cbn.
  - split_and!; try done. unfold wire. cbn. rewrite omap_app, fmap_app. cbn.
    by rewrite app_nil_r, app_assoc.
  - split_and!; try done.
    + apply wire_xmit_data. auto.
    + intros _. cbn. auto.
  - split_and!; try done; [|congruence]. unfold wire. cbn. by rewrite fmap_app, app_assoc.
Qed.

(** ** The ghost halves when this side changes *)

Section halves.
Context (kx ky : nat) (gy : gside).
Implicit Types g : gside.

Lemma half_out_emit g x :
  no_data x → half_ok kx g gy → half_ok kx (g_emit x g) gy.
Proof. intros Hx []. split; cbn; try done. by apply fwd_ok_snoc. Qed.

Lemma half_in_emit g x :
  g_ack x = Some (g_r g) ∨ g_ack x = None → half_ok ky gy g → half_ok ky gy (g_emit x g).
Proof. intros Hx []. split; cbn; try done. by apply ack_ok_snoc. Qed.

Lemma half_out_transmit g :
  half_ok kx g gy →
  (g_a g ≤ g_s g ∧ g_hs g ≤ g_a g + kx ∧ g_s g < g_a g + kx)%nat →
  half_ok kx (g_emit (GI (g_s g) (g_a g) (g_r g)) (g_send (S (g_s g)) g)) gy.
Proof.
  intros [Hf Ha Hr Hd] (H1 & H2 & H3). split; cbn; try done; [|lia].
  eapply fwd_ok_snoc_GI; [exact Hf|lia..].
Qed.

Lemma half_out_acked g n :
  half_ok kx g gy → (g_a g ≤ n)%nat → ack_ok n (g_r gy) (g_out gy) →
  half_ok kx (g_acked n g) gy.
Proof. intros [] Hn Ha. split; cbn; try done. eapply fwd_ok_mono; [done|lia..]. Qed.

Lemma half_out_submit g d : half_ok kx g gy → (g_r gy ≤ length (g_sub g))%nat →
  half_ok kx (g_submit d g) gy.
Proof.
  intros [] Hr. split; cbn; try done. rewrite take_app_le by done. done.
Qed.

(** the first frame of the channel is the one expected *)
Lemma half_in_accept g w n l data :
  half_ok ky gy g → g_out gy = GI (g_r g) w n :: l → g_sub gy !! g_r g = Some data →
  half_ok ky gy (g_accept data g).
Proof.
  intros [Hf Ha Hr Hd] Hout Hi. split; cbn.
  - rewrite Hout in Hf |- *. by eapply fwd_ok_accept.
  - eapply ack_ok_mono; [done|lia..].
  - rewrite Hout in Hf. cbn in Hf. destruct Hf as [Hf _]. lia.
  - rewrite Hd. by erewrite take_S_r.
Qed.
End halves.

(** ** The operations of a side in multiple frame operation

    [keeps m]: from a side that satisfies the invariant, [m] meets no fault and
    leaves a side that satisfies it.  The primitive operations of [LapdOutput]
    keep it. *)

(** ** Stepping through the code *)

Section steps.
Context {A : Type}.
Implicit Types (Q : A → lapd_link → Prop) (l : lapd_link).

Lemma wp_sk {B} (f : lapd_sock → B) (m : B → L A) Q l :
  wp (m (f (ls l))) Q l → wp (sk f ≫= m) Q l.
Proof. done. Qed.
Lemma wp_get (m : lapd_link → L A) Q l : wp (m l) Q l → wp (get ≫= m) Q l.
Proof. done. Qed.
Lemma wp_upd f (m : L A) Q l : wp m Q (set_ls (f (ls l)) l) → wp (upd f ;; m) Q l.
Proof. done. Qed.
Lemma wp_on_dev {B} (m : D B) (k : B → L A) Q l :
  wp m (λ a d, wp (k a) Q (set_dev d l)) (dev l) → wp (on_dev m ≫= k) Q l.
Proof. unfold wp, mbind, M_bind, on_dev. by destruct (m (dev l)) as [[a d]|]. Qed.
Lemma wp_on_dev_last (m : D A) Q l :
  wp m (λ a d, Q a (set_dev d l)) (dev l) → wp (on_dev m) Q l.
Proof. unfold wp, on_dev. by destruct (m (dev l)) as [[a d]|]. Qed.
Lemma wp_lift {B} (b : B) (m : B → L A) Q l : wp (m b) Q l → wp (lift (Done b) ≫= m) Q l.
Proof. done. Qed.
End steps.

Section keeps.
Context (kx ky taken : nat) (read : list rx_item) (gy : gside).
Context (Hkx : (1 ≤ kx ≤ 127)%nat) (Hky : (1 ≤ ky ≤ 127)%nat).

(** ** The invariant *)

Record linked (g : gside) (l : lapd_link) : Prop := {
  lk_side : side_ok kx taken read l g;
  lk_out : half_ok kx g gy;
  lk_in : half_ok ky gy g;
}.

Definition holds (sub : list (list Z)) (l : lapd_link) : Prop :=
  ∃ g, linked g l ∧ g_sub g = sub.

Definition keeps {A} (m : L A) : Prop := ∀ sub l, holds sub l → wp m (λ _, holds sub) l.

Lemma keeps_bind {A B} (m : L A) (f : A → L B) :
  keeps m → (∀ a, keeps (f a)) → keeps (m ≫= f).
Proof.
  intros Hm Hf sub l Hl. apply wp_bind. eapply wp_mono; [by apply Hm|].
  intros a l' Hl'. by apply Hf.
Qed.
Lemma keeps_ret {A} (a : A) : keeps (mret a : L A).
Proof. by intros sub l Hl. Qed.
Lemma keeps_sk {A B} (f : lapd_sock → A) (m : A → L B) : (∀ a, keeps (m a)) → keeps (sk f ≫= m).
Proof. intros Hm sub l Hl. apply wp_sk. by apply Hm. Qed.
Lemma keeps_when b (m : L unit) : keeps m → keeps (when b m).
Proof. intros Hm. destruct b; [done|apply keeps_ret]. Qed.

(** ** Fields the invariant does not read *)

Record same_core (s s' : lapd_sock) : Prop := {
  sc_va : v_a s' = v_a s;
  sc_vs : v_s s' = v_s s;
  sc_vr : v_r s' = v_r s;
  sc_wq : sk_write_queue s' = sk_write_queue s;
  sc_sh : sk_send_head s' = sk_send_head s;
  sc_rq : sk_receive_queue s' = sk_receive_queue s;
  sc_next : skb_next s' = skb_next s;
  sc_sap : sap s' = sap s;
  sc_uq : u_queue s' = u_queue s;
}.

Lemma linked_same_core g l s' : same_core (ls l) s' → linked g l → linked g (set_ls s' l).
Proof.
  intros [Ha Hs Hr Hw Hh Hq Hn Hp Hu] [[[] ? ? ? ? ? Hk Huq] ? ?]. split; [|done|done].
  split; cbn; [|congruence|by rewrite Hq|done|done|done| |congruence].
  - split; rewrite ?Ha, ?Hs, ?Hw, ?Hh, ?Hn; done.
  - unfold sap_k in *. cbn. by rewrite Hp.
Qed.

Lemma keeps_upd f : (∀ s, same_core s (f s)) → keeps (upd f).
Proof.
  intros Hf sub l (g & Hg & Hs). unfold upd, modify, wp. exists g. split; [|done].
  by apply linked_same_core.
Qed.

Lemma linked_sap g l : linked g l → the_sap l =
  Done (match sap (ls l) with Some SapX25 => x25 (dev l) | _ => q931 (dev l) end, l) ∧
  k (match sap (ls l) with Some SapX25 => x25 (dev l) | _ => q931 (dev l) end) = Z.of_nat kx.
Proof.
  intros [[] _ _]. unfold sap_k in *. destruct l as [s d t].
  unfold the_sap, sk, deref, on_dev, dv, mbind, M_bind, mret, M_ret, get in *. cbn in *.
  destruct (sap s) as [[]|]; cbn in *; [|split..|done]; by simplify_eq.
Qed.

Lemma keeps_the_sap {B} (m : lapd_sap → L B) : (∀ p, keeps (m p)) → keeps (the_sap ≫= m).
Proof.
  intros Hm sub l (g & Hg & Hs). apply wp_bind. unfold wp at 1.
  rewrite (proj1 (linked_sap _ _ Hg)). apply Hm. by exists g.
Qed.

Lemma keeps_start_T200 : keeps lapd_start_timer_T200.
Proof. apply keeps_the_sap. intros p. by apply keeps_upd. Qed.
Lemma keeps_start_T203 : keeps lapd_start_timer_T203.
Proof. apply keeps_the_sap. intros p. by apply keeps_upd. Qed.

(** ** Frames *)

Lemma linked_emit g l x skb :
  linked g l → encodes (g_sub g) x (skb ++ [0; 0]) →
  half_ok kx (g_emit x g) gy → half_ok ky gy (g_emit x g) →
  wp (on_dev (lapd_ph_data_request skb)) (λ _ l', linked (g_emit x g) l' ∧ ls l' = ls l) l.
Proof.
  intros [[[] ? ? Hw Ht Hl Hk Huq] Ho Hi] He Ho' Hi'. apply wp_on_dev_last.
  eapply wp_mono; [by apply wire_ph_data_request|].
  intros _ d' (Hwd & Hl' & Hq & Hx & Hr). split; [|done]. split; [|done|done].
  split; cbn; try done.
  - rewrite Hwd, drop_app_le by done. apply Forall2_app; [done|by constructor].
  - rewrite Hwd, length_app. lia.
  - unfold sap_k in *. cbn. by rewrite Hq, Hx.
Qed.

Lemma sframe_encodes sub sapi c_r tei f n p :
  f ≠ LAPD_SFRAME_FUNC_INVALID →
  encodes sub (GS n) ((lapd_address sapi c_r tei ++
    [lapd_sframe_make_control f; lapd_sframe_make_control2 (m128 n) p]) ++ [0; 0]).
Proof.
  intros Hf. cbn. do 5 eexists. split; [done|]. split; [by apply sframe_control_read|].
  rewrite sframe_control2_octet by apply m128_bound. apply control2_n_r, m128_bound.
Qed.

Lemma keeps_send_sframe c f p : f ≠ LAPD_SFRAME_FUNC_INVALID → keeps (lapd_send_sframe c f p).
Proof.
  intros Hf sub l (g & Hg & Hs). unfold lapd_send_sframe, lapd_prepare_sframe.
  eapply wp_mono with (P := λ _ l', linked (g_emit (GS (g_r g)) g) l' ∧ ls l' = ls l).
  - apply (linked_emit g l (GS (g_r g))); [done| | |].
    + rewrite (sd_vr _ _ _ _ _ (lk_side _ _ Hg)). by apply sframe_encodes.
    + apply half_out_emit; [done|apply Hg].
    + apply half_in_emit; [by left|apply Hg].
  - intros _ l' [H _]. by eexists.
Qed.

(** an UI frame *)
Lemma keeps_ui skb : (∀ sub, encodes sub GU (skb ++ [0; 0])) →
  keeps (on_dev (lapd_ph_data_request skb)).
Proof.
  intros He sub l (g & Hg & Hs).
  eapply wp_mono; [apply (linked_emit g l GU skb Hg)|].
  - done.
  - apply half_out_emit; [done|apply Hg].
  - apply half_in_emit; [by right|apply Hg].
  - intros _ l' [H _]. by eexists.
Qed.

(** ** Acknowledgement *)

Lemma is_valid_nr_iff g l n :
  linked g l → (g_a g ≤ n ≤ g_hs g)%nat →
  lapd_is_valid_nr (ls l) (m128 n) = bool_decide (n ≤ g_s g)%nat.
Proof.
  intros [[[Hva Hvs Hord _ _ _ _ _] ? ? ? ? ? ? ?] _ _] Hn.
  unfold lapd_is_valid_nr. rewrite Hva, Hvs.
  rewrite !m128_distance by lia.
  destruct (Z.leb_spec (Z.of_nat (n - g_a g)) (Z.of_nat (g_s g - g_a g))); case_bool_decide; lia || done.
Qed.

(** the buffers up to the [j]-th go *)
Lemma ack_loop_drop n_r sh q j :
  (∀ i b, (i < j)%nat → q !! i = Some b → sh ≠ Some (skb_id b) ∧ ∃ v, skb_n_s b = Some v ∧ v ≠ n_r) →
  (∀ b, q !! j = Some b → sh = Some (skb_id b) ∨ skb_n_s b = Some n_r) → (j ≤ length q)%nat →
  ack_loop n_r sh q = Done (drop j q).
Proof.
  revert j. induction q as [|b q IH]; intros j Hlt Hj Hlen; cbn.
  - cbn in Hlen. by destruct j.
  - destruct j as [|j].
    + destruct (Hj b eq_refl) as [->|Hb]; [by rewrite decide_True by done|].
      rewrite drop_0. destruct (decide _); [done|]. rewrite Hb. by rewrite Z.eqb_refl.
    + destruct (Hlt O b ltac:(lia) eq_refl) as (Hs & v & Hv & Hne).
      rewrite decide_False by done. rewrite Hv. apply Z.eqb_neq in Hne as ->.
      cbn. apply IH.
      * intros i c Hi Hc. apply (Hlt (S i) c); [lia|done].
      * intros c Hc. by apply Hj.
      * cbn in Hlen. lia.
Qed.

Lemma sender_queue_length g s : sender_ok kx s g →
  length (sk_write_queue s) = (length (g_sub g) - g_a g)%nat.
Proof.
  intros Hs. by rewrite <-(length_fmap skb_data), (so_data _ _ _ Hs), length_drop.
Qed.

(** the acknowledgement of [n] frames, none of which is the next to be sent *)
Lemma ack_loop_ok g s n :
  sender_ok kx s g → (g_a g ≤ n ≤ g_s g)%nat →
  ack_loop (m128 n) (sk_send_head s) (sk_write_queue s) =
    Done (drop (n - g_a g) (sk_write_queue s)).
Proof.
  intros Hs Hn. pose proof (sender_queue_length _ _ Hs) as Hlen.
  destruct Hs as [Hva Hvs Hord Hdata Hids Hfr Hhead Hsent].
  apply ack_loop_drop; [| |lia].
  - intros i b Hi Hb. split.
    + rewrite Hhead. destruct (sk_write_queue s !! (g_s g - g_a g)%nat) as [c|] eqn:Hc; [|done].
      cbn. intros [= Hid].
      assert (g_s g - g_a g = i)%nat; [|lia].
      eapply NoDup_lookup; [done|rewrite list_lookup_fmap, Hc; cbn; by rewrite Hid|].
      by rewrite list_lookup_fmap, Hb.
    + eexists. split; [apply (Hsent i b); [lia|done]|]. intros He. apply m128_inj in He; lia.
  - intros b Hb. destruct (decide (n = g_s g)) as [->|Hne].
    + left. by rewrite Hhead, Hb.
    + right. rewrite (Hsent (n - g_a g)%nat b) by (lia || done). do 2 f_equal. lia.
Qed.

Lemma sender_acked g s n :
  sender_ok kx s g → (g_a g ≤ n ≤ g_s g)%nat →
  sender_ok kx (set_v_a (m128 n) (set_sk_write_queue (drop (n - g_a g) (sk_write_queue s)) s))
    (g_acked n g).
Proof.
  intros [Hva Hvs Hord Hdata Hids Hfr Hhead Hsent] Hn.
  split; cbn; try done; [lia| | | | |].
  - rewrite fmap_drop, Hdata, drop_drop. f_equal. lia.
  - rewrite fmap_drop. eapply sublist_NoDup; [done|apply sublist_drop].
  - by apply Forall_drop.
  - rewrite Hhead, lookup_drop. do 2 f_equal. lia.
  - intros i b Hi Hb. rewrite lookup_drop in Hb.
    rewrite (Hsent (n - g_a g + i)%nat b) by (lia || done). do 2 f_equal. lia.
Qed.

Lemma linked_ack g l n l0 x :
  linked g l → g_out gy = x :: l0 → g_ack x = Some n →
  lapd_is_valid_nr (ls l) (m128 n) = true →
  wp (ack (m128 n)) (λ _ l', linked (g_acked n g) l' ∧ state (ls l') = state (ls l)) l.
Proof.
  intros Hl Hout Hx Hv. destruct (lk_out _ _ Hl) as [Hf Ha Hr Hd]. rewrite Hout in Ha.
  destruct (ack_ok_take _ _ _ _ _ Ha Hx) as [Hn Ha'].
  rewrite (is_valid_nr_iff g l n Hl) in Hv by lia. apply bool_decide_eq_true_1 in Hv.
  destruct Hl as [[Hs ? ? ? ? ? ? ?] Ho Hi].
  assert (wp (lapd_ack_frames (m128 n)) (λ _ l', l' = set_ls
    (set_sk_write_queue (drop (n - g_a g) (sk_write_queue (ls l))) (ls l)) l) l) as Hack.
  { unfold lapd_ack_frames. apply wp_sk. rewrite (so_va _ _ _ Hs).
    destruct (Z.eqb_spec (m128 n) (m128 (g_a g))) as [He|_].
    - pose proof (so_order _ _ _ Hs). apply m128_inj in He; [|lia..]. subst n. rewrite Nat.sub_diag, drop_0.
      by destruct l as [[] ? ?].
    - rewrite (ack_loop_ok g) by (done || lia). done. }
  unfold ack. apply wp_bind. eapply wp_mono; [apply Hack|]. intros _ l' ->.
  unfold upd, modify, wp. split; [|done]. split.
  - split; cbn; try done. apply sender_acked; [done|lia].
  - apply half_out_acked; [done|lia|by rewrite Hout].
  - destruct Hi. by split.
Qed.

(** ** Transmission *)

Lemma skb_set_nsnr_data id n_s n_r q : skb_data <$> skb_set_nsnr id n_s n_r q = skb_data <$> q.
Proof.
  unfold skb_set_nsnr. rewrite <-list_fmap_compose. apply list_fmap_ext.
  intros i b _. cbn. by destruct (decide _).
Qed.
Lemma skb_set_nsnr_ids id n_s n_r q : skb_id <$> skb_set_nsnr id n_s n_r q = skb_id <$> q.
Proof.
  unfold skb_set_nsnr. rewrite <-list_fmap_compose. apply list_fmap_ext.
  intros i b _. cbn. by destruct (decide _).
Qed.
Lemma skb_set_nsnr_lookup id n_s n_r q i b :
  skb_set_nsnr id n_s n_r q !! i = Some b →
  ∃ b0, q !! i = Some b0 ∧ skb_id b = skb_id b0 ∧
        (if decide (skb_id b0 = id) then skb_n_s b = Some n_s else b = b0).
Proof.
  unfold skb_set_nsnr. rewrite list_lookup_fmap. destruct (q !! i) as [b0|]; [|done].
  cbn. intros [= <-]. exists b0. by destruct (decide _).
Qed.
Lemma skb_set_nsnr_other id n_s n_r q :
  Forall (λ b, skb_id b ≠ id) q → skb_set_nsnr id n_s n_r q = q.
Proof.
  induction 1 as [|b q Hb _ IH]; [done|]. cbn in *. rewrite decide_False by done. by f_equal.
Qed.

Lemma iframe_encodes sub g b :
  sub !! g_s g = Some (skb_data b) →
  encodes sub (GI (g_s g) (g_a g) (g_r g)) (iframe_octets b (m128 (g_s g)) (m128 (g_r g)) ++ [0; 0]).
Proof.
  intros Hb. cbn. do 6 eexists. split; [reflexivity|].
  split; [done|]. split; [done|].
  split; [apply i_control_type|]. split; [|apply control2_n_r, m128_bound].
  pose proof (m128_bound (g_s g)). by octet_bits.
Qed.

Lemma when_timers c l g :
  linked g l → wp (when c (lapd_start_timer_T200 ;; lapd_stop_timer_T203))
    (λ _ l', same_core (ls l) (ls l') ∧ dev l' = dev l) l.
Proof.
  intros Hl. destruct c; [|done]. cbn. unfold lapd_start_timer_T200.
  apply wp_bind, wp_bind. unfold wp at 1. rewrite (proj1 (linked_sap _ _ Hl)). done.
Qed.

(** the first buffer of [drop i q] and what follows it *)
Lemma drop_cons {A} (q : list A) i b q' :
  drop i q = b :: q' → q !! i = Some b ∧ drop (S i) q = q' ∧ q = take i q ++ b :: q'.
Proof.
  intros Hd. split_and!.
  - by rewrite <-(Nat.add_0_r i), <-lookup_drop, Hd.
  - by rewrite <-Nat.add_1_r, <-drop_drop, Hd.
  - by rewrite <-Hd, take_drop.
Qed.

Lemma sender_transmit g s s' b q' :
  sender_ok kx s g → drop (g_s g - g_a g) (sk_write_queue s) = b :: q' →
  (g_s g < g_a g + kx)%nat →
  v_a s' = v_a s → v_s s' = Z.rem (v_s s + 1) 128 → skb_next s' = skb_next s →
  sk_write_queue s' = skb_set_nsnr (skb_id b) (v_s s) (v_r s) (sk_write_queue s) →
  sk_send_head s' = skb_id <$> head q' →
  sender_ok kx s' (g_send (S (g_s g)) g) ∧
  drop (S (g_s g) - g_a g) (sk_write_queue s') = q'.
Proof.
  intros Hs Hd Hw Eva Evs Enx Ewq Esh. pose proof (sender_queue_length _ _ Hs) as Hlen.
  destruct Hs as [Hva Hvs Hord Hdata Hids Hfr Hhead Hsent].
  destruct (drop_cons _ _ _ _ Hd) as (Hb & Hq' & Hq).
  pose proof (lookup_lt_Some _ _ _ Hb) as Hlt.
  assert (Forall (λ c, skb_id c ≠ skb_id b) q') as Hother.
  { rewrite Hq, fmap_app in Hids. apply NoDup_app in Hids as (_ & _ & Hids).
    cbn in Hids. apply NoDup_cons in Hids as [Hnin _]. apply Forall_forall. intros c Hc He.
    apply Hnin. rewrite <-He. by apply list_elem_of_fmap_2. }
  assert (drop (S (g_s g) - g_a g) (sk_write_queue s') = q') as Hq2.
  { rewrite Ewq. unfold skb_set_nsnr. rewrite <-fmap_drop.
    replace (S (g_s g) - g_a g)%nat with (S (g_s g - g_a g)) by lia. rewrite Hq'.
    by apply skb_set_nsnr_other. }
  split; [|done]. split; cbn.
  - by rewrite Eva.
  - by rewrite Evs, Hvs, m128_S.
  - lia.
  - by rewrite Ewq, skb_set_nsnr_data.
  - by rewrite Ewq, skb_set_nsnr_ids.
  - rewrite Enx, Ewq. apply Forall_lookup. intros i c Hc.
    apply skb_set_nsnr_lookup in Hc as (c0 & Hc0 & -> & _).
    by eapply (Forall_lookup_1 _ _ _ _ Hfr).
  - rewrite Esh, <-Hq2. by rewrite head_lookup, lookup_drop, Nat.add_0_r.
  - intros i c Hi Hc. rewrite Ewq in Hc. apply skb_set_nsnr_lookup in Hc as (c0 & Hc0 & _ & Hc).
    destruct (decide (skb_id c0 = skb_id b)) as [He|Hne].
    + rewrite Hc, Hvs. do 2 f_equal.
      assert (i = g_s g - g_a g)%nat as ->; [|lia].
      eapply NoDup_lookup; [done|rewrite list_lookup_fmap, Hc0; cbn; by rewrite He|].
      by rewrite list_lookup_fmap, Hb.
    + subst c. apply Hsent; [|done]. assert (i ≠ (g_s g - g_a g)%nat); [|lia].
      intros ->. congruence.
Qed.

Lemma linked_transmit g l b q' :
  linked g l → drop (g_s g - g_a g) (sk_write_queue (ls l)) = b :: q' →
  (g_s g < g_a g + kx)%nat →
  wp (transmit_iframe b) (λ _ l', ∃ g',
    linked g' (set_ls (set_sk_send_head (skb_id <$> head q') (ls l')) l') ∧
    g_sub g' = g_sub g ∧ drop (g_s g' - g_a g') (sk_write_queue (ls l')) = q') l.
Proof.
  intros Hl Hd Hw. pose proof Hl as [[Hs Hvr Hdel Hwi Htk Hl1 Hk Huq] Ho Hi].
  unfold transmit_iframe. apply wp_sk, wp_upd.
  set (s1 := set_sk_write_queue _ _).
  set (l1 := set_ls _ _).
  apply wp_bind. eapply wp_mono with (P := λ _ l2, same_core s1 (ls l2) ∧ dev l2 = dev l).
  { destruct (negb _); [|done]. cbn. apply wp_bind, wp_bind. unfold wp at 1.
    assert (the_sap l1 = Done (match sap (ls l) with Some SapX25 => x25 (dev l)
                               | _ => q931 (dev l) end, l1)) as ->; [|done].
    pose proof (proj1 (linked_sap _ _ Hl)) as Hsap. destruct l as [s d t].
    unfold the_sap, sk, deref, on_dev, dv, mbind, M_bind, mret, M_ret, get in *. cbn in *.
    destruct (sap s) as [[]|]; cbn in *; by simplify_eq. }
  intros _ l2 [Hc Hdev]. destruct Hc as [Ca Cs Cr Cw Ch Cq Cn Cp Cu]. cbn in *.
  apply wp_on_dev. rewrite Hdev. eapply wp_mono; [by apply wire_ph_data_request|].
  intros _ d' (Hwd & Hl' & Hq & Hx & Hrole). unfold upd, modify, wp.
  destruct (sender_transmit g (ls l)
    (set_sk_send_head (skb_id <$> head q') (set_v_s (Z.rem (v_s (ls l2) + 1) 128) (ls l2))) b q'
    Hs Hd Hw) as [Hs' Hd']; cbn; try congruence.
  exists (g_emit (GI (g_s g) (g_a g) (g_r g)) (g_send (S (g_s g)) g)).
  split_and!; [|done|done]. pose proof (so_order _ _ _ Hs) as Hord. split.
  - split; cbn; try done; [by destruct Hs'; split|congruence|by rewrite Cq| | | |congruence].
    + rewrite Hwd, drop_app_le by done. apply Forall2_app; [done|]. constructor; [|done].
      rewrite (so_vs _ _ _ Hs), Hvr. apply iframe_encodes.
      destruct (drop_cons _ _ _ _ Hd) as (Hb & _).
      pose proof (f_equal (.!! (g_s g - g_a g)%nat) (so_data _ _ _ Hs)) as He.
      rewrite list_lookup_fmap, lookup_drop, Hb in He. cbn in He.
      rewrite He. f_equal. lia.
    + rewrite Hwd, length_app. lia.
    + unfold sap_k in *. cbn. by rewrite Cp, Hq, Hx.
  - by apply half_out_transmit; [done|lia].
  - apply half_in_emit; [by left|]. destruct Hi. by split.
Qed.

Lemma keeps_window_closed g l :
  linked g l → window_closed l = Done (Z.of_nat (g_s g - g_a g) =? Z.of_nat kx, l).
Proof.
  intros Hl. pose proof (linked_sap _ _ Hl) as [Hp Hk].
  destruct Hl as [[[Hva Hvs Hord _ _ _ _ _] ? ? ? ? ? ? ?] _ _].
  unfold window_closed. unfold mbind, M_bind. rewrite Hp.
  unfold sk, mbind, M_bind, get, mret, M_ret. rewrite Hvs, Hva, Hk.
  rewrite m128_window by lia. done.
Qed.

Lemma keeps_run_i_queue_loop q g l :
  linked g l → drop (g_s g - g_a g) (sk_write_queue (ls l)) = q → 
  wp (run_i_queue_loop q) (λ _ l', ∃ g', linked g' l' ∧ g_sub g' = g_sub g) l.
Proof.
  revert g l. induction q as [|b q' IH]; intros g l Hl Hq; cbn [run_i_queue_loop].
  { exists g. done. }
  apply wp_bind. unfold wp at 1. rewrite (keeps_window_closed _ _ Hl).
  destruct (Z.eqb_spec (Z.of_nat (g_s g - g_a g)) (Z.of_nat kx)) as [|Hne].
  { exists g. done. }
  pose proof (so_order _ _ _ (sd_sender _ _ _ _ _ (lk_side _ _ Hl))) as Hord.
  apply wp_bind. eapply wp_mono; [apply (linked_transmit g l b q'); [done..|lia]|].
  intros _ l' (g' & Hg' & Hsub & Hq'). apply wp_upd. rewrite <-Hsub. by apply IH.
Qed.

Lemma skb_from_drop q i b :
  NoDup (skb_id <$> q) → q !! i = Some b → skb_from (skb_id b) q = drop i q.
Proof.
  revert i. induction q as [|c q IH]; intros i Hn Hb; [done|]. cbn in *.
  apply NoDup_cons in Hn as [Hc Hn]. destruct i as [|i]; cbn in *.
  - simplify_eq. by rewrite decide_True.
  - rewrite decide_False; [by apply IH|]. intros He. apply Hc. rewrite He.
    apply list_elem_of_fmap_2. by eapply list_elem_of_lookup_2.
Qed.

Lemma keeps_run_i_queue : keeps lapd_run_i_queue.
Proof.
  intros sub l (g & Hg & Hsub). unfold lapd_run_i_queue. apply wp_sk.
  destruct (negb _); [by exists g|]. destruct (peer_receiver_busy _); [by exists g|].
  apply wp_bind.
  eapply wp_mono with (P := λ _ l', ∃ g', linked g' l' ∧ g_sub g' = sub).
  - pose proof (sd_sender _ _ _ _ _ (lk_side _ _ Hg)) as Hs.
    rewrite (so_head _ _ _ Hs).
    destruct (sk_write_queue (ls l) !! (g_s g - g_a g)%nat) as [b|] eqn:Hb; cbn; [|by exists g].
    rewrite (skb_from_drop _ _ _ (so_ids _ _ _ Hs) Hb).
    destruct (drop _ _) as [|c q] eqn:Hd; [by rewrite (drop_S _ _ _ Hb) in Hd|].
    rewrite <-Hsub. by apply (keeps_run_i_queue_loop (c :: q) g).
  - intros _ l' (g' & Hg' & Hsub'). apply wp_bind. unfold wp at 1.
    rewrite (keeps_window_closed _ _ Hg'). by exists g'.
Qed.

Lemma linked_rewind g l :
  linked g l →
  linked (g_send (g_a g) g)
    (set_ls (set_v_s (v_a (ls l))
      (set_sk_send_head (skb_id <$> head (sk_write_queue (ls l))) (ls l))) l).
Proof.
  intros [[[Hva Hvs Hord Hdata Hids Hfr Hhead Hsent] ? ? ? ? ? ? ?] [] []].
  split; [|split..]; cbn; try done; [|eapply fwd_ok_mono; [done|lia..]|lia].
  split; cbn; try done. split; cbn; try done; [lia| |lia].
  by rewrite Nat.sub_diag, head_lookup.
Qed.

Lemma keeps_invoke_retransmission : keeps lapd_invoke_retransmission_procedure.
Proof.
  intros sub l (g & Hg & Hsub). unfold lapd_invoke_retransmission_procedure. apply wp_sk.
  pose proof (linked_rewind _ _ Hg) as Hr.
  destruct (sk_write_queue (ls l)) as [|b q] eqn:Hq.
  - cbn. apply keeps_run_i_queue. exists (g_send (g_a g) g). split; [|done].
    pose proof (so_head _ _ _ (sd_sender _ _ _ _ _ (lk_side _ _ Hg))) as Hh.
    rewrite Hq, lookup_nil in Hh. cbn in Hh, Hr. rewrite <-Hh in Hr.
    destruct l as [[] ? ?]; exact Hr.
  - cbn. apply keeps_run_i_queue. by exists (g_send (g_a g) g).
Qed.

(** ** Data from and to the user *)

Lemma linked_submit g l b data :
  linked g l → skb_data b = data → skb_id b = skb_next (ls l) →
  wp (upd (λ s, set_skb_next (S (skb_next s)) s) ;; lapd_sock_queue_iframe b)
    (λ _ l', linked (g_submit data g) l') l.
Proof.
  intros Hl Hb Hid. pose proof Hl as [[Hs Hvr Hdel Hwi Htk Hl1 Hk Huq] Ho Hi].
  pose proof (sender_queue_length _ _ Hs) as Hlen.
  destruct Hs as [Hva Hvs Hord Hdata Hids Hfr Hhead Hsent].
  apply wp_upd. unfold lapd_sock_queue_iframe. apply wp_upd, wp_sk. cbn.
  assert (∀ s', v_a s' = v_a (ls l) → v_s s' = v_s (ls l) → v_r s' = v_r (ls l) →
    skb_next s' = S (skb_next (ls l)) → sk_receive_queue s' = sk_receive_queue (ls l) →
    sap s' = sap (ls l) → u_queue s' = u_queue (ls l) →
    sk_write_queue s' = sk_write_queue (ls l) ++ [b] →
    sk_send_head s' = (match sk_send_head (ls l) with Some i => Some i | None => Some (skb_id b) end) →
    linked (g_submit data g) (set_ls s' l)) as Hmain.
  { intros s' E1 E2 E3 E4 E5 E6 E9 E7 E8. split.
    - split; cbn; try done; [|congruence|by rewrite E5| | |congruence].
      + split; cbn; try congruence; [rewrite length_app; cbn; lia| | | | |].
        * rewrite E7, fmap_app, Hdata, drop_app_le by lia. cbn. by rewrite Hb.
        * rewrite E7, fmap_app. cbn. apply NoDup_app. split; [done|]. split; [|apply NoDup_singleton].
          intros x Hx Hx'. apply list_elem_of_singleton in Hx' as ->.
          apply list_elem_of_fmap in Hx as (c & Hc & Hin).
          rewrite Forall_forall in Hfr. apply Hfr in Hin. lia.
        * rewrite E4, E7. apply Forall_app. split; [|by constructor; [lia|]].
          eapply Forall_impl; [done|]. cbn. lia.
        * rewrite E7, E8, Hhead.
          destruct (decide (g_s g - g_a g < length (sk_write_queue (ls l)))%nat) as [Hlt|Hge].
          -- rewrite lookup_app_l by done. by destruct (lookup_lt_is_Some_2 _ _ Hlt) as [c ->].
          -- rewrite (lookup_ge_None_2 (sk_write_queue (ls l))) by lia. cbn.
             rewrite lookup_app_r by lia.
             replace (g_s g - g_a g - length (sk_write_queue (ls l)))%nat with O by lia. done.
        * intros i c Hi' Hc. rewrite E7, lookup_app_l in Hc by lia. by apply Hsent.
      + eapply Forall2_impl; [done|]. intros x f. apply encodes_sub.
      + unfold sap_k in *. cbn. by rewrite E6.
    - apply half_out_submit; [done|]. destruct Ho. lia.
    - destruct Hi. by split. }
  destruct (sk_send_head (ls l)) as [h|] eqn:Hh; unfold upd, modify, mret, M_ret, wp.
  all: apply Hmain; cbn; rewrite ?Hh; done.
Qed.

Lemma linked_accept g l skb w n out :
  linked g l → g_out gy = GI (g_r g) w n :: out →
  encodes (g_sub gy) (GI (g_r g) w n) skb →
  ∀ s', v_r s' = Z.rem (v_r (ls l) + 1) 128 → v_a s' = v_a (ls l) → v_s s' = v_s (ls l) →
  sk_write_queue s' = sk_write_queue (ls l) → sk_send_head s' = sk_send_head (ls l) →
  skb_next s' = skb_next (ls l) → sap s' = sap (ls l) → u_queue s' = u_queue (ls l) →
  sk_receive_queue s' = sk_receive_queue (ls l) ++ [RxFrame skb] →
  holds (g_sub g) (set_ls s' l).
Proof.
  intros [[[] Hvr Hdel Hwi Htk Hl1 Hk Huq] Ho Hi] Hout He s' E1 E2 E3 E4 E5 E6 E7 E9 E8.
  destruct He as (a1&a2&c1&c2&data&crc&->&Hcrc&Hdat&Ht&Hns&Hnr).
  exists (g_accept data g). split; [|done]. split.
  - split; cbn; try done.
    + split; cbn; rewrite ?E2, ?E3, ?E4, ?E5, ?E6; done.
    + rewrite E1, Hvr. apply m128_S.
    + rewrite E8, app_assoc, omap_app, Hdel. f_equal. cbn. rewrite Ht.
      rewrite decide_False, drop_0, length_app, Hcrc by done.
      replace (length data + 2 - 2)%nat with (length data) by lia. by rewrite take_app_length.
    + unfold sap_k in *. cbn. by rewrite E7.
    + congruence.
  - destruct Ho. by split.
  - by eapply half_in_accept.
Qed.
End keeps.
