(* ===== verification/LapdHandlers.v ===== *)
(** * The handlers in multiple frame operation

    Every handler of [LapdDatalink], run on a side that satisfies the invariant
    [holds], meets no fault and either keeps it or leaves multiple frame operation. *)

From stdpp Require Import base list.
From Stdlib Require Import ZArith Lia.
From S2P Require Import Prelude.
From S2P Require Import Bits.
From S2P Require Import LapdProto.
From S2P Require Import LapdSock.
From S2P Require Import LapdOutput.
From S2P Require Import LapdTei.
From S2P Require Import LapdDatalink.
From S2P Require Import LapdInput.
From S2P Require Import LapdUser.
From S2P Require Import LapdPeer.
From S2P Require Import LapdSide.
Local Open Scope Z_scope.

(** ** Operations that meet no fault and do not change the state *)

Definition has_sap (l : lapd_link) : Prop := is_Some (sap (ls l)).

Definition calm {A} (m : L A) : Prop := ∀ l, has_sap l →
  wp m (λ _ l', has_sap l' ∧ state (ls l') = state (ls l)) l.

Section calm.
Lemma calm_bind {A B} (m : L A) (f : A → L B) : calm m → (∀ a, calm (f a)) → calm (m ≫= f).
Proof.
  intros Hm Hf l Hl. apply wp_bind. eapply wp_mono; [by apply Hm|].
  intros a l' [Hl' Hs]. eapply wp_mono; [by apply Hf|]. cbn. intros b l2 [? ?]. split; congruence || done.
Qed.
Lemma calm_ret {A} (a : A) : calm (mret a : L A).
Proof. by intros l Hl. Qed.
Lemma calm_sk {A B} (f : lapd_sock → A) (m : A → L B) : (∀ a, calm (m a)) → calm (sk f ≫= m).
Proof. intros Hm l Hl. by apply wp_sk, Hm. Qed.
Lemma calm_get {B} (m : lapd_link → L B) : (∀ a, calm (m a)) → calm (get ≫= m).
Proof. intros Hm l Hl. by apply wp_get, Hm. Qed.
Lemma calm_when b (m : L unit) : calm m → calm (when b m).
Proof. intros Hm. destruct b; [done|apply calm_ret]. Qed.
Lemma calm_upd f : (∀ s, sap (f s) = sap s ∧ state (f s) = state s) → calm (upd f).
Proof.
  intros Hf l Hl. destruct (Hf (ls l)) as [H1 H2]. unfold upd, modify, wp, has_sap in *. cbn.
  rewrite H1, H2. by split.
Qed.
Lemma calm_the_sap {B} (m : lapd_sap → L B) : (∀ p, calm (m p)) → calm (the_sap ≫= m).
Proof.
  intros Hm l Hl. apply wp_bind. destruct l as [s d t].
  unfold the_sap, sk, deref, on_dev, dv, mbind, M_bind, mret, M_ret, get, wp, has_sap in *.
  cbn in *. destruct Hl as [r Hr]. rewrite Hr.
  destruct r; cbn; apply Hm; unfold has_sap; cbn; rewrite Hr; by eexists.
Qed.
Lemma calm_on_dev {A} (m : D A) : (∀ d, wp m (λ _ _, True) d) → calm (on_dev m).
Proof.
  intros Hm l Hl. apply wp_on_dev_last. eapply wp_mono; [apply Hm|]. done.
Qed.
Lemma calm_ph_data_request skb : calm (on_dev (lapd_ph_data_request skb)).
Proof.
  apply calm_on_dev. intros d. unfold lapd_ph_data_request, dv, wp, mbind, M_bind, get. cbn.
  by destruct (l1_state d).
Qed.
Lemma calm_send_uframe f p : f ≠ LAPD_UFRAME_FUNC_INVALID → calm (lapd_send_uframe f p).
Proof.
  intros Hf. apply calm_bind; [|intros; apply calm_ph_data_request].
  apply calm_get. intros l. rewrite (bool_decide_eq_false_2 (f = _)) by done.
  apply calm_bind; [apply calm_ret|intros; apply calm_ret].
Qed.
Lemma calm_send_sframe c f p : calm (lapd_send_sframe c f p).
Proof.
  apply calm_bind; [|intros; apply calm_ph_data_request].
  apply calm_get. intros l. apply calm_ret.
Qed.
Lemma calm_mdl_error i : tei_in_doubt i = false → calm (mdl_error i).
Proof.
  intros Hi. apply calm_sk. intros []; cbn; [by apply calm_upd|].
  unfold lapd_mdl_error_indication. rewrite Hi. apply calm_ret.
Qed.
End calm.

Create HintDb calm.
#[export] Hint Resolve calm_ret calm_ph_data_request calm_send_sframe : calm.
#[export] Hint Extern 2 (calm (lapd_send_uframe _ _)) => by apply calm_send_uframe : calm.
#[export] Hint Extern 2 (calm (mdl_error _)) => by apply calm_mdl_error : calm.
#[export] Hint Extern 2 (calm (upd _)) => by apply calm_upd : calm.

Ltac calm_step :=
  match goal with
  | |- calm (sk _ ≫= _) => apply calm_sk; intros ?
  | |- calm (the_sap ≫= _) => apply calm_the_sap; intros ?
  | |- calm (_ ≫= _) => apply calm_bind; [|intros ?]
  | |- calm (when _ _) => apply calm_when
  | |- calm (if ?b then _ else _) => destruct b
  | |- calm _ => solve [auto with calm]
  end.
Ltac solve_calm := repeat calm_step.

Lemma calm_start_T200 : calm lapd_start_timer_T200.
Proof. unfold lapd_start_timer_T200. solve_calm. Qed.
Lemma calm_start_T203 : calm lapd_start_timer_T203.
Proof. unfold lapd_start_timer_T203. solve_calm. Qed.
#[export] Hint Resolve calm_start_T200 calm_start_T203 : calm.
#[export] Hint Extern 2 (calm lapd_stop_timer_T200) => by apply calm_upd : calm.
#[export] Hint Extern 2 (calm lapd_stop_timer_T203) => by apply calm_upd : calm.

Lemma calm_establish : calm lapd_establish_datalink_procedure.
Proof.
  unfold lapd_establish_datalink_procedure, lapd_clear_exception_conditions_procedure. solve_calm.
Qed.
#[export] Hint Resolve calm_establish : calm.
Lemma calm_nr_error_recovery : calm lapd_nr_error_recovery_procedure.
Proof. unfold lapd_nr_error_recovery_procedure. solve_calm. Qed.
#[export] Hint Resolve calm_nr_error_recovery : calm.

(** ends in the state [st] *)
Definition ends {A} (st : lapd_datalink_state) (m : L A) : Prop := ∀ l, has_sap l →
  wp m (λ _ l', state (ls l') = st) l.

Lemma ends_bind_change {A} (m : L A) st : calm m → ends st (m ≫= λ _, lapd_change_state st).
Proof. intros Hm l Hl. apply wp_bind. eapply wp_mono; [by apply Hm|]. done. Qed.
Lemma ends_change_calm {A} (m : L A) st : calm m → ends st (lapd_change_state st ;; m).
Proof.
  intros Hm l Hl. apply wp_upd. eapply wp_mono; [by apply Hm|]. cbn. by intros ? ? [_ ?].
Qed.
Lemma ends_calm_bind {A B} (m : L A) (f : A → L B) st :
  calm m → (∀ a, ends st (f a)) → ends st (m ≫= f).
Proof.
  intros Hm Hf l Hl. apply wp_bind. eapply wp_mono; [by apply Hm|]. intros a l' [Hl' _]. by apply Hf.
Qed.
Lemma ends_ret {A B} (m : L A) (b : B) st : ends st m → ends st (m ≫= λ _, mret b).
Proof. intros Hm l Hl. apply wp_bind. eapply wp_mono; [by apply Hm|]. done. Qed.

Lemma ends_recover_7 : ends LAPD_DLS_5_AWAITING_ESTABLISH recover_7.
Proof. apply ends_change_calm, calm_nr_error_recovery. Qed.
Lemma ends_recover_8 : ends LAPD_DLS_5_AWAITING_ESTABLISH recover_8.
Proof. apply ends_bind_change, calm_nr_error_recovery. Qed.

(** ** Handlers *)

Section handlers.
Context (kx ky taken : nat) (read : list rx_item) (gy : gside).
Context (Hkx : (1 ≤ kx ≤ 127)%nat) (Hky : (1 ≤ ky ≤ 127)%nat).

Notation linked := (linked kx ky taken read gy).
Notation holds := (holds kx ky taken read gy).
Notation keeps := (keeps kx ky taken read gy).

(** the invariant, unless multiple frame operation was left *)
Definition stays (sub : list (list Z)) (l : lapd_link) : Prop :=
  multiframe (state (ls l)) = true → holds sub l.

Definition follows {A} (P : lapd_link → Prop) (m : L A) : Prop :=
  ∀ sub l, holds sub l → P l → wp m (λ _, stays sub) l.

Lemma linked_has_sap g l : linked g l → has_sap l.
Proof. intros [[] _ _]. unfold sap_k, has_sap in *. destruct (sap (ls l)); [by eexists|done]. Qed.

Lemma follows_keeps {A} P (m : L A) : keeps m → follows P m.
Proof. intros Hm sub l Hl _. eapply wp_mono; [by apply Hm|]. by intros ? ? ? ?. Qed.
Lemma follows_bind {A B} P (m : L A) (f : A → L B) :
  keeps m → (∀ a, follows (λ _, True) (f a)) → follows P (m ≫= f).
Proof.
  intros Hm Hf sub l Hl _. apply wp_bind. eapply wp_mono; [by apply Hm|].
  intros a l' Hl'. by apply Hf.
Qed.
Lemma follows_then_ret {A B} P (m : L A) (b : B) : follows P m → follows P (m ≫= λ _, mret b).
Proof. intros Hm sub l Hl HP. apply wp_bind. eapply wp_mono; [by apply Hm|]. done. Qed.
Lemma follows_sk {A B} P (f : lapd_sock → A) (m : A → L B) :
  (∀ a, follows P (m a)) → follows P (sk f ≫= m).
Proof. intros Hm sub l Hl HP. apply wp_sk. by apply Hm. Qed.
Lemma follows_ends {A} P st (m : L A) : ends st m → multiframe st = false → follows P m.
Proof.
  intros Hm Hst sub l (g & Hg & _) _. eapply wp_mono; [eapply Hm, linked_has_sap, Hg|].
  cbn. intros _ l' <- Hmf. congruence.
Qed.
Lemma follows_role {B} P (m : lapd_intf_role → L B) :
  (∀ r, follows P (m r)) → follows P (on_dev (dv role) ≫= m).
Proof.
  intros Hm sub l Hl HP. unfold wp, on_dev, dv, mbind, M_bind, get, mret, M_ret. cbn.
  destruct l as [s d t]. by apply Hm.
Qed.

Lemma keeps_role {B} (m : lapd_intf_role → L B) :
  (∀ r, keeps (m r)) → keeps (on_dev (dv role) ≫= m).
Proof.
  intros Hm sub l Hl. unfold wp, on_dev, dv, mbind, M_bind, get, mret, M_ret. cbn.
  destruct l as [s d t]. by apply Hm.
Qed.

Lemma keeps_mdl_error i : tei_in_doubt i = false → keeps (mdl_error i).
Proof.
  intros Hi. apply keeps_sk. intros []; cbn; [by apply keeps_upd|].
  unfold lapd_mdl_error_indication. rewrite Hi. apply keeps_ret.
Qed.
End handlers.

Create HintDb keeps.
#[export] Hint Resolve keeps_ret keeps_start_T200 keeps_start_T203 keeps_run_i_queue
  keeps_invoke_retransmission : keeps.
#[export] Hint Extern 2 (keeps _ _ _ _ _ (upd _)) => by apply keeps_upd : keeps.
#[export] Hint Extern 2 (keeps _ _ _ _ _ lapd_stop_timer_T200) => by apply keeps_upd : keeps.
#[export] Hint Extern 2 (keeps _ _ _ _ _ lapd_stop_timer_T203) => by apply keeps_upd : keeps.
#[export] Hint Extern 2 (keeps _ _ _ _ _ (lapd_change_state _)) => by apply keeps_upd : keeps.
#[export] Hint Extern 2 (keeps _ _ _ _ _ (lapd_send_sframe _ _ _)) =>
  by apply keeps_send_sframe : keeps.
#[export] Hint Extern 2 (keeps _ _ _ _ _ (mdl_error _)) => by apply keeps_mdl_error : keeps.

Ltac keeps_step :=
  match goal with
  | |- keeps _ _ _ _ _ (sk _ ≫= _) => apply keeps_sk; intros ?
  | |- keeps _ _ _ _ _ (the_sap ≫= _) => apply keeps_the_sap; [done..|]; intros ?
  | |- keeps _ _ _ _ _ (_ ≫= _) => apply keeps_bind; [|intros ?]
  | |- keeps _ _ _ _ _ (when _ _) => apply keeps_when
  | |- keeps _ _ _ _ _ (if ?b then _ else _) => destruct b
  | |- keeps _ _ _ _ _ _ => solve [eauto with keeps]
  end.
Ltac solve_keeps := repeat keeps_step.

Section handlers2.
Context (kx ky taken : nat) (read : list rx_item) (gy : gside).
Context (Hkx : (1 ≤ kx ≤ 127)%nat) (Hky : (1 ≤ ky ≤ 127)%nat).
Notation linked := (linked kx ky taken read gy).
Notation holds := (holds kx ky taken read gy).
Notation keeps := (keeps kx ky taken read gy).
Notation follows := (follows kx ky taken read gy).

Lemma keeps_enquiry_response : keeps lapd_enquiry_response_procedure.
Proof. unfold lapd_enquiry_response_procedure. solve_keeps. Qed.
Lemma keeps_transmit_enquiry : keeps lapd_transmit_enquiry_procedure.
Proof. unfold lapd_transmit_enquiry_procedure. solve_keeps. Qed.
Lemma keeps_set_own_receiver_busy : keeps lapd_set_own_receiver_busy.
Proof.
  unfold lapd_set_own_receiver_busy. apply keeps_sk. intros s. destruct (state s);
    unfold lapd_unexpected; solve_keeps.
Qed.
Lemma keeps_clear_own_receiver_busy : keeps lapd_clear_own_receiver_busy.
Proof.
  unfold lapd_clear_own_receiver_busy. apply keeps_sk. intros s. destruct (state s);
    unfold lapd_unexpected; solve_keeps.
Qed.
End handlers2.
#[export] Hint Resolve keeps_enquiry_response keeps_transmit_enquiry
  keeps_set_own_receiver_busy keeps_clear_own_receiver_busy : keeps.

(** ** Frames with an acknowledgement *)

Section acknowledging.
Context (kx ky taken : nat) (read : list rx_item) (gy : gside).
Context (Hkx : (1 ≤ kx ≤ 127)%nat) (Hky : (1 ≤ ky ≤ 127)%nat).
Context (x : gframe) (n : nat) (out : list gframe).
Context (Hout : g_out gy = x :: out) (Hx : g_ack x = Some n).
Notation linked := (linked kx ky taken read gy).
Notation holds := (holds kx ky taken read gy).
Notation keeps := (keeps kx ky taken read gy).
Notation follows := (follows kx ky taken read gy).

Definition valid (l : lapd_link) : Prop := lapd_is_valid_nr (ls l) (m128 n) = true.

(** [ack] where the number was found valid *)
Lemma follows_ack {A} (m : unit → L A) :
  (∀ a, follows (λ _, True) (m a)) → follows valid (ack (m128 n) ≫= m).
Proof.
  intros Hm sub l (g & Hg & Hs) Hv. apply wp_bind.
  eapply wp_mono; [by eapply (linked_ack kx ky taken read gy Hkx Hky g l n out x)|].
  intros a l' [Hl' _]. apply Hm; [|done]. by exists (g_acked n g).
Qed.
Lemma follows_ack_last : follows valid (ack (m128 n)).
Proof.
  intros sub l (g & Hg & Hs) Hv.
  eapply wp_mono; [by eapply (linked_ack kx ky taken read gy Hkx Hky g l n out x)|].
  intros a l' [Hl' _] _. by exists (g_acked n g).
Qed.

Lemma follows_when_valid (m1 m2 : L unit) :
  follows valid m1 → follows (λ _, True) m2 →
  follows (λ _, True) (s ← sk (λ s, s); if lapd_is_valid_nr s (m128 n) then m1 else m2).
Proof.
  intros H1 H2 sub l Hl _. apply wp_sk.
  destruct (lapd_is_valid_nr (ls l) (m128 n)) eqn:Hv; [by apply H1|by apply H2].
Qed.

Lemma follows_recover_7 : follows (λ _, True) recover_7.
Proof. by eapply follows_ends; [apply ends_recover_7|]. Qed.
Lemma follows_recover_8 : follows (λ _, True) recover_8.
Proof. by eapply follows_ends; [apply ends_recover_8|]. Qed.

Lemma follows_ack_7 : follows valid (ack_7 (m128 n)).
Proof.
  unfold ack_7. apply follows_sk. intros s. destruct (m128 n =? v_s s).
  - apply follows_ack. intros _. apply follows_keeps. solve_keeps.
  - destruct (negb _); cbn; [|apply follows_keeps; solve_keeps].
    apply follows_ack. intros _. apply follows_keeps. solve_keeps.
Qed.

Lemma follows_ack_8 : follows (λ _, True) (ack_8 (m128 n)).
Proof. apply follows_when_valid; [apply follows_ack_last|apply follows_recover_8]. Qed.

Lemma keeps_poll_7 h : keeps (sframe_poll_7 h).
Proof.
  unfold sframe_poll_7. apply keeps_role. intros r. solve_keeps.
Qed.

Lemma follows_sframe_8 h timers :
  s_n_r h = m128 n → keeps timers → follows (λ _, True) (sframe_8 h timers).
Proof.
  intros Hn Ht. unfold sframe_8. rewrite Hn. apply follows_role. intros r.
  destruct (lapd_rx_is_response r (addr_c_r h)).
  - destruct (s_p_f h); [|apply follows_ack_8]. apply follows_when_valid; [|apply follows_recover_8].
    apply follows_ack. intros _. apply follows_keeps. solve_keeps.
  - apply follows_bind; [|intros _; apply follows_ack_8]. solve_keeps.
Qed.

(** ** Supervisory frames *)

Lemma follows_rr h : s_n_r h = m128 n → follows (λ _, True) (lapd_socket_handle_sframe_rr h).
Proof.
  intros Hn. unfold lapd_socket_handle_sframe_rr. rewrite Hn. apply follows_sk. intros st.
  apply follows_then_ret. destruct st; try by apply follows_keeps, keeps_ret.
  - apply follows_bind; [by apply keeps_upd|]. intros _.
    apply follows_bind; [apply keeps_poll_7|]. intros _.
    apply follows_when_valid; [apply follows_ack_7|apply follows_recover_7].
  - apply follows_bind; [by apply keeps_upd|]. intros _.
    apply follows_sframe_8; [done|]. solve_keeps.
Qed.

Lemma follows_rnr h : s_n_r h = m128 n → follows (λ _, True) (lapd_socket_handle_sframe_rnr h).
Proof.
  intros Hn. unfold lapd_socket_handle_sframe_rnr. rewrite Hn. apply follows_sk. intros st.
  apply follows_then_ret. destruct st; try by apply follows_keeps, keeps_ret.
  - apply follows_bind; [by apply keeps_upd|]. intros _.
    apply follows_bind; [apply keeps_poll_7|]. intros _.
    apply follows_when_valid; [|apply follows_recover_7].
    apply follows_ack. intros _. apply follows_keeps. solve_keeps.
  - apply follows_bind; [by apply keeps_upd|]. intros _.
    apply follows_sframe_8; [done|]. solve_keeps.
Qed.

Lemma follows_rej h : s_n_r h = m128 n → follows (λ _, True) (lapd_socket_handle_sframe_rej h).
Proof.
  intros Hn. unfold lapd_socket_handle_sframe_rej. rewrite Hn. apply follows_sk. intros st.
  apply follows_then_ret. destruct st; try by apply follows_keeps, keeps_ret.
  - apply follows_bind; [by apply keeps_upd|]. intros _.
    apply follows_bind; [apply keeps_poll_7|]. intros _.
    apply follows_when_valid; [|apply follows_recover_7].
    apply follows_ack. intros _. apply follows_keeps. solve_keeps.
  - apply follows_bind; [by apply keeps_upd|]. intros _.
    apply follows_sframe_8; [done|]. solve_keeps.
Qed.
End acknowledging.
