(* ===== verification/LapdEvents.v ===== *)
(** * Received frames, timers and the user in multiple frame operation *)

From stdpp Require Import base list.
From Stdlib Require Import ZArith Lia.
From S2P Require Import Prelude.
From S2P Require Import Bits.
From S2P Require Import LapdProto.
From S2P Require Import LapdSock.
From S2P Require Import LapdOutput.
From S2P Require Import LapdTei.
From S2P Require Import LapdDatalink.
From S2P Require Import LapdInput.
From S2P Require Import LapdUser.
From S2P Require Import LapdPeer.
From S2P Require Import LapdSide.
From S2P Require Import LapdHandlers.
Local Open Scope Z_scope.

(** a rejected frame: the link is established again, or was not established *)
Lemma frame_reject_leaves e l : has_sap l →
  wp (lapd_frame_reject e) (λ _ l', multiframe (state (ls l')) = false) l.
Proof.
  intros Hl. unfold lapd_frame_reject.
  apply wp_bind. eapply wp_mono with (P := λ _ l', has_sap l' ∧ state (ls l') = state (ls l)).
  { assert (∀ v, calm (if v =? LAPD_FE_LENGTH then mdl_error LAPD_MDL_ERROR_INDICATION_N
      else if v =? LAPD_FE_N201 then mdl_error LAPD_MDL_ERROR_INDICATION_O
      else if v =? LAPD_FE_UNDEFINED_COMMAND then mdl_error LAPD_MDL_ERROR_INDICATION_L
      else if v =? LAPD_FE_I_FIELD_NOT_PERMITTED then mdl_error LAPD_MDL_ERROR_INDICATION_M
      else mret tt)) as Hc by (intros v; solve_calm).
    by apply Hc. }
  intros _ l1 [Hl1 Hst]. apply wp_sk. fold (multiframe (state (ls l1))).
  destruct (multiframe (state (ls l1))) eqn:Hm; cbn; [|by unfold wp; cbn].
  assert (ends LAPD_DLS_5_AWAITING_ESTABLISH (lapd_establish_datalink_procedure ;;
    upd (set_layer_3_initiated false) ;; lapd_change_state LAPD_DLS_5_AWAITING_ESTABLISH)) as He.
  { apply ends_calm_bind; [apply calm_establish|]. intros _.
    apply ends_bind_change. solve_calm. }
  eapply wp_mono; [by apply He|]. by intros _ l' ->.
Qed.

(** the invariant after operations that keep it *)
Ltac by_keeps kx ky taken read gy :=
  match goal with
  | |- wp ?m _ ?l =>
      let K := fresh in
      assert (keeps kx ky taken read gy m) as K by solve_keeps; by apply K
  end.

Section receive.
Context (kx ky taken : nat) (read : list rx_item) (gy : gside).
Context (Hkx : (1 ≤ kx ≤ 127)%nat) (Hky : (1 ≤ ky ≤ 127)%nat).
Notation linked := (linked kx ky taken read gy).
Notation holds := (holds kx ky taken read gy).
Notation keeps := (keeps kx ky taken read gy).
Notation follows := (follows kx ky taken read gy).
Notation stays := (stays kx ky taken read gy).

Lemma follows_get {B} P (m : lapd_link → L B) :
  (∀ l, follows P (m l)) → follows P (get ≫= m).
Proof. intros Hm sub l Hl HP. apply wp_get. by apply Hm. Qed.
Lemma follows_lift {A B} P (a : A) (m : A → L B) :
  follows P (m a) → follows P (lift (Done a) ≫= m).
Proof. intros Hm sub l Hl HP. apply wp_lift. by apply Hm. Qed.

Lemma follows_reject e : follows (λ _, True) (lapd_frame_reject e).
Proof.
  intros sub l (g & Hg & _) _. eapply wp_mono.
  - eapply frame_reject_leaves, linked_has_sap, Hg.
  - cbn. intros _ l' Hf Ht. rewrite Hf in Ht. done.
Qed.

(** ** I frames *)

Section iframe.
Context (i w n : nat) (out : list gframe) (skb : list Z) (h : lapd_data_hdr_e).
Context (Hout : g_out gy = GI i w n :: out).
Context (Henc : encodes (g_sub gy) (GI i w n) skb) (Hh : data_hdr_e skb = Done h).

Lemma iframe_fields :
  i_n_s h = m128 i ∧ s_n_r h = m128 n ∧ lapd_frame_type (h_control h) = LAPD_FRAME_TYPE_IFRAME.
Proof.
  destruct Henc as (a1&a2&c1&c2&data&crc&Hf&_&_&Ht&Hs&Hr). rewrite Hf in Hh. cbn in Hh.
  by injection Hh as <-.
Qed.

(** the sequence number tells whether it is the frame expected *)
Lemma iframe_expected g l : linked g l → i_n_s h = v_r (ls l) → i = g_r g.
Proof.
  intros [Hsd Ho Hi] He. rewrite (proj1 iframe_fields), (sd_vr _ _ _ _ _ Hsd) in He.
  destruct Hi as [Hf Ha Hr _]. rewrite Hout in Hf. cbn in Hf.
  apply ack_ok_bound in Ha. apply m128_inj in He; lia.
Qed.

Lemma keeps_iframe_receive clear : keeps (iframe_receive h skb clear).
Proof.
  intros sub l Hl. unfold iframe_receive. apply wp_sk.
  destruct (own_receiver_busy (ls l)); [by_keeps kx ky taken read gy|].
  destruct (Z.eqb_spec (i_n_s h) (v_r (ls l))) as [He|Hne].
  - destruct Hl as (g & Hg & Hs). pose proof (iframe_expected _ _ Hg He). subst i.
    apply wp_upd, wp_upd. apply wp_bind. unfold lapd_dl_data_indication, receive_queue_tail.
    apply wp_get, wp_upd. unfold upd at 1, modify at 1, wp at 1.
    assert (keeps ((if i_p h then lapd_send_sframe LAPD_RESPONSE LAPD_SFRAME_FUNC_RR true ;;
                                  upd (set_acknowledge_pending false)
                    else lapd_send_sframe LAPD_RESPONSE LAPD_SFRAME_FUNC_RR false) ;;
                   mret true)) as Hk by solve_keeps.
    apply Hk. rewrite <-Hs.
    by apply (linked_accept kx ky taken read gy Hkx Hky g l skb w n out).
  - destruct (reject_exception (ls l)); by_keeps kx ky taken read gy.
Qed.

Lemma follows_iframe_7 : follows (λ _, True) (iframe_7 h skb).
Proof.
  unfold iframe_7. rewrite (proj1 (proj2 iframe_fields)).
  apply follows_bind; [apply keeps_iframe_receive|]. intros q. apply follows_then_ret.
  intros sub l Hl _. apply wp_sk.
  destruct (lapd_is_valid_nr (ls l) (m128 n)) eqn:Hv; [|by eapply follows_recover_7].
  destruct (peer_receiver_busy _);
    [by eapply (follows_ack_last kx ky taken read gy)|by eapply (follows_ack_7 kx ky taken read gy)].
Qed.

Lemma follows_iframe_8 : follows (λ _, True) (iframe_8 h skb).
Proof.
  unfold iframe_8. rewrite (proj1 (proj2 iframe_fields)).
  apply follows_bind; [apply keeps_iframe_receive|]. intros q. apply follows_then_ret.
  eapply follows_when_valid; [by eapply follows_ack_last|apply follows_recover_7].
Qed.

Lemma follows_iframe : follows (λ _, True) (lapd_socket_handle_iframe skb).
Proof.
  unfold lapd_socket_handle_iframe. rewrite Hh.
  apply follows_lift, follows_get. intros l.
  destruct (_ <? _); [apply follows_then_ret, follows_reject|].
  apply follows_bind; [solve_keeps|]. intros _.
  destruct (_ <=? _); [apply follows_keeps; solve_keeps|].
  apply follows_sk. intros st. destruct st; try by apply follows_keeps, keeps_ret.
  - apply follows_iframe_7.
  - apply follows_iframe_8.
Qed.
End iframe.

(** ** Supervisory frames and UI frames *)

(** what the peer has in the channel can only be such a frame *)
Lemma follows_sframe x n out skb h :
  g_out gy = x :: out → g_ack x = Some n → data_hdr_e skb = Done h → s_n_r h = m128 n →
  follows (λ _, True) (lapd_socket_handle_sframe skb).
Proof.
  intros Hout Hx Hh Hn. unfold lapd_socket_handle_sframe. rewrite Hh. apply follows_lift.
  destruct (negb _); [apply follows_then_ret, follows_reject|].
  destruct (lapd_sframe_function_of (h_control h)); [apply follows_keeps, keeps_ret| | |].
  - by eapply follows_rr.
  - by eapply follows_rnr.
  - by eapply follows_rej.
Qed.

(** an UI frame is queued for the process, and is no data of the link *)
Lemma keeps_unit_data skb h :
  data_hdr_e skb = Done h → lapd_frame_type (h_control h) = LAPD_FRAME_TYPE_UFRAME →
  keeps (lapd_dl_unit_data_indication skb).
Proof.
  intros Hh Ht sub l (g & [[[] Hvr Hdel Hwi Htk Hl1 Hk Huq] Ho Hi] & Hs).
  unfold lapd_dl_unit_data_indication, receive_queue_tail. apply wp_bind, wp_get, wp_upd.
  unfold upd, modify, wp, mret, M_ret. exists g. split; [|done]. split; [|done|done].
  split; cbn; try done.
  rewrite app_assoc, omap_app, Hdel. cbn. rewrite Hh, Ht. cbn. apply app_nil_r.
Qed.

Lemma follows_frame x out skb :
  g_out gy = x :: out → encodes (g_sub gy) x skb → follows (λ _, True) (dlc_recv_frame skb).
Proof.
  intros Hout He. destruct (data_hdr_e skb) as [h|] eqn:Hh.
  2: { exfalso. destruct x; cbn in He; naive_solver. }
  unfold dlc_recv_frame. rewrite Hh. apply follows_lift. destruct x as [i w n|n|].
  - rewrite (proj2 (proj2 (iframe_fields _ _ _ _ _ He Hh))). by eapply follows_iframe.
  - destruct He as (a1&a2&c1&c2&rest&->&Ht&Hn). cbn in Hh. injection Hh as <-.
    cbn [h_control]. rewrite Ht. by eapply follows_sframe.
  - destruct He as (a1&a2&c1&c2&rest&->&Ht&Hf). cbn in Hh. injection Hh as <-.
    cbn [h_control]. rewrite Ht. unfold lapd_socket_handle_uframe. apply follows_lift.
    cbn [h_control]. rewrite Hf. cbn. eapply follows_keeps, keeps_unit_data; done.
Qed.
End receive.

(** ** Timers and the process in multiple frame operation *)

Lemma multiframe_cases s : multiframe s = true →
  s = LAPD_DLS_7_LINK_CONNECTION_ESTABLISHED ∨ s = LAPD_DLS_8_TIMER_RECOVERY.
Proof. destruct s; try done; auto. Qed.

Section events.
Context (kx ky taken : nat) (read : list rx_item) (gy : gside).
Context (Hkx : (1 ≤ kx ≤ 127)%nat) (Hky : (1 ≤ ky ≤ 127)%nat).
Notation linked := (linked kx ky taken read gy).
Notation holds := (holds kx ky taken read gy).
Notation keeps := (keeps kx ky taken read gy).
Notation follows := (follows kx ky taken read gy).
Notation stays := (stays kx ky taken read gy).

Definition in_multiframe (l : lapd_link) : Prop := multiframe (state (ls l)) = true.

(** a handler that looks at the state *)
Lemma follows_state {A} (m : lapd_sock → L A) :
  (∀ s, state s = LAPD_DLS_7_LINK_CONNECTION_ESTABLISHED → follows (λ _, True) (m s)) →
  (∀ s, state s = LAPD_DLS_8_TIMER_RECOVERY → follows (λ _, True) (m s)) →
  follows in_multiframe (s ← sk (λ s, s); m s).
Proof.
  intros H7 H8 sub l Hl Hm. apply wp_sk.
  destruct (multiframe_cases _ Hm); [by apply H7|by apply H8].
Qed.

Lemma follows_the_sap {A} (m : lapd_sap → L A) :
  (∀ p, follows (λ _, True) (m p)) → follows (λ _, True) (the_sap ≫= m).
Proof.
  intros Hm sub l (g & Hg & Hs) _. apply wp_bind. unfold wp at 1.
  rewrite (proj1 (linked_sap _ _ _ _ _ _ _ Hg)).
  apply Hm; [|done]. by exists g.
Qed.

(** the link is established again *)
Lemma follows_reestablish i b :
  tei_in_doubt i = false →
  follows (λ _, True) (mdl_error i ;; lapd_establish_datalink_procedure ;;
    upd (set_layer_3_initiated b) ;; lapd_change_state LAPD_DLS_5_AWAITING_ESTABLISH).
Proof.
  intros Hi. eapply (follows_ends _ _ _ _ _ _ LAPD_DLS_5_AWAITING_ESTABLISH); [|done].
  apply ends_calm_bind; [by apply calm_mdl_error|]. intros _.
  apply ends_calm_bind; [apply calm_establish|]. intros _.
  apply ends_bind_change. solve_calm.
Qed.

Lemma follows_T200 : follows in_multiframe lapd_timer_T200.
Proof.
  apply follows_state; intros s Hs; (destruct (sk_owned s); [apply follows_keeps; solve_keeps|]);
    rewrite Hs.
  - apply follows_keeps. solve_keeps.
  - apply follows_the_sap. intros p. destruct (_ =? _).
    + by apply follows_reestablish.
    + apply follows_keeps. solve_keeps.
Qed.

Lemma follows_T203 : follows in_multiframe lapd_timer_T203.
Proof.
  apply follows_state; intros s Hs; (destruct (sk_owned s); [apply follows_keeps; solve_keeps|]);
    rewrite Hs; apply follows_keeps; unfold lapd_unexpected; solve_keeps.
Qed.

(** the timer is no longer pending when its function runs *)
Lemma follows_expire (m : L unit) f :
  follows in_multiframe m → (∀ s, same_core s (f s) ∧ state (f s) = state s) →
  follows in_multiframe (upd f ;; m).
Proof.
  intros Hm Hf sub l (g & Hg & Hs) Hmf. apply wp_upd. apply Hm.
  - exists g. split; [|done]. apply linked_same_core; [apply Hf|done].
  - unfold in_multiframe. cbn. by rewrite (proj2 (Hf _)).
Qed.

(** ** The process *)

Lemma send_data_ok sub data l :
  holds sub l → in_multiframe l → wp (sendmsg_send false data) (λ _, holds (sub ++ [data])) l.
Proof.
  intros (g & Hg & <-) Hm. unfold sendmsg_send, lapd_prepare_iframe.
  set (b := {| skb_id := skb_next (ls l); skb_sapi := sapi (ls l);
    skb_c_r := lapd_make_cr (role (dev l)) LAPD_COMMAND; skb_tei := tei (ls l);
    skb_n_s := None; skb_n_r := None; skb_data := data |}).
  pose proof (linked_submit _ _ _ _ _ Hkx Hky g l b data Hg eq_refl eq_refl) as H.
  apply wp_bind, wp_get, wp_upd, wp_ret. set (l1 := set_ls _ l). fold b.
  assert (state (ls l1) = state (ls l)) as Hst1 by done.
  unfold lapd_dl_data_request. apply wp_sk. rewrite Hst1.
  destruct (multiframe_cases _ Hm) as [Hst|Hst]; rewrite Hst.
  - apply wp_bind. eapply wp_mono; [exact H|]. intros ? l' Hl'.
    apply keeps_run_i_queue; [done..|]. by exists (g_submit data g).
  - eapply wp_mono; [exact H|]. intros ? l' Hl'. by exists (g_submit data g).
Qed.

Lemma ui_encodes sub sapi c_r tei data :
  encodes sub GU (((lapd_address sapi c_r tei ++
    [lapd_uframe_make_control LAPD_UFRAME_FUNC_UI false]) ++ data) ++ [0; 0]).
Proof.
  unfold encodes, lapd_address. destruct data as [|o data]; cbn; by do 5 eexists.
Qed.

Lemma follows_send_unit_data data : follows in_multiframe (sendmsg_send true data).
Proof.
  intros sub l Hl Hm. unfold sendmsg_send, lapd_prepare_uframe.
  apply wp_bind, wp_get. cbn [when bool_decide]. unfold wp at 1. cbn.
  unfold lapd_dl_unit_data_request. apply wp_sk.
  assert (u_queue (ls l) = []) as Huq by (destruct Hl as (g & [[] _ _] & _); done).
  match goal with |- context [lapd_sock_queue_uframe ?f] => set (skb := f) end.
  assert (encodes [] GU (skb ++ [0; 0])) as Hskb by apply (ui_encodes []).
  assert (wp (lapd_sock_queue_uframe skb ;; lapd_run_ui_queue) (λ _, holds sub) l) as Hrun.
  { unfold lapd_sock_queue_uframe. apply wp_upd. unfold lapd_run_ui_queue. apply wp_sk, wp_upd.
    cbn. rewrite Huq. cbn. apply wp_bind.
    eapply wp_mono; [apply (keeps_ui kx ky taken read gy Hkx Hky skb (λ _, Hskb) sub)|by intros].
    destruct Hl as (g & Hg & Hs). exists g. split; [|done].
    refine (linked_same_core _ _ _ _ _ g l _ _ Hg). by split. }
  destruct (multiframe_cases _ Hm) as [Hst|Hst]; rewrite Hst;
    (eapply wp_mono; [exact Hrun|]); by intros ? ? ? ?.
Qed.

Lemma ends_release_request l :
  has_sap l → in_multiframe l →
  wp lapd_dl_release_request (λ _ l', state (ls l') = LAPD_DLS_6_AWAITING_RELEASE) l.
Proof.
  intros Hsap Hm. unfold lapd_dl_release_request. apply wp_sk.
  assert (ends LAPD_DLS_6_AWAITING_RELEASE (lapd_discard_i_queue ;; upd (set_retrans_cnt 0) ;;
    lapd_send_uframe LAPD_UFRAME_FUNC_DISC true ;; lapd_start_timer_T200 ;;
    lapd_change_state LAPD_DLS_6_AWAITING_RELEASE ;; mret true)) as H8.
  { do 4 (apply ends_calm_bind; [unfold lapd_discard_i_queue; solve_calm|intros _]).
    by apply ends_change_calm. }
  assert (ends LAPD_DLS_6_AWAITING_RELEASE (lapd_discard_i_queue ;; upd (set_retrans_cnt 0) ;;
    lapd_send_uframe LAPD_UFRAME_FUNC_DISC true ;; lapd_start_timer_T200 ;; lapd_stop_timer_T203 ;;
    lapd_change_state LAPD_DLS_6_AWAITING_RELEASE ;; mret true)) as H7.
  { do 5 (apply ends_calm_bind; [unfold lapd_discard_i_queue; solve_calm|intros _]).
    by apply ends_change_calm. }
  destruct (multiframe_cases _ Hm) as [Hst|Hst]; rewrite Hst; [by apply H7|by apply H8].
Qed.

Lemma follows_release : follows in_multiframe lapd_dl_release_request.
Proof.
  intros sub l (g & Hg & _) Hm.
  eapply wp_mono; [apply ends_release_request; [by eapply linked_has_sap|done]|].
  cbn. intros ? l' Hst Hm'. by rewrite Hst in Hm'.
Qed.

Lemma follows_establish : follows in_multiframe lapd_dl_establish_request.
Proof.
  intros sub l (g & Hg & _) Hm. unfold lapd_dl_establish_request. apply wp_sk.
  assert (ends LAPD_DLS_5_AWAITING_ESTABLISH (lapd_discard_i_queue ;;
    lapd_establish_datalink_procedure ;; upd (set_layer_3_initiated true) ;;
    lapd_change_state LAPD_DLS_5_AWAITING_ESTABLISH ;; mret true)) as He.
  { do 3 (apply ends_calm_bind; [unfold lapd_discard_i_queue; solve_calm|intros _]).
    by apply ends_change_calm. }
  assert (wp (lapd_discard_i_queue ;; lapd_establish_datalink_procedure ;;
    upd (set_layer_3_initiated true) ;; lapd_change_state LAPD_DLS_5_AWAITING_ESTABLISH ;;
    mret true) (λ _, stays sub) l) as H.
  { eapply wp_mono; [eapply He, linked_has_sap, Hg|].
    cbn. intros ? l' Hst Hm'. by rewrite Hst in Hm'. }
  destruct (multiframe_cases _ Hm) as [Hst|Hst]; rewrite Hst; exact H.
Qed.

(** ** Layer 1 *)

Lemma flush_wire d :
  wp (upd_dev (set_l1_state LAPD_L1_STATE_AVAILABLE) ;; lapd_out_queue_flush)
    (λ _ d', wire d' = wire d ∧ out_queue d' = [] ∧ q931 d' = q931 d ∧ x25 d' = x25 d) d.
Proof.
  unfold lapd_out_queue_flush, upd_dev, modify, dv, wp, mbind, M_bind, get, mret, M_ret. cbn.
  assert (∀ q d, out_queue d = [] →
    wp (forM q (λ skb, dev_queue_xmit (PH_DATA_REQUEST (skb ++ [0; 0]))))
      (λ _ d', wire d' = wire d ++ ((λ skb, skb ++ [0; 0]) <$> q) ∧ out_queue d' = [] ∧
               q931 d' = q931 d ∧ x25 d' = x25 d) d) as Hq.
  { intros q. induction q as [|skb q IH]; intros d0 Hd0; cbn [forM].
    - cbn. by rewrite app_nil_r.
    - apply wp_bind. unfold dev_queue_xmit, upd_dev, modify, wp at 1.
      eapply wp_mono; [by apply IH|]. cbn. intros _ d' (H1 & H2 & H3 & H4).
      split_and!; try done. rewrite H1.
      trans ((wire d0 ++ [skb ++ [0; 0]]) ++ ((λ skb, skb ++ [0; 0]) <$> q)).
      + f_equal. by apply wire_xmit_data.
      + by rewrite <-app_assoc. }
  set (d1 := set_out_queue [] _). specialize (Hq (out_queue d) d1 eq_refl).
  unfold wp in Hq. destruct (forM _ _ d1) as [[u d']|]; [|done].
  destruct Hq as (H1 & H2 & H3 & H4). split_and!; try done. rewrite H1.
  unfold wire, d1. cbn. by rewrite app_nil_r.
Qed.

Lemma keeps_activate :
  keeps (on_dev (upd_dev (set_l1_state LAPD_L1_STATE_AVAILABLE) ;; lapd_out_queue_flush)).
Proof.
  intros sub l (g & [[] Ho Hi] & Hs). apply wp_on_dev_last.
  eapply wp_mono; [apply flush_wire|]. intros _ d' (Hw & Hq & Hq9 & Hx).
  exists g. split; [|done]. split; [|done|done]. split; cbn; rewrite ?Hw; try done.
  unfold sap_k in *. cbn. by rewrite Hq9, Hx.
Qed.
End events.
