(* ===== verification/LapdDelivery.v ===== *)
(** * Delivery of data over an unreliable channel

    The theorem about the data link layer: as long as both sides stay in multiple frame
    operation, whatever frames the channel loses, however the timers expire and
    whatever the processes do, no code meets a fault, each process gets the data
    the other one sent, in order and once, and the data that was not delivered is
    still in the write queue of its sender. *)

From stdpp Require Import base list.
From Stdlib Require Import ZArith Lia.
From S2P Require Import Prelude.
From S2P Require Import Bits.
From S2P Require Import LapdProto.
From S2P Require Import LapdSock.
From S2P Require Import LapdOutput.
From S2P Require Import LapdTei.
From S2P Require Import LapdDatalink.
From S2P Require Import LapdInput.
From S2P Require Import LapdUser.
From S2P Require Import LapdPeer.
From S2P Require Import LapdSide.
From S2P Require Import LapdHandlers.
From S2P Require Import LapdEvents.
Local Open Scope Z_scope.

(** a side whose link has just been established: nothing sent, the channel empty *)
Record established (kx : nat) (x : lapd_side) : Prop := {
  es_state : multiframe (state (ls (side_link x))) = true;
  es_va : v_a (ls (side_link x)) = 0;
  es_vs : v_s (ls (side_link x)) = 0;
  es_vr : v_r (ls (side_link x)) = 0;
  es_queue : sk_write_queue (ls (side_link x)) = [];
  es_head : sk_send_head (ls (side_link x)) = None;
  es_uq : u_queue (ls (side_link x)) = [];
  es_received : data_received x = [];
  es_sent : side_sent x = [];
  es_taken : side_taken x = length (wire (dev (side_link x)));
  es_l1 : l1_state (dev (side_link x)) = LAPD_L1_STATE_AVAILABLE →
          out_queue (dev (side_link x)) = [];
  es_k : sap_k (side_link x) = Some (Z.of_nat kx);
}.

(** ** The invariant of the system *)

Definition side_inv (kx : nat) (x : lapd_side) (g : gside) : Prop :=
  side_ok kx (side_taken x) (side_read x) (side_link x) g ∧ g_sub g = side_sent x.

Definition joint (kx ky : nat) (x y : lapd_side) : Prop :=
  ∃ gx gy, side_inv kx x gx ∧ side_inv ky y gy ∧ half_ok kx gx gy ∧ half_ok ky gy gx.

Lemma joint_sym kx ky x y : joint kx ky x y → joint ky kx y x.
Proof. intros (gx & gy & ? & ? & ? & ?). by exists gy, gx. Qed.

Definition ghost_start : gside :=
  {| g_sub := []; g_a := 0; g_s := 0; g_hs := 0; g_r := 0; g_out := []; g_del := [] |}.

Lemma established_inv kx x : established kx x → side_inv kx x ghost_start.
Proof.
  intros []. split; [|done]. split; cbn; try done.
  - split; cbn; try done; try lia; rewrite ?es_queue0; try done. constructor.
  - rewrite es_taken0, drop_all. constructor.
  - by rewrite es_taken0.
Qed.

Lemma joint_start kx ky x y : established kx x → established ky y → joint kx ky x y.
Proof.
  intros Hx Hy. exists ghost_start, ghost_start.
  split; [by apply established_inv|]. split; [by apply established_inv|].
  by split; split; cbn.
Qed.

(** ** Steps *)

Definition g_take (g : gside) : gside :=
  {| g_sub := g_sub g; g_a := g_a g; g_s := g_s g; g_hs := g_hs g; g_r := g_r g;
     g_out := tail (g_out g); g_del := g_del g |}.

(** the first frame of a channel is gone *)
Lemma joint_take kx ky x y skb :
  joint kx ky x y → next_frame y = Some skb → joint kx ky x (take_frame y).
Proof.
  intros (gx & gy & Hx & [[[] Hvr Hdel Hwi Htk Hl1 Hk Huq] Hs] & Ho & Hi) Hf.
  unfold next_frame in Hf. pose proof (lookup_lt_Some _ _ _ Hf) as Hlt.
  rewrite (drop_S _ _ _ Hf) in Hwi. apply Forall2_cons_inv_r in Hwi as (f & out & He & Hwi & Hout).
  exists gx, (g_take gy). split_and!; [done| | |].
  - split; [|done]. split; cbn; try done. by rewrite Hout.
  - destruct Ho as [Hof Hoa Hor Hod]. split; cbn; try done. rewrite Hout in Hoa |- *.
    by eapply ack_ok_tail.
  - destruct Hi as [Hif Hia Hir Hid]. split; cbn; try done. rewrite Hout in Hif |- *.
    by eapply fwd_ok_tail.
Qed.

(** what a step has to establish *)
Definition step_ok (kx ky : nat) (r : outcome (lapd_side * lapd_side)) : Prop :=
  match r with
  | Fault _ => False
  | Done (x, y) => both_multiframe (x, y) = true → joint kx ky x y
  end.

Section step.
Context (kx ky : nat) (Hkx : (1 ≤ kx ≤ 127)%nat) (Hky : (1 ≤ ky ≤ 127)%nat).

(** an operation of one side *)
Lemma run_side_ok {A} (m : L A) x y gy :
  side_inv ky y gy →
  follows kx ky (side_taken x) (side_read x) gy in_multiframe m →
  (∃ gx, side_inv kx x gx ∧ half_ok kx gx gy ∧ half_ok ky gy gx) →
  multiframe (state (ls (side_link x))) = true →
  match run_side m x with
  | Fault _ => False
  | Done x' => side_taken x' = side_taken x ∧ side_read x' = side_read x ∧
               side_sent x' = side_sent x ∧
               (multiframe (state (ls (side_link x'))) = true → joint kx ky x' y)
  end.
Proof.
  intros Hy Hm (gx & [Hx Hs] & Ho & Hi) Hmf. unfold run_side.
  assert (holds kx ky (side_taken x) (side_read x) gy (side_sent x) (side_link x)) as Hh
    by by exists gx.
  specialize (Hm _ _ Hh Hmf). unfold wp in Hm.
  destruct (m (side_link x)) as [[a l]|]; [|done]. cbn. split_and!; try done.
  intros Hmf'. destruct (Hm Hmf') as (g & [Hg Ho' Hi'] & Hsub). exists g, gy. split_and!; try done.
Qed.

Lemma side_step_run_ok {A} (m : L A) x y :
  joint kx ky x y → multiframe (state (ls (side_link x))) = true →
  (∀ gy, follows kx ky (side_taken x) (side_read x) gy in_multiframe m) →
  step_ok kx ky (x' ← run_side m x; Done (x', y)).
Proof.
  intros (gx & gy & Hx & Hy & Ho & Hi) Hmf Hm.
  pose proof (run_side_ok m x y gy Hy (Hm gy) ltac:(by exists gx) Hmf) as H.
  cbn. destruct (run_side m x) as [x'|]; [|done]. destruct H as (_ & _ & _ & H).
  cbn. unfold both_multiframe. cbn. intros [Hm1 Hm2]%andb_true_iff. by apply H.
Qed.

Lemma receive_ok x y : joint kx ky x y → multiframe (state (ls (side_link x))) = true →
  step_ok kx ky (side_step Receive x y).
Proof.
  intros (gx & gy & Hx & Hy & Ho & Hi) Hmf. cbn.
  destruct (next_frame y) as [skb|] eqn:Hf; [|intros _; by exists gx, gy].
  pose proof Hy as [[_ _ _ Hwi _ _ _ _] _]. unfold next_frame in Hf.
  rewrite (drop_S _ _ _ Hf) in Hwi. apply Forall2_cons_inv_r in Hwi as (f & out & He & Hwi & Hout).
  assert (follows kx ky (side_taken x) (side_read x) gy in_multiframe (dlc_recv_frame skb)) as Hm.
  { intros sub l Hl _. by eapply (follows_frame kx ky (side_taken x) (side_read x) gy Hkx Hky f out skb Hout He). }
  pose proof (run_side_ok _ x y gy Hy Hm ltac:(by exists gx) Hmf) as H.
  destruct (run_side _ x) as [x'|]; [|done]. destruct H as (_ & _ & _ & H). cbn.
  unfold both_multiframe. cbn. intros [Hm1 Hm2]%andb_true_iff. eapply joint_take; [by apply H|done].
Qed.

Lemma send_data_step_ok x y data : joint kx ky x y → multiframe (state (ls (side_link x))) = true →
  step_ok kx ky (side_step (SendData data) x y).
Proof.
  intros (gx & gy & [Hx Hs] & Hy & Ho & Hi) Hmf. cbn [side_step]. unfold run_side.
  assert (holds kx ky (side_taken x) (side_read x) gy (side_sent x) (side_link x)) as Hh
    by by exists gx.
  pose proof (send_data_ok kx ky (side_taken x) (side_read x) gy Hkx Hky _ data _ Hh Hmf) as H.
  unfold wp in H. destruct (sendmsg_send false data (side_link x)) as [[a l]|]; [|done]. cbn.
  intros _. destruct H as (g & [Hg Ho' Hi'] & Hsub). exists g, gy. by split_and!.
Qed.

Lemma read_ok x y : joint kx ky x y → step_ok kx ky (side_step ReadItem x y).
Proof.
  intros (gx & gy & [[Hs Hvr Hdel Hwi Htk Hl1 Hk Huq] Hsub] & Hy & Ho & Hi). cbn.
  destruct (sk_receive_queue (ls (side_link x))) as [|i q] eqn:Hq.
  { intros _. exists gx, gy. split_and!; try done. split; [|done].
    split; try done. by rewrite Hq. }
  unfold run_side, recv_datagram, mbind, M_bind, get. cbn. rewrite Hq. cbn.
  intros _. exists gx, gy. split_and!; try done. split; [|done]. destruct Hs. split; cbn; try done.
  by rewrite <-app_assoc.
Qed.

(** C0's step: any event of the side [x] *)
Lemma side_step_ok e x y :
  joint kx ky x y → multiframe (state (ls (side_link x))) = true →
  step_ok kx ky (side_step e x y).
Proof.
  intros Hj Hmf. destruct e.
  - by apply receive_ok.
  - cbn. destruct (next_frame y) eqn:Hf; [|by intros _]. cbn. intros _. by eapply joint_take.
  - by apply send_data_step_ok.
  - apply side_step_run_ok; [done..|]. intros gy. by apply follows_send_unit_data.
  - by apply read_ok.
  - cbn. destruct (timer_T200 _); [|by intros _]. apply side_step_run_ok; [done..|]. intros gy.
    apply follows_expire; [by apply follows_T200|]. done.
  - cbn. destruct (timer_T203 _); [|by intros _]. apply side_step_run_ok; [done..|]. intros gy.
    apply follows_expire; [by apply follows_T203|]. done.
  - apply side_step_run_ok; [done..|]. intros gy. apply follows_keeps. by apply keeps_activate.
  - apply side_step_run_ok; [done..|]. intros gy. by apply follows_release.
  - apply side_step_run_ok; [done..|]. intros gy. by apply follows_establish.
Qed.
End step.

(** ** The theorem *)

(** what the process of [y] got is the beginning of what the process of [x] sent,
    and the rest is in the write queue of [x] *)
Definition in_order (x y : lapd_side) : Prop :=
  data_received y `prefix_of` side_sent x ∧
  ∃ n, (n ≤ length (data_received y))%nat ∧
       skb_data <$> sk_write_queue (ls (side_link x)) = drop n (side_sent x).

Lemma joint_in_order kx ky x y : joint kx ky x y → in_order x y.
Proof.
  intros (gx & gy & [[Hs _ _ _ _ _ _ _] Hsx] & [[_ _ Hdel _ _ _ _ _] Hsy] & [_ Hack Hr Hd] & _).
  unfold in_order, data_received. rewrite Hdel, Hd, <-Hsx. split.
  - exists (drop (g_r gy) (g_sub gx)). by rewrite take_drop.
  - exists (g_a gx). destruct Hs as [_ _ Hord Hdata _ _ _ _]. split; [|done].
    rewrite length_take. apply ack_ok_bound in Hack. lia.
Qed.

Lemma system_step_ok kx ky e w :
  (1 ≤ kx ≤ 127)%nat → (1 ≤ ky ≤ 127)%nat →
  joint kx ky w.1 w.2 → both_multiframe w = true →
  match system_step e w with
  | Fault _ => False
  | Done w' => both_multiframe w' = true → joint kx ky w'.1 w'.2
  end.
Proof.
  intros Hkx Hky Hj [Hm1 Hm2]%andb_true_iff. destruct w as [x y], e as [[] e]; cbn in *.
  - pose proof (side_step_ok kx ky Hkx Hky e x y Hj Hm1) as H.
    by destruct (side_step e x y) as [[x' y']|].
  - apply joint_sym in Hj. pose proof (side_step_ok ky kx Hky Hkx e y x Hj Hm2) as H.
    destruct (side_step e y x) as [[y' x']|]; [|done]. cbn in *.
    intros Hb. apply joint_sym, H. revert Hb. unfold both_multiframe. cbn.
    by rewrite !andb_true_iff; intros [? ?].
Qed.

(** C18. Two data link entities whose link has just been established exchange data
    over a channel that may lose any frame, with windows of at most 127 frames:
    whatever happens, as long as both are in states 7 and 8 no operation of either
    meets a fault, each process gets what the other one sent, in order, without
    gaps and without duplicates, and whatever was not delivered is still in the write
    queue of the sender. *)
Theorem data_delivered_in_order kx ky x y es :
  (1 ≤ kx ≤ 127)%nat → (1 ≤ ky ≤ 127)%nat → established kx x → established ky y →
  ∃ r, run_multiframe es (x, y) = Done r ∧
    ∀ w, r = Some w → in_order w.1 w.2 ∧ in_order w.2 w.1.
Proof.
  intros Hkx Hky Hx Hy.
  assert (∀ es w, joint kx ky w.1 w.2 → both_multiframe w = true →
    ∃ r, run_multiframe es w = Done r ∧ ∀ w', r = Some w' → joint kx ky w'.1 w'.2) as Hrun.
  { clear es. induction es as [|e es IH]; intros w Hj Hm; cbn [run_multiframe].
    - exists (Some w). split; [done|]. by intros w' [= <-].
    - pose proof (system_step_ok kx ky e w Hkx Hky Hj Hm) as H.
      destruct (system_step e w) as [w'|]; [|done]. cbn.
      destruct (both_multiframe w') eqn:Hm'; [by apply IH; [apply H|]|].
      by exists None. }
  destruct (Hrun es (x, y)) as (r & Hr & Hj).
  - by apply joint_start.
  - unfold both_multiframe. cbn. by rewrite (es_state _ _ Hx), (es_state _ _ Hy).
  - exists r. split; [done|]. intros w Hw. specialize (Hj w Hw).
    split; [by eapply joint_in_order|]. by eapply joint_in_order, joint_sym.
Qed.

(** ** A run: a link is established, a frame is lost and retransmitted *)

Definition sample_device (r : lapd_intf_role) : lapd_device :=
  {| role := r; mode := LAPD_INTF_MODE_MULTIPOINT; l1_state := LAPD_L1_STATE_AVAILABLE;
     out_queue := []; q931 := default_sap; x25 := default_sap; net_tme := None; mtu := 300;
     xmit := []; entropy := [] |}.

Definition sample_side (r : lapd_intf_role) : lapd_side :=
  {| side_link := {| ls := lapd_new_sock (lapd_create LAPD_SAPI_Q931 10000) 64 LAPD_SAPI_Q931;
                     dev := sample_device r; truesize := λ n, n + 100 |};
     side_taken := 0; side_read := []; side_sent := [] |}.

Fixpoint run_system (es : list (who * side_event)) (w : system) : outcome system :=
  match es with
  | [] => Done w
  | e :: es => w' ← system_step e w; run_system es w'
  end.

(** SABME and UA *)
Definition link_connected : outcome system :=
  run_system [(SideA, EstablishRequest); (SideB, Receive); (SideA, Receive)]
    (sample_side LAPD_INTF_ROLE_TE, sample_side LAPD_INTF_ROLE_NT).

Definition sample_events : list (who * side_event) :=
  [(SideA, SendData [1; 2]); (SideA, SendData [3]); (SideB, Lose); (SideB, Receive);
   (SideA, Receive); (SideB, Receive); (SideB, Receive); (SideA, Receive); (SideB, ReadItem)].

Lemma data_delivered_in_order_witness :
  ∃ w r, link_connected = Done w ∧ run_multiframe sample_events w = Done (Some r) ∧
    data_received r.2 = [[1; 2]; [3]] ∧ in_order r.1 r.2.
Proof.
  eexists (_, _), _. split; [vm_compute; reflexivity|].
  match goal with |- run_multiframe _ (?x, ?y) = _ ∧ _ =>
    destruct (data_delivered_in_order 7 7 x y sample_events) as (r & Hr & Ho);
      [lia|lia|split; vm_compute; done|split; vm_compute; done|] end.
  vm_compute in Hr. injection Hr as <-.
  split; [vm_compute; reflexivity|]. split; [vm_compute; reflexivity|].
  apply (Ho _ eq_refl).
Defined.
