(* ===== verification/LapdMachine.v ===== *)
(** * The state machine of a data link

    The table of the states a link may be in after an event ([link_next]), event by
    event as in the state diagrams of the protocol, and the theorem that every handler
    of [LapdDatalink] follows it. *)

From stdpp Require Import base list.
From Stdlib Require Import ZArith Lia.
From S2P Require Import Prelude.
From S2P Require Import Bits.
From S2P Require Import LapdProto.
From S2P Require Import LapdSock.
From S2P Require Import LapdOutput.
From S2P Require Import LapdTei.
From S2P Require Import LapdDatalink.
From S2P Require Import LapdInput.
From S2P Require Import LapdUser.
From S2P Require Import LapdPeer.
From S2P Require Import LapdDelivery.
Local Open Scope Z_scope.

(** ** The specification *)

Inductive link_stimulus : Set :=
| OnIframe
| OnSframe
| OnUframe (f : lapd_uframe_function) (p_f : bool)
| OnBadFrame                       (** a frame of a wrong length or an unknown function *)
| OnT200 | OnT203
| OnEstablishRequest | OnReleaseRequest | OnDataRequest | OnUnitDataRequest
| OnMdl (t : lapd_mdl_primitive_type).

Notation S1 := LAPD_DLS_1_TEI_UNASSIGNED.
Notation S2 := LAPD_DLS_2_AWAITING_TEI.
Notation S3 := LAPD_DLS_3_ESTABLISH_AWAITING_TEI.
Notation S4 := LAPD_DLS_4_TEI_ASSIGNED.
Notation S5 := LAPD_DLS_5_AWAITING_ESTABLISH.
Notation S6 := LAPD_DLS_6_AWAITING_RELEASE.
Notation S7 := LAPD_DLS_7_LINK_CONNECTION_ESTABLISHED.
Notation S8 := LAPD_DLS_8_TIMER_RECOVERY.

(** the state after the TEI was taken away *)
Definition removed (s : lapd_datalink_state) : lapd_datalink_state :=
  match s with S4 | S5 | S6 | S7 | S8 => S1 | s => s end.

(** the states after the event, the one before included when nothing need happen *)
Definition link_next (s : lapd_datalink_state) (x : link_stimulus) : list lapd_datalink_state :=
  match x with
  | OnIframe => match s with S7 => [S7; S5] | S8 => [S8; S5] | s => [s] end
  | OnSframe => match s with S7 => [S7; S5] | S8 => [S8; S7; S5] | s => [s] end
  | OnBadFrame => match s with S7 | S8 => [S5] | s => [s] end
  | OnUframe LAPD_UFRAME_FUNC_SABME _ => match s with S4 => [S4; S7] | s => [s] end
  | OnUframe LAPD_UFRAME_FUNC_DISC _ => match s with S7 | S8 => [S4] | s => [s] end
  | OnUframe LAPD_UFRAME_FUNC_UA f =>
      match s with
      | S5 => if f then [S7] else [S5; S1]
      | S6 => if f then [S4] else [S6; S1]
      | S4 | S7 | S8 => [s; S1]
      | s => [s]
      end
  | OnUframe LAPD_UFRAME_FUNC_DM f =>
      match s with
      | S4 => if f then [S4] else [S4; S5]
      | S5 | S6 => if f then [S4] else [s]
      | S7 | S8 => if f then [s] else [S5]
      | s => [s]
      end
  | OnUframe LAPD_UFRAME_FUNC_FRMR _ => [S5]
  | OnUframe LAPD_UFRAME_FUNC_UI _ | OnUframe LAPD_UFRAME_FUNC_XID _ => [s]
  | OnUframe LAPD_UFRAME_FUNC_INVALID _ => match s with S7 | S8 => [S5] | s => [s] end
  | OnT200 =>
      match s with
      | S5 => [S5; S4; S1]
      | S6 => [S6; S4; S1]
      | S7 => [S7; S8]
      | S8 => [S8; S5]
      | s => [s]
      end
  | OnT203 => match s with S7 => [S7; S8] | s => [s] end
  | OnEstablishRequest =>
      match s with S1 | S2 | S3 => [S3] | S4 | S5 | S7 | S8 => [S5] | s => [s] end
  | OnReleaseRequest => match s with S7 | S8 => [S6] | s => [s] end
  | OnDataRequest => [s]
  | OnUnitDataRequest => match s with S1 => [S2] | s => [s] end
  | OnMdl LAPD_MDL_ASSIGN_REQUEST =>
      match s with S1 | S2 => [S4] | S3 => [S5] | s => [s] end
  | OnMdl LAPD_MDL_REMOVE_REQUEST => [removed s]
  | OnMdl LAPD_MDL_ERROR_RESPONSE => match s with S2 | S3 => [S1] | s => [s] end
  | OnMdl LAPD_MDL_ERROR_INDICATION => [s; removed s]
  | OnMdl LAPD_MDL_PERSISTENT_DEACTIVATION =>
      match s with S2 | S3 => [S1] | S5 | S6 | S7 | S8 => [S4] | s => [s] end
  end.

(** ** The events of a link *)

Inductive link_event : Type :=
| EvFrame (skb : list Z)
| EvT200 | EvT203
| EvEstablish | EvRelease | EvData (skb : lapd_iskb) | EvUnitData (skb : list Z)
| EvMdl (t : lapd_mdl_primitive_type) (param : Z).

Definition run_event (e : link_event) : L unit :=
  match e with
  | EvFrame skb => _ ← dlc_recv_frame skb; mret tt
  | EvT200 => lapd_timer_T200
  | EvT203 => lapd_timer_T203
  | EvEstablish => _ ← lapd_dl_establish_request; mret tt
  | EvRelease => _ ← lapd_dl_release_request; mret tt
  | EvData skb => lapd_dl_data_request skb
  | EvUnitData skb => lapd_dl_unit_data_request skb
  | EvMdl t param => mdl_recv (mdl_primitive_depth 1) t param
  end.

(** what a frame is, from its octets; the lengths count the CRC *)
Definition frame_stimulus (skb : list Z) : link_stimulus :=
  match data_hdr_e skb with
  | Fault _ => OnBadFrame
  | Done h =>
      match lapd_frame_type (h_control h) with
      | LAPD_FRAME_TYPE_IFRAME => OnIframe
      | LAPD_FRAME_TYPE_SFRAME => if Z.of_nat (length skb) =? 6 then OnSframe else OnBadFrame
      | LAPD_FRAME_TYPE_UFRAME =>
          let f := lapd_uframe_function_of (h_control h) in
          if bool_decide (f = LAPD_UFRAME_FUNC_UI) || (Z.of_nat (length skb) =? 5)
          then OnUframe f (u_p_f h) else OnBadFrame
      end
  end.

Definition stimulus_of (e : link_event) : link_stimulus :=
  match e with
  | EvFrame skb => frame_stimulus skb
  | EvT200 => OnT200
  | EvT203 => OnT203
  | EvEstablish => OnEstablishRequest
  | EvRelease => OnReleaseRequest
  | EvData _ => OnDataRequest
  | EvUnitData _ => OnUnitDataRequest
  | EvMdl t _ => OnMdl t
  end.

(** ** Following the state through the code *)

Definition still {A} (m : L A) : Prop := ∀ l, wlp m (λ _ l', state (ls l') = state (ls l)) l.

Section still.
Lemma still_bind {A B} (m : L A) (f : A → L B) : still m → (∀ a, still (f a)) → still (m ≫= f).
Proof.
  intros Hm Hf l. apply wlp_bind. eapply wlp_mono; [apply Hm|]. cbn. intros a l' Hl'.
  eapply wlp_mono; [apply Hf|]. cbn. intros b l2 ->. done.
Qed.
Lemma still_ret {A} (a : A) : still (mret a : L A).
Proof. by intros l. Qed.
Lemma still_fail {A} f : still (fail f : L A).
Proof. by intros l. Qed.
Lemma still_get {B} (m : lapd_link → L B) : (∀ l, still (m l)) → still (get ≫= m).
Proof. intros Hm l. apply (Hm l l). Qed.
Lemma still_sk {A} (f : lapd_sock → A) : still (sk f).
Proof. by intros l. Qed.
Lemma still_lift {A} (o : outcome A) : still (lift o : L A).
Proof. intros l. by destruct o. Qed.
Lemma still_deref {A} (o : option A) : still (deref o : L A).
Proof. intros l. by destruct o. Qed.
Lemma still_upd f : (∀ s, state (f s) = state s) → still (upd f).
Proof. intros Hf l. apply Hf. Qed.
Lemma still_on_dev {A} (m : D A) : still (on_dev m).
Proof. intros l. unfold wlp, on_dev. by destruct (m (dev l)) as [[a d]|]. Qed.
Lemma still_when b (m : L unit) : still m → still (when b m).
Proof. intros Hm. destruct b; [done|apply still_ret]. Qed.
Lemma still_forM {A} (q : list A) (f : A → L unit) : (∀ a, still (f a)) → still (forM q f).
Proof.
  intros Hf. induction q as [|a q IH]; cbn [forM]; [apply still_ret|]. by apply still_bind.
Qed.
End still.

Create HintDb still.
#[export] Hint Resolve still_ret still_fail still_sk still_lift still_deref still_on_dev : still.
#[export] Hint Extern 2 (still (upd _)) => by apply still_upd : still.

Ltac still_step :=
  match goal with
  | |- still (get ≫= _) => apply still_get; intros ?
  | |- still (_ ≫= _) => apply still_bind; [|intros ?]
  | |- still (when _ _) => apply still_when
  | |- still (forM _ _) => apply still_forM; intros ?
  | |- still (if ?b then _ else _) => destruct b
  | |- still (match ?x with _ => _ end) => destruct x
  | |- still (let '_ := ?x in _) => destruct x
  | |- still _ => solve [auto with still]
  end.
Ltac solve_still := repeat still_step.

Lemma still_the_sap : still the_sap.
Proof. unfold the_sap. solve_still. Qed.
#[export] Hint Resolve still_the_sap : still.
Lemma still_start_T200 : still lapd_start_timer_T200.
Proof. unfold lapd_start_timer_T200. solve_still. Qed.
Lemma still_start_T203 : still lapd_start_timer_T203.
Proof. unfold lapd_start_timer_T203. solve_still. Qed.
Lemma still_send_uframe f p : still (lapd_send_uframe f p).
Proof. unfold lapd_send_uframe, lapd_prepare_uframe. solve_still. Qed.
Lemma still_send_sframe c f p : still (lapd_send_sframe c f p).
Proof. unfold lapd_send_sframe, lapd_prepare_sframe. solve_still. Qed.
#[export] Hint Resolve still_start_T200 still_start_T203 still_send_uframe still_send_sframe : still.
#[export] Hint Extern 2 (still lapd_stop_timer_T200) => by apply still_upd : still.
#[export] Hint Extern 2 (still lapd_stop_timer_T203) => by apply still_upd : still.
#[export] Hint Extern 2 (still lapd_discard_ui_queue) => by apply still_upd : still.
#[export] Hint Extern 2 (still lapd_discard_i_queue) => by apply still_upd : still.
#[export] Hint Extern 2 (still (lapd_sock_queue_uframe _)) => by apply still_upd : still.
#[export] Hint Extern 2 (still lapd_unexpected) => by apply still_ret : still.

Lemma still_establish : still lapd_establish_datalink_procedure.
Proof.
  unfold lapd_establish_datalink_procedure, lapd_clear_exception_conditions_procedure. solve_still.
Qed.
Lemma still_receive_queue_tail len x : still (receive_queue_tail len x).
Proof. unfold receive_queue_tail. solve_still. Qed.
#[export] Hint Resolve still_establish still_receive_queue_tail : still.
Lemma still_dl_primitive t : still (lapd_dl_primitive t).
Proof. unfold lapd_dl_primitive. solve_still. Qed.
Lemma still_enquiry : still lapd_transmit_enquiry_procedure.
Proof. unfold lapd_transmit_enquiry_procedure. solve_still. Qed.
Lemma still_enquiry_response : still lapd_enquiry_response_procedure.
Proof. unfold lapd_enquiry_response_procedure. solve_still. Qed.
Lemma still_run_ui_queue : still lapd_run_ui_queue.
Proof. unfold lapd_run_ui_queue. solve_still. Qed.
Lemma still_window_closed : still window_closed.
Proof. unfold window_closed. solve_still. Qed.
#[export] Hint Resolve still_dl_primitive still_enquiry still_enquiry_response still_run_ui_queue
  still_window_closed : still.
Lemma still_run_i_queue_loop q : still (run_i_queue_loop q).
Proof.
  induction q as [|b q IH]; cbn [run_i_queue_loop]; [apply still_ret|].
  unfold transmit_iframe. solve_still.
Qed.
#[export] Hint Resolve still_run_i_queue_loop : still.
Lemma still_run_i_queue : still lapd_run_i_queue.
Proof. unfold lapd_run_i_queue. solve_still. Qed.
#[export] Hint Resolve still_run_i_queue : still.
Lemma still_invoke_retransmission : still lapd_invoke_retransmission_procedure.
Proof. unfold lapd_invoke_retransmission_procedure. solve_still. Qed.
Lemma still_ack n : still (ack n).
Proof. unfold ack, lapd_ack_frames. solve_still. Qed.
Lemma still_queue_iframe b : still (lapd_sock_queue_iframe b).
Proof. unfold lapd_sock_queue_iframe. solve_still. Qed.
Lemma still_utme : still the_utme.
Proof. unfold the_utme. solve_still. Qed.
#[export] Hint Resolve still_invoke_retransmission still_ack still_queue_iframe still_utme : still.
Lemma still_upd_utme f : still (upd_utme f).
Proof. unfold upd_utme. solve_still. Qed.
#[export] Hint Resolve still_upd_utme : still.
Lemma still_mdl_assign_indication : still lapd_utme_mdl_assign_indication.
Proof.
  unfold lapd_utme_mdl_assign_indication, lapd_utme_reset_timer, lapd_utme_get,
    lapd_utme_change_state, lapd_utme_send_tei_request. solve_still.
Qed.
#[export] Hint Resolve still_mdl_assign_indication : still.
Lemma still_socket m : still m → still (for_the_socket m).
Proof. intros Hm. unfold for_the_socket. solve_still. Qed.
Lemma still_data_indication skb : still (lapd_dl_data_indication skb).
Proof. apply still_receive_queue_tail. Qed.
Lemma still_unit_data_indication skb : still (lapd_dl_unit_data_indication skb).
Proof. unfold lapd_dl_unit_data_indication. solve_still. Qed.
Lemma still_clear_own_busy : still lapd_clear_own_receiver_busy.
Proof. unfold lapd_clear_own_receiver_busy. solve_still. Qed.
Lemma still_set_own_busy : still lapd_set_own_receiver_busy.
Proof. unfold lapd_set_own_receiver_busy. solve_still. Qed.
#[export] Hint Resolve still_data_indication still_unit_data_indication still_clear_own_busy
  still_set_own_busy : still.
Lemma still_clear_exceptions : still lapd_clear_exception_conditions_procedure.
Proof. unfold lapd_clear_exception_conditions_procedure. solve_still. Qed.
Lemma still_reset_variables : still reset_variables.
Proof. unfold reset_variables. solve_still. Qed.
Lemma still_discard_if_outstanding : still discard_if_outstanding.
Proof. unfold discard_if_outstanding. solve_still. Qed.
Lemma still_ack_7 n : still (ack_7 n).
Proof. unfold ack_7. solve_still. Qed.
Lemma still_iframe_receive h skb c : still (iframe_receive h skb c).
Proof. unfold iframe_receive. solve_still. Qed.
#[export] Hint Resolve still_clear_exceptions still_reset_variables still_discard_if_outstanding
  still_ack_7 still_iframe_receive : still.

(** ** From one state into a set of states *)

(** run in state [s], [m] ends in one of [T] *)
Definition goes {A} (s : lapd_datalink_state) (T : list lapd_datalink_state) (m : L A) : Prop :=
  ∀ l, state (ls l) = s → wlp m (λ _ l', state (ls l') ∈ T) l.

Section goes.
Implicit Types (s : lapd_datalink_state) (R T : list lapd_datalink_state).

Lemma goes_still s T {A} (m : L A) : s ∈ T → still m → goes s T m.
Proof. intros Hs Hm l Hl. eapply wlp_mono; [apply Hm|]. cbn. by intros _ l' ->; rewrite Hl. Qed.
Lemma goes_bind s T R {A B} (m : L A) (f : A → L B) :
  goes s R m → (∀ a s', s' ∈ R → goes s' T (f a)) → goes s T (m ≫= f).
Proof.
  intros Hm Hf l Hl. apply wlp_bind. eapply wlp_mono; [by apply Hm|].
  intros a l' H. by apply (Hf a (state (ls l'))).
Qed.
Lemma goes_after s T {A B} (m : L A) (f : A → L B) :
  still m → (∀ a, goes s T (f a)) → goes s T (m ≫= f).
Proof.
  intros Hm Hf. apply (goes_bind s T [s]); [apply goes_still; [by left|done]|].
  by intros a s' ->%list_elem_of_singleton.
Qed.
Lemma goes_assoc s T {A B C} (m : L A) (f : A → L B) (g : B → L C) :
  goes s T (m ≫= λ a, f a ≫= g) → goes s T ((m ≫= f) ≫= g).
Proof.
  intros H l Hl. specialize (H l Hl). revert H. unfold wlp, mbind, M_bind.
  by destruct (m l) as [[a l']|].
Qed.
Lemma goes_change s T {A} s' (m : unit → L A) :
  goes s' T (m tt) → goes s T (lapd_change_state s' ≫= m).
Proof. intros H l Hl. unfold lapd_change_state. apply wlp_bind. by apply H. Qed.
Lemma goes_change_last s T s' : s' ∈ T → goes s T (lapd_change_state s').
Proof. by intros H l Hl. Qed.
Lemma goes_state s T {A} (f : lapd_datalink_state → L A) : goes s T (f s) → goes s T (sk state ≫= f).
Proof. intros H l <-. by apply H. Qed.
Lemma goes_sock s T {A} (f : lapd_sock → L A) :
  (∀ x, state x = s → goes s T (f x)) → goes s T (sk (λ x, x) ≫= f).
Proof. intros H l Hl. by apply (H (ls l)). Qed.
Lemma goes_get s T {A} (f : lapd_link → L A) : (∀ l, goes s T (f l)) → goes s T (get ≫= f).
Proof. intros H l Hl. by apply (H l). Qed.
Lemma goes_when s T b (m : L unit) : s ∈ T → goes s T m → goes s T (when b m).
Proof. intros Hs Hm. destruct b; [done|]. by apply goes_still, still_ret. Qed.
End goes.

Ltac in_list := first [by left | apply list_elem_of_further; in_list].

Ltac goes_step :=
  match goal with
  | |- goes _ _ (sk state ≫= _) => apply goes_state; cbn match
  | |- goes _ _ (sk (λ x, x) ≫= _) =>
      let x := fresh "x" in let Hx := fresh "Hx" in apply goes_sock; intros x Hx; rewrite ?Hx
  | |- goes _ _ (get ≫= _) => apply goes_get; intros ?
  | |- goes _ _ ((_ ≫= _) ≫= _) => apply goes_assoc
  | |- goes _ _ (lapd_change_state _ ≫= _) => apply goes_change
  | |- goes _ _ (lapd_change_state _) => apply goes_change_last; in_list
  | |- goes _ _ (_ ≫= _) => apply goes_after; [solve [solve_still]|intros ?]
  | |- goes _ _ (when _ _) => apply goes_when; [in_list|]
  | |- goes _ _ (if ?b then _ else _) => destruct b
  | |- goes _ _ (match ?b with _ => _ end) => destruct b
  | |- goes _ _ ((if ?b then _ else _) ≫= _) => destruct b
  | |- goes _ _ (when ?b _ ≫= _) => destruct b; cbn [when]
  | |- goes _ _ ((match ?b with _ => _ end) ≫= _) => destruct b
  | |- goes _ _ _ => apply goes_still; [in_list|solve [solve_still]]
  end.
Ltac solve_goes := repeat goes_step.

(** ** The primitives of layer management *)

Section primitives.
Context (s : lapd_datalink_state).

Lemma goes_remove_request : goes s [removed s] lapd_mdl_remove_request.
Proof. unfold lapd_mdl_remove_request. destruct s; solve_goes. Qed.
Lemma goes_assign_request n :
  goes s (link_next s (OnMdl LAPD_MDL_ASSIGN_REQUEST)) (lapd_mdl_assign_request n).
Proof. unfold lapd_mdl_assign_request. destruct s; solve_goes. Qed.
Lemma goes_error_response :
  goes s (link_next s (OnMdl LAPD_MDL_ERROR_RESPONSE)) lapd_mdl_error_response.
Proof. unfold lapd_mdl_error_response. destruct s; solve_goes. Qed.
Lemma goes_persistent_deactivation :
  goes s (link_next s (OnMdl LAPD_MDL_PERSISTENT_DEACTIVATION)) lapd_persistent_deactivation.
Proof. unfold lapd_persistent_deactivation. destruct s; solve_goes. Qed.
End primitives.

Section error_indication.
Context (s : lapd_datalink_state) (prim : lapd_mdl_primitive_type → Z → L unit).

Lemma goes_tei_remove :
  goes s [s; removed s] (prim LAPD_MDL_REMOVE_REQUEST 0) →
  goes s [s; removed s] (lapd_utme_tei_remove prim).
Proof.
  intros H. unfold lapd_utme_tei_remove, lapd_utme_change_state, for_the_socket.
  do 4 (apply goes_after; [solve_still|intros ?]). apply goes_when; [in_list|done].
Qed.

Lemma goes_error_indication i :
  goes s [s; removed s] (prim LAPD_MDL_REMOVE_REQUEST 0) →
  goes s [s; removed s] (lapd_mdl_error_indication prim i).
Proof.
  intros H. unfold lapd_mdl_error_indication. apply goes_when; [in_list|].
  apply goes_get. intros l. destruct (decide _); apply goes_when; try in_list.
  - apply goes_still; [in_list|solve_still].
  - by apply goes_tei_remove.
Qed.
End error_indication.

Lemma goes_primitive_owned s T A (m1 m2 : L A) :
  goes s T m1 → goes s T m2 →
  goes s T (sk sk_owned ≫= λ o : bool, if o then m1 else m2).
Proof. intros H1 H2. apply goes_after; [solve_still|]. by intros []. Qed.

(** a primitive sent to the socket: at most the TEI is lost twice *)
Lemma goes_depth_remove n s : goes s [s; removed s] (mdl_primitive_depth n LAPD_MDL_REMOVE_REQUEST 0).
Proof.
  destruct n as [|n]; [by apply goes_still, still_fail; in_list|]. cbn [mdl_primitive_depth].
  apply goes_primitive_owned; [apply goes_still; [in_list|solve_still]|].
  intros l Hl. eapply wlp_mono; [by apply goes_remove_request|]. intros ???. by right.
Qed.

Lemma goes_mdl_recv n s t i :
  goes s (link_next s (OnMdl t)) (mdl_recv (mdl_primitive_depth n) t i).
Proof.
  destruct t; cbn [mdl_recv].
  - apply goes_assign_request.
  - apply goes_remove_request.
  - apply goes_error_response.
  - apply goes_error_indication, goes_depth_remove.
  - apply goes_persistent_deactivation.
Qed.

Lemma goes_mdl_error s i : goes s [s; removed s] (mdl_error i).
Proof.
  apply goes_primitive_owned; [apply goes_still; [in_list|solve_still]|].
  apply (goes_mdl_recv 1 s LAPD_MDL_ERROR_INDICATION).
Qed.

(** an indication that does not put the TEI in doubt is only a line in the log *)
Lemma still_mdl_error i : tei_in_doubt i = false → still (mdl_error i).
Proof.
  intros H. unfold mdl_error, lapd_mdl_primitive, lapd_mdl_error_indication.
  cbn [mdl_primitive_depth mdl_recv]. unfold lapd_mdl_error_indication. rewrite H. cbn [when]. solve_still.
Qed.
#[export] Hint Extern 1 (still (mdl_error _)) => by apply still_mdl_error : still.

Lemma still_nr_error_recovery : still lapd_nr_error_recovery_procedure.
Proof. unfold lapd_nr_error_recovery_procedure. solve_still. Qed.
#[export] Hint Resolve still_nr_error_recovery : still.

(** ** The handlers *)

Lemma goes_error_then s T {A} i (m : unit → L A) :
  goes s T (m tt) → goes (removed s) T (m tt) → goes s T (mdl_error i ≫= m).
Proof.
  intros H1 H2. eapply goes_bind; [apply goes_mdl_error|].
  intros [] s' [->| ->%list_elem_of_singleton]%elem_of_cons; done.
Qed.
Lemma goes_error_last s T i : s ∈ T → removed s ∈ T → goes s T (mdl_error i).
Proof.
  intros H1 H2 l Hl. eapply wlp_mono; [by apply goes_mdl_error|].
  by intros _ l' [->| ->%list_elem_of_singleton]%elem_of_cons.
Qed.

(** a test of the state known at this point *)
Ltac known_test :=
  match goal with
  | |- context [when (bool_decide ?P || bool_decide ?Q) _] =>
      let b := constr:(bool_decide P || bool_decide Q) in
      let v := eval vm_compute in b in
      match v with
      | true => change b with true
      | false => change b with false
      end; cbn [when]
  end.

Ltac goes_error_step :=
  first [ known_test | goes_step
        | apply goes_error_then; cbn [removed]
        | apply goes_error_last; cbn [removed]; in_list ].
Ltac solve_goes ::= repeat goes_error_step.

Section handlers.
Context (s : lapd_datalink_state).

Lemma goes_frame_reject e : goes s (link_next s OnBadFrame) (lapd_frame_reject e).
Proof. unfold lapd_frame_reject. destruct s; solve_goes. Qed.

Lemma goes_iframe skb : goes s (link_next s OnIframe) (lapd_socket_handle_iframe skb).
Proof.
  unfold lapd_socket_handle_iframe, iframe_7, iframe_8, recover_7, lapd_frame_reject.
  destruct s; solve_goes.
Qed.

Lemma goes_rr h : goes s (link_next s OnSframe) (lapd_socket_handle_sframe_rr h).
Proof.
  unfold lapd_socket_handle_sframe_rr, sframe_8, ack_8, recover_7, recover_8, sframe_poll_7.
  destruct s; solve_goes.
Qed.
Lemma goes_rnr h : goes s (link_next s OnSframe) (lapd_socket_handle_sframe_rnr h).
Proof.
  unfold lapd_socket_handle_sframe_rnr, sframe_8, ack_8, recover_7, recover_8, sframe_poll_7.
  destruct s; solve_goes.
Qed.
Lemma goes_rej h : goes s (link_next s OnSframe) (lapd_socket_handle_sframe_rej h).
Proof.
  unfold lapd_socket_handle_sframe_rej, sframe_8, ack_8, recover_7, recover_8, sframe_poll_7.
  destruct s; solve_goes.
Qed.

Lemma goes_ua h :
  goes s (link_next s (OnUframe LAPD_UFRAME_FUNC_UA (u_p_f h))) (lapd_socket_handle_uframe_ua h).
Proof.
  unfold lapd_socket_handle_uframe_ua. cbn [link_next].
  destruct s, (u_p_f h); cbn [negb]; solve_goes.
Qed.
Lemma goes_dm h :
  goes s (link_next s (OnUframe LAPD_UFRAME_FUNC_DM (u_p_f h))) (lapd_socket_handle_uframe_dm h).
Proof.
  unfold lapd_socket_handle_uframe_dm. cbn [link_next].
  destruct s, (u_p_f h); cbn [negb andb when]; solve_goes.
Qed.
Lemma goes_disc h p :
  goes s (link_next s (OnUframe LAPD_UFRAME_FUNC_DISC p)) (lapd_socket_handle_uframe_disc h).
Proof. unfold lapd_socket_handle_uframe_disc. destruct s; solve_goes. Qed.
Lemma goes_sabme h p :
  goes s (link_next s (OnUframe LAPD_UFRAME_FUNC_SABME p)) (lapd_socket_handle_uframe_sabme h).
Proof. unfold lapd_socket_handle_uframe_sabme. destruct s; solve_goes. Qed.
Lemma goes_frmr p :
  goes s (link_next s (OnUframe LAPD_UFRAME_FUNC_FRMR p)) lapd_socket_handle_uframe_frmr.
Proof. unfold lapd_socket_handle_uframe_frmr. destruct s; solve_goes. Qed.

Lemma goes_T200 : goes s (link_next s OnT200) lapd_timer_T200.
Proof. unfold lapd_timer_T200. destruct s; solve_goes. Qed.
Lemma goes_T203 : goes s (link_next s OnT203) lapd_timer_T203.
Proof. unfold lapd_timer_T203. destruct s; solve_goes. Qed.
Lemma goes_establish : goes s (link_next s OnEstablishRequest) lapd_dl_establish_request.
Proof. unfold lapd_dl_establish_request. destruct s; solve_goes. Qed.
Lemma goes_release : goes s (link_next s OnReleaseRequest) lapd_dl_release_request.
Proof. unfold lapd_dl_release_request. destruct s; solve_goes. Qed.
Lemma goes_data b : goes s (link_next s OnDataRequest) (lapd_dl_data_request b).
Proof. unfold lapd_dl_data_request. destruct s; solve_goes. Qed.
Lemma goes_unit_data skb : goes s (link_next s OnUnitDataRequest) (lapd_dl_unit_data_request skb).
Proof. unfold lapd_dl_unit_data_request. destruct s; solve_goes. Qed.
End handlers.

(** ** Every event *)

Lemma goes_lift {A B} s T (o : outcome A) (f : A → L B) :
  (∀ a, o = Done a → goes s T (f a)) → goes s T (lift o ≫= f).
Proof. intros Hf l Hl. destruct o as [a|]; [by apply (Hf a)|done]. Qed.
Lemma goes_drop {A} s T (m : L A) : goes s T m → goes s T (_ ← m; mret tt).
Proof.
  intros Hm l Hl. apply wlp_bind. eapply wlp_mono; [by apply Hm|]. done.
Qed.
Lemma goes_uframe s skb h :
  data_hdr_e skb = Done h → lapd_frame_type (h_control h) = LAPD_FRAME_TYPE_UFRAME →
  goes s (link_next s (frame_stimulus skb)) (lapd_socket_handle_uframe skb).
Proof.
  intros Hh Ht. unfold frame_stimulus, lapd_socket_handle_uframe. rewrite Hh, Ht.
  apply goes_lift. intros ? [= <-].
  set (f := lapd_uframe_function_of (h_control h)).
  destruct (bool_decide (f = LAPD_UFRAME_FUNC_UI) || (Z.of_nat (length skb) =? 5)) eqn:Hl;
    rewrite <-negb_orb, Hl; cbn [negb].
  - destruct f eqn:Hf; subst f.
    + apply (goes_bind s _ (link_next s OnBadFrame)); [apply goes_frame_reject|].
      intros _ s' Hs'. by apply goes_still, still_ret.
    + apply goes_sabme.
    + apply goes_dm.
    + apply goes_still; [by left|apply still_unit_data_indication].
    + apply goes_disc.
    + apply goes_ua.
    + apply goes_frmr.
    + apply goes_still; [by left|apply still_ret].
  - apply (goes_bind s _ (link_next s OnBadFrame)); [apply goes_frame_reject|].
    intros _ s' Hs'. by apply goes_still, still_ret.
Qed.

Lemma goes_sframe s skb h :
  data_hdr_e skb = Done h → lapd_frame_type (h_control h) = LAPD_FRAME_TYPE_SFRAME →
  goes s (link_next s (frame_stimulus skb)) (lapd_socket_handle_sframe skb).
Proof.
  intros Hh Ht. unfold frame_stimulus, lapd_socket_handle_sframe. rewrite Hh, Ht.
  apply goes_lift. intros ? [= <-]. destruct (Z.of_nat (length skb) =? 6); cbn [negb].
  - destruct (lapd_sframe_function_of (h_control h)).
    + apply goes_still; [destruct s; in_list|apply still_ret].
    + apply goes_rr.
    + apply goes_rnr.
    + apply goes_rej.
  - apply (goes_bind s _ (link_next s OnBadFrame)); [apply goes_frame_reject|].
    intros _ s' Hs'. by apply goes_still, still_ret.
Qed.

Lemma goes_frame s skb : goes s (link_next s (frame_stimulus skb)) (dlc_recv_frame skb).
Proof.
  unfold dlc_recv_frame. apply goes_lift. intros h Hh.
  destruct (lapd_frame_type (h_control h)) eqn:Ht.
  - unfold frame_stimulus. rewrite Hh, Ht. apply goes_iframe.
  - by eapply goes_sframe.
  - by eapply goes_uframe.
Qed.

Lemma goes_event s e : goes s (link_next s (stimulus_of e)) (run_event e).
Proof.
  destruct e; cbn [run_event stimulus_of].
  - apply goes_drop, goes_frame.
  - apply goes_T200.
  - apply goes_T203.
  - apply goes_drop, goes_establish.
  - apply goes_drop, goes_release.
  - apply goes_data.
  - apply goes_unit_data.
  - apply goes_mdl_recv.
Qed.

(** ** The state table of a data link is exact

    [link_step]: what the code can do to the state of a link in an event.  The table
    [link_next] allows no less, by [LapdMachine], and no more: each entry is reached by
    a link and an event of [sample_links] and [sample_events_of], found by evaluation. *)

(** an event with this stimulus takes some link from [s] to [s'] *)
Definition link_step (s : lapd_datalink_state) (x : link_stimulus) (s' : lapd_datalink_state) :
    Prop :=
  ∃ e l l', stimulus_of e = x ∧ state (ls l) = s ∧ run_event e l = Done (tt, l') ∧
    state (ls l') = s'.

(** ** Samples *)

Definition sample_link (s : lapd_datalink_state) (owned hashed : bool) (sk : lapd_sk_state)
    (n : Z) : lapd_link :=
  {| ls := set_usr_tme (Some lapd_utme_alloc) (set_sk_hashed hashed (set_sk_owned owned
             (set_sk_state sk (set_retrans_cnt n (set_state s
               (lapd_new_sock (lapd_create LAPD_SAPI_Q931 10000) 64 LAPD_SAPI_Q931))))));
     dev := set_entropy (repeat 1 20) (sample_device LAPD_INTF_ROLE_TE);
     truesize := λ n, n + 100 |}.

Definition sample_links (s : lapd_datalink_state) : list lapd_link :=
  o ← [false; true]; h ← [true; false];
  sk ← [LAPD_SK_STATE_NORMAL_DLC; LAPD_SK_STATE_BROADCAST_DLC];
  n ← [0; N200 default_sap];
  [sample_link s o h sk n].

(** the control octet of an unnumbered frame *)
Definition uframe_octet (f : lapd_uframe_function) : Z :=
  match f with
  | LAPD_UFRAME_FUNC_SABME => 111
  | LAPD_UFRAME_FUNC_DM => 15
  | LAPD_UFRAME_FUNC_UI => 3
  | LAPD_UFRAME_FUNC_DISC => 67
  | LAPD_UFRAME_FUNC_UA => 99
  | LAPD_UFRAME_FUNC_FRMR => 135
  | LAPD_UFRAME_FUNC_XID => 175
  | LAPD_UFRAME_FUNC_INVALID => 239
  end.

Definition sample_events_of (x : link_stimulus) : list link_event :=
  match x with
  | OnIframe => n_r ← [0; 5]; [EvFrame [0; 129; 0; Z.shiftl n_r 1; 7; 0; 0]]
  | OnSframe =>
      c_r ← [0; 1]; n_r ← [0; 5]; f ← [0; 1];
      [EvFrame [Z.shiftl c_r 1; 129; 1; Z.shiftl n_r 1 + f; 0; 0]]
  | OnUframe f p => [EvFrame [0; 129; uframe_octet f + (if p then 16 else 0); 0; 0]]
  | OnBadFrame => [EvFrame [0; 129; 1; 0; 0; 0; 0]]
  | OnT200 => [EvT200]
  | OnT203 => [EvT203]
  | OnEstablishRequest => [EvEstablish]
  | OnReleaseRequest => [EvRelease]
  | OnDataRequest =>
      [EvData {| skb_id := 0; skb_sapi := 0; skb_c_r := 0; skb_tei := 64; skb_n_s := None;
                 skb_n_r := None; skb_data := [] |}]
  | OnUnitDataRequest => [EvUnitData []]
  | OnMdl t => i ← [LAPD_MDL_ERROR_INDICATION_A; LAPD_MDL_ERROR_INDICATION_C]; [EvMdl t i]
  end.

Definition all_states : list lapd_datalink_state :=
  [LAPD_DLS_NULL; S1; S2; S3; S4; S5; S6; S7; S8; LAPD_DLS_LISTENING].

Definition all_uframes : list lapd_uframe_function :=
  [LAPD_UFRAME_FUNC_INVALID; LAPD_UFRAME_FUNC_SABME; LAPD_UFRAME_FUNC_DM; LAPD_UFRAME_FUNC_UI;
   LAPD_UFRAME_FUNC_DISC; LAPD_UFRAME_FUNC_UA; LAPD_UFRAME_FUNC_FRMR; LAPD_UFRAME_FUNC_XID].

Definition all_stimuli : list link_stimulus :=
  [OnIframe; OnSframe; OnBadFrame; OnT200; OnT203; OnEstablishRequest; OnReleaseRequest;
   OnDataRequest; OnUnitDataRequest] ++
  (f ← all_uframes; p ← [true; false]; [OnUframe f p]) ++
  (OnMdl <$> [LAPD_MDL_ASSIGN_REQUEST; LAPD_MDL_REMOVE_REQUEST; LAPD_MDL_ERROR_RESPONSE;
              LAPD_MDL_ERROR_INDICATION; LAPD_MDL_PERSISTENT_DEACTIVATION]).

#[export] Instance lapd_mdl_primitive_type_eq_dec : EqDecision lapd_mdl_primitive_type.
Proof. solve_decision. Defined.
#[export] Instance link_stimulus_eq_dec : EqDecision link_stimulus.
Proof. solve_decision. Defined.

Definition ends_in (e : link_event) (l : lapd_link) (s' : lapd_datalink_state) : bool :=
  match run_event e l with
  | Done (_, l') => bool_decide (state (ls l') = s')
  | Fault _ => false
  end.

(** an event of the sample with this stimulus takes a sample link to [s'] *)
Definition reached (s : lapd_datalink_state) (x : link_stimulus) (s' : lapd_datalink_state) :
    bool :=
  existsb (λ e, bool_decide (stimulus_of e = x) && existsb (λ l, ends_in e l s') (sample_links s))
    (sample_events_of x).

Definition table_reached : bool :=
  forallb (λ s, forallb (λ x, forallb (reached s x) (link_next s x)) all_stimuli) all_states.

Lemma table_is_reached : table_reached = true.
Proof. vm_compute. reflexivity. Qed.

Lemma all_states_complete s : In s all_states.
Proof. destruct s; cbn; tauto. Qed.
Lemma all_stimuli_complete x : In x all_stimuli.
Proof. destruct x as [| |[] []| | | | | | | |[]]; cbn; tauto. Qed.

Lemma sample_links_state s l : In l (sample_links s) → state (ls l) = s.
Proof. cbn. intros H. repeat (destruct H as [<-|H]; [done|]). done. Qed.

Lemma ends_in_run e l s' :
  ends_in e l s' = true → ∃ l', run_event e l = Done (tt, l') ∧ state (ls l') = s'.
Proof.
  unfold ends_in. destruct (run_event e l) as [[[] l']|]; [|done].
  intros H%bool_decide_eq_true. by exists l'.
Qed.

Lemma reached_step s x s' : reached s x s' = true → link_step s x s'.
Proof.
  unfold reached. rewrite existsb_exists. intros (e & _ & [Hx He]%andb_true_iff).
  apply bool_decide_eq_true in Hx. apply existsb_exists in He as (l & Hl & He).
  apply ends_in_run in He as (l' & Hr & Hs'). exists e, l, l'.
  split; [done|]. by rewrite (sample_links_state s l Hl).
Qed.

(** C19. The state table of the LAPD data link, state by state and event by event, says
    exactly what the code can do: the state after any event is one the table lists for
    the state before, and every entry of the table is taken by some link. *)
Theorem link_table_exact s x s' : s' ∈ link_next s x ↔ link_step s x s'.
Proof.
  split.
  - intros H. apply reached_step. pose proof table_is_reached as Ht. unfold table_reached in Ht.
    rewrite forallb_forall in Ht. specialize (Ht s (all_states_complete s)).
    rewrite forallb_forall in Ht. specialize (Ht x (all_stimuli_complete x)).
    rewrite forallb_forall in Ht. apply Ht. by apply list_elem_of_In.
  - intros (e & l & l' & <- & Hs & Hr & <-). pose proof (goes_event s e l Hs) as H.
    unfold wlp in H. by rewrite Hr in H.
Qed.
