(* ===== verification/LapdSafe.v ===== *)
(** * The operations of a link meet no fault

    [safe Q m]: on a link that is well formed ([base]) and whose I queue satisfies [Q],
    [m] meets no fault and leaves such a link.  An operation that does not look at the
    I queue is safe for every [Q]; the others are for [queue_ok], which says that
    [sk_send_head] points into the queue and what is before it has been numbered. *)

From stdpp Require Import base list.
From Stdlib Require Import ZArith Lia.
From S2P Require Import Prelude.
From S2P Require Import Bits.
From S2P Require Import LapdProto.
From S2P Require Import LapdSock.
From S2P Require Import LapdOutput.
From S2P Require Import LapdTei.
From S2P Require Import LapdDatalink.
From S2P Require Import LapdInput.
From S2P Require Import LapdUser.
From S2P Require Import LapdPeer.
From S2P Require Import LapdSide.
Local Open Scope Z_scope.

(** ** The I queue *)

Definition queue_pred : Type := list lapd_iskb → option nat → nat → Prop.

Definition queue_ok : queue_pred := λ q h n,
  NoDup (skb_id <$> q) ∧ Forall (λ b, (skb_id b < n)%nat) q ∧
  ∃ sent rest, q = sent ++ rest ∧ Forall (λ b, is_Some (skb_n_s b)) sent ∧
    h = skb_id <$> head rest.

(** [sk_send_head] points to a buffer that was freed *)
Definition dangles : queue_pred := λ q h n, ∃ id, h = Some id ∧ id ∉ skb_id <$> q.

Definition queue_any : queue_pred := λ q h n, queue_ok q h n ∨ dangles q h n.

Definition sock_queue (Q : queue_pred) (s : lapd_sock) : Prop :=
  Q (sk_write_queue s) (sk_send_head s) (skb_next s).

(** ** Well-formed links *)

(** the entity of a user side socket: the socket and the hash refer to it, and so
    does its timer while it is pending *)
Definition tme_ok (s : lapd_sock) : Prop :=
  ∀ u, usr_tme s = Some u → 1 + Z.b2z (u_T202_timer u) ≤ u_refcnt u.

(** the states without a TEI are those of the user side *)
Definition needs_tme (s : lapd_sock) : bool :=
  match state s with
  | LAPD_DLS_1_TEI_UNASSIGNED | LAPD_DLS_2_AWAITING_TEI
  | LAPD_DLS_3_ESTABLISH_AWAITING_TEI => true
  | _ => false
  end.

Record base (user : bool) (s : lapd_sock) : Prop := {
  b_sap : is_Some (sap s);
  b_tme : tme_ok s;
  b_user : user = true → is_Some (usr_tme s);
  b_state : needs_tme s = true → is_Some (usr_tme s);
}.

Definition well_formed (user : bool) (Q : queue_pred) (l : lapd_link) : Prop :=
  base user (ls l) ∧ sock_queue Q (ls l).

Section safe.
Context (user : bool).
Implicit Types (Q : queue_pred) (l : lapd_link).

Definition safe {A} Q (m : L A) : Prop := ∀ l,
  well_formed user Q l → wp m (λ _, well_formed user Q) l.

Lemma safe_bind {A B} Q (m : L A) (f : A → L B) :
  safe Q m → (∀ a, safe Q (f a)) → safe Q (m ≫= f).
Proof.
  intros Hm Hf l Hl. apply wp_bind. eapply wp_mono; [by apply Hm|]. intros a l' Hl'. by apply Hf.
Qed.
Lemma safe_ret {A} Q (a : A) : safe Q (mret a : L A).
Proof. by intros l Hl. Qed.
Lemma safe_sk {A B} Q (f : lapd_sock → A) (m : A → L B) :
  (∀ s, base user s → sock_queue Q s → safe Q (m (f s))) → safe Q (sk f ≫= m).
Proof. intros Hm l Hl. by apply wp_sk, Hm; [apply Hl..|]. Qed.
Lemma safe_get {B} Q (m : lapd_link → L B) :
  (∀ l, well_formed user Q l → safe Q (m l)) → safe Q (get ≫= m).
Proof. intros Hm l Hl. by apply wp_get, Hm. Qed.
Lemma safe_when Q b (m : L unit) : safe Q m → safe Q (when b m).
Proof. intros Hm. destruct b; [done|apply safe_ret]. Qed.
Lemma safe_forM {A} Q (q : list A) (f : A → L unit) : (∀ a, safe Q (f a)) → safe Q (forM q f).
Proof.
  intros Hf. induction q as [|a q IH]; cbn [forM]; [apply safe_ret|]. by apply safe_bind.
Qed.

(** an assignment to fields the invariant does not read *)
Record same_base (s s' : lapd_sock) : Prop := {
  sb_sap : sap s' = sap s;
  sb_tme : usr_tme s' = usr_tme s;
  sb_state : state s' = state s;
  sb_queue : sk_write_queue s' = sk_write_queue s;
  sb_head : sk_send_head s' = sk_send_head s;
  sb_next : skb_next s' = skb_next s;
}.

Lemma base_same s s' :
  base user s → sap s' = sap s → usr_tme s' = usr_tme s →
  (needs_tme s' = true → is_Some (usr_tme s)) → base user s'.
Proof.
  intros [] Hsap Htme Hst. split; rewrite ?Hsap, ?Htme; try done.
  intros u Hu. rewrite Htme in Hu. by apply b_tme0.
Qed.

Lemma safe_upd Q f : (∀ s, same_base s (f s)) → safe Q (upd f).
Proof.
  intros Hf l [Hb Hq]. destruct (Hf (ls l)) as [H1 H2 H3 H4 H5 H6]. split; cbn.
  - apply (base_same (ls l)); [done..|]. unfold needs_tme. rewrite H3. apply Hb.
  - unfold sock_queue. by rewrite H4, H5, H6.
Qed.

Lemma wp_the_sap {B} (m : lapd_sap → L B) P l :
  is_Some (sap (ls l)) → (∀ p, wp (m p) P l) → wp (the_sap ≫= m) P l.
Proof.
  intros [r Hr] Hm. destruct l as [s d t].
  unfold the_sap, sk, deref, on_dev, dv, wp, mbind, M_bind, mret, M_ret, get in *. cbn in *.
  rewrite Hr. destruct r; cbn; apply Hm.
Qed.
Lemma safe_the_sap {B} Q (m : lapd_sap → L B) : (∀ p, safe Q (m p)) → safe Q (the_sap ≫= m).
Proof. intros Hm l Hl. apply wp_the_sap; [apply Hl|]. intros p. by apply Hm. Qed.

Lemma safe_on_dev {A} Q (m : D A) : (∀ d, wp m (λ _ _, True) d) → safe Q (on_dev m).
Proof. intros Hm l Hl. apply wp_on_dev_last. eapply wp_mono; [apply Hm|]. done. Qed.

Lemma safe_dv {A} Q (f : lapd_device → A) : safe Q (on_dev (dv f)).
Proof. by apply safe_on_dev. Qed.
End safe.

Create HintDb safe.
#[export] Hint Resolve safe_ret safe_dv : safe.
#[export] Hint Extern 2 (safe _ _ (upd _)) => by apply safe_upd : safe.

Ltac safe_step :=
  match goal with
  | |- safe _ _ (sk _ ≫= _) => apply safe_sk; intros ???
  | |- safe _ _ (get ≫= _) => apply safe_get; intros ??
  | |- safe _ _ (the_sap ≫= _) => apply safe_the_sap; intros ?
  | |- safe _ _ (_ ≫= _) => apply safe_bind; [|intros ?]
  | |- safe _ _ (when _ _) => apply safe_when
  | |- safe _ _ (forM _ _) => apply safe_forM; intros ?
  | |- safe _ _ (if ?b then _ else _) => destruct b eqn:?
  | |- safe _ _ (match ?x with _ => _ end) => destruct x eqn:?
  | |- safe _ _ _ => solve [auto with safe]
  end.
Ltac solve_safe := repeat safe_step.

(** ** Operations that do not look at the I queue *)

Section generic.
Context (user : bool) (Q : queue_pred).
Local Notation safe := (safe user Q).

Lemma ph_data_request_runs skb d : wp (lapd_ph_data_request skb) (λ _ _, True) d.
Proof.
  unfold lapd_ph_data_request, dv, wp, mbind, M_bind, get. cbn. by destruct (l1_state d).
Qed.
Lemma random_runs w d : wp (get_random_bytes w) (λ _ _, True) d.
Proof. unfold get_random_bytes, dv, wp, mbind, M_bind, get. cbn. by destruct (entropy d). Qed.
Lemma tm_send_runs t ri ai d : wp (lapd_tm_send t ri ai) (λ _ _, True) d.
Proof. apply wp_bind. apply ph_data_request_runs. Qed.
Lemma tei_check_runs t d : is_Some (net_tme d) → wp (lapd_ntme_start_tei_check t) (λ _ _, True) d.
Proof.
  intros [n Hn]. unfold lapd_ntme_start_tei_check, lapd_ntme_send_tei_check_request.
  apply wp_bind. unfold wp at 1, the_ntme, dv, mbind, M_bind, get, deref. cbn. rewrite Hn. cbn.
  destruct (existsb _ _); [done|]. apply wp_bind.
  unfold wp at 1, upd_ntme, the_ntme, dv, mbind, M_bind, get, deref. cbn. rewrite Hn.
  apply tm_send_runs.
Qed.

Lemma safe_ph_data_request skb : safe (on_dev (lapd_ph_data_request skb)).
Proof. apply safe_on_dev, ph_data_request_runs. Qed.
Lemma safe_send_uframe f p : f ≠ LAPD_UFRAME_FUNC_INVALID → safe (lapd_send_uframe f p).
Proof.
  intros Hf. apply safe_bind; [|intros; apply safe_ph_data_request].
  apply safe_get. intros l _. rewrite (bool_decide_eq_false_2 (f = _)) by done.
  apply safe_bind; intros; apply safe_ret.
Qed.
Lemma safe_send_sframe c f p : safe (lapd_send_sframe c f p).
Proof.
  apply safe_bind; [|intros; apply safe_ph_data_request].
  apply safe_get. intros l _. apply safe_ret.
Qed.
Lemma safe_start_T200 : safe lapd_start_timer_T200.
Proof. unfold lapd_start_timer_T200. solve_safe. Qed.
Lemma safe_start_T203 : safe lapd_start_timer_T203.
Proof. unfold lapd_start_timer_T203. solve_safe. Qed.
End generic.
#[export] Hint Resolve safe_ph_data_request safe_send_sframe safe_start_T200 safe_start_T203 : safe.
#[export] Hint Extern 2 (safe _ _ (lapd_send_uframe _ _)) => by apply safe_send_uframe : safe.
#[export] Hint Extern 2 (safe _ _ lapd_stop_timer_T200) => by apply safe_upd : safe.
#[export] Hint Extern 2 (safe _ _ lapd_stop_timer_T203) => by apply safe_upd : safe.
#[export] Hint Extern 2 (safe _ _ lapd_discard_ui_queue) => by apply safe_upd : safe.
#[export] Hint Extern 2 (safe _ _ (lapd_sock_queue_uframe _)) => by apply safe_upd : safe.
#[export] Hint Extern 2 (safe _ _ lapd_unexpected) => by apply safe_ret : safe.

Section generic.
Context (user : bool) (Q : queue_pred).
Local Notation safe := (safe user Q).

Lemma safe_clear_exceptions : safe lapd_clear_exception_conditions_procedure.
Proof. unfold lapd_clear_exception_conditions_procedure. solve_safe. Qed.
Lemma safe_receive_queue_tail n x : safe (receive_queue_tail n x).
Proof. unfold receive_queue_tail. solve_safe. Qed.
Lemma safe_reset_variables : safe reset_variables.
Proof. unfold reset_variables. solve_safe. Qed.
End generic.
#[export] Hint Resolve safe_clear_exceptions safe_receive_queue_tail safe_reset_variables : safe.

Section generic.
Context (user : bool) (Q : queue_pred).
Local Notation safe := (safe user Q).

Lemma safe_establish : safe lapd_establish_datalink_procedure.
Proof. unfold lapd_establish_datalink_procedure. solve_safe. Qed.
Lemma safe_enquiry : safe lapd_transmit_enquiry_procedure.
Proof. unfold lapd_transmit_enquiry_procedure. solve_safe. Qed.
Lemma safe_enquiry_response : safe lapd_enquiry_response_procedure.
Proof. unfold lapd_enquiry_response_procedure. solve_safe. Qed.
Lemma safe_run_ui_queue : safe lapd_run_ui_queue.
Proof. unfold lapd_run_ui_queue. solve_safe. Qed.
Lemma safe_dl_primitive t : safe (lapd_dl_primitive t).
Proof. unfold lapd_dl_primitive. solve_safe. Qed.
Lemma safe_data_indication skb : safe (lapd_dl_data_indication skb).
Proof. apply safe_receive_queue_tail. Qed.
Lemma safe_unit_data_indication skb : safe (lapd_dl_unit_data_indication skb).
Proof. unfold lapd_dl_unit_data_indication. solve_safe. Qed.
Lemma safe_window_closed : safe window_closed.
Proof. unfold window_closed. solve_safe. Qed.
Lemma safe_set_own_busy : safe lapd_set_own_receiver_busy.
Proof. unfold lapd_set_own_receiver_busy. solve_safe. Qed.
Lemma safe_clear_own_busy : safe lapd_clear_own_receiver_busy.
Proof. unfold lapd_clear_own_receiver_busy. solve_safe. Qed.

(** a state with a TEI *)
Lemma safe_change_state s :
  needs_tme (set_state s (lapd_create 0 0)) = false → safe (lapd_change_state s).
Proof.
  intros Hs l [Hb Hq]. split; [|done]. apply (base_same user (ls l)); [done..|].
  unfold needs_tme in *. cbn in *. by rewrite Hs.
Qed.
End generic.
#[export] Hint Resolve safe_establish safe_enquiry safe_enquiry_response safe_run_ui_queue
  safe_dl_primitive safe_data_indication safe_unit_data_indication safe_window_closed
  safe_set_own_busy safe_clear_own_busy : safe.
#[export] Hint Extern 2 (safe _ _ (lapd_change_state _)) => by apply safe_change_state : safe.

(** ** The user side entity *)

Section entity.
Context (user : bool) (Q : queue_pred).
Local Notation safe := (safe user Q).
Implicit Types (l : lapd_link).

(** operations for a link that has an entity, which they keep *)
Definition with_tme l : Prop := well_formed user Q l ∧ is_Some (usr_tme (ls l)).

Lemma wp_the_utme {B} (m : lapd_utme → L B) P l :
  with_tme l → (∀ u, usr_tme (ls l) = Some u → wp (m u) P l) → wp (the_utme ≫= m) P l.
Proof.
  intros [[[_ Ht _ _] _] [u Hu]] Hm. apply wp_bind.
  unfold wp at 1, the_utme, sk, mbind, M_bind, get, deref. cbn. rewrite Hu. cbn.
  specialize (Ht u Hu). rewrite (proj2 (Z.leb_gt _ _)); [by apply Hm|].
  destruct (u_T202_timer u); cbn in Ht; lia.
Qed.

(** an assignment to the entity that keeps its count in order *)
Lemma wp_upd_utme f l :
  with_tme l →
  (∀ u, 1 + Z.b2z (u_T202_timer u) ≤ u_refcnt u → 1 + Z.b2z (u_T202_timer (f u)) ≤ u_refcnt (f u)) →
  wp (upd_utme f) (λ _ l', with_tme l' ∧ state (ls l') = state (ls l)) l.
Proof.
  intros Hl Hf. unfold upd_utme. apply wp_the_utme; [done|]. intros u Hu.
  destruct Hl as [[[Hs Ht Hus Hst] Hq] Hi]. unfold upd, modify, wp. cbn.
  split; [|done]. split; [split; [split|]|]; cbn; try done.
  intros u' [= <-]. by apply Hf, Ht.
Qed.

Definition entity_safe {A} (m : L A) : Prop := ∀ l,
  with_tme l → wp m (λ _ l', with_tme l' ∧ state (ls l') = state (ls l)) l.

Lemma entity_bind {A B} (m : L A) (f : A → L B) :
  entity_safe m → (∀ a, entity_safe (f a)) → entity_safe (m ≫= f).
Proof.
  intros Hm Hf l Hl. apply wp_bind. eapply wp_mono; [by apply Hm|].
  intros a l' [Hl' Hs]. eapply wp_mono; [by apply Hf|]. cbn. intros b l2 [? ?].
  split; congruence.
Qed.
Lemma entity_upd f :
  (∀ u, 1 + Z.b2z (u_T202_timer u) ≤ u_refcnt u →
        1 + Z.b2z (u_T202_timer (f u)) ≤ u_refcnt (f u)) → entity_safe (upd_utme f).
Proof. intros Hf l Hl. by apply wp_upd_utme. Qed.
Lemma entity_on_dev {A} (m : D A) : (∀ d, wp m (λ _ _, True) d) → entity_safe (on_dev m).
Proof. intros Hm l Hl. apply wp_on_dev_last. eapply wp_mono; [apply Hm|]. done. Qed.

Lemma run_upd_utme f u l :
  usr_tme (ls l) = Some u → 0 < u_refcnt u →
  upd_utme f l = Done (tt, set_ls (set_usr_tme (Some (f u)) (ls l)) l).
Proof.
  intros Hu Hr. unfold upd_utme, the_utme, sk, mbind, M_bind, get, deref. cbn. rewrite Hu. cbn.
  by rewrite (proj2 (Z.leb_gt _ _)) by done.
Qed.

Lemma entity_reset_timer : entity_safe lapd_utme_reset_timer.
Proof.
  intros l Hl. unfold lapd_utme_reset_timer. apply wp_the_utme; [done|]. intros u Hu.
  destruct Hl as [[[Hs Ht Hus Hst] Hq] Hi]. pose proof (Ht u Hu) as Hc.
  apply wp_bind. unfold wp at 1. rewrite (run_upd_utme _ u) by (done || destruct (u_T202_timer u); cbn in Hc; lia).
  destruct (u_T202_timer u) eqn:Hp; cbn [negb when].
  - split; [|done]. split; [split; [split|]|]; cbn; try done. intros ? [= <-]. cbn in *. lia.
  - unfold wp, lapd_utme_get. erewrite run_upd_utme; [|done|cbn in *; lia].
    split; [|done]. split; [split; [split|]|]; cbn; try done. intros ? [= <-]. cbn in *. lia.
Qed.

Lemma entity_assign_indication : entity_safe lapd_utme_mdl_assign_indication.
Proof.
  unfold lapd_utme_mdl_assign_indication, lapd_utme_change_state, lapd_utme_send_tei_request.
  repeat (apply entity_bind; [first [by apply entity_upd | apply entity_reset_timer
    | apply entity_on_dev, random_runs]|intros ?]).
  apply entity_on_dev, tm_send_runs.
Qed.
End entity.
