(* ===== verification/LapdRun.v ===== *)
(** * The I queue and the primitives of layer management meet no fault

    The operations of [LapdOutput] on the I queue are safe while [sk_send_head] points
    into it; [lapd_discard_i_queue] and what uses it may leave it dangling. *)

From stdpp Require Import base list.
From Stdlib Require Import ZArith Lia.
From S2P Require Import Prelude.
From S2P Require Import Bits.
From S2P Require Import LapdProto.
From S2P Require Import LapdSock.
From S2P Require Import LapdOutput.
From S2P Require Import LapdTei.
From S2P Require Import LapdDatalink.
From S2P Require Import LapdInput.
From S2P Require Import LapdUser.
From S2P Require Import LapdPeer.
From S2P Require Import LapdSide.
From S2P Require Import LapdSafe.
Local Open Scope Z_scope.

(** ** Acknowledgements *)

Lemma ack_loop_sent n_r h sent rest :
  Forall (λ b, is_Some (skb_n_s b)) sent → h = skb_id <$> head rest →
  ∃ sent', ack_loop n_r h (sent ++ rest) = Done (sent' ++ rest) ∧ sent' `suffix_of` sent.
Proof.
  intros Hs ->. induction Hs as [|b sent [n Hn] Hs IH]; cbn [app ack_loop].
  - exists []. split; [|by apply suffix_nil]. destruct rest as [|b rest]; [done|].
    cbn. by rewrite decide_True.
  - destruct (decide _).
    { by exists (b :: sent). }
    rewrite Hn. destruct (n =? n_r); [by exists (b :: sent)|].
    destruct IH as (sent' & ? & ?). exists sent'. split; [done|]. by apply suffix_cons_r.
Qed.

Lemma queue_ok_suffix sent' sent rest h n :
  sent' `suffix_of` sent → queue_ok (sent ++ rest) h n → h = skb_id <$> head rest →
  Forall (λ b, is_Some (skb_n_s b)) sent → queue_ok (sent' ++ rest) h n.
Proof.
  intros [pre ->] (Hnd & Hlt & _) Hh Hs. rewrite <-app_assoc in *. split; [|split].
  - rewrite fmap_app in Hnd. by apply NoDup_app in Hnd as (_ & _ & ?).
  - by apply Forall_app in Hlt as [_ ?].
  - exists sent', rest. split; [done|]. by apply Forall_app in Hs as [_ ?].
Qed.

Section queue.
Context (user : bool).
Implicit Types (l : lapd_link).

Lemma well_formed_queue Q l s' :
  base user (ls l) → sap s' = sap (ls l) → usr_tme s' = usr_tme (ls l) →
  state s' = state (ls l) → sock_queue Q s' → well_formed user Q (set_ls s' l).
Proof.
  intros Hb H1 H2 H3 Hq. split; [|done]. apply (base_same user (ls l)); [done..|].
  unfold needs_tme. cbn. rewrite H3. apply Hb.
Qed.

Lemma safe_ack n : safe user queue_ok (ack n).
Proof.
  apply safe_bind; [|intros; by apply safe_upd].
  intros l [Hb Hok]. unfold lapd_ack_frames. apply wp_sk.
  destruct (n =? v_a (ls l)); [by split|].
  pose proof Hok as (Hnd & Hlt & sent & rest & Hq & Hs & Hh).
  destruct (ack_loop_sent n (sk_send_head (ls l)) sent rest Hs Hh) as (sent' & Ha & Hsuf).
  rewrite Hq, Ha. apply wp_lift. apply well_formed_queue; try done.
  unfold sock_queue in *. cbn. rewrite Hq in Hok. by apply (queue_ok_suffix sent' sent).
Qed.

(** ** Transmission *)

Lemma skb_from_app id sent rest :
  id ∉ skb_id <$> sent → skb_from id (sent ++ rest) = skb_from id rest.
Proof.
  induction sent as [|b sent IH]; cbn; [done|]. rewrite elem_of_cons. intros H.
  rewrite decide_False by naive_solver. apply IH. naive_solver.
Qed.

Lemma skb_set_nsnr_absent id n_s n_r q :
  id ∉ skb_id <$> q → skb_set_nsnr id n_s n_r q = q.
Proof.
  induction q as [|b q IH]; cbn; [done|]. rewrite elem_of_cons. intros H.
  rewrite decide_False by naive_solver. f_equal. apply IH. naive_solver.
Qed.

Lemma Forall_id_lt q q' n :
  skb_id <$> q' = skb_id <$> q → Forall (λ b, (skb_id b < n)%nat) q →
  Forall (λ b, (skb_id b < n)%nat) q'.
Proof.
  intros He H. assert (Forall (λ i, (i < n)%nat) (skb_id <$> q')) as H'.
  { rewrite He. by apply Forall_fmap. }
  by apply Forall_fmap in H'.
Qed.

(** the buffer at [sk_send_head] is numbered in place *)
Lemma skb_set_nsnr_head b n_s n_r q :
  ∃ b', skb_set_nsnr (skb_id b) n_s n_r (b :: q) = b' :: skb_set_nsnr (skb_id b) n_s n_r q ∧
        is_Some (skb_n_s b').
Proof. eexists. split; [done|]. rewrite decide_True by done. by eexists. Qed.

Lemma number_head b n_s n_r sent rest :
  NoDup (skb_id <$> sent ++ b :: rest) →
  ∃ b', skb_set_nsnr (skb_id b) n_s n_r (sent ++ b :: rest) = (sent ++ [b']) ++ rest ∧
        is_Some (skb_n_s b').
Proof.
  rewrite fmap_app. intros (_ & Hd & Hn)%NoDup_app. cbn in Hn, Hd. apply NoDup_cons in Hn as [Hn _].
  destruct (skb_set_nsnr_head b n_s n_r rest) as (b' & Hb & Hs). exists b'. split; [|done].
  transitivity (skb_set_nsnr (skb_id b) n_s n_r sent ++ skb_set_nsnr (skb_id b) n_s n_r (b :: rest));
    [apply fmap_app|].
  rewrite Hb, !skb_set_nsnr_absent, <-app_assoc; [done|done|].
  intros Hi. apply (Hd _ Hi). by left.
Qed.

(** the queue while the loop is at the first buffer of [rest] *)
Definition at_rest (rest : list lapd_iskb) l : Prop :=
  base user (ls l) ∧ NoDup (skb_id <$> sk_write_queue (ls l)) ∧
  Forall (λ b, (skb_id b < skb_next (ls l))%nat) (sk_write_queue (ls l)) ∧
  ∃ sent, sk_write_queue (ls l) = sent ++ rest ∧ Forall (λ b, is_Some (skb_n_s b)) sent ∧
    sk_send_head (ls l) = skb_id <$> head rest.

Lemma at_rest_well_formed rest l : at_rest rest l → well_formed user queue_ok l.
Proof. intros (Hb & Hn & Hf & sent & H). split; [done|]. split; [done|]. split; [done|]. by exists sent, rest. Qed.

(** after the transmission of [b] the first part of the queue is one longer *)
Lemma wp_transmit b rest l :
  at_rest (b :: rest) l →
  wp (transmit_iframe b ;; upd (set_sk_send_head (skb_id <$> head rest))) (λ _, at_rest rest) l.
Proof.
  intros (Hb & Hn & Hf & sent & Hq & Hs & Hh). apply wp_bind. unfold transmit_iframe.
  apply wp_sk, wp_upd. set (q' := skb_set_nsnr _ _ _ _).
  assert (skb_id <$> q' = skb_id <$> sk_write_queue (ls l)) as Hids by apply skb_set_nsnr_ids.
  destruct (number_head b (v_s (ls l)) (v_r (ls l)) sent rest) as (b' & Hq' & Hb').
  { by rewrite <-Hq. }
  set (Q := λ q (h : option nat) n, q = q' ∧ n = skb_next (ls l)).
  eapply wp_mono with (P := λ _, well_formed user Q).
  - assert (∀ n, safe user Q
      (when (negb (timer_T200 (ls l))) (lapd_start_timer_T200 ;; lapd_stop_timer_T203) ;;
       on_dev (lapd_ph_data_request n) ;; upd (λ s, set_v_s (Z.rem (v_s s + 1) 128) s))) as H
      by (intros; solve_safe).
    apply H. by apply well_formed_queue.
  - intros _ l' [Hb2 [Hq2 Hn2]]. split; [apply (base_same user (ls l')); [done..|apply Hb2]|].
    cbn. rewrite Hq2, Hn2, Hids. split; [done|]. split; [by eapply Forall_id_lt|].
    exists (sent ++ [b']). subst q'. rewrite Hq, Hq'. split; [done|]. split; [|done].
    apply Forall_app. split; [done|]. by constructor.
Qed.

Lemma wp_run_i_queue_loop rest l :
  at_rest rest l → wp (run_i_queue_loop rest) (λ _, well_formed user queue_ok) l.
Proof.
  revert l. induction rest as [|b rest IH]; intros l Hl; cbn [run_i_queue_loop].
  - by apply at_rest_well_formed in Hl.
  - apply wp_bind. unfold window_closed.
    eapply wp_mono with (P := λ _ l', l' = l); [by apply wp_the_sap; [apply Hl|]|].
    intros closed l' ->. destruct closed; [by apply at_rest_well_formed in Hl|].
    pose proof (wp_transmit b rest l Hl) as H.
    unfold wp, mbind, M_bind in H |- *.
    destruct (transmit_iframe b l) as [[[] l1]|]; [|done].
    destruct (upd _ l1) as [[[] l2]|]; [|done]. by apply IH.
Qed.

Lemma at_rest_start l :
  well_formed user queue_ok l → ∃ sent rest, at_rest rest l ∧
    sk_write_queue (ls l) = sent ++ rest ∧ NoDup (skb_id <$> sent ++ rest).
Proof.
  intros (Hb & Hn & Hf & sent & rest & Hq & H). exists sent, rest. rewrite <-Hq.
  split; [|done]. split; [done|]. split; [done|]. split; [done|]. by exists sent.
Qed.

Lemma safe_run_i_queue : safe user queue_ok lapd_run_i_queue.
Proof.
  intros l Hl. unfold lapd_run_i_queue. apply wp_sk.
  destruct (negb _); [done|]. destruct (peer_receiver_busy _); [done|].
  apply wp_bind. eapply wp_mono with (P := λ _, well_formed user queue_ok).
  - destruct (at_rest_start l Hl) as (sent & rest & Hr & Hq & Hn).
    pose proof Hr as (_ & _ & _ & _ & _ & _ & ->).
    destruct rest as [|b rest]; cbn; [done|].
    rewrite fmap_app in Hn. apply NoDup_app in Hn as (_ & Hd & _).
    rewrite Hq, skb_from_app by (intros Hi; apply (Hd _ Hi); by left).
    cbn. rewrite decide_True by done. by apply (wp_run_i_queue_loop (b :: rest)).
  - intros _ l' Hl'. apply safe_bind; [apply safe_window_closed|intros; apply safe_ret|done].
Qed.

Lemma safe_invoke_retransmission : safe user queue_ok lapd_invoke_retransmission_procedure.
Proof.
  intros l Hl. unfold lapd_invoke_retransmission_procedure. apply wp_sk.
  apply wp_bind. eapply wp_mono with (P := λ _, well_formed user queue_ok).
  - pose proof Hl as [Hb (Hn & Hf & _)].
    destruct (sk_write_queue (ls l)) as [|b q] eqn:Hq; [done|].
    unfold upd, modify, wp. apply well_formed_queue; try done. unfold sock_queue. cbn.
    rewrite Hq in *. split; [done|]. split; [done|]. by exists [], (b :: q).
  - intros _. apply safe_bind; [by apply safe_upd|]. intros _. apply safe_run_i_queue.
Qed.

(** a new buffer is queued *)
Lemma wp_queue_iframe b l :
  well_formed user queue_ok l → (∀ b', b' ∈ sk_write_queue (ls l) → skb_id b' ≠ skb_id b) →
  (skb_id b < skb_next (ls l))%nat →
  wp (lapd_sock_queue_iframe b) (λ _, well_formed user queue_ok) l.
Proof.
  intros [Hb (Hn & Hf & sent & rest & Hq & Hs & Hh)] Hnew Hlt. unfold lapd_sock_queue_iframe.
  apply wp_upd, wp_sk. cbn. rewrite Hh.
  assert (NoDup (skb_id <$> sk_write_queue (ls l) ++ [b])) as Hn'.
  { rewrite fmap_app. apply NoDup_app. split; [done|]. split; [|by apply NoDup_singleton].
    intros i (b' & Hi & Hb')%list_elem_of_fmap Hi'%list_elem_of_singleton.
    apply (Hnew b' Hb'). congruence. }
  assert (Forall (λ b, (skb_id b < skb_next (ls l))%nat) (sk_write_queue (ls l) ++ [b])) as Hf'.
  { apply Forall_app. split; [done|]. by constructor. }
  destruct rest as [|b0 rest]; cbn [head fmap option_fmap option_map].
  - unfold upd, modify, wp. apply well_formed_queue; try done.
    { cbn. apply (base_same user (ls l)); [done..|apply Hb]. }
    unfold sock_queue. cbn.
    split; [done|]. split; [done|]. exists (sk_write_queue (ls l)), [b].
    rewrite app_nil_r in Hq. split; [done|]. split; [by rewrite Hq|done].
  - apply well_formed_queue; try done. unfold sock_queue. cbn.
    split; [done|]. split; [done|]. exists sent, (b0 :: rest ++ [b]). rewrite Hq, <-app_assoc. done.
Qed.

(** ** Discarding the queue *)

Lemma queue_ok_any q h n : queue_ok q h n → queue_any q h n.
Proof. by left. Qed.

Lemma safe_discard : safe user queue_any lapd_discard_i_queue.
Proof.
  intros l [Hb Hq]. apply well_formed_queue; try done. unfold sock_queue in *. cbn.
  destruct (sk_send_head (ls l)) as [id|] eqn:Hh.
  - right. exists id. split; [done|]. apply not_elem_of_nil.
  - left. split; [by apply NoDup_nil|]. split; [done|]. by exists [], [].
Qed.
End queue.
#[export] Hint Resolve safe_ack safe_run_i_queue safe_invoke_retransmission safe_discard : safe.

(** ** Every fault of a link comes after its queue was discarded

    The handlers of [LapdDatalink] on a well-formed link: they meet no fault and
    leave a well-formed link or one whose [sk_send_head] dangles. *)

(** ** The primitives of layer management *)

Lemma base_true user s : base true s ↔ base user s ∧ is_Some (usr_tme s).
Proof.
  split.
  - intros []. split; [split|]; auto.
  - intros [[] ?]. split; auto.
Qed.

Lemma safe_change_state_user Q s : safe true Q (lapd_change_state s).
Proof.
  intros l [Hb Hq]. split; [|done]. apply (base_same true (ls l)); [done..|].
  intros _. by apply Hb.
Qed.
#[export] Hint Resolve safe_change_state_user : safe.
#[export] Hint Extern 2 (safe _ _ (upd (set_tei _))) => by apply safe_upd : safe.

Lemma safe_remove_request : safe true queue_any lapd_mdl_remove_request.
Proof. unfold lapd_mdl_remove_request. solve_safe. Qed.
Lemma safe_assign_request n : safe true queue_any (lapd_mdl_assign_request n).
Proof. unfold lapd_mdl_assign_request. solve_safe. Qed.
Lemma safe_error_response : safe true queue_any lapd_mdl_error_response.
Proof. unfold lapd_mdl_error_response. solve_safe. Qed.
Lemma safe_persistent_deactivation : safe true queue_any lapd_persistent_deactivation.
Proof. unfold lapd_persistent_deactivation. solve_safe. Qed.

(** [upd_utme] of a field other than the count and the timer *)
Lemma safe_upd_utme Q f :
  (∀ u, u_refcnt (f u) = u_refcnt u ∧ u_T202_timer (f u) = u_T202_timer u) →
  safe true Q (upd_utme f).
Proof.
  intros Hf l Hl. eapply wp_mono.
  - apply (wp_upd_utme true Q); [split; [done|]; by apply Hl|].
    intros u. by destruct (Hf u) as [-> ->].
  - by intros _ l' [[? _] _].
Qed.

Section entity.
Context (prim : lapd_mdl_primitive_type → Z → L unit).
Context (Hprim : safe true queue_any (prim LAPD_MDL_REMOVE_REQUEST 0)).

Lemma safe_tei_remove : safe true queue_any (lapd_utme_tei_remove prim).
Proof.
  unfold lapd_utme_tei_remove, lapd_utme_change_state, for_the_socket.
  do 2 (apply safe_bind; [by apply safe_upd_utme|intros _]). solve_safe.
Qed.

Lemma safe_error_indication user i : safe user queue_any (lapd_mdl_error_indication prim i).
Proof.
  unfold lapd_mdl_error_indication. apply safe_when. intros l Hl. apply wp_get.
  destruct (decide _).
  - destruct (bool_decide _) eqn:Hn; cbn [when]; [|done].
    apply bool_decide_eq_true in Hn. apply wp_on_dev_last.
    eapply wp_mono; [by apply tei_check_runs|]. done.
  - destruct (bool_decide _) eqn:Hn; cbn [when]; [|done].
    apply bool_decide_eq_true in Hn. destruct Hl as [Hb Hq].
    eapply wp_mono; [apply safe_tei_remove; split; [|done]; by apply (base_true user)|].
    intros _ l' [? ?]. split; [|done]. by apply base_true.
Qed.
End entity.

Lemma safe_owned {A} user Q (m1 m2 : L A) :
  safe user Q m1 → safe user Q m2 →
  safe user Q (sk sk_owned ≫= λ o : bool, if o then m1 else m2).
Proof. intros H1 H2. apply safe_sk. intros s _ _. by destruct (sk_owned s). Qed.

Lemma safe_depth_remove n :
  safe true queue_any (mdl_primitive_depth (S n) LAPD_MDL_REMOVE_REQUEST 0).
Proof. apply safe_owned; [by apply safe_upd|]. apply safe_remove_request. Qed.

Lemma safe_mdl_error user i : safe user queue_any (mdl_error i).
Proof.
  apply safe_owned; [by apply safe_upd|]. apply (safe_error_indication (mdl_primitive_depth 1)).
  apply safe_depth_remove.
Qed.
#[export] Hint Resolve safe_mdl_error : safe.

Lemma safe_mdl_error_harmless user Q i : tei_in_doubt i = false → safe user Q (mdl_error i).
Proof.
  intros H. apply safe_owned; [by apply safe_upd|].
  cbn [mdl_recv]. unfold lapd_mdl_error_indication. rewrite H. apply safe_ret.
Qed.
#[export] Hint Extern 1 (safe _ _ (mdl_error _)) => by apply safe_mdl_error_harmless : safe.

Lemma safe_mdl_recv t i : safe true queue_any (mdl_recv (mdl_primitive_depth 1) t i).
Proof.
  destruct t; cbn [mdl_recv].
  - apply safe_assign_request.
  - apply safe_remove_request.
  - apply safe_error_response.
  - apply safe_error_indication, safe_depth_remove.
  - apply safe_persistent_deactivation.
Qed.

(** ** From a good queue to any *)

Section fine.
Context (user : bool).
Implicit Types (l : lapd_link).

Definition fine {A} (m : L A) : Prop := ∀ l,
  well_formed user queue_ok l → wp m (λ _, well_formed user queue_any) l.

Lemma well_formed_any l : well_formed user queue_ok l → well_formed user queue_any l.
Proof. intros [? ?]. split; [done|by left]. Qed.

Lemma fine_any {A} (m : L A) : safe user queue_any m → fine m.
Proof. intros Hm l Hl. by apply Hm, well_formed_any. Qed.
Lemma fine_bind {A B} (m : L A) (f : A → L B) :
  safe user queue_ok m → (∀ a, fine (f a)) → fine (m ≫= f).
Proof.
  intros Hm Hf l Hl. apply wp_bind. eapply wp_mono; [by apply Hm|]. intros a l' Hl'. by apply Hf.
Qed.
Lemma fine_then {A B} (m : L A) (f : A → L B) :
  fine m → (∀ a, safe user queue_any (f a)) → fine (m ≫= f).
Proof.
  intros Hm Hf l Hl. apply wp_bind. eapply wp_mono; [by apply Hm|]. intros a l' Hl'. by apply Hf.
Qed.
Lemma fine_ok {A} (m : L A) : safe user queue_ok m → fine m.
Proof. intros Hm l Hl. eapply wp_mono; [by apply Hm|]. intros ? l'. apply well_formed_any. Qed.
Lemma fine_sk {A B} (f : lapd_sock → A) (m : A → L B) :
  (∀ s, base user s → sock_queue queue_ok s → fine (m (f s))) → fine (sk f ≫= m).
Proof. intros Hm l Hl. by apply wp_sk, Hm; [apply Hl..|]. Qed.
Lemma fine_get {B} (m : lapd_link → L B) :
  (∀ l, well_formed user queue_ok l → fine (m l)) → fine (get ≫= m).
Proof. intros Hm l Hl. by apply wp_get, Hm. Qed.
Lemma fine_the_sap {B} (m : lapd_sap → L B) : (∀ p, fine (m p)) → fine (the_sap ≫= m).
Proof. intros Hm l Hl. apply wp_the_sap; [apply Hl|]. intros p. by apply Hm. Qed.
Lemma fine_done {A B} (a : A) (f : A → L B) : fine (f a) → fine (lift (Done a) ≫= f).
Proof. done. Qed.
Lemma fine_assoc {A B C} (m : L A) (f : A → L B) (g : B → L C) :
  fine (m ≫= λ a, f a ≫= g) → fine ((m ≫= f) ≫= g).
Proof.
  intros H l Hl. specialize (H l Hl). revert H. unfold wp, mbind, M_bind.
  by destruct (m l) as [[a l']|].
Qed.
Lemma fine_when b (m : L unit) : fine m → fine (when b m).
Proof. intros Hm. destruct b; [done|]. apply fine_ok, safe_ret. Qed.
End fine.

Create HintDb fine.

Ltac fine_step :=
  match goal with
  | |- fine _ (lift (Done _) ≫= _) => apply fine_done
  | |- fine _ (sk _ ≫= _) => apply fine_sk; intros ???
  | |- fine _ (get ≫= _) => apply fine_get; intros ??
  | |- fine _ (the_sap ≫= _) => apply fine_the_sap; intros ?
  | |- fine _ _ => apply fine_any; solve [solve_safe]
  | |- fine _ ((_ ≫= _) ≫= _) => apply fine_assoc
  | |- fine _ (_ ≫= _) => apply fine_bind; [solve [solve_safe]|intros ?]
  | |- fine _ (_ ≫= _) => apply fine_then; [|intros ?; solve [solve_safe]]
  | |- fine _ (when _ _) => apply fine_when
  | |- fine _ (if ?b then _ else _) => destruct b eqn:?
  | |- fine _ (match ?x with _ => _ end) => destruct x eqn:?
  | |- fine _ ((if ?b then _ else _) ≫= _) => destruct b eqn:?
  | |- fine _ (when ?b _ ≫= _) => destruct b eqn:?; cbn [when]
  | |- fine _ ((match ?x with _ => _ end) ≫= _) => destruct x eqn:?
  | |- fine _ _ => apply fine_ok; solve [solve_safe]
  | |- fine _ _ => solve [auto with fine]
  end.
Ltac solve_fine := repeat fine_step.

(** ** The handlers *)

Section handlers.
Context (user : bool).

Lemma fine_frame_reject e : fine user (lapd_frame_reject e).
Proof. unfold lapd_frame_reject. solve_fine. Qed.
Lemma safe_nr_error_recovery Q : safe user Q lapd_nr_error_recovery_procedure.
Proof. unfold lapd_nr_error_recovery_procedure. solve_safe. Qed.
Lemma safe_iframe_receive Q h skb c : safe user Q (iframe_receive h skb c).
Proof. unfold iframe_receive. solve_safe. Qed.
Lemma safe_ack_7 n : safe user queue_ok (ack_7 n).
Proof. unfold ack_7. solve_safe. Qed.
Lemma safe_sframe_poll_7 Q h : safe user Q (sframe_poll_7 h).
Proof. unfold sframe_poll_7. solve_safe. Qed.
Lemma fine_discard_if_outstanding : fine user discard_if_outstanding.
Proof. unfold discard_if_outstanding. solve_fine. Qed.
End handlers.
#[export] Hint Resolve fine_frame_reject fine_discard_if_outstanding : fine.
#[export] Hint Resolve safe_nr_error_recovery safe_iframe_receive safe_ack_7 safe_sframe_poll_7
  : safe.
Section handlers.
Context (user : bool).

Lemma fine_iframe h skb : data_hdr_e skb = Done h → fine user (lapd_socket_handle_iframe skb).
Proof.
  intros Hh. unfold lapd_socket_handle_iframe, iframe_7, iframe_8, recover_7.
  rewrite Hh. solve_fine.
Qed.
Lemma fine_rr h : fine user (lapd_socket_handle_sframe_rr h).
Proof.
  unfold lapd_socket_handle_sframe_rr, sframe_8, ack_8, recover_7, recover_8. solve_fine.
Qed.
Lemma fine_rnr h : fine user (lapd_socket_handle_sframe_rnr h).
Proof.
  unfold lapd_socket_handle_sframe_rnr, sframe_8, ack_8, recover_7, recover_8. solve_fine.
Qed.
Lemma fine_rej h : fine user (lapd_socket_handle_sframe_rej h).
Proof.
  unfold lapd_socket_handle_sframe_rej, sframe_8, ack_8, recover_7, recover_8. solve_fine.
Qed.
Lemma fine_ua h : fine user (lapd_socket_handle_uframe_ua h).
Proof. unfold lapd_socket_handle_uframe_ua, discard_if_outstanding. solve_fine. Qed.
Lemma fine_disc h : fine user (lapd_socket_handle_uframe_disc h).
Proof. unfold lapd_socket_handle_uframe_disc. solve_fine. Qed.
Lemma fine_dm h : fine user (lapd_socket_handle_uframe_dm h).
Proof. unfold lapd_socket_handle_uframe_dm. solve_fine. Qed.
Lemma fine_sabme h : fine user (lapd_socket_handle_uframe_sabme h).
Proof. unfold lapd_socket_handle_uframe_sabme, discard_if_outstanding. solve_fine. Qed.
Lemma fine_frmr : fine user lapd_socket_handle_uframe_frmr.
Proof. unfold lapd_socket_handle_uframe_frmr. solve_fine. Qed.
End handlers.
#[export] Hint Resolve fine_rr fine_rnr fine_rej fine_ua fine_disc fine_dm fine_sabme fine_frmr
  : fine.

Section handlers.
Context (user : bool).

Lemma fine_frame skb : (4 ≤ length skb)%nat → fine user (dlc_recv_frame skb).
Proof.
  intros Hlen. assert (∃ h, data_hdr_e skb = Done h) as [h Hh].
  { destruct skb as [|? [|? [|? [|? skb]]]]; cbn in Hlen; try lia. by eexists. }
  unfold dlc_recv_frame. rewrite Hh. apply fine_done. destruct (lapd_frame_type _).
  - by eapply fine_iframe.
  - unfold lapd_socket_handle_sframe. rewrite Hh. solve_fine.
  - unfold lapd_socket_handle_uframe, lapd_socket_handle_uframe_ui,
      lapd_socket_handle_uframe_xid. rewrite Hh. solve_fine.
Qed.

Lemma fine_T200 : fine user lapd_timer_T200.
Proof. unfold lapd_timer_T200. solve_fine. Qed.
Lemma fine_T203 : fine user lapd_timer_T203.
Proof. unfold lapd_timer_T203. solve_fine. Qed.
Lemma fine_release : fine user lapd_dl_release_request.
Proof. unfold lapd_dl_release_request. solve_fine. Qed.

Lemma fine_refl {A} (m : L A) : fine user m → ∀ l,
  well_formed user queue_ok l → wp m (λ _, well_formed user queue_any) l.
Proof. done. Qed.

(** a link without a TEI is one of the user side *)
Lemma fine_by_state {A} (m : L A) :
  fine true m →
  (∀ l, well_formed user queue_ok l → needs_tme (ls l) = false →
        wp m (λ _, well_formed user queue_any) l) →
  fine user m.
Proof.
  intros H1 H2 l [Hb Hq]. destruct (needs_tme (ls l)) eqn:Hn; [|by apply H2].
  eapply wp_mono; [apply H1; split; [|done]; apply (base_true user); split; [done|by apply (b_state _ _ Hb)]|].
  intros a l' [? ?]. split; [|done]. by apply base_true.
Qed.

Lemma safe_assign_indication Q : safe true Q lapd_utme_mdl_assign_indication.
Proof.
  intros l Hl. eapply wp_mono; [apply (entity_assign_indication true Q)|].
  { split; [done|]. by apply (b_user _ _ (proj1 Hl)). }
  by intros _ l' [[? _] _].
Qed.
End handlers.
#[export] Hint Resolve safe_assign_indication fine_T200 fine_T203 fine_release : safe fine.

Section requests.
Context (user : bool).

Lemma fine_establish_request : fine user lapd_dl_establish_request.
Proof.
  apply fine_by_state; unfold lapd_dl_establish_request; [solve_fine|].
  intros l Hl Hn. apply wp_sk. unfold needs_tme in Hn. destruct (state (ls l)); try done;
    clear Hn; revert l Hl; apply fine_refl; solve_fine.
Qed.
Lemma fine_unit_data_request skb : fine user (lapd_dl_unit_data_request skb).
Proof.
  apply fine_by_state; unfold lapd_dl_unit_data_request; [solve_fine|].
  intros l Hl Hn. apply wp_sk. unfold needs_tme in Hn. destruct (state (ls l)); try done;
    clear Hn; revert l Hl; apply fine_refl; solve_fine.
Qed.
End requests.

(** ** Running the operations of a link

    What the operations of [LapdOutput] give on a link, as equations. *)

(** [lapd_sock->sap] *)
Definition own_sap (l : lapd_link) : option lapd_sap :=
  match sap (ls l) with
  | None => None
  | Some SapQ931 => Some (q931 (dev l))
  | Some SapX25 => Some (x25 (dev l))
  end.

Lemma run_the_sap l p : own_sap l = Some p → the_sap l = Done (p, l).
Proof.
  destruct l as [s d t]. unfold own_sap, the_sap, sk, deref, on_dev, dv, mbind, M_bind, get. cbn.
  by destruct (sap s) as [[]|]; cbn; intros [= ->].
Qed.

Lemma run_bind {A B} (m : L A) (f : A → L B) l a l' :
  m l = Done (a, l') → (m ≫= f) l = f a l'.
Proof. unfold mbind, M_bind. by intros ->. Qed.

Lemma fault_first {A B} (m : L A) (f : A → L B) l e :
  m l = Fault e → (m ≫= f) l = Fault e.
Proof. unfold mbind, M_bind. by intros ->. Qed.

(** a primitive to layer 3 changes only what the process reads and its timer *)
Lemma run_dl_primitive t l :
  ∃ l', lapd_dl_primitive t l = Done (tt, l') ∧ dev l' = dev l ∧
    ∀ A (f : lapd_sock → A), (∀ s a b c, f (set_sk_timer a (set_sk_rmem_alloc b
      (set_sk_receive_queue c s))) = f s) → f (ls l') = f (ls l).
Proof.
  unfold lapd_dl_primitive, receive_queue_tail, sk, mbind, M_bind, get. cbn.
  destruct (_ && _); eexists; (split; [done|split; [done|]]); intros A f Hf; cbn.
  - rewrite <-(Hf (ls l) true (sk_rmem_alloc (ls l)) (sk_receive_queue (ls l))). by destruct (ls l).
  - match goal with |- _ (set_sk_receive_queue ?c (set_sk_rmem_alloc ?b _)) = _ =>
      rewrite <-(Hf (ls l) (sk_timer (ls l)) b c) end. by destruct (ls l).
Qed.

Lemma run_start_T203 l p :
  own_sap l = Some p →
  lapd_start_timer_T203 l = Done (tt, set_ls (set_timer_T203 true (ls l)) l).
Proof. intros Hp. unfold lapd_start_timer_T203. by rewrite (run_bind _ _ _ _ _ (run_the_sap _ _ Hp)). Qed.

Lemma run_window_closed l p :
  own_sap l = Some p →
  window_closed l = Done (v_s (ls l) =? Z.rem (v_a (ls l) + k p) 128, l).
Proof. intros Hp. unfold window_closed. by rewrite (run_bind _ _ _ _ _ (run_the_sap _ _ Hp)). Qed.

(** ** Frames *)

(** what a transmission leaves of a device *)
Record dev_same (d d' : lapd_device) : Prop := {
  ds_role : role d' = role d;
  ds_q931 : q931 d' = q931 d;
  ds_x25 : x25 d' = x25 d;
  ds_tme : net_tme d' = net_tme d;
}.

Lemma run_ph_data_request skb d :
  ∃ d', lapd_ph_data_request skb d = Done (tt, d') ∧ dev_same d d'.
Proof.
  unfold lapd_ph_data_request, dv, mbind, M_bind, get. cbn.
  destruct (l1_state d); by eexists.
Qed.

Lemma run_send_uframe f p l :
  f ≠ LAPD_UFRAME_FUNC_INVALID →
  ∃ d', lapd_send_uframe f p l = Done (tt, set_dev d' l) ∧ dev_same (dev l) d'.
Proof.
  intros Hf. unfold lapd_send_uframe, lapd_prepare_uframe, on_dev, mbind, M_bind, get.
  rewrite bool_decide_eq_false_2 by done. cbn [when mret M_ret].
  match goal with |- context [lapd_ph_data_request ?skb (dev l)] =>
    destruct (run_ph_data_request skb (dev l)) as (d' & Hd & Hs) end.
  exists d'. by rewrite Hd.
Qed.

Lemma run_send_sframe c f p l :
  ∃ d', lapd_send_sframe c f p l = Done (tt, set_dev d' l) ∧ dev_same (dev l) d'.
Proof.
  unfold lapd_send_sframe, lapd_prepare_sframe, on_dev, mbind, M_bind, get. cbn [mret M_ret].
  match goal with |- context [lapd_ph_data_request ?skb (dev l)] =>
    destruct (run_ph_data_request skb (dev l)) as (d' & Hd & Hs) end.
  exists d'. by rewrite Hd.
Qed.

Lemma own_sap_same l s' d' p :
  own_sap l = Some p → sap s' = sap (ls l) → dev_same (dev l) d' →
  own_sap (set_dev d' (set_ls s' l)) = Some p.
Proof. intros Hp Hs [_ Hq Hx _]. unfold own_sap in *. cbn. by rewrite Hs, Hq, Hx. Qed.

Lemma run_start_T200 l p :
  own_sap l = Some p →
  lapd_start_timer_T200 l = Done (tt, set_ls (set_timer_T200 true (ls l)) l).
Proof. intros Hp. unfold lapd_start_timer_T200. by rewrite (run_bind _ _ _ _ _ (run_the_sap _ _ Hp)). Qed.

(** the socket after [lapd_establish_datalink_procedure] *)
Definition establishing (s : lapd_sock) : lapd_sock :=
  set_timer_T200 true (set_timer_T203 false (set_retrans_cnt 0
    (set_acknowledge_pending false (set_reject_exception false
      (set_peer_receiver_busy false (set_own_receiver_busy false s)))))).

Lemma run_establish l p :
  own_sap l = Some p →
  ∃ d', lapd_establish_datalink_procedure l = Done (tt, set_dev d' (set_ls (establishing (ls l)) l))
    ∧ dev_same (dev l) d'.
Proof.
  intros Hp. unfold lapd_establish_datalink_procedure, lapd_clear_exception_conditions_procedure.
  set (l1 := set_ls (set_retrans_cnt 0
    (set_acknowledge_pending false (set_reject_exception false
      (set_peer_receiver_busy false (set_own_receiver_busy false (ls l)))))) l).
  destruct (run_send_uframe LAPD_UFRAME_FUNC_SABME true l1) as (d' & Hd & Hs); [done|].
  exists d'. split; [|done].
  erewrite (run_bind _ _ l) by done. erewrite run_bind by done. erewrite run_bind by exact Hd.
  erewrite run_bind by done. by erewrite (run_start_T200 _ p) by by apply (own_sap_same l).
Qed.

Lemma run_enquiry l p :
  own_sap l = Some p →
  ∃ d', lapd_transmit_enquiry_procedure l =
    Done (tt, set_dev d' (set_ls (set_timer_T200 true (set_acknowledge_pending false (ls l))) l))
    ∧ dev_same (dev l) d'.
Proof.
  intros Hp. unfold lapd_transmit_enquiry_procedure.
  set (f := if own_receiver_busy (ls l) then LAPD_SFRAME_FUNC_RNR else LAPD_SFRAME_FUNC_RR).
  destruct (run_send_sframe LAPD_COMMAND f true l) as (d' & Hd & Hs).
  exists d'. split; [|done]. erewrite (run_bind _ _ l) by done.
  erewrite run_bind by (subst f; destruct (own_receiver_busy (ls l)); exact Hd).
  erewrite run_bind by done.
  by erewrite (run_start_T200 _ p) by by apply (own_sap_same l (set_acknowledge_pending false (ls l))).
Qed.
