(* ===== verification/LapdFaults.v ===== *)
(** * What a link can fault on

    [run_inputs] runs a link through frames, timers and requests.  The only fault is a
    use of the freed buffer [sk_send_head] points to after [lapd_discard_i_queue]:
    every fault is preceded by such a discard, and a link that is established again
    after it faults. *)

From stdpp Require Import base list.
From Stdlib Require Import ZArith Lia.
From S2P Require Import Prelude.
From S2P Require Import Bits.
From S2P Require Import LapdProto.
From S2P Require Import LapdSock.
From S2P Require Import LapdOutput.
From S2P Require Import LapdTei.
From S2P Require Import LapdDatalink.
From S2P Require Import LapdInput.
From S2P Require Import LapdUser.
From S2P Require Import LapdPeer.
From S2P Require Import LapdSide.
From S2P Require Import LapdDelivery.
From S2P Require Import LapdSafe.
From S2P Require Import LapdRun.
Local Open Scope Z_scope.

(** ** The inputs of a link *)

Inductive link_input : Type :=
| InFrame (skb : list Z)
| InT200 | InT203                            (** a pending timer expires *)
| InEstablish | InRelease
| InSend (data : list Z) | InSendOob (data : list Z)
| InRead
| InMdl (t : lapd_mdl_primitive_type) (param : Z).

Definition run_input (e : link_input) : L unit :=
  match e with
  | InFrame skb => _ ← dlc_recv_frame skb; mret tt
  | InT200 =>
      t ← sk timer_T200;
      when t (upd (set_timer_T200 false) ;; lapd_timer_T200)
  | InT203 =>
      t ← sk timer_T203;
      when t (upd (set_timer_T203 false) ;; lapd_timer_T203)
  | InEstablish => _ ← lapd_dl_establish_request; mret tt
  | InRelease => _ ← lapd_dl_release_request; mret tt
  | InSend data => sendmsg_send false data
  | InSendOob data => sendmsg_send true data
  | InRead => _ ← recv_datagram; mret tt
  | InMdl t param => mdl_recv (mdl_primitive_depth 1) t param
  end.

(** a frame has a header; only a socket with a TEI entity gets TEI primitives *)
Definition input_ok (user : bool) (e : link_input) : Prop :=
  match e with
  | InFrame skb => (4 ≤ length skb)%nat
  | InMdl _ _ => user = true
  | _ => True
  end.

Fixpoint run_inputs (es : list link_input) (l : lapd_link) : outcome lapd_link :=
  match es with
  | [] => Done l
  | e :: es =>
      match run_input e l with
      | Done (_, l') => run_inputs es l'
      | Fault f => Fault f
      end
  end.

Lemma run_inputs_app es1 es2 l l1 :
  run_inputs es1 l = Done l1 → run_inputs (es1 ++ es2) l = run_inputs es2 l1.
Proof.
  revert l. induction es1 as [|e es1 IH]; intros l; cbn; [by intros [= <-]|].
  destruct (run_input e l) as [[? l']|]; [|done]. apply IH.
Qed.

(** ** No fault from a good queue *)

Section inputs.
Context (user : bool).

(** the buffer of a message has a name of its own *)
Lemma wp_prepare_iframe data l :
  well_formed user queue_ok l →
  wp (lapd_prepare_iframe data) (λ b l', well_formed user queue_ok l' ∧
    (skb_id b < skb_next (ls l'))%nat ∧
    ∀ b', b' ∈ sk_write_queue (ls l') → skb_id b' ≠ skb_id b) l.
Proof.
  intros [Hb (Hn & Hf & sent & rest & H)]. unfold lapd_prepare_iframe. apply wp_get, wp_upd.
  unfold wp. cbn. split; [|split; [lia|]].
  - split; [by apply (base_same user (ls l)); [..|apply Hb]|]. split; [done|].
    split; [|by exists sent, rest]. cbn. eapply Forall_impl; [exact Hf|]. cbn. lia.
  - intros b' Hb'. rewrite Forall_forall in Hf. specialize (Hf b' Hb'). lia.
Qed.

Lemma fine_send data : fine user (sendmsg_send false data).
Proof.
  intros l Hl. unfold sendmsg_send. apply wp_bind.
  eapply wp_mono; [by apply wp_prepare_iframe|]. intros b l1 (Hl1 & Hlt & Hnew).
  assert (∀ f : unit → L unit, (∀ a, fine user (f a)) →
    wp (lapd_sock_queue_iframe b ≫= f) (λ _, well_formed user queue_any) l1) as Hq.
  { intros f Hf. apply wp_bind. eapply wp_mono; [by apply (wp_queue_iframe user)|].
    intros a l' Hl'. by apply Hf. }
  assert (wp (lapd_sock_queue_iframe b) (λ _, well_formed user queue_any) l1) as Hq'.
  { eapply wp_mono; [by apply (wp_queue_iframe user)|]. intros ? l' H. by apply well_formed_any. }
  apply well_formed_any in Hl1. unfold lapd_dl_data_request. apply wp_sk.
  destruct (state (ls l1)); try done.
  - destruct (layer_3_initiated _); done.
  - apply Hq. intros _. solve_fine.
Qed.

Lemma fine_send_oob data : fine user (sendmsg_send true data).
Proof.
  apply fine_bind; [|intros hdr; apply fine_unit_data_request].
  apply safe_get. intros l _. apply safe_bind; intros; apply safe_ret.
Qed.

Lemma fine_read : fine user (_ ← recv_datagram; mret tt).
Proof. unfold recv_datagram. solve_fine. Qed.

Lemma fine_input e : input_ok user e → fine user (run_input e).
Proof.
  destruct e as [skb| | | | |data|data| |t i]; intros He; cbn [run_input].
  - apply fine_then; [by apply fine_frame|]. intros _. apply safe_ret.
  - solve_fine.
  - solve_fine.
  - apply fine_then; [apply fine_establish_request|]. intros _. apply safe_ret.
  - apply fine_then; [apply fine_release|]. intros _. apply safe_ret.
  - apply fine_send.
  - apply fine_send_oob.
  - apply fine_read.
  - cbn in He. subst user. apply fine_any, safe_mdl_recv.
Qed.
End inputs.

(** C20. From a well-formed link whose I queue is in order, every fault comes after
    [sk_send_head] was left pointing to a freed buffer: whatever frames of at least four
    octets arrive, timers expire and requests are made, the run up to some point meets
    no fault and leads to a link in that condition. *)
Theorem link_faults_only_dangling user es l f :
  well_formed user queue_ok l → Forall (input_ok user) es → run_inputs es l = Fault f →
  ∃ es1 es2 l1, es = es1 ++ es2 ∧ run_inputs es1 l = Done l1 ∧ sock_queue dangles (ls l1).
Proof.
  intros Hl Hes. revert l Hl. induction Hes as [|e es He Hes IH]; intros l Hl Hf; [done|].
  cbn in Hf. pose proof (fine_input user e He l Hl) as Hw. unfold wp in Hw.
  destruct (run_input e l) as [[[] l']|] eqn:Hr; [|done]. destruct Hw as [Hb [Hq|Hq]].
  - destruct (IH l' (conj Hb Hq) Hf) as (es1 & es2 & l1 & -> & Hr1 & Hd).
    exists (e :: es1), es2, l1. split; [done|]. cbn. by rewrite Hr.
  - exists [e], es, l'. split; [done|]. cbn. by rewrite Hr.
Qed.

(** ** The fault *)

(** an UA frame with the final bit *)
Definition is_ua (skb : list Z) : Prop :=
  ∃ h, data_hdr_e skb = Done h ∧ lapd_frame_type (h_control h) = LAPD_FRAME_TYPE_UFRAME ∧
    lapd_uframe_function_of (h_control h) = LAPD_UFRAME_FUNC_UA ∧ u_p_f h = true ∧
    length skb = 5%nat.

Lemma skb_from_stale id q : id ∉ skb_id <$> q → skb_from id q = [].
Proof.
  induction q as [|b q IH]; cbn; [done|]. rewrite elem_of_cons. intros H.
  rewrite decide_False by naive_solver. apply IH. naive_solver.
Qed.

Lemma run_i_queue_stale l p :
  state (ls l) = LAPD_DLS_7_LINK_CONNECTION_ESTABLISHED → peer_receiver_busy (ls l) = false →
  sock_queue dangles (ls l) → own_sap l = Some p →
  v_s (ls l) ≠ Z.rem (v_a (ls l) + k p) 128 → lapd_run_i_queue l = Fault UseAfterFree.
Proof.
  intros Hst Hb (id & Hh & Hid) Hp Hw. unfold lapd_run_i_queue.
  rewrite (run_bind _ _ l (ls l) l) by done.
  rewrite Hst, Hb, Hh, skb_from_stale, bool_decide_eq_true_2 by done. cbn [negb].
  unfold mbind, M_bind. rewrite (run_window_closed l p Hp).
  by rewrite (proj2 (Z.eqb_neq _ _) Hw).
Qed.

(** A data link that is established again at the request of layer 3 while
    [sk_send_head] points to a buffer of the queue discarded before uses the freed buffer
    as soon as the peer answers. *)
Theorem stale_send_head_faults l skb p :
  is_ua skb → state (ls l) = LAPD_DLS_5_AWAITING_ESTABLISH → layer_3_initiated (ls l) = true →
  peer_receiver_busy (ls l) = false → sock_queue dangles (ls l) →
  own_sap l = Some p → Z.rem (k p) 128 ≠ 0 →
  dlc_recv_frame skb l = Fault UseAfterFree.
Proof.
  intros (h & Hh & Ht & Hf & Hp & Hlen) Hst Hl3 Hb Hd Hsap Hk.
  unfold dlc_recv_frame, lapd_socket_handle_uframe, lapd_socket_handle_uframe_ua.
  rewrite Hh, (run_bind _ _ l h l), Ht, (run_bind _ _ l h l), Hf, Hlen by done. cbn [negb andb].
  rewrite bool_decide_eq_false_2 by done. change (Z.of_nat 5 =? 5) with true.
  cbn [negb andb]. rewrite (run_bind _ _ l (ls l) l), Hst, Hp, Hl3 by done. cbn [negb].
  apply fault_first.
  rewrite (run_bind _ _ l tt (set_ls (set_timer_T200 false (ls l)) l)) by done.
  erewrite run_bind by by apply (run_start_T203 _ p).
  erewrite run_bind by done. erewrite run_bind by done.
  match goal with |- (lapd_dl_primitive _ ≫= _) ?x = _ => set (l1 := x) end.
  destruct (run_dl_primitive LAPD_DL_ESTABLISH_CONFIRM l1) as (l2 & Hl2 & Hdev & Hsame).
  rewrite (run_bind _ _ _ _ _ Hl2).
  apply (run_i_queue_stale l2 p); unfold sock_queue, own_sap in *; rewrite ?Hdev.
  - by rewrite (Hsame _ state).
  - by rewrite (Hsame _ peer_receiver_busy).
  - by rewrite (Hsame _ sk_write_queue), (Hsame _ sk_send_head), (Hsame _ skb_next).
  - by rewrite (Hsame _ sap).
  - rewrite (Hsame _ v_s), (Hsame _ v_a) by done.
    change (0 ≠ Z.rem (0 + k p) 128). rewrite Z.add_0_l. congruence.
Qed.

(** ** The run: the window is full when the link is released, and it is set up again *)

(** a user side link that has a TEI *)
Definition start_link : lapd_link := side_link (sample_side LAPD_INTF_ROLE_TE).

(** UA, with the final bit, from the network side *)
Definition ua_frame : list Z := [0; 129; 115; 0; 0].

(** eight messages, one more than the window *)
Definition stale_inputs : list link_input :=
  [InEstablish; InFrame ua_frame] ++ (InSend <$> replicate 8 [1]) ++
  [InRelease; InFrame ua_frame; InEstablish].

Lemma start_link_well_formed : well_formed false queue_ok start_link.
Proof.
  split.
  - split; [by eexists|by intros u|done|done].
  - split; [by apply NoDup_nil|]. split; [done|]. by exists [], [].
Qed.

Lemma link_faults_only_dangling_witness :
  ∃ es1 es2 l1, stale_inputs ++ [InFrame ua_frame] = es1 ++ es2 ∧
    run_inputs es1 start_link = Done l1 ∧ sock_queue dangles (ls l1).
Proof.
  apply (link_faults_only_dangling false (stale_inputs ++ [InFrame ua_frame]) start_link
    UseAfterFree).
  - apply start_link_well_formed.
  - unfold stale_inputs. cbn. repeat constructor.
  - vm_compute. reflexivity.
Defined.

Lemma stale_send_head_faults_witness :
  ∃ l, run_inputs stale_inputs start_link = Done l ∧ dlc_recv_frame ua_frame l = Fault UseAfterFree.
Proof.
  eexists. split; [vm_compute; reflexivity|].
  eapply (stale_send_head_faults _ ua_frame).
  - eexists. repeat split; vm_compute; reflexivity.
  - reflexivity.
  - reflexivity.
  - reflexivity.
  - eexists. split; [reflexivity|]. apply not_elem_of_nil.
  - reflexivity.
  - vm_compute. discriminate.
Defined.

(** ** A peer that does not answer

    With nothing but T200 expiring, a link that waits for its peer gives up after a
    number of expirations that [patience] tells, and lets layer 3 know. *)

(** [n] expirations of T200, as long as it is pending *)
Fixpoint expirations (n : nat) (l : lapd_link) : outcome lapd_link :=
  match n with
  | O => Done l
  | S n =>
      match run_input InT200 l with
      | Done (_, l') => expirations n l'
      | Fault f => Fault f
      end
  end.

(** how often T200 has to expire before the link gives up, [n] being N200 *)
Definition patience (n : Z) (s : lapd_sock) : nat :=
  match state s with
  | LAPD_DLS_5_AWAITING_ESTABLISH | LAPD_DLS_6_AWAITING_RELEASE => Z.to_nat (n - retrans_cnt s + 1)
  | LAPD_DLS_8_TIMER_RECOVERY => (Z.to_nat (n - retrans_cnt s + 1) + Z.to_nat (n + 1))%nat
  | LAPD_DLS_7_LINK_CONNECTION_ESTABLISHED => (1 + Z.to_nat n + Z.to_nat (n + 1))%nat
  | _ => 0%nat
  end.

Definition waits (s : lapd_datalink_state) : bool :=
  match s with
  | LAPD_DLS_5_AWAITING_ESTABLISH | LAPD_DLS_6_AWAITING_RELEASE
  | LAPD_DLS_7_LINK_CONNECTION_ESTABLISHED | LAPD_DLS_8_TIMER_RECOVERY => true
  | _ => false
  end.

(** a link that waits for an answer, with N200 at [n] *)
Record waiting (user : bool) (n : Z) (q : list rx_item) (l : lapd_link) : Prop := {
  wt_base : base user (ls l);
  wt_state : waits (state (ls l)) = true;
  wt_free : sk_owned (ls l) = false;
  wt_open : sk_state (ls l) ≠ LAPD_SK_STATE_NORMAL_DLC_CLOSING;
  wt_T200 : timer_T200 (ls l) = true;
  wt_sap : ∃ p, own_sap l = Some p ∧ N200 p = n;
  wt_count : state (ls l) ≠ LAPD_DLS_7_LINK_CONNECTION_ESTABLISHED → 0 ≤ retrans_cnt (ls l) ≤ n;
  wt_queue : sk_receive_queue (ls l) = q;
}.

(** the link has given up: T200 is stopped and layer 3 was told *)
Record gave_up (q : list rx_item) (l : lapd_link) : Prop := {
  gu_state : state (ls l) = LAPD_DLS_4_TEI_ASSIGNED ∨ state (ls l) = LAPD_DLS_1_TEI_UNASSIGNED;
  gu_T200 : timer_T200 (ls l) = false;
  gu_queue : ∃ t, sk_receive_queue (ls l) = q ++ [RxPrimitive t] ∧
    (t = LAPD_DL_RELEASE_INDICATION ∨ t = LAPD_DL_RELEASE_CONFIRM);
}.

Section silent.
Context (user : bool) (n : Z) (q : list rx_item).
Context (Hn : 1 ≤ n).

Lemma waiting_next l l' :
  waiting user n q l → dev_same (dev l) (dev l') → sap (ls l') = sap (ls l) →
  usr_tme (ls l') = usr_tme (ls l) → sk_owned (ls l') = sk_owned (ls l) →
  sk_state (ls l') = sk_state (ls l) → sk_receive_queue (ls l') = sk_receive_queue (ls l) →
  timer_T200 (ls l') = true → waits (state (ls l')) = true →
  (state (ls l') ≠ LAPD_DLS_7_LINK_CONNECTION_ESTABLISHED → 0 ≤ retrans_cnt (ls l') ≤ n) →
  waiting user n q l'.
Proof.
  intros [Hb _ Hf Ho _ (p & Hp & HN) _ Hq] [_ Hd1 Hd2 _] Hsap Htme Hown Hst Hrx Ht Hw Hc.
  split; [|done|by rewrite Hown|by rewrite Hst|done| |done|by rewrite Hrx].
  - apply (base_same user (ls l)); [done..|]. unfold needs_tme. by destruct (state (ls l')).
  - exists p. split; [|done]. revert Hp. unfold own_sap. by rewrite Hsap, Hd1, Hd2.
Qed.

(** ** Giving up *)

Definition idle_queue (q' : list rx_item) (l : lapd_link) : Prop :=
  (state (ls l) = LAPD_DLS_4_TEI_ASSIGNED ∨ state (ls l) = LAPD_DLS_1_TEI_UNASSIGNED) ∧
  timer_T200 (ls l) = false ∧ sk_state (ls l) ≠ LAPD_SK_STATE_NORMAL_DLC_CLOSING ∧
  sk_receive_queue (ls l) = q'.

Lemma wp_remove_4 q' l :
  state (ls l) = LAPD_DLS_4_TEI_ASSIGNED → idle_queue q' l →
  wp lapd_mdl_remove_request (λ _, idle_queue q') l.
Proof.
  intros Hst (_ & Ht & Ho & Hq). unfold lapd_mdl_remove_request. apply wp_sk. rewrite Hst.
  apply wp_upd. unfold lapd_change_state, upd, modify, wp. cbn. by split; [right|].
Qed.

(** an error indication in state 4: the TEI may be lost *)
Lemma wp_mdl_error_4 q' i l :
  base user (ls l) → sk_owned (ls l) = false → state (ls l) = LAPD_DLS_4_TEI_ASSIGNED →
  idle_queue q' l → wp (mdl_error i) (λ _, idle_queue q') l.
Proof.
  intros Hb Ho Hst Hi. unfold mdl_error, lapd_mdl_primitive. cbn [mdl_primitive_depth].
  apply wp_sk. rewrite Ho. cbn [mdl_recv]. unfold lapd_mdl_error_indication.
  destruct (tei_in_doubt i); [|done]. cbn [when]. apply wp_get. destruct (decide _).
  { destruct (bool_decide _) eqn:Hd; [|done]. apply bool_decide_eq_true in Hd.
    apply wp_on_dev_last. eapply wp_mono; [by apply tei_check_runs|]. done. }
  destruct (bool_decide _) eqn:Hd; [|done]. apply bool_decide_eq_true in Hd as [u Hu].
  pose proof (b_tme _ _ Hb u Hu) as Hr.
  assert (0 < u_refcnt u) by (destruct (u_T202_timer u); cbn in Hr; lia).
  cbn [when]. unfold lapd_utme_tei_remove, lapd_utme_change_state.
  apply wp_bind. unfold wp at 1. rewrite (run_upd_utme _ u) by done.
  apply wp_bind. unfold wp at 1. erewrite (run_upd_utme _ _) by done.
  unfold for_the_socket. apply wp_sk. apply wp_bind, wp_on_dev_last.
  unfold wp at 1, dv, mbind, M_bind, get. cbn. destruct (_ && _); [|done]. cbn.
  apply wp_sk. cbn. rewrite Ho. by apply wp_remove_4.
Qed.

Lemma wp_release_primitive t l :
  idle_queue q l →
  wp (lapd_dl_primitive t) (λ _ l', idle_queue (q ++ [RxPrimitive t]) l' ∧
    state (ls l') = state (ls l) ∧ sk_owned (ls l') = sk_owned (ls l) ∧
    (base user (ls l) → base user (ls l'))) l.
Proof.
  intros (Hs & Ht & Ho & Hq). unfold lapd_dl_primitive. apply wp_sk.
  rewrite (bool_decide_eq_false_2 (_ = LAPD_SK_STATE_NORMAL_DLC_CLOSING)) by done. cbn [andb].
  unfold receive_queue_tail. apply wp_get, wp_upd. unfold upd, modify, wp.
  split; [|split; [done|split; [done|]]].
  - split; [done|]. cbn. rewrite Hq. done.
  - intros Hb. apply (base_same user (ls l)); [done..|]. apply Hb.
Qed.

Lemma idle_gave_up t l :
  idle_queue (q ++ [RxPrimitive t]) l →
  (t = LAPD_DL_RELEASE_INDICATION ∨ t = LAPD_DL_RELEASE_CONFIRM) → gave_up q l.
Proof. intros (Hs & Ht & Ho & Hq) Hrel. split; [done..|]. by exists t. Qed.

(** ** An expiration *)

Definition one_less (m : nat) (l : lapd_link) : Prop :=
  (waiting user n q l ∧ patience n (ls l) = m) ∨ (m = 0%nat ∧ gave_up q l).

Lemma wp_of_run {A} (m : L A) a l l' (P : A → lapd_link → Prop) :
  m l = Done (a, l') → P a l' → wp m P l.
Proof. unfold wp. by intros ->. Qed.

(** the socket of the timer that has just expired *)
Definition expired l : lapd_link := set_ls (set_timer_T200 false (ls l)) l.

Lemma expire_7 m l :
  waiting user n q l → state (ls l) = LAPD_DLS_7_LINK_CONNECTION_ESTABLISHED →
  patience n (ls l) = S m → wp lapd_timer_T200 (λ _, one_less m) (expired l).
Proof.
  intros Hw Hst Hm. pose proof (wt_sap _ _ _ _ Hw) as (p & Hp & HN).
  set (l1 := set_ls (set_retrans_cnt 0 (ls (expired l))) (expired l)).
  destruct (run_enquiry l1 p) as (d' & Hd & Hs); [exact Hp|].
  eapply wp_of_run.
  - unfold lapd_timer_T200. erewrite run_bind by done. cbn -[lapd_transmit_enquiry_procedure].
    rewrite (wt_free _ _ _ _ Hw), Hst.
    erewrite (run_bind _ _ (expired l)) by done. erewrite run_bind by exact Hd.
    erewrite run_bind by done. done.
  - left. unfold patience in *. rewrite Hst in Hm. split.
    + by apply (waiting_next l).
    + cbn in *. lia.
Qed.

Lemma expire_8 m l :
  waiting user n q l → state (ls l) = LAPD_DLS_8_TIMER_RECOVERY →
  patience n (ls l) = S m → wp lapd_timer_T200 (λ _, one_less m) (expired l).
Proof.
  intros Hw Hst Hm. pose proof (wt_sap _ _ _ _ Hw) as (p & Hp & HN).
  pose proof (wt_count _ _ _ _ Hw) as Hc. rewrite Hst in Hc. specialize (Hc ltac:(done)).
  unfold patience in Hm. rewrite Hst in Hm.
  unfold lapd_timer_T200. apply wp_sk. change (sk_owned (ls (expired l))) with (sk_owned (ls l)).
  change (state (ls (expired l))) with (state (ls l)). rewrite (wt_free _ _ _ _ Hw), Hst.
  unfold wp. rewrite (run_bind _ _ _ _ _ (run_the_sap (expired l) p Hp)), HN.
  change (retrans_cnt (ls (expired l))) with (retrans_cnt (ls l)).
  destruct (Z.eqb_spec (retrans_cnt (ls l)) n) as [He|He].
  - destruct (run_establish (expired l) p) as (d' & Hd & Hs); [exact Hp|].
    rewrite (run_bind _ _ (expired l) tt (expired l)).
    2:{ unfold mdl_error, lapd_mdl_primitive. cbn [mdl_primitive_depth].
        rewrite (run_bind _ _ _ (sk_owned (ls l)) (expired l)) by done.
        by rewrite (wt_free _ _ _ _ Hw). }
    rewrite (run_bind _ _ _ _ _ Hd). left. split.
    + apply (waiting_next l); try done. cbn. lia.
    + cbn. lia.
  - destruct (run_enquiry (expired l) p) as (d' & Hd & Hs); [exact Hp|].
    rewrite (run_bind _ _ _ _ _ Hd). left. unfold patience. cbn. rewrite Hst. split; [|lia].
    apply (waiting_next l); try done; cbn; [by rewrite Hst|lia].
Qed.

(** one more try in the states that wait for UA *)
Lemma wp_try_again f p m l :
  waiting user n q l → f ≠ LAPD_UFRAME_FUNC_INVALID → own_sap l = Some p →
  (state (ls l) = LAPD_DLS_5_AWAITING_ESTABLISH ∨ state (ls l) = LAPD_DLS_6_AWAITING_RELEASE) →
  patience n (ls l) = S m → 0 ≤ retrans_cnt (ls l) < n →
  wp (upd (λ s, set_retrans_cnt (retrans_cnt s + 1) s) ;; lapd_send_uframe f true ;;
      lapd_start_timer_T200) (λ _, one_less m) (expired l).
Proof.
  intros Hw Hf Hp Hst Hm Hc.
  set (l1 := set_ls (set_retrans_cnt (retrans_cnt (ls l) + 1) (ls (expired l))) (expired l)).
  destruct (run_send_uframe f true l1) as (d' & Hd & Hs); [done|].
  eapply wp_of_run.
  - erewrite run_bind by done. erewrite run_bind by exact Hd.
    apply (run_start_T200 _ p). by apply (own_sap_same l (ls l1)).
  - assert (waits (state (ls l)) = true) by apply Hw.
    left. split; [apply (waiting_next l); try done; cbn; lia|].
    unfold patience in *. cbn. destruct Hst as [Hst|Hst]; rewrite Hst in *; lia.
Qed.

(** the socket in state 4, its timer not pending *)
Lemma released_idle l s' :
  waiting user n q l → sk_state s' = sk_state (ls l) →
  sk_receive_queue s' = sk_receive_queue (ls l) → timer_T200 s' = false →
  state s' = LAPD_DLS_4_TEI_ASSIGNED → idle_queue q (set_ls s' l).
Proof.
  intros [_ _ _ Ho _ _ _ Hq] Hs Hr Ht Hst. split; [by left|]. cbn. rewrite Hs, Hr. done.
Qed.

Lemma released_base l s' :
  waiting user n q l → sap s' = sap (ls l) → usr_tme s' = usr_tme (ls l) →
  state s' = LAPD_DLS_4_TEI_ASSIGNED → base user s'.
Proof.
  intros [Hb _ _ _ _ _ _ _] Hsap Htme Hst. apply (base_same user (ls l)); [done..|].
  unfold needs_tme. by rewrite Hst.
Qed.

Lemma patience_last m l :
  (state (ls l) = LAPD_DLS_5_AWAITING_ESTABLISH ∨ state (ls l) = LAPD_DLS_6_AWAITING_RELEASE) →
  patience n (ls l) = S m → retrans_cnt (ls l) = n → m = 0%nat.
Proof. unfold patience. intros [-> | ->] Hm Hc; lia. Qed.

Lemma expire_5 m l :
  waiting user n q l → state (ls l) = LAPD_DLS_5_AWAITING_ESTABLISH →
  patience n (ls l) = S m → wp lapd_timer_T200 (λ _, one_less m) (expired l).
Proof.
  intros Hw Hst Hm. pose proof (wt_sap _ _ _ _ Hw) as (p & Hp & HN).
  pose proof (wt_count _ _ _ _ Hw) as Hc. rewrite Hst in Hc. specialize (Hc ltac:(done)).
  unfold lapd_timer_T200. apply wp_sk. change (sk_owned (ls (expired l))) with (sk_owned (ls l)).
  change (state (ls (expired l))) with (state (ls l)). rewrite (wt_free _ _ _ _ Hw), Hst.
  unfold wp. rewrite (run_bind _ _ _ _ _ (run_the_sap (expired l) p Hp)), HN.
  change (retrans_cnt (ls (expired l))) with (retrans_cnt (ls l)).
  destruct (Z.eqb_spec (retrans_cnt (ls l)) n) as [He|He].
  - apply wp_upd, wp_upd. apply wp_bind. eapply wp_mono with (P := λ _, idle_queue q).
    + apply wp_mdl_error_4; [|by apply Hw|done|by apply (released_idle l)].
      by apply (released_base l).
    + intros ? l' Hi. eapply wp_mono; [by apply wp_release_primitive|].
      intros ? l2 [Hi2 _]. right. split; [apply (patience_last m l); auto|].
      eapply idle_gave_up; [exact Hi2|by left].
  - apply (wp_try_again LAPD_UFRAME_FUNC_SABME p m l); auto. lia.
Qed.

Lemma expire_6 m l :
  waiting user n q l → state (ls l) = LAPD_DLS_6_AWAITING_RELEASE →
  patience n (ls l) = S m → wp lapd_timer_T200 (λ _, one_less m) (expired l).
Proof.
  intros Hw Hst Hm. pose proof (wt_sap _ _ _ _ Hw) as (p & Hp & HN).
  pose proof (wt_count _ _ _ _ Hw) as Hc. rewrite Hst in Hc. specialize (Hc ltac:(done)).
  unfold lapd_timer_T200. apply wp_sk. change (sk_owned (ls (expired l))) with (sk_owned (ls l)).
  change (state (ls (expired l))) with (state (ls l)). rewrite (wt_free _ _ _ _ Hw), Hst.
  unfold wp. rewrite (run_bind _ _ _ _ _ (run_the_sap (expired l) p Hp)), HN.
  change (retrans_cnt (ls (expired l))) with (retrans_cnt (ls l)).
  destruct (Z.eqb_spec (retrans_cnt (ls l)) n) as [He|He].
  - apply wp_upd. apply wp_bind.
    eapply wp_mono; [apply wp_release_primitive; by apply (released_idle l)|].
    intros ? l' (Hi & Hs' & Ho' & Hb'). eapply wp_mono.
    + apply wp_mdl_error_4; [apply Hb'; by apply (released_base l)| | |exact Hi].
      * rewrite Ho'. by apply Hw.
      * by rewrite Hs'.
    + intros ? l2 Hi2. right. split; [apply (patience_last m l); auto|].
      eapply idle_gave_up; [exact Hi2|by right].
  - apply (wp_try_again LAPD_UFRAME_FUNC_DISC p m l); auto. lia.
Qed.

Lemma expire_T200 m l :
  waiting user n q l → patience n (ls l) = S m → wp (run_input InT200) (λ _, one_less m) l.
Proof.
  intros Hw Hm. unfold run_input. apply wp_sk. rewrite (wt_T200 _ _ _ _ Hw). apply wp_upd.
  change (set_ls (set_timer_T200 false (ls l)) l) with (expired l).
  pose proof (wt_state _ _ _ _ Hw) as Hst. unfold waits in Hst.
  destruct (state (ls l)) eqn:Hs; try done.
  - by apply expire_5.
  - by apply expire_6.
  - by apply expire_7.
  - by apply expire_8.
Qed.

Lemma patience_pos l : waiting user n q l → patience n (ls l) ≠ 0%nat.
Proof.
  intros Hw. pose proof (wt_state _ _ _ _ Hw) as Hst. pose proof (wt_count _ _ _ _ Hw) as Hc.
  unfold patience, waits in *. destruct (state (ls l)); try done; specialize (Hc ltac:(done)); lia.
Qed.
End silent.

(** C21. A link that has T200 running and hears nothing more gives up: after exactly
    [patience] expirations of T200, none of which meets a fault, it is back in state 4 or
    without a TEI, T200 is stopped, and the one thing added to what the process reads is
    the release of the link. *)
Theorem silent_peer_gives_up user n q l :
  1 ≤ n → waiting user n q l →
  ∃ l', expirations (patience n (ls l)) l = Done l' ∧ gave_up q l'.
Proof.
  intros Hn Hw. remember (patience n (ls l)) as m eqn:Hm. symmetry in Hm. revert l Hw Hm.
  induction m as [|m IH]; intros l Hw Hm; [by apply patience_pos in Hw|].
  cbn [expirations]. pose proof (expire_T200 user n q Hn m l Hw Hm) as H. unfold wp in H.
  destruct (run_input InT200 l) as [[[] l']|]; [|done]. destruct H as [[Hw' Hm']|[-> Hg]].
  - by apply IH.
  - by exists l'.
Qed.

(** [start_link], set up, with a message that was never acknowledged *)
Definition silent_link : lapd_link :=
  match run_inputs [InEstablish; InFrame ua_frame; InSend [1]] start_link with
  | Done l => l
  | Fault _ => start_link
  end.

Lemma silent_link_waits :
  waiting false 3 [RxPrimitive LAPD_DL_ESTABLISH_CONFIRM] silent_link.
Proof.
  split; try (vm_compute; done).
  exists default_sap. by split; vm_compute.
Qed.

Lemma silent_peer_gives_up_witness :
  ∃ l', expirations 8 silent_link = Done l' ∧
    gave_up [RxPrimitive LAPD_DL_ESTABLISH_CONFIRM] l'.
Proof.
  apply (silent_peer_gives_up false 3 [RxPrimitive LAPD_DL_ESTABLISH_CONFIRM] silent_link).
  - lia.
  - exact silent_link_waits.
Defined.
