(* ===== verification/LapdTeiThm.v ===== *)
(** * TEI management on the network side

    The assignment of a TEI ([lapd_ntme_handle_tei_request]) and the audit
    ([lapd_ntme_audit], the answers of the terminals, the two expirations of T201). *)

From stdpp Require Import base list.
From Stdlib Require Import ZArith Lia.
From S2P Require Import Prelude.
From S2P Require Import Bits.
From S2P Require Import LapdProto.
From S2P Require Import LapdSock.
From S2P Require Import LapdOutput.
From S2P Require Import LapdTei.
From S2P Require Import LapdDatalink.
From S2P Require Import LapdInput.
From S2P Require Import LapdUser.
From S2P Require Import LapdPeer.
From S2P Require Import LapdSide.
From S2P Require Import LapdDelivery.
Local Open Scope Z_scope.

(** ** Devices *)

(** frames wait in the queue only while layer 1 is not active *)
Definition flushed (d : lapd_device) : Prop :=
  l1_state d = LAPD_L1_STATE_AVAILABLE → out_queue d = [].

Record ntme_ok (t : lapd_ntme) : Prop := {
  nt_len : length (n_teis t) = Z.to_nat LAPD_NUM_DYN_TEIS;
  nt_cur : LAPD_MIN_DYN_TEI ≤ n_cur_dyn_tei t ≤ LAPD_MAX_DYN_TEI;
}.

(** the octets of a message of the entity, with the CRC *)
Definition tm_frame (r : lapd_intf_role) (message_type ri ai : Z) : list Z :=
  (lapd_address LAPD_SAPI_TEI_MGMT (lapd_make_cr r LAPD_COMMAND) LAPD_BROADCAST_TEI ++
   [lapd_uframe_make_control LAPD_UFRAME_FUNC_UI false;
    LAPD_TEI_ENTITY; Z.land ri 255; Z.land (Z.shiftr ri 8) 255; message_type] ++
   tei_mgmt_ais [ai]) ++ [0; 0].

Lemma wp_tm_send mt ri ai d :
  flushed d →
  wp (lapd_tm_send mt ri ai) (λ _ d', flushed d' ∧ role d' = role d ∧ net_tme d' = net_tme d ∧
    wire d' = wire d ++ [tm_frame (role d) mt ri ai]) d.
Proof.
  intros Hf. unfold lapd_tm_send, lapd_tm_send_multiai, dv, wp, mbind, M_bind, get.
  cbn [mret M_ret]. match goal with |- context [lapd_ph_data_request ?skb d] =>
    pose proof (wire_ph_data_request skb d Hf) as H; unfold wp in H;
    assert (∀ d', lapd_ph_data_request skb d = Done (tt, d') → net_tme d' = net_tme d) as Ht;
      [|destruct (lapd_ph_data_request skb d) as [[[] d']|]; [|done]] end.
  { intros d'. unfold lapd_ph_data_request, dv, mbind, M_bind, get. cbn.
    destruct (l1_state d); by intros [= <-]. }
  destruct H as (Hw & Hf' & _ & _ & Hr). split; [done|]. split; [done|].
  split; [by apply Ht|]. by rewrite Hw.
Qed.

Lemma wp_upd_ntme f t d :
  net_tme d = Some t → wp (upd_ntme f) (λ _ d', d' = set_net_tme (Some (f t)) d) d.
Proof.
  intros Ht. unfold upd_ntme, the_ntme, dv, wp, mbind, M_bind, get, deref. cbn. by rewrite Ht.
Qed.

(** ** The search for a free TEI *)

(** the TEIs after [cur], in the order of the search *)
Definition next_tei (cur : Z) : Z :=
  if LAPD_MAX_DYN_TEI <? cur + 1 then LAPD_MIN_DYN_TEI else cur + 1.

Definition tei_in_use (teis : list bool) (tei : Z) : option bool :=
  teis !! Z.to_nat (tei - LAPD_MIN_DYN_TEI).

Lemma next_tei_range cur :
  LAPD_MIN_DYN_TEI ≤ cur ≤ LAPD_MAX_DYN_TEI → LAPD_MIN_DYN_TEI ≤ next_tei cur ≤ LAPD_MAX_DYN_TEI.
Proof.
  unfold next_tei, LAPD_MIN_DYN_TEI, LAPD_MAX_DYN_TEI. intros H.
  destruct (Z.ltb_spec 126 (cur + 1)); lia.
Qed.

(** the [n]-th TEI after [cur] *)
Lemma next_tei_iter n cur :
  LAPD_MIN_DYN_TEI ≤ cur ≤ LAPD_MAX_DYN_TEI →
  Nat.iter n next_tei cur = LAPD_MIN_DYN_TEI + (cur - LAPD_MIN_DYN_TEI + Z.of_nat n) mod 63.
Proof.
  intros Hc. induction n as [|n IH].
  - cbn. unfold LAPD_MIN_DYN_TEI, LAPD_MAX_DYN_TEI in *. rewrite Z.mod_small; lia.
  - rewrite Nat.iter_succ, IH.
    replace (cur - LAPD_MIN_DYN_TEI + Z.of_nat (S n)) with
      ((cur - LAPD_MIN_DYN_TEI + Z.of_nat n) + 1) by lia.
    set (x := cur - LAPD_MIN_DYN_TEI + Z.of_nat n). rewrite <-Z.add_mod_idemp_l by lia.
    assert (0 ≤ x mod 63 < 63) by (apply Z.mod_pos_bound; lia). set (y := x mod 63) in *.
    unfold next_tei, LAPD_MIN_DYN_TEI, LAPD_MAX_DYN_TEI.
    destruct (Z.ltb_spec 126 (64 + y + 1)).
    + replace (y + 1) with 63 by lia. done.
    + rewrite (Z.mod_small (y + 1)); lia.
Qed.

Lemma find_dyn_tei_spec n teis cur :
  length teis = Z.to_nat LAPD_NUM_DYN_TEIS → LAPD_MIN_DYN_TEI ≤ cur ≤ LAPD_MAX_DYN_TEI →
  ∃ r, find_dyn_tei n teis cur = Done r ∧
    LAPD_MIN_DYN_TEI ≤ r.1 ≤ LAPD_MAX_DYN_TEI ∧
    if r.2 then
      ∃ k, (1 ≤ k ≤ n)%nat ∧ r.1 = Nat.iter k next_tei cur ∧ tei_in_use teis r.1 = Some false ∧
        ∀ j, (1 ≤ j < k)%nat → tei_in_use teis (Nat.iter j next_tei cur) = Some true
    else ∀ j, (1 ≤ j ≤ n)%nat → tei_in_use teis (Nat.iter j next_tei cur) = Some true.
Proof.
  intros Hlen. revert cur. induction n as [|n IH]; intros cur Hc.
  - exists (cur, false). split; [done|]. split; [done|]. cbn. lia.
  - cbn [find_dyn_tei]. change (if LAPD_MAX_DYN_TEI <? cur + 1 then _ else _) with (next_tei cur).
    pose proof (next_tei_range cur Hc) as Hr.
    destruct (teis !! Z.to_nat (next_tei cur - LAPD_MIN_DYN_TEI)) as [[]|] eqn:Ht.
    + destruct (IH (next_tei cur) Hr) as ([c b] & -> & Hc' & Hb). exists (c, b).
      split; [done|]. split; [done|].
      assert (∀ P : nat → Prop, (∀ j, P j → tei_in_use teis (Nat.iter j next_tei (next_tei cur)) = Some true) →
        ∀ j, (1 ≤ j)%nat → (j = 1%nat ∨ P (j - 1)%nat) →
        tei_in_use teis (Nat.iter j next_tei cur) = Some true) as Hj.
      { intros P HP j Hj [->|H]; [done|]. destruct j as [|j]; [lia|].
        rewrite Nat.iter_succ_r. apply HP. by replace (S j - 1)%nat with j in H by lia. }
      destruct b.
      * destruct Hb as (k & Hk & E & Hfree & Hused). exists (S k). split; [lia|].
        split; [by rewrite Nat.iter_succ_r|]. split; [done|]. intros j Hj'.
        apply (Hj _ Hused j); lia.
      * intros j Hj'. apply (Hj _ Hb j); lia.
    + exists (next_tei cur, true). split; [done|]. split; [done|]. exists 1%nat.
      split; [lia|]. split; [done|]. split; [done|]. lia.
    + exfalso. apply lookup_ge_None in Ht. rewrite Hlen in Ht.
      unfold LAPD_NUM_DYN_TEIS, LAPD_MIN_DYN_TEI, LAPD_MAX_DYN_TEI in *. lia.
Qed.

Lemma find_dyn_tei_all teis cur :
  length teis = Z.to_nat LAPD_NUM_DYN_TEIS → LAPD_MIN_DYN_TEI ≤ cur ≤ LAPD_MAX_DYN_TEI →
  (∀ j, (1 ≤ j ≤ Z.to_nat LAPD_NUM_DYN_TEIS)%nat →
        tei_in_use teis (Nat.iter j next_tei cur) = Some true) →
  Forall (λ b, b = true) teis.
Proof.
  intros Hlen Hc Hall. apply Forall_lookup. intros i b Hi.
  assert ((i < 63)%nat) as Hi63.
  { apply lookup_lt_Some in Hi. rewrite Hlen in Hi. exact Hi. }
  set (x := (Z.of_nat i - (cur - LAPD_MIN_DYN_TEI) - 1) mod 63).
  assert (0 ≤ x < 63) by (apply Z.mod_pos_bound; lia).
  specialize (Hall (S (Z.to_nat x))). unfold LAPD_NUM_DYN_TEIS in Hall.
  rewrite next_tei_iter in Hall by done. specialize (Hall ltac:(unfold LAPD_MAX_DYN_TEI, LAPD_MIN_DYN_TEI; lia)).
  unfold tei_in_use in Hall.
  replace (Z.to_nat _) with i in Hall; [congruence|].
  replace (cur - LAPD_MIN_DYN_TEI + Z.of_nat (S (Z.to_nat x))) with
    ((cur - LAPD_MIN_DYN_TEI + 1) + x) by lia.
  subst x. rewrite Z.add_mod_idemp_r by lia.
  replace (cur - LAPD_MIN_DYN_TEI + 1 + _) with (Z.of_nat i) by lia.
  rewrite Z.mod_small by lia. lia.
Qed.

(** ** The assignment of a TEI *)

(** the TEIs of [teis] for which no check runs *)
Definition unchecked (t : lapd_ntme) (teis : list Z) : list Z :=
  filter (λ tei, tei ∉ tc_tei <$> n_tei_checks t) teis.

(** checks were started for the TEIs of [l] *)
Record checks_started (l : list Z) (t : lapd_ntme) (d d' : lapd_device) : Prop := {
  cs_flushed : flushed d';
  cs_role : role d' = role d;
  cs_tme : ∃ t', net_tme d' = Some t' ∧ n_teis t' = n_teis t ∧
    n_cur_dyn_tei t' = n_cur_dyn_tei t ∧
    (tc_tei <$> n_tei_checks t') = (tc_tei <$> n_tei_checks t) ++ l;
  cs_wire : wire d' = wire d ++ (tm_frame (role d) LAPD_TEI_MT_CHK_REQ 0 <$> l);
}.

Lemma wp_start_tei_check tei t d :
  flushed d → net_tme d = Some t → 0 ≤ tei < 256 →
  wp (lapd_ntme_start_tei_check tei) (λ _, checks_started (unchecked t [tei]) t d) d.
Proof.
  intros Hf Ht Hb. unfold lapd_ntme_start_tei_check.
  unfold the_ntme at 1, dv, deref. apply wp_bind.
  unfold wp at 1, mbind, M_bind, get. cbn [mret M_ret]. rewrite Ht. cbn [mret M_ret fail].
  unfold unchecked. destruct (existsb _ _) eqn:He.
  - apply existsb_exists in He as (tc & Hin%list_elem_of_In & E%Z.eqb_eq).
    rewrite filter_cons_False by (intros H; apply H; rewrite <- E; by apply list_elem_of_fmap_2).
    split; [done..| |cbn; by rewrite app_nil_r]. exists t. cbn. by rewrite app_nil_r.
  - rewrite filter_cons_True.
    2: { intros (tc & E & Hin)%list_elem_of_fmap. apply not_true_iff_false in He. apply He.
         apply existsb_exists. exists tc. split; [by apply list_elem_of_In|by apply Z.eqb_eq]. }
    apply wp_bind. eapply wp_mono; [by apply wp_upd_ntme|]. intros ? d1 ->.
    eapply wp_mono; [by apply wp_tm_send|]. intros ? d' (Hf' & Hr & Ht' & Hw). cbn in *.
    split; [done..| |exact Hw]. eexists. split; [exact Ht'|]. split; [done|]. split; [done|].
    cbn. rewrite fmap_app. cbn. by rewrite u8_small by (unfold is_octet; lia).
Qed.

Lemma filter_alike (P Q : Z → Prop) `{!∀ x, Decision (P x), !∀ x, Decision (Q x)} (l : list Z) :
  (∀ x, x ∈ l → P x ↔ Q x) → filter P l = filter Q l.
Proof.
  induction l as [|x l IH]; intros Hl; [done|]. rewrite !filter_cons, IH
    by (intros y Hy; apply Hl; by right).
  destruct (decide (P x)) as [Hp|Hp], (decide (Q x)) as [Hq|Hq]; try done; exfalso;
    rewrite (Hl x) in Hp by left; done.
Qed.

Lemma wp_start_tei_checks teis t d :
  flushed d → net_tme d = Some t → Forall (λ tei, 0 ≤ tei < 256) teis → NoDup teis →
  wp (forM teis lapd_ntme_start_tei_check) (λ _, checks_started (unchecked t teis) t d) d.
Proof.
  intros Hf Ht Hb Hn. revert t d Hf Ht Hb.
  induction Hn as [|tei teis Htei Hn IH]; intros t d Hf Ht Hb; cbn [forM].
  { split; [done..| |cbn; by rewrite app_nil_r]. exists t. cbn. by rewrite app_nil_r. }
  apply Forall_cons in Hb as [Hb1 Hb].
  apply wp_bind. eapply wp_mono; [by apply wp_start_tei_check|].
  intros ? d1 [Hf1 Hr1 (t1 & Ht1 & Hn1 & Hc1 & Hk1) Hw1].
  eapply wp_mono; [by apply IH|]. intros ? d2 [Hf2 Hr2 (t2 & Ht2 & Hn2 & Hc2 & Hk2) Hw2].
  assert (unchecked t (tei :: teis) = unchecked t [tei] ++ unchecked t1 teis) as ->.
  { change (tei :: teis) with ([tei] ++ teis). unfold unchecked at 1. rewrite filter_app. f_equal.
    unfold unchecked at 1. rewrite Hk1. apply filter_alike. intros x Hx.
    rewrite elem_of_app.
    assert (x ∉ unchecked t [tei]).
    { intros [_ ->%list_elem_of_singleton]%list_elem_of_filter. done. }
    tauto. }
  split; [done|congruence| |].
  - exists t2. split; [done|]. split; [congruence|]. split; [congruence|].
    by rewrite Hk2, Hk1, (assoc_L (++)).
  - by rewrite Hw2, Hw1, Hr1, fmap_app, (assoc_L (++)).
Qed.

(** The answer to a request.  The TEIs behind the one assigned last are tried in a circle:
    the first that is free is assigned, and is then in use and where the next search
    starts.  If all 63 are in use, the request is denied and a check of each is asked for
    that is not being checked, and nothing else is sent. *)
Definition tei_answered (ri ai : Z) (t : lapd_ntme) (d d' : lapd_device) : Prop :=
  ∃ t', net_tme d' = Some t' ∧ ntme_ok t' ∧
    ((∃ (n : nat) (tei : Z), (1 ≤ n ≤ 63)%nat ∧ tei = Nat.iter n next_tei (n_cur_dyn_tei t) ∧
        tei_in_use (n_teis t) tei = Some false ∧
        (∀ j, (1 ≤ j < n)%nat →
           tei_in_use (n_teis t) (Nat.iter j next_tei (n_cur_dyn_tei t)) = Some true) ∧
        n_teis t' = <[Z.to_nat (tei - LAPD_MIN_DYN_TEI) := true]> (n_teis t) ∧
        n_cur_dyn_tei t' = tei ∧
        wire d' = wire d ++ [tm_frame (role d) LAPD_TEI_MT_ASSIGNED ri tei]) ∨
     (Forall (λ b, b = true) (n_teis t) ∧ n_teis t' = n_teis t ∧
        let asked := unchecked t (seqZ LAPD_MIN_DYN_TEI LAPD_NUM_DYN_TEIS) in
        (tc_tei <$> n_tei_checks t') = (tc_tei <$> n_tei_checks t) ++ asked ∧
        wire d' = wire d ++ tm_frame (role d) LAPD_TEI_MT_DENIED ri ai ::
                    (tm_frame (role d) LAPD_TEI_MT_CHK_REQ 0 <$> asked))).

Lemma wp_tei_request tm t d :
  mode d = LAPD_INTF_MODE_MULTIPOINT → net_tme d = Some t → ntme_ok t → flushed d →
  LAPD_MAX_DYN_TEI < ai_value tm →
  wp (lapd_ntme_handle_tei_request tm) (λ _, tei_answered (tm_ri tm) (ai_value tm) t d) d.
Proof.
  intros Hm Ht [Hlen Hcur] Hf Hai. unfold lapd_ntme_handle_tei_request.
  apply wp_bind. unfold wp at 1, get. rewrite decide_False, Ht by congruence.
  unfold LAPD_MAX_DYN_TEI in Hai.
  rewrite (proj2 (Z.leb_gt _ LAPD_MAX_STA_TEI)), (proj2 (Z.leb_gt _ LAPD_MAX_DYN_TEI)), andb_false_r
    by (unfold LAPD_MAX_STA_TEI, LAPD_MAX_DYN_TEI; lia).
  destruct (find_dyn_tei_spec (Z.to_nat LAPD_NUM_DYN_TEIS) (n_teis t) (n_cur_dyn_tei t) Hlen Hcur)
    as ([cur found] & Hr & Hrange & Hfound).
  apply wp_bind. unfold wp at 1, lift. rewrite Hr. cbn in Hrange, Hfound.
  apply wp_bind. eapply wp_mono; [by apply wp_upd_ntme|]. intros ? d1 ->. destruct found.
  - apply wp_bind. eapply wp_mono; [by apply wp_upd_ntme|]. intros ? d1 ->.
    eapply wp_mono; [by apply wp_tm_send|]. intros ? d' (Hf' & _ & Ht' & Hw). cbn in Ht', Hw.
    eexists. split; [exact Ht'|]. split; [split; cbn; [by rewrite length_insert|done]|].
    left. destruct Hfound as (n & Hn & E & Hfree & Hused). by exists n, cur.
  - apply wp_bind. eapply wp_mono; [by apply wp_tm_send|]. intros ? d1 (Hf1 & Hr1 & Ht1 & Hw1).
    cbn in Hr1, Ht1.
    change (wire d1 = wire d ++ [tm_frame (role d) LAPD_TEI_MT_DENIED (tm_ri tm) (ai_value tm)]) in Hw1.
    eapply wp_mono; [eapply wp_start_tei_checks; [done|exact Ht1| |]|].
    + apply Forall_seqZ. intros tei Htei. unfold LAPD_NUM_DYN_TEIS, LAPD_MIN_DYN_TEI, LAPD_MAX_DYN_TEI in Htei. lia.
    + apply NoDup_seqZ.
    + intros ? d2 [_ _ (t2 & Ht2 & Hn2 & Hc2 & Hk2) Hw2]. cbn in Hn2, Hc2. exists t2.
      split; [done|]. split; [split; congruence || by rewrite Hc2|].
      right. split; [by apply (find_dyn_tei_all _ (n_cur_dyn_tei t))|]. split; [done|].
      split; [exact Hk2|]. rewrite Hw2, Hw1, Hr1. by rewrite <- (assoc_L (++)).
Qed.

(** C22. On a multipoint interface the network side answers a terminal that asks for any
    TEI with the first free one of the circle behind the TEI assigned last, which is from
    then on in use; only when all 63 dynamic TEIs are in use does it deny the request, and
    then it asks for a check of those that are not being checked and changes no TEI. *)
Theorem tei_request_assigns_free tm t d :
  mode d = LAPD_INTF_MODE_MULTIPOINT → net_tme d = Some t → ntme_ok t → flushed d →
  LAPD_MAX_DYN_TEI < ai_value tm →
  ∃ d', lapd_ntme_handle_tei_request tm d = Done (tt, d') ∧
        tei_answered (tm_ri tm) (ai_value tm) t d d'.
Proof.
  intros Hm Ht Hok Hf Hai. pose proof (wp_tei_request tm t d Hm Ht Hok Hf Hai) as H.
  unfold wp in H. destruct (lapd_ntme_handle_tei_request tm d) as [[[] d']|]; [|done].
  by exists d'.
Qed.

(** ** The audit *)

(** what arrives from a terminal: a frame of the TEI management SAP to everyone *)
Definition check_answer (skb : list Z) : Prop :=
  ∃ rest, skb = lapd_address LAPD_SAPI_TEI_MGMT
    (lapd_make_cr LAPD_INTF_ROLE_TE LAPD_COMMAND) LAPD_BROADCAST_TEI ++ rest.

(** an audit: the answers of the first window, T201, those of the second, T201 *)
Definition audit_run (first second : list (list Z)) : D unit :=
  lapd_ntme_audit ;;
  forM first lapd_ntme_handle_tei_check_response ;;
  lapd_ntme_tc_T201_timer 0 ;;
  forM second lapd_ntme_handle_tei_check_response ;;
  lapd_ntme_tc_T201_timer 0.

(** the TEIs read are those of the address field, whatever the message says *)
Lemma check_answer_teis skb : check_answer skb → check_response_teis 128 skb = Done [126; 127].
Proof. intros [rest ->]. reflexivity. Qed.

(** the counts after [a] answers in the first window and [b] in the second *)
Definition audit_counts (a b : nat) : list (Z * Z) :=
  replicate 126 (0, 0) ++ replicate 2 (u8 (Z.of_nat a), u8 (Z.of_nat b)).

Definition audit_check (count : Z) (a b : nat) : lapd_ntme_tei_check :=
  {| tc_count := count; tc_responses := audit_counts a b; tc_tei := LAPD_BROADCAST_TEI |}.

Lemma u8_succ n : u8 (u8 (Z.of_nat n) + 1) = u8 (Z.of_nat (S n)).
Proof.
  unfold u8. change 255 with (Z.ones 8). rewrite !Z.land_ones by lia. change (2 ^ 8) with 256.
  rewrite Z.add_mod_idemp_l by lia. f_equal. lia.
Qed.

Lemma count_first a : foldl tc_count_tei (audit_check 0 a 0) [126; 127] = audit_check 0 (S a) 0.
Proof.
  unfold audit_check, audit_counts. rewrite <-u8_succ. reflexivity.
Qed.
Lemma count_second a b : foldl tc_count_tei (audit_check 1 a b) [126; 127] = audit_check 1 a (S b).
Proof.
  unfold audit_check, audit_counts. rewrite <-u8_succ. reflexivity.
Qed.

(** a device whose entity runs one check *)
Record auditing (tc : lapd_ntme_tei_check) (teis : list bool) (r : lapd_intf_role)
    (w : list (list Z)) (d : lapd_device) : Prop := {
  au_tme : ∃ t, net_tme d = Some t ∧ n_tei_checks t = [tc] ∧ n_teis t = teis;
  au_flushed : flushed d;
  au_role : role d = r;
  au_wire : wire d = w;
}.

Lemma wp_check_answer tc tc' teis r w skb d :
  check_answer skb → foldl tc_count_tei tc [126; 127] = tc' → auditing tc teis r w d →
  wp (lapd_ntme_handle_tei_check_response skb) (λ _, auditing tc' teis r w) d.
Proof.
  intros Ha Htc [(t & Ht & Hc & Hn) Hf Hr Hw].
  unfold lapd_ntme_handle_tei_check_response. rewrite check_answer_teis by done.
  apply wp_bind. unfold wp at 1, lift. apply wp_bind. unfold wp at 1, dv, mbind, M_bind, get.
  cbn [mret M_ret]. rewrite Ht. eapply wp_mono; [by apply wp_upd_ntme|]. intros ? d' ->.
  split; try done. eexists. split; [done|]. subst tc'. cbn. by rewrite Hc.
Qed.

Lemma wp_answers_first first a teis r w d :
  Forall check_answer first → auditing (audit_check 0 a 0) teis r w d →
  wp (forM first lapd_ntme_handle_tei_check_response)
    (λ _, auditing (audit_check 0 (length first + a) 0) teis r w) d.
Proof.
  intros H. revert a d. induction H as [|skb first Hs H IH]; intros a d Hd; cbn [forM]; [done|].
  apply wp_bind. eapply wp_mono; [eapply wp_check_answer; [done|apply count_first|done]|].
  intros ? d' Hd'. eapply wp_mono; [by apply (IH (S a))|]. intros ? d2 Hd2.
  by replace (length (skb :: first) + a)%nat with (length first + S a)%nat by (cbn; lia).
Qed.
Lemma wp_answers_second second a b teis r w d :
  Forall check_answer second → auditing (audit_check 1 a b) teis r w d →
  wp (forM second lapd_ntme_handle_tei_check_response)
    (λ _, auditing (audit_check 1 a (length second + b)) teis r w) d.
Proof.
  intros H. revert b d. induction H as [|skb second Hs H IH]; intros b d Hd; cbn [forM]; [done|].
  apply wp_bind. eapply wp_mono; [eapply wp_check_answer; [done|apply count_second|done]|].
  intros ? d' Hd'. eapply wp_mono; [by apply (IH (S b))|]. intros ? d2 Hd2.
  by replace (length (skb :: second) + b)%nat with (length second + S b)%nat by (cbn; lia).
Qed.

(** *** T201 *)

Lemma wp_forM_app {S A} (l1 l2 : list A) (f : A → M S unit) Q s :
  wp (forM l1 f) (λ _, wp (forM l2 f) Q) s → wp (forM (l1 ++ l2) f) Q s.
Proof.
  revert s. induction l1 as [|x l1 IH]; intros s; cbn [forM app]; [done|].
  intros H. apply wp_bind. unfold wp at 1 in H. unfold wp at 1. unfold mbind, M_bind in H.
  destruct (f x s) as [[[] s']|]; [by apply IH|done].
Qed.

Lemma all_teis_split : all_teis = seqZ 0 126 ++ [126; 127].
Proof. reflexivity. Qed.

Lemma wp_response_low c a b tei second d :
  0 ≤ tei < 126 → wp (response (audit_check c a b) tei second) (λ r d', r = 0 ∧ d' = d) d.
Proof.
  intros H. unfold response, audit_check. cbn [tc_responses].
  assert (audit_counts a b !! Z.to_nat tei = Some (0, 0)) as ->.
  { unfold audit_counts. rewrite lookup_app_l by (rewrite length_replicate; lia).
    apply lookup_replicate_2. lia. }
  by destruct second.
Qed.
Lemma wp_response_high c a b tei second d :
  tei = 126 ∨ tei = 127 →
  wp (response (audit_check c a b) tei second)
     (λ r d', r = u8 (Z.of_nat (if second : bool then b else a)) ∧ d' = d) d.
Proof. intros [-> | ->]; by destruct second. Qed.

(** what the first expiration sends: two answers are taken for two terminals with the
    same TEI, which is removed; TEI 127 is that of all terminals *)
Definition removals (r : lapd_intf_role) (a : nat) : list (list Z) :=
  if 1 <? u8 (Z.of_nat a)
  then [tm_frame r LAPD_TEI_MT_REMOVE 0 126; tm_frame r LAPD_TEI_MT_REMOVE 0 127] else [].

Lemma wp_auditing_send tc teis r w mt ri ai d :
  auditing tc teis r w d →
  wp (lapd_tm_send mt ri ai) (λ _, auditing tc teis r (w ++ [tm_frame r mt ri ai])) d.
Proof.
  intros [(t & Ht & Hc & Hn) Hf Hr Hw]. eapply wp_mono; [by apply wp_tm_send|].
  intros ? d' (Hf' & Hr' & Ht' & Hw'). split; [|done|congruence|congruence].
  exists t. by rewrite Ht'.
Qed.

Lemma wp_check_first_low c a b l d :
  Forall (λ tei, 0 ≤ tei < 126) l →
  wp (forM l (lapd_ntme_tc_check_first (audit_check c a b))) (λ _ d', d' = d) d.
Proof.
  intros H. induction H as [|tei l Ht H IH]; cbn [forM]; [done|].
  apply wp_bind. eapply wp_mono with (P := λ _ d', d' = d); [|by intros ? d' ->].
  apply wp_bind. eapply wp_mono; [by apply wp_response_low|]. by intros ? d' [-> ->].
Qed.

Lemma wp_T201_first a teis r w d :
  auditing (audit_check 0 a 0) teis r w d →
  wp (lapd_ntme_tc_T201_timer 0)
    (λ _, auditing (audit_check 1 a 0) teis r
            (w ++ removals r a ++ [tm_frame r LAPD_TEI_MT_CHK_REQ 0 127])) d.
Proof.
  intros Hd. pose proof (au_tme _ _ _ _ _ Hd) as (t & Ht & Hc & Hn).
  unfold lapd_ntme_tc_T201_timer. unfold the_ntme at 1, dv, deref.
  apply wp_bind. unfold wp at 1, mbind, M_bind, get. cbn [mret M_ret]. rewrite Ht.
  cbn [mret M_ret]. rewrite Hc. cbn [lookup list_lookup].
  change (tc_count _ =? 0) with true. change (tc_tei _ =? _) with true. cbn [negb].
  apply wp_bind. rewrite all_teis_split. apply wp_forM_app.
  eapply wp_mono; [apply wp_check_first_low, Forall_seqZ; lia|]. intros ? d' ->.
  eapply wp_mono with (P := λ _, auditing (audit_check 0 a 0) teis r (w ++ removals r a)).
  - cbn [forM]. unfold lapd_ntme_tc_check_first, lapd_ntme_send_tei_remove, removals.
    apply wp_bind, wp_bind. eapply wp_mono; [apply wp_response_high; by left|]. intros ? d' [-> ->].
    destruct (1 <? u8 (Z.of_nat a)) eqn:Ha; cbn [when].
    + eapply wp_mono; [by eapply wp_auditing_send|]. intros ? d1 Hd1.
      apply wp_bind, wp_bind. eapply wp_mono; [apply wp_response_high; by right|].
      intros ? d' [-> ->]. rewrite Ha. cbn [when].
      eapply wp_mono; [by apply (wp_auditing_send _ _ _ _ _ _ _ _ Hd1)|]. intros ? d2 Hd2.
      unfold wp. cbn. by rewrite <-app_assoc in Hd2.
    + apply wp_bind, wp_bind. eapply wp_mono; [apply wp_response_high; by right|].
      intros ? d' [-> ->]. rewrite Ha. cbn [when]. unfold wp. cbn. by rewrite app_nil_r.
  - intros ? d1 Hd1. pose proof (au_tme _ _ _ _ _ Hd1) as (t1 & Ht1 & Hc1 & Hn1).
    apply wp_bind. eapply wp_mono; [by apply wp_upd_ntme|]. intros ? d2 ->.
    rewrite app_assoc. apply wp_auditing_send. destruct Hd1 as [_ Hf1 Hr1 Hw1].
    split; try done. eexists. split; [done|]. cbn. by rewrite Hc1.
Qed.

(** [teis'] has the dynamic TEIs of [l] free and those [teis] had *)
Definition freed (l : list Z) (teis teis' : list bool) : Prop :=
  length teis' = length teis ∧
  (∀ i : nat, teis !! i = Some false → teis' !! i = Some false) ∧
  ∀ tei, tei ∈ l → LAPD_MIN_DYN_TEI ≤ tei → tei_in_use teis' tei = Some false.

Lemma freed_refl teis : freed [] teis teis.
Proof. split; [done|]. split; [done|]. by intros tei ?%not_elem_of_nil. Qed.

Lemma freed_cons l tei teis teis1 teis2 :
  freed [tei] teis teis1 → freed l teis1 teis2 → freed (tei :: l) teis teis2.
Proof.
  intros (Hl1 & Hk1 & Hf1) (Hl2 & Hk2 & Hf2). split; [congruence|]. split; [auto|].
  intros x [->|Hx]%elem_of_cons Hmin; [|by apply Hf2]. apply Hk2, Hf1; [by left|done].
Qed.

Lemma freed_insert tei teis :
  LAPD_MIN_DYN_TEI ≤ tei ≤ LAPD_MAX_DYN_TEI → length teis = Z.to_nat LAPD_NUM_DYN_TEIS →
  freed [tei] teis (<[Z.to_nat (tei - LAPD_MIN_DYN_TEI) := false]> teis).
Proof.
  intros Ht Hlen. assert ((Z.to_nat (tei - LAPD_MIN_DYN_TEI) < length teis)%nat) as Hlt.
  { rewrite Hlen. unfold LAPD_NUM_DYN_TEIS, LAPD_MIN_DYN_TEI, LAPD_MAX_DYN_TEI in *. lia. }
  split; [by rewrite length_insert|]. split.
  - intros i Hi. destruct (decide (i = Z.to_nat (tei - LAPD_MIN_DYN_TEI))) as [->|].
    + by rewrite list_lookup_insert_eq by done.
    + by rewrite list_lookup_insert_ne.
  - intros x ->%list_elem_of_singleton _. unfold tei_in_use. by rewrite list_lookup_insert_eq.
Qed.

Lemma wp_auditing_free tc teis r w tei d :
  auditing tc teis r w d → length teis = Z.to_nat LAPD_NUM_DYN_TEIS → tei ≤ LAPD_MAX_DYN_TEI →
  wp (when ((LAPD_MIN_DYN_TEI <=? tei) && (tei <=? LAPD_MAX_DYN_TEI))
        (upd_ntme (λ t, set_n_teis
           (<[Z.to_nat (tei - LAPD_MIN_DYN_TEI) := false]> (n_teis t)) t)))
     (λ _ d', ∃ teis', auditing tc teis' r w d' ∧ freed [tei] teis teis') d.
Proof.
  intros Hd Hlen Hmax. rewrite (proj2 (Z.leb_le _ _) Hmax), andb_true_r.
  destruct (Z.leb_spec LAPD_MIN_DYN_TEI tei) as [Hmin|Hmin]; cbn [when].
  - destruct Hd as [(t & Ht & Hc & Hn) Hf Hr Hw].
    eapply wp_mono; [by apply wp_upd_ntme|]. intros ? d' ->.
    exists (<[Z.to_nat (tei - LAPD_MIN_DYN_TEI) := false]> teis).
    split; [|by apply freed_insert]. split; [|done..]. eexists. split; [done|]. cbn.
    by rewrite Hn.
  - exists teis. split; [done|]. split; [done|]. split; [done|].
    intros x ->%list_elem_of_singleton ?. lia.
Qed.

Lemma wp_check_second_low tc c a b l teis r w d :
  Forall (λ tei, 0 ≤ tei < 126) l → length teis = Z.to_nat LAPD_NUM_DYN_TEIS →
  auditing tc teis r w d →
  wp (forM l (lapd_ntme_tc_check_second (audit_check c a b)))
     (λ _ d', ∃ teis', auditing tc teis' r w d' ∧ freed l teis teis') d.
Proof.
  intros H. revert teis d. induction H as [|tei l Ht H IH]; intros teis d Hlen Hd; cbn [forM].
  { exists teis. split; [done|apply freed_refl]. }
  apply wp_bind.
  eapply wp_mono with (P := λ _ d', ∃ teis', auditing tc teis' r w d' ∧ freed [tei] teis teis').
  - unfold lapd_ntme_tc_check_second. apply wp_bind. eapply wp_mono; [by apply wp_response_low|].
    intros ? d' [-> ->]. apply wp_bind. eapply wp_mono; [by apply wp_response_low|].
    intros ? d' [-> ->]. apply wp_auditing_free; [done|done|].
    unfold LAPD_MAX_DYN_TEI. lia.
  - intros ? d1 (teis1 & Hd1 & Hf1).
    eapply wp_mono; [apply (IH teis1); [destruct Hf1; congruence|done]|].
    intros ? d2 (teis2 & Hd2 & Hf2). exists teis2. split; [done|]. by eapply freed_cons.
Qed.

Lemma wp_check_second_high tc c a b tei teis r w d :
  tei = 126 ∨ tei = 127 → length teis = Z.to_nat LAPD_NUM_DYN_TEIS → auditing tc teis r w d →
  wp (lapd_ntme_tc_check_second (audit_check c a b) tei)
     (λ _ d', ∃ teis' w', auditing tc teis' r (w ++ w') d' ∧ freed [] teis teis') d.
Proof.
  intros Htei Hlen Hd. unfold lapd_ntme_tc_check_second, lapd_ntme_send_tei_remove.
  apply wp_bind. eapply wp_mono; [by apply wp_response_high|]. intros ? d' [-> ->].
  apply wp_bind. eapply wp_mono; [by apply wp_response_high|]. intros ? d' [-> ->].
  destruct (_ && _).
  - destruct Htei as [-> | ->].
    + eapply wp_mono; [by apply wp_auditing_free|]. intros ? d' (teis' & Hd' & Hf1 & Hf2 & _).
      exists teis', []. rewrite app_nil_r. split; [done|]. split; [done|]. split; [done|].
      by intros x ?%not_elem_of_nil.
    + exists teis, []. rewrite app_nil_r. split; [done|apply freed_refl].
  - destruct (_ && _).
    + exists teis, []. rewrite app_nil_r. split; [done|apply freed_refl].
    + eapply wp_mono; [by apply (wp_auditing_send _ _ _ _ _ _ _ _ Hd)|]. intros ? d' Hd'.
      eexists teis, _. split; [exact Hd'|apply freed_refl].
Qed.

Definition audited (teis : list bool) (w : list (list Z)) (d' : lapd_device) : Prop :=
  ∃ t' w', net_tme d' = Some t' ∧ n_tei_checks t' = [] ∧ freed (seqZ 0 126) teis (n_teis t') ∧
    wire d' = w ++ w'.

Lemma wp_T201_second a b teis r w d :
  auditing (audit_check 1 a b) teis r w d → length teis = Z.to_nat LAPD_NUM_DYN_TEIS →
  wp (lapd_ntme_tc_T201_timer 0) (λ _, audited teis w) d.
Proof.
  intros Hd Hlen. pose proof (au_tme _ _ _ _ _ Hd) as (t & Ht & Hc & Hn).
  unfold lapd_ntme_tc_T201_timer. unfold the_ntme at 1, dv, deref.
  apply wp_bind. unfold wp at 1, mbind, M_bind, get. cbn [mret M_ret]. rewrite Ht.
  cbn [mret M_ret]. rewrite Hc. cbn [lookup list_lookup].
  change (tc_count _ =? 0) with false. change (tc_tei _ =? _) with true.
  apply wp_bind. rewrite all_teis_split. apply wp_forM_app.
  eapply wp_mono; [apply (wp_check_second_low (audit_check 1 a b) 1 a b _ teis r w d); [apply Forall_seqZ; lia|done..]|].
  intros ? d1 (teis1 & Hd1 & Hf1). cbn [forM]. apply wp_bind.
  assert (length teis1 = Z.to_nat LAPD_NUM_DYN_TEIS) as Hlen1 by (destruct Hf1; congruence).
  eapply wp_mono; [apply (wp_check_second_high (audit_check 1 a b) 1 a b 126 teis1 r w d1); [by left|done..]|].
  intros ? d2 (teis2 & w2 & Hd2 & Hf2). apply wp_bind.
  assert (length teis2 = Z.to_nat LAPD_NUM_DYN_TEIS) as Hlen2 by (destruct Hf2; congruence).
  eapply wp_mono; [apply (wp_check_second_high (audit_check 1 a b) 1 a b 127 teis2 r (w ++ w2) d2); [by right|done..]|].
  intros ? d3 (teis3 & w3 & Hd3 & Hf3). unfold wp at 1. cbn [mret M_ret].
  destruct Hd3 as [(t3 & Ht3 & Hc3 & Hn3) _ _ Hw3].
  eapply wp_mono; [by apply wp_upd_ntme|]. intros ? d4 ->.
  eexists _, (w2 ++ w3). split; [done|]. cbn. rewrite Hc3, Hn3. split; [done|].
  rewrite app_assoc. split; [|done].
  destruct Hf1 as (Hl1 & Hk1 & Hr1), Hf2 as (Hl2 & Hk2 & _), Hf3 as (Hl3 & Hk3 & _).
  split; [congruence|]. split; [auto|]. intros tei Htei Hmin. apply Hk3, Hk2. by apply Hr1.
Qed.

Lemma wp_audit_run first second t d :
  net_tme d = Some t → length (n_teis t) = Z.to_nat LAPD_NUM_DYN_TEIS → n_tei_checks t = [] →
  flushed d → Forall check_answer first → Forall check_answer second →
  wp (audit_run first second) (λ _, audited (n_teis t)
    (wire d ++ [tm_frame (role d) LAPD_TEI_MT_CHK_REQ 0 127] ++
     removals (role d) (length first) ++ [tm_frame (role d) LAPD_TEI_MT_CHK_REQ 0 127])) d.
Proof.
  intros Ht Hlen Hc Hf H1 H2. unfold audit_run, lapd_ntme_audit.
  apply wp_bind. eapply wp_mono with (P := λ _, auditing (audit_check 0 0 0) (n_teis t) (role d)
    (wire d ++ [tm_frame (role d) LAPD_TEI_MT_CHK_REQ 0 127])).
  { apply wp_bind. unfold wp at 1, dv, mbind, M_bind, get. cbn [mret M_ret]. rewrite Ht.
    unfold lapd_ntme_start_tei_check, the_ntme at 1, dv, deref. apply wp_bind.
    unfold wp at 1, mbind, M_bind, get. cbn [mret M_ret]. rewrite Ht. cbn [mret M_ret].
    rewrite Hc. cbn [existsb]. apply wp_bind. eapply wp_mono; [by apply wp_upd_ntme|].
    intros ? d1 ->. apply (wp_auditing_send (audit_check 0 0 0) (n_teis t) (role d) (wire d)).
    split; try done. eexists. split; [done|]. cbn. by rewrite Hc. }
  intros ? d1 Hd1. apply wp_bind. eapply wp_mono; [by apply (wp_answers_first first 0)|].
  intros ? d2 Hd2. rewrite Nat.add_0_r in Hd2. apply wp_bind.
  eapply wp_mono; [by apply (wp_T201_first (length first))|]. intros ? d3 Hd3. apply wp_bind.
  eapply wp_mono; [apply (wp_answers_second second (length first) 0 _ _ _ _ H2 Hd3)|]. intros ? d4 Hd4.
  rewrite <-app_assoc in Hd4. by eapply wp_T201_second.
Qed.

(** The audit of the network side does not read the answers of the terminals: it
    takes the address field of the frames for the TEIs.  However many terminals answer
    in its two windows, it ends with the TEIs 64 to 125 free, those in use included;
    and when 2 to 255 answers arrive in the first window, it has sent a removal of TEI
    127, which is addressed to every terminal. *)
Theorem audit_ignores_answers first second t d :
  net_tme d = Some t → length (n_teis t) = Z.to_nat LAPD_NUM_DYN_TEIS → n_tei_checks t = [] →
  flushed d → Forall check_answer first → Forall check_answer second →
  ∃ d' t', audit_run first second d = Done (tt, d') ∧ net_tme d' = Some t' ∧
    n_tei_checks t' = [] ∧
    (∀ tei, LAPD_MIN_DYN_TEI ≤ tei < LAPD_MAX_DYN_TEI → tei_in_use (n_teis t') tei = Some false) ∧
    ((2 ≤ length first ≤ 255)%nat → tm_frame (role d) LAPD_TEI_MT_REMOVE 0 127 ∈ wire d').
Proof.
  intros Ht Hlen Hc Hf H1 H2.
  pose proof (wp_audit_run first second t d Ht Hlen Hc Hf H1 H2) as H. unfold wp in H.
  destruct (audit_run first second d) as [[[] d']|]; [|done].
  destruct H as (t' & w' & Ht' & Hc' & (_ & _ & Hfree) & Hw). exists d', t'.
  split; [done|]. split; [done|]. split; [done|]. split.
  - intros tei Hr. apply Hfree; [|lia]. apply elem_of_seqZ.
    unfold LAPD_MIN_DYN_TEI, LAPD_MAX_DYN_TEI in Hr. lia.
  - intros Hn. rewrite Hw. unfold removals. rewrite u8_small by (unfold is_octet; lia).
    rewrite (proj2 (Z.ltb_lt _ _)) by lia. rewrite !elem_of_app, !elem_of_cons. tauto.
Qed.

(** ** Two terminals *)

(** an entity with the TEIs 64 and 65 in use *)
Definition sample_ntme : lapd_ntme :=
  {| n_T201 := 1 * HZ; n_tei_checks := []; n_cur_dyn_tei := 65;
     n_teis := true :: true :: replicate 61 false |}.
Definition sample_network : lapd_device :=
  set_net_tme (Some sample_ntme) (sample_device LAPD_INTF_ROLE_NT).

(** the request of a third terminal *)
Definition sample_request : lapd_tei_mgmt_frame :=
  {| tm_hdr := {| h_addr1 := 252; h_addr2 := 255; h_control := 3; h_control2 := 15 |};
     tm_entity := 15; tm_ri := 7; tm_message_type := LAPD_TEI_MT_REQUEST; tm_ai := 255 |}.

Lemma sample_network_flushed : flushed sample_network.
Proof. by intros _. Qed.

Lemma tei_request_assigns_free_witness :
  ∃ d', lapd_ntme_handle_tei_request sample_request sample_network = Done (tt, d') ∧
    tei_answered 7 127 sample_ntme sample_network d'.
Proof.
  apply (tei_request_assigns_free sample_request sample_ntme sample_network).
  - reflexivity.
  - reflexivity.
  - split; [reflexivity|vm_compute; split; discriminate].
  - exact sample_network_flushed.
  - vm_compute. reflexivity.
Defined.

(** both terminals answer the check for their TEI, 64 and 65 *)
Definition sample_answers : list (list Z) :=
  [tm_frame LAPD_INTF_ROLE_TE LAPD_TEI_MT_CHK_RES 1 64;
   tm_frame LAPD_INTF_ROLE_TE LAPD_TEI_MT_CHK_RES 2 65].

Lemma sample_answers_ok : Forall check_answer sample_answers.
Proof. repeat constructor; by eexists. Qed.

Lemma audit_ignores_answers_witness :
  ∃ d' t', audit_run sample_answers sample_answers sample_network = Done (tt, d') ∧
    net_tme d' = Some t' ∧ n_tei_checks t' = [] ∧
    (∀ tei, LAPD_MIN_DYN_TEI ≤ tei < LAPD_MAX_DYN_TEI → tei_in_use (n_teis t') tei = Some false) ∧
    ((2 ≤ length sample_answers ≤ 255)%nat →
     tm_frame LAPD_INTF_ROLE_NT LAPD_TEI_MT_REMOVE 0 127 ∈ wire d').
Proof.
  apply (audit_ignores_answers sample_answers sample_answers sample_ntme sample_network).
  - reflexivity.
  - reflexivity.
  - reflexivity.
  - exact sample_network_flushed.
  - exact sample_answers_ok.
  - exact sample_answers_ok.
Defined.
