(* ===== verification/LapdRelease.v ===== *)
(** * Releasing a socket returns

    [lapd_release_sock] runs what waits in the backlog, and that may put more into it.
    [adds n m]: [m] appends to the backlog items of a total [weight] of at most [n]; an
    item weighs one more than what its handling can append, so the fuel of
    [lapd_release_sock], five for each item, is enough. *)

From stdpp Require Import base list.
From Stdlib Require Import ZArith Lia.
From S2P Require Import Prelude.
From S2P Require Import Bits.
From S2P Require Import LapdProto.
From S2P Require Import LapdSock.
From S2P Require Import LapdOutput.
From S2P Require Import LapdTei.
From S2P Require Import LapdDatalink.
From S2P Require Import LapdInput.
From S2P Require Import LapdUser.
From S2P Require Import LapdPeer.
From S2P Require Import LapdSide.
From S2P Require Import LapdDelivery.
Local Open Scope Z_scope.

Definition item_weight (x : backlog_item) : nat :=
  match x with
  | BlFrame _ => 5
  | BlPrimitive LAPD_MDL_ERROR_INDICATION _ => 2
  | BlPrimitive _ _ => 1
  end.
Definition weight (b : list backlog_item) : nat := sum_list_with item_weight b.

(** [m] returns, or meets a fault of its own, with the backlog extended *)
Definition adds {A} (n : nat) (m : L A) : Prop := ∀ l,
  match m l with
  | Done (_, l') => ∃ b, sk_backlog (ls l') = sk_backlog (ls l) ++ b ∧ (weight b ≤ n)%nat
  | Fault f => f ≠ Diverges
  end.

Section adds.
Lemma adds_le {A} k n (m : L A) : adds k m → (k ≤ n)%nat → adds n m.
Proof.
  intros Hm Hk l. specialize (Hm l). destruct (m l) as [[a l']|]; [|done].
  destruct Hm as (b & Hb & Hw). exists b. split; [done|lia].
Qed.
Lemma adds_seq {A B} k n (m : L A) (f : A → L B) :
  adds k m → (∀ a, adds n (f a)) → adds (k + n) (m ≫= f).
Proof.
  intros Hm Hf l. specialize (Hm l). unfold mbind, M_bind.
  destruct (m l) as [[a l']|]; [|done]. destruct Hm as (b & Hb & Hw).
  specialize (Hf a l'). destruct (f a l') as [[c l2]|]; [|done].
  destruct Hf as (b2 & Hb2 & Hw2). exists (b ++ b2). rewrite Hb2, Hb, app_assoc. split; [done|].
  unfold weight in *. rewrite sum_list_with_app. lia.
Qed.
Lemma adds_bind {A B} n (m : L A) (f : A → L B) :
  adds 0 m → (∀ a, adds n (f a)) → adds n (m ≫= f).
Proof. intros Hm Hf. by apply (adds_seq 0 n). Qed.
Lemma adds_same {A} n (m : L A) :
  (∀ l, match m l with Done (_, l') => sk_backlog (ls l') = sk_backlog (ls l)
        | Fault f => f ≠ Diverges end) → adds n m.
Proof.
  intros Hm l. specialize (Hm l). destruct (m l) as [[a l']|]; [|done].
  exists []. rewrite Hm, app_nil_r. split; [done|]. unfold weight. cbn. lia.
Qed.
Lemma adds_ret {A} n (a : A) : adds n (mret a : L A).
Proof. by apply adds_same. Qed.
Lemma adds_sk {A} n (f : lapd_sock → A) : adds n (sk f).
Proof. by apply adds_same. Qed.
Lemma adds_get {B} n (m : lapd_link → L B) : (∀ l, adds n (m l)) → adds n (get ≫= m).
Proof. intros Hm l. apply (Hm l l). Qed.
Lemma adds_upd n f : (∀ s, sk_backlog (f s) = sk_backlog s) → adds n (upd f).
Proof. intros Hf. apply adds_same. intros l. apply Hf. Qed.
Lemma adds_deref {A} n (o : option A) : adds n (deref o : L A).
Proof. apply adds_same. intros l. by destruct o. Qed.
Lemma adds_fail {A} n f : f ≠ Diverges → adds n (fail f : L A).
Proof. intros Hf. by apply adds_same. Qed.
Lemma adds_lift {A} n (o : outcome A) :
  match o with Fault f => f ≠ Diverges | _ => True end → adds n (lift o : L A).
Proof. intros Ho. apply adds_same. intros l. by destruct o. Qed.
Lemma adds_when n b (m : L unit) : adds n m → adds n (when b m).
Proof. intros Hm. destruct b; [done|apply adds_ret]. Qed.
Lemma adds_forM {A} (q : list A) (f : A → L unit) : (∀ a, adds 0 (f a)) → adds 0 (forM q f).
Proof.
  intros Hf. induction q as [|a q IH]; cbn [forM]; [apply adds_ret|]. by apply adds_bind.
Qed.
(** an operation on the device that does not diverge *)
Definition returns {A} (m : D A) : Prop := ∀ d, m d ≠ Fault Diverges.
Lemma adds_on_dev {A} n (m : D A) : returns m → adds n (on_dev m).
Proof.
  intros Hm. apply adds_same. intros l. specialize (Hm (dev l)). unfold on_dev.
  destruct (m (dev l)) as [[a d]|]; [done|congruence].
Qed.
End adds.

Create HintDb adds.
#[export] Hint Resolve adds_ret adds_sk adds_deref : adds.
#[export] Hint Extern 2 (adds _ (upd _)) => by apply adds_upd : adds.
#[export] Hint Extern 2 (adds _ (fail _)) => by apply adds_fail : adds.

Ltac adds_step :=
  match goal with
  | |- adds _ (get ≫= _) => apply adds_get; intros ?
  | |- adds _ (_ ≫= _) => apply adds_bind; [solve [repeat adds_step]|intros ?]
  | |- adds _ (when _ _) => apply adds_when
  | |- adds _ (forM _ _) => apply adds_forM; intros ?
  | |- adds _ (if ?b then _ else _) => destruct b
  | |- adds _ (match ?x with _ => _ end) => destruct x
  | |- adds _ _ => solve [auto with adds]
  end.
Ltac solve_adds := repeat adds_step.

(** ** Devices *)

Lemma returns_ph_data_request skb : returns (lapd_ph_data_request skb).
Proof.
  intros d. unfold lapd_ph_data_request, dv, mbind, M_bind, get. cbn. by destruct (l1_state d).
Qed.
Lemma returns_dv {A} (f : lapd_device → A) : returns (dv f).
Proof. done. Qed.
Lemma returns_random w : returns (get_random_bytes w).
Proof. intros d. unfold get_random_bytes, dv, mbind, M_bind, get. cbn. by destruct (entropy d). Qed.
Lemma returns_bind {A B} (m : D A) (f : A → D B) :
  returns m → (∀ a, returns (f a)) → returns (m ≫= f).
Proof.
  intros Hm Hf d. specialize (Hm d). unfold mbind, M_bind.
  destruct (m d) as [[a d']|]; [apply Hf|congruence].
Qed.
Lemma returns_tm_send t ri ai : returns (lapd_tm_send t ri ai).
Proof. apply returns_bind; [done|intros; apply returns_ph_data_request]. Qed.
Lemma returns_ntme : returns the_ntme.
Proof. intros d. unfold the_ntme, dv, deref, mbind, M_bind, get. cbn. by destruct (net_tme d). Qed.
Lemma returns_tei_check tei : returns (lapd_ntme_start_tei_check tei).
Proof.
  unfold lapd_ntme_start_tei_check. apply returns_bind; [apply returns_ntme|]. intros t.
  destruct (existsb _ _); [done|]. apply returns_bind; [|intros; apply returns_tm_send].
  apply returns_bind; [apply returns_ntme|done].
Qed.
#[export] Hint Resolve returns_ph_data_request returns_dv returns_random returns_tm_send
  returns_tei_check adds_on_dev : adds.

(** ** Operations that leave the backlog alone *)

Section operations.
Context (n : nat).
Lemma adds_the_sap : adds n the_sap.
Proof.
  apply adds_bind; [apply adds_sk|intros r]. apply adds_bind; [apply adds_deref|intros r'].
  apply adds_on_dev. by destruct r'.
Qed.
Lemma adds_send_uframe f p : adds n (lapd_send_uframe f p).
Proof. unfold lapd_send_uframe, lapd_prepare_uframe. solve_adds. Qed.
Lemma adds_send_sframe c f p : adds n (lapd_send_sframe c f p).
Proof. unfold lapd_send_sframe, lapd_prepare_sframe. solve_adds. Qed.
Lemma adds_receive_queue_tail len x : adds n (receive_queue_tail len x).
Proof. unfold receive_queue_tail. solve_adds. Qed.
Lemma adds_the_utme : adds n the_utme.
Proof. unfold the_utme. solve_adds. Qed.
Lemma adds_change_state s : adds n (lapd_change_state s).
Proof. by apply adds_upd. Qed.
Lemma adds_stop_T200 : adds n lapd_stop_timer_T200.
Proof. by apply adds_upd. Qed.
Lemma adds_stop_T203 : adds n lapd_stop_timer_T203.
Proof. by apply adds_upd. Qed.
Lemma adds_discard_ui : adds n lapd_discard_ui_queue.
Proof. by apply adds_upd. Qed.
Lemma adds_discard_i : adds n lapd_discard_i_queue.
Proof. by apply adds_upd. Qed.
Lemma adds_unexpected : adds n lapd_unexpected.
Proof. by apply adds_ret. Qed.
End operations.
#[export] Hint Resolve adds_the_sap adds_send_uframe adds_send_sframe
  adds_receive_queue_tail adds_the_utme adds_change_state adds_stop_T200 adds_stop_T203
  adds_discard_ui adds_discard_i adds_unexpected : adds.
Section operations.
Context (n : nat).
Lemma adds_start_T200 : adds n lapd_start_timer_T200.
Proof. unfold lapd_start_timer_T200. solve_adds. Qed.
Lemma adds_start_T203 : adds n lapd_start_timer_T203.
Proof. unfold lapd_start_timer_T203. solve_adds. Qed.
Lemma adds_dl_primitive t : adds n (lapd_dl_primitive t).
Proof. unfold lapd_dl_primitive. solve_adds. Qed.
Lemma adds_upd_utme f : adds n (upd_utme f).
Proof. unfold upd_utme. solve_adds. Qed.
Lemma adds_window_closed : adds n window_closed.
Proof. unfold window_closed. solve_adds. Qed.
Lemma adds_clear_exceptions : adds n lapd_clear_exception_conditions_procedure.
Proof. unfold lapd_clear_exception_conditions_procedure. solve_adds. Qed.
Lemma adds_reset_variables : adds n reset_variables.
Proof. unfold reset_variables. solve_adds. Qed.
Lemma adds_unit_data_indication skb : adds n (lapd_dl_unit_data_indication skb).
Proof. unfold lapd_dl_unit_data_indication. solve_adds. Qed.
Lemma adds_data_indication skb : adds n (lapd_dl_data_indication skb).
Proof. unfold lapd_dl_data_indication. solve_adds. Qed.
End operations.
#[export] Hint Resolve adds_start_T200 adds_start_T203 adds_dl_primitive adds_upd_utme
  adds_window_closed adds_clear_exceptions adds_reset_variables adds_unit_data_indication
  adds_data_indication : adds.

Lemma ack_loop_returns n_r h q :
  match ack_loop n_r h q with Fault f => f ≠ Diverges | _ => True end.
Proof.
  induction q as [|b q IH]; cbn [ack_loop]; [done|]. destruct (decide _); [done|].
  destruct (skb_n_s b) as [n_s|]; [|done]. by destruct (n_s =? n_r).
Qed.
Lemma adds_ack_loop n n_r h q : adds n (lift (ack_loop n_r h q)).
Proof. apply adds_lift, ack_loop_returns. Qed.
#[export] Hint Resolve adds_ack_loop : adds.
Lemma adds_run_i_queue_loop n q : adds n (run_i_queue_loop q).
Proof.
  revert n. induction q as [|b q IH]; intros n; cbn [run_i_queue_loop]; [apply adds_ret|].
  unfold transmit_iframe. solve_adds.
Qed.
#[export] Hint Resolve adds_run_i_queue_loop : adds.
Section operations.
Context (n : nat).
Lemma adds_establish : adds n lapd_establish_datalink_procedure.
Proof. unfold lapd_establish_datalink_procedure. solve_adds. Qed.
Lemma adds_enquiry_response : adds n lapd_enquiry_response_procedure.
Proof. unfold lapd_enquiry_response_procedure. solve_adds. Qed.
Lemma adds_run_i_queue : adds n lapd_run_i_queue.
Proof. unfold lapd_run_i_queue. solve_adds. Qed.
Lemma adds_ack k : adds n (ack k).
Proof. unfold ack, lapd_ack_frames. solve_adds. Qed.
Lemma adds_set_own_busy : adds n lapd_set_own_receiver_busy.
Proof. unfold lapd_set_own_receiver_busy. solve_adds. Qed.
Lemma adds_clear_own_busy : adds n lapd_clear_own_receiver_busy.
Proof. unfold lapd_clear_own_receiver_busy. solve_adds. Qed.
Lemma adds_iframe_receive h skb c : adds n (iframe_receive h skb c).
Proof. unfold iframe_receive. solve_adds. Qed.
Lemma adds_assign_request t : adds n (lapd_mdl_assign_request t).
Proof. unfold lapd_mdl_assign_request, lapd_establish_datalink_procedure. solve_adds. Qed.
Lemma adds_remove_request : adds n lapd_mdl_remove_request.
Proof. unfold lapd_mdl_remove_request. solve_adds. Qed.
Lemma adds_error_response : adds n lapd_mdl_error_response.
Proof. unfold lapd_mdl_error_response. solve_adds. Qed.
Lemma adds_persistent : adds n lapd_persistent_deactivation.
Proof. unfold lapd_persistent_deactivation. solve_adds. Qed.
Lemma adds_discard_if : adds n discard_if_outstanding.
Proof. unfold discard_if_outstanding. solve_adds. Qed.
End operations.
#[export] Hint Resolve adds_establish adds_enquiry_response adds_run_i_queue adds_ack
  adds_set_own_busy adds_clear_own_busy adds_iframe_receive adds_assign_request
  adds_remove_request adds_error_response adds_persistent adds_discard_if : adds.
Section operations.
Context (n : nat).
Lemma adds_invoke : adds n lapd_invoke_retransmission_procedure.
Proof. unfold lapd_invoke_retransmission_procedure. solve_adds. Qed.
Lemma adds_ack_7 k : adds n (ack_7 k).
Proof. unfold ack_7. solve_adds. Qed.
End operations.
#[export] Hint Resolve adds_invoke adds_ack_7 : adds.

(** ** What can be appended *)

Lemma adds_primitive n t i :
  (match t with LAPD_MDL_ERROR_INDICATION => 2 | _ => 1 end ≤ n)%nat →
  adds n (upd (λ s, set_sk_backlog (sk_backlog s ++ [BlPrimitive t i]) s)).
Proof.
  intros Hn l. eexists. split; [done|]. unfold weight. cbn [sum_list_with]. cbn.
  destruct t; cbn in *; lia.
Qed.

Lemma adds_owned {A} n (m1 m2 : L A) :
  adds n m1 → adds n m2 → adds n (sk sk_owned ≫= λ o : bool, if o then m1 else m2).
Proof. intros H1 H2. apply adds_bind; [apply adds_sk|]. by intros []. Qed.

(** the removal of the TEI, which is the end of the recursion *)
Lemma adds_depth_remove : adds 1 (mdl_primitive_depth 1 LAPD_MDL_REMOVE_REQUEST 0).
Proof. apply adds_owned; [by apply adds_primitive|apply adds_remove_request]. Qed.

Lemma adds_error_indication i : adds 1 (lapd_mdl_error_indication (mdl_primitive_depth 1) i).
Proof.
  unfold lapd_mdl_error_indication. apply adds_when, adds_get. intros l.
  destruct (decide _); apply adds_when; [solve_adds|].
  unfold lapd_utme_tei_remove, lapd_utme_change_state, for_the_socket.
  do 4 (apply adds_bind; [solve_adds|intros ?]). apply adds_when, adds_depth_remove.
Qed.

Lemma adds_mdl_error n i : (2 ≤ n)%nat → adds n (mdl_error i).
Proof.
  intros Hn. apply adds_owned; [by apply adds_primitive|].
  eapply adds_le; [apply adds_error_indication|lia].
Qed.
Lemma adds_error_then {A} n i (m : unit → L A) :
  (2 ≤ n)%nat → adds (n - 2) (m tt) → adds n (mdl_error i ≫= m).
Proof.
  intros Hn Hm. replace n with (2 + (n - 2))%nat by lia.
  apply adds_seq; [by apply adds_mdl_error|]. by intros [].
Qed.
Lemma adds_assoc {A B C} n (m : L A) (f : A → L B) (g : B → L C) :
  adds n (m ≫= λ a, f a ≫= g) → adds n ((m ≫= f) ≫= g).
Proof.
  intros H l. specialize (H l). revert H. unfold mbind, M_bind.
  by destruct (m l) as [[a l']|].
Qed.

Ltac adds_more :=
  match goal with
  | |- adds _ (mdl_error _ ≫= _) => apply adds_error_then; [lia|cbn [Nat.sub]]
  | |- adds _ (mdl_error _) => apply adds_mdl_error; lia
  | |- adds _ ((_ ≫= _) ≫= _) => apply adds_assoc
  | |- adds _ ((if ?b then _ else _) ≫= _) => destruct b
  | |- adds _ (when ?b _ ≫= _) => destruct b; cbn [when]
  | |- adds _ ((match ?b with _ => _ end) ≫= _) => destruct b
  | _ => adds_step
  end.
Ltac solve_adds ::= repeat adds_more.

Lemma adds_frame_reject e : adds 2 (lapd_frame_reject e).
Proof. unfold lapd_frame_reject. solve_adds. Qed.
Lemma adds_data_hdr n skb : adds n (lift (data_hdr_e skb)).
Proof.
  apply adds_lift. destruct skb as [|? [|? [|? [|? ?]]]]; done.
Qed.
#[export] Hint Resolve adds_data_hdr : adds.

Lemma adds_iframe skb : adds 4 (lapd_socket_handle_iframe skb).
Proof.
  unfold lapd_socket_handle_iframe, iframe_7, iframe_8, recover_7,
    lapd_nr_error_recovery_procedure, lapd_frame_reject. solve_adds.
Qed.
Lemma adds_sframe skb : adds 4 (lapd_socket_handle_sframe skb).
Proof.
  unfold lapd_socket_handle_sframe, lapd_socket_handle_sframe_rr, lapd_socket_handle_sframe_rnr,
    lapd_socket_handle_sframe_rej, sframe_8, ack_8, recover_7, recover_8, sframe_poll_7,
    lapd_nr_error_recovery_procedure, lapd_frame_reject. solve_adds.
Qed.
Lemma adds_uframe skb : adds 4 (lapd_socket_handle_uframe skb).
Proof.
  unfold lapd_socket_handle_uframe, lapd_socket_handle_uframe_sabme,
    lapd_socket_handle_uframe_dm, lapd_socket_handle_uframe_ui, lapd_socket_handle_uframe_disc,
    lapd_socket_handle_uframe_ua, lapd_socket_handle_uframe_frmr, lapd_socket_handle_uframe_xid,
    lapd_frame_reject. solve_adds.
Qed.

(** ** The loop *)

Lemma adds_dlc_recv x : adds (item_weight x - 1) (lapd_dlc_recv x).
Proof.
  destruct x as [skb|t i]; cbn [lapd_dlc_recv].
  - unfold dlc_recv_frame. apply adds_bind; [apply adds_data_hdr|]. intros h.
    destruct (lapd_frame_type _); [apply adds_iframe|apply adds_sframe|apply adds_uframe].
  - apply (adds_le (item_weight (BlPrimitive t i) - 1 + 0)); [|lia].
    apply adds_seq; [|intros; apply adds_ret].
    destruct t; cbn [mdl_recv item_weight].
    + apply adds_assign_request.
    + apply adds_remove_request.
    + apply adds_error_response.
    + apply adds_error_indication.
    + apply adds_persistent.
Qed.

Lemma adds_backlog_rcv x : adds (item_weight x - 1) (backlog_rcv x).
Proof.
  unfold backlog_rcv. apply adds_bind; [apply adds_sk|]. intros p. destruct (p =? _).
  - destruct x; unfold lapd_mgmt_queue_primitive; solve_adds.
  - apply (adds_le (item_weight x - 1 + 0)); [|lia].
    apply adds_seq; [apply adds_dlc_recv|intros; apply adds_ret].
Qed.

Definition released (o : outcome (unit * lapd_link)) : Prop :=
  match o with
  | Done (_, l') => sk_owned (ls l') = false ∧ sk_backlog (ls l') = []
  | Fault f => f ≠ Diverges
  end.

Lemma release_loop_returns fuel l :
  (weight (sk_backlog (ls l)) < fuel)%nat → released (release_loop fuel l).
Proof.
  revert l. induction fuel as [|fuel IH]; intros l Hw; [lia|]. cbn [release_loop].
  unfold sk, mbind, M_bind, get. cbn [mret M_ret].
  destruct (sk_backlog (ls l)) as [|x b] eqn:Hb; [by split|].
  unfold upd, modify. pose proof (adds_backlog_rcv x (set_ls (set_sk_backlog b (ls l)) l)) as H.
  destruct (backlog_rcv x _) as [[[] l']|]; [|done].
  destruct H as (b' & Hb' & Hx). apply IH. rewrite Hb'. cbn.
  unfold weight in *. rewrite sum_list_with_app. cbn in Hw.
  assert (1 ≤ item_weight x)%nat by (destruct x as [|[]]; cbn; lia). lia.
Qed.

Lemma weight_bound b : (weight b ≤ 5 * length b)%nat.
Proof.
  induction b as [|x b IH]; [done|]. unfold weight in *. cbn [sum_list_with length].
  assert (item_weight x ≤ 5)%nat by (destruct x as [|[]]; cbn; lia). lia.
Qed.

(** C23. Giving a socket back runs everything that waited for it, including what that
    puts into the backlog again, and ends: whatever the socket and its backlog, the loop
    stops with the socket free and nothing left in the backlog, unless a handler meets a
    fault of its own. *)
Theorem release_sock_returns l : released (lapd_release_sock l).
Proof.
  unfold lapd_release_sock. unfold sk, mbind, M_bind, get. cbn [mret M_ret].
  apply release_loop_returns. pose proof (weight_bound (sk_backlog (ls l))). lia.
Qed.
