(* ===== verification/VgsmText.v ===== *)
(** * Text codecs of chan_vgsm

    [src/chan_vgsm/]: the GSM alphabet ([gsm_charset.c]), its packing in septets
    ([7bit.c]), semi-octets ([bcd.c]), [base64.c], [quotprint.c], and the parsing
    helpers of [util.c] and [number.c].

    A buffer is the list of its octets, a [wchar_t] string the list of its characters
    without the terminator.  An access outside a buffer is the fault [OutOfBounds].  A
    C string argument is the list of the characters before its terminator. *)

From stdpp Require Import base list.
From Stdlib Require Import ZArith Lia.
From S2P Require Import Prelude.
From S2P Require Import Bits.
Local Open Scope Z_scope.

(** ** Buffers *)

(** [buf[i]] *)
Definition rd (buf : list Z) (i : Z) : outcome Z :=
  if i <? 0 then Fault OutOfBounds
  else match buf !! Z.to_nat i with Some b => Done b | None => Fault OutOfBounds end.

(** [buf[i] = v] *)
Definition wr (buf : list Z) (i v : Z) : outcome (list Z) :=
  if (i <? 0) || (Z.of_nat (length buf) <=? i) then Fault OutOfBounds
  else Done (<[Z.to_nat i := v]> buf).

(** [buf[i] |= v] for octets *)
Definition wr_or (buf : list Z) (i v : Z) : outcome (list Z) :=
  b ← rd buf i; wr buf i (u8 (Z.lor b v)).

(** the octets [vs] from [buf + i] on *)
Fixpoint wr_all (buf : list Z) (i : Z) (vs : list Z) : outcome (list Z) :=
  match vs with
  | [] => Done buf
  | v :: vs => buf ← wr buf i v; wr_all buf (i + 1) vs
  end.

(** [strlen], [strcpy]: what is before the terminator of an array *)
Fixpoint c_string (a : list Z) : outcome (list Z) :=
  match a with
  | [] => Fault OutOfBounds
  | c :: a => if c =? 0 then Done [] else s ← c_string a; Done (c :: s)
  end.

(** [strncpy] into an array of [n] characters *)
Definition strncpy (n : nat) (s : list Z) : list Z :=
  take n s ++ replicate (n - length s) 0.

(** ** [util.c] *)

Definition chr_0 : Z := 48.
Definition chr_9 : Z := 57.
Definition chr_A : Z := 65.
Definition chr_F : Z := 70.
Definition chr_a : Z := 97.
Definition chr_f : Z := 102.
Definition chr_quote : Z := 34.
Definition chr_comma : Z := 44.
Definition chr_plus : Z := 43.

Definition char_to_hexdigit (c : Z) : Z :=
  if (chr_0 <=? c) && (c <=? chr_9) then c - chr_0
  else if (chr_a <=? c) && (c <=? chr_f) then c - chr_a + 10
  else if (chr_A <=? c) && (c <=? chr_F) then c - chr_A + 10
  else -1.

(** where [get_token] is: at the head of its loop, in the loop over a quoted string,
    after that loop was left because the token is full, after the [if] over quotes *)
Inductive token_at : Set := AtHead | AtQuoted | AtFull | AtPlain.

(** The loop.  [tok]: what is written; [*s] is the result's second part when the loop
    sets it.  The array has [size] characters. *)
Fixpoint get_token_loop (size : nat) (at_ : token_at) (p tok : list Z) :
    outcome (list Z * option (list Z)) :=
  match p with
  | [] => Done (tok, Some [])
  | c :: p' =>
      let put := if (length tok <? size)%nat then Done (tok ++ [c]) else Fault OutOfBounds in
      let full t := (length t =? size - 2)%nat in
      let plain :=
        if c =? chr_comma then Done (tok, Some p')
        else t ← put;
             if full t then Done (t, None) else get_token_loop size AtHead p' t in
      match at_ with
      | AtHead => if c =? chr_quote then get_token_loop size AtQuoted p' tok else plain
      | AtQuoted =>
          if c =? chr_quote then get_token_loop size AtPlain p' tok
          else t ← put;
               if full t then get_token_loop size AtFull p' t
               else get_token_loop size AtQuoted p' t
      | AtFull => if c =? chr_quote then get_token_loop size AtPlain p' tok else plain
      | AtPlain => plain
      end
  end.

(** [token] and the new [*s]; [None]: NULL, with [*s] where it was *)
Definition get_token (s : list Z) (size : nat) : outcome (option (list Z * list Z)) :=
  r ← get_token_loop size AtHead s [];
  match r with
  | (_, None) => Done None
  | (tok, Some rest) =>
      if decide (s = []) then Done None
      else if (length tok <? size)%nat then Done (Some (tok, rest)) else Fault OutOfBounds
  end.

(** ** [bcd.c] *)

Definition vgsm_nibbles_to_decimal (val : Z) : Z :=
  u8 (Z.land val 0x0f * 10 + Z.shiftr (Z.land val 0xf0) 4).
Definition vgsm_decimal_to_nibbles (val : Z) : Z :=
  u8 (Z.lor (Z.quot val 10) (Z.shiftl (Z.rem val 10) 4)).

Definition vgsm_bcd_to_char (bcd : Z) : Z :=
  if bcd =? 0xa then 42 else if bcd =? 0xb then 35 else if bcd =? 0xc then 97
  else if bcd =? 0xd then 98 else if bcd =? 0xe then 99 else if bcd =? 0xf then 100
  else chr_0 + bcd.

Definition vgsm_char_to_bcd (c : Z) : Z :=
  if c =? 42 then 0xa else if c =? 35 then 0xb else if c =? 97 then 0xc
  else if c =? 98 then 0xd else if c =? 99 then 0xe else if c =? 100 then 0xf
  else u8 (c - chr_0).

(** [n] turns of the loop from nibble [i] on; [pos] characters are written; [None]: -1 *)
Fixpoint bcd_to_text_loop (buf : list Z) (n : nat) (i pos str_len : Z) :
    outcome (option (list Z)) :=
  match n with
  | O => Done (Some [])
  | S n =>
      o ← rd buf (Z.quot i 2);
      let bcd := if Z.rem i 2 =? 0 then Z.land o 0x0f else Z.shiftr (Z.land o 0xf0) 4 in
      if bcd =? 0xf then bcd_to_text_loop buf n (i + 1) pos str_len
      else if str_len - 1 <=? pos then Done None
      else r ← bcd_to_text_loop buf n (i + 1) (pos + 1) str_len;
           Done (option_map (cons (vgsm_bcd_to_char bcd)) r)
  end.

(** the text [vgsm_bcd_to_text] leaves in [str], without its terminator *)
Definition vgsm_bcd_to_text (buf : list Z) (nibbles str_len : Z) : outcome (option (list Z)) :=
  bcd_to_text_loop buf (Z.to_nat nibbles) 0 0 str_len.

(** the octets [vgsm_text_to_bcd] writes *)
Fixpoint vgsm_text_to_bcd (str : list Z) : list Z :=
  match str with
  | [] => []
  | [c] => [u8 (Z.lor (vgsm_char_to_bcd c) 0xf0)]
  | c :: c' :: str =>
      u8 (Z.lor (vgsm_char_to_bcd c) (Z.shiftl (vgsm_char_to_bcd c') 4)) :: vgsm_text_to_bcd str
  end.

(** ** [gsm_charset.c] *)

(** the rows [(c, c2, wc)] of the table *)
Definition vgsm_gsm_wc_translations : list (Z * Z * Z) :=
  [(0, 0, 64); (1, 0, 163); (2, 0, 36); (3, 0, 165); (4, 0, 232); (5, 0, 233); (6, 0, 249);
   (7, 0, 236); (8, 0, 242); (9, 0, 199); (10, 0, 10); (11, 0, 216); (12, 0, 248);
   (13, 0, 13); (14, 0, 197); (15, 0, 229); (16, 0, 916); (17, 0, 95); (18, 0, 934);
   (19, 0, 915); (20, 0, 923); (21, 0, 937); (22, 0, 928); (23, 0, 936); (24, 0, 931);
   (25, 0, 920); (26, 0, 926); (27, 10, 12); (27, 20, 94); (27, 40, 123); (27, 41, 125);
   (27, 47, 92); (27, 60, 91); (27, 61, 126); (27, 62, 93); (27, 64, 124); (27, 101, 8364);
   (28, 0, 198); (29, 0, 230); (30, 0, 223); (31, 0, 201); (32, 0, 32); (33, 0, 33);
   (34, 0, 34); (35, 0, 35); (36, 0, 164); (37, 0, 37); (38, 0, 38); (39, 0, 39);
   (40, 0, 40); (41, 0, 41); (42, 0, 42); (43, 0, 43); (44, 0, 44); (45, 0, 45);
   (46, 0, 46); (47, 0, 47); (48, 0, 48); (49, 0, 49); (50, 0, 50); (51, 0, 51);
   (52, 0, 52); (53, 0, 53); (54, 0, 54); (55, 0, 55); (56, 0, 56); (57, 0, 57);
   (58, 0, 58); (59, 0, 59); (60, 0, 60); (61, 0, 61); (62, 0, 62); (63, 0, 63);
   (64, 0, 161); (65, 0, 65); (66, 0, 66); (67, 0, 67); (68, 0, 68); (69, 0, 69);
   (70, 0, 70); (71, 0, 71); (72, 0, 72); (73, 0, 73); (74, 0, 74); (75, 0, 75);
   (76, 0, 76); (77, 0, 77); (78, 0, 78); (79, 0, 79); (80, 0, 80); (81, 0, 81);
   (82, 0, 82); (83, 0, 83); (84, 0, 84); (85, 0, 85); (86, 0, 86); (87, 0, 87);
   (88, 0, 88); (89, 0, 89); (90, 0, 90); (91, 0, 196); (92, 0, 214); (93, 0, 209);
   (94, 0, 220); (95, 0, 167); (96, 0, 191); (97, 0, 97); (98, 0, 98); (99, 0, 99);
   (100, 0, 100); (101, 0, 101); (102, 0, 102); (103, 0, 103); (104, 0, 104);
   (105, 0, 105); (106, 0, 106); (107, 0, 107); (108, 0, 108); (109, 0, 109);
   (110, 0, 110); (111, 0, 111); (112, 0, 112); (113, 0, 113); (114, 0, 114);
   (115, 0, 115); (116, 0, 116); (117, 0, 117); (118, 0, 118); (119, 0, 119);
   (120, 0, 120); (121, 0, 121); (122, 0, 122); (123, 0, 228); (124, 0, 246);
   (125, 0, 241); (126, 0, 252); (127, 0, 224)].

Definition vgsm_gsm_to_wc (gsm : Z) : Z :=
  match find (λ r, fst (fst r) =? gsm) vgsm_gsm_wc_translations with
  | Some (_, _, wc) => wc
  | None => 0
  end.

(** the one or two characters of the GSM alphabet; none: it cannot be translated *)
Definition vgsm_wc_to_gsm (wc : Z) : list Z :=
  match find (λ r, snd r =? wc) vgsm_gsm_wc_translations with
  | Some (c, c2, _) => if c2 =? 0 then [c] else [c; c2]
  | None => []
  end.

(** ** [7bit.c] *)

Definition vgsm_octets_to_septets (octets : Z) : Z :=
  Z.quot (octets * 8) 7 + (if Z.rem (octets * 8) 7 =? 0 then 0 else 1).
Definition vgsm_septets_to_octets (septets : Z) : Z :=
  Z.quot (septets * 7) 8 + (if Z.rem (septets * 7) 8 =? 0 then 0 else 1).

(** the septet [n], [i + offset] of the code; [val] is 16 bits wide *)
Definition read_septet (buf : list Z) (n : Z) : outcome Z :=
  let j := Z.quot ((n + 1) * 7) 8 in
  let shift := 8 - Z.rem n 8 in
  lo ← (if j =? 0 then Done 0 else rd buf (j - 1));
  hi ← (if 1 <? shift then b ← rd buf j; Done (Z.shiftl b 8) else Done 0);
  Done (Z.shiftr (Z.land (Z.lor lo hi) (Z.land (Z.shiftl 0x7f shift) 0xffff)) shift).

(** [k] turns of the loop, from the septet [n] on *)
Fixpoint septets_to_wc (buf : list Z) (k : nat) (n : Z) : outcome (list Z) :=
  match k with
  | O => Done []
  | S k =>
      c ← read_septet buf n;
      r ← septets_to_wc buf k (n + 1);
      Done (vgsm_gsm_to_wc c :: r)
  end.

(** the text left in [out], an array of [outsize] characters; the terminator is
    written even where there is no room for it *)
Definition vgsm_7bit_to_wc (buf : list Z) (septets offset outsize : Z) : outcome (list Z) :=
  if outsize <? 1 then Fault OutOfBounds
  else septets_to_wc buf (Z.to_nat (Z.min (outsize - 1) septets)) offset.

(** [out] of the code is [buf + base] *)
Definition vgsm_write_septet (base : Z) (buf : list Z) (septet c : Z) : outcome (list Z) :=
  let outpos := Z.quot ((septet + 1) * 7) 8 in
  let shift := Z.rem septet 8 in
  if 0 <? outpos then
    buf ← wr_or buf (base + outpos - 1) (Z.land (Z.shiftl c (8 - shift)) 0xff);
    wr_or buf (base + outpos) (Z.shiftr c shift)
  else wr_or buf (base + outpos) c.

(** the loop, with [outsep] septets written; a negative result is an error.  The test for room comes after the first septet too. *)
Fixpoint wc_to_7bit_loop (base max_septets offset : Z) (in_ buf : list Z) (outsep : Z) :
    outcome (list Z * Z) :=
  match in_ with
  | [] => Done (buf, outsep)
  | wc :: in_ =>
      match vgsm_wc_to_gsm wc with
      | [] => wc_to_7bit_loop base max_septets offset in_ buf outsep
      | c :: cs =>
          if max_septets <=? outsep then Done (buf, - ENOSPC)
          else
            buf ← vgsm_write_septet base buf (outsep + offset) c;
            let outsep := outsep + 1 in
            if max_septets <=? outsep then Done (buf, - ENOSPC)
            else
              match cs with
              | [] => wc_to_7bit_loop base max_septets offset in_ buf outsep
              | c2 :: _ =>
                  buf ← vgsm_write_septet base buf (outsep + offset) c2;
                  wc_to_7bit_loop base max_septets offset in_ buf (outsep + 1)
              end
      end
  end.

Definition vgsm_wc_to_7bit (base : Z) (in_ buf : list Z) (max_septets offset : Z) :
    outcome (list Z * Z) :=
  wc_to_7bit_loop base max_septets offset in_ buf 0.

(** ** [base64.c] *)

Definition base64_value : list Z :=
  [64; -1; -1; -1; -1; -1; -1; -1; -1; -1; -1; -1; -1; -1; -1; -1; -1; -1; -1; -1; -1; -1;
   -1; -1; -1; -1; -1; -1; -1; -1; -1; -1; -1; -1; -1; -1; -1; -1; -1; -1; -1; -1; -1; 62;
   -1; -1; -1; 63; 52; 53; 54; 55; 56; 57; 58; 59; 60; 61; -1; -1; -1; 0; -1; -1; -1; 0; 1;
   2; 3; 4; 5; 6; 7; 8; 9; 10; 11; 12; 13; 14; 15; 16; 17; 18; 19; 20; 21; 22; 23; 24; 25;
   -1; -1; -1; -1; -1; -1; 26; 27; 28; 29; 30; 31; 32; 33; 34; 35; 36; 37; 38; 39; 40; 41;
   42; 43; 44; 45; 46; 47; 48; 49; 50; 51; -1; -1; -1; -1; -1; -1; -1; -1; -1; -1; -1; -1;
   -1; -1; -1; -1; -1; -1; -1; -1; -1; -1; -1; -1; -1; -1; -1; -1; -1; -1; -1; -1; -1; -1;
   -1; -1; -1; -1; -1; -1; -1; -1; -1; -1; -1; -1; -1; -1; -1; -1; -1; -1; -1; -1; -1; -1;
   -1; -1; -1; -1; -1; -1; -1; -1; -1; -1; -1; -1; -1; -1; -1; -1; -1; -1; -1; -1; -1; -1;
   -1; -1; -1; -1; -1; -1; -1; -1; -1; -1; -1; -1; -1; -1; -1; -1; -1; -1; -1; -1; -1; -1;
   -1; -1; -1; -1; -1; -1; -1; -1; -1; -1; -1; -1; -1; -1; -1; -1; -1; -1; -1; -1; -1; -1;
   -1; -1; -1; -1; -1; -1; -1; -1; -1; -1; -1].

(** the loop over the characters: [outpos] octets are written, [noctets] characters
    of a quantum are in [bits] *)
Fixpoint base64_decode_loop (src : list Z) (outpos noctets bits dest_size : Z) : list Z :=
  match src with
  | [] => []
  | c :: src =>
      if dest_size <=? outpos + 4 then []
      else
        let v := nth (Z.to_nat c) base64_value (-1) in
        if v <? 0 then base64_decode_loop src outpos noctets bits dest_size
        else
          let bits := (Z.shiftl bits 6 + v) mod 2 ^ 32 in
          if noctets + 1 <? 4 then base64_decode_loop src outpos (noctets + 1) bits dest_size
          else
            Z.land (Z.shiftr bits 16) 0xff :: Z.land (Z.shiftr bits 8) 0xff :: Z.land bits 0xff ::
            base64_decode_loop src (outpos + 3) 0 0 dest_size
  end.

(** the octets left in [dest], before the terminator *)
Definition base64_decode (src : list Z) (dest_size : Z) : outcome (list Z) :=
  if dest_size <? 1 then Fault OutOfBounds
  else Done (base64_decode_loop src 0 0 0 dest_size).

(** "A...Za...z0...9+/" *)
Definition codes : list Z := seqZ 65 26 ++ seqZ 97 26 ++ seqZ 48 10 ++ [43; 47].
Definition code (i : Z) : Z := nth (Z.to_nat (Z.land i 0x3F)) codes 0.

Fixpoint base64_chars (in_ : list Z) : list Z :=
  match in_ with
  | [] => []
  | [a] => [code (Z.shiftr a 2); code (Z.shiftl (Z.land a 3) 4 + Z.shiftr 0 4); 61; 61]
  | [a; b] =>
      [code (Z.shiftr a 2); code (Z.shiftl (Z.land a 3) 4 + Z.shiftr b 4);
       code (Z.shiftl (Z.land b 0xf) 2); 61]
  | a :: b :: c :: in_ =>
      code (Z.shiftr a 2) :: code (Z.shiftl (Z.land a 3) 4 + Z.shiftr b 4) ::
      code (Z.shiftl (Z.land b 0xf) 2 + Z.shiftr c 6) :: code c :: base64_chars in_
  end.

(** the result, [*outlen] and the text in [out]; [outlen] is compared as an unsigned
    value *)
Definition base64_encode (in_ : list Z) (outlen : Z) : Z * Z * list Z :=
  let len2 := 4 * Z.quot (Z.of_nat (length in_) + 2) 3 in
  if (0 <=? outlen) && (outlen <? len2 + 1) then (- ENOSPC, len2 + 1, [])
  else (0, Z.of_nat (length (base64_chars in_)), base64_chars in_).

(** ** [quotprint.c] *)

(** the loop, with [n] octets written *)
Fixpoint quoted_printable_loop (src : list Z) (n dest_size : Z) : option (list Z) :=
  match src with
  | [] => Some []
  | c :: src =>
      if dest_size - 2 <=? n then Some []
      else if c =? 61 then
        match src with
        | [] => None
        | h :: src =>
            if h =? 10 then quoted_printable_loop src n dest_size
            else if char_to_hexdigit h <? 0 then None
            else
              match src with
              | [] => None
              | l :: src =>
                  if char_to_hexdigit l <? 0 then None
                  else cons (u8 (Z.shiftl (char_to_hexdigit h) 4 + char_to_hexdigit l)) <$>
                       quoted_printable_loop src (n + 1) dest_size
              end
        end
      else cons (if c =? 95 then 32 else c) <$> quoted_printable_loop src (n + 1) dest_size
  end.

(** the octets left in [dest]; [inr]: the negative result *)
Definition quoted_printable_decode (src : list Z) (dest_size : Z) : outcome (list Z + Z) :=
  if dest_size <? 1 then Fault OutOfBounds
  else match quoted_printable_loop src 0 dest_size with
       | Some out => Done (inl out)
       | None => Done (inr (- EINVAL))
       end.

(** ** [number.c] *)

Inductive vgsm_type_of_number : Set :=
| VGSM_TON_UNKNOWN | VGSM_TON_INTERNATIONAL | VGSM_TON_NATIONAL | VGSM_TON_NETWORK_SPECIFIC
| VGSM_TON_SUBSCRIBER | VGSM_TON_ALPHANUMERIC | VGSM_TON_ABBREVIATED | VGSM_TON_RESERVED.

Definition ton_value (t : vgsm_type_of_number) : Z :=
  match t with
  | VGSM_TON_UNKNOWN => 0 | VGSM_TON_INTERNATIONAL => 1 | VGSM_TON_NATIONAL => 2
  | VGSM_TON_NETWORK_SPECIFIC => 3 | VGSM_TON_SUBSCRIBER => 4 | VGSM_TON_ALPHANUMERIC => 5
  | VGSM_TON_ABBREVIATED => 6 | VGSM_TON_RESERVED => 7
  end.

Definition VGSM_NP_UNKNOWN : Z := 0.
Definition VGSM_NP_ISDN : Z := 1.

(** [struct vgsm_number]; the numbering plan and the type are read from four and three
    bits; the array of digits has 32 characters *)
Record vgsm_number := {
  digits : list Z;
  np : Z;
  ton : Z;
}.

Definition NUMBER_DIGITS : nat := 32.

Definition vgsm_number_parse (string : list Z) : vgsm_number :=
  match string with
  | c :: string' =>
      if c =? chr_plus
      then {| digits := strncpy NUMBER_DIGITS string'; np := VGSM_NP_ISDN;
              ton := ton_value VGSM_TON_INTERNATIONAL |}
      else {| digits := strncpy NUMBER_DIGITS string; np := VGSM_NP_ISDN;
              ton := ton_value VGSM_TON_NATIONAL |}
  | [] => {| digits := strncpy NUMBER_DIGITS []; np := VGSM_NP_ISDN;
             ton := ton_value VGSM_TON_NATIONAL |}
  end.

Definition vgsm_number_prefix (n : vgsm_number) : list Z :=
  if ((np n =? VGSM_NP_ISDN) || (np n =? VGSM_NP_UNKNOWN)) &&
     (ton n =? ton_value VGSM_TON_INTERNATIONAL) then [chr_plus] else [].
