(* ===== verification/VgsmTextThm.v ===== *)
(** * Texts, numbers and base 64 are read back

    [vgsm_write_septet] and the reading of [vgsm_7bit_to_wc], bit by bit, and the round
    trip of a text of the GSM alphabet; base 64 and the parsing helpers. *)

From stdpp Require Import base list.
From Stdlib Require Import ZArith Lia.
From S2P Require Import Prelude.
From S2P Require Import Bits.
From S2P Require Import VgsmText.
Local Open Scope Z_scope.

(** ** A buffer as a string of bits *)

Definition buf_bit (buf : list Z) (i : Z) : bool :=
  Z.testbit (nth (Z.to_nat (i / 8)) buf 0) (i mod 8).

Lemma rd_nth buf i : 0 ≤ i < Z.of_nat (length buf) → rd buf i = Done (nth (Z.to_nat i) buf 0).
Proof.
  intros Hi. unfold rd. rewrite (proj2 (Z.ltb_ge _ _)) by lia.
  destruct (lookup_lt_is_Some_2 buf (Z.to_nat i)) as [b Hb]; [lia|]. rewrite Hb.
  f_equal. symmetry. by apply nth_lookup_Some.
Qed.

Lemma wr_insert buf i v :
  0 ≤ i < Z.of_nat (length buf) → wr buf i v = Done (<[Z.to_nat i := v]> buf).
Proof.
  intros Hi. unfold wr. by rewrite (proj2 (Z.ltb_ge _ _)), (proj2 (Z.leb_gt _ _)) by lia.
Qed.

Lemma nth_insert (buf : list Z) (i j : nat) v :
  (i < length buf)%nat → nth j (<[i := v]> buf) 0 = if decide (j = i) then v else nth j buf 0.
Proof.
  intros Hi. rewrite !nth_lookup. destruct (decide (j = i)) as [->|Hne].
  - by rewrite list_lookup_insert_eq.
  - by rewrite list_lookup_insert_ne.
Qed.

Lemma testbit_high v n : is_octet v → 8 ≤ n → Z.testbit v n = false.
Proof.
  intros [Hv Hv'] Hn. destruct (Z.eq_dec v 0) as [->|]; [by rewrite Z.bits_0|].
  apply Z.bits_above_log2; [lia|]. apply Z.log2_lt_pow2; [lia|].
  assert (2 ^ 8 ≤ 2 ^ n) by (apply Z.pow_le_mono_r; lia). change (2 ^ 8) with 256 in *. lia.
Qed.

(** an octet is or'ed into the buffer *)
Lemma wr_or_bits buf j v :
  0 ≤ j < Z.of_nat (length buf) → is_octet v →
  ∃ buf', wr_or buf j v = Done buf' ∧ length buf' = length buf ∧
    ∀ i, 0 ≤ i → buf_bit buf' i = buf_bit buf i || ((i / 8 =? j) && Z.testbit v (i mod 8)).
Proof.
  intros Hj Hv. unfold wr_or. rewrite rd_nth by done. cbn [mbind outcome_bind].
  rewrite wr_insert by done. eexists. split; [done|]. split; [by rewrite length_insert|].
  intros i Hi. unfold buf_bit. rewrite nth_insert by lia.
  assert (0 ≤ i / 8) by (apply Z.div_pos; lia).
  assert (0 ≤ i mod 8 < 8) by (apply Z.mod_pos_bound; lia).
  destruct (Z.eqb_spec (i / 8) j) as [->|Hne].
  - rewrite decide_True by done. unfold u8. rewrite Z.land_spec, Z.lor_spec. cbn [andb].
    change 255 with (Z.ones 8). by rewrite Z.ones_spec_low, andb_true_r by lia.
  - rewrite decide_False by lia. by rewrite orb_false_r.
Qed.

Lemma testbit_neg c k : k < 0 → Z.testbit c k = false.
Proof. apply Z.testbit_neg_r. Qed.

Lemma testbit_septet c k : 0 ≤ c < 128 → 7 ≤ k → Z.testbit c k = false.
Proof.
  intros Hc Hk. destruct (Z.eq_dec c 0) as [->|]; [by rewrite Z.bits_0|].
  apply Z.bits_above_log2; [lia|]. apply Z.log2_lt_pow2; [lia|].
  assert (2 ^ 7 ≤ 2 ^ k) by (apply Z.pow_le_mono_r; lia). change (2 ^ 7) with 128 in *. lia.
Qed.

(** where the septet [n] is: it ends in the octet [p], the first [r] bits of it are
    in the octet before *)
Lemma septet_position n p r :
  0 ≤ n → p = Z.quot ((n + 1) * 7) 8 → r = Z.rem n 8 → 7 * n = 8 * p - r ∧ 0 ≤ r < 8 ∧ 0 ≤ p.
Proof.
  intros Hn -> ->. rewrite Z.quot_div_nonneg, Z.rem_mod_nonneg by lia.
  assert (0 ≤ n mod 8 < 8) by (apply Z.mod_pos_bound; lia).
  assert ((n + 1) * 7 / 8 = 7 * (n / 8) + n mod 8) as ->.
  { symmetry. apply (Z.div_unique _ _ _ (7 - n mod 8)); [lia|].
    pose proof (Z.div_mod n 8). lia. }
  pose proof (Z.div_mod n 8). assert (0 ≤ n / 8) by (apply Z.div_pos; lia). lia.
Qed.

(** the bit [i] of an octet [o] of the septet at bit [8 * p - r] *)
Definition septet_bit (start c i : Z) : bool :=
  (start <=? i) && (i <? start + 7) && Z.testbit c (i - start).

Lemma septet_bit_split c p r i :
  0 ≤ c < 128 → 0 ≤ r < 8 → 0 ≤ i →
  septet_bit (8 * p - r) c i =
    ((i / 8 =? p - 1) && Z.testbit (Z.land (Z.shiftl c (8 - r)) 0xff) (i mod 8)) ||
    ((i / 8 =? p) && Z.testbit (Z.shiftr c r) (i mod 8)).
Proof.
  intros Hc Hr Hi. unfold septet_bit.
  assert (0 ≤ i mod 8 < 8) by (apply Z.mod_pos_bound; lia). pose proof (Z.div_mod i 8) as Hd.
  set (o := i / 8) in *. set (b := i mod 8) in *.
  rewrite Z.land_spec, Z.shiftl_spec, Z.shiftr_spec by lia. change 0xff with (Z.ones 8).
  rewrite Z.ones_spec_low, andb_true_r by lia.
  destruct (Z.eqb_spec o (p - 1)) as [Ho|Ho]; [|destruct (Z.eqb_spec o p) as [Ho'|Ho']].
  - destruct (Z.eqb_spec o p); [lia|]. cbn [andb orb]. rewrite orb_false_r.
    replace (i - (8 * p - r)) with (b - (8 - r)) by lia.
    rewrite (proj2 (Z.ltb_lt i _)), andb_true_r by lia.
    destruct (Z.leb_spec (8 * p - r) i); [done|]. cbn [andb].
    symmetry. apply testbit_neg. lia.
  - cbn [andb orb]. replace (i - (8 * p - r)) with (b + r) by lia.
    rewrite (proj2 (Z.leb_le _ i)) by lia. cbn [andb].
    destruct (Z.ltb_spec i (8 * p - r + 7)); [done|]. cbn [andb].
    symmetry. apply testbit_septet; lia.
  - cbn [andb orb]. destruct (Z.leb_spec (8 * p - r) i); [|done].
    destruct (Z.ltb_spec i (8 * p - r + 7)); [|done]. exfalso. lia.
Qed.

Lemma land_octet v : is_octet (Z.land v 0xff).
Proof. apply u8_is_octet. Qed.

Lemma shiftr_septet c r : 0 ≤ c < 128 → 0 ≤ r → 0 ≤ Z.shiftr c r < 128.
Proof.
  intros Hc Hr. split; [apply Z.shiftr_nonneg; lia|].
  rewrite Z.shiftr_div_pow2 by done.
  assert (0 < 2 ^ r) by (apply Z.pow_pos_nonneg; lia).
  apply Z.div_lt_upper_bound; [done|]. nia.
Qed.

(** a septet is written: the bits of the buffer change there only *)
Lemma write_septet_bits base buf n c :
  0 ≤ base → 0 ≤ n → 0 ≤ c < 128 →
  base + Z.quot ((n + 1) * 7) 8 < Z.of_nat (length buf) →
  ∃ buf', vgsm_write_septet base buf n c = Done buf' ∧ length buf' = length buf ∧
    ∀ i, 0 ≤ i → buf_bit buf' i = buf_bit buf i || septet_bit (8 * base + 7 * n) c i.
Proof.
  intros Hb Hn Hc Hlen. unfold vgsm_write_septet.
  remember (Z.quot ((n + 1) * 7) 8) as p eqn:Hp. remember (Z.rem n 8) as r eqn:Hr.
  destruct (septet_position n p r Hn Hp Hr) as (Hpos & Hr8 & Hp0). clear Hp Hr.
  pose proof (shiftr_septet c r Hc ltac:(lia)) as Hs.
  replace (8 * base + 7 * n) with (8 * (base + p) - r) by lia.
  destruct (Z.ltb_spec 0 p).
  - destruct (wr_or_bits buf (base + p - 1) (Z.land (Z.shiftl c (8 - r)) 0xff))
      as (buf1 & H1 & Hl1 & Hb1); [lia|apply land_octet|].
    rewrite H1. cbn [mbind outcome_bind].
    destruct (wr_or_bits buf1 (base + p) (Z.shiftr c r)) as (buf2 & H2 & Hl2 & Hb2);
      [lia|unfold is_octet; lia|].
    exists buf2. split; [done|]. split; [congruence|]. intros i Hi.
    rewrite Hb2, Hb1, septet_bit_split by lia. by rewrite orb_assoc.
  - assert (p = 0) as -> by lia. assert (r = 0) as -> by lia.
    destruct (wr_or_bits buf (base + 0) c) as (buf1 & H1 & Hl1 & Hb1);
      [lia|unfold is_octet; lia|].
    exists buf1. split; [done|]. split; [done|]. intros i Hi.
    rewrite Hb1, septet_bit_split by lia. rewrite Z.shiftr_0_r.
    rewrite Z.land_spec, Z.shiftl_spec by (apply Z.mod_pos_bound; lia).
    assert (0 ≤ i mod 8 < 8) by (apply Z.mod_pos_bound; lia).
    rewrite (testbit_neg c (i mod 8 - (8 - 0))) by lia.
    cbn [andb]. by rewrite andb_false_r.
Qed.

(** ** Reading *)

(** the septet whose bits are those of the buffer at [start] *)
Definition septet_of (buf : list Z) (start c : Z) : Prop :=
  ∀ k, 0 ≤ k < 7 → Z.testbit c k = buf_bit buf (start + k).

Lemma nth_octet buf i : Forall is_octet buf → is_octet (nth i buf 0).
Proof.
  intros H. rewrite nth_lookup. destruct (buf !! i) as [b|] eqn:Hb; [|done].
  cbn. rewrite Forall_lookup in H. by apply (H i).
Qed.

(** what is computed from the octets [lo] and [hi] *)
Lemma septet_bits lo hi shift k :
  is_octet lo → is_octet hi → 1 ≤ shift ≤ 8 → 0 ≤ k →
  Z.testbit (Z.shiftr (Z.land (Z.lor lo (Z.shiftl hi 8)) (Z.land (Z.shiftl 0x7f shift) 0xffff)) shift) k
  = (k <? 7) && (if k + shift <? 8 then Z.testbit lo (k + shift) else Z.testbit hi (k + shift - 8)).
Proof.
  intros Hlo Hhi Hs Hk.
  rewrite Z.shiftr_spec, !Z.land_spec, Z.lor_spec, !Z.shiftl_spec by lia.
  replace (k + shift - shift) with k by lia. change 0x7f with (Z.ones 7).
  change 0xffff with (Z.ones 16). destruct (Z.ltb_spec k 7); cbn [andb].
  - rewrite (Z.ones_spec_low 7), (Z.ones_spec_low 16), !andb_true_r by lia.
    destruct (Z.ltb_spec (k + shift) 8).
    + by rewrite (testbit_neg hi), orb_false_r by lia.
    + by rewrite (testbit_high lo) by (done || lia).
  - rewrite (Z.ones_spec_high 7) by lia. cbn [andb]. by rewrite andb_false_r.
Qed.

Lemma buf_bit_at buf o b : 0 ≤ b < 8 → buf_bit buf (8 * o + b) = Z.testbit (nth (Z.to_nat o) buf 0) b.
Proof.
  intros Hb. unfold buf_bit.
  replace ((8 * o + b) / 8) with o by (apply (Z.div_unique _ 8 o b); lia).
  by replace ((8 * o + b) mod 8) with b by (apply (Z.mod_unique _ 8 o b); lia).
Qed.

Lemma read_septet_of buf n c :
  0 ≤ n → 0 ≤ c < 128 → Forall is_octet buf →
  7 * (n + 1) ≤ 8 * Z.of_nat (length buf) →
  septet_of buf (7 * n) c → read_septet buf n = Done c.
Proof.
  intros Hn Hc Hoct Hlen Hbits. unfold read_septet.
  remember (Z.quot ((n + 1) * 7) 8) as p eqn:Hp. remember (Z.rem n 8) as r eqn:Hr.
  destruct (septet_position n p r Hn Hp Hr) as (Hpos & Hr8 & Hp0). clear Hp Hr.
  set (lo := if p =? 0 then 0 else nth (Z.to_nat (p - 1)) buf 0).
  set (hi := if 1 <? 8 - r then nth (Z.to_nat p) buf 0 else 0).
  assert (is_octet lo) as Hlo by (subst lo; destruct (p =? 0); [done|by apply nth_octet]).
  assert (is_octet hi) as Hhi by (subst hi; destruct (1 <? 8 - r); [by apply nth_octet|done]).
  assert ((if p =? 0 then Done 0 else rd buf (p - 1)) = Done lo) as ->.
  { subst lo. destruct (Z.eqb_spec p 0); [done|]. apply rd_nth. lia. }
  assert ((if 1 <? 8 - r then b ← rd buf p; Done (Z.shiftl b 8) else Done 0) =
    Done (Z.shiftl hi 8)) as ->.
  { subst hi. destruct (Z.ltb_spec 1 (8 - r)); [|done]. by rewrite rd_nth by lia. }
  cbn [mbind outcome_bind]. f_equal. apply Z.bits_inj'. intros k Hk.
  rewrite septet_bits by (done || lia).
  destruct (Z.ltb_spec k 7); [|by rewrite (testbit_septet c k) by lia]. cbn [andb].
  rewrite Hbits, Hpos by lia.
  destruct (Z.ltb_spec (k + (8 - r)) 8).
  - replace (8 * p - r + k) with (8 * (p - 1) + (k + (8 - r))) by lia.
    rewrite buf_bit_at by lia. subst lo. destruct (Z.eqb_spec p 0); [lia|done].
  - replace (8 * p - r + k) with (8 * p + (k - r)) by lia.
    rewrite buf_bit_at by lia. subst hi. rewrite (proj2 (Z.ltb_lt _ _)) by lia.
    f_equal. lia.
Qed.

(** ** Texts are read back

    The round trips of the codecs of [VgsmText]: septets, semi-octets, base 64, hex and
    quoted-printable, and what limits them. *)

(** ** The GSM alphabet *)

Definition row_ok (r : Z * Z * Z) : bool :=
  let '(c, c2, wc) := r in
  (0 <=? c) && (c <? 128) && (0 <=? c2) && (c2 <? 128) && negb (wc =? 0) &&
  (if c2 =? 0 then vgsm_gsm_to_wc c =? wc else c =? 0x1B).

Lemma rows_ok : forallb row_ok vgsm_gsm_wc_translations = true.
Proof. vm_compute. reflexivity. Qed.

Lemma wc_to_gsm_row wc :
  vgsm_wc_to_gsm wc = [] ∨
  ∃ c c2, row_ok (c, c2, wc) = true ∧ vgsm_wc_to_gsm wc = if c2 =? 0 then [c] else [c; c2].
Proof.
  unfold vgsm_wc_to_gsm. destruct (find _ _) as [[[c c2] wc']|] eqn:Hf; [|by left]. right.
  apply find_some in Hf as [Hin Hwc]. apply Z.eqb_eq in Hwc. cbn in Hwc. subst wc'.
  pose proof rows_ok as H. rewrite forallb_forall in H. exists c, c2. split; [by apply H|done].
Qed.

(** the septets of a text *)
Definition text_codes (text : list Z) : list Z := text ≫= vgsm_wc_to_gsm.

Definition is_septet (c : Z) : Prop := 0 ≤ c < 128.

Lemma wc_to_gsm_septets wc : Forall is_septet (vgsm_wc_to_gsm wc).
Proof.
  destruct (wc_to_gsm_row wc) as [->|(c & c2 & Hr & ->)]; [done|].
  unfold row_ok in Hr. rewrite !andb_true_iff in Hr.
  destruct Hr as (((((H1 & H2) & H3) & H4) & _) & _).
  apply Z.leb_le in H1, H3. apply Z.ltb_lt in H2, H4.
  destruct (c2 =? 0); repeat constructor; unfold is_septet; lia.
Qed.

(** a character of one septet *)
Definition basic (wc : Z) : Prop := ∃ c, vgsm_wc_to_gsm wc = [c].

Lemma basic_roundtrip wc c : vgsm_wc_to_gsm wc = [c] → vgsm_gsm_to_wc c = wc.
Proof.
  intros H. destruct (wc_to_gsm_row wc) as [He|(c' & c2 & Hr & He)]; [congruence|].
  rewrite H in He. unfold row_ok in Hr. rewrite !andb_true_iff in Hr. destruct Hr as (_ & Hr).
  destruct (c2 =? 0); [|done]. injection He as ->. by apply Z.eqb_eq in Hr.
Qed.

Lemma basic_codes text : Forall basic text → vgsm_gsm_to_wc <$> text_codes text = text.
Proof.
  unfold text_codes. intros H. induction H as [|wc text [c Hc] H IH]; [done|].
  cbn. rewrite Hc. cbn. by rewrite IH, (basic_roundtrip wc c).
Qed.

Lemma basic_codes_length text : Forall basic text → length (text_codes text) = length text.
Proof. intros H. rewrite <-(basic_codes text H) at 2. by rewrite length_fmap. Qed.

(** ** Packing *)

(** the septets [cs] are in the buffer from the septet [offset] after [base] on, and
    nothing after them *)
Record packed (base offset : Z) (cs buf : list Z) : Prop := {
  pk_octets : Forall is_octet buf;
  pk_bits : ∀ (j : nat) c, cs !! j = Some c →
    septet_of buf (8 * base + 7 * (offset + Z.of_nat j)) c;
  pk_clear : ∀ i, 8 * base + 7 * (offset + Z.of_nat (length cs)) ≤ i → buf_bit buf i = false;
}.

Lemma wr_or_octets buf j v buf' : Forall is_octet buf → wr_or buf j v = Done buf' → Forall is_octet buf'.
Proof.
  intros Hf. unfold wr_or. destruct (rd buf j) as [b|]; [|done]. cbn. unfold wr.
  destruct (_ || _); [done|]. intros [= <-]. apply Forall_insert; [done|apply u8_is_octet].
Qed.

Lemma write_septet_octets base buf n c buf' :
  Forall is_octet buf → vgsm_write_septet base buf n c = Done buf' → Forall is_octet buf'.
Proof.
  intros Hf. unfold vgsm_write_septet. destruct (0 <? _); [|by apply wr_or_octets].
  destruct (wr_or buf _ _) as [b|] eqn:H; [|done]. cbn.
  apply wr_or_octets. by eapply wr_or_octets.
Qed.

Lemma septet_bit_in start c k : 0 ≤ k < 7 → septet_bit start c (start + k) = Z.testbit c k.
Proof.
  intros Hk. unfold septet_bit. rewrite (proj2 (Z.leb_le _ _)), (proj2 (Z.ltb_lt _ _)) by lia.
  cbn [andb]. f_equal. lia.
Qed.
Lemma septet_bit_out start c i : i < start ∨ start + 7 ≤ i → septet_bit start c i = false.
Proof.
  intros Hi. unfold septet_bit. destruct (Z.leb_spec start i); [|done].
  destruct (Z.ltb_spec i (start + 7)); [lia|done].
Qed.

(** one more septet *)
Lemma packed_write base offset cs buf c :
  0 ≤ base → 0 ≤ offset → is_septet c → packed base offset cs buf →
  base + Z.quot ((offset + Z.of_nat (length cs) + 1) * 7) 8 < Z.of_nat (length buf) →
  ∃ buf', vgsm_write_septet base buf (Z.of_nat (length cs) + offset) c = Done buf' ∧
    length buf' = length buf ∧ packed base offset (cs ++ [c]) buf'.
Proof.
  intros Hb Ho Hc [Hoct Hbits Hclear] Hroom.
  destruct (write_septet_bits base buf (Z.of_nat (length cs) + offset) c) as (buf' & Hw & Hl & Hbit);
    [done|lia|done|by replace (Z.of_nat (length cs) + offset) with (offset + Z.of_nat (length cs)) by lia|].
  exists buf'. split; [done|]. split; [done|].
  set (start := 8 * base + 7 * (Z.of_nat (length cs) + offset)) in *.
  split; [by eapply write_septet_octets| |].
  - intros j c' Hj k Hk. rewrite Hbit by lia.
    destruct (decide (j < length cs)%nat) as [Hlt|Hge].
    + rewrite lookup_app_l in Hj by done. rewrite (Hbits j c' Hj k Hk).
      rewrite septet_bit_out, orb_false_r by (subst start; lia). done.
    + assert (j = length cs) as ->.
      { apply lookup_lt_Some in Hj. rewrite length_app in Hj. cbn in Hj. lia. }
      rewrite lookup_app_r, Nat.sub_diag in Hj by lia. injection Hj as <-.
      rewrite Hclear by lia. cbn [orb]. symmetry.
      replace (8 * base + 7 * (offset + Z.of_nat (length cs)) + k) with (start + k) by (subst start; lia).
      by apply septet_bit_in.
  - intros i Hi. rewrite length_app in Hi. cbn in Hi.
    rewrite Hbit, Hclear, septet_bit_out by (subst start; lia). done.
Qed.

Lemma quot_le a b : 0 ≤ a ≤ b → Z.quot a 8 ≤ Z.quot b 8.
Proof. intros H. apply Z.quot_le_mono; lia. Qed.

Lemma wc_to_7bit_packs base offset max_septets text cs buf :
  0 ≤ base → 0 ≤ offset → packed base offset cs buf →
  Z.of_nat (length cs + length (text_codes text)) < max_septets →
  base + Z.quot ((offset + Z.of_nat (length cs + length (text_codes text))) * 7) 8
    < Z.of_nat (length buf) →
  ∃ buf', wc_to_7bit_loop base max_septets offset text buf (Z.of_nat (length cs)) =
      Done (buf', Z.of_nat (length cs + length (text_codes text))) ∧
    length buf' = length buf ∧ packed base offset (cs ++ text_codes text) buf'.
Proof.
  intros Hb Ho. revert cs buf. induction text as [|wc text IH]; intros cs buf Hp Hmax Hroom.
  { exists buf. cbn. rewrite Nat.add_0_r, app_nil_r. done. }
  unfold text_codes in *. cbn [mbind list_bind] in *. cbn [wc_to_7bit_loop].
  pose proof (wc_to_gsm_septets wc) as Hs.
  assert (∀ c cs', cs' = cs ++ [c] → is_septet c →
    (length cs' ≤ length cs + length (vgsm_wc_to_gsm wc ++ text ≫= vgsm_wc_to_gsm))%nat →
    ∃ buf', vgsm_write_septet base buf (Z.of_nat (length cs) + offset) c = Done buf' ∧
      length buf' = length buf ∧ packed base offset cs' buf') as Hwrite.
  { intros c cs' -> Hc Hle. rewrite length_app in Hle. cbn in Hle.
    apply packed_write; [done..|]. eapply Z.le_lt_trans; [|exact Hroom].
    apply Zplus_le_compat_l, quot_le. lia. }
  rewrite length_app in *. destruct (wc_to_gsm_row wc) as [He|(c & c2 & Hr & He)].
  { rewrite He in *. cbn in *. by apply IH. }
  rewrite He in *. destruct (c2 =? 0).
  - cbn [length app] in *. rewrite (proj2 (Z.leb_gt _ _)) by lia.
    destruct (Hwrite c (cs ++ [c])) as (buf1 & Hw & Hl1 & Hp1);
      [done|by inversion Hs|rewrite length_app; cbn; lia|].
    rewrite Hw. cbn [mbind outcome_bind]. rewrite (proj2 (Z.leb_gt _ _)) by lia.
    destruct (IH (cs ++ [c]) buf1 Hp1) as (buf2 & H2 & Hl2 & Hp2); rewrite ?length_app; cbn; try lia.
    { rewrite Hl1. by replace (length cs + 1 + _)%nat with
        (length cs + S (length (text ≫= vgsm_wc_to_gsm)))%nat by lia. }
    rewrite length_app in H2. cbn in H2.
    replace (Z.of_nat (length cs) + 1) with (Z.of_nat (length cs + 1)) by lia.
    exists buf2. rewrite H2. split; [f_equal; f_equal; lia|]. split; [congruence|].
    by rewrite <-app_assoc in Hp2.
  - cbn [length app] in *. rewrite (proj2 (Z.leb_gt _ _)) by lia.
    apply Forall_cons in Hs as [Hc Hs]. apply Forall_cons in Hs as [Hc2 _].
    destruct (Hwrite c (cs ++ [c])) as (buf1 & Hw & Hl1 & Hp1);
      [done|done|rewrite length_app; cbn; lia|].
    rewrite Hw. cbn [mbind outcome_bind]. rewrite (proj2 (Z.leb_gt _ _)) by lia.
    destruct (packed_write base offset (cs ++ [c]) buf1 c2) as (buf2 & Hw2 & Hl2 & Hp2);
      [done..| |].
    { rewrite Hl1. eapply Z.le_lt_trans; [|exact Hroom].
      apply Zplus_le_compat_l, quot_le. rewrite length_app. cbn. lia. }
    replace (Z.of_nat (length cs) + 1 + offset) with
      (Z.of_nat (length (cs ++ [c])) + offset) by (rewrite length_app; cbn; lia).
    rewrite Hw2. cbn [mbind outcome_bind].
    destruct (IH ((cs ++ [c]) ++ [c2]) buf2 Hp2) as (buf3 & H3 & Hl3 & Hp3);
      rewrite ?length_app; cbn; try lia.
    { rewrite Hl2, Hl1. by replace (length cs + 1 + 1 + _)%nat with
        (length cs + S (S (length (text ≫= vgsm_wc_to_gsm))))%nat by lia. }
    rewrite !length_app in H3. cbn in H3.
    replace (Z.of_nat (length cs) + 1 + 1) with (Z.of_nat (length cs + 1 + 1)) by lia.
    exists buf3. rewrite H3. split; [f_equal; f_equal; lia|]. split; [congruence|].
    by rewrite <-!app_assoc in Hp3.
Qed.

(** ** Unpacking *)

Lemma buf_bit_drop base buf i :
  0 ≤ i → buf_bit (drop base buf) i = buf_bit buf (8 * Z.of_nat base + i).
Proof.
  intros Hi. unfold buf_bit. rewrite !nth_lookup, lookup_drop.
  replace ((8 * Z.of_nat base + i) / 8) with (Z.of_nat base + i / 8)
    by (rewrite Z.mul_comm, Z.div_add_l; lia).
  replace ((8 * Z.of_nat base + i) mod 8) with (i mod 8)
    by (rewrite Z.add_comm, Z.mul_comm, Z.mod_add; lia).
  assert (0 ≤ i / 8) by (apply Z.div_pos; lia).
  by replace (base + Z.to_nat (i / 8))%nat with (Z.to_nat (Z.of_nat base + i / 8)) by lia.
Qed.

Lemma septets_to_wc_packed base offset cs buf (j : nat) :
  0 ≤ offset → Forall is_septet cs → packed (Z.of_nat base) offset cs buf → (j ≤ length cs)%nat →
  8 * Z.of_nat base + 7 * (offset + Z.of_nat (length cs)) ≤ 8 * Z.of_nat (length buf) →
  septets_to_wc (drop base buf) (length cs - j) (offset + Z.of_nat j) =
    Done (vgsm_gsm_to_wc <$> drop j cs).
Proof.
  intros Ho Hs [Hoct Hbits _] Hj Hroom. remember (length cs - j)%nat as k eqn:Hk.
  revert j Hj Hk. induction k as [|k IH]; intros j Hj Hk; cbn [septets_to_wc].
  { by rewrite drop_ge by lia. }
  destruct (lookup_lt_is_Some_2 cs j) as [c Hc]; [lia|].
  rewrite (read_septet_of _ _ c); [|lia| | | |].
  - cbn [mbind outcome_bind]. replace (offset + Z.of_nat j + 1) with (offset + Z.of_nat (S j)) by lia.
    rewrite IH by lia. cbn. rewrite (drop_S cs c j) by done. done.
  - rewrite Forall_lookup in Hs. by apply (Hs j).
  - by apply Forall_drop.
  - rewrite length_drop. lia.
  - intros b Hb. rewrite buf_bit_drop, (Hbits j c Hc b Hb) by lia. f_equal. lia.
Qed.

Lemma packed_clear base offset n :
  packed base offset [] (replicate n 0).
Proof.
  split.
  - apply Forall_replicate. unfold is_octet. lia.
  - by intros j c.
  - intros i _. unfold buf_bit. rewrite nth_lookup.
    destruct (replicate n 0 !! Z.to_nat (i / 8)) as [b|] eqn:Hb; cbn; [|apply Z.bits_0].
    apply lookup_replicate in Hb as [-> _]. apply Z.bits_0.
Qed.

(** C36. A text in which every character is one septet of the GSM alphabet, shorter than
    the room given for it, is packed into a clear buffer at any octet and any septet
    offset and unpacked to the same text, within the buffer. *)
Theorem septets_roundtrip base offset max_septets text size :
  0 ≤ offset → Forall basic text → Z.of_nat (length text) < max_septets →
  Z.of_nat base + Z.quot ((offset + Z.of_nat (length text)) * 7) 8 < Z.of_nat size →
  ∃ buf, vgsm_wc_to_7bit (Z.of_nat base) text (replicate size 0) max_septets offset =
      Done (buf, Z.of_nat (length text)) ∧
    vgsm_7bit_to_wc (drop base buf) (Z.of_nat (length text)) offset
      (Z.of_nat (length text) + 1) = Done text.
Proof.
  intros Ho Ht Hmax Hroom. pose proof (basic_codes_length text Ht) as Hlen.
  destruct (wc_to_7bit_packs (Z.of_nat base) offset max_septets text [] (replicate size 0))
    as (buf & Hr & Hl & Hp); [lia|done|apply packed_clear|cbn; lia|
      cbn; rewrite Hlen, length_replicate; lia|].
  rewrite length_replicate in Hl. cbn in Hr, Hp. rewrite Hlen in Hr.
  exists buf. split; [done|]. unfold vgsm_7bit_to_wc. rewrite (proj2 (Z.ltb_ge _ _)) by lia.
  replace (Z.to_nat (Z.min (Z.of_nat (length text) + 1 - 1) (Z.of_nat (length text)))) with
    (length text) by lia.
  pose proof (septets_to_wc_packed base offset (text_codes text) buf 0 Ho) as H.
  rewrite Hlen, Nat.sub_0_r, Z.add_0_r, drop_0, Hl, basic_codes in H by done.
  apply H; [|done|lia|].
  2: { clear -Ho Hroom. Z.to_euclidean_division_equations. lia. }
  apply Forall_bind, Forall_true. intros wc. apply wc_to_gsm_septets.
Qed.

Definition hello : list Z := [72; 101; 108; 108; 111; 64; 233].

Lemma septets_roundtrip_witness :
  ∃ buf, vgsm_wc_to_7bit 3 hello (replicate 20 0) 160 7 = Done (buf, 7) ∧
    vgsm_7bit_to_wc (drop 3 buf) 7 7 8 = Done hello.
Proof.
  apply (septets_roundtrip 3 7 160 hello 20).
  - lia.
  - repeat constructor; by eexists.
  - vm_compute. reflexivity.
  - vm_compute. reflexivity.
Defined.

(** ** A text that fills the room *)

Lemma wc_to_7bit_app base max_septets offset t u buf n buf' m :
  wc_to_7bit_loop base max_septets offset t buf n = Done (buf', m) → 0 ≤ m →
  wc_to_7bit_loop base max_septets offset (t ++ u) buf n =
    wc_to_7bit_loop base max_septets offset u buf' m.
Proof.
  intros Hr Hm. revert buf n Hr. induction t as [|wc t IH]; intros buf n; cbn [app wc_to_7bit_loop].
  { by intros [= -> ->]. }
  destruct (vgsm_wc_to_gsm wc) as [|c cs]; [apply IH|].
  destruct (max_septets <=? n); [intros [= _ <-]; unfold ENOSPC in Hm; lia|].
  destruct (vgsm_write_septet base buf (n + offset) c) as [b1|]; [|done]. cbn [mbind outcome_bind].
  destruct (max_septets <=? n + 1); [intros [= _ <-]; unfold ENOSPC in Hm; lia|].
  destruct cs as [|c2 cs]; [apply IH|].
  destruct (vgsm_write_septet base b1 (n + 1 + offset) c2) as [b2|]; [|done]. apply IH.
Qed.

(** A text of exactly as many one-septet characters as there is room for is refused
    with ENOSPC, though it would fit: 160 characters cannot be sent in one message. *)
Theorem full_text_refused base offset text size :
  0 ≤ offset → Forall basic text → text ≠ [] →
  Z.of_nat base + Z.quot ((offset + Z.of_nat (length text)) * 7) 8 < Z.of_nat size →
  ∃ buf, vgsm_wc_to_7bit (Z.of_nat base) text (replicate size 0) (Z.of_nat (length text)) offset =
    Done (buf, - ENOSPC).
Proof.
  intros Ho Ht Hne Hroom. destruct text as [|wc t _] using rev_ind; [done|].
  apply Forall_app in Ht as [Ht [[c Hc] _]%Forall_cons].
  pose proof (basic_codes_length t Ht) as Hlen. rewrite length_app in *. cbn [length] in *.
  assert (Z.quot ((offset + Z.of_nat (length t)) * 7) 8 ≤
          Z.quot ((offset + Z.of_nat (length t + 1)) * 7) 8) by (apply quot_le; lia).
  destruct (wc_to_7bit_packs (Z.of_nat base) offset (Z.of_nat (length t + 1)) t []
    (replicate size 0)) as (buf & Hr & Hl & Hp); [lia|done|apply packed_clear|cbn; lia|
      cbn; rewrite Hlen, length_replicate; lia|].
  cbn in Hr, Hp. rewrite Hlen in Hr. change (Z.of_nat 0) with 0 in Hr.
  rewrite length_replicate in Hl.
  unfold vgsm_wc_to_7bit. rewrite (wc_to_7bit_app _ _ _ _ [wc] _ _ _ _ Hr) by lia.
  cbn [wc_to_7bit_loop]. rewrite Hc, (proj2 (Z.leb_gt _ _)) by lia.
  destruct (packed_write (Z.of_nat base) offset (text_codes t) buf c) as (buf' & Hw & _ & _);
    [lia|done|pose proof (wc_to_gsm_septets wc) as Hs; rewrite Hc in Hs; by inversion Hs|done| |].
  { rewrite Hl, Hlen. by replace (offset + Z.of_nat (length t) + 1) with
      (offset + Z.of_nat (length t + 1)) by lia. }
  rewrite Hlen in Hw. rewrite Hw. cbn [mbind outcome_bind].
  rewrite (proj2 (Z.leb_le _ _)) by lia. by exists buf'.
Qed.

Lemma full_text_refused_witness :
  ∃ buf, vgsm_wc_to_7bit 0 (replicate 160 65) (replicate 160 0) 160 0 = Done (buf, - ENOSPC).
Proof.
  apply (full_text_refused 0 0 (replicate 160 65) 160).
  - lia.
  - apply Forall_replicate. by eexists.
  - done.
  - vm_compute. reflexivity.
Defined.

(** a character of two septets comes back as two characters: the euro sign as a form
    feed and an "e" *)
Example euro_sign :
  (r ← vgsm_wc_to_7bit 0 [0x20AC] (replicate 10 0) 160 0; vgsm_7bit_to_wc (fst r) (snd r) 0 10) =
  Done [0x0C; 101].
Proof. vm_compute. reflexivity. Qed.

(** ** Semi-octets *)

Definition is_dialled (c : Z) : Prop :=
  (48 ≤ c < 58) ∨ c = 42 ∨ c = 35 ∨ c = 97 ∨ c = 98 ∨ c = 99.

Lemma dialled_nibble c :
  is_dialled c → 0 ≤ vgsm_char_to_bcd c < 15 ∧ vgsm_bcd_to_char (vgsm_char_to_bcd c) = c.
Proof.
  intros Hc. assert (c ∈ seqZ 48 10 ++ [42; 35; 97; 98; 99]) as Hin.
  { apply elem_of_app. rewrite elem_of_seqZ, !elem_of_cons. unfold is_dialled in Hc. lia. }
  assert (Forall (λ c, (0 <=? vgsm_char_to_bcd c) && (vgsm_char_to_bcd c <? 15) &&
     (vgsm_bcd_to_char (vgsm_char_to_bcd c) =? c) = true) (seqZ 48 10 ++ [42; 35; 97; 98; 99])) as H
    by (repeat constructor).
  rewrite Forall_forall in H. specialize (H c Hin). rewrite !andb_true_iff in H.
  destruct H as [[H1 H2] H3]. apply Z.leb_le in H1. apply Z.ltb_lt in H2. apply Z.eqb_eq in H3.
  done.
Qed.

(** the nibbles of an octet made of two *)
Lemma nibbles_octet a b :
  0 ≤ a < 16 → 0 ≤ b < 16 →
  Z.land (u8 (Z.lor a (Z.shiftl b 4))) 0x0f = a ∧
  Z.shiftr (Z.land (u8 (Z.lor a (Z.shiftl b 4))) 0xf0) 4 = b.
Proof.
  intros Ha Hb. assert (Forall (λ a, Forall (λ b,
    (Z.land (u8 (Z.lor a (Z.shiftl b 4))) 0x0f =? a) &&
    (Z.shiftr (Z.land (u8 (Z.lor a (Z.shiftl b 4))) 0xf0) 4 =? b) = true) (seqZ 0 16)) (seqZ 0 16))
    as H by (repeat constructor).
  rewrite Forall_forall in H. specialize (H a). rewrite elem_of_seqZ in H. specialize (H ltac:(lia)).
  rewrite Forall_forall in H. specialize (H b). rewrite elem_of_seqZ in H. specialize (H ltac:(lia)).
  apply andb_true_iff in H as [H1%Z.eqb_eq H2%Z.eqb_eq]. done.
Qed.

Lemma nibbles_last a :
  0 ≤ a < 16 → Z.land (u8 (Z.lor a 0xf0)) 0x0f = a.
Proof. intros Ha. apply (nibbles_octet a 15); lia. Qed.

(** recursion two characters at a time *)
Lemma pairs_ind (P : list Z → Prop) :
  P [] → (∀ c, P [c]) → (∀ c c' s, P s → P (c :: c' :: s)) → ∀ s, P s.
Proof.
  intros H0 H1 H2 s. enough (P s ∧ ∀ c, P (c :: s)) by tauto.
  induction s as [|c s [IH1 IH2]]; [done|]. split; [apply IH2|]. intros c'. by apply H2.
Qed.

(** a step of the loop over a nibble that is a character *)
Lemma bcd_to_text_step buf n i pos str_len o c :
  rd buf (Z.quot i 2) = Done o → is_dialled c → pos < str_len - 1 →
  (if Z.rem i 2 =? 0 then Z.land o 0x0f else Z.shiftr (Z.land o 0xf0) 4) = vgsm_char_to_bcd c →
  bcd_to_text_loop buf (S n) i pos str_len =
    (r ← bcd_to_text_loop buf n (i + 1) (pos + 1) str_len; Done (option_map (cons c) r)).
Proof.
  intros Hr Hc Hpos Hb. cbn [bcd_to_text_loop]. rewrite Hr. cbn [mbind outcome_bind]. rewrite Hb.
  destruct (dialled_nibble c Hc) as [Hn Hchar]. rewrite (proj2 (Z.eqb_neq _ _)) by lia.
  rewrite (proj2 (Z.leb_gt _ _)) by lia. by rewrite Hchar.
Qed.

Lemma rd_app_here pre o rest : rd (pre ++ o :: rest) (Z.of_nat (length pre)) = Done o.
Proof.
  unfold rd. rewrite (proj2 (Z.ltb_ge _ _)), Nat2Z.id by lia.
  by rewrite lookup_app_r, Nat.sub_diag by lia.
Qed.

Lemma even_position n : Z.quot (2 * n) 2 = n ∧ Z.rem (2 * n) 2 = 0.
Proof. split; [symmetry; apply Z.quot_unique_exact; lia|]. by rewrite Z.mul_comm, Z.rem_mul. Qed.
Lemma odd_position n : 0 ≤ n → Z.quot (2 * n + 1) 2 = n ∧ Z.rem (2 * n + 1) 2 = 1.
Proof.
  intros Hn. split; [symmetry; apply (Z.quot_unique _ 2 n 1); lia|].
  symmetry. apply (Z.rem_unique _ 2 n 1); lia.
Qed.

Lemma bcd_to_text_loop_spec rest str_len s : Forall is_dialled s → ∀ pre pos,
  0 ≤ pos → pos + Z.of_nat (length s) ≤ str_len - 1 →
  bcd_to_text_loop (pre ++ vgsm_text_to_bcd s ++ rest) (length s) (2 * Z.of_nat (length pre)) pos
    str_len = Done (Some s).
Proof.
  induction s as [|c|c c' s IH] using pairs_ind; intros Hs pre pos Hpos Hlen; [done| |].
  - apply Forall_cons in Hs as [Hc _]. destruct (even_position (Z.of_nat (length pre))) as [Hq Hr].
    cbn [vgsm_text_to_bcd app length] in *. destruct (dialled_nibble c Hc) as [Hn _].
    rewrite (bcd_to_text_step _ 0 _ pos str_len (u8 (Z.lor (vgsm_char_to_bcd c) 0xf0)) c);
      [done|rewrite Hq; apply rd_app_here|done|lia|].
    rewrite Hr. apply nibbles_last. lia.
  - apply Forall_cons in Hs as [Hc Hs]. apply Forall_cons in Hs as [Hc' Hs].
    destruct (even_position (Z.of_nat (length pre))) as [Hq Hr].
    destruct (odd_position (Z.of_nat (length pre))) as [Hq' Hr']; [lia|].
    destruct (dialled_nibble c Hc) as [Hn _]. destruct (dialled_nibble c' Hc') as [Hn' _].
    cbn [vgsm_text_to_bcd app length] in *.
    set (o := u8 (Z.lor (vgsm_char_to_bcd c) (Z.shiftl (vgsm_char_to_bcd c') 4))).
    destruct (nibbles_octet (vgsm_char_to_bcd c) (vgsm_char_to_bcd c')) as [Hlo Hhi]; [lia..|].
    rewrite (bcd_to_text_step _ _ _ pos str_len o c);
      [|rewrite Hq; apply rd_app_here|done|lia|by rewrite Hr].
    rewrite (bcd_to_text_step _ _ _ (pos + 1) str_len o c');
      [|rewrite Hq'; apply rd_app_here|done|lia|by rewrite Hr'].
    specialize (IH Hs (pre ++ [o]) (pos + 1 + 1)). rewrite length_app, <-app_assoc in IH.
    cbn [length app] in IH.
    replace (2 * Z.of_nat (length pre) + 1 + 1) with (2 * Z.of_nat (length pre + 1)) by lia.
    rewrite IH by lia. done.
Qed.

(** A number of digits, *, #, a, b and c is written in semi-octets and read back
    from them, whatever follows, into an array that has room for it. *)
Theorem bcd_roundtrip s rest str_len :
  Forall is_dialled s → Z.of_nat (length s) < str_len →
  vgsm_bcd_to_text (vgsm_text_to_bcd s ++ rest) (Z.of_nat (length s)) str_len = Done (Some s).
Proof.
  intros Hs Hlen. unfold vgsm_bcd_to_text. rewrite Nat2Z.id.
  by apply (bcd_to_text_loop_spec rest str_len s Hs []); lia.
Qed.

Lemma bcd_roundtrip_witness :
  vgsm_bcd_to_text (vgsm_text_to_bcd [51; 57; 42; 48; 54] ++ [0xff]) 5 32 =
    Done (Some [51; 57; 42; 48; 54]).
Proof.
  apply (bcd_roundtrip [51; 57; 42; 48; 54] [0xff] 32).
  - repeat constructor; unfold is_dialled; lia.
  - reflexivity.
Defined.

(** ** Base 64 and the parsing helpers

    [base64_decode] inverts [base64_encode] up to the padding, and what [get_token] and
    [vgsm_number_parse] do at the bounds of their arrays. *)

(** linear arithmetic with quotients and remainders of constants *)
Ltac divlia := Z.to_euclidean_division_equations; lia.

(** ** Base 64 *)

Definition has_value (c v : Z) : Prop := nth (Z.to_nat c) base64_value (-1) = v ∧ 0 ≤ v < 64.

Lemma code_value i : has_value (code i) (Z.land i 0x3F).
Proof.
  assert (0 ≤ Z.land i 0x3F < 64) as Hi.
  { change 0x3F with (Z.ones 6). rewrite Z.land_ones by lia. apply Z.mod_pos_bound. lia. }
  split; [|done]. unfold code. generalize dependent (Z.land i 0x3F). intros v Hv.
  assert (Forall (λ v, (nth (Z.to_nat (nth (Z.to_nat v) codes 0)) base64_value (-1) =? v) = true)
    (seqZ 0 64)) as H by (repeat constructor).
  rewrite Forall_forall in H. apply Z.eqb_eq, H, elem_of_seqZ. lia.
Qed.

Lemma pad_value : has_value 61 0.
Proof. by split. Qed.

(** the octets of a quantum *)
Definition quantum (v1 v2 v3 v4 : Z) : list Z :=
  let bits := ((v1 * 64 + v2) * 64 + v3) * 64 + v4 in
  [Z.land (Z.shiftr bits 16) 0xff; Z.land (Z.shiftr bits 8) 0xff; Z.land bits 0xff].

Lemma decode_quantum c1 c2 c3 c4 v1 v2 v3 v4 src outpos size :
  has_value c1 v1 → has_value c2 v2 → has_value c3 v3 → has_value c4 v4 → outpos + 4 < size →
  base64_decode_loop (c1 :: c2 :: c3 :: c4 :: src) outpos 0 0 size =
    quantum v1 v2 v3 v4 ++ base64_decode_loop src (outpos + 3) 0 0 size.
Proof.
  intros [E1 ?] [E2 ?] [E3 ?] [E4 ?] Hs.
  assert (∀ b v, 0 ≤ b < 2 ^ 18 → 0 ≤ v < 64 → (Z.shiftl b 6 + v) mod 2 ^ 32 = b * 64 + v) as Hb.
  { intros b v ??. rewrite Z.shiftl_mul_pow2 by lia. apply Z.mod_small. lia. }
  cbn [base64_decode_loop].
  rewrite E1, E2, E3, E4, (proj2 (Z.leb_gt size _)) by lia.
  rewrite !(proj2 (Z.ltb_ge _ 0)) by lia. cbn [Z.add Z.ltb Z.compare Pos.add Pos.compare Pos.compare_cont Pos.succ].
  rewrite (Hb 0), (Hb (0 * 64 + v1)), (Hb ((0 * 64 + v1) * 64 + v2)),
    (Hb (((0 * 64 + v1) * 64 + v2) * 64 + v3)) by lia.
  replace (0 * 64 + v1) with v1 by lia. done.
Qed.

Lemma quantum_octets a b c v1 v2 v3 v4 :
  is_octet a → is_octet b → is_octet c →
  v1 = a / 4 → v2 = a mod 4 * 16 + b / 16 → v3 = b mod 16 * 4 + c / 64 → v4 = c mod 64 →
  quantum v1 v2 v3 v4 = [a; b; c].
Proof.
  intros [Ha Ha'] [Hb Hb'] [Hc Hc'] H1 H2 H3 H4. unfold quantum.
  replace (((v1 * 64 + v2) * 64 + v3) * 64 + v4) with (a * 65536 + b * 256 + c) by (subst; divlia).
  change 0xff with (Z.ones 8). rewrite !Z.land_ones, !Z.shiftr_div_pow2 by lia.
  change (2 ^ 16) with 65536. change (2 ^ 8) with 256. repeat f_equal; divlia.
Qed.

(** the values of the characters of three octets *)
Lemma value_first a : is_octet a → Z.land (Z.shiftr a 2) 0x3F = a / 4.
Proof.
  intros [Ha Ha']. change 0x3F with (Z.ones 6). rewrite Z.land_ones, Z.shiftr_div_pow2 by lia.
  change (2 ^ 2) with 4. change (2 ^ 6) with 64. divlia.
Qed.
Lemma value_second a b :
  is_octet a → is_octet b →
  Z.land (Z.shiftl (Z.land a 3) 4 + Z.shiftr b 4) 0x3F = a mod 4 * 16 + b / 16.
Proof.
  intros [Ha Ha'] [Hb Hb']. change 0x3F with (Z.ones 6). change 3 with (Z.ones 2).
  rewrite !Z.land_ones, Z.shiftr_div_pow2, Z.shiftl_mul_pow2 by lia.
  change (2 ^ 2) with 4. change (2 ^ 4) with 16. change (2 ^ 6) with 64. divlia.
Qed.
Lemma value_third b c :
  is_octet b → is_octet c →
  Z.land (Z.shiftl (Z.land b 0xf) 2 + Z.shiftr c 6) 0x3F = b mod 16 * 4 + c / 64.
Proof.
  intros [Hb Hb'] [Hc Hc']. change 0x3F with (Z.ones 6). change 0xf with (Z.ones 4).
  rewrite !Z.land_ones, Z.shiftr_div_pow2, Z.shiftl_mul_pow2 by lia.
  change (2 ^ 2) with 4. change (2 ^ 4) with 16. change (2 ^ 6) with 64. divlia.
Qed.
Lemma value_fourth c : is_octet c → Z.land c 0x3F = c mod 64.
Proof. intros _. change 0x3F with (Z.ones 6). by rewrite Z.land_ones by lia. Qed.

Lemma zero_octet : is_octet 0.
Proof. by unfold is_octet. Qed.

(** how many octets the padding adds *)
Definition pad (n : nat) : nat := (match n with 1 => 2 | 2 => 1 | _ => 0 end)%nat.
Definition padding (l : list Z) : list Z := replicate (pad (length l mod 3)) 0.

Lemma padding_step a b c l : padding (a :: b :: c :: l) = padding l.
Proof.
  unfold padding. f_equal. f_equal. cbn [length].
  replace (S (S (S (length l)))) with (length l + 1 * 3)%nat by lia. apply Nat.Div0.mod_add.
Qed.

Lemma triples_ind (P : list Z → Prop) :
  P [] → (∀ a, P [a]) → (∀ a b, P [a; b]) → (∀ a b c l, P l → P (a :: b :: c :: l)) → ∀ l, P l.
Proof.
  intros H0 H1 H2 H3 l. enough (P l ∧ (∀ a, P (a :: l)) ∧ ∀ a b, P (a :: b :: l)) by tauto.
  induction l as [|c l (IH1 & IH2 & IH3)]; [done|]. split; [apply IH2|]. split; [intros a; apply IH3|].
  intros a b. by apply H3.
Qed.

Lemma decode_chars l : Forall is_octet l → ∀ outpos size,
  outpos + Z.of_nat (length l) + 3 < size →
  base64_decode_loop (base64_chars l) outpos 0 0 size = l ++ padding l.
Proof.
  pose proof zero_octet as H0.
  induction l as [|a|a b|a b c l IH] using triples_ind; intros Hl outpos size Hs; [done|..];
    cbn [base64_chars length] in *;
    repeat match goal with H : Forall _ (_ :: _) |- _ => apply Forall_cons in H as [? H] end.
  - erewrite decode_quantum; [|apply code_value|apply code_value|apply pad_value|apply pad_value|lia].
    rewrite (quantum_octets a 0 0);
      [done|done..|by rewrite value_first|by rewrite (value_second a 0)|done|done].
  - erewrite decode_quantum; [|apply code_value|apply code_value|apply code_value|apply pad_value|lia].
    rewrite (quantum_octets a b 0);
      [done|done..|by rewrite value_first|by rewrite value_second| |done].
    replace (Z.shiftl (Z.land b 15) 2) with (Z.shiftl (Z.land b 15) 2 + Z.shiftr 0 6)
      by (rewrite Z.shiftr_0_l; lia).
    by rewrite (value_third b 0).
  - erewrite decode_quantum; [|apply code_value..|lia].
    rewrite (quantum_octets a b c), padding_step;
      [|done..|by rewrite value_first|by rewrite value_second|by rewrite value_third|
       by rewrite value_fourth].
    cbn [app]. rewrite IH by (done || lia). done.
Qed.

(** What [base64_encode] makes of any octets is decoded to those octets, followed by
    one or two zero octets where the encoding was padded, given room for four octets
    more. *)
Theorem base64_roundtrip l outlen size :
  Forall is_octet l → 4 * Z.quot (Z.of_nat (length l) + 2) 3 < outlen →
  Z.of_nat (length l) + 3 < size →
  ∃ n text, base64_encode l outlen = (0, n, text) ∧ n = Z.of_nat (length text) ∧
    base64_decode text size = Done (l ++ padding l).
Proof.
  intros Hl Hout Hs. unfold base64_encode, base64_decode.
  rewrite (proj2 (Z.ltb_ge outlen _)), andb_false_r by lia.
  rewrite (proj2 (Z.ltb_ge size 1)) by lia.
  eexists _, _. split; [done|]. split; [done|]. f_equal. by apply decode_chars.
Qed.

Lemma base64_roundtrip_witness :
  ∃ n text, base64_encode [104; 105; 255; 0] 20 = (0, n, text) ∧ n = Z.of_nat (length text) ∧
    base64_decode text 10 = Done ([104; 105; 255; 0] ++ padding [104; 105; 255; 0]).
Proof.
  apply (base64_roundtrip [104; 105; 255; 0] 20 10).
  - repeat constructor; unfold is_octet; lia.
  - vm_compute. reflexivity.
  - vm_compute. reflexivity.
Defined.

(** ** Fields separated by commas *)

Definition plain_char (c : Z) : Prop := c ≠ chr_quote ∧ c ≠ chr_comma.

(** characters are copied one by one as long as the token is not full *)
Lemma token_copy size at_ f rest tok :
  Forall plain_char f → (at_ = AtHead ∨ at_ = AtQuoted) →
  (length tok + length f < size - 2)%nat →
  get_token_loop size at_ (f ++ rest) tok = get_token_loop size at_ rest (tok ++ f).
Proof.
  intros Hf Hat. revert tok. induction Hf as [|c f [Hq Hc] Hf IH]; intros tok Hlen.
  { by rewrite app_nil_r. }
  cbn [length] in Hlen. cbn [app get_token_loop].
  rewrite (proj2 (Z.eqb_neq c chr_quote)), (proj2 (Z.eqb_neq c chr_comma)) by done.
  rewrite (proj2 (Nat.ltb_lt _ _)) by lia. cbn [mbind outcome_bind].
  rewrite (proj2 (Nat.eqb_neq _ _)) by (rewrite length_app; cbn; lia).
  replace (tok ++ c :: f) with ((tok ++ [c]) ++ f) by by rewrite <-app_assoc.
  destruct Hat as [-> | ->]; apply IH; rewrite length_app; cbn; lia.
Qed.

(** a field with its separator, in quotes or not *)
Definition field_text (quoted : bool) (f : list Z) : list Z :=
  if quoted then [chr_quote] ++ f ++ [chr_quote] else f.

(** A field of characters other than quotes and commas, shorter by more than two
    characters than the array for it, in quotes or not, is split off at the comma that
    ends it. *)
Theorem get_token_field quoted f rest size :
  Forall plain_char f → (length f < size - 2)%nat →
  get_token (field_text quoted f ++ chr_comma :: rest) size = Done (Some (f, rest)).
Proof.
  intros Hf Hlen. unfold get_token, field_text.
  assert (get_token_loop size AtHead ((if quoted then [chr_quote] ++ f ++ [chr_quote] else f) ++
    chr_comma :: rest) [] = Done (f, Some rest)) as ->.
  { destruct quoted.
    - rewrite <-app_assoc. cbn [app get_token_loop]. change (chr_quote =? chr_quote) with true.
      cbn match. rewrite <-app_assoc, token_copy by (try right; try done; cbn; lia). done.
    - rewrite token_copy by (try left; try done; cbn; lia). done. }
  cbn [mbind outcome_bind]. rewrite decide_False by (by destruct quoted, f).
  by rewrite (proj2 (Nat.ltb_lt _ _)) by lia.
Qed.

Lemma get_token_field_witness :
  get_token (field_text true [65; 66] ++ chr_comma :: [67]) 8 = Done (Some ([65; 66], [67])).
Proof.
  apply (get_token_field true [65; 66] [67] 8).
  - repeat constructor; done.
  - cbn. lia.
Defined.

(** once the token has been full in a quoted string, nothing stops the copying *)
Lemma token_runs_over size at_ f tok :
  Forall plain_char f → (2 ≤ size)%nat → (at_ = AtHead ∨ at_ = AtFull) →
  (size - 2 ≤ length tok ≤ size)%nat → (size < length tok + length f)%nat →
  get_token_loop size at_ f tok = Fault OutOfBounds.
Proof.
  intros Hf Hsz. revert at_ tok. induction Hf as [|c f [Hq Hc] Hf IH]; intros at_ tok Hat Htok Hlen;
    cbn [length] in Hlen; [lia|].
  cbn [get_token_loop].
  rewrite (proj2 (Z.eqb_neq c chr_quote)), (proj2 (Z.eqb_neq c chr_comma)) by done.
  assert ((if (length tok <? size)%nat then Done (tok ++ [c]) else Fault OutOfBounds) ≫=
    (λ t, if (length t =? size - 2)%nat then Done (t, None) else get_token_loop size AtHead f t) =
    Fault OutOfBounds) as H.
  { destruct (Nat.ltb_spec (length tok) size); [|done]. cbn [mbind outcome_bind].
    rewrite (proj2 (Nat.eqb_neq _ _)) by (rewrite length_app; cbn; lia).
    apply IH; [by left|rewrite length_app; cbn; lia..]. }
  by destruct Hat as [-> | ->].
Qed.

Lemma token_fills size f tok :
  Forall plain_char f → (length tok < size - 2)%nat → (size < length tok + length f)%nat →
  get_token_loop size AtQuoted f tok = Fault OutOfBounds.
Proof.
  intros Hf. revert tok. induction Hf as [|c f [Hq Hc] Hf IH]; intros tok Htok Hlen;
    cbn [length] in Hlen; [lia|].
  cbn [get_token_loop]. rewrite (proj2 (Z.eqb_neq c chr_quote)) by done.
  rewrite (proj2 (Nat.ltb_lt _ _)) by lia. cbn [mbind outcome_bind].
  destruct (Nat.eqb_spec (length (tok ++ [c])) (size - 2)) as [He|He]; rewrite length_app in He;
    cbn in He.
  - apply token_runs_over; [done|lia|by right|rewrite length_app; cbn; lia..].
  - apply IH; rewrite length_app; cbn; lia.
Qed.

(** A quoted string longer than the array for the token runs over the end of the
    array: the test in the loop over the string leaves only that loop. *)
Theorem quoted_token_overflows f size :
  Forall plain_char f → (3 ≤ size)%nat → (size < length f)%nat →
  get_token (chr_quote :: f) size = Fault OutOfBounds.
Proof.
  intros Hf Hsz Hlen. unfold get_token. cbn [get_token_loop].
  change (chr_quote =? chr_quote) with true. cbn match. rewrite token_fills by (done || cbn; lia).
  done.
Qed.

Lemma quoted_token_overflows_witness :
  get_token (chr_quote :: replicate 17 65) 16 = Fault OutOfBounds.
Proof.
  apply (quoted_token_overflows (replicate 17 65) 16).
  - apply Forall_replicate. done.
  - lia.
  - cbn. lia.
Defined.

(** ** Numbers *)

Lemma c_string_app s a : Forall (λ c, c ≠ 0) s → c_string (s ++ a) = (r ← c_string a; Done (s ++ r)).
Proof.
  intros H. induction H as [|c s Hc H IH]; cbn [app c_string].
  { by destruct (c_string a). }
  rewrite (proj2 (Z.eqb_neq _ _)), IH by done. by destruct (c_string a).
Qed.

(** the number without the sign for an international one *)
Definition number_of (string : list Z) : list Z :=
  match string with c :: s => if c =? chr_plus then s else string | [] => [] end.

(** The digits of a parsed number are a string exactly when there are fewer than 32
    of them: with 32 or more the array is not terminated and reading it runs over its end. *)
Theorem number_parse_digits string :
  Forall (λ c, c ≠ 0) string →
  c_string (digits (vgsm_number_parse string)) =
    if (length (number_of string) <? NUMBER_DIGITS)%nat then Done (number_of string)
    else Fault OutOfBounds.
Proof.
  intros Hs.
  assert (digits (vgsm_number_parse string) = strncpy NUMBER_DIGITS (number_of string)) as ->.
  { destruct string as [|c s]; [done|]. cbn. by destruct (c =? chr_plus). }
  assert (Forall (λ c, c ≠ 0) (number_of string)) as Hn.
  { destruct string as [|c s]; [done|]. cbn. destruct (c =? chr_plus); [|done].
    by apply Forall_cons in Hs as [_ ?]. }
  generalize dependent (number_of string). intros n Hn. unfold strncpy.
  rewrite c_string_app by by apply Forall_take.
  destruct (Nat.ltb_spec (length n) NUMBER_DIGITS) as [Hlt|Hge].
  - rewrite take_ge by lia. destruct (NUMBER_DIGITS - length n)%nat eqn:Hd; [lia|].
    cbn. by rewrite app_nil_r.
  - by replace (NUMBER_DIGITS - length n)%nat with 0%nat by lia.
Qed.

Lemma number_parse_digits_witness :
  c_string (digits (vgsm_number_parse (chr_plus :: replicate 12 51))) = Done (replicate 12 51).
Proof.
  pose proof (number_parse_digits (chr_plus :: replicate 12 51)) as H.
  apply H. constructor; [done|]. apply Forall_replicate. done.
Defined.
