(* ===== verification/VgsmSms.v ===== *)
(** * Short messages of chan_vgsm

    [src/chan_vgsm/]: the PDU of an outgoing message ([sms_submit.c]), incoming messages
    ([sms_deliver.c]), status reports ([sms_status_report.c]) and cell broadcasts
    ([cbm.c]).  The codecs they call are in [VgsmText].

    [iconv] and [mktime] are parameters.  Allocations of a sensible size succeed; one of a
    negative number of characters asks for most of the address space and fails.  Bit
    fields are laid out as on a little-endian machine. *)

From stdpp Require Import base list.
From Stdlib Require Import ZArith Lia.
From S2P Require Import Prelude.
From S2P Require Import Bits.
From S2P Require Import VgsmText.
Local Open Scope Z_scope.

Definition bit (b : bool) (k : Z) : Z := if b then Z.shiftl 1 k else 0.

(** the bit field of [w] bits from bit [k] of an octet on *)
Definition field (k w o : Z) : Z := Z.land (Z.shiftr o k) (Z.ones w).

Definition VGSM_SMS_MT_SUBMIT : Z := 1.
Definition VGSM_VPF_RELATIVE_FORMAT : Z := 2.
Definition VGSM_SMS_UDH_IEI_CONCATENATED_SMS : Z := 0.
Definition VGSM_SMS_DCS_ALPHABET_DEFAULT : Z := 0.
Definition VGSM_SMS_DCS_ALPHABET_8_BIT_DATA : Z := 1.
Definition VGSM_SMS_DCS_ALPHABET_UCS2 : Z := 2.

(** ** [sms_submit.c] *)

Record vgsm_sms_submit := {
  submit_refcnt : Z;
  submit_me : option nat;
  submit_smcc_address : vgsm_number;
  reject_duplicates : bool;
  submit_reply_path : bool;
  submit_user_data_header_indicator : bool;
  status_report_request : bool;
  submit_message_reference : Z;
  dest : vgsm_number;
  validity_period : Z;
  submit_coding_group : Z;
  submit_compressed : bool;
  submit_message_class : Z;
  submit_alphabet : Z;
  submit_concatenate_refnum : Z;
  submit_concatenate_maxmsg : Z;
  submit_concatenate_seqnum : Z;
  submit_text : option (list Z);
  submit_pdu_len : Z;
  submit_pdu_tp_len : Z;
  submit_pdu : option (list Z);
}.

Definition no_number : vgsm_number := {| digits := replicate NUMBER_DIGITS 0; np := 0; ton := 0 |}.

Definition vgsm_sms_submit_alloc : vgsm_sms_submit := {|
  submit_refcnt := 1; submit_me := None; submit_smcc_address := no_number;
  reject_duplicates := false; submit_reply_path := false;
  submit_user_data_header_indicator := false; status_report_request := false;
  submit_message_reference := 0; dest := no_number; validity_period := 4 * 86400;
  submit_coding_group := 0; submit_compressed := false; submit_message_class := 1;
  submit_alphabet := VGSM_SMS_DCS_ALPHABET_DEFAULT; submit_concatenate_refnum := 0;
  submit_concatenate_maxmsg := 0; submit_concatenate_seqnum := 0; submit_text := None;
  submit_pdu_len := 0; submit_pdu_tp_len := 0; submit_pdu := None |}.

(** what [vgsm_sms_submit_prepare] changes of the message *)
Definition submit_prepared (sms : vgsm_sms_submit) (alphabet : Z) (udhi : bool)
    (pdu_len pdu_tp_len : Z) (pdu : option (list Z)) : vgsm_sms_submit := {|
  submit_refcnt := submit_refcnt sms; submit_me := submit_me sms;
  submit_smcc_address := submit_smcc_address sms;
  reject_duplicates := reject_duplicates sms; submit_reply_path := submit_reply_path sms;
  submit_user_data_header_indicator := udhi;
  status_report_request := status_report_request sms;
  submit_message_reference := submit_message_reference sms; dest := dest sms;
  validity_period := validity_period sms; submit_coding_group := submit_coding_group sms;
  submit_compressed := submit_compressed sms;
  submit_message_class := submit_message_class sms; submit_alphabet := alphabet;
  submit_concatenate_refnum := submit_concatenate_refnum sms;
  submit_concatenate_maxmsg := submit_concatenate_maxmsg sms;
  submit_concatenate_seqnum := submit_concatenate_seqnum sms;
  submit_text := submit_text sms; submit_pdu_len := pdu_len;
  submit_pdu_tp_len := pdu_tp_len; submit_pdu := pdu |}.

(** [*(pdu + pos++) = v] *)
Definition emit (v : Z) : M (list Z * Z) unit :=
  λ s, pdu ← wr (fst s) (snd s) v; Done (tt, (pdu, snd s + 1)).

(** the octets of a function that fills the buffer from [pdu + pos] on *)
Definition emit_all (vs : list Z) : M (list Z * Z) unit :=
  λ s, pdu ← wr_all (fst s) (snd s) vs; Done (tt, (pdu, snd s + Z.of_nat (length vs))).

Definition pdu_pos : M (list Z * Z) Z := λ s, Done (snd s, s).

(** [struct vgsm_type_of_address] *)
Definition type_of_address (n : vgsm_number) : Z :=
  Z.lor 0x80 (Z.lor (Z.shiftl (Z.land (ton n) 7) 4) (Z.land (np n) 0xf)).

(** the octets a number of [n] digits takes *)
Definition address_octets (n : Z) : Z := Z.quot (n + 1) 2.

Definition validity_octet (validity_period : Z) : Z :=
  u8 (if validity_period <? 300 then 1
      else if validity_period <=? 43200 then Z.quot validity_period 300 - 1
      else if validity_period <=? 86400 then Z.quot validity_period 1800 - 24 + 144
      else if validity_period <=? 30 * 86400 then Z.quot validity_period 86400 - 1 + 168
      else if validity_period <=? 63 * 7 * 86400 then Z.quot validity_period (7 * 86400) - 1 + 197
      else 0xff).

(** [struct vgsm_sms_submit_pdu] *)
Definition submit_first_octet (sms : vgsm_sms_submit) (udhi : bool) : Z :=
  Z.lor VGSM_SMS_MT_SUBMIT
    (Z.lor (bit (reject_duplicates sms) 2)
      (Z.lor (Z.shiftl VGSM_VPF_RELATIVE_FORMAT 3)
        (Z.lor (bit (status_report_request sms) 5)
          (Z.lor (bit udhi 6) (bit (submit_reply_path sms) 7))))).

(** [struct vgsm_sms_data_coding_scheme_00xx], with the class bit set *)
Definition coding_octet (alphabet message_class : Z) : Z :=
  Z.lor 0x10 (Z.lor (Z.shiftl alphabet 2) (Z.land message_class 3)).

(** the SMCC address *)
Definition emit_smcc (n : vgsm_number) (d : list Z) : M (list Z * Z) unit :=
  emit (u8 (address_octets (Z.of_nat (length d)) + 1)) ;;
  emit (type_of_address n) ;;
  emit_all (vgsm_text_to_bcd d).

(** from the first octet of the TPDU to the validity period *)
Definition emit_header (sms : vgsm_sms_submit) (udhi : bool) (alphabet : Z) (d : list Z) :
    M (list Z * Z) unit :=
  emit (submit_first_octet sms udhi) ;;
  emit (submit_message_reference sms) ;;
  emit (u8 (Z.of_nat (length d))) ;;
  emit (type_of_address (dest sms)) ;;
  emit_all (vgsm_text_to_bcd d) ;;
  emit 0 ;;
  emit (coding_octet alphabet (submit_message_class sms)) ;;
  emit (validity_octet (validity_period sms)).

(** the user data header, written without moving [pos] *)
Definition write_udh (sms : vgsm_sms_submit) (pdu : list Z) (pos : Z) : outcome (list Z) :=
  wr_all pdu pos
    [5; VGSM_SMS_UDH_IEI_CONCATENATED_SMS; 3; submit_concatenate_refnum sms;
     submit_concatenate_maxmsg sms; submit_concatenate_seqnum sms].

Definition submit_alphabet_of (text : list Z) : Z :=
  if forallb (λ wc, match vgsm_wc_to_gsm wc with [] => false | _ => true end) text
  then VGSM_SMS_DCS_ALPHABET_DEFAULT else VGSM_SMS_DCS_ALPHABET_UCS2.

Section iconv.
(** The octets [iconv] from WCHAR_T to UCS-2BE writes for a text, into an array of so
    many octets.  The result is compared to be negative as an unsigned value: what
    [iconv] wrote before an error counts. *)
Variable iconv : list Z → Z → list Z.

(** the user data, and the final position; a negative result is an error *)
Definition write_user_data (text : list Z) (alphabet udh_len max_len : Z) (pdu : list Z) (pos tp_udl_ptr : Z) :
    outcome (list Z * (Z + Z)) :=
  let udh_len_septets := if udh_len =? 0 then 0 else vgsm_octets_to_septets udh_len in
  if alphabet =? VGSM_SMS_DCS_ALPHABET_UCS2 then
    let out := iconv text (max_len - pos - udh_len - 1) in
    pdu ← wr_all pdu (pos + udh_len) out;
    pdu ← wr pdu tp_udl_ptr (u8 (udh_len + Z.of_nat (length out)));
    Done (pdu, inl (pos + Z.of_nat (length out) + udh_len))
  else
    r ← vgsm_wc_to_7bit pos text pdu (160 - udh_len_septets) udh_len_septets;
    let (pdu, used_septets) := r : list Z * Z in
    if used_septets <? 0 then Done (pdu, inr used_septets)
    else
      pdu ← wr pdu tp_udl_ptr (u8 (udh_len_septets + used_septets));
      Done (pdu, inl (pos + vgsm_septets_to_octets (udh_len_septets + used_septets))).

(** the message and the result *)
Definition vgsm_sms_submit_prepare (sms : vgsm_sms_submit) : outcome (vgsm_sms_submit * Z) :=
  match submit_pdu sms, submit_text sms with
  | None, Some text =>
      let alphabet := submit_alphabet_of text in
      let udhi := submit_user_data_header_indicator sms || (1 <? submit_concatenate_maxmsg sms) in
      smcc_digits ← c_string (digits (submit_smcc_address sms));
      dest_digits ← c_string (digits (dest sms));
      let max_len := 2 + address_octets (Z.of_nat (length smcc_digits)) + 160 in
      r ← emit_smcc (submit_smcc_address sms) smcc_digits (replicate (Z.to_nat max_len) 0, 0);
      let pre_tp_len := snd (snd r) in
      r ← emit_header sms udhi alphabet dest_digits (snd r);
      let (pdu, tp_udl_ptr) := snd r : list Z * Z in
      let pos := tp_udl_ptr + 1 in
      pdu ← (if udhi : bool then write_udh sms pdu pos else Done pdu);
      r ← write_user_data text alphabet (if udhi : bool then 6 else 0) max_len pdu pos tp_udl_ptr;
      match r with
      | (_, inr err) =>
          Done (submit_prepared sms alphabet udhi (submit_pdu_len sms) (submit_pdu_tp_len sms) None, err)
      | (pdu, inl pos) =>
          if max_len <? pos then Fault AssertFail
          else Done (submit_prepared sms alphabet udhi pos (pos - pre_tp_len) (Some pdu), 0)
      end
  | _, _ => Fault AssertFail
  end.
End iconv.

(** ** Incoming PDUs

    A parser reads a PDU from a position on: a value and the next position, or nothing
    where the code goes to one of the labels that free the message and return NULL. *)

Definition parser (A : Type) : Type := list Z → Z → outcome (option (A * Z)).

#[export] Instance parser_ret : MRet parser := λ A a pdu pos, Done (Some (a, pos)).
#[export] Instance parser_bind : MBind parser :=
  λ A B k m pdu pos,
    r ← m pdu pos;
    match r with Some (a, pos) => k a pdu pos | None => Done None end.

(** [*(pdu + pos++)] *)
Definition octet : parser Z := λ pdu pos, b ← rd pdu pos; Done (Some (b, pos + 1)).
(** [*(pdu + pos + i)] *)
Definition octet_at (i : Z) : parser Z := λ pdu pos, b ← rd pdu (pos + i); Done (Some (b, pos)).
Definition reject {A} : parser A := λ pdu pos, Done None.
Definition position : parser Z := λ pdu pos, Done (Some (pos, pos)).
Definition pdu_length : parser Z := λ pdu pos, Done (Some (Z.of_nat (length pdu), pos)).
Definition skip (n : Z) : parser unit := λ pdu pos, Done (Some (tt, pos + n)).
(** a function of the PDU and the position *)
Definition on_pdu {A} (f : list Z → Z → outcome A) : parser A :=
  λ pdu pos, a ← f pdu pos; Done (Some (a, pos)).
(** a function of the buffer [pdu + pos] *)
Definition from_here {A} (f : list Z → outcome A) : parser A :=
  on_pdu (λ pdu pos, f (drop (Z.to_nat pos) pdu)).
Definition stop {A} (f : fault) : parser A := λ pdu pos, Fault f.

(** the octets of a string of hexadecimal digits *)
Fixpoint hex_octets (text : list Z) : list Z :=
  match text with
  | h :: l :: text =>
      u8 (Z.lor (Z.shiftl (char_to_hexdigit h) 4) (char_to_hexdigit l)) :: hex_octets text
  | _ => []
  end.

(** [vgsm_bcd_to_text] into the digits of a number *)
Definition bcd_digits (nibbles : Z) : parser (list Z) :=
  r ← from_here (λ buf, vgsm_bcd_to_text buf nibbles (Z.of_nat NUMBER_DIGITS));
  match r with Some text => mret (strncpy NUMBER_DIGITS text) | None => reject end.

Definition toa_number (toa : Z) (digits : list Z) : vgsm_number :=
  {| digits := digits; np := field 0 4 toa; ton := field 4 3 toa |}.

Definition smcc_address : parser vgsm_number :=
  smcc_len ← octet;
  pdu_len ← pdu_length;
  pos ← position;
  if pdu_len - pos <? smcc_len then reject
  else if Z.of_nat NUMBER_DIGITS - 1 <? smcc_len then reject
  else
    toa ← octet;
    d ← bcd_digits ((smcc_len - 1) * 2);
    skip (smcc_len - 1) ;;
    mret (toa_number toa d).

Definition party_address : parser vgsm_number :=
  len ← octet;
  toa ← octet;
  d ← bcd_digits len;
  skip (address_octets len) ;;
  mret (toa_number toa d).

(** what the code sets of a [struct tm] *)
Record tm := { tm_year : Z; tm_mon : Z; tm_mday : Z; tm_hour : Z; tm_min : Z; tm_sec : Z }.

Definition semi_octets : parser Z := o ← octet; mret (vgsm_nibbles_to_decimal o).

Definition timestamp_tm : parser tm :=
  y ← semi_octets; mo ← semi_octets; d ← semi_octets;
  h ← semi_octets; mi ← semi_octets; s ← semi_octets;
  mret {| tm_year := y + 100; tm_mon := mo - 1; tm_mday := d;
          tm_hour := h; tm_min := mi; tm_sec := s |}.

Definition timezone_of (o : Z) : Z :=
  if Z.testbit o 7 then vgsm_nibbles_to_decimal (Z.land o 0x7f)
  else - vgsm_nibbles_to_decimal (Z.land o 0x7f).

Section mktime.
Variable mktime : tm → Z.

(** a time and its time zone *)
Definition timestamp : parser (Z * Z) :=
  t ← timestamp_tm;
  if mktime t =? -1 then reject
  else z ← octet; mret (mktime t - timezone_of z, timezone_of z).

(** [vgsm_7bit_to_wc] into an array allocated for [text_len] characters *)
Definition text_7bit (text_len offset : Z) : parser (list Z) :=
  if text_len + 1 <? 0 then reject
  else from_here (λ buf, vgsm_7bit_to_wc buf text_len offset (text_len + 1)).

(** [k] characters of two octets each *)
Fixpoint ucs2_chars (buf : list Z) (k : nat) (i : Z) : outcome (list Z) :=
  match k with
  | O => Done []
  | S k =>
      h ← rd buf (i * 2); l ← rd buf (i * 2 + 1);
      r ← ucs2_chars buf k (i + 1);
      Done (Z.lor (Z.shiftl h 8) l :: r)
  end.

Definition text_ucs2 (text_len : Z) : parser (list Z) :=
  if text_len + 1 <? 0 then reject
  else if text_len + 1 =? 0 then stop OutOfBounds
  else from_here (λ buf, ucs2_chars buf (Z.to_nat text_len) 0).

(** what the data coding scheme says, and the text *)
Record user_data := {
  ud_coding_group : Z;
  ud_compressed : bool;
  ud_message_class : Z;
  ud_alphabet : Z;
  ud_text : option (list Z);
}.

(** the text of [len7] septets after [offset7], or of [len16] characters.  [strict]: an
    unknown coding group is refused *)
Definition user_text (strict : bool) (dcs len7 offset7 len16 : Z) : parser user_data :=
  let coding_group := field 4 4 dcs in
  let ud compressed class alphabet text :=
    {| ud_coding_group := coding_group; ud_compressed := compressed;
       ud_message_class := class; ud_alphabet := alphabet; ud_text := text |} in
  if coding_group <=? 0x3 then
    let alphabet := field 2 2 dcs in
    let class := if Z.testbit dcs 4 then field 0 2 dcs else -1 in
    if Z.testbit dcs 5 then reject
    else if alphabet =? VGSM_SMS_DCS_ALPHABET_DEFAULT then
      text ← text_7bit len7 offset7; mret (ud false class alphabet (Some text))
    else if alphabet =? VGSM_SMS_DCS_ALPHABET_8_BIT_DATA then
      mret (ud false class alphabet None)
    else if alphabet =? VGSM_SMS_DCS_ALPHABET_UCS2 then
      text ← text_ucs2 len16; mret (ud false class alphabet (Some text))
    else mret (ud false class alphabet None)
  else if coding_group =? 0xc then mret (ud false (-1) 0 None)
  else if coding_group =? 0xe then mret (ud false (-1) 0 None)
  else if coding_group =? 0xf then
    if Z.testbit dcs 2 then mret (ud false (-1) 0 None)
    else text ← text_7bit len7 offset7; mret (ud false (-1) 0 (Some text))
  else if strict then reject
  else mret (ud false (-1) 0 None).

(** ** [sms_deliver.c] *)

Record vgsm_sms_deliver := {
  deliver_refcnt : Z;
  deliver_me : option nat;
  deliver_smcc_address : vgsm_number;
  deliver_more_messages_to_send : bool;
  deliver_reply_path : bool;
  deliver_user_data_header_indicator : bool;
  status_report_indication : bool;
  originating_address : vgsm_number;
  deliver_user_data : user_data;
  deliver_timestamp : Z;
  deliver_timezone : Z;
  deliver_concatenate : Z * Z * Z;
  deliver_pdu : list Z;
}.

(** The loop over the user data header: the reference number, the number of messages
    and the sequence number, [c] before.  Each turn advances by two octets at least. *)
Fixpoint udh_loop (fuel : nat) (pdu : list Z) (end_ udh_pos : Z) (c : Z * Z * Z) :
    outcome (Z * Z * Z) :=
  if udh_pos <? end_ then
    match fuel with
    | O => Fault Diverges
    | S fuel =>
        iei_id ← rd pdu udh_pos;
        iei_len ← rd pdu (udh_pos + 1);
        let udh_pos := udh_pos + 2 in
        c ← (if (iei_id =? VGSM_SMS_UDH_IEI_CONCATENATED_SMS) && (3 <=? iei_len) then
               refnum ← rd pdu udh_pos;
               maxmsg ← rd pdu (udh_pos + 1);
               seqnum ← rd pdu (udh_pos + 2);
               Done (refnum, maxmsg, seqnum)
             else Done c);
        udh_loop fuel pdu end_ (udh_pos + iei_len) c
    end
  else Done c.

(** the header's length, its length in septets, and what it says *)
Definition user_data_header (udhi : bool) : parser (Z * Z * (Z * Z * Z)) :=
  if udhi then
    udhl ← octet_at 0;
    c ← on_pdu (λ pdu pos, udh_loop (Z.to_nat udhl) pdu (pos + udhl) (pos + 1) (0, 0, 0));
    mret (udhl, vgsm_octets_to_septets (udhl + 1), c)
  else mret (0, 0, (0, 0, 0)).

Definition deliver_pdu_parser (text_pdu : list Z) : parser vgsm_sms_deliver :=
  smcc ← smcc_address;
  sdp ← octet;
  originating ← party_address;
  skip 1 ;;
  dcs_pos ← position;
  skip 1 ;;
  t ← timestamp;
  tp_udl ← octet;
  h ← user_data_header (Z.testbit sdp 6);
  let '(udhl, udhl_septets, concatenate) := h in
  dcs ← on_pdu (λ pdu pos, rd pdu dcs_pos);
  ud ← user_text true dcs (tp_udl - udhl_septets) udhl_septets (Z.quot (tp_udl - udhl) 2);
  mret {| deliver_refcnt := 1; deliver_me := None; deliver_smcc_address := smcc;
          deliver_more_messages_to_send := Z.testbit sdp 2; deliver_reply_path := false;
          deliver_user_data_header_indicator := Z.testbit sdp 6;
          status_report_indication := Z.testbit sdp 5; originating_address := originating;
          deliver_user_data := ud; deliver_timestamp := fst t; deliver_timezone := snd t;
          deliver_concatenate := concatenate; deliver_pdu := hex_octets text_pdu |}.

(** the message; [None]: NULL *)
Definition run_parser {A} (p : parser A) (text_pdu : list Z) : outcome (option A) :=
  if Z.odd (Z.of_nat (length text_pdu)) then Done None
  else option_map fst <$> p (hex_octets text_pdu) 0.

Definition vgsm_sms_deliver_init_from_pdu (text_pdu : list Z) : outcome (option vgsm_sms_deliver) :=
  run_parser (deliver_pdu_parser text_pdu) text_pdu.

(** ** [sms_status_report.c] *)

Record vgsm_sms_status_report := {
  report_refcnt : Z;
  report_me : option nat;
  report_smcc_address : vgsm_number;
  report_user_data_header_indicator : bool;
  report_more_messages_to_send : bool;
  status_report_qualifier : bool;
  report_message_reference : Z;
  recipient_address : vgsm_number;
  smcc_timestamp : Z * Z;
  discharge_time : Z * Z;
  status : Z;
  parameter_indicator : Z;
  report_user_data : user_data;
  report_pdu : list Z;
}.

Definition no_user_data : user_data :=
  {| ud_coding_group := 0; ud_compressed := false; ud_message_class := 0;
     ud_alphabet := 0; ud_text := None |}.

(** what comes after the status; the first component is the parameter indicator *)
Definition report_parameters : parser (Z * user_data) :=
  pos ← position;
  pdu_len ← pdu_length;
  if pdu_len <? pos then stop AssertFail
  else if pos =? pdu_len then mret (0, no_user_data)
  else
    pi ← octet;
    if negb (Z.testbit pi 0) then mret (pi, no_user_data)
    else
      skip 1 ;;
      if negb (Z.testbit pi 1) then mret (pi, no_user_data)
      else
        dcs_pos ← position;
        skip 1 ;;
        if negb (Z.testbit pi 2) then mret (pi, no_user_data)
        else
          tp_udl ← octet;
          dcs ← on_pdu (λ pdu pos, rd pdu dcs_pos);
          ud ← user_text false dcs tp_udl 0 (Z.quot tp_udl 2);
          mret (pi, ud).

Definition report_pdu_parser (text_pdu : list Z) : parser vgsm_sms_status_report :=
  smcc ← smcc_address;
  sdp ← octet;
  mr ← octet;
  recipient ← party_address;
  t ← timestamp;
  d ← timestamp;
  st ← octet;
  r ← report_parameters;
  mret {| report_refcnt := 1; report_me := None; report_smcc_address := smcc;
          report_user_data_header_indicator := Z.testbit sdp 2;
          report_more_messages_to_send := Z.testbit sdp 3;
          status_report_qualifier := Z.testbit sdp 4; report_message_reference := mr;
          recipient_address := recipient; smcc_timestamp := t; discharge_time := d;
          status := st; parameter_indicator := fst r; report_user_data := snd r;
          report_pdu := hex_octets text_pdu |}.

Definition vgsm_sms_status_report_init_from_pdu (text_pdu : list Z) :
    outcome (option vgsm_sms_status_report) :=
  run_parser (report_pdu_parser text_pdu) text_pdu.
End mktime.

(** ** [cbm.c] *)

(** the array of a broadcast's text: none, allocated but never written, or the text *)
Inductive cbm_text : Set := NoText | Unwritten | Text (text : list Z).

Record vgsm_cbm := {
  cbm_refcnt : Z;
  cbm_me : option nat;
  geoscope : Z;
  message_code : Z;
  update_number : Z;
  message_id : Z;
  pages : Z;
  page : Z;
  cbm_coding_group : Z;
  language : Z;
  cbm_compressed : bool;
  cbm_message_class : Z;
  cbm_alphabet : Z;
  cbm_text_ : cbm_text;
  cbm_pdu : list Z;
}.

Definition VGSM_CBM_DCS_LANG_UNSPECIFIED : Z := 0xf.

(** language, class, alphabet and text *)
Definition cbm_content (dcs : Z) : parser (Z * Z * Z * cbm_text) :=
  let coding_group := field 4 4 dcs in
  let lang := VGSM_CBM_DCS_LANG_UNSPECIFIED in
  if coding_group =? 0 then
    text ← text_7bit 93 0; mret (field 0 4 dcs, -1, 0, Text text)
  else if (4 <=? coding_group) && (coding_group <=? 7) then
    let class := if Z.testbit dcs 4 then field 0 2 dcs else -1 in
    let alphabet := field 2 2 dcs in
    if Z.testbit dcs 5 then reject
    else if alphabet =? VGSM_SMS_DCS_ALPHABET_DEFAULT then
      text ← text_7bit 93 0; mret (lang, class, alphabet, Text text)
    else if alphabet =? VGSM_SMS_DCS_ALPHABET_8_BIT_DATA then mret (lang, class, alphabet, NoText)
    else if alphabet =? VGSM_SMS_DCS_ALPHABET_UCS2 then
      _ ← text_ucs2 41; mret (lang, class, alphabet, Unwritten)
    else mret (lang, class, alphabet, NoText)
  else if coding_group =? 0xe then reject
  else if coding_group =? 0xf then
    let class := field 0 2 dcs in
    if Z.testbit dcs 2 then mret (lang, class, 0, NoText)
    else text ← text_7bit 82 0; mret (lang, class, 0, Text text)
  else reject.

Definition cbm_pdu_parser (text_pdu : list Z) : parser vgsm_cbm :=
  s0 ← octet; s1 ← octet;
  let serial := Z.lor s0 (Z.shiftl s1 8) in
  m0 ← octet; m1 ← octet;
  dcs ← octet;
  pp ← octet;
  let single := (field 4 4 pp =? 0) || (field 0 4 pp =? 0) in
  c ← cbm_content dcs;
  let '(lang, class, alphabet, text) := c in
  mret {| cbm_refcnt := 1; cbm_me := None; geoscope := field 14 2 serial; message_code := field 4 10 serial;
          update_number := field 0 4 serial; message_id := Z.lor (Z.shiftl m0 8) m1;
          pages := if single then 1 else field 0 4 pp;
          page := if single then 1 else field 4 4 pp;
          cbm_coding_group := field 4 4 dcs; language := lang; cbm_compressed := false;
          cbm_message_class := class; cbm_alphabet := alphabet; cbm_text_ := text;
          cbm_pdu := hex_octets text_pdu |}.

Definition vgsm_decode_cbm_pdu (text_pdu : list Z) : outcome (option vgsm_cbm) :=
  run_parser (cbm_pdu_parser text_pdu) text_pdu.

(** ** Reference counts

    [vgsm_*_get] and [vgsm_*_put] of the four kinds of message. *)

Class Counted (A : Type) := {
  refcnt : A → Z;
  set_refcnt : Z → A → A;
  (** the ME whose reference the object drops when it is freed *)
  dropped_me : A → option nat;
}.

Definition obj_get `{Counted A} (o : A) : outcome A :=
  if (0 <? refcnt o) && (refcnt o <? 100000) then Done (set_refcnt (refcnt o + 1) o)
  else Fault AssertFail.

(** what is left of the object, and the ME that is put *)
Definition obj_put `{Counted A} (o : A) : outcome (option A * option nat) :=
  if (0 <? refcnt o) && (refcnt o <? 100000) then
    if refcnt o - 1 =? 0 then Done (None, dropped_me o)
    else Done (Some (set_refcnt (refcnt o - 1) o), None)
  else Fault AssertFail.

Definition eta_submit (o : vgsm_sms_submit) : vgsm_sms_submit :=
  {| submit_refcnt := submit_refcnt o; submit_me := submit_me o;
     submit_smcc_address := submit_smcc_address o; reject_duplicates := reject_duplicates o;
     submit_reply_path := submit_reply_path o;
     submit_user_data_header_indicator := submit_user_data_header_indicator o;
     status_report_request := status_report_request o;
     submit_message_reference := submit_message_reference o; dest := dest o;
     validity_period := validity_period o; submit_coding_group := submit_coding_group o;
     submit_compressed := submit_compressed o; submit_message_class := submit_message_class o;
     submit_alphabet := submit_alphabet o;
     submit_concatenate_refnum := submit_concatenate_refnum o;
     submit_concatenate_maxmsg := submit_concatenate_maxmsg o;
     submit_concatenate_seqnum := submit_concatenate_seqnum o; submit_text := submit_text o;
     submit_pdu_len := submit_pdu_len o; submit_pdu_tp_len := submit_pdu_tp_len o;
     submit_pdu := submit_pdu o |}.
#[export] Instance submit_counted : Counted vgsm_sms_submit := {|
  refcnt := submit_refcnt;
  set_refcnt := λ v o, ltac:(upd_field submit_refcnt eta_submit v o);
  dropped_me := submit_me;
|}.

Definition eta_deliver (o : vgsm_sms_deliver) : vgsm_sms_deliver :=
  {| deliver_refcnt := deliver_refcnt o; deliver_me := deliver_me o;
     deliver_smcc_address := deliver_smcc_address o;
     deliver_more_messages_to_send := deliver_more_messages_to_send o;
     deliver_reply_path := deliver_reply_path o;
     deliver_user_data_header_indicator := deliver_user_data_header_indicator o;
     status_report_indication := status_report_indication o;
     originating_address := originating_address o; deliver_user_data := deliver_user_data o;
     deliver_timestamp := deliver_timestamp o; deliver_timezone := deliver_timezone o;
     deliver_concatenate := deliver_concatenate o; deliver_pdu := deliver_pdu o |}.
#[export] Instance deliver_counted : Counted vgsm_sms_deliver := {|
  refcnt := deliver_refcnt;
  set_refcnt := λ v o, ltac:(upd_field deliver_refcnt eta_deliver v o);
  dropped_me := deliver_me;
|}.

Definition eta_report (o : vgsm_sms_status_report) : vgsm_sms_status_report :=
  {| report_refcnt := report_refcnt o; report_me := report_me o;
     report_smcc_address := report_smcc_address o;
     report_user_data_header_indicator := report_user_data_header_indicator o;
     report_more_messages_to_send := report_more_messages_to_send o;
     status_report_qualifier := status_report_qualifier o;
     report_message_reference := report_message_reference o;
     recipient_address := recipient_address o; smcc_timestamp := smcc_timestamp o;
     discharge_time := discharge_time o; status := status o;
     parameter_indicator := parameter_indicator o; report_user_data := report_user_data o;
     report_pdu := report_pdu o |}.
#[export] Instance report_counted : Counted vgsm_sms_status_report := {|
  refcnt := report_refcnt;
  set_refcnt := λ v o, ltac:(upd_field report_refcnt eta_report v o);
  dropped_me := report_me;
|}.

Definition eta_cbm (o : vgsm_cbm) : vgsm_cbm :=
  {| cbm_refcnt := cbm_refcnt o; cbm_me := cbm_me o; geoscope := geoscope o;
     message_code := message_code o; update_number := update_number o;
     message_id := message_id o; pages := pages o; page := page o;
     cbm_coding_group := cbm_coding_group o; language := language o;
     cbm_compressed := cbm_compressed o; cbm_message_class := cbm_message_class o;
     cbm_alphabet := cbm_alphabet o; cbm_text_ := cbm_text_ o; cbm_pdu := cbm_pdu o |}.
#[export] Instance cbm_counted : Counted vgsm_cbm := {|
  refcnt := cbm_refcnt;
  set_refcnt := λ v o, ltac:(upd_field cbm_refcnt eta_cbm v o);
  dropped_me := λ _, None;
|}.
