(* ===== verification/VgsmStandard.v ===== *)
(** * What the standards say

    The alphabet of 3GPP TS 23.038 and the octets of 3GPP TS 23.040, written down from the
    standards and not from the code, for the theorems on the PDUs of [chan_vgsm] to be
    stated with; and that the tables and encoders of the code agree with them. *)

From stdpp Require Import base list.
From Stdlib Require Import ZArith Lia.
From S2P Require Import Prelude.
From S2P Require Import Bits.
From S2P Require Import VgsmText.
From S2P Require Import VgsmTextThm.
From S2P Require Import VgsmSms.
Local Open Scope Z_scope.

(** the place of the first element [x] *)
Fixpoint index_of (x : Z) (l : list Z) : option Z :=
  match l with
  | [] => None
  | y :: l => if x =? y then Some 0 else Z.succ <$> index_of x l
  end.

(** ** TS 23.038, 6.2.1: the default alphabet

    The characters of the codes 0 to 127 in their order; 27 is the escape to the extension
    table, the codes and characters of which follow. *)

Definition gsm_default : list Z :=
  [0x40; 0xa3; 0x24; 0xa5; 0xe8; 0xe9; 0xf9; 0xec; 0xf2; 0xc7; 0x0a; 0xd8; 0xf8; 0x0d; 0xc5; 0xe5;
   0x394; 0x5f; 0x3a6; 0x393; 0x39b; 0x3a9; 0x3a0; 0x3a8; 0x3a3; 0x398; 0x39e; -1; 0xc6; 0xe6; 0xdf; 0xc9;
   0x20; 0x21; 0x22; 0x23; 0xa4; 0x25; 0x26; 0x27; 0x28; 0x29; 0x2a; 0x2b; 0x2c; 0x2d; 0x2e; 0x2f;
   0x30; 0x31; 0x32; 0x33; 0x34; 0x35; 0x36; 0x37; 0x38; 0x39; 0x3a; 0x3b; 0x3c; 0x3d; 0x3e; 0x3f;
   0xa1; 0x41; 0x42; 0x43; 0x44; 0x45; 0x46; 0x47; 0x48; 0x49; 0x4a; 0x4b; 0x4c; 0x4d; 0x4e; 0x4f;
   0x50; 0x51; 0x52; 0x53; 0x54; 0x55; 0x56; 0x57; 0x58; 0x59; 0x5a; 0xc4; 0xd6; 0xd1; 0xdc; 0xa7;
   0xbf; 0x61; 0x62; 0x63; 0x64; 0x65; 0x66; 0x67; 0x68; 0x69; 0x6a; 0x6b; 0x6c; 0x6d; 0x6e; 0x6f;
   0x70; 0x71; 0x72; 0x73; 0x74; 0x75; 0x76; 0x77; 0x78; 0x79; 0x7a; 0xe4; 0xf6; 0xf1; 0xfc; 0xe0].

Definition gsm_extension : list (Z * Z) :=
  [(10, 0x0c); (20, 0x5e); (40, 0x7b); (41, 0x7d); (47, 0x5c); (60, 0x5b); (61, 0x7e); (62, 0x5d);
   (64, 0x7c); (101, 0x20ac)].

(** the septets of a character: one, two of the extension table, or none *)
Definition gsm_septets (wc : Z) : list Z :=
  if wc <? 0 then []
  else match index_of wc gsm_default with
       | Some c => [c]
       | None => match find (λ r, snd r =? wc) gsm_extension with
                 | Some (c, _) => [27; c]
                 | None => []
                 end
       end.
Definition gsm_text (text : list Z) : list Z := text ≫= gsm_septets.

(** characters that have a code, and those that have one without the escape *)
Definition encodable (wc : Z) : Prop := gsm_septets wc ≠ [].
Definition single (wc : Z) : Prop := ∃ c, gsm_septets wc = [c].

(** the characters either table knows *)
Definition known_characters : list Z := (snd <$> vgsm_gsm_wc_translations) ++ gsm_default ++ (snd <$> gsm_extension).

Lemma find_absent wc (l : list (Z * Z * Z)) : wc ∉ snd <$> l → find (λ r, snd r =? wc) l = None.
Proof.
  induction l as [|r l IH]; [done|]. rewrite fmap_cons, not_elem_of_cons. intros [H1 H2]. cbn [find].
  rewrite (proj2 (Z.eqb_neq _ _)) by congruence. by apply IH.
Qed.
Lemma find_absent_extension wc (l : list (Z * Z)) : wc ∉ snd <$> l → find (λ r, snd r =? wc) l = None.
Proof.
  induction l as [|r l IH]; [done|]. rewrite fmap_cons, not_elem_of_cons. intros [H1 H2]. cbn [find].
  rewrite (proj2 (Z.eqb_neq _ _)) by congruence. by apply IH.
Qed.
Lemma index_of_absent x l : x ∉ l → index_of x l = None.
Proof.
  induction l as [|y l IH]; [done|]. rewrite not_elem_of_cons. intros [H1 H2]. cbn [index_of].
  by rewrite (proj2 (Z.eqb_neq _ _)), IH.
Qed.

(** The table of the code is that of the standard. *)
Lemma wc_to_gsm_standard wc : vgsm_wc_to_gsm wc = gsm_septets wc.
Proof.
  destruct (decide (wc ∈ known_characters)) as [Hin|Hout].
  - assert (forallb (λ wc, bool_decide (vgsm_wc_to_gsm wc = gsm_septets wc)) known_characters = true)
      as H by (vm_compute; reflexivity).
    rewrite forallb_forall in H. apply list_elem_of_In, H in Hin. by apply bool_decide_eq_true in Hin.
  - unfold known_characters in Hout. rewrite !not_elem_of_app in Hout. destruct Hout as (H1 & H2 & H3).
    unfold vgsm_wc_to_gsm, gsm_septets. rewrite find_absent, index_of_absent, find_absent_extension by done.
    by destruct (wc <? 0).
Qed.

Lemma text_codes_standard text : text_codes text = gsm_text text.
Proof.
  unfold text_codes, gsm_text. induction text as [|wc text IH]; [done|].
  cbn. by rewrite IH, wc_to_gsm_standard.
Qed.
Lemma single_basic wc : single wc ↔ basic wc.
Proof. unfold single, basic. by rewrite wc_to_gsm_standard. Qed.
Lemma single_text_length text : Forall single text → length (gsm_text text) = length text.
Proof.
  intros H. rewrite <- text_codes_standard. apply basic_codes_length.
  eapply Forall_impl; [exact H|]. intros wc. apply single_basic.
Qed.

(** What the code makes of a text: it reads each septet as a character of the default
    alphabet, the escape as a form feed. *)
Definition alone_taken (c : Z) : Z := if c =? 27 then 0x0c else nth (Z.to_nat c) gsm_default (-1).
Definition text_taken (text : list Z) : list Z := alone_taken <$> gsm_text text.

Lemma alone_taken_standard c : is_septet c → vgsm_gsm_to_wc c = alone_taken c.
Proof.
  intros Hc. assert (forallb (λ c, vgsm_gsm_to_wc c =? alone_taken c) (seqZ 0 128) = true)
    as H by (vm_compute; reflexivity).
  rewrite forallb_forall in H. apply Z.eqb_eq, H, list_elem_of_In, elem_of_seqZ.
  unfold is_septet in Hc. lia.
Qed.
Lemma text_codes_septets text : Forall is_septet (text_codes text).
Proof. apply Forall_bind, Forall_true. intros wc. apply wc_to_gsm_septets. Qed.
Lemma text_taken_standard text : vgsm_gsm_to_wc <$> text_codes text = text_taken text.
Proof.
  unfold text_taken. rewrite <- text_codes_standard.
  apply list_fmap_ext. intros i c Hc. apply alone_taken_standard.
  pose proof (text_codes_septets text) as H. rewrite Forall_lookup in H. by apply (H i).
Qed.
(** characters of one septet are taken for what they are *)
Lemma single_text_taken text : Forall single text → text_taken text = text.
Proof.
  intros H. rewrite <- text_taken_standard. apply basic_codes.
  eapply Forall_impl; [exact H|]. intros wc. apply single_basic.
Qed.

(** ** TS 23.040, 9.1.2: semi-octets and addresses *)

(** two decimal digits, the first in the low half of the octet *)
Definition bcd (v : Z) : Z := v / 10 + 16 * (v mod 10).

Lemma bcd_code v : 0 ≤ v < 100 → vgsm_decimal_to_nibbles v = bcd v.
Proof.
  intros Hv. assert (forallb (λ v, vgsm_decimal_to_nibbles v =? bcd v) (seqZ 0 100) = true)
    as H by (vm_compute; reflexivity).
  rewrite forallb_forall in H. apply Z.eqb_eq, H, list_elem_of_In, elem_of_seqZ. lia.
Qed.

(** 0 to 9, *, #, a, b and c *)
Definition address_digits : list Z := [48; 49; 50; 51; 52; 53; 54; 55; 56; 57; 42; 35; 97; 98; 99].
Definition digit_code (c : Z) : Z := default 0 (index_of c address_digits).
(** an odd number of digits is filled up with ones *)
Fixpoint semi_octets_of (d : list Z) : list Z :=
  match d with
  | [] => []
  | [c] => [digit_code c + 16 * 15]
  | c :: c' :: d => (digit_code c + 16 * digit_code c') :: semi_octets_of d
  end.

Lemma dialled_digit c : is_dialled c → c ∈ address_digits.
Proof.
  intros Hc. unfold address_digits. rewrite !elem_of_cons. unfold is_dialled in Hc. lia.
Qed.

Lemma text_to_bcd_standard d : Forall is_dialled d → vgsm_text_to_bcd d = semi_octets_of d.
Proof.
  assert (forallb (λ c, (u8 (Z.lor (vgsm_char_to_bcd c) 0xf0) =? digit_code c + 16 * 15) &&
    forallb (λ c', u8 (Z.lor (vgsm_char_to_bcd c) (Z.shiftl (vgsm_char_to_bcd c') 4)) =?
                   digit_code c + 16 * digit_code c') address_digits) address_digits = true)
    as H by (vm_compute; reflexivity).
  rewrite forallb_forall in H.
  induction d as [|c|c c' d IH] using pairs_ind; intros Hd; [done| |].
  - apply Forall_cons in Hd as [Hc _]. apply dialled_digit, list_elem_of_In, H in Hc.
    apply andb_prop in Hc as [Hc%Z.eqb_eq _]. cbn [vgsm_text_to_bcd semi_octets_of]. by rewrite Hc.
  - apply Forall_cons in Hd as [Hc Hd]. apply Forall_cons in Hd as [Hc' Hd].
    apply dialled_digit, list_elem_of_In, H in Hc. apply dialled_digit, list_elem_of_In in Hc'.
    apply andb_prop in Hc as [_ Hc]. rewrite forallb_forall in Hc. apply Hc, Z.eqb_eq in Hc'.
    cbn [vgsm_text_to_bcd semi_octets_of]. by rewrite Hc', IH.
Qed.

(** 9.1.2.5: the type of a number and its numbering plan *)
Definition type_of_number_octet (n : vgsm_number) : Z := 128 + 16 * ton n + np n.

Lemma type_of_address_standard n :
  0 ≤ ton n < 8 → 0 ≤ np n < 16 → type_of_address n = type_of_number_octet n.
Proof.
  intros Ht Hp. unfold type_of_address, type_of_number_octet.
  assert (forallb (λ t, forallb (λ p,
    Z.lor 0x80 (Z.lor (Z.shiftl (Z.land t 7) 4) (Z.land p 0xf)) =? 128 + 16 * t + p) (seqZ 0 16))
    (seqZ 0 8) = true) as H by (vm_compute; reflexivity).
  rewrite forallb_forall in H. specialize (H (ton n)).
  rewrite <- list_elem_of_In, elem_of_seqZ, forallb_forall in H. specialize (H ltac:(lia) (np n)).
  rewrite <- list_elem_of_In, elem_of_seqZ in H. apply Z.eqb_eq, H. lia.
Qed.

(** the address of a party counts digits, that of the service centre octets *)
Definition party_octets (n : vgsm_number) (d : list Z) : list Z :=
  [Z.of_nat (length d); type_of_number_octet n] ++ semi_octets_of d.
Definition smcc_octets (n : vgsm_number) (d : list Z) : list Z :=
  [1 + Z.of_nat (length (semi_octets_of d)); type_of_number_octet n] ++ semi_octets_of d.

(** ** 9.2.3.11: the time stamp of the service centre *)

(** a quarter of an hour has two digits, the tens with the sign before them; an octet of
    any value can be read like this *)
Record time_zone := { west : bool; tens : Z; units : Z }.
Definition zone_ok (z : time_zone) : Prop := 0 ≤ tens z < 8 ∧ 0 ≤ units z < 16.
Definition zone_octet (z : time_zone) : Z := tens z + (if west z then 8 else 0) + 16 * units z.

(** what the code takes it for: a number of seconds, the sign of which is that of the
    wrong digit *)
Definition zone_taken (z : time_zone) : Z :=
  let v := 10 * (tens z + (if west z then 8 else 0)) + units z mod 8 in
  if 8 <=? units z then v else - v.

Lemma timezone_of_standard z : zone_ok z → timezone_of (zone_octet z) = zone_taken z.
Proof.
  destruct z as [s t u]. intros [Ht Hu]. cbn in Ht, Hu.
  assert (forallb (λ s, forallb (λ t, forallb (λ u,
    let z := {| west := s; tens := t; units := u |} in
    timezone_of (zone_octet z) =? zone_taken z) (seqZ 0 16)) (seqZ 0 8)) [true; false] = true)
    as H by (vm_compute; reflexivity).
  rewrite forallb_forall in H. specialize (H s ltac:(destruct s; cbn; tauto)).
  rewrite forallb_forall in H. specialize (H t). rewrite <- list_elem_of_In, elem_of_seqZ in H.
  specialize (H ltac:(lia)). rewrite forallb_forall in H. specialize (H u).
  rewrite <- list_elem_of_In, elem_of_seqZ in H. apply Z.eqb_eq, H. lia.
Qed.

(** year, month, day, hour, minute, second, and the time zone *)
Definition time_octets (t : tm) (zone : Z) : list Z :=
  (bcd <$> [tm_year t - 100; tm_mon t + 1; tm_mday t; tm_hour t; tm_min t; tm_sec t]) ++ [zone].

(** ** 9.2.3.12.1: the validity period, in seconds *)

Definition validity_of_octet (vp : Z) : Z :=
  if vp <=? 143 then (vp + 1) * 300
  else if vp <=? 167 then 43200 + (vp - 143) * 1800
  else if vp <=? 196 then (vp - 166) * 86400
  else (vp - 192) * (7 * 86400).

(** ** 9.2.2.2: the first octet of a SUBMIT, with a relative validity period *)

Definition submit_octet (rd srr udhi rp : bool) : Z :=
  1 + 4 * Z.b2z rd + 16 + 32 * Z.b2z srr + 64 * Z.b2z udhi + 128 * Z.b2z rp.

Lemma submit_first_octet_standard sms udhi :
  submit_first_octet sms udhi =
  submit_octet (reject_duplicates sms) (status_report_request sms) udhi (submit_reply_path sms).
Proof.
  unfold submit_first_octet.
  by destruct (reject_duplicates sms), (status_report_request sms), udhi, (submit_reply_path sms).
Qed.

(** TS 23.038, 4: text of the default alphabet that has a class *)
Definition class_octet (class : Z) : Z := 16 + class mod 4.

Lemma coding_octet_standard class :
  coding_octet VGSM_SMS_DCS_ALPHABET_DEFAULT class = class_octet class.
Proof.
  unfold coding_octet, class_octet. change 3 with (Z.ones 2). rewrite Z.land_ones by lia.
  change (2 ^ 2) with 4. pose proof (Z.mod_pos_bound class 4 ltac:(lia)) as H.
  assert (class mod 4 = 0 ∨ class mod 4 = 1 ∨ class mod 4 = 2 ∨ class mod 4 = 3)
    as [->|[->|[->| ->]]] by lia; reflexivity.
Qed.

(** ** 9.2.3.24: the header of a part of a longer message *)

Definition udh_octets (part : option (Z * Z * Z)) : list Z :=
  match part with
  | Some (refnum, maxmsg, seqnum) => [5; 0; 3; refnum; maxmsg; seqnum]
  | None => []
  end.
(** its six octets take seven septets *)
Definition udh_septets (part : option (Z * Z * Z)) : Z := match part with Some _ => 7 | None => 0 end.

(** The user data [ud] carries [text]: the header's octets first, and the text's septets
    behind, each at its bits. *)
Record carries (part : option (Z * Z * Z)) (text ud : list Z) : Prop := {
  ca_header : ∃ rest, ud = udh_octets part ++ rest;
  ca_packed : packed 0 (udh_septets part) (gsm_text text) ud;
  ca_room : 7 * (udh_septets part + Z.of_nat (length (gsm_text text))) ≤ 8 * Z.of_nat (length ud);
}.
