(* ===== verification/VgsmDeliverThm.v ===== *)
(** * Reading PDUs

    What the parsers of [VgsmSms] make of the octets of a number, a time and a text, and
    of a PDU in hexadecimal. *)

From stdpp Require Import base list.
From Stdlib Require Import ZArith Lia.
From S2P Require Import Prelude.
From S2P Require Import Bits.
From S2P Require Import VgsmText.
From S2P Require Import VgsmTextThm.
From S2P Require Import VgsmSms.
From S2P Require Import VgsmStandard.
Local Open Scope Z_scope.

(** ** Parsers and the octets they read *)

(** the octets of the PDU from a position on *)
Definition here (pdu : list Z) (pos : Z) (os : list Z) : Prop :=
  0 ≤ pos ∧ drop (Z.to_nat pos) pdu = os.

(** [p] reads the octets [os], whatever follows, and gives [a] *)
Definition reads {A} (p : parser A) (os : list Z) (a : A) : Prop :=
  ∀ pdu pos rest, here pdu pos (os ++ rest) → p pdu pos = Done (Some (a, pos + Z.of_nat (length os))).

Lemma here_step pdu pos os rest :
  here pdu pos (os ++ rest) → here pdu (pos + Z.of_nat (length os)) rest.
Proof.
  intros [Hpos Hd]. split; [lia|]. rewrite Z2Nat.inj_add, Nat2Z.id, <-drop_drop, Hd by lia.
  apply drop_app_length.
Qed.

Lemma here_rd pdu pos o rest : here pdu pos (o :: rest) → rd pdu pos = Done o.
Proof.
  intros [Hpos Hd]. unfold rd. rewrite (proj2 (Z.ltb_ge _ _)) by done.
  by rewrite <-(Nat.add_0_r (Z.to_nat pos)), <-lookup_drop, Hd.
Qed.

Lemma here_length pdu pos os :
  here pdu pos os → os ≠ [] → pos + Z.of_nat (length os) = Z.of_nat (length pdu).
Proof.
  intros [Hpos <-] Hne. rewrite length_drop.
  destruct (decide (Z.to_nat pos < length pdu)%nat); [lia|]. by rewrite drop_ge in Hne by lia.
Qed.

Lemma parser_step {A B} (p : parser A) (k : A → parser B) a pdu pos pos' :
  p pdu pos = Done (Some (a, pos')) → (p ≫= k) pdu pos = k a pdu pos'.
Proof. intros H. unfold mbind, parser_bind. by rewrite H. Qed.

(** a parser first in a sequence *)
Lemma reads_first {A B} (p : parser A) (k : A → parser B) os a pdu pos rest :
  reads p os a → here pdu pos (os ++ rest) →
  (p ≫= k) pdu pos = k a pdu (pos + Z.of_nat (length os)).
Proof. intros Hp Hh. apply parser_step. by apply (Hp pdu pos rest). Qed.

Lemma reads_bind {A B} (p : parser A) (k : A → parser B) os os' a b :
  reads p os a → reads (k a) os' b → reads (p ≫= k) (os ++ os') b.
Proof.
  intros Hp Hk pdu pos rest Hh. rewrite <-app_assoc in Hh.
  rewrite (reads_first p k os a pdu pos _ Hp Hh), (Hk _ _ rest) by (by apply here_step).
  rewrite length_app. do 3 f_equal. lia.
Qed.

Lemma reads_ret {A} (a : A) : reads (mret a) [] a.
Proof. intros pdu pos rest _. cbn. by rewrite Z.add_0_r. Qed.

Lemma reads_octet o : reads octet [o] o.
Proof. intros pdu pos rest Hh. unfold octet. by rewrite (here_rd _ _ _ _ Hh). Qed.

Lemma reads_skip os : reads (skip (Z.of_nat (length os))) os tt.
Proof. done. Qed.

Lemma reads_octet_bind {B} (k : Z → parser B) o os b :
  reads (k o) os b → reads (octet ≫= k) (o :: os) b.
Proof. apply (reads_bind octet k [o]). apply reads_octet. Qed.

(** ** Hexadecimal *)

Definition hex_char (v : Z) : Z := if v <? 10 then chr_0 + v else chr_A + (v - 10).
Definition hex_text (os : list Z) : list Z := os ≫= λ o, [hex_char (o / 16); hex_char (o mod 16)].

Lemma octet_cases (P : Z → bool) :
  forallb P (seqZ 0 256) = true → ∀ o, is_octet o → P o = true.
Proof.
  intros H o Ho. rewrite forallb_forall in H. apply H, list_elem_of_In, elem_of_seqZ.
  unfold is_octet in Ho. lia.
Qed.

Lemma hex_octets_text os : Forall is_octet os → hex_octets (hex_text os) = os.
Proof.
  intros H. induction H as [|o os Ho H IH]; [done|].
  unfold hex_text in *. cbn [mbind list_bind app hex_octets]. rewrite IH. f_equal.
  apply Z.eqb_eq. revert o Ho. apply octet_cases. vm_compute. reflexivity.
Qed.

Lemma hex_text_length os : length (hex_text os) = (2 * length os)%nat.
Proof. unfold hex_text. induction os as [|o os IH]; [done|]. cbn in *. lia. Qed.

Lemma run_parser_hex {A} (p : parser A) os :
  Forall is_octet os → run_parser p (hex_text os) = option_map fst <$> p os 0.
Proof.
  intros H. unfold run_parser. rewrite hex_text_length, hex_octets_text by done.
  by rewrite Nat2Z.inj_mul, Z.odd_mul.
Qed.

(** ** Numbers *)

Lemma text_to_bcd_length d : Z.of_nat (length (vgsm_text_to_bcd d)) = address_octets (Z.of_nat (length d)).
Proof.
  unfold address_octets. induction d as [|c|c c' d IH] using pairs_ind; [done..|].
  cbn [vgsm_text_to_bcd length]. Z.to_euclidean_division_equations. lia.
Qed.

Lemma text_to_bcd_octets d : Forall is_octet (vgsm_text_to_bcd d).
Proof.
  induction d as [|c|c c' d IH] using pairs_ind; cbn [vgsm_text_to_bcd]; repeat constructor;
    try apply u8_is_octet; done.
Qed.

(** an odd number of digits, with the filler after them *)
Lemma bcd_to_text_filled rest str_len s : Forall is_dialled s → ∀ pre pos,
  0 ≤ pos → pos + Z.of_nat (length s) ≤ str_len - 1 →
  bcd_to_text_loop (pre ++ vgsm_text_to_bcd s ++ rest) (2 * length (vgsm_text_to_bcd s))
    (2 * Z.of_nat (length pre)) pos str_len = Done (Some s).
Proof.
  induction s as [|c|c c' s IH] using pairs_ind; intros Hs pre pos Hpos Hlen; [done| |].
  - apply Forall_cons in Hs as [Hc _]. destruct (even_position (Z.of_nat (length pre))) as [Hq Hr].
    destruct (odd_position (Z.of_nat (length pre))) as [Hq' Hr']; [lia|].
    cbn [vgsm_text_to_bcd app length Nat.mul Nat.add] in *.
    destruct (dialled_nibble c Hc) as [Hn _].
    destruct (nibbles_octet (vgsm_char_to_bcd c) 15) as [Hlo Hhi]; [lia..|].
    change (Z.shiftl 15 4) with 0xf0 in *.
    set (o := u8 (Z.lor (vgsm_char_to_bcd c) 0xf0)) in *.
    rewrite (bcd_to_text_step _ _ _ pos str_len o c);
      [|rewrite Hq; apply rd_app_here|done|lia|by rewrite Hr].
    cbn [bcd_to_text_loop]. rewrite Hq', rd_app_here, Hr'. cbn [mbind outcome_bind].
    by change (1 =? 0) with false; rewrite Hhi.
  - apply Forall_cons in Hs as [Hc Hs]. apply Forall_cons in Hs as [Hc' Hs].
    destruct (even_position (Z.of_nat (length pre))) as [Hq Hr].
    destruct (odd_position (Z.of_nat (length pre))) as [Hq' Hr']; [lia|].
    destruct (dialled_nibble c Hc) as [Hn _]. destruct (dialled_nibble c' Hc') as [Hn' _].
    cbn [vgsm_text_to_bcd app length] in *. rewrite Nat.mul_succ_r, Nat.add_comm.
    cbn [Nat.add].
    set (o := u8 (Z.lor (vgsm_char_to_bcd c) (Z.shiftl (vgsm_char_to_bcd c') 4))).
    destruct (nibbles_octet (vgsm_char_to_bcd c) (vgsm_char_to_bcd c')) as [Hlo Hhi]; [lia..|].
    rewrite (bcd_to_text_step _ _ _ pos str_len o c);
      [|rewrite Hq; apply rd_app_here|done|lia|by rewrite Hr].
    rewrite (bcd_to_text_step _ _ _ (pos + 1) str_len o c');
      [|rewrite Hq'; apply rd_app_here|done|lia|by rewrite Hr'].
    specialize (IH Hs (pre ++ [o]) (pos + 1 + 1)). rewrite length_app, <-app_assoc in IH.
    cbn [length app] in IH.
    replace (2 * Z.of_nat (length pre) + 1 + 1) with (2 * Z.of_nat (length pre + 1)) by lia.
    rewrite IH by lia. done.
Qed.

(** a number of the digits [d], as the structure holds it *)
Record number_of (d : list Z) (n : vgsm_number) : Prop := {
  nd_dialled : Forall is_dialled d;
  nd_length : (length d < NUMBER_DIGITS)%nat;
  nd_digits : digits n = strncpy NUMBER_DIGITS d;
  nd_ton : 0 ≤ ton n < 8;
  nd_np : 0 ≤ np n < 16;
}.

Lemma toa_fields t p :
  0 ≤ t < 8 → 0 ≤ p < 16 →
  let o := Z.lor 0x80 (Z.lor (Z.shiftl (Z.land t 7) 4) (Z.land p 0xf)) in
  is_octet o ∧ field 4 3 o = t ∧ field 0 4 o = p.
Proof.
  intros Ht Hp o. subst o. assert (forallb (λ t, forallb (λ p,
    let o := Z.lor 0x80 (Z.lor (Z.shiftl (Z.land t 7) 4) (Z.land p 0xf)) in
    (0 <=? o) && (o <? 256) && (field 4 3 o =? t) && (field 0 4 o =? p)) (seqZ 0 16)) (seqZ 0 8) = true)
    as H by (vm_compute; reflexivity).
  rewrite forallb_forall in H. specialize (H t).
  rewrite <-list_elem_of_In, elem_of_seqZ, forallb_forall in H. specialize (H ltac:(lia) p).
  rewrite <-list_elem_of_In, elem_of_seqZ, !andb_true_iff in H. specialize (H ltac:(lia)).
  destruct H as [[[H1%Z.leb_le H2%Z.ltb_lt] H3%Z.eqb_eq] H4%Z.eqb_eq]. unfold is_octet. done.
Qed.

Lemma toa_number_of d n :
  number_of d n → toa_number (type_of_address n) (strncpy NUMBER_DIGITS d) = n.
Proof.
  intros [_ _ Hd Ht Hp]. destruct (toa_fields _ _ Ht Hp) as (_ & H1 & H2).
  unfold toa_number, type_of_address. rewrite H1, H2, <-Hd. by destruct n.
Qed.

Lemma toa_octet d n : number_of d n → is_octet (type_of_address n).
Proof. intros [_ _ _ Ht Hp]. apply (toa_fields _ _ Ht Hp). Qed.

(** the octets the standard has for an address are those the code writes *)
Lemma party_octets_written d n :
  number_of d n → party_octets n d = [Z.of_nat (length d); type_of_address n] ++ vgsm_text_to_bcd d.
Proof.
  intros [Hd _ _ Ht Hp]. unfold party_octets.
  by rewrite <- type_of_address_standard, <- text_to_bcd_standard.
Qed.
Lemma smcc_octets_written d n :
  number_of d n →
  smcc_octets n d = [address_octets (Z.of_nat (length d)) + 1; type_of_address n] ++ vgsm_text_to_bcd d.
Proof.
  intros [Hd _ _ Ht Hp]. unfold smcc_octets.
  rewrite <- type_of_address_standard, <- text_to_bcd_standard, text_to_bcd_length by done.
  by rewrite Z.add_comm.
Qed.

Lemma bcd_digits_reads nibbles d pdu pos rest :
  here pdu pos (vgsm_text_to_bcd d ++ rest) →
  vgsm_bcd_to_text (vgsm_text_to_bcd d ++ rest) nibbles (Z.of_nat NUMBER_DIGITS) = Done (Some d) →
  bcd_digits nibbles pdu pos = Done (Some (strncpy NUMBER_DIGITS d, pos)).
Proof.
  intros [_ Hd] Hr. unfold bcd_digits, mbind, parser_bind, from_here, on_pdu.
  by rewrite Hd, Hr.
Qed.

Lemma reads_party d n : number_of d n → reads party_address (party_octets n d) n.
Proof.
  intros Hn. rewrite (party_octets_written d n Hn). unfold party_address. cbn [app].
  do 2 apply reads_octet_bind. intros pdu pos rest Hh.
  pose proof Hn as [Hdl Hlen _ _ _].
  rewrite (parser_step _ _ (strncpy NUMBER_DIGITS d) _ _ pos).
  2: { apply (bcd_digits_reads _ d pdu pos rest Hh). apply bcd_roundtrip; [done|lia]. }
  rewrite (parser_step _ _ tt _ _ _ eq_refl), (toa_number_of d n Hn), text_to_bcd_length. done.
Qed.

Lemma address_octets_bound n : 0 ≤ n < 32 → 0 ≤ address_octets n ≤ 16.
Proof. intros H. unfold address_octets. Z.to_euclidean_division_equations. lia. Qed.

Lemma reads_smcc d n : number_of d n → reads smcc_address (smcc_octets n d) n.
Proof.
  intros Hn. rewrite (smcc_octets_written d n Hn). intros pdu pos rest Hh.
  pose proof Hn as [Hdl Hlen _ _ _]. unfold smcc_address.
  pose proof (here_length _ _ _ Hh ltac:(done)) as Hl.
  rewrite !length_app in Hl. cbn [length] in Hl.
  pose proof (text_to_bcd_length d) as Hb.
  assert (address_octets (Z.of_nat (length d)) ≤ 16) by (apply address_octets_bound; unfold NUMBER_DIGITS in *; lia).
  set (l := address_octets (Z.of_nat (length d)) + 1) in *.
  rewrite (reads_first _ _ [l] l pdu pos ([type_of_address n] ++ vgsm_text_to_bcd d ++ rest)
    (reads_octet l) Hh).
  rewrite (parser_step _ _ (Z.of_nat (length pdu)) _ _ _ eq_refl),
    (parser_step _ _ (pos + 1) _ _ _ eq_refl).
  rewrite (proj2 (Z.ltb_ge _ _)) by lia.
  rewrite (proj2 (Z.ltb_ge _ _)) by (unfold NUMBER_DIGITS; lia).
  apply (here_step pdu pos [l]) in Hh. cbn [length] in Hh.
  rewrite (reads_first _ _ [type_of_address n] (type_of_address n) pdu _
    (vgsm_text_to_bcd d ++ rest) (reads_octet _) Hh).
  apply (here_step pdu _ [type_of_address n]) in Hh.
  rewrite (parser_step _ _ (strncpy NUMBER_DIGITS d) _ _ (pos + 1 + 1)).
  2: { apply (bcd_digits_reads _ d pdu _ rest Hh).
       unfold vgsm_bcd_to_text. replace (Z.to_nat ((l - 1) * 2)) with
         (2 * length (vgsm_text_to_bcd d))%nat by lia.
       apply (bcd_to_text_filled rest _ d Hdl []); lia. }
  rewrite (parser_step _ _ tt _ _ _ eq_refl), (toa_number_of d n Hn).
  unfold mret, parser_ret. do 3 f_equal. rewrite length_app. cbn [length]. lia.
Qed.

(** ** Times *)

Definition two_digits (v : Z) : Prop := 0 ≤ v < 100.

Record tm_ok (t : tm) : Prop := {
  tmo_year : two_digits (tm_year t - 100);
  tmo_mon : two_digits (tm_mon t + 1);
  tmo_mday : two_digits (tm_mday t);
  tmo_hour : two_digits (tm_hour t);
  tmo_min : two_digits (tm_min t);
  tmo_sec : two_digits (tm_sec t);
}.

Lemma semi_octet_roundtrip v :
  two_digits v → vgsm_nibbles_to_decimal (vgsm_decimal_to_nibbles v) = v.
Proof.
  intros Hv. assert (forallb (λ v, vgsm_nibbles_to_decimal (vgsm_decimal_to_nibbles v) =? v)
    (seqZ 0 100) = true) as H by (vm_compute; reflexivity).
  rewrite forallb_forall in H. apply Z.eqb_eq, H. apply list_elem_of_In, elem_of_seqZ.
  unfold two_digits in Hv. lia.
Qed.

Lemma reads_semi_octets v : two_digits v → reads semi_octets [bcd v] v.
Proof.
  intros Hv. rewrite <- (bcd_code v Hv). apply reads_octet_bind.
  rewrite (semi_octet_roundtrip v Hv). apply reads_ret.
Qed.

Lemma reads_timestamp mktime t z :
  tm_ok t → zone_ok z → mktime t ≠ -1 →
  reads (timestamp mktime) (time_octets t (zone_octet z)) (mktime t - zone_taken z, zone_taken z).
Proof.
  intros [Hy Hmo Hd Hh Hmi Hs] Hz Hm. rewrite <- (timezone_of_standard z Hz).
  unfold timestamp, time_octets.
  apply (reads_bind _ _ _ _ t).
  - unfold timestamp_tm. cbn [fmap list_fmap].
    do 6 (match goal with |- reads _ [?x] _ => idtac | |- _ => idtac end;
          eapply (reads_bind _ _ [_]); [by apply reads_semi_octets|]).
    replace t with {| tm_year := tm_year t - 100 + 100; tm_mon := tm_mon t + 1 - 1;
      tm_mday := tm_mday t; tm_hour := tm_hour t; tm_min := tm_min t; tm_sec := tm_sec t |} at 7.
    2: { destruct t. cbn. f_equal; lia. }
    apply reads_ret.
  - rewrite (proj2 (Z.eqb_neq _ _)) by done. apply reads_octet_bind, reads_ret.
Qed.

(** ** Incoming messages are understood

    A DELIVER PDU laid out as the standard has it is decoded to the message it carries,
    and no PDU keeps the decoder looping. *)

(** ** The PDU of a text message *)

(** a data coding scheme of uncompressed text in the GSM alphabet *)
Definition text_coding (dcs : Z) : Prop :=
  field 4 4 dcs ≤ 3 ∧ Z.testbit dcs 5 = false ∧ field 2 2 dcs = VGSM_SMS_DCS_ALPHABET_DEFAULT.

Definition deliver_octets (smcc originating : vgsm_number) (sd od : list Z)
    (first pid dcs : Z) (t : tm) (z : time_zone) (part : option (Z * Z * Z)) (text ud : list Z) : list Z :=
  smcc_octets smcc sd ++ [first] ++ party_octets originating od ++ [pid; dcs] ++
  time_octets t (zone_octet z) ++ [udh_septets part + Z.of_nat (length (gsm_text text))] ++ ud.

Lemma here_shift pdu pos os rest p :
  here pdu pos (os ++ rest) → p = pos + Z.of_nat (length os) → here pdu p rest.
Proof. intros H ->. by apply here_step. Qed.

Lemma udh_reads pdu pos part rest :
  here pdu pos (udh_octets part ++ rest) →
  user_data_header (match part with Some _ => true | None => false end) pdu pos =
    Done (Some (match part with Some c => (5, 7, c) | None => (0, 0, (0, 0, 0)) end, pos)).
Proof.
  intros Hh. destruct part as [[[r m] s]|]; [|done]. cbn [udh_octets app] in Hh.
  unfold user_data_header.
  assert (∀ i o os, drop i (5 :: 0 :: 3 :: r :: m :: s :: rest) = o :: os →
    rd pdu (pos + Z.of_nat i) = Done o) as Hrd.
  { intros i o os Hd. apply (here_rd _ _ _ os). destruct Hh as [Hpos Hh]. split; [lia|].
    rewrite Z2Nat.inj_add, Nat2Z.id, <-drop_drop, Hh by lia. done. }
  unfold octet_at. rewrite (parser_step _ _ 5 _ _ pos).
  2: { change (pos + 0) with (pos + Z.of_nat 0). by rewrite (Hrd 0%nat 5 _ eq_refl). }
  rewrite (parser_step _ _ (r, m, s) _ _ pos); [done|].
  unfold on_pdu. change (Z.to_nat 5) with 5%nat. cbn [udh_loop].
  rewrite (proj2 (Z.ltb_lt (pos + 1) _)) by lia. change (pos + 1) with (pos + Z.of_nat 1).
  rewrite (Hrd 1%nat _ _ eq_refl). cbn [mbind outcome_bind].
  replace (pos + Z.of_nat 1 + 1) with (pos + Z.of_nat 2) by lia.
  rewrite (Hrd 2%nat _ _ eq_refl). cbn [mbind outcome_bind].
  change ((0 =? VGSM_SMS_UDH_IEI_CONCATENATED_SMS) && (3 <=? 3)) with true.
  cbn [andb]. replace (pos + Z.of_nat 1 + 2) with (pos + Z.of_nat 3) by lia.
  rewrite (Hrd 3%nat _ _ eq_refl). cbn [mbind outcome_bind].
  replace (pos + Z.of_nat 3 + 1) with (pos + Z.of_nat 4) by lia.
  rewrite (Hrd 4%nat _ _ eq_refl). cbn [mbind outcome_bind].
  replace (pos + Z.of_nat 3 + 2) with (pos + Z.of_nat 5) by lia.
  rewrite (Hrd 5%nat _ _ eq_refl). cbn [mbind outcome_bind].
  by rewrite (proj2 (Z.ltb_ge _ _)) by lia.
Qed.

Lemma text_7bit_reads pdu pos offset text ud :
  0 ≤ offset → here pdu pos ud → packed 0 offset (gsm_text text) ud →
  7 * (offset + Z.of_nat (length (gsm_text text))) ≤ 8 * Z.of_nat (length ud) →
  text_7bit (Z.of_nat (length (gsm_text text))) offset pdu pos = Done (Some (text_taken text, pos)).
Proof.
  rewrite <- text_taken_standard, <- text_codes_standard.
  intros Ho [Hpos Hd] Hp Hroom. unfold text_7bit, from_here, on_pdu.
  rewrite (proj2 (Z.ltb_ge _ _)), Hd by lia. unfold vgsm_7bit_to_wc.
  rewrite (proj2 (Z.ltb_ge _ _)) by lia.
  set (n := length (text_codes text)) in *.
  replace (Z.to_nat (Z.min (Z.of_nat n + 1 - 1) (Z.of_nat n))) with n by lia.
  pose proof (septets_to_wc_packed 0 offset (text_codes text) ud 0 Ho) as H. fold n in H.
  rewrite Nat.sub_0_r, Z.add_0_r, !drop_0 in H.
  rewrite H; [done|apply text_codes_septets|done|lia|lia].
Qed.

Lemma user_text_reads dcs part len16 pdu pos text ud :
  text_coding dcs → here pdu pos ud → carries part text ud →
  user_text true dcs (Z.of_nat (length (gsm_text text))) (udh_septets part) len16 pdu pos =
    Done (Some ({| ud_coding_group := field 4 4 dcs; ud_compressed := false;
      ud_message_class := if Z.testbit dcs 4 then field 0 2 dcs else -1;
      ud_alphabet := VGSM_SMS_DCS_ALPHABET_DEFAULT; ud_text := Some (text_taken text) |}, pos)).
Proof.
  intros (Hg & Hc & Ha) Hh [_ Hp Hr]. unfold user_text.
  rewrite (proj2 (Z.leb_le _ _)), Hc, Ha by done.
  change (VGSM_SMS_DCS_ALPHABET_DEFAULT =? VGSM_SMS_DCS_ALPHABET_DEFAULT) with true. cbn match.
  rewrite (parser_step _ _ (text_taken text) _ _ pos); [done|].
  apply (text_7bit_reads _ _ _ _ ud); try done. by destruct part.
Qed.

Section deliver.
Variable mktime : tm → Z.

(** C34. A DELIVER PDU in hexadecimal, as the standard lays it out, is decoded to the
    numbers, the flags (but that of a reply path, which is always lost), the class, the
    position of a part in a longer message and the text it carries.  The text is right where each of its characters takes one septet: a
    character of the extension table is taken for two, a form feed and the one of the
    default alphabet with its code.  The time is right only for a zone of zero: a zone is taken for
    seconds instead of quarters of an hour, with the sign of the wrong digit. *)
Theorem deliver_read_back smcc originating sd od first pid dcs t z part text ud :
  number_of sd smcc → number_of od originating → tm_ok t → zone_ok z → mktime t ≠ -1 →
  text_coding dcs → carries part text ud →
  Z.testbit first 6 = (if part then true else false) →
  let os := deliver_octets smcc originating sd od first pid dcs t z part text ud in
  Forall is_octet os →
  vgsm_sms_deliver_init_from_pdu mktime (hex_text os) = Done (Some {|
    deliver_refcnt := 1; deliver_me := None; deliver_smcc_address := smcc;
    deliver_more_messages_to_send := Z.testbit first 2; deliver_reply_path := false;
    deliver_user_data_header_indicator := if part then true else false;
    status_report_indication := Z.testbit first 5; originating_address := originating;
    deliver_user_data := {| ud_coding_group := field 4 4 dcs; ud_compressed := false;
      ud_message_class := if Z.testbit dcs 4 then field 0 2 dcs else -1;
      ud_alphabet := VGSM_SMS_DCS_ALPHABET_DEFAULT; ud_text := Some (text_taken text) |};
    deliver_timestamp := mktime t - zone_taken z; deliver_timezone := zone_taken z;
    deliver_concatenate := if part is Some c then c else (0, 0, 0); deliver_pdu := os |}) ∧
  (Forall single text → text_taken text = text).
Proof.
  intros Hs Ho Ht Hz Hm Hc Hud Hf os Hos. split; [|apply single_text_taken]. unfold vgsm_sms_deliver_init_from_pdu.
  rewrite run_parser_hex by done. unfold deliver_pdu_parser. rewrite hex_octets_text by done.
  assert (here os 0 (deliver_octets smcc originating sd od first pid dcs t z part text ud)) as Hh
    by (split; [done|apply drop_0]).
  clearbody os. clear Hos. rename os into pdu. unfold deliver_octets in Hh.
  rewrite (reads_first _ _ _ _ pdu 0 _ (reads_smcc _ _ Hs) Hh). apply here_step in Hh.
  set (p0 := 0 + _) in *. clearbody p0. cbn [app] in Hh.
  rewrite (reads_first _ _ [first] _ pdu _ _ (reads_octet first) Hh). apply (here_step _ _ [first]) in Hh.
  rewrite (reads_first _ _ _ _ pdu _ _ (reads_party _ _ Ho) Hh). apply here_step in Hh.
  set (p1 := p0 + _ + _) in *. clearbody p1.
  rewrite (parser_step _ _ tt _ _ _ eq_refl), (parser_step _ _ (p1 + 1) _ _ _ eq_refl),
    (parser_step _ _ tt _ _ _ eq_refl).
  pose proof (here_shift pdu p1 [pid] (dcs :: _) (p1 + 1) Hh eq_refl) as Hdcs.
  apply (here_shift pdu p1 [pid; dcs] _ (p1 + 1 + 1)) in Hh; [|cbn; lia].
  rewrite (reads_first _ _ _ _ pdu _ _ (reads_timestamp mktime t z Ht Hz Hm) Hh). apply here_step in Hh.
  set (p2 := p1 + 1 + 1 + _) in *. clearbody p2.
  set (udl := udh_septets part + Z.of_nat (length (gsm_text text))) in *. cbn [app] in Hh.
  rewrite (reads_first _ _ [udl] _ pdu _ _ (reads_octet udl) Hh). apply (here_step _ _ [udl]) in Hh.
  set (p3 := p2 + _) in *. clearbody p3. rewrite Hf.
  pose proof Hud as [[rest Hrest] _ _].
  pose proof Hh as Hh'. rewrite Hrest in Hh'. apply udh_reads in Hh'.
  rewrite (parser_step _ _ _ _ _ _ Hh').
  assert (udl - udh_septets part = Z.of_nat (length (gsm_text text))) as Hudl by lia.
  destruct part as [c|]; cbn [udh_septets] in *;
    rewrite (parser_step _ _ dcs _ _ p3) by (unfold on_pdu; by rewrite (here_rd _ _ _ _ Hdcs));
    rewrite Hudl;
    [pose proof (user_text_reads dcs (Some c)) as Hx|pose proof (user_text_reads dcs None) as Hx];
    cbn [udh_septets] in Hx; erewrite parser_step by (by apply (Hx _ pdu p3 text ud)); done.
Qed.
End deliver.

(** ** A message *)

Lemma packed_zeros base offset pre n :
  Forall is_octet pre → 8 * Z.of_nat (length pre) ≤ 8 * base + 7 * offset → 0 ≤ 8 * base + 7 * offset →
  packed base offset [] (pre ++ replicate n 0).
Proof.
  intros Hpre Hlen H0. split.
  - apply Forall_app. split; [done|]. apply Forall_replicate. unfold is_octet. lia.
  - by intros j c.
  - intros i Hi. cbn in Hi. unfold buf_bit. rewrite nth_lookup, lookup_app_r.
  2: { Z.to_euclidean_division_equations. lia. }
    destruct (replicate n 0 !! _) as [b|] eqn:Hb; cbn; [|apply Z.bits_0].
    apply lookup_replicate in Hb as [-> _]. apply Z.bits_0.
Qed.

Definition part_of_two : option (Z * Z * Z) := Some (7, 2, 1).
(** "Hello@é" after the header of the first of two parts *)
Definition hello_ud : list Z := [5; 0; 3; 7; 2; 1; 144; 101; 54; 251; 13; 40; 0].

Lemma hello_carried : carries part_of_two hello hello_ud.
Proof.
  split; [by exists [144; 101; 54; 251; 13; 40; 0]| |vm_compute; discriminate].
  rewrite <- text_codes_standard.
  destruct (wc_to_7bit_packs 0 7 160 hello [] (udh_octets part_of_two ++ replicate 7 0))
    as (buf & Hr & _ & Hp); [lia|lia| |vm_compute; reflexivity|vm_compute; reflexivity|].
  - apply (packed_zeros 0 7 (udh_octets part_of_two) 7); [|cbn; lia|lia]. cbn. by repeat (apply Forall_cons; split; [unfold is_octet; lia|]).
  - vm_compute in Hr. injection Hr as <-. done.
Qed.

Definition some_smcc : vgsm_number :=
  {| digits := strncpy NUMBER_DIGITS [51; 57; 51; 52; 57]; np := 1; ton := 1 |}.
Definition some_sender : vgsm_number :=
  {| digits := strncpy NUMBER_DIGITS [51; 51; 52; 53]; np := 1; ton := 2 |}.
Definition some_tm : tm :=
  {| tm_year := 108; tm_mon := 4; tm_mday := 21; tm_hour := 17; tm_min := 5; tm_sec := 59 |}.
(** months of 31 days are enough to show that the time is passed on *)
Definition some_mktime (t : tm) : Z :=
  ((((tm_year t - 70) * 372 + tm_mon t * 31 + tm_mday t) * 24 + tm_hour t) * 60 + tm_min t) * 60 + tm_sec t.

Lemma some_number d t p :
  Forall is_dialled d → (length d < NUMBER_DIGITS)%nat → 0 ≤ t < 8 → 0 ≤ p < 16 →
  number_of d {| digits := strncpy NUMBER_DIGITS d; np := p; ton := t |}.
Proof. by split. Qed.

(** an hour and three quarters west of Greenwich *)
Definition some_zone : time_zone := {| west := true; tens := 0; units := 7 |}.

Lemma deliver_read_back_witness :
  ∃ m, vgsm_sms_deliver_init_from_pdu some_mktime
      (hex_text (deliver_octets some_smcc some_sender [51; 57; 51; 52; 57] [51; 51; 52; 53]
        0x44 0 0x10 some_tm some_zone part_of_two hello hello_ud)) = Done (Some m) ∧
    ud_text (deliver_user_data m) = Some hello ∧ deliver_concatenate m = (7, 2, 1) ∧
    deliver_timestamp m = some_mktime some_tm + 87.
Proof.
  destruct (deliver_read_back some_mktime some_smcc some_sender [51; 57; 51; 52; 57] [51; 51; 52; 53]
      0x44 0 0x10 some_tm some_zone part_of_two hello hello_ud) as [Hr Ht].
  - apply some_number; [by repeat (apply Forall_cons; split; [unfold is_dialled; lia|])|vm_compute; lia|lia|lia].
  - apply some_number; [by repeat (apply Forall_cons; split; [unfold is_dialled; lia|])|vm_compute; lia|lia|lia].
  - split; unfold two_digits; cbn; lia.
  - split; cbn; lia.
  - vm_compute. discriminate.
  - split; [vm_compute; discriminate|done].
  - exact hello_carried.
  - reflexivity.
  - by repeat (apply Forall_cons; split; [unfold is_octet; vm_compute; split; congruence|]).
  - eexists. split; [exact Hr|]. cbn [deliver_user_data ud_text].
    rewrite Ht by (repeat constructor; by eexists). vm_compute. repeat split.
Defined.

(** ** The decoder stops *)

(** only an access out of the bounds of the PDU or of an array goes wrong *)
Definition only_bounds {A} (o : outcome A) : Prop := ∀ f, o = Fault f → f = OutOfBounds.

(** the parser ends on any octets *)
Definition ends {A} (p : parser A) : Prop :=
  ∀ pdu pos, Forall is_octet pdu → only_bounds (p pdu pos).

Lemma ends_bind {A B} (p : parser A) (k : A → parser B) :
  ends p → (∀ a, ends (k a)) → ends (p ≫= k).
Proof.
  intros Hp Hk pdu pos Ho f. unfold mbind, parser_bind. specialize (Hp pdu pos Ho).
  destruct (p pdu pos) as [[[a pos']|]|f']; cbn; [by apply Hk|done|].
  intros [= <-]. by apply Hp.
Qed.

Lemma parser_ends_ret {A} (a : A) : ends (mret a).
Proof. done. Qed.
Lemma ends_reject {A} : ends (reject : parser A).
Proof. done. Qed.

Lemma rd_ends buf i f : rd buf i = Fault f → f = OutOfBounds.
Proof. unfold rd. destruct (i <? 0); [congruence|]. destruct (buf !! _); congruence. Qed.

Lemma bounds_bind {A B} (o : outcome A) (k : A → outcome B) :
  only_bounds o → (∀ a, o = Done a → only_bounds (k a)) → only_bounds (o ≫= k).
Proof.
  intros Ho Hk f. destruct o as [a|f']; cbn; [by apply Hk|]. intros [= <-]. by apply Ho.
Qed.
Lemma bounds_done {A} (a : A) : only_bounds (Done a).
Proof. done. Qed.
Lemma bounds_rd buf i : only_bounds (rd buf i).
Proof. intros f. apply rd_ends. Qed.

Lemma ends_on_pdu {A} (g : list Z → Z → outcome A) :
  (∀ pdu pos, Forall is_octet pdu → only_bounds (g pdu pos)) → ends (on_pdu g).
Proof.
  intros H pdu pos Ho. unfold on_pdu. apply bounds_bind; [by apply H|]. intros a _. apply bounds_done.
Qed.

Create HintDb ends discriminated.
#[export] Hint Resolve ends_bind parser_ends_ret ends_reject ends_on_pdu bounds_bind bounds_done bounds_rd : ends.
#[export] Hint Extern 2 (ends octet) => (unfold octet; apply ends_on_pdu) : ends.
#[export] Hint Extern 2 (ends (skip _)) => done : ends.
#[export] Hint Extern 2 (ends position) => done : ends.
#[export] Hint Extern 2 (ends pdu_length) => done : ends.

Lemma bcd_to_text_ends buf n i pos str_len : only_bounds (bcd_to_text_loop buf n i pos str_len).
Proof.
  revert i pos. induction n as [|n IH]; intros i pos; cbn [bcd_to_text_loop]; [done|].
  apply bounds_bind; [apply bounds_rd|]. intros o _.
  destruct (_ =? 0xf); [apply IH|]. destruct (_ <=? _); [done|].
  apply bounds_bind; [apply IH|]. intros; apply bounds_done.
Qed.

Lemma septets_to_wc_ends buf k n : only_bounds (septets_to_wc buf k n).
Proof.
  revert n. induction k as [|k IH]; intros n; cbn [septets_to_wc]; [done|].
  apply bounds_bind.
  - unfold read_septet. apply bounds_bind; [destruct (_ =? _); auto with ends|]. intros lo _.
    apply bounds_bind; [|auto with ends]. destruct (_ <? _); [|auto with ends].
    apply bounds_bind; auto with ends.
  - intros c _. apply bounds_bind; [apply IH|auto with ends].
Qed.

Lemma ucs2_chars_ends buf k i : only_bounds (ucs2_chars buf k i).
Proof.
  revert i. induction k as [|k IH]; intros i; cbn [ucs2_chars]; [done|].
  do 2 (apply bounds_bind; [apply bounds_rd|intros ? _]).
  apply bounds_bind; [apply IH|auto with ends].
Qed.

Lemma rd_octet pdu i o : Forall is_octet pdu → rd pdu i = Done o → is_octet o.
Proof.
  intros Ho. unfold rd. destruct (i <? 0); [done|]. destruct (pdu !! _) as [b|] eqn:Hb; [|done].
  intros [= <-]. rewrite Forall_lookup in Ho. by apply (Ho _ _ Hb).
Qed.

Lemma udh_loop_ends fuel pdu end_ : ∀ udh_pos c,
  Forall is_octet pdu → end_ - udh_pos ≤ 2 * Z.of_nat fuel →
  only_bounds (udh_loop fuel pdu end_ udh_pos c).
Proof.
  induction fuel as [|fuel IH]; intros udh_pos c Ho Hf; cbn [udh_loop];
    (destruct (Z.ltb_spec udh_pos end_); [|done]); [lia|].
  apply bounds_bind; [apply bounds_rd|]. intros iei_id _.
  apply bounds_bind; [apply bounds_rd|]. intros iei_len Hl. apply (rd_octet _ _ _ Ho) in Hl.
  apply bounds_bind.
  - destruct (_ && _); [|done]. do 3 (apply bounds_bind; [apply bounds_rd|intros ? _]). done.
  - intros c' _. apply IH; [done|]. unfold is_octet in Hl. lia.
Qed.

Lemma octet_ends : ends octet.
Proof. intros pdu pos _. unfold octet. apply bounds_bind; auto with ends. Qed.
Lemma octet_at_ends i : ends (octet_at i).
Proof. intros pdu pos _. unfold octet_at. apply bounds_bind; auto with ends. Qed.
#[export] Hint Resolve octet_ends octet_at_ends : ends.

Lemma bcd_digits_ends n : ends (bcd_digits n).
Proof.
  apply ends_bind; [|intros [t|]; auto with ends].
  apply ends_on_pdu. intros pdu pos _. apply bcd_to_text_ends.
Qed.
#[export] Hint Resolve bcd_digits_ends : ends.

(** parsers made of the ones above *)
Ltac parse_ends :=
  repeat first
    [ progress auto with ends
    | apply ends_bind; [|intros ?]
    | match goal with |- ends (match ?x with _ => _ end) => destruct x end
    | apply ends_on_pdu; intros pdu pos _ ].

Lemma smcc_address_ends : ends smcc_address.
Proof. unfold smcc_address. parse_ends. Qed.
Lemma party_address_ends : ends party_address.
Proof. unfold party_address. parse_ends. Qed.
Lemma semi_octets_ends : ends semi_octets.
Proof. unfold semi_octets. parse_ends. Qed.
#[export] Hint Resolve smcc_address_ends party_address_ends semi_octets_ends : ends.
Lemma timestamp_ends mktime : ends (timestamp mktime).
Proof. unfold timestamp, timestamp_tm. parse_ends. Qed.

Lemma text_7bit_ends n offset : ends (text_7bit n offset).
Proof.
  unfold text_7bit. destruct (_ <? _); [done|]. apply ends_on_pdu. intros pdu pos _.
  unfold vgsm_7bit_to_wc. destruct (_ <? _); [by intros f [= <-]|apply septets_to_wc_ends].
Qed.
Lemma text_ucs2_ends n : ends (text_ucs2 n).
Proof.
  unfold text_ucs2. destruct (_ <? _); [done|]. destruct (_ =? _).
  - by intros pdu pos _ f [= <-].
  - apply ends_on_pdu. intros pdu pos _. apply ucs2_chars_ends.
Qed.
#[export] Hint Resolve timestamp_ends text_7bit_ends text_ucs2_ends : ends.

Lemma user_text_ends strict dcs n o m : ends (user_text strict dcs n o m).
Proof. unfold user_text. cbv zeta. parse_ends. Qed.

Lemma user_data_header_ends b : ends (user_data_header b).
Proof.
  unfold user_data_header. destruct b; [|auto with ends]. intros pdu pos Ho.
  unfold mbind at 1, parser_bind. apply bounds_bind; [by apply octet_at_ends|].
  intros [[udhl pos']|] Hl; [|auto with ends]. assert (is_octet udhl) as Hudhl.
  { revert Hl. unfold octet_at. destruct (rd pdu (pos + 0)) as [o|] eqn:Hr; [|done]. cbn.
    intros [= <- <-]. by apply (rd_octet _ _ _ Ho) in Hr. }
  revert Ho. apply ends_bind; [|auto with ends]. apply ends_on_pdu. intros pdu' pos'' Ho.
  apply udh_loop_ends; [done|]. unfold is_octet in Hudhl. lia.
Qed.
#[export] Hint Resolve user_text_ends user_data_header_ends : ends.

Lemma deliver_pdu_parser_ends mktime text : ends (deliver_pdu_parser mktime text).
Proof.
  unfold deliver_pdu_parser. parse_ends.
Qed.

Lemma hex_octets_octets text : Forall is_octet (hex_octets text).
Proof.
  induction text as [|c|h l text IH] using pairs_ind; cbn [hex_octets]; [done..|].
  constructor; [apply u8_is_octet|done].
Qed.

(** Whatever the module reports as an incoming message, the decoder stops: with a
    message, with NULL, or with an access outside the PDU or the text's array, which it
    does not check. *)
Theorem deliver_decoder_stops mktime text_pdu :
  match vgsm_sms_deliver_init_from_pdu mktime text_pdu with
  | Done _ => True
  | Fault f => f = OutOfBounds
  end.
Proof.
  unfold vgsm_sms_deliver_init_from_pdu, run_parser. destruct (Z.odd _); [done|].
  pose proof (deliver_pdu_parser_ends mktime text_pdu (hex_octets text_pdu) 0 (hex_octets_octets _)) as He.
  destruct (deliver_pdu_parser _ _ _ _) as [r|f] eqn:Hp; cbn; [done|by apply He].
Qed.

(** ** Messages that are not understood *)

(** "AB" in UCS-2, in the second of two parts: the text is read from the header *)
Example ucs2_part_is_header :
  match vgsm_sms_deliver_init_from_pdu some_mktime
    (hex_text (smcc_octets some_smcc [51; 57; 51; 52; 57] ++ [0x40] ++
      party_octets some_sender [51; 51; 52; 53] ++ [0; 0x08] ++ time_octets some_tm 0 ++
      [10] ++ [5; 0; 3; 7; 2; 2; 0; 65; 0; 66])) with
  | Done (Some m) => ud_text (deliver_user_data m)
  | _ => None
  end = Some [0x500; 0x307].
Proof. vm_compute. reflexivity. Qed.

(** a message of less septets than its header takes: the terminator is written before
    the array *)
Example short_part_overflows :
  vgsm_sms_deliver_init_from_pdu some_mktime
    (hex_text (smcc_octets some_smcc [51; 57; 51; 52; 57] ++ [0x40] ++
      party_octets some_sender [51; 51; 52; 53] ++ [0; 0] ++ time_octets some_tm 0 ++
      [6] ++ [5; 0; 3; 7; 2; 2])) = Fault OutOfBounds.
Proof. vm_compute. reflexivity. Qed.

(** a broadcast in UCS-2 has a text that was never written; its serial number, 0x4010:
    message 1 of the PLMN, comes out as message 260 of the immediate cell *)
Example cbm_ucs2_unwritten :
  match vgsm_decode_cbm_pdu (hex_text ([0x40; 0x10; 0; 50; 0x48; 0x11] ++ replicate 82 65)) with
  | Done (Some m) => (cbm_text_ m, geoscope m, message_code m, update_number m) = (Unwritten, 0, 260, 0)
  | _ => False
  end.
Proof. vm_compute. reflexivity. Qed.
