(* ===== verification/VgsmSubmitThm.v ===== *)
(** * Outgoing messages carry their text

    The PDU [vgsm_sms_submit_prepare] builds is the one the standard lays out, and what
    the validity period becomes. *)

From stdpp Require Import base list.
From Stdlib Require Import ZArith Lia.
From S2P Require Import Prelude.
From S2P Require Import Bits.
From S2P Require Import VgsmText.
From S2P Require Import VgsmTextThm.
From S2P Require Import VgsmSms.
From S2P Require Import VgsmStandard.
From S2P Require Import VgsmDeliverThm.
Local Open Scope Z_scope.

(** ** Filling a buffer *)

(** a clear buffer of [n] octets whose first octets are [pre], and the position after
    them *)
Definition filled (n : nat) (pre : list Z) : list Z * Z :=
  (pre ++ replicate (n - length pre) 0, Z.of_nat (length pre)).

Lemma wr_filled n pre v :
  (length pre < n)%nat →
  wr (pre ++ replicate (n - length pre) 0) (Z.of_nat (length pre)) v =
    Done ((pre ++ [v]) ++ replicate (n - length (pre ++ [v])) 0).
Proof.
  intros Hn. rewrite wr_insert by (rewrite length_app, length_replicate; lia).
  rewrite Nat2Z.id, <-(Nat.add_0_r (length pre)), insert_app_r, Nat.add_0_r, length_app. cbn [length].
  replace (n - length pre)%nat with (S (n - (length pre + 1))) by lia.
  cbn [replicate]. by rewrite <-app_assoc.
Qed.

Lemma emit_filled n pre v :
  (length pre < n)%nat → emit v (filled n pre) = Done (tt, filled n (pre ++ [v])).
Proof.
  intros Hn. unfold emit, filled. cbn [fst snd]. rewrite wr_filled by done. cbn [mbind outcome_bind].
  do 3 f_equal. rewrite length_app. cbn [length]. lia.
Qed.

Lemma wr_all_filled n vs : ∀ pre,
  (length pre + length vs ≤ n)%nat →
  wr_all (pre ++ replicate (n - length pre) 0) (Z.of_nat (length pre)) vs =
    Done ((pre ++ vs) ++ replicate (n - length (pre ++ vs)) 0).
Proof.
  induction vs as [|v vs IH]; intros pre Hn; cbn [wr_all length] in *; [by rewrite app_nil_r|].
  rewrite wr_filled by lia. cbn [mbind outcome_bind].
  replace (Z.of_nat (length pre) + 1) with (Z.of_nat (length (pre ++ [v])))
    by (rewrite length_app; cbn; lia).
  rewrite IH by (rewrite length_app; cbn; lia). by rewrite <-!app_assoc.
Qed.

Lemma emit_all_filled n pre vs :
  (length pre + length vs ≤ n)%nat →
  emit_all vs (filled n pre) = Done (tt, filled n (pre ++ vs)).
Proof.
  intros Hn. unfold emit_all, filled. cbn [fst snd]. rewrite wr_all_filled by done.
  cbn [mbind outcome_bind]. do 3 f_equal. rewrite length_app. lia.
Qed.

Lemma emit_then {A} n pre v (k : M (list Z * Z) A) :
  (length pre < n)%nat → (emit v ;; k) (filled n pre) = k (filled n (pre ++ [v])).
Proof. intros Hn. unfold mbind, M_bind. by rewrite emit_filled. Qed.

Lemma emit_all_then {A} n pre vs (k : M (list Z * Z) A) :
  (length pre + length vs ≤ n)%nat → (emit_all vs ;; k) (filled n pre) = k (filled n (pre ++ vs)).
Proof. intros Hn. unfold mbind, M_bind. by rewrite emit_all_filled. Qed.

(** ** The octets before the septets *)

Lemma wr_or_take buf j v buf' k :
  wr_or buf j v = Done buf' → (k ≤ Z.to_nat j)%nat → take k buf' = take k buf.
Proof.
  intros H Hk. unfold wr_or in H. destruct (rd buf j) as [b|]; [|done]. cbn in H.
  unfold wr in H. destruct (_ || _); [done|]. injection H as <-. by apply take_insert_ge.
Qed.

Lemma write_septet_take base buf n c buf' (h : Z) :
  0 ≤ base → 0 ≤ h → 0 ≤ n → (h = 0 ∨ 8 * h < 7 * n) →
  vgsm_write_septet base buf n c = Done buf' →
  take (Z.to_nat (base + h)) buf' = take (Z.to_nat (base + h)) buf.
Proof.
  intros Hb Hh Hn Hhn H. unfold vgsm_write_septet in H.
  assert (0 ≤ Z.quot ((n + 1) * 7) 8 ∧ 7 * n + 7 < 8 * Z.quot ((n + 1) * 7) 8 + 8) as [Hq0 Hq]
    by (Z.to_euclidean_division_equations; lia).
  set (p := Z.quot _ 8) in *. destruct (Z.ltb_spec 0 p) as [Hp|Hp].
  - destruct (wr_or buf _ _) as [b|] eqn:H1; [|done]. cbn in H.
    rewrite (wr_or_take _ _ _ _ _ H), (wr_or_take _ _ _ _ _ H1) by lia. done.
  - rewrite (wr_or_take _ _ _ _ _ H) by lia. done.
Qed.

Lemma wc_to_7bit_take base max_septets offset h text : ∀ buf outsep buf' r,
  0 ≤ base → 0 ≤ h → 0 ≤ offset → (h = 0 ∨ 8 * h < 7 * offset) → 0 ≤ outsep →
  wc_to_7bit_loop base max_septets offset text buf outsep = Done (buf', r) →
  take (Z.to_nat (base + h)) buf' = take (Z.to_nat (base + h)) buf.
Proof.
  induction text as [|wc text IH]; intros buf outsep buf' r Hb Hh Ho Hho Hs; cbn [wc_to_7bit_loop].
  { by intros [= -> _]. }
  destruct (vgsm_wc_to_gsm wc) as [|c cs]; [by apply IH|].
  destruct (_ <=? _); [by intros [= -> _]|].
  destruct (vgsm_write_septet base buf _ c) as [b|] eqn:H1; [|done]. cbn [mbind outcome_bind].
  apply (write_septet_take _ _ _ _ _ h) in H1; [|lia..].
  destruct (_ <=? _); [by intros [= <- _]|]. rewrite <-H1.
  destruct cs as [|c2 cs]; [by apply IH; lia|].
  destruct (vgsm_write_septet base b _ c2) as [b2|] eqn:H2; [|done]. cbn [mbind outcome_bind].
  apply (write_septet_take _ _ _ _ _ h) in H2; [|lia..]. rewrite <-H2. by apply IH; lia.
Qed.

(** ** The octets of the user data alone *)

Lemma packed_drop base offset cs buf :
  0 ≤ offset → packed (Z.of_nat base) offset cs buf → packed 0 offset cs (drop base buf).
Proof.
  intros Ho [Hoct Hbits Hclear]. split; [by apply Forall_drop| |].
  - intros j c Hj k Hk. rewrite (Hbits j c Hj k Hk), buf_bit_drop by lia. f_equal. lia.
  - intros i Hi. rewrite buf_bit_drop by lia. apply Hclear. lia.
Qed.

Lemma buf_bit_take n buf i :
  0 ≤ i → buf_bit (take n buf) i = (i <? 8 * Z.of_nat n) && buf_bit buf i.
Proof.
  intros Hi. unfold buf_bit. rewrite !nth_lookup.
  assert (8 * (i / 8) ≤ i < 8 * (i / 8) + 8) by (Z.to_euclidean_division_equations; lia).
  destruct (Z.ltb_spec i (8 * Z.of_nat n)); cbn [andb].
  - by rewrite lookup_take_lt by lia.
  - rewrite lookup_take_ge by lia. apply Z.bits_0.
Qed.

Lemma packed_take n offset cs buf :
  0 ≤ offset → 7 * (offset + Z.of_nat (length cs)) ≤ 8 * Z.of_nat n →
  packed 0 offset cs buf → packed 0 offset cs (take n buf).
Proof.
  intros Ho Hn [Hoct Hbits Hclear]. split; [by apply Forall_take| |].
  - intros j c Hj k Hk. pose proof (lookup_lt_Some _ _ _ Hj).
    rewrite (Hbits j c Hj k Hk), buf_bit_take by lia. by rewrite (proj2 (Z.ltb_lt _ _)) by lia.
  - intros i Hi. rewrite buf_bit_take, Hclear by lia. apply andb_false_r.
Qed.

(** ** The validity period *)

(** the period the network is asked for *)
Definition asked_validity (v : Z) : Z :=
  if v <? 300 then 600
  else if v <=? 43200 then 300 * (v / 300)
  else if v <? 86400 then 1800 * (v / 1800) + 1800
  else if v =? 86400 then 2 * 86400
  else if v <? 30 * 86400 then 86400 * (v / 86400) + 86400
  else if v =? 30 * 86400 then 35 * 86400
  else if v <? 60 * 604800 then 604800 * (v / 604800) + 4 * 604800
  else if v <=? 63 * 604800 then 300 * (v / 604800 - 59)
  else 63 * 604800.

Lemma u8_range v q : 256 * q ≤ v < 256 * q + 256 → u8 v = v - 256 * q.
Proof.
  intros Hv. unfold u8. change 255 with (Z.ones 8). rewrite Z.land_ones by lia.
  symmetry. apply (Z.mod_unique _ _ q); change (2 ^ 8) with 256; lia.
Qed.

(** which octets stand for minutes, half hours, days and weeks *)
Lemma validity_of_octet_cases vp :
  (vp ≤ 143 → validity_of_octet vp = (vp + 1) * 300) ∧
  (144 ≤ vp ≤ 167 → validity_of_octet vp = 43200 + (vp - 143) * 1800) ∧
  (168 ≤ vp ≤ 196 → validity_of_octet vp = (vp - 166) * 86400) ∧
  (197 ≤ vp → validity_of_octet vp = (vp - 192) * (7 * 86400)).
Proof.
  unfold validity_of_octet.
  destruct (Z.leb_spec vp 143), (Z.leb_spec vp 167), (Z.leb_spec vp 196); lia.
Qed.

Lemma octet_asks v : validity_of_octet (validity_octet v) = asked_validity v.
Proof.
  unfold validity_octet, asked_validity.
  repeat match goal with
    | |- context [if ?a <? ?b then _ else _] => destruct (Z.ltb_spec a b)
    | |- context [if ?a <=? ?b then _ else _] => destruct (Z.leb_spec a b)
    | |- context [if ?a =? ?b then _ else _] => destruct (Z.eqb_spec a b)
    end; try lia;
  match goal with |- validity_of_octet (u8 ?x) = _ =>
    destruct (validity_of_octet_cases (u8 x)) as (Hmin & Hhalf & Hday & Hweek) end.
  all: first [rewrite (u8_range _ 0) in * by (Z.to_euclidean_division_equations; lia)
             |rewrite (u8_range _ 1) in * by (Z.to_euclidean_division_equations; lia)].
  all: Z.to_euclidean_division_equations; lia.
Qed.

(** ** The PDU *)

Lemma c_string_strncpy n s :
  Forall (λ c, c ≠ 0) s → (length s < n)%nat → c_string (strncpy n s) = Done s.
Proof.
  unfold strncpy. intros H. revert n. induction H as [|c s Hc H IH]; intros n Hn; cbn [length] in *.
  - destruct n as [|n]; [lia|]. done.
  - destruct n as [|n]; [lia|]. cbn [firstn app c_string take Nat.sub].
    rewrite (proj2 (Z.eqb_neq _ _)) by done. rewrite IH by lia. done.
Qed.

Lemma number_c_string d n : number_of d n → c_string (digits n) = Done d.
Proof.
  intros [Hd Hl -> _ _]. apply c_string_strncpy; [|done].
  eapply Forall_impl; [exact Hd|]. intros c Hc ->. unfold is_dialled in Hc. lia.
Qed.

Lemma encodable_alphabet text :
  Forall encodable text → submit_alphabet_of text = VGSM_SMS_DCS_ALPHABET_DEFAULT.
Proof.
  intros H. unfold submit_alphabet_of. rewrite (proj2 (forallb_forall _ _)); [done|].
  intros wc Hin%list_elem_of_In. rewrite Forall_forall in H. specialize (H wc Hin).
  unfold encodable in H. rewrite wc_to_gsm_standard. by destruct (gsm_septets wc).
Qed.

(** the part of a longer message that the message is *)
Definition submit_part (sms : vgsm_sms_submit) : option (Z * Z * Z) :=
  if submit_user_data_header_indicator sms || (1 <? submit_concatenate_maxmsg sms)
  then Some (submit_concatenate_refnum sms, submit_concatenate_maxmsg sms, submit_concatenate_seqnum sms)
  else None.

(** the octets of the TPDU before the length of the user data, [vp] for the validity
    period *)
Definition submit_header (sms : vgsm_sms_submit) (dd : list Z) (vp : Z) : list Z :=
  [submit_octet (reject_duplicates sms) (status_report_request sms)
     (if submit_part sms then true else false) (submit_reply_path sms);
   submit_message_reference sms] ++
  party_octets (dest sms) dd ++ [0; class_octet (submit_message_class sms); vp].

Definition submit_octets (sms : vgsm_sms_submit) (sd dd : list Z) (vp : Z) (text ud : list Z) : list Z :=
  smcc_octets (submit_smcc_address sms) sd ++ submit_header sms dd vp ++
  [udh_septets (submit_part sms) + Z.of_nat (length (gsm_text text))] ++ ud.

(** the fields the code puts in an octet each *)
Record submit_fields_ok (sms : vgsm_sms_submit) : Prop := {
  sf_reference : is_octet (submit_message_reference sms);
  sf_refnum : is_octet (submit_concatenate_refnum sms);
  sf_maxmsg : is_octet (submit_concatenate_maxmsg sms);
  sf_seqnum : is_octet (submit_concatenate_seqnum sms);
}.

Lemma smcc_length d n :
  number_of d n → Z.of_nat (length (smcc_octets n d)) = 2 + address_octets (Z.of_nat (length d)).
Proof.
  intros Hn. rewrite (smcc_octets_written d n Hn), length_app, Nat2Z.inj_add, text_to_bcd_length. done.
Qed.

Lemma header_length sms dd vp :
  number_of dd (dest sms) →
  Z.of_nat (length (submit_header sms dd vp)) = 7 + address_octets (Z.of_nat (length dd)).
Proof.
  intros Hn. unfold submit_header. rewrite (party_octets_written dd _ Hn).
  rewrite !length_app, !Nat2Z.inj_add, text_to_bcd_length. cbn [length]. lia.
Qed.

Lemma emit_smcc_filled sms_n d m :
  number_of d sms_n → 2 + address_octets (Z.of_nat (length d)) ≤ Z.of_nat m →
  emit_smcc sms_n d (replicate m 0, 0) = Done (tt, filled m (smcc_octets sms_n d)).
Proof.
  intros Hn Hm. pose proof (text_to_bcd_length d) as Hl. pose proof Hn as [_ Hd _ _ _].
  assert (0 ≤ address_octets (Z.of_nat (length d)) ≤ 16)
    by (apply address_octets_bound; unfold NUMBER_DIGITS in Hd; lia).
  replace (replicate m 0, 0) with (filled m []) by (unfold filled; cbn; by rewrite Nat.sub_0_r).
  unfold emit_smcc. rewrite u8_small by (unfold is_octet; lia).
  rewrite !emit_then by (cbn [length app]; lia). rewrite emit_all_filled by (cbn [length app]; lia).
  by rewrite (smcc_octets_written d sms_n Hn).
Qed.

Lemma emit_header_filled m pre sms dd :
  number_of dd (dest sms) → Z.of_nat (length pre) + 7 + address_octets (Z.of_nat (length dd)) ≤ Z.of_nat m →
  emit_header sms (if submit_part sms then true else false) VGSM_SMS_DCS_ALPHABET_DEFAULT dd (filled m pre) =
    Done (tt, filled m (pre ++ submit_header sms dd (validity_octet (validity_period sms)))).
Proof.
  intros Hn Hm. pose proof (text_to_bcd_length dd) as Hl. pose proof Hn as [_ Hd _ _ _].
  assert (0 ≤ address_octets (Z.of_nat (length dd)) ≤ 16)
    by (apply address_octets_bound; unfold NUMBER_DIGITS in Hd; lia).
  unfold emit_header. rewrite u8_small by (unfold is_octet, NUMBER_DIGITS in *; lia).
  rewrite !emit_then by (rewrite ?length_app; cbn [length app]; lia).
  rewrite emit_all_then by (rewrite ?length_app; cbn [length app]; lia).
  rewrite !emit_then by (rewrite ?length_app; cbn [length app]; lia).
  rewrite emit_filled by (rewrite ?length_app; cbn [length app]; lia).
  unfold submit_header. rewrite (party_octets_written dd _ Hn), <- submit_first_octet_standard,
    <- coding_octet_standard. do 2 f_equal. cbn [app]. by rewrite <-!app_assoc.
Qed.

Lemma land_ones_octet v w : 0 ≤ w ≤ 8 → is_octet (Z.land v (Z.ones w)).
Proof.
  intros Hw. rewrite Z.land_ones by lia. unfold is_octet.
  assert (0 < 2 ^ w) by (apply Z.pow_pos_nonneg; lia).
  assert (2 ^ w ≤ 2 ^ 8) by (apply Z.pow_le_mono_r; lia). change (2 ^ 8) with 256 in *.
  pose proof (Z.mod_pos_bound v (2 ^ w)). lia.
Qed.

Lemma first_octet_octet sms b : is_octet (submit_first_octet sms b).
Proof.
  unfold submit_first_octet.
  destruct (reject_duplicates sms), (status_report_request sms), b, (submit_reply_path sms);
    vm_compute; split; congruence.
Qed.

Lemma coding_octet_octet c : is_octet (coding_octet VGSM_SMS_DCS_ALPHABET_DEFAULT c).
Proof.
  unfold coding_octet. change 3 with (Z.ones 2). rewrite Z.land_ones by lia.
  pose proof (Z.mod_pos_bound c (2 ^ 2) ltac:(lia)) as Hc. change (2 ^ 2) with 4 in *.
  assert (c mod 4 = 0 ∨ c mod 4 = 1 ∨ c mod 4 = 2 ∨ c mod 4 = 3) as [->|[->|[->| ->]]] by lia;
    vm_compute; split; congruence.
Qed.

Lemma smcc_octets_octets n d : number_of d n → Forall is_octet (smcc_octets n d).
Proof.
  intros Hn. pose proof Hn as [_ Hd _ _ _].
  assert (0 ≤ address_octets (Z.of_nat (length d)) ≤ 16)
    by (apply address_octets_bound; unfold NUMBER_DIGITS in Hd; lia).
  rewrite (smcc_octets_written d n Hn). cbn [app]. repeat apply Forall_cons_2.
  - unfold is_octet. lia.
  - by apply (toa_octet d).
  - apply text_to_bcd_octets.
Qed.

Lemma header_octets sms dd vp :
  submit_fields_ok sms → number_of dd (dest sms) → is_octet vp →
  Forall is_octet (submit_header sms dd vp).
Proof.
  intros [Hr _ _ _] Hn Hvp. pose proof Hn as [_ Hd _ _ _]. unfold submit_header.
  rewrite (party_octets_written dd _ Hn), <- submit_first_octet_standard, <- coding_octet_standard.
  rewrite !Forall_app. repeat split; repeat apply Forall_cons_2; try done.
  - apply first_octet_octet.
  - unfold is_octet, NUMBER_DIGITS in *. lia.
  - by apply (toa_octet dd).
  - apply text_to_bcd_octets.
  - apply coding_octet_octet.
Qed.

Lemma udh_octets_octets sms : submit_fields_ok sms → Forall is_octet (udh_octets (submit_part sms)).
Proof.
  intros [_ H1 H2 H3]. unfold submit_part. destruct (_ || _); [|done].
  cbn. repeat apply Forall_cons_2; done.
Qed.

(** the user data: the header is in place, the text is packed behind it, and the octets
    before are as they were *)
Lemma user_data_packed pre part text max_len :
  Forall is_octet pre → Forall is_octet (udh_octets part) →
  udh_septets part + Z.of_nat (length (gsm_text text)) < 160 →
  Z.of_nat (length pre) + 140 ≤ Z.of_nat max_len →
  let base := Z.of_nat (length pre) in
  ∃ ud, vgsm_wc_to_7bit base text ((pre ++ udh_octets part) ++ replicate (max_len - length (pre ++ udh_octets part)) 0)
      (160 - udh_septets part) (udh_septets part) = Done (pre ++ ud, Z.of_nat (length (gsm_text text))) ∧
    (length pre + length ud = max_len)%nat ∧ (∃ rest, ud = udh_octets part ++ rest) ∧
    packed 0 (udh_septets part) (gsm_text text) ud.
Proof.
  rewrite <- text_codes_standard. intros Hpre Hudh Hlen Hmax base. set (off := udh_septets part) in *.
  set (buf := (pre ++ udh_octets part) ++ replicate _ 0).
  assert (length (udh_octets part) ≤ 6)%nat as Hu by (destruct part as [[[? ?] ?]|]; cbn; lia).
  assert (0 ≤ off ∧ 8 * Z.of_nat (length (udh_octets part)) ≤ 7 * off ∧
    (Z.of_nat (length (udh_octets part)) = 0 ∨ 8 * Z.of_nat (length (udh_octets part)) < 7 * off)) as (Ho & Hoff & Hoff')
    by (subst off; destruct part as [[[? ?] ?]|]; cbn; lia).
  assert (length buf = max_len) as Hbuf.
  { subst buf. rewrite !length_app, length_replicate. lia. }
  assert (packed base off [] buf) as Hp0.
  { apply packed_zeros; [by apply Forall_app|rewrite length_app; lia|lia]. }
  destruct (wc_to_7bit_packs base off (160 - off) text [] buf) as (buf' & Hr & Hl & Hp);
    [lia|done|done|cbn; lia|cbn; rewrite Hbuf; Z.to_euclidean_division_equations; lia|].
  cbn [length app Nat.add] in Hr, Hp. change (Z.of_nat 0) with 0 in Hr.
  pose proof (wc_to_7bit_take base (160 - off) off (Z.of_nat (length (udh_octets part))) text buf 0 _ _
    ltac:(lia) ltac:(lia) Ho ltac:(lia) ltac:(lia) Hr) as Htake.
  replace (Z.to_nat (base + _)) with (length (pre ++ udh_octets part)) in Htake by (rewrite length_app; lia).
  subst buf. rewrite take_app_length in Htake.
  pose proof (take_drop (length (pre ++ udh_octets part)) buf') as Hsplit. rewrite Htake in Hsplit.
  set (rest := drop _ buf') in *.
  exists (udh_octets part ++ rest). rewrite app_assoc, Hsplit. split; [done|].
  split; [|split; [by exists rest|]].
  - apply (f_equal length) in Hsplit. rewrite !length_app in Hsplit. rewrite length_app. lia.
  - apply packed_drop in Hp; [|done]. rewrite <-Hsplit, <-app_assoc, drop_app_length in Hp. done.
Qed.

Lemma septets_to_octets_bounds n :
  0 ≤ n → 7 * n ≤ 8 * vgsm_septets_to_octets n < 7 * n + 8.
Proof.
  intros Hn. unfold vgsm_septets_to_octets.
  destruct (Z.eqb_spec (Z.rem (n * 7) 8) 0); Z.to_euclidean_division_equations; lia.
Qed.

(** what is sent of the user data carries the text *)
Lemma sent_carries part text ud :
  (∃ rest, ud = udh_octets part ++ rest) →
  packed 0 (udh_septets part) (gsm_text text) ud →
  vgsm_septets_to_octets (udh_septets part + Z.of_nat (length (gsm_text text))) ≤ Z.of_nat (length ud) →
  carries part text
    (take (Z.to_nat (vgsm_septets_to_octets (udh_septets part + Z.of_nat (length (gsm_text text))))) ud).
Proof.
  intros [rest Hrest] Hp Hlen. set (n := udh_septets part + _) in *.
  assert (0 ≤ udh_septets part ∧ 8 * Z.of_nat (length (udh_octets part)) ≤ 7 * udh_septets part) as [Ho Hu]
    by (destruct part as [[[? ?] ?]|]; cbn; lia).
  destruct (septets_to_octets_bounds n) as [Hn1 Hn2]; [lia|]. split; [|apply packed_take; [done| |done]; lia|rewrite length_take; lia].
  exists (take (Z.to_nat (vgsm_septets_to_octets n) - length (udh_octets part)) rest).
  rewrite Hrest, take_app. f_equal. apply take_ge. lia.
Qed.

(** one step of a sequence in [outcome] *)
Lemma done_bind {A B} (o : outcome A) (k : A → outcome B) a : o = Done a → (o ≫= k) = k a.
Proof. by intros ->. Qed.

Lemma submit_udhi sms :
  submit_user_data_header_indicator sms || (1 <? submit_concatenate_maxmsg sms) =
    if submit_part sms then true else false.
Proof. unfold submit_part. by destruct (_ || _). Qed.

Lemma filled_zero m pre :
  (length pre < m)%nat → filled m pre = ((pre ++ [0]) ++ replicate (m - length (pre ++ [0])) 0, Z.of_nat (length pre)).
Proof.
  intros Hm. unfold filled. f_equal. rewrite length_app, <-app_assoc. cbn [length app].
  by replace (m - length pre)%nat with (S (m - (length pre + 1))) by lia.
Qed.

Lemma udh_written m pre sms :
  (length pre + 6 ≤ m)%nat →
  (if (if submit_part sms then true else false)
   then write_udh sms (pre ++ replicate (m - length pre) 0) (Z.of_nat (length pre))
   else Done (pre ++ replicate (m - length pre) 0)) =
    Done ((pre ++ udh_octets (submit_part sms)) ++
      replicate (m - length (pre ++ udh_octets (submit_part sms))) 0).
Proof.
  intros Hm. unfold submit_part. destruct (_ || _); cbn [udh_octets].
  - unfold write_udh. by rewrite wr_all_filled by (cbn; lia).
  - by rewrite app_nil_r.
Qed.

Section submit.
Variable iconv : list Z → Z → list Z.

(** C33. For a message all of whose characters are in the GSM alphabet or its extension
    table, of at most 159 septets with the header of a part, to a number of at most 24
    digits, the preparation succeeds and the octets to send are, each as the standard has
    it, the address of the service centre, the first octet with the message's flags, the
    message reference, the address of the recipient, the class, an octet for the validity
    period, the number of septets and the user data, which carries the header of the part
    and the septets of the text and no octet more than they take.  What validity period is asked for is the function of
    the one configured that [validity_asked] is about. *)
Theorem submit_sends_text sms sd dd text :
  submit_text sms = Some text → submit_pdu sms = None → submit_fields_ok sms →
  number_of sd (submit_smcc_address sms) → number_of dd (dest sms) →
  Forall encodable text → (length dd ≤ 24)%nat →
  udh_septets (submit_part sms) + Z.of_nat (length (gsm_text text)) < 160 →
  ∃ pdu vp ud, let os := submit_octets sms sd dd vp text ud in
    vgsm_sms_submit_prepare iconv sms =
      Done (submit_prepared sms VGSM_SMS_DCS_ALPHABET_DEFAULT (if submit_part sms then true else false)
        (Z.of_nat (length os))
        (Z.of_nat (length os) - Z.of_nat (length (smcc_octets (submit_smcc_address sms) sd))) (Some pdu), 0) ∧
    take (length os) pdu = os ∧ validity_of_octet vp = asked_validity (validity_period sms) ∧
    carries (submit_part sms) text ud ∧
    8 * Z.of_nat (length ud) < 7 * (udh_septets (submit_part sms) + Z.of_nat (length (gsm_text text))) + 8.
Proof.
  intros Htext Hpdu Hf Hsd Hdd Hb Hd24 Hlen.
  set (vp := validity_octet (validity_period sms)).
  pose proof (smcc_length sd _ Hsd) as Hsl. pose proof (header_length sms dd vp Hdd) as Hhl.
  set (smcc := smcc_octets _ sd) in *. set (hdr := submit_header sms dd vp) in *.
  set (max_len := (2 + address_octets (Z.of_nat (length sd)) + 160)) in *.
  assert (0 ≤ address_octets (Z.of_nat (length dd)) ≤ 12) as Hdl.
  { unfold address_octets. Z.to_euclidean_division_equations. lia. }
  assert (0 ≤ address_octets (Z.of_nat (length sd))) as Hsl'.
  { unfold address_octets. Z.to_euclidean_division_equations. lia. }
  destruct (user_data_packed (smcc ++ hdr ++ [0]) (submit_part sms) text (Z.to_nat max_len))
    as (ud & Hw & Hul & Hur & Hup); [|by apply udh_octets_octets|done| |].
  { rewrite !Forall_app. repeat split; [by apply smcc_octets_octets|by apply header_octets; [..|apply u8_is_octet]|].
    apply Forall_cons_2; [unfold is_octet; lia|done]. }
  { rewrite !length_app. cbn [length]. lia. }
  set (udl := udh_septets (submit_part sms) + Z.of_nat (length (gsm_text text))) in *.
  set (n := vgsm_septets_to_octets udl). exists (smcc ++ hdr ++ [udl] ++ ud), vp, (take (Z.to_nat n) ud).
  assert (0 ≤ udh_septets (submit_part sms)) as Hu0 by (destruct (submit_part sms); cbn; lia).
  destruct (septets_to_octets_bounds udl) as [Hn1 Hn2]; [lia|]. fold n in Hn1, Hn2.
  rewrite !length_app in Hul. cbn [length] in Hul.
  assert (n ≤ Z.of_nat (length ud)) as Hn by lia.
  intros os. assert (Z.of_nat (length os) = Z.of_nat (length smcc) + Z.of_nat (length hdr) + 1 + n) as Hos.
  { subst os. unfold submit_octets. rewrite !length_app, length_take. fold smcc hdr. cbn [length]. lia. }
  split; [|split; [|split; [apply octet_asks|split]]].
  - unfold vgsm_sms_submit_prepare.
    rewrite Htext, Hpdu, submit_udhi, (encodable_alphabet text Hb).
    rewrite (done_bind _ _ _ (number_c_string sd _ Hsd)), (done_bind _ _ _ (number_c_string dd _ Hdd)).
    fold max_len.
    rewrite (done_bind _ _ _ (emit_smcc_filled _ sd (Z.to_nat max_len) Hsd ltac:(lia))).
    fold smcc. cbn [snd].
    rewrite (done_bind _ _ _ (emit_header_filled (Z.to_nat max_len) smcc sms dd Hdd ltac:(lia))).
    fold vp hdr. cbn [snd]. rewrite filled_zero by (rewrite length_app; lia). cbn iota beta.
    replace (Z.of_nat (length (smcc ++ hdr)) + 1) with (Z.of_nat (length ((smcc ++ hdr) ++ [0])))
      by (rewrite (length_app _ [0]); cbn [length]; lia).
    rewrite (done_bind _ _ _ (udh_written (Z.to_nat max_len) ((smcc ++ hdr) ++ [0]) sms
      ltac:(rewrite !length_app; cbn [length]; lia))).
    rewrite <-(app_assoc smcc hdr [0]) in *. unfold write_user_data.
    change (VGSM_SMS_DCS_ALPHABET_DEFAULT =? VGSM_SMS_DCS_ALPHABET_UCS2) with false. cbn iota.
    assert ((if (if submit_part sms then true else false) then 6 else 0) =
      (if submit_part sms then 6 else 0)) as -> by by destruct (submit_part sms).
    assert ((if (if submit_part sms then 6 else 0) =? 0 then 0 else
      vgsm_octets_to_septets (if submit_part sms then 6 else 0)) = udh_septets (submit_part sms)) as ->
      by by destruct (submit_part sms).
    rewrite (done_bind _ _ _ Hw). cbn iota beta.
    fold udl n. rewrite (proj2 (Z.ltb_ge _ _)), u8_small by (unfold is_octet; lia).
    assert (wr ((smcc ++ hdr ++ [0]) ++ ud) (Z.of_nat (length (smcc ++ hdr))) udl =
      Done (smcc ++ hdr ++ [udl] ++ ud)) as Hwr.
    { rewrite wr_insert by (rewrite !length_app; cbn [length]; lia).
      rewrite Nat2Z.id, (app_assoc smcc hdr [0]), <-!app_assoc.
      rewrite (app_assoc smcc hdr (_ ++ _)), insert_app_r_alt, Nat.sub_diag by done.
      by rewrite <-app_assoc. }
    rewrite (done_bind _ _ _ Hwr). cbn [mbind outcome_bind filled snd].
    assert (Z.of_nat (length (smcc ++ hdr ++ [0])) + n = Z.of_nat (length os)) as ->
      by (rewrite !length_app; cbn [length]; lia).
    rewrite (proj2 (Z.ltb_ge _ _)) by lia. by rewrite Hsl.
  - unfold os, submit_octets. fold smcc hdr udl.
    assert (smcc ++ hdr ++ [udl] ++ ud = (smcc ++ hdr ++ [udl]) ++ ud) as -> by by rewrite <-!app_assoc.
    assert (∀ l, smcc ++ hdr ++ [udl] ++ l = (smcc ++ hdr ++ [udl]) ++ l) as Hass
      by (intros; by rewrite <-!app_assoc).
    rewrite Hass, length_app, length_take, take_app_add'. 2: done.
    f_equal. f_equal. lia.
  - apply sent_carries; [done|done|]. fold udl n. lia.
  - rewrite length_take. lia.
Qed.
End submit.

(** a euro sign, which takes two septets *)
Definition euro_hello : list Z := 0x20AC :: hello.

(** a part of a longer message, in class 1 *)
Definition some_submit : vgsm_sms_submit := {|
  submit_refcnt := 1; submit_me := None; submit_smcc_address := some_smcc;
  reject_duplicates := false; submit_reply_path := false;
  submit_user_data_header_indicator := false; status_report_request := true;
  submit_message_reference := 9; dest := some_sender; validity_period := 4 * 86400;
  submit_coding_group := 0; submit_compressed := false; submit_message_class := 1;
  submit_alphabet := 0; submit_concatenate_refnum := 7; submit_concatenate_maxmsg := 2;
  submit_concatenate_seqnum := 1; submit_text := Some euro_hello; submit_pdu_len := 0;
  submit_pdu_tp_len := 0; submit_pdu := None |}.

Lemma submit_sends_text_witness :
  ∃ sms pdu vp ud, vgsm_sms_submit_prepare (λ _ _, []) some_submit = Done (sms, 0) ∧
    submit_pdu sms = Some pdu ∧ carries part_of_two euro_hello ud ∧
    ∃ rest, pdu =
      submit_octets some_submit [51; 57; 51; 52; 57] [51; 51; 52; 53] vp euro_hello ud ++ rest.
Proof.
  destruct (submit_sends_text (λ _ _, []) some_submit [51; 57; 51; 52; 57] [51; 51; 52; 53] euro_hello)
    as (pdu & vp & ud & Hr & Ht & _ & Hc & _).
  - reflexivity.
  - reflexivity.
  - split; vm_compute; split; congruence.
  - apply some_number; [by repeat (apply Forall_cons; split; [unfold is_dialled; lia|])|vm_compute; lia|lia|lia].
  - apply some_number; [by repeat (apply Forall_cons; split; [unfold is_dialled; lia|])|vm_compute; lia|lia|lia].
  - by repeat (apply Forall_cons; split; [vm_compute; discriminate|]).
  - vm_compute. lia.
  - vm_compute. reflexivity.
  - eexists _, pdu, vp, ud. split; [exact Hr|]. split; [done|]. split; [exact Hc|].
    rewrite <-Ht. eexists. symmetry. apply take_drop.
Defined.

(** ** Beyond *)

Definition long_text : list Z := replicate 159 65.
Definition with_dest (n : nat) (sms : vgsm_sms_submit) : vgsm_sms_submit := {|
  submit_refcnt := 1; submit_me := None; submit_smcc_address := submit_smcc_address sms;
  reject_duplicates := false; submit_reply_path := false;
  submit_user_data_header_indicator := false; status_report_request := false;
  submit_message_reference := 0;
  dest := {| digits := strncpy NUMBER_DIGITS (replicate n 49); np := 1; ton := 1 |};
  validity_period := 4 * 86400; submit_coding_group := 0; submit_compressed := false;
  submit_message_class := 1; submit_alphabet := 0; submit_concatenate_refnum := 0;
  submit_concatenate_maxmsg := 0; submit_concatenate_seqnum := 0; submit_text := Some long_text;
  submit_pdu_len := 0; submit_pdu_tp_len := 0; submit_pdu := None |}.

(** the longest text to 24 digits, and to 25: the end of the buffer is passed *)
Example longest_text_fits :
  option_map snd (match vgsm_sms_submit_prepare (λ _ _, []) (with_dest 24 some_submit) with
                  | Done r => Some r | Fault _ => None end) = Some 0.
Proof. vm_compute. reflexivity. Qed.

Example longest_text_overflows :
  vgsm_sms_submit_prepare (λ _ _, []) (with_dest 25 some_submit) = Fault OutOfBounds.
Proof. vm_compute. reflexivity. Qed.

(** ** The validity period *)

(** C37. The validity period asked for is [asked_validity] of the one configured.  Below
    five minutes it is ten minutes; from five minutes to twelve hours the one configured,
    rounded down to five minutes; above, less than a day, up to half an hour too long; of
    a day, two days; above, less than thirty days, up to a day too long; of thirty days,
    thirty-five; above, less than sixty weeks, three to four weeks too long; from sixty to
    sixty-three weeks it wraps to five to twenty minutes; above, it is sixty-three weeks. *)
Theorem validity_asked v :
  let a := validity_of_octet (validity_octet v) in
  a = asked_validity v ∧
  (v < 300 → a = 600) ∧
  (300 ≤ v ≤ 43200 → v - 300 < a ≤ v) ∧
  (43200 < v < 86400 → v < a ≤ v + 1800) ∧
  (v = 86400 → a = 2 * 86400) ∧
  (86400 < v < 30 * 86400 → v < a ≤ v + 86400) ∧
  (v = 30 * 86400 → a = 35 * 86400) ∧
  (30 * 86400 < v < 60 * 604800 → v + 3 * 604800 < a ≤ v + 4 * 604800) ∧
  (60 * 604800 ≤ v ≤ 63 * 604800 → 300 ≤ a ≤ 1200) ∧
  (63 * 604800 < v → a = 63 * 604800).
Proof.
  cbv zeta. rewrite octet_asks. split; [done|]. unfold asked_validity.
  repeat match goal with
    | |- context [if ?a <? ?b then _ else _] => destruct (Z.ltb_spec a b)
    | |- context [if ?a <=? ?b then _ else _] => destruct (Z.leb_spec a b)
    | |- context [if ?a =? ?b then _ else _] => destruct (Z.eqb_spec a b)
    end; Z.to_euclidean_division_equations; lia.
Qed.

Lemma validity_asked_witness : validity_of_octet (validity_octet 86400) = 2 * 86400.
Proof. destruct (validity_asked 86400) as (_ & _ & _ & _ & H & _). by apply H. Defined.
