(* ===== verification/VgsmComm.v ===== *)
(** * Requests to the GSM module

    [src/chan_vgsm/comm.c] with [comm.h], and the timers of [timer.c] it uses: requests
    are texts that are written to the serial line of the module, which echoes them and
    answers with lines, the last one with a code; lines the module sends of its own accord
    are unsolicited result codes (URC).

    A channel ([struct vgsm_comm]) has three threads: [vgsm_comm_thread_main] writes
    requests and reads the line, the others call the completion functions of requests and
    the handlers of URC.  The locks are held for single accesses to the queues and to
    the fields of a request, so that what a thread does between two waits is one step:
    [vcomm_event] says which there are.

    The buffer of the line is the array of 2048 characters it is in C, with what is left
    in it behind its terminator.  Requests are objects in a heap; a freed one is gone.
    [rx] is what the module sent and nobody read, [tx] what was written to the line.
    [called] records the calls of completion functions and handlers.  The clock stands
    still during a step.  Where no parameter says otherwise [malloc] succeeds; debugging
    output and log messages are left out. *)

From stdpp Require Import base list gmap.
From Stdlib Require Import ZArith Lia.
From Stdlib Require Import Ascii.
From stdpp Require Import strings.
From S2P Require Import Prelude.
From S2P Require Import Bits.
From S2P Require Import VgsmText.
Local Open Scope Z_scope.

(** ** Characters *)

Definition CR : Z := 13.
Definition LF : Z := 10.
Definition ESC : Z := 27.
Definition SUB : Z := 26.
Definition chr_caret : Z := 94.

(** a string literal *)
Definition text (s : string) : list Z :=
  (λ a, Z.of_nat (nat_of_ascii a)) <$> String.list_ascii_of_string s.

(** [strstr(s, "\r\n")] as an index *)
Fixpoint find_crlf (s : list Z) : option nat :=
  match s with
  | a :: s =>
    match s with
    | b :: _ => if (a =? CR) && (b =? LF) then Some O else S <$> find_crlf s
    | [] => None
    end
  | [] => None
  end.

(** [!strncmp(s, p, strlen(p))] *)
Definition starts_with (p s : list Z) : bool := bool_decide (take (length p) s = p).

(** [isspace] and [isdigit] in the C locale *)
Definition c_isspace (c : Z) : bool := (c =? 32) || ((9 <=? c) && (c <=? 13)).
Definition c_isdigit (c : Z) : bool := (48 <=? c) && (c <=? 57).

Fixpoint skip_space (s : list Z) : list Z :=
  match s with
  | c :: s' => if c_isspace c then skip_space s' else s
  | [] => []
  end.
Fixpoint digits_value (acc : Z) (s : list Z) : Z :=
  match s with
  | c :: s => if c_isdigit c then digits_value (10 * acc + (c - 48)) s else acc
  | [] => acc
  end.
(** [atoi]: [strtol], which saturates, made an [int] *)
Definition atoi (s : list Z) : Z :=
  let s := skip_space s in
  let v := match s with
           | c :: s' => if c =? 45 then - digits_value 0 s'
                        else if c =? 43 then digits_value 0 s' else digits_value 0 s
           | [] => 0
           end in
  i32 (Z.max (- 9223372036854775808) (Z.min 9223372036854775807 v)).

(** the two digits [sprintf] writes for ["%02x"] *)
Definition hex_digit (v : Z) : Z := if v <? 10 then 48 + v else 87 + v.
Definition hex_octet (b : Z) : list Z := [hex_digit (b / 16); hex_digit (b mod 16)].

(** ** Timers ([timer.c]) *)

Definition MILLISEC : Z := 1000.
Definition SEC : Z := 1000000.

Record vgsm_timer : Type := mk_timer {
  timer_refcnt : Z;
  timer_pending : bool;
  timer_expires : Z;
  timer_data : option nat;
}.
Definition eta_timer (r : vgsm_timer) : vgsm_timer :=
  {| timer_refcnt := timer_refcnt r; timer_pending := timer_pending r;
     timer_expires := timer_expires r; timer_data := timer_data r |}.
Definition set_timer_refcnt (v : Z) (r : vgsm_timer) : vgsm_timer :=
  ltac:(upd_field timer_refcnt eta_timer v r).
Definition set_timer_pending (v : bool) (r : vgsm_timer) : vgsm_timer :=
  ltac:(upd_field timer_pending eta_timer v r).
Definition set_timer_expires (v : Z) (r : vgsm_timer) : vgsm_timer :=
  ltac:(upd_field timer_expires eta_timer v r).
Definition set_timer_data (v : option nat) (r : vgsm_timer) : vgsm_timer :=
  ltac:(upd_field timer_data eta_timer v r).

(** the timers that exist, and those that run in the order they expire in *)
Record vgsm_timerset : Type := mk_timerset {
  all_timers : gmap nat vgsm_timer;
  running_timers : list nat;
}.

Definition vgsm_timerset_init : vgsm_timerset := mk_timerset ∅ [].
Definition vgsm_timer_create (timer : nat) (set : vgsm_timerset) : vgsm_timerset :=
  mk_timerset
    (<[timer := {| timer_refcnt := 1; timer_pending := false; timer_expires := 0;
                   timer_data := None |}]> (all_timers set))
    (running_timers set).

Inductive vgsm_timer_action : Set := VGSM_TIMER_STARTED | VGSM_TIMER_STOPPED.

(** what [timer.c] needs of a state: its timers, the clock, what [func] does when a timer
    starts or stops, and [timers_updated] *)
Class Timers (S : Type) : Type := {
  timerset : S → vgsm_timerset;
  set_timerset : vgsm_timerset → S → S;
  longtime_now : S → Z;
  timer_func : nat → vgsm_timer_action → option nat → M S unit;
  timers_updated : M S unit;
}.

Section timers.
Context {S : Type} {TS : Timers S}.
Local Notation T := (M S).

Definition the_timer (timer : nat) : T vgsm_timer :=
  w ← get;
  match all_timers (timerset w) !! timer with Some o => mret o | None => fail UseAfterFree end.
Definition upd_timer (timer : nat) (f : vgsm_timer → vgsm_timer) : T unit :=
  o ← the_timer timer;
  modify (λ w, set_timerset (mk_timerset (<[timer := f o]> (all_timers (timerset w)))
                                         (running_timers (timerset w))) w).
Definition set_running (l : list nat) : T unit :=
  modify (λ w, set_timerset (mk_timerset (all_timers (timerset w)) l) w).

(** [timer] is linked before the first that expires later *)
Fixpoint link_before (timer : nat) (expires : Z) (l : list nat) : T (list nat) :=
  match l with
  | [] => mret []
  | timert :: l =>
    o ← the_timer timert;
    if expires <? timer_expires o then
      upd_timer timer (set_timer_pending true);; mret (timer :: timert :: l)
    else l ← link_before timer expires l; mret (timert :: l)
  end.

Definition _vgsm_timer_add (timer : nat) (expires : Z) : T unit :=
  upd_timer timer (set_timer_expires expires);;
  w ← get;
  at_end ← (match last (running_timers (timerset w)) with
            | None => mret true
            | Some timert => o ← the_timer timert; mret (timer_expires o <=? expires)
            end);
  (if at_end : bool then
     set_running (running_timers (timerset w) ++ [timer]);;
     upd_timer timer (set_timer_pending true)
   else
     l ← link_before timer expires (running_timers (timerset w));
     set_running l);;
  o ← the_timer timer;
  c_assert (timer_pending o).

Definition vgsm_timer_add (timer : nat) (expires : Z) : T unit :=
  o ← the_timer timer;
  c_assert (negb (timer_pending o));;
  _vgsm_timer_add timer expires.

(** [list_del(&timer->node); timer->pending = FALSE] *)
Definition timer_unlink (timer : nat) : T unit :=
  w ← get;
  set_running (filter (.≠ timer) (running_timers (timerset w)));;
  upd_timer timer (set_timer_pending false).

Definition vgsm_timer_start (timer : nat) (expires : Z) (start_data : option nat) : T bool :=
  o ← the_timer timer;
  if timer_pending o && (timer_expires o =? expires) then mret false
  else
    when (timer_pending o)
      (timer_func timer VGSM_TIMER_STOPPED None;; timer_unlink timer);;
    timer_func timer VGSM_TIMER_STARTED start_data;;
    _vgsm_timer_add timer expires;;
    timers_updated;;
    mret (timer_pending o).

Definition vgsm_timer_stop (timer : nat) : T bool :=
  o ← the_timer timer;
  when (timer_pending o)
    (timer_unlink timer;; timer_func timer VGSM_TIMER_STOPPED None);;
  mret (timer_pending o).

Definition vgsm_timer_start_delta (timer : nat) (delta : Z) (start_data : option nat)
    : T bool :=
  w ← get; vgsm_timer_start timer (longtime_now w + delta) start_data.

(** [fired] is [func] for [VGSM_TIMER_FIRED]; it may start timers *)
Fixpoint timerset_loop (fired : nat → T unit) (fuel : nat) (now : Z) : T unit :=
  w ← get;
  match running_timers (timerset w) with
  | [] => mret tt
  | timer :: _ =>
    o ← the_timer timer;
    if timer_expires o <? now then
      match fuel with
      | O => fail Diverges
      | Datatypes.S fuel => timer_unlink timer;; fired timer;; timerset_loop fired fuel now
      end
    else mret tt
  end.
Definition vgsm_timerset_run (fired : nat → T unit) (fuel : nat) : T unit :=
  w ← get; timerset_loop fired fuel (longtime_now w).

Definition vgsm_timerset_next : T Z :=
  w ← get;
  match running_timers (timerset w) with
  | [] => mret (-1)
  | timer :: _ => o ← the_timer timer; mret (Z.max (timer_expires o - longtime_now w) 0)
  end.

Definition vgsm_timer_get (timer : nat) : T unit :=
  o ← the_timer timer;
  c_assert (0 <? timer_refcnt o);;
  upd_timer timer (set_timer_refcnt (timer_refcnt o + 1)).

Definition vgsm_timer_put (timer : nat) : T unit :=
  o ← the_timer timer;
  c_assert (0 <? timer_refcnt o);;
  if timer_refcnt o =? 1 then
    modify (λ w, set_timerset (mk_timerset (delete timer (all_timers (timerset w)))
                                           (running_timers (timerset w))) w)
  else upd_timer timer (set_timer_refcnt (timer_refcnt o - 1)).
End timers.

(** ** Channels and requests ([comm.h]) *)

Definition CME_ERROR_BASE : Z := 1000.
Definition CMS_ERROR_BASE : Z := 2000.

Definition VGSM_RESP_OK : Z := 0.
Definition VGSM_RESP_CONNECT : Z := 1.
Definition VGSM_RESP_NO_CARRIER : Z := 2.
Definition VGSM_RESP_ERROR : Z := 3.
Definition VGSM_RESP_NO_DIALTONE : Z := 4.
Definition VGSM_RESP_BUSY : Z := 5.
Definition VGSM_RESP_NO_ANSWER : Z := 6.
Definition VGSM_RESP_UNKNOWN : Z := 100.
Definition VGSM_RESP_FAILED : Z := 102.

Inductive vgsm_comm_state : Set :=
| VGSM_COMM_CLOSED
| VGSM_COMM_CLOSING
| VGSM_COMM_FAILED
| VGSM_COMM_RECOVERING
| VGSM_COMM_IDLE
| VGSM_COMM_READING_URC
| VGSM_COMM_AWAITING_SMS_ECHO
| VGSM_COMM_AWAITING_SMS_ECHO_1A
| VGSM_COMM_AWAITING_ECHO
| VGSM_COMM_AWAITING_ECHO_READING_URC
| VGSM_COMM_READING_RESPONSE.
#[export] Instance vgsm_comm_state_eq_dec : EqDecision vgsm_comm_state.
Proof. solve_decision. Defined.

Inductive vgsm_comm_message_type : Set :=
| VGSM_COMM_MSG_CLOSE
| VGSM_COMM_MSG_REFRESH
| VGSM_COMM_MSG_INITIALIZE.

(** [code], whether there is a [handler], and [detect_end] as a function of the lines *)
Record vgsm_urc_class : Type := {
  urc_code : list Z;
  urc_handler : bool;
  detect_end : option (list (list Z) → bool);
}.

Record vgsm_req : Type := mk_vreq {
  vr_refcnt : Z;
  vr_request : list Z;               (** the string in the array *)
  vr_sms_text_pdu : option (list Z);
  vr_retransmit_cnt : Z;
  vr_ready : bool;
  vr_completion : option nat;        (** a [completion_func] with its [completion_data] *)
  vr_timeout : Z;
  vr_lines : list (list Z);
  vr_err : Z;
  vr_urc_class : option vgsm_urc_class;
}.
Definition eta_vreq (r : vgsm_req) : vgsm_req :=
  {| vr_refcnt := vr_refcnt r; vr_request := vr_request r;
     vr_sms_text_pdu := vr_sms_text_pdu r; vr_retransmit_cnt := vr_retransmit_cnt r;
     vr_ready := vr_ready r; vr_completion := vr_completion r;
     vr_timeout := vr_timeout r; vr_lines := vr_lines r; vr_err := vr_err r;
     vr_urc_class := vr_urc_class r |}.
Definition set_vr_refcnt (v : Z) (r : vgsm_req) : vgsm_req :=
  ltac:(upd_field vr_refcnt eta_vreq v r).
Definition set_vr_request (v : list Z) (r : vgsm_req) : vgsm_req :=
  ltac:(upd_field vr_request eta_vreq v r).
Definition set_vr_sms_text_pdu (v : option (list Z)) (r : vgsm_req) : vgsm_req :=
  ltac:(upd_field vr_sms_text_pdu eta_vreq v r).
Definition set_vr_retransmit_cnt (v : Z) (r : vgsm_req) : vgsm_req :=
  ltac:(upd_field vr_retransmit_cnt eta_vreq v r).
Definition set_vr_ready (v : bool) (r : vgsm_req) : vgsm_req :=
  ltac:(upd_field vr_ready eta_vreq v r).
Definition set_vr_completion (v : option nat) (r : vgsm_req) : vgsm_req :=
  ltac:(upd_field vr_completion eta_vreq v r).
Definition set_vr_timeout (v : Z) (r : vgsm_req) : vgsm_req :=
  ltac:(upd_field vr_timeout eta_vreq v r).
Definition set_vr_lines (v : list (list Z)) (r : vgsm_req) : vgsm_req :=
  ltac:(upd_field vr_lines eta_vreq v r).
Definition set_vr_err (v : Z) (r : vgsm_req) : vgsm_req :=
  ltac:(upd_field vr_err eta_vreq v r).
Definition set_vr_urc_class (v : option vgsm_urc_class) (r : vgsm_req) : vgsm_req :=
  ltac:(upd_field vr_urc_class eta_vreq v r).

(** a call of another part of the driver: a completion function, or the handler of a URC *)
Inductive vcall : Type :=
| call_completion (data : nat) (err : Z) (lines : list (list Z))
| call_handler (code : list Z) (lines : list (list Z)).

(** where [vgsm_comm_thread_main] is *)
Inductive comm_thread_at : Set :=
| NO_THREAD      (** there is none *)
| AT_START       (** before the loop *)
| AT_TOP         (** at the beginning of an iteration *)
| AT_POLL        (** in [poll] *)
| AT_JOIN.       (** waits for the other threads *)
#[export] Instance comm_thread_at_eq_dec : EqDecision comm_thread_at.
Proof. solve_decision. Defined.

(** what [comm->name] points to *)
Inductive name_at : Set := NAME_NULL | NAME_HEAP | NAME_LITERAL.

(** the threads that call the functions of this file *)
Inductive thread : Set := COMM_THREAD | OTHER_THREAD.
#[export] Instance thread_eq_dec : EqDecision thread.
Proof. solve_decision. Defined.

Record vgsm_comm : Type := mk_comm {
  c_state : vgsm_comm_state;
  c_timerset : vgsm_timerset;
  c_buf : list Z;
  c_name : name_at;
  requests_queue : list nat;
  current_req : option nat;
  current_urc : option nat;
  urc_queue : list nat;
  urc_thread_has_to_exit : bool;
  completion_queue : list nat;
  completion_thread_has_to_exit : bool;
  cmd_pipe : option (list vgsm_comm_message_type);   (** nothing when it is closed *)
  comm_thread : comm_thread_at;
  urc_thread : bool;                  (** whether it runs *)
  completion_thread : bool;
  (** what is outside of [struct vgsm_comm] *)
  vreqs : gmap nat vgsm_req;
  next_vreq : nat;
  clock : Z;
  rx : list Z;
  tx : list (list Z);
  called : list vcall;
  held : list nat;                    (** the references of the callers of this file *)
  made : list nat;                    (** the requests they made, in order *)
  ended : list nat;                   (** those the completion thread is done with *)
}.
Definition eta_comm (r : vgsm_comm) : vgsm_comm :=
  {| c_state := c_state r; c_timerset := c_timerset r; c_buf := c_buf r; c_name := c_name r;
     requests_queue := requests_queue r; current_req := current_req r;
     current_urc := current_urc r; urc_queue := urc_queue r;
     urc_thread_has_to_exit := urc_thread_has_to_exit r;
     completion_queue := completion_queue r;
     completion_thread_has_to_exit := completion_thread_has_to_exit r;
     cmd_pipe := cmd_pipe r; comm_thread := comm_thread r; urc_thread := urc_thread r;
     completion_thread := completion_thread r; vreqs := vreqs r; next_vreq := next_vreq r;
     clock := clock r; rx := rx r; tx := tx r; called := called r; held := held r;
     made := made r; ended := ended r |}.
Definition set_c_state (v : vgsm_comm_state) (r : vgsm_comm) : vgsm_comm :=
  ltac:(upd_field c_state eta_comm v r).
Definition set_c_timerset (v : vgsm_timerset) (r : vgsm_comm) : vgsm_comm :=
  ltac:(upd_field c_timerset eta_comm v r).
Definition set_c_buf (v : list Z) (r : vgsm_comm) : vgsm_comm :=
  ltac:(upd_field c_buf eta_comm v r).
Definition set_c_name (v : name_at) (r : vgsm_comm) : vgsm_comm :=
  ltac:(upd_field c_name eta_comm v r).
Definition set_requests_queue (v : list nat) (r : vgsm_comm) : vgsm_comm :=
  ltac:(upd_field requests_queue eta_comm v r).
Definition set_current_req (v : option nat) (r : vgsm_comm) : vgsm_comm :=
  ltac:(upd_field current_req eta_comm v r).
Definition set_current_urc (v : option nat) (r : vgsm_comm) : vgsm_comm :=
  ltac:(upd_field current_urc eta_comm v r).
Definition set_urc_queue (v : list nat) (r : vgsm_comm) : vgsm_comm :=
  ltac:(upd_field urc_queue eta_comm v r).
Definition set_urc_thread_has_to_exit (v : bool) (r : vgsm_comm) : vgsm_comm :=
  ltac:(upd_field urc_thread_has_to_exit eta_comm v r).
Definition set_completion_queue (v : list nat) (r : vgsm_comm) : vgsm_comm :=
  ltac:(upd_field completion_queue eta_comm v r).
Definition set_completion_thread_has_to_exit (v : bool) (r : vgsm_comm) : vgsm_comm :=
  ltac:(upd_field completion_thread_has_to_exit eta_comm v r).
Definition set_cmd_pipe (v : option (list vgsm_comm_message_type)) (r : vgsm_comm) : vgsm_comm :=
  ltac:(upd_field cmd_pipe eta_comm v r).
Definition set_comm_thread (v : comm_thread_at) (r : vgsm_comm) : vgsm_comm :=
  ltac:(upd_field comm_thread eta_comm v r).
Definition set_urc_thread (v : bool) (r : vgsm_comm) : vgsm_comm :=
  ltac:(upd_field urc_thread eta_comm v r).
Definition set_completion_thread (v : bool) (r : vgsm_comm) : vgsm_comm :=
  ltac:(upd_field completion_thread eta_comm v r).
Definition set_vreqs (v : gmap nat vgsm_req) (r : vgsm_comm) : vgsm_comm :=
  ltac:(upd_field vreqs eta_comm v r).
Definition set_next_vreq (v : nat) (r : vgsm_comm) : vgsm_comm :=
  ltac:(upd_field next_vreq eta_comm v r).
Definition set_clock (v : Z) (r : vgsm_comm) : vgsm_comm :=
  ltac:(upd_field clock eta_comm v r).
Definition set_rx (v : list Z) (r : vgsm_comm) : vgsm_comm :=
  ltac:(upd_field rx eta_comm v r).
Definition set_tx (v : list (list Z)) (r : vgsm_comm) : vgsm_comm :=
  ltac:(upd_field tx eta_comm v r).
Definition set_called (v : list vcall) (r : vgsm_comm) : vgsm_comm :=
  ltac:(upd_field called eta_comm v r).
Definition set_held (v : list nat) (r : vgsm_comm) : vgsm_comm :=
  ltac:(upd_field held eta_comm v r).
Definition set_made (v : list nat) (r : vgsm_comm) : vgsm_comm :=
  ltac:(upd_field made eta_comm v r).
Definition set_ended (v : list nat) (r : vgsm_comm) : vgsm_comm :=
  ltac:(upd_field ended eta_comm v r).

Definition Cm := M vgsm_comm.
#[global] Typeclasses Transparent Cm.

(** [&comm->timer] *)
Definition the_comm_timer : nat := O.
(** [comm] as the data of its timer *)
Definition comm_ptr : nat := O.

(** [vgsm_comm_init] of a channel that was filled with zeros *)
Definition vgsm_comm_init : vgsm_comm :=
  {| c_state := VGSM_COMM_CLOSED;
     c_timerset := vgsm_timer_create the_comm_timer vgsm_timerset_init;
     c_buf := replicate 2048 0; c_name := NAME_NULL; requests_queue := [];
     current_req := None; current_urc := None; urc_queue := [];
     urc_thread_has_to_exit := false; completion_queue := [];
     completion_thread_has_to_exit := false; cmd_pipe := None; comm_thread := NO_THREAD;
     urc_thread := false; completion_thread := false; vreqs := ∅; next_vreq := O;
     clock := 0; rx := []; tx := []; called := []; held := []; made := [];
     ended := [] |}.

Definition the_vreq (req : nat) : Cm vgsm_req :=
  w ← get; match vreqs w !! req with Some o => mret o | None => fail UseAfterFree end.
Definition put_vreq (req : nat) (o : vgsm_req) : Cm unit :=
  modify (λ w, set_vreqs (<[req := o]> (vreqs w)) w).
Definition upd_vreq (req : nat) (f : vgsm_req → vgsm_req) : Cm unit :=
  o ← the_vreq req; put_vreq req (f o).

(** [list_add_tail(&req->node, queue)]: a request has one node *)
Definition unlinked (req : nat) : Cm unit :=
  w ← get;
  if bool_decide (req ∈ requests_queue w ++ completion_queue w ++ urc_queue w)
  then fail ListCorruption else mret tt.

(** [write(comm->fd, l, strlen(l))] *)
Definition write_fd (l : list Z) : Cm unit := modify (λ w, set_tx (tx w ++ [l]) w).

(** ** References *)

Definition vgsm_req_get (req : nat) : Cm unit :=
  o ← the_vreq req;
  c_assert ((0 <? vr_refcnt o) && (vr_refcnt o <? 100000));;
  put_vreq req (set_vr_refcnt (vr_refcnt o + 1) o).

Definition _vgsm_req_put (req : option nat) : Cm unit :=
  match req with
  | None => mret tt
  | Some req =>
    o ← the_vreq req;
    c_assert ((0 <? vr_refcnt o) && (vr_refcnt o <? 100000));;
    if vr_refcnt o =? 1 then modify (λ w, set_vreqs (delete req (vreqs w)) w)
    else put_vreq req (set_vr_refcnt (vr_refcnt o - 1) o)
  end.

Definition vgsm_req_alloc : Cm nat :=
  w ← get;
  let req := next_vreq w in
  put (set_next_vreq (S req) w);;
  put_vreq req {| vr_refcnt := 1; vr_request := []; vr_sms_text_pdu := None;
                  vr_retransmit_cnt := 0; vr_ready := false; vr_completion := None;
                  vr_timeout := 0; vr_lines := []; vr_err := 0; vr_urc_class := None |};;
  mret req.

Definition vgsm_req_status (req : option nat) : Cm Z :=
  match req with
  | None => mret VGSM_RESP_FAILED
  | Some req => o ← the_vreq req; c_assert (vr_ready o);; mret (vr_err o)
  end.

(** the first and the last line; of an empty list the head is taken for a line *)
Definition vgsm_req_first_line (req : nat) : Cm (list Z) :=
  o ← the_vreq req;
  match vr_lines o with l :: _ => mret l | [] => fail OutOfBounds end.
Definition vgsm_req_last_line (req : nat) : Cm (list Z) :=
  o ← the_vreq req;
  match last (vr_lines o) with Some l => mret l | None => fail OutOfBounds end.

(** ** Messages to the thread *)

Definition vgsm_comm_send_message (self : thread) (mt : vgsm_comm_message_type) : Cm unit :=
  c_assert (bool_decide (self ≠ COMM_THREAD));;
  w ← get;
  match cmd_pipe w with
  | Some l => put (set_cmd_pipe (Some (l ++ [mt])) w)
  | None => mret tt
  end.

Definition vgsm_comm_timers_updated (self : thread) : Cm unit :=
  when (bool_decide (self ≠ COMM_THREAD)) (vgsm_comm_send_message self VGSM_COMM_MSG_REFRESH).

(** [vgsm_comm_timer] of a timer that starts or stops *)
Definition vgsm_comm_timer (timer : nat) (action : vgsm_timer_action)
    (start_data : option nat) : Cm unit :=
  let set v :=
    w ← get;
    match all_timers (c_timerset w) !! timer with
    | Some o => put (set_c_timerset (mk_timerset
                       (<[timer := set_timer_data v o]> (all_timers (c_timerset w)))
                       (running_timers (c_timerset w))) w)
    | None => fail UseAfterFree
    end in
  match action with
  | VGSM_TIMER_STOPPED => set None
  | VGSM_TIMER_STARTED => set start_data
  end.

(** all timers of the channel are started and stopped by its thread *)
#[export] Instance comm_timers : Timers vgsm_comm := {
  timerset := c_timerset;
  set_timerset := set_c_timerset;
  longtime_now := clock;
  timer_func := vgsm_comm_timer;
  timers_updated := vgsm_comm_timers_updated COMM_THREAD;
}.

Definition vgsm_comm_change_state (newstate : vgsm_comm_state) (timeout : Z) : Cm unit :=
  (if timeout =? -1 then vgsm_timer_stop the_comm_timer;; mret tt
   else if negb (timeout =? -2) then
     vgsm_timer_start_delta the_comm_timer timeout (Some comm_ptr);; mret tt
   else mret tt);;
  modify (set_c_state newstate).

(** ** Making requests *)

(** the texts of 80 octets and more do not fit with what is added *)
Definition request_size : Z := 82.

Record make_args : Type := mk_args {
  ma_timeout : Z;
  ma_sms_pdu : option (list Z);
  ma_completion : option nat;
  ma_text : list Z;                  (** what [vsnprintf] formats *)
  ma_alloc : bool;                   (** whether [malloc] finds room for the request *)
  ma_malloc : bool;                  (** and for the text of the message *)
}.

Definition vgsm_req_make_va (self : thread) (a : make_args) : Cm (option nat) :=
  if negb (ma_alloc a) then mret None
  else
    req ← vgsm_req_alloc;
    if request_size - 2 <=? Z.of_nat (length (ma_text a)) then
      _vgsm_req_put (Some req);; mret None
    else
      upd_vreq req (set_vr_request (ma_text a ++ [CR]));;
      upd_vreq req (set_vr_ready false);;
      upd_vreq req (set_vr_timeout (i32 (ma_timeout a + 100 * MILLISEC)));;
      upd_vreq req (set_vr_retransmit_cnt 3);;
      upd_vreq req (set_vr_completion (ma_completion a));;
      let queue :=
        vgsm_req_get req;;
        unlinked req;;
        modify (λ w, set_requests_queue (requests_queue w ++ [req]) w);;
        vgsm_comm_send_message self VGSM_COMM_MSG_REFRESH;;
        mret (Some req) in
      match ma_sms_pdu a with
      | Some (b :: l) =>
        if negb (ma_malloc a) then _vgsm_req_put (Some req);; mret None
        else upd_vreq req (set_vr_sms_text_pdu (Some ((b :: l) ≫= hex_octet)));; queue
      | _ => queue
      end.

Definition vgsm_req_make_callback (self : thread) (completion : nat) (timeout : Z)
    (txt : list Z) (alloc : bool) : Cm (option nat) :=
  vgsm_req_make_va self (mk_args timeout None (Some completion) txt alloc true).
Definition vgsm_req_make (self : thread) (timeout : Z) (txt : list Z) (alloc : bool)
    : Cm (option nat) :=
  vgsm_req_make_va self (mk_args timeout None None txt alloc true).
Definition vgsm_req_make_sms (self : thread) (timeout : Z) (sms_pdu : list Z)
    (txt : list Z) (alloc malloc : bool) : Cm (option nat) :=
  vgsm_req_make_va self (mk_args timeout (Some sms_pdu) None txt alloc malloc).

(** whether [vgsm_req_wait] returns now; a caller for which it does not waits *)
Definition vgsm_req_wait (req : option nat) : Cm bool :=
  match req with
  | None => mret true
  | Some req => o ← the_vreq req; mret (vr_ready o)
  end.

(** [vgsm_req_make_wait], as far as the wait *)
Definition vgsm_req_make_wait := vgsm_req_make.
(** [vgsm_req_make_wait_result], which waits as well, from where the wait ended *)
Definition vgsm_req_make_wait_result (req : option nat) : Cm Z :=
  match req with
  | None => mret VGSM_RESP_FAILED
  | Some req =>
    o ← the_vreq req;
    let res := vr_err o in
    _vgsm_req_put (Some req);;
    mret res
  end.

(** ** Lines of the module *)

Definition vgsm_req_final_response_code (line : list Z) : Z :=
  if bool_decide (line = text "OK") then VGSM_RESP_OK
  else if bool_decide (line = text "CONNECT") then VGSM_RESP_CONNECT
  else if bool_decide (line = text "NO CARRIER") then VGSM_RESP_NO_CARRIER
  else if bool_decide (line = text "ERROR") then VGSM_RESP_ERROR
  else if bool_decide (line = text "NO DIALTONE") then VGSM_RESP_NO_DIALTONE
  else if bool_decide (line = text "BUSY") then VGSM_RESP_BUSY
  else if bool_decide (line = text "NO ANSWER") then VGSM_RESP_NO_ANSWER
  else if starts_with (text "+CME ERROR: ") line then
    i32 (atoi (drop 12 line) + CME_ERROR_BASE)
  else if starts_with (text "+CMS ERROR: ") line then
    i32 (atoi (drop 12 line) + CMS_ERROR_BASE)
  else VGSM_RESP_UNKNOWN.

(** the string at [comm->buf + i] *)
Definition buf_string (i : Z) : Cm (list Z) :=
  w ← get;
  if (i <? 0) || (Z.of_nat (length (c_buf w)) <? i) then fail OutOfBounds
  else lift (c_string (drop (Z.to_nat i) (c_buf w))).
(** [comm->buf[i]] and the assignment to it *)
Definition buf_char (i : Z) : Cm Z := w ← get; lift (rd (c_buf w) i).
Definition set_buf_char (i v : Z) : Cm unit :=
  w ← get; b ← lift (wr (c_buf w) i v); put (set_c_buf b w).
(** [strcpy] or [memmove] of the string [s] with its terminator to [comm->buf] *)
Definition buf_write (i : Z) (l : list Z) : Cm unit :=
  w ← get; b ← lift (wr_all (c_buf w) i l); put (set_c_buf b w).

(** what a request goes through when its result is known *)
Definition complete_req (req : nat) (err : Z) : Cm unit :=
  upd_vreq req (set_vr_err err);;
  upd_vreq req (set_vr_ready true);;
  vgsm_req_get req;;
  unlinked req;;
  modify (λ w, set_completion_queue (completion_queue w ++ [req]) w);;
  _vgsm_req_put (Some req).

(** [list_add_tail(&req_line->node, &req->lines)] of a copy of [line] *)
Definition add_line (req : nat) (line : list Z) : Cm unit :=
  upd_vreq req (λ o, set_vr_lines (vr_lines o ++ [line]) o).

Definition ECHO_TIMEOUT : Z := 800 * MILLISEC.
Definition URC_TIMEOUT : Z := 500 * MILLISEC.
Definition SMS_ECHO_TIMEOUT : Z := 1 * SEC.
Definition READING_URC_TIMEOUT : Z := 3 * SEC.

(** the prompt for the text of a short message *)
Definition match_prompt (req : nat) : Cm Z :=
  o ← the_vreq req;
  match vr_sms_text_pdu o with
  | None => write_fd [ESC];; mret 4
  | Some pdu =>
    write_fd pdu;;
    vgsm_comm_change_state VGSM_COMM_AWAITING_SMS_ECHO SMS_ECHO_TIMEOUT;;
    mret 4
  end.

(** a line of the response, which may be the last *)
Definition response_line (req : nat) (line : list Z) : Cm unit :=
  add_line req line;;
  let err := vgsm_req_final_response_code line in
  when (negb (err =? VGSM_RESP_UNKNOWN))
    (vgsm_comm_change_state VGSM_COMM_IDLE (-1);;
     complete_req req err;;
     modify (set_current_req None)).

(** a line of the response, which starts at [begin], is looked for *)
Definition match_line (req : nat) (begin : Z) : Cm Z :=
  s ← buf_string 2;
  match find_crlf s with
  | None => mret 0
  | Some i =>
    let stop := 2 + Z.of_nat i in
    set_buf_char stop 0;;
    line ← buf_string begin;
    response_line req line;;
    mret (stop + 2)
  end.

Definition vgsm_match_response : Cm Z :=
  w ← get;
  match current_req w with
  | None => fail AssertFail
  | Some req =>
    c ← buf_char 0;
    if c =? 0 then mret 0
    else
      let begin := if c =? CR then 1 else 0 in
      c ← buf_char begin;
      if c =? 0 then mret 0
      else
        let begin := if c =? LF then begin + 1 else begin in
        s ← buf_string begin;
        if starts_with (text "> ") s then match_prompt req else match_line req begin
  end.

(** [n] characters are equal so far *)
Fixpoint echo_loop (n : Z) (buf snt : list Z) : Z :=
  match snt, buf with
  | [], _ => n
  | _, [] => 0
  | c :: snt, b :: buf => if b =? c then echo_loop (n + 1) buf snt else -1
  end.
Definition vgsm_comm_match_echo (sent : list Z) : Cm Z :=
  s ← buf_string 0; mret (echo_loop 0 s sent).

Section urc_classes.
Context (urc_classes : list vgsm_urc_class).

Fixpoint find_urc_class (l : list vgsm_urc_class) (s : list Z) : option vgsm_urc_class :=
  match l with
  | cls :: l => if starts_with (urc_code cls) s then Some cls else find_urc_class l s
  | [] => None
  end.

(** a line that is no answer *)
Definition urc_line (line : list Z) : Cm unit :=
  match find_urc_class urc_classes line with
  | None => mret tt
  | Some cls =>
    w ← get;
    urc ← vgsm_req_alloc;
    upd_vreq urc (set_vr_urc_class (Some cls));;
    add_line urc line;;
    when (bool_decide (c_state w = VGSM_COMM_AWAITING_ECHO))
      (vgsm_comm_change_state VGSM_COMM_AWAITING_ECHO ECHO_TIMEOUT);;
    (match detect_end cls with
     | Some _ =>
       vgsm_req_get urc;;
       modify (set_current_urc (Some urc));;
       (if bool_decide (c_state w = VGSM_COMM_AWAITING_ECHO) then
          vgsm_comm_change_state VGSM_COMM_AWAITING_ECHO_READING_URC ECHO_TIMEOUT
        else vgsm_comm_change_state VGSM_COMM_READING_URC READING_URC_TIMEOUT);;
       vgsm_timer_start_delta the_comm_timer URC_TIMEOUT (Some comm_ptr);;
       mret tt
     | None =>
       vgsm_req_get urc;;
       unlinked urc;;
       modify (λ w, set_urc_queue (urc_queue w ++ [urc]) w)
     end);;
    _vgsm_req_put (Some urc)
  end.

(** from the label [sysstart_workaround] on *)
Definition match_urc_line (begin : Z) : Cm Z :=
  s ← buf_string begin;
  match find_crlf s with
  | None => mret 0
  | Some i =>
    let stop := begin + Z.of_nat i in
    set_buf_char stop 0;;
    w ← get;
    c_assert (bool_decide (current_urc w = None));;
    line ← buf_string begin;
    urc_line line;;
    mret (stop + 2)
  end.

Definition vgsm_comm_match_urc : Cm Z :=
  c ← buf_char 0;
  if c =? 0 then mret 0
  else if negb (c =? CR) then
    if (c =? chr_plus) || (c =? chr_caret) then match_urc_line 0 else mret 1
  else
    c ← buf_char 1;
    if c =? 0 then mret 0
    else if negb (c =? LF) then mret 1
    else
      c ← buf_char 2;
      if c =? 0 then mret 0
      else if c =? CR then
        c ← buf_char 3;
        if c =? 0 then mret 0
        else if negb (c =? LF) then mret 1
        else match_urc_line 4
      else match_urc_line 2.

(** one more line of the URC that is being read *)
Definition urc_more_line (urc : nat) (line : list Z) : Cm unit :=
  w ← get;
  add_line urc line;;
  when (bool_decide (c_state w = VGSM_COMM_AWAITING_ECHO_READING_URC))
    (vgsm_timer_start_delta the_comm_timer ECHO_TIMEOUT (Some comm_ptr);; mret tt);;
  o ← the_vreq urc;
  cls ← deref (vr_urc_class o);
  match detect_end cls with
  | None => fail AssertFail
  | Some ends =>
    when (ends (vr_lines o))
      (unlinked urc;;
       modify (λ w, set_urc_queue (urc_queue w ++ [urc]) w);;
       modify (set_current_urc None);;
       if bool_decide (c_state w = VGSM_COMM_AWAITING_ECHO_READING_URC) then
         vgsm_comm_change_state VGSM_COMM_AWAITING_ECHO ECHO_TIMEOUT
       else vgsm_comm_change_state VGSM_COMM_IDLE (-1))
  end.

(** that the search is repeated where the line is empty finds the same place *)
Definition vgsm_comm_match_urc_cont : Cm Z :=
  s ← buf_string 0;
  match find_crlf s with
  | None => mret 0
  | Some i =>
    set_buf_char (Z.of_nat i) 0;;
    w ← get;
    match current_urc w with
    | None => fail AssertFail
    | Some urc =>
      line ← buf_string 0;
      urc_more_line urc line;;
      mret (Z.of_nat i + 2)
    end
  end.

(** one iteration of the loop of [vgsm_comm_receive]: how many characters are done with *)
Definition receive_step (nread : Z) : Cm Z :=
  w ← get;
  let the_current := match current_req w with
                     | Some req => the_vreq req
                     | None => fail NullDeref
                     end in
  match c_state w with
  | VGSM_COMM_CLOSED | VGSM_COMM_CLOSING => mret 0
  | VGSM_COMM_FAILED | VGSM_COMM_RECOVERING => mret nread
  | VGSM_COMM_IDLE => vgsm_comm_match_urc
  | VGSM_COMM_AWAITING_ECHO =>
    o ← the_current;
    nmatch ← vgsm_comm_match_echo (vr_request o);
    if 0 <? nmatch then
      vgsm_comm_change_state VGSM_COMM_READING_RESPONSE (vr_timeout o);; mret nmatch
    else if negb (nmatch =? 0) then vgsm_comm_match_urc
    else mret 0
  | VGSM_COMM_READING_URC | VGSM_COMM_AWAITING_ECHO_READING_URC => vgsm_comm_match_urc_cont
  | VGSM_COMM_AWAITING_SMS_ECHO =>
    o ← the_current;
    pdu ← deref (vr_sms_text_pdu o);
    nmatch ← vgsm_comm_match_echo pdu;
    if 0 <? nmatch then
      write_fd [SUB];;
      vgsm_comm_change_state VGSM_COMM_AWAITING_SMS_ECHO_1A (-2);;
      mret nmatch
    else mret 0
  | VGSM_COMM_AWAITING_SMS_ECHO_1A =>
    nmatch ← vgsm_comm_match_echo [SUB];
    if 0 <? nmatch then
      o ← the_current;
      vgsm_comm_change_state VGSM_COMM_READING_RESPONSE (vr_timeout o);;
      mret nmatch
    else mret 0
  | VGSM_COMM_READING_RESPONSE => vgsm_match_response
  end.

Fixpoint receive_loop (fuel : nat) (nread : Z) : Cm unit :=
  match fuel with
  | O => fail Diverges
  | S fuel =>
    npull ← receive_step nread;
    if npull =? 0 then mret tt
    else
      s ← buf_string npull;
      buf_write 0 (s ++ [0]);;
      receive_loop fuel 0
  end.

(** [read] of at most [n] characters of those that are there *)
Definition read_fd (n room : nat) : Cm (list Z) :=
  w ← get;
  let l := take (Nat.min n room) (rx w) in
  put (set_rx (drop (length l) (rx w)) w);;
  mret l.

(** [n]: how much [read] returns, nothing for an error *)
Definition vgsm_comm_receive (fuel : nat) (n : option nat) : Cm Z :=
  s ← buf_string 0;
  match n with
  | None => mret (-1)
  | Some n =>
    l ← read_fd n (2048 - length s - 1);
    buf_write (Z.of_nat (length s)) (l ++ [0]);;
    receive_loop fuel (Z.of_nat (length l));;
    mret 0
  end.

(** ** The thread of the channel *)

Definition vgsm_comm_dequeue_req : Cm (option nat) :=
  w ← get;
  match requests_queue w with
  | [] => mret None
  | req :: l => put (set_requests_queue l w);; mret (Some req)
  end.

Definition vgsm_process_next_request : Cm unit :=
  w ← get;
  c_assert (bool_decide (current_req w = None));;
  req ← vgsm_comm_dequeue_req;
  modify (set_current_req req);;
  match req with
  | None => mret tt
  | Some req =>
    o ← the_vreq req;
    write_fd (vr_request o);;
    vgsm_comm_change_state VGSM_COMM_AWAITING_ECHO ECHO_TIMEOUT
  end.

Fixpoint flush_loop (n : nat) : Cm unit :=
  req ← vgsm_comm_dequeue_req;
  match req with
  | None => mret tt
  | Some req =>
    match n with
    | O => fail Diverges
    | S n => complete_req req VGSM_RESP_FAILED;; flush_loop n
    end
  end.
(** as many iterations as there are requests *)
Definition vgsm_flush_requests : Cm unit :=
  w ← get; flush_loop (length (requests_queue w)).

Definition vgsm_comm_send_recovery_sequence : Cm unit :=
  write_fd (text "AT E1 V1 Q0" ++ [CR]).

Definition vgsm_comm_timer_fired : Cm unit :=
  w ← get;
  match c_state w with
  | VGSM_COMM_RECOVERING =>
    match current_req w with
    | Some req =>
      upd_vreq req (λ o, set_vr_retransmit_cnt (vr_retransmit_cnt o - 1) o);;
      o ← the_vreq req;
      if vr_retransmit_cnt o =? 0 then
        vgsm_comm_change_state VGSM_COMM_FAILED (-1);;
        complete_req req VGSM_RESP_FAILED;;
        modify (set_current_req None)
      else
        c_assert (Z.of_nat (length (vr_request o)) <=? 80);;
        write_fd (vr_request o);;
        vgsm_comm_change_state VGSM_COMM_AWAITING_ECHO ECHO_TIMEOUT
    | None => vgsm_comm_change_state VGSM_COMM_IDLE (-1)
    end
  | VGSM_COMM_READING_URC | VGSM_COMM_AWAITING_SMS_ECHO | VGSM_COMM_AWAITING_SMS_ECHO_1A
  | VGSM_COMM_AWAITING_ECHO | VGSM_COMM_AWAITING_ECHO_READING_URC
  | VGSM_COMM_READING_RESPONSE =>
    _vgsm_req_put (current_urc w);;
    modify (set_current_urc None);;
    vgsm_comm_change_state VGSM_COMM_RECOVERING (1 * SEC);;
    modify (set_rx []);;                          (* tcflush *)
    set_buf_char 0 0;;
    vgsm_comm_send_recovery_sequence
  | VGSM_COMM_CLOSED | VGSM_COMM_CLOSING | VGSM_COMM_FAILED | VGSM_COMM_IDLE => mret tt
  end.

(** [vgsm_comm_timer] of a timer that fired *)
Definition comm_timer_fired (timer : nat) : Cm unit :=
  o ← the_timer timer;
  vgsm_comm_timer timer VGSM_TIMER_STOPPED None;;
  deref (timer_data o);;
  vgsm_comm_timer_fired.

(** what a message does in a state, as the nested switches say *)
Definition message_in_state (mt : vgsm_comm_message_type) : Cm unit :=
  w ← get;
  match c_state w with
  | VGSM_COMM_CLOSED | VGSM_COMM_CLOSING => fail AssertFail
  | VGSM_COMM_IDLE =>
    match mt with
    | VGSM_COMM_MSG_CLOSE | VGSM_COMM_MSG_REFRESH =>
      vgsm_comm_change_state VGSM_COMM_RECOVERING (1 * SEC);; set_buf_char 0 0
    | VGSM_COMM_MSG_INITIALIZE => mret tt
    end
  | _ => mret tt
  end.

(** whether the thread has to exit *)
Definition vgsm_comm_receive_message : Cm bool :=
  w ← get;
  match cmd_pipe w with
  | Some (mt :: l) =>
    put (set_cmd_pipe (Some l) w);;
    match mt with
    | VGSM_COMM_MSG_CLOSE => vgsm_comm_change_state VGSM_COMM_CLOSING (-1);; mret true
    | VGSM_COMM_MSG_REFRESH => mret false
    | VGSM_COMM_MSG_INITIALIZE => message_in_state mt;; mret false
    end
  | _ => mret false
  end.

(** [vgsm_comm_thread_main] before its loop *)
Definition thread_start : Cm unit :=
  vgsm_comm_change_state VGSM_COMM_IDLE (-1);; modify (set_comm_thread AT_TOP).

(** an iteration as far as [poll]: the timeout in milliseconds, [-1] for none *)
Definition thread_top : Cm Z :=
  vgsm_timerset_run comm_timer_fired 2;;
  w ← get;
  (match c_state w with
   | VGSM_COMM_IDLE => vgsm_process_next_request
   | VGSM_COMM_FAILED | VGSM_COMM_CLOSING | VGSM_COMM_CLOSED => vgsm_flush_requests
   | _ => mret tt
   end);;
  timeout ← vgsm_timerset_next;
  modify (set_comm_thread AT_POLL);;
  mret (if timeout =? -1 then -1 else Z.max (Z.quot timeout 1000) 1).

(** how often the loop of [vgsm_comm_receive] may run *)
Definition receive_fuel : nat := 2048.

(** the rest of the iteration: whether there is a message, what is read from the line *)
Definition thread_poll (message : bool) (fd : option (option nat)) : Cm unit :=
  stop ← (if message then vgsm_comm_receive_message else mret false);
  if stop : bool then
    modify (set_completion_thread_has_to_exit true);;
    modify (set_urc_thread_has_to_exit true);;
    modify (set_comm_thread AT_JOIN)
  else
    (match fd with
     | Some n => vgsm_comm_receive receive_fuel n;; mret tt
     | None => mret tt
     end);;
    modify (set_comm_thread AT_TOP).

(** the end of the thread, once it has been joined by the others *)
Definition thread_exit : Cm unit :=
  modify (set_cmd_pipe None);;
  vgsm_comm_change_state VGSM_COMM_CLOSED (-1);;
  modify (set_comm_thread NO_THREAD).

(** ** The other threads *)

(** [vgsm_comm_dequeue_urc] where it does not wait *)
Definition vgsm_comm_dequeue_urc : Cm (option (option nat)) :=
  w ← get;
  match urc_queue w with
  | [] => mret (if urc_thread_has_to_exit w then Some None else None)
  | req :: l => put (set_urc_queue l w);; mret (Some (Some req))
  end.

Definition vgsm_comm_urc_thread_main : Cm unit :=
  r ← vgsm_comm_dequeue_urc;
  match r with
  | None => mret tt
  | Some None => modify (set_urc_thread false)
  | Some (Some req) =>
    o ← the_vreq req;
    match vr_urc_class o with
    | None => fail AssertFail
    | Some cls =>
      when (urc_handler cls)
        (modify (λ w, set_called (called w ++ [call_handler (urc_code cls) (vr_lines o)]) w));;
      _vgsm_req_put (Some req)
    end
  end.

Definition vgsm_comm_dequeue_completion : Cm (option (option nat)) :=
  w ← get;
  match completion_queue w with
  | [] => mret (if completion_thread_has_to_exit w then Some None else None)
  | req :: l => put (set_completion_queue l w);; mret (Some (Some req))
  end.

Definition vgsm_comm_completion_thread_main : Cm unit :=
  r ← vgsm_comm_dequeue_completion;
  match r with
  | None => mret tt
  | Some None => modify (set_completion_thread false)
  | Some (Some req) =>
    o ← the_vreq req;
    modify (λ w, set_ended (ended w ++ [req]) w);;
    (match vr_completion o with
     | Some data =>
       modify (λ w, set_called (called w ++ [call_completion data (vr_err o) (vr_lines o)]) w)
     | None => mret tt
     end);;
    _vgsm_req_put (Some req)
  end.

(** ** Opening and closing *)

(** [pipe]: 0 or the error; [threads]: the results of [pthread_create].  These, like the
    result of [pthread_attr_init], are 0 or positive: what is tested is whether they are
    negative. *)
Definition vgsm_comm_open (pipe : Z) (threads : Z * Z * Z) : Cm Z :=
  w ← get;
  c_assert (bool_decide (c_state w = VGSM_COMM_CLOSED));;
  modify (set_c_name NAME_HEAP);;
  if negb (pipe =? 0) then mret (- pipe)
  else
    let '(comm, urc, completion) := threads in
    modify (set_cmd_pipe (Some []));;
    when (comm =? 0) (modify (set_comm_thread AT_START));;
    modify (set_urc_thread_has_to_exit false);;
    when (urc =? 0) (modify (set_urc_thread true));;
    modify (set_completion_thread_has_to_exit false);;
    when (completion =? 0) (modify (set_completion_thread true));;
    mret 0.

(** [vgsm_comm_close] as far as the wait *)
Definition vgsm_comm_close : Cm unit :=
  vgsm_comm_send_message OTHER_THREAD VGSM_COMM_MSG_CLOSE.
(** and where the channel is closed *)
Definition vgsm_comm_close_end : Cm unit :=
  w ← get;
  match c_name w with
  | NAME_LITERAL => fail InvalidFree
  | _ => put (set_c_name NAME_LITERAL w)
  end.

(** ** What can happen to a channel *)

Inductive vcomm_event : Type :=
| ev_clock (t : Z)                                  (** the time is [t] *)
| ev_arrive (l : list Z)                            (** the module sends [l] *)
| ev_open (pipe : Z) (threads : Z * Z * Z)
| ev_close
| ev_close_end                                      (** a caller of [vgsm_comm_close] goes on *)
| ev_message (mt : vgsm_comm_message_type)
| ev_make (a : make_args)
| ev_put (req : nat)                                (** a caller drops its reference *)
| ev_result (req : nat)                             (** [vgsm_req_make_wait_result] goes on *)
| ev_start
| ev_top
| ev_poll (message : bool) (fd : option (option nat))
| ev_exit
| ev_urc
| ev_completion.

(** the events that can happen in a state *)
Definition enabled (e : vcomm_event) (w : vgsm_comm) : bool :=
  match e with
  | ev_clock _ | ev_arrive _ | ev_open _ _ | ev_close | ev_message _ | ev_make _ => true
  | ev_close_end => bool_decide (c_state w = VGSM_COMM_CLOSED)
  | ev_put req => bool_decide (req ∈ held w)
  | ev_result req =>
    bool_decide (req ∈ held w) && from_option vr_ready false (vreqs w !! req)
  | ev_start => bool_decide (comm_thread w = AT_START)
  | ev_top => bool_decide (comm_thread w = AT_TOP)
  | ev_poll _ _ => bool_decide (comm_thread w = AT_POLL)
  | ev_exit =>
    bool_decide (comm_thread w = AT_JOIN) && negb (urc_thread w) && negb (completion_thread w)
  | ev_urc => urc_thread w
  | ev_completion => completion_thread w
  end.

Fixpoint remove_one (a : nat) (l : list nat) : list nat :=
  match l with
  | [] => []
  | b :: l => if decide (b = a) then l else b :: remove_one a l
  end.

Definition vcomm_exec (e : vcomm_event) : Cm unit :=
  match e with
  | ev_clock t => modify (set_clock t)
  | ev_arrive l => modify (λ w, set_rx (rx w ++ l) w)
  | ev_open pipe threads => vgsm_comm_open pipe threads;; mret tt
  | ev_close => vgsm_comm_close
  | ev_close_end => vgsm_comm_close_end
  | ev_message mt => vgsm_comm_send_message OTHER_THREAD mt
  | ev_make a =>
    req ← vgsm_req_make_va OTHER_THREAD a;
    match req with
    | Some req =>
      modify (λ w, set_made (made w ++ [req]) (set_held (req :: held w) w))
    | None => mret tt
    end
  | ev_put req =>
    modify (λ w, set_held (remove_one req (held w)) w);; _vgsm_req_put (Some req)
  | ev_result req =>
    modify (λ w, set_held (remove_one req (held w)) w);;
    vgsm_req_make_wait_result (Some req);; mret tt
  | ev_start => thread_start
  | ev_top => thread_top;; mret tt
  | ev_poll message fd => thread_poll message fd
  | ev_exit => thread_exit
  | ev_urc => vgsm_comm_urc_thread_main
  | ev_completion => vgsm_comm_completion_thread_main
  end.

Fixpoint vcomm_run (es : list vcomm_event) : Cm unit :=
  match es with
  | [] => mret tt
  | e :: es => w ← get; (if enabled e w then vcomm_exec e else mret tt);; vcomm_run es
  end.
End urc_classes.
