(* ===== verification/VgsmCommInv.v ===== *)
(** * Requests to the module: the invariant

    What the operations of [VgsmComm] do, as equations, and the invariant [CommInv] of a
    channel: the buffer ends with a NUL, the timer runs in the states in which the module
    is waited for, the count of references of every request is what its holders and the
    lists have, and every request that was made is in exactly one place, in order. *)

From stdpp Require Import base list gmap.
From Stdlib Require Import ZArith Lia.
From S2P Require Import Prelude.
From S2P Require Import Bits.
From S2P Require Import VgsmText.
From S2P Require Import VgsmComm.
Local Open Scope Z_scope.
#[local] Arguments singletonM : simpl never.
#[local] Arguments vgsm_comm_timer : simpl never.
#[local] Arguments _vgsm_req_put : simpl never.
#[local] Arguments vgsm_comm_change_state : simpl never.
#[local] Arguments vgsm_timer_start_delta : simpl never.
#[local] Opaque the_comm_timer.

Lemma comm_eta w : eta_comm w = w.
Proof. by destruct w. Qed.

(** ** The timer of a channel *)

Definition comm_ts (t : vgsm_timer) : vgsm_timerset :=
  mk_timerset {[ the_comm_timer := t ]} (if timer_pending t then [the_comm_timer] else []).
Definition w_timer (t : vgsm_timer) (w : vgsm_comm) : vgsm_comm :=
  set_c_timerset (comm_ts t) w.

(** the timers of [w] are [t], which has [comm] as its data while it runs *)
Definition has_timer (w : vgsm_comm) (t : vgsm_timer) : Prop :=
  c_timerset w = comm_ts t ∧ (timer_pending t = true → timer_data t = Some comm_ptr).

Definition armed (e : Z) (t : vgsm_timer) : vgsm_timer :=
  mk_timer (timer_refcnt t) true e (Some comm_ptr).
Definition stopped (t : vgsm_timer) : vgsm_timer :=
  if timer_pending t then mk_timer (timer_refcnt t) false (timer_expires t) None else t.
(** the timer after [vgsm_comm_change_state] with the timeout [d] *)
Definition next_timer (now d : Z) (t : vgsm_timer) : vgsm_timer :=
  if d =? -1 then stopped t else if d =? -2 then t else armed (now + d) t.

Lemma w_timer_id w t : has_timer w t → w_timer t w = w.
Proof. intros [E _]. unfold w_timer. rewrite <- E. by destruct w. Qed.
Lemma w_timer_twice t t' w : w_timer t' (w_timer t w) = w_timer t' w.
Proof. done. Qed.

Lemma has_timer_armed w e t : has_timer (w_timer (armed e t) w) (armed e t).
Proof. by split. Qed.
Lemma has_timer_stopped w t : has_timer w t → has_timer (w_timer (stopped t) w) (stopped t).
Proof. intros [E D]. split; [done|]. unfold stopped. destruct (timer_pending t) eqn:F; cbn; [done|congruence]. Qed.
Lemma has_timer_next w now d t :
  has_timer w t → has_timer (w_timer (next_timer now d t) w) (next_timer now d t).
Proof.
  intros Ht. unfold next_timer. destruct (d =? -1); [by apply has_timer_stopped|].
  destruct (d =? -2); [|apply has_timer_armed]. by rewrite w_timer_id.
Qed.

(** evaluation of a computation *)
Ltac run := cbv [mbind M_bind get put modify mret M_ret when fail c_assert deref lift]; cbn.

Lemma the_timer_eq w t : c_timerset w = comm_ts t → the_timer the_comm_timer w = Done (t, w).
Proof. intros E. unfold the_timer. run. rewrite E. cbn. by rewrite lookup_singleton_eq. Qed.
Lemma upd_timer_eq w t l f :
  c_timerset w = mk_timerset {[the_comm_timer := t]} l →
  upd_timer the_comm_timer f w =
    Done (tt, set_c_timerset (mk_timerset {[the_comm_timer := f t]} l) w).
Proof.
  intros E. unfold upd_timer, the_timer. run. rewrite E. cbn. rewrite lookup_singleton_eq. cbn.
  rewrite E. cbn. by rewrite insert_singleton_eq.
Qed.
Lemma comm_timer_eq w t l a v :
  c_timerset w = mk_timerset {[the_comm_timer := t]} l →
  vgsm_comm_timer the_comm_timer a v w =
    Done (tt, set_c_timerset (mk_timerset {[the_comm_timer :=
      set_timer_data (match a with VGSM_TIMER_STOPPED => None | _ => v end) t]} l) w).
Proof.
  intros E. unfold vgsm_comm_timer. destruct a; run; rewrite E; cbn;
    rewrite lookup_singleton_eq; cbn; rewrite ?E; cbn; by rewrite insert_singleton_eq.
Qed.
Lemma vtimer_unlink_eq w t :
  c_timerset w = comm_ts t →
  timer_unlink the_comm_timer w =
    Done (tt, set_c_timerset (mk_timerset {[the_comm_timer := set_timer_pending false t]} []) w).
Proof.
  intros E. unfold timer_unlink, set_running. run.
  rewrite (upd_timer_eq _ t []); [done|]. rewrite E. cbn.
  by destruct (timer_pending t).
Qed.

Lemma timer_stop_eq w t :
  has_timer w t →
  vgsm_timer_stop the_comm_timer w = Done (timer_pending t, w_timer (stopped t) w).
Proof.
  intros [E D]. pose proof (w_timer_id w t (conj E D)) as Hid.
  unfold vgsm_timer_stop, stopped. run. rewrite (the_timer_eq w t) by done.
  destruct (timer_pending t) eqn:P; [|by rewrite Hid].
  rewrite (vtimer_unlink_eq w t) by done. by rewrite (comm_timer_eq _ (set_timer_pending false t) []).
Qed.

Lemma vtimer_add_eq w t e :
  c_timerset w = mk_timerset {[the_comm_timer := t]} [] →
  _vgsm_timer_add the_comm_timer e w =
    Done (tt, w_timer (mk_timer (timer_refcnt t) true e (timer_data t)) w).
Proof.
  intros E. unfold _vgsm_timer_add. run. rewrite (upd_timer_eq w t []) by done. cbn.
  unfold set_running. run. rewrite (upd_timer_eq _ (set_timer_expires e t) [the_comm_timer]) by done.
  cbn. by rewrite (the_timer_eq _ (mk_timer (timer_refcnt t) true e (timer_data t))).
Qed.

Lemma timer_start_eq w t e :
  has_timer w t →
  ∃ b, vgsm_timer_start the_comm_timer e (Some comm_ptr) w = Done (b, w_timer (armed e t) w).
Proof.
  intros [E D]. pose proof (w_timer_id w t (conj E D)) as Hid.
  unfold vgsm_timer_start. run. rewrite (the_timer_eq w t) by done.
  destruct (timer_pending t) eqn:P; cbn.
  - destruct (Z.eqb_spec (timer_expires t) e) as [<-|Hne].
    + exists false. replace (armed (timer_expires t) t) with t; [by rewrite Hid|].
      destruct t; cbn in *. unfold armed; cbn. by rewrite D, P.
    + exists true. unfold comm_ts in E. rewrite P in E.
      rewrite (comm_timer_eq w t [the_comm_timer]) by done.
      rewrite (vtimer_unlink_eq _ (set_timer_data None t)) by (unfold comm_ts; cbn; by rewrite P).
      rewrite (comm_timer_eq _ (set_timer_pending false (set_timer_data None t)) []) by done.
      by rewrite (vtimer_add_eq _ (set_timer_data (Some comm_ptr)
           (set_timer_pending false (set_timer_data None t)))).
  - exists false. unfold comm_ts in E. rewrite P in E.
    rewrite (comm_timer_eq w t []) by done.
    by rewrite (vtimer_add_eq _ (set_timer_data (Some comm_ptr) t)).
Qed.

Lemma start_delta_eq w t d :
  has_timer w t →
  ∃ b, vgsm_timer_start_delta the_comm_timer d (Some comm_ptr) w =
       Done (b, w_timer (armed (clock w + d) t) w).
Proof. intros Ht. by apply timer_start_eq. Qed.

Lemma change_state_eq w t s d :
  has_timer w t →
  vgsm_comm_change_state s d w =
    Done (tt, set_c_state s (w_timer (next_timer (clock w) d t) w)).
Proof.
  intros Ht. unfold vgsm_comm_change_state, next_timer.
  unfold mbind at 1, M_bind at 1. destruct (d =? -1).
  - unfold mbind at 1, M_bind at 1. rewrite (timer_stop_eq w t) by done. done.
  - destruct (d =? -2); cbn [negb].
    + cbn. by rewrite (w_timer_id w t).
    + unfold mbind at 1, M_bind at 1. destruct (start_delta_eq w t d Ht) as [b ->]. done.
Qed.

(** the timer [t] is started *)
Ltac start_delta t :=
  match goal with
  | |- context [vgsm_timer_start_delta _ ?d _ ?w] =>
    destruct (start_delta_eq w t d) as [? ->]; [first [by split | assumption]|]; cbn
  end.

(** ** Requests *)

Definition w_vreq (a : nat) (o : vgsm_req) (w : vgsm_comm) : vgsm_comm :=
  set_vreqs (<[a := o]> (vreqs w)) w.

Lemma the_vreq_eq w a o : vreqs w !! a = Some o → the_vreq a w = Done (o, w).
Proof. intros E. unfold the_vreq. run. by rewrite E. Qed.
Lemma upd_vreq_eq w a o f :
  vreqs w !! a = Some o → upd_vreq a f w = Done (tt, w_vreq a (f o) w).
Proof. intros E. unfold upd_vreq. run. by rewrite (the_vreq_eq w a o). Qed.
Lemma w_vreq_lookup w a o : vreqs (w_vreq a o w) !! a = Some o.
Proof. apply lookup_insert_eq. Qed.
Lemma w_vreq_twice w a o o' : w_vreq a o' (w_vreq a o w) = w_vreq a o' w.
Proof. unfold w_vreq. cbn. by rewrite insert_insert_eq. Qed.
Lemma w_vreq_id w a o : vreqs w !! a = Some o → w_vreq a o w = w.
Proof. intros E. unfold w_vreq. rewrite insert_id by done. apply comm_eta. Qed.

(** a number of references that no assertion objects to *)
Definition counted (o : vgsm_req) : Prop := 0 < vr_refcnt o < 99999.

Lemma get_eq w a o :
  vreqs w !! a = Some o → counted o →
  vgsm_req_get a w = Done (tt, w_vreq a (set_vr_refcnt (vr_refcnt o + 1) o) w).
Proof.
  intros E [H1 H2]. unfold vgsm_req_get. run. rewrite (the_vreq_eq w a o) by done.
  rewrite (proj2 (Z.ltb_lt _ _)), (proj2 (Z.ltb_lt _ 100000)) by lia. done.
Qed.

Definition w_put (a : nat) (o : vgsm_req) (w : vgsm_comm) : vgsm_comm :=
  if vr_refcnt o =? 1 then set_vreqs (delete a (vreqs w)) w
  else w_vreq a (set_vr_refcnt (vr_refcnt o - 1) o) w.
Lemma put_eq w a o :
  vreqs w !! a = Some o → 0 < vr_refcnt o < 100000 →
  _vgsm_req_put (Some a) w = Done (tt, w_put a o w).
Proof.
  intros E [H1 H2]. unfold _vgsm_req_put, w_put. run. rewrite (the_vreq_eq w a o) by done.
  rewrite (proj2 (Z.ltb_lt _ _)), (proj2 (Z.ltb_lt _ 100000)) by lia.
  by destruct (vr_refcnt o =? 1).
Qed.

Definition queued (w : vgsm_comm) : list nat :=
  requests_queue w ++ completion_queue w ++ urc_queue w.
Lemma unlinked_eq w a : a ∉ queued w → unlinked a w = Done (tt, w).
Proof. intros E. unfold unlinked. run. by rewrite bool_decide_eq_false_2. Qed.

(** a request with its result *)
Definition completed (err : Z) (o : vgsm_req) : vgsm_req := set_vr_ready true (set_vr_err err o).
Definition w_complete (a : nat) (err : Z) (o : vgsm_req) (w : vgsm_comm) : vgsm_comm :=
  set_completion_queue (completion_queue w ++ [a]) (w_vreq a (completed err o) w).

(** the reference of who completes the request goes to the queue *)
Lemma complete_req_eq w a o err :
  vreqs w !! a = Some o → counted o → a ∉ queued w →
  complete_req a err w = Done (tt, w_complete a err o w).
Proof.
  intros E H Hq. unfold counted in H. unfold complete_req. run. rewrite (upd_vreq_eq w a o) by done.
  rewrite (upd_vreq_eq _ a (set_vr_err err o)) by apply w_vreq_lookup. rewrite w_vreq_twice.
  rewrite (get_eq _ a (completed err o)) by (apply w_vreq_lookup || done). rewrite w_vreq_twice.
  rewrite unlinked_eq by done.
  rewrite (put_eq _ a (set_vr_refcnt (vr_refcnt o + 1) (completed err o)));
    [|apply w_vreq_lookup|cbn; lia].
  unfold w_put. cbn. destruct (Z.eqb_spec (vr_refcnt o + 1) 1); [lia|].
  unfold w_complete, w_vreq. cbn. rewrite insert_insert_eq.
  replace (set_vr_refcnt (vr_refcnt o + 1 - 1) _) with (completed err o); [done|].
  rewrite Z.add_simpl_r. done.
Qed.

(** ** Lines *)

Definition with_line (line : list Z) (o : vgsm_req) : vgsm_req :=
  set_vr_lines (vr_lines o ++ [line]) o.

Definition w_response (req : nat) (o : vgsm_req) (line : list Z) (t : vgsm_timer)
    (w : vgsm_comm) : vgsm_comm :=
  let err := vgsm_req_final_response_code line in
  if err =? VGSM_RESP_UNKNOWN then w_vreq req (with_line line o) w
  else set_current_req None
         (w_complete req err (with_line line o)
           (set_c_state VGSM_COMM_IDLE (w_timer (stopped t) w))).

Lemma response_line_eq w t req o line :
  has_timer w t → vreqs w !! req = Some o → counted o → req ∉ queued w →
  response_line req line w = Done (tt, w_response req o line t w).
Proof.
  intros Ht Ho Hc Hq. unfold response_line, w_response, add_line. run.
  rewrite (upd_vreq_eq w req o) by done. fold (with_line line o).
  destruct (_ =? _); cbn [negb]; [done|].
  rewrite (change_state_eq _ t) by done. cbn.
  rewrite (complete_req_eq _ req (with_line line o)); [|apply w_vreq_lookup|done..].
  unfold w_complete, w_vreq. cbn. by rewrite insert_insert_eq.
Qed.

(** a URC that has just been made, with the reference of a queue or of the channel *)
Definition new_urc (cls : vgsm_urc_class) (line : list Z) : vgsm_req :=
  {| vr_refcnt := 1; vr_request := []; vr_sms_text_pdu := None; vr_retransmit_cnt := 0;
     vr_ready := false; vr_completion := None; vr_timeout := 0; vr_lines := [line];
     vr_err := 0; vr_urc_class := Some cls |}.

Definition w_urc (cls : vgsm_urc_class) (line : list Z) (t : vgsm_timer) (w : vgsm_comm)
    : vgsm_comm :=
  let a := next_vreq w in
  let w' := set_next_vreq (S a) (w_vreq a (new_urc cls line) w) in
  let awaiting := bool_decide (c_state w = VGSM_COMM_AWAITING_ECHO) in
  match detect_end cls with
  | Some _ =>
    set_c_state (if awaiting then VGSM_COMM_AWAITING_ECHO_READING_URC
                 else VGSM_COMM_READING_URC)
      (w_timer (armed (clock w + URC_TIMEOUT) t) (set_current_urc (Some a) w'))
  | None =>
    set_urc_queue (urc_queue w ++ [a])
      (if awaiting
       then set_c_state VGSM_COMM_AWAITING_ECHO (w_timer (armed (clock w + ECHO_TIMEOUT) t) w')
       else w')
  end.

Lemma urc_line_eq classes w t line :
  has_timer w t → next_vreq w ∉ queued w →
  urc_line classes line w =
    Done (tt, match find_urc_class classes line with
              | Some cls => w_urc cls line t w
              | None => w
              end).
Proof.
  intros Ht Hq. unfold urc_line. destruct (find_urc_class _ _) as [cls|]; [|done].
  unfold w_urc, vgsm_req_alloc, put_vreq, add_line. run.
  rewrite (upd_vreq_eq _ (next_vreq w) _) by (cbn; apply lookup_insert_eq).
  rewrite (upd_vreq_eq _ (next_vreq w) _) by apply w_vreq_lookup. rewrite w_vreq_twice. cbn.
  set (o := set_vr_lines _ _). set (w1 := w_vreq _ o _).
  assert (vreqs w1 !! next_vreq w = Some o) as Ho by apply w_vreq_lookup.
  assert (has_timer w1 t) as Ht1 by done.
  (* the reference is taken, and the one of the allocation given back *)
  assert (∀ w2, vreqs w2 = vreqs w1 → vgsm_req_get (next_vreq w) w2 =
      Done (tt, w_vreq (next_vreq w) (set_vr_refcnt 2 o) w2)) as Hget.
  { intros w2 E. rewrite (get_eq _ _ o); [done|by rewrite E|]. split; cbn; lia. }
  assert (∀ w2, vreqs w2 !! next_vreq w = Some (set_vr_refcnt 2 o) →
      _vgsm_req_put (Some (next_vreq w)) w2 = Done (tt, w_vreq (next_vreq w) o w2)) as Hput.
  { intros w2 E. rewrite (put_eq _ _ (set_vr_refcnt 2 o)); [done|done|cbn; lia]. }
  destruct (bool_decide (c_state w = _)) eqn:Hs; cbn.
  - rewrite (change_state_eq _ t) by done. cbn. destruct (detect_end cls); cbn.
    + rewrite Hget by done. cbn.
      rewrite (change_state_eq _ (armed (clock w + ECHO_TIMEOUT) t)) by apply has_timer_armed.
      cbn. start_delta (armed (clock w + ECHO_TIMEOUT) t). rewrite Hput by apply lookup_insert_eq.
      unfold w1, w_vreq. cbn. by rewrite !insert_insert_eq.
    + rewrite Hget by done. cbn. rewrite unlinked_eq by done.
      rewrite Hput by apply lookup_insert_eq. unfold w1, w_vreq. cbn. by rewrite !insert_insert_eq.
  - destruct (detect_end cls); cbn.
    + rewrite Hget by done. cbn. rewrite (change_state_eq _ t) by done.
      cbn. start_delta (armed (clock w + READING_URC_TIMEOUT) t).
      rewrite Hput by apply lookup_insert_eq.
      unfold w1, w_vreq. cbn. by rewrite !insert_insert_eq.
    + rewrite Hget by done. cbn. rewrite unlinked_eq by done.
      rewrite Hput by apply lookup_insert_eq. unfold w1, w_vreq. cbn. by rewrite !insert_insert_eq.
Qed.

(** one more line of a URC of a class that says whether it is the last *)
Definition w_more (urc : nat) (o : vgsm_req) (line : list Z) (ends : list (list Z) → bool)
    (t : vgsm_timer) (w : vgsm_comm) : vgsm_comm :=
  let w' := w_vreq urc (with_line line o) w in
  let awaiting := bool_decide (c_state w = VGSM_COMM_AWAITING_ECHO_READING_URC) in
  if ends (vr_lines o ++ [line]) then
    set_c_state (if awaiting then VGSM_COMM_AWAITING_ECHO else VGSM_COMM_IDLE)
      (w_timer (if awaiting then armed (clock w + ECHO_TIMEOUT) t else stopped t)
        (set_current_urc None (set_urc_queue (urc_queue w ++ [urc]) w')))
  else if awaiting then w_timer (armed (clock w + ECHO_TIMEOUT) t) w' else w'.

Lemma urc_more_line_eq w t urc o cls ends line :
  has_timer w t → vreqs w !! urc = Some o → urc ∉ queued w →
  vr_urc_class o = Some cls → detect_end cls = Some ends →
  urc_more_line urc line w = Done (tt, w_more urc o line ends t w).
Proof.
  intros Ht Ho Hq Hc He. unfold urc_more_line, w_more, add_line. run.
  rewrite (upd_vreq_eq w urc o) by done. fold (with_line line o).
  set (w1 := w_vreq urc _ w).
  assert (vreqs w1 !! urc = Some (with_line line o)) as Ho1 by apply w_vreq_lookup.
  destruct (bool_decide (c_state w = _)) eqn:Hs; cbn.
  - start_delta t. rewrite (the_vreq_eq _ urc (with_line line o)) by done.
    cbn. rewrite Hc. cbn. rewrite He. cbn. destruct (ends _); [|done]. cbn.
    rewrite unlinked_eq by done. cbn.
    by rewrite (change_state_eq _ (armed (clock w + ECHO_TIMEOUT) t)).
  - rewrite (the_vreq_eq w1 urc (with_line line o)) by done.
    cbn. rewrite Hc. cbn. rewrite He. cbn. destruct (ends _); [|done]. cbn.
    rewrite unlinked_eq by done. cbn. by rewrite (change_state_eq _ t).
Qed.

(** ** References *)

(** the requests [H] have the references [refs]; addresses from [n] on are not used *)
Record refs_ok (H : gmap nat vgsm_req) (n : nat) (refs : list nat) : Prop := {
  ro_count a o : H !! a = Some o → vr_refcnt o = Z.of_nat (occ a refs) ∧ 0 < vr_refcnt o;
  ro_live a : a ∈ refs → is_Some (H !! a);
  ro_fresh a : is_Some (H !! a) → (a < n)%nat;
}.

Lemma refs_perm H n l k : l ≡ₚ k → refs_ok H n l → refs_ok H n k.
Proof.
  intros E [I1 I2 I3]. constructor; [|intros a; rewrite <- E; apply I2|done].
  intros a o Ho. rewrite <- (occ_perm a _ _ E). by apply I1.
Qed.

(** the record of a request changes, but not its count *)
Lemma refs_upd H n refs a o o' :
  refs_ok H n refs → H !! a = Some o → vr_refcnt o' = vr_refcnt o → refs_ok (<[a := o']> H) n refs.
Proof.
  intros [I1 I2 I3] Ho E. constructor.
  - intros b ob Hb. destruct (decide (b = a)) as [->|Hne].
    + rewrite lookup_insert_eq in Hb. injection Hb as <-. rewrite E. by apply I1.
    + rewrite lookup_insert_ne in Hb by done. by apply I1.
  - intros b Hb. destruct (decide (b = a)) as [->|Hne]; [rewrite lookup_insert_eq; by eexists|].
    rewrite lookup_insert_ne by done. by apply I2.
  - intros b Hb. destruct (decide (b = a)) as [->|Hne]; [apply I3; by eexists|].
    rewrite lookup_insert_ne in Hb by done. by apply I3.
Qed.

Lemma refs_alloc H n refs o :
  refs_ok H n refs → vr_refcnt o = 1 → refs_ok (<[n := o]> H) (S n) (n :: refs).
Proof.
  intros [I1 I2 I3] E.
  assert (n ∉ refs) as Hn by (intros Hn; specialize (I3 n (I2 n Hn)); lia).
  constructor.
  - intros b ob Hb. destruct (decide (b = n)) as [->|Hne].
    + rewrite lookup_insert_eq in Hb. injection Hb as <-. rewrite occ_head.
      apply occ_not_elem in Hn. rewrite Hn, E. lia.
    + rewrite lookup_insert_ne in Hb by done. rewrite occ_tail by done. by apply I1.
  - intros b [->|Hb]%elem_of_cons; [rewrite lookup_insert_eq; by eexists|].
    rewrite lookup_insert_ne; [by apply I2|]. intros ->. done.
  - intros b Hb. destruct (decide (b = n)) as [->|Hne]; [lia|].
    rewrite lookup_insert_ne in Hb by done. specialize (I3 b Hb). lia.
Qed.

Lemma refs_get H n refs a o :
  refs_ok H n refs → H !! a = Some o →
  refs_ok (<[a := set_vr_refcnt (vr_refcnt o + 1) o]> H) n (a :: refs).
Proof.
  intros [I1 I2 I3] Ho. destruct (I1 a o Ho) as [Ha Hp]. constructor.
  - intros b ob Hb. destruct (decide (b = a)) as [->|Hne].
    + rewrite lookup_insert_eq in Hb. injection Hb as <-. rewrite occ_head. cbn. lia.
    + rewrite lookup_insert_ne in Hb by done. rewrite occ_tail by done. by apply I1.
  - intros b Hb. destruct (decide (b = a)) as [->|Hne]; [rewrite lookup_insert_eq; by eexists|].
    rewrite lookup_insert_ne by done. apply I2. by apply elem_of_cons in Hb as [?|?].
  - intros b Hb. destruct (decide (b = a)) as [->|Hne]; [apply I3; by eexists|].
    rewrite lookup_insert_ne in Hb by done. by apply I3.
Qed.

Definition h_put (a : nat) (o : vgsm_req) (H : gmap nat vgsm_req) : gmap nat vgsm_req :=
  if vr_refcnt o =? 1 then delete a H else <[a := set_vr_refcnt (vr_refcnt o - 1) o]> H.

Lemma w_put_eq a o w : w_put a o w = set_vreqs (h_put a o (vreqs w)) w.
Proof. unfold w_put, h_put, w_vreq. by destruct (_ =? _). Qed.

Lemma h_put_ne a o H b : b ≠ a → h_put a o H !! b = H !! b.
Proof.
  intros Hb. unfold h_put. destruct (_ =? _); [by rewrite lookup_delete_ne|].
  by rewrite lookup_insert_ne.
Qed.
Lemma h_put_some a o H b o' :
  H !! a = Some o → h_put a o H !! b = Some o' →
  ∃ ob, H !! b = Some ob ∧ o' = set_vr_refcnt (vr_refcnt o') ob.
Proof.
  intros Ho Hb. destruct (decide (b = a)) as [->|Hne].
  - exists o. split; [done|]. unfold h_put in Hb. destruct (_ =? _).
    + by rewrite lookup_delete_eq in Hb.
    + rewrite lookup_insert_eq in Hb. by injection Hb as <-.
  - rewrite h_put_ne in Hb by done. exists o'. split; [done|]. by destruct o'.
Qed.

Lemma refs_put H n refs a o :
  refs_ok H n (a :: refs) → H !! a = Some o → refs_ok (h_put a o H) n refs.
Proof.
  intros [I1 I2 I3] Ho. destruct (I1 a o Ho) as [Ha _]. rewrite occ_head in Ha. constructor.
  - intros b ob Hb. destruct (decide (b = a)) as [->|Hne].
    + unfold h_put in Hb. destruct (Z.eqb_spec (vr_refcnt o) 1).
      * by rewrite lookup_delete_eq in Hb.
      * rewrite lookup_insert_eq in Hb. injection Hb as <-. cbn. lia.
    + rewrite h_put_ne in Hb by done. rewrite <- (occ_tail a b refs) by done. by apply I1.
  - intros b Hb. destruct (decide (b = a)) as [->|Hne].
    + unfold h_put. apply occ_elem in Hb. destruct (Z.eqb_spec (vr_refcnt o) 1); [lia|].
      rewrite lookup_insert_eq. by eexists.
    + rewrite h_put_ne by done. apply I2. by apply elem_of_cons; right.
  - intros b [ob Hb]. destruct (h_put_some a o H b ob Ho Hb) as (ob' & Hb' & _). apply I3. by eexists.
Qed.

Lemma refs_counted H n l k a o :
  refs_ok H n (l ++ k) → NoDup l → NoDup k → H !! a = Some o → counted o.
Proof.
  intros [I _ _] Hl Hk Ho. destruct (I a o Ho) as [E Hp]. split; [done|]. rewrite E, occ_app.
  assert (∀ l : list nat, NoDup l → (occ a l ≤ 1)%nat) as Hle.
  { intros m Hm. destruct (decide (a ∈ m)) as [Ha|Ha]; [by rewrite (occ_nodup a m)|].
    apply occ_not_elem in Ha. lia. }
  pose proof (Hle l Hl). pose proof (Hle k Hk). lia.
Qed.

(** ** Where requests are *)

Lemma nodup_occ l : NoDup l ↔ ∀ a, (occ a l ≤ 1)%nat.
Proof.
  split.
  - intros Hl a. destruct (decide (a ∈ l)) as [Ha|Ha]; [by rewrite (occ_nodup a l)|].
    apply occ_not_elem in Ha. lia.
  - induction l as [|b l IH]; intros Ha; [constructor|]. constructor.
    + apply occ_not_elem. specialize (Ha b). rewrite occ_head in Ha. lia.
    + apply IH. intros a. specialize (Ha a). rewrite occ_cons in Ha. lia.
Qed.

Lemma vrefs_ext H n l k : (∀ a, occ a l = occ a k) → refs_ok H n l → refs_ok H n k.
Proof.
  intros E [I1 I2 I3]. constructor; [|intros a Ha; apply I2; apply occ_elem; apply occ_elem in Ha|done].
  - intros a o Ho. rewrite <- E. by apply I1.
  - by rewrite E.
Qed.

Definition opt_list (o : option nat) : list nat :=
  match o with Some a => [a] | None => [] end.

Lemma occ_nil a : occ a [] = 0%nat.
Proof. done. Qed.

(** counting in lists that are made of the same parts *)
Ltac occs :=
  intros; cbn [opt_list app] in *;
  rewrite ?occ_app, ?occ_cons, ?occ_app, ?occ_cons, ?occ_app, ?occ_nil in *; lia.
(** the same where it matters whether an element is [x] *)
Ltac occs_at x :=
  intros; cbn [opt_list app] in *;
  rewrite ?occ_app, ?occ_cons, ?occ_app, ?occ_cons, ?occ_app, ?occ_nil in *; repeat case_decide; subst; lia.
(** the same for what a hypothesis says is linked once *)
Ltac nodups H :=
  let b := fresh in
  revert H; rewrite !nodup_occ; intros H b; specialize (H b); occs.

(** [a] is a request that [P] holds for *)
Definition has (H : gmap nat vgsm_req) (P : vgsm_req → Prop) (a : nat) : Prop :=
  ∃ o, H !! a = Some o ∧ P o.

(** a request without an answer *)
Record unanswered (o : vgsm_req) : Prop := {
  un_ready : vr_ready o = false;
  un_class : vr_urc_class o = None;
  un_cnt : 1 ≤ vr_retransmit_cnt o ≤ 3;
  un_timeout : 0 ≤ vr_timeout o;
  un_length : (2 ≤ length (vr_request o) ≤ 80)%nat;
  un_nonzero : Forall (.≠ 0) (vr_request o);
  un_crlf : find_crlf (vr_request o) = None;
  un_pdu pdu : vr_sms_text_pdu o = Some pdu →
    (2 ≤ length pdu)%nat ∧ Forall (λ c, 48 ≤ c ≤ 102) pdu;
}.
Definition answered (o : vgsm_req) : Prop := vr_ready o = true ∧ vr_urc_class o = None.
Definition is_urc (o : vgsm_req) : Prop := is_Some (vr_urc_class o).
(** a URC of a class that knows its last line *)
Definition urc_in_parts (o : vgsm_req) : Prop :=
  ∃ cls ends, vr_urc_class o = Some cls ∧ detect_end cls = Some ends.

Record places (H : gmap nat vgsm_req) (n : nat) (hd rq cq uq : list nat)
    (cur urc : option nat) (en ma : list nat) : Prop := {
  pl_refs : refs_ok H n (hd ++ rq ++ cq ++ uq ++ opt_list cur ++ opt_list urc);
  pl_held : NoDup hd;
  pl_linked : NoDup (rq ++ cq ++ uq ++ opt_list cur ++ opt_list urc);
  pl_rq : Forall (has H unanswered) (rq ++ opt_list cur);
  pl_cq : Forall (has H answered) cq;
  pl_uq : Forall (has H is_urc) uq;
  pl_urc : Forall (has H urc_in_parts) (opt_list urc);
  pl_made : ma = en ++ cq ++ opt_list cur ++ rq;
  pl_nodup : NoDup ma;
  pl_fresh : Forall (λ a, (a < n)%nat) ma;
  pl_ended a o : a ∈ en → H !! a = Some o → vr_ready o = true;
  pl_owned : hd ⊆ ma;
}.

Definition comm_places (w : vgsm_comm) : Prop :=
  places (vreqs w) (next_vreq w) (held w) (requests_queue w) (completion_queue w) (urc_queue w)
    (current_req w) (current_urc w) (ended w) (made w).

(** a predicate that does not ask for the number of references *)
Class Uncounted (P : vgsm_req → Prop) : Prop :=
  uncounted o rc : P o → P (set_vr_refcnt rc o).
#[export] Instance unanswered_uncounted : Uncounted unanswered.
Proof. intros o rc []. by constructor. Qed.
#[export] Instance answered_uncounted : Uncounted answered.
Proof. by intros o rc []. Qed.
#[export] Instance is_urc_uncounted : Uncounted is_urc.
Proof. by intros o rc. Qed.
#[export] Instance urc_in_parts_uncounted : Uncounted urc_in_parts.
Proof. by intros o rc. Qed.

Lemma has_upd H P a o' l :
  Forall (has H P) l → (a ∈ l → P o') → Forall (has (<[a := o']> H) P) l.
Proof.
  rewrite !Forall_forall. intros Hl Ha b Hb. destruct (decide (b = a)) as [->|Hne].
  - exists o'. rewrite lookup_insert_eq. auto.
  - destruct (Hl b Hb) as (o & Ho & Hp). exists o. by rewrite lookup_insert_ne.
Qed.
Lemma has_new H P a o' l :
  H !! a = None → Forall (has H P) l → Forall (has (<[a := o']> H) P) l.
Proof.
  intros Ha Hl. apply has_upd; [done|]. intros Hin. rewrite Forall_forall in Hl.
  destruct (Hl a Hin) as (o & Ho & _). congruence.
Qed.
Lemma has_put H n refs P `{!Uncounted P} a o l :
  refs_ok (h_put a o H) n refs → H !! a = Some o → l ⊆ refs →
  Forall (has H P) l → Forall (has (h_put a o H) P) l.
Proof.
  intros Hr Ho Hl. rewrite !Forall_forall. intros Hf b Hb.
  destruct (ro_live _ _ _ Hr b (Hl b Hb)) as [ob Hob].
  destruct (h_put_some a o H b ob Ho Hob) as (ob' & Hob' & E).
  destruct (Hf b Hb) as (ob2 & E2 & Hp). rewrite Hob' in E2. injection E2 as <-.
  exists ob. split; [done|]. rewrite E. by apply uncounted.
Qed.

(** *** How requests move *)

Section places.
Context {H : gmap nat vgsm_req} {n : nat} {hd rq cq uq : list nat} {cur urc : option nat}
  {en ma : list nat}.

Lemma places_counted a o :
  places H n hd rq cq uq cur urc en ma → H !! a = Some o → counted o.
Proof. intros I. apply (refs_counted _ _ _ _ _ _ (pl_refs _ _ _ _ _ _ _ _ _ _ I)); apply I. Qed.

Lemma places_disjoint a :
  places H n hd rq cq uq cur urc en ma →
  (occ a rq + occ a cq + occ a uq + occ a (opt_list cur) + occ a (opt_list urc) ≤ 1)%nat.
Proof.
  intros I. pose proof (pl_linked _ _ _ _ _ _ _ _ _ _ I) as Hl. rewrite nodup_occ in Hl.
  specialize (Hl a). rewrite !occ_app in Hl. lia.
Qed.

Lemma places_made_once a :
  places H n hd rq cq uq cur urc en ma →
  (occ a en + occ a cq + occ a (opt_list cur) + occ a rq ≤ 1)%nat.
Proof.
  intros I. pose proof (pl_nodup _ _ _ _ _ _ _ _ _ _ I) as Hl.
  rewrite (pl_made _ _ _ _ _ _ _ _ _ _ I), nodup_occ in Hl.
  specialize (Hl a). rewrite !occ_app in Hl. lia.
Qed.

(** a request that is linked changes in a way that nobody minds *)
Lemma places_upd a o o' :
  places H n hd rq cq uq cur urc en ma →
  H !! a = Some o → vr_refcnt o' = vr_refcnt o →
  (a ∈ rq ++ opt_list cur → unanswered o → unanswered o') →
  (vr_ready o = true → vr_ready o' = true) →
  vr_urc_class o' = vr_urc_class o →
  places (<[a := o']> H) n hd rq cq uq cur urc en ma.
Proof.
  intros [I1 I2 I3 I4 I5 I6 I7 I8 I9 I10 I11 I12] Ho Hrc Hun Hr Hc.
  assert (∀ P l, Forall (has H P) l → a ∈ l → P o) as Hp.
  { intros P l Hl Ha. rewrite Forall_forall in Hl. destruct (Hl a Ha) as (o2 & E & ?). congruence. }
  constructor; try done.
  - by eapply refs_upd.
  - apply has_upd; [done|]. intros Ha. apply Hun; [done|]. by apply (Hp _ _ I4).
  - apply has_upd; [done|]. intros Ha. destruct (Hp _ _ I5 Ha). split; [auto|congruence].
  - apply has_upd; [done|]. intros Ha. unfold is_urc. rewrite Hc. apply (Hp _ _ I6 Ha).
  - apply has_upd; [done|]. intros Ha. unfold urc_in_parts. rewrite Hc. apply (Hp _ _ I7 Ha).
  - intros b ob Hb E. destruct (decide (b = a)) as [->|Hne].
    + rewrite lookup_insert_eq in E. injection E as <-. apply Hr. by apply (I11 a o).
    + rewrite lookup_insert_ne in E by done. by apply (I11 b ob).
Qed.

(** the current request has its answer *)
Lemma places_complete a o o' :
  places H n hd rq cq uq (Some a) urc en ma →
  H !! a = Some o → vr_refcnt o' = vr_refcnt o → answered o' →
  places (<[a := o']> H) n hd rq (cq ++ [a]) uq None urc en ma.
Proof.
  intros I Ho Hrc Ha. pose proof (pl_linked _ _ _ _ _ _ _ _ _ _ I) as Hd.
  rewrite nodup_occ in Hd. specialize (Hd a). cbn in Hd.
  rewrite !occ_app, occ_head in Hd. destruct I as [I1 I2 I3 I4 I5 I6 I7 I8 I9 I10 I11 I12].
  assert (a ∉ rq ∧ a ∉ cq ∧ a ∉ uq ∧ a ∉ opt_list urc) as (N1 & N2 & N3 & N4)
    by (rewrite !occ_not_elem; lia).
  constructor; try done.
  - eapply refs_upd; [|done..]. revert I1. apply vrefs_ext. occs.
  - nodups I3.
  - cbn in *. rewrite app_nil_r. apply has_upd; [|done]. by apply Forall_app in I4 as [? _].
  - apply Forall_app. split; [by apply has_upd|]. constructor; [|done].
    exists o'. by rewrite lookup_insert_eq.
  - by apply has_upd.
  - by apply has_upd.
  - rewrite I8. cbn. by rewrite <- !app_assoc.
  - intros b ob Hb E. destruct (decide (b = a)) as [->|Hne].
    + rewrite lookup_insert_eq in E. injection E as <-. apply Ha.
    + rewrite lookup_insert_ne in E by done. by apply (I11 b ob).
Qed.

(** the next request becomes the current one *)
Lemma places_send a :
  places H n hd (a :: rq) cq uq None urc en ma → places H n hd rq cq uq (Some a) urc en ma.
Proof.
  intros [I1 I2 I3 I4 I5 I6 I7 I8 I9 I10 I11 I12]. constructor; try done.
  - revert I1. apply vrefs_ext. occs.
  - nodups I3.
  - cbn in *. rewrite app_nil_r in I4. inversion I4. apply Forall_app. by repeat constructor.
Qed.

(** nothing is known of the address [n] *)
Lemma places_fresh :
  places H n hd rq cq uq cur urc en ma →
  H !! n = None ∧ (∀ a, a = n → occ a (hd ++ rq ++ cq ++ uq ++ opt_list cur ++ opt_list urc) = 0%nat) ∧
  n ∉ ma.
Proof.
  intros [I1 _ _ _ _ _ _ _ _ I10 _ _].
  assert (H !! n = None) as Hn.
  { apply eq_None_not_Some. intros Hn. apply (ro_fresh _ _ _ I1) in Hn. lia. }
  split_and!; [done| |].
  - intros b ->. apply occ_not_elem. intros Hb. apply (ro_live _ _ _ I1) in Hb as [? ?]. congruence.
  - rewrite Forall_forall in I10. intros Hin. specialize (I10 n Hin). lia.
Qed.

End places.

Section moves.
Context {H : gmap nat vgsm_req} {n : nat} {hd rq cq uq : list nat} {cur urc : option nat}
  {en ma : list nat}.

(** a URC is made, for the queue or for the channel *)
Lemma places_new_urc o :
  places H n hd rq cq uq cur urc en ma → vr_refcnt o = 1 → is_urc o →
  places (<[n := o]> H) (S n) hd rq cq (uq ++ [n]) cur urc en ma.
Proof.
  intros I Hrc Ho. destruct (places_fresh I) as (Hn & Hz & Hma).
  destruct I as [I1 I2 I3 I4 I5 I6 I7 I8 I9 I10 I11 I12].
  constructor; try done; try (by apply has_new).
  - eapply vrefs_ext, refs_alloc; [|done..]. occs.
  - revert I3. rewrite !nodup_occ. intros I3 b. specialize (I3 b). destruct (decide (b = n)) as [->|].
    + specialize (Hz n eq_refl). revert I3 Hz. occs_at n.
    + revert I3. occs_at b.
  - apply Forall_app. split; [by apply has_new|]. constructor; [|done].
    exists o. by rewrite lookup_insert_eq.
  - eapply Forall_impl; [done|]. cbn. lia.
  - intros b ob Hb E. rewrite lookup_insert_ne in E; [by apply (I11 b ob)|].
    intros <-. apply Hma. rewrite I8, elem_of_app. by left.
Qed.

Lemma places_new_current_urc o :
  places H n hd rq cq uq cur None en ma → vr_refcnt o = 1 → urc_in_parts o →
  places (<[n := o]> H) (S n) hd rq cq uq cur (Some n) en ma.
Proof.
  intros I Hrc Ho. destruct (places_fresh I) as (Hn & Hz & Hma).
  destruct I as [I1 I2 I3 I4 I5 I6 I7 I8 I9 I10 I11 I12].
  constructor; try done; try (by apply has_new).
  - eapply vrefs_ext, refs_alloc; [|done..]. occs.
  - revert I3. rewrite !nodup_occ. intros I3 b. specialize (I3 b). destruct (decide (b = n)) as [->|].
    + specialize (Hz n eq_refl). revert I3 Hz. occs_at n.
    + revert I3. occs_at b.
  - constructor; [|done]. exists o. by rewrite lookup_insert_eq.
  - eapply Forall_impl; [done|]. cbn. lia.
  - intros b ob Hb E. rewrite lookup_insert_ne in E; [by apply (I11 b ob)|].
    intros <-. apply Hma. rewrite I8, elem_of_app. by left.
Qed.

(** a request is made: its caller has a reference, and the queue *)
Lemma places_make o :
  places H n hd rq cq uq cur urc en ma → vr_refcnt o = 2 → unanswered o →
  places (<[n := o]> H) (S n) (n :: hd) (rq ++ [n]) cq uq cur urc en (ma ++ [n]).
Proof.
  intros I Hrc Ho. destruct (places_fresh I) as (Hn & Hz & Hma).
  destruct I as [I1 I2 I3 I4 I5 I6 I7 I8 I9 I10 I11 I12].
  constructor; try done; try (by apply has_new).
  - pose proof (refs_alloc _ _ _ (set_vr_refcnt 1 o) I1 eq_refl) as Hr.
    apply (refs_get _ _ _ n (set_vr_refcnt 1 o)) in Hr; [|apply lookup_insert_eq].
    rewrite insert_insert_eq in Hr.
    replace (set_vr_refcnt _ (set_vr_refcnt 1 o)) with o in Hr by (destruct o; cbn in *; by subst).
    revert Hr. apply vrefs_ext. occs.
  - constructor; [|done]. intros Hin. by apply Hma, I12.
  - revert I3. rewrite !nodup_occ. intros I3 b. specialize (I3 b). destruct (decide (b = n)) as [->|].
    + specialize (Hz n eq_refl). revert I3 Hz. occs_at n.
    + revert I3. occs_at b.
  - apply (has_new _ _ _ o _ Hn) in I4. rewrite !Forall_app in *. split_and!; try apply I4.
    constructor; [|done]. exists o. by rewrite lookup_insert_eq.
  - rewrite I8. by rewrite !app_assoc.
  - apply NoDup_app. split_and!; [done| |apply NoDup_singleton].
    intros b Hb ->%list_elem_of_singleton. done.
  - apply Forall_app. split; [eapply Forall_impl; [done|]; cbn; lia|]. constructor; [lia|done].
  - intros b ob Hb E. rewrite lookup_insert_ne in E; [by apply (I11 b ob)|].
    intros <-. apply Hma. rewrite I8, elem_of_app. by left.
  - intros b [->|Hb]%elem_of_cons; apply elem_of_app; [right; by left|left; by apply I12].
Qed.

(** the URC of the channel is complete *)
Lemma places_urc_ends a :
  places H n hd rq cq uq cur (Some a) en ma → places H n hd rq cq (uq ++ [a]) cur None en ma.
Proof.
  intros [I1 I2 I3 I4 I5 I6 I7 I8 I9 I10 I11 I12]. constructor; try done.
  - revert I1. apply vrefs_ext. occs.
  - nodups I3.
  - apply Forall_app. split; [done|]. eapply Forall_impl; [exact I7|].
    intros b (o & Ho & cls & ends & Hc & _). exists o. split; [done|]. by exists cls.
Qed.

(** a reference to [a] is dropped, and one to [a] was in the lists *)
Lemma places_put a o hd' cq' uq' urc' en' :
  places H n hd rq cq uq cur urc en ma → H !! a = Some o →
  (∀ b, (occ b hd + occ b cq + occ b uq + occ b (opt_list urc) =
         occ b [a] + occ b hd' + occ b cq' + occ b uq' + occ b (opt_list urc'))%nat) →
  (∀ b, (occ b hd' ≤ occ b hd)%nat) → (∀ b, (occ b cq' ≤ occ b cq)%nat) →
  (∀ b, (occ b uq' ≤ occ b uq)%nat) → (∀ b, (occ b (opt_list urc') ≤ occ b (opt_list urc))%nat) →
  en ++ cq = en' ++ cq' →
  (∀ b, b ∈ en' → b ∈ en ∨ b ∈ cq) →
  places (h_put a o H) n hd' rq cq' uq' cur urc' en' ma.
Proof.
  intros I Ho Hocc H1 H2 H3 H4 Hen Hen'.
  destruct I as [I1 I2 I3 I4 I5 I6 I7 I8 I9 I10 I11 I12].
  assert (refs_ok (h_put a o H) n (hd' ++ rq ++ cq' ++ uq' ++ opt_list cur ++ opt_list urc')) as Hr.
  { eapply refs_put; [|done]. revert I1. apply vrefs_ext. intros b. specialize (Hocc b). revert Hocc.
    occs. }
  assert (∀ l k : list nat, (∀ b, (occ b l ≤ occ b k)%nat) → l ⊆ k) as Hsub.
  { intros l k Hlk b Hb. apply occ_elem. apply occ_elem in Hb. specialize (Hlk b). lia. }
  assert (∀ P l k, (∀ b, (occ b l ≤ occ b k)%nat) → Forall (has H P) k → Forall (has H P) l) as Hfor.
  { intros P l k Hlk. rewrite !Forall_forall. intros Hk b Hb. apply Hk. by apply (Hsub l k). }
  constructor; try done.
  - rewrite nodup_occ in *. intros b. specialize (H1 b). specialize (I2 b). lia.
  - revert I3. rewrite !nodup_occ. intros I3 b. specialize (I3 b). specialize (H2 b).
    specialize (H3 b). specialize (H4 b). revert I3 H2 H3 H4. rewrite !occ_app. lia.
  - eapply has_put; [apply _|exact Hr|done| |done]. apply Hsub. occs.
  - eapply has_put; [apply _|exact Hr|done| |by eapply Hfor]. apply Hsub. occs.
  - eapply has_put; [apply _|exact Hr|done| |by eapply Hfor]. apply Hsub. occs.
  - eapply has_put; [apply _|exact Hr|done| |by eapply Hfor]. apply Hsub. occs.
  - rewrite I8, !app_assoc. by rewrite Hen.
  - intros b ob Hb E. destruct (h_put_some a o H b ob Ho E) as (ob' & Hob & E2). rewrite E2. cbn.
    destruct (Hen' b Hb) as [Hb'|Hb']; [by apply (I11 b ob')|].
    rewrite Forall_forall in I5. destruct (I5 b Hb') as (o2 & Ho2 & Hr2 & _). congruence.
  - intros b Hb. apply I12. by apply (Hsub hd' hd).
Qed.
End moves.

(** ** The buffer *)

(** the last character is the NUL that nothing overwrites *)
Definition buf_ok (buf : list Z) : Prop := length buf = 2048%nat ∧ buf !! 2047%nat = Some 0.

(** [buf] holds the string [s] at [i] *)
Definition str_at (buf : list Z) (i : nat) (s : list Z) : Prop :=
  ∃ rest, drop i buf = s ++ 0 :: rest ∧ Forall (.≠ 0) s.

Lemma c_string_some l : 0 ∈ l → ∃ s rest, c_string l = Done s ∧ l = s ++ 0 :: rest ∧ Forall (.≠ 0) s.
Proof.
  induction l as [|c l IH]; intros H0; [by apply elem_of_nil in H0|]. cbn.
  destruct (Z.eqb_spec c 0) as [->|Hc]; [by exists [], l|].
  apply elem_of_cons in H0 as [?|H0]; [congruence|].
  destruct (IH H0) as (s & rest & E & -> & Hs). exists (c :: s), rest. rewrite E. by repeat constructor.
Qed.

Lemma c_string_eq s rest : Forall (.≠ 0) s → c_string (s ++ 0 :: rest) = Done s.
Proof.
  induction 1 as [|c s Hc Hs IH]; [done|]. cbn. destruct (Z.eqb_spec c 0); [done|].
  cbn in IH. by rewrite IH.
Qed.

Lemma str_at_ex buf i : buf_ok buf → (i ≤ 2047)%nat → ∃ s, str_at buf i s.
Proof.
  intros [Hl H0] Hi. destruct (c_string_some (drop i buf)) as (s & rest & _ & E & Hs).
  - apply list_elem_of_lookup. exists (2047 - i)%nat. rewrite lookup_drop.
    by replace (i + (2047 - i))%nat with 2047%nat by lia.
  - by exists s, rest.
Qed.

Lemma str_at_unique buf i s s' : str_at buf i s → str_at buf i s' → s = s'.
Proof.
  intros (r & E & Hs) (r' & E' & Hs'). apply (c_string_eq s r) in Hs.
  apply (c_string_eq s' r') in Hs'. rewrite <- E in Hs. rewrite <- E', Hs in Hs'. congruence.
Qed.

Lemma str_at_length buf i s : buf_ok buf → str_at buf i s → (i + length s ≤ 2047)%nat.
Proof.
  intros [Hl H0] (rest & E & Hs). pose proof (f_equal length E) as El.
  rewrite length_drop, length_app in El. cbn in El. lia.
Qed.

(** a suffix of the string *)
Lemma str_at_drop buf i s k : str_at buf i s → (k ≤ length s)%nat → str_at buf (i + k) (drop k s).
Proof.
  intros (rest & E & Hs) Hk. exists rest. split; [|by apply Forall_drop].
  rewrite <- drop_drop, E, drop_app_le by done. done.
Qed.

Lemma str_at_char buf i s k :
  str_at buf i s → (k ≤ length s)%nat → buf !! (i + k)%nat = Some (nth k s 0).
Proof.
  intros (rest & E & Hs) Hk. rewrite <- lookup_drop, E.
  destruct (decide (k = length s)) as [->|].
  - rewrite lookup_app_r, Nat.sub_diag by lia. cbn. by rewrite nth_overflow.
  - rewrite lookup_app_l by lia. rewrite nth_lookup.
    by destruct (lookup_lt_is_Some_2 s k) as [c ->]; [lia|].
Qed.

Lemma wr_all_eq vs : ∀ buf i,
  (i + length vs ≤ length buf)%nat →
  wr_all buf (Z.of_nat i) vs = Done (take i buf ++ vs ++ drop (i + length vs) buf).
Proof.
  induction vs as [|v vs IH]; intros buf i Hi; cbn [wr_all length] in *.
  - by rewrite Nat.add_0_r, app_nil_l, take_drop.
  - unfold wr. rewrite (proj2 (Z.ltb_ge _ _)), (proj2 (Z.leb_gt _ _)) by lia. cbn.
    replace (Z.of_nat i + 1) with (Z.of_nat (S i)) by lia.
    rewrite IH by (rewrite length_insert; lia). rewrite Nat2Z.id. f_equal.
    rewrite drop_insert_lt by lia. replace (S i + length vs)%nat with (i + S (length vs))%nat by lia.
    rewrite (take_S_r _ _ v) by (rewrite list_lookup_insert_eq; [done|lia]).
    rewrite take_insert_ge by lia. by rewrite <- app_assoc.
Qed.

(** *** Accesses *)

Lemma buf_string_eq w i s :
  buf_ok (c_buf w) → (i ≤ 2047)%nat → str_at (c_buf w) i s →
  buf_string (Z.of_nat i) w = Done (s, w).
Proof.
  intros [Hl H0] Hi (rest & E & Hs). unfold buf_string. run.
  rewrite (proj2 (Z.ltb_ge _ _)), (proj2 (Z.ltb_ge _ _)) by lia. cbn.
  by rewrite Nat2Z.id, E, c_string_eq.
Qed.

Lemma buf_char_eq w i c :
  c_buf w !! i = Some c → buf_char (Z.of_nat i) w = Done (c, w).
Proof.
  intros E. unfold buf_char, rd. run. rewrite (proj2 (Z.ltb_ge _ _)) by lia.
  by rewrite Nat2Z.id, E.
Qed.

Definition w_buf (buf : list Z) (w : vgsm_comm) : vgsm_comm := set_c_buf buf w.

Lemma set_buf_char_eq w i v :
  (i < length (c_buf w))%nat →
  set_buf_char (Z.of_nat i) v w = Done (tt, w_buf (<[i := v]> (c_buf w)) w).
Proof.
  intros Hi. unfold set_buf_char, wr. run.
  rewrite (proj2 (Z.ltb_ge _ _)), (proj2 (Z.leb_gt _ _)) by lia. cbn. by rewrite Nat2Z.id.
Qed.

Lemma buf_write_eq w i l :
  (i + length l ≤ length (c_buf w))%nat →
  buf_write (Z.of_nat i) l w =
    Done (tt, w_buf (take i (c_buf w) ++ l ++ drop (i + length l) (c_buf w)) w).
Proof. intros Hi. unfold buf_write. run. by rewrite wr_all_eq. Qed.

(** a string is written that ends before the last character *)
Lemma buf_ok_write buf i l :
  buf_ok buf → (i + length l ≤ 2047)%nat →
  buf_ok (take i buf ++ (l ++ [0]) ++ drop (i + length (l ++ [0])) buf).
Proof.
  intros [Hl H0] Hi. assert (length (l ++ [0]) = S (length l)) as El by (rewrite length_app; cbn; lia).
  split.
  - rewrite !length_app, length_take, length_drop. cbn. lia.
  - rewrite lookup_app_r by (rewrite length_take; lia). rewrite length_take.
    destruct (decide (i + length l = 2047)%nat).
    + rewrite lookup_app_l by lia. rewrite lookup_app_r by lia.
      replace (2047 - i `min` length buf - length l)%nat with 0%nat by lia. done.
    + rewrite lookup_app_r by lia. rewrite lookup_drop.
      by replace (i + length (l ++ [0%Z]) + (2047 - i `min` length buf - length (l ++ [0%Z])))%nat
        with 2047%nat by lia.
Qed.

Lemma buf_ok_insert buf i : buf_ok buf → buf_ok (<[i := 0]> buf).
Proof.
  intros [Hl H0]. split; [by rewrite length_insert|].
  destruct (decide (i = 2047%nat)) as [->|]; [by rewrite list_lookup_insert_eq by lia|].
  by rewrite list_lookup_insert_ne.
Qed.

Lemma find_crlf_bound s i : find_crlf s = Some i → (i + 2 ≤ length s)%nat.
Proof.
  revert i. induction s as [|a s IH]; intros i; [done|]. cbn.
  destruct s as [|b s]; [done|]. destruct (_ && _); [intros [= <-]; cbn; lia|].
  destruct (find_crlf (b :: s)) as [j|] eqn:E; [|done]. intros [= <-]. specialize (IH j eq_refl).
  cbn in *. lia.
Qed.

Lemma echo_loop_bound snt : ∀ n buf, 0 ≤ n → echo_loop n buf snt ≤ n + Z.of_nat (length buf).
Proof.
  induction snt as [|c snt IH]; intros n buf Hn; destruct buf as [|b buf]; cbn [echo_loop length]; try lia.
  destruct (b =? c); [|lia]. specialize (IH (n + 1) buf). lia.
Qed.
