(* ===== verification/VgsmCommThm.v ===== *)
(** * Requests to the module: the theorems *)

From stdpp Require Import base list gmap strings.
From Stdlib Require Import ZArith Lia.
From S2P Require Import Prelude.
From S2P Require Import Bits.
From S2P Require Import VgsmText.
From S2P Require Import VgsmComm.
From S2P Require Import VgsmCommInv.
Local Open Scope Z_scope.
#[local] Arguments singletonM : simpl never.
#[local] Arguments vgsm_comm_timer : simpl never.
#[local] Arguments _vgsm_req_put : simpl never.
#[local] Arguments vgsm_comm_change_state : simpl never.
#[local] Arguments vgsm_timer_start_delta : simpl never.
#[local] Opaque the_comm_timer.

(** ** The invariant of an open channel *)

(** the states in which the module is waited for *)
Definition waiting (s : vgsm_comm_state) : bool :=
  match s with
  | VGSM_COMM_CLOSED | VGSM_COMM_CLOSING | VGSM_COMM_FAILED | VGSM_COMM_IDLE => false
  | _ => true
  end.
(** those of a channel that is open *)
Definition live (s : vgsm_comm_state) : Prop := s ≠ VGSM_COMM_CLOSED ∧ s ≠ VGSM_COMM_CLOSING.

Definition has_pdu (o : vgsm_req) : Prop := is_Some (vr_sms_text_pdu o).

(** which requests a state has *)
Definition state_ok (w : vgsm_comm) : Prop :=
  match c_state w with
  | VGSM_COMM_CLOSED | VGSM_COMM_CLOSING => True
  | VGSM_COMM_FAILED | VGSM_COMM_IDLE => current_req w = None ∧ current_urc w = None
  | VGSM_COMM_RECOVERING => current_urc w = None
  | VGSM_COMM_READING_URC => current_req w = None ∧ is_Some (current_urc w)
  | VGSM_COMM_AWAITING_ECHO_READING_URC => is_Some (current_req w) ∧ is_Some (current_urc w)
  | VGSM_COMM_AWAITING_ECHO | VGSM_COMM_READING_RESPONSE =>
    is_Some (current_req w) ∧ current_urc w = None
  | VGSM_COMM_AWAITING_SMS_ECHO | VGSM_COMM_AWAITING_SMS_ECHO_1A =>
    (∃ req, current_req w = Some req ∧ has (vreqs w) has_pdu req) ∧ current_urc w = None
  end.

Record chan_ok (w : vgsm_comm) : Prop := {
  ch_buf : buf_ok (c_buf w);
  ch_timer : ∃ t, has_timer w t ∧ timer_pending t = waiting (c_state w);
  ch_places : comm_places w;
  ch_state : state_ok w;
}.

(** what an iteration of the loop of the receiver leaves *)
Definition goes_on (w w' : vgsm_comm) : Prop :=
  chan_ok w' ∧ live (c_state w') ∧ comm_thread w' = comm_thread w.

Lemma goes_on_refl w : chan_ok w → live (c_state w) → goes_on w w.
Proof. done. Qed.

Section channel.
Context {w : vgsm_comm} (I : chan_ok w).

Lemma chan_current req :
  current_req w = Some req →
  ∃ o, vreqs w !! req = Some o ∧ unanswered o ∧ counted o ∧ req ∉ queued w.
Proof.
  intros Hr. pose proof (ch_places _ I) as P. pose proof P as [_ _ _ P4 _ _ _ _ _ _ _ _].
  rewrite Hr in P4. apply Forall_app in P4 as [_ P4]. cbn in P4. inversion P4 as [|? ? Ho _].
  destruct Ho as (o & Ho & Hun). exists o. split_and!; [done..|by eapply places_counted|].
  pose proof (places_disjoint req P) as Hd. rewrite Hr in Hd. cbn in Hd. rewrite occ_head in Hd.
  apply occ_not_elem. unfold queued. rewrite !occ_app. lia.
Qed.

Lemma chan_current_urc urc :
  current_urc w = Some urc →
  ∃ o cls ends, vreqs w !! urc = Some o ∧ vr_urc_class o = Some cls ∧
    detect_end cls = Some ends ∧ counted o ∧ urc ∉ queued w.
Proof.
  intros Hr. pose proof (ch_places _ I) as P. pose proof P as [_ _ _ _ _ _ P7 _ _ _ _ _].
  rewrite Hr in P7. cbn in P7. inversion P7 as [|? ? Ho _].
  destruct Ho as (o & Ho & cls & ends & Hc & He). exists o, cls, ends.
  split_and!; [done..|by eapply places_counted|].
  pose proof (places_disjoint urc P) as Hd. rewrite Hr in Hd. cbn in Hd. rewrite occ_head in Hd.
  apply occ_not_elem. unfold queued. rewrite !occ_app. lia.
Qed.

Lemma chan_next_unused : next_vreq w ∉ queued w.
Proof.
  destruct (places_fresh (ch_places _ I)) as (_ & Hz & _). specialize (Hz _ eq_refl).
  rewrite !occ_app in Hz. apply occ_not_elem. unfold queued. rewrite !occ_app. lia.
Qed.

(** the state changes, and nothing else but the timer *)
Lemma chan_state t s d :
  has_timer w t → timer_pending (next_timer (clock w) d t) = waiting s →
  state_ok (set_c_state s w) → chan_ok (set_c_state s (w_timer (next_timer (clock w) d t) w)).
Proof.
  intros Ht Hp Hs. constructor; [apply I| |apply I|exact Hs].
  exists (next_timer (clock w) d t). split; [by apply (has_timer_next w)|done].
Qed.

(** a line of the response *)
Lemma chan_response t req o line :
  c_state w = VGSM_COMM_READING_RESPONSE → has_timer w t →
  current_req w = Some req → vreqs w !! req = Some o →
  goes_on w (w_response req o line t w).
Proof.
  intros Hs Ht Hr Ho. destruct (chan_current req Hr) as (o' & Ho' & Hun & Hc & Hq).
  rewrite Ho in Ho'. injection Ho' as <-. unfold w_response. destruct (_ =? _).
  - split_and!; [|by cbn; rewrite Hs|done]. constructor.
    + apply I.
    + destruct (ch_timer _ I) as (t' & Ht' & Hp). by exists t'.
    + eapply places_upd; [apply I|done|done| |done|done]. intros _ []. by constructor.
    + pose proof (ch_state _ I) as Hst. unfold state_ok in *. cbn. rewrite Hs in *. done.
  - split_and!; [|by split|done]. constructor.
    + apply I.
    + exists (stopped t). split; [by apply (has_timer_stopped w)|]. cbn.
      unfold stopped. by destruct (timer_pending t) eqn:E.
    + pose proof (ch_places _ I) as P. unfold comm_places in *. cbn. rewrite Hr in P.
      eapply places_complete; [exact P|done|done|]. split; [done|apply Hun].
    + pose proof (ch_state _ I) as Hst. unfold state_ok in *. rewrite Hs in Hst. cbn. naive_solver.
Qed.

(** a URC *)
Lemma chan_urc t cls line :
  c_state w = VGSM_COMM_IDLE ∨ c_state w = VGSM_COMM_AWAITING_ECHO → has_timer w t →
  goes_on w (w_urc cls line t w).
Proof.
  intros Hs Ht. pose proof (ch_state _ I) as Hst. pose proof (ch_places _ I) as P.
  unfold state_ok in Hst. assert (current_urc w = None) as Hu.
  { destruct Hs as [Hs|Hs]; rewrite Hs in Hst; apply Hst. }
  unfold comm_places in P. rewrite Hu in P. unfold w_urc. destruct (detect_end cls) as [ends|] eqn:He.
  - destruct (bool_decide _) eqn:Ha.
    + apply bool_decide_eq_true in Ha. rewrite Ha in Hst. split_and!; [|by split|done]. constructor.
      * apply I.
      * eexists. by split; [apply has_timer_armed|].
      * unfold comm_places. cbn. apply (places_new_current_urc (new_urc cls line)); [done..|].
        by exists cls, ends.
      * split; [apply Hst|by eexists].
    + apply bool_decide_eq_false in Ha. destruct Hs as [Hs|]; [|done]. rewrite Hs in Hst.
      split_and!; [|by split|done]. constructor.
      * apply I.
      * eexists. by split; [apply has_timer_armed|].
      * unfold comm_places. cbn. apply (places_new_current_urc (new_urc cls line)); [done..|].
        by exists cls, ends.
      * split; [apply Hst|by eexists].
  - assert (comm_places (set_urc_queue (urc_queue w ++ [next_vreq w])
      (set_next_vreq (S (next_vreq w)) (w_vreq (next_vreq w) (new_urc cls line) w)))) as P'.
    { unfold comm_places. cbn. rewrite Hu. apply places_new_urc; [done..|]. by eexists. }
    destruct (bool_decide _) eqn:Ha.
    + apply bool_decide_eq_true in Ha. rewrite Ha in Hst. split_and!; [|by split|done]. constructor.
      * apply I.
      * eexists. by split; [apply has_timer_armed|].
      * exact P'.
      * exact Hst.
    + split_and!; [|by destruct Hs as [Hs|Hs]; cbn; rewrite Hs|done]. constructor.
      * apply I.
      * destruct (ch_timer _ I) as (t' & Ht' & Hp). by exists t'.
      * exact P'.
      * unfold state_ok. cbn. destruct Hs as [Hs|Hs]; rewrite Hs in *; done.
Qed.

(** one more line of a URC *)
Lemma chan_more t urc o cls line ends :
  c_state w = VGSM_COMM_READING_URC ∨ c_state w = VGSM_COMM_AWAITING_ECHO_READING_URC →
  has_timer w t → timer_pending t = true → current_urc w = Some urc → vreqs w !! urc = Some o →
  vr_urc_class o = Some cls → detect_end cls = Some ends →
  goes_on w (w_more urc o line ends t w).
Proof.
  intros Hs Ht Hp Hu Ho Hc He. pose proof (ch_state _ I) as Hst. unfold state_ok in Hst.
  assert (comm_places (w_vreq urc (with_line line o) w)) as P.
  { eapply places_upd; [apply I|done|done| |done|done]. intros _ []. by constructor. }
  assert (bool_decide (c_state w = VGSM_COMM_AWAITING_ECHO_READING_URC) = true ∧
          c_state w = VGSM_COMM_AWAITING_ECHO_READING_URC ∨
          bool_decide (c_state w = VGSM_COMM_AWAITING_ECHO_READING_URC) = false ∧
          c_state w = VGSM_COMM_READING_URC) as [[Ha Hs']|[Ha Hs']].
  { destruct Hs as [Hs|Hs]; rewrite Hs; [right|left]; by split; [apply bool_decide_eq_false_2 || apply bool_decide_eq_true_2|]. }
  all: assert (comm_places (set_current_urc None (set_urc_queue (urc_queue w ++ [urc])
         (w_vreq urc (with_line line o) w)))) as P' by
         (unfold comm_places in P; cbn in P; rewrite Hu in P; by apply places_urc_ends).
  all: rewrite Hs' in Hst; unfold w_more; rewrite Ha; destruct (ends _).
  all: split_and!; [|by try (cbn; rewrite Hs')|done]; constructor; try apply I; try done.
  - eexists. by split; [apply has_timer_armed|].
  - by destruct Hst.
  - eexists. by split; [apply has_timer_armed|]; cbn; rewrite Hs'.
  - unfold state_ok. cbn. by rewrite Hs'.
  - exists (stopped t). split; [by apply (has_timer_stopped w)|]. unfold stopped. by rewrite Hp.
  - by destruct Hst.
  - unfold state_ok. cbn. by rewrite Hs'.
Qed.
End channel.

(** ** The receiver meets no fault *)

Lemma wp_eq {S A} (m : M S A) Q s a s' : m s = Done (a, s') → Q a s' → wp m Q s.
Proof. intros E HQ. unfold wp. by rewrite E. Qed.

Lemma chan_buf w b : chan_ok w → buf_ok b → chan_ok (w_buf b w).
Proof. intros [I1 I2 I3 I4] Hb. by constructor. Qed.

Lemma chan_nul w i : chan_ok w → live (c_state w) → goes_on w (w_buf (<[i := 0]> (c_buf w)) w).
Proof. intros I Hl. split_and!; [|done..]. apply chan_buf; [done|]. apply buf_ok_insert, I. Qed.

Lemma goes_on_trans w w' w'' : goes_on w w' → goes_on w' w'' → goes_on w w''.
Proof. intros (_ & _ & E) (I & Hl & E'). split_and!; [done..|congruence]. Qed.

(** how many characters an iteration may take *)
Definition step_post (w : vgsm_comm) (n : Z) (w' : vgsm_comm) : Prop :=
  goes_on w w' ∧ 0 ≤ n ≤ 2047.

Lemma wp_string w i s (k : list Z → Cm Z) Q :
  chan_ok w → (i ≤ 2047)%nat → str_at (c_buf w) i s → wp (k s) Q w →
  wp (buf_string (Z.of_nat i) ≫= k) Q w.
Proof.
  intros I Hi Hs Hk. apply wp_bind. eapply wp_eq; [by apply buf_string_eq; [apply I| |]|done].
Qed.

(** reading a string of an open channel *)
Lemma wp_any_string w i (k : list Z → Cm Z) Q :
  chan_ok w → (i ≤ 2047)%nat → (∀ s, str_at (c_buf w) i s → wp (k s) Q w) →
  wp (buf_string (Z.of_nat i) ≫= k) Q w.
Proof.
  intros I Hi Hk. destruct (str_at_ex (c_buf w) i) as [s Hs]; [apply I|done|].
  eapply wp_string; eauto.
Qed.

Lemma wp_char w i c (k : Z → Cm Z) Q :
  c_buf w !! i = Some c → wp (k c) Q w → wp (buf_char (Z.of_nat i) ≫= k) Q w.
Proof. intros Hc Hk. apply wp_bind. by eapply wp_eq; [apply buf_char_eq|]. Qed.

Lemma wp_nul w i (k : unit → Cm Z) Q :
  chan_ok w → (i ≤ 2047)%nat → wp (k tt) Q (w_buf (<[i := 0]> (c_buf w)) w) →
  wp (set_buf_char (Z.of_nat i) 0 ≫= k) Q w.
Proof.
  intros I Hi Hk. apply wp_bind. eapply wp_eq; [|done]. apply set_buf_char_eq.
  destruct (ch_buf _ I). lia.
Qed.

Lemma match_line_ok w req begin :
  chan_ok w → c_state w = VGSM_COMM_READING_RESPONSE → current_req w = Some req → (begin ≤ 2)%nat →
  wp (match_line req (Z.of_nat begin)) (step_post w) w.
Proof.
  intros I Hs Hr Hb. unfold match_line. apply (wp_any_string w 2); [done|lia|]. intros s Hstr.
  pose proof (str_at_length _ _ _ (ch_buf _ I) Hstr) as Hlen.
  assert (live (c_state w)) as Hl by (rewrite Hs; by split).
  destruct (find_crlf s) as [i|] eqn:Hi; [|by apply wp_ret; split; [|lia]].
  apply find_crlf_bound in Hi. replace (2 + Z.of_nat i) with (Z.of_nat (2 + i)) by lia.
  apply wp_nul; [done|lia|]. set (w1 := w_buf _ w).
  destruct (chan_nul w (2 + i) I Hl) as (I1 & Hl1 & _).
  apply wp_any_string; [done|lia|]. intros line _.
  destruct (ch_timer _ I1) as (t & Ht & _).
  destruct (chan_current I1 req Hr) as (o & Ho & _ & Hc & Hq).
  apply wp_bind. eapply wp_eq; [by apply (response_line_eq w1 t req o)|]. apply wp_ret.
  split; [|lia]. by apply (chan_response I1).
Qed.

Lemma match_response_ok w :
  chan_ok w → c_state w = VGSM_COMM_READING_RESPONSE →
  wp vgsm_match_response (step_post w) w.
Proof.
  intros I Hs. pose proof (ch_state _ I) as Hst. unfold state_ok in Hst. rewrite Hs in Hst.
  destruct Hst as [[req Hr] Hu]. assert (live (c_state w)) as Hl by (rewrite Hs; by split).
  assert (wp (mret 0) (step_post w) w) as H0 by (by apply wp_ret; split; [|lia]).
  unfold vgsm_match_response. apply wp_bind. apply (wp_eq _ _ _ w w); [done|]. rewrite Hr.
  destruct (str_at_ex (c_buf w) 0) as [s Hstr]; [apply I|lia|].
  apply (wp_char w 0 (nth 0 s 0)); [by apply (str_at_char _ 0 _ 0); [|lia]|].
  destruct (nth 0 s 0 =? 0) eqn:E0; [done|].
  assert (0 < length s)%nat as Hlen.
  { destruct s; [by rewrite Z.eqb_refl in E0|cbn; lia]. }
  set (b := if nth 0 s 0 =? CR then 1 else 0).
  assert (∃ k, b = Z.of_nat k ∧ (k ≤ 1)%nat) as (k & -> & Hk).
  { unfold b. destruct (_ =? CR); [by exists 1%nat|exists 0%nat; split; [done|lia]]. }
  apply (wp_char w k (nth k s 0)); [by apply (str_at_char _ 0 _ k); [|lia]|].
  destruct (nth k s 0 =? 0) eqn:E1; [done|].
  set (b' := if nth k s 0 =? LF then Z.of_nat k + 1 else Z.of_nat k).
  assert (∃ k', b' = Z.of_nat k' ∧ (k' ≤ 2)%nat) as (k' & -> & Hk').
  { unfold b'. destruct (_ =? LF); [exists (S k)|exists k]; lia. }
  apply wp_any_string; [done|lia|]. intros s' _.
  destruct (starts_with _ s'); [|by apply match_line_ok].
  destruct (chan_current I req Hr) as (o & Ho & _).
  unfold match_prompt. apply wp_bind. eapply wp_eq; [by apply the_vreq_eq|].
  destruct (vr_sms_text_pdu o) as [pdu|] eqn:Hp.
  - apply wp_bind. eapply wp_eq; [done|]. destruct (ch_timer _ I) as (t & Ht & _).
    apply wp_bind. eapply wp_eq; [by apply (change_state_eq _ t)|]. apply wp_ret.
    split; [|lia]. split_and!; [|by split|done].
    assert (chan_ok (set_tx (tx w ++ [pdu]) w)) as I' by (destruct I; by constructor).
    apply (chan_state I' t); [done|done|]. unfold state_ok. cbn. split; [|done].
    exists req. split; [done|]. exists o. split; [done|]. unfold has_pdu. rewrite Hp. by eexists.
  - apply wp_bind. eapply wp_eq; [done|]. apply wp_ret. split; [|lia].
    split_and!; [|done..]. destruct I; by constructor.
Qed.

Section classes.
Context (classes : list vgsm_urc_class).

Lemma match_urc_line_ok w begin :
  chan_ok w → c_state w = VGSM_COMM_IDLE ∨ c_state w = VGSM_COMM_AWAITING_ECHO →
  (begin ≤ 4)%nat → wp (match_urc_line classes (Z.of_nat begin)) (step_post w) w.
Proof.
  intros I Hs Hb. unfold match_urc_line. apply wp_any_string; [done|lia|]. intros s Hstr.
  pose proof (str_at_length _ _ _ (ch_buf _ I) Hstr) as Hlen.
  assert (live (c_state w)) as Hl by (destruct Hs as [->| ->]; by split).
  destruct (find_crlf s) as [i|] eqn:Hi; [|by apply wp_ret; split; [|lia]].
  apply find_crlf_bound in Hi. rewrite <- Nat2Z.inj_add. apply wp_nul; [done|lia|].
  set (w1 := w_buf _ w). destruct (chan_nul w (begin + i) I Hl) as (I1 & Hl1 & _).
  apply wp_bind. apply (wp_eq _ _ _ w1 w1); [done|].
  assert (current_urc w = None) as Hu.
  { pose proof (ch_state _ I) as Hst. unfold state_ok in Hst.
    destruct Hs as [Hs|Hs]; rewrite Hs in Hst; apply Hst. }
  apply wp_bind. apply (wp_eq _ _ _ tt w1); [by unfold c_assert; cbn; rewrite Hu|].
  apply wp_any_string; [done|lia|]. intros line _. destruct (ch_timer _ I1) as (t & Ht & _).
  apply wp_bind. eapply wp_eq; [apply (urc_line_eq _ w1 t); [done|by apply chan_next_unused]|].
  apply wp_ret. split; [|lia]. destruct (find_urc_class _ _) as [cls|]; [|done].
  by apply (chan_urc I1).
Qed.

Lemma match_urc_ok w :
  chan_ok w → c_state w = VGSM_COMM_IDLE ∨ c_state w = VGSM_COMM_AWAITING_ECHO →
  wp (vgsm_comm_match_urc classes) (step_post w) w.
Proof.
  intros I Hs. assert (live (c_state w)) as Hl by (destruct Hs as [->| ->]; by split).
  assert (∀ n, 0 ≤ n ≤ 2047 → wp (mret n) (step_post w) w) as H0 by (by intros; apply wp_ret).
  destruct (str_at_ex (c_buf w) 0) as [s Hstr]; [apply I|lia|].
  pose proof (λ k, str_at_char _ 0 _ k Hstr) as Hch. cbn [Nat.add] in Hch.
  assert (∀ k, nth k s 0 =? 0 = false → (k < length s)%nat) as Hin.
  { intros k Hk. destruct (decide (k < length s)%nat) as [|Hge]; [done|].
    rewrite nth_overflow in Hk by lia. done. }
  unfold vgsm_comm_match_urc.
  apply (wp_char w 0 (nth 0 s 0)); [apply Hch; lia|].
  destruct (nth 0 s 0 =? 0) eqn:E0; [by apply H0|]. apply Hin in E0.
  destruct (nth 0 s 0 =? CR); cbn [negb].
  2: { destruct (_ || _); [by apply (match_urc_line_ok w 0); [..|lia]|by apply H0]. }
  apply (wp_char w 1 (nth 1 s 0)); [apply Hch; lia|].
  destruct (nth 1 s 0 =? 0) eqn:E1; [by apply H0|]. apply Hin in E1.
  destruct (nth 1 s 0 =? LF); cbn [negb]; [|by apply H0].
  apply (wp_char w 2 (nth 2 s 0)); [apply Hch; lia|].
  destruct (nth 2 s 0 =? 0) eqn:E2; [by apply H0|]. apply Hin in E2.
  destruct (nth 2 s 0 =? CR); [|by apply (match_urc_line_ok w 2); [..|lia]].
  apply (wp_char w 3 (nth 3 s 0)); [apply Hch; lia|].
  destruct (nth 3 s 0 =? 0); [by apply H0|].
  destruct (nth 3 s 0 =? LF); cbn [negb]; [by apply (match_urc_line_ok w 4); [..|lia]|by apply H0].
Qed.

Lemma match_urc_cont_ok w :
  chan_ok w → c_state w = VGSM_COMM_READING_URC ∨ c_state w = VGSM_COMM_AWAITING_ECHO_READING_URC →
  wp vgsm_comm_match_urc_cont (step_post w) w.
Proof.
  intros I Hs. assert (live (c_state w)) as Hl by (destruct Hs as [->| ->]; by split).
  unfold vgsm_comm_match_urc_cont. apply (wp_any_string w 0); [done|lia|]. intros s Hstr.
  pose proof (str_at_length _ _ _ (ch_buf _ I) Hstr) as Hlen.
  destruct (find_crlf s) as [i|] eqn:Hi; [|by apply wp_ret; split; [|lia]].
  apply find_crlf_bound in Hi. apply wp_nul; [done|lia|].
  set (w1 := w_buf _ w). destruct (chan_nul w i I Hl) as (I1 & Hl1 & _).
  apply wp_bind. apply (wp_eq _ _ _ w1 w1); [done|].
  assert (is_Some (current_urc w)) as [urc Hu].
  { pose proof (ch_state _ I) as Hst. unfold state_ok in Hst.
    destruct Hs as [Hs|Hs]; rewrite Hs in Hst; apply Hst. }
  cbn [current_urc w1 w_buf set_c_buf]. rewrite Hu.
  apply (wp_any_string w1 0); [done|lia|]. intros line _.
  destruct (ch_timer _ I1) as (t & Ht & Hp).
  destruct (chan_current_urc I1 urc Hu) as (o & cls & ends & Ho & Hc & He & _ & Hq).
  apply wp_bind. eapply wp_eq; [by apply (urc_more_line_eq w1 t urc o cls ends)|].
  apply wp_ret. split; [|lia]. apply (chan_more I1 t urc o cls); try done.
  rewrite Hp. by destruct Hs as [Hs|Hs]; cbn; rewrite Hs.
Qed.

Lemma match_echo_ok w sent (k : Z → Cm Z) :
  chan_ok w → (∀ n, -1 ≤ n ≤ 2047 → wp (k n) (step_post w) w) →
  wp (vgsm_comm_match_echo sent ≫= k) (step_post w) w.
Proof.
  intros I Hk. unfold vgsm_comm_match_echo. destruct (str_at_ex (c_buf w) 0) as [s Hstr]; [apply I|lia|].
  pose proof (str_at_length _ _ _ (ch_buf _ I) Hstr) as Hlen.
  apply wp_bind, (wp_bind (buf_string 0)).
  eapply wp_eq; [apply (buf_string_eq w 0); [apply I|lia|done]|].
  apply wp_ret, Hk. pose proof (echo_loop_bound sent 0 s). split; [|lia].
  assert (∀ snt n buf, 0 ≤ n → -1 ≤ echo_loop n buf snt) as Hlow.
  { clear. induction snt as [|c snt IH]; intros n buf Hn; destruct buf as [|b buf]; cbn; try lia.
    destruct (b =? c); [apply IH|]; lia. }
  by apply Hlow.
Qed.

Lemma receive_step_ok w nread :
  chan_ok w → live (c_state w) → 0 ≤ nread ≤ 2047 →
  wp (receive_step classes nread) (step_post w) w.
Proof.
  intros I Hl Hn. assert (∀ n, 0 ≤ n ≤ 2047 → wp (mret n) (step_post w) w) as H0
    by (by intros; apply wp_ret).
  pose proof (ch_state _ I) as Hst. destruct (ch_timer _ I) as (t & Ht & Hp).
  unfold receive_step. apply wp_bind. apply (wp_eq _ _ _ w w); [done|].
  unfold state_ok in Hst. destruct (c_state w) eqn:Hs.
  - by destruct Hl.
  - by destruct Hl.
  - by apply H0.
  - by apply H0.
  - apply match_urc_ok; auto.
  - apply match_urc_cont_ok; auto.
  - destruct Hst as [(req & Hr & o & Ho & [pdu Hpdu]) Hu]. rewrite Hr.
    apply wp_bind. eapply wp_eq; [by apply the_vreq_eq|].
    apply wp_bind. apply (wp_eq _ _ _ pdu w); [by rewrite Hpdu|].
    apply match_echo_ok; [done|]. intros n Hn'. destruct (Z.ltb_spec 0 n); [|by apply H0].
    apply wp_bind. eapply wp_eq; [done|]. apply wp_bind.
    eapply wp_eq; [by apply (change_state_eq _ t)|]. apply wp_ret. split; [|lia].
    split_and!; [|by split|done].
    assert (chan_ok (set_tx (tx w ++ [[SUB]]) w)) as I' by (destruct I; by constructor).
    apply (chan_state I' t); [done|done|]. split; [|done]. exists req. split; [done|].
    exists o. split; [done|]. by eexists.
  - destruct Hst as [(req & Hr & o & Ho & Hpdu) Hu]. rewrite Hr.
    apply match_echo_ok; [done|]. intros n Hn'. destruct (Z.ltb_spec 0 n); [|by apply H0].
    apply wp_bind. eapply wp_eq; [by apply the_vreq_eq|]. apply wp_bind.
    eapply wp_eq; [by apply (change_state_eq _ t)|]. apply wp_ret. split; [|lia].
    split_and!; [|by split|done].
    destruct (chan_current I req Hr) as (o' & Ho' & Hun & _). rewrite Ho in Ho'. injection Ho' as <-.
    apply (chan_state I t); [done| |by split; [eexists|]].
    unfold next_timer. destruct (Z.eqb_spec (vr_timeout o) (-1)); [destruct Hun; lia|].
    destruct (Z.eqb_spec (vr_timeout o) (-2)); [destruct Hun; lia|done].
  - destruct Hst as [[req Hr] Hu]. rewrite Hr.
    destruct (chan_current I req Hr) as (o & Ho & Hun & _).
    apply wp_bind. eapply wp_eq; [by apply the_vreq_eq|].
    apply match_echo_ok; [done|]. intros n Hn'. destruct (Z.ltb_spec 0 n).
    + apply wp_bind. eapply wp_eq; [by apply (change_state_eq _ t)|]. apply wp_ret. split; [|lia].
      split_and!; [|by split|done]. apply (chan_state I t); [done| |by split; [eexists|]].
      unfold next_timer. destruct (Z.eqb_spec (vr_timeout o) (-1)); [destruct Hun; lia|].
      destruct (Z.eqb_spec (vr_timeout o) (-2)); [destruct Hun; lia|done].
    + destruct (negb _); [apply match_urc_ok; auto|by apply H0].
  - apply match_urc_cont_ok; auto.
  - by apply match_response_ok.
Qed.

(** [m] ends in [Q], or does not end *)
Definition wpd {A} (m : Cm A) (Q : A → vgsm_comm → Prop) (w : vgsm_comm) : Prop :=
  match m w with Done (a, w') => Q a w' | Fault f => f = Diverges end.

Lemma wp_wpd {A} (m : Cm A) Q w : wp m Q w → wpd m Q w.
Proof. unfold wp, wpd. by destruct (m w) as [[]|]. Qed.
Lemma wpd_bind {A B} (m : Cm A) (k : A → Cm B) Q w :
  wpd m (λ a, wpd (k a) Q) w → wpd (m ≫= k) Q w.
Proof. unfold wpd, mbind, M_bind. by destruct (m w) as [[]|]. Qed.
Lemma wpd_mono {A} (m : Cm A) (P Q : A → vgsm_comm → Prop) w :
  wpd m P w → (∀ a w', P a w' → Q a w') → wpd m Q w.
Proof. unfold wpd. destruct (m w) as [[]|]; auto. Qed.

(** the rest of the buffer is moved to its beginning *)
Lemma move_ok w n :
  chan_ok w → (n ≤ 2047)%nat → (n ≠ 0)%nat →
  ∃ s, str_at (c_buf w) n s ∧ buf_string (Z.of_nat n) w = Done (s, w) ∧
    let b := (s ++ [0]) ++ drop (length (s ++ [0])) (c_buf w) in
    buf_write 0 (s ++ [0]) w = Done (tt, w_buf b w) ∧ buf_ok b.
Proof.
  intros I Hn Hn0. destruct (str_at_ex (c_buf w) n) as [s Hs]; [apply I|done|].
  pose proof (str_at_length _ _ _ (ch_buf _ I) Hs) as Hlen. exists s.
  cbv zeta. split_and!; [done|by apply buf_string_eq; [apply I|..]| |].
  - rewrite (buf_write_eq w 0); [done|]. rewrite length_app. destruct (ch_buf _ I). cbn. lia.
  - apply (buf_ok_write _ 0); [apply I|lia].
Qed.

Lemma receive_loop_ok fuel : ∀ w nread,
  chan_ok w → live (c_state w) → 0 ≤ nread ≤ 2047 →
  wpd (receive_loop classes fuel nread) (λ _, goes_on w) w.
Proof.
  induction fuel as [|fuel IH]; intros w nread I Hl Hn; [done|]. cbn [receive_loop].
  apply wpd_bind. eapply wpd_mono; [by apply wp_wpd, receive_step_ok|].
  intros n w1 [Hg Hn1]. destruct (Z.eqb_spec n 0) as [|Hn0]; [done|].
  pose proof Hg as (I1 & Hl1 & _).
  destruct (move_ok w1 (Z.to_nat n)) as (s & _ & E1 & E2 & Hb); [done|lia..|].
  rewrite Z2Nat.id in E1 by lia.
  apply wpd_bind. unfold wpd at 1. rewrite E1. apply wpd_bind. unfold wpd at 1. rewrite E2.
  eapply wpd_mono; [apply IH; [by apply chan_buf|done|lia]|].
  intros [] w2 Hg2. eapply goes_on_trans; [exact Hg|]. destruct Hg2 as (? & ? & ?). by split_and!.
Qed.

Lemma line_receive_ok w n :
  chan_ok w → live (c_state w) →
  ∀ fuel, wpd (vgsm_comm_receive classes fuel n) (λ _, goes_on w) w.
Proof.
  intros I Hl fuel. unfold vgsm_comm_receive.
  destruct (str_at_ex (c_buf w) 0) as [s Hs]; [apply I|lia|].
  pose proof (str_at_length _ _ _ (ch_buf _ I) Hs) as Hlen. cbn in Hlen.
  apply wpd_bind. unfold wpd at 1. rewrite (buf_string_eq w 0 s : buf_ok _ → _ → _ → buf_string 0 w = _) by (apply I || done || lia).
  destruct n as [n|]; [|done].
  apply wpd_bind. unfold read_fd, wpd at 1. run.
  set (l := take _ _). set (w1 := set_rx _ w).
  assert (length s + length l ≤ 2047)%nat as Hl2 by (unfold l; rewrite length_take; lia).
  assert (chan_ok w1) as I1 by (destruct I; by constructor).
  apply wpd_bind. unfold wpd at 1. rewrite buf_write_eq.
  2: { rewrite length_app. destruct (ch_buf _ I) as [E _]. cbn in *. lia. }
  apply wpd_bind. eapply wpd_mono.
  - apply receive_loop_ok; [|done|lia]. apply chan_buf; [done|]. apply buf_ok_write; [apply I1|done].
  - intros [] w2 (? & ? & ?). done.
Qed.
End classes.

(** ** The timer that fires *)

(** a timer that fired, in its function *)
Definition expired (t : vgsm_timer) : vgsm_timer :=
  mk_timer (timer_refcnt t) false (timer_expires t) None.
(** one transmission less is left *)
Definition once_less (o : vgsm_req) : vgsm_req :=
  set_vr_retransmit_cnt (vr_retransmit_cnt o - 1) o.

(** the URC that was being read is dropped *)
Definition w_drop_urc (w : vgsm_comm) : vgsm_comm :=
  set_current_urc None
    match current_urc w with
    | Some urc =>
      match vreqs w !! urc with
      | Some o => set_vreqs (h_put urc o (vreqs w)) w
      | None => w
      end
    | None => w
    end.
(** synchronisation with the module is lost *)
Definition w_lost (t : vgsm_timer) (w : vgsm_comm) : vgsm_comm :=
  set_tx (tx w ++ [text "AT E1 V1 Q0" ++ [CR]])
    (w_buf (<[0%nat := 0]> (c_buf w))
      (set_rx []
        (set_c_state VGSM_COMM_RECOVERING
          (w_timer (armed (clock w + 1 * SEC) t) (w_drop_urc w))))).
(** the request is sent again *)
Definition w_retry (req : nat) (o : vgsm_req) (t : vgsm_timer) (w : vgsm_comm) : vgsm_comm :=
  set_c_state VGSM_COMM_AWAITING_ECHO
    (w_timer (armed (clock w + ECHO_TIMEOUT) t)
      (set_tx (tx w ++ [vr_request o]) (w_vreq req (once_less o) w))).
(** or the channel gives up *)
Definition w_give_up (req : nat) (o : vgsm_req) (t : vgsm_timer) (w : vgsm_comm) : vgsm_comm :=
  set_current_req None
    (w_complete req VGSM_RESP_FAILED (once_less o)
      (set_c_state VGSM_COMM_FAILED (w_timer (stopped t) w))).

(** what [vgsm_comm_timer_fired] does *)
Definition w_fired (t : vgsm_timer) (w : vgsm_comm) : vgsm_comm :=
  match c_state w with
  | VGSM_COMM_RECOVERING =>
    match current_req w with
    | Some req =>
      match vreqs w !! req with
      | Some o =>
        if vr_retransmit_cnt o - 1 =? 0 then w_give_up req o t w else w_retry req o t w
      | None => w
      end
    | None => set_c_state VGSM_COMM_IDLE (w_timer (stopped t) w)
    end
  | VGSM_COMM_CLOSED | VGSM_COMM_CLOSING | VGSM_COMM_FAILED | VGSM_COMM_IDLE => w
  | _ => w_lost t w
  end.

(** the steps that every state but [VGSM_COMM_RECOVERING] has in common *)
Lemma lost_eq w t' :
  chan_ok w → has_timer (w_timer t' w) t' →
  (w ← get; _vgsm_req_put (current_urc w);; modify (set_current_urc None);;
   vgsm_comm_change_state VGSM_COMM_RECOVERING (1 * SEC);; modify (set_rx []);;
   set_buf_char 0 0;; vgsm_comm_send_recovery_sequence) (w_timer t' w) =
  Done (tt, w_lost t' (w_timer t' w)).
Proof.
  intros I Ht. unfold w_lost, w_drop_urc. run.
  assert (0 < length (c_buf w))%nat as Hb by (destruct (ch_buf _ I); lia).
  destruct (current_urc w) as [urc|] eqn:Hu.
  - destruct (chan_current_urc I urc Hu) as (o & _ & _ & Ho & _ & _ & [Hc1 Hc2] & _).
    rewrite (put_eq _ urc o) by (done || lia). rewrite w_put_eq, Ho. cbn.
    rewrite (change_state_eq _ t') by done. cbn.
    by rewrite (set_buf_char_eq _ 0 0 : _ → set_buf_char 0 0 _ = _).
  - unfold _vgsm_req_put. run. rewrite (change_state_eq _ t') by done. cbn.
    by rewrite (set_buf_char_eq _ 0 0 : _ → set_buf_char 0 0 _ = _).
Qed.

Lemma fired_eq w t' :
  chan_ok w → has_timer (w_timer t' w) t' →
  vgsm_comm_timer_fired (w_timer t' w) = Done (tt, w_fired t' (w_timer t' w)).
Proof.
  intros I Ht. pose proof (lost_eq w t' I Ht) as Hlost.
  unfold vgsm_comm_timer_fired, w_fired. unfold mbind at 1, M_bind at 1. cbn in Hlost |- *.
  destruct (c_state w) eqn:Hs; try done.
  destruct (current_req w) as [req|] eqn:Hr.
  - destruct (chan_current I req Hr) as (o & Ho & Hun & Hc & Hq). rewrite Ho.
    run. rewrite (upd_vreq_eq _ req o) by done.
    rewrite (the_vreq_eq _ req (once_less o)) by apply w_vreq_lookup. cbn.
    destruct (_ =? 0).
    + rewrite (change_state_eq _ t') by done. cbn.
      rewrite (complete_req_eq _ req (once_less o)) by (apply w_vreq_lookup || done).
      unfold w_give_up, w_complete, w_vreq. cbn. by rewrite insert_insert_eq.
    + rewrite (proj2 (Z.leb_le _ _)) by (destruct Hun; lia). cbn.
      by rewrite (change_state_eq _ t').
  - run. by rewrite (change_state_eq _ t').
Qed.

Lemma fired_timer w t' :
  chan_ok w → has_timer (w_timer t' w) t' → timer_pending t' = false →
  ∃ t, has_timer (w_fired t' (w_timer t' w)) t ∧
    (timer_pending t = true → clock w ≤ timer_expires t).
Proof.
  intros I Ht Hp. unfold w_fired. cbn.
  assert (stopped t' = t') as Hst by (unfold stopped; by rewrite Hp).
  assert (∃ t, has_timer (w_lost t' (w_timer t' w)) t ∧
    (timer_pending t = true → clock w ≤ timer_expires t)) as Hl.
  { exists (armed (clock w + 1 * SEC) t'). split; [|cbn; unfold SEC; lia]. unfold w_lost, w_drop_urc.
    cbn. by destruct (current_urc w) as [u|]; [destruct (vreqs w !! u)|]. }
  destruct (c_state w); try done; try (by exists t'; split; [|congruence]).
  destruct (current_req w) as [req|].
  - destruct (vreqs w !! req) as [o|]; [|by exists t'; split; [|congruence]].
    destruct (_ =? _).
    + exists t'. split; [|congruence]. unfold w_give_up. cbn. by rewrite Hst.
    + exists (armed (clock w + ECHO_TIMEOUT) t'). split; [done|]. cbn. unfold ECHO_TIMEOUT, MILLISEC. lia.
  - exists t'. split; [|congruence]. by rewrite Hst.
Qed.

(** the timers of a channel, if the clock stands still *)
Lemma run_eq w t :
  chan_ok w → has_timer w t →
  vgsm_timerset_run comm_timer_fired 2 w =
    Done (tt, if timer_pending t && (timer_expires t <? clock w)
              then w_fired (expired t) (w_timer (expired t) w) else w).
Proof.
  intros I Ht. pose proof Ht as [E D].
  unfold vgsm_timerset_run. cbn [timerset_loop]. unfold mbind at 1 2 3, M_bind at 1 2 3. cbn.
  rewrite E. cbn. destruct (timer_pending t) eqn:P; [|done]. cbn.
  unfold mbind at 1, M_bind at 1. rewrite (the_timer_eq w t) by done.
  destruct (timer_expires t <? clock w) eqn:Hx; [|done].
  unfold mbind at 1, M_bind at 1. rewrite (vtimer_unlink_eq w t) by done.
  set (t1 := set_timer_pending false t).
  assert (set_c_timerset (mk_timerset {[the_comm_timer := t1]} []) w = w_timer t1 w) as -> by done.
  unfold mbind at 1, M_bind at 1. unfold comm_timer_fired. unfold mbind at 1, M_bind at 1.
  rewrite (the_timer_eq _ t1) by done. unfold mbind at 1, M_bind at 1.
  rewrite (comm_timer_eq _ t1 []) by done.
  assert (set_c_timerset (mk_timerset {[the_comm_timer := set_timer_data None t1]} [])
    (w_timer t1 w) = w_timer (expired t) w) as -> by done.
  unfold mbind at 1, M_bind at 1. cbn [t1 timer_data set_timer_pending]. rewrite D by done. cbn [deref].
  assert (has_timer (w_timer (expired t) w) (expired t)) as Ht1 by done.
  cbv [mret M_ret]. rewrite (fired_eq w (expired t)) by done.
  destruct (fired_timer w (expired t)) as (t2 & [E2 _] & Hx2); [done..|].
  unfold mbind at 1, M_bind at 1. cbn. rewrite E2. cbn.
  destruct (timer_pending t2) eqn:P2; [|done].
  unfold mbind at 1, M_bind at 1. rewrite (the_timer_eq _ t2) by done.
  rewrite (proj2 (Z.ltb_ge _ _)) by auto. done.
Qed.

(** what the timer does to an open channel *)
Lemma fired_ok w t' :
  chan_ok w → live (c_state w) → waiting (c_state w) = true →
  has_timer (w_timer t' w) t' → timer_pending t' = false →
  goes_on w (w_fired t' (w_timer t' w)).
Proof.
  intros I Hl Hw Ht Hp. assert (stopped t' = t') as Hst by (unfold stopped; by rewrite Hp).
  pose proof (ch_places _ I) as P. pose proof (ch_state _ I) as Hstate. unfold state_ok in Hstate.
  unfold w_fired. cbn.
  assert (goes_on w (w_lost t' (w_timer t' w))) as Hlost.
  { unfold w_lost, w_drop_urc. cbn. destruct (current_urc w) as [urc|] eqn:Hu.
    - destruct (chan_current_urc I urc Hu) as (o & _ & _ & Ho & _). rewrite Ho.
      split_and!; [|by split|done]. constructor.
      + apply buf_ok_insert, I.
      + by eexists; split; [apply has_timer_armed|].
      + unfold comm_places in *. cbn. rewrite Hu in P.
        apply (places_put urc o _ _ _ None _ P Ho); try done; try lia; [..|tauto].
        all: occs.
      + done.
    - split_and!; [|by split|done]. constructor.
      + apply buf_ok_insert, I.
      + by eexists; split; [apply has_timer_armed|].
      + unfold comm_places in *. cbn. by rewrite Hu in P.
      + done. }
  destruct (c_state w) eqn:Hs; try done.
  destruct (current_req w) as [req|] eqn:Hr.
  - destruct (chan_current I req Hr) as (o & Ho & Hun & Hc & Hq). rewrite Ho.
    destruct (Z.eqb_spec (vr_retransmit_cnt o - 1) 0) as [E0|E0].
    + split_and!; [|by split|done]. unfold w_give_up. rewrite Hst. constructor.
      * apply I.
      * exists t'. by split.
      * unfold comm_places in *. cbn. rewrite Hr in P.
        eapply places_complete; [exact P|done|done|]. split; [done|apply Hun].
      * done.
    + split_and!; [|by split|done]. constructor.
      * apply I.
      * by eexists; split; [apply has_timer_armed|].
      * unfold comm_places, w_retry. cbn. rewrite Hr. unfold comm_places in P. rewrite Hr in P.
        eapply places_upd; [exact P|done|done| |done|done].
        intros _ []. constructor; try done. cbn. lia.
      * split; [by exists req|done].
  - split_and!; [|by split|done]. rewrite Hst. constructor; try apply I; [by exists t'|done].
Qed.

(** ** The thread of the channel *)

(** the next request is written *)
Definition w_send (req : nat) (l : list nat) (o : vgsm_req) (t : vgsm_timer) (w : vgsm_comm)
    : vgsm_comm :=
  set_c_state VGSM_COMM_AWAITING_ECHO
    (w_timer (armed (clock w + ECHO_TIMEOUT) t)
      (set_tx (tx w ++ [vr_request o]) (set_current_req (Some req) (set_requests_queue l w)))).

Lemma chan_queued w req l :
  chan_ok w → requests_queue w = req :: l → ∃ o, vreqs w !! req = Some o ∧ unanswered o ∧ counted o.
Proof.
  intros I Hq. pose proof (ch_places _ I) as P. pose proof P as [_ _ _ P4 _ _ _ _ _ _ _ _].
  rewrite Hq in P4. inversion P4 as [|? ? (o & Ho & Hun) _]. exists o.
  split_and!; [done..|by eapply places_counted].
Qed.

Lemma process_eq w t :
  chan_ok w → has_timer w t → current_req w = None →
  vgsm_process_next_request w =
    Done (tt, match requests_queue w with
              | [] => w
              | req :: l => match vreqs w !! req with Some o => w_send req l o t w | None => w end
              end).
Proof.
  intros I Ht Hr. unfold vgsm_process_next_request, vgsm_comm_dequeue_req. run. rewrite Hr. cbn.
  destruct (requests_queue w) as [|req l] eqn:Hq.
  - cbn. do 2 f_equal. rewrite <- Hr. apply comm_eta.
  - destruct (chan_queued w req l I Hq) as (o & Ho & _). rewrite Ho. cbn.
    rewrite (the_vreq_eq _ req o) by done. cbn. by rewrite (change_state_eq _ t).
Qed.

Lemma process_ok w t :
  chan_ok w → has_timer w t → c_state w = VGSM_COMM_IDLE →
  wp vgsm_process_next_request (λ _, goes_on w) w.
Proof.
  intros I Ht Hs. pose proof (ch_state _ I) as Hst. unfold state_ok in Hst. rewrite Hs in Hst.
  destruct Hst as [Hr Hu]. assert (live (c_state w)) as Hl by (rewrite Hs; by split).
  eapply wp_eq; [by apply (process_eq w t)|].
  destruct (requests_queue w) as [|req l] eqn:Hq; [done|].
  destruct (chan_queued w req l I Hq) as (o & Ho & _). rewrite Ho.
  split_and!; [|by split|done]. constructor.
  - apply I.
  - by eexists; split; [apply has_timer_armed|].
  - pose proof (ch_places _ I) as P. unfold comm_places in *. cbn. rewrite Hq, Hr in P.
    by apply places_send.
  - split; [by exists req|done].
Qed.

(** the requests that wait fail *)
Definition w_flush1 (req : nat) (l : list nat) (w : vgsm_comm) : vgsm_comm :=
  match vreqs w !! req with
  | Some o => w_complete req VGSM_RESP_FAILED o (set_requests_queue l w)
  | None => w
  end.
Fixpoint w_flush (q : list nat) (w : vgsm_comm) : vgsm_comm :=
  match q with
  | [] => w
  | req :: l => w_flush l (w_flush1 req l w)
  end.

Lemma flush1_places w req l :
  comm_places w → current_req w = None → requests_queue w = req :: l →
  comm_places (w_flush1 req l w).
Proof.
  intros P Hr Hq. unfold w_flush1, comm_places in *. rewrite Hr, Hq in P. apply places_send in P.
  pose proof P as [_ _ _ P4 _ _ _ _ _ _ _ _]. apply Forall_app in P4 as [_ P4].
  inversion P4 as [|? ? (o & Ho & Hun) _]. rewrite Ho. cbn. rewrite Hr.
  eapply places_complete; [exact P|done|done|]. split; [done|apply Hun].
Qed.

Lemma flush_eq n : ∀ w,
  comm_places w → current_req w = None → length (requests_queue w) = n →
  flush_loop n w = Done (tt, w_flush (requests_queue w) w) ∧
  comm_places (w_flush (requests_queue w) w).
Proof.
  induction n as [|n IH]; intros w P Hr Hn.
  - destruct (requests_queue w) eqn:Hq; [|done]. cbn. run. unfold vgsm_comm_dequeue_req. run.
    by rewrite Hq.
  - destruct (requests_queue w) as [|req l] eqn:Hq; [done|]. injection Hn as Hn.
    pose proof (flush1_places w req l P Hr Hq) as P1.
    assert (∃ o, vreqs w !! req = Some o ∧ counted o ∧ req ∉ queued (set_requests_queue l w))
      as (o & Ho & Hc & Hnq).
    { pose proof P as [_ _ P3 P4 _ _ _ _ _ _ _ _]. rewrite Hq in P3, P4.
      inversion P4 as [|? ? (o & Ho & Hun) _]. exists o.
      split; [done|split; [exact (places_counted req o P Ho)|]].
      rewrite nodup_occ in P3. specialize (P3 req). apply occ_not_elem. unfold queued. cbn.
      rewrite !occ_app, occ_cons, decide_True in P3 by done.
      rewrite !occ_app. lia. }
    cbn [flush_loop]. unfold vgsm_comm_dequeue_req. run. rewrite Hq. cbn.
    rewrite (complete_req_eq _ req o) by done.
    unfold w_flush1 in P1 |- *. rewrite Ho in P1 |- *.
    destruct (IH _ P1) as [E1 E2]; [done|done|]. cbn in E1, E2. rewrite E1. done.
Qed.

Lemma flush_frame q : ∀ w, let w' := w_flush q w in
  c_state w' = c_state w ∧ c_timerset w' = c_timerset w ∧ c_buf w' = c_buf w ∧
  current_req w' = current_req w ∧ current_urc w' = current_urc w ∧
  comm_thread w' = comm_thread w ∧ clock w' = clock w.
Proof.
  induction q as [|req l IH]; intros w; [done|]. cbn. specialize (IH (w_flush1 req l w)).
  cbn in IH. unfold w_flush1 in *. by destruct (vreqs w !! req).
Qed.

Lemma flush_ok w :
  chan_ok w → c_state w = VGSM_COMM_FAILED → wp vgsm_flush_requests (λ _, goes_on w) w.
Proof.
  intros I Hs. pose proof (ch_state _ I) as Hst. unfold state_ok in Hst. rewrite Hs in Hst.
  destruct Hst as [Hr Hu].
  destruct (flush_eq (length (requests_queue w)) w) as [E P]; [apply I|done|done|].
  destruct (flush_frame (requests_queue w) w) as (F1 & F2 & F3 & F4 & F5 & F6 & F7).
  eapply wp_eq; [exact E|]. split_and!; [|by rewrite F1, Hs; split|done].
  constructor; [by rewrite F3; apply I| |done|].
  - destruct (ch_timer _ I) as (t & [E1 D1] & Hp). exists t. by rewrite F1; split; [split; [rewrite F2|]|].
  - unfold state_ok. rewrite F1, Hs, F4, F5. done.
Qed.

(** ** What can happen *)

(** where the thread is in which states *)
Definition thread_ok (w : vgsm_comm) : Prop :=
  match comm_thread w with
  | NO_THREAD => c_state w = VGSM_COMM_CLOSED
  | AT_START => c_state w = VGSM_COMM_CLOSED ∧ current_req w = None ∧ current_urc w = None
  | AT_TOP | AT_POLL => live (c_state w)
  | AT_JOIN => c_state w = VGSM_COMM_CLOSING
  end.
Definition comm_inv (w : vgsm_comm) : Prop := chan_ok w ∧ thread_ok w.

(** the texts of requests are single lines, their timeouts below 35 minutes *)
Record args_ok (a : make_args) : Prop := {
  ao_timeout : 0 ≤ ma_timeout a ≤ 2147383647;
  ao_text : ma_text a ≠ [];
  ao_line : Forall (λ c, c ≠ 0 ∧ c ≠ LF) (ma_text a);
  ao_pdu pdu : ma_sms_pdu a = Some pdu → Forall is_octet pdu;
}.

(** what the rest of the driver sees to: a channel is opened when it is closed and has
    nothing left to do, and closed when it has been opened *)
Definition benign (e : vcomm_event) (w : vgsm_comm) : Prop :=
  match e with
  | ev_make a => args_ok a
  | ev_open _ _ => comm_thread w = NO_THREAD ∧ current_req w = None ∧ current_urc w = None
  | ev_close_end => c_name w ≠ NAME_LITERAL
  | _ => True
  end.

Lemma top_ok w :
  chan_ok w → live (c_state w) →
  wp thread_top (λ _ w', chan_ok w' ∧ live (c_state w') ∧ comm_thread w' = AT_POLL) w.
Proof.
  intros I Hl. destruct (ch_timer _ I) as (t & Ht & Hp). unfold thread_top.
  apply wp_bind. eapply wp_eq; [by apply (run_eq w t)|].
  set (w1 := if (_ : bool) then _ else w).
  assert (chan_ok w1 ∧ live (c_state w1)) as [I1 Hl1].
  { unfold w1. destruct (timer_pending t) eqn:P; [|done]. destruct (_ <? _); [|done].
    destruct (fired_ok w (expired t)) as (? & ? & ?); by rewrite <- ?Hp. }
  clearbody w1. clear t Ht Hp. destruct (ch_timer _ I1) as (t & Ht & Hp).
  apply wp_bind. apply (wp_eq _ _ _ w1 w1); [done|]. apply wp_bind.
  assert (∀ w2, chan_ok w2 → live (c_state w2) → wp
    (timeout ← vgsm_timerset_next; modify (set_comm_thread AT_POLL);;
     mret (if timeout =? -1 then -1 else Z.max (Z.quot timeout 1000) 1))
    (λ (_ : Z) w', chan_ok w' ∧ live (c_state w') ∧ comm_thread w' = AT_POLL) w2) as Hrest.
  { intros w2 I2 Hl2. destruct (ch_timer _ I2) as (t2 & [E2 D2] & Hp2).
    assert (∃ n, vgsm_timerset_next w2 = Done (n, w2)) as [n Hn].
    { unfold vgsm_timerset_next. run. rewrite E2. cbn. destruct (timer_pending t2) eqn:P2.
      - rewrite (the_timer_eq w2 t2) by done. by eexists.
      - by eexists. }
    apply wp_bind. eapply wp_eq; [exact Hn|]. apply wp_bind. eapply wp_eq; [done|].
    apply wp_ret. split_and!; [|done..]. destruct I2. by constructor. }
  assert (wp (mret tt : Cm unit) (λ _, goes_on w1) w1) as Hskip by done.
  eapply (wp_mono _ (λ _, goes_on w1)).
  2: { intros [] w2 (I2 & Hl2 & _). by apply Hrest. }
  destruct (c_state w1) eqn:Hs; try done; try (by destruct Hl1).
  - by apply flush_ok.
  - by eapply process_ok.
Qed.

Lemma message_ok w :
  chan_ok w → live (c_state w) →
  wp vgsm_comm_receive_message
    (λ (stop : bool) w', chan_ok w' ∧ comm_thread w' = comm_thread w ∧
       if stop then c_state w' = VGSM_COMM_CLOSING else live (c_state w')) w.
Proof.
  intros I Hl. unfold vgsm_comm_receive_message. apply wp_bind. apply (wp_eq _ _ _ w w); [done|].
  destruct (cmd_pipe w) as [[|mt l]|]; [by apply wp_ret..| |by apply wp_ret].
  apply wp_bind. eapply wp_eq; [done|]. set (w1 := set_cmd_pipe _ w).
  assert (chan_ok w1) as I1 by (destruct I; by constructor).
  destruct (ch_timer _ I1) as (t & Ht & Hp). destruct mt.
  - apply wp_bind. eapply wp_eq; [by apply (change_state_eq w1 t)|]. apply wp_ret.
    split_and!; [|done..]. apply (chan_state I1 t); [done| |done].
    cbn. unfold stopped. by destruct (timer_pending t) eqn:P.
  - by apply wp_ret.
  - apply wp_bind. unfold message_in_state. apply wp_bind. apply (wp_eq _ _ _ w1 w1); [done|].
    destruct (c_state w1) eqn:Hs; try (by apply wp_ret, wp_ret); exfalso.
    all: cbn in Hs; destruct Hl; congruence.
Qed.

Lemma places_skip H n hd rq cq uq cur urc en ma :
  places H n hd rq cq uq cur urc en ma → places H (S n) hd rq cq uq cur urc en ma.
Proof.
  intros [[R1 R2 R3] I2 I3 I4 I5 I6 I7 I8 I9 I10 I11 I12]. constructor; try done.
  - constructor; try done. intros a Ha. specialize (R3 a Ha). lia.
  - eapply Forall_impl; [done|]. cbn. lia.
Qed.

Lemma occ_remove a b l : a ∈ l → occ b l = (occ b [a] + occ b (remove_one a l))%nat.
Proof.
  induction l as [|c l IH]; intros Ha; [by apply elem_of_nil in Ha|]. cbn [remove_one].
  rewrite !occ_cons, occ_nil. destruct (decide (c = a)) as [->|Hne]; [lia|].
  apply elem_of_cons in Ha as [?|Ha]; [congruence|]. rewrite occ_cons, (IH Ha), occ_cons, occ_nil. lia.
Qed.

#[export] Instance has_pdu_uncounted : Uncounted has_pdu.
Proof. by intros o rc. Qed.

(** a reference is dropped that a list or a caller had: [w'] is [w] without it *)
Lemma chan_put w w' a o :
  chan_ok w → vreqs w !! a = Some o → vreqs w' = h_put a o (vreqs w) → comm_places w' →
  c_state w' = c_state w → c_timerset w' = c_timerset w → c_buf w' = c_buf w →
  current_req w' = current_req w → current_urc w' = current_urc w → chan_ok w'.
Proof.
  intros I Ho Hv P' Es Et Eb Er Eu. constructor; [rewrite Eb; apply I| |done|].
  - destruct (ch_timer _ I) as (t & [E D] & Hp). exists t. rewrite Es. split; [split; [congruence|exact D]|done].
  - pose proof (ch_state _ I) as Hst. unfold state_ok in *. rewrite Es, Er, Eu.
    destruct (c_state w) eqn:Hs; try done.
    all: destruct Hst as [(q & Hq & Hpdu) ?]; split; [|done]; exists q; split; [done|].
    all: destruct P' as [P1 _ _ _ _ _ _ _ _ _ _ _]; rewrite Hv in *.
    all: assert (Forall (has (h_put a o (vreqs w)) has_pdu) [q]) as Hall; [|by inversion Hall].
    all: eapply has_put; [apply _|exact P1|done| |by constructor].
    all: intros b ->%list_elem_of_singleton; rewrite Er, Hq; cbn; rewrite !elem_of_app, elem_of_cons; tauto.
Qed.

(** a caller drops its reference *)
Lemma put_ok w req :
  comm_inv w → req ∈ held w →
  ∃ o, vreqs w !! req = Some o ∧
    let w' := set_held (remove_one req (held w)) w in
    _vgsm_req_put (Some req) w' = Done (tt, w_put req o w') ∧ comm_inv (w_put req o w').
Proof.
  intros [I T] Hr. pose proof (ch_places _ I) as P. pose proof P as [P1 _ _ _ _ _ _ _ _ _ _ _].
  destruct (ro_live _ _ _ P1 req) as [o Ho]; [apply elem_of_app; by left|].
  exists o. split; [done|]. cbv zeta. destruct (places_counted req o P Ho) as [Hc1 Hc2].
  split; [apply put_eq; [done|lia]|]. rewrite w_put_eq. split; [|exact T].
  eapply (chan_put w); try done. unfold comm_places. cbn.
  eapply (places_put req o); [exact P|done| |intros b|done..|tauto].
  - intros b. rewrite (occ_remove req b (held w)) by done. lia.
  - rewrite (occ_remove req b (held w)) by done. lia.
Qed.

Lemma urc_thread_ok w : comm_inv w → wp vgsm_comm_urc_thread_main (λ _, comm_inv) w.
Proof.
  intros [I T]. unfold vgsm_comm_urc_thread_main, vgsm_comm_dequeue_urc.
  apply wp_bind, wp_bind. apply (wp_eq _ _ _ w w); [done|].
  destruct (urc_queue w) as [|req l] eqn:Hq.
  { apply wp_ret. destruct (urc_thread_has_to_exit w); [|by apply wp_ret].
    eapply wp_eq; [done|]. split; [|exact T]. destruct I. by constructor. }
  pose proof (ch_places _ I) as P. pose proof P as [_ _ _ _ _ P6 _ _ _ _ _ _]. rewrite Hq in P6.
  inversion P6 as [|? ? (o & Ho & [cls Hc]) _]. pose proof (places_counted req o P Ho) as [Hc1 Hc2].
  apply wp_bind. eapply wp_eq; [done|]. apply wp_ret.
  apply wp_bind. eapply wp_eq; [by apply the_vreq_eq|]. rewrite Hc.
  assert (∀ w1, vreqs w1 = vreqs w → comm_inv (set_vreqs (h_put req o (vreqs w)) w1) →
    wp (_vgsm_req_put (Some req)) (λ _, comm_inv) w1) as Hput.
  { intros w1 E I1. eapply wp_eq; [apply (put_eq w1 req o); [by rewrite E|lia]|].
    rewrite w_put_eq, E. done. }
  assert (∀ x, comm_inv (set_vreqs (h_put req o (vreqs w)) (set_called x (set_urc_queue l w)))) as Hinv.
  { intros log. split; [|exact T]. eapply (chan_put w); try done. unfold comm_places. cbn.
    unfold comm_places in P. rewrite Hq in P.
    eapply (places_put req o); [exact P|done|..]; try done; try lia; try tauto.
    - intros b. rewrite occ_cons, occ_cons, occ_nil. lia.
    - intros b. rewrite occ_cons. lia. }
  apply wp_bind. unfold when. destruct (urc_handler cls).
  - eapply wp_eq; [done|]. apply Hput; [done|]. apply Hinv.
  - apply wp_ret. apply Hput; [done|]. exact (Hinv (called w)).
Qed.

Lemma completion_thread_ok w : comm_inv w → wp vgsm_comm_completion_thread_main (λ _, comm_inv) w.
Proof.
  intros [I T]. unfold vgsm_comm_completion_thread_main, vgsm_comm_dequeue_completion.
  apply wp_bind, wp_bind. apply (wp_eq _ _ _ w w); [done|].
  destruct (completion_queue w) as [|req l] eqn:Hq.
  { apply wp_ret. destruct (completion_thread_has_to_exit w); [|by apply wp_ret].
    eapply wp_eq; [done|]. split; [|exact T]. destruct I. by constructor. }
  pose proof (ch_places _ I) as P. pose proof P as [_ _ _ _ P5 _ _ _ _ _ _ _]. rewrite Hq in P5.
  inversion P5 as [|? ? (o & Ho & _) _]. pose proof (places_counted req o P Ho) as [Hc1 Hc2].
  apply wp_bind. eapply wp_eq; [done|]. apply wp_ret.
  apply wp_bind. eapply wp_eq; [by apply the_vreq_eq|].
  apply wp_bind. eapply wp_eq; [done|].
  assert (∀ w1, vreqs w1 = vreqs w → comm_inv (set_vreqs (h_put req o (vreqs w)) w1) →
    wp (_vgsm_req_put (Some req)) (λ _, comm_inv) w1) as Hput.
  { intros w1 E I1. eapply wp_eq; [apply (put_eq w1 req o); [by rewrite E|lia]|].
    rewrite w_put_eq, E. done. }
  assert (∀ x, comm_inv (set_vreqs (h_put req o (vreqs w))
    (set_called x (set_ended (ended w ++ [req]) (set_completion_queue l w))))) as Hinv.
  { intros log. split; [|exact T]. eapply (chan_put w); try done. unfold comm_places. cbn.
    unfold comm_places in P. rewrite Hq in P.
    eapply (places_put req o); [exact P|done|..]; try done; try lia.
    - intros b. rewrite occ_cons, occ_cons, occ_nil. lia.
    - intros b. rewrite occ_cons. lia.
    - by rewrite <- app_assoc.
    - intros b [?| ->%list_elem_of_singleton]%elem_of_app; [by left|right; by left]. }
  apply wp_bind. destruct (vr_completion o) as [data|].
  - eapply wp_eq; [done|]. apply Hput; [done|]. apply Hinv.
  - apply wp_ret. apply Hput; [done|]. exact (Hinv (called w)).
Qed.

(** ** Making requests *)

(** a request as it is put into the queue, where its caller and the queue have it *)
Definition made_req (a : make_args) : vgsm_req :=
  {| vr_refcnt := 2; vr_request := ma_text a ++ [CR];
     vr_sms_text_pdu := match ma_sms_pdu a with
                        | Some (b :: l) => Some ((b :: l) ≫= hex_octet)
                        | _ => None
                        end;
     vr_retransmit_cnt := 3; vr_ready := false; vr_completion := ma_completion a;
     vr_timeout := i32 (ma_timeout a + 100 * MILLISEC); vr_lines := []; vr_err := 0;
     vr_urc_class := None |}.

Lemma find_crlf_none s : Forall (λ c, c ≠ LF) s → find_crlf s = None.
Proof.
  induction 1 as [|a s Ha Hs IH]; [done|]. cbn. destruct Hs as [|b s Hb Hs]; [done|].
  rewrite (proj2 (Z.eqb_neq b LF)) by done. rewrite andb_false_r, IH. done.
Qed.

Lemma hex_octet_range b : is_octet b → Forall (λ c, 48 ≤ c ≤ 102) (hex_octet b).
Proof.
  intros Hb. unfold is_octet in Hb. unfold hex_octet, hex_digit.
  assert (0 ≤ b / 16 < 16) by (split; [apply Z.div_pos|apply Z.div_lt_upper_bound]; lia).
  assert (0 ≤ b mod 16 < 16) by (apply Z.mod_pos_bound; lia).
  repeat constructor; destruct (_ <? _) eqn:E;
    first [apply Z.ltb_lt in E|apply Z.ltb_ge in E]; lia.
Qed.
Lemma hex_octets_range pdu : Forall is_octet pdu → Forall (λ c, 48 ≤ c ≤ 102) (pdu ≫= hex_octet).
Proof.
  induction 1 as [|b pdu Hb Hp IH]; [constructor|]. cbn [mbind list_bind].
  apply Forall_app. split; [by apply hex_octet_range|done].
Qed.

Lemma made_unanswered a :
  args_ok a → (length (ma_text a) < 80)%nat → unanswered (made_req a).
Proof.
  intros [A1 A2 A3 A4] Hl. constructor; cbn; try done.
  - unfold i32, MILLISEC. rewrite Z.mod_small by lia. lia.
  - rewrite length_app. cbn. destruct (ma_text a); [done|]. cbn in *. lia.
  - apply Forall_app. split; [|by repeat constructor]. eapply Forall_impl; [exact A3|]. naive_solver.
  - apply find_crlf_none. apply Forall_app. split; [|by repeat constructor].
    eapply Forall_impl; [exact A3|]. naive_solver.
  - intros pdu Hp. destruct (ma_sms_pdu a) as [[|b l]|] eqn:E; [done| |done].
    injection Hp as <-. split; [cbn; lia|].
    exact (hex_octets_range (b :: l) (A4 _ eq_refl)).
Qed.

(** a request was made *)
Definition w_make (a : make_args) (w : vgsm_comm) : vgsm_comm :=
  let req := next_vreq w in
  set_cmd_pipe ((λ l, l ++ [VGSM_COMM_MSG_REFRESH]) <$> cmd_pipe w)
    (set_requests_queue (requests_queue w ++ [req])
      (w_vreq req (made_req a) (set_next_vreq (S req) w))).

Definition fits (a : make_args) : bool :=
  ma_alloc a && (Z.of_nat (length (ma_text a)) <? 80) &&
  match ma_sms_pdu a with Some (_ :: _) => ma_malloc a | _ => true end.

Lemma make_eq w a :
  next_vreq w ∉ queued w → vreqs w !! next_vreq w = None →
  vgsm_req_make_va OTHER_THREAD a w =
    Done (if fits a then (Some (next_vreq w), w_make a w)
          else (None, if ma_alloc a then set_next_vreq (S (next_vreq w)) w else w)).
Proof.
  intros Hq Hn. unfold vgsm_req_make_va, fits. destruct (ma_alloc a); cbn [negb andb]; [|done].
  unfold vgsm_req_alloc, put_vreq. run. set (o := mk_vreq 1 _ _ _ _ _ _ _ _ _).
  set (w1 := set_vreqs _ _). assert (vreqs w1 !! next_vreq w = Some o) as Ho by apply lookup_insert_eq.
  assert (∀ o1 w2, vr_refcnt o1 = 1 → w2 = w_vreq (next_vreq w) o1 w1 →
    _vgsm_req_put (Some (next_vreq w)) w2 = Done (tt, set_next_vreq (S (next_vreq w)) w)) as Hput.
  { intros o1 w2 E1 ->. rewrite (put_eq _ _ o1) by (apply w_vreq_lookup || lia).
    rewrite w_put_eq. unfold h_put. rewrite E1. cbn. do 2 f_equal. unfold w_vreq. cbn.
    rewrite insert_insert_eq, delete_insert_eq, delete_id by done.
    unfold w1. cbn. by destruct w. }
  destruct (Z.leb_spec (request_size - 2) (Z.of_nat (length (ma_text a)))) as [Hl|Hl];
    unfold request_size in Hl.
  { rewrite (proj2 (Z.ltb_ge _ _)) by lia. cbn. by rewrite (Hput o) by (done || by rewrite w_vreq_id). }
  rewrite (proj2 (Z.ltb_lt _ _)) by lia. cbn.
  rewrite (upd_vreq_eq w1 _ o) by done.
  do 4 (rewrite (upd_vreq_eq _ (next_vreq w) _) by apply w_vreq_lookup; rewrite w_vreq_twice).
  set (o1 := set_vr_completion _ _).
  assert (∀ o2, vr_refcnt o2 = 1 →
    (vgsm_req_get (next_vreq w);; unlinked (next_vreq w);;
     modify (λ w0, set_requests_queue (requests_queue w0 ++ [next_vreq w]) w0);;
     vgsm_comm_send_message OTHER_THREAD VGSM_COMM_MSG_REFRESH;;
     mret (Some (next_vreq w))) (w_vreq (next_vreq w) o2 w1) =
    Done (Some (next_vreq w),
      set_cmd_pipe ((λ l, l ++ [VGSM_COMM_MSG_REFRESH]) <$> cmd_pipe w)
        (set_requests_queue (requests_queue w ++ [next_vreq w])
          (w_vreq (next_vreq w) (set_vr_refcnt 2 o2) (set_next_vreq (S (next_vreq w)) w))))) as Hqueue.
  { intros o2 E2. run. rewrite (get_eq _ _ o2) by (apply w_vreq_lookup || by split; lia).
    rewrite w_vreq_twice, unlinked_eq by done. rewrite E2.
    unfold vgsm_comm_send_message, w1, w_vreq. run. rewrite insert_insert_eq.
    by destruct (cmd_pipe w) as [l|] eqn:Hp; cbn; rewrite ?Hp; destruct w; cbn in *; subst. }
  revert Hqueue. run. intros Hqueue.
  unfold w_make, made_req. destruct (ma_sms_pdu a) as [[|b l]|]; cbn.
  - by rewrite (Hqueue o1).
  - destruct (ma_malloc a); cbn.
    + rewrite (upd_vreq_eq _ (next_vreq w) _) by apply w_vreq_lookup. rewrite w_vreq_twice.
      by rewrite Hqueue.
    + by rewrite (Hput o1).
  - by rewrite (Hqueue o1).
Qed.

Lemma make_ok classes w a :
  comm_inv w → args_ok a → wp (vcomm_exec classes (ev_make a)) (λ _, comm_inv) w.
Proof.
  intros [I T] Ha. destruct (places_fresh (ch_places _ I)) as (Hn & Hz & _).
  cbn [vcomm_exec]. pose proof (make_eq w a (chan_next_unused I) Hn) as E.
  assert (comm_inv (if ma_alloc a then set_next_vreq (S (next_vreq w)) w else w)) as Hskip.
  { destruct (ma_alloc a); [|done]. split; [|exact T]. destruct I as [B1 B2 B3 B4].
    constructor; try done. by apply places_skip. }
  destruct (fits a) eqn:Hf; (apply wp_bind; eapply wp_eq; [exact E|]); [|by apply wp_ret].
  unfold fits in Hf. apply andb_prop in Hf as [[_ Hl%Z.ltb_lt]%andb_prop _].
  eapply wp_eq; [done|]. split; [|exact T]. destruct I as [B1 B2 B3 B4]. constructor; try done.
  - unfold comm_places. cbn. apply places_make; [exact B3|done|]. apply made_unanswered; [done|lia].
  - unfold state_ok in *. cbn. destruct (c_state w); try done.
    all: destruct B4 as [(q & Hq & oq & Hoq & Hpdu) ?]; split; [|done]; exists q; split; [done|].
    all: exists oq; split; [|done]; rewrite lookup_insert_ne; [done|congruence].
Qed.

Section exec.
Context (classes : list vgsm_urc_class).

Lemma poll_ok w message fd :
  chan_ok w → live (c_state w) → wpd (thread_poll classes message fd) (λ _, comm_inv) w.
Proof.
  intros I Hl. unfold thread_poll. apply wpd_bind.
  eapply (wpd_mono _ (λ (stop : bool) w', chan_ok w' ∧
       if stop then c_state w' = VGSM_COMM_CLOSING else live (c_state w'))).
  { apply wp_wpd. destruct message; [|by apply wp_ret].
    eapply wp_mono; [by apply message_ok|]. naive_solver. }
  intros [|] w1 [I1 Hs1].
  - apply wp_wpd. do 2 (apply wp_bind; eapply wp_eq; [done|]). eapply wp_eq; [done|].
    split; [|exact Hs1]. destruct I1. by constructor.
  - apply wpd_bind. eapply (wpd_mono _ (λ _ w', chan_ok w' ∧ live (c_state w'))).
    { destruct fd as [n|]; [|by apply wp_wpd, wp_ret]. apply wpd_bind.
      eapply wpd_mono; [by apply line_receive_ok|]. intros n' w2 (? & ? & _). by apply wp_wpd, wp_ret. }
    intros [] w2 [I2 Hl2]. apply wp_wpd. eapply wp_eq; [done|]. split; [|exact Hl2].
    destruct I2. by constructor.
Qed.

(** where nothing is read the iteration ends *)
Lemma poll_none_ok w message fd :
  chan_ok w → live (c_state w) → fd = None ∨ fd = Some None →
  wp (thread_poll classes message fd) (λ _, comm_inv) w.
Proof.
  intros I Hl Hfd. unfold thread_poll. apply wp_bind.
  eapply (wp_mono _ (λ (stop : bool) w', chan_ok w' ∧
       if stop then c_state w' = VGSM_COMM_CLOSING else live (c_state w'))).
  { destruct message; [|by apply wp_ret]. eapply wp_mono; [by apply message_ok|]. naive_solver. }
  intros [|] w1 [I1 Hs1].
  - do 2 (apply wp_bind; eapply wp_eq; [done|]). eapply wp_eq; [done|].
    split; [|exact Hs1]. destruct I1. by constructor.
  - assert (wp (modify (set_comm_thread AT_TOP)) (λ _, comm_inv) w1) as Hend.
    { eapply wp_eq; [done|]. split; [destruct I1; by constructor|exact Hs1]. }
    apply wp_bind. destruct Hfd as [->| ->]; [by apply wp_ret|].
    destruct (str_at_ex (c_buf w1) 0) as [s Hs]; [apply I1|lia|].
    apply wp_bind. unfold vgsm_comm_receive. apply wp_bind.
    eapply wp_eq; [apply (buf_string_eq w1 0 s); [apply I1|lia|done]|].
    by apply wp_ret, wp_ret.
Qed.

Lemma open_ok w pipe threads :
  comm_inv w → comm_thread w = NO_THREAD → current_req w = None → current_urc w = None →
  wp (vgsm_comm_open pipe threads) (λ _, comm_inv) w.
Proof.
  intros [I T] Ht Hr Hu. unfold thread_ok in T. rewrite Ht in T. destruct threads as [[x y] z].
  assert (∀ n p th ue u ce c, (th = AT_START ∨ th = NO_THREAD) →
    comm_inv (set_completion_thread c (set_completion_thread_has_to_exit ce (set_urc_thread u
      (set_urc_thread_has_to_exit ue (set_comm_thread th (set_cmd_pipe p (set_c_name n w)))))))) as Hinv.
  { intros n p th ue u ce c Hth. split; [destruct I; by constructor|].
    unfold thread_ok. cbn. by destruct Hth as [->| ->]. }
  unfold wp, vgsm_comm_open. run. rewrite bool_decide_eq_true_2 by done. cbn.
  pose proof (Hinv NAME_HEAP (cmd_pipe w) (comm_thread w) (urc_thread_has_to_exit w) (urc_thread w)
    (completion_thread_has_to_exit w) (completion_thread w) (or_intror Ht)) as H0.
  destruct (pipe =? 0); cbn; [|exact H0].
  destruct (x =? 0), (y =? 0), (z =? 0); cbn.
  all: match goal with |- comm_inv ?w' =>
    exact (Hinv NAME_HEAP (Some []) (comm_thread w') false (urc_thread w') false (completion_thread w')
             ltac:(cbn; tauto)) end.
Qed.

Lemma send_eq w mt :
  vgsm_comm_send_message OTHER_THREAD mt w =
    Done (tt, set_cmd_pipe ((λ l, l ++ [mt]) <$> cmd_pipe w) w).
Proof.
  unfold vgsm_comm_send_message. run. rewrite bool_decide_eq_true_2 by done. cbn.
  destruct (cmd_pipe w) as [l|] eqn:E; [done|]. cbn. by destruct w; cbn in *; subst.
Qed.

Lemma inv_init : comm_inv vgsm_comm_init.
Proof.
  split; [|done]. constructor; cbn.
  - by split.
  - eexists (mk_timer 1 false 0 None). by split; [split|].
  - constructor; cbn; try done; try apply NoDup_nil_2; try apply Forall_nil_2.
    constructor; [by intros a o ?%lookup_empty_Some|by intros a ?%elem_of_nil|].
    by intros a [o ?%lookup_empty_Some].
  - done.
Qed.

(** what a channel does next *)
Lemma exec_ok e w :
  comm_inv w → enabled e w = true → benign e w →
  wpd (vcomm_exec classes e) (λ _, comm_inv) w ∧
  (wp (vcomm_exec classes e) (λ _, comm_inv) w ∨ ∃ message n, e = ev_poll message (Some (Some n))).
Proof.
  intros I He Hb. assert (wp (vcomm_exec classes e) (λ _, comm_inv) w →
    wpd (vcomm_exec classes e) (λ _, comm_inv) w ∧
    (wp (vcomm_exec classes e) (λ _, comm_inv) w ∨ ∃ message n, e = ev_poll message (Some (Some n))))
    as Hwp by (intros Hwp; split; [by apply wp_wpd|by left]).
  pose proof I as [Ic It]. pose proof It as Ht. unfold thread_ok in Ht.
  destruct e; cbn [enabled benign vcomm_exec] in *; try apply bool_decide_eq_true in He.
  - apply Hwp. eapply wp_eq; [done|]. split; [destruct Ic; by constructor|done].
  - apply Hwp. eapply wp_eq; [done|]. split; [destruct Ic; by constructor|done].
  - apply Hwp. destruct Hb as (? & ? & ?). apply wp_bind.
    eapply wp_mono; [by apply open_ok|]. intros ? ? ?. by apply wp_ret.
  - apply Hwp. eapply wp_eq; [apply send_eq|]. split; [destruct Ic; by constructor|done].
  - apply Hwp. unfold vgsm_comm_close_end, wp. run. destruct (c_name w); [..|done]; cbn.
    all: split; [destruct Ic; by constructor|done].
  - apply Hwp. eapply wp_eq; [apply send_eq|]. split; [destruct Ic; by constructor|done].
  - apply Hwp. by apply make_ok.
  - apply Hwp. destruct (put_ok w req I He) as (o & Ho & E & I').
    apply wp_bind. eapply wp_eq; [done|]. eapply wp_eq; [exact E|done].
  - apply andb_prop in He as [He _]. apply bool_decide_eq_true in He.
    apply Hwp. destruct (put_ok w req I He) as (o & Ho & E & I').
    apply wp_bind. eapply wp_eq; [done|]. unfold vgsm_req_make_wait_result.
    apply wp_bind, wp_bind. eapply wp_eq; [by apply the_vreq_eq|].
    apply wp_bind. eapply wp_eq; [exact E|]. apply wp_ret. by apply wp_ret.
  - apply Hwp. rewrite He in Ht. destruct Ht as (Hs & Hr & Hu). destruct (ch_timer _ Ic) as (t & Htm & Hp).
    unfold thread_start. apply wp_bind. eapply wp_eq; [by apply (change_state_eq w t)|].
    eapply wp_eq; [done|]. split; [|by split].
    assert (chan_ok (set_c_state VGSM_COMM_IDLE (w_timer (next_timer (clock w) (-1) t) w))) as I1;
      [|destruct I1; by constructor].
    apply (chan_state Ic t); [done| |done]. cbn. unfold stopped. by destruct (timer_pending t) eqn:P.
  - apply Hwp. rewrite He in Ht. apply wp_bind. eapply wp_mono; [by apply top_ok|].
    intros n w1 (I1 & Hl & E). apply wp_ret. split; [done|]. unfold thread_ok. by rewrite E.
  - rewrite He in Ht. split; [by apply poll_ok|].
    destruct fd as [[n|]|]; [right; by eexists _, _|left..]; apply poll_none_ok; auto.
  - apply Hwp. apply andb_prop in He as [[He _]%andb_prop _]. apply bool_decide_eq_true in He.
    rewrite He in Ht. destruct (ch_timer _ Ic) as (t & Htm & Hp). unfold thread_exit.
    apply wp_bind. eapply wp_eq; [done|]. apply wp_bind.
    eapply wp_eq; [by apply (change_state_eq _ t)|]. eapply wp_eq; [done|]. split; [|done].
    assert (chan_ok (set_c_state VGSM_COMM_CLOSED (w_timer (next_timer (clock w) (-1) t) w))) as I1;
      [|destruct I1; by constructor].
    apply (chan_state Ic t); [done| |done]. cbn. unfold stopped. by destruct (timer_pending t) eqn:P.
  - apply Hwp. by apply urc_thread_ok.
  - apply Hwp. by apply completion_thread_ok.
Qed.
End exec.

(** ** The states of a channel *)

(** the states that executions reach in which the rest of the driver does its part *)
Inductive comm_reach (classes : list vgsm_urc_class) : vgsm_comm → Prop :=
| reach_init : comm_reach classes vgsm_comm_init
| reach_step w e w' :
    comm_reach classes w → enabled e w = true → benign e w →
    vcomm_exec classes e w = Done (tt, w') → comm_reach classes w'.

Lemma reach_inv classes w : comm_reach classes w → comm_inv w.
Proof.
  induction 1 as [|w e w' Hr IH He Hb E]; [apply inv_init|].
  destruct (exec_ok classes e w IH He Hb) as [Hw _]. unfold wpd in Hw. by rewrite E in Hw.
Qed.

Lemma reach_run classes es : ∀ w w',
  comm_reach classes w → (∀ e w1, e ∈ es → comm_reach classes w1 → enabled e w1 = true → benign e w1) →
  vcomm_run classes es w = Done (tt, w') → comm_reach classes w'.
Proof.
  induction es as [|e es IH]; intros w w' Hr Hb E; [by injection E as <-|].
  cbn [vcomm_run] in E. unfold mbind at 1 2, M_bind at 1 2 in E. cbn [get] in E.
  destruct (enabled e w) eqn:He.
  - destruct (vcomm_exec classes e w) as [[[] w1]|] eqn:Ex; [|done].
    eapply (IH w1); [|intros ? ? ?; apply Hb; by right|exact E].
    eapply reach_step; [exact Hr|exact He| |exact Ex]. apply Hb; [by left|done..].
  - eapply (IH w); [exact Hr|intros ? ? ?; apply Hb; by right|exact E].
Qed.

(** C10. Whatever the module sends and whenever, the channel meets no fault as long as the
    rest of the driver does its part: no assertion fails, no reference is used after it
    was given up, no access leaves the buffer and no list is corrupted; only the loop of
    the receiver may not end.  The part of the driver ([benign], in the states reached and
    in the event) is that requests are one line, not empty and without NUL, with a timeout
    of 0 to 2147383647 ms and a text of octets; that the channel is opened when no thread
    runs for it and nothing of it is being answered or read; and that it is not closed a
    second time.  Of these the code checks nothing but the state: opening a channel that is
    not closed fails the assertion there is, closing it twice frees a string literal, and
    opening it with a request still being answered fails an assertion later
    ([reopen_aborts] of [VgsmCommRun]). *)
Theorem channel_safe classes w :
  comm_reach classes w →
  (∀ e, enabled e w = true → benign e w →
    (∃ w', vcomm_exec classes e w = Done (tt, w')) ∨
    (vcomm_exec classes e w = Fault Diverges ∧ ∃ message n, e = ev_poll message (Some (Some n)))) ∧
  (c_name w = NAME_LITERAL → vcomm_exec classes ev_close_end w = Fault InvalidFree) ∧
  (∀ pipe threads, c_state w ≠ VGSM_COMM_CLOSED →
    vcomm_exec classes (ev_open pipe threads) w = Fault AssertFail).
Proof.
  intros Hr. split_and!.
  - intros e He Hb. destruct (exec_ok classes e w (reach_inv _ _ Hr) He Hb) as [Hd Hp].
    destruct (vcomm_exec classes e w) as [[[] w']|f] eqn:E; [left; by exists w'|right].
    unfold wpd in Hd. rewrite E in Hd. subst f. split; [done|].
    destruct Hp as [Hp|Hp]; [|done]. unfold wp in Hp. by rewrite E in Hp.
  - intros Hn. cbn [vcomm_exec]. unfold vgsm_comm_close_end, mbind, M_bind. cbn [get]. by rewrite Hn.
  - intros pipe threads Hs. cbn [vcomm_exec]. unfold vgsm_comm_open, mbind, M_bind. cbn [get].
    by rewrite bool_decide_false.
Qed.

(** C11. Every request that was made is in one place, in the order in which requests were
    made: waiting to be sent, being answered, waiting for its completion function, or
    completed; so each is completed once, and in that order.  A request has as many
    references as callers and lists have, the result of one that is completed can be
    read, and while the module is waited for the timer of the channel runs. *)
Theorem requests_in_order classes w :
  comm_reach classes w →
  made w = ended w ++ completion_queue w ++ opt_list (current_req w) ++ requests_queue w ∧
  NoDup (made w) ∧
  (∀ req o, vreqs w !! req = Some o →
     0 < vr_refcnt o ∧
     vr_refcnt o = Z.of_nat (occ req (held w) + occ req (queued w) +
       occ req (opt_list (current_req w) ++ opt_list (current_urc w))) ∧
     (req ∈ ended w ++ completion_queue w → vr_ready o = true) ∧
     (req ∈ opt_list (current_req w) ++ requests_queue w → vr_ready o = false)) ∧
  (waiting (c_state w) = true ↔
   ∃ t, c_timerset w = comm_ts t ∧ timer_pending t = true).
Proof.
  intros Hr. destruct (reach_inv _ _ Hr) as [I _]. pose proof (ch_places _ I) as P.
  pose proof P as [P1 P2 P3 P4 P5 P6 P7 P8 P9 P10 P11 P12].
  split; [exact P8|split; [exact P9|split; [|split]]].
  - intros req o Ho. destruct (ro_count _ _ _ P1 req o Ho) as [E Hp].
    split; [exact Hp|split; [|split]].
    + rewrite E. f_equal. unfold queued. rewrite !occ_app. lia.
    + intros [Ha|Ha]%elem_of_app; [by apply (P11 req o)|].
      rewrite Forall_forall in P5. destruct (P5 req Ha) as (o' & Ho' & Hready & _). congruence.
    + intros Ha. assert (req ∈ requests_queue w ++ opt_list (current_req w)) as Ha'.
      { rewrite elem_of_app in *. tauto. }
      rewrite Forall_forall in P4. destruct (P4 req Ha') as (o' & Ho' & Hun).
      replace o with o' by congruence. apply Hun.
  - intros Hw. destruct (ch_timer _ I) as (t & [E _] & Hp). exists t. by rewrite Hp.
  - intros (t & E & Hp). destruct (ch_timer _ I) as (t' & [E' _] & Hp').
    rewrite <- Hp'. rewrite E in E'. unfold comm_ts in E'. rewrite Hp in E'.
    by destruct (timer_pending t').
Qed.
