(* ===== verification/VgsmCommLine.v ===== *)
(** * Requests to the module: the line

    How the characters of the module should be taken: [spec_step] and [spec_loop] work on
    the list of the characters that were not taken yet, where the code has a buffer with
    remains of what was taken.  [receive_refines]: as long as the module keeps to the
    protocol the code does the same.  It does not when a prompt is not at the beginning of
    a line, and when only a line feed comes with the echo of a request. *)

From stdpp Require Import base list gmap strings.
From Stdlib Require Import ZArith Lia.
From S2P Require Import Prelude.
From S2P Require Import Bits.
From S2P Require Import VgsmText.
From S2P Require Import VgsmComm.
From S2P Require Import VgsmCommInv.
From S2P Require Import VgsmCommThm.
Local Open Scope Z_scope.
#[local] Arguments singletonM : simpl never.
#[local] Arguments _vgsm_req_put : simpl never.
#[local] Arguments vgsm_comm_change_state : simpl never.
#[local] Opaque the_comm_timer.

(** ** The line as a list of characters *)

(** [begin] characters are not part of the line *)
Definition spec_response (s : list Z) : Cm (option Z) :=
  w ← get;
  req ← deref (current_req w);
  match s with
  | [] => mret (Some 0)
  | c :: s1 =>
    let '(begin, body) := if c =? CR then (1%nat, s1) else (0%nat, s) in
    match body with
    | [] => mret (Some 0)
    | c :: s2 =>
      let '(begin, body) := if c =? LF then (S begin, s2) else (begin, body) in
      if starts_with (text "> ") body then
        if Nat.eqb begin 2 then n ← match_prompt req; mret (Some n) else mret None
      else
        match find_crlf (drop 2 s) with
        | None => mret (Some 0)
        | Some i =>
          response_line req (take (2 + i - begin) body);;
          mret (Some (2 + Z.of_nat i + 2))
        end
    end
  end.

Section classes.
Context (classes : list vgsm_urc_class).

Definition spec_urc_line (begin : nat) (s : list Z) : Cm (option Z) :=
  match find_crlf (drop begin s) with
  | None => mret (Some 0)
  | Some i =>
    urc_line classes (take i (drop begin s));;
    mret (Some (Z.of_nat begin + Z.of_nat i + 2))
  end.

Definition spec_urc (s : list Z) : Cm (option Z) :=
  match s with
  | [] => mret (Some 0)
  | c :: _ =>
    if negb (c =? CR) then
      if (c =? chr_plus) || (c =? chr_caret) then spec_urc_line 0 s else mret (Some 1)
    else
      match s with
      | _ :: c :: s2 =>
        if negb (c =? LF) then mret (Some 1)
        else
          match s2 with
          | c :: s3 =>
            if c =? CR then
              match s3 with
              | c :: _ => if negb (c =? LF) then mret (Some 1) else spec_urc_line 4 s
              | [] => mret (Some 0)
              end
            else spec_urc_line 2 s
          | [] => mret (Some 0)
          end
      | _ => mret (Some 0)
      end
  end.

Definition spec_urc_cont (s : list Z) : Cm (option Z) :=
  match find_crlf s with
  | None => mret (Some 0)
  | Some i =>
    w ← get;
    urc ← deref (current_urc w);
    urc_more_line urc (take i s);;
    mret (Some (Z.of_nat i + 2))
  end.

(** how many of the characters [s] are taken; nothing outside of the protocol *)
Definition spec_step (s : list Z) : Cm (option Z) :=
  w ← get;
  let the_current := req ← deref (current_req w); the_vreq req in
  match c_state w with
  | VGSM_COMM_CLOSED | VGSM_COMM_CLOSING => mret (Some 0)
  | VGSM_COMM_FAILED | VGSM_COMM_RECOVERING => mret (Some (Z.of_nat (length s)))
  | VGSM_COMM_IDLE => spec_urc s
  | VGSM_COMM_AWAITING_ECHO =>
    o ← the_current;
    let nmatch := echo_loop 0 s (vr_request o) in
    if 0 <? nmatch then
      if bool_decide (drop (Z.to_nat nmatch) s = [LF]) then mret None
      else
        vgsm_comm_change_state VGSM_COMM_READING_RESPONSE (vr_timeout o);;
        mret (Some nmatch)
    else if negb (nmatch =? 0) then spec_urc s
    else mret (Some 0)
  | VGSM_COMM_READING_URC | VGSM_COMM_AWAITING_ECHO_READING_URC => spec_urc_cont s
  | VGSM_COMM_AWAITING_SMS_ECHO =>
    o ← the_current;
    pdu ← deref (vr_sms_text_pdu o);
    let nmatch := echo_loop 0 s pdu in
    if 0 <? nmatch then
      write_fd [SUB];;
      vgsm_comm_change_state VGSM_COMM_AWAITING_SMS_ECHO_1A (-2);;
      mret (Some nmatch)
    else mret (Some 0)
  | VGSM_COMM_AWAITING_SMS_ECHO_1A =>
    let nmatch := echo_loop 0 s [SUB] in
    if 0 <? nmatch then
      o ← the_current;
      vgsm_comm_change_state VGSM_COMM_READING_RESPONSE (vr_timeout o);;
      mret (Some nmatch)
    else mret (Some 0)
  | VGSM_COMM_READING_RESPONSE => spec_response s
  end.

(** what is left of [s] *)
Fixpoint spec_loop (fuel : nat) (s : list Z) : Cm (option (list Z)) :=
  match fuel with
  | O => fail Diverges
  | S fuel =>
    r ← spec_step s;
    match r with
    | None => mret None
    | Some n => if n =? 0 then mret (Some s) else spec_loop fuel (drop (Z.to_nat n) s)
    end
  end.
(** an iteration that goes on takes a character *)
Definition spec_receive (s : list Z) : Cm (option (list Z)) := spec_loop (S (length s)) s.

End classes.

(** ** Computations that leave the buffer and the line alone *)

Definition w_line (b l : list Z) (w : vgsm_comm) : vgsm_comm := set_rx l (w_buf b w).
Definition blind {A} (m : Cm A) : Prop := ∀ w b l,
  m (w_line b l w) =
    match m w with Done (a, w') => Done (a, w_line b l w') | Fault f => Fault f end.

Lemma w_line_id w : w_line (c_buf w) (rx w) w = w.
Proof. by destruct w. Qed.
Lemma blind_keeps {A} (m : Cm A) w a w' :
  blind m → m w = Done (a, w') → c_buf w' = c_buf w ∧ rx w' = rx w.
Proof.
  intros Hm E. specialize (Hm w (c_buf w) (rx w)). rewrite w_line_id, E in Hm.
  injection Hm as Hm. rewrite Hm. done.
Qed.
Lemma blind_buf {A} (m : Cm A) w b :
  blind m → m (w_buf b w) = match m w with Done (a, w') => Done (a, w_buf b w') | Fault f => Fault f end.
Proof.
  intros Hm. change (w_buf b w) with (w_line b (rx w) w). rewrite Hm.
  destruct (m w) as [[a w']|] eqn:E; [|done]. destruct (blind_keeps m w a w' Hm E) as [_ <-]. done.
Qed.
Lemma blind_rx {A} (m : Cm A) w l :
  blind m → m (set_rx l w) = match m w with Done (a, w') => Done (a, set_rx l w') | Fault f => Fault f end.
Proof.
  intros Hm. assert (set_rx l w = w_line (c_buf w) l w) as -> by (by destruct w). rewrite Hm.
  destruct (m w) as [[a w']|] eqn:E; [|done]. destruct (blind_keeps m w a w' Hm E) as [<- _].
  by destruct w'.
Qed.

Lemma blind_bind {A B} (m : Cm A) (k : A → Cm B) :
  blind m → (∀ a, blind (k a)) → blind (m ≫= k).
Proof.
  intros Hm Hk w b l. unfold mbind, M_bind. rewrite Hm. destruct (m w) as [[a w']|]; [|done]. apply Hk.
Qed.
(** what is read is not the buffer *)
Lemma blind_get {A} (k : vgsm_comm → Cm A) :
  (∀ v, blind (k v)) → (∀ v b l, k (w_line b l v) = k v) → blind (get ≫= k).
Proof. intros Hk He w b l. unfold mbind, M_bind. cbn. rewrite He. apply Hk. Qed.
Lemma blind_ret {A} (a : A) : blind (mret a).
Proof. done. Qed.
Lemma blind_fail {A} f : blind (fail f : Cm A).
Proof. done. Qed.
Lemma blind_modify f : (∀ w b l, f (w_line b l w) = w_line b l (f w)) → blind (modify f).
Proof. intros Hf w b l. unfold modify. by rewrite Hf. Qed.
Lemma blind_deref {A} (o : option A) : blind (deref o).
Proof. by destruct o. Qed.
Lemma blind_assert c : blind (c_assert c).
Proof. by destruct c. Qed.
Lemma blind_when c (m : Cm unit) : blind m → blind (when c m).
Proof. by destruct c. Qed.

Create HintDb blind.
#[local] Hint Resolve blind_ret blind_fail blind_deref blind_assert : blind.

(** the branches of a computation, down to operations that are known *)
Ltac blind :=
  repeat match goal with
    | |- blind (get ≫= _) => apply blind_get; [intros ?|done]
    | |- blind (_ ≫= _) => apply blind_bind; [|intros ?]
    | |- blind (when _ _) => apply blind_when
    | |- blind (modify _) => apply blind_modify; done
    | |- blind (match ?x with _ => _ end) => destruct x
    | |- blind (let _ := _ in _) => cbv zeta
    | |- blind _ => solve [auto 1 with blind nocore]
    end.

Lemma blind_vreq req : blind (the_vreq req).
Proof. unfold the_vreq. blind. Qed.
#[local] Hint Resolve blind_vreq : blind.
Lemma blind_upd_vreq req f : blind (upd_vreq req f).
Proof. unfold upd_vreq, put_vreq. blind. Qed.
#[local] Hint Resolve blind_upd_vreq : blind.
Lemma blind_req_get req : blind (vgsm_req_get req).
Proof. unfold vgsm_req_get, put_vreq. blind. Qed.
Lemma blind_req_put req : blind (_vgsm_req_put req).
Proof. unfold _vgsm_req_put, put_vreq. blind. Qed.
Lemma blind_alloc : blind vgsm_req_alloc.
Proof. done. Qed.
Lemma blind_unlinked req : blind (unlinked req).
Proof. unfold unlinked. blind. Qed.
Lemma blind_write l : blind (write_fd l).
Proof. unfold write_fd. blind. Qed.
#[local] Hint Resolve blind_req_get blind_req_put blind_alloc blind_unlinked blind_write : blind.

Lemma blind_timer t : blind (the_timer t).
Proof. unfold the_timer. blind. Qed.
#[local] Hint Resolve blind_timer : blind.
Lemma blind_upd_timer t f : blind (upd_timer t f).
Proof. unfold upd_timer. blind. Qed.
Lemma blind_set_running l : blind (set_running l).
Proof. unfold set_running. blind. Qed.
#[local] Hint Resolve blind_upd_timer blind_set_running : blind.
Lemma blind_link t e l : blind (link_before t e l).
Proof. induction l; cbn [link_before]; blind. Qed.
#[local] Hint Resolve blind_link : blind.
Lemma blind_timer_add t e : blind (_vgsm_timer_add t e).
Proof. unfold _vgsm_timer_add. blind. Qed.
Lemma blind_unlink t : blind (timer_unlink t).
Proof. unfold timer_unlink. blind. Qed.
Lemma blind_comm_timer t a v : blind (vgsm_comm_timer t a v).
Proof.
  intros w b l. unfold vgsm_comm_timer. destruct a; run;
    by destruct (all_timers (c_timerset w) !! t).
Qed.
#[local] Hint Resolve blind_timer_add blind_unlink blind_comm_timer : blind.
Lemma blind_start t e d : blind (vgsm_timer_start t e d).
Proof.
  unfold vgsm_timer_start. change timer_func with vgsm_comm_timer.
  change timers_updated with (vgsm_comm_timers_updated COMM_THREAD).
  unfold vgsm_comm_timers_updated. rewrite bool_decide_eq_false_2 by tauto. cbn [when]. blind.
Qed.
Lemma blind_stop t : blind (vgsm_timer_stop t).
Proof. unfold vgsm_timer_stop. change timer_func with vgsm_comm_timer. blind. Qed.
#[local] Hint Resolve blind_start blind_stop : blind.
Lemma blind_delta t d v : blind (vgsm_timer_start_delta t d v).
Proof. unfold vgsm_timer_start_delta. blind. Qed.
#[local] Hint Resolve blind_delta : blind.
Lemma blind_state s d : blind (vgsm_comm_change_state s d).
Proof. unfold vgsm_comm_change_state. blind. Qed.
#[local] Hint Resolve blind_state : blind.
Lemma blind_complete req err : blind (complete_req req err).
Proof. unfold complete_req. blind. Qed.
#[local] Hint Resolve blind_complete : blind.
Lemma blind_response req line : blind (response_line req line).
Proof. unfold response_line, add_line. blind. Qed.
Lemma blind_prompt req : blind (match_prompt req).
Proof. unfold match_prompt. blind. Qed.
Lemma blind_more urc line : blind (urc_more_line urc line).
Proof. unfold urc_more_line, add_line. blind. Qed.
Lemma blind_urc classes line : blind (urc_line classes line).
Proof. unfold urc_line, add_line. blind. Qed.
#[local] Hint Resolve blind_response blind_prompt blind_more blind_urc : blind.

Lemma blind_spec_step classes s : blind (spec_step classes s).
Proof.
  unfold spec_step, spec_urc, spec_urc_line, spec_urc_cont, spec_response. blind.
Qed.
#[local] Hint Resolve blind_spec_step : blind.
Lemma blind_spec_loop classes fuel : ∀ s, blind (spec_loop classes fuel s).
Proof. induction fuel; intros s; cbn [spec_loop]; blind. Qed.

Section classes.
Context (classes : list vgsm_urc_class).

(** ** Searching for the end of a line *)

Lemma find_crlf_take s i : find_crlf s = Some i → find_crlf (take i s) = None.
Proof.
  revert i. induction s as [|a s IH]; intros i; [done|]. cbn [find_crlf].
  destruct s as [|b s]; [done|]. destruct (_ && _) eqn:E; [by intros [= <-]|].
  destruct (find_crlf (b :: s)) as [j|] eqn:Hj; [|done]. intros [= <-]. specialize (IH j eq_refl).
  cbn [take]. destruct j as [|j]; [done|]. cbn [take find_crlf] in *. rewrite E, IH. done.
Qed.

Lemma find_crlf_drop s k : find_crlf s = None → find_crlf (drop k s) = None.
Proof.
  revert s. induction k as [|k IH]; intros s Hs; [done|]. destruct s as [|a s]; [done|].
  cbn. apply IH. cbn in Hs. destruct s as [|b s]; [done|].
  destruct (_ && _); [done|]. by destruct (find_crlf (b :: s)).
Qed.

Lemma find_crlf_snoc s x : find_crlf s = None → x ≠ LF → find_crlf (s ++ [x]) = None.
Proof.
  intros Hs Hx. induction s as [|a s IH]; [done|]. cbn in *. destruct s as [|b s]; cbn.
  - rewrite (proj2 (Z.eqb_neq x LF)) by done. by rewrite andb_false_r.
  - destruct (_ && _); [done|]. destruct (find_crlf (b :: s)) eqn:E; [done|].
    cbn in IH. by rewrite IH.
Qed.

Lemma find_crlf_cons a s :
  a ≠ CR ∨ head s ≠ Some LF → find_crlf (a :: s) = S <$> find_crlf s.
Proof.
  intros H. cbn [find_crlf]. destruct s as [|b s]; [done|].
  destruct (Z.eqb_spec a CR) as [->|]; [|done]. destruct (Z.eqb_spec b LF) as [->|]; [|done].
  cbn in H. naive_solver.
Qed.

Lemma find_crlf_no_cr s x : Forall (λ c, c ≠ CR) s → find_crlf (s ++ [x]) = None.
Proof.
  induction 1 as [|a s Ha Hs IH]; [done|]. cbn [app]. rewrite find_crlf_cons by auto. by rewrite IH.
Qed.

(** the first one is found where there is one *)
Lemma find_crlf_app s i k : find_crlf s = Some i → find_crlf (s ++ k) = Some i.
Proof.
  revert i. induction s as [|a s IH]; intros i; [done|]. destruct s as [|b s]; [done|].
  destruct (decide (a = CR ∧ b = LF)) as [[-> ->]|Hne]; [done|].
  rewrite (find_crlf_cons a (b :: s)) by (cbn; destruct (decide (a = CR)); naive_solver).
  cbn [app] in *. rewrite (find_crlf_cons a (b :: s ++ k)) by (cbn; destruct (decide (a = CR)); naive_solver).
  destruct (find_crlf (b :: s)) as [j|]; [|done]. intros [= <-]. by rewrite (IH j eq_refl).
Qed.

Lemma echo_loop_spec snt : ∀ n s, 0 ≤ n →
  (∃ rest, s = snt ++ rest ∧ echo_loop n s snt = n + Z.of_nat (length snt)) ∨
  ((∃ rest, snt = s ++ rest ∧ rest ≠ []) ∧ echo_loop n s snt = 0) ∨
  echo_loop n s snt = -1.
Proof.
  induction snt as [|c snt IH]; intros n s Hn.
  - left. exists s. split; [done|]. destruct s; cbn; lia.
  - destruct s as [|b s]; [right; left; split; [by exists (c :: snt)|done]|]. cbn.
    destruct (Z.eqb_spec b c) as [->|]; [|by right; right].
    destruct (IH (n + 1) s) as [(r & -> & E)|[[(r & -> & Hr) E]|E]]; [lia|..].
    + left. exists r. split; [done|]. rewrite E. lia.
    + right. left. split; [by exists r|done].
    + by right; right.
Qed.

(** ** The code and the list *)

(** the states that look for the end of a line behind the second character *)
Definition searching (s : vgsm_comm_state) : bool :=
  match s with
  | VGSM_COMM_AWAITING_SMS_ECHO | VGSM_COMM_AWAITING_SMS_ECHO_1A | VGSM_COMM_READING_RESPONSE => true
  | _ => false
  end.
(** where there is at most one character, what is behind it is not the end of a line *)
Definition no_remains (s : vgsm_comm_state) (b : list Z) (n : nat) : Prop :=
  searching s = true → (n ≤ 1)%nat → ∀ x, str_at b 2 x → find_crlf x = None.

(** the states that throw away what comes *)
Definition throws (s : vgsm_comm_state) : bool :=
  match s with VGSM_COMM_FAILED | VGSM_COMM_RECOVERING => true | _ => false end.

(** [code] does with the buffer that holds [s] what [spec] does with [s] *)
Definition sim (w : vgsm_comm) (s : list Z) (spec : Cm (option Z)) (code : Cm Z) : Prop :=
  ∃ r w1, spec w = Done (r, w1) ∧ goes_on w w1 ∧
    ∀ n, r = Some n →
      0 ≤ n ≤ Z.of_nat (length s) ∧
      ∃ b, code w = Done (n, w_buf b w1) ∧ buf_ok b ∧ (n = 0 → w_buf b w1 = w) ∧
        (0 < n → str_at b (Z.to_nat n) (drop (Z.to_nat n) s) ∧
                 no_remains (c_state w1) b (length s - Z.to_nat n) ∧
                 (throws (c_state w1) = true → Z.to_nat n = length s)).

Lemma w_buf_id w : w_buf (c_buf w) w = w.
Proof. by destruct w. Qed.

Lemma str_cut buf s begin i :
  str_at buf 0 s → (begin + i ≤ length s)%nat →
  str_at (<[(begin + i)%nat := 0]> buf) begin (take i (drop begin s)).
Proof.
  intros (rest & E & Hs) Hi. rewrite drop_0 in E. exists (drop (begin + i + 1) (s ++ 0 :: rest)).
  split; [|by apply Forall_take, Forall_drop]. subst buf.
  rewrite drop_insert_ge, Nat.add_sub' by lia. rewrite drop_app_le by lia.
  rewrite insert_take_drop by (rewrite length_app, length_drop; cbn; lia).
  rewrite take_app_le by (rewrite length_drop; lia). f_equal. f_equal.
  replace (begin + i + 1)%nat with (begin + S i)%nat by lia. rewrite <- drop_drop.
  by rewrite (drop_app_le s) by lia.
Qed.

Lemma str_behind buf s e k :
  str_at buf 0 s → (e < k ≤ length s)%nat → str_at (<[e := 0]> buf) k (drop k s).
Proof.
  intros Hs Hk. destruct (str_at_drop buf 0 s k Hs) as (rest & E & Hn); [lia|]. exists rest.
  split; [|done]. by rewrite drop_insert_lt by lia.
Qed.

Section sim.
Context {w : vgsm_comm} {s : list Z} (I : chan_ok w) (Hl : live (c_state w))
  (Hs : str_at (c_buf w) 0 s).

Lemma sim_zero spec code :
  spec w = Done (Some 0, w) → code w = Done (0, w) → sim w s spec code.
Proof.
  intros E1 E2. exists (Some 0), w. split; [done|split; [done|]]. intros n [= <-]. split; [lia|].
  exists (c_buf w). rewrite w_buf_id.
  split; [done|split; [apply I|split; [done|lia]]].
Qed.

Lemma sim_none spec code w1 : spec w = Done (None, w1) → goes_on w w1 → sim w s spec code.
Proof. intros E1 G. exists None, w1. by split; [|split]. Qed.

(** [n] characters are taken as they are *)
Lemma sim_take spec code n w1 :
  spec w = Done (Some (Z.of_nat n), w1) → code w = Done (Z.of_nat n, w1) → goes_on w w1 →
  (0 < n ≤ length s)%nat → c_buf w1 = c_buf w →
  no_remains (c_state w1) (c_buf w) (length s - n) →
  (throws (c_state w1) = true → n = length s) → sim w s spec code.
Proof.
  intros E1 E2 G Hn Eb Hr Hth. exists (Some (Z.of_nat n)), w1. split; [done|split; [done|]].
  intros ? [= <-]. rewrite Nat2Z.id. split; [lia|]. exists (c_buf w). split; [|split; [|split]].
  - rewrite <- Eb, w_buf_id. done.
  - apply I.
  - lia.
  - intros _. split; [apply (str_at_drop _ 0); [done|lia]|done].
Qed.

(** a line that ends at [e] is taken *)
Lemma sim_line spec code e w1 :
  spec w = Done (Some (Z.of_nat e + 2), w1) →
  code w = Done (Z.of_nat e + 2, w_buf (<[e := 0]> (c_buf w)) w1) → goes_on w w1 →
  (e + 2 ≤ length s)%nat →
  no_remains (c_state w1) (<[e := 0]> (c_buf w)) (length s - (e + 2)) →
  throws (c_state w1) = false → sim w s spec code.
Proof.
  intros E1 E2 G Hn Hr Hth. exists (Some (Z.of_nat e + 2)), w1. split; [done|split; [done|]].
  intros ? [= <-]. replace (Z.of_nat e + 2) with (Z.of_nat (e + 2)) in * by lia. rewrite Nat2Z.id.
  split; [lia|]. exists (<[e := 0]> (c_buf w)). split; [|split; [|split]].
  - done.
  - apply buf_ok_insert, I.
  - lia.
  - intros _. split; [by apply str_behind; [|lia]|split; [done|congruence]].
Qed.

Lemma sim_ext spec spec' code code' :
  spec w = spec' w → code w = code' w → sim w s spec' code' → sim w s spec code.
Proof. unfold sim. by intros -> ->. Qed.

Lemma char_eq k : (k ≤ length s)%nat → buf_char (Z.of_nat k) w = Done (nth k s 0, w).
Proof. intros Hk. apply buf_char_eq. by apply (str_at_char _ 0). Qed.
Lemma string_eq k : (k ≤ length s)%nat → buf_string (Z.of_nat k) w = Done (drop k s, w).
Proof.
  intros Hk. pose proof (str_at_length _ _ _ (ch_buf _ I) Hs) as Hlen.
  apply buf_string_eq; [apply I|lia|]. by apply (str_at_drop _ 0).
Qed.

(** a prompt, which begins a line *)
Lemma sim_prompt req :
  c_state w = VGSM_COMM_READING_RESPONSE → current_req w = Some req →
  starts_with (text "> ") (drop 2 s) = true →
  sim w s (n ← match_prompt req; mret (Some n)) (match_prompt req).
Proof.
  intros Hst Hr Hp. unfold starts_with in Hp. apply bool_decide_eq_true in Hp.
  assert (∃ rest, drop 2 s = 62 :: 32 :: rest) as [rest Hd].
  { change (take 2 (drop 2 s) = [62; 32]) in Hp. destruct (drop 2 s) as [|a [|b r]]; try done.
    cbn in Hp. injection Hp as -> ->. by exists r. }
  assert (length s = 4 + length rest)%nat as Hlen.
  { pose proof (f_equal length Hd) as E. rewrite length_drop in E. cbn in E. lia. }
  assert (∀ st, no_remains st (c_buf w) (length s - 4)) as Hrem.
  { intros st _ Hle x Hx. apply (str_at_unique _ _ _ (drop 2 s)) in Hx.
    2: { apply (str_at_drop _ 0); [done|lia]. }
    rewrite Hx, Hd. rewrite !find_crlf_cons by (by left). destruct rest as [|y [|z r]]; [done..|].
    cbn in Hlen. lia. }
  destruct (chan_current I req Hr) as (o & Ho & _). destruct (ch_timer _ I) as (t & Ht & Hpend).
  destruct (vr_sms_text_pdu o) as [pdu|] eqn:Hpdu.
  - set (w1 := set_c_state VGSM_COMM_AWAITING_SMS_ECHO
      (w_timer (armed (clock w + SMS_ECHO_TIMEOUT) t) (set_tx (tx w ++ [pdu]) w))).
    assert (match_prompt req w = Done (4, w1)) as E.
    { unfold match_prompt. run. rewrite (the_vreq_eq w req o) by done. rewrite Hpdu. cbn.
      by rewrite (change_state_eq _ t). }
    apply (sim_take _ _ 4 w1); [by unfold mbind, M_bind; rewrite E|done| |lia|done..].
    assert (chan_ok (set_tx (tx w ++ [pdu]) w)) as I' by (destruct I; by constructor).
    split; [|split; [by split|done]].
    apply (chan_state I' t VGSM_COMM_AWAITING_SMS_ECHO SMS_ECHO_TIMEOUT); [done|done|]. split.
    + exists req. split; [done|]. exists o. split; [done|]. unfold has_pdu. rewrite Hpdu. by eexists.
    + pose proof (ch_state _ I) as H. unfold state_ok in H. rewrite Hst in H. apply H.
  - assert (match_prompt req w = Done (4, set_tx (tx w ++ [[ESC]]) w)) as E.
    { unfold match_prompt. run. rewrite (the_vreq_eq w req o) by done. by rewrite Hpdu. }
    apply (sim_take _ _ 4 (set_tx (tx w ++ [[ESC]]) w));
      [by unfold mbind, M_bind; rewrite E|done| |lia|done|done|cbn; by rewrite Hst].
    split; [|done]. destruct I; by constructor.
Qed.

(** a line of the response *)
Lemma sim_response_line req begin :
  c_state w = VGSM_COMM_READING_RESPONSE → current_req w = Some req →
  (begin ≤ 2)%nat → (begin ≤ length s)%nat → s ≠ [] →
  no_remains (c_state w) (c_buf w) (length s) →
  sim w s
    match find_crlf (drop 2 s) with
    | None => mret (Some 0)
    | Some i =>
      response_line req (take (2 + i - begin) (drop begin s));; mret (Some (2 + Z.of_nat i + 2))
    end
    (match_line req (Z.of_nat begin)).
Proof.
  intros Hst Hr Hb Hb2 Hne Hrem. unfold match_line.
  pose proof (str_at_length _ _ _ (ch_buf _ I) Hs) as Hlen.
  destruct (decide (2 ≤ length s)%nat) as [H2|H2].
  2: { rewrite (drop_ge s 2) by lia. apply sim_zero; [done|].
       destruct (str_at_ex (c_buf w) 2) as [x Hx]; [apply I|lia|].
       unfold mbind at 1, M_bind at 1.
       rewrite (buf_string_eq w 2 x : _ → _ → _ → buf_string 2 w = _) by (apply I || done || lia).
       rewrite (Hrem ltac:(by rewrite Hst) ltac:(lia) x Hx). done. }
  assert (buf_string 2 w = Done (drop 2 s, w)) as E2 by exact (string_eq 2 H2).
  destruct (find_crlf (drop 2 s)) as [i|] eqn:Hi.
  2: { apply sim_zero; [done|]. unfold mbind at 1, M_bind at 1. rewrite E2. by rewrite Hi. }
  pose proof (find_crlf_bound _ _ Hi) as Hbd. rewrite length_drop in Hbd.
  destruct (ch_timer _ I) as (t & Ht & Hp). destruct (chan_current I req Hr) as (o & Ho & _ & Hc & Hq).
  set (line := take _ _). apply (sim_line _ _ (2 + i) (w_response req o line t w)).
  - unfold mbind at 1, M_bind at 1. rewrite (response_line_eq w t req o) by done.
    replace (Z.of_nat (2 + i) + 2) with (2 + Z.of_nat i + 2) by lia. done.
  - unfold mbind at 1, M_bind at 1. rewrite E2, Hi.
    replace (2 + Z.of_nat i) with (Z.of_nat (2 + i)) by lia.
    unfold mbind at 1, M_bind at 1. rewrite set_buf_char_eq by (destruct (ch_buf _ I); lia).
    set (w2 := w_buf _ w). unfold mbind at 1, M_bind at 1.
    rewrite (buf_string_eq w2 begin line).
    + unfold mbind at 1, M_bind at 1. rewrite (response_line_eq w2 t req o) by done.
      unfold w2, w_response. by destruct (_ =? _).
    + apply buf_ok_insert, I.
    + lia.
    + pose proof (str_cut (c_buf w) s begin (2 + i - begin) Hs ltac:(lia)) as Hcut.
      by replace (begin + (2 + i - begin))%nat with (2 + i)%nat in Hcut by lia.
  - by apply (chan_response I).
  - lia.
  - intros _ _ x Hx. apply (str_at_unique _ _ _ (take i (drop 2 s))) in Hx.
    2: { apply str_cut; [done|lia]. }
    rewrite Hx. by apply find_crlf_take.
  - unfold w_response. destruct (_ =? _); cbn; [by rewrite Hst|done].
Qed.

Lemma sim_response :
  c_state w = VGSM_COMM_READING_RESPONSE → no_remains (c_state w) (c_buf w) (length s) →
  sim w s (spec_response s) vgsm_match_response.
Proof.
  intros Hst Hrem. pose proof (ch_state _ I) as Hok. unfold state_ok in Hok. rewrite Hst in Hok.
  destruct Hok as [[req Hr] Hu].
  assert (∀ c z i (k : Z → Cm Z), z = Z.of_nat i → (i ≤ length s)%nat → nth i s 0 = c →
    (buf_char z ≫= k) w = k c w) as Hchar.
  { intros c z i k -> Hi <-. unfold mbind, M_bind. by rewrite (char_eq i Hi). }
  (* from where the beginning of the line is known *)
  assert (∀ begin, (begin ≤ 2)%nat → (begin ≤ length s)%nat → s ≠ [] → sim w s
    (if starts_with (text "> ") (drop begin s) then
       if Nat.eqb begin 2 then n ← match_prompt req; mret (Some n) else mret None
     else match find_crlf (drop 2 s) with
          | None => mret (Some 0)
          | Some i =>
            response_line req (take (2 + i - begin) (drop begin s));;
            mret (Some (2 + Z.of_nat i + 2))
          end)
    (s' ← buf_string (Z.of_nat begin);
     if starts_with (text "> ") s' then match_prompt req else match_line req (Z.of_nat begin)))
    as Hbegin.
  { intros begin Hb Hb2 Hne. eapply sim_ext; [reflexivity| |].
    { unfold mbind at 1, M_bind at 1. rewrite (string_eq begin Hb2). reflexivity. }
    destruct (starts_with _ (drop begin s)) eqn:Hp; [|by apply sim_response_line].
    destruct (Nat.eqb_spec begin 2) as [->|]; [by apply sim_prompt|].
    by eapply sim_none. }
  assert (s = [] ∨ ∃ c s1, s = c :: s1 ∧ c ≠ 0) as [Es|(c & s1 & Es & Hc)].
  { destruct Hs as (rest & _ & Hnz). destruct s as [|c s1]; [by left|right].
    inversion Hnz. by exists c, s1. }
  { apply sim_zero; unfold spec_response, vgsm_match_response; unfold mbind at 1, M_bind at 1; cbn [get].
    - rewrite Hr, Es. done.
    - rewrite Hr. rewrite (Hchar 0 0 0%nat) by (rewrite ?Es; done || cbn; lia). done. }
  assert (s ≠ []) as Hne by (rewrite Es; done).
  assert (0 < length s)%nat as Hlen by (rewrite Es; cbn; lia).
  assert (vgsm_match_response w =
    (if c =? 0 then mret 0
     else let begin := if c =? CR then 1 else 0 in
          c ← buf_char begin;
          if c =? 0 then mret 0
          else let begin := if c =? LF then begin + 1 else begin in
               s ← buf_string begin;
               if starts_with (text "> ") s then match_prompt req else match_line req begin) w) as Ecode.
  { unfold vgsm_match_response. unfold mbind at 1, M_bind at 1. cbn [get]. rewrite Hr.
    apply (Hchar c 0 0%nat); [done|lia|by rewrite Es]. }
  rewrite (proj2 (Z.eqb_neq c 0)) in Ecode by done.
  destruct (Z.eqb_spec c CR) as [->|Hcr].
  - destruct s1 as [|c1 s2].
    { apply sim_zero; [by unfold spec_response; run; rewrite Hr, Es|].
      rewrite Ecode. apply (Hchar 0 1 1%nat); by rewrite ?Es. }
    assert (c1 ≠ 0) as Hc1.
    { destruct Hs as (rest & _ & Hnz). rewrite Es in Hnz. inversion Hnz as [|? ? _ Hnz']. by inversion Hnz'. }
    assert (1 < length s)%nat as Hlen1 by (rewrite Es; cbn; lia).
    rewrite (Hchar c1 1 1%nat) in Ecode by (lia || by rewrite ?Es).
    rewrite (proj2 (Z.eqb_neq c1 0)) in Ecode by done.
    destruct (Z.eqb_spec c1 LF) as [->|Hlf].
    + refine (sim_ext _ _ _ _ _ Ecode (Hbegin 2%nat _ _ Hne)); [|lia..].
      unfold spec_response. run. rewrite Hr, Es. done.
    + refine (sim_ext _ _ _ _ _ Ecode (Hbegin 1%nat _ _ Hne)); [|lia..].
      unfold spec_response. run. rewrite Hr, Es. cbn. rewrite (proj2 (Z.eqb_neq c1 LF)) by done. done.
  - rewrite (Hchar c 0 0%nat) in Ecode by (lia || by rewrite ?Es).
    rewrite (proj2 (Z.eqb_neq c 0)) in Ecode by done.
    destruct (Z.eqb_spec c LF) as [->|Hlf].
    + refine (sim_ext _ _ _ _ _ Ecode (Hbegin 1%nat _ _ Hne)); [|lia..].
      unfold spec_response. run. rewrite Hr, Es. done.
    + refine (sim_ext _ _ _ _ _ Ecode (Hbegin 0%nat _ _ Hne)); [|lia..].
      unfold spec_response. run. rewrite Hr, Es. cbn.
      rewrite (proj2 (Z.eqb_neq c CR)), (proj2 (Z.eqb_neq c LF)) by done. done.
Qed.

Lemma sim_urc_line begin :
  c_state w = VGSM_COMM_IDLE ∨ c_state w = VGSM_COMM_AWAITING_ECHO → (begin ≤ length s)%nat →
  sim w s (spec_urc_line classes begin s) (match_urc_line classes (Z.of_nat begin)).
Proof.
  intros Hst Hb. unfold spec_urc_line, match_urc_line.
  pose proof (str_at_length _ _ _ (ch_buf _ I) Hs) as Hlen.
  destruct (find_crlf (drop begin s)) as [i|] eqn:Hi.
  2: { apply sim_zero; [done|]. unfold mbind at 1, M_bind at 1. rewrite (string_eq begin Hb), Hi. done. }
  pose proof (find_crlf_bound _ _ Hi) as Hbd. rewrite length_drop in Hbd.
  destruct (ch_timer _ I) as (t & Ht & Hp). pose proof (chan_next_unused I) as Hq.
  assert (current_urc w = None) as Hu.
  { pose proof (ch_state _ I) as Hok. unfold state_ok in Hok.
    destruct Hst as [E|E]; rewrite E in Hok; apply Hok. }
  set (line := take i (drop begin s)).
  apply (sim_line _ _ (begin + i) (match find_urc_class classes line with
    | Some cls => w_urc cls line t w | None => w end)).
  - unfold mbind at 1, M_bind at 1. rewrite (urc_line_eq classes w t line) by done.
    by rewrite Nat2Z.inj_add.
  - unfold mbind at 1, M_bind at 1. rewrite (string_eq begin Hb), Hi, <- Nat2Z.inj_add.
    unfold mbind at 1, M_bind at 1. rewrite set_buf_char_eq by (destruct (ch_buf _ I); lia).
    set (w2 := w_buf _ w). unfold mbind at 1, M_bind at 1. cbn [get].
    unfold mbind at 1, M_bind at 1. unfold c_assert.
    rewrite bool_decide_eq_true_2 by done. unfold mbind at 1, M_bind at 1. cbn [mret M_ret].
    rewrite (buf_string_eq w2 begin line); [|apply buf_ok_insert, I|lia|by apply str_cut; [|lia]].
    unfold mbind at 1, M_bind at 1. rewrite (urc_line_eq classes w2 t line) by done.
    unfold w2. destruct (find_urc_class classes line) as [cls|]; [|done].
    unfold w_urc. cbn. destruct (detect_end cls); [|by destruct (bool_decide _)].
    done.
  - destruct (find_urc_class classes line) as [cls|]; [by apply (chan_urc I)|by split].
  - lia.
  - intros Hse. exfalso. revert Hse. destruct (find_urc_class classes line) as [cls|].
    + unfold w_urc. destruct (detect_end cls); cbn; [by destruct (bool_decide _)|].
      destruct (bool_decide _); cbn; [done|]. by destruct Hst as [-> | ->].
    + by destruct Hst as [-> | ->].
  - destruct (find_urc_class classes line) as [cls|].
    + unfold w_urc. destruct (detect_end cls); cbn; [by destruct (bool_decide _)|].
      destruct (bool_decide _); cbn; [done|]. by destruct Hst as [-> | ->].
    + by destruct Hst as [-> | ->].
Qed.

Lemma sim_urc :
  c_state w = VGSM_COMM_IDLE ∨ c_state w = VGSM_COMM_AWAITING_ECHO →
  sim w s (spec_urc classes s) (vgsm_comm_match_urc classes).
Proof.
  intros Hst. assert (∀ st, searching st = true → st ≠ c_state w) as Hse
    by (intros st E ->; by destruct Hst as [F|F]; rewrite F in E).
  assert (∀ c z i (k : Z → Cm Z), z = Z.of_nat i → (i ≤ length s)%nat → nth i s 0 = c →
    (buf_char z ≫= k) w = k c w) as Hchar.
  { intros c z i k -> Hi <-. unfold mbind, M_bind. by rewrite (char_eq i Hi). }
  assert (s ≠ [] → sim w s (mret (Some 1)) (mret 1)) as Hone.
  { intros Hne. apply (sim_take _ _ 1 w); [done..|by split|destruct s; [done|cbn; lia]|done| |].
    - intros E. by apply Hse in E.
    - by destruct Hst as [-> | ->]. }
  assert (Forall (.≠ 0) s) as Hnz by (by destruct Hs as (? & _ & ?)).
  unfold vgsm_comm_match_urc.
  destruct (decide (s = [])) as [Es|Hne].
  { apply sim_zero; [by unfold spec_urc; rewrite Es|]. by apply (Hchar 0 0 0%nat); rewrite ?Es. }
  assert (∃ c s1, s = c :: s1) as (c & s1 & Es) by (destruct s; [done|by eexists _, _]).
  rewrite Es in Hnz. inversion Hnz as [|? ? Hc Hnz1].
  assert (0 < length s)%nat as Hlen by (rewrite Es; cbn; lia).
  assert (spec_urc classes s = if negb (c =? CR) then
      if (c =? chr_plus) || (c =? chr_caret) then spec_urc_line classes 0 s else mret (Some 1)
    else match s1 with
      | c :: s2 =>
        if negb (c =? LF) then mret (Some 1)
        else match s2 with
          | c :: s3 =>
            if c =? CR then
              match s3 with
              | c :: _ => if negb (c =? LF) then mret (Some 1) else spec_urc_line classes 4 s
              | [] => mret (Some 0)
              end
            else spec_urc_line classes 2 s
          | [] => mret (Some 0)
          end
      | _ => mret (Some 0)
      end) as -> by (by rewrite Es).
  eapply (sim_ext _ _ _ _ eq_refl (Hchar c 0 0%nat _ eq_refl _ _)). cbv beta.
  rewrite (proj2 (Z.eqb_neq c 0)) by done.
  destruct (negb (c =? CR)).
  { destruct (_ || _); [|by apply Hone]. apply (sim_urc_line 0); [done|lia]. }
  destruct s1 as [|c1 s2].
  { apply sim_zero; [done|]. by apply (Hchar 0 1 1%nat); rewrite ?Es. }
  inversion Hnz1 as [|? ? Hc1 Hnz2]. assert (1 < length s)%nat as Hlen1 by (rewrite Es; cbn; lia).
  eapply (sim_ext _ _ _ _ eq_refl (Hchar c1 1 1%nat _ eq_refl _ _)). cbv beta.
  rewrite (proj2 (Z.eqb_neq c1 0)) by done. destruct (negb (c1 =? LF)); [by apply Hone|].
  destruct s2 as [|c2 s3].
  { apply sim_zero; [done|]. by apply (Hchar 0 2 2%nat); rewrite ?Es. }
  inversion Hnz2 as [|? ? Hc2 Hnz3]. assert (2 < length s)%nat as Hlen2 by (rewrite Es; cbn; lia).
  eapply (sim_ext _ _ _ _ eq_refl (Hchar c2 2 2%nat _ eq_refl _ _)). cbv beta.
  rewrite (proj2 (Z.eqb_neq c2 0)) by done.
  destruct (c2 =? CR); [|by apply (sim_urc_line 2); [|lia]].
  destruct s3 as [|c3 s4].
  { apply sim_zero; [done|]. by apply (Hchar 0 3 3%nat); rewrite ?Es. }
  inversion Hnz3 as [|? ? Hc3 _]. assert (3 < length s)%nat as Hlen3 by (rewrite Es; cbn; lia).
  eapply (sim_ext _ _ _ _ eq_refl (Hchar c3 3 3%nat _ eq_refl _ _)). cbv beta.
  rewrite (proj2 (Z.eqb_neq c3 0)) by done.
  destruct (negb (c3 =? LF)); [by apply Hone|]. by apply (sim_urc_line 4); [|lia].
  Unshelve. all: try lia; by rewrite Es.
Qed.

Lemma sim_urc_cont :
  c_state w = VGSM_COMM_READING_URC ∨ c_state w = VGSM_COMM_AWAITING_ECHO_READING_URC →
  sim w s (spec_urc_cont s) vgsm_comm_match_urc_cont.
Proof.
  intros Hst. unfold spec_urc_cont, vgsm_comm_match_urc_cont.
  pose proof (str_at_length _ _ _ (ch_buf _ I) Hs) as Hlen.
  assert (buf_string 0 w = Done (s, w)) as E0 by exact (string_eq 0 ltac:(lia)).
  destruct (find_crlf s) as [i|] eqn:Hi.
  2: { apply sim_zero; [done|]. unfold mbind at 1, M_bind at 1. rewrite E0, Hi. done. }
  pose proof (find_crlf_bound _ _ Hi) as Hbd.
  assert (is_Some (current_urc w)) as [urc Hu].
  { pose proof (ch_state _ I) as Hok. unfold state_ok in Hok.
    destruct Hst as [E|E]; rewrite E in Hok; apply Hok. }
  destruct (ch_timer _ I) as (t & Ht & Hp).
  destruct (chan_current_urc I urc Hu) as (o & cls & ends & Ho & Hc & He & _ & Hq).
  apply (sim_line _ _ i (w_more urc o (take i s) ends t w)).
  - unfold mbind at 1, M_bind at 1. cbn [get]. unfold mbind at 1, M_bind at 1. rewrite Hu. cbn [deref].
    unfold mret at 1, M_ret at 1. unfold mbind at 1, M_bind at 1.
    by rewrite (urc_more_line_eq w t urc o cls ends).
  - unfold mbind at 1, M_bind at 1. rewrite E0, Hi.
    unfold mbind at 1, M_bind at 1. rewrite set_buf_char_eq by (destruct (ch_buf _ I); lia).
    set (w2 := w_buf _ w). unfold mbind at 1, M_bind at 1. cbn [get].
    change (current_urc w2) with (current_urc w). rewrite Hu.
    unfold mbind at 1, M_bind at 1.
    rewrite (buf_string_eq w2 0 (take i s) : _ → _ → _ → buf_string 0 w2 = _);
      [|apply buf_ok_insert, I|lia|by apply (str_cut _ _ 0); [|lia]].
    unfold mbind at 1, M_bind at 1. rewrite (urc_more_line_eq w2 t urc o cls ends) by done.
    unfold w2, w_more. by destruct (ends _), (bool_decide _).
  - apply (chan_more I t urc o cls); try done. rewrite Hp. by destruct Hst as [-> | ->].
  - lia.
  - intros Hse. exfalso. revert Hse. unfold w_more.
    destruct (ends _), (bool_decide _); cbn; try done; by destruct Hst as [-> | ->].
  - unfold w_more. destruct (ends _), (bool_decide _); cbn; try done; by destruct Hst as [-> | ->].
Qed.

(** *** One iteration *)

Lemma next_timer_runs o now t : unanswered o → timer_pending (next_timer now (vr_timeout o) t) = true.
Proof.
  intros Hun. unfold next_timer. destruct (Z.eqb_spec (vr_timeout o) (-1)); [destruct Hun; lia|].
  destruct (Z.eqb_spec (vr_timeout o) (-2)); [destruct Hun; lia|done].
Qed.

Lemma echo_eq sent : vgsm_comm_match_echo sent w = Done (echo_loop 0 s sent, w).
Proof.
  unfold vgsm_comm_match_echo. unfold mbind, M_bind.
  by rewrite (string_eq 0 ltac:(lia) : buf_string 0 w = _).
Qed.

(** the state after an echo of [snt], of which [n] characters are taken *)
Lemma sim_echo spec code snt st d n w' :
  echo_loop 0 s snt = n → 0 < n → (2 ≤ length snt)%nat →
  spec w = Done (Some n, set_c_state st (w_timer d w')) →
  code w = Done (n, set_c_state st (w_timer d w')) →
  c_buf w' = c_buf w → goes_on w (set_c_state st (w_timer d w')) →
  (∀ rest, s = snt ++ rest → (length rest ≤ 1)%nat → find_crlf (drop 2 s) = None) →
  throws st = false → sim w s spec code.
Proof.
  intros En Hn Hlen E1 E2 Eb G Hcr Hth.
  destruct (echo_loop_spec snt 0 s) as [(rest & Es & E)|[[_ E]|E]]; [lia| |lia..].
  assert (n = Z.of_nat (length snt)) as -> by lia.
  assert (length s = length snt + length rest)%nat as Hls by (by rewrite Es, length_app).
  apply (sim_take _ _ (length snt) _ E1 E2 G); [lia|by cbn; rewrite Eb| |cbn; congruence].
  intros _ Hle x Hx. apply (str_at_unique _ _ _ (drop 2 s)) in Hx.
  2: { apply (str_at_drop _ 0); [done|lia]. }
  rewrite Hx. apply (Hcr rest Es). lia.
Qed.

Lemma sim_step nread :
  (c_state w = VGSM_COMM_FAILED ∨ c_state w = VGSM_COMM_RECOVERING →
   nread = Z.of_nat (length s)) →
  no_remains (c_state w) (c_buf w) (length s) →
  sim w s (spec_step classes s) (receive_step classes nread).
Proof.
  intros Hn Hrem. pose proof (ch_state _ I) as Hok. unfold state_ok in Hok.
  destruct (ch_timer _ I) as (t & Ht & Hp).
  assert (sim w s (mret (Some (Z.of_nat (length s)))) (mret (Z.of_nat (length s))) ∨
    searching (c_state w) = true) as Hall.
  { destruct (searching (c_state w)) eqn:Hse; [by right|left].
    destruct (decide (length s = 0)%nat) as [E|]; [rewrite E; by apply sim_zero|].
    apply (sim_take _ _ (length s) w); [done..|by split|lia|done| |done].
    intros E. congruence. }
  assert (∀ k : vgsm_req → Cm (option Z), ∀ req o, current_req w = Some req → vreqs w !! req = Some o →
    ((req ← deref (current_req w); the_vreq req) ≫= k) w = k o w) as Hcur.
  { intros k req o Hr Ho. rewrite Hr. unfold mbind, M_bind. cbn. by rewrite (the_vreq_eq w req o). }
  assert (∀ k : vgsm_req → Cm Z, ∀ req o, vreqs w !! req = Some o → (the_vreq req ≫= k) w = k o w)
    as Hcur'.
  { intros k req o Ho. unfold mbind, M_bind. by rewrite (the_vreq_eq w req o). }
  assert (∀ B (a : list Z) (k : list Z → Cm B), (mret a ≫= k) w = k a w) as Hret by done.
  assert (∀ (k : Z → Cm Z) snt, (vgsm_comm_match_echo snt ≫= k) w = k (echo_loop 0 s snt) w) as Hecho.
  { intros k snt. unfold mbind, M_bind. by rewrite echo_eq. }
  unfold spec_step, receive_step.
  assert (∀ (k : vgsm_comm → Cm (option Z)) (k' : vgsm_comm → Cm Z),
    sim w s (k w) (k' w) → sim w s (w ← get; k w) (w ← get; k' w)) as Hget by done.
  apply Hget. clear Hget. cbv beta zeta. destruct (c_state w) eqn:Hst in Hok |- *.
  - by destruct Hl.
  - by destruct Hl.
  - rewrite (Hn ltac:(auto)). rewrite Hst in Hall. by destruct Hall.
  - rewrite (Hn ltac:(auto)). rewrite Hst in Hall. by destruct Hall.
  - apply sim_urc. by left.
  - apply sim_urc_cont. by left.
  - destruct Hok as [(req & Hr & o & Ho & pdu & Hpdu) Hu].
    destruct (chan_current I req Hr) as (o' & Ho' & Hun & _). replace o' with o in Hun by congruence.
    destruct (un_pdu _ Hun pdu Hpdu) as [Hlen Hchars].
    eapply (sim_ext _ _ _ _ (Hcur _ req o Hr Ho)); [by rewrite Hr; apply (Hcur' _ req o Ho)|].
    cbv beta. rewrite Hpdu. cbn [deref].
    eapply (sim_ext _ _ _ _ (Hret _ pdu _) (Hret _ pdu _)). cbv beta.
    eapply (sim_ext _ _ _ _ eq_refl (Hecho _ pdu)). cbv beta.
    destruct (Z.ltb_spec 0 (echo_loop 0 s pdu)) as [Hpos|]; [|by apply sim_zero].
    assert (chan_ok (set_tx (tx w ++ [[SUB]]) w)) as I' by (destruct I; by constructor).
    eapply (sim_echo _ _ pdu VGSM_COMM_AWAITING_SMS_ECHO_1A t _ (set_tx (tx w ++ [[SUB]]) w)); try done.
    + unfold write_fd. run. by rewrite (change_state_eq _ t).
    + unfold write_fd. run. by rewrite (change_state_eq _ t).
    + split; [|by split]. apply (chan_state I' t VGSM_COMM_AWAITING_SMS_ECHO_1A (-2));
        [done|by cbn; rewrite Hp, Hst|].
      split; [|done]. exists req. split; [done|]. exists o. split; [done|]. by eexists.
    + intros rest -> Hle. rewrite drop_app_le by lia.
      assert (Forall (λ c, c ≠ CR) (drop 2 pdu)) as Hcr.
      { apply Forall_drop. eapply Forall_impl; [exact Hchars|]. cbn. unfold CR. lia. }
      destruct rest as [|x [|]]; [|by apply find_crlf_no_cr|cbn in Hle; lia].
      rewrite app_nil_r. destruct (drop 2 pdu) as [|a l] using rev_ind; [done|].
      apply find_crlf_no_cr. by apply Forall_app in Hcr as [? _].
  - destruct Hok as [(req & Hr & o & Ho & Hpdu) Hu].
    destruct (chan_current I req Hr) as (o' & Ho' & Hun & _). replace o' with o in Hun by congruence.
    eapply (sim_ext _ _ _ _ eq_refl (Hecho _ [SUB])). cbv beta zeta.
    destruct (Z.ltb_spec 0 (echo_loop 0 s [SUB])) as [Hpos|]; [|by apply sim_zero].
    eapply (sim_ext _ _ _ _ (Hcur _ req o Hr Ho)); [by rewrite Hr; apply (Hcur' _ req o Ho)|].
    cbv beta. destruct (echo_loop_spec [SUB] 0 s) as [(rest & Es & E)|[[_ E]|E]]; [lia| |lia..].
    assert (length s = S (length rest)) as Hls by (by rewrite Es).
    set (w1 := set_c_state VGSM_COMM_READING_RESPONSE
      (w_timer (next_timer (clock w) (vr_timeout o) t) w)).
    apply (sim_take _ _ 1 w1).
    + rewrite E. unfold mbind, M_bind. by rewrite (change_state_eq _ t).
    + rewrite E. unfold mbind, M_bind. by rewrite (change_state_eq _ t).
    + split; [|by split]. apply (chan_state I t); [done| |by split; [eexists|]].
      by rewrite (next_timer_runs o).
    + lia.
    + done.
    + intros _ Hle x Hx. destruct rest as [|y rest].
      * apply (Hrem ltac:(by rewrite Hst) ltac:(cbn in Hls; lia) x Hx).
      * assert (rest = []) as -> by (destruct rest; [done|cbn in Hls; lia]).
        apply (str_at_unique _ _ _ (drop 2 s)) in Hx; [by rewrite Hx, Es|].
        apply (str_at_drop _ 0); [done|rewrite Hls; cbn; lia].
    + done.
  - destruct Hok as [[req Hr] Hu]. destruct (chan_current I req Hr) as (o & Ho & Hun & _).
    eapply (sim_ext _ _ _ _ (Hcur _ req o Hr Ho)); [by rewrite Hr; apply (Hcur' _ req o Ho)|].
    cbv beta zeta. eapply (sim_ext _ _ _ _ eq_refl (Hecho _ (vr_request o))). cbv beta.
    set (n := echo_loop 0 s (vr_request o)).
    destruct (Z.ltb_spec 0 n) as [Hpos|].
    + destruct (bool_decide_reflect (drop (Z.to_nat n) s = [LF])) as [|Hlf].
      { by eapply sim_none. }
      eapply (sim_echo _ _ (vr_request o) VGSM_COMM_READING_RESPONSE
        (next_timer (clock w) (vr_timeout o) t) n w); try done.
      * apply Hun.
      * unfold mbind, M_bind. by rewrite (change_state_eq _ t).
      * unfold mbind, M_bind. by rewrite (change_state_eq _ t).
      * split; [|by split]. apply (chan_state I t); [done| |by split; [eexists|]].
        by rewrite (next_timer_runs o).
      * intros rest Es Hle.
        destruct (echo_loop_spec (vr_request o) 0 s) as [(rest' & Es' & E)|[[_ E]|E]];
          [lia| |unfold n in Hpos; lia..].
        assert (n = Z.of_nat (length (vr_request o))) as En by (unfold n; lia).
        rewrite En, Nat2Z.id, Es, drop_app_length in Hlf.
        destruct Hun. rewrite Es, drop_app_le by lia. destruct rest as [|x [|]]; [..|cbn in Hle; lia].
        -- rewrite app_nil_r. by apply find_crlf_drop.
        -- apply find_crlf_snoc; [by apply find_crlf_drop|]. congruence.
    + destruct (negb (n =? 0)); [apply sim_urc; by right|by apply sim_zero].
  - apply sim_urc_cont. by right.
  - apply sim_response; [done|]. exact Hrem.
Qed.
End sim.

(** *** The loop *)

(** the buffer of [w] holds [s] and nothing behind it that is taken for a line *)
Record pending (w : vgsm_comm) (s : list Z) : Prop := {
  pd_chan : chan_ok w;
  pd_live : live (c_state w);
  pd_string : str_at (c_buf w) 0 s;
  pd_remains : no_remains (c_state w) (c_buf w) (length s);
}.

(** the rest of the string is moved, what is behind the second character stays *)
Lemma moved_string buf n s :
  buf_ok buf → (length s ≤ 2047)%nat → (0 < n)%nat → str_at buf n s →
  let b := (s ++ [0]) ++ drop (length (s ++ [0])) buf in
  str_at b 0 s ∧ ((length s ≤ 1)%nat → ∀ x, str_at b 2 x → str_at buf 2 x).
Proof.
  intros Hb Hl Hn (rest & E & Hs). cbv zeta. split.
  - exists (drop (length (s ++ [0])) buf). by rewrite drop_0, <- app_assoc.
  - intros Hle x (r & Er & Hx). exists r. split; [|done]. rewrite <- Er.
    assert (length (s ++ [0]) = S (length s)) as Hlen by (rewrite length_app; cbn; lia).
    rewrite drop_app_ge by lia. rewrite drop_drop. f_equal. lia.
Qed.

Lemma spec_throws s w :
  throws (c_state w) = true → spec_step classes s w = Done (Some (Z.of_nat (length s)), w).
Proof. intros Hst. unfold spec_step. run. by destruct (c_state w). Qed.

Lemma loop_sim fuel : ∀ w s nread,
  pending w s → (length s < fuel)%nat → (throws (c_state w) = true → nread = Z.of_nat (length s)) →
  ∃ r w1, spec_loop classes fuel s w = Done (r, w1) ∧
    ∀ rest, r = Some rest → ∃ b,
      receive_loop classes fuel nread w = Done (tt, w_buf b w1) ∧ pending (w_buf b w1) rest ∧
      (throws (c_state w1) = true → rest = []).
Proof.
  induction fuel as [|fuel IH]; intros w s nread [I Hl Hs Hrem] Hf Hth; [lia|].
  destruct (sim_step I Hl Hs nread) as (r & w1 & E1 & G & Hsim); [..|done|].
  { intros Hst. apply Hth. by destruct Hst as [-> | ->]. }
  cbn [spec_loop receive_loop]. unfold mbind at 1, M_bind at 1. rewrite E1.
  destruct r as [n|]; [|by exists None, w1].
  destruct (Hsim n eq_refl) as (Hn & b & E2 & Hb & H0 & H1).
  unfold mbind at 1, M_bind at 1. rewrite E2. destruct (Z.eqb_spec n 0) as [->|Hn0].
  { exists (Some s), w1. split; [done|]. intros ? [= <-]. exists b.
    split; [done|]. split; [by rewrite (H0 eq_refl)|]. intros Hst.
    pose proof (f_equal c_state (H0 eq_refl)) as Hw. cbn in Hw. rewrite Hw in Hst.
    rewrite (spec_throws s w Hst) in E1. injection E1 as E _. apply length_zero_iff_nil. lia. }
  destruct (H1 ltac:(lia)) as (Hstr & Hrem1 & Hth1). set (k := Z.to_nat n) in *.
  assert (length (drop k s) = (length s - k)%nat) as Hlk by apply length_drop.
  pose proof G as (I1 & Hl1 & _).
  assert (chan_ok (w_buf b w1)) as I1b by (by apply chan_buf).
  destruct (move_ok (w_buf b w1) k) as (s' & Hs' & F1 & F2 & Hb').
  { done. } { pose proof (str_at_length _ _ _ (ch_buf _ I) Hs). lia. } { lia. }
  cbn in Hs'. assert (s' = drop k s) as -> by (by eapply str_at_unique).
  pose proof (str_at_length _ _ _ Hb Hstr) as Hlb.
  set (b' := (drop k s ++ [0]) ++ drop (length (drop k s ++ [0])) b).
  destruct (moved_string b k (drop k s)) as [M1 M2]; [done|lia|lia|done|].
  assert (pending (w_buf b' w1) (drop k s)) as Hp.
  { constructor; [by apply chan_buf|done|exact M1|]. intros Hse Hle x Hx. rewrite Hlk in Hle.
    apply (Hrem1 Hse Hle x). apply M2; [by rewrite Hlk|exact Hx]. }
  destruct (IH (w_buf b' w1) (drop k s) 0 Hp) as (r2 & w2 & E3 & H3).
  { lia. } { intros Hst. rewrite Hlk, (Hth1 Hst). lia. }
  rewrite blind_buf in E3 by apply blind_spec_loop.
  destruct (spec_loop classes fuel (drop k s) w1) as [[r3 w3]|] eqn:E4; [|done].
  injection E3 as -> <-. exists r2, w3. split; [done|]. intros rest Er.
  destruct (H3 rest Er) as (b2 & E5 & Hp2 & He2). exists b2. split; [|by split].
  unfold mbind at 1, M_bind at 1. replace n with (Z.of_nat k) by lia. rewrite F1.
  unfold mbind at 1, M_bind at 1. rewrite F2. exact E5.
Qed.

(** what was read is behind what was there *)
Lemma read_pending w s l :
  pending w s → Forall (.≠ 0) l → (length s + length l ≤ 2047)%nat →
  let b := take (length s) (c_buf w) ++ (l ++ [0]) ++ drop (length s + length (l ++ [0])) (c_buf w) in
  pending (w_buf b w) (s ++ l).
Proof.
  intros [I Hl Hs Hrem] Hnz Hlen. cbv zeta.
  pose proof (buf_ok_write _ _ _ (ch_buf _ I) Hlen) as Hb.
  destruct Hs as (rest & E & Hsz). rewrite drop_0 in E.
  constructor; [by apply chan_buf|done| |].
  - exists (drop (length s + length (l ++ [0])) (c_buf w)). split; [|by apply Forall_app].
    cbn [w_buf set_c_buf c_buf]. rewrite drop_0. rewrite E at 1. rewrite take_app_length.
    by rewrite <- !app_assoc.
  - intros Hse Hle x (r & Er & Hx). rewrite length_app in Hle.
    apply (Hrem Hse ltac:(lia) x). exists r. split; [|done]. rewrite <- Er.
    cbn [w_buf set_c_buf c_buf]. assert (length (l ++ [0]) = S (length l)) as Hl1 by (rewrite length_app; cbn; lia).
    destruct (ch_buf _ I) as [Hbl _].
    rewrite drop_app_ge by (rewrite length_take; lia). rewrite drop_app_ge by (rewrite length_take; lia).
    rewrite drop_drop. f_equal. rewrite length_take. lia.
Qed.

Lemma spec_more_fuel f f' s w x :
  spec_loop classes f s w = Done x → (f ≤ f')%nat → spec_loop classes f' s w = Done x.
Proof.
  revert f' s w. induction f as [|f IH]; intros f' s w E Hf; [done|].
  destruct f' as [|f']; [lia|]. cbn [spec_loop] in *. unfold mbind at 1, M_bind at 1 in E.
  unfold mbind at 1, M_bind at 1. destruct (spec_step classes s w) as [[r w1]|]; [|done].
  destruct r as [n|]; [|done]. destruct (n =? 0); [done|]. apply IH; [done|lia].
Qed.

(** the characters a [read] of at most [n] gives, where [s] is in the buffer *)
Definition taken (n : nat) (s : list Z) (w : vgsm_comm) : list Z :=
  take (Nat.min n (2048 - length s - 1)) (rx w).

(** the loop of the receiver, from the read on *)
Lemma receive_sim w s n :
  pending w s → (throws (c_state w) = true → s = []) → Forall (.≠ 0) (rx w) →
  let l := taken n s w in
  ∃ r w1, spec_receive classes (s ++ l) (set_rx (drop (length l) (rx w)) w) = Done (r, w1) ∧
    ∀ rest, r = Some rest → ∃ b,
      vgsm_comm_receive classes receive_fuel (Some n) w = Done (0, w_buf b w1) ∧
      pending (w_buf b w1) rest ∧ (throws (c_state w1) = true → rest = []).
Proof.
  intros [I Hl Hs Hrem] Hempty Hnz. cbv zeta. set (l := taken n s w).
  pose proof (str_at_length _ _ _ (ch_buf _ I) Hs) as Hlen. cbn in Hlen.
  assert (length s + length l ≤ 2047)%nat as Hlen2 by (unfold l, taken; rewrite length_take; lia).
  set (w0 := set_rx (drop (length l) (rx w)) w).
  assert (pending w0 s) as P0 by (constructor; [destruct I; by constructor|done..]).
  assert (Forall (.≠ 0) l) as Hl0 by (by apply Forall_take).
  pose proof (read_pending w0 s l P0 Hl0 Hlen2) as P1. cbv zeta in P1.
  set (b := take (length s) (c_buf w0) ++ _) in P1.
  assert (length (s ++ l) < receive_fuel)%nat as Hfuel by (rewrite length_app; unfold receive_fuel; lia).
  assert (∀ fuel, (length (s ++ l) < fuel)%nat → ∃ r w1,
    spec_loop classes fuel (s ++ l) w0 = Done (r, w1) ∧ ∀ rest, r = Some rest → ∃ b',
      receive_loop classes fuel (Z.of_nat (length l)) (w_buf b w0) = Done (tt, w_buf b' w1) ∧
      pending (w_buf b' w1) rest ∧ (throws (c_state w1) = true → rest = [])) as Hloop.
  { intros fuel Hf. destruct (loop_sim fuel (w_buf b w0) (s ++ l) (Z.of_nat (length l)) P1 Hf)
      as (r & w1 & E1 & H1).
    { intros Hth. rewrite length_app, (Hempty Hth). done. }
    rewrite blind_buf in E1 by apply blind_spec_loop.
    destruct (spec_loop classes fuel (s ++ l) w0) as [[r' w1']|]; [|done]. injection E1 as -> <-.
    by exists r, w1'. }
  destruct (Hloop receive_fuel Hfuel) as (r & w1 & E1 & H1).
  destruct (Hloop (S (length (s ++ l)))) as (r' & w1' & E1' & _); [lia|].
  assert (Done (r', w1') = Done (r, w1)) as Eq.
  { rewrite <- E1. symmetry. eapply spec_more_fuel; [exact E1'|lia]. }
  injection Eq as -> ->. exists r, w1. split; [exact E1'|]. intros rest Er.
  destruct (H1 rest Er) as (b' & E2 & Hp & He). exists b'. split; [|by split].
  unfold vgsm_comm_receive. unfold mbind at 1, M_bind at 1.
  rewrite (buf_string_eq w 0 s : _ → _ → _ → buf_string 0 w = _) by (apply I || done || lia).
  unfold mbind at 1, M_bind at 1. unfold read_fd. unfold mbind at 1 2, M_bind at 1 2. cbn [get].
  fold (taken n s w). fold l. cbn [put mret M_ret]. fold w0.
  unfold mbind at 1, M_bind at 1. unfold put. unfold mret at 1, M_ret at 1.
  fold w0. unfold mbind at 1, M_bind at 1.
  rewrite buf_write_eq.
  2: { rewrite length_app. destruct (ch_buf _ I) as [E _]. cbn in *. lia. }
  fold b. unfold mbind, M_bind. rewrite E2. done.
Qed.
End classes.

(** ** Operations that concern neither the state nor the buffer *)

Definition steady_at {A} (m : Cm A) (w : vgsm_comm) : Prop :=
  match m w with
  | Done (_, w') => c_state w' = c_state w ∧ c_buf w' = c_buf w
  | Fault _ => True
  end.
Definition steady {A} (m : Cm A) : Prop := ∀ w, steady_at m w.

Lemma steady_bind {A B} (m : Cm A) (k : A → Cm B) w :
  steady_at m w → (∀ a, steady (k a)) → steady_at (m ≫= k) w.
Proof.
  unfold steady_at, mbind, M_bind. intros Hm Hk. destruct (m w) as [[a w']|]; [|done].
  specialize (Hk a w'). unfold steady_at in Hk. destruct (k a w') as [[b w'']|]; [|done].
  destruct Hm, Hk. split; congruence.
Qed.
Lemma steady_get {A} (k : vgsm_comm → Cm A) w : steady_at (k w) w → steady_at (get ≫= k) w.
Proof. done. Qed.
Lemma steady_put v w : c_state v = c_state w → c_buf v = c_buf w → steady_at (put v) w.
Proof. done. Qed.
Lemma steady_modify f w :
  c_state (f w) = c_state w → c_buf (f w) = c_buf w → steady_at (modify f) w.
Proof. done. Qed.
Lemma steady_when c (m : Cm unit) w : steady_at m w → steady_at (when c m) w.
Proof. by destruct c. Qed.

Lemma steady_here {A} (m : Cm A) w : steady m → steady_at m w.
Proof. intros H. apply H. Qed.

Create HintDb steady.
Ltac steady :=
  repeat match goal with
    | |- steady _ => intros ?
    | |- steady_at (get ≫= _) _ => apply steady_get
    | |- steady_at (_ ≫= _) _ => apply steady_bind; [|intros ? ?]
    | |- steady_at (when _ _) _ => apply steady_when
    | |- steady_at (modify _) _ => apply steady_modify; done
    | |- steady_at (put _) _ => apply steady_put; done
    | |- steady_at (mret _) _ => done
    | |- steady_at (fail _) _ => done
    | |- steady_at (c_assert ?b) _ => by destruct b
    | |- steady_at (let _ := _ in _) _ => cbv zeta
    | |- steady_at (match ?x with _ => _ end) _ => destruct x
    | |- steady_at _ _ => apply steady_here; solve [auto 2 with steady nocore]
    end.

Lemma steady_vreq req : steady (the_vreq req).
Proof. unfold the_vreq. steady. Qed.
#[local] Hint Resolve steady_vreq : steady.
Lemma steady_upd_vreq req f : steady (upd_vreq req f).
Proof. unfold upd_vreq, put_vreq. steady. Qed.
Lemma steady_req_get req : steady (vgsm_req_get req).
Proof. unfold vgsm_req_get, put_vreq. steady. Qed.
Lemma steady_req_put req : steady (_vgsm_req_put req).
Proof. unfold _vgsm_req_put, put_vreq. steady. Qed.
Lemma steady_alloc : steady vgsm_req_alloc.
Proof. unfold vgsm_req_alloc, put_vreq. steady. Qed.
Lemma steady_unlinked req : steady (unlinked req).
Proof. unfold unlinked. steady. Qed.
Lemma steady_send self mt : steady (vgsm_comm_send_message self mt).
Proof. unfold vgsm_comm_send_message. steady. Qed.
#[local] Hint Resolve steady_upd_vreq steady_req_get steady_req_put steady_alloc steady_unlinked
  steady_send : steady.
Lemma steady_complete req err : steady (complete_req req err).
Proof. unfold complete_req. steady. Qed.
#[local] Hint Resolve steady_complete : steady.
Lemma steady_make self a : steady (vgsm_req_make_va self a).
Proof. unfold vgsm_req_make_va. steady. Qed.
Lemma steady_open pipe threads : steady (vgsm_comm_open pipe threads).
Proof. unfold vgsm_comm_open. steady. Qed.
Lemma steady_result req : steady (vgsm_req_make_wait_result req).
Proof. unfold vgsm_req_make_wait_result. steady. Qed.
Lemma steady_urc : steady vgsm_comm_urc_thread_main.
Proof. unfold vgsm_comm_urc_thread_main, vgsm_comm_dequeue_urc. steady. Qed.
Lemma steady_completion : steady vgsm_comm_completion_thread_main.
Proof. unfold vgsm_comm_completion_thread_main, vgsm_comm_dequeue_completion. steady. Qed.
#[local] Hint Resolve steady_make steady_open steady_result steady_urc steady_completion : steady.

(** the events that are not of the thread of the channel *)
Definition of_thread (e : vcomm_event) : bool :=
  match e with ev_start | ev_top | ev_poll _ _ | ev_exit => true | _ => false end.
Lemma steady_event classes e : of_thread e = false → steady (vcomm_exec classes e).
Proof.
  destruct e; intros He; try done; cbn [vcomm_exec]; unfold vgsm_comm_close, vgsm_comm_close_end; steady.
Qed.

(** ** What is left in the buffer *)

(** [pending], whatever the string is *)
Definition line_cond (w : vgsm_comm) : Prop :=
  ∀ s, str_at (c_buf w) 0 s →
    no_remains (c_state w) (c_buf w) (length s) ∧ (throws (c_state w) = true → s = []).

Lemma line_same w w' :
  c_state w' = c_state w → c_buf w' = c_buf w → line_cond w → line_cond w'.
Proof. unfold line_cond. by intros -> ->. Qed.
Lemma line_plain w : searching (c_state w) = false → throws (c_state w) = false → line_cond w.
Proof. intros E1 E2 s _. split; [intros E|intros E]; congruence. Qed.
Lemma line_thrown w :
  searching (c_state w) = false → (∀ s, str_at (c_buf w) 0 s → s = []) → line_cond w.
Proof. intros E1 E2 s Hs. split; [intros E; congruence|auto]. Qed.

Lemma line_pending w s :
  chan_ok w → live (c_state w) → line_cond w → str_at (c_buf w) 0 s →
  pending w s ∧ (throws (c_state w) = true → s = []).
Proof. intros I Hl Hc Hs. destruct (Hc s Hs). by split. Qed.
Lemma pending_line w s :
  pending w s → (throws (c_state w) = true → s = []) → line_cond w.
Proof.
  intros [I Hl Hs Hrem] He s' Hs'. replace s' with s by (by eapply str_at_unique). by split.
Qed.

(** the timer *)
Lemma fired_line w t' : line_cond w → line_cond (w_fired t' (w_timer t' w)).
Proof.
  intros Hc. unfold w_fired. cbn.
  assert (line_cond (w_lost t' (w_timer t' w))) as Hlost.
  { apply line_thrown; [done|]. intros s Hs. eapply str_at_unique; [exact Hs|].
    assert (c_buf (w_lost t' (w_timer t' w)) = <[0%nat := 0]> (c_buf w)) as ->.
    { unfold w_lost, w_drop_urc. cbn. destruct (current_urc w) as [u|]; [|done]. by destruct (vreqs w !! u). }
    destruct (c_buf w) as [|c b] eqn:Eb.
    - unfold str_at. exfalso. destruct Hs as (r & E & _). revert E. unfold w_lost, w_drop_urc. cbn.
      destruct (current_urc w) as [u|]; [destruct (vreqs w !! u)|]; cbn; rewrite Eb;
        destruct s; done.
    - exists b. by split. }
  destruct (c_state w) eqn:Hs; try done.
  all: try (eapply line_same; [| |exact Hc]; cbn; done).
  destruct (current_req w) as [req|]; [|by apply line_plain].
  destruct (vreqs w !! req) as [o|]; [|by eapply line_same; [| |exact Hc]].
  destruct (_ =? 0); [|by apply line_plain].
  apply line_thrown; [done|]. intros s Hs'. apply Hc; [exact Hs'|by rewrite Hs].
Qed.

Lemma process_line w t :
  chan_ok w → has_timer w t → current_req w = None → c_state w = VGSM_COMM_IDLE →
  wp vgsm_process_next_request (λ _ w', line_cond w') w.
Proof.
  intros I Ht Hr Hs. eapply wp_eq; [by apply (process_eq w t)|].
  destruct (requests_queue w) as [|req l]; [|destruct (vreqs w !! req)];
    apply line_plain; cbn; rewrite ?Hs; done.
Qed.

Lemma top_line w :
  chan_ok w → live (c_state w) → line_cond w → wp thread_top (λ _ w', line_cond w') w.
Proof.
  intros I Hl Hc. destruct (ch_timer _ I) as (t & Ht & Hp). unfold thread_top.
  apply wp_bind. eapply wp_eq; [by apply (run_eq w t)|].
  set (w1 := if (_ : bool) then _ else w).
  assert (chan_ok w1 ∧ live (c_state w1) ∧ line_cond w1) as (I1 & Hl1 & Hc1).
  { unfold w1. destruct (timer_pending t) eqn:P; [|done]. destruct (_ <? _); [|done].
    destruct (fired_ok w (expired t)) as (? & ? & ?); [by rewrite <- ?Hp..|].
    split; [done|split; [done|]]. by apply fired_line. }
  clearbody w1. clear t Ht Hp. destruct (ch_timer _ I1) as (t & Ht & Hp).
  apply wp_bind. apply (wp_eq _ _ _ w1 w1); [done|]. apply wp_bind.
  assert (∀ w2, chan_ok w2 → line_cond w2 → wp
    (timeout ← vgsm_timerset_next; modify (set_comm_thread AT_POLL);;
     mret (if timeout =? -1 then -1 else Z.max (Z.quot timeout 1000) 1))
    (λ (_ : Z) w', line_cond w') w2) as Hrest.
  { intros w2 I2 Hc2. destruct (ch_timer _ I2) as (t2 & [E2 D2] & Hp2). unfold wp.
    unfold vgsm_timerset_next. run. rewrite E2. cbn. destruct (timer_pending t2) eqn:P2; cbn.
    - rewrite (the_timer_eq w2 t2) by done. by eapply line_same; [| |exact Hc2].
    - by eapply line_same; [| |exact Hc2]. }
  assert (wp (mret tt : Cm unit) (λ _ w2, chan_ok w2 ∧ line_cond w2) w1) as Hskip by done.
  eapply (wp_mono _ (λ _ w2, chan_ok w2 ∧ line_cond w2)).
  2: { intros [] w2 [I2 Hc2]. by apply Hrest. }
  pose proof (ch_state _ I1) as Hok. unfold state_ok in Hok.
  destruct (c_state w1) eqn:Hs; try done; try (by destruct Hl1).
  - destruct Hok as [Hr Hu]. pose proof (flush_ok w1 I1 Hs) as Hf. unfold wp in Hf |- *.
    unfold vgsm_flush_requests in *. unfold mbind, M_bind in *. cbn [get] in *.
    destruct (flush_eq (length (requests_queue w1)) w1) as [E P]; [apply I1|done|done|].
    rewrite E in Hf |- *. destruct Hf as [If _]. split; [exact If|].
    destruct (flush_frame (requests_queue w1) w1) as (F1 & F2 & F3 & _).
    by eapply line_same; [exact F1|exact F3|].
  - destruct Hok as [Hr Hu]. pose proof (process_ok w1 t I1 Ht Hs) as Hp1.
    pose proof (process_line w1 t I1 Ht Hr Hs) as Hp2. unfold wp in *.
    destruct (vgsm_process_next_request w1) as [[[] w2]|]; [|done]. by destruct Hp1.
Qed.

Lemma message_line w :
  chan_ok w → live (c_state w) → line_cond w →
  wp vgsm_comm_receive_message (λ (_ : bool) w', line_cond w') w.
Proof.
  intros I Hl Hc. unfold vgsm_comm_receive_message, wp. unfold mbind at 1, M_bind at 1. cbn [get].
  destruct (cmd_pipe w) as [[|mt l]|]; [done| |done]. run.
  set (w1 := set_cmd_pipe (Some l) w). assert (line_cond w1) as Hc1 by (by eapply line_same; [| |exact Hc]).
  destruct (ch_timer _ I) as (t & Ht & _). destruct mt; cbn.
  - rewrite (change_state_eq w1 t) by done. by apply line_plain.
  - done.
  - unfold message_in_state. run. subst w1. cbn in Hl |- *. destruct (c_state w) eqn:Hs; try done; by destruct Hl.
Qed.

Section classes.
Context (classes : list vgsm_urc_class).

(** the state of the channel when at most [n] characters were read *)
Definition w_read (n : nat) (s : list Z) (w : vgsm_comm) : vgsm_comm :=
  set_rx (drop (length (taken n s w)) (rx w)) w.

(** the message that the thread found *)
Definition poll_message (message : bool) : Cm bool :=
  if message then vgsm_comm_receive_message else mret false.

(** the module keeps to the protocol in what is read now, which are at most [n] characters *)
Definition keeps (n : nat) (w : vgsm_comm) : Prop :=
  ∀ s, str_at (c_buf w) 0 s →
    ∃ rest w1, spec_receive classes (s ++ taken n s w) (w_read n s w) = Done (Some rest, w1).
Definition obeys (e : vcomm_event) (w : vgsm_comm) : Prop :=
  match e with
  | ev_poll message (Some (Some n)) => ∀ w1,
    poll_message message w = Done (false, w1) → Forall (.≠ 0) (rx w1) ∧ keeps n w1
  | _ => True
  end.

Lemma poll_line w message fd :
  chan_ok w → live (c_state w) → line_cond w → obeys (ev_poll message fd) w →
  wpd (thread_poll classes message fd) (λ _ w', line_cond w') w.
Proof.
  intros I Hl Hc Ho. unfold thread_poll. apply wpd_bind. 
  assert (∃ stop w1, poll_message message w = Done (stop, w1) ∧
    chan_ok w1 ∧ line_cond w1 ∧ (stop = false → live (c_state w1)) ∧
    (stop = true → c_state w1 = VGSM_COMM_CLOSING)) as (stop & w1 & E & I1 & Hc1 & Hl1 & Hs1).
  { unfold poll_message. destruct message; [|by exists false, w]. pose proof (message_ok w I Hl) as H1.
    pose proof (message_line w I Hl Hc) as H2. unfold wp in *.
    destruct (vgsm_comm_receive_message w) as [[stop w1]|]; [|done]. exists stop, w1.
    destruct H1 as (H1 & _ & H3). split; [done|split; [done|split; [done|]]].
    destruct stop; by split. }
  unfold wpd at 1. unfold poll_message in E.
  match goal with |- match ?m with _ => _ end => replace m with (Done (stop, w1)) by (symmetry; exact E) end.
  destruct stop.
  { apply line_plain; cbn; by rewrite Hs1. }
  specialize (Hl1 eq_refl). clear Hs1. destruct fd as [[n|]|]; cbn.
  - destruct (str_at_ex (c_buf w1) 0) as [s Hs]; [apply I1|lia|].
    destruct (Ho w1 E) as [Hnz Hk]. destruct (Hk s Hs) as (rest & w2 & E2).
    destruct (line_pending w1 s I1 Hl1 Hc1 Hs) as [Hp He].
    destruct (receive_sim classes w1 s n Hp He Hnz) as (r & w2' & E2' & H2).
    unfold w_read in E2. rewrite E2 in E2'. injection E2' as <- <-.
    destruct (H2 rest eq_refl) as (b & E3 & Hp3 & He3).
    unfold wpd, mbind, M_bind. rewrite E3. cbn.
    eapply line_same; [| |exact (pending_line _ _ Hp3 He3)]; done.
  - destruct (str_at_ex (c_buf w1) 0) as [s Hs]; [apply I1|lia|].
    unfold wpd, vgsm_comm_receive. run.
    rewrite (buf_string_eq w1 0 s : _ → _ → _ → buf_string 0 w1 = _) by (apply I1 || done || lia).
    by eapply line_same; [| |exact Hc1].
  - by eapply line_same; [| |exact Hc1].
Qed.

Lemma exec_line e w w' :
  comm_inv w → line_cond w → enabled e w = true → obeys e w →
  vcomm_exec classes e w = Done (tt, w') → line_cond w'.
Proof.
  intros [I T] Hc He Ho E. destruct (of_thread e) eqn:Hth.
  2: { pose proof (steady_event classes e Hth w) as Q. unfold steady_at in Q. rewrite E in Q.
       destruct Q as [Q1 Q2]. by eapply line_same. }
  unfold thread_ok in T. destruct (ch_timer _ I) as (t & Ht & _).
  destruct e; try done; cbn [vcomm_exec enabled] in *; try apply bool_decide_eq_true in He.
  - unfold thread_start in E. unfold mbind, M_bind in E. rewrite (change_state_eq w t) in E by done.
    injection E as <-. by apply line_plain.
  - rewrite He in T. pose proof (top_line w I T Hc) as Q. unfold wp in Q. unfold mbind, M_bind in E.
    destruct (thread_top w) as [[n w1]|]; [|done]. by injection E as <-.
  - rewrite He in T. pose proof (poll_line w message fd I T Hc Ho) as Q. unfold wpd in Q.
    by rewrite E in Q.
  - unfold thread_exit in E. unfold mbind, M_bind in E. cbn in E.
    rewrite (change_state_eq _ t) in E by done. injection E as <-. by apply line_plain.
Qed.

(** the states that are reached when the module keeps to the protocol as well *)
Inductive proto_reach : vgsm_comm → Prop :=
| proto_init : proto_reach vgsm_comm_init
| proto_step w e w' :
    proto_reach w → enabled e w = true → benign e w → obeys e w →
    vcomm_exec classes e w = Done (tt, w') → proto_reach w'.

Lemma proto_comm w : proto_reach w → comm_reach classes w.
Proof. induction 1; [constructor|by econstructor]. Qed.
Lemma proto_line w : proto_reach w → line_cond w.
Proof.
  induction 1 as [|w e w' Hp IH He Hb Ho E]; [by apply line_plain|].
  by apply (exec_line e w w'); [apply (reach_inv classes), proto_comm|..].
Qed.

(** C12. The receiver does what the protocol says: as long as the module kept to it, the
    buffer holds the characters that were not taken yet, and a read adds to them what
    came and takes what [spec_receive] takes, with the same effect and in as many
    iterations; the loop ends. *)
Theorem receive_refines w n :
  proto_reach w → comm_thread w = AT_POLL → Forall (.≠ 0) (rx w) →
  ∃ s r w1,
    str_at (c_buf w) 0 s ∧
    spec_receive classes (s ++ taken n s w) (w_read n s w) = Done (r, w1) ∧
    ∀ rest, r = Some rest → ∃ b,
      vgsm_comm_receive classes receive_fuel (Some n) w = Done (0, w_buf b w1) ∧ str_at b 0 rest.
Proof.
  intros Hr Hth Hnz. destruct (reach_inv _ _ (proto_comm _ Hr)) as [I T].
  unfold thread_ok in T. rewrite Hth in T.
  destruct (str_at_ex (c_buf w) 0) as [s Hs]; [apply I|lia|].
  destruct (line_pending w s I T (proto_line w Hr) Hs) as [Hp He].
  destruct (receive_sim classes w s n Hp He Hnz) as (r & w1 & E1 & H1).
  exists s, r, w1. split; [done|split; [done|]]. intros rest Er.
  destruct (H1 rest Er) as (b & E2 & [_ _ Hs2 _] & _). by exists b.
Qed.
End classes.
