(* ===== verification/VgsmCommRun.v ===== *)
(** * Requests to the module: what comes of them

    With the receiver refined ([VgsmCommLine]): that it does not matter in which pieces
    the characters of the module are read, that an answer completes its request, that a
    silent module lets the requests fail, and where the code does not what it should. *)

From stdpp Require Import base list gmap strings.
From Stdlib Require Import ZArith Lia.
From S2P Require Import Prelude.
From S2P Require Import Bits.
From S2P Require Import VgsmText.
From S2P Require Import VgsmComm.
From S2P Require Import VgsmCommInv.
From S2P Require Import VgsmCommThm.
From S2P Require Import VgsmCommLine.
Local Open Scope Z_scope.
#[local] Arguments singletonM : simpl never.
#[local] Arguments _vgsm_req_put : simpl never.
#[local] Arguments vgsm_comm_change_state : simpl never.
#[local] Opaque the_comm_timer.

Section classes.
Context (classes : list vgsm_urc_class).

(** ** Reading in pieces *)

(** where [spec] takes characters of [s], it takes the same when more follow *)
Definition takes_same (spec : list Z → Cm (option Z)) (s k : list Z) (w : vgsm_comm) : Prop :=
  ∀ n w1, spec s w = Done (Some n, w1) →
    (n = 0 ∧ w1 = w) ∨
    (0 < n ≤ Z.of_nat (length s) ∧
     (spec (s ++ k) w = Done (Some n, w1) ∨ ∃ w2, spec (s ++ k) w = Done (None, w2))).

Lemma takes_none (spec : list Z → Cm (option Z)) s k w :
  spec s w = Done (Some 0, w) → takes_same spec s k w.
Proof. intros E n w1 E1. left. rewrite E in E1. by injection E1 as <- <-. Qed.
Lemma takes_one (spec : list Z → Cm (option Z)) s k w :
  s ≠ [] → spec s w = Done (Some 1, w) → spec (s ++ k) w = Done (Some 1, w) → takes_same spec s k w.
Proof.
  intros Hs E E' n w1 E1. right. rewrite E in E1. injection E1 as <- <-.
  destruct s; [done|]. split; [cbn; lia|by left].
Qed.
Lemma takes_ext (spec spec' : list Z → Cm (option Z)) s k w :
  spec s w = spec' s w → spec (s ++ k) w = spec' (s ++ k) w →
  takes_same spec' s k w → takes_same spec s k w.
Proof. unfold takes_same. by intros -> ->. Qed.

Lemma echo_app snt s k n : 0 ≤ n →
  echo_loop n s snt ≠ 0 → echo_loop n (s ++ k) snt = echo_loop n s snt.
Proof.
  revert s n. induction snt as [|c snt IH]; intros s n Hn E; [by destruct s, k|].
  destruct s as [|b s]; [done|]. cbn in *. destruct (b =? c); [|done]. apply IH; [lia|done].
Qed.
Lemma echo_bound snt s : 0 < echo_loop 0 s snt → echo_loop 0 s snt ≤ Z.of_nat (length s).
Proof.
  intros H. destruct (echo_loop_spec snt 0 s) as [(r & -> & E)|[[_ E]|E]]; [lia| |lia..].
  rewrite E, length_app. lia.
Qed.

Lemma line_takes begin s k w : takes_same (spec_urc_line classes begin) s k w.
Proof.
  intros n w1 E. unfold spec_urc_line in *.
  destruct (find_crlf (drop begin s)) as [i|] eqn:Hi; [|by injection E as <- <-; left].
  right. pose proof (find_crlf_bound _ _ Hi) as Hb. rewrite length_drop in Hb.
  rewrite drop_app_le by lia. rewrite (find_crlf_app _ _ _ Hi).
  rewrite take_app_le by (rewrite length_drop; lia).
  unfold mbind, M_bind in *. destruct (urc_line classes _ w) as [[[] w2]|]; [|done].
  injection E as <- <-. split; [lia|by left].
Qed.

Lemma urc_takes s k w : takes_same (spec_urc classes) s k w.
Proof.
  destruct s as [|c s]; [by apply takes_none|].
  destruct (c =? CR) eqn:Hc; destruct ((c =? chr_plus) || (c =? chr_caret)) eqn:Hp;
    [| |eapply takes_ext; [| |apply (line_takes 0)]; unfold spec_urc; cbn [app]; by rewrite Hc, Hp
     |apply takes_one; [done|..]; unfold spec_urc; cbn [app]; by rewrite Hc, Hp].
  all: destruct s as [|c1 s]; [apply takes_none; unfold spec_urc; by rewrite Hc|].
  all: destruct (c1 =? LF) eqn:H1; [|apply takes_one; [done|..]; unfold spec_urc; cbn [app]; by rewrite Hc, H1].
  all: destruct s as [|c2 s]; [apply takes_none; unfold spec_urc; by rewrite Hc, H1|].
  all: destruct (c2 =? CR) eqn:H2;
    [|eapply takes_ext; [| |apply (line_takes 2)]; unfold spec_urc; cbn [app]; by rewrite Hc, H1, H2].
  all: destruct s as [|c3 s]; [apply takes_none; unfold spec_urc; by rewrite Hc, H1, H2|].
  all: destruct (c3 =? LF) eqn:H3;
    [eapply takes_ext; [| |apply (line_takes 4)]; unfold spec_urc; cbn [app]; by rewrite Hc, H1, H2, H3
    |apply takes_one; [done|..]; unfold spec_urc; cbn [app]; by rewrite Hc, H1, H2, H3].
Qed.

Lemma cont_takes s k w : takes_same spec_urc_cont s k w.
Proof.
  intros n w1 E. unfold spec_urc_cont in *.
  destruct (find_crlf s) as [i|] eqn:Hi; [|by injection E as <- <-; left].
  right. pose proof (find_crlf_bound _ _ Hi) as Hb. rewrite (find_crlf_app _ _ _ Hi).
  rewrite take_app_le by lia. split; [|by left].
  unfold mbind, M_bind in E. cbn in E. destruct (current_urc w) as [u|]; [|done]. cbn in E.
  destruct (urc_more_line _ _ _) as [[? ?]|]; [|done]. injection E as <- _. lia.
Qed.

(** where the line of a response begins, once that is known *)
Definition line_begin (s : list Z) : option nat :=
  match s with
  | [] => None
  | c :: _ =>
    let b := if c =? CR then 1%nat else 0%nat in
    match drop b s with
    | [] => None
    | c :: _ => Some (if c =? LF then S b else b)
    end
  end.
Definition spec_from (begin req : nat) (s : list Z) : Cm (option Z) :=
  if starts_with (text "> ") (drop begin s) then
    if Nat.eqb begin 2 then n ← match_prompt req; mret (Some n) else mret None
  else
    match find_crlf (drop 2 s) with
    | None => mret (Some 0)
    | Some i =>
      response_line req (take (2 + i - begin) (drop begin s));; mret (Some (2 + Z.of_nat i + 2))
    end.

Lemma response_from s w req :
  current_req w = Some req →
  spec_response s w =
    match line_begin s with None => Done (Some 0, w) | Some b => spec_from b req s w end.
Proof.
  intros Hr. unfold spec_response. unfold mbind at 1 2, M_bind at 1 2. cbn [get]. rewrite Hr.
  cbn [deref]. unfold mret at 1, M_ret at 1. unfold line_begin, spec_from.
  destruct s as [|c s]; [done|]. destruct (c =? CR); cbn [drop]; rewrite ?drop_0.
  - destruct s as [|c1 s]; [done|]. by destruct (c1 =? LF).
  - by destruct (c =? LF).
Qed.

Lemma line_begin_app s k b :
  line_begin s = Some b → line_begin (s ++ k) = Some b ∧ (b ≤ 2)%nat ∧ (b ≤ length s)%nat.
Proof.
  unfold line_begin. destruct s as [|c s]; [done|]. cbn [app].
  destruct (c =? CR); cbn [drop]; [destruct s as [|c1 s]; [done|]; cbn [app]|]; rewrite ?drop_0;
    intros [= <-]; (split; [done|]); case_match; cbn; lia.
Qed.

Lemma starts_with_app p s k :
  (length p ≤ length s)%nat ∨ starts_with p s = true → starts_with p (s ++ k) = starts_with p s.
Proof.
  intros H. unfold starts_with in *. destruct H as [H|H]; [by rewrite take_app_le|].
  rewrite H. apply bool_decide_eq_true in H. apply bool_decide_eq_true.
  rewrite <- H at 2. rewrite take_app_le; [done|]. rewrite <- H, length_take. lia.
Qed.

Lemma from_takes b req s k w :
  (b ≤ 2)%nat → (b ≤ length s)%nat → takes_same (spec_from b req) s k w.
Proof.
  intros Hb Hbs n w1 E. unfold spec_from in *. rewrite drop_app_le by lia.
  destruct (starts_with (text "> ") (drop b s)) eqn:Hp.
  - right. rewrite starts_with_app, Hp by auto. split; [|].
    2: { destruct (Nat.eqb b 2); [left; exact E|done]. }
    destruct (Nat.eqb_spec b 2) as [->|]; [|done]. unfold mbind, M_bind in E.
    destruct (match_prompt req w) as [[m w2]|] eqn:Em; [|done]. injection E as <- _.
    assert (m = 4) as ->.
    { revert Em. unfold match_prompt, the_vreq, write_fd. unfold mbind, M_bind. cbn.
      destruct (vreqs w !! req) as [o|]; [|done]. cbn. destruct (vr_sms_text_pdu o); cbn.
      - destruct (vgsm_comm_change_state _ _ _) as [[? ?]|]; [|done]. by intros [= <- _].
      - by intros [= <- _]. }
    unfold starts_with in Hp. apply bool_decide_eq_true in Hp. apply (f_equal length) in Hp.
    rewrite length_take, length_drop in Hp. change (length (text "> ")) with 2%nat in Hp. lia.
  - destruct (find_crlf (drop 2 s)) as [i|] eqn:Hi; [|by injection E as <- <-; left].
    right. pose proof (find_crlf_bound _ _ Hi) as Hd. rewrite length_drop in Hd.
    rewrite starts_with_app, Hp by (left; rewrite length_drop; change (length (text "> ")) with 2%nat; lia).
    rewrite drop_app_le by lia. rewrite (find_crlf_app _ _ _ Hi).
    rewrite take_app_le by (rewrite length_drop; lia). split; [|by left].
    unfold mbind, M_bind in E. destruct (response_line req _ w) as [[? ?]|]; [|done].
    injection E as <- _. lia.
Qed.

Lemma response_takes s k w : takes_same spec_response s k w.
Proof.
  destruct (current_req w) as [req|] eqn:Hr.
  2: { intros n w1 E. exfalso. revert E. unfold spec_response. unfold mbind at 1 2, M_bind at 1 2. cbn [get].
       by rewrite Hr. }
  destruct (line_begin s) as [b|] eqn:Hb.
  - destruct (line_begin_app s k b Hb) as (Hb' & H2 & Hl).
    eapply takes_ext; [| |by apply (from_takes b req)]; rewrite (response_from _ w req Hr); by rewrite ?Hb, ?Hb'.
  - apply takes_none. rewrite (response_from _ w req Hr). by rewrite Hb.
Qed.

(** iterations that look at the current request, or for an echo *)
Lemma current_takes (spec : vgsm_req → list Z → Cm (option Z)) s k w :
  (∀ o, takes_same (spec o) s k w) →
  takes_same (λ x, (req ← deref (current_req w); the_vreq req) ≫= λ o, spec o x) s k w.
Proof.
  intros Ho n w1 E. unfold mbind, M_bind in *. destruct (current_req w) as [req|]; [|done].
  cbn in *. unfold the_vreq, mbind, M_bind in *. cbn in *.
  destruct (vreqs w !! req) as [o|]; [|done]. cbn in *. by apply (Ho o).
Qed.

(** [bad] are the strings that are outside of the protocol *)
Lemma echo_takes snt (bad : list Z → bool) (found : Cm unit) (other : list Z → Cm (option Z)) s k w :
  takes_same other s k w →
  takes_same (λ x, let nmatch := echo_loop 0 x snt in
    if 0 <? nmatch then
      (if bad (drop (Z.to_nat nmatch) x) then mret None else found;; mret (Some nmatch))
    else if negb (nmatch =? 0) then other x else mret (Some 0)) s k w.
Proof.
  intros Ho n w1. cbv zeta.
  destruct (Z.eqb_spec (echo_loop 0 s snt) 0) as [E0|E0]; [rewrite E0; cbn; intros [= <- <-]; by left|].
  rewrite (echo_app snt s k 0) by (lia || done). rewrite (proj2 (Z.eqb_neq _ _) E0). cbn [negb].
  destruct (Z.ltb_spec 0 (echo_loop 0 s snt)) as [Hp|]; [|apply Ho].
  destruct (bad (drop _ s)); [done|]. intros E. right.
  pose proof (echo_bound snt s Hp) as Hb.
  assert (n = echo_loop 0 s snt) as En.
  { revert E. unfold mbind, M_bind. destruct (found w) as [[[] ?]|]; [|done]. by intros [= <- _]. }
  split; [lia|]. destruct (bad (drop _ (s ++ k))); [right; by eexists|left; exact E].
Qed.
Lemma echo_only_takes snt (found : Cm unit) s k w :
  takes_same (λ x, let nmatch := echo_loop 0 x snt in
    if 0 <? nmatch then found;; mret (Some nmatch) else mret (Some 0)) s k w.
Proof.
  pose proof (echo_takes snt (λ _, false) found (λ _, mret (Some 0)) s k w) as H.
  eapply takes_ext; [| |apply H; by apply takes_none]; cbv beta zeta.
  all: match goal with |- context [0 <? ?n] => destruct (0 <? n) end; [done|].
  all: by destruct (negb _).
Qed.

Lemma bind_assoc {A B C} (m : Cm A) (k : A → Cm B) (f : B → Cm C) w :
  ((m ≫= k) ≫= f) w = (m ≫= λ a, k a ≫= f) w.
Proof. unfold mbind, M_bind. by destruct (m w) as [[a w1]|]. Qed.

(** one iteration, in a state that does not throw away what comes *)
Lemma step_takes s k w : throws (c_state w) = false → takes_same (spec_step classes) s k w.
Proof.
  intros Hth. assert (∀ spec : list Z → Cm (option Z),
    (∀ x, spec_step classes x w = spec x w) → takes_same spec s k w →
    takes_same (spec_step classes) s k w) as Hst by (intros spec E; by apply takes_ext).
  unfold spec_step at 1 in Hst. unfold mbind at 1, M_bind at 1 in Hst. cbn [get] in Hst.
  destruct (c_state w) eqn:Hs; try done.
  - apply (Hst (λ _, mret (Some 0))); [done|by apply takes_none].
  - apply (Hst (λ _, mret (Some 0))); [done|by apply takes_none].
  - apply (Hst (spec_urc classes)); [done|apply urc_takes].
  - apply (Hst spec_urc_cont); [done|apply cont_takes].
  - apply (Hst (λ x, (req ← deref (current_req w); the_vreq req) ≫= λ o,
      pdu ← deref (vr_sms_text_pdu o);
      let nmatch := echo_loop 0 x pdu in
      if 0 <? nmatch then
        write_fd [SUB];; vgsm_comm_change_state VGSM_COMM_AWAITING_SMS_ECHO_1A (-2);;
        mret (Some nmatch)
      else mret (Some 0))); [done|]. apply current_takes. intros o.
    destruct (vr_sms_text_pdu o) as [pdu|]; [|by intros ? ?].
    eapply takes_ext; [| |exact (echo_only_takes pdu (write_fd [SUB];;
      vgsm_comm_change_state VGSM_COMM_AWAITING_SMS_ECHO_1A (-2)) s k w)].
    all: cbv beta zeta; unfold mbind at 1, M_bind at 1; cbn [deref mret M_ret].
    all: match goal with |- context [0 <? ?n] => destruct (0 <? n) end; [by rewrite bind_assoc|done].
  - apply (Hst (λ x, let nmatch := echo_loop 0 x [SUB] in
      if 0 <? nmatch then
        o ← (req ← deref (current_req w); the_vreq req);
        vgsm_comm_change_state VGSM_COMM_READING_RESPONSE (vr_timeout o);; mret (Some nmatch)
      else mret (Some 0))); [done|].
    eapply takes_ext; [| |exact (echo_only_takes [SUB] (
      o ← (req ← deref (current_req w); the_vreq req);
      vgsm_comm_change_state VGSM_COMM_READING_RESPONSE (vr_timeout o)) s k w)].
    all: cbv beta zeta.
    all: match goal with |- context [0 <? ?n] => destruct (0 <? n) end; [by rewrite !bind_assoc|done].
  - apply (Hst (λ x, (req ← deref (current_req w); the_vreq req) ≫= λ o,
      let nmatch := echo_loop 0 x (vr_request o) in
      if 0 <? nmatch then
        if bool_decide (drop (Z.to_nat nmatch) x = [LF]) then mret None
        else vgsm_comm_change_state VGSM_COMM_READING_RESPONSE (vr_timeout o);;
             mret (Some nmatch)
      else if negb (nmatch =? 0) then spec_urc classes x else mret (Some 0))); [done|].
    apply current_takes. intros o.
    exact (echo_takes (vr_request o) (λ x, bool_decide (x = [LF]))
      (vgsm_comm_change_state VGSM_COMM_READING_RESPONSE (vr_timeout o)) (spec_urc classes) s k w
      (urc_takes s k w)).
  - apply (Hst spec_urc_cont); [done|apply cont_takes].
  - apply (Hst spec_response); [done|apply response_takes].
Qed.

(** the characters that were left, with those that follow *)
Lemma loop_takes f : ∀ f2 s k w r w1 r2 w2,
  spec_loop classes f s w = Done (Some r, w1) →
  spec_loop classes f2 (s ++ k) w = Done (Some r2, w2) →
  spec_loop classes f2 (r ++ k) w1 = Done (Some r2, w2).
Proof.
  induction f as [|f IH]; intros f2 s k w r w1 r2 w2 E1 E2; [done|].
  destruct f2 as [|f2]; [done|]. pose proof E1 as E1'.
  cbn [spec_loop] in E1. unfold mbind at 1, M_bind at 1 in E1.
  destruct (spec_step classes s w) as [[[n|] w3]|] eqn:Es; [|done..].
  destruct (throws (c_state w)) eqn:Hth.
  - rewrite spec_throws in Es by done. injection Es as <- <-.
    assert (∀ f s', spec_loop classes (S (S f)) s' w = Done (Some [], w)) as Hall.
    { intros g s'. cbn [spec_loop]. unfold mbind, M_bind. rewrite spec_throws by done.
      destruct (Z.eqb_spec (Z.of_nat (length s')) 0) as [E|E].
      - destruct s'; [done|cbn in E; lia].
      - rewrite Nat2Z.id, drop_all. by rewrite spec_throws. }
    assert (r = [] ∧ w1 = w) as [-> ->].
    { apply (spec_more_fuel classes _ (S (S (S f)))) in E1'; [|lia]. rewrite Hall in E1'.
      by injection E1' as <- <-. }
    pose proof (spec_more_fuel classes _ (S (S f2)) _ _ _ E2 ltac:(lia)) as E2'.
    rewrite Hall in E2'. injection E2' as <- <-.
    destruct f2 as [|f2]; [|apply Hall].
    cbn [app] in *. destruct k as [|c k].
    + cbn [spec_loop]. unfold mbind, M_bind. by rewrite spec_throws.
    + exfalso. cbn [spec_loop] in E2. unfold mbind, M_bind in E2. rewrite spec_throws in E2 by done.
      destruct (Z.eqb_spec (Z.of_nat (length (s ++ c :: k))) 0) as [E|E]; [|done].
      rewrite length_app in E. cbn in E. lia.
  - destruct (step_takes s k w Hth n w3 Es) as [[-> ->]|[Hn Hs]].
    { injection E1 as <- <-. exact E2. }
    rewrite (proj2 (Z.eqb_neq n 0)) in E1 by lia.
    cbn [spec_loop] in E2. unfold mbind at 1, M_bind at 1 in E2.
    destruct Hs as [Hs|[w4 Hs]]; rewrite Hs in E2; [|done].
    rewrite (proj2 (Z.eqb_neq n 0)) in E2 by lia. rewrite drop_app_le in E2 by lia.
    eapply spec_more_fuel; [exact (IH f2 _ k w3 r w1 r2 w2 E1 E2)|lia].
Qed.

Lemma receive_takes s k w r w1 r1 w2 r2 w3 :
  spec_receive classes s w = Done (Some r, w1) →
  spec_receive classes (r ++ k) w1 = Done (Some r1, w2) →
  spec_receive classes (s ++ k) w = Done (Some r2, w3) → r1 = r2 ∧ w2 = w3.
Proof.
  intros E1 E2 E3. pose proof (loop_takes _ _ _ _ _ _ _ _ _ E1 E3) as E4.
  set (f := Nat.max (S (length (r ++ k))) (S (length (s ++ k)))).
  apply (spec_more_fuel classes _ f) in E2; [|lia]. apply (spec_more_fuel classes _ f) in E4; [|lia].
  rewrite E2 in E4. by injection E4 as <- <-.
Qed.

Lemma loop_rest f : ∀ s w r w1,
  spec_loop classes f s w = Done (Some r, w1) → (length r ≤ length s)%nat.
Proof.
  induction f as [|f IH]; intros s w r w1 E; [done|]. cbn [spec_loop] in E.
  unfold mbind at 1, M_bind at 1 in E. destruct (spec_step classes s w) as [[[n|] w2]|]; [|done..].
  destruct (n =? 0); [by injection E as <- _|]. specialize (IH _ _ _ _ E). rewrite length_drop in IH. lia.
Qed.

Lemma taken_room n s w : (length s + n ≤ 2047)%nat → taken n s w = take n (rx w).
Proof. intros H. unfold taken. f_equal. lia. Qed.
Lemma read_room n s w : (length s + n ≤ 2047)%nat → w_read n s w = set_rx (drop n (rx w)) w.
Proof.
  intros H. unfold w_read. rewrite taken_room by done. f_equal. rewrite length_take.
  destruct (decide (n ≤ length (rx w))%nat); [by rewrite Nat.min_l|].
  by rewrite Nat.min_r, drop_all, drop_ge by lia.
Qed.

(** a read where there is room, of a module that keeps to the protocol *)
Lemma read_once w s n :
  pending w s → (throws (c_state w) = true → s = []) → Forall (.≠ 0) (rx w) →
  (length s + n ≤ 2047)%nat → keeps classes n w →
  ∃ rest v b, spec_receive classes (s ++ take n (rx w)) w = Done (Some rest, v) ∧
    let w1 := w_line b (drop n (rx w)) v in
    vgsm_comm_receive classes receive_fuel (Some n) w = Done (0, w1) ∧
    pending w1 rest ∧ (throws (c_state w1) = true → rest = []).
Proof.
  intros Hp He Hnz Hlen Hk. destruct (Hk s (pd_string _ _ Hp)) as (rest & w1 & E).
  destruct (receive_sim classes w s n Hp He Hnz) as (r & w1' & E' & H).
  unfold w_read in E. rewrite E in E'. injection E' as <- <-.
  destruct (H rest eq_refl) as (b & E2 & Hp2 & He2).
  change (set_rx _ w) with (w_read n s w) in E. rewrite read_room, taken_room in E by done.
  rewrite blind_rx in E by apply blind_spec_loop.
  destruct (spec_receive classes (s ++ take n (rx w)) w) as [[r v]|] eqn:Ev; [|done].
  injection E as -> <-. exists rest, v, b. split; [done|]. by split.
Qed.

(** C14. It does not matter in which pieces the characters of the module are read: two
    reads leave the channel as one read of as many characters does, with the same
    characters in the buffer. *)
Theorem reads_alike w s n1 n2 :
  proto_reach classes w → comm_thread w = AT_POLL → Forall (.≠ 0) (rx w) →
  str_at (c_buf w) 0 s → (length s + n1 + n2 ≤ 2047)%nat →
  keeps classes n1 w → keeps classes (n1 + n2) w →
  ∃ w1, vgsm_comm_receive classes receive_fuel (Some n1) w = Done (0, w1) ∧
    (keeps classes n2 w1 → ∃ w2 b rest,
       vgsm_comm_receive classes receive_fuel (Some n2) w1 = Done (0, w2) ∧
       vgsm_comm_receive classes receive_fuel (Some (n1 + n2)%nat) w = Done (0, w_buf b w2) ∧
       str_at (c_buf w2) 0 rest ∧ str_at b 0 rest).
Proof.
  intros Hr Hth Hnz Hs Hlen Hk1 Hk.
  destruct (reach_inv _ _ (proto_comm _ _ Hr)) as [I T]. unfold thread_ok in T. rewrite Hth in T.
  destruct (line_pending w s I T (proto_line _ w Hr) Hs) as [Hp He].
  destruct (read_once w s n1 Hp He Hnz) as (r1 & v1 & b1 & E1 & F1 & Hp1 & He1); [lia|done|].
  destruct (read_once w s (n1 + n2) Hp He Hnz) as (r3 & v3 & b3 & E3 & F3 & Hp3 & He3); [lia|done|].
  eexists. split; [exact F1|]. intros Hk2. pose proof (loop_rest _ _ _ _ _ E1) as Hl.
  rewrite length_app, length_take in Hl.
  destruct (read_once _ r1 n2 Hp1 He1) as (r2 & v2 & b2 & E2 & F2 & Hp2 & He2);
    [by apply Forall_drop|lia|done|].
  change (rx (w_line b1 (drop n1 (rx w)) v1)) with (drop n1 (rx w)) in E2, F2.
  unfold spec_receive in E2. rewrite blind_spec_loop in E2.
  destruct (spec_loop classes _ _ v1) as [[r2' v2']|] eqn:E2'; [|done]. injection E2 as -> <-.
  rewrite <- take_take_drop, app_assoc in E3.
  destruct (receive_takes _ _ _ _ _ _ _ _ _ E1 E2' E3) as [-> ->].
  eexists _, b3, r3. split; [exact F2|]. split; [|split; [apply Hp2|apply Hp3]].
  rewrite F3. do 2 f_equal. unfold w_line. cbn. by rewrite drop_drop.
Qed.
(** ** A request that is answered *)

(** a line as the module sends it *)
Definition frame (line : list Z) : list Z := [CR; LF] ++ line ++ [CR; LF].
Lemma frame_ne line : frame line ≠ [].
Proof. done. Qed.
Record plain_line (line : list Z) : Prop := {
  pl_crlf : find_crlf line = None;
  pl_prompt : starts_with (text "> ") line = false;
}.
(** a line that does not end the response *)
Definition more_line (line : list Z) : Prop :=
  plain_line line ∧ vgsm_req_final_response_code line = VGSM_RESP_UNKNOWN.

Lemma find_crlf_end line k :
  find_crlf line = None → find_crlf (line ++ CR :: LF :: k) = Some (length line).
Proof.
  induction line as [|a line IH]; intros E; [done|]. cbn [app]. destruct line as [|b line].
  - cbn [app]. rewrite find_crlf_cons by (right; by intros [= F]). done.
  - change (find_crlf (a :: b :: line)) with
      (if (a =? CR) && (b =? LF) then Some O else S <$> find_crlf (b :: line)) in E.
    destruct ((a =? CR) && (b =? LF)) eqn:Hab; [done|].
    destruct (find_crlf (b :: line)) eqn:E'; [done|]. specialize (IH eq_refl). cbn [app] in *.
    change (find_crlf (a :: b :: line ++ CR :: LF :: k)) with
      (if (a =? CR) && (b =? LF) then Some O else S <$> find_crlf (b :: line ++ CR :: LF :: k)).
    by rewrite Hab, IH.
Qed.

Lemma no_prompt line k :
  starts_with (text "> ") line = false → starts_with (text "> ") (line ++ CR :: LF :: k) = false.
Proof.
  intros E. destruct line as [|a [|b line]].
  - apply bool_decide_eq_false. intros F. done.
  - apply bool_decide_eq_false. intros F. done.
  - rewrite starts_with_app; [done|left; cbn; lia].
Qed.

(** [req] is the request of the channel *)
Record asks (w : vgsm_comm) (req : nat) (o : vgsm_req) (t : vgsm_timer) : Prop := {
  ak_timer : has_timer w t;
  ak_current : current_req w = Some req;
  ak_vreq : vreqs w !! req = Some o;
  ak_counted : counted o;
  ak_queued : req ∉ queued w;
}.

Definition with_lines (lines : list (list Z)) (o : vgsm_req) : vgsm_req :=
  set_vr_lines (vr_lines o ++ lines) o.

(** the request has its result, and the channel is idle *)
Definition w_answer (req : nat) (o : vgsm_req) (lines : list (list Z)) (err : Z)
    (t : vgsm_timer) (w : vgsm_comm) : vgsm_comm :=
  set_current_req None
    (w_complete req err (with_lines lines o)
      (set_c_state VGSM_COMM_IDLE (w_timer (stopped t) w))).

Lemma step_line w req o t line k :
  asks w req o t → c_state w = VGSM_COMM_READING_RESPONSE → plain_line line →
  spec_step classes (frame line ++ k) w =
    Done (Some (Z.of_nat (length (frame line))), w_response req o line t w).
Proof.
  intros [Ht Hr Ho Hc Hq] Hs [Hl Hp]. unfold spec_step.
  unfold mbind at 1, M_bind at 1. cbn [get]. rewrite Hs. cbv zeta.
  rewrite (response_from _ w req Hr).
  assert (line_begin (frame line ++ k) = Some 2%nat) as -> by done.
  assert (drop 2 (frame line ++ k) = line ++ CR :: LF :: k) as E.
  { unfold frame. cbn. by rewrite drop_0, <- app_assoc. }
  unfold spec_from. rewrite E, no_prompt, find_crlf_end by done.
  replace (2 + length line - 2)%nat with (length line) by lia. rewrite take_app_length.
  unfold mbind, M_bind. rewrite (response_line_eq w t req o line) by done.
  replace (2 + Z.of_nat (length line) + 2) with (Z.of_nat (length (frame line)))
    by (unfold frame; rewrite !length_app; cbn [length]; lia). done.
Qed.

Lemma loop_one f x k w w1 :
  x ≠ [] → spec_step classes (x ++ k) w = Done (Some (Z.of_nat (length x)), w1) →
  spec_loop classes (S f) (x ++ k) w = spec_loop classes f k w1.
Proof.
  intros Hx E. cbn [spec_loop]. unfold mbind at 1, M_bind at 1. rewrite E.
  rewrite (proj2 (Z.eqb_neq _ _)) by (destruct x; [done|cbn; lia]).
  by rewrite Nat2Z.id, drop_app_length.
Qed.

Lemma asks_line w req o t line :
  asks w req o t → asks (w_vreq req (with_line line o) w) req (with_line line o) t.
Proof. intros [Ht Hr Ho Hc Hq]. constructor; try done. apply w_vreq_lookup. Qed.

Lemma loop_lines ls final : ∀ w req o t,
  asks w req o t → c_state w = VGSM_COMM_READING_RESPONSE → Forall more_line ls →
  plain_line final → vgsm_req_final_response_code final ≠ VGSM_RESP_UNKNOWN →
  spec_loop classes (length ls + 2) ((ls ≫= frame) ++ frame final) w =
    Done (Some [], w_answer req o (ls ++ [final]) (vgsm_req_final_response_code final) t w).
Proof.
  induction ls as [|line ls IH]; intros w req o t A Hs Hls Hf Hcode.
  - cbn [length Nat.add mbind list_bind app]. rewrite <- (app_nil_r (frame final)).
    rewrite (loop_one 1 _ _ w _ (frame_ne _) (step_line w req o t final [] A Hs Hf)).
    unfold w_response. rewrite (proj2 (Z.eqb_neq _ _) Hcode). done.
  - inversion Hls as [|? ? [Hl Hu] Hls']. subst.
    cbn [length Nat.add mbind list_bind app]. rewrite <- app_assoc.
    rewrite (loop_one _ _ _ w _ (frame_ne _) (step_line w req o t line _ A Hs Hl)).
    unfold w_response. rewrite Hu. change (VGSM_RESP_UNKNOWN =? VGSM_RESP_UNKNOWN) with true. cbv match.
    rewrite (IH _ req (with_line line o) t (asks_line _ _ _ _ _ A)) by done.
    unfold w_answer, w_complete, w_vreq, with_lines, with_line. cbn.
    by rewrite insert_insert_eq, <- app_assoc.
Qed.

Lemma asks_state w req o t st t' x :
  asks w req o t → (timer_pending t' = true → timer_data t' = Some comm_ptr) →
  asks (set_c_state st (w_timer t' (set_tx x w))) req o t'.
Proof. by intros [Ht Hr Ho Hc Hq] Ht'. Qed.
Lemma set_tx_id w : set_tx (tx w) w = w.
Proof. by destruct w. Qed.

Lemma echo_whole snt k : echo_loop 0 (snt ++ k) snt = Z.of_nat (length snt).
Proof.
  assert (∀ n, echo_loop n (snt ++ k) snt = n + Z.of_nat (length snt)) as ->; [|lia].
  induction snt as [|c snt IH]; intros n; [destruct k; cbn; lia|]. cbn [app echo_loop].
  rewrite Z.eqb_refl, IH. cbn [length]. lia.
Qed.
Lemma found_echo snt k : snt ≠ [] → 0 <? echo_loop 0 (snt ++ k) snt = true.
Proof. intros H. rewrite echo_whole. apply Z.ltb_lt. destruct snt; [done|cbn [length]; lia]. Qed.

Lemma request_ne o : unanswered o → vr_request o ≠ [].
Proof. intros H E. pose proof (un_length _ H) as Hl. rewrite E in Hl. cbn in Hl. lia. Qed.
Lemma pdu_ne o pdu : unanswered o → vr_sms_text_pdu o = Some pdu → pdu ≠ [].
Proof. intros H Hp E. destruct (un_pdu _ H pdu Hp) as [Hl _]. rewrite E in Hl. cbn in Hl. lia. Qed.

(** the request whose answer begins *)
Definition w_reading (o : vgsm_req) (t : vgsm_timer) (w : vgsm_comm) : vgsm_comm :=
  set_c_state VGSM_COMM_READING_RESPONSE (w_timer (armed (clock w + vr_timeout o) t) w).

Section asks.
Context {w : vgsm_comm} {req : nat} {o : vgsm_req} {t : vgsm_timer}.
Hypothesis (A : asks w req o t) (Hun : unanswered o).

Lemma asks_reading : asks (w_reading o t w) req o (armed (clock w + vr_timeout o) t).
Proof. unfold w_reading. rewrite <- (set_tx_id w) at 2. by apply (asks_state _ _ _ t). Qed.
Lemma next_reading : next_timer (clock w) (vr_timeout o) t = armed (clock w + vr_timeout o) t.
Proof.
  pose proof (un_timeout _ Hun). unfold next_timer.
  by rewrite (proj2 (Z.eqb_neq _ (-1))), (proj2 (Z.eqb_neq _ (-2))) by lia.
Qed.
Lemma at_current {B} (k : vgsm_req → Cm B) :
  ((req ← deref (current_req w); the_vreq req) ≫= k) w = k o w.
Proof.
  rewrite (ak_current _ _ _ _ A). unfold mbind, M_bind. cbn.
  by rewrite (the_vreq_eq w req o (ak_vreq _ _ _ _ A)).
Qed.

Lemma step_echo k :
  c_state w = VGSM_COMM_AWAITING_ECHO → k ≠ [LF] →
  spec_step classes (vr_request o ++ k) w =
    Done (Some (Z.of_nat (length (vr_request o))), w_reading o t w).
Proof.
  intros Hs Hk. unfold spec_step. unfold mbind at 1, M_bind at 1. cbn [get]. rewrite Hs. cbv zeta.
  rewrite at_current. rewrite found_echo by (by apply request_ne).
  rewrite echo_whole, Nat2Z.id, drop_app_length. rewrite bool_decide_eq_false_2 by done.
  unfold mbind, M_bind. rewrite (change_state_eq w t) by apply A. by rewrite next_reading.
Qed.

Definition prompt : list Z := [CR; LF] ++ text "> ".
Lemma step_prompt k pdu :
  c_state w = VGSM_COMM_READING_RESPONSE → vr_sms_text_pdu o = Some pdu →
  spec_step classes (prompt ++ k) w = Done (Some (Z.of_nat (length prompt)),
    set_c_state VGSM_COMM_AWAITING_SMS_ECHO
      (w_timer (armed (clock w + SMS_ECHO_TIMEOUT) t) (set_tx (tx w ++ [pdu]) w))).
Proof.
  intros Hs Hp. unfold spec_step. unfold mbind at 1, M_bind at 1. cbn [get]. rewrite Hs. cbv zeta.
  rewrite (response_from _ w req (ak_current _ _ _ _ A)).
  assert (line_begin (prompt ++ k) = Some 2%nat) as -> by done.
  unfold spec_from. assert (starts_with (text "> ") (drop 2 (prompt ++ k)) = true) as ->.
  { apply bool_decide_eq_true. done. }
  unfold match_prompt. unfold mbind, M_bind. cbn [Nat.eqb].
  rewrite (the_vreq_eq w req o (ak_vreq _ _ _ _ A)), Hp. cbn.
  rewrite (change_state_eq _ t) by apply A. done.
Qed.

Lemma step_sms k pdu :
  c_state w = VGSM_COMM_AWAITING_SMS_ECHO → vr_sms_text_pdu o = Some pdu →
  spec_step classes (pdu ++ k) w = Done (Some (Z.of_nat (length pdu)),
    set_c_state VGSM_COMM_AWAITING_SMS_ECHO_1A (w_timer t (set_tx (tx w ++ [[SUB]]) w))).
Proof.
  intros Hs Hp. unfold spec_step. unfold mbind at 1, M_bind at 1. cbn [get]. rewrite Hs. cbv zeta.
  rewrite at_current, Hp. unfold mbind at 1, M_bind at 1. cbn [deref mret M_ret].
  rewrite found_echo by (by eapply pdu_ne).
  rewrite echo_whole. unfold write_fd. unfold mbind, M_bind. cbn.
  rewrite (change_state_eq _ t) by apply A. done.
Qed.

Lemma step_sub k :
  c_state w = VGSM_COMM_AWAITING_SMS_ECHO_1A →
  spec_step classes ([SUB] ++ k) w = Done (Some 1, w_reading o t w).
Proof.
  intros Hs. unfold spec_step. unfold mbind at 1, M_bind at 1. cbn [get]. rewrite Hs. cbv zeta.
  rewrite found_echo, echo_whole by done. rewrite at_current.
  unfold mbind, M_bind. rewrite (change_state_eq w t) by apply A. by rewrite next_reading.
Qed.
End asks.

(** what is sent besides the request *)
Definition more_sent (o : vgsm_req) : list (list Z) :=
  match vr_sms_text_pdu o with Some pdu => [pdu; [SUB]] | None => [] end.
(** the characters of a module that answers: it echoes what is sent, and prompts for the
    text of a short message *)
Definition answer (o : vgsm_req) (ls : list (list Z)) (final : list Z) : list Z :=
  vr_request o ++
  match vr_sms_text_pdu o with Some pdu => prompt ++ pdu ++ [SUB] | None => [] end ++
  (ls ≫= frame) ++ frame final.

Lemma receive_answer w req o t ls final :
  asks w req o t → unanswered o → c_state w = VGSM_COMM_AWAITING_ECHO →
  Forall more_line ls → plain_line final → vgsm_req_final_response_code final ≠ VGSM_RESP_UNKNOWN →
  spec_receive classes (answer o ls final) w =
    Done (Some [], w_answer req o (ls ++ [final]) (vgsm_req_final_response_code final)
                     (armed (clock w + vr_timeout o) t) (set_tx (tx w ++ more_sent o) w)).
Proof.
  intros A Hun Hs Hls Hf Hcode. unfold spec_receive, answer, more_sent.
  assert (vr_request o ≠ []) as Hne by (by apply request_ne).
  assert (∀ k : list Z, (3 ≤ length k)%nat → k ≠ [LF]) as Hk by (intros k H ->; cbn in H; lia).
  assert (length ls ≤ length (ls ≫= frame))%nat as Hlen.
  { clear. induction ls as [|l ls IH]; [done|]. cbn. rewrite length_app. lia. }
  assert (4 ≤ length (frame final))%nat as Hfr by (unfold frame; rewrite !length_app; cbn [length]; lia).
  assert (length prompt = 4)%nat as Hpr by done.
  assert (1 ≤ length (vr_request o))%nat as Hrl by (destruct (vr_request o); [done|cbn; lia]).
  destruct (vr_sms_text_pdu o) as [pdu|] eqn:Hp.
  - eapply (spec_more_fuel classes (4 + (length ls + 2))).
    2: { rewrite !length_app. cbn [length]. lia. }
    rewrite <- !app_assoc. cbn [Nat.add].
    etrans; [eapply (loop_one _ _ _ w); [exact Hne|apply (step_echo A Hun _ Hs), Hk; rewrite ?length_app; lia]|].
    pose proof (asks_reading A) as A1. set (w1 := w_reading o t w) in A1.
    etrans; [eapply (loop_one _ prompt _ w1); [done|exact (step_prompt A1 _ pdu eq_refl Hp)]|].
    set (t2 := armed (clock w1 + SMS_ECHO_TIMEOUT) (armed (clock w + vr_timeout o) t)).
    assert (timer_pending t2 = true → timer_data t2 = Some comm_ptr) as Ht2 by done.
    pose proof (asks_state _ _ _ _ VGSM_COMM_AWAITING_SMS_ECHO t2 (tx w1 ++ [pdu]) A1 Ht2) as A2. set (w2 := set_c_state VGSM_COMM_AWAITING_SMS_ECHO _) in A2.
    assert (pdu ≠ []) as Hpne by (by eapply pdu_ne).
    etrans; [eapply (loop_one _ pdu _ w2); [exact Hpne|exact (step_sms A2 Hun _ pdu eq_refl Hp)]|].
    pose proof (asks_state _ _ _ _ VGSM_COMM_AWAITING_SMS_ECHO_1A t2 (tx w2 ++ [[SUB]]) A2 Ht2) as A3. set (w3 := set_c_state VGSM_COMM_AWAITING_SMS_ECHO_1A _) in A3.
    etrans; [eapply (loop_one _ [SUB] _ w3); [done|exact (step_sub A3 Hun _ eq_refl)]|].
    rewrite (loop_lines ls final _ req o _ (asks_reading A3)) by done.
    do 2 f_equal. unfold w_answer, w_complete, w3, w2, w1, t2, w_reading. cbn.
    by rewrite <- app_assoc.
  - eapply (spec_more_fuel classes (1 + (length ls + 2))).
    2: { rewrite !length_app. cbn [length]. lia. }
    cbn [Nat.add app].
    etrans; [eapply (loop_one _ _ _ w); [exact Hne|apply (step_echo A Hun _ Hs), Hk; rewrite ?length_app; lia]|].
    rewrite (loop_lines ls final _ req o _ (asks_reading A)) by done.
    do 2 f_equal. unfold w_answer, w_complete, w_reading. cbn. by rewrite app_nil_r.
Qed.

Lemma answer_nonzero o ls final :
  unanswered o → Forall (Forall (.≠ 0)) ls → Forall (.≠ 0) final → Forall (.≠ 0) (answer o ls final).
Proof.
  intros Hun Hls Hf. unfold answer.
  assert (∀ line, Forall (.≠ 0) line → Forall (.≠ 0) (frame line)) as Hfr.
  { intros line H. unfold frame. rewrite !Forall_app. split_and!; [by repeat constructor|done|].
    by repeat constructor. }
  rewrite !Forall_app. split_and!; [apply Hun| | |by apply Hfr].
  - destruct (vr_sms_text_pdu o) as [pdu|] eqn:E; [|done].
    destruct (un_pdu _ Hun pdu E) as [_ Hp]. rewrite !Forall_app. split_and!; [by repeat constructor| |].
    + eapply Forall_impl; [exact Hp|]. cbn. lia.
    + by repeat constructor.
  - induction Hls as [|line ls H Hls IH]; [constructor|].
    change (Forall (.≠ 0) (frame line ++ (ls ≫= frame))). apply Forall_app. by split; [apply Hfr|].
Qed.

Lemma live_pending w s :
  proto_reach classes w → comm_thread w = AT_POLL → str_at (c_buf w) 0 s →
  pending w s ∧ (throws (c_state w) = true → s = []).
Proof.
  intros Hr Hth Hs. destruct (reach_inv _ _ (proto_comm _ _ Hr)) as [I T].
  unfold thread_ok in T. rewrite Hth in T. apply line_pending; [done..|by eapply proto_line|done].
Qed.

Lemma completion_eq w req l o data :
  completion_queue w = req :: l → vreqs w !! req = Some o → counted o → vr_completion o = Some data →
  ∃ w2, vgsm_comm_completion_thread_main w = Done (tt, w2) ∧
    called w2 = called w ++ [call_completion data (vr_err o) (vr_lines o)].
Proof.
  intros Hq Ho [Hc1 Hc2] Hd. unfold vgsm_comm_completion_thread_main, vgsm_comm_dequeue_completion.
  run. rewrite Hq. cbn. rewrite (the_vreq_eq _ req o) by done. cbn. rewrite Hd. cbn.
  rewrite (put_eq _ req o) by (done || lia). rewrite w_put_eq. by eexists.
Qed.

(** C13. A request that the module answers is completed: when the echo of the request, for a
    short message the prompt and the echo of its text, the lines of the response and its
    last line are read, the request has these lines and the result the last one stands
    for, it is put into the queue of the completion thread, which calls its completion
    function with them, and the channel is ready for the next request. *)
Theorem request_answered w req o n ls final :
  proto_reach classes w → comm_thread w = AT_POLL → c_state w = VGSM_COMM_AWAITING_ECHO →
  current_req w = Some req → vreqs w !! req = Some o → str_at (c_buf w) 0 [] →
  rx w = answer o ls final → (length (rx w) ≤ Nat.min n 2047)%nat →
  Forall more_line ls → Forall (Forall (.≠ 0)) ls → plain_line final → Forall (.≠ 0) final →
  vgsm_req_final_response_code final ≠ VGSM_RESP_UNKNOWN →
  let err := vgsm_req_final_response_code final in
  let lines := vr_lines o ++ ls ++ [final] in
  ∃ w1, vgsm_comm_receive classes receive_fuel (Some n) w = Done (0, w1) ∧
    c_state w1 = VGSM_COMM_IDLE ∧ current_req w1 = None ∧
    vreqs w1 !! req = Some (completed err (set_vr_lines lines o)) ∧
    completion_queue w1 = completion_queue w ++ [req] ∧
    tx w1 = tx w ++ more_sent o ∧ rx w1 = [] ∧ str_at (c_buf w1) 0 [] ∧
    ∀ data, completion_queue w = [] → vr_completion o = Some data →
      ∃ w2, vgsm_comm_completion_thread_main w1 = Done (tt, w2) ∧
        called w2 = called w ++ [call_completion data err lines].
Proof.
  intros Hr Hth Hs Hc Ho Hbuf Hrx Hn Hls Hnz Hf Hfz Hcode err lines.
  destruct (live_pending w [] Hr Hth Hbuf) as [Hp He]. pose proof (pd_chan _ _ Hp) as I.
  destruct (chan_current I req Hc) as (o' & Ho' & Hun & Hcnt & Hq). replace o' with o in * by congruence.
  destruct (ch_timer _ I) as (t & Ht & _).
  assert (Forall (.≠ 0) (rx w)) as Hz by (rewrite Hrx; by apply answer_nonzero).
  destruct (receive_sim classes w [] n Hp He Hz) as (r & w1 & E & H).
  assert (taken n [] w = rx w) as Etk by (unfold taken; apply take_ge; cbn; lia).
  rewrite Etk, drop_all, Hrx in E. cbn [app] in E. unfold spec_receive in E.
  rewrite blind_rx in E by apply blind_spec_loop.
  assert (asks w req o t) as A by done.
  pose proof (receive_answer w req o t ls final A Hun Hs Hls Hf Hcode) as R.
  unfold spec_receive in R. rewrite R in E. injection E as <- <-.
  destruct (H [] eq_refl) as (b & E2 & [_ _ Hs2 _] & _).
  eexists. split; [exact E2|]. split_and!; try done.
  { apply w_vreq_lookup. }
  intros data Hq0 Hd.
  match goal with |- ∃ w2, _ ?w1 = _ ∧ _ =>
    apply (completion_eq w1 req [] (completed err (set_vr_lines lines o)) data) end;
    [cbn; by rewrite Hq0|apply w_vreq_lookup|exact Hcnt|exact Hd].
Qed.

(** ** A module that is silent *)

(** what a request that failed has *)
Definition failed_req (w : vgsm_comm) (req : nat) : Prop :=
  ∃ o, vreqs w !! req = Some o ∧ vr_ready o = true ∧ vr_err o = VGSM_RESP_FAILED.

Lemma flush_all q : ∀ w,
  comm_places w → current_req w = None → requests_queue w = q →
  let w' := w_flush q w in
  completion_queue w' = completion_queue w ++ q ∧ requests_queue w' = [] ∧
  Forall (failed_req w') q ∧ (∀ req, req ∉ q → vreqs w' !! req = vreqs w !! req).
Proof.
  induction q as [|req l IH]; intros w P Hr Hq; cbv zeta; cbn [w_flush].
  { split_and!; [by rewrite app_nil_r|done..]. }
  pose proof (flush1_places w req l P Hr Hq) as P1.
  assert (∃ o, vreqs w !! req = Some o ∧ req ∉ l) as (o & Ho & Hl).
  { pose proof P as [_ _ P3 P4 _ _ _ _ _ _ _ _]. rewrite Hq in P3, P4.
    inversion P4 as [|? ? (o & Ho & _) _]. exists o. split; [done|].
    rewrite nodup_occ in P3. specialize (P3 req). apply occ_not_elem.
    cbn [app] in P3. rewrite occ_cons, decide_True, !occ_app in P3 by done. lia. }
  unfold w_flush1 in P1 |- *. rewrite Ho in P1 |- *.
  destruct (IH _ P1) as (F1 & F2 & F3 & F4); [done..|]. rewrite F1, F2. cbn.
  split_and!; [by rewrite <- app_assoc|done| |].
  - constructor; [|done]. exists (completed VGSM_RESP_FAILED o). rewrite F4 by done. cbn.
    by rewrite lookup_insert_eq.
  - intros r Hnr. rewrite F4 by set_solver. cbn. rewrite lookup_insert_ne; [done|set_solver].
Qed.

(** the thread goes on when the timer of the channel has expired, and nothing was read *)
Definition expiry (w : vgsm_comm) : Z :=
  match all_timers (c_timerset w) !! the_comm_timer with Some t => timer_expires t | None => 0 end.
Definition lapse : Cm unit :=
  w ← get; vcomm_run classes [ev_clock (expiry w + 1); ev_top; ev_poll false None].
Fixpoint lapses (n : nat) : Cm unit :=
  match n with O => mret tt | S n => lapse;; lapses n end.

(** how often it expires before the request fails *)
Definition patience (w : vgsm_comm) (o : vgsm_req) : nat :=
  Z.to_nat (2 * vr_retransmit_cnt o) - (if decide (c_state w = VGSM_COMM_RECOVERING) then 1 else 0).

Lemma next_returns w t : has_timer w t → ∃ n, vgsm_timerset_next w = Done (n, w).
Proof.
  intros [E D]. unfold vgsm_timerset_next. run. rewrite E. cbn. destruct (timer_pending t) eqn:P.
  - rewrite (the_timer_eq w t) by done. by eexists.
  - by eexists.
Qed.

(** where the timer has expired *)
Lemma top_expired w t w1 :
  chan_ok w → has_timer w t → timer_pending t = true → timer_expires t < clock w →
  waiting (c_state w) = true → w_fired (expired t) (w_timer (expired t) w) = w1 →
  (c_state w1 = VGSM_COMM_RECOVERING ∨ c_state w1 = VGSM_COMM_AWAITING_ECHO →
   ∃ n, thread_top w = Done (n, set_comm_thread AT_POLL w1)) ∧
  (c_state w1 = VGSM_COMM_FAILED →
   ∃ n, thread_top w = Done (n, set_comm_thread AT_POLL (w_flush (requests_queue w1) w1))).
Proof.
  intros I Ht Hp Hx Hw <-. set (w1 := w_fired _ _).
  destruct (fired_ok w (expired t)) as (I1 & Hl1 & _); [done| |done..|].
  { by destruct (c_state w). }
  fold w1 in I1, Hl1. destruct (ch_timer _ I1) as (t1 & Ht1 & _).
  assert (thread_top w = (λ s : Cm unit,
    (s;; timeout ← vgsm_timerset_next; modify (set_comm_thread AT_POLL);;
     mret (if timeout =? -1 then -1 else Z.max (Z.quot timeout 1000) 1)) w1)
    match c_state w1 with
    | VGSM_COMM_IDLE => vgsm_process_next_request
    | VGSM_COMM_FAILED | VGSM_COMM_CLOSING | VGSM_COMM_CLOSED => vgsm_flush_requests
    | _ => mret tt
    end) as E1.
  { unfold thread_top. unfold mbind at 1, M_bind at 1. rewrite (run_eq w t) by done.
    rewrite Hp, (proj2 (Z.ltb_lt _ _)) by done. done. }
  rewrite E1. clear E1. cbv beta. split.
  - intros Hs. destruct (next_returns w1 t1 Ht1) as [n Hn]. eexists.
    destruct Hs as [-> | ->]; run; by rewrite Hn.
  - intros Hs. pose proof (ch_state _ I1) as Hok. unfold state_ok in Hok. rewrite Hs in Hok |- *.
    destruct (flush_eq _ w1 (ch_places _ I1) (proj1 Hok) eq_refl) as [E P].
    destruct (flush_frame (requests_queue w1) w1) as (F1 & F2 & _).
    destruct (next_returns (w_flush (requests_queue w1) w1) t1) as [n Hn].
    { destruct Ht1 as [E1 D1]. split; [by rewrite F2|done]. }
    eexists. unfold vgsm_flush_requests. unfold mbind, M_bind. cbn [get]. rewrite E. by rewrite Hn.
Qed.

Lemma lapse_eq w t w1 :
  chan_ok w → comm_thread w = AT_TOP → has_timer w t → timer_pending t = true →
  waiting (c_state w) = true →
  w_fired (expired t) (w_timer (expired t) (set_clock (timer_expires t + 1) w)) = w1 →
  (c_state w1 = VGSM_COMM_RECOVERING ∨ c_state w1 = VGSM_COMM_AWAITING_ECHO →
   lapse w = Done (tt, set_comm_thread AT_TOP w1)) ∧
  (c_state w1 = VGSM_COMM_FAILED →
   lapse w = Done (tt, set_comm_thread AT_TOP (w_flush (requests_queue w1) w1))).
Proof.
  intros I Hth Ht Hp Hw E1. set (w0 := set_clock (timer_expires t + 1) w) in E1.
  assert (chan_ok w0) as I0 by (destruct I; by constructor).
  destruct (top_expired w0 t w1 I0) as [T1 T2]; [done|done|cbn; lia|done|done|].
  assert (∀ n w2, thread_top w0 = Done (n, set_comm_thread AT_POLL w2) →
    lapse w = Done (tt, set_comm_thread AT_TOP w2)) as Hl.
  { intros n w2 E. unfold lapse. unfold mbind at 1, M_bind at 1. cbn [get].
    assert (expiry w = timer_expires t) as ->.
    { unfold expiry. destruct Ht as [-> _]. unfold comm_ts. cbn. by rewrite lookup_singleton_eq. }
    cbn [vcomm_run]. unfold mbind at 1 2, M_bind at 1 2. cbn [get enabled vcomm_exec modify].
    fold w0. unfold mbind at 1 2, M_bind at 1 2. cbn [get enabled vcomm_exec].
    rewrite bool_decide_eq_true_2 by done. unfold mbind at 1, M_bind at 1. rewrite E.
    unfold mret at 1, M_ret at 1. unfold mbind at 1 2, M_bind at 1 2. cbn [get enabled vcomm_exec].
    by rewrite bool_decide_eq_true_2. }
  split; intros Hs; [destruct (T1 Hs) as [n E]|destruct (T2 Hs) as [n E]]; by apply (Hl n).
Qed.

Lemma lapse_reach w w' : comm_reach classes w → lapse w = Done (tt, w') → comm_reach classes w'.
Proof.
  intros Hr E. eapply (reach_run classes _ w w' Hr); [|exact E].
  intros e v He _ _. by repeat (apply elem_of_cons in He as [->|He]; [done|]); apply elem_of_nil in He.
Qed.

(** the request of a channel that runs *)
Record waits (w : vgsm_comm) (req : nat) (o : vgsm_req) (rq cq : list nat) : Prop := {
  wt_reach : comm_reach classes w;
  wt_thread : comm_thread w = AT_TOP;
  wt_current : current_req w = Some req;
  wt_vreq : vreqs w !! req = Some o;
  wt_queue : requests_queue w = rq;
  wt_done : completion_queue w = cq;
}.

Lemma waits_state w req o rq cq : waits w req o rq cq →
  ∃ t, chan_ok w ∧ has_timer w t ∧ timer_pending t = true ∧ waiting (c_state w) = true ∧
    unanswered o ∧ counted o ∧ req ∉ queued w ∧
    (c_state w = VGSM_COMM_RECOVERING ∨
     c_state w ≠ VGSM_COMM_RECOVERING ∧ ∀ t' w0, 
       c_state w0 = c_state w → w_fired t' w0 = w_lost t' w0).
Proof.
  intros [Hr Hth Hc Ho _ _]. destruct (reach_inv _ _ Hr) as [I T]. unfold thread_ok in T.
  rewrite Hth in T. destruct (ch_timer _ I) as (t & Ht & Hp). exists t.
  destruct (chan_current I req Hc) as (o' & Ho' & Hun & Hcnt & Hq). replace o' with o in * by congruence.
  pose proof (ch_state _ I) as Hok. unfold state_ok in Hok. rewrite Hc in Hok.
  assert (waiting (c_state w) = true) as Hw.
  { destruct (c_state w); try done; try (by destruct T); by destruct Hok. }
  split; [done|split; [done|split; [congruence|split; [done|]]]].
  split; [done|split; [done|split; [done|]]].
  destruct (decide (c_state w = VGSM_COMM_RECOVERING)) as [|Hne]; [by left|right].
  split; [done|]. intros t' w0 E0. unfold w_fired. rewrite E0. by destruct (c_state w).
Qed.

Lemma lapse_lost w req o rq cq :
  waits w req o rq cq → c_state w ≠ VGSM_COMM_RECOVERING →
  ∃ w', lapse w = Done (tt, w') ∧ waits w' req o rq cq ∧ c_state w' = VGSM_COMM_RECOVERING.
Proof.
  intros W Hne. destruct (waits_state _ _ _ _ _ W) as (t & I & Ht & Hp & Hw & Hun & Hcnt & Hq & Hf).
  destruct Hf as [Hf|[_ Hf]]; [done|].
  set (w0 := w_timer (expired t) (set_clock (timer_expires t + 1) w)).
  destruct (lapse_eq w t (w_lost (expired t) w0)) as [E _]; [done|apply W|done..|by apply Hf|].
  specialize (E (or_introl eq_refl)). eexists. split; [exact E|].
  assert (vreqs (w_lost (expired t) w0) !! req = Some o) as Ho.
  { unfold w_lost, w_drop_urc. cbn. destruct (current_urc w) as [urc|] eqn:Hu; [|apply W].
    destruct (chan_current_urc I urc Hu) as (ou & cls & ends & Hou & Hcls & _). rewrite Hou. cbn.
    assert (urc ≠ req) as Hd.
    { intros ->. pose proof (wt_vreq _ _ _ _ _ W). replace ou with o in Hcls by congruence.
      by rewrite (un_class _ Hun) in Hcls. }
    rewrite h_put_ne by done. apply W. }
  split; [|done]. destruct W as [Wr Wt Wc Wv Wq Wd].
  constructor; [by eapply lapse_reach|done| |exact Ho| |].
  all: unfold w_lost, w_drop_urc; cbn.
  all: destruct (current_urc w) as [u|]; [destruct (vreqs w !! u)|]; done.
Qed.

Lemma lapse_retry w req o rq cq :
  waits w req o rq cq → c_state w = VGSM_COMM_RECOVERING → vr_retransmit_cnt o ≠ 1 →
  ∃ w', lapse w = Done (tt, w') ∧ waits w' req (once_less o) rq cq ∧
    c_state w' = VGSM_COMM_AWAITING_ECHO ∧ tx w' = tx w ++ [vr_request o].
Proof.
  intros W Hs Hc. destruct (waits_state _ _ _ _ _ W) as (t & I & Ht & Hp & Hw & Hun & Hcnt & Hq & _).
  set (w0 := w_timer (expired t) (set_clock (timer_expires t + 1) w)).
  destruct (lapse_eq w t (w_retry req o (expired t) w0)) as [E _]; [done|apply W|done..| |].
  { unfold w_fired. cbn. rewrite Hs, (wt_current _ _ _ _ _ W), (wt_vreq _ _ _ _ _ W).
    by rewrite (proj2 (Z.eqb_neq _ _)) by lia. }
  specialize (E (or_intror eq_refl)). eexists. split; [exact E|]. split; [|done].
  destruct W as [Wr Wt Wc Wv Wq Wd].
  constructor; [by eapply lapse_reach|done|done|apply lookup_insert_eq|done|done].
Qed.

Lemma lapse_gives_up w req o rq cq :
  waits w req o rq cq → c_state w = VGSM_COMM_RECOVERING → vr_retransmit_cnt o = 1 →
  ∃ w', lapse w = Done (tt, w') ∧ c_state w' = VGSM_COMM_FAILED ∧ current_req w' = None ∧
    requests_queue w' = [] ∧ completion_queue w' = cq ++ req :: rq ∧
    Forall (failed_req w') (req :: rq) ∧ tx w' = tx w.
Proof.
  intros W Hs Hc. destruct (waits_state _ _ _ _ _ W) as (t & I & Ht & Hp & Hw & Hun & Hcnt & Hq & _).
  set (w0 := w_timer (expired t) (set_clock (timer_expires t + 1) w)).
  assert (w_fired (expired t) w0 = w_give_up req o (expired t) w0) as Ew.
  { unfold w_fired. cbn. rewrite Hs, (wt_current _ _ _ _ _ W), (wt_vreq _ _ _ _ _ W).
    by rewrite (proj2 (Z.eqb_eq _ _)) by lia. }
  set (w1 := w_give_up req o (expired t) w0) in *.
  assert (chan_ok (set_clock (timer_expires t + 1) w)) as I0 by (destruct I; by constructor).
  destruct (fired_ok (set_clock (timer_expires t + 1) w) (expired t)) as (I1 & _ & _);
    [done|cbn; by rewrite Hs|done..|]. fold w0 in I1. rewrite Ew in I1.
  destruct (lapse_eq w t w1) as [_ E]; [done|apply W|done..|].
  specialize (E eq_refl). eexists. split; [exact E|]. clear E Ew.
  destruct W as [Wr Wt Wc Wv Wq Wd].
  destruct (flush_all (requests_queue w1) w1) as (F1 & F2 & F3 & F4); [apply I1|done|done|].
  destruct (flush_frame (requests_queue w1) w1) as (G1 & _ & _ & G4 & _).
  assert (requests_queue w1 = rq) as Eq by done. rewrite Eq in *.
  cbn [set_comm_thread c_state current_req requests_queue completion_queue tx].
  rewrite G1, G4, F1, F2. split_and!; try done.
  - cbn. by rewrite Wd, <- app_assoc.
  - constructor; [|exact F3]. exists (completed VGSM_RESP_FAILED (once_less o)).
    cbn. rewrite F4; [split; [apply lookup_insert_eq|done]|].
    intros Hin. apply Hq. unfold queued. rewrite Wq. set_solver.
  - assert (∀ q v, tx (w_flush q v) = tx v) as ->; [|done].
    induction q as [|r q IH]; intros v; [done|]. cbn. rewrite IH. unfold w_flush1. by destruct (vreqs v !! r).
Qed.

(** C15. A request to a module that does not answer fails, and is not waited for longer: the
    timer of the channel expires at most six times, then the request and all that wait
    behind it have the result [VGSM_RESP_FAILED], in the order in which they were made,
    and the channel has given up. *)
Theorem silence_ends w req o :
  comm_reach classes w → comm_thread w = AT_TOP →
  current_req w = Some req → vreqs w !! req = Some o →
  (patience w o ≤ 6)%nat ∧
  ∃ w', lapses (patience w o) w = Done (tt, w') ∧
    c_state w' = VGSM_COMM_FAILED ∧ current_req w' = None ∧ requests_queue w' = [] ∧
    completion_queue w' = completion_queue w ++ req :: requests_queue w ∧
    Forall (failed_req w') (req :: requests_queue w).
Proof.
  intros Hr Hth Hc Ho. assert (waits w req o (requests_queue w) (completion_queue w)) as W by done.
  destruct (waits_state _ _ _ _ _ W) as (_ & _ & _ & _ & _ & Hun & _). pose proof (un_cnt _ Hun) as Hcnt.
  split; [unfold patience; lia|]. clear Hr Hth Hc Ho Hun.
  set (rq := requests_queue w) in *. set (cq := completion_queue w) in *. clearbody rq cq.
  remember (patience w o) as n eqn:En. revert w o W En Hcnt.
  induction n as [n IH] using lt_wf_ind. intros w o W En Hcnt. unfold patience in En.
  destruct n as [|n]; [destruct (decide _); lia|]. cbn [lapses]. unfold mbind, M_bind.
  destruct (decide (c_state w = VGSM_COMM_RECOVERING)) as [Hs|Hs].
  - destruct (decide (vr_retransmit_cnt o = 1)) as [H1|H1].
    + destruct (lapse_gives_up _ _ _ _ _ W Hs H1) as (w1 & E & F1 & F2 & F3 & F4 & F5 & _).
      rewrite E. assert (n = O) as -> by lia. by exists w1.
    + destruct (lapse_retry _ _ _ _ _ W Hs H1) as (w1 & E & W1 & F1 & _). rewrite E.
      apply (IH n ltac:(lia) w1 (once_less o) W1); [|cbn; lia].
      unfold patience. rewrite F1. cbn [once_less set_vr_retransmit_cnt vr_retransmit_cnt].
      destruct (decide _); [done|]. lia.
  - destruct (lapse_lost _ _ _ _ _ W Hs) as (w1 & E & W1 & F1). rewrite E.
    apply (IH n ltac:(lia) w1 o W1); [|done]. unfold patience. rewrite decide_True by done. lia.
Qed.

(** ** Where the code does something else *)

(** *** A prompt that does not begin a line *)

Definition bare_prompt : list Z := text "> ".

Lemma prompt_moved w (k : Cm unit) :
  chan_ok w → str_at (c_buf w) 4 bare_prompt →
  ∃ b, (s ← buf_string 4; buf_write 0 (s ++ [0]);; k) w = k (w_buf b w) ∧
    buf_ok b ∧ str_at b 0 bare_prompt ∧ str_at b 4 bare_prompt.
Proof.
  intros I H4. destruct (move_ok w 4) as (s' & Hs' & F1 & F2 & Hb'); [exact I|lia|lia|].
  assert (s' = bare_prompt) as -> by (by eapply str_at_unique).
  eexists. split; [|split; [exact Hb'|split]].
  - unfold mbind at 1, M_bind at 1. change (Z.of_nat 4) with 4 in F1. rewrite F1.
    unfold mbind at 1, M_bind at 1. by rewrite F2.
  - destruct (moved_string (c_buf w) 4 bare_prompt (ch_buf _ I) ltac:(cbn; lia) ltac:(lia) H4) as [M1 _].
    exact M1.
  - destruct H4 as (rest & E4 & Hn). exists rest. split; [|done]. rewrite <- E4. cbn.
    destruct (c_buf w) as [|? [|? [|? b]]]; done.
Qed.

(** four characters are taken, of which two are there: what is behind them comes again *)
Lemma prompt_stuck fuel : ∀ w nread req o,
  c_state w = VGSM_COMM_READING_RESPONSE → current_req w = Some req → vreqs w !! req = Some o →
  vr_sms_text_pdu o = None → chan_ok w →
  str_at (c_buf w) 0 bare_prompt → str_at (c_buf w) 4 bare_prompt →
  receive_loop classes fuel nread w = Fault Diverges.
Proof.
  induction fuel as [|fuel IH]; intros w nread req o Hs Hc Ho Hp I H0 H4; [done|].
  pose proof (ch_buf _ I) as Hb.
  assert (receive_step classes nread w = Done (4, set_tx (tx w ++ [[ESC]]) w)) as E.
  { unfold receive_step. unfold mbind at 1, M_bind at 1. cbn [get]. rewrite Hs. cbv zeta.
    unfold vgsm_match_response. unfold mbind at 1, M_bind at 1. cbn [get]. rewrite Hc.
    unfold mbind at 1, M_bind at 1.
    rewrite (buf_char_eq w 0 _ (str_at_char _ 0 _ 0 H0 ltac:(cbn; lia)) : buf_char 0 w = _).
    change (nth 0 bare_prompt 0) with 62. change (62 =? 0) with false. change (62 =? CR) with false.
    cbv match zeta. unfold mbind at 1, M_bind at 1.
    rewrite (buf_char_eq w 0 _ (str_at_char _ 0 _ 0 H0 ltac:(cbn; lia)) : buf_char 0 w = _).
    change (nth 0 bare_prompt 0) with 62. change (62 =? 0) with false. change (62 =? LF) with false.
    cbv match zeta. unfold mbind at 1, M_bind at 1.
    rewrite (buf_string_eq w 0 bare_prompt Hb ltac:(lia) H0 : buf_string 0 w = _).
    change (starts_with (text "> ") bare_prompt) with true. cbv match.
    unfold match_prompt. unfold mbind at 1, M_bind at 1. rewrite (the_vreq_eq w req o) by done.
    by rewrite Hp. }
  cbn [receive_loop]. unfold mbind at 1, M_bind at 1. rewrite E. change (4 =? 0) with false. cbv match.
  set (w1 := set_tx (tx w ++ [[ESC]]) w). assert (chan_ok w1) as I1 by (destruct I; by constructor).
  destruct (prompt_moved w1 (receive_loop classes fuel 0) I1 H4) as (b & -> & Hb1 & M0 & M4).
  by apply (IH _ 0 req o); [..|apply chan_buf| |].
Qed.

(** a read, as far as the loop *)
Lemma receive_begin w s n fuel :
  pending w s → Forall (.≠ 0) (rx w) → (length s + n ≤ 2047)%nat →
  ∃ b, let w1 := w_line b (drop n (rx w)) w in
    pending w1 (s ++ take n (rx w)) ∧
    vgsm_comm_receive classes fuel (Some n) w =
      (receive_loop classes fuel (Z.of_nat (length (take n (rx w))));; mret 0) w1.
Proof.
  intros P Hnz Hlen. pose proof P as [I Hl Hs Hrem].
  pose proof (taken_room n s w Hlen) as Et. pose proof (read_room n s w Hlen) as Er.
  set (w0 := w_read n s w) in *. unfold w_read in w0.
  assert (pending w0 s) as P0 by (constructor; [destruct I; by constructor|done..]).
  assert (length s + length (take n (rx w)) ≤ 2047)%nat as Hlen2 by (rewrite length_take; lia).
  pose proof (read_pending w0 s (take n (rx w)) P0 ltac:(by apply Forall_take) Hlen2) as P1.
  cbv zeta in P1. set (b := take (length s) (c_buf w0) ++ _) in P1. exists b.
  assert (w_line b (drop n (rx w)) w = w_buf b w0) as -> by (rewrite Er; done).
  split; [done|]. unfold vgsm_comm_receive. unfold mbind at 1, M_bind at 1.
  rewrite (buf_string_eq w 0 s : _ → _ → _ → buf_string 0 w = _) by (apply I || done || lia).
  unfold mbind at 1, M_bind at 1. unfold read_fd. unfold mbind at 1 2, M_bind at 1 2. cbn [get].
  fold (taken n s w). cbn [put mret M_ret]. fold w0.
  unfold mbind at 1, M_bind at 1. unfold put. unfold mret at 1, M_ret at 1. fold w0. rewrite Et.
  unfold mbind at 1, M_bind at 1. rewrite buf_write_eq.
  2: { rewrite length_app. destruct (ch_buf _ I) as [E _]. cbn in *. lia. }
  done.
Qed.

(** a line of two characters with a prompt behind it *)
Lemma step_two w req o a b :
  chan_ok w → c_state w = VGSM_COMM_READING_RESPONSE → current_req w = Some req →
  vreqs w !! req = Some o → more_line [a; b] → a ≠ CR → a ≠ LF →
  spec_step classes ([a; b] ++ [CR; LF] ++ bare_prompt) w =
    Done (Some 4, w_vreq req (with_line [a; b] o) w).
Proof.
  intros I Hs Hc Ho [[Hl1 Hl2] Hu] Ha1 Ha2. destruct (ch_timer _ I) as (t & Ht & _).
  destruct (chan_current I req Hc) as (o' & Ho' & _ & Hcnt & Hq). replace o' with o in * by congruence.
  unfold spec_step. unfold mbind at 1, M_bind at 1. cbn [get]. rewrite Hs. cbv zeta.
  rewrite (response_from _ w req Hc).
  assert (line_begin ([a; b] ++ [CR; LF] ++ bare_prompt) = Some 0%nat) as ->.
  { unfold line_begin. cbn [app]. rewrite (proj2 (Z.eqb_neq a CR)) by done. cbv zeta.
    rewrite drop_0. by rewrite (proj2 (Z.eqb_neq a LF)). }
  unfold spec_from. cbn [drop app].
  rewrite (no_prompt [a; b] bare_prompt Hl2 : starts_with _ (a :: b :: CR :: LF :: bare_prompt) = _).
  change (find_crlf (CR :: LF :: bare_prompt)) with (Some 0%nat). cbv match.
  unfold mbind, M_bind. rewrite (response_line_eq w t req o) by done. unfold w_response.
  change (take (2 + 0 - 0) (a :: b :: CR :: LF :: bare_prompt)) with [a; b]. by rewrite Hu.
Qed.

(** C39. A prompt right behind a line makes the receiver loop for ever, and write to the
    module without end, where the request has no text of a short message: of the two
    characters of the prompt four are taken. *)
Theorem prompt_loops w req o a b n fuel :
  proto_reach classes w → comm_thread w = AT_POLL → c_state w = VGSM_COMM_READING_RESPONSE →
  current_req w = Some req → vreqs w !! req = Some o → vr_sms_text_pdu o = None →
  str_at (c_buf w) 0 [] → rx w = [a; b] ++ [CR; LF] ++ bare_prompt → (6 ≤ n ≤ 2047)%nat →
  more_line [a; b] → a ∉ [0; CR; LF] → b ≠ 0 →
  vgsm_comm_receive classes fuel (Some n) w = Fault Diverges.
Proof.
  intros Hr Hth Hs Hc Ho Hp Hbuf Hrx Hn Hline Ha Hb.
  destruct (live_pending w [] Hr Hth Hbuf) as [P _].
  assert (a ≠ 0 ∧ a ≠ CR ∧ a ≠ LF) as (Ha0 & Ha1 & Ha2) by set_solver.
  assert (Forall (.≠ 0) (rx w)) as Hz by (rewrite Hrx; by repeat constructor).
  destruct (receive_begin w [] n fuel P Hz) as (b1 & P1 & ->); [cbn; lia|].
  unfold mbind at 1, M_bind at 1.
  cut (receive_loop classes fuel (Z.of_nat (length (take n (rx w)))) (w_line b1 (drop n (rx w)) w) =
    Fault Diverges); [by intros ->|].
  cbn [app] in P1. rewrite take_ge in P1 |- * by (rewrite Hrx; cbn; lia).
  rewrite drop_ge in P1 |- * by (rewrite Hrx; cbn; lia).
  set (w1 := w_line b1 [] w) in *. destruct fuel as [|fuel]; [done|].
  pose proof P1 as [I1 Hlv1 Hs1 Hrem1].
  destruct (chan_current I1 req Hc) as (o' & Ho' & _ & Hcnt & Hq).
  assert (o' = o) as -> by (cbn in Ho'; congruence).
  destruct (sim_step classes I1 Hlv1 Hs1 (Z.of_nat (length (rx w)))) as (r & w2 & E & G & Hsim).
  { intros [F|F]; cbn in F; congruence. }
  { exact Hrem1. }
  rewrite Hrx, (step_two w1 req o a b) in E by done. injection E as <- <-.
  destruct (Hsim 4 eq_refl) as (_ & b2 & E2 & Hb2 & _ & H2). destruct (H2 ltac:(lia)) as (H4 & _ & _).
  assert (str_at b2 4 bare_prompt) as H4' by (rewrite Hrx in H4; exact H4). clear H4.
  set (w2 := w_buf b2 _) in *.
  cbn [receive_loop]. unfold mbind at 1, M_bind at 1. rewrite E2. change (4 =? 0) with false. cbv match.
  assert (chan_ok w2) as I2 by (apply chan_buf; [apply G|done]).
  destruct (prompt_moved w2 (receive_loop classes fuel 0) I2 H4') as (b3 & -> & Hb3 & M0 & M4).
  apply (prompt_stuck _ _ 0 req (with_line [a; b] o));
    [exact Hs|exact Hc|apply w_vreq_lookup|exact Hp|by apply chan_buf|exact M0|exact M4].
Qed.

(** *** Closing with requests left *)

Lemma run_cons e es w w1 :
  enabled e w = true → vcomm_exec classes e w = Done (tt, w1) →
  vcomm_run classes (e :: es) w = vcomm_run classes es w1.
Proof.
  intros He E. cbn [vcomm_run]. unfold mbind at 1 2, M_bind at 1 2. cbn [get]. by rewrite He, E.
Qed.

(** the channel is closed, and opened again *)
Definition close_and_open : list vcomm_event :=
  [ev_close; ev_poll true None; ev_urc; ev_completion; ev_exit; ev_close_end;
   ev_open 0 (0, 0, 0); ev_start; ev_top].

(** A channel that is closed while a request is answered, and opened again, fails: the
    request is still there when the next one is to be sent, which an assertion denies. *)
Theorem reopen_aborts w req :
  comm_reach classes w → comm_thread w = AT_POLL → current_req w = Some req →
  cmd_pipe w = Some [] → c_name w ≠ NAME_LITERAL →
  urc_thread w = true → urc_queue w = [] → completion_thread w = true → completion_queue w = [] →
  vcomm_run classes close_and_open w = Fault AssertFail.
Proof.
  intros Hr Hth Hc Hp Hn Hu Huq Hct Hcq. destruct (reach_inv _ _ Hr) as [I _].
  destruct (ch_timer _ I) as (t & Ht & _). unfold close_and_open.
  erewrite run_cons; [|done|cbn [vcomm_exec]; unfold vgsm_comm_close; by rewrite send_eq, Hp].
  set (w1 := set_cmd_pipe _ w).
  set (w2 := set_comm_thread AT_JOIN (set_urc_thread_has_to_exit true
    (set_completion_thread_has_to_exit true (set_c_state VGSM_COMM_CLOSING
      (w_timer (stopped t) (set_cmd_pipe (Some []) w)))))).
  rewrite (run_cons _ _ w1 w2).
  2: { cbn. by rewrite bool_decide_eq_true_2. }
  2: { cbn [vcomm_exec]. unfold thread_poll, vgsm_comm_receive_message. run.
       rewrite (change_state_eq _ t) by done. done. }
  set (w3 := set_urc_thread false w2).
  rewrite (run_cons _ _ w2 w3); [|exact Hu|].
  2: { cbn [vcomm_exec]. unfold vgsm_comm_urc_thread_main, vgsm_comm_dequeue_urc. run. by rewrite Huq. }
  set (w4 := set_completion_thread false w3).
  rewrite (run_cons _ _ w3 w4); [|exact Hct|].
  2: { cbn [vcomm_exec]. unfold vgsm_comm_completion_thread_main, vgsm_comm_dequeue_completion. run.
       by rewrite Hcq. }
  set (t1 := stopped t) in *.
  assert (timer_pending t1 = false) as Ht1 by (unfold t1, stopped; by destruct (timer_pending t) eqn:E).
  assert (∀ d, stopped (next_timer d (-1) t1) = t1 ∧ next_timer d (-1) t1 = t1) as Hst.
  { intros d. unfold next_timer. cbn. unfold stopped. by rewrite !Ht1. }
  assert (∀ v, c_timerset v = comm_ts t1 → has_timer v t1) as Hv.
  { intros v E. split; [done|congruence]. }
  set (w5 := set_comm_thread NO_THREAD (set_c_state VGSM_COMM_CLOSED (set_cmd_pipe None w4))).
  rewrite (run_cons _ _ w4 w5); [|done|].
  2: { cbn [vcomm_exec]. unfold thread_exit. run. rewrite (change_state_eq _ t1) by (by apply Hv).
       by rewrite (proj2 (Hst _)). }
  set (w6 := set_c_name NAME_LITERAL w5).
  rewrite (run_cons _ _ w5 w6); [|done|].
  2: { cbn [vcomm_exec]. unfold vgsm_comm_close_end. run. by destruct (c_name w). }
  set (w7 := set_completion_thread true (set_completion_thread_has_to_exit false
    (set_urc_thread true (set_urc_thread_has_to_exit false (set_comm_thread AT_START
      (set_cmd_pipe (Some []) (set_c_name NAME_HEAP w6))))))).
  rewrite (run_cons _ _ w6 w7); [|done|done].
  set (w8 := set_comm_thread AT_TOP (set_c_state VGSM_COMM_IDLE w7)).
  rewrite (run_cons _ _ w7 w8); [|done|].
  2: { cbn [vcomm_exec]. unfold thread_start. run. rewrite (change_state_eq _ t1) by (by apply Hv).
       rewrite (proj2 (Hst _)). by rewrite w_timer_id by (by apply Hv). }
  cbn [vcomm_run]. unfold mbind at 1 2, M_bind at 1 2. cbn [get enabled vcomm_exec].
  rewrite bool_decide_eq_true_2 by done.
  assert (vgsm_timerset_run comm_timer_fired 2 w8 = Done (tt, w8)) as E8.
  { unfold vgsm_timerset_run. cbn [timerset_loop]. unfold mbind at 1 2, M_bind at 1 2. cbn.
    by rewrite Ht1. }
  unfold thread_top. unfold mbind at 1 2 3, M_bind at 1 2 3. rewrite E8.
  unfold vgsm_process_next_request. run. cbn. by rewrite Hc.
Qed.

(** what happens to a channel until it is opened, where who has [req] keeps it *)
Definition late_step (req : nat) (w w' : vgsm_comm) : Prop :=
  ∃ e, enabled e w = true ∧ benign e w ∧ vcomm_exec classes e w = Done (tt, w') ∧
    e ≠ ev_put req ∧ ∀ pipe threads, e ≠ ev_open pipe threads.

Record abandoned (req : nat) (w : vgsm_comm) : Prop := {
  ab_reach : comm_reach classes w;
  ab_thread : comm_thread w = AT_JOIN ∨ comm_thread w = NO_THREAD;
  ab_there : req ∈ opt_list (current_req w) ++ requests_queue w;
  ab_held : req ∈ held w;
}.

Lemma put_only r w w' : _vgsm_req_put r w = Done (tt, w') → ∃ V, w' = set_vreqs V w.
Proof.
  unfold _vgsm_req_put, the_vreq, put_vreq, c_assert. destruct r as [req|].
  2: { intros [= <-]. exists (vreqs w). by destruct w. }
  run. destruct (vreqs w !! req) as [o|]; [|done]. cbn.
  destruct (_ && _); [|done]. cbn. destruct (_ =? 1); intros [= <-]; by eexists.
Qed.

Lemma remove_other a b l : a ≠ b → a ∈ l → a ∈ remove_one b l.
Proof.
  intros Hab. induction l as [|c l IH]; [done|]. cbn. intros [->|Hin]%elem_of_cons.
  - destruct (decide (c = b)); [done|left].
  - destruct (decide (c = b)); [done|right]. by apply IH.
Qed.

Lemma abandoned_unready req w :
  abandoned req w → ∃ o, vreqs w !! req = Some o ∧ vr_ready o = false.
Proof.
  intros [Hr _ Ht _]. destruct (reach_inv _ _ Hr) as [I _].
  pose proof (ch_places _ I) as [_ _ _ P4 _ _ _ _ _ _ _ _]. rewrite Forall_forall in P4.
  destruct (P4 req) as (o & Ho & Hun); [set_solver|]. exists o. by split; [|apply Hun].
Qed.

(** the threads that are not the one of the channel *)
Lemma others_abandoned w w' m :
  (m = vgsm_comm_urc_thread_main ∨ m = vgsm_comm_completion_thread_main) → m w = Done (tt, w') →
  comm_thread w' = comm_thread w ∧ current_req w' = current_req w ∧
  requests_queue w' = requests_queue w ∧ held w' = held w.
Proof.
  intros [-> | ->].
  - unfold vgsm_comm_urc_thread_main, vgsm_comm_dequeue_urc. run.
    destruct (urc_queue w) as [|u l]; run; [by destruct (urc_thread_has_to_exit w); intros [= <-]|].
    unfold the_vreq. run. destruct (vreqs w !! u) as [o|]; [|done]. cbn.
    destruct (vr_urc_class o) as [cls|]; [|done].
    destruct (urc_handler cls); cbn; by intros [V ->]%put_only.
  - unfold vgsm_comm_completion_thread_main, vgsm_comm_dequeue_completion. run.
    destruct (completion_queue w) as [|u l]; run;
      [by destruct (completion_thread_has_to_exit w); intros [= <-]|].
    unfold the_vreq. run. destruct (vreqs w !! u) as [o|]; [|done]. cbn.
    destruct (vr_completion o); cbn; by intros [V ->]%put_only.
Qed.

Lemma abandoned_step req w w' : abandoned req w → late_step req w w' → abandoned req w'.
Proof.
  intros Ab (e & He & Hb & E & Hput & Hopen). pose proof Ab as [Hr Hth Hin Hheld].
  assert (comm_reach classes w') as Hr' by (by eapply reach_step).
  assert (∀ v, (comm_thread v = AT_JOIN ∨ comm_thread v = NO_THREAD) →
    current_req v = current_req w → (∃ l, requests_queue v = requests_queue w ++ l) → req ∈ held v →
    w' = v → abandoned req w') as Hgo.
  { intros v H1 H2 [l H3] H4 ->. constructor; [done|done| |done]. rewrite H2, H3. set_solver. }
  assert (∃ l, requests_queue w = requests_queue w ++ l) as Hsame by (exists []; by rewrite app_nil_r).
  destruct (reach_inv _ _ Hr) as [I T].
  destruct e; cbn [vcomm_exec enabled] in *; try apply bool_decide_eq_true in He;
    try (exfalso; rewrite He in Hth; by destruct Hth).
  - eapply Hgo; [| | | |by injection E as <-]; done.
  - eapply Hgo; [| | | |by injection E as <-]; done.
  - by destruct (Hopen pipe threads).
  - unfold vgsm_comm_close in E. rewrite send_eq in E. eapply Hgo; [| | | |by injection E as <-]; done.
  - unfold vgsm_comm_close_end in E. revert E. run.
    destruct (c_name w); intros [= <-]; (eapply Hgo; [| | | |reflexivity]; done).
  - rewrite send_eq in E. eapply Hgo; [| | | |by injection E as <-]; done.
  - destruct (places_fresh (ch_places _ I)) as (Hn & _). revert E. unfold mbind at 1, M_bind at 1.
    rewrite (make_eq w a (chan_next_unused I) Hn). destruct (fits a).
    + intros [= <-]. eapply Hgo; [| | | |reflexivity]; [done|done|by eexists|]. cbn. by right.
    + destruct (ma_alloc a); intros [= <-]; (eapply Hgo; [| | | |reflexivity]; done).
  - revert E. run. intros [V ->]%put_only. eapply Hgo; [| | | |reflexivity]; [done|done|done|].
    cbn. apply remove_other; [congruence|done].
  - apply andb_prop in He as [_ Hready]. revert E. unfold vgsm_req_make_wait_result. run.
    unfold the_vreq. run. destruct (vreqs w !! req0) as [o|] eqn:Ho; [|done]. cbn. cbn in Hready.
    destruct (_vgsm_req_put _ _) as [[[] v]|] eqn:Ev; [|done]. intros [= <-].
    apply put_only in Ev as [V ->]. eapply Hgo; [| | | |reflexivity]; [done|done|done|].
    cbn. apply remove_other; [|done]. intros ->.
    destruct (abandoned_unready req0 w Ab) as (o' & Ho' & Hf). congruence.
  - apply andb_prop in He as [_ _]. destruct (ch_timer _ I) as (t & Ht & _). revert E.
    unfold thread_exit. run. rewrite (change_state_eq _ t) by done. intros [= <-].
    eapply Hgo; [| | | |reflexivity]; [by right|done..].
  - destruct (others_abandoned w w' _ (or_introl eq_refl) E) as (F1 & F2 & F3 & F4).
    constructor; [done|by rewrite F1|by rewrite F2, F3|by rewrite F4].
  - destruct (others_abandoned w w' _ (or_intror eq_refl) E) as (F1 & F2 & F3 & F4).
    constructor; [done|by rewrite F1|by rewrite F2, F3|by rewrite F4].
Qed.

(** C40. The requests that wait, or are answered, when the thread of the channel finds that
    the channel is closed are abandoned: whatever happens before the channel is opened
    again, they do not become ready, so that who waits for one waits for ever. *)
Theorem close_abandons w req w' :
  abandoned req w → rtc (late_step req) w w' → vgsm_req_wait (Some req) w' = Done (false, w').
Proof.
  intros Ab Hs. assert (abandoned req w') as Ab'.
  { clear -Ab Hs. induction Hs as [|w w1 w' H1 Hs IH]; [done|]. apply IH. by eapply abandoned_step. }
  destruct (abandoned_unready req w' Ab') as (o & Ho & Hready).
  unfold vgsm_req_wait. run. rewrite (the_vreq_eq w' req o) by done. by rewrite Hready.
Qed.
End classes.

(** ** Executions *)

Definition args_okb (a : make_args) : bool :=
  (0 <=? ma_timeout a) && (ma_timeout a <=? 2147383647) &&
  negb (bool_decide (ma_text a = [])) &&
  forallb (λ c, negb (c =? 0) && negb (c =? LF)) (ma_text a) &&
  match ma_sms_pdu a with
  | Some pdu => forallb (λ b, (0 <=? b) && (b <=? 255)) pdu
  | None => true
  end.
Definition benignb (e : vcomm_event) (w : vgsm_comm) : bool :=
  match e with
  | ev_make a => args_okb a
  | ev_open _ _ =>
    bool_decide (comm_thread w = NO_THREAD) && bool_decide (current_req w = None) &&
    bool_decide (current_urc w = None)
  | ev_close_end => match c_name w with NAME_LITERAL => false | _ => true end
  | _ => true
  end.
Lemma args_okb_ok a : args_okb a = true → args_ok a.
Proof.
  unfold args_okb. rewrite !andb_true_iff. intros ((((H1 & H2) & H3) & H4) & H5).
  apply Z.leb_le in H1, H2. apply negb_true_iff, bool_decide_eq_false in H3.
  constructor; [lia|done| |].
  - rewrite List.forallb_forall in H4. apply Forall_forall. intros c Hc%list_elem_of_In.
    specialize (H4 c Hc). apply andb_true_iff in H4 as [Ha Hb].
    apply negb_true_iff, Z.eqb_neq in Ha, Hb. done.
  - intros pdu E. rewrite E in H5. rewrite List.forallb_forall in H5. apply Forall_forall.
    intros c Hc%list_elem_of_In. specialize (H5 c Hc). apply andb_true_iff in H5 as [Ha Hb].
    apply Z.leb_le in Ha, Hb. unfold is_octet. lia.
Qed.
Lemma benignb_ok e w : benignb e w = true → benign e w.
Proof.
  destruct e; cbn; try done.
  - rewrite !andb_true_iff, !bool_decide_eq_true. tauto.
  - by destruct (c_name w).
  - apply args_okb_ok.
Qed.

Section classes.
Context (classes : list vgsm_urc_class).

(** the module keeps to the protocol, where there is no message *)
Definition keepsb (n : nat) (w : vgsm_comm) : bool :=
  match buf_string 0 w with
  | Done (s, _) =>
    match spec_receive classes (s ++ taken n s w) (w_read n s w) with
    | Done (Some _, _) => true
    | _ => false
    end
  | Fault _ => false
  end.
Definition obeysb (e : vcomm_event) (w : vgsm_comm) : bool :=
  match e with
  | ev_poll false (Some (Some n)) => forallb (λ c, negb (c =? 0)) (rx w) && keepsb n w
  | ev_poll true (Some (Some _)) => false
  | _ => true
  end.

Lemma keepsb_ok n w : buf_ok (c_buf w) → keepsb n w = true → keeps classes n w.
Proof.
  intros Hb H s Hs. unfold keepsb in H.
  rewrite (buf_string_eq w 0 s Hb ltac:(lia) Hs : buf_string 0 w = _) in H.
  destruct (spec_receive _ _ _) as [[[rest|] w1]|] eqn:E; [|done..]. by exists rest, w1.
Qed.
Lemma nonzerob_ok l : forallb (λ c, negb (c =? 0)) l = true → Forall (.≠ 0) l.
Proof.
  rewrite List.forallb_forall. intros H. apply Forall_forall. intros c Hc%list_elem_of_In.
  by apply Z.eqb_neq, negb_true_iff, H.
Qed.
Lemma obeysb_ok e w : buf_ok (c_buf w) → obeysb e w = true → obeys classes e w.
Proof.
  intros Hb. destruct e as [| | | | | | | | | | |message fd| | |]; try done.
  destruct fd as [[n|]|]; try done. destruct message; [done|]. cbn.
  intros [Hz Hk]%andb_true_iff w1 [= <-]. by split; [apply nonzerob_ok|apply keepsb_ok].
Qed.

(** an execution in which all keep to what is expected of them *)
Fixpoint good_run (es : list vcomm_event) (w : vgsm_comm) : option vgsm_comm :=
  match es with
  | [] => Some w
  | e :: es =>
    if enabled e w && benignb e w && obeysb e w then
      match vcomm_exec classes e w with Done (_, w') => good_run es w' | Fault _ => None end
    else None
  end.
Lemma good_run_reach es : ∀ w w',
  proto_reach classes w → good_run es w = Some w' → proto_reach classes w'.
Proof.
  induction es as [|e es IH]; intros w w' Hr E; [by injection E as <-|]. cbn in E.
  destruct (enabled e w) eqn:He; [|done]. destruct (benignb e w) eqn:Hb; [|done].
  destruct (obeysb e w) eqn:Ho; [|done]. cbn in E.
  destruct (vcomm_exec classes e w) as [[[] w1]|] eqn:Ex; [|done].
  apply (IH w1 w'); [|done]. eapply proto_step; [exact Hr|exact He|by apply benignb_ok| |exact Ex].
  apply obeysb_ok; [|done]. destruct (reach_inv _ _ (proto_comm _ _ Hr)) as [I _]. apply I.
Qed.
End classes.

(** a module that reports its registration in one line *)
Definition demo_classes : list vgsm_urc_class :=
  [ {| urc_code := text "+CREG"; urc_handler := true; detect_end := None |} ].
Definition demo_args : make_args := mk_args (5 * SEC) None (Some 7%nat) (text "AT+CSQ") true true.
Definition demo_run (es : list vcomm_event) : vgsm_comm :=
  default vgsm_comm_init (good_run demo_classes es vgsm_comm_init).

(** a request is sent *)
Definition demo_sent : list vcomm_event :=
  [ev_open 0 (0, 0, 0); ev_start; ev_make demo_args; ev_make demo_args; ev_top;
   ev_poll true None; ev_top; ev_poll true None; ev_top].
Definition demo_echo : list Z := text "AT+CSQ" ++ [CR].
Definition demo_answer : list Z := demo_echo ++ frame (text "+CSQ: 17,0") ++ frame (text "OK").

Lemma demo_reach es :
  is_Some (good_run demo_classes es vgsm_comm_init) → proto_reach demo_classes (demo_run es).
Proof.
  intros [w E]. unfold demo_run. rewrite E. cbn. by eapply good_run_reach; [constructor|].
Qed.
Lemma demo_comm es :
  is_Some (good_run demo_classes es vgsm_comm_init) → comm_reach demo_classes (demo_run es).
Proof. intros H. by apply proto_comm, demo_reach. Qed.
Lemma demo_string es s :
  is_Some (good_run demo_classes es vgsm_comm_init) →
  buf_string 0 (demo_run es) = Done (s, demo_run es) → str_at (c_buf (demo_run es)) 0 s.
Proof.
  intros H E. destruct (reach_inv _ _ (demo_comm es H)) as [I _].
  destruct (str_at_ex (c_buf (demo_run es)) 0) as [s' Hs]; [apply I|lia|].
  rewrite (buf_string_eq (demo_run es) 0 s' (ch_buf _ I) ltac:(lia) Hs : buf_string 0 _ = _) in E.
  by injection E as <-.
Qed.
Lemma demo_keeps es n :
  is_Some (good_run demo_classes es vgsm_comm_init) →
  keepsb demo_classes n (demo_run es) = true → keeps demo_classes n (demo_run es).
Proof.
  intros H. apply keepsb_ok. destruct (reach_inv _ _ (demo_comm es H)) as [I _]. apply I.
Qed.

Ltac demo := solve [vm_compute; repeat constructor | vm_compute; eauto | vm_compute; congruence].

Lemma channel_safe_witness :
  let w := demo_run (demo_sent ++ [ev_arrive demo_answer]) in
  (∃ w', vcomm_exec demo_classes (ev_poll false (Some (Some 100%nat))) w = Done (tt, w')) ∨
  (vcomm_exec demo_classes (ev_poll false (Some (Some 100%nat))) w = Fault Diverges ∧
   ∃ message n, ev_poll false (Some (Some 100%nat)) = ev_poll message (Some (Some n))).
Proof.
  intros w. destruct (channel_safe demo_classes w) as [Hs _]; [apply demo_comm; demo|].
  apply Hs; demo.
Defined.

Lemma requests_in_order_witness :
  let w := demo_run (demo_sent ++ [ev_arrive demo_answer; ev_poll false (Some (Some 100%nat))]) in
  made w = [0; 1]%nat ∧ completion_queue w = [0%nat] ∧
  made w = ended w ++ completion_queue w ++ opt_list (current_req w) ++ requests_queue w ∧
  NoDup (made w).
Proof.
  intros w. split; [by vm_compute|split; [by vm_compute|]].
  destruct (requests_in_order demo_classes w) as (H1 & H2 & _); [|by split].
  apply demo_comm. demo.
Defined.

Lemma receive_refines_witness :
  let w := demo_run (demo_sent ++ [ev_arrive demo_answer]) in
  ∃ s r w1,
    str_at (c_buf w) 0 s ∧
    spec_receive demo_classes (s ++ taken 12 s w) (w_read 12 s w) = Done (r, w1) ∧
    ∀ rest, r = Some rest → ∃ b,
      vgsm_comm_receive demo_classes receive_fuel (Some 12%nat) w = Done (0, w_buf b w1) ∧
      str_at b 0 rest.
Proof.
  apply receive_refines; [apply demo_reach; demo|demo|].
  apply nonzerob_ok. by vm_compute.
Defined.

Lemma reads_alike_witness :
  let w := demo_run (demo_sent ++ [ev_arrive demo_answer]) in
  ∃ w1, vgsm_comm_receive demo_classes receive_fuel (Some 12%nat) w = Done (0, w1) ∧
    (keeps demo_classes 20 w1 → ∃ w2 b rest,
       vgsm_comm_receive demo_classes receive_fuel (Some 20%nat) w1 = Done (0, w2) ∧
       vgsm_comm_receive demo_classes receive_fuel (Some 32%nat) w = Done (0, w_buf b w2) ∧
       str_at (c_buf w2) 0 rest ∧ str_at b 0 rest).
Proof.
  apply (reads_alike demo_classes _ [] 12 20).
  - apply demo_reach; demo.
  - demo.
  - apply nonzerob_ok. by vm_compute.
  - apply demo_string; demo.
  - cbn; lia.
  - apply demo_keeps; demo.
  - apply demo_keeps; demo.
Defined.

(** the request of [demo_sent] *)
Definition demo_req (w : vgsm_comm) : vgsm_req := default (made_req demo_args) (vreqs w !! 0%nat).

Lemma demo_line : more_line (text "+CSQ: 17,0").
Proof. by repeat split; vm_compute. Qed.

Lemma request_answered_witness :
  let w := demo_run (demo_sent ++ [ev_arrive demo_answer]) in
  let lines := [text "+CSQ: 17,0"; text "OK"] in
  ∃ w1, vgsm_comm_receive demo_classes receive_fuel (Some 100%nat) w = Done (0, w1) ∧
    c_state w1 = VGSM_COMM_IDLE ∧ current_req w1 = None ∧
    vreqs w1 !! 0%nat = Some (completed VGSM_RESP_OK (set_vr_lines lines (demo_req w))) ∧
    completion_queue w1 = [] ++ [0%nat] ∧ tx w1 = tx w ++ [] ∧ rx w1 = [] ∧
    str_at (c_buf w1) 0 [] ∧
    ∀ data, [] = @nil nat → Some 7%nat = Some data →
      ∃ w2, vgsm_comm_completion_thread_main w1 = Done (tt, w2) ∧
        called w2 = [] ++ [call_completion data VGSM_RESP_OK lines].
Proof.
  intros w lines.
  apply (request_answered demo_classes w 0 (demo_req w) 100 [text "+CSQ: 17,0"] (text "OK")).
  - apply demo_reach; demo.
  - demo.
  - demo.
  - demo.
  - by vm_compute.
  - apply demo_string; demo.
  - by vm_compute.
  - vm_compute. lia.
  - constructor; [apply demo_line|constructor].
  - constructor; [|constructor]. apply nonzerob_ok. by vm_compute.
  - by split; vm_compute.
  - apply nonzerob_ok. by vm_compute.
  - by vm_compute.
Defined.

Lemma silence_ends_witness :
  let w := demo_run (demo_sent ++ [ev_poll false None]) in
  (6 ≤ 6)%nat ∧
  ∃ w', lapses demo_classes 6 w = Done (tt, w') ∧
    c_state w' = VGSM_COMM_FAILED ∧ current_req w' = None ∧ requests_queue w' = [] ∧
    completion_queue w' = [] ++ [0; 1]%nat ∧ Forall (failed_req w') [0; 1]%nat.
Proof.
  intros w. apply (silence_ends demo_classes w 0 (demo_req w)); [apply demo_comm|..]; demo.
Defined.

Lemma prompt_loops_witness :
  let w := demo_run (demo_sent ++
    [ev_arrive demo_echo; ev_poll false (Some (Some 7%nat)); ev_top;
     ev_arrive (text "42" ++ [CR; LF] ++ bare_prompt)]) in
  vgsm_comm_receive demo_classes receive_fuel (Some 100%nat) w = Fault Diverges.
Proof.
  intros w. apply (prompt_loops demo_classes w 0 (demo_req w) 52 50).
  - apply demo_reach; demo.
  - demo.
  - demo.
  - demo.
  - by vm_compute.
  - by vm_compute.
  - apply demo_string; demo.
  - by vm_compute.
  - lia.
  - by repeat split; vm_compute.
  - vm_compute. intros H. by repeat (apply elem_of_cons in H as [H|H]; [done|]); apply elem_of_nil in H.
  - done.
Defined.

Lemma reopen_aborts_witness :
  vcomm_run demo_classes close_and_open (demo_run demo_sent) = Fault AssertFail.
Proof.
  apply (reopen_aborts demo_classes _ 0); [apply demo_comm; demo|..]; demo.
Defined.

Lemma close_abandons_witness :
  let w := demo_run (demo_sent ++ [ev_close; ev_poll true None]) in
  let w' := demo_run (demo_sent ++ [ev_close; ev_poll true None; ev_urc; ev_completion; ev_exit]) in
  vgsm_req_wait (Some 0%nat) w' = Done (false, w') ∧ vgsm_req_wait (Some 1%nat) w' = Done (false, w').
Proof.
  intros w w'. assert (∀ req, req ∈ [0; 1]%nat → abandoned demo_classes req w) as Ha.
  { intros req Hreq. constructor; [apply demo_comm; demo|left; demo| |];
      apply (bool_decide_unpack _); repeat (apply elem_of_cons in Hreq as [->|Hreq]; [by vm_compute|]);
      by apply elem_of_nil in Hreq. }
  assert (∀ req, req ∈ [0; 1]%nat → rtc (late_step demo_classes req) w w') as Hs.
  { intros req Hreq.
    apply (rtc_l _ _ (demo_run (demo_sent ++ [ev_close; ev_poll true None; ev_urc])));
      [exists ev_urc; split_and!; [demo|done|demo|done|done]|].
    apply (rtc_l _ _ (demo_run (demo_sent ++ [ev_close; ev_poll true None; ev_urc; ev_completion])));
      [exists ev_completion; split_and!; [demo|done|demo|done|done]|].
    apply rtc_once. exists ev_exit; split_and!; [demo|done|demo|done|done]. }
  split; [apply (close_abandons demo_classes w 0)|apply (close_abandons demo_classes w 1)];
    first [apply Ha|apply Hs]; set_solver.
Defined.
