(* ===== verification/KsProto.v ===== *)
(** * The netlink protocol of kstreamer: buffers, messages, attributes

    [src/modules/kstreamer/netlink.h] and the functions that build messages, which the
    kernel ([src/modules/kstreamer/netlink.c]) and the library
    ([src/libkstreamer/conn.c], [src/libskb/libskb.c]) have in the same words.

    A [sk_buff] is its data and the memory behind it, whose contents nobody has written:
    an attribute whose payload does not end on a multiple of four octets carries up to
    three of those.  The library's [alloc_skb] is modelled with its pointer arithmetic
    ([skb + sizeof( *skb)] advances by [sizeof] structures), so that the memory behind
    the data ends before [skb->end] does.

    A received message is the memory from its header on. *)

From stdpp Require Import base list.
From Stdlib Require Import ZArith Lia.
From S2P Require Import Prelude.
From S2P Require Import Bits.
Local Open Scope Z_scope.

(** ** Little endian integers *)

Fixpoint le (n : nat) (v : Z) : list Z :=
  match n with O => [] | S n => v mod 256 :: le n (v / 256) end.
Definition le_val (l : list Z) : Z := foldr (λ b v, b + 256 * v) 0 l.

Definition u16 (v : Z) : Z := v mod 65536.
Definition u32 (v : Z) : Z := v mod 4294967296.

(** [*(__u16 * )p], [*(__u32 * )p] *)
Definition get_le (n : nat) (mem : list Z) : outcome Z :=
  if (length mem <? n)%nat then Fault OutOfBounds else Done (le_val (take n mem)).
Definition get_u16 := get_le 2.
Definition get_u32 := get_le 4.

(** ** Socket buffers *)

Record sk_buff : Type := mk_skb {
  skb_data : list Z;
  skb_mem : list Z;     (** the memory the buffer owns behind its data *)
  skb_size : Z;         (** [end - data] *)
}.

Definition skb_len (skb : sk_buff) : Z := Z.of_nat (length (skb_data skb)).
Definition skb_tailroom (skb : sk_buff) : Z := skb_size skb - skb_len skb.

(** [skb_put(skb, n)], and [bytes] are written where it points to *)
Definition skb_put (skb : sk_buff) (n : Z) (bytes : list Z) : outcome sk_buff :=
  let k := Z.to_nat n in
  if (length (skb_mem skb) <? k)%nat || (k <? length bytes)%nat then Fault OutOfBounds
  else Done {| skb_data := skb_data skb ++ bytes
                 ++ take (k - length bytes) (drop (length bytes) (skb_mem skb));
               skb_mem := drop k (skb_mem skb);
               skb_size := skb_size skb |}.

Definition skb_trim (skb : sk_buff) (len : Z) : sk_buff :=
  if len <? skb_len skb then
    {| skb_data := take (Z.to_nat len) (skb_data skb);
       skb_mem := drop (Z.to_nat len) (skb_data skb) ++ skb_mem skb;
       skb_size := skb_size skb |}
  else skb.

Definition skb_pull (skb : sk_buff) (len : Z) : sk_buff :=
  {| skb_data := drop (Z.to_nat len) (skb_data skb);
     skb_mem := skb_mem skb;
     skb_size := skb_size skb - len |}.

(** [sizeof(struct sk_buff)] of the library where pointers have eight octets *)
Definition sizeof_skb : Z := 56.

(** the library's [alloc_skb]: [mem] is the memory [malloc] returned, without its first
    [sizeof_skb] octets, which hold the structure *)
Definition alloc_skb (size : Z) (mem : list Z) : sk_buff :=
  {| skb_data := [];
     skb_mem := drop (Z.to_nat (sizeof_skb * sizeof_skb - sizeof_skb)) mem;
     skb_size := size |}.

(** ** Messages: [struct nlmsghdr] and its macros *)

Definition NLMSG_ALIGN (len : Z) : Z := Z.land (len + 3) (Z.lnot 3).
Definition NLMSG_HDRLEN : Z := 16.
Definition NLMSG_LENGTH (len : Z) : Z := len + NLMSG_HDRLEN.
Definition NLMSG_SPACE (len : Z) : Z := NLMSG_ALIGN (NLMSG_LENGTH len).

Definition NLMSG_NOOP : Z := 1.
Definition NLMSG_ERROR : Z := 2.
Definition NLMSG_DONE : Z := 3.
Definition NLMSG_OVERRUN : Z := 4.

Definition NLM_F_REQUEST : Z := 1.
Definition NLM_F_MULTI : Z := 2.
Definition NLM_F_ACK : Z := 4.

Record nlmsghdr : Type := mk_nlmsghdr {
  nlmsg_len : Z;
  nlmsg_type : Z;
  nlmsg_flags : Z;
  nlmsg_seq : Z;
  nlmsg_pid : Z;
}.

Definition nlmsghdr_bytes (h : nlmsghdr) : list Z :=
  le 4 (nlmsg_len h) ++ le 2 (nlmsg_type h) ++ le 2 (nlmsg_flags h)
  ++ le 4 (nlmsg_seq h) ++ le 4 (nlmsg_pid h).

(** the header a message begins with *)
Definition nlmsg_hdr (mem : list Z) : outcome nlmsghdr :=
  if (length mem <? 16)%nat then Fault OutOfBounds
  else Done {| nlmsg_len := le_val (take 4 mem);
               nlmsg_type := le_val (take 2 (drop 4 mem));
               nlmsg_flags := le_val (take 2 (drop 6 mem));
               nlmsg_seq := le_val (take 4 (drop 8 mem));
               nlmsg_pid := le_val (take 4 (drop 12 mem)) |}.

(** the memory from [NLMSG_DATA(nlh)] on *)
Definition NLMSG_DATA (mem : list Z) : list Z := drop 16 mem.

(** [enum ks_netlink_message_type] *)
Definition KS_NETLINK_BASE : Z := 16.
Definition KS_NETLINK_OBJS : Z := 32.
Definition KS_NETLINK_VERSION : Z := KS_NETLINK_BASE.
Definition KS_NETLINK_TOPOLOGY_LOCK : Z := KS_NETLINK_BASE + 1.
Definition KS_NETLINK_TOPOLOGY_TRYLOCK : Z := KS_NETLINK_BASE + 2.
Definition KS_NETLINK_TOPOLOGY_UNLOCK : Z := KS_NETLINK_BASE + 3.
Definition KS_NETLINK_FEATURE_NEW : Z := KS_NETLINK_OBJS.
Definition KS_NETLINK_FEATURE_DEL : Z := KS_NETLINK_OBJS + 1.
Definition KS_NETLINK_FEATURE_GET : Z := KS_NETLINK_OBJS + 2.
Definition KS_NETLINK_FEATURE_SET : Z := KS_NETLINK_OBJS + 3.
Definition KS_NETLINK_NODE_NEW : Z := KS_NETLINK_OBJS + 4.
Definition KS_NETLINK_NODE_DEL : Z := KS_NETLINK_OBJS + 5.
Definition KS_NETLINK_NODE_GET : Z := KS_NETLINK_OBJS + 6.
Definition KS_NETLINK_NODE_SET : Z := KS_NETLINK_OBJS + 7.
Definition KS_NETLINK_CHAN_NEW : Z := KS_NETLINK_OBJS + 8.
Definition KS_NETLINK_CHAN_DEL : Z := KS_NETLINK_OBJS + 9.
Definition KS_NETLINK_CHAN_GET : Z := KS_NETLINK_OBJS + 10.
Definition KS_NETLINK_CHAN_SET : Z := KS_NETLINK_OBJS + 11.
Definition KS_NETLINK_PIPELINE_NEW : Z := KS_NETLINK_OBJS + 12.
Definition KS_NETLINK_PIPELINE_DEL : Z := KS_NETLINK_OBJS + 13.
Definition KS_NETLINK_PIPELINE_GET : Z := KS_NETLINK_OBJS + 14.
Definition KS_NETLINK_PIPELINE_SET : Z := KS_NETLINK_OBJS + 15.

(** ** Attributes: [struct ks_attr] and its macros *)

Definition KS_ATTR_ALIGN (len : Z) : Z := Z.land (len + 4 - 1) (Z.lnot (4 - 1)).
Definition sizeof_ks_attr : Z := 4.
Definition KS_ATTR_LENGTH (len : Z) : Z := KS_ATTR_ALIGN sizeof_ks_attr + len.
Definition KS_ATTR_SPACE (len : Z) : Z := KS_ATTR_ALIGN (KS_ATTR_LENGTH len).
Definition KS_PAYLOAD (n : nlmsghdr) : Z := nlmsg_len n - NLMSG_SPACE 0.

(** an attribute of a received message: its header and the memory from its data on *)
Record ks_attr : Type := mk_ks_attr {
  attr_len : Z;
  attr_type : Z;
  KS_ATTR_DATA : list Z;
}.
Definition KS_ATTR_PAYLOAD (a : ks_attr) : Z := attr_len a - KS_ATTR_LENGTH 0.

(** [enum ks_feature_attribute_type], [enum ks_node_attribute_type], ... *)
Definition KS_FEATURE_ID : Z := 1.
Definition KS_FEATURE_NAME : Z := 2.
Definition KS_NODEATTR_ID : Z := 1.
Definition KS_NODEATTR_PATH : Z := 2.
Definition KS_CHANATTR_ID : Z := 1.
Definition KS_CHANATTR_PATH : Z := 2.
Definition KS_CHANATTR_FROM : Z := 3.
Definition KS_CHANATTR_TO : Z := 4.
Definition KS_PIPELINEATTR_ID : Z := 1.
Definition KS_PIPELINEATTR_PATH : Z := 2.
Definition KS_PIPELINEATTR_STATUS : Z := 3.
Definition KS_PIPELINEATTR_CHAN_ID : Z := 4.

(** [enum ks_pipeline_status]; the variable can hold any 32 bit value *)
Inductive ks_pipeline_status : Type :=
| KS_PIPELINE_STATUS_NULL
| KS_PIPELINE_STATUS_CONNECTED
| KS_PIPELINE_STATUS_OPEN
| KS_PIPELINE_STATUS_FLOWING
| KS_PIPELINE_STATUS_other (v : Z).

#[export] Instance ks_pipeline_status_eq_dec : EqDecision ks_pipeline_status.
Proof. solve_decision. Defined.

Definition status_of_u32 (v : Z) : ks_pipeline_status :=
  if v =? 0 then KS_PIPELINE_STATUS_NULL
  else if v =? 1 then KS_PIPELINE_STATUS_CONNECTED
  else if v =? 2 then KS_PIPELINE_STATUS_OPEN
  else if v =? 3 then KS_PIPELINE_STATUS_FLOWING
  else KS_PIPELINE_STATUS_other v.
Definition status_to_u32 (s : ks_pipeline_status) : Z :=
  match s with
  | KS_PIPELINE_STATUS_NULL => 0
  | KS_PIPELINE_STATUS_CONNECTED => 1
  | KS_PIPELINE_STATUS_OPEN => 2
  | KS_PIPELINE_STATUS_FLOWING => 3
  | KS_PIPELINE_STATUS_other v => v
  end.

(** [KS_ATTR_OK(attr, attrlen)] of an attribute whose header is readable *)
Definition KS_ATTR_OK (len attrlen : Z) : bool :=
  (sizeof_ks_attr <=? attrlen) && (sizeof_ks_attr <=? len) && (len <=? attrlen).

(** The attributes the loop
      [for (attr = KS_ATTRS(nlh); KS_ATTR_OK(attr, attrs_len);
            attr = KS_ATTR_NEXT(attr, attrs_len))]
    visits, [mem] being the memory from [attr] on. *)
Fixpoint ks_attrs_from (fuel : nat) (mem : list Z) (attrs_len : Z)
    : outcome (list ks_attr) :=
  if attrs_len <? sizeof_ks_attr then Done []
  else match fuel with
  | O => Fault Diverges
  | S fuel =>
    len ← get_u16 mem;
    if KS_ATTR_OK len attrs_len then
      type ← get_u16 (drop 2 mem);
      l ← ks_attrs_from fuel (drop (Z.to_nat (KS_ATTR_ALIGN len)) mem)
            (attrs_len - KS_ATTR_ALIGN len);
      Done ({| attr_len := len; attr_type := type; KS_ATTR_DATA := drop 4 mem |} :: l)
    else Done []
  end.

(** the attributes of the message [nlh]; each takes four octets or more *)
Definition KS_ATTRS (nlh : list Z) : outcome (list ks_attr) :=
  h ← nlmsg_hdr nlh;
  ks_attrs_from (Z.to_nat (KS_PAYLOAD h) `div` 4) (NLMSG_DATA nlh) (KS_PAYLOAD h).

(** ** Building messages *)

Definition ENOBUFS : Z := 105.

(** [err] and the buffer, which is as before when there is an error *)
Definition ks_netlink_put_attr (skb : sk_buff) (type : Z) (data : option (list Z))
    (data_len : Z) : outcome (Z * sk_buff) :=
  if skb_tailroom skb <? KS_ATTR_SPACE data_len then Done (- ENOBUFS, skb)
  else
    payload ← (match data with
               | Some mem => memcpy_from mem 0 data_len data_len
               | None => Done []
               end);
    skb ← skb_put skb (KS_ATTR_SPACE data_len)
      (le 2 (u16 (KS_ATTR_LENGTH data_len)) ++ le 2 (u16 type) ++ payload);
    Done (0, skb).

(** the kernel's [NLMSG_PUT(skb, pid, seq, type, len)]: [None] is the jump to
    [nlmsg_failure]; the [len] octets after the header and their padding are zero *)
Definition NLMSG_PUT (skb : sk_buff) (pid seq type len flags : Z) : outcome (option sk_buff) :=
  if skb_tailroom skb <? NLMSG_SPACE len then Done None
  else
    skb ← skb_put skb (NLMSG_SPACE len)
      (nlmsghdr_bytes {| nlmsg_len := NLMSG_LENGTH len; nlmsg_type := u16 type;
                         nlmsg_flags := flags; nlmsg_seq := u32 seq; nlmsg_pid := u32 pid |}
       ++ replicate (Z.to_nat (NLMSG_SPACE len - NLMSG_HDRLEN)) 0);
    Done (Some skb).

(** the library's [ks_nlmsg_put], which writes the header only; [None] where [skb_put]
    returns NULL *)
Definition ks_nlmsg_put (skb : sk_buff) (pid seq message_type flags payload_size : Z)
    : outcome (option sk_buff) :=
  let size := NLMSG_LENGTH payload_size in
  if skb_size skb <? skb_len skb + NLMSG_ALIGN size then Done None
  else
    skb ← skb_put skb (NLMSG_ALIGN size)
      (nlmsghdr_bytes {| nlmsg_len := size; nlmsg_type := u16 message_type;
                         nlmsg_flags := u16 flags; nlmsg_seq := u32 seq;
                         nlmsg_pid := u32 pid |});
    Done (Some skb).

(** [nlh->nlmsg_len = tail - oldtail] where the message begins at [oldtail] *)
Definition nlmsg_set_len (skb : sk_buff) (oldtail : Z) : sk_buff :=
  {| skb_data := take (Z.to_nat oldtail) (skb_data skb)
       ++ le 4 (u32 (skb_len skb - oldtail)) ++ drop (Z.to_nat oldtail + 4) (skb_data skb);
     skb_mem := skb_mem skb;
     skb_size := skb_size skb |}.

(** ** Messages of kstreamer are read back

    What [ks_netlink_put_attr] writes, the loops over attributes read: alignment,
    lengths and types included.  The loops end whatever the message holds. *)

(** ** Little endian integers *)

Lemma le_length n v : length (le n v) = n.
Proof. revert v. induction n as [|n IH]; intros v; cbn; [done|]. by rewrite IH. Qed.

Lemma le_val_le n v : 0 ≤ v < 256 ^ Z.of_nat n → le_val (le n v) = v.
Proof.
  revert v. induction n as [|n IH]; intros v Hv.
  - cbn in *. lia.
  - cbn [le le_val foldr]. change (foldr _ 0 (le n (v / 256))) with (le_val (le n (v / 256))).
    rewrite IH.
    + pose proof (Z.div_mod v 256). lia.
    + rewrite Nat2Z.inj_succ, Z.pow_succ_r in Hv by lia.
      split; [apply Z.div_pos; lia|]. apply Z.div_lt_upper_bound; lia.
Qed.

Lemma le_octets n v : Forall is_octet (le n v).
Proof.
  revert v. induction n as [|n IH]; intros v; cbn; constructor; [|done].
  apply Z.mod_pos_bound. lia.
Qed.

Lemma get_le_app n v rest : 0 ≤ v < 256 ^ Z.of_nat n → get_le n (le n v ++ rest) = Done v.
Proof.
  intros Hv. unfold get_le. rewrite length_app, le_length.
  destruct (Nat.ltb_spec (n + length rest)%nat n); [lia|].
  rewrite take_app_length' by (by rewrite le_length). by rewrite le_val_le.
Qed.

Lemma u16_small v : 0 ≤ v < 65536 → u16 v = v.
Proof. apply Z.mod_small. Qed.
Lemma u32_small v : 0 ≤ v < 4294967296 → u32 v = v.
Proof. apply Z.mod_small. Qed.
Lemma u16_range v : 0 ≤ u16 v < 65536.
Proof. apply Z.mod_pos_bound. lia. Qed.
Lemma u32_range v : 0 ≤ u32 v < 4294967296.
Proof. apply Z.mod_pos_bound. lia. Qed.

(** ** Alignment *)

Lemma land_lnot_3 x : Z.land x (Z.lnot 3) = 4 * (x / 4).
Proof.
  change 3 with (Z.ones 2). rewrite <- Z.ldiff_land, Z.ldiff_ones_r by lia.
  rewrite Z.shiftl_mul_pow2, Z.shiftr_div_pow2 by lia. change (2 ^ 2) with 4. lia.
Qed.

Lemma KS_ATTR_ALIGN_eq len : KS_ATTR_ALIGN len = 4 * ((len + 3) / 4).
Proof. unfold KS_ATTR_ALIGN. replace (len + 4 - 1) with (len + 3) by lia. apply land_lnot_3. Qed.
Lemma NLMSG_ALIGN_eq len : NLMSG_ALIGN len = 4 * ((len + 3) / 4).
Proof. apply land_lnot_3. Qed.

Lemma KS_ATTR_ALIGN_bounds len : len ≤ KS_ATTR_ALIGN len < len + 4.
Proof. rewrite KS_ATTR_ALIGN_eq. Z.to_euclidean_division_equations; lia. Qed.
Lemma NLMSG_ALIGN_bounds len : len ≤ NLMSG_ALIGN len < len + 4.
Proof. rewrite NLMSG_ALIGN_eq. Z.to_euclidean_division_equations; lia. Qed.

Lemma NLMSG_SPACE_0 : NLMSG_SPACE 0 = 16.
Proof. reflexivity. Qed.
Lemma KS_ATTR_SPACE_bounds len : 4 + len ≤ KS_ATTR_SPACE len < 8 + len.
Proof. unfold KS_ATTR_SPACE. pose proof (KS_ATTR_ALIGN_bounds (KS_ATTR_LENGTH len)) as H.
  change (KS_ATTR_LENGTH len) with (4 + len). change (KS_ATTR_LENGTH len) with (4 + len) in H. lia. Qed.
Lemma KS_ATTR_SPACE_eq len : KS_ATTR_SPACE len = 4 + 4 * ((len + 3) / 4).
Proof.
  unfold KS_ATTR_SPACE. change (KS_ATTR_LENGTH len) with (4 + len). rewrite KS_ATTR_ALIGN_eq.
  Z.to_euclidean_division_equations; lia.
Qed.

(** ** The loops over attributes end *)

Lemma ks_attrs_from_no_divergence fuel mem len :
  len < 4 * (Z.of_nat fuel + 1) → ks_attrs_from fuel mem len ≠ Fault Diverges.
Proof.
  revert mem len. induction fuel as [|fuel IH]; intros mem len Hlen; cbn [ks_attrs_from];
    unfold sizeof_ks_attr.
  { destruct (Z.ltb_spec len 4); [done|lia]. }
  destruct (Z.ltb_spec len 4); [done|].
  unfold get_u16, get_le. destruct (length mem <? 2)%nat; cbn [mbind outcome_bind]; [done|]. unfold KS_ATTR_OK, sizeof_ks_attr.
  destruct (_ && _) eqn:Hok; [|done].
  destruct (length (drop 2 mem) <? 2)%nat; cbn [mbind outcome_bind]; [done|].
  destruct (ks_attrs_from _ _ _) eqn:E; [done|].
  intros [= ->]. revert E. apply IH.
  pose proof (KS_ATTR_ALIGN_bounds (le_val (take 2 mem))).
  repeat (apply andb_true_iff in Hok as [Hok ?]). lia.
Qed.

Lemma ks_attrs_no_divergence nlh : KS_ATTRS nlh ≠ Fault Diverges.
Proof.
  unfold KS_ATTRS, nlmsg_hdr. destruct (_ <? _)%nat; cbn [mbind outcome_bind]; [done|].
  apply ks_attrs_from_no_divergence.
  set (p := KS_PAYLOAD _). destruct (Z.le_gt_cases p 0).
  - lia.
  - rewrite Nat2Z.inj_div, Z2Nat.id by lia. Z.to_euclidean_division_equations; lia.
Qed.

(** A loop reads no octet outside the message the header announces. *)
Lemma ks_attrs_from_in_bounds fuel mem len :
  len ≤ Z.of_nat (length mem) → len < 4 * (Z.of_nat fuel + 1) →
  ∃ l, ks_attrs_from fuel mem len = Done l ∧
       Forall (λ a, 4 ≤ attr_len a ≤ Z.of_nat (length (KS_ATTR_DATA a)) + 4) l.
Proof.
  revert mem len. induction fuel as [|fuel IH]; intros mem len Hmem Hlen;
    cbn [ks_attrs_from]; unfold sizeof_ks_attr; destruct (Z.ltb_spec len 4);
    try (exists []; done); [lia|].
  unfold get_u16, get_le.
  destruct (Nat.ltb_spec (length mem) 2); [lia|]. cbn [mbind outcome_bind].
  unfold KS_ATTR_OK, sizeof_ks_attr.
  destruct (_ && _) eqn:Hok; [|by exists []].
  repeat (apply andb_true_iff in Hok as [Hok ?]).
  set (n := le_val (take 2 mem)) in *. pose proof (KS_ATTR_ALIGN_bounds n).
  rewrite length_drop. destruct (Nat.ltb_spec (length mem - 2) 2); [lia|].
  cbn [mbind outcome_bind].
  destruct (IH (drop (Z.to_nat (KS_ATTR_ALIGN n)) mem) (len - KS_ATTR_ALIGN n))
    as (l & -> & Hl).
  - rewrite length_drop. lia.
  - lia.
  - eexists; split; [done|]. constructor; [|done]. cbn. rewrite length_drop. lia.
Qed.

Lemma ks_attrs_in_bounds nlh h :
  nlmsg_hdr nlh = Done h → nlmsg_len h ≤ Z.of_nat (length nlh) →
  ∃ l, KS_ATTRS nlh = Done l ∧
       Forall (λ a, 4 ≤ attr_len a ≤ Z.of_nat (length (KS_ATTR_DATA a)) + 4) l.
Proof.
  intros Hh Hlen. unfold KS_ATTRS. rewrite Hh. cbn [mbind outcome_bind].
  assert (16 ≤ length nlh)%nat.
  { revert Hh. unfold nlmsg_hdr. destruct (Nat.ltb_spec (length nlh) 16); [done|lia]. }
  apply ks_attrs_from_in_bounds.
  - unfold KS_PAYLOAD, NLMSG_DATA. rewrite NLMSG_SPACE_0, length_drop. lia.
  - set (p := KS_PAYLOAD h). destruct (Z.le_gt_cases p 0); [lia|].
    rewrite Nat2Z.inj_div, Z2Nat.id by lia. Z.to_euclidean_division_equations; lia.
Qed.

(** ** What is written is read back *)

(** the octets of an attribute; [pad] is what the memory held before *)
Definition attr_bytes (a : Z * list Z * list Z) : list Z :=
  let '(type, payload, pad) := a in
  le 2 (4 + Z.of_nat (length payload)) ++ le 2 type ++ payload ++ pad.

Definition attr_fits (a : Z * list Z * list Z) : Prop :=
  let '(type, payload, pad) := a in
  0 ≤ type < 65536 ∧ 4 + Z.of_nat (length payload) < 65536 ∧
  Z.of_nat (length (payload ++ pad)) = KS_ATTR_ALIGN (Z.of_nat (length payload)).

(** [a] is the attribute of type [type] with the payload [payload] *)
Definition attr_is (a : ks_attr) (b : Z * list Z) : Prop :=
  attr_type a = b.1 ∧ KS_ATTR_PAYLOAD a = Z.of_nat (length b.2) ∧
  take (length b.2) (KS_ATTR_DATA a) = b.2.

Lemma attr_bytes_length a :
  attr_fits a → Z.of_nat (length (attr_bytes a)) = KS_ATTR_SPACE (Z.of_nat (length a.1.2)).
Proof.
  destruct a as [[type payload] pad]. intros (_ & _ & Hpad). cbn -[Z.add le].
  rewrite !length_app, !le_length in *. rewrite KS_ATTR_SPACE_eq.
  rewrite KS_ATTR_ALIGN_eq in Hpad. lia.
Qed.

Lemma attr_bytes_read type payload pad rest (mem := attr_bytes (type, payload, pad) ++ rest) :
  attr_fits (type, payload, pad) →
  get_u16 mem = Done (4 + Z.of_nat (length payload)) ∧
  get_u16 (drop 2 mem) = Done type ∧
  take (length payload) (drop 4 mem) = payload.
Proof.
  intros (Ht & Hp & _). unfold mem, attr_bytes, get_u16. rewrite <- !(assoc_L (++)).
  rewrite !get_le_app by (cbn; lia).
  rewrite drop_app_length' by (by rewrite le_length). rewrite get_le_app by (cbn; lia).
  split_and!; [done..|].
  rewrite drop_app_ge by (rewrite le_length; lia). rewrite le_length.
  rewrite drop_app_ge by (rewrite le_length; lia). rewrite le_length.
  change (4 - 2 - 2)%nat with 0%nat. rewrite drop_0. by rewrite take_app_length.
Qed.

Lemma ks_attrs_from_bytes l rest fuel :
  Forall attr_fits l → (length l ≤ fuel)%nat →
  ∃ l', ks_attrs_from fuel (concat (attr_bytes <$> l) ++ rest)
          (Z.of_nat (length (concat (attr_bytes <$> l)))) = Done l' ∧
        Forall2 attr_is l' (fst <$> l).
Proof.
  intros Hl. revert fuel. induction Hl as [|a l Ha Hl IH]; intros fuel Hfuel.
  { exists []. split; [|constructor]. by destruct fuel. }
  destruct fuel as [|fuel]; [cbn in Hfuel; lia|].
  destruct (IH fuel) as (l' & Hl' & Hall); [cbn in Hfuel; lia|].
  destruct a as [[type payload] pad]. cbn [fmap list_fmap concat fst].
  pose proof (attr_bytes_length _ Ha) as Hlen. cbn [fst snd] in Hlen.
  pose proof (KS_ATTR_SPACE_bounds (Z.of_nat (length payload))) as Hsp.
  change (list_fmap _ _ attr_bytes l) with (attr_bytes <$> l).
  destruct (attr_bytes_read type payload pad
              (concat (attr_bytes <$> l) ++ rest) Ha) as (R1 & R2 & R3).
  set (b := attr_bytes (type, payload, pad)) in *.
  set (tl := concat (attr_bytes <$> l)) in *.
  rewrite length_app, <- (assoc_L (++)).
  cbn [ks_attrs_from]. unfold sizeof_ks_attr.
  destruct (Z.ltb_spec (Z.of_nat (length b + length tl)) 4); [lia|].
  rewrite R1. cbn [mbind outcome_bind]. unfold KS_ATTR_OK, sizeof_ks_attr.
  destruct (Z.leb_spec 4 (Z.of_nat (length b + length tl))); [|lia].
  destruct (Z.leb_spec 4 (4 + Z.of_nat (length payload))); [|lia].
  destruct (Z.leb_spec (4 + Z.of_nat (length payload)) (Z.of_nat (length b + length tl)));
    [|lia].
  cbn [andb]. rewrite R2. cbn [mbind outcome_bind].
  assert (KS_ATTR_ALIGN (4 + Z.of_nat (length payload)) = Z.of_nat (length b)) as ->
    by (by rewrite Hlen).
  rewrite Nat2Z.id, drop_app_length.
  replace (Z.of_nat (length b + length tl) - Z.of_nat (length b))
    with (Z.of_nat (length tl)) by lia.
  rewrite Hl'. cbn [mbind outcome_bind]. eexists; split; [done|].
  constructor; [|done]. split_and!; cbn [attr_type attr_len KS_ATTR_DATA fst snd]; [done| |done].
  unfold KS_ATTR_PAYLOAD. cbn [attr_len]. change (KS_ATTR_LENGTH 0) with 4. lia.
Qed.

(** ** Headers are read back *)

Lemma nlmsghdr_bytes_length h : length (nlmsghdr_bytes h) = 16%nat.
Proof. unfold nlmsghdr_bytes. by rewrite !length_app, !le_length. Qed.

Definition hdr_ok (type flags seq pid : Z) : Prop :=
  0 ≤ type < 65536 ∧ 0 ≤ flags < 65536 ∧ 0 ≤ seq < 4294967296 ∧ 0 ≤ pid < 4294967296.

Lemma nlmsg_hdr_bytes h rest :
  0 ≤ nlmsg_len h < 4294967296 →
  hdr_ok (nlmsg_type h) (nlmsg_flags h) (nlmsg_seq h) (nlmsg_pid h) →
  nlmsg_hdr (nlmsghdr_bytes h ++ rest) = Done h.
Proof.
  intros Hlen (Ht & Hf & Hs & Hp). unfold nlmsg_hdr.
  rewrite length_app, nlmsghdr_bytes_length. cbn [Nat.ltb Nat.leb Nat.add].
  unfold nlmsghdr_bytes. rewrite <- !(assoc_L (++)).
  assert (D : ∀ n k m v (l : list Z), m = (n + k)%nat → drop m (le n v ++ l) = drop k l).
  { intros n k m v l ->. rewrite drop_app_ge by (rewrite le_length; lia).
    rewrite le_length. f_equal. lia. }
  rewrite (D 4%nat 8%nat 12%nat), (D 2%nat 6%nat 8%nat), (D 2%nat 4%nat 6%nat) by done.
  rewrite (D 4%nat 4%nat 8%nat), (D 2%nat 2%nat 4%nat), (D 4%nat 2%nat 6%nat) by done.
  assert (D0 : ∀ n v (l : list Z), drop n (le n v ++ l) = l).
  { intros n v l. apply drop_app_length'. by rewrite le_length. }
  rewrite !D0. rewrite !take_app_length' by (by rewrite le_length).
  rewrite !le_val_le by (cbn; lia). by destruct h.
Qed.
