(* ===== verification/KsKernel.v ===== *)
(** * The objects of the kstreamer kernel

    Features, nodes, channels and pipelines of [src/modules/kstreamer/]: the data of
    [feature.h], [node.h], [channel.h], [pipeline.h] and [netlink.h], reference counts
    ([kobject]s), and the environment.

    Nodes and channels belong to drivers, which set the pointers of their operation
    tables as they like: a table is the set of its pointers that are not NULL.  What a
    callback of a driver or a function of the kernel returns is decided by the
    environment [KsEnv] from the calls made so far; callbacks leave the structures of
    kstreamer alone.  The world records the calls, newest first.

    The code runs under the semaphore [topology_lock]; the spin locks inside are left
    out.  A kernel object is where its address is in the heap; its last [put] removes
    it.  A loop that retries until an allocation or a buffer lets it through runs
    [retries] times and diverges after that. *)

From stdpp Require Import base list gmap.
From Stdlib Require Import ZArith Lia.
From S2P Require Import Prelude.
From S2P Require Import Bits.
From S2P Require Import KsProto.
Local Open Scope Z_scope.

Definition EAGAIN : Z := 11.
Definition ENOENT : Z := 2.
Definition ENOMEM : Z := 12.
Definition EBUSY : Z := 16.

Notation addr := nat.

(** ** Callbacks and the environment *)

(** the pointers [connect], [disconnect], ... of [struct ks_chan_ops], [struct ks_node_ops] *)
Inductive ks_op : Set :=
| op_connect | op_disconnect | op_open | op_close | op_start | op_stop | op_stimulus.

(** The channel arguments of a callback.  After [list_for_each_entry] the loop variable
    points at the list head of the pipeline as if it were a channel. *)
Inductive ks_link : Set := link_null | link_chan (chan : addr) | link_head (pipeline : addr).

Inductive ks_call : Type :=
| call_node (op : ks_op) (node : addr) (link1 link2 : ks_link)
| call_chan (op : ks_op) (chan : addr)
| call_get_attr_count (chan : addr)
| call_get_attr (chan : addr) (i : Z)
| call_set_attr (chan : addr) (type : Z) (buf : list Z)
| call_kmalloc
| call_alloc_skb
| call_kobject_add
| call_sysfs_create_link
| call_netlink_unicast (skb : list Z) (pid : Z)
| call_netlink_broadcast (skb : list Z)
| call_wake_up
| call_sk_error_report
.

Class KsEnv : Type := {
  env_ret : list ks_call → ks_call → Z;
  (** the attribute a driver returns: type, buffer and length *)
  env_attr : list ks_call → addr → Z → Z * list Z * Z;
  (** the memory of a buffer, or no buffer *)
  env_skb : list ks_call → option (list Z);
  retries : nat;
}.

(** ** Objects *)

(** [struct ks_feature] *)
Record ks_feature : Type := mk_feature {
  feature_refcnt : Z;
  feature_id : Z;
  feature_name : list Z;  (** 32 octets *)
}.
Definition eta_ks_feature (r : ks_feature) : ks_feature :=
  {| feature_refcnt := feature_refcnt r;
     feature_id := feature_id r;
     feature_name := feature_name r |}.
Definition set_feature_refcnt (v : Z) (r : ks_feature) : ks_feature :=
  ltac:(upd_field feature_refcnt eta_ks_feature v r).
Definition set_feature_id (v : Z) (r : ks_feature) : ks_feature :=
  ltac:(upd_field feature_id eta_ks_feature v r).
Definition set_feature_name (v : list Z) (r : ks_feature) : ks_feature :=
  ltac:(upd_field feature_name eta_ks_feature v r).

(** [struct ks_node]; the path is that of the [kobject] and its parents *)
Record ks_node : Type := mk_node {
  node_refcount : Z;
  node_path : list (list Z);  (** names up to the root *)
  node_id : Z;
  node_ops : ks_op → bool;
}.
Definition eta_ks_node (r : ks_node) : ks_node :=
  {| node_refcount := node_refcount r;
     node_path := node_path r;
     node_id := node_id r;
     node_ops := node_ops r |}.
Definition set_node_refcount (v : Z) (r : ks_node) : ks_node :=
  ltac:(upd_field node_refcount eta_ks_node v r).
Definition set_node_path (v : list (list Z)) (r : ks_node) : ks_node :=
  ltac:(upd_field node_path eta_ks_node v r).
Definition set_node_id (v : Z) (r : ks_node) : ks_node :=
  ltac:(upd_field node_id eta_ks_node v r).
Definition set_node_ops (v : ks_op → bool) (r : ks_node) : ks_node :=
  ltac:(upd_field node_ops eta_ks_node v r).

(** [struct ks_chan]; [pipeline_entry] is membership in [entries] *)
Record ks_chan : Type := mk_chan {
  chan_refcount : Z;
  chan_path : list (list Z);
  chan_id : Z;
  chan_ops : ks_op → bool;
  chan_has_get_attr : bool;  (** both pointers *)
  chan_has_set_attr : bool;
  chan_duplex : bool;
  chan_from : addr;
  chan_to : addr;
  chan_mtu : Z;
  chan_pipeline : option addr;
}.
Definition eta_ks_chan (r : ks_chan) : ks_chan :=
  {| chan_refcount := chan_refcount r;
     chan_path := chan_path r;
     chan_id := chan_id r;
     chan_ops := chan_ops r;
     chan_has_get_attr := chan_has_get_attr r;
     chan_has_set_attr := chan_has_set_attr r;
     chan_duplex := chan_duplex r;
     chan_from := chan_from r;
     chan_to := chan_to r;
     chan_mtu := chan_mtu r;
     chan_pipeline := chan_pipeline r |}.
Definition set_chan_refcount (v : Z) (r : ks_chan) : ks_chan :=
  ltac:(upd_field chan_refcount eta_ks_chan v r).
Definition set_chan_path (v : list (list Z)) (r : ks_chan) : ks_chan :=
  ltac:(upd_field chan_path eta_ks_chan v r).
Definition set_chan_id (v : Z) (r : ks_chan) : ks_chan :=
  ltac:(upd_field chan_id eta_ks_chan v r).
Definition set_chan_ops (v : ks_op → bool) (r : ks_chan) : ks_chan :=
  ltac:(upd_field chan_ops eta_ks_chan v r).
Definition set_chan_has_get_attr (v : bool) (r : ks_chan) : ks_chan :=
  ltac:(upd_field chan_has_get_attr eta_ks_chan v r).
Definition set_chan_has_set_attr (v : bool) (r : ks_chan) : ks_chan :=
  ltac:(upd_field chan_has_set_attr eta_ks_chan v r).
Definition set_chan_duplex (v : bool) (r : ks_chan) : ks_chan :=
  ltac:(upd_field chan_duplex eta_ks_chan v r).
Definition set_chan_from (v : addr) (r : ks_chan) : ks_chan :=
  ltac:(upd_field chan_from eta_ks_chan v r).
Definition set_chan_to (v : addr) (r : ks_chan) : ks_chan :=
  ltac:(upd_field chan_to eta_ks_chan v r).
Definition set_chan_mtu (v : Z) (r : ks_chan) : ks_chan :=
  ltac:(upd_field chan_mtu eta_ks_chan v r).
Definition set_chan_pipeline (v : option addr) (r : ks_chan) : ks_chan :=
  ltac:(upd_field chan_pipeline eta_ks_chan v r).

(** [struct ks_pipeline] *)
Record ks_pipeline : Type := mk_pipeline {
  pipeline_refcount : Z;
  pipeline_path : list (list Z);
  pipeline_id : Z;
  pipeline_status : ks_pipeline_status;
  entries : list addr;
  pipeline_mtu : Z;
}.
Definition eta_ks_pipeline (r : ks_pipeline) : ks_pipeline :=
  {| pipeline_refcount := pipeline_refcount r;
     pipeline_path := pipeline_path r;
     pipeline_id := pipeline_id r;
     pipeline_status := pipeline_status r;
     entries := entries r;
     pipeline_mtu := pipeline_mtu r |}.
Definition set_pipeline_refcount (v : Z) (r : ks_pipeline) : ks_pipeline :=
  ltac:(upd_field pipeline_refcount eta_ks_pipeline v r).
Definition set_pipeline_path (v : list (list Z)) (r : ks_pipeline) : ks_pipeline :=
  ltac:(upd_field pipeline_path eta_ks_pipeline v r).
Definition set_pipeline_id (v : Z) (r : ks_pipeline) : ks_pipeline :=
  ltac:(upd_field pipeline_id eta_ks_pipeline v r).
Definition set_pipeline_status (v : ks_pipeline_status) (r : ks_pipeline) : ks_pipeline :=
  ltac:(upd_field pipeline_status eta_ks_pipeline v r).
Definition set_entries (v : list addr) (r : ks_pipeline) : ks_pipeline :=
  ltac:(upd_field entries eta_ks_pipeline v r).
Definition set_pipeline_mtu (v : Z) (r : ks_pipeline) : ks_pipeline :=
  ltac:(upd_field pipeline_mtu eta_ks_pipeline v r).

(** [struct ks_netlink_state] *)
Record ks_netlink_state : Type := mk_netlink_state {
  out_skb : option sk_buff;
  cur_pid : Z;
  cur_seq : Z;
  lock_owner : Z;
  lock_depth : Z;
  lock_timer : bool;  (** pending *)
  mcast_seqnum : Z;
  mcast_skb : option sk_buff;
  mcast_queue : list sk_buff;
}.
Definition eta_ks_netlink_state (r : ks_netlink_state) : ks_netlink_state :=
  {| out_skb := out_skb r;
     cur_pid := cur_pid r;
     cur_seq := cur_seq r;
     lock_owner := lock_owner r;
     lock_depth := lock_depth r;
     lock_timer := lock_timer r;
     mcast_seqnum := mcast_seqnum r;
     mcast_skb := mcast_skb r;
     mcast_queue := mcast_queue r |}.
Definition set_out_skb (v : option sk_buff) (r : ks_netlink_state) : ks_netlink_state :=
  ltac:(upd_field out_skb eta_ks_netlink_state v r).
Definition set_cur_pid (v : Z) (r : ks_netlink_state) : ks_netlink_state :=
  ltac:(upd_field cur_pid eta_ks_netlink_state v r).
Definition set_cur_seq (v : Z) (r : ks_netlink_state) : ks_netlink_state :=
  ltac:(upd_field cur_seq eta_ks_netlink_state v r).
Definition set_lock_owner (v : Z) (r : ks_netlink_state) : ks_netlink_state :=
  ltac:(upd_field lock_owner eta_ks_netlink_state v r).
Definition set_lock_depth (v : Z) (r : ks_netlink_state) : ks_netlink_state :=
  ltac:(upd_field lock_depth eta_ks_netlink_state v r).
Definition set_lock_timer (v : bool) (r : ks_netlink_state) : ks_netlink_state :=
  ltac:(upd_field lock_timer eta_ks_netlink_state v r).
Definition set_mcast_seqnum (v : Z) (r : ks_netlink_state) : ks_netlink_state :=
  ltac:(upd_field mcast_seqnum eta_ks_netlink_state v r).
Definition set_mcast_skb (v : option sk_buff) (r : ks_netlink_state) : ks_netlink_state :=
  ltac:(upd_field mcast_skb eta_ks_netlink_state v r).
Definition set_mcast_queue (v : list sk_buff) (r : ks_netlink_state) : ks_netlink_state :=
  ltac:(upd_field mcast_queue eta_ks_netlink_state v r).

(** the module: the heap, the lists of each [.c] file with their [cur_id], the netlink state, and the calls made *)
Record ks_world : Type := mk_world {
  features : gmap addr ks_feature;
  nodes : gmap addr ks_node;
  chans : gmap addr ks_chan;
  pipelines : gmap addr ks_pipeline;
  ks_features_hash : list (list addr);
  ks_nodes_list : list addr;
  ks_chans_list : list addr;
  ks_pipelines_list : list addr;
  feature_cur_id : Z;
  node_cur_id : Z;
  chan_cur_id : Z;
  pipeline_cur_id : Z;
  netlink_state : ks_netlink_state;
  ks_backlog : list sk_buff;
  next_addr : addr;
  calls : list ks_call;
}.
Definition eta_ks_world (r : ks_world) : ks_world :=
  {| features := features r;
     nodes := nodes r;
     chans := chans r;
     pipelines := pipelines r;
     ks_features_hash := ks_features_hash r;
     ks_nodes_list := ks_nodes_list r;
     ks_chans_list := ks_chans_list r;
     ks_pipelines_list := ks_pipelines_list r;
     feature_cur_id := feature_cur_id r;
     node_cur_id := node_cur_id r;
     chan_cur_id := chan_cur_id r;
     pipeline_cur_id := pipeline_cur_id r;
     netlink_state := netlink_state r;
     ks_backlog := ks_backlog r;
     next_addr := next_addr r;
     calls := calls r |}.
Definition set_features (v : gmap addr ks_feature) (r : ks_world) : ks_world :=
  ltac:(upd_field features eta_ks_world v r).
Definition set_nodes (v : gmap addr ks_node) (r : ks_world) : ks_world :=
  ltac:(upd_field nodes eta_ks_world v r).
Definition set_chans (v : gmap addr ks_chan) (r : ks_world) : ks_world :=
  ltac:(upd_field chans eta_ks_world v r).
Definition set_pipelines (v : gmap addr ks_pipeline) (r : ks_world) : ks_world :=
  ltac:(upd_field pipelines eta_ks_world v r).
Definition set_ks_features_hash (v : list (list addr)) (r : ks_world) : ks_world :=
  ltac:(upd_field ks_features_hash eta_ks_world v r).
Definition set_ks_nodes_list (v : list addr) (r : ks_world) : ks_world :=
  ltac:(upd_field ks_nodes_list eta_ks_world v r).
Definition set_ks_chans_list (v : list addr) (r : ks_world) : ks_world :=
  ltac:(upd_field ks_chans_list eta_ks_world v r).
Definition set_ks_pipelines_list (v : list addr) (r : ks_world) : ks_world :=
  ltac:(upd_field ks_pipelines_list eta_ks_world v r).
Definition set_feature_cur_id (v : Z) (r : ks_world) : ks_world :=
  ltac:(upd_field feature_cur_id eta_ks_world v r).
Definition set_node_cur_id (v : Z) (r : ks_world) : ks_world :=
  ltac:(upd_field node_cur_id eta_ks_world v r).
Definition set_chan_cur_id (v : Z) (r : ks_world) : ks_world :=
  ltac:(upd_field chan_cur_id eta_ks_world v r).
Definition set_pipeline_cur_id (v : Z) (r : ks_world) : ks_world :=
  ltac:(upd_field pipeline_cur_id eta_ks_world v r).
Definition set_netlink_state (v : ks_netlink_state) (r : ks_world) : ks_world :=
  ltac:(upd_field netlink_state eta_ks_world v r).
Definition set_ks_backlog (v : list sk_buff) (r : ks_world) : ks_world :=
  ltac:(upd_field ks_backlog eta_ks_world v r).
Definition set_next_addr (v : addr) (r : ks_world) : ks_world :=
  ltac:(upd_field next_addr eta_ks_world v r).
Definition set_calls (v : list ks_call) (r : ks_world) : ks_world :=
  ltac:(upd_field calls eta_ks_world v r).

Definition ks_init : ks_world :=
  {| features := ∅; nodes := ∅; chans := ∅; pipelines := ∅;
     ks_features_hash := replicate 255 []; ks_nodes_list := []; ks_chans_list := [];
     ks_pipelines_list := [];
     feature_cur_id := 0; node_cur_id := 0; chan_cur_id := 0; pipeline_cur_id := 0;
     netlink_state := {| out_skb := None; cur_pid := 0; cur_seq := 0; lock_owner := 0;
                         lock_depth := 0; lock_timer := false; mcast_seqnum := 48879;
                         mcast_skb := None; mcast_queue := [] |};
     ks_backlog := []; next_addr := O; calls := [] |}.

(** ** The monad of the module and access to the heap *)

Definition K := M ks_world.
#[global] Typeclasses Transparent K.

Definition access {A} (sel : ks_world → gmap addr A) (a : addr) : K A :=
  w ← get; match sel w !! a with Some o => mret o | None => fail UseAfterFree end.
Definition the_feature := access features.
Definition the_node := access nodes.
Definition the_chan := access chans.
Definition the_pipeline := access pipelines.

Definition put_feature (a : addr) (o : ks_feature) : K unit :=
  modify (λ w, set_features (<[a := o]> (features w)) w).
Definition put_node (a : addr) (o : ks_node) : K unit :=
  modify (λ w, set_nodes (<[a := o]> (nodes w)) w).
Definition put_chan (a : addr) (o : ks_chan) : K unit :=
  modify (λ w, set_chans (<[a := o]> (chans w)) w).
Definition put_pipeline (a : addr) (o : ks_pipeline) : K unit :=
  modify (λ w, set_pipelines (<[a := o]> (pipelines w)) w).

Definition upd_feature (a : addr) (f : ks_feature → ks_feature) : K unit :=
  o ← the_feature a; put_feature a (f o).
Definition upd_node (a : addr) (f : ks_node → ks_node) : K unit :=
  o ← the_node a; put_node a (f o).
Definition upd_chan (a : addr) (f : ks_chan → ks_chan) : K unit :=
  o ← the_chan a; put_chan a (f o).
Definition upd_pipeline (a : addr) (f : ks_pipeline → ks_pipeline) : K unit :=
  o ← the_pipeline a; put_pipeline a (f o).

Definition upd_nl (f : ks_netlink_state → ks_netlink_state) : K unit :=
  modify (λ w, set_netlink_state (f (netlink_state w)) w).

Definition new_addr : K addr :=
  w ← get; put (set_next_addr (S (next_addr w)) w);; mret (next_addr w).

(** [list_del] of a list head that is in no list writes through poisoned pointers *)
Definition list_del (x : addr) (l : list addr) : outcome (list addr) :=
  if decide (x ∈ l) then Done (filter (.≠ x) l) else Fault ListCorruption.

Section env.
Context `{KsEnv}.

Definition call (c : ks_call) : K Z :=
  w ← get; put (set_calls (c :: calls w) w);; mret (env_ret (calls w) c).

(** [if (obj->ops->op) obj->ops->op(...)]: 0 where the pointer is NULL *)
Definition node_call (op : ks_op) (node : addr) (link1 link2 : ks_link) : K Z :=
  n ← the_node node;
  if node_ops n op then call (call_node op node link1 link2) else mret 0.
Definition chan_call (op : ks_op) (chan : addr) : K Z :=
  c ← the_chan chan; if chan_ops c op then call (call_chan op chan) else mret 0.

(** ** Reference counts *)

Definition ks_node_get (node : addr) : K unit :=
  upd_node node (λ n, set_node_refcount (node_refcount n + 1) n).

(** [kobject_put] and, for the last reference, [ks_node_release] *)
Definition ks_node_put (node : addr) : K unit :=
  n ← the_node node;
  if node_refcount n =? 1 then modify (λ w, set_nodes (delete node (nodes w)) w)
  else put_node node (set_node_refcount (node_refcount n - 1) n).

Definition ks_chan_get (chan : addr) : K unit :=
  upd_chan chan (λ c, set_chan_refcount (chan_refcount c + 1) c).

Definition ks_chan_release (chan : addr) : K unit :=
  c ← the_chan chan;
  ks_node_put (chan_from c);;
  ks_node_put (chan_to c);;
  modify (λ w, set_chans (delete chan (chans w)) w).

Definition ks_chan_put (chan : addr) : K unit :=
  c ← the_chan chan;
  if chan_refcount c =? 1 then ks_chan_release chan
  else put_chan chan (set_chan_refcount (chan_refcount c - 1) c).

Definition ks_pipeline_get (pipeline : addr) : K unit :=
  upd_pipeline pipeline (λ p, set_pipeline_refcount (pipeline_refcount p + 1) p).

Definition ks_pipeline_put (pipeline : addr) : K unit :=
  p ← the_pipeline pipeline;
  if pipeline_refcount p =? 1 then
    modify (λ w, set_pipelines (delete pipeline (pipelines w)) w)
  else put_pipeline pipeline (set_pipeline_refcount (pipeline_refcount p - 1) p).

(** [if (pipeline) kobject_put(...)] *)
Definition ks_pipeline_put_opt (pipeline : option addr) : K unit :=
  match pipeline with Some p => ks_pipeline_put p | None => mret tt end.

Definition ks_feature_get (feature : option addr) : K unit :=
  f ← deref feature; upd_feature f (λ o, set_feature_refcnt (feature_refcnt o + 1) o).
Definition ks_feature_put (feature : addr) : K unit :=
  o ← the_feature feature;
  if feature_refcnt o =? 1 then modify (λ w, set_features (delete feature (features w)) w)
  else put_feature feature (set_feature_refcnt (feature_refcnt o - 1) o).

(** ** Search *)

(** the first of [l] whose object has the identifier [id] *)
Fixpoint search_by_id {A} (sel : ks_world → gmap addr A) (the_id : A → Z) (id : Z)
    (l : list addr) : K (option addr) :=
  match l with
  | [] => mret None
  | a :: l =>
    o ← access sel a;
    if the_id o =? id then mret (Some a) else search_by_id sel the_id id l
  end.

Definition _ks_node_search_by_id (id : Z) : K (option addr) :=
  w ← get; search_by_id nodes node_id id (ks_nodes_list w).
Definition _ks_chan_search_by_id (id : Z) : K (option addr) :=
  w ← get; search_by_id chans chan_id id (ks_chans_list w).
Definition _ks_pipeline_search_by_id (id : Z) : K (option addr) :=
  w ← get; search_by_id pipelines pipeline_id id (ks_pipelines_list w).
Definition _ks_feature_search_by_id (id : Z) : K (option addr) :=
  w ← get; search_by_id features feature_id id (concat (ks_features_hash w)).

Definition ks_node_get_by_id (id : Z) : K (option addr) :=
  node ← _ks_node_search_by_id id;
  (match node with Some n => ks_node_get n | None => mret tt end);; mret node.
Definition ks_chan_get_by_id (id : Z) : K (option addr) :=
  chan ← _ks_chan_search_by_id id;
  (match chan with Some c => ks_chan_get c | None => mret tt end);; mret chan.
Definition ks_pipeline_get_by_id (id : Z) : K (option addr) :=
  pipeline ← _ks_pipeline_search_by_id id;
  (match pipeline with Some p => ks_pipeline_get p | None => mret tt end);; mret pipeline.
Definition ks_feature_get_by_id (id : Z) : K (option addr) :=
  feature ← _ks_feature_search_by_id id;
  ks_feature_get feature;; mret feature.

(** The loop of the [_ks_*_new_id]: [next] is the successor of [cur_id]. *)
Fixpoint new_id_loop (fuel : nat) (search : Z → K (option addr)) (next : Z → Z) (cur_id : Z)
    : K Z :=
  match fuel with
  | O => fail Diverges
  | S fuel =>
    let cur_id := next cur_id in
    o ← search cur_id;
    match o with
    | None => mret cur_id
    | Some _ => new_id_loop fuel search next cur_id
    end
  end.

(** [if (++cur_id <= 0) cur_id = 1;]: the kernel is compiled with wrapping integers *)
Definition next_id (cur_id : Z) : Z :=
  let cur_id := i32 (cur_id + 1) in if cur_id <=? 0 then 1 else cur_id.
Definition next_feature_id (cur_id : Z) : Z :=
  let cur_id := i32 (cur_id + 1) in
  if (cur_id <? 256) || (65535 <? cur_id) then 256 else cur_id.

Definition _ks_node_new_id : K Z :=
  w ← get;
  id ← new_id_loop (S (length (ks_nodes_list w))) _ks_node_search_by_id next_id (node_cur_id w);
  modify (set_node_cur_id id);; mret id.
Definition _ks_chan_new_id : K Z :=
  w ← get;
  id ← new_id_loop (S (length (ks_chans_list w))) _ks_chan_search_by_id next_id (chan_cur_id w);
  modify (set_chan_cur_id id);; mret id.
Definition _ks_pipeline_new_id : K Z :=
  w ← get;
  id ← new_id_loop (S (length (ks_pipelines_list w))) _ks_pipeline_search_by_id next_id
         (pipeline_cur_id w);
  modify (set_pipeline_cur_id id);; mret id.
Definition _ks_feature_new_id : K Z :=
  w ← get;
  id ← new_id_loop (S (length (concat (ks_features_hash w)))) _ks_feature_search_by_id
         next_feature_id (feature_cur_id w);
  modify (set_feature_cur_id id);; mret id.

(** ** Buffers *)

(** the kernel's [alloc_skb(NLMSG_GOODSIZE, GFP_KERNEL)] *)
Definition kalloc_skb : K (option sk_buff) :=
  w ← get;
  put (set_calls (call_alloc_skb :: calls w) w);;
  mret (option_map (λ mem, {| skb_data := []; skb_mem := mem;
                              skb_size := Z.of_nat (length mem) |}) (env_skb (calls w))).

Definition ks_netlink_need_skb : K Z :=
  w ← get;
  match out_skb (netlink_state w) with
  | Some _ => mret 0
  | None =>
    skb ← kalloc_skb;
    upd_nl (set_out_skb skb);;
    match skb with
    | Some _ => mret 0
    | None => call call_sk_error_report;; mret (- ENOMEM)
    end
  end.

(** the replies of a command leave *)
Definition ks_netlink_flush : K unit :=
  w ← get;
  match out_skb (netlink_state w) with
  | None => mret tt
  | Some skb =>
    (if skb_len skb =? 0 then mret 0
     else call (call_netlink_unicast (skb_data skb) (cur_pid (netlink_state w))));;
    upd_nl (set_out_skb None)
  end.

(** [NETLINK_CB(state->mcast_skb)] is written before the buffer is checked *)
Definition ks_netlink_mcast_need_skb : K Z :=
  w ← get;
  match mcast_skb (netlink_state w) with
  | Some _ => mret 0
  | None =>
    skb ← kalloc_skb;
    skb ← deref skb;
    upd_nl (set_mcast_skb (Some skb));;
    mret 0
  end.

Definition ks_netlink_mcast_need_another_skb : K unit :=
  w ← get;
  (match mcast_skb (netlink_state w) with
   | Some skb =>
     upd_nl (λ s, set_mcast_skb None (set_mcast_queue (mcast_queue s ++ [skb]) s))
   | None => mret tt
   end);;
  ks_netlink_mcast_need_skb;; mret tt.

(** what has been multicast leaves, unless a process has the topology locked *)
Definition ks_netlink_mcast_flush : K unit :=
  w ← get;
  if negb (lock_owner (netlink_state w) =? 0) then mret tt
  else
    forM (mcast_queue (netlink_state w))
      (λ skb, call (call_netlink_broadcast (skb_data skb));; mret tt);;
    upd_nl (set_mcast_queue []);;
    match mcast_skb (netlink_state w) with
    | None => mret tt
    | Some skb =>
      (if skb_len skb =? 0 then mret 0
       else call (call_netlink_broadcast (skb_data skb)));;
      upd_nl (set_mcast_skb None)
    end.

(** ** Paths *)

(** [ks_kobj_make_path]: the name of each object from [kobj] to the root is written
    before what is there already *)
Definition ks_kobj_make_path (path : list (list Z)) : list Z :=
  foldl (λ buf name, 47 :: name ++ buf) [] path.

Definition ks_netlink_put_attr_path (skb : sk_buff) (type : Z) (path : list (list Z))
    : outcome (Z * sk_buff) :=
  let len := foldr (λ name n, Z.of_nat (length name) + 1 + n) 0 path in
  if skb_tailroom skb <? KS_ATTR_SPACE len then Done (- ENOBUFS, skb)
  else
    skb ← skb_put skb (KS_ATTR_SPACE len)
      (le 2 (u16 (KS_ATTR_LENGTH len)) ++ le 2 (u16 type) ++ ks_kobj_make_path path);
    Done (0, skb).

End env.
