(* ===== verification/KsPipeline.v ===== *)
(** * Pipelines in the kernel

    [src/modules/kstreamer/pipeline.c]: the messages about a pipeline, the state machine
    NULL - CONNECTED - OPEN - FLOWING with its calls of the drivers, registration, and
    the commands of processes.  [retry] of the code is a loop with [retries] iterations.
    The files of sysfs are left out. *)

From stdpp Require Import base list gmap.
From Stdlib Require Import ZArith Lia.
From S2P Require Import Prelude.
From S2P Require Import Bits.
From S2P Require Import KsProto.
From S2P Require Import KsKernel.
Local Open Scope Z_scope.

Section env.
Context `{KsEnv}.

(** ** Messages about an object *)

(** one [ks_netlink_put_attr] after the other, up to the first that fails *)
Fixpoint put_attrs (skb : sk_buff) (l : list (sk_buff → outcome (Z * sk_buff)))
    : outcome (Z * sk_buff) :=
  match l with
  | [] => Done (0, skb)
  | put_attr :: l =>
    '(err, skb) ← put_attr skb;
    if err <? 0 then Done (err, skb) else put_attrs skb l
  end.

(** an attribute that holds a 32 bit integer *)
Definition put_u32 (type v : Z) (skb : sk_buff) : outcome (Z * sk_buff) :=
  ks_netlink_put_attr skb type (Some (le 4 (u32 v))) 4.

(** the end of the [*_write_to_nlmsg]: the length of the message, or the message is cut
    off again *)
Definition end_nlmsg (oldtail : Z) (r : Z * sk_buff) : Z * sk_buff :=
  let '(err, skb) := r in
  if err <? 0 then (err, skb_trim skb oldtail) else (0, nlmsg_set_len skb oldtail).

(** [err] and the buffer *)
Definition ks_pipeline_write_to_nlmsg (pipeline : addr) (skb : sk_buff)
    (message_type pid seq flags : Z) : K (Z * sk_buff) :=
  let oldtail := skb_len skb in
  nlh ← lift (NLMSG_PUT skb pid seq message_type 0 (u16 flags));
  match nlh with
  | None => mret (- ENOBUFS, skb_trim skb oldtail)
  | Some skb =>
    p ← the_pipeline pipeline;
    let ids := if message_type =? KS_NETLINK_PIPELINE_DEL then [] else entries p in
    chan_ids ← (λ w, match mapM (λ c, chans w !! c) ids with
                     | Some l => Done (chan_id <$> l, w)
                     | None => Fault UseAfterFree
                     end);
    r ← lift (put_attrs skb
      (put_u32 KS_PIPELINEATTR_ID (pipeline_id p)
       :: (if message_type =? KS_NETLINK_PIPELINE_DEL then []
           else put_u32 KS_PIPELINEATTR_STATUS (status_to_u32 (pipeline_status p))
             :: (λ skb, ks_netlink_put_attr_path skb KS_PIPELINEATTR_PATH (pipeline_path p))
             :: (put_u32 KS_PIPELINEATTR_CHAN_ID <$> chan_ids))));
    mret (end_nlmsg oldtail r)
  end.

(** The loop that multicasts a message about an object: [write] is its
    [*_write_to_nlmsg] but for the buffer and the sequence number. *)
Fixpoint mcast_send_loop (fuel : nat) (write : sk_buff → Z → K (Z * sk_buff)) : K Z :=
  match fuel with
  | O => fail Diverges
  | S fuel =>
    w ← get;
    skb ← deref (mcast_skb (netlink_state w));
    let seqnum := mcast_seqnum (netlink_state w) in
    upd_nl (set_mcast_seqnum (i32 (seqnum + 1)));;
    '(err, skb) ← write skb seqnum;
    upd_nl (set_mcast_skb (Some skb));;
    if err <? 0 then
      ks_netlink_mcast_need_another_skb;; mcast_send_loop fuel write
    else mret 0
  end.

Definition ks_pipeline_mcast_send (pipeline : addr) (message_type : Z) : K Z :=
  err ← ks_netlink_mcast_need_skb;
  if err <? 0 then mret err
  else mcast_send_loop retries
         (λ skb seq, ks_pipeline_write_to_nlmsg pipeline skb message_type 0 seq 0).

(** The loop that puts a message into the reply: where it does not fit, the reply so far
    is sent and it goes into the next buffer. *)
Fixpoint respond_loop (fuel : nat) (write : sk_buff → K (Z * sk_buff)) : K Z :=
  match fuel with
  | O => fail Diverges
  | S fuel =>
    ks_netlink_need_skb;;
    w ← get;
    match out_skb (netlink_state w) with
    | None => mret (- ENOMEM)
    | Some skb =>
      '(err, skb) ← write skb;
      upd_nl (set_out_skb (Some skb));;
      if err <? 0 then ks_netlink_flush;; respond_loop fuel write else mret 0
    end
  end.

(** a message of a header and [len] octets of payload, as [ks_netlink_send_ack] and the
    like put it into the reply *)
Definition respond_header (pid seq type flags : Z) (payload : list Z) : K Z :=
  respond_loop retries (λ skb,
    nlh ← lift (NLMSG_PUT skb pid seq type (Z.of_nat (length payload)) (u16 flags));
    match nlh with
    | None => mret (- ENOBUFS, skb)
    | Some skb' =>
      let at_ := Z.to_nat (skb_len skb + NLMSG_HDRLEN) in
      mret (0, {| skb_data := take at_ (skb_data skb') ++ payload
                    ++ drop (at_ + length payload) (skb_data skb');
                  skb_mem := skb_mem skb'; skb_size := skb_size skb' |})
    end).

Definition ks_netlink_send_done (req : nlmsghdr) (seq : Z) : K Z :=
  respond_header (nlmsg_pid req) (nlmsg_seq req + seq) NLMSG_DONE NLM_F_MULTI [].
Definition ks_netlink_send_ack (req : nlmsghdr) (flags : Z) : K Z :=
  respond_header (nlmsg_pid req) (nlmsg_seq req) (nlmsg_type req) (Z.lor flags NLM_F_ACK) [].
Definition ks_netlink_send_error (req : nlmsghdr) (error : Z) : K Z :=
  respond_header (nlmsg_pid req) (nlmsg_seq req) NLMSG_ERROR NLM_F_ACK (le 4 (u32 (- error))).

Definition ks_pipeline_netlink_respond (pipeline : addr) (req : nlmsghdr) (message_type : Z)
    : K Z :=
  respond_loop retries (λ skb,
    ks_pipeline_write_to_nlmsg pipeline skb message_type (nlmsg_pid req) (nlmsg_seq req)
      NLM_F_ACK).

(** ** The state machine *)

Definition ks_pipeline_set_status (pipeline : addr) (status : ks_pipeline_status) : K unit :=
  upd_pipeline pipeline (set_pipeline_status status).

Definition link_of (chan : option addr) : ks_link :=
  match chan with Some c => link_chan c | None => link_null end.

(** The loop over the channels that undoes a step with the callbacks [op]: whether it
    met [stop_at], and the last channel it has undone. *)
Fixpoint undo_chans (op : ks_op) (stop_at : option addr) (l : list addr)
    (prev_chan : option addr) : K (bool * option addr) :=
  match l with
  | [] => mret (false, prev_chan)
  | chan :: l =>
    if decide (Some chan = stop_at) then mret (true, prev_chan)
    else
      chan_call op chan;;
      c ← the_chan chan;
      node_call op (chan_from c) (link_chan chan) (link_of prev_chan);;
      undo_chans op stop_at l (Some chan)
  end.

(** the loop and the node at the end of the pipeline *)
Definition undo_pipeline (op : ks_op) (pipeline : addr) (stop_at : option addr) : K unit :=
  p ← the_pipeline pipeline;
  '(stopped, prev_chan) ← undo_chans op stop_at (entries p) None;
  if stopped : bool then mret tt
  else match prev_chan with
  | Some prev => c ← the_chan prev;
                 node_call op (chan_to c) link_null (link_head pipeline);; mret tt
  | None => mret tt
  end.

(** The loop that takes the channels a step forward with the callbacks [op]; [undo_op]
    undoes the node of a channel that refuses.  [err], and the last channel that went. *)
Fixpoint do_chans (op undo_op : ks_op) (l : list addr) (prev_chan : option addr)
    : K (Z * option addr) :=
  match l with
  | [] => mret (0, prev_chan)
  | chan :: l =>
    c ← the_chan chan;
    err ← node_call op (chan_from c) (link_chan chan) (link_of prev_chan);
    if err <? 0 then mret (err, prev_chan)
    else
      err ← chan_call op chan;
      if err <? 0 then
        node_call undo_op (chan_from c) (link_chan chan) (link_of prev_chan);;
        mret (err, prev_chan)
      else do_chans op undo_op l (Some chan)
  end.

(** the node at the end of the pipeline; its answer is ignored *)
Definition do_last_node (op : ks_op) (pipeline : addr) (prev_chan : option addr) : K unit :=
  match prev_chan with
  | Some prev => c ← the_chan prev;
                 node_call op (chan_to c) link_null (link_head pipeline);; mret tt
  | None => mret tt
  end.

(** The loop [list_for_each_entry_safe(chan, chan2, &pipeline->entries, pipeline_entry)]
    that takes the channels out of the pipeline. *)
Fixpoint unlink_chans (pipeline : addr) (l : list addr) : K unit :=
  match l with
  | [] => mret tt
  | chan :: l =>
    c ← the_chan chan;
    put_chan chan (set_chan_pipeline None c);;
    p ← the_pipeline pipeline;
    es ← lift (list_del chan (entries p));
    put_pipeline pipeline (set_entries es p);;
    ks_chan_put chan;;
    ks_pipeline_put_opt (chan_pipeline c);;
    unlink_chans pipeline l
  end.

Definition unlink_all (pipeline : addr) : K unit :=
  p ← the_pipeline pipeline; unlink_chans pipeline (entries p).

Definition ks_pipeline_connected_to_null (pipeline : addr) (stop_at : option addr) : K unit :=
  undo_pipeline op_disconnect pipeline stop_at;;
  unlink_all pipeline;;
  ks_pipeline_set_status pipeline KS_PIPELINE_STATUS_NULL.

Definition ks_pipeline_open_to_connected (pipeline : addr) (stop_at : option addr) : K unit :=
  undo_pipeline op_close pipeline stop_at;;
  ks_pipeline_set_status pipeline KS_PIPELINE_STATUS_CONNECTED.

Definition ks_pipeline_flowing_to_open (pipeline : addr) (stop_at : option addr) : K unit :=
  undo_pipeline op_stop pipeline stop_at;;
  ks_pipeline_set_status pipeline KS_PIPELINE_STATUS_OPEN.

Definition ks_pipeline_null_to_connected (pipeline : addr) : K Z :=
  p ← the_pipeline pipeline;
  '(err, prev_chan) ← do_chans op_connect op_disconnect (entries p) None;
  if err <? 0 then ks_pipeline_connected_to_null pipeline prev_chan;; mret err
  else
    do_last_node op_connect pipeline prev_chan;;
    ks_pipeline_set_status pipeline KS_PIPELINE_STATUS_CONNECTED;;
    mret 0.

(** the smallest MTU of the channels that have one *)
Fixpoint min_mtu (l : list addr) (m : Z) : K Z :=
  match l with
  | [] => mret m
  | chan :: l =>
    c ← the_chan chan;
    min_mtu l (if negb (chan_mtu c =? -1) && (chan_mtu c <? m) then chan_mtu c else m)
  end.
Definition ks_pipeline_negotiate_mtu (pipeline : addr) : K Z :=
  p ← the_pipeline pipeline; min_mtu (entries p) 65536.

Definition ks_pipeline_connected_to_open (pipeline : addr) : K Z :=
  mtu ← ks_pipeline_negotiate_mtu pipeline;
  upd_pipeline pipeline (set_pipeline_mtu mtu);;
  p ← the_pipeline pipeline;
  '(err, prev_chan) ← do_chans op_open op_close (entries p) None;
  if err <? 0 then ks_pipeline_open_to_connected pipeline prev_chan;; mret err
  else
    do_last_node op_open pipeline prev_chan;;
    ks_pipeline_set_status pipeline KS_PIPELINE_STATUS_OPEN;;
    mret 0.

Definition ks_pipeline_open_to_flowing (pipeline : addr) : K Z :=
  p ← the_pipeline pipeline;
  '(err, prev_chan) ← do_chans op_start op_stop (entries p) None;
  if err <? 0 then ks_pipeline_flowing_to_open pipeline prev_chan;; mret err
  else
    do_last_node op_start pipeline prev_chan;;
    ks_pipeline_set_status pipeline KS_PIPELINE_STATUS_FLOWING;;
    mret 0.

(** [err = f(); if (err < 0) goto failed; g()] *)
Definition and_then (m k : K Z) : K Z :=
  err ← m; if err <? 0 then mret err else k.

Definition ks_pipeline_change_status (pipeline : addr) (status : ks_pipeline_status) : K Z :=
  p ← the_pipeline pipeline;
  match pipeline_status p, status with
  | KS_PIPELINE_STATUS_NULL, KS_PIPELINE_STATUS_CONNECTED =>
    ks_pipeline_null_to_connected pipeline
  | KS_PIPELINE_STATUS_NULL, KS_PIPELINE_STATUS_OPEN =>
    and_then (ks_pipeline_null_to_connected pipeline)
      (ks_pipeline_connected_to_open pipeline)
  | KS_PIPELINE_STATUS_NULL, KS_PIPELINE_STATUS_FLOWING =>
    and_then (ks_pipeline_null_to_connected pipeline)
      (and_then (ks_pipeline_connected_to_open pipeline)
        (ks_pipeline_open_to_flowing pipeline))
  | KS_PIPELINE_STATUS_CONNECTED, KS_PIPELINE_STATUS_NULL =>
    ks_pipeline_connected_to_null pipeline None;; mret 0
  | KS_PIPELINE_STATUS_CONNECTED, KS_PIPELINE_STATUS_OPEN =>
    ks_pipeline_connected_to_open pipeline
  | KS_PIPELINE_STATUS_CONNECTED, KS_PIPELINE_STATUS_FLOWING =>
    and_then (ks_pipeline_connected_to_open pipeline)
      (ks_pipeline_open_to_flowing pipeline)
  | KS_PIPELINE_STATUS_OPEN, KS_PIPELINE_STATUS_NULL =>
    ks_pipeline_open_to_connected pipeline None;;
    ks_pipeline_connected_to_null pipeline None;; mret 0
  | KS_PIPELINE_STATUS_OPEN, KS_PIPELINE_STATUS_CONNECTED =>
    ks_pipeline_open_to_connected pipeline None;; mret 0
  | KS_PIPELINE_STATUS_OPEN, KS_PIPELINE_STATUS_FLOWING =>
    ks_pipeline_open_to_flowing pipeline
  | KS_PIPELINE_STATUS_FLOWING, KS_PIPELINE_STATUS_NULL =>
    ks_pipeline_flowing_to_open pipeline None;;
    ks_pipeline_open_to_connected pipeline None;;
    ks_pipeline_connected_to_null pipeline None;; mret 0
  | KS_PIPELINE_STATUS_FLOWING, KS_PIPELINE_STATUS_CONNECTED =>
    ks_pipeline_flowing_to_open pipeline None;;
    ks_pipeline_open_to_connected pipeline None;; mret 0
  | KS_PIPELINE_STATUS_FLOWING, KS_PIPELINE_STATUS_OPEN =>
    ks_pipeline_flowing_to_open pipeline None;; mret 0
  | _, _ => mret 0
  end.

(** [prev_chan] stays NULL, so that the last node gets no stimulus *)
Definition ks_pipeline_stimulate (pipeline : addr) : K unit :=
  p ← the_pipeline pipeline;
  forM (entries p) (λ chan,
    chan_call op_stimulus chan;;
    c ← the_chan chan;
    node_call op_stimulus (chan_from c) (link_chan chan) link_null;; mret tt).

(** ** Neighbours *)

(** the element before [x], and the one behind it *)
Fixpoint before (x : addr) (l : list addr) : option addr :=
  match l with
  | [] => None
  | y :: l => match l with
              | [] => None
              | z :: _ => if decide (z = x) then Some y else before x l
              end
  end.
Definition after (x : addr) (l : list addr) : option addr := before x (reverse l).

Definition ks_pipeline_prev (chan : addr) : K (option addr) :=
  c ← the_chan chan;
  match chan_pipeline c with
  | None => mret None
  | Some pipeline => p ← the_pipeline pipeline; mret (before chan (entries p))
  end.
Definition ks_pipeline_next (chan : addr) : K (option addr) :=
  c ← the_chan chan;
  match chan_pipeline c with
  | None => mret None
  | Some pipeline => p ← the_pipeline pipeline; mret (after chan (entries p))
  end.
Definition ks_pipeline_first_chan (pipeline : addr) : K (option addr) :=
  p ← the_pipeline pipeline; mret (head (entries p)).
Definition ks_pipeline_last_chan (pipeline : addr) : K (option addr) :=
  p ← the_pipeline pipeline; mret (last (entries p)).
Definition ks_pipeline_first_node (pipeline : addr) : K (option addr) :=
  chan ← ks_pipeline_first_chan pipeline;
  match chan with
  | None => mret None
  | Some chan => c ← the_chan chan; mret (Some (chan_from c))
  end.
Definition ks_pipeline_last_node (pipeline : addr) : K (option addr) :=
  chan ← ks_pipeline_last_chan pipeline;
  match chan with
  | None => mret None
  | Some chan => c ← the_chan chan; mret (Some (chan_to c))
  end.

(** ** Registration *)

(** ["%06d"] of a positive number: six digits at least *)
Fixpoint decimal (n : nat) (v : Z) (acc : list Z) : list Z :=
  match n with
  | O => acc
  | S n' => if (v =? 0) && (6 <=? Z.of_nat (length acc)) then acc
            else decimal n' (v / 10) (48 + v mod 10 :: acc)
  end.
Definition pipeline_name (id : Z) : list Z := decimal 10 id [].
(** ["pipelines"] and ["kstreamer"], the parents of a pipeline *)
Definition pipelines_kset : list (list Z) :=
  [[112; 105; 112; 101; 108; 105; 110; 101; 115];
   [107; 115; 116; 114; 101; 97; 109; 101; 114]].

Definition ks_pipeline_create (pipeline : option addr) : K (option addr) :=
  c_assert (negb (bool_decide (is_Some pipeline)));;
  ok ← call call_kmalloc;
  if ok <? 0 then mret None
  else
    a ← new_addr;
    put_pipeline a {| pipeline_refcount := 1; pipeline_path := []; pipeline_id := 0;
                      pipeline_status := KS_PIPELINE_STATUS_NULL; entries := [];
                      pipeline_mtu := 0 |};;
    mret (Some a).

Definition ks_pipeline_register_no_topology_lock (pipeline : addr) : K Z :=
  id ← _ks_pipeline_new_id;
  upd_pipeline pipeline (set_pipeline_id id);;
  ks_pipeline_get pipeline;;
  modify (λ w, set_ks_pipelines_list (ks_pipelines_list w ++ [pipeline]) w);;
  upd_pipeline pipeline (set_pipeline_path (pipeline_name id :: pipelines_kset));;
  err ← call call_kobject_add;
  if err <? 0 then
    w ← get;
    l ← lift (list_del pipeline (ks_pipelines_list w));
    modify (set_ks_pipelines_list l);;
    ks_pipeline_put pipeline;;
    mret err
  else
    ks_pipeline_mcast_send pipeline KS_NETLINK_PIPELINE_NEW;;
    mret 0.

Definition ks_pipeline_unregister_no_topology_lock (pipeline : addr) : K unit :=
  ks_pipeline_change_status pipeline KS_PIPELINE_STATUS_NULL;;
  w ← get;
  l ← lift (list_del pipeline (ks_pipelines_list w));
  modify (set_ks_pipelines_list l);;
  ks_pipeline_put pipeline;;
  ks_pipeline_mcast_send pipeline KS_NETLINK_PIPELINE_DEL;;
  mret tt.

(** ** Commands *)

(** [ks_pipeline_get_by_nlid]: the first attribute with the type of an identifier *)
Fixpoint nlid_loop (attr_id : Z) (get_by_id : Z → K (option addr)) (l : list ks_attr)
    : K (option addr) :=
  match l with
  | [] => mret None
  | a :: l =>
    if attr_type a =? attr_id then
      id ← lift (get_u32 (KS_ATTR_DATA a)); get_by_id (i32 id)
    else nlid_loop attr_id get_by_id l
  end.
Definition ks_pipeline_get_by_nlid (nlh : list Z) : K (option addr) :=
  l ← lift (KS_ATTRS nlh); nlid_loop KS_PIPELINEATTR_ID ks_pipeline_get_by_id l.

(** The channel of an attribute is put at the end of the pipeline. *)
Definition ks_pipeline_add_chan (pipeline : addr) (id : Z) : K Z :=
  p ← the_pipeline pipeline;
  if decide (pipeline_status p = KS_PIPELINE_STATUS_NULL) then
    chan ← ks_chan_get_by_id id;
    match chan with
    | None => mret (- ENODEV)
    | Some chan =>
      c ← the_chan chan;
      match chan_pipeline c with
      | Some _ => ks_chan_put chan;; mret (- EBUSY)
      | None =>
        ks_pipeline_get pipeline;;
        upd_chan chan (set_chan_pipeline (Some pipeline));;
        ks_chan_get chan;;
        upd_pipeline pipeline (λ p, set_entries (entries p ++ [chan]) p);;
        ks_chan_put chan;;
        mret 0
      end
    end
  else mret (- EINVAL).

(** the loop over the attributes of [ks_pipeline_create_from_nlmsg]: [err] and [status] *)
Fixpoint create_loop (pipeline : addr) (l : list ks_attr) (status : ks_pipeline_status)
    : K (Z * ks_pipeline_status) :=
  match l with
  | [] => mret (0, status)
  | a :: l =>
    if attr_type a =? KS_PIPELINEATTR_STATUS then
      v ← lift (get_u32 (KS_ATTR_DATA a)); create_loop pipeline l (status_of_u32 v)
    else if attr_type a =? KS_PIPELINEATTR_CHAN_ID then
      id ← lift (get_u32 (KS_ATTR_DATA a));
      err ← ks_pipeline_add_chan pipeline (i32 id);
      if err <? 0 then mret (err, status) else create_loop pipeline l status
    else mret (- EINVAL, status)
  end.

(** the pipeline, or [err] *)
Definition ks_pipeline_create_from_nlmsg (nlh : list Z) : K (Z + addr) :=
  pipeline ← ks_pipeline_create None;
  match pipeline with
  | None => mret (inl (- ENOMEM))
  | Some pipeline =>
    l ← lift (KS_ATTRS nlh);
    '(err, status) ← create_loop pipeline l KS_PIPELINE_STATUS_NULL;
    err ← (if err <? 0 then mret err
           else ks_pipeline_change_status pipeline
                  (if decide (status = KS_PIPELINE_STATUS_NULL)
                   then KS_PIPELINE_STATUS_CONNECTED else status));
    if err <? 0 then
      unlink_all pipeline;;
      ks_pipeline_put pipeline;;
      mret (inl err)
    else mret (inr pipeline)
  end.

(** the loop over the attributes of [ks_pipeline_update_from_nlsmsg] *)
Fixpoint update_loop (pipeline : addr) (l : list ks_attr) (status : ks_pipeline_status)
    : K (Z * ks_pipeline_status) :=
  match l with
  | [] => mret (0, status)
  | a :: l =>
    if attr_type a =? KS_PIPELINEATTR_ID then
      id ← lift (get_u32 (KS_ATTR_DATA a));
      p ← the_pipeline pipeline;
      c_assert (id =? u32 (pipeline_id p));;
      update_loop pipeline l status
    else if attr_type a =? KS_PIPELINEATTR_STATUS then
      v ← lift (get_u32 (KS_ATTR_DATA a)); update_loop pipeline l (status_of_u32 v)
    else mret (- EINVAL, status)
  end.

Definition ks_pipeline_update_from_nlsmsg (pipeline : addr) (nlh : list Z) : K Z :=
  l ← lift (KS_ATTRS nlh);
  '(err, status) ← update_loop pipeline l KS_PIPELINE_STATUS_NULL;
  if err <? 0 then mret err else ks_pipeline_change_status pipeline status.

(** [if (pipeline->status != KS_PIPELINE_STATUS_NULL) ks_pipeline_change_status(...)] *)
Definition ks_pipeline_to_null (pipeline : addr) : K unit :=
  p ← the_pipeline pipeline;
  if decide (pipeline_status p = KS_PIPELINE_STATUS_NULL) then mret tt
  else ks_pipeline_change_status pipeline KS_PIPELINE_STATUS_NULL;; mret tt.

Definition ks_pipeline_cmd_new (req : nlmsghdr) (nlh : list Z) : K Z :=
  r ← ks_pipeline_create_from_nlmsg nlh;
  match r with
  | inl err => mret err
  | inr pipeline =>
    err ← ks_pipeline_register_no_topology_lock pipeline;
    if err <? 0 then
      ks_pipeline_to_null pipeline;;
      ks_pipeline_put pipeline;;
      mret err
    else
      ks_pipeline_netlink_respond pipeline req KS_NETLINK_PIPELINE_NEW;;
      ks_pipeline_put pipeline;;
      mret 0
  end.

Definition ks_pipeline_cmd_del (req : nlmsghdr) (nlh : list Z) : K Z :=
  pipeline ← ks_pipeline_get_by_nlid nlh;
  match pipeline with
  | None => mret (- ENOENT)
  | Some pipeline =>
    ks_pipeline_to_null pipeline;;
    ks_pipeline_unregister_no_topology_lock pipeline;;
    ks_pipeline_netlink_respond pipeline req KS_NETLINK_PIPELINE_DEL;;
    ks_pipeline_put pipeline;;
    mret 0
  end.

Definition ks_pipeline_cmd_set (req : nlmsghdr) (nlh : list Z) : K Z :=
  pipeline ← ks_pipeline_get_by_nlid nlh;
  match pipeline with
  | None => mret (- ENOENT)
  | Some pipeline =>
    err ← ks_pipeline_update_from_nlsmsg pipeline nlh;
    if err <? 0 then ks_pipeline_put pipeline;; mret err
    else
      ks_pipeline_netlink_respond pipeline req KS_NETLINK_PIPELINE_SET;;
      ks_pipeline_put pipeline;;
      mret 0
  end.

(** The loop over a list of objects of the [*_cmd_get]; [write] puts an object into a
    buffer under a sequence number.  [cnt], or [err]. *)
Fixpoint cmd_get_loop (write : addr → sk_buff → Z → K (Z * sk_buff)) (seq : Z)
    (l : list addr) (cnt : Z) : K (Z + Z) :=
  match l with
  | [] => mret (inr cnt)
  | a :: l =>
    err ← respond_loop retries (λ skb, write a skb (seq + cnt));
    if err <? 0 then mret (inl err) else cmd_get_loop write seq l (cnt + 1)
  end.

Definition cmd_get (write : addr → sk_buff → Z → K (Z * sk_buff)) (req : nlmsghdr)
    (l : list addr) : K Z :=
  ks_netlink_send_ack req NLM_F_MULTI;;
  r ← cmd_get_loop write (nlmsg_seq req) l 1;
  match r with
  | inl err => mret err
  | inr cnt => ks_netlink_send_done req (u16 cnt);; mret 0
  end.

Definition ks_pipeline_cmd_get (req : nlmsghdr) (nlh : list Z) : K Z :=
  w ← get;
  cmd_get (λ pipeline skb seq,
    ks_pipeline_write_to_nlmsg pipeline skb KS_NETLINK_PIPELINE_NEW (nlmsg_pid req) seq
      NLM_F_MULTI) req (ks_pipelines_list w).

End env.
