(* ===== verification/KsTopology.v ===== *)
(** * Features, nodes and channels in the kernel

    [feature.c], [node.c] and [channel.c] of [src/modules/kstreamer/]: creation,
    registration, the messages about them and the commands of processes.  Drivers call
    the registration functions, which wait while a process has the topology locked:
    here they are what happens once they got it.  The files of sysfs are left out, a
    link in it is a call of the environment. *)

From stdpp Require Import base list gmap.
From Stdlib Require Import ZArith Lia.
From S2P Require Import Prelude.
From S2P Require Import Bits.
From S2P Require Import KsProto.
From S2P Require Import KsKernel.
From S2P Require Import KsPipeline.
Local Open Scope Z_scope.

Section env.
Context `{KsEnv}.

(** [ks_topology_unlock()]; the semaphore itself is not modelled *)
Definition ks_topology_unlock : K unit := ks_netlink_mcast_flush.

(** ** Features *)

(** [strcpy]-like views of an array of 32 octets that [strncpy] filled: it has a NUL
    unless the name had 32 characters or more *)
Definition feature_name_of (name : list Z) : list Z := take 32 (name ++ replicate 32 0).
Definition terminated (name : list Z) : bool := bool_decide (0 ∈ name).

(** [strcmp] of the array and a string: reading stops at the first difference *)
Definition feature_name_is (arr name : list Z) : outcome bool :=
  if terminated arr then Done (bool_decide (c_str arr = name))
  else if bool_decide (take 32 name = arr) then Fault OutOfBounds else Done false.

Definition ks_feature_write_to_nlmsg (feature : addr) (skb : sk_buff)
    (message_type pid seq flags : Z) : K (Z * sk_buff) :=
  let oldtail := skb_len skb in
  nlh ← lift (NLMSG_PUT skb pid seq message_type 0 (u16 flags));
  match nlh with
  | None => mret (- ENOBUFS, skb_trim skb oldtail)
  | Some skb =>
    f ← the_feature feature;
    r ← lift (put_attrs skb
      (put_u32 KS_FEATURE_ID (feature_id f)
       :: (if message_type =? KS_NETLINK_FEATURE_DEL then []
           else [λ skb, if terminated (feature_name f)
                        then ks_netlink_put_attr skb KS_FEATURE_NAME
                               (Some (c_str (feature_name f)))
                               (Z.of_nat (length (c_str (feature_name f))))
                        else Fault OutOfBounds])));
    mret (end_nlmsg oldtail r)
  end.

Definition ks_feature_mcast_send (feature : addr) (message_type : Z) : K Z :=
  err ← ks_netlink_mcast_need_skb;
  if err <? 0 then mret err
  else mcast_send_loop retries
         (λ skb seq, ks_feature_write_to_nlmsg feature skb message_type 0 seq 0).

Definition ks_feature_cmd_get (req : nlmsghdr) (nlh : list Z) : K Z :=
  w ← get;
  cmd_get (λ feature skb seq,
    ks_feature_write_to_nlmsg feature skb KS_NETLINK_FEATURE_NEW (nlmsg_pid req) seq
      NLM_F_MULTI) req (concat (ks_features_hash w)).

Fixpoint find_feature (name : list Z) (l : list addr) : K (option addr) :=
  match l with
  | [] => mret None
  | a :: l =>
    f ← the_feature a;
    same ← lift (feature_name_is (feature_name f) name);
    if same : bool then mret (Some a) else find_feature name l
  end.

(** [&ks_features_hash[id & (KS_FEATURE_HASHSIZE - 1)]]: the number of the bucket *)
Definition ks_features_get_hash (id : Z) : nat := Z.to_nat (Z.land id (255 - 1)).

Definition ks_feature_register_no_topology_lock (name : list Z) : K (option addr) :=
  w ← get;
  found ← find_feature name (concat (ks_features_hash w));
  match found with
  | Some feature => ks_feature_get (Some feature);; mret (Some feature)
  | None =>
    ok ← call call_kmalloc;
    if ok <? 0 then mret None
    else
      feature ← new_addr;
      id ← _ks_feature_new_id;
      put_feature feature {| feature_refcnt := 1; feature_id := id;
                             feature_name := feature_name_of name |};;
      modify (λ w, set_ks_features_hash
        (alter (cons feature) (ks_features_get_hash id) (ks_features_hash w)) w);;
      ks_feature_mcast_send feature KS_NETLINK_FEATURE_NEW;;
      mret (Some feature)
  end.

Definition ks_feature_register (name : list Z) : K (option addr) :=
  feature ← ks_feature_register_no_topology_lock name;
  ks_topology_unlock;;
  mret feature.

Definition ks_feature_unregister (feature : addr) : K unit :=
  f ← the_feature feature;
  (if feature_refcnt f =? 1 then
     w ← get;
     l ← lift (list_del feature (nth (ks_features_get_hash (feature_id f))
                                   (ks_features_hash w) []));
     modify (λ w, set_ks_features_hash
       (<[ks_features_get_hash (feature_id f) := l]> (ks_features_hash w)) w);;
     ks_feature_mcast_send feature KS_NETLINK_FEATURE_DEL;;
     ks_topology_unlock
   else mret tt);;
  ks_feature_put feature.

(** ** Nodes *)

(** [ks_node_create] of a driver that brings the memory of the node; [ops], [ops->owner]
    and [name] are not NULL *)
Definition ks_node_create (ops : ks_op → bool) (name : list Z) (parent : list (list Z))
    : K addr :=
  a ← new_addr;
  put_node a {| node_refcount := 1; node_path := name :: parent; node_id := 0;
                node_ops := ops |};;
  mret a.

Definition ks_node_write_to_nlmsg (node : addr) (skb : sk_buff)
    (message_type pid seq flags : Z) : K (Z * sk_buff) :=
  let oldtail := skb_len skb in
  nlh ← lift (NLMSG_PUT skb pid seq message_type 0 (u16 flags));
  match nlh with
  | None => mret (- ENOBUFS, skb_trim skb oldtail)
  | Some skb =>
    n ← the_node node;
    r ← lift (put_attrs skb
      (put_u32 KS_NODEATTR_ID (node_id n)
       :: (if message_type =? KS_NETLINK_NODE_DEL then []
           else [λ skb, ks_netlink_put_attr_path skb KS_NODEATTR_PATH (node_path n)])));
    mret (end_nlmsg oldtail r)
  end.

Definition ks_node_mcast_send (node : addr) (message_type : Z) : K Z :=
  err ← ks_netlink_mcast_need_skb;
  if err <? 0 then mret err
  else mcast_send_loop retries
         (λ skb seq, ks_node_write_to_nlmsg node skb message_type 0 seq 0).

Definition ks_node_cmd_get (req : nlmsghdr) (nlh : list Z) : K Z :=
  w ← get;
  cmd_get (λ node skb seq,
    ks_node_write_to_nlmsg node skb KS_NETLINK_NODE_NEW (nlmsg_pid req) seq NLM_F_MULTI)
    req (ks_nodes_list w).

Definition ks_node_register_no_topology_lock (node : addr) : K Z :=
  id ← _ks_node_new_id;
  upd_node node (set_node_id id);;
  ks_node_get node;;
  modify (λ w, set_ks_nodes_list (ks_nodes_list w ++ [node]) w);;
  err ← call call_kobject_add;
  if err <? 0 then
    w ← get;
    l ← lift (list_del node (ks_nodes_list w));
    modify (set_ks_nodes_list l);;
    ks_node_put node;;
    mret err
  else
    ks_node_mcast_send node KS_NETLINK_NODE_NEW;;
    mret 0.

Definition ks_node_register (node : addr) : K Z :=
  err ← ks_node_register_no_topology_lock node;
  ks_topology_unlock;;
  mret err.

Definition ks_node_unregister_no_topology_lock (node : addr) : K unit :=
  w ← get;
  l ← lift (list_del node (ks_nodes_list w));
  modify (set_ks_nodes_list l);;
  ks_node_put node;;
  ks_node_mcast_send node KS_NETLINK_NODE_DEL;;
  mret tt.

Definition ks_node_unregister (node : addr) : K unit :=
  ks_node_unregister_no_topology_lock node;; ks_topology_unlock.

(** ** Channels *)

(** [ks_chan_create] of a driver that brings the memory of the channel *)
Definition ks_chan_create (ops : ks_op → bool) (has_get_attr has_set_attr : bool)
    (name : list Z) (duplex : bool) (parent : list (list Z)) (from to : addr) : K addr :=
  a ← new_addr;
  ks_node_get from;;
  ks_node_get to;;
  put_chan a {| chan_refcount := 1; chan_path := name :: parent; chan_id := 0;
                chan_ops := ops; chan_has_get_attr := has_get_attr;
                chan_has_set_attr := has_set_attr; chan_duplex := duplex;
                chan_from := from; chan_to := to; chan_mtu := -1;
                chan_pipeline := None |};;
  mret a.

(** the attributes of the driver; its buffer has 32 octets *)
Fixpoint chan_attrs_loop (chan : addr) (n : nat) (i : Z) (skb : sk_buff)
    : K (Z * sk_buff) :=
  match n with
  | O => mret (0, skb)
  | S n =>
    w ← get;
    let '(type, buf, len) := env_attr (calls w) chan i in
    err ← call (call_get_attr chan i);
    if err <? 0 then mret (err, skb)
    else
      '(err, skb) ← lift (ks_netlink_put_attr skb type (Some (take 32 buf)) len);
      if err <? 0 then mret (err, skb) else chan_attrs_loop chan n (i + 1) skb
  end.

Definition ks_chan_write_to_nlmsg (chan : addr) (skb : sk_buff)
    (message_type pid seq flags : Z) : K (Z * sk_buff) :=
  let oldtail := skb_len skb in
  nlh ← lift (NLMSG_PUT skb pid seq message_type 0 (u16 flags));
  match nlh with
  | None => mret (- ENOBUFS, skb_trim skb oldtail)
  | Some skb =>
    c ← the_chan chan;
    '(err, skb) ← lift (put_attrs skb [put_u32 KS_CHANATTR_ID (chan_id c)]);
    if err <? 0 then mret (end_nlmsg oldtail (err, skb))
    else if message_type =? KS_NETLINK_CHAN_DEL then mret (end_nlmsg oldtail (0, skb))
    else
      from ← the_node (chan_from c);
      to ← the_node (chan_to c);
      '(err, skb) ← lift (put_attrs skb
        [λ skb, ks_netlink_put_attr_path skb KS_CHANATTR_PATH (chan_path c);
         put_u32 KS_CHANATTR_FROM (node_id from);
         put_u32 KS_CHANATTR_TO (node_id to)]);
      if err <? 0 then mret (end_nlmsg oldtail (err, skb))
      else if chan_has_get_attr c then
        attrs_cnt ← call (call_get_attr_count chan);
        r ← chan_attrs_loop chan (Z.to_nat attrs_cnt) 0 skb;
        mret (end_nlmsg oldtail r)
      else mret (end_nlmsg oldtail (0, skb))
  end.

Definition ks_chan_mcast_send (chan : addr) (message_type : Z) : K Z :=
  err ← ks_netlink_mcast_need_skb;
  if err <? 0 then mret err
  else mcast_send_loop retries
         (λ skb seq, ks_chan_write_to_nlmsg chan skb message_type 0 seq 0).

Definition ks_chan_netlink_respond (chan : addr) (req : nlmsghdr) (message_type : Z) : K Z :=
  respond_loop retries (λ skb,
    ks_chan_write_to_nlmsg chan skb message_type (nlmsg_pid req) (nlmsg_seq req) NLM_F_ACK).

Definition ks_chan_cmd_get (req : nlmsghdr) (nlh : list Z) : K Z :=
  w ← get;
  cmd_get (λ chan skb seq,
    ks_chan_write_to_nlmsg chan skb KS_NETLINK_CHAN_NEW (nlmsg_pid req) seq NLM_F_MULTI)
    req (ks_chans_list w).

Definition ks_chan_get_by_nlid (nlh : list Z) : K (option addr) :=
  l ← lift (KS_ATTRS nlh); nlid_loop KS_CHANATTR_ID ks_chan_get_by_id l.

(** the loop over the attributes of [ks_chan_update_from_nlmsg] *)
Fixpoint chan_update_loop (chan : addr) (l : list ks_attr) : K Z :=
  match l with
  | [] => mret 0
  | a :: l =>
    c ← the_chan chan;
    if ((1 <=? attr_type a) && (attr_type a <=? 4)) || negb (chan_has_set_attr c)
    then chan_update_loop chan l
    else
      buf ← lift (memcpy_from (KS_ATTR_DATA a) 0 (KS_ATTR_PAYLOAD a) (KS_ATTR_PAYLOAD a));
      err ← call (call_set_attr chan (attr_type a) buf);
      if err <? 0 then mret err else chan_update_loop chan l
  end.
Definition ks_chan_update_from_nlmsg (chan : addr) (nlh : list Z) : K Z :=
  l ← lift (KS_ATTRS nlh); chan_update_loop chan l.

Definition ks_chan_cmd_set (req : nlmsghdr) (nlh : list Z) : K Z :=
  chan ← ks_chan_get_by_nlid nlh;
  match chan with
  | None => mret (- ENOENT)
  | Some chan =>
    err ← ks_chan_update_from_nlmsg chan nlh;
    if err <? 0 then ks_chan_put chan;; mret err
    else
      ks_chan_netlink_respond chan req KS_NETLINK_CHAN_SET;;
      ks_chan_put chan;;
      mret 0
  end.

(** the links in sysfs: [duplex] where there is one, [from] and [to] *)
Definition ks_chan_create_links (chan : addr) : K Z :=
  c ← the_chan chan;
  and_then (if chan_duplex c then call call_sysfs_create_link else mret 0)
    (and_then (call call_sysfs_create_link) (call call_sysfs_create_link)).

Definition ks_chan_register_no_topology_lock (chan : addr) : K Z :=
  id ← _ks_chan_new_id;
  upd_chan chan (set_chan_id id);;
  ks_chan_get chan;;
  modify (λ w, set_ks_chans_list (ks_chans_list w ++ [chan]) w);;
  err ← and_then (call call_kobject_add) (ks_chan_create_links chan);
  if err <? 0 then
    w ← get;
    l ← lift (list_del chan (ks_chans_list w));
    modify (set_ks_chans_list l);;
    ks_chan_put chan;;
    mret err
  else
    ks_chan_mcast_send chan KS_NETLINK_CHAN_NEW;;
    mret 0.

Definition ks_chan_register (chan : addr) : K Z :=
  err ← ks_chan_register_no_topology_lock chan;
  ks_topology_unlock;;
  mret err.

(** a channel that leaves takes its pipeline with it *)
Definition ks_chan_unregister_no_topology_lock (chan : addr) : K unit :=
  c ← the_chan chan;
  (match chan_pipeline c with
   | Some pipeline =>
     ks_pipeline_get pipeline;;
     ks_pipeline_unregister_no_topology_lock pipeline;;
     ks_pipeline_put pipeline
   | None => mret tt
   end);;
  w ← get;
  l ← lift (list_del chan (ks_chans_list w));
  modify (set_ks_chans_list l);;
  ks_chan_put chan;;
  ks_chan_mcast_send chan KS_NETLINK_CHAN_DEL;;
  mret tt.

Definition ks_chan_unregister (chan : addr) : K unit :=
  ks_chan_unregister_no_topology_lock chan;; ks_topology_unlock.

(** ** Destruction: once [ks_kobj_waitref] has seen a reference count of one *)

Definition ks_node_destroy (node : addr) : K unit := ks_node_put node.
Definition ks_chan_destroy (chan : addr) : K unit := ks_chan_put chan.
Definition ks_pipeline_destroy (pipeline : addr) : K unit := ks_pipeline_put pipeline.

End env.

(** ** The netlink interface of the kernel

    [src/modules/kstreamer/netlink.c]: the topology lock of processes, the table of
    commands, the reception of messages and the backlog of messages that wait for the
    lock; and the module as a transition system ([ks_step]): messages of processes, the
    lock timer, and the operations of drivers, each of which runs under
    [topology_lock]. *)

Section env.
Context `{KsEnv}.

(** ** The topology lock *)

(** The lock is counted; [BUG_ON] is an assertion. *)
Definition ks_do_lock (req : nlmsghdr) : K unit :=
  w ← get;
  if lock_owner (netlink_state w) =? 0 then
    c_assert (lock_depth (netlink_state w) =? 0);;
    upd_nl (λ s, set_lock_depth (lock_depth s + 1) (set_lock_owner (i32 (nlmsg_pid req)) s));;
    ks_netlink_mcast_flush;;
    upd_nl (set_lock_timer true)
  else upd_nl (λ s, set_lock_depth (lock_depth s + 1) s).

(** [state->lock_owner != nlh->nlmsg_pid]: an [int] and a [__u32] *)
Definition is_owner (w : ks_world) (req : nlmsghdr) : bool :=
  u32 (lock_owner (netlink_state w)) =? nlmsg_pid req.

Definition ks_cmd_topology_lock (req : nlmsghdr) (nlh : list Z) : K Z :=
  w ← get;
  c_assert ((lock_owner (netlink_state w) =? 0) || is_owner w req);;
  c_assert (negb (nlmsg_pid req =? 0));;
  ks_do_lock req;;
  ks_netlink_send_ack req 0;;
  mret 0.

Definition ks_cmd_topology_trylock (req : nlmsghdr) (nlh : list Z) : K Z :=
  c_assert (negb (nlmsg_pid req =? 0));;
  w ← get;
  if negb (lock_owner (netlink_state w) =? 0) && negb (is_owner w req) then mret (- EBUSY)
  else
    ks_do_lock req;;
    ks_netlink_send_ack req 0;;
    mret 0.

Definition ks_cmd_topology_unlock (req : nlmsghdr) (nlh : list Z) : K Z :=
  w ← get;
  if lock_owner (netlink_state w) =? 0 then mret (- ENOENT)
  else if negb (is_owner w req) then mret (- EINVAL)
  else
    upd_nl (λ s, set_lock_depth (lock_depth s - 1) s);;
    w ← get;
    if lock_depth (netlink_state w) =? 0 then
      upd_nl (λ s, set_lock_timer false (set_lock_owner 0 s));;
      ks_netlink_send_ack req 0;;
      ks_netlink_mcast_flush;;
      call call_wake_up;;
      mret 0
    else
      ks_netlink_send_ack req 0;;
      mret 0.

(** the timer of the lock: the lock is broken *)
Definition ks_lock_timeout : K unit :=
  upd_nl (λ s, set_lock_timer false (set_lock_owner 0 (set_lock_depth 0 s)));;
  call call_wake_up;;
  mret tt.

(** ** Commands *)

Definition ks_cmd_done (req : nlmsghdr) (nlh : list Z) : K Z := mret 0.
Definition ks_cmd_noop (req : nlmsghdr) (nlh : list Z) : K Z :=
  ks_netlink_send_ack req 0;; mret 0.
Definition ks_cmd_not_implemented (req : nlmsghdr) (nlh : list Z) : K Z := mret 0.

(** version 1.0.0, to the process whose command is being handled *)
Definition ks_cmd_version_request (req : nlmsghdr) (nlh : list Z) : K Z :=
  w ← get;
  respond_header (cur_pid (netlink_state w)) (cur_seq (netlink_state w)) KS_NETLINK_VERSION
    NLM_F_ACK [1; 0; 0; 0].

Definition ks_commands : list (Z * (nlmsghdr → list Z → K Z)) :=
  [(NLMSG_DONE, ks_cmd_done);
   (NLMSG_NOOP, ks_cmd_noop);
   (KS_NETLINK_VERSION, ks_cmd_version_request);
   (KS_NETLINK_TOPOLOGY_LOCK, ks_cmd_topology_lock);
   (KS_NETLINK_TOPOLOGY_TRYLOCK, ks_cmd_topology_trylock);
   (KS_NETLINK_TOPOLOGY_UNLOCK, ks_cmd_topology_unlock);
   (KS_NETLINK_FEATURE_NEW, ks_cmd_not_implemented);
   (KS_NETLINK_FEATURE_DEL, ks_cmd_not_implemented);
   (KS_NETLINK_FEATURE_GET, ks_feature_cmd_get);
   (KS_NETLINK_FEATURE_SET, ks_cmd_not_implemented);
   (KS_NETLINK_NODE_NEW, ks_cmd_not_implemented);
   (KS_NETLINK_NODE_DEL, ks_cmd_not_implemented);
   (KS_NETLINK_NODE_GET, ks_node_cmd_get);
   (KS_NETLINK_NODE_SET, ks_cmd_not_implemented);
   (KS_NETLINK_CHAN_NEW, ks_cmd_not_implemented);
   (KS_NETLINK_CHAN_DEL, ks_cmd_not_implemented);
   (KS_NETLINK_CHAN_GET, ks_chan_cmd_get);
   (KS_NETLINK_CHAN_SET, ks_chan_cmd_set);
   (KS_NETLINK_PIPELINE_NEW, ks_pipeline_cmd_new);
   (KS_NETLINK_PIPELINE_DEL, ks_pipeline_cmd_del);
   (KS_NETLINK_PIPELINE_GET, ks_pipeline_cmd_get);
   (KS_NETLINK_PIPELINE_SET, ks_pipeline_cmd_set)].

Fixpoint find_command (type : Z) (l : list (Z * (nlmsghdr → list Z → K Z)))
    : option (nlmsghdr → list Z → K Z) :=
  match l with
  | [] => None
  | (t, handler) :: l => if t =? type then Some handler else find_command type l
  end.

(** ** Reception *)

Definition ks_netlink_rcv_msg (nlh : list Z) : K Z :=
  req ← lift (nlmsg_hdr nlh);
  if negb (Z.testbit (nlmsg_flags req) 0) then mret (- EINVAL)
  else match find_command (nlmsg_type req) ks_commands with
  | None => mret (- EINVAL)
  | Some handler =>
    w ← get;
    if negb (lock_owner (netlink_state w) =? 0) && negb (is_owner w req) then mret (- EAGAIN)
    else
      upd_nl (λ s, set_cur_pid (i32 (nlmsg_pid req)) (set_cur_seq (nlmsg_seq req) s));;
      err ← handler req nlh;
      (if err <? 0 then ks_netlink_send_error req err;; mret tt else mret tt);;
      ks_netlink_flush;;
      ks_netlink_mcast_flush;;
      mret 0
  end.

(** The messages of a buffer: [err], and what is left of the buffer.  A message that must
    wait for the lock stays in it. *)
Fixpoint rcv_skb_loop (fuel : nat) (skb : sk_buff) : K (Z * sk_buff) :=
  if skb_len skb <? NLMSG_SPACE 0 then mret (0, skb)
  else match fuel with
  | O => fail Diverges
  | S fuel =>
    let mem := skb_data skb ++ skb_mem skb in
    nlh ← lift (nlmsg_hdr mem);
    if (nlmsg_len nlh <? 16) || (skb_len skb <? nlmsg_len nlh) then mret (0, skb)
    else
      let rlen := Z.min (NLMSG_ALIGN (nlmsg_len nlh)) (skb_len skb) in
      err ← ks_netlink_rcv_msg mem;
      if err =? - EAGAIN then mret (err, skb)
      else
        (if err <? 0 then ks_netlink_send_error nlh err;; mret tt else mret tt);;
        rcv_skb_loop fuel (skb_pull skb rlen)
  end.

(** every message takes 16 octets or more *)
Definition ks_netlink_rcv_skb (skb : sk_buff) : K (Z * sk_buff) :=
  rcv_skb_loop (length (skb_data skb) `div` 16) skb.

(** One pass over the backlog: the buffers that are in it when the pass begins; those
    that must still wait go to its end.  Whether one was processed. *)
Fixpoint backlog_pass (n : nat) (processed : bool) : K bool :=
  match n with
  | O => mret processed
  | S n =>
    w ← get;
    match ks_backlog w with
    | [] => mret processed
    | skb :: l =>
      put (set_ks_backlog l w);;
      '(err, skb) ← ks_netlink_rcv_skb skb;
      if err =? - EAGAIN then
        modify (λ w, set_ks_backlog (ks_backlog w ++ [skb]) w);; backlog_pass n processed
      else backlog_pass n true
    end
  end.

Fixpoint backlog_loop (fuel : nat) : K unit :=
  match fuel with
  | O => fail Diverges
  | S fuel =>
    w ← get;
    processed ← backlog_pass (length (ks_backlog w)) false;
    if processed : bool then backlog_loop fuel else mret tt
  end.

(** every pass but the last takes a buffer out of the backlog *)
Definition ks_netlink_process_backlog : K unit :=
  w ← get; backlog_loop (S (length (ks_backlog w))).

(** a buffer of messages from a process *)
Definition ks_netlink_rcv (skb : sk_buff) : K unit :=
  '(err, skb) ← ks_netlink_rcv_skb skb;
  (if err =? - EAGAIN then modify (λ w, set_ks_backlog (ks_backlog w ++ [skb]) w)
   else mret tt);;
  ks_netlink_process_backlog.

(** ** The module as a transition system *)

Inductive ks_input : Type :=
| in_message (skb : sk_buff)
| in_lock_timeout
| in_feature_register (name : list Z)
| in_feature_unregister (feature : addr)
| in_node_create (ops : ks_op → bool) (name : list Z) (parent : list (list Z))
| in_node_register (node : addr)
| in_node_unregister (node : addr)
| in_node_destroy (node : addr)
| in_chan_create (ops : ks_op → bool) (get_attr set_attr : bool) (name : list Z)
    (duplex : bool) (parent : list (list Z)) (from to : addr)
| in_chan_register (chan : addr)
| in_chan_unregister (chan : addr)
| in_chan_destroy (chan : addr)
| in_stimulate (pipeline : addr)
| in_change_status (pipeline : addr) (status : ks_pipeline_status).

(** the operations that take [ks_topology_lock], which sleeps while a process holds the
    lock *)
Definition needs_lock (i : ks_input) : bool :=
  match i with
  | in_feature_register _ | in_feature_unregister _ | in_node_register _
  | in_node_unregister _ | in_chan_register _ | in_chan_unregister _ => true
  | _ => false
  end.

Definition ks_handle (i : ks_input) : K unit :=
  match i with
  | in_message skb => ks_netlink_rcv skb
  | in_lock_timeout => ks_lock_timeout
  | in_feature_register name => ks_feature_register name;; mret tt
  | in_feature_unregister feature => ks_feature_unregister feature
  | in_node_create ops name parent => ks_node_create ops name parent;; mret tt
  | in_node_register node => ks_node_register node;; mret tt
  | in_node_unregister node => ks_node_unregister node
  | in_node_destroy node => ks_node_destroy node
  | in_chan_create ops ga sa name duplex parent from to =>
    ks_chan_create ops ga sa name duplex parent from to;; mret tt
  | in_chan_register chan => ks_chan_register chan;; mret tt
  | in_chan_unregister chan => ks_chan_unregister chan
  | in_chan_destroy chan => ks_chan_destroy chan
  | in_stimulate pipeline => ks_pipeline_stimulate pipeline
  | in_change_status pipeline status => ks_pipeline_change_status pipeline status;; mret tt
  end.

End env.
