(* ===== verification/KsWire.v ===== *)
(** * Messages of the kernel are read back

    [KsProto] has attributes; here are whole messages: what [NLMSG_PUT], a series of
    [ks_netlink_put_attr] and the fixing of the length at the end leave in a buffer is
    a message whose header and attributes the receiver's loops return as they were put.
    Where a message does not fit, the buffer is as before. *)

From stdpp Require Import base list gmap.
From Stdlib Require Import ZArith Lia.
From S2P Require Import Prelude.
From S2P Require Import Bits.
From S2P Require Import KsProto.
From S2P Require Import KsKernel.
From S2P Require Import KsPipeline.
Local Open Scope Z_scope.

(** the memory of the buffer is where its size says *)
Definition skb_ok (skb : sk_buff) : Prop :=
  skb_size skb = skb_len skb + Z.of_nat (length (skb_mem skb)).

Definition payload_len (a : Z * list Z) : Z := Z.of_nat (length a.2).

(** the attributes and the padding behind each *)
Definition padded (l : list (Z * list Z)) (pads : list (list Z)) : list (Z * list Z * list Z) :=
  zip_with (λ a pad, (a, pad)) l pads.

(** [put] writes the attribute [a], or finds no room for it *)
Definition puts (put : sk_buff → outcome (Z * sk_buff)) (a : Z * list Z) : Prop :=
  ∀ skb, skb_ok skb →
    skb_tailroom skb < KS_ATTR_SPACE (payload_len a) ∧ put skb = Done (- ENOBUFS, skb) ∨
    ∃ skb' pad, put skb = Done (0, skb') ∧ attr_fits (a, pad) ∧ skb_ok skb' ∧
      skb_data skb' = skb_data skb ++ attr_bytes (a, pad) ∧ skb_size skb' = skb_size skb.

Definition attr_ok (a : Z * list Z) : Prop := 0 ≤ a.1 < 65536 ∧ 4 + payload_len a < 65536.

Lemma skb_put_spec skb n bytes :
  skb_ok skb → Z.of_nat (length bytes) ≤ n ≤ skb_tailroom skb →
  ∃ skb' pad, skb_put skb n bytes = Done skb' ∧ skb_ok skb' ∧
    Z.of_nat (length pad) = n - Z.of_nat (length bytes) ∧
    skb_data skb' = skb_data skb ++ bytes ++ pad ∧ skb_size skb' = skb_size skb.
Proof.
  unfold skb_ok, skb_tailroom, skb_put, skb_len. intros Hok [Hn Hroom].
  destruct (Nat.ltb_spec (length (skb_mem skb)) (Z.to_nat n)); [lia|].
  destruct (Nat.ltb_spec (Z.to_nat n) (length bytes)); [lia|]. cbn [orb].
  eexists _, (take (Z.to_nat n - length bytes) (drop (length bytes) (skb_mem skb))).
  split; [done|]. cbn [skb_data skb_size skb_mem].
  rewrite !length_app, length_take, !length_drop. split_and!; [lia|lia|done|done].
Qed.

(** the two ways of putting an attribute *)
Lemma puts_bytes type payload skb :
  attr_ok (type, payload) → skb_ok skb →
  KS_ATTR_SPACE (Z.of_nat (length payload)) ≤ skb_tailroom skb →
  ∃ skb' pad,
    skb_put skb (KS_ATTR_SPACE (Z.of_nat (length payload)))
      (le 2 (u16 (KS_ATTR_LENGTH (Z.of_nat (length payload)))) ++ le 2 (u16 type) ++ payload)
    = Done skb' ∧ attr_fits ((type, payload), pad) ∧ skb_ok skb' ∧
    skb_data skb' = skb_data skb ++ attr_bytes ((type, payload), pad) ∧
    skb_size skb' = skb_size skb.
Proof.
  intros [Ht Hp] Hok Hroom. unfold payload_len in Hp. cbn [fst snd] in *.
  change (KS_ATTR_LENGTH (Z.of_nat (length payload))) with (4 + Z.of_nat (length payload)).
  rewrite !u16_small by lia. pose proof (KS_ATTR_SPACE_bounds (Z.of_nat (length payload))).
  pose proof (KS_ATTR_SPACE_eq (Z.of_nat (length payload))) as Heq.
  edestruct (skb_put_spec skb (KS_ATTR_SPACE (Z.of_nat (length payload)))
    (le 2 (4 + Z.of_nat (length payload)) ++ le 2 type ++ payload))
    as (skb' & pad & E & Hok' & Hpad & Hdata & Hsize); [done| |].
  { rewrite !length_app, !le_length. lia. }
  rewrite !length_app, !le_length in Hpad.
  assert (Hfit : attr_fits ((type, payload), pad)).
  { split; [done|]. split; [lia|]. rewrite length_app, KS_ATTR_ALIGN_eq. lia. }
  exists skb', pad. split; [exact E|]. split; [exact Hfit|]. split; [exact Hok'|].
  split; [|exact Hsize].
  unfold attr_bytes. by rewrite Hdata, <- !(assoc_L (++)).
Qed.

Lemma memcpy_from_full (l : list Z) :
  memcpy_from l 0 (Z.of_nat (length l)) (Z.of_nat (length l)) = Done l.
Proof.
  rewrite <- (app_nil_r l) at 1. apply (memcpy_from_app [] l []); done || lia.
Qed.

Lemma puts_attr type payload n :
  attr_ok (type, payload) → n = Z.of_nat (length payload) →
  puts (λ skb, ks_netlink_put_attr skb type (Some payload) n) (type, payload).
Proof.
  intros Ha -> skb Hok. unfold ks_netlink_put_attr, payload_len. cbn [fst snd].
  destruct (Z.ltb_spec (skb_tailroom skb) (KS_ATTR_SPACE (Z.of_nat (length payload)))); [by left|].
  right. destruct (puts_bytes type payload skb) as (skb' & pad & E & H1 & H2 & H3 & H4); [done..|].
  exists skb', pad. rewrite memcpy_from_full. cbn [mbind outcome_bind]. by rewrite E.
Qed.

Lemma ks_kobj_make_path_len path :
  foldr (λ name n, Z.of_nat (length name) + 1 + n) 0 path
  = Z.of_nat (length (ks_kobj_make_path path)).
Proof.
  unfold ks_kobj_make_path.
  assert (G : ∀ path buf, Z.of_nat (length (foldl (λ buf name, 47 :: name ++ buf) buf path))
            = Z.of_nat (length buf) + foldr (λ name n, Z.of_nat (length name) + 1 + n) 0 path).
  { clear. intros path. induction path as [|name path IH]; intros buf; cbn [foldl foldr]; [lia|].
    rewrite IH. cbn [length]. rewrite length_app. lia. }
  rewrite G. cbn. lia.
Qed.

Lemma puts_path type path :
  attr_ok (type, ks_kobj_make_path path) →
  puts (λ skb, ks_netlink_put_attr_path skb type path) (type, ks_kobj_make_path path).
Proof.
  intros Ha skb Hok. unfold ks_netlink_put_attr_path, payload_len. cbn [fst snd].
  rewrite ks_kobj_make_path_len. destruct (Z.ltb_spec (skb_tailroom skb)
    (KS_ATTR_SPACE (Z.of_nat (length (ks_kobj_make_path path))))); [by left|].
  right. destruct (puts_bytes type (ks_kobj_make_path path) skb)
    as (skb' & pad & E & H1 & H2 & H3 & H4); [done..|].
  exists skb', pad. by rewrite E.
Qed.

Lemma puts_u32 type v : 0 ≤ type < 65536 → puts (put_u32 type v) (type, le 4 (u32 v)).
Proof. intros Ht. apply puts_attr; [|by rewrite le_length]. split; [done|]. unfold payload_len. cbn [snd].
  rewrite le_length. done. Qed.

(** A series of attributes: all of them, or some did not fit. *)
Lemma put_attrs_spec fs l skb :
  Forall2 puts fs l → skb_ok skb →
  ∃ err skb', put_attrs skb fs = Done (err, skb') ∧ skb_ok skb' ∧
    skb_size skb' = skb_size skb ∧ (∃ more, skb_data skb' = skb_data skb ++ more) ∧
    (err = - ENOBUFS ∨
     err = 0 ∧ ∃ bs, Forall attr_fits bs ∧ fst <$> bs = l ∧
       skb_data skb' = skb_data skb ++ concat (attr_bytes <$> bs)).
Proof.
  intros Hl. revert skb. induction Hl as [|f a fs l Hf Hl IH]; intros skb Hok; cbn [put_attrs].
  { exists 0, skb. split_and!; [done..|exists []; by rewrite app_nil_r|].
    right. split; [done|]. exists []. by rewrite app_nil_r. }
  destruct (Hf skb Hok) as [[_ E]|(skb1 & pad & E & Hfit & Hok1 & Hd1 & Hs1)]; rewrite E;
    cbn [mbind outcome_bind].
  { exists (- ENOBUFS), skb. split_and!; [done..|exists []; by rewrite app_nil_r|by left]. }
  destruct (IH skb1 Hok1) as (err & skb2 & E2 & Hok2 & Hs2 & [more Hm] & Hr).
  exists err, skb2. rewrite E2. split_and!; [done|done|congruence| |].
  { exists (attr_bytes (a, pad) ++ more). by rewrite Hm, Hd1, (assoc_L (++)). }
  destruct Hr as [?|(-> & bs & Hbs & <- & Hd2)]; [by left|right]. split; [done|].
  exists ((a, pad) :: bs). split_and!; [by constructor|done|].
  by rewrite Hd2, Hd1, <- (assoc_L (++)).
Qed.

(** ** Whole messages *)

(** the octets of a message with the attributes [bs] *)
Definition nl_message (type flags seq pid : Z) (bs : list (Z * list Z * list Z)) : list Z :=
  nlmsghdr_bytes {| nlmsg_len := 16 + Z.of_nat (length (concat (attr_bytes <$> bs)));
                    nlmsg_type := type; nlmsg_flags := flags; nlmsg_seq := seq;
                    nlmsg_pid := pid |} ++ concat (attr_bytes <$> bs).

Lemma NLMSG_PUT_spec skb pid seq type flags :
  skb_ok skb →
  skb_tailroom skb < 16 ∧ NLMSG_PUT skb pid seq type 0 flags = Done None ∨
  ∃ skb', NLMSG_PUT skb pid seq type 0 flags = Done (Some skb') ∧ skb_ok skb' ∧
    skb_size skb' = skb_size skb ∧
    skb_data skb' = skb_data skb ++ nlmsghdr_bytes
      {| nlmsg_len := 16; nlmsg_type := u16 type; nlmsg_flags := flags;
         nlmsg_seq := u32 seq; nlmsg_pid := u32 pid |}.
Proof.
  intros Hok. unfold NLMSG_PUT. rewrite NLMSG_SPACE_0. change (NLMSG_LENGTH 0) with 16.
  destruct (Z.ltb_spec (skb_tailroom skb) 16); [by left|right].
  change (replicate _ 0) with (@nil Z). rewrite app_nil_r.
  set (h := mk_nlmsghdr _ _ _ _ _). pose proof (nlmsghdr_bytes_length h) as Hl.
  destruct (skb_put_spec skb 16 (nlmsghdr_bytes h)) as (skb' & pad & E & H1 & Hpad & H2 & H3);
    [done|lia|].
  destruct pad; [|cbn in Hpad; lia]. rewrite app_nil_r in H2.
  exists skb'. by rewrite E.
Qed.

(** what [end_nlmsg] returns: the message, or nothing *)
Definition written (skb : sk_buff) (type flags seq pid : Z) (l : list (Z * list Z))
    (r : Z * sk_buff) : Prop :=
  skb_ok r.2 ∧ skb_size r.2 = skb_size skb ∧
  (r.1 = - ENOBUFS ∧ skb_data r.2 = skb_data skb ∨
   r.1 = 0 ∧ ∃ bs, Forall attr_fits bs ∧ fst <$> bs = l ∧
     skb_data r.2 = skb_data skb ++ nl_message type flags seq pid bs).

Lemma skb_trim_ok skb n : 0 ≤ n ≤ skb_len skb → skb_ok skb →
  skb_ok (skb_trim skb n) ∧ skb_size (skb_trim skb n) = skb_size skb ∧
  skb_data (skb_trim skb n) = take (Z.to_nat n) (skb_data skb).
Proof.
  unfold skb_ok, skb_trim, skb_len. intros Hn Hok.
  destruct (Z.ltb_spec n (Z.of_nat (length (skb_data skb)))); cbn [skb_data skb_mem skb_size].
  - rewrite length_app, length_take, length_drop. split_and!; [lia|done|done].
  - split_and!; [done|done|]. by rewrite take_ge by lia.
Qed.

Lemma end_nlmsg_spec skb skb1 type flags seq pid fs l :
  skb_ok skb → skb_size skb < 4294967296 → skb_ok skb1 → skb_size skb1 = skb_size skb →
  skb_data skb1 = skb_data skb ++ nlmsghdr_bytes
      {| nlmsg_len := 16; nlmsg_type := type; nlmsg_flags := flags;
         nlmsg_seq := seq; nlmsg_pid := pid |} →
  Forall2 puts fs l →
  ∃ r, put_attrs skb1 fs = Done r ∧
       written skb type flags seq pid l (end_nlmsg (skb_len skb) r).
Proof.
  intros Hok Hsize Hok1 Hs1 Hd1 Hl.
  destruct (put_attrs_spec fs l skb1 Hl Hok1) as (err & skb2 & E & Hok2 & Hs2 & [more Hm] & Hr).
  exists (err, skb2). split; [done|]. unfold end_nlmsg.
  assert (Hlen : 0 ≤ skb_len skb ≤ skb_len skb2).
  { unfold skb_len. rewrite Hm, Hd1, !length_app. lia. }
  destruct Hr as [->|(-> & bs & Hbs & Hbl & Hd2)].
  - change (- ENOBUFS <? 0) with true. cbv iota.
    destruct (skb_trim_ok skb2 (skb_len skb) Hlen Hok2) as (T1 & T2 & T3).
    split; [exact T1|]. split; [cbn [snd]; congruence|left]. split; [done|]. cbn [snd]. rewrite T3, Hm, Hd1.
    unfold skb_len. rewrite Nat2Z.id, <- (assoc_L (++)). apply take_app_length.
  - change (0 <? 0) with false. cbv iota.
    assert (Hdata : skb_data (nlmsg_set_len skb2 (skb_len skb))
              = skb_data skb ++ nl_message type flags seq pid bs).
    { cbn [nlmsg_set_len skb_data]. unfold skb_len. rewrite Nat2Z.id, Hd2, Hd1.
      rewrite <- !(assoc_L (++)), take_app_length, drop_app_ge by lia.
      replace (_ + 4 - _)%nat with 4%nat by lia. f_equal. unfold nl_message, nlmsghdr_bytes.
      cbn [nlmsg_len nlmsg_type nlmsg_flags nlmsg_seq nlmsg_pid].
      rewrite <- !(assoc_L (++)). f_equal.
      f_equal. rewrite !length_app, !le_length, u32_small; [lia|].
      revert Hok2. unfold skb_ok, skb_len. rewrite Hs2, Hs1, Hd2, Hd1, !length_app,
        nlmsghdr_bytes_length. lia. }
    split; [|split; [cbn [snd nlmsg_set_len skb_size]; congruence|right]].
    + cbn [snd]. unfold skb_ok in *.
      pose proof (f_equal (λ l, Z.of_nat (length l)) Hdata) as L. cbn beta in L.
      change (Z.of_nat (length (skb_data ?s))) with (skb_len s) in L at 1. rewrite L.
      revert Hok2. unfold skb_len. cbn [nlmsg_set_len skb_mem skb_size].
      rewrite Hd2, Hd1. unfold nl_message. rewrite !length_app, !nlmsghdr_bytes_length. lia.
    + split; [done|]. by exists bs.
Qed.

(** ** The receiver *)

Lemma KS_ATTRS_message type flags seq pid bs rest :
  hdr_ok type flags seq pid → Forall attr_fits bs →
  16 + Z.of_nat (length (concat (attr_bytes <$> bs))) < 4294967296 →
  nlmsg_hdr (nl_message type flags seq pid bs ++ rest)
  = Done {| nlmsg_len := 16 + Z.of_nat (length (concat (attr_bytes <$> bs)));
            nlmsg_type := type; nlmsg_flags := flags; nlmsg_seq := seq; nlmsg_pid := pid |} ∧
  ∃ l, KS_ATTRS (nl_message type flags seq pid bs ++ rest) = Done l ∧
       Forall2 attr_is l (fst <$> bs).
Proof.
  intros Hh Hbs Hlen. unfold nl_message. rewrite <- (assoc_L (++)).
  set (h := mk_nlmsghdr _ _ _ _ _).
  assert (Hhdr : nlmsg_hdr (nlmsghdr_bytes h ++ concat (attr_bytes <$> bs) ++ rest) = Done h).
  { apply nlmsg_hdr_bytes; [cbn; lia|done]. }
  split; [done|]. unfold KS_ATTRS. rewrite Hhdr. cbn [mbind outcome_bind].
  unfold NLMSG_DATA. rewrite drop_app_length' by (by rewrite nlmsghdr_bytes_length).
  unfold KS_PAYLOAD. rewrite NLMSG_SPACE_0. cbn [nlmsg_len h].
  replace (16 + _ - 16) with (Z.of_nat (length (concat (attr_bytes <$> bs)))) by lia.
  apply ks_attrs_from_bytes; [done|]. rewrite Nat2Z.id.
  apply Nat.div_le_lower_bound; [done|]. clear -Hbs.
  induction Hbs as [|b bs Hb Hbs IH]; [done|]. cbn [fmap list_fmap concat length].
  rewrite length_app. pose proof (attr_bytes_length b Hb) as Hl.
  pose proof (KS_ATTR_SPACE_bounds (Z.of_nat (length b.1.2))).
  change (list_fmap _ _ attr_bytes bs) with (attr_bytes <$> bs). lia.
Qed.
