(* ===== verification/KsInv.v ===== *)
(** * The objects of the kernel: the invariant

    [KInv xp xc xn w]: every reference count of a pipeline, a channel, a node is the
    number of the references the structures hold plus those the running code and the
    drivers hold ([xp], [xc], [xn]); a channel knows its pipeline and the pipeline lists
    it once; nothing dangles.

    Sending messages and calling drivers leaves the objects alone ([obj_eq]); the hint
    database [kobj] has the functions that do nothing else.  Getting and putting
    references moves a count. *)

From stdpp Require Import base list gmap.
From Stdlib Require Import ZArith Lia.
From S2P Require Import Prelude.
From S2P Require Import Bits.
From S2P Require Import KsProto.
From S2P Require Import KsKernel.
From S2P Require Import KsPipeline.
From S2P Require Import KsTopology.
Local Open Scope Z_scope.

(** ** Functions that leave the objects alone *)

Definition obj_eq (w w' : ks_world) : Prop :=
  nodes w' = nodes w ∧ chans w' = chans w ∧ pipelines w' = pipelines w ∧
  ks_nodes_list w' = ks_nodes_list w ∧ ks_chans_list w' = ks_chans_list w ∧
  ks_pipelines_list w' = ks_pipelines_list w ∧ (next_addr w ≤ next_addr w')%nat.

Lemma obj_eq_refl w : obj_eq w w.
Proof. by split_and!. Qed.
Lemma obj_eq_trans w1 w2 w3 : obj_eq w1 w2 → obj_eq w2 w3 → obj_eq w1 w3.
Proof.
  intros (?&?&?&?&?&?&?) (?&?&?&?&?&?&?). split_and!; try congruence. lia.
Qed.

(** [m] does not touch the objects *)
Definition quiet {A} (m : K A) : Prop := ∀ w, wlp m (λ _, obj_eq w) w.

Lemma kquiet_preserves {A} (m : K A) w0 : quiet m → preserves (obj_eq w0) m.
Proof.
  intros Hm w Hw. eapply wlp_mono; [apply Hm|]. intros ? w' Hw'. cbn in *. by eapply obj_eq_trans.
Qed.

Section quiet.
Context `{KsEnv}.

Lemma kquiet_ret {A} (a : A) : quiet (mret a).
Proof. intros w. apply obj_eq_refl. Qed.
Lemma quiet_fail {A} f : quiet (fail f : K A).
Proof. by intros w. Qed.
Lemma quiet_lift {A} (o : outcome A) : quiet (lift o).
Proof. intros w. unfold wlp, lift. destruct o; [apply obj_eq_refl|done]. Qed.
Lemma quiet_get : quiet get.
Proof. intros w. apply obj_eq_refl. Qed.
Lemma quiet_deref {A} (o : option A) : quiet (deref o : K A).
Proof. destruct o; [apply kquiet_ret|apply quiet_fail]. Qed.
Lemma quiet_c_assert b : quiet (c_assert b : K unit).
Proof. destruct b; [apply kquiet_ret|apply quiet_fail]. Qed.
Lemma kquiet_bind {A B} (m : K A) (k : A → K B) :
  quiet m → (∀ a, quiet (k a)) → quiet (m ≫= k).
Proof.
  intros Hm Hk w. apply wlp_bind. eapply wlp_mono; [apply Hm|]. intros a w' Hw.
  eapply wlp_mono; [apply Hk|]. intros b w'' Hw'. cbn in *. by eapply obj_eq_trans.
Qed.
Lemma quiet_if {A} (b : bool) (m1 m2 : K A) :
  quiet m1 → quiet m2 → quiet (if b then m1 else m2).
Proof. by destruct b. Qed.
Lemma kquiet_forM {A} (l : list A) (f : A → K unit) :
  (∀ a, quiet (f a)) → quiet (forM l f).
Proof.
  intros Hf. induction l as [|a l IH]; [apply kquiet_ret|]. by apply kquiet_bind.
Qed.
Lemma quiet_access {A} (sel : ks_world → gmap addr A) a : quiet (access sel a).
Proof.
  intros w. unfold access, wlp, mbind, M_bind, get. cbn. destruct (sel w !! a); [|done].
  apply obj_eq_refl.
Qed.
Lemma quiet_upd_nl f : quiet (upd_nl f).
Proof. by intros w; split_and!. Qed.
Lemma quiet_call c : quiet (call c).
Proof. by intros w; split_and!. Qed.
Lemma quiet_kalloc_skb : quiet kalloc_skb.
Proof. by intros w; split_and!. Qed.
Lemma quiet_put_feature a o : quiet (put_feature a o).
Proof. by intros w; split_and!. Qed.
Lemma quiet_the_chan a : quiet (the_chan a).
Proof. apply quiet_access. Qed.
Lemma quiet_the_node a : quiet (the_node a).
Proof. apply quiet_access. Qed.
Lemma quiet_the_pipeline a : quiet (the_pipeline a).
Proof. apply quiet_access. Qed.
Lemma quiet_the_feature a : quiet (the_feature a).
Proof. apply quiet_access. Qed.
End quiet.

Create HintDb kobj.
#[export] Hint Resolve kquiet_ret quiet_fail quiet_lift quiet_get quiet_deref quiet_c_assert
  quiet_if kquiet_forM quiet_upd_nl quiet_call quiet_kalloc_skb quiet_put_feature
  quiet_the_chan quiet_the_node quiet_the_pipeline quiet_the_feature : kobj.

(** closes or reduces a goal [quiet m] by the shape of [m] *)
Ltac quiet :=
  repeat first
    [ solve [auto with kobj nocore]
    | apply kquiet_bind; [|intros ?]
    | apply quiet_if
    | match goal with
      | |- quiet (match ?x with _ => _ end) => destruct x
      | |- quiet (let '_ := ?x in _) => destruct x
      end
    | progress cbn beta iota ].

Section quiet_ops.
Context `{KsEnv}.

Lemma quiet_node_call op n l1 l2 : quiet (node_call op n l1 l2).
Proof. unfold node_call. quiet. Qed.
Lemma quiet_chan_call op c : quiet (chan_call op c).
Proof. unfold chan_call. quiet. Qed.
Lemma quiet_need_skb : quiet ks_netlink_need_skb.
Proof. unfold ks_netlink_need_skb. quiet. Qed.
Lemma quiet_flush : quiet ks_netlink_flush.
Proof. unfold ks_netlink_flush. quiet. Qed.
Lemma quiet_mcast_need_skb : quiet ks_netlink_mcast_need_skb.
Proof. unfold ks_netlink_mcast_need_skb. quiet. Qed.
Hint Resolve quiet_node_call quiet_chan_call quiet_need_skb quiet_flush
  quiet_mcast_need_skb : kobj.
Lemma quiet_mcast_need_another_skb : quiet ks_netlink_mcast_need_another_skb.
Proof. unfold ks_netlink_mcast_need_another_skb. quiet. Qed.
Lemma quiet_mcast_flush : quiet ks_netlink_mcast_flush.
Proof. unfold ks_netlink_mcast_flush. quiet. Qed.
Hint Resolve quiet_mcast_need_another_skb quiet_mcast_flush : kobj.

Lemma quiet_mcast_send_loop fuel write :
  (∀ skb seq, quiet (write skb seq)) → quiet (mcast_send_loop fuel write).
Proof. intros Hw. induction fuel as [|fuel IH]; cbn; quiet. Qed.
Lemma quiet_respond_loop fuel write :
  (∀ skb, quiet (write skb)) → quiet (respond_loop fuel write).
Proof. intros Hw. induction fuel as [|fuel IH]; cbn; quiet. Qed.
Hint Resolve quiet_mcast_send_loop quiet_respond_loop : kobj.

Lemma quiet_respond_header pid seq type flags payload :
  quiet (respond_header pid seq type flags payload).
Proof. unfold respond_header. apply quiet_respond_loop. intros skb. quiet. Qed.
Hint Resolve quiet_respond_header : kobj.
Lemma quiet_send_done req seq : quiet (ks_netlink_send_done req seq).
Proof. apply quiet_respond_header. Qed.
Lemma quiet_send_ack req flags : quiet (ks_netlink_send_ack req flags).
Proof. apply quiet_respond_header. Qed.
Lemma quiet_send_error req error : quiet (ks_netlink_send_error req error).
Proof. apply quiet_respond_header. Qed.

Lemma quiet_pipeline_write p skb t pid seq flags :
  quiet (ks_pipeline_write_to_nlmsg p skb t pid seq flags).
Proof.
  unfold ks_pipeline_write_to_nlmsg. quiet.
  all: try (intros w; unfold wlp; destruct (mapM _ _); [apply obj_eq_refl|done]).
Qed.
Lemma quiet_node_write n skb t pid seq flags :
  quiet (ks_node_write_to_nlmsg n skb t pid seq flags).
Proof. unfold ks_node_write_to_nlmsg. quiet. Qed.
Lemma quiet_feature_write f skb t pid seq flags :
  quiet (ks_feature_write_to_nlmsg f skb t pid seq flags).
Proof. unfold ks_feature_write_to_nlmsg. quiet. Qed.
Lemma quiet_chan_attrs_loop c n i skb : quiet (chan_attrs_loop c n i skb).
Proof. revert i skb. induction n as [|n IH]; intros i skb; cbn; quiet. Qed.
Hint Resolve quiet_chan_attrs_loop : kobj.
Lemma quiet_chan_write c skb t pid seq flags :
  quiet (ks_chan_write_to_nlmsg c skb t pid seq flags).
Proof. unfold ks_chan_write_to_nlmsg. quiet. Qed.
Hint Resolve quiet_pipeline_write quiet_node_write quiet_feature_write quiet_chan_write : kobj.

Lemma quiet_pipeline_mcast_send p t : quiet (ks_pipeline_mcast_send p t).
Proof. unfold ks_pipeline_mcast_send. quiet. Qed.
Lemma quiet_node_mcast_send n t : quiet (ks_node_mcast_send n t).
Proof. unfold ks_node_mcast_send. quiet. Qed.
Lemma quiet_feature_mcast_send f t : quiet (ks_feature_mcast_send f t).
Proof. unfold ks_feature_mcast_send. quiet. Qed.
Lemma quiet_chan_mcast_send c t : quiet (ks_chan_mcast_send c t).
Proof. unfold ks_chan_mcast_send. quiet. Qed.
Lemma quiet_pipeline_respond p req t : quiet (ks_pipeline_netlink_respond p req t).
Proof. unfold ks_pipeline_netlink_respond. quiet. Qed.
Lemma quiet_chan_respond c req t : quiet (ks_chan_netlink_respond c req t).
Proof. unfold ks_chan_netlink_respond. quiet. Qed.

Lemma quiet_search {A} (sel : ks_world → gmap addr A) f id l :
  quiet (search_by_id sel f id l).
Proof.
  induction l as [|a l IH]; cbn; quiet.
Qed.

Lemma quiet_undo_chans op s l prev : quiet (undo_chans op s l prev).
Proof. revert prev. induction l as [|c l IH]; intros prev; cbn; quiet. Qed.
Hint Resolve quiet_undo_chans : kobj.
Lemma quiet_undo_pipeline op p s : quiet (undo_pipeline op p s).
Proof. unfold undo_pipeline. quiet. Qed.
Lemma quiet_do_chans op u l prev : quiet (do_chans op u l prev).
Proof. revert prev. induction l as [|c l IH]; intros prev; cbn; quiet. Qed.
Lemma quiet_do_last_node op p prev : quiet (do_last_node op p prev).
Proof. unfold do_last_node. quiet. Qed.
Lemma quiet_min_mtu l m : quiet (min_mtu l m).
Proof. revert m. induction l as [|c l IH]; intros m; cbn; quiet. Qed.
Hint Resolve quiet_min_mtu : kobj.
Lemma quiet_negotiate_mtu p : quiet (ks_pipeline_negotiate_mtu p).
Proof. unfold ks_pipeline_negotiate_mtu. quiet. Qed.
End quiet_ops.

#[export] Hint Resolve quiet_node_call quiet_chan_call quiet_need_skb quiet_flush
  quiet_mcast_need_skb quiet_mcast_need_another_skb quiet_mcast_flush quiet_respond_header
  quiet_send_done quiet_send_ack quiet_send_error quiet_pipeline_write quiet_node_write
  quiet_feature_write quiet_chan_write quiet_pipeline_mcast_send quiet_node_mcast_send
  quiet_feature_mcast_send quiet_chan_mcast_send quiet_pipeline_respond quiet_chan_respond
  quiet_search quiet_undo_chans quiet_undo_pipeline quiet_do_chans quiet_do_last_node
  quiet_negotiate_mtu quiet_respond_loop : kobj.

(** ** References between the objects of the kernel

    The invariant [KInv] and what getting, putting, linking and unlinking do to it:
    total specifications, that is, none of them meets a fault. *)

(** ** The invariant *)

Definition entries_of (w : ks_world) (p : addr) : list addr :=
  match pipelines w !! p with Some o => entries o | None => [] end.
Definition pipeline_of (w : ks_world) (c : addr) : option addr :=
  chans w !! c ≫= chan_pipeline.

(** one if [P] *)
Notation one P := (Z.b2z (bool_decide P)).

(** how often the channel [c] uses the node [n], and the channels of [m] do *)
Definition uses_by (n : addr) (c : ks_chan) : Z := one (chan_from c = n) + one (chan_to c = n).
Definition uses (n : addr) (m : gmap addr ks_chan) : Z :=
  map_fold (λ _ c u, uses_by n c + u) 0 m.

Record KInv (xp xc xn : addr → Z) (w : ks_world) : Prop := {
  kinv_x : ∀ a, 0 ≤ xp a ∧ 0 ≤ xc a ∧ 0 ≤ xn a;
  kinv_p : ∀ p, match pipelines w !! p with
    | Some o => pipeline_refcount o
                = xp p + Z.of_nat (length (entries o)) + one (p ∈ ks_pipelines_list w) ∧
                0 < pipeline_refcount o ∧ NoDup (entries o) ∧ (p < next_addr w)%nat
    | None => xp p = 0 ∧ p ∉ ks_pipelines_list w
    end;
  kinv_c : ∀ c, match chans w !! c with
    | Some o => chan_refcount o
                = xc c + one (c ∈ ks_chans_list w) + one (is_Some (chan_pipeline o)) ∧
                0 < chan_refcount o ∧ (c < next_addr w)%nat
    | None => xc c = 0 ∧ c ∉ ks_chans_list w
    end;
  kinv_n : ∀ n, match nodes w !! n with
    | Some o => node_refcount o
                = xn n + one (n ∈ ks_nodes_list w) + uses n (chans w) ∧
                0 < node_refcount o ∧ (n < next_addr w)%nat
    | None => xn n = 0 ∧ n ∉ ks_nodes_list w ∧ uses n (chans w) = 0
    end;
  kinv_link : ∀ c p, c ∈ entries_of w p ↔ pipeline_of w c = Some p;
  kinv_lists : NoDup (ks_pipelines_list w) ∧ NoDup (ks_chans_list w) ∧
               NoDup (ks_nodes_list w);
}.

Lemma KInv_init : KInv (λ _, 0) (λ _, 0) (λ _, 0) ks_init.
Proof.
  split; try done.
  - intros p. cbn. split; [done|]. apply not_elem_of_nil.
  - intros p. cbn. split; [done|]. apply not_elem_of_nil.
  - intros n. cbn -[uses]. split; [done|]. split; [apply not_elem_of_nil|done].
  - intros c p. unfold entries_of, pipeline_of. cbn. split; [|done].
    intros Hc. by apply elem_of_nil in Hc.
  - cbn. split_and!; constructor.
Qed.

Lemma KInv_obj_eq xp xc xn w w' : obj_eq w w' → KInv xp xc xn w → KInv xp xc xn w'.
Proof.
  intros (En & Ec & Ep & Ln & Lc & Lp & Hnext) [Hx Hp Hc Hn Hl Hd].
  split; unfold entries_of, pipeline_of in *; rewrite ?En, ?Ec, ?Ep, ?Ln, ?Lc, ?Lp in *; auto.
  - intros p. specialize (Hp p). destruct (pipelines w !! p); [|done].
    destruct Hp as (?&?&?&?). split_and!; [done..|lia].
  - intros c. specialize (Hc c). destruct (chans w !! c); [|done].
    destruct Hc as (?&?&?). split_and!; [done..|lia].
  - intros n. specialize (Hn n). destruct (nodes w !! n); [|done].
    destruct Hn as (?&?&?). split_and!; [done..|lia].
Qed.

(** a quiet computation keeps the invariant *)
Lemma wlp_quiet {A} (m : K A) xp xc xn w :
  quiet m → KInv xp xc xn w → wlp m (λ _ w', KInv xp xc xn w' ∧ obj_eq w w') w.
Proof.
  intros Hm Hw. eapply wlp_mono; [apply Hm|]. intros a w' Hw'. cbn in Hw'.
  split; [by eapply KInv_obj_eq|done].
Qed.

(** ** Uses of nodes *)

Lemma uses_by_nonneg n c : 0 ≤ uses_by n c.
Proof. unfold uses_by. do 2 case_bool_decide; cbn; lia. Qed.

Lemma uses_insert n c o m : m !! c = None → uses n (<[c:=o]> m) = uses_by n o + uses n m.
Proof. intros Hc. unfold uses. rewrite map_fold_insert_L; [done| |done]. intros; lia. Qed.

Lemma uses_delete n c o m : m !! c = Some o → uses n m = uses_by n o + uses n (delete c m).
Proof.
  intros Hc. rewrite <- (insert_delete_id m c o Hc) at 1.
  apply uses_insert. apply lookup_delete_eq.
Qed.

Lemma uses_update n c o o' m :
  m !! c = Some o → chan_from o' = chan_from o → chan_to o' = chan_to o →
  uses n (<[c:=o']> m) = uses n m.
Proof.
  intros Hc Hf Ht. rewrite (uses_delete n c o m Hc), <- insert_delete_eq.
  rewrite uses_insert by apply lookup_delete_eq. unfold uses_by. by rewrite Hf, Ht.
Qed.

Lemma uses_nonneg n m : 0 ≤ uses n m.
Proof.
  induction m as [|c o m Hc IH] using map_ind; [done|].
  rewrite uses_insert by done. pose proof (uses_by_nonneg n o). lia.
Qed.

Lemma uses_by_from o : 1 ≤ uses_by (chan_from o) o.
Proof. unfold uses_by. rewrite bool_decide_true by done. case_bool_decide; cbn; lia. Qed.
Lemma uses_by_to o : 1 ≤ uses_by (chan_to o) o.
Proof. unfold uses_by. rewrite (bool_decide_true (chan_to o = _)) by done. case_bool_decide; cbn; lia. Qed.

Lemma one_range (P : Prop) `{Decision P} : 0 ≤ one P ≤ 1.
Proof. case_bool_decide; cbn; lia. Qed.

(** ** Counts the running code holds *)

Definition inc (x : addr → Z) (a : addr) : addr → Z :=
  λ b, if decide (b = a) then x b + 1 else x b.
Definition dec (x : addr → Z) (a : addr) : addr → Z :=
  λ b, if decide (b = a) then x b - 1 else x b.

Lemma inc_eq x a : inc x a a = x a + 1.
Proof. unfold inc. by rewrite decide_True. Qed.
Lemma inc_ne x a b : b ≠ a → inc x a b = x b.
Proof. intros. unfold inc. by rewrite decide_False. Qed.
Lemma dec_eq x a : dec x a a = x a - 1.
Proof. unfold dec. by rewrite decide_True. Qed.
Lemma dec_ne x a b : b ≠ a → dec x a b = x b.
Proof. intros. unfold dec. by rewrite decide_False. Qed.
Lemma inc_ge x a b : x b ≤ inc x a b.
Proof. unfold inc. case_decide; lia. Qed.
Lemma dec_nonneg x a b : (∀ a, 0 ≤ x a) → 0 < x a → 0 ≤ dec x a b.
Proof. intros Hx Ha. unfold dec. case_decide; subst; [lia|apply Hx]. Qed.

Lemma KInv_ext xp xc xn xp' xc' xn' w :
  (∀ a, xp a = xp' a) → (∀ a, xc a = xc' a) → (∀ a, xn a = xn' a) →
  KInv xp xc xn w → KInv xp' xc' xn' w.
Proof.
  intros Ep Ec En [Hx Hp Hc Hn Hl Hd]. split; auto.
  - intros a. rewrite <- Ep, <- Ec, <- En. auto.
  - intros p. rewrite <- Ep. apply Hp.
  - intros c. rewrite <- Ec. apply Hc.
  - intros n. rewrite <- En. apply Hn.
Qed.

Lemma dec_inc x a b : dec (inc x a) a b = x b.
Proof. unfold dec, inc. case_decide; lia. Qed.

(** ** Nodes *)

(** a node whose count changes with the references the code holds *)
Lemma KInv_node xp xc xn xn' w n o o' :
  KInv xp xc xn w → nodes w !! n = Some o →
  (∀ a, 0 ≤ xn' a) → (∀ a, a ≠ n → xn' a = xn a) →
  node_refcount o' - node_refcount o = xn' n - xn n → 0 < node_refcount o' →
  KInv xp xc xn' (set_nodes (<[n := o']> (nodes w)) w).
Proof.
  intros [Hx Hp Hc Hn Hl Hd] Ho Hpos Hne Hdiff Hr. split; cbn; auto.
  { intros a. destruct (Hx a) as (?&?&?). auto. }
  intros m. specialize (Hn m). destruct (decide (m = n)) as [->|Hm].
  - rewrite lookup_insert_eq. rewrite Ho in Hn. destruct Hn as (?&?&?). split_and!; [lia..|done].
  - rewrite lookup_insert_ne by done. rewrite Hne by done. done.
Qed.

(** the last reference to a node goes *)
Lemma KInv_node_delete xp xc xn w n o :
  KInv xp xc xn w → nodes w !! n = Some o → node_refcount o = 1 → 0 < xn n →
  KInv xp xc (dec xn n) (set_nodes (delete n (nodes w)) w).
Proof.
  intros [Hx Hp Hc Hn Hl Hd] Ho Hr Hxn. split; cbn; auto.
  { intros a. destruct (Hx a) as (?&?&?). split_and!; auto. apply dec_nonneg; [|done].
    intros b. apply Hx. }
  intros m. specialize (Hn m). destruct (decide (m = n)) as [->|Hm].
  - rewrite lookup_delete_eq. rewrite Ho in Hn. destruct Hn as (Hn&?&?).
    pose proof (uses_nonneg n (chans w)). pose proof (one_range (n ∈ ks_nodes_list w)).
    rewrite dec_eq. split_and!; [lia| |lia]. intros Hin.
    rewrite bool_decide_true in Hn by done. cbn in Hn. lia.
  - rewrite lookup_delete_ne by done. rewrite dec_ne by done. done.
Qed.

Lemma ks_node_get_spec xp xc xn w n :
  KInv xp xc xn w → is_Some (nodes w !! n) →
  wp (ks_node_get n) (λ _ w', KInv xp xc (inc xn n) w' ∧
    w' = set_nodes (nodes w') w ∧ (∀ a, is_Some (nodes w !! a) → is_Some (nodes w' !! a))) w.
Proof.
  intros Hw [o Ho]. unfold ks_node_get, upd_node, the_node, access, put_node.
  unfold wp, mbind, M_bind, get, modify, mret, M_ret. cbn. rewrite Ho. cbn. split_and!.
  - eapply KInv_node; [done|done| | | |]; cbn.
    + intros a. pose proof (inc_ge xn n a). destruct (kinv_x _ _ _ _ Hw a). lia.
    + intros a Ha. by apply inc_ne.
    + rewrite inc_eq. lia.
    + pose proof (kinv_n _ _ _ _ Hw n) as Hn. rewrite Ho in Hn. lia.
  - by destruct w.
  - intros a [x Ha]. destruct (decide (a = n)) as [->|].
    + rewrite lookup_insert_eq. eauto.
    + rewrite lookup_insert_ne by done. eauto.
Qed.

(** [ks_node_put] on the heap of nodes *)
Definition node_put_map (n : addr) (o : ks_node) (m : gmap addr ks_node) : gmap addr ks_node :=
  if node_refcount o =? 1 then delete n m
  else <[n := set_node_refcount (node_refcount o - 1) o]> m.

Lemma ks_node_put_eq n o w :
  nodes w !! n = Some o →
  ks_node_put n w = Done (tt, set_nodes (node_put_map n o (nodes w)) w).
Proof.
  intros Ho. unfold ks_node_put, the_node, access, put_node, node_put_map.
  unfold mbind, M_bind, get, modify, mret, M_ret. cbn. rewrite Ho. by destruct (_ =? 1).
Qed.

Lemma KInv_node_put xp xc xn w n :
  KInv xp xc xn w → 0 < xn n →
  ∃ o, nodes w !! n = Some o ∧
       KInv xp xc (dec xn n) (set_nodes (node_put_map n o (nodes w)) w).
Proof.
  intros Hw Hxn. pose proof (kinv_n _ _ _ _ Hw n) as Hn.
  destruct (nodes w !! n) as [o|] eqn:Ho; [|lia]. exists o. split; [done|].
  unfold node_put_map. destruct (Z.eqb_spec (node_refcount o) 1).
  - by eapply KInv_node_delete.
  - eapply KInv_node; [done|done| | | |]; cbn.
    + intros a. apply dec_nonneg; [|done]. intros b. apply (kinv_x _ _ _ _ Hw).
    + intros a Ha. by apply dec_ne.
    + rewrite dec_eq. lia.
    + lia.
Qed.

(** ** Channels *)

(** a channel whose count changes with the references the code holds *)
Lemma KInv_chan xp xc xc' xn w c o o' :
  KInv xp xc xn w → chans w !! c = Some o →
  chan_from o' = chan_from o → chan_to o' = chan_to o → chan_pipeline o' = chan_pipeline o →
  (∀ a, 0 ≤ xc' a) → (∀ a, a ≠ c → xc' a = xc a) →
  chan_refcount o' - chan_refcount o = xc' c - xc c → 0 < chan_refcount o' →
  KInv xp xc' xn (set_chans (<[c := o']> (chans w)) w).
Proof.
  intros [Hx Hp Hc Hn Hl Hd] Ho Hf Ht Hpl Hpos Hne Hdiff Hr. split; cbn; auto.
  - intros a. destruct (Hx a) as (?&?&?). auto.
  - intros d. specialize (Hc d). destruct (decide (d = c)) as [->|Hdc].
    + rewrite lookup_insert_eq. rewrite Ho in Hc. rewrite Hpl.
      destruct Hc as (?&?&?). split_and!; [lia..|done].
    + rewrite lookup_insert_ne by done. rewrite Hne by done. done.
  - intros n. rewrite (uses_update n c o o') by done. apply Hn.
  - intros d p. change (entries_of _ p) with (entries_of w p). rewrite Hl. unfold pipeline_of, entries_of. cbn.
    destruct (decide (d = c)) as [->|Hdc].
    + rewrite lookup_insert_eq, Ho. cbn. by rewrite Hpl.
    + by rewrite lookup_insert_ne by done.
Qed.

(** the last reference to a channel goes: its references to nodes are the code's now *)
Lemma KInv_chan_delete xp xc xn w c o :
  KInv xp xc xn w → chans w !! c = Some o → chan_refcount o = 1 → 0 < xc c →
  KInv xp (dec xc c) (inc (inc xn (chan_from o)) (chan_to o))
    (set_chans (delete c (chans w)) w).
Proof.
  intros [Hx Hp Hc Hn Hl Hd] Ho Hr Hxc.
  pose proof (Hc c) as Hoc. rewrite Ho in Hoc. destruct Hoc as (Hoc & _ & _).
  pose proof (one_range (c ∈ ks_chans_list w)).
  pose proof (one_range (is_Some (chan_pipeline o))).
  assert (Hnp : chan_pipeline o = None).
  { destruct (chan_pipeline o) eqn:E; [|done].
    rewrite (bool_decide_true (is_Some _)) in Hoc by eauto. cbn in Hoc. lia. }
  assert (Hnl : c ∉ ks_chans_list w).
  { intros Hin. rewrite (bool_decide_true (c ∈ _)) in Hoc by done. cbn in Hoc. lia. }
  assert (Hu : ∀ n, inc (inc xn (chan_from o)) (chan_to o) n = xn n + uses_by n o).
  { intros n. unfold inc, uses_by. repeat case_decide; repeat case_bool_decide;
      cbn; subst; congruence || lia. }
  split; cbn; auto.
  - intros a. destruct (Hx a) as (?&?&?). pose proof (uses_by_nonneg a o).
    rewrite Hu. split_and!; [done| |lia]. apply dec_nonneg; [|done]. intros b. apply Hx.
  - intros d. specialize (Hc d). destruct (decide (d = c)) as [->|Hdc].
    + rewrite lookup_delete_eq, dec_eq. split; [|done].
      rewrite Hnp in Hoc. cbn in Hoc. rewrite bool_decide_false in Hoc by done. cbn in Hoc. lia.
    + rewrite lookup_delete_ne by done. by rewrite dec_ne.
  - intros n. specialize (Hn n). rewrite Hu. rewrite (uses_delete n c o _ Ho) in Hn.
    pose proof (uses_by_nonneg n o). pose proof (uses_nonneg n (delete c (chans w))).
    destruct (nodes w !! n); [|split_and?; lia || tauto].
    destruct Hn as (?&?&?). split_and!; [lia|done..].
  - intros d p. change (entries_of _ p) with (entries_of w p). rewrite Hl. unfold pipeline_of. cbn.
    destruct (decide (d = c)) as [->|Hdc].
    + rewrite lookup_delete_eq, Ho. cbn. by rewrite Hnp.
    + by rewrite lookup_delete_ne by done.
Qed.

(** [w'] differs from [w] in references to channels and nodes *)
Definition refs_only (w w' : ks_world) : Prop :=
  w' = set_chans (chans w') (set_nodes (nodes w') w) ∧
  ∀ c, pipeline_of w' c = pipeline_of w c.

Lemma ks_chan_get_spec xp xc xn w c :
  KInv xp xc xn w → is_Some (chans w !! c) →
  wp (ks_chan_get c) (λ _ w', KInv xp (inc xc c) xn w' ∧ refs_only w w') w.
Proof.
  intros Hw [o Ho]. unfold ks_chan_get, upd_chan, the_chan, access, put_chan.
  unfold wp, mbind, M_bind, get, modify, mret, M_ret. cbn. rewrite Ho. cbn. split.
  - eapply KInv_chan; [done|done|done|done|done| | | |]; cbn.
    + intros a. pose proof (inc_ge xc c a). destruct (kinv_x _ _ _ _ Hw a). lia.
    + intros a Ha. by apply inc_ne.
    + rewrite inc_eq. lia.
    + pose proof (kinv_c _ _ _ _ Hw c) as Hc. rewrite Ho in Hc. lia.
  - split; [by destruct w|]. intros d. unfold pipeline_of. cbn.
    destruct (decide (d = c)) as [->|]; [by rewrite lookup_insert_eq, Ho|].
    by rewrite lookup_insert_ne.
Qed.

Lemma ks_chan_put_spec xp xc xn w c :
  KInv xp xc xn w → 0 < xc c →
  wp (ks_chan_put c) (λ _ w', KInv xp (dec xc c) xn w' ∧ refs_only w w') w.
Proof.
  intros Hw Hxc. pose proof (kinv_c _ _ _ _ Hw c) as Hc.
  destruct (chans w !! c) as [o|] eqn:Ho; [|lia].
  unfold ks_chan_put, ks_chan_release, the_chan, access, put_chan, wp, mbind, M_bind, get,
    modify, mret, M_ret. cbn. rewrite Ho. cbn.
  destruct (Z.eqb_spec (chan_refcount o) 1) as [Hr|Hr]; cbn.
  - rewrite Ho. pose proof (KInv_chan_delete _ _ _ _ _ _ Hw Ho Hr Hxc) as Hw1.
    set (w1 := set_chans (delete c (chans w)) w) in *.
    set (xn1 := inc (inc xn (chan_from o)) (chan_to o)) in *.
    assert (Hx : ∀ a, 0 ≤ xn a) by (intros a; apply (kinv_x _ _ _ _ Hw)).
    destruct (KInv_node_put _ _ _ _ (chan_from o) Hw1) as (nf & Hof & Hw2).
    { unfold xn1. pose proof (inc_ge (inc xn (chan_from o)) (chan_to o) (chan_from o)).
      rewrite inc_eq in *. pose proof (Hx (chan_from o)). lia. }
    rewrite (ks_node_put_eq _ nf w) by done. cbn.
    destruct (KInv_node_put _ _ _ _ (chan_to o) Hw2) as (nt & Hot & Hw3).
    { unfold xn1, dec. rewrite inc_eq. pose proof (Hx (chan_to o)). unfold inc.
      repeat case_decide; lia || congruence. }
    rewrite (ks_node_put_eq _ nt) by done. cbn. split.
    + destruct w. eapply KInv_ext; [| | |apply Hw3]; try done.
      intros a. cbn in *. subst xn1. unfold inc, dec. repeat case_decide; subst; lia || congruence.
    + split; [by destruct w|]. intros d. unfold pipeline_of. cbn.
      pose proof (kinv_link _ _ _ _ Hw1 d) as L1. pose proof (kinv_link _ _ _ _ Hw d) as L.
      unfold pipeline_of in *. cbn in *.
      destruct (delete c (chans w) !! d ≫= chan_pipeline) as [p|] eqn:E1;
        destruct (chans w !! d ≫= chan_pipeline) as [q|] eqn:E2; try done.
      * f_equal. specialize (L q). specialize (L1 q). destruct L1 as [L1 _].
        assert (Some p = Some q) as [= ->]; [|done]. apply L1, L. done.
      * specialize (L1 p). specialize (L p). destruct L as [L _].
        assert (None = Some p) as [=]. apply L, L1. done.
      * specialize (L1 q). specialize (L q). destruct L1 as [L1 _].
        assert (None = Some q) as [=]. apply L1, L. done.
  - split.
    + eapply KInv_chan; [done|done|done|done|done| | | |]; cbn.
      * intros a. apply dec_nonneg; [|done]. intros b. apply (kinv_x _ _ _ _ Hw).
      * intros a Ha. by apply dec_ne.
      * rewrite dec_eq. lia.
      * lia.
    + split; [by destruct w|]. intros d. unfold pipeline_of. cbn.
      destruct (decide (d = c)) as [->|]; [by rewrite lookup_insert_eq, Ho|].
      by rewrite lookup_insert_ne.
Qed.

(** ** Pipelines *)

(** a pipeline whose count changes with the references the code holds *)
Lemma KInv_pipeline xp xp' xc xn w p o o' :
  KInv xp xc xn w → pipelines w !! p = Some o → entries o' = entries o →
  (∀ a, 0 ≤ xp' a) → (∀ a, a ≠ p → xp' a = xp a) →
  pipeline_refcount o' - pipeline_refcount o = xp' p - xp p → 0 < pipeline_refcount o' →
  KInv xp' xc xn (set_pipelines (<[p := o']> (pipelines w)) w).
Proof.
  intros [Hx Hp Hc Hn Hl Hd] Ho He Hpos Hne Hdiff Hr. split; cbn; auto.
  - intros a. destruct (Hx a) as (?&?&?). auto.
  - intros q. specialize (Hp q). destruct (decide (q = p)) as [->|Hqp].
    + rewrite lookup_insert_eq. rewrite Ho in Hp. rewrite He.
      destruct Hp as (?&?&?&?). split_and!; [lia..|done|done].
    + rewrite lookup_insert_ne by done. rewrite Hne by done. done.
  - intros c q. change (pipeline_of _ c) with (pipeline_of w c). rewrite <- Hl.
    unfold entries_of. cbn. destruct (decide (q = p)) as [->|Hqp].
    + by rewrite lookup_insert_eq, Ho, He.
    + by rewrite lookup_insert_ne.
Qed.

Lemma KInv_pipeline_delete xp xc xn w p o :
  KInv xp xc xn w → pipelines w !! p = Some o → pipeline_refcount o = 1 → 0 < xp p →
  KInv (dec xp p) xc xn (set_pipelines (delete p (pipelines w)) w).
Proof.
  intros [Hx Hp Hc Hn Hl Hd] Ho Hr Hxp. pose proof (Hp p) as Hpo. rewrite Ho in Hpo.
  destruct Hpo as (Hpo & _ & _ & _). pose proof (one_range (p ∈ ks_pipelines_list w)).
  assert (He : entries o = []).
  { destruct (entries o); [done|]. cbn in Hpo. lia. }
  assert (Hnl : p ∉ ks_pipelines_list w).
  { intros Hin. rewrite bool_decide_true in Hpo by done. cbn in Hpo. lia. }
  split; cbn; auto.
  - intros a. destruct (Hx a) as (?&?&?). split_and!; auto. apply dec_nonneg; [|done].
    intros b. apply Hx.
  - intros q. specialize (Hp q). destruct (decide (q = p)) as [->|Hqp].
    + rewrite lookup_delete_eq, dec_eq. split; [|done].
      rewrite bool_decide_false, He in Hpo by done. cbn in Hpo. lia.
    + rewrite lookup_delete_ne by done. by rewrite dec_ne.
  - intros c q. change (pipeline_of _ c) with (pipeline_of w c). rewrite <- Hl.
    unfold entries_of. cbn. destruct (decide (q = p)) as [->|Hqp].
    + by rewrite lookup_delete_eq, Ho, He.
    + by rewrite lookup_delete_ne.
Qed.

Lemma pipeline_held xp xc xn w p :
  KInv xp xc xn w → 0 < xp p + one (p ∈ ks_pipelines_list w) →
  ∃ o, pipelines w !! p = Some o.
Proof.
  intros Hw Hp. pose proof (kinv_p _ _ _ _ Hw p) as Hi.
  destruct (pipelines w !! p) as [o|]; [by exists o|]. destruct Hi as [Hi Hn].
  rewrite bool_decide_false in Hp by done. cbn in Hp. lia.
Qed.

Lemma ks_pipeline_get_spec xp xc xn w p o :
  KInv xp xc xn w → pipelines w !! p = Some o →
  wp (ks_pipeline_get p) (λ _ w', KInv (inc xp p) xc xn w' ∧
    w' = set_pipelines (<[p := set_pipeline_refcount (pipeline_refcount o + 1) o]> (pipelines w)) w) w.
Proof.
  intros Hw Ho. unfold ks_pipeline_get, upd_pipeline, the_pipeline, access, put_pipeline.
  unfold wp, mbind, M_bind, get, modify, mret, M_ret. cbn. rewrite Ho. cbn. split; [|done].
  eapply KInv_pipeline; [done|done|done| | | |]; cbn.
  - intros a. pose proof (inc_ge xp p a). destruct (kinv_x _ _ _ _ Hw a). lia.
  - intros a Ha. by apply inc_ne.
  - rewrite inc_eq. lia.
  - pose proof (kinv_p _ _ _ _ Hw p) as Hp. rewrite Ho in Hp. lia.
Qed.

(** A pipeline survives a put if it is in the list or the code holds more references. *)
Lemma ks_pipeline_put_spec xp xc xn w p :
  KInv xp xc xn w → 0 < xp p →
  wp (ks_pipeline_put p) (λ _ w', KInv (dec xp p) xc xn w' ∧
    w' = set_pipelines (pipelines w') w ∧
    (∀ q, q ≠ p → pipelines w' !! q = pipelines w !! q) ∧
    (1 < xp p + one (p ∈ ks_pipelines_list w) → ∃ o,
       pipelines w !! p = Some o ∧
       pipelines w' !! p = Some (set_pipeline_refcount (pipeline_refcount o - 1) o))) w.
Proof.
  intros Hw Hxp. pose proof (kinv_p _ _ _ _ Hw p) as Hp.
  destruct (pipelines w !! p) as [o|] eqn:Ho; [|lia].
  unfold ks_pipeline_put, the_pipeline, access, put_pipeline.
  unfold wp, mbind, M_bind, get, modify, mret, M_ret. cbn. rewrite Ho.
  destruct (Z.eqb_spec (pipeline_refcount o) 1); cbn; split_and!; try by destruct w.
  - by eapply KInv_pipeline_delete.
  - intros q Hq. by rewrite lookup_delete_ne.
  - intros Hm. lia.
  - eapply KInv_pipeline; [done|done|done| | | |]; cbn.
    + intros a. apply dec_nonneg; [|done]. intros b. apply (kinv_x _ _ _ _ Hw).
    + intros a Ha. by apply dec_ne.
    + rewrite dec_eq. lia.
    + lia.
  - intros q Hq. by rewrite lookup_insert_ne.
  - intros _. exists o. by rewrite lookup_insert_eq.
Qed.

(** ** Linking a channel and a pipeline: the references the code holds on each other's
    behalf become those of the structures, and the other way round. *)

Lemma length_filter_out (c : addr) (l : list addr) :
  NoDup l → c ∈ l → S (length (filter (.≠ c) l)) = length l.
Proof.
  induction 1 as [|x l Hx Hl IH]; intros Hc; [by apply elem_of_nil in Hc|].
  rewrite filter_cons. apply elem_of_cons in Hc as [->|Hc].
  - rewrite decide_False by naive_solver. f_equal. clear IH Hl.
    induction l as [|y l IH]; [done|]. rewrite not_elem_of_cons in Hx.
    rewrite filter_cons, decide_True by naive_solver. cbn. f_equal. apply IH. tauto.
  - rewrite decide_True by (intros ->; done). cbn. by rewrite IH.
Qed.

Lemma KInv_unlink xp xc xn w p o c co :
  KInv xp xc xn w → pipelines w !! p = Some o → chans w !! c = Some co → c ∈ entries o →
  KInv (inc xp p) (inc xc c) xn
    (set_pipelines (<[p := set_entries (filter (.≠ c) (entries o)) o]> (pipelines w))
      (set_chans (<[c := set_chan_pipeline None co]> (chans w)) w)).
Proof.
  intros [Hx Hp Hc Hn Hl Hd] Ho Hco Hin.
  assert (Hlink : chan_pipeline co = Some p).
  { pose proof (Hl c p) as [L _]. unfold pipeline_of, entries_of in L.
    rewrite Ho, Hco in L. by apply L. }
  pose proof (Hp p) as Hpo. rewrite Ho in Hpo. destruct Hpo as (Hpo & Hpos & Hnd & Hpn).
  split; cbn; auto.
  - intros a. pose proof (inc_ge xp p a). pose proof (inc_ge xc c a).
    destruct (Hx a) as (?&?&?). lia.
  - intros q. specialize (Hp q). destruct (decide (q = p)) as [->|Hqp].
    + rewrite lookup_insert_eq, inc_eq. cbn.
      pose proof (length_filter_out c (entries o) Hnd Hin). split_and!; [lia..| |done].
      by apply NoDup_filter.
    + rewrite lookup_insert_ne by done. by rewrite inc_ne.
  - intros d. specialize (Hc d). destruct (decide (d = c)) as [->|Hdc].
    + rewrite lookup_insert_eq, inc_eq. rewrite Hco in Hc. cbn.
      rewrite Hlink in Hc. destruct Hc as (Hc&?&?). split_and!; [|lia..].
      cbn in *. lia.
    + rewrite lookup_insert_ne by done. by rewrite inc_ne.
  - intros n. rewrite (uses_update n c co) by done. apply Hn.
  - intros d q. unfold entries_of, pipeline_of. cbn. specialize (Hl d q).
    unfold entries_of, pipeline_of in Hl.
    destruct (decide (q = p)) as [->|Hqp].
    + rewrite lookup_insert_eq. cbn. rewrite list_elem_of_filter.
      rewrite Ho in Hl. rewrite Hl. destruct (decide (d = c)) as [->|Hdc].
      * rewrite lookup_insert_eq. cbn. split; [tauto|done].
      * rewrite lookup_insert_ne by done. tauto.
    + rewrite lookup_insert_ne by done. rewrite Hl.
      destruct (decide (d = c)) as [->|Hdc]; [|by rewrite lookup_insert_ne by done].
      rewrite lookup_insert_eq, Hco. cbn. rewrite Hlink. naive_solver.
Qed.

Lemma KInv_link xp xc xn w p o c co :
  KInv xp xc xn w → pipelines w !! p = Some o → chans w !! c = Some co →
  chan_pipeline co = None → 0 < xp p → 0 < xc c →
  KInv (dec xp p) (dec xc c) xn
    (set_pipelines (<[p := set_entries (entries o ++ [c]) o]> (pipelines w))
      (set_chans (<[c := set_chan_pipeline (Some p) co]> (chans w)) w)).
Proof.
  intros [Hx Hp Hc Hn Hl Hd] Ho Hco Hfree Hxp Hxc.
  assert (Hnin : ∀ q, c ∉ entries_of w q).
  { intros q Hin. apply Hl in Hin. unfold pipeline_of in Hin. rewrite Hco in Hin.
    cbn in Hin. congruence. }
  pose proof (Hp p) as Hpo. rewrite Ho in Hpo. destruct Hpo as (Hpo & Hpos & Hnd & Hpn).
  pose proof (Hnin p) as Hnp. unfold entries_of in Hnp. rewrite Ho in Hnp.
  split; cbn; auto.
  - intros a. destruct (Hx a) as (?&?&?). split_and!; [| |done].
    + apply dec_nonneg; [|done]. intros b; apply Hx.
    + apply dec_nonneg; [|done]. intros b; apply Hx.
  - intros q. specialize (Hp q). destruct (decide (q = p)) as [->|Hqp].
    + rewrite lookup_insert_eq, dec_eq. cbn. rewrite length_app. cbn.
      split_and!; [lia..| |done]. apply NoDup_app. split_and!; [done| |].
      * intros x Hxin Hx1. apply list_elem_of_singleton in Hx1. by subst.
      * apply NoDup_singleton.
    + rewrite lookup_insert_ne by done. by rewrite dec_ne.
  - intros d. specialize (Hc d). destruct (decide (d = c)) as [->|Hdc].
    + rewrite lookup_insert_eq, dec_eq. rewrite Hco in Hc. cbn.
      rewrite Hfree in Hc. destruct Hc as (Hc&?&?). split_and!; [|lia..].
      cbn in *. lia.
    + rewrite lookup_insert_ne by done. by rewrite dec_ne.
  - intros n. rewrite (uses_update n c co) by done. apply Hn.
  - intros d q. unfold entries_of, pipeline_of. cbn. specialize (Hl d q).
    specialize (Hnin q). unfold entries_of, pipeline_of in Hl, Hnin.
    destruct (decide (q = p)) as [->|Hqp].
    + rewrite lookup_insert_eq. cbn. rewrite elem_of_app, list_elem_of_singleton.
      rewrite Ho in Hl. rewrite Hl. destruct (decide (d = c)) as [->|Hdc].
      * rewrite lookup_insert_eq. cbn. split; [done|tauto].
      * rewrite lookup_insert_ne by done. tauto.
    + rewrite lookup_insert_ne by done. rewrite Hl.
      destruct (decide (d = c)) as [->|Hdc]; [|by rewrite lookup_insert_ne by done].
      rewrite lookup_insert_eq, Hco. cbn. rewrite Hfree. naive_solver.
Qed.

(** ** Registration: the reference of the list *)

Lemma KInv_pipelines_list xp xp' xc xn w p l :
  KInv xp xc xn w → NoDup l → (∀ q, q ≠ p → (q ∈ l ↔ q ∈ ks_pipelines_list w)) →
  (∀ a, 0 ≤ xp' a) → (∀ a, a ≠ p → xp' a = xp a) → is_Some (pipelines w !! p) →
  xp' p + one (p ∈ l) = xp p + one (p ∈ ks_pipelines_list w) →
  KInv xp' xc xn (set_ks_pipelines_list l w).
Proof.
  intros [Hx Hp Hc Hn Hl Hd] Hnd Hq Hpos Hne [o Ho] Heq. split; cbn; auto.
  - intros a. destruct (Hx a) as (?&?&?). auto.
  - intros q. specialize (Hp q). destruct (decide (q = p)) as [->|Hqp].
    + rewrite Ho in *. destruct Hp as (?&?&?&?). split_and!; [lia|done..].
    + rewrite Hne by done. specialize (Hq q Hqp). destruct (pipelines w !! q).
      * destruct Hp as (Hp&?&?&?). split_and!; [|done..]. rewrite Hp. do 2 f_equal.
        by apply bool_decide_ext.
      * rewrite Hq. done.
  - tauto.
Qed.
