(* ===== verification/KsStatus.v ===== *)
(** * The state machine of a pipeline

    [ks_pipeline_change_status] meets no fault, keeps the references between the objects
    right, and ends in the state it was asked for or, where a driver refused, in one on
    the way there.  A pipeline that has gone back to NULL has no channels. *)

From stdpp Require Import base list gmap.
From Stdlib Require Import ZArith Lia.
From S2P Require Import Prelude.
From S2P Require Import Bits.
From S2P Require Import KsProto.
From S2P Require Import KsKernel.
From S2P Require Import KsPipeline.
From S2P Require Import KsTopology.
From S2P Require Import KsInv.
Local Open Scope Z_scope.

(** the code or the list holds the pipeline *)
Definition held (xp : addr → Z) (w : ks_world) (p : addr) : Prop :=
  0 < xp p + one (p ∈ ks_pipelines_list w).

(** [w'] is [w] after calls of drivers *)
Definition calls_only (w w' : ks_world) : Prop := ∃ l, w' = set_calls l w.

Lemma calls_only_refl w : calls_only w w.
Proof. exists (calls w). by destruct w. Qed.
Lemma calls_only_intro l w : calls_only w (set_calls l w).
Proof. by exists l. Qed.
Lemma calls_only_trans w1 w2 w3 : calls_only w1 w2 → calls_only w2 w3 → calls_only w1 w3.
Proof. intros [l1 ->] [l2 ->]. by exists l2. Qed.
Lemma calls_only_obj w w' : calls_only w w' → obj_eq w w'.
Proof. intros [l ->]. by split_and!. Qed.

(** the channels of [l] exist, and their nodes *)
Definition chans_ok (w : ks_world) (l : list addr) : Prop :=
  ∀ c, c ∈ l → ∃ o, chans w !! c = Some o ∧ is_Some (nodes w !! chan_from o) ∧
                    is_Some (nodes w !! chan_to o).

Lemma chans_ok_calls w w' l : calls_only w w' → chans_ok w l → chans_ok w' l.
Proof. intros [k ->]. done. Qed.

Lemma KInv_node_used xp xc xn w n c o :
  KInv xp xc xn w → chans w !! c = Some o → 1 ≤ uses_by n o → is_Some (nodes w !! n).
Proof.
  intros Hw Ho Hu. pose proof (kinv_n _ _ _ _ Hw n) as Hn.
  destruct (nodes w !! n); [by eexists|]. destruct Hn as (_ & _ & Hn).
  rewrite (uses_delete n c o) in Hn by done.
  pose proof (uses_nonneg n (delete c (chans w))). lia.
Qed.

Lemma KInv_chans_ok xp xc xn w p o :
  KInv xp xc xn w → pipelines w !! p = Some o → chans_ok w (entries o).
Proof.
  intros Hw Ho c Hc. destruct (kinv_link _ _ _ _ Hw c p) as [L _].
  unfold entries_of, pipeline_of in L. rewrite Ho in L. specialize (L Hc).
  destruct (chans w !! c) as [co|] eqn:Hco; [|done]. exists co. split_and!; [done|..].
  - eapply KInv_node_used; [done|done|apply uses_by_from].
  - eapply KInv_node_used; [done|done|apply uses_by_to].
Qed.

(** ** Single computations *)

Section wp.
Context `{KsEnv}.

Lemma wp_the_chan c o Q w : chans w !! c = Some o → Q o w → wp (the_chan c) Q w.
Proof. intros Ho HQ. unfold wp, the_chan, access, mbind, M_bind, get. cbn. by rewrite Ho. Qed.
Lemma wp_the_pipeline p o Q w : pipelines w !! p = Some o → Q o w → wp (the_pipeline p) Q w.
Proof. intros Ho HQ. unfold wp, the_pipeline, access, mbind, M_bind, get. cbn. by rewrite Ho. Qed.

Lemma wp_node_call op n l1 l2 w :
  is_Some (nodes w !! n) → wp (node_call op n l1 l2) (λ _, calls_only w) w.
Proof.
  intros [o Ho]. unfold node_call, the_node, access, call, wp, mbind, M_bind, get. cbn.
  rewrite Ho. cbn. destruct (node_ops o op); [apply calls_only_intro|apply calls_only_refl].
Qed.
Lemma wp_chan_call op c w :
  is_Some (chans w !! c) → wp (chan_call op c) (λ _, calls_only w) w.
Proof.
  intros [o Ho]. unfold chan_call, the_chan, access, call, wp, mbind, M_bind, get. cbn.
  rewrite Ho. cbn. destruct (chan_ops o op); [apply calls_only_intro|apply calls_only_refl].
Qed.

Lemma wp_bind_calls {A B} (m : K A) (k : A → K B) Q w :
  wp m (λ _, calls_only w) w → (∀ a w1, calls_only w w1 → wp (k a) Q w1) →
  wp (m ≫= k) Q w.
Proof. intros Hm Hk. apply wp_bind. eapply wp_mono; [exact Hm|]. intros a w1. apply Hk. Qed.

(** [prev] is the channel before the loop or one the loop has passed *)
Definition passed (l : list addr) (prev prev' : option addr) : Prop :=
  prev' = prev ∨ ∃ c, c ∈ l ∧ prev' = Some c.

Lemma passed_cons c l prev prev' : passed l (Some c) prev' → passed (c :: l) prev prev'.
Proof.
  intros [->|(d & Hd & ->)]; right; [exists c|exists d]; (split; [|done]);
    apply elem_of_cons; auto.
Qed.

Lemma wp_undo_chans op s l prev w :
  chans_ok w l →
  wp (undo_chans op s l prev) (λ r w', calls_only w w' ∧ passed l prev r.2) w.
Proof.
  revert prev w. induction l as [|c l IH]; intros prev w Hok; cbn [undo_chans].
  { apply wp_ret. split; [apply calls_only_refl|by left]. }
  destruct (decide _); [apply wp_ret; split; [apply calls_only_refl|by left]|].
  destruct (Hok c) as (o & Ho & Hf & _); [by left|].
  apply wp_bind_calls; [apply wp_chan_call; eauto|]. intros ? w1 H1.
  apply wp_bind. apply (wp_the_chan _ o); [by destruct H1 as [? ->]|].
  apply wp_bind_calls; [apply wp_node_call; by destruct H1 as [? ->]|].
  intros ? w2 H2. pose proof (calls_only_trans _ _ _ H1 H2) as H3.
  eapply wp_mono; [apply IH; eapply chans_ok_calls; [done|]|].
  { intros d Hd. apply Hok. by right. }
  intros r w3 [H4 Hr]. split; [by eapply calls_only_trans|by apply passed_cons].
Qed.

Lemma wp_last_node op p l prev w :
  chans_ok w l → passed l None prev →
  wp (do_last_node op p prev) (λ _, calls_only w) w.
Proof.
  intros Hok [->|(c & Hc & ->)]; cbn [do_last_node].
  { apply wp_ret, calls_only_refl. }
  destruct (Hok c Hc) as (o & Ho & _ & Ht).
  apply wp_bind, (wp_the_chan _ o); [done|]. 
  apply wp_bind_calls; [by apply wp_node_call|]. intros ? w1 H1. by apply wp_ret.
Qed.

Lemma wp_undo_pipeline op p s w o :
  pipelines w !! p = Some o → chans_ok w (entries o) →
  wp (undo_pipeline op p s) (λ _, calls_only w) w.
Proof.
  intros Ho Hok. unfold undo_pipeline. apply wp_bind, (wp_the_pipeline _ o); [done|].
  apply wp_bind. eapply wp_mono; [by apply wp_undo_chans|].
  intros [stopped prev] w1 [H1 Hp]. cbn in Hp.
  destruct stopped; [by apply wp_ret|].
  eapply wp_mono; [apply (wp_last_node op p (entries o) prev); [|done]|].
  { by eapply chans_ok_calls. }
  intros ? w2 H2. by eapply calls_only_trans.
Qed.

Lemma wp_do_chans op u l prev w :
  chans_ok w l →
  wp (do_chans op u l prev) (λ r w', calls_only w w' ∧ passed l prev r.2) w.
Proof.
  revert prev w. induction l as [|c l IH]; intros prev w Hok; cbn [do_chans].
  { apply wp_ret. split; [apply calls_only_refl|by left]. }
  destruct (Hok c) as (o & Ho & Hf & _); [by left|].
  apply wp_bind, (wp_the_chan _ o); [done|].
  apply wp_bind_calls; [by apply wp_node_call|]. intros e1 w1 H1.
  destruct (e1 <? 0); [apply wp_ret; split; [done|by left]|].
  apply wp_bind_calls; [apply wp_chan_call; destruct H1 as [? ->]; by eexists|].
  intros e2 w2 H2. pose proof (calls_only_trans _ _ _ H1 H2) as H3.
  destruct (e2 <? 0).
  - apply wp_bind_calls; [apply wp_node_call; by destruct H3 as [? ->]|].
    intros ? w3 H4. apply wp_ret. split; [by eapply calls_only_trans|by left].
  - eapply wp_mono; [apply IH; eapply chans_ok_calls; [done|]|].
    { intros d Hd. apply Hok. by right. }
    intros r w3 [H4 Hr]. split; [by eapply calls_only_trans|by apply passed_cons].
Qed.

(** ** Unlinking *)

Lemma wp_unlink_chans p o l xp xc xn w :
  KInv xp xc xn w → pipelines w !! p = Some o → entries o = l → held xp w p →
  wp (unlink_chans p l) (λ _ w', KInv xp xc xn w' ∧
    ks_pipelines_list w' = ks_pipelines_list w ∧
    (∃ r, pipelines w' !! p = Some (set_entries [] (set_pipeline_refcount r o)))) w.
Proof.
  revert o w. induction l as [|c l IH]; intros o w Hw Ho Hl Hh; cbn [unlink_chans].
  { apply wp_ret. split_and!; [done|done|]. exists (pipeline_refcount o).
    rewrite Ho. f_equal. destruct o; cbn in *. by subst. }
  destruct (KInv_chans_ok _ _ _ _ _ _ Hw Ho c) as (co & Hco & _); [rewrite Hl; by left|].
  assert (Hin : c ∈ entries o) by (rewrite Hl; by left).
  assert (Hlink : chan_pipeline co = Some p).
  { pose proof (kinv_link _ _ _ _ Hw c p) as [L _]. unfold pipeline_of, entries_of in L.
    rewrite Ho, Hco in L. by apply L. }
  pose proof (KInv_unlink _ _ _ _ _ _ _ _ Hw Ho Hco Hin) as Hw1.
  set (w1 := set_pipelines _ _) in Hw1.
  assert (Hnd : NoDup (entries o)).
  { pose proof (kinv_p _ _ _ _ Hw p) as Hp. rewrite Ho in Hp. tauto. }
  assert (Hf : filter (.≠ c) (entries o) = l).
  { rewrite Hl in *. apply NoDup_cons in Hnd as [Hn _]. rewrite filter_cons.
    rewrite decide_False by naive_solver. clear -Hn. induction l as [|y l IH]; [done|].
    rewrite not_elem_of_cons in Hn. rewrite filter_cons, decide_True by naive_solver.
    f_equal. apply IH. tauto. }
  apply wp_bind, (wp_the_chan _ co); [done|]. unfold put_chan, modify. apply wp_bind. cbn.
  unfold wp at 1. cbn. apply wp_bind, (wp_the_pipeline _ o); [done|].
  apply wp_bind. unfold list_del. rewrite decide_True by done. unfold wp at 1, lift.
  unfold put_pipeline, modify. apply wp_bind. unfold wp at 1. cbn.
  apply wp_bind. change (wp (ks_chan_put c) ?Q _) with (wp (ks_chan_put c) Q w1).
  assert (Hxc1 : 0 < inc xc c c).
  { rewrite inc_eq. destruct (kinv_x _ _ _ _ Hw c) as (_&?&_). lia. }
  eapply wp_mono; [apply (ks_chan_put_spec _ _ _ _ _ Hw1 Hxc1)|].
  intros ? w2 [Hw2 [E2 _]]. apply wp_bind. rewrite Hlink. cbn [ks_pipeline_put_opt].
  assert (Hxp2 : 0 < inc xp p p).
  { rewrite inc_eq. destruct (kinv_x _ _ _ _ Hw p) as (?&_&_). lia. }
  eapply wp_mono; [apply (ks_pipeline_put_spec _ _ _ _ _ Hw2 Hxp2)|].
  intros ? w3 (Hw3 & E3 & _ & Hk).
  assert (Lp : ks_pipelines_list w2 = ks_pipelines_list w) by (rewrite E2; done).
  destruct Hk as (o2 & Ho2 & Ho3).
  { rewrite inc_eq, Lp. unfold held in Hh. lia. }
  assert (Ho1 : pipelines w2 !! p = Some (set_entries l o)).
  { rewrite E2. cbn. rewrite lookup_insert_eq. by rewrite Hf. }
  rewrite Ho1 in Ho2. injection Ho2 as <-.
  assert (Hw3' : KInv xp xc xn w3).
  { eapply KInv_ext; [| | |exact Hw3]; intros b; try done; apply dec_inc. }
  assert (Lp3 : ks_pipelines_list w3 = ks_pipelines_list w) by (rewrite E3; done).
  eapply wp_mono; [apply (IH _ w3 Hw3' Ho3)|].
  - done.
  - unfold held. by rewrite Lp3.
  - intros ? w4 (Hw4 & E4 & r & Ho4). split_and!; [done|by rewrite E4|].
    exists r. rewrite Ho4. by destruct o.
Qed.
(** ** The steps *)

Section steps.
Context (xp xc xn : addr → Z) (w0 : ks_world) (p : addr).
Context (Hheld : held xp w0 p).

(** the pipeline exists, in a world with the invariant and the list of [w0] *)
Definition is_there (w : ks_world) : Prop :=
  KInv xp xc xn w ∧ ks_pipelines_list w = ks_pipelines_list w0 ∧
  is_Some (pipelines w !! p).

(** and it has the status [s]; in NULL it has no channels *)
Definition at_status (s : ks_pipeline_status) (w : ks_world) : Prop :=
  KInv xp xc xn w ∧ ks_pipelines_list w = ks_pipelines_list w0 ∧
  ∃ o, pipelines w !! p = Some o ∧ pipeline_status o = s ∧
       (s = KS_PIPELINE_STATUS_NULL → entries o = []).

Lemma at_is_there s w : at_status s w → is_there w.
Proof. intros (?&?&o&?&_). split_and!; [done|done|by exists o]. Qed.

Lemma is_there_calls w w' : calls_only w w' → is_there w → is_there w'.
Proof.
  intros Hc (Hw & Hl & Ho). destruct Hc as [l ->]. split_and!; [|done|done].
  eapply KInv_obj_eq; [|done]. by split_and!.
Qed.

Lemma is_there_update f w o :
  is_there w → pipelines w !! p = Some o → entries (f o) = entries o →
  pipeline_refcount (f o) = pipeline_refcount o →
  is_there (set_pipelines (<[p := f o]> (pipelines w)) w).
Proof.
  intros (Hw & Hl & _) Ho He Hr. split_and!; [|done|].
  - eapply (KInv_pipeline xp xp); [done|done|done| |done| |].
    + intros a. apply (kinv_x _ _ _ _ Hw).
    + rewrite Hr. lia.
    + rewrite Hr. pose proof (kinv_p _ _ _ _ Hw p) as Hp. rewrite Ho in Hp. lia.
  - cbn. rewrite lookup_insert_eq. by eexists.
Qed.

Lemma wp_upd_pipeline f w o Q :
  pipelines w !! p = Some o →
  Q tt (set_pipelines (<[p := f o]> (pipelines w)) w) → wp (upd_pipeline p f) Q w.
Proof.
  intros Ho HQ. unfold upd_pipeline. apply wp_bind, (wp_the_pipeline _ o); [done|]. exact HQ.
Qed.

Lemma wp_set_status s w :
  is_there w →
  (s = KS_PIPELINE_STATUS_NULL → entries_of w p = []) →
  wp (ks_pipeline_set_status p s) (λ _, at_status s) w.
Proof.
  intros Hw Hs. pose proof Hw as (_ & _ & o & Ho). unfold ks_pipeline_set_status.
  apply (wp_upd_pipeline _ _ o); [done|].
  destruct (is_there_update (set_pipeline_status s) w o Hw Ho) as (Hw' & Hl & _); [done..|].
  split_and!; [done|done|]. eexists. cbn. rewrite lookup_insert_eq. split_and!; [done|done|].
  cbn. unfold entries_of in Hs. by rewrite Ho in Hs.
Qed.

Lemma wp_undo op s w :
  is_there w → wp (undo_pipeline op p s) (λ _ w', is_there w' ∧ calls_only w w') w.
Proof.
  intros Hw. pose proof Hw as (Hi & _ & o & Ho).
  eapply wp_mono; [apply (wp_undo_pipeline _ _ _ _ o Ho); by eapply KInv_chans_ok|].
  intros a w' Hc. split; [exact (is_there_calls _ _ Hc Hw)|exact Hc].
Qed.

Lemma wp_down op s stop w :
  is_there w → s ≠ KS_PIPELINE_STATUS_NULL →
  wp (undo_pipeline op p stop;; ks_pipeline_set_status p s) (λ _, at_status s) w.
Proof.
  intros Hw Hs. apply wp_bind. eapply wp_mono; [apply wp_undo; exact Hw|].
  intros a w1 [Hw1 _]. apply wp_set_status; [done|congruence].
Qed.

Lemma wp_open_to_connected stop w :
  is_there w →
  wp (ks_pipeline_open_to_connected p stop) (λ _, at_status KS_PIPELINE_STATUS_CONNECTED) w.
Proof. intros Hw. by apply wp_down. Qed.
Lemma wp_flowing_to_open stop w :
  is_there w →
  wp (ks_pipeline_flowing_to_open p stop) (λ _, at_status KS_PIPELINE_STATUS_OPEN) w.
Proof. intros Hw. by apply wp_down. Qed.

Lemma wp_unlink_all w :
  is_there w → wp (unlink_all p) (λ _ w', is_there w' ∧ entries_of w' p = []) w.
Proof.
  intros Hw. pose proof Hw as (Hi & Hl & o & Ho). unfold unlink_all.
  apply wp_bind, (wp_the_pipeline _ o); [done|].
  eapply wp_mono; [apply (wp_unlink_chans _ o _ _ _ _ _ Hi Ho); [done|]|].
  { unfold held. by rewrite Hl. }
  intros ? w1 (Hi1 & Hl1 & r & Ho1). split; [|by unfold entries_of; rewrite Ho1].
  split_and!; [done|congruence|by eexists].
Qed.

Lemma wp_connected_to_null stop w :
  is_there w →
  wp (ks_pipeline_connected_to_null p stop) (λ _, at_status KS_PIPELINE_STATUS_NULL) w.
Proof.
  intros Hw. apply wp_bind. eapply wp_mono; [by apply wp_undo|]. intros ? w1 [Hw1 _].
  apply wp_bind. eapply wp_mono; [by apply wp_unlink_all|]. intros ? w2 [Hw2 He].
  by apply wp_set_status.
Qed.

(** a step forward: in [s'], or back in [s] where a driver refuses *)
Lemma wp_up op u s s' (down : option addr → K unit) w o :
  is_there w → pipelines w !! p = Some o →
  (∀ stop w, is_there w → wp (down stop) (λ _, at_status s) w) →
  s' ≠ KS_PIPELINE_STATUS_NULL →
  wp ('(err, prev_chan) ← do_chans op u (entries o) None;
      if err <? 0 then down prev_chan;; mret err
      else do_last_node op p prev_chan;; ks_pipeline_set_status p s';; mret 0)
    (λ err w', err = 0 ∧ at_status s' w' ∨ err < 0 ∧ at_status s w') w.
Proof.
  intros Hw Ho Hdown Hs'. pose proof Hw as (Hi & _ & _).
  pose proof (KInv_chans_ok _ _ _ _ _ _ Hi Ho) as Hok.
  apply wp_bind. eapply wp_mono; [by apply wp_do_chans|].
  intros [err prev] w1 [H1 Hp]. cbn in Hp. pose proof (is_there_calls _ _ H1 Hw) as Hw1.
  destruct (Z.ltb_spec err 0).
  - apply wp_bind. eapply wp_mono; [by apply Hdown|]. intros ? w2 Hw2. apply wp_ret. by right.
  - apply wp_bind_calls; [eapply wp_last_node; [|done]; by eapply chans_ok_calls|].
    intros ? w2 H2. cbn in H2. apply wp_bind. eapply wp_mono; [apply wp_set_status|].
    + exact (is_there_calls _ _ H2 Hw1).
    + congruence.
    + intros ? w3 Hw3. apply wp_ret. by left.
Qed.

Lemma wp_null_to_connected w :
  is_there w →
  wp (ks_pipeline_null_to_connected p)
    (λ err w', err = 0 ∧ at_status KS_PIPELINE_STATUS_CONNECTED w' ∨
               err < 0 ∧ at_status KS_PIPELINE_STATUS_NULL w') w.
Proof.
  intros Hw. pose proof Hw as (_ & _ & o & Ho). unfold ks_pipeline_null_to_connected.
  apply wp_bind, (wp_the_pipeline _ o); [done|].
  apply (wp_up op_connect op_disconnect KS_PIPELINE_STATUS_NULL); try done.
  apply wp_connected_to_null.
Qed.

Lemma wp_min_mtu l m w : chans_ok w l → wp (min_mtu l m) (λ _ w', w' = w) w.
Proof.
  revert m. induction l as [|c l IH]; intros m Hok; cbn [min_mtu]; [by apply wp_ret|].
  destruct (Hok c) as (o & Ho & _); [by left|]. apply wp_bind, (wp_the_chan _ o); [done|].
  apply IH. intros d Hd. apply Hok. by right.
Qed.

Lemma wp_connected_to_open w :
  is_there w →
  wp (ks_pipeline_connected_to_open p)
    (λ err w', err = 0 ∧ at_status KS_PIPELINE_STATUS_OPEN w' ∨
               err < 0 ∧ at_status KS_PIPELINE_STATUS_CONNECTED w') w.
Proof.
  intros Hw. pose proof Hw as (Hi & _ & o & Ho). unfold ks_pipeline_connected_to_open.
  apply wp_bind. unfold ks_pipeline_negotiate_mtu.
  apply wp_bind, (wp_the_pipeline _ o); [done|].
  eapply wp_mono; [apply wp_min_mtu; by eapply KInv_chans_ok|]. intros mtu ? ->.
  apply wp_bind. apply (wp_upd_pipeline _ _ o); [done|].
  pose proof (is_there_update (set_pipeline_mtu mtu) w o Hw Ho eq_refl eq_refl) as Hw1.
  pose proof Hw1 as (_ & _ & o1 & Ho1).
  apply wp_bind, (wp_the_pipeline _ o1); [done|].
  apply (wp_up op_open op_close KS_PIPELINE_STATUS_CONNECTED); try done.
  apply wp_open_to_connected.
Qed.

Lemma wp_open_to_flowing w :
  is_there w →
  wp (ks_pipeline_open_to_flowing p)
    (λ err w', err = 0 ∧ at_status KS_PIPELINE_STATUS_FLOWING w' ∨
               err < 0 ∧ at_status KS_PIPELINE_STATUS_OPEN w') w.
Proof.
  intros Hw. pose proof Hw as (_ & _ & o & Ho). unfold ks_pipeline_open_to_flowing.
  apply wp_bind, (wp_the_pipeline _ o); [done|].
  apply (wp_up op_start op_stop KS_PIPELINE_STATUS_OPEN); try done.
  apply wp_flowing_to_open.
Qed.
End steps.

(** how far a status is *)
Definition rank (s : ks_pipeline_status) : Z := status_to_u32 s.

Definition proper (s : ks_pipeline_status) : Prop :=
  match s with KS_PIPELINE_STATUS_other _ => False | _ => True end.

(** what [ks_pipeline_change_status] from [s] to [s'] promises *)
Definition changed xp xc xn w0 p s s' (err : Z) (w : ks_world) : Prop :=
  KInv xp xc xn w ∧ ks_pipelines_list w = ks_pipelines_list w0 ∧
  ∃ o, pipelines w !! p = Some o ∧
    (err = 0 ∧ pipeline_status o = s' ∨
     err < 0 ∧ rank s ≤ rank (pipeline_status o) < rank s') ∧
    (pipeline_status o = KS_PIPELINE_STATUS_NULL → s ≠ s' → entries o = []).

Lemma wp_and_then m k Q w :
  wp m (λ err w', if err <? 0 then Q err w' else wp k Q w') w → wp (and_then m k) Q w.
Proof.
  intros Hm. apply wp_bind. eapply wp_mono; [exact Hm|]. intros err w' Hw'. cbn in Hw'.
  by destruct (err <? 0).
Qed.

Lemma wp_change_status xp xc xn w p o s' :
  KInv xp xc xn w → held xp w p → pipelines w !! p = Some o →
  proper (pipeline_status o) → proper s' →
  wp (ks_pipeline_change_status p s') (changed xp xc xn w p (pipeline_status o) s') w.
Proof.
  intros Hw Hh Ho Hs Hs'. set (s := pipeline_status o) in *.
  assert (Ht : is_there xp xc xn w p w) by (split_and!; [done|done|by eexists]).
  unfold ks_pipeline_change_status. apply wp_bind, (wp_the_pipeline _ o); [done|].
  fold s.
  assert (Hsame : s = s' → wp (mret 0) (changed xp xc xn w p s s') w).
  { intros E. apply wp_ret. split_and!; [done|done|]. exists o. split_and!; [done|by left|done]. }
  assert (Hok : ∀ s1 w1, at_status xp xc xn w p s1 w1 → s1 = s' → changed xp xc xn w p s s' 0 w1).
  { intros s1 w1 (?&?&o1&?&E&?) ->. split_and!; [done|done|]. exists o1.
    split_and!; [done|by left|]. intros En _. rewrite E in En. auto. }
  assert (Hko : ∀ err s1 w1, at_status xp xc xn w p s1 w1 → err < 0 →
                  rank s ≤ rank s1 < rank s' → changed xp xc xn w p s s' err w1).
  { intros err s1 w1 (?&?&o1&?&E&?) He Hr. split_and!; [done|done|]. exists o1. rewrite E.
    split_and!; [done|by right|auto]. }
  clearbody s.
  destruct s, s'; try done; try (by apply Hsame).
  - eapply wp_mono; [by apply (wp_null_to_connected xp xc xn w)|].
    intros err w1 [[-> H1]|[He H1]]; [by eapply Hok|eapply Hko; [eassumption|lia|cbn; lia]].
  - apply wp_and_then. eapply wp_mono; [by apply (wp_null_to_connected xp xc xn w)|].
    intros err w1 [[-> H1]|[He H1]]; cbn.
    + eapply wp_mono; [apply (wp_connected_to_open xp xc xn w); by eapply at_is_there|].
      intros err w2 [[-> H2]|[He H2]]; [by eapply Hok|eapply Hko; [eassumption|lia|cbn; lia]].
    + destruct (Z.ltb_spec err 0); [eapply Hko; [eassumption|lia|cbn; lia]|lia].
  - apply wp_and_then. eapply wp_mono; [by apply (wp_null_to_connected xp xc xn w)|].
    intros err w1 [[-> H1]|[He H1]]; cbn; [|destruct (Z.ltb_spec err 0); [eapply Hko; [eassumption|lia|cbn; lia]|lia]].
    apply wp_and_then.
    eapply wp_mono; [apply (wp_connected_to_open xp xc xn w); by eapply at_is_there|].
    intros err w2 [[-> H2]|[He H2]]; cbn; [|destruct (Z.ltb_spec err 0); [eapply Hko; [eassumption|lia|cbn; lia]|lia]].
    eapply wp_mono; [apply (wp_open_to_flowing xp xc xn w); by eapply at_is_there|].
    intros err w3 [[-> H3]|[He H3]]; [by eapply Hok|eapply Hko; [eassumption|lia|cbn; lia]].
  - apply wp_bind. eapply wp_mono; [by apply (wp_connected_to_null xp xc xn w)|].
    intros ? w1 H1. apply wp_ret. eapply Hok; [exact H1|done].
  - eapply wp_mono; [by apply (wp_connected_to_open xp xc xn w)|].
    intros err w1 [[-> H1]|[He H1]]; [by eapply Hok|eapply Hko; [eassumption|lia|cbn; lia]].
  - apply wp_and_then.
    eapply wp_mono; [by apply (wp_connected_to_open xp xc xn w)|].
    intros err w2 [[-> H2]|[He H2]]; cbn; [|destruct (Z.ltb_spec err 0); [eapply Hko; [eassumption|lia|cbn; lia]|lia]].
    eapply wp_mono; [apply (wp_open_to_flowing xp xc xn w); by eapply at_is_there|].
    intros err w3 [[-> H3]|[He H3]]; [by eapply Hok|eapply Hko; [eassumption|lia|cbn; lia]].
  - apply wp_bind. eapply wp_mono; [by apply (wp_open_to_connected xp xc xn w)|].
    intros ? w1 H1. cbn in H1. apply wp_bind.
    eapply wp_mono; [apply (wp_connected_to_null xp xc xn w _ Hh); by eapply at_is_there|].
    intros ? w2 H2. apply wp_ret. eapply Hok; [exact H2|done].
  - apply wp_bind. eapply wp_mono; [by apply (wp_open_to_connected xp xc xn w)|].
    intros ? w1 H1. apply wp_ret. eapply Hok; [exact H1|done].
  - eapply wp_mono; [by apply (wp_open_to_flowing xp xc xn w)|].
    intros err w3 [[-> H3]|[He H3]]; [by eapply Hok|eapply Hko; [eassumption|lia|cbn; lia]].
  - apply wp_bind. eapply wp_mono; [by apply (wp_flowing_to_open xp xc xn w)|].
    intros ? w0 H0. cbn in H0. apply wp_bind.
    eapply wp_mono; [apply (wp_open_to_connected xp xc xn w); by eapply at_is_there|].
    intros ? w1 H1. cbn in H1. apply wp_bind.
    eapply wp_mono; [apply (wp_connected_to_null xp xc xn w _ Hh); by eapply at_is_there|].
    intros ? w2 H2. apply wp_ret. eapply Hok; [exact H2|done].
  - apply wp_bind. eapply wp_mono; [by apply (wp_flowing_to_open xp xc xn w)|].
    intros ? w0 H0. cbn in H0. apply wp_bind.
    eapply wp_mono; [apply (wp_open_to_connected xp xc xn w); by eapply at_is_there|].
    intros ? w1 H1. apply wp_ret. eapply Hok; [exact H1|done].
  - apply wp_bind. eapply wp_mono; [by apply (wp_flowing_to_open xp xc xn w)|].
    intros ? w0 H0. apply wp_ret. eapply Hok; [exact H0|done].
Qed.
End wp.

(** ** The operations of the kernel keep the invariant

    Each operation on objects, command and operation of a driver keeps [KInv] whenever
    it completes: [xc] and [xn] are the references drivers hold, [xp] those of the code
    that is running. *)

Lemma wp_wlp {A} (m : K A) Q w : wp m Q w → wlp m Q w.
Proof. unfold wp, wlp. by destruct (m w). Qed.

Lemma wlp_quiet_bind {A B} (m : K A) (k : A → K B) Q w :
  quiet m → (∀ a w1, obj_eq w w1 → wlp (k a) Q w1) → wlp (m ≫= k) Q w.
Proof. intros Hm Hk. apply wlp_bind. eapply wlp_mono; [apply Hm|]. intros a w1. apply Hk. Qed.

Lemma kwlp_ret {A} (a : A) Q (w : ks_world) : Q a w → wlp (mret a) Q w.
Proof. done. Qed.

Lemma wlp_access {A} (sel : ks_world → gmap addr A) a Q w :
  (∀ o, sel w !! a = Some o → Q o w) → wlp (access sel a) Q w.
Proof.
  intros HQ. unfold wlp, access, mbind, M_bind, get. cbn.
  destruct (sel w !! a); cbn; [by apply HQ|done].
Qed.

Lemma wlp_lift {A} (o : outcome A) Q (w : ks_world) :
  (∀ a, o = Done a → Q a w) → wlp (lift o) Q w.
Proof. intros HQ. unfold wlp, lift. destruct o; [by apply HQ|done]. Qed.

Lemma obj_eq_list w w' : obj_eq w w' → ks_pipelines_list w' = ks_pipelines_list w.
Proof. by intros (_&_&_&_&_&?&_). Qed.

Section ops.
Context `{KsEnv}.

(** ** Look-ups *)

Lemma wlp_search {A} (sel : ks_world → gmap addr A) f id l w :
  wlp (search_by_id sel f id l)
    (λ r w', w' = w ∧ ∀ a, r = Some a → a ∈ l ∧ is_Some (sel w !! a)) w.
Proof.
  induction l as [|a l IH]; cbn [search_by_id]; [by apply kwlp_ret|].
  apply wlp_bind, wlp_access. intros o Ho. destruct (f o =? id).
  - apply kwlp_ret. split; [done|]. intros b [= <-]. split; [by left|by eexists].
  - eapply wlp_mono; [exact IH|]. intros r w' [-> Hr]. split; [done|].
    intros b Hb. destruct (Hr b Hb). split; [by right|done].
Qed.

(** a pipeline that was looked up: in the list, with one more reference *)
Definition got xp xc xn (w : ks_world) (r : option addr) (w' : ks_world) : Prop :=
  ks_pipelines_list w' = ks_pipelines_list w ∧
  match r with
  | Some p => KInv (inc xp p) xc xn w' ∧ p ∈ ks_pipelines_list w
  | None => KInv xp xc xn w'
  end.

Lemma wlp_pipeline_get_by_id xp xc xn w id :
  KInv xp xc xn w → wlp (ks_pipeline_get_by_id id) (got xp xc xn w) w.
Proof.
  intros Hw. unfold ks_pipeline_get_by_id, _ks_pipeline_search_by_id. apply wlp_bind.
  apply (wlp_mono _ (λ r w', w' = w ∧ ∀ a, r = Some a →
           a ∈ ks_pipelines_list w ∧ is_Some (pipelines w !! a))).
  { apply wlp_bind. unfold wlp at 1, get. apply wlp_search. }
  intros [p|] w' [-> Hr]; apply wlp_bind; [|by apply kwlp_ret, kwlp_ret].
  destruct (Hr p eq_refl) as [Hin [o Ho]].
  eapply wlp_mono; [apply wp_wlp, (ks_pipeline_get_spec _ _ _ _ _ _ Hw Ho)|].
  intros ? w1 [Hw1 ->]. by apply kwlp_ret.
Qed.

Lemma wlp_nlid attr f l w (Q : option addr → ks_world → Prop) :
  Q None w → (∀ id, wlp (f id) Q w) → wlp (nlid_loop attr f l) Q w.
Proof.
  intros Hn Hf. induction l as [|a l IH]; cbn [nlid_loop]; [by apply kwlp_ret|].
  destruct (attr_type a =? attr); [|done]. apply wlp_bind, wlp_lift. intros v _. apply Hf.
Qed.

Lemma wlp_get_by_nlid xp xc xn w nlh :
  KInv xp xc xn w → wlp (ks_pipeline_get_by_nlid nlh) (got xp xc xn w) w.
Proof.
  intros Hw. apply wlp_bind, wlp_lift. intros l _. apply wlp_nlid; [by split|].
  intros id. by apply wlp_pipeline_get_by_id.
Qed.

Lemma wlp_chan_get_by_id xp xc xn w id :
  KInv xp xc xn w →
  wlp (ks_chan_get_by_id id) (λ r w', refs_only w w' ∧
    match r with
    | Some c => KInv xp (inc xc c) xn w'
    | None => KInv xp xc xn w'
    end) w.
Proof.
  intros Hw. unfold ks_chan_get_by_id, _ks_chan_search_by_id. apply wlp_bind.
  apply (wlp_mono _ (λ r w', w' = w ∧ ∀ a, r = Some a →
           a ∈ ks_chans_list w ∧ is_Some (chans w !! a))).
  { apply wlp_bind. unfold wlp at 1, get. apply wlp_search. }
  intros [c|] w' [-> Hr]; apply wlp_bind.
  - destruct (Hr c eq_refl) as [_ Ho].
    eapply wlp_mono; [apply wp_wlp, (ks_chan_get_spec _ _ _ _ _ Hw Ho)|].
    intros ? w1 [Hw1 Hr1]. by apply kwlp_ret.
  - apply kwlp_ret, kwlp_ret. split; [|done]. split; [by destruct w|done].
Qed.

Lemma refs_only_pipelines w w' :
  refs_only w w' →
  pipelines w' = pipelines w ∧ ks_pipelines_list w' = ks_pipelines_list w.
Proof. intros [-> _]. done. Qed.

(** ** Changing the status *)

Lemma wlp_change_status xp xc xn w p s :
  KInv xp xc xn w → held xp w p →
  wlp (ks_pipeline_change_status p s) (λ _ w', is_there xp xc xn w p w') w.
Proof.
  intros Hw Hh. destruct (pipeline_held _ _ _ _ _ Hw Hh) as [o Ho].
  assert (Ht : is_there xp xc xn w p w) by (split_and!; [done|done|by eexists]).
  destruct (pipeline_status o) eqn:Es, s eqn:Es';
    try (apply wp_wlp; eapply wp_mono;
         [apply (wp_change_status _ _ _ _ _ o _ Hw Hh Ho); rewrite ?Es; exact I|];
         intros ? w' (?&?&?&?&_); split_and!; [done|done|by eexists]);
    unfold ks_pipeline_change_status; apply wlp_bind, wlp_access; intros o' Ho';
    rewrite Ho in Ho'; injection Ho' as <-; rewrite Es; by apply kwlp_ret.
Qed.

(** ** Creating a pipeline *)

Lemma KInv_new_pipeline xp xc xn w o :
  KInv xp xc xn w → pipeline_refcount o = 1 → entries o = [] →
  KInv (inc xp (next_addr w)) xc xn
    (set_pipelines (<[next_addr w := o]> (pipelines w)) (set_next_addr (S (next_addr w)) w)).
Proof.
  intros [Hx Hp Hc Hn Hl Hd] Hr He. set (a := next_addr w).
  assert (Hfresh : pipelines w !! a = None).
  { specialize (Hp a). destruct (pipelines w !! a) as [o'|]; [|done].
    destruct Hp as (_&_&_&Hp). subst a. lia. }
  pose proof (Hp a) as Ha. rewrite Hfresh in Ha. destruct Ha as [Ha Hna].
  split; cbn; auto.
  - intros b. destruct (Hx b) as (?&?&?). pose proof (inc_ge xp a b). lia.
  - intros q. specialize (Hp q). destruct (decide (q = a)) as [->|Hq].
    + rewrite lookup_insert_eq, inc_eq, bool_decide_false, He by done. cbn.
      split_and!; [lia|lia|constructor|lia].
    + rewrite lookup_insert_ne, inc_ne by done. destruct (pipelines w !! q); [|done].
      destruct Hp as (?&?&?&?). split_and!; [done..|subst a; lia].
  - intros c. specialize (Hc c). destruct (chans w !! c); [|done].
    destruct Hc as (?&?&?). split_and!; [done..|subst a; lia].
  - intros n. specialize (Hn n). destruct (nodes w !! n); [|done].
    destruct Hn as (?&?&?). split_and!; [done..|subst a; lia].
  - intros c q. change (pipeline_of _ c) with (pipeline_of w c). rewrite <- Hl.
    unfold entries_of. cbn. destruct (decide (q = a)) as [->|Hq].
    + by rewrite lookup_insert_eq, Hfresh, He.
    + by rewrite lookup_insert_ne.
Qed.

Lemma wlp_pipeline_create xp xc xn w :
  KInv xp xc xn w →
  wlp (ks_pipeline_create None) (λ r w',
    ks_pipelines_list w' = ks_pipelines_list w ∧
    match r with
    | Some p => KInv (inc xp p) xc xn w' ∧ p ∉ ks_pipelines_list w
    | None => KInv xp xc xn w'
    end) w.
Proof.
  intros Hw. unfold ks_pipeline_create. apply wlp_quiet_bind; [quiet|]. intros _ w1 E1.
  apply wlp_quiet_bind; [quiet|]. intros ok w2 E2.
  assert (Hw2 : KInv xp xc xn w2) by (do 2 (eapply KInv_obj_eq; [done|]); done).
  assert (L2 : ks_pipelines_list w2 = ks_pipelines_list w)
    by (rewrite (obj_eq_list _ _ E2); apply (obj_eq_list _ _ E1)).
  destruct (ok <? 0); [by apply kwlp_ret|].
  unfold wlp, new_addr, put_pipeline, mbind, M_bind, get, put, modify, mret, M_ret. cbn.
  split; [done|]. split; [by apply KInv_new_pipeline|]. rewrite <- L2. intros Hin.
  pose proof (kinv_p _ _ _ _ Hw2 (next_addr w2)) as Hp.
  destruct (pipelines w2 !! next_addr w2) as [o|]; [|tauto].
  destruct Hp as (_&_&_&Hp). lia.
Qed.

(** ** Adding a channel *)

Lemma wlp_add_chan xp xc xn w p id :
  KInv xp xc xn w → 0 < xp p →
  wlp (ks_pipeline_add_chan p id) (λ _ w', KInv xp xc xn w' ∧
    ks_pipelines_list w' = ks_pipelines_list w) w.
Proof.
  intros Hw Hxp. unfold ks_pipeline_add_chan. apply wlp_bind, wlp_access. intros o Ho.
  destruct (decide _); [|by apply kwlp_ret].
  apply wlp_bind. eapply wlp_mono; [by apply wlp_chan_get_by_id|].
  intros [c|] w1 [Hr Hw1]; destruct (refs_only_pipelines _ _ Hr) as [Ep El];
    [|by apply kwlp_ret].
  apply wlp_bind, wlp_access. intros co Hco.
  assert (Hxc : 0 < inc xc c c).
  { rewrite inc_eq. destruct (kinv_x _ _ _ _ Hw c) as (_&?&_). lia. }
  destruct (chan_pipeline co) as [q|] eqn:Hcp.
  - apply wlp_bind. eapply wlp_mono; [apply wp_wlp, (ks_chan_put_spec _ _ _ _ _ Hw1 Hxc)|].
    intros ? w2 [Hw2 Hr2]. destruct (refs_only_pipelines _ _ Hr2) as [_ El2].
    apply kwlp_ret. split; [|congruence].
    eapply KInv_ext; [| | |exact Hw2]; intros b; try done. apply dec_inc.
  - rewrite <- Ep in Ho. apply wlp_bind.
    eapply wlp_mono; [apply wp_wlp, (ks_pipeline_get_spec _ _ _ _ _ _ Hw1 Ho)|].
    intros ? w2 [Hw2 E2].
    set (o2 := set_pipeline_refcount (pipeline_refcount o + 1) o) in *.
    assert (Ho2 : pipelines w2 !! p = Some o2) by (rewrite E2; cbn; apply lookup_insert_eq).
    assert (Hco2 : chans w2 !! c = Some co) by (rewrite E2; done).
    (* the reference of the list of the pipeline *)
    set (co3 := set_chan_refcount (chan_refcount co + 1) co).
    assert (Hw3 : KInv (inc xp p) (inc (inc xc c) c) xn (set_chans (<[c := co3]> (chans w2)) w2)).
    { eapply KInv_chan; [done|done|done|done|done| | | |]; cbn.
      - intros b. pose proof (inc_ge (inc xc c) c b). pose proof (inc_ge xc c b).
        destruct (kinv_x _ _ _ _ Hw b). lia.
      - intros b Hb. by rewrite inc_ne.
      - rewrite !inc_eq. lia.
      - pose proof (kinv_c _ _ _ _ Hw2 c) as Hc. rewrite Hco2 in Hc. lia. }
    pose proof (KInv_link _ _ _ _ p o2 c co3 Hw3 Ho2 (lookup_insert_eq _ _ _) Hcp) as Hw4.
    set (w4 := set_pipelines _ _) in Hw4.
    assert (Hx4 : 0 < inc xp p p ∧ 0 < inc (inc xc c) c c).
    { rewrite !inc_eq. destruct (kinv_x _ _ _ _ Hw c) as (_&?&_). lia. }
    specialize (Hw4 (proj1 Hx4) (proj2 Hx4)).
    assert (Hrun : (upd_chan c (set_chan_pipeline (Some p));; ks_chan_get c;;
                    upd_pipeline p (λ p0, set_entries (entries p0 ++ [c]) p0)) w2
                   = Done (tt, w4)).
    { unfold upd_chan, ks_chan_get, upd_chan, upd_pipeline, the_chan, the_pipeline, access,
        put_chan, put_pipeline, mbind, M_bind, get, modify, mret, M_ret. cbn.
      rewrite Hco2. cbn. rewrite lookup_insert_eq. cbn. rewrite Ho2. cbn. unfold w4. cbn.
      rewrite !insert_insert_eq. by destruct co. }
    unfold wlp. unfold mbind, M_bind in Hrun |- *.
    destruct (upd_chan c _ w2) as [[[] w2a]|f]; [|done].
    destruct (ks_chan_get c w2a) as [[[] w2b]|f]; [|done].
    rewrite Hrun.
    assert (Hx5 : 0 < dec (inc (inc xc c) c) c c).
    { rewrite dec_inc, inc_eq. destruct (kinv_x _ _ _ _ Hw c) as (_&?&_). lia. }
    pose proof (ks_chan_put_spec _ _ _ _ _ Hw4 Hx5) as Hput. unfold wp in Hput.
    destruct (ks_chan_put c w4) as [[[] w5]|f]; [|done]. cbn.
    destruct Hput as [Hw5 Hr5]. destruct (refs_only_pipelines _ _ Hr5) as [_ El5].
    split.
    + eapply KInv_ext; [| | |exact Hw5]; intros b; try done.
      * apply dec_inc.
      * unfold dec, inc. case_decide; lia.
    + rewrite El5. cbn. rewrite E2. cbn. congruence.
Qed.

Lemma wlp_create_loop xp xc xn w p l s :
  KInv xp xc xn w → 0 < xp p →
  wlp (create_loop p l s) (λ _ w', KInv xp xc xn w' ∧
    ks_pipelines_list w' = ks_pipelines_list w) w.
Proof.
  intros Hw Hxp. revert s w Hw. induction l as [|a l IH]; intros s w Hw; cbn [create_loop];
    [by apply kwlp_ret|].
  destruct (_ =? _); [apply wlp_bind, wlp_lift; intros v _; by apply IH|].
  destruct (_ =? _); [|by apply kwlp_ret].
  apply wlp_bind, wlp_lift. intros v _. apply wlp_bind.
  eapply wlp_mono; [by apply wlp_add_chan|]. intros err w1 [Hw1 E1].
  destruct (err <? 0); [by apply kwlp_ret|].
  eapply wlp_mono; [by apply IH|]. intros r w2 [Hw2 E2]. split; [done|congruence].
Qed.

Lemma wlp_unlink_all xp xc xn w0 w p :
  held xp w0 p → is_there xp xc xn w0 p w →
  wlp (unlink_all p) (λ _ w', is_there xp xc xn w0 p w') w.
Proof.
  intros Hh Ht. apply wp_wlp. eapply wp_mono; [apply (wp_unlink_all xp xc xn w0 p Hh w Ht)|].
  by intros a w' [? _].
Qed.

(** [put] of the reference the code holds *)
Lemma wlp_pipeline_put xp xc xn w p :
  KInv (inc xp p) xc xn w → (∀ a, 0 ≤ xp a) →
  wlp (ks_pipeline_put p) (λ _ w', KInv xp xc xn w' ∧
    ks_pipelines_list w' = ks_pipelines_list w) w.
Proof.
  intros Hw Hx. eapply wlp_mono; [apply wp_wlp, (ks_pipeline_put_spec _ _ _ _ _ Hw)|].
  { rewrite inc_eq. specialize (Hx p). lia. }
  intros ? w1 (Hw1 & E1 & _). split; [|by rewrite E1].
  eapply KInv_ext; [| | |exact Hw1]; intros b; try done. apply dec_inc.
Qed.

Lemma wlp_create_from_nlmsg xp xc xn w nlh :
  KInv xp xc xn w →
  wlp (ks_pipeline_create_from_nlmsg nlh) (λ r w',
    ks_pipelines_list w' = ks_pipelines_list w ∧
    match r with
    | inr p => KInv (inc xp p) xc xn w' ∧ p ∉ ks_pipelines_list w
    | inl _ => KInv xp xc xn w'
    end) w.
Proof.
  intros Hw. assert (Hx : ∀ a, 0 ≤ xp a) by (intros a; apply (kinv_x _ _ _ _ Hw)).
  unfold ks_pipeline_create_from_nlmsg. apply wlp_bind.
  eapply wlp_mono; [by apply wlp_pipeline_create|].
  intros [p|] w1 [E1 Hw1]; [|by apply kwlp_ret]. destruct Hw1 as [Hw1 Hp].
  assert (Hxp : 0 < inc xp p p) by (rewrite inc_eq; specialize (Hx p); lia).
  apply wlp_bind, wlp_lift. intros l _. apply wlp_bind.
  eapply wlp_mono; [by apply wlp_create_loop|]. intros [err s] w2 [Hw2 E2].
  assert (Hh : held (inc xp p) w2 p).
  { unfold held. pose proof (one_range (p ∈ ks_pipelines_list w2)). lia. }
  apply wlp_bind.
  apply (wlp_mono _ (λ _ w', is_there (inc xp p) xc xn w2 p w')).
  { destruct (err <? 0); [|by apply wlp_change_status].
    apply kwlp_ret. destruct (pipeline_held _ _ _ _ _ Hw2 Hh) as [o Ho].
    split_and!; [done|done|by eexists]. }
  clear err. intros err w3 Ht. pose proof Ht as (Hw3 & E3 & _).
  destruct (err <? 0); [|apply kwlp_ret; split; [congruence|done]].
  apply wlp_bind. eapply wlp_mono; [exact (wlp_unlink_all _ _ _ _ _ _ Hh Ht)|].
  intros ? w4 (Hw4 & E4 & _). apply wlp_bind.
  eapply wlp_mono; [by apply wlp_pipeline_put|]. intros ? w5 [Hw5 E5].
  apply kwlp_ret. split; [congruence|done].
Qed.
End ops.
