(* ===== verification/KsReach.v ===== *)
(** * Executions of the kernel module

    Commands of processes and operations of drivers keep the invariant [KInv]; so it
    holds in every state the module can reach ([ks_reach]).  A state carries the
    references drivers hold on their channels and nodes ([dc], [dn]): a driver creates
    an object with one reference, destroys it once, and registers it once at a time. *)

From stdpp Require Import base list gmap.
From Stdlib Require Import ZArith Lia.
From S2P Require Import Prelude.
From S2P Require Import Bits.
From S2P Require Import KsProto.
From S2P Require Import KsKernel.
From S2P Require Import KsPipeline.
From S2P Require Import KsTopology.
From S2P Require Import KsInv.
From S2P Require Import KsStatus.
Local Open Scope Z_scope.

(** ** Lists: removing an object makes its reference the code's *)

Lemma list_del_Done x l l' : list_del x l = Done l' → x ∈ l ∧ l' = filter (.≠ x) l.
Proof. unfold list_del. case_decide; [|done]. by intros [= <-]. Qed.

Lemma one_true (P : Prop) `{Decision P} : P → one P = 1.
Proof. intros HP. by rewrite bool_decide_true. Qed.
Lemma one_false (P : Prop) `{Decision P} : ¬ P → one P = 0.
Proof. intros HP. by rewrite bool_decide_false. Qed.

Lemma not_in_filter (x : addr) (l : list addr) : x ∉ filter (.≠ x) l.
Proof. rewrite list_elem_of_filter. tauto. Qed.
Lemma in_filter_ne (x y : addr) (l : list addr) : y ≠ x → y ∈ filter (.≠ x) l ↔ y ∈ l.
Proof. rewrite list_elem_of_filter. tauto. Qed.
Lemma in_snoc_ne (x y : addr) (l : list addr) : y ≠ x → y ∈ l ++ [x] ↔ y ∈ l.
Proof. rewrite elem_of_app, list_elem_of_singleton. tauto. Qed.
Lemma NoDup_snoc (x : addr) (l : list addr) : NoDup l → x ∉ l → NoDup (l ++ [x]).
Proof.
  intros Hl Hx. apply NoDup_app. split_and!; [done| |apply NoDup_singleton].
  intros y Hy ->%list_elem_of_singleton. done.
Qed.

(** an object enters or leaves its list *)
Lemma KInv_chans_list xp xc xc' xn w c l :
  KInv xp xc xn w → NoDup l → (∀ q, q ≠ c → (q ∈ l ↔ q ∈ ks_chans_list w)) →
  (∀ a, 0 ≤ xc' a) → (∀ a, a ≠ c → xc' a = xc a) → is_Some (chans w !! c) →
  xc' c + one (c ∈ l) = xc c + one (c ∈ ks_chans_list w) →
  KInv xp xc' xn (set_ks_chans_list l w).
Proof.
  intros [Hx Hp Hc Hn Hl Hd] Hnd Hq Hpos Hne [o Ho] Heq. split; cbn; auto.
  - intros a. destruct (Hx a) as (?&?&?). auto.
  - intros q. specialize (Hc q). destruct (decide (q = c)) as [->|Hqc].
    + rewrite Ho in *. destruct Hc as (?&?&?). split_and!; [lia|done..].
    + rewrite Hne by done. specialize (Hq q Hqc). destruct (chans w !! q).
      * destruct Hc as (Hc&?&?). split_and!; [|done..]. rewrite Hc.
        by rewrite (bool_decide_ext _ _ Hq).
      * rewrite Hq. done.
  - tauto.
Qed.

Lemma KInv_nodes_list xp xc xn xn' w n l :
  KInv xp xc xn w → NoDup l → (∀ q, q ≠ n → (q ∈ l ↔ q ∈ ks_nodes_list w)) →
  (∀ a, 0 ≤ xn' a) → (∀ a, a ≠ n → xn' a = xn a) → is_Some (nodes w !! n) →
  xn' n + one (n ∈ l) = xn n + one (n ∈ ks_nodes_list w) →
  KInv xp xc xn' (set_ks_nodes_list l w).
Proof.
  intros [Hx Hp Hc Hn Hl Hd] Hnd Hq Hpos Hne [o Ho] Heq. split; cbn; auto.
  - intros a. destruct (Hx a) as (?&?&?). auto.
  - intros q. specialize (Hn q). destruct (decide (q = n)) as [->|Hqn].
    + rewrite Ho in *. destruct Hn as (?&?&?). split_and!; [lia|done..].
    + rewrite Hne by done. specialize (Hq q Hqn). destruct (nodes w !! q).
      * destruct Hn as (Hn&?&?). split_and!; [|done..]. rewrite Hn.
        by rewrite (bool_decide_ext _ _ Hq).
      * rewrite Hq. done.
  - tauto.
Qed.

Section del.
Context (xp xc xn : addr → Z) (w : ks_world) (Hw : KInv xp xc xn w).

Lemma KInv_x : (∀ a, 0 ≤ xp a) ∧ (∀ a, 0 ≤ xc a) ∧ (∀ a, 0 ≤ xn a).
Proof. split_and!; intros a; destruct (kinv_x _ _ _ _ Hw a) as (?&?&?); done. Qed.

Lemma inc_nonneg (x : addr → Z) b a : (∀ a, 0 ≤ x a) → 0 ≤ inc x b a.
Proof. intros Hx. pose proof (inc_ge x b a). specialize (Hx a). lia. Qed.

Lemma KInv_pipelines_del p l :
  list_del p (ks_pipelines_list w) = Done l →
  KInv (inc xp p) xc xn (set_ks_pipelines_list l w).
Proof.
  intros [Hin ->]%list_del_Done. destruct KInv_x as (Hx & _ & _).
  eapply KInv_pipelines_list; [done| | | | | |].
  - apply NoDup_filter, (kinv_lists _ _ _ _ Hw).
  - intros q Hq. by apply in_filter_ne.
  - intros a. by apply inc_nonneg.
  - intros a Ha. by apply inc_ne.
  - pose proof (kinv_p _ _ _ _ Hw p) as Hp. destruct (pipelines w !! p); [by eexists|tauto].
  - rewrite inc_eq, (one_true _ Hin), one_false by apply not_in_filter. lia.
Qed.

Lemma KInv_chans_del c l :
  list_del c (ks_chans_list w) = Done l → KInv xp (inc xc c) xn (set_ks_chans_list l w).
Proof.
  intros [Hin ->]%list_del_Done. destruct KInv_x as (_ & Hx & _).
  eapply KInv_chans_list; [done| | | | | |].
  - apply NoDup_filter, (kinv_lists _ _ _ _ Hw).
  - intros q Hq. by apply in_filter_ne.
  - intros a. by apply inc_nonneg.
  - intros a Ha. by apply inc_ne.
  - pose proof (kinv_c _ _ _ _ Hw c) as Hc. destruct (chans w !! c); [by eexists|tauto].
  - rewrite inc_eq, (one_true _ Hin), one_false by apply not_in_filter. lia.
Qed.

Lemma KInv_nodes_del n l :
  list_del n (ks_nodes_list w) = Done l → KInv xp xc (inc xn n) (set_ks_nodes_list l w).
Proof.
  intros [Hin ->]%list_del_Done. destruct KInv_x as (_ & _ & Hx).
  eapply KInv_nodes_list; [done| | | | | |].
  - apply NoDup_filter, (kinv_lists _ _ _ _ Hw).
  - intros q Hq. by apply in_filter_ne.
  - intros a. by apply inc_nonneg.
  - intros a Ha. by apply inc_ne.
  - pose proof (kinv_n _ _ _ _ Hw n) as Hn. destruct (nodes w !! n); [by eexists|tauto].
  - rewrite inc_eq, (one_true _ Hin), one_false by apply not_in_filter. lia.
Qed.

(** an object the code holds one more reference of enters its list *)
Lemma KInv_pipelines_add p x :
  (∀ a, xp a = inc x p a) → (∀ a, 0 ≤ x a) → p ∉ ks_pipelines_list w →
  KInv x xc xn (set_ks_pipelines_list (ks_pipelines_list w ++ [p]) w).
Proof.
  intros Hxp Hx Hnin. eapply KInv_pipelines_list; [done| | | | | |].
  - apply NoDup_snoc; [apply (kinv_lists _ _ _ _ Hw)|done].
  - intros q Hq. by apply in_snoc_ne.
  - done.
  - intros a Ha. rewrite Hxp. by rewrite inc_ne.
  - pose proof (kinv_p _ _ _ _ Hw p) as Hp. destruct (pipelines w !! p); [by eexists|].
    rewrite Hxp, inc_eq in Hp. specialize (Hx p). lia.
  - rewrite Hxp, inc_eq, (one_false _ Hnin), one_true; [lia|].
    apply elem_of_app. right. by left.
Qed.

Lemma KInv_chans_add c x :
  (∀ a, xc a = inc x c a) → (∀ a, 0 ≤ x a) → c ∉ ks_chans_list w →
  KInv xp x xn (set_ks_chans_list (ks_chans_list w ++ [c]) w).
Proof.
  intros Hxc Hx Hnin. eapply KInv_chans_list; [done| | | | | |].
  - apply NoDup_snoc; [apply (kinv_lists _ _ _ _ Hw)|done].
  - intros q Hq. by apply in_snoc_ne.
  - done.
  - intros a Ha. rewrite Hxc. by rewrite inc_ne.
  - pose proof (kinv_c _ _ _ _ Hw c) as Hp. destruct (chans w !! c); [by eexists|].
    rewrite Hxc, inc_eq in Hp. specialize (Hx c). lia.
  - rewrite Hxc, inc_eq, (one_false _ Hnin), one_true; [lia|].
    apply elem_of_app. right. by left.
Qed.

Lemma KInv_nodes_add n x :
  (∀ a, xn a = inc x n a) → (∀ a, 0 ≤ x a) → n ∉ ks_nodes_list w →
  KInv xp xc x (set_ks_nodes_list (ks_nodes_list w ++ [n]) w).
Proof.
  intros Hxn Hx Hnin. eapply KInv_nodes_list; [done| | | | | |].
  - apply NoDup_snoc; [apply (kinv_lists _ _ _ _ Hw)|done].
  - intros q Hq. by apply in_snoc_ne.
  - done.
  - intros a Ha. rewrite Hxn. by rewrite inc_ne.
  - pose proof (kinv_n _ _ _ _ Hw n) as Hp. destruct (nodes w !! n); [by eexists|].
    rewrite Hxn, inc_eq in Hp. specialize (Hx n). lia.
  - rewrite Hxn, inc_eq, (one_false _ Hnin), one_true; [lia|].
    apply elem_of_app. right. by left.
Qed.
End del.

(** ** Pipelines and commands *)

Section ops.
Context `{KsEnv}.

(** identifiers are not part of the invariant *)
Lemma quiet_new_id_loop fuel search next cur :
  (∀ id, quiet (search id)) → quiet (new_id_loop fuel search next cur).
Proof. intros Hs. revert cur. induction fuel as [|fuel IH]; intros cur; cbn; quiet. Qed.

Lemma quiet_modify f : (∀ w, obj_eq w (f w)) → quiet (modify f).
Proof. intros Hf w. apply Hf. Qed.

Lemma quiet_new_id :
  quiet _ks_node_new_id ∧ quiet _ks_chan_new_id ∧ quiet _ks_pipeline_new_id ∧
  quiet _ks_feature_new_id.
Proof.
  unfold _ks_node_new_id, _ks_chan_new_id, _ks_pipeline_new_id, _ks_feature_new_id.
  split_and!; (apply kquiet_bind; [quiet|intros w]);
    (apply kquiet_bind; [apply quiet_new_id_loop; intros id;
       apply kquiet_bind; [quiet|intros w']; apply quiet_search|intros id]);
    (apply kquiet_bind; [|intros _; quiet]); by apply quiet_modify.
Qed.

(** an object's record changes, but not its references *)
Lemma wlp_upd_pipeline_same xp xc xn w p f :
  (∀ o, entries (f o) = entries o ∧ pipeline_refcount (f o) = pipeline_refcount o) →
  KInv xp xc xn w →
  wlp (upd_pipeline p f) (λ _ w', KInv xp xc xn w' ∧
    ks_pipelines_list w' = ks_pipelines_list w) w.
Proof.
  intros Hf Hw. apply wlp_bind, wlp_access. intros o Ho. destruct (Hf o) as [He Hr].
  split; [|done]. eapply (KInv_pipeline xp xp); [done|done|done| |done| |].
  - intros a. apply (kinv_x _ _ _ _ Hw).
  - rewrite Hr. lia.
  - rewrite Hr. pose proof (kinv_p _ _ _ _ Hw p) as Hp. rewrite Ho in Hp. lia.
Qed.

Lemma wlp_quiet_keeps {A} (m : K A) xp xc xn w :
  quiet m → KInv xp xc xn w → wlp m (λ _ w', KInv xp xc xn w') w.
Proof. intros Hm Hw. eapply wlp_mono; [by eapply wlp_quiet|]. intros a w' [? _]. done. Qed.

Lemma wlp_register_pipeline xp xc xn w p :
  KInv (inc xp p) xc xn w → (∀ a, 0 ≤ xp a) → p ∉ ks_pipelines_list w →
  wlp (ks_pipeline_register_no_topology_lock p)
    (λ _ w', KInv (inc xp p) xc xn w') w.
Proof.
  intros Hw Hx Hnin. unfold ks_pipeline_register_no_topology_lock.
  apply wlp_quiet_bind; [apply quiet_new_id|]. intros id w1 E1.
  pose proof (KInv_obj_eq _ _ _ _ _ E1 Hw) as Hw1. pose proof (obj_eq_list _ _ E1) as L1.
  apply wlp_bind. eapply wlp_mono; [by apply wlp_upd_pipeline_same|].
  intros ? w2 [Hw2 L2]. apply wlp_bind.
  destruct (pipeline_held _ _ _ w2 p Hw2) as [o Ho].
  { rewrite inc_eq. pose proof (one_range (p ∈ ks_pipelines_list w2)). specialize (Hx p). lia. }
  eapply wlp_mono; [apply wp_wlp, (ks_pipeline_get_spec _ _ _ _ _ _ Hw2 Ho)|].
  intros ? w3 [Hw3 E3].
  assert (Hn3 : p ∉ ks_pipelines_list w3) by (rewrite E3; cbn; by rewrite L2, L1).
  apply wlp_bind. unfold wlp at 1, modify.
  pose proof (KInv_pipelines_add _ _ _ _ Hw3 p (inc xp p) (λ _, eq_refl)
                (λ a, inc_nonneg _ _ _ Hx) Hn3) as Hw4.
  set (w4 := set_ks_pipelines_list _ w3) in *. apply wlp_bind.
  eapply wlp_mono; [by apply wlp_upd_pipeline_same|].
  intros ? w5 [Hw5 L5]. apply wlp_quiet_bind; [quiet|]. intros err w6 E6.
  pose proof (KInv_obj_eq _ _ _ _ _ E6 Hw5) as Hw6. destruct (err <? 0).
  - apply wlp_bind. unfold wlp at 1, get. apply wlp_bind, wlp_lift. intros l Hl.
    apply wlp_bind. unfold wlp at 1, modify.
    pose proof (KInv_pipelines_del _ _ _ _ Hw6 p l Hl) as Hw7. apply wlp_bind.
    eapply wlp_mono; [apply wlp_pipeline_put; [exact Hw7|]|].
    + intros b. by apply inc_nonneg.
    + intros ? w8 [Hw8 _]. by apply kwlp_ret.
  - apply wlp_bind. eapply wlp_mono; [eapply wlp_quiet_keeps; [quiet|done]|].
    intros ? w7 Hw7. by apply kwlp_ret.
Qed.

Lemma wlp_unregister_pipeline xp xc xn w p :
  KInv xp xc xn w → held xp w p →
  wlp (ks_pipeline_unregister_no_topology_lock p) (λ _ w', KInv xp xc xn w') w.
Proof.
  intros Hw Hh. unfold ks_pipeline_unregister_no_topology_lock. apply wlp_bind.
  eapply wlp_mono; [by apply wlp_change_status|]. intros ? w1 (Hw1 & L1 & _).
  apply wlp_bind. unfold wlp at 1, get. apply wlp_bind, wlp_lift. intros l Hl.
  apply wlp_bind. unfold wlp at 1, modify.
  pose proof (KInv_pipelines_del _ _ _ _ Hw1 p l Hl) as Hw2. apply wlp_bind.
  eapply wlp_mono; [apply wlp_pipeline_put; [exact Hw2|apply (KInv_x _ _ _ _ Hw)]|].
  intros ? w3 [Hw3 _]. apply wlp_bind.
  eapply wlp_mono; [eapply wlp_quiet_keeps; [quiet|done]|]. intros ? w4 Hw4. by apply kwlp_ret.
Qed.

Lemma wlp_to_null xp xc xn w p :
  KInv xp xc xn w → held xp w p →
  wlp (ks_pipeline_to_null p) (λ _ w', KInv xp xc xn w' ∧
    ks_pipelines_list w' = ks_pipelines_list w) w.
Proof.
  intros Hw Hh. apply wlp_bind, wlp_access. intros o _. case_decide; [by apply kwlp_ret|].
  apply wlp_bind. eapply wlp_mono; [by apply wlp_change_status|].
  intros ? w1 (Hw1 & L1 & _). by apply kwlp_ret.
Qed.

Lemma held_inc (xp : addr → Z) w p : (∀ a, 0 ≤ xp a) → held (inc xp p) w p.
Proof.
  intros Hx. unfold held. rewrite inc_eq. specialize (Hx p).
  pose proof (one_range (p ∈ ks_pipelines_list w)). lia.
Qed.

Lemma wlp_put_bind {A} (k : unit → K A) Q xp xc xn w p :
  KInv (inc xp p) xc xn w → (∀ a, 0 ≤ xp a) →
  (∀ w', KInv xp xc xn w' → wlp (k tt) Q w') → wlp (ks_pipeline_put p ≫= k) Q w.
Proof.
  intros Hw Hx Hk. apply wlp_bind. eapply wlp_mono; [exact (wlp_pipeline_put _ _ _ _ _ Hw Hx)|].
  intros [] w1 [Hw1 _]. by apply Hk.
Qed.

(** the end of a command: the reply, and the reference goes back *)
Lemma wlp_respond_put xp xc xn w p (m : K Z) :
  quiet m → KInv (inc xp p) xc xn w → (∀ a, 0 ≤ xp a) →
  wlp (m;; ks_pipeline_put p;; mret 0) (λ _ w', KInv xp xc xn w') w.
Proof.
  intros Hm Hw Hx. apply wlp_bind. eapply wlp_mono; [exact (wlp_quiet_keeps _ _ _ _ _ Hm Hw)|].
  intros ? w1 Hw1. cbn beta in *. eapply wlp_put_bind; [eassumption|done|]. intros w2 Hw2. by apply kwlp_ret.
Qed.

Lemma wlp_cmd_new xp xc xn w req nlh :
  KInv xp xc xn w → wlp (ks_pipeline_cmd_new req nlh) (λ _ w', KInv xp xc xn w') w.
Proof.
  intros Hw. destruct (KInv_x _ _ _ _ Hw) as (Hx & _ & _). apply wlp_bind.
  eapply wlp_mono; [by apply wlp_create_from_nlmsg|].
  intros [err|p] w1 [L1 Hw1]; [by apply kwlp_ret|]. destruct Hw1 as [Hw1 Hnin].
  apply wlp_bind. eapply wlp_mono; [apply wlp_register_pipeline; [done|done|by rewrite L1]|].
  intros err w2 Hw2. cbn in Hw2. destruct (err <? 0); [|apply wlp_respond_put; [quiet|done|done]].
  apply wlp_bind. eapply wlp_mono; [apply wlp_to_null; [done|by apply held_inc]|].
  intros ? w3 [Hw3 _]. cbn beta in *. eapply wlp_put_bind; [eassumption|done|]. intros w4 Hw4. by apply kwlp_ret.
Qed.

Lemma wlp_cmd_del xp xc xn w req nlh :
  KInv xp xc xn w → wlp (ks_pipeline_cmd_del req nlh) (λ _ w', KInv xp xc xn w') w.
Proof.
  intros Hw. destruct (KInv_x _ _ _ _ Hw) as (Hx & _ & _). apply wlp_bind.
  eapply wlp_mono; [by apply wlp_get_by_nlid|].
  intros [p|] w1 [L1 Hw1]; [|by apply kwlp_ret]. destruct Hw1 as [Hw1 _].
  apply wlp_bind. eapply wlp_mono; [apply wlp_to_null; [done|by apply held_inc]|].
  intros ? w2 [Hw2 _]. apply wlp_bind.
  eapply wlp_mono; [apply wlp_unregister_pipeline; [done|by apply held_inc]|].
  intros ? w3 Hw3. apply wlp_respond_put; [quiet|done|done].
Qed.

Lemma quiet_update_loop p l s : quiet (update_loop p l s).
Proof. revert s. induction l as [|a l IH]; intros s; cbn; quiet. Qed.

Lemma wlp_cmd_set xp xc xn w req nlh :
  KInv xp xc xn w → wlp (ks_pipeline_cmd_set req nlh) (λ _ w', KInv xp xc xn w') w.
Proof.
  intros Hw. destruct (KInv_x _ _ _ _ Hw) as (Hx & _ & _). apply wlp_bind.
  eapply wlp_mono; [by apply wlp_get_by_nlid|].
  intros [p|] w1 [L1 Hw1]; [|by apply kwlp_ret]. destruct Hw1 as [Hw1 _].
  apply wlp_bind. apply (wlp_mono _ (λ _ w', KInv (inc xp p) xc xn w')).
  - apply wlp_bind, wlp_lift. intros l _. apply wlp_bind.
    eapply wlp_mono; [eapply wlp_quiet_keeps; [apply quiet_update_loop|exact Hw1]|].
    intros [err s] w2 Hw2. destruct (err <? 0); [by apply kwlp_ret|].
    eapply wlp_mono; [apply wlp_change_status; [done|by apply held_inc]|].
    by intros ? w3 (? & _).
  - intros err w2 Hw2. destruct (err <? 0); [|apply wlp_respond_put; [quiet|done|done]].
    cbn beta in *. eapply wlp_put_bind; [eassumption|done|]. intros w4 Hw4. by apply kwlp_ret.
Qed.

Lemma quiet_cmd_get_loop write seq l cnt :
  (∀ a skb seq, quiet (write a skb seq)) → quiet (cmd_get_loop write seq l cnt).
Proof.
  intros Hw. revert cnt. induction l as [|a l IH]; intros cnt; cbn; [quiet|].
  apply kquiet_bind; [by apply quiet_respond_loop|intros err]. quiet.
Qed.
Lemma quiet_cmd_get write req l :
  (∀ a skb seq, quiet (write a skb seq)) → quiet (cmd_get write req l).
Proof.
  intros Hw. unfold cmd_get. apply kquiet_bind; [quiet|intros _].
  apply kquiet_bind; [by apply quiet_cmd_get_loop|intros r]. quiet.
Qed.

Lemma quiet_gets req nlh :
  quiet (ks_pipeline_cmd_get req nlh) ∧ quiet (ks_node_cmd_get req nlh) ∧
  quiet (ks_chan_cmd_get req nlh) ∧ quiet (ks_feature_cmd_get req nlh).
Proof.
  unfold ks_pipeline_cmd_get, ks_node_cmd_get, ks_chan_cmd_get, ks_feature_cmd_get.
  split_and!; (apply kquiet_bind; [quiet|intros w; apply quiet_cmd_get; intros; quiet]).
Qed.

Lemma wlp_chan_put xp xc xn w c :
  KInv xp (inc xc c) xn w → (∀ a, 0 ≤ xc a) →
  wlp (ks_chan_put c) (λ _ w', KInv xp xc xn w') w.
Proof.
  intros Hw Hx. eapply wlp_mono; [apply wp_wlp, (ks_chan_put_spec _ _ _ _ _ Hw)|].
  { rewrite inc_eq. specialize (Hx c). lia. }
  intros ? w1 [Hw1 _]. eapply KInv_ext; [| | |exact Hw1]; intros b; try done. apply dec_inc.
Qed.

Lemma wlp_chan_put_bind {A} (k : unit → K A) Q xp xc xn w c :
  KInv xp (inc xc c) xn w → (∀ a, 0 ≤ xc a) →
  (∀ w', KInv xp xc xn w' → wlp (k tt) Q w') → wlp (ks_chan_put c ≫= k) Q w.
Proof.
  intros Hw Hx Hk. apply wlp_bind. eapply wlp_mono; [exact (wlp_chan_put _ _ _ _ _ Hw Hx)|].
  intros [] w1 Hw1. by apply Hk.
Qed.

Lemma quiet_chan_update_loop c l : quiet (chan_update_loop c l).
Proof. induction l as [|a l IH]; cbn; quiet. Qed.

Lemma wlp_chan_cmd_set xp xc xn w req nlh :
  KInv xp xc xn w → wlp (ks_chan_cmd_set req nlh) (λ _ w', KInv xp xc xn w') w.
Proof.
  intros Hw. destruct (KInv_x _ _ _ _ Hw) as (_ & Hx & _). apply wlp_bind.
  apply (wlp_mono _ (λ r w', match r with Some c => KInv xp (inc xc c) xn w'
                                        | None => KInv xp xc xn w' end)).
  { apply wlp_bind, wlp_lift. intros l _. apply wlp_nlid; [done|]. intros id.
    eapply wlp_mono; [by apply wlp_chan_get_by_id|]. by intros [c|] w' [_ ?]. }
  intros [c|] w1 Hw1; [|by apply kwlp_ret].
  apply wlp_bind. apply (wlp_mono _ (λ _ w', KInv xp (inc xc c) xn w')).
  { apply wlp_bind, wlp_lift. intros l _. apply wlp_quiet_keeps; [|done].
    apply quiet_chan_update_loop. }
  intros err w2 Hw2. destruct (err <? 0).
  - cbn beta in *. eapply wlp_chan_put_bind; [eassumption|done|]. intros w3 Hw3. by apply kwlp_ret.
  - apply wlp_bind. eapply wlp_mono; [eapply wlp_quiet_keeps; [quiet|done]|].
    intros ? w3 Hw3. cbn beta in *. eapply wlp_chan_put_bind; [eassumption|done|]. intros w4 Hw4. by apply kwlp_ret.
Qed.
(** ** Operations of drivers *)

Lemma KInv_fresh xp xc xn w :
  KInv xp xc xn w →
  nodes w !! next_addr w = None ∧ chans w !! next_addr w = None.
Proof.
  intros [_ _ Hc Hn _ _]. specialize (Hc (next_addr w)). specialize (Hn (next_addr w)).
  split.
  - destruct (nodes w !! next_addr w); [|done]. destruct Hn as (_&_&?). lia.
  - destruct (chans w !! next_addr w); [|done]. destruct Hc as (_&_&?). lia.
Qed.

Lemma wlp_node_create xp xc xn w ops name parent :
  KInv xp xc xn w →
  wlp (ks_node_create ops name parent)
    (λ a w', a = next_addr w ∧ KInv xp xc (inc xn a) w') w.
Proof.
  intros Hw. destruct (KInv_fresh _ _ _ _ Hw) as [Hfresh _].
  unfold ks_node_create, new_addr, put_node, wlp, mbind, M_bind, get, put, modify, mret, M_ret.
  cbn. split; [done|]. set (a := next_addr w) in *.
  destruct Hw as [Hx Hp Hc Hn Hl Hd]. pose proof (Hn a) as Ha. rewrite Hfresh in Ha.
  destruct Ha as (Ha & Hna & Hua). split; cbn; auto.
  - intros b. destruct (Hx b) as (?&?&?). pose proof (inc_ge xn a b). lia.
  - intros q. specialize (Hp q). destruct (pipelines w !! q); [|done].
    destruct Hp as (?&?&?&?). split_and!; [done..|subst a; lia].
  - intros q. specialize (Hc q). destruct (chans w !! q); [|done].
    destruct Hc as (?&?&?). split_and!; [done..|subst a; lia].
  - intros n. specialize (Hn n). destruct (decide (n = a)) as [->|Hna'].
    + rewrite lookup_insert_eq, inc_eq, bool_decide_false by done. cbn. split_and!; lia.
    + rewrite lookup_insert_ne, inc_ne by done. destruct (nodes w !! n); [|done].
      destruct Hn as (?&?&?). split_and!; [done..|subst a; lia].
Qed.

(** a new channel: the references to nodes the code holds become its own *)
Lemma KInv_chan_new xp xc xn xn' w c o :
  KInv xp xc xn' w → chans w !! c = None → (c < next_addr w)%nat →
  (∀ n, xn' n = xn n + uses_by n o) → (∀ n, 0 ≤ xn n) →
  chan_refcount o = 1 → chan_pipeline o = None →
  KInv xp (inc xc c) xn (set_chans (<[c := o]> (chans w)) w).
Proof.
  intros [Hx Hp Hc Hn Hl Hd] Hfresh Hlt Hu Hpos Hr Hpl.
  pose proof (Hc c) as Ha. rewrite Hfresh in Ha. destruct Ha as (Ha & Hnc).
  split; cbn; auto.
  - intros b. destruct (Hx b) as (?&?&?). pose proof (inc_ge xc c b). specialize (Hpos b). lia.
  - intros q. specialize (Hc q). destruct (decide (q = c)) as [->|Hqc].
    + rewrite lookup_insert_eq, inc_eq, bool_decide_false, Hpl by done. cbn. split_and!; lia.
    + by rewrite lookup_insert_ne, inc_ne by done.
  - intros n. specialize (Hn n). rewrite (uses_insert n c o) by done.
    rewrite Hu in Hn. pose proof (uses_nonneg n (chans w)). pose proof (uses_by_nonneg n o).
    specialize (Hpos n). destruct (nodes w !! n).
    + destruct Hn as (?&?&?). split_and!; lia.
    + destruct Hn as (?&?&?). split_and!; [lia|done|lia].
  - intros d q. change (entries_of _ q) with (entries_of w q). rewrite Hl.
    unfold pipeline_of. cbn. destruct (decide (d = c)) as [->|Hdc].
    + rewrite lookup_insert_eq, Hfresh. cbn. by rewrite Hpl.
    + by rewrite lookup_insert_ne.
Qed.

Lemma wlp_chan_create xp xc xn w ops ga sa name duplex parent from to :
  KInv xp xc xn w →
  wlp (ks_chan_create ops ga sa name duplex parent from to)
    (λ a w', a = next_addr w ∧ KInv xp (inc xc a) xn w') w.
Proof.
  intros Hw. destruct (KInv_fresh _ _ _ _ Hw) as [_ Hfresh].
  unfold ks_chan_create. apply wlp_bind. unfold wlp at 1, new_addr, mbind at 1, M_bind at 1.
  cbn. set (a := next_addr w) in *. set (w1 := set_next_addr (S a) w).
  assert (Hw1 : KInv xp xc xn w1) by (eapply KInv_obj_eq; [|done]; split_and!; cbn; done || lia).
  assert (Hf1 : chans w1 !! a = None ∧ (a < next_addr w1)%nat) by (split; [done|cbn; lia]).
  clearbody w1.
  assert (Hget : ∀ n xn w1, KInv xp xc xn w1 → chans w1 !! a = None ∧ (a < next_addr w1)%nat →
    wlp (ks_node_get n) (λ _ w2, KInv xp xc (inc xn n) w2 ∧
      chans w2 !! a = None ∧ (a < next_addr w2)%nat) w1).
  { clear. intros n xn w1 Hw Hf. destruct (nodes w1 !! n) eqn:Hn.
    - eapply wlp_mono; [apply wp_wlp, (ks_node_get_spec _ _ _ _ n Hw); by eexists|].
      intros ? w2 (Hw2 & E & _). rewrite E in *. split; [done|]. by cbn.
    - apply wlp_bind, wlp_access. intros o Ho. congruence. }
  apply wlp_bind. eapply wlp_mono; [by apply Hget|]. intros ? w2 [Hw2 Hf2].
  apply wlp_bind. eapply wlp_mono; [by apply Hget|]. intros ? w3 [Hw3 [Hf3 Hlt3]].
  apply wlp_bind. unfold wlp at 1, put_chan, modify. apply kwlp_ret. split; [done|].
  eapply KInv_chan_new; [exact Hw3|done|done| | |done|done].
  - intros n. unfold inc, uses_by. cbn. repeat case_decide; repeat case_bool_decide;
      cbn; subst; congruence || lia.
  - apply (KInv_x _ _ _ _ Hw).
Qed.

Lemma quiet_create_links c : quiet (ks_chan_create_links c).
Proof. unfold ks_chan_create_links, and_then. quiet. Qed.

(** changing the identifier of a channel or of a node *)
Lemma wlp_upd_chan_id xp xc xn w c id :
  KInv xp xc xn w →
  wlp (upd_chan c (set_chan_id id)) (λ _ w', KInv xp xc xn w' ∧
    ks_chans_list w' = ks_chans_list w ∧ is_Some (chans w' !! c)) w.
Proof.
  intros Hw. apply wlp_bind, wlp_access. intros o Ho. split_and!; [|done|].
  - eapply (KInv_chan xp xc); [done|done|done|done|done| |done| |].
    + intros a. apply (kinv_x _ _ _ _ Hw).
    + cbn. lia.
    + cbn. pose proof (kinv_c _ _ _ _ Hw c) as Hc. rewrite Ho in Hc. lia.
  - cbn. rewrite lookup_insert_eq. by eexists.
Qed.

Lemma wlp_upd_node_id xp xc xn w n id :
  KInv xp xc xn w →
  wlp (upd_node n (set_node_id id)) (λ _ w', KInv xp xc xn w' ∧
    ks_nodes_list w' = ks_nodes_list w ∧ is_Some (nodes w' !! n)) w.
Proof.
  intros Hw. apply wlp_bind, wlp_access. intros o Ho. split_and!; [|done|].
  - eapply (KInv_node xp xc xn); [done|done| |done| |].
    + intros a. apply (kinv_x _ _ _ _ Hw).
    + cbn. lia.
    + cbn. pose proof (kinv_n _ _ _ _ Hw n) as Hc. rewrite Ho in Hc. lia.
  - cbn. rewrite lookup_insert_eq. by eexists.
Qed.

Lemma wlp_chan_register xp xc xn w c :
  KInv xp xc xn w → c ∉ ks_chans_list w →
  wlp (ks_chan_register c) (λ _ w', KInv xp xc xn w') w.
Proof.
  intros Hw Hnin. destruct (KInv_x _ _ _ _ Hw) as (_ & Hx & _).
  unfold ks_chan_register. apply wlp_bind. apply (wlp_mono _ (λ _ w', KInv xp xc xn w')).
  2: { intros err w' Hw'. apply wlp_bind.
       eapply wlp_mono; [eapply wlp_quiet_keeps; [apply quiet_mcast_flush|exact Hw']|].
       intros ? w'' Hw''. by apply kwlp_ret. }
  unfold ks_chan_register_no_topology_lock.
  apply wlp_quiet_bind; [apply quiet_new_id|]. intros id w1 E1.
  pose proof (KInv_obj_eq _ _ _ _ _ E1 Hw) as Hw1.
  assert (L1 : ks_chans_list w1 = ks_chans_list w) by apply E1.
  apply wlp_bind. eapply wlp_mono; [by apply wlp_upd_chan_id|].
  intros ? w2 (Hw2 & L2 & Ho). apply wlp_bind.
  eapply wlp_mono; [apply wp_wlp, (ks_chan_get_spec _ _ _ _ _ Hw2 Ho)|].
  intros ? w3 [Hw3 [E3 _]].
  assert (Hn3 : c ∉ ks_chans_list w3) by (rewrite E3; cbn; by rewrite L2, L1).
  apply wlp_bind. unfold wlp at 1, modify.
  pose proof (KInv_chans_add _ _ _ _ Hw3 c xc (λ _, eq_refl) Hx Hn3) as Hw4.
  set (w4 := set_ks_chans_list _ w3) in *.
  apply wlp_quiet_bind; [unfold and_then; quiet; apply quiet_create_links|].
  intros err w5 E5. pose proof (KInv_obj_eq _ _ _ _ _ E5 Hw4) as Hw5. destruct (err <? 0).
  - apply wlp_bind. unfold wlp at 1, get. apply wlp_bind, wlp_lift. intros l Hl.
    apply wlp_bind. unfold wlp at 1, modify.
    pose proof (KInv_chans_del _ _ _ _ Hw5 c l Hl) as Hw7.
    eapply wlp_chan_put_bind; [exact Hw7|done|]. intros w8 Hw8. by apply kwlp_ret.
  - apply wlp_bind. eapply wlp_mono; [eapply wlp_quiet_keeps; [quiet|exact Hw5]|].
    intros ? w7 Hw7. by apply kwlp_ret.
Qed.

Lemma wlp_node_put xp xc xn w n :
  KInv xp xc (inc xn n) w → (∀ a, 0 ≤ xn a) →
  wlp (ks_node_put n) (λ _ w', KInv xp xc xn w') w.
Proof.
  intros Hw Hx. eapply wlp_mono.
  - destruct (KInv_node_put _ _ _ _ n Hw) as (o & Ho & Hw1).
    { rewrite inc_eq. specialize (Hx n). lia. }
    unfold wlp. rewrite (ks_node_put_eq _ _ _ Ho).
    instantiate (1 := λ _ w', KInv xp xc (dec (inc xn n) n) w'). done.
  - intros ? w1 Hw1. eapply KInv_ext; [| | |exact Hw1]; intros b; try done. apply dec_inc.
Qed.

Lemma wlp_node_register xp xc xn w n :
  KInv xp xc xn w → n ∉ ks_nodes_list w →
  wlp (ks_node_register n) (λ _ w', KInv xp xc xn w') w.
Proof.
  intros Hw Hnin. destruct (KInv_x _ _ _ _ Hw) as (_ & _ & Hx).
  unfold ks_node_register. apply wlp_bind. apply (wlp_mono _ (λ _ w', KInv xp xc xn w')).
  2: { intros err w' Hw'. apply wlp_bind.
       eapply wlp_mono; [eapply wlp_quiet_keeps; [apply quiet_mcast_flush|exact Hw']|].
       intros ? w'' Hw''. by apply kwlp_ret. }
  unfold ks_node_register_no_topology_lock.
  apply wlp_quiet_bind; [apply quiet_new_id|]. intros id w1 E1.
  pose proof (KInv_obj_eq _ _ _ _ _ E1 Hw) as Hw1.
  assert (L1 : ks_nodes_list w1 = ks_nodes_list w) by apply E1.
  apply wlp_bind. eapply wlp_mono; [by apply wlp_upd_node_id|].
  intros ? w2 (Hw2 & L2 & Ho). apply wlp_bind.
  eapply wlp_mono; [apply wp_wlp, (ks_node_get_spec _ _ _ _ _ Hw2 Ho)|].
  intros ? w3 [Hw3 [E3 _]].
  assert (Hn3 : n ∉ ks_nodes_list w3) by (rewrite E3; cbn; by rewrite L2, L1).
  apply wlp_bind. unfold wlp at 1, modify.
  pose proof (KInv_nodes_add _ _ _ _ Hw3 n xn (λ _, eq_refl) Hx Hn3) as Hw4.
  set (w4 := set_ks_nodes_list _ w3) in *.
  apply wlp_quiet_bind; [quiet|].
  intros err w5 E5. pose proof (KInv_obj_eq _ _ _ _ _ E5 Hw4) as Hw5. destruct (err <? 0).
  - apply wlp_bind. unfold wlp at 1, get. apply wlp_bind, wlp_lift. intros l Hl.
    apply wlp_bind. unfold wlp at 1, modify.
    pose proof (KInv_nodes_del _ _ _ _ Hw5 n l Hl) as Hw7. apply wlp_bind.
    eapply wlp_mono; [exact (wlp_node_put _ _ _ _ _ Hw7 Hx)|]. intros ? w8 Hw8.
    by apply kwlp_ret.
  - apply wlp_bind. eapply wlp_mono; [eapply wlp_quiet_keeps; [quiet|exact Hw5]|].
    intros ? w7 Hw7. by apply kwlp_ret.
Qed.

Lemma wlp_node_unregister xp xc xn w n :
  KInv xp xc xn w → wlp (ks_node_unregister n) (λ _ w', KInv xp xc xn w') w.
Proof.
  intros Hw. destruct (KInv_x _ _ _ _ Hw) as (_ & _ & Hx). apply wlp_bind.
  apply (wlp_mono _ (λ _ w', KInv xp xc xn w')).
  - unfold ks_node_unregister_no_topology_lock. apply wlp_bind. unfold wlp at 1, get.
    apply wlp_bind, wlp_lift. intros l Hl. apply wlp_bind. unfold wlp at 1, modify.
    pose proof (KInv_nodes_del _ _ _ _ Hw n l Hl) as Hw1. apply wlp_bind.
    eapply wlp_mono; [exact (wlp_node_put _ _ _ _ _ Hw1 Hx)|]. intros ? w2 Hw2.
    apply wlp_bind. eapply wlp_mono; [eapply wlp_quiet_keeps; [quiet|exact Hw2]|].
    intros ? w3 Hw3. by apply kwlp_ret.
  - intros ? w1 Hw1. apply wlp_quiet_keeps; [apply quiet_mcast_flush|done].
Qed.

Lemma wlp_chan_unregister xp xc xn w c :
  KInv xp xc xn w → wlp (ks_chan_unregister c) (λ _ w', KInv xp xc xn w') w.
Proof.
  intros Hw. destruct (KInv_x _ _ _ _ Hw) as (Hxp & Hx & _). apply wlp_bind.
  apply (wlp_mono _ (λ _ w', KInv xp xc xn w')).
  - unfold ks_chan_unregister_no_topology_lock. apply wlp_bind, wlp_access. intros o Ho.
    apply wlp_bind. apply (wlp_mono _ (λ _ w', KInv xp xc xn w')).
    + destruct (chan_pipeline o) as [p|] eqn:Hp; [|by apply kwlp_ret].
      assert (∃ po, pipelines w !! p = Some po) as [po Hpo].
      { pose proof (kinv_link _ _ _ _ Hw c p) as [_ L]. unfold pipeline_of, entries_of in L.
        rewrite Ho in L. cbn in L. specialize (L Hp).
        destruct (pipelines w !! p); [by eexists|by apply elem_of_nil in L]. }
      apply wlp_bind.
      eapply wlp_mono; [apply wp_wlp, (ks_pipeline_get_spec _ _ _ _ _ _ Hw Hpo)|].
      intros ? w1 [Hw1 _]. apply wlp_bind.
      eapply wlp_mono; [apply wlp_unregister_pipeline; [exact Hw1|by apply held_inc]|].
      intros ? w2 Hw2. eapply wlp_mono; [exact (wlp_pipeline_put _ _ _ _ _ Hw2 Hxp)|].
      by intros ? w3 [? _].
    + intros ? w1 Hw1. apply wlp_bind. unfold wlp at 1, get.
      apply wlp_bind, wlp_lift. intros l Hl. apply wlp_bind. unfold wlp at 1, modify.
      pose proof (KInv_chans_del _ _ _ _ Hw1 c l Hl) as Hw2.
      eapply wlp_chan_put_bind; [exact Hw2|done|]. intros w3 Hw3.
      apply wlp_bind. eapply wlp_mono; [eapply wlp_quiet_keeps; [quiet|exact Hw3]|].
      intros ? w4 Hw4. by apply kwlp_ret.
  - intros ? w1 Hw1. apply wlp_quiet_keeps; [apply quiet_mcast_flush|done].
Qed.

(** ** Messages *)

Lemma quiet_lock req nlh :
  quiet (ks_cmd_topology_lock req nlh) ∧ quiet (ks_cmd_topology_trylock req nlh) ∧
  quiet (ks_cmd_topology_unlock req nlh).
Proof.
  unfold ks_cmd_topology_lock, ks_cmd_topology_trylock, ks_cmd_topology_unlock, ks_do_lock.
  split_and!; quiet.
Qed.

Lemma find_command_in t l h : find_command t l = Some h → ∃ t', (t', h) ∈ l.
Proof.
  induction l as [|[t' h'] l IH]; cbn [find_command]; [done|]. destruct (t' =? t).
  - intros [= ->]. exists t'. by left.
  - intros Hh. destruct (IH Hh) as [t'' Hin]. exists t''. by right.
Qed.

Lemma wlp_command t h xp xc xn w req nlh :
  find_command t ks_commands = Some h → KInv xp xc xn w →
  wlp (h req nlh) (λ _ w', KInv xp xc xn w') w.
Proof.
  intros Hh Hw. destruct (find_command_in _ _ _ Hh) as [t' Hin].
  destruct (quiet_gets req nlh) as (Q1 & Q2 & Q3 & Q4).
  destruct (quiet_lock req nlh) as (Q5 & Q6 & Q7).
  assert (Q8 : quiet (ks_cmd_noop req nlh)) by (unfold ks_cmd_noop; quiet).
  assert (Q9 : quiet (ks_cmd_version_request req nlh)) by (unfold ks_cmd_version_request; quiet).
  assert (Q10 : quiet (ks_cmd_done req nlh)) by apply kquiet_ret.
  assert (Q11 : quiet (ks_cmd_not_implemented req nlh)) by apply kquiet_ret.
  unfold ks_commands in Hin.
  repeat (apply elem_of_cons in Hin as [[= -> ->]|Hin];
    [first [ apply wlp_quiet_keeps; assumption | by apply wlp_cmd_new | by apply wlp_cmd_del
           | by apply wlp_cmd_set | by apply wlp_chan_cmd_set ]|]).
  by apply elem_of_nil in Hin.
Qed.

Lemma wlp_rcv_msg xp xc xn w nlh :
  KInv xp xc xn w → wlp (ks_netlink_rcv_msg nlh) (λ _ w', KInv xp xc xn w') w.
Proof.
  intros Hw. apply wlp_bind, wlp_lift. intros req _.
  destruct (negb _); [by apply kwlp_ret|].
  destruct (find_command _ _) as [h|] eqn:Hh; [|by apply kwlp_ret].
  apply wlp_quiet_bind; [quiet|]. intros ? w1 E1. pose proof (KInv_obj_eq _ _ _ _ _ E1 Hw) as Hw1.
  destruct (_ && _); [by apply kwlp_ret|].
  apply wlp_quiet_bind; [quiet|]. intros ? w2 E2.
  pose proof (KInv_obj_eq _ _ _ _ _ E2 Hw1) as Hw2.
  apply wlp_bind. eapply wlp_mono; [by eapply wlp_command|]. intros err w3 Hw3. cbn in Hw3.
  apply wlp_quiet_keeps; [quiet|done].
Qed.

Lemma wlp_rcv_skb_loop xp xc xn fuel skb w :
  KInv xp xc xn w → wlp (rcv_skb_loop fuel skb) (λ _ w', KInv xp xc xn w') w.
Proof.
  revert skb w. induction fuel as [|fuel IH]; intros skb w Hw; cbn [rcv_skb_loop];
    (destruct (_ <? _); [by apply kwlp_ret|]); [done|].
  apply wlp_bind, wlp_lift. intros h _. destruct (_ || _); [by apply kwlp_ret|].
  apply wlp_bind. eapply wlp_mono; [by apply wlp_rcv_msg|]. intros err w1 Hw1. cbn in Hw1.
  destruct (err =? - EAGAIN); [by apply kwlp_ret|]. apply wlp_bind.
  eapply wlp_mono; [apply wlp_quiet_keeps; [|exact Hw1]|].
  - destruct (err <? 0); quiet.
  - intros ? w2 Hw2. by apply IH.
Qed.

Lemma KInv_set_backlog xp xc xn w l : KInv xp xc xn w → KInv xp xc xn (set_ks_backlog l w).
Proof. intros Hw. eapply KInv_obj_eq; [|done]. by split_and!. Qed.

Lemma wlp_backlog_pass xp xc xn n b w :
  KInv xp xc xn w → wlp (backlog_pass n b) (λ _ w', KInv xp xc xn w') w.
Proof.
  revert b w. induction n as [|n IH]; intros b w Hw; cbn [backlog_pass]; [by apply kwlp_ret|].
  apply wlp_bind. unfold wlp at 1, get. destruct (ks_backlog w) as [|skb l]; [by apply kwlp_ret|].
  apply wlp_bind. unfold wlp at 1, put. apply wlp_bind.
  eapply wlp_mono; [by apply wlp_rcv_skb_loop, KInv_set_backlog|].
  intros [err skb'] w1 Hw1. cbn in Hw1. destruct (err =? - EAGAIN); [|by apply IH].
  apply wlp_bind. unfold wlp at 1, modify. by apply IH, KInv_set_backlog.
Qed.

Lemma wlp_backlog_loop xp xc xn n w :
  KInv xp xc xn w → wlp (backlog_loop n) (λ _ w', KInv xp xc xn w') w.
Proof.
  revert w. induction n as [|n IH]; intros w Hw; cbn [backlog_loop]; [done|].
  apply wlp_bind. unfold wlp at 1, get. apply wlp_bind.
  eapply wlp_mono; [by apply wlp_backlog_pass|]. intros [] w1 Hw1; [by apply IH|by apply kwlp_ret].
Qed.

Lemma wlp_rcv xp xc xn skb w :
  KInv xp xc xn w → wlp (ks_netlink_rcv skb) (λ _ w', KInv xp xc xn w') w.
Proof.
  intros Hw. apply wlp_bind. eapply wlp_mono; [by apply wlp_rcv_skb_loop|].
  intros [err skb'] w1 Hw1. cbn in Hw1. apply wlp_bind.
  apply (wlp_mono _ (λ _ w', KInv xp xc xn w')).
  - destruct (err =? - EAGAIN); [|by apply kwlp_ret]. unfold wlp, modify.
    by apply KInv_set_backlog.
  - intros ? w2 Hw2. apply wlp_bind. unfold wlp at 1, get. by apply wlp_backlog_loop.
Qed.

(** ** Executions *)

Definition kst : Type := ks_world * (addr → Z) * (addr → Z).

(** what a driver may do: it destroys an object with its own reference once it is the
    last, registers an object that is not registered, and changes the status of a
    registered pipeline; the registration functions wait for the topology lock *)
Definition allowed (i : ks_input) (st : kst) : Prop :=
  let '(w, dc, dn) := st in
  (needs_lock i = true → lock_owner (netlink_state w) = 0) ∧
  match i with
  | in_node_register n => n ∉ ks_nodes_list w
  | in_chan_register c => c ∉ ks_chans_list w
  | in_node_destroy n => 0 < dn n ∧ node_refcount <$> nodes w !! n = Some 1
  | in_chan_destroy c => 0 < dc c ∧ chan_refcount <$> chans w !! c = Some 1
  | in_change_status p _ => p ∈ ks_pipelines_list w
  | _ => True
  end.

Definition drivers_refs (i : ks_input) (st : kst) : (addr → Z) * (addr → Z) :=
  let '(w, dc, dn) := st in
  match i with
  | in_node_create _ _ _ => (dc, inc dn (next_addr w))
  | in_chan_create _ _ _ _ _ _ _ _ => (inc dc (next_addr w), dn)
  | in_node_destroy n => (dc, dec dn n)
  | in_chan_destroy c => (dec dc c, dn)
  | _ => (dc, dn)
  end.

Inductive ks_step (st : kst) : kst → Prop :=
| step_input i w' :
    allowed i st → ks_handle i st.1.1 = Done (tt, w') →
    ks_step st (w', (drivers_refs i st).1, (drivers_refs i st).2).

Inductive ks_reach : kst → Prop :=
| reach_init : ks_reach (ks_init, λ _, 0, λ _, 0)
| reach_step st st' : ks_reach st → ks_step st st' → ks_reach st'.

Lemma quiet_feature_put f : quiet (ks_feature_put f).
Proof. unfold ks_feature_put. quiet. all: by apply quiet_modify. Qed.

Lemma quiet_feature_ops :
  (∀ name, quiet (ks_feature_register name)) ∧ (∀ f, quiet (ks_feature_unregister f)).
Proof.
  assert (Hget : ∀ f, quiet (ks_feature_get f)).
  { intros f. unfold ks_feature_get, upd_feature. quiet. }
  assert (Hfind : ∀ name l, quiet (find_feature name l)).
  { intros name l. induction l as [|a l IH]; cbn; quiet. }
  assert (Hnew : quiet new_addr) by (intros w; split_and!; cbn; done || lia).
  assert (Hid : quiet _ks_feature_new_id) by apply quiet_new_id.
  split.
  - intros name. unfold ks_feature_register, ks_feature_register_no_topology_lock,
      ks_topology_unlock. quiet. all: by apply quiet_modify.
  - intros f. unfold ks_feature_unregister, ks_topology_unlock. quiet.
    all: try apply quiet_feature_put. all: by apply quiet_modify.
Qed.

Lemma quiet_stimulate p : quiet (ks_pipeline_stimulate p).
Proof. unfold ks_pipeline_stimulate. quiet. apply kquiet_forM. intros c. quiet. Qed.

Lemma wlp_unit {A} (m : K A) (Q : ks_world → Prop) w :
  wlp m (λ _, Q) w → wlp (m;; mret tt) (λ _, Q) w.
Proof. intros Hm. apply wlp_bind. eapply wlp_mono; [exact Hm|]. by intros a w'. Qed.

Lemma KInv_step st st' (zero := λ _, 0) :
  ks_step st st' → KInv zero st.1.2 st.2 st.1.1 → KInv zero st'.1.2 st'.2 st'.1.1.
Proof.
  intros [i w' Ha Hrun]. destruct st as [[w dc] dn]. cbn [fst snd] in *. intros Hw.
  destruct (KInv_x _ _ _ _ Hw) as (_ & Hdc & Hdn).
  destruct quiet_feature_ops as [Qf1 Qf2].
  assert (HG : wlp (ks_handle i) (λ _ w',
            KInv zero (drivers_refs i (w, dc, dn)).1 (drivers_refs i (w, dc, dn)).2 w') w).
  { destruct i; cbn [ks_handle drivers_refs fst snd]; destruct Ha as [_ Ha]; cbn in Ha.
    - by apply wlp_rcv.
    - apply wlp_quiet_keeps; [|done]. unfold ks_lock_timeout. quiet.
    - apply wlp_unit, wlp_quiet_keeps; [apply Qf1|done].
    - apply wlp_quiet_keeps; [apply Qf2|done].
    - apply wlp_unit. eapply wlp_mono; [by apply wlp_node_create|]. by intros a w1 [-> ?].
    - by apply wlp_unit, wlp_node_register.
    - by apply wlp_node_unregister.
    - destruct Ha as [Ha _]. destruct (KInv_node_put _ _ _ _ node Hw Ha) as (o & Ho & Hw1).
      unfold wlp, ks_node_destroy. by rewrite (ks_node_put_eq _ _ _ Ho).
    - apply wlp_unit. eapply wlp_mono; [by apply wlp_chan_create|]. by intros a w1 [-> ?].
    - by apply wlp_unit, wlp_chan_register.
    - by apply wlp_chan_unregister.
    - destruct Ha as [Ha _]. eapply wlp_mono.
      + apply wp_wlp, (ks_chan_put_spec _ _ _ _ _ Hw Ha).
      + by intros ? w1 [? _].
    - apply wlp_quiet_keeps; [apply quiet_stimulate|done].
    - apply wlp_unit. eapply wlp_mono; [apply wlp_change_status; [done|]|].
      + unfold held, zero. rewrite (one_true _ Ha). lia.
      + by intros ? w1 (? & _). }
  unfold wlp in HG. rewrite Hrun in HG. exact HG.
Qed.

Lemma KInv_reach st : ks_reach st → KInv (λ _, 0) st.1.2 st.2 st.1.1.
Proof. induction 1; [apply KInv_init|by eapply KInv_step]. Qed.
End ops.
