(* ===== verification/KsThm.v ===== *)
(** * The kernel at work: executions, faults and the lock

    Concrete executions of the kernel module, and what holds of every execution. *)

From stdpp Require Import base list gmap.
From Stdlib Require Import ZArith Lia.
From S2P Require Import Prelude.
From S2P Require Import Bits.
From S2P Require Import KsProto.
From S2P Require Import KsKernel.
From S2P Require Import KsPipeline.
From S2P Require Import KsTopology.
From S2P Require Import KsWire.
From S2P Require Import KsInv.
From S2P Require Import KsStatus.
From S2P Require Import KsReach.
Local Open Scope Z_scope.

(** ** Executions by computation *)

Section run.
Context `{KsEnv}.

#[export] Instance allowed_dec i st : Decision (allowed i st).
Proof. destruct st as [[w dc] dn], i; cbn; apply _. Defined.

(** the inputs one after the other, while drivers do what they may and nothing faults *)
Fixpoint ks_run (l : list ks_input) (st : kst) : option kst :=
  match l with
  | [] => Some st
  | i :: l =>
    if decide (allowed i st) then
      match ks_handle i st.1.1 with
      | Done (_, w') => ks_run l (w', (drivers_refs i st).1, (drivers_refs i st).2)
      | Fault _ => None
      end
    else None
  end.

Lemma ks_run_reach l st st' : ks_run l st = Some st' → ks_reach st → ks_reach st'.
Proof.
  revert st. induction l as [|i l IH]; intros st; cbn [ks_run].
  - by intros [= ->].
  - destruct (decide (allowed i st)); [|done].
    destruct (ks_handle i st.1.1) as [[[] w']|f] eqn:E; [|done].
    intros Hrun Hst. eapply IH; [exact Hrun|]. eapply reach_step; [exact Hst|]. by constructor.
Qed.
End run.

(** ** An example *)

(** every call succeeds, buffers have 512 octets *)
Definition env_ok : KsEnv :=
  {| env_ret _ _ := 0; env_attr _ _ _ := (0, [], 0); env_skb _ := Some (replicate 512 0);
     retries := 2 |}.

(** a buffer with one message of the process [pid] *)
Definition request (type pid : Z) (attrs : list (Z * Z)) : sk_buff :=
  {| skb_data := nl_message type NLM_F_REQUEST 1 pid
                   ((λ a, ((a.1, le 4 a.2), [])) <$> attrs);
     skb_mem := []; skb_size := 16 + 8 * Z.of_nat (length attrs) |}.

Definition no_ops (op : ks_op) : bool := false.
Definition all_ops (op : ks_op) : bool := true.

(** two nodes, a channel between them, and a pipeline through it *)
Definition setup : list ks_input :=
  [in_node_create all_ops [97] []; in_node_register 0%nat;
   in_node_create all_ops [98] []; in_node_register 1%nat;
   in_chan_create all_ops false false [99] false [] 0%nat 1%nat; in_chan_register 2%nat].
Definition new_pipeline (status : Z) : ks_input :=
  in_message (request KS_NETLINK_PIPELINE_NEW 7
    [(KS_PIPELINEATTR_STATUS, status); (KS_PIPELINEATTR_CHAN_ID, 1)]).

Definition start : kst := (ks_init, λ _, 0, λ _, 0).
Definition after_inputs `{KsEnv} (l : list ks_input) : option kst := ks_run l start.

(** ** The backlog

    Handling a message leaves the backlog alone ([calm]); so a pass over it takes every
    buffer once, and one that was processed is gone. *)

Definition calm {A} (m : K A) : Prop := ∀ w, wlp m (λ _ w', ks_backlog w' = ks_backlog w) w.

Section calm.
Context `{KsEnv}.

Lemma kcalm_ret {A} (a : A) : calm (mret a).
Proof. by intros w. Qed.
Lemma calm_fail {A} f : calm (fail f : K A).
Proof. by intros w. Qed.
Lemma calm_lift {A} (o : outcome A) : calm (lift o).
Proof. intros w. unfold wlp, lift. by destruct o. Qed.
Lemma kcalm_get : calm get.
Proof. by intros w. Qed.
Lemma calm_deref {A} (o : option A) : calm (deref o : K A).
Proof. by destruct o. Qed.
Lemma calm_c_assert b : calm (c_assert b : K unit).
Proof. by destruct b. Qed.
Lemma kcalm_bind {A B} (m : K A) (k : A → K B) : calm m → (∀ a, calm (k a)) → calm (m ≫= k).
Proof.
  intros Hm Hk w. apply wlp_bind. eapply wlp_mono; [apply Hm|]. intros a w' Hw.
  eapply wlp_mono; [apply Hk|]. intros b w'' Hw'. cbn in *. congruence.
Qed.
Lemma calm_if {A} (b : bool) (m1 m2 : K A) : calm m1 → calm m2 → calm (if b then m1 else m2).
Proof. by destruct b. Qed.
Lemma calm_forM {A} (l : list A) (f : A → K unit) : (∀ a, calm (f a)) → calm (forM l f).
Proof. intros Hf. induction l as [|a l IH]; [apply kcalm_ret|]. by apply kcalm_bind. Qed.
Lemma calm_access {A} (sel : ks_world → gmap addr A) a : calm (access sel a).
Proof. intros w. unfold access, wlp, mbind, M_bind, get. by destruct (sel w !! a). Qed.
Lemma calm_put_feature a o : calm (put_feature a o).
Proof. by intros w. Qed.
Lemma calm_put_node a o : calm (put_node a o).
Proof. by intros w. Qed.
Lemma calm_put_chan a o : calm (put_chan a o).
Proof. by intros w. Qed.
Lemma calm_put_pipeline a o : calm (put_pipeline a o).
Proof. by intros w. Qed.
Lemma calm_upd_nl f : calm (upd_nl f).
Proof. by intros w. Qed.
Lemma calm_call c : calm (call c).
Proof. by intros w. Qed.
Lemma calm_kalloc_skb : calm kalloc_skb.
Proof. by intros w. Qed.
Lemma calm_new_addr : calm new_addr.
Proof. by intros w. Qed.
Lemma calm_modify f : (∀ w, ks_backlog (f w) = ks_backlog w) → calm (modify f).
Proof. intros Hf w. apply Hf. Qed.
End calm.

Create HintDb kback.
#[export] Hint Resolve kcalm_ret calm_fail calm_lift kcalm_get calm_deref calm_c_assert calm_forM
  calm_access calm_put_feature calm_put_node calm_put_chan calm_put_pipeline calm_upd_nl
  calm_call calm_kalloc_skb calm_new_addr : kback.

(** closes or reduces a goal [calm m]: by its shape, then by unfolding *)
Ltac calm :=
  repeat first
    [ solve [auto with kback nocore]
    | apply kcalm_bind; [|intros ?]
    | apply calm_if
    | solve [apply calm_modify; reflexivity]
    | match goal with
      | |- calm (match ?x with _ => _ end) => destruct x
      | |- calm (let '_ := ?x in _) => destruct x
      end
    | progress cbn beta iota
    | progress autounfold with kback ].

#[export] Hint Unfold the_feature the_node the_chan the_pipeline upd_feature upd_node upd_chan
  upd_pipeline node_call chan_call ks_node_get ks_node_put ks_chan_get ks_chan_release
  ks_chan_put ks_pipeline_get ks_pipeline_put ks_pipeline_put_opt _ks_node_search_by_id
  _ks_chan_search_by_id _ks_pipeline_search_by_id ks_chan_get_by_id ks_pipeline_get_by_id
  _ks_pipeline_new_id ks_netlink_need_skb ks_netlink_flush ks_netlink_mcast_need_skb
  ks_netlink_mcast_need_another_skb ks_netlink_mcast_flush and_then : kback.

Section loops.
Context `{KsEnv}.

Lemma calm_search {A} (sel : ks_world → gmap addr A) f id l : calm (search_by_id sel f id l).
Proof. induction l as [|a l IH]; cbn; calm. Qed.
Hint Resolve calm_search : kback.
Lemma calm_pipeline_search id : calm (_ks_pipeline_search_by_id id).
Proof. unfold _ks_pipeline_search_by_id. calm. Qed.
Lemma calm_new_id fuel search next id :
  (∀ i, calm (search i)) → calm (new_id_loop fuel search next id).
Proof. intros Hs. revert id. induction fuel as [|n IH]; intros id; cbn; calm. Qed.
Lemma calm_mcast_send_loop fuel write :
  (∀ skb seq, calm (write skb seq)) → calm (mcast_send_loop fuel write).
Proof. intros Hw. induction fuel as [|fuel IH]; cbn; calm. Qed.
Lemma calm_respond_loop fuel write :
  (∀ skb, calm (write skb)) → calm (respond_loop fuel write).
Proof. intros Hw. induction fuel as [|fuel IH]; cbn; calm. Qed.
Lemma calm_undo_chans op s l prev : calm (undo_chans op s l prev).
Proof. revert prev. induction l as [|c l IH]; intros prev; cbn; calm. Qed.
Lemma calm_do_chans op u l prev : calm (do_chans op u l prev).
Proof. revert prev. induction l as [|c l IH]; intros prev; cbn; calm. Qed.
Lemma calm_unlink_chans p l : calm (unlink_chans p l).
Proof. induction l as [|c l IH]; cbn; calm. Qed.
Lemma calm_min_mtu l m : calm (min_mtu l m).
Proof. revert m. induction l as [|c l IH]; intros m; cbn; calm. Qed.
Lemma calm_nlid id get l : (∀ i, calm (get i)) → calm (nlid_loop id get l).
Proof. intros Hg. induction l as [|a l IH]; cbn; calm. Qed.
Lemma calm_by_nlid nlh :
  calm (ks_pipeline_get_by_nlid nlh) ∧ calm (ks_chan_get_by_nlid nlh).
Proof.
  unfold ks_pipeline_get_by_nlid, ks_chan_get_by_nlid.
  split; (apply kcalm_bind; [calm|]); intros l; apply calm_nlid; intros i; calm.
Qed.
Lemma calm_pipeline_by_nlid nlh : calm (ks_pipeline_get_by_nlid nlh).
Proof. apply calm_by_nlid. Qed.
Lemma calm_chan_by_nlid nlh : calm (ks_chan_get_by_nlid nlh).
Proof. apply calm_by_nlid. Qed.
Lemma calm_chan_attrs c n i skb : calm (chan_attrs_loop c n i skb).
Proof. revert i skb. induction n as [|n IH]; intros i skb; cbn; calm. Qed.
Lemma calm_chan_update c l : calm (chan_update_loop c l).
Proof. induction l as [|a l IH]; cbn; calm. Qed.
End loops.
#[export] Hint Resolve calm_search calm_pipeline_search calm_new_id calm_mcast_send_loop calm_respond_loop
  calm_undo_chans calm_do_chans calm_unlink_chans calm_min_mtu calm_pipeline_by_nlid
  calm_chan_by_nlid calm_chan_attrs
  calm_chan_update : kback.

#[export] Hint Unfold undo_pipeline do_last_node unlink_all ks_pipeline_set_status
  ks_pipeline_connected_to_null ks_pipeline_open_to_connected ks_pipeline_flowing_to_open
  ks_pipeline_negotiate_mtu ks_pipeline_null_to_connected ks_pipeline_connected_to_open
  ks_pipeline_open_to_flowing ks_netlink_send_done ks_netlink_send_ack
  ks_netlink_send_error ks_pipeline_create ks_pipeline_mcast_send
  ks_pipeline_netlink_respond ks_chan_netlink_respond ks_pipeline_add_chan ks_pipeline_to_null
  ks_pipeline_update_from_nlsmsg ks_chan_update_from_nlmsg ks_do_lock : kback.

Section commands.
Context `{KsEnv}.

Lemma calm_respond_header pid seq type flags payload :
  calm (respond_header pid seq type flags payload).
Proof. apply calm_respond_loop. intros skb. calm. Qed.
Hint Resolve calm_respond_header : kback.

Lemma calm_change_status p s : calm (ks_pipeline_change_status p s).
Proof. unfold ks_pipeline_change_status. calm. Qed.
Hint Resolve calm_change_status : kback.

Lemma calm_pipeline_write p skb t pid seq flags :
  calm (ks_pipeline_write_to_nlmsg p skb t pid seq flags).
Proof.
  unfold ks_pipeline_write_to_nlmsg. calm.
  all: intros w; unfold wlp; by destruct (mapM _ _).
Qed.
Lemma calm_chan_write c skb t pid seq flags : calm (ks_chan_write_to_nlmsg c skb t pid seq flags).
Proof. unfold ks_chan_write_to_nlmsg. calm. Qed.
Lemma calm_node_write n skb t pid seq flags : calm (ks_node_write_to_nlmsg n skb t pid seq flags).
Proof. unfold ks_node_write_to_nlmsg. calm. Qed.
Lemma calm_feature_write f skb t pid seq flags :
  calm (ks_feature_write_to_nlmsg f skb t pid seq flags).
Proof. unfold ks_feature_write_to_nlmsg. calm. Qed.
Hint Resolve calm_pipeline_write calm_chan_write calm_node_write calm_feature_write : kback.

Lemma calm_register p : calm (ks_pipeline_register_no_topology_lock p).
Proof. unfold ks_pipeline_register_no_topology_lock. calm. Qed.
Lemma calm_unregister p : calm (ks_pipeline_unregister_no_topology_lock p).
Proof. unfold ks_pipeline_unregister_no_topology_lock. calm. Qed.
Lemma calm_create_loop p l s : calm (create_loop p l s).
Proof. revert s. induction l as [|a l IH]; intros s; cbn; calm. Qed.
Lemma calm_update_loop p l s : calm (update_loop p l s).
Proof. revert s. induction l as [|a l IH]; intros s; cbn; calm. Qed.
Lemma calm_cmd_get_loop write seq l cnt :
  (∀ a skb s, calm (write a skb s)) → calm (cmd_get_loop write seq l cnt).
Proof. intros Hw. revert cnt. induction l as [|a l IH]; intros cnt; cbn; calm. Qed.
Hint Resolve calm_register calm_unregister calm_create_loop calm_update_loop
  calm_cmd_get_loop : kback.

Lemma calm_cmd_get write req l : (∀ a skb s, calm (write a skb s)) → calm (cmd_get write req l).
Proof. intros Hw. unfold cmd_get. calm.
Qed.
Hint Resolve calm_cmd_get : kback.

Lemma calm_commands : Forall (λ c, ∀ req nlh, calm (c.2 req nlh)) ks_commands.
Proof.
  unfold ks_commands.
  repeat (apply Forall_cons; split; [intros req nlh; cbn [snd]|]); [..|by apply Forall_nil].
  all: unfold ks_cmd_done, ks_cmd_noop, ks_cmd_version_request, ks_cmd_topology_lock,
    ks_cmd_topology_trylock, ks_cmd_topology_unlock, ks_cmd_not_implemented, ks_feature_cmd_get,
    ks_node_cmd_get, ks_chan_cmd_get, ks_chan_cmd_set, ks_pipeline_cmd_new, ks_pipeline_cmd_del,
    ks_pipeline_cmd_get, ks_pipeline_cmd_set, ks_pipeline_create_from_nlmsg; calm.
Qed.

Lemma calm_rcv_msg nlh : calm (ks_netlink_rcv_msg nlh).
Proof.
  unfold ks_netlink_rcv_msg. apply kcalm_bind; [calm|]. intros req.
  destruct (negb _); [calm|]. destruct (find_command _ _) as [h|] eqn:Hh; [|calm].
  assert (Hc : calm (h req nlh)).
  { destruct (find_command_in _ _ _ Hh) as [t Hin].
    pose proof calm_commands as Hall. rewrite Forall_forall in Hall.
    exact (Hall _ Hin req nlh). }
  calm.
Qed.
Hint Resolve calm_rcv_msg : kback.

Lemma calm_rcv_skb skb : calm (ks_netlink_rcv_skb skb).
Proof.
  unfold ks_netlink_rcv_skb. generalize (length (skb_data skb) `div` 16)%nat. intros fuel.
  revert skb. induction fuel as [|fuel IH]; intros skb; cbn [rcv_skb_loop]; calm.
Qed.
End commands.

Section backlog.
Context `{KsEnv}.

(** a message that must wait: a process has the lock *)
Lemma rcv_msg_waits nlh w w' :
  ks_netlink_rcv_msg nlh w = Done (- EAGAIN, w') → lock_owner (netlink_state w') ≠ 0.
Proof.
  unfold ks_netlink_rcv_msg, mbind, M_bind, lift. destruct (nlmsg_hdr nlh) as [req|]; [|done].
  destruct (negb _); [done|]. destruct (find_command _ _) as [h|]; [|done]. unfold get.
  destruct (_ && _) eqn:Hl.
  - intros [= <-]. apply andb_true_iff in Hl as [Hl _]. apply negb_true_iff, Z.eqb_neq in Hl. done.
  - destruct (upd_nl _ w) as [[? w1]|]; [|done]. destruct (h req nlh w1) as [[err w2]|]; [|done].
    destruct (if err <? 0 then _ else _) as [[? w3]|]; [|done].
    destruct (ks_netlink_flush w3) as [[? w4]|]; [|done].
    by destruct (ks_netlink_mcast_flush w4) as [[? w5]|].
Qed.

Lemma rcv_skb_waits skb skb' w w' :
  ks_netlink_rcv_skb skb w = Done ((- EAGAIN, skb'), w') → lock_owner (netlink_state w') ≠ 0.
Proof.
  unfold ks_netlink_rcv_skb. generalize (length (skb_data skb) `div` 16)%nat. intros fuel.
  revert skb w. induction fuel as [|fuel IH]; intros skb w; cbn [rcv_skb_loop];
    (destruct (skb_len skb <? NLMSG_SPACE 0); [done|]); [done|].
  unfold mbind, M_bind, lift. destruct (nlmsg_hdr _) as [h|]; [|done].
  destruct (_ || _); [done|].
  destruct (ks_netlink_rcv_msg _ w) as [[err w1]|] eqn:Hm; [|done].
  destruct (Z.eqb_spec err (- EAGAIN)) as [->|].
  - intros [= _ <-]. by eapply rcv_msg_waits.
  - destruct (if err <? 0 then _ else _) as [[? w2]|]; [|done]. apply IH.
Qed.

(** What a pass does: the backlog gets shorter if a buffer was processed; otherwise it
    has all its buffers still, and a process has the lock unless there was none. *)
Lemma backlog_pass_spec n b w r w' :
  backlog_pass n b w = Done (r, w') → (n ≤ length (ks_backlog w))%nat →
  (length (ks_backlog w') ≤ length (ks_backlog w))%nat ∧
  (r = true → b = true ∨ (length (ks_backlog w') < length (ks_backlog w))%nat) ∧
  (r = false → (0 < n)%nat → lock_owner (netlink_state w') ≠ 0) ∧ (b = true → r = true).
Proof.
  revert b w. induction n as [|n IH]; intros b w; cbn [backlog_pass].
  { intros [= <- <-] _. split_and!; auto; lia. }
  unfold mbind, M_bind, get. destruct (ks_backlog w) as [|skb l] eqn:Hb; [cbn; lia|].
  unfold put. destruct (ks_netlink_rcv_skb skb _) as [[[err skb'] w1]|] eqn:Hr; [|done].
  assert (Hb1 : ks_backlog w1 = l).
  { pose proof (calm_rcv_skb skb (set_ks_backlog l w)) as Hc. unfold wlp in Hc.
    by rewrite Hr in Hc. }
  cbn [length]. destruct (Z.eqb_spec err (- EAGAIN)) as [->|].
  - unfold modify. intros Hp Hn. apply rcv_skb_waits in Hr.
    destruct (IH _ _ Hp) as (L1 & L2 & L3 & L4).
    { cbn. rewrite Hb1, length_app. cbn. lia. }
    cbn [ks_backlog set_ks_backlog] in L1, L2. rewrite Hb1, length_app in L1, L2. cbn in L1, L2.
    split; [lia|]. split; [intros Er; destruct (L2 Er); [by left|right; lia]|]. split; [|done].
    intros Er _. destruct n as [|n]; [|apply L3; [done|lia]].
    injection Hp as _ <-. exact Hr.
  - intros Hp Hn. destruct (IH _ _ Hp) as (L1 & L2 & L3 & L4); [rewrite Hb1; lia|].
    rewrite Hb1 in L1, L2. specialize (L4 eq_refl). subst r.
    split_and!; [lia| |done|done]. intros _. right. lia.
Qed.

(** more iterations change nothing *)
Lemma backlog_loop_fuel n k w :
  (length (ks_backlog w) < n)%nat → backlog_loop (n + k) w = backlog_loop n w.
Proof.
  revert w. induction n as [|n IH]; intros w Hn; [lia|]. cbn [backlog_loop Nat.add].
  unfold mbind, M_bind, get. destruct (backlog_pass _ false w) as [[r w1]|] eqn:Hp; [|done].
  destruct (backlog_pass_spec _ _ _ _ _ Hp) as (_ & L2 & _); [done|].
  destruct r; [|done]. apply IH. destruct (L2 eq_refl); [done|lia].
Qed.

(** the loop ends with an empty backlog or a process that has the lock *)
Lemma backlog_loop_drained n w w' :
  backlog_loop n w = Done (tt, w') → lock_owner (netlink_state w') = 0 → ks_backlog w' = [].
Proof.
  revert w. induction n as [|n IH]; intros w; cbn [backlog_loop]; [done|].
  unfold mbind, M_bind, get. destruct (backlog_pass _ false w) as [[r w1]|] eqn:Hp; [|done].
  destruct (backlog_pass_spec _ _ _ _ _ Hp) as (L1 & _ & L3 & _); [done|].
  destruct r; [apply IH|]. intros [= <-] Ho.
  destruct (ks_backlog w) as [|skb l]; [destruct (ks_backlog w1); [done|cbn in L1; lia]|].
  exfalso. apply L3; [done|cbn; lia|done].
Qed.

(** C24. Whenever the reception of a buffer of messages has ended and no process has the
    topology locked, no buffer waits in the backlog: each request that had to wait for
    the lock has been handled. *)
Theorem backlog_drained skb w w' :
  ks_netlink_rcv skb w = Done (tt, w') → lock_owner (netlink_state w') = 0 → ks_backlog w' = [].
Proof.
  unfold ks_netlink_rcv, mbind at 1, M_bind at 1.
  destruct (ks_netlink_rcv_skb skb w) as [[[err skb'] w1]|]; [|done].
  unfold mbind at 1, M_bind at 1. destruct (if err =? _ then _ else _) as [[? w2]|]; [|done].
  unfold ks_netlink_process_backlog, mbind, M_bind, get. apply backlog_loop_drained.
Qed.

(** handling one message, or refusing it, runs into a retry that never ends *)
Definition message_diverges : Prop :=
  ∃ w, (∃ nlh, ks_netlink_rcv_msg nlh w = Fault Diverges) ∨
       (∃ req err, ks_netlink_send_error req err w = Fault Diverges).

Lemma nlmsg_hdr_ends mem : nlmsg_hdr mem ≠ Fault Diverges.
Proof. unfold nlmsg_hdr. by destruct (_ <? _)%nat. Qed.

Lemma rcv_skb_ends skb w :
  ks_netlink_rcv_skb skb w = Fault Diverges → message_diverges.
Proof.
  unfold ks_netlink_rcv_skb.
  assert (Hf : skb_len skb < 16 * (Z.of_nat (length (skb_data skb) `div` 16) + 1)).
  { unfold skb_len. rewrite Nat2Z.inj_div. Z.to_euclidean_division_equations; lia. }
  revert Hf. generalize (length (skb_data skb) `div` 16)%nat. intros fuel.
  revert skb w. induction fuel as [|fuel IH]; intros skb w Hf; cbn [rcv_skb_loop];
    rewrite NLMSG_SPACE_0; destruct (Z.ltb_spec (skb_len skb) 16); try done; [lia|].
  unfold mbind, M_bind, lift. destruct (nlmsg_hdr _) as [h|f] eqn:Hh.
  2: { intros [= ->]. by apply nlmsg_hdr_ends in Hh. }
  destruct (Z.ltb_spec (nlmsg_len h) 16); [done|].
  destruct (Z.ltb_spec (skb_len skb) (nlmsg_len h)); [done|]. cbn [orb].
  destruct (ks_netlink_rcv_msg _ w) as [[err w1]|f] eqn:Hm.
  2: { intros [= ->]. exists w. left. by eexists. }
  destruct (err =? _); [done|].
  destruct (err <? 0).
  - destruct (ks_netlink_send_error h err w1) as [[? w2]|f] eqn:He.
    2: { intros [= ->]. exists w1. right. by eexists _, _. }
    apply IH. unfold skb_pull, skb_len. cbn [skb_data]. rewrite length_drop.
    pose proof (NLMSG_ALIGN_bounds (nlmsg_len h)). unfold skb_len in *. lia.
  - apply IH. unfold skb_pull, skb_len. cbn [skb_data]. rewrite length_drop.
    pose proof (NLMSG_ALIGN_bounds (nlmsg_len h)). unfold skb_len in *. lia.
Qed.

Lemma backlog_pass_ends n b w : backlog_pass n b w = Fault Diverges → message_diverges.
Proof.
  revert b w. induction n as [|n IH]; intros b w; cbn [backlog_pass]; [done|].
  unfold mbind, M_bind, get, put. destruct (ks_backlog w) as [|skb l]; [done|].
  destruct (ks_netlink_rcv_skb skb _) as [[[err skb'] w1]|f] eqn:Hr.
  2: { intros [= ->]. by eapply rcv_skb_ends. }
  destruct (err =? _); [unfold modify|]; apply IH.
Qed.

Lemma backlog_loop_ends n w :
  (length (ks_backlog w) < n)%nat → backlog_loop n w = Fault Diverges → message_diverges.
Proof.
  revert w. induction n as [|n IH]; intros w Hn; [lia|]. cbn [backlog_loop].
  unfold mbind, M_bind, get. destruct (backlog_pass _ false w) as [[r w1]|f] eqn:Hp.
  2: { intros [= ->]. by eapply backlog_pass_ends. }
  destruct (backlog_pass_spec _ _ _ _ _ Hp) as (_ & L2 & _); [done|].
  destruct r; [|done]. apply IH. destruct (L2 eq_refl); [done|lia].
Qed.

(** The reception of a buffer ends: the loop over its messages and the passes over
    the backlog, however many buffers wait and whatever they hold, diverge only where the
    handling of a single message does. *)
Theorem reception_ends skb w : ks_netlink_rcv skb w = Fault Diverges → message_diverges.
Proof.
  unfold ks_netlink_rcv, mbind at 1, M_bind at 1.
  destruct (ks_netlink_rcv_skb skb w) as [[[err skb'] w1]|f] eqn:Hr.
  2: { intros [= ->]. by eapply rcv_skb_ends. }
  unfold mbind at 1, M_bind at 1.
  destruct (err =? _); cbn [modify mret M_ret];
    unfold ks_netlink_process_backlog, mbind, M_bind, get; apply backlog_loop_ends; lia.
Qed.

(** ** The topology lock *)

(** the first message of the buffer must wait: another process has the lock *)
Definition blocked (w : ks_world) (skb : sk_buff) : Prop :=
  ∃ req, nlmsg_hdr (skb_data skb ++ skb_mem skb) = Done req ∧
    16 ≤ nlmsg_len req ≤ skb_len skb ∧ Z.testbit (nlmsg_flags req) 0 = true ∧
    is_Some (find_command (nlmsg_type req) ks_commands) ∧
    lock_owner (netlink_state w) ≠ 0 ∧ is_owner w req = false.

Lemma blocked_backlog w skb l : blocked w skb → blocked (set_ks_backlog l w) skb.
Proof. done. Qed.

Lemma rcv_skb_blocked w skb :
  blocked w skb → ks_netlink_rcv_skb skb w = Done ((- EAGAIN, skb), w).
Proof.
  intros (req & Hh & Hlen & Hreq & [h Hc] & Ho & Hown).
  assert (Hd : (16 ≤ length (skb_data skb))%nat) by (unfold skb_len in Hlen; lia).
  unfold ks_netlink_rcv_skb.
  destruct (length (skb_data skb) `div` 16)%nat as [|fuel] eqn:Ef.
  { apply Nat.div_small_iff in Ef; lia. }
  cbn [rcv_skb_loop]. rewrite NLMSG_SPACE_0.
  destruct (Z.ltb_spec (skb_len skb) 16); [lia|].
  unfold mbind, M_bind, lift. rewrite Hh.
  destruct (Z.ltb_spec (nlmsg_len req) 16); [lia|].
  destruct (Z.ltb_spec (skb_len skb) (nlmsg_len req)); [lia|]. cbn [orb].
  assert (Hm : ks_netlink_rcv_msg (skb_data skb ++ skb_mem skb) w = Done (- EAGAIN, w)).
  { unfold ks_netlink_rcv_msg, mbind, M_bind, lift. rewrite Hh, Hreq, Hc. cbn [negb].
    unfold get. rewrite Hown, (proj2 (Z.eqb_neq _ _) Ho). done. }
  by rewrite Hm.
Qed.

Lemma backlog_pass_blocked n w :
  Forall (blocked w) (ks_backlog w) → (n ≤ length (ks_backlog w))%nat →
  backlog_pass n false w
  = Done (false, set_ks_backlog (drop n (ks_backlog w) ++ take n (ks_backlog w)) w).
Proof.
  revert w. induction n as [|n IH]; intros w Hb Hn; cbn [backlog_pass].
  { rewrite app_nil_r. by destruct w. }
  unfold mbind, M_bind, get, put. destruct (ks_backlog w) as [|skb l] eqn:El; [cbn in Hn; lia|].
  apply Forall_cons in Hb as [Hs Hb]. rewrite rcv_skb_blocked by (by apply blocked_backlog).
  change (- EAGAIN =? - EAGAIN) with true. cbv iota. unfold modify. rewrite IH.
  - cbn [ks_backlog set_ks_backlog drop take length] in *.
    rewrite drop_app_le, take_app_le by lia. rewrite <- (assoc_L (++)). reflexivity.
  - cbn. apply Forall_app. split; [|by constructor]. by apply Hb.
  - cbn in Hn |- *. rewrite length_app. cbn. lia.
Qed.

(** While a process has the topology locked, a buffer of another process changes
    nothing: it is put at the end of the backlog as it is, in turn behind the others that
    wait, and no reply, no message and no call of a driver is made for it. *)
Theorem lock_excludes w skb :
  blocked w skb → Forall (blocked w) (ks_backlog w) →
  ks_netlink_rcv skb w = Done (tt, set_ks_backlog (ks_backlog w ++ [skb]) w).
Proof.
  intros Hs Hb. unfold ks_netlink_rcv, mbind at 1, M_bind at 1. rewrite rcv_skb_blocked by done.
  change (- EAGAIN =? - EAGAIN) with true. cbv iota. unfold mbind at 1, M_bind at 1, modify.
  set (w1 := set_ks_backlog _ w).
  assert (Hb1 : Forall (blocked w1) (ks_backlog w1)).
  { unfold w1. cbn. apply Forall_app. split; [exact Hb|by constructor]. }
  unfold ks_netlink_process_backlog, mbind at 1, M_bind at 1, get. cbn [backlog_loop].
  unfold mbind, M_bind, get. rewrite backlog_pass_blocked by done.
  rewrite drop_all, firstn_all. by destruct w.
Qed.
End backlog.

(** ** What holds of every execution *)

Section claims.
Context `{KsEnv}.

(** C5. In every state the module can reach by commands of processes and operations of
    drivers, whatever the drivers answer: each reference count of a pipeline, a channel
    and a node is the number of references the structures and the drivers hold; a channel
    is in the pipeline it points to and in no other one; and nothing dangles. *)
Theorem references_exact st : ks_reach st → KInv (λ _, 0) st.1.2 st.2 st.1.1.
Proof. apply KInv_reach. Qed.

(** C17. [ks_pipeline_change_status] on a registered pipeline of a reachable state meets
    no fault: it succeeds and the pipeline has the status asked for, or a driver refused
    and the pipeline has a status on the way there; a pipeline that has come back to NULL
    has no channels any more; and the references stay exact. *)
Theorem change_status_ends st p o s' :
  ks_reach st → p ∈ ks_pipelines_list st.1.1 → pipelines st.1.1 !! p = Some o →
  proper (pipeline_status o) → proper s' →
  ∃ err w' o', ks_pipeline_change_status p s' st.1.1 = Done (err, w') ∧
    KInv (λ _, 0) st.1.2 st.2 w' ∧ pipelines w' !! p = Some o' ∧
    (err = 0 ∧ pipeline_status o' = s' ∨
     err < 0 ∧ rank (pipeline_status o) ≤ rank (pipeline_status o') < rank s') ∧
    (pipeline_status o' = KS_PIPELINE_STATUS_NULL → pipeline_status o ≠ s' → entries o' = []).
Proof.
  intros Hst Hp Ho Hs Hs'. pose proof (KInv_reach _ Hst) as Hinv.
  assert (Hh : held (λ _, 0) st.1.1 p) by (unfold held; rewrite (one_true _ Hp); lia).
  pose proof (wp_change_status _ _ _ _ _ _ s' Hinv Hh Ho Hs Hs') as Hw. unfold wp in Hw.
  destruct (ks_pipeline_change_status p s' st.1.1) as [[err w']|]; [|done].
  destruct Hw as (H1 & _ & o' & H2 & H3 & H4). by exists err, w', o'.
Qed.
End claims.

Section witnesses.
#[local] Existing Instance env_ok.

Definition pipeline_lives (st : kst) : Prop :=
  pipeline_status <$> pipelines st.1.1 !! 3%nat = Some KS_PIPELINE_STATUS_FLOWING ∧
  pipeline_of st.1.1 2%nat = Some 3%nat.

Lemma references_exact_witness :
  ∃ st, pipeline_lives st ∧ KInv (λ _, 0) st.1.2 st.2 st.1.1.
Proof.
  destruct (after_inputs (setup ++ [new_pipeline 3])) as [st|] eqn:E; [|by vm_compute in E].
  exists st. split.
  - assert (Hl : option_map (λ st, (pipeline_status <$> pipelines st.1.1 !! 3%nat,
                                pipeline_of st.1.1 2%nat)) (Some st)
                 = Some (Some KS_PIPELINE_STATUS_FLOWING, Some 3%nat)).
    { rewrite <- E. vm_compute. reflexivity. }
    injection Hl as H1 H2. by split.
  - apply references_exact. eapply ks_run_reach; [exact E|apply reach_init].
Defined.

Definition live_pipeline : ks_pipeline :=
  {| pipeline_refcount := 2; pipeline_path := pipeline_name 1 :: pipelines_kset;
     pipeline_id := 1; pipeline_status := KS_PIPELINE_STATUS_FLOWING; entries := [2%nat];
     pipeline_mtu := 65536 |}.

Lemma change_status_ends_witness :
  ∃ st err w' o', ks_reach st ∧
    ks_pipeline_change_status 3%nat KS_PIPELINE_STATUS_CONNECTED st.1.1 = Done (err, w') ∧
    pipelines w' !! 3%nat = Some o' ∧
    (err = 0 ∧ pipeline_status o' = KS_PIPELINE_STATUS_CONNECTED ∨ err < 0).
Proof.
  destruct (after_inputs (setup ++ [new_pipeline 3])) as [st|] eqn:E; [|by vm_compute in E].
  set (view := λ st : kst, (pipelines st.1.1 !! 3%nat, ks_pipelines_list st.1.1)).
  assert (Hl : option_map view (Some st) = Some (Some live_pipeline, [3%nat])).
  { rewrite <- E. vm_compute. reflexivity. }
  injection Hl as H1 H2.
  assert (Hr : ks_reach st) by (eapply ks_run_reach; [exact E|apply reach_init]).
  destruct (change_status_ends st 3%nat live_pipeline KS_PIPELINE_STATUS_CONNECTED Hr) as
    (err & w' & o' & R1 & R2 & R3 & R4 & _); [rewrite H2; left|exact H1|exact I|exact I|].
  exists st, err, w', o'. split; [exact Hr|]. split; [exact R1|]. split; [exact R3|].
  destruct R4 as [R4|[R4 _]]; [left; exact R4|right; exact R4].
Defined.

(** the process 7 has the lock, the process 8 waits *)
Definition locked : list ks_input := [in_message (request KS_NETLINK_TOPOLOGY_LOCK 7 [])].
Definition waiting : list ks_input := locked ++ [in_message (request NLMSG_NOOP 8 [])].

Lemma backlog_drained_witness :
  ∃ w w', length (ks_backlog w) = 1%nat ∧
    ks_netlink_rcv (request KS_NETLINK_TOPOLOGY_UNLOCK 7 []) w = Done (tt, w') ∧
    ks_backlog w' = [].
Proof.
  destruct (after_inputs waiting) as [st|] eqn:E; [|by vm_compute in E].
  destruct (ks_netlink_rcv (request KS_NETLINK_TOPOLOGY_UNLOCK 7 []) st.1.1) as [[[] w']|] eqn:E2.
  - exists st.1.1, w'. assert (Hv : option_map (λ st, (length (ks_backlog st.1.1),
        match ks_netlink_rcv (request KS_NETLINK_TOPOLOGY_UNLOCK 7 []) st.1.1 with
        | Done (_, w') => lock_owner (netlink_state w') | Fault _ => 1 end)) (Some st)
      = Some (1%nat, 0)) by (rewrite <- E; vm_compute; reflexivity).
    cbn [option_map] in Hv. rewrite E2 in Hv. injection Hv as H1 H2.
    split; [exact H1|]. split; [exact E2|]. by apply (backlog_drained _ _ _ E2).
  - exfalso. assert (Hv : option_map (λ st, match ks_netlink_rcv (request
        KS_NETLINK_TOPOLOGY_UNLOCK 7 []) st.1.1 with Done _ => true | Fault _ => false end)
      (Some st) = Some true) by (rewrite <- E; vm_compute; reflexivity).
    cbn [option_map] in Hv. by rewrite E2 in Hv.
Defined.

Lemma lock_excludes_witness :
  ∃ w, lock_owner (netlink_state w) = 7 ∧
    ks_netlink_rcv (request NLMSG_NOOP 8 []) w
    = Done (tt, set_ks_backlog [request NLMSG_NOOP 8 []] w).
Proof.
  destruct (after_inputs locked) as [st|] eqn:E; [|by vm_compute in E].
  assert (Hv : option_map (λ st, (lock_owner (netlink_state st.1.1), ks_backlog st.1.1)) (Some st)
               = Some (7, [])) by (rewrite <- E; vm_compute; reflexivity).
  injection Hv as H1 H2. exists st.1.1. split; [exact H1|].
  rewrite (lock_excludes st.1.1 (request NLMSG_NOOP 8 [])).
  - by rewrite H2.
  - eexists. split; [reflexivity|]. split; [by vm_compute|]. split; [reflexivity|].
    split; [by eexists|]. split; [by rewrite H1|]. unfold is_owner. by rewrite H1.
  - rewrite H2. constructor.
Defined.
End witnesses.

(** buffers have no room for a message *)
Definition env_small : KsEnv :=
  {| env_ret _ _ := 0; env_attr _ _ _ := (0, [], 0); env_skb _ := Some (replicate 8 0);
     retries := 100 |}.

Lemma reception_ends_witness :
  ks_netlink_rcv (H := env_small) (request NLMSG_NOOP 7 []) ks_init = Fault Diverges ∧
  message_diverges (H := env_small).
Proof.
  assert (E : ks_netlink_rcv (H := env_small) (request NLMSG_NOOP 7 []) ks_init = Fault Diverges)
    by (vm_compute; reflexivity).
  split; [exact E|]. exact (reception_ends (H := env_small) _ _ E).
Defined.

(** ** What a process can do to the kernel *)

Section faults.
Context `{KsEnv}.

(** the messages of the examples *)
Lemma request_hdr type :
  0 ≤ type < 65536 →
  nlmsg_hdr (skb_data (request type 0 []) ++ skb_mem (request type 0 []))
  = Done {| nlmsg_len := 16; nlmsg_type := type; nlmsg_flags := NLM_F_REQUEST;
            nlmsg_seq := 1; nlmsg_pid := 0 |}.
Proof. intros Ht. by apply (nlmsg_hdr_bytes (mk_nlmsghdr 16 type NLM_F_REQUEST 1 0)). Qed.

Lemma rcv_msg_aborts type nlh req h w :
  nlmsg_hdr nlh = Done req → Z.testbit (nlmsg_flags req) 0 = true →
  nlmsg_type req = type → find_command type ks_commands = Some h →
  lock_owner (netlink_state w) = 0 →
  (∀ w1, lock_owner (netlink_state w1) = 0 → h req nlh w1 = Fault AssertFail) →
  ks_netlink_rcv_msg nlh w = Fault AssertFail.
Proof.
  intros Hh Hf Ht Hc Ho Hhandler. unfold ks_netlink_rcv_msg, mbind, M_bind, lift.
  rewrite Hh, Hf, Ht, Hc. unfold get. cbn [negb]. cbv beta iota.
  rewrite Ho. cbn [negb andb Z.eqb]. cbv beta iota.
  unfold upd_nl, modify. by rewrite Hhandler.
Qed.

(** A process that gives 0 as its identifier in a request for the topology lock, by
    [LOCK] or by [TRYLOCK], runs the kernel into a [BUG_ON] whenever nobody has the
    lock. *)
Theorem lock_of_nobody_aborts type w :
  type = KS_NETLINK_TOPOLOGY_LOCK ∨ type = KS_NETLINK_TOPOLOGY_TRYLOCK →
  lock_owner (netlink_state w) = 0 →
  ks_netlink_rcv (request type 0 []) w = Fault AssertFail.
Proof.
  intros Ht Ho. unfold ks_netlink_rcv, mbind at 1, M_bind at 1, ks_netlink_rcv_skb.
  change (length (skb_data (request type 0 [])) `div` 16)%nat with 1%nat. cbn [rcv_skb_loop].
  change (skb_len (request type 0 []) <? NLMSG_SPACE 0) with false. cbv iota.
  unfold mbind at 1 2, M_bind at 1 2, lift.
  assert (Hh := request_hdr type ltac:(destruct Ht; subst; done)).
  rewrite Hh. cbn [nlmsg_len].
  change ((16 <? 16) || (skb_len (request type 0 []) <? 16)) with false. cbv iota.
  assert (Hm : ks_netlink_rcv_msg
                 (skb_data (request type 0 []) ++ skb_mem (request type 0 [])) w
               = Fault AssertFail).
  { destruct Ht as [-> | ->].
    - eapply (rcv_msg_aborts KS_NETLINK_TOPOLOGY_LOCK); [exact Hh|done..|]. intros w1 Ho1.
      unfold ks_cmd_topology_lock, mbind, M_bind, get. by rewrite Ho1.
    - eapply (rcv_msg_aborts KS_NETLINK_TOPOLOGY_TRYLOCK); [exact Hh|done..]. }
  unfold mbind, M_bind. by rewrite Hm.
Qed.
End faults.

Lemma lock_of_nobody_aborts_witness :
  ks_netlink_rcv (H := env_ok) (request KS_NETLINK_TOPOLOGY_LOCK 0 []) ks_init = Fault AssertFail.
Proof. apply (lock_of_nobody_aborts (H := env_ok)); [by left|reflexivity]. Defined.

Section examples.
#[local] Existing Instance env_ok.

(** the outcome of the input [i] after the inputs [l] *)
Definition then_input `{KsEnv} (l : list ks_input) (i : ks_input) : option (outcome unit) :=
  option_map (λ st, match ks_handle i st.1.1 with Done _ => Done tt | Fault f => Fault f end)
    (after_inputs l).

(** A pipeline that was created with a status that does not exist keeps its channels
    when it is deleted; the driver that then unregisters one of them makes the kernel
    take the pipeline off its list a second time. *)
Theorem invalid_status_corrupts :
  then_input (setup ++ [new_pipeline 9;
                        in_message (request KS_NETLINK_PIPELINE_DEL 7 [(KS_PIPELINEATTR_ID, 1)])])
    (in_chan_unregister 2%nat) = Some (Fault ListCorruption).
Proof. vm_compute. reflexivity. Qed.

(** a change of a pipeline with two identifiers runs into [BUG_ON] *)
Example two_identifiers_abort :
  then_input (setup ++ [new_pipeline 1])
    (in_message (request KS_NETLINK_PIPELINE_SET 7
                   [(KS_PIPELINEATTR_ID, 1); (KS_PIPELINEATTR_ID, 2)])) = Some (Fault AssertFail).
Proof. vm_compute. reflexivity. Qed.

(** a change of a pipeline without a status takes its channels away *)
Example set_without_status_tears_down :
  option_map (λ st, entries <$> pipelines st.1.1 !! 3%nat)
    (after_inputs (setup ++ [new_pipeline 3;
       in_message (request KS_NETLINK_PIPELINE_SET 7 [(KS_PIPELINEATTR_ID, 1)])]))
  = Some (Some []).
Proof. vm_compute. reflexivity. Qed.

(** a message that waits stays in the backlog when the lock times out *)
Example lock_timeout_leaves_backlog :
  option_map (λ st, (lock_owner (netlink_state st.1.1), length (ks_backlog st.1.1)))
    (after_inputs (waiting ++ [in_lock_timeout])) = Some (0, 1%nat).
Proof. vm_compute. reflexivity. Qed.
End examples.

(** ** A refused step *)

(** three nodes in a row, two channels, and a pipeline through both *)
Definition setup2 : list ks_input :=
  [in_node_create all_ops [97] []; in_node_register 0%nat;
   in_node_create all_ops [98] []; in_node_register 1%nat;
   in_node_create all_ops [99] []; in_node_register 2%nat;
   in_chan_create all_ops false false [100] false [] 0%nat 1%nat; in_chan_register 3%nat;
   in_chan_create all_ops false false [101] false [] 1%nat 2%nat; in_chan_register 4%nat;
   in_message (request KS_NETLINK_PIPELINE_NEW 7
     [(KS_PIPELINEATTR_STATUS, 1); (KS_PIPELINEATTR_CHAN_ID, 1); (KS_PIPELINEATTR_CHAN_ID, 2)]);
   in_change_status 5%nat KS_PIPELINE_STATUS_OPEN].

(** the driver of the channel [c] refuses [open] *)
Definition env_refuse (c : addr) : KsEnv :=
  {| env_ret _ k := match k with
                    | call_chan op_open a => if decide (a = c) then -1 else 0
                    | _ => 0
                    end;
     env_attr _ _ _ := (0, [], 0); env_skb _ := Some (replicate 512 0); retries := 2 |}.

(** the calls that open or close a node or a channel, in order *)
Definition open_calls (st : kst) : list ks_call :=
  reverse (filter (λ k, match k with
                        | call_node op_open _ _ _ | call_chan op_open _
                        | call_node op_close _ _ _ | call_chan op_close _ => true
                        | _ => false
                        end = true) (calls st.1.1)).

(** The second channel refuses: the first channel and its node, which had been opened,
    are not closed, though the pipeline says that it is connected only. *)
Example last_opened_stays_open :
  option_map (λ st, (open_calls st, pipeline_status <$> pipelines st.1.1 !! 5%nat))
    (after_inputs (H := env_refuse 4%nat) setup2)
  = Some ([call_node op_open 0%nat (link_chan 3%nat) link_null; call_chan op_open 3%nat;
           call_node op_open 1%nat (link_chan 4%nat) (link_chan 3%nat); call_chan op_open 4%nat;
           call_node op_close 1%nat (link_chan 4%nat) (link_chan 3%nat)],
          Some KS_PIPELINE_STATUS_CONNECTED).
Proof. vm_compute. reflexivity. Qed.

(** The first channel refuses: both channels and all nodes are closed, which had not been
    opened. *)
Example never_opened_is_closed :
  option_map (λ st, (open_calls st, pipeline_status <$> pipelines st.1.1 !! 5%nat))
    (after_inputs (H := env_refuse 3%nat) setup2)
  = Some ([call_node op_open 0%nat (link_chan 3%nat) link_null; call_chan op_open 3%nat;
           call_node op_close 0%nat (link_chan 3%nat) link_null; call_chan op_close 3%nat;
           call_node op_close 0%nat (link_chan 3%nat) link_null; call_chan op_close 4%nat;
           call_node op_close 1%nat (link_chan 4%nat) (link_chan 3%nat);
           call_node op_close 2%nat link_null (link_head 5%nat)],
          Some KS_PIPELINE_STATUS_CONNECTED).
Proof. vm_compute. reflexivity. Qed.
