(* ===== verification/KsLib.v ===== *)
(** * The library's copy of the topology

    [src/libkstreamer/]: features, nodes, channels and pipelines with their reference
    counts and hash tables ([feature.c], [node.c], [channel.c], [pipeline.c]), and what
    the messages of the kernel do to them ([ks_topology_update] of [libkstreamer.c]).

    There is one connection; a pointer [conn] of an object is whether it is set.  Objects
    are in heaps, a freed object is gone from its heap.  [malloc] succeeds.  A call of
    the application's [topology_event_callback] is recorded.  Reports, dumps, the
    look-up by paths and [pthread] locks are left out. *)

From stdpp Require Import base list gmap.
From Stdlib Require Import ZArith Lia.
From S2P Require Import Prelude.
From S2P Require Import Bits.
From S2P Require Import KsProto.
Local Open Scope Z_scope.

Notation addr := nat.

(** ** Objects *)

(** [struct ks_feature] *)
Record ks_feature : Type := mk_feature {
  feature_refcnt : Z;
  feature_conn : bool;
  feature_id : Z;
  feature_name : option (list Z);
}.
Definition eta_ks_feature (r : ks_feature) : ks_feature :=
  {| feature_refcnt := feature_refcnt r;
     feature_conn := feature_conn r;
     feature_id := feature_id r;
     feature_name := feature_name r |}.
Definition set_feature_refcnt (v : Z) (r : ks_feature) : ks_feature :=
  ltac:(upd_field feature_refcnt eta_ks_feature v r).
Definition set_feature_conn (v : bool) (r : ks_feature) : ks_feature :=
  ltac:(upd_field feature_conn eta_ks_feature v r).
Definition set_feature_id (v : Z) (r : ks_feature) : ks_feature :=
  ltac:(upd_field feature_id eta_ks_feature v r).
Definition set_feature_name (v : option (list Z)) (r : ks_feature) : ks_feature :=
  ltac:(upd_field feature_name eta_ks_feature v r).

(** [struct ks_node] *)
Record ks_node : Type := mk_node {
  node_refcnt : Z;
  node_conn : bool;
  node_id : Z;
  node_path : option (list Z);
  node_features : list addr;  (** 16 at most *)
  router_cost : Z;
  router_visited : bool;
  router_prev : option addr;
  router_prev_thru : option addr;
}.
Definition eta_ks_node (r : ks_node) : ks_node :=
  {| node_refcnt := node_refcnt r;
     node_conn := node_conn r;
     node_id := node_id r;
     node_path := node_path r;
     node_features := node_features r;
     router_cost := router_cost r;
     router_visited := router_visited r;
     router_prev := router_prev r;
     router_prev_thru := router_prev_thru r |}.
Definition set_node_refcnt (v : Z) (r : ks_node) : ks_node :=
  ltac:(upd_field node_refcnt eta_ks_node v r).
Definition set_node_conn (v : bool) (r : ks_node) : ks_node :=
  ltac:(upd_field node_conn eta_ks_node v r).
Definition set_node_id (v : Z) (r : ks_node) : ks_node :=
  ltac:(upd_field node_id eta_ks_node v r).
Definition set_node_path (v : option (list Z)) (r : ks_node) : ks_node :=
  ltac:(upd_field node_path eta_ks_node v r).
Definition set_node_features (v : list addr) (r : ks_node) : ks_node :=
  ltac:(upd_field node_features eta_ks_node v r).
Definition set_router_cost (v : Z) (r : ks_node) : ks_node :=
  ltac:(upd_field router_cost eta_ks_node v r).
Definition set_router_visited (v : bool) (r : ks_node) : ks_node :=
  ltac:(upd_field router_visited eta_ks_node v r).
Definition set_router_prev (v : option addr) (r : ks_node) : ks_node :=
  ltac:(upd_field router_prev eta_ks_node v r).
Definition set_router_prev_thru (v : option addr) (r : ks_node) : ks_node :=
  ltac:(upd_field router_prev_thru eta_ks_node v r).

(** [struct ks_feature_value]: the payload has four octets more than the attribute *)
Record ks_feature_value : Type := mk_feature_value {
  fv_feature : addr;
  fv_len : Z;
  fv_payload : list Z;
}.

(** [struct ks_chan] *)
Record ks_chan : Type := mk_chan {
  chan_refcnt : Z;
  chan_conn : bool;
  chan_id : Z;
  chan_path : option (list Z);
  chan_from : option addr;
  chan_to : option addr;
  chan_pipeline : option addr;
  chan_features : list ks_feature_value;
  chan_cost : Z;
}.
Definition eta_ks_chan (r : ks_chan) : ks_chan :=
  {| chan_refcnt := chan_refcnt r;
     chan_conn := chan_conn r;
     chan_id := chan_id r;
     chan_path := chan_path r;
     chan_from := chan_from r;
     chan_to := chan_to r;
     chan_pipeline := chan_pipeline r;
     chan_features := chan_features r;
     chan_cost := chan_cost r |}.
Definition set_chan_refcnt (v : Z) (r : ks_chan) : ks_chan :=
  ltac:(upd_field chan_refcnt eta_ks_chan v r).
Definition set_chan_conn (v : bool) (r : ks_chan) : ks_chan :=
  ltac:(upd_field chan_conn eta_ks_chan v r).
Definition set_chan_id (v : Z) (r : ks_chan) : ks_chan :=
  ltac:(upd_field chan_id eta_ks_chan v r).
Definition set_chan_path (v : option (list Z)) (r : ks_chan) : ks_chan :=
  ltac:(upd_field chan_path eta_ks_chan v r).
Definition set_chan_from (v : option addr) (r : ks_chan) : ks_chan :=
  ltac:(upd_field chan_from eta_ks_chan v r).
Definition set_chan_to (v : option addr) (r : ks_chan) : ks_chan :=
  ltac:(upd_field chan_to eta_ks_chan v r).
Definition set_chan_pipeline (v : option addr) (r : ks_chan) : ks_chan :=
  ltac:(upd_field chan_pipeline eta_ks_chan v r).
Definition set_chan_features (v : list ks_feature_value) (r : ks_chan) : ks_chan :=
  ltac:(upd_field chan_features eta_ks_chan v r).
Definition set_chan_cost (v : Z) (r : ks_chan) : ks_chan :=
  ltac:(upd_field chan_cost eta_ks_chan v r).

(** [struct ks_pipeline] *)
Record ks_pipeline : Type := mk_pipeline {
  pipeline_refcnt : Z;
  pipeline_conn : bool;
  pipeline_id : Z;
  pipeline_path : option (list Z);
  pipeline_status : ks_pipeline_status;
  pipeline_chans : list addr;  (** [chans[32]] and [chans_cnt] *)
}.
Definition eta_ks_pipeline (r : ks_pipeline) : ks_pipeline :=
  {| pipeline_refcnt := pipeline_refcnt r;
     pipeline_conn := pipeline_conn r;
     pipeline_id := pipeline_id r;
     pipeline_path := pipeline_path r;
     pipeline_status := pipeline_status r;
     pipeline_chans := pipeline_chans r |}.
Definition set_pipeline_refcnt (v : Z) (r : ks_pipeline) : ks_pipeline :=
  ltac:(upd_field pipeline_refcnt eta_ks_pipeline v r).
Definition set_pipeline_conn (v : bool) (r : ks_pipeline) : ks_pipeline :=
  ltac:(upd_field pipeline_conn eta_ks_pipeline v r).
Definition set_pipeline_id (v : Z) (r : ks_pipeline) : ks_pipeline :=
  ltac:(upd_field pipeline_id eta_ks_pipeline v r).
Definition set_pipeline_path (v : option (list Z)) (r : ks_pipeline) : ks_pipeline :=
  ltac:(upd_field pipeline_path eta_ks_pipeline v r).
Definition set_pipeline_status (v : ks_pipeline_status) (r : ks_pipeline) : ks_pipeline :=
  ltac:(upd_field pipeline_status eta_ks_pipeline v r).
Definition set_pipeline_chans (v : list addr) (r : ks_pipeline) : ks_pipeline :=
  ltac:(upd_field pipeline_chans eta_ks_pipeline v r).

Inductive ks_topology_state : Set :=
| KS_TOPOLOGY_STATE_NULL | KS_TOPOLOGY_STATE_SYNCING
| KS_TOPOLOGY_STATE_SYNCHED | KS_TOPOLOGY_STATE_INVALID.

(** what [object] of a topology event is *)
Inductive ks_object : Set :=
| obj_feature (a : addr) | obj_node (a : addr) | obj_chan (a : addr) | obj_pipeline (a : addr).

(** the part of [struct ks_conn] the topology is in, with the heap *)
Record ks_conn : Type := mk_conn {
  features : gmap addr ks_feature;
  nodes : gmap addr ks_node;
  chans : gmap addr ks_chan;
  pipelines : gmap addr ks_pipeline;
  features_hash : list (list addr);
  nodes_hash : list (list addr);
  chans_hash : list (list addr);
  pipelines_hash : list (list addr);
  topology_state : ks_topology_state;
  events : list (Z * ks_object);  (** newest first *)
  next_addr : addr;
}.
Definition eta_ks_conn (r : ks_conn) : ks_conn :=
  {| features := features r;
     nodes := nodes r;
     chans := chans r;
     pipelines := pipelines r;
     features_hash := features_hash r;
     nodes_hash := nodes_hash r;
     chans_hash := chans_hash r;
     pipelines_hash := pipelines_hash r;
     topology_state := topology_state r;
     events := events r;
     next_addr := next_addr r |}.
Definition set_features (v : gmap addr ks_feature) (r : ks_conn) : ks_conn :=
  ltac:(upd_field features eta_ks_conn v r).
Definition set_nodes (v : gmap addr ks_node) (r : ks_conn) : ks_conn :=
  ltac:(upd_field nodes eta_ks_conn v r).
Definition set_chans (v : gmap addr ks_chan) (r : ks_conn) : ks_conn :=
  ltac:(upd_field chans eta_ks_conn v r).
Definition set_pipelines (v : gmap addr ks_pipeline) (r : ks_conn) : ks_conn :=
  ltac:(upd_field pipelines eta_ks_conn v r).
Definition set_features_hash (v : list (list addr)) (r : ks_conn) : ks_conn :=
  ltac:(upd_field features_hash eta_ks_conn v r).
Definition set_nodes_hash (v : list (list addr)) (r : ks_conn) : ks_conn :=
  ltac:(upd_field nodes_hash eta_ks_conn v r).
Definition set_chans_hash (v : list (list addr)) (r : ks_conn) : ks_conn :=
  ltac:(upd_field chans_hash eta_ks_conn v r).
Definition set_pipelines_hash (v : list (list addr)) (r : ks_conn) : ks_conn :=
  ltac:(upd_field pipelines_hash eta_ks_conn v r).
Definition set_topology_state (v : ks_topology_state) (r : ks_conn) : ks_conn :=
  ltac:(upd_field topology_state eta_ks_conn v r).
Definition set_events (v : list (Z * ks_object)) (r : ks_conn) : ks_conn :=
  ltac:(upd_field events eta_ks_conn v r).
Definition set_next_addr (v : addr) (r : ks_conn) : ks_conn :=
  ltac:(upd_field next_addr eta_ks_conn v r).

Definition conn_init : ks_conn :=
  {| features := ∅; nodes := ∅; chans := ∅; pipelines := ∅;
     features_hash := replicate 255 []; nodes_hash := replicate 255 [];
     chans_hash := replicate 255 []; pipelines_hash := replicate 255 [];
     topology_state := KS_TOPOLOGY_STATE_NULL; events := []; next_addr := O |}.

Definition L := M ks_conn.
#[global] Typeclasses Transparent L.

Definition access {A} (sel : ks_conn → gmap addr A) (a : addr) : L A :=
  w ← get; match sel w !! a with Some o => mret o | None => fail UseAfterFree end.
Definition the_feature := access features.
Definition the_node := access nodes.
Definition the_chan := access chans.
Definition the_pipeline := access pipelines.

Definition put_feature (a : addr) (o : ks_feature) : L unit :=
  modify (λ w, set_features (<[a := o]> (features w)) w).
Definition put_node (a : addr) (o : ks_node) : L unit :=
  modify (λ w, set_nodes (<[a := o]> (nodes w)) w).
Definition put_chan (a : addr) (o : ks_chan) : L unit :=
  modify (λ w, set_chans (<[a := o]> (chans w)) w).
Definition put_pipeline (a : addr) (o : ks_pipeline) : L unit :=
  modify (λ w, set_pipelines (<[a := o]> (pipelines w)) w).

Definition upd_feature (a : addr) (f : ks_feature → ks_feature) : L unit :=
  o ← the_feature a; put_feature a (f o).
Definition upd_node (a : addr) (f : ks_node → ks_node) : L unit :=
  o ← the_node a; put_node a (f o).
Definition upd_chan (a : addr) (f : ks_chan → ks_chan) : L unit :=
  o ← the_chan a; put_chan a (f o).
Definition upd_pipeline (a : addr) (f : ks_pipeline → ks_pipeline) : L unit :=
  o ← the_pipeline a; put_pipeline a (f o).

Definition new_addr : L addr :=
  w ← get; put (set_next_addr (S (next_addr w)) w);; mret (next_addr w).

(** the number of the bucket of an identifier: [id & (HASHSIZE - 1)], of 255 buckets *)
Definition bucket (id : Z) : nat := Z.to_nat (Z.land (i32 id) (255 - 1)).

(** [hlist_add_head], [hlist_del] *)
Definition hash_add (a : addr) (id : Z) (h : list (list addr)) : list (list addr) :=
  alter (cons a) (bucket id) h.
Definition hash_del (a : addr) (h : list (list addr)) : list (list addr) :=
  (λ l, filter (.≠ a) l) <$> h.

(** the first of [l] whose object has the identifier [id] *)
Fixpoint find_id {A} (sel : ks_conn → gmap addr A) (the_id : A → Z) (id : Z)
    (l : list addr) : L (option addr) :=
  match l with
  | [] => mret None
  | a :: l =>
    o ← access sel a;
    if the_id o =? u32 id then mret (Some a) else find_id sel the_id id l
  end.

(** the identifier a message has: 0 where it has none *)
Fixpoint nlh_to_id (attr_id : Z) (l : list ks_attr) : L Z :=
  match l with
  | [] => mret 0
  | a :: l => if attr_type a =? attr_id then lift (get_u32 (KS_ATTR_DATA a))
              else nlh_to_id attr_id l
  end.

(** [strndup(KS_ATTR_DATA(attr), KS_ATTR_PAYLOAD(attr))]: up to a NUL *)
Definition attr_strndup (a : ks_attr) : outcome (list Z) :=
  l ← memcpy_from (KS_ATTR_DATA a) 0 (KS_ATTR_PAYLOAD a) (KS_ATTR_PAYLOAD a);
  Done (c_str l).

Definition ks_conn_topology_updated (message_type : Z) (o : ks_object) : L unit :=
  modify (λ w, set_events ((message_type, o) :: events w) w).

(** ** Features *)

Definition ks_feature_get (feature : addr) : L unit :=
  o ← the_feature feature;
  c_assert ((0 <? feature_refcnt o) && (feature_refcnt o <? 100000));;
  put_feature feature (set_feature_refcnt (feature_refcnt o + 1) o).
Definition ks_feature_put (feature : addr) : L unit :=
  o ← the_feature feature;
  c_assert ((0 <? feature_refcnt o) && (feature_refcnt o <? 100000));;
  if feature_refcnt o =? 1 then modify (λ w, set_features (delete feature (features w)) w)
  else put_feature feature (set_feature_refcnt (feature_refcnt o - 1) o).

Definition ks_feature_alloc : L addr :=
  a ← new_addr;
  put_feature a {| feature_refcnt := 1; feature_conn := false; feature_id := 0;
                   feature_name := None |};;
  mret a.

Definition ks_feature_add (feature : addr) : L unit :=
  upd_feature feature (set_feature_conn true);;
  o ← the_feature feature;
  ks_feature_get feature;;
  modify (λ w, set_features_hash (hash_add feature (feature_id o) (features_hash w)) w).
Definition ks_feature_del (feature : addr) : L unit :=
  modify (λ w, set_features_hash (hash_del feature (features_hash w)) w);;
  ks_feature_put feature.
Definition ks_feature_flush : L unit :=
  w ← get;
  forM (concat (features_hash w)) ks_feature_del.

Definition _ks_feature_get_by_id (id : Z) : L (option addr) :=
  w ← get;
  f ← find_id features feature_id id (nth (bucket id) (features_hash w) []);
  (match f with Some a => ks_feature_get a | None => mret tt end);; mret f.

Definition ks_feature_create_from_nlmsg (nlh : list Z) : L addr :=
  feature ← ks_feature_alloc;
  l ← lift (KS_ATTRS nlh);
  forM l (λ a,
    if attr_type a =? KS_FEATURE_ID then
      id ← lift (get_u32 (KS_ATTR_DATA a)); upd_feature feature (set_feature_id id)
    else if attr_type a =? KS_FEATURE_NAME then
      o ← the_feature feature;
      c_assert (negb (bool_decide (is_Some (feature_name o))));;
      name ← lift (attr_strndup a);
      upd_feature feature (set_feature_name (Some name))
    else mret tt);;
  mret feature.

Definition ks_feature_handle_topology_update (nlh : list Z) : L unit :=
  h ← lift (nlmsg_hdr nlh);
  if nlmsg_type h =? KS_NETLINK_FEATURE_NEW then
    feature ← ks_feature_create_from_nlmsg nlh;
    ks_feature_add feature;;
    ks_conn_topology_updated (nlmsg_type h) (obj_feature feature);;
    ks_feature_put feature
  else if (nlmsg_type h =? KS_NETLINK_FEATURE_DEL)
       || (nlmsg_type h =? KS_NETLINK_FEATURE_SET) then
    l ← lift (KS_ATTRS nlh);
    id ← nlh_to_id KS_FEATURE_ID l;
    feature ← _ks_feature_get_by_id id;
    match feature with
    | None => mret tt
    | Some feature =>
      ks_conn_topology_updated (nlmsg_type h) (obj_feature feature);;
      (if nlmsg_type h =? KS_NETLINK_FEATURE_DEL then ks_feature_del feature else mret tt);;
      ks_feature_put feature
    end
  else mret tt.

(** ** Nodes *)

Definition ks_node_get (node : addr) : L unit :=
  o ← the_node node;
  c_assert ((0 <? node_refcnt o) && (node_refcnt o <? 100000));;
  put_node node (set_node_refcnt (node_refcnt o + 1) o).
Definition ks_node_put (node : addr) : L unit :=
  o ← the_node node;
  c_assert ((0 <? node_refcnt o) && (node_refcnt o <? 100000));;
  if node_refcnt o =? 1 then
    forM (node_features o) ks_feature_put;;
    modify (λ w, set_nodes (delete node (nodes w)) w)
  else put_node node (set_node_refcnt (node_refcnt o - 1) o).

Definition ks_node_alloc : L addr :=
  a ← new_addr;
  put_node a {| node_refcnt := 1; node_conn := false; node_id := 0; node_path := None;
                node_features := []; router_cost := 0; router_visited := false;
                router_prev := None; router_prev_thru := None |};;
  mret a.

Definition ks_node_add (node : addr) : L unit :=
  upd_node node (set_node_conn true);;
  o ← the_node node;
  ks_node_get node;;
  modify (λ w, set_nodes_hash (hash_add node (node_id o) (nodes_hash w)) w).
Definition ks_node_del (node : addr) : L unit :=
  modify (λ w, set_nodes_hash (hash_del node (nodes_hash w)) w);;
  ks_node_put node.
Definition ks_node_flush : L unit :=
  w ← get;
  forM (concat (nodes_hash w)) ks_node_del.

Definition _ks_node_get_by_id (id : Z) : L (option addr) :=
  w ← get;
  n ← find_id nodes node_id id (nth (bucket id) (nodes_hash w) []);
  (match n with Some a => ks_node_get a | None => mret tt end);; mret n.

(** an attribute of another type is a feature of the node *)
Definition ks_node_create_from_nlmsg (nlh : list Z) : L addr :=
  node ← ks_node_alloc;
  l ← lift (KS_ATTRS nlh);
  forM l (λ a,
    if attr_type a =? KS_NODEATTR_ID then
      id ← lift (get_u32 (KS_ATTR_DATA a)); upd_node node (set_node_id id)
    else if attr_type a =? KS_NODEATTR_PATH then
      o ← the_node node;
      c_assert (negb (bool_decide (is_Some (node_path o))));;
      path ← lift (attr_strndup a);
      upd_node node (set_node_path (Some path))
    else
      feature ← _ks_feature_get_by_id (attr_type a);
      match feature with
      | None => mret tt
      | Some feature =>
        o ← the_node node;
        ks_feature_get feature;;
        (if 16 <=? Z.of_nat (length (node_features o)) then fail OutOfBounds
         else upd_node node (set_node_features (node_features o ++ [feature])));;
        ks_feature_put feature
      end);;
  mret node.

(** the update of a node is not implemented: any attribute aborts *)
Definition ks_node_update_from_nlmsg (nlh : list Z) : L unit :=
  l ← lift (KS_ATTRS nlh); forM l (λ _, c_assert false).

Definition ks_node_handle_topology_update (nlh : list Z) : L unit :=
  h ← lift (nlmsg_hdr nlh);
  if nlmsg_type h =? KS_NETLINK_NODE_NEW then
    node ← ks_node_create_from_nlmsg nlh;
    ks_node_add node;;
    ks_conn_topology_updated (nlmsg_type h) (obj_node node);;
    ks_node_put node
  else if (nlmsg_type h =? KS_NETLINK_NODE_DEL) || (nlmsg_type h =? KS_NETLINK_NODE_SET) then
    l ← lift (KS_ATTRS nlh);
    id ← nlh_to_id KS_NODEATTR_ID l;
    node ← _ks_node_get_by_id id;
    match node with
    | None => mret tt
    | Some node =>
      (if nlmsg_type h =? KS_NETLINK_NODE_SET then ks_node_update_from_nlmsg nlh else mret tt);;
      ks_conn_topology_updated (nlmsg_type h) (obj_node node);;
      (if nlmsg_type h =? KS_NETLINK_NODE_DEL then ks_node_del node else mret tt);;
      ks_node_put node
    end
  else mret tt.

(** ** Channels *)

Definition ks_chan_get (chan : addr) : L unit :=
  o ← the_chan chan;
  c_assert (0 <? chan_refcnt o);;
  put_chan chan (set_chan_refcnt (chan_refcnt o + 1) o).
Definition ks_node_put_opt (node : option addr) : L unit :=
  match node with Some n => ks_node_put n | None => mret tt end.
Definition ks_chan_put (chan : addr) : L unit :=
  o ← the_chan chan;
  c_assert (0 <? chan_refcnt o);;
  if chan_refcnt o =? 1 then
    forM (chan_features o) (λ v, ks_feature_put (fv_feature v));;
    ks_node_put_opt (chan_from o);;
    ks_node_put_opt (chan_to o);;
    modify (λ w, set_chans (delete chan (chans w)) w)
  else put_chan chan (set_chan_refcnt (chan_refcnt o - 1) o).

Definition ks_chan_alloc : L addr :=
  a ← new_addr;
  put_chan a {| chan_refcnt := 1; chan_conn := false; chan_id := 0; chan_path := None;
                chan_from := None; chan_to := None; chan_pipeline := None;
                chan_features := []; chan_cost := 1000 |};;
  mret a.

Definition ks_chan_add (chan : addr) : L unit :=
  upd_chan chan (set_chan_conn true);;
  o ← the_chan chan;
  ks_chan_get chan;;
  modify (λ w, set_chans_hash (hash_add chan (chan_id o) (chans_hash w)) w).
Definition ks_chan_del (chan : addr) : L unit :=
  modify (λ w, set_chans_hash (hash_del chan (chans_hash w)) w);;
  ks_chan_put chan.
Definition ks_chan_flush : L unit :=
  w ← get;
  forM (concat (chans_hash w)) ks_chan_del.

Definition _ks_chan_get_by_id (id : Z) : L (option addr) :=
  w ← get;
  c ← find_id chans chan_id id (nth (bucket id) (chans_hash w) []);
  (match c with Some a => ks_chan_get a | None => mret tt end);; mret c.

(** The attribute goes into the first feature value of the channel, whichever it is: the
    [if] covers the assertion only, and [break] ends the loop. *)
Definition update_feature_value (a : ks_attr) (l : list ks_feature_value)
    : L (list ks_feature_value) :=
  match l with
  | [] => mret []
  | v :: l =>
    f ← the_feature (fv_feature v);
    (if feature_id f =? attr_type a then c_assert (fv_len v =? KS_ATTR_PAYLOAD a)
     else mret tt);;
    data ← lift (memcpy_from (KS_ATTR_DATA a) 0 (KS_ATTR_PAYLOAD a)
                   (Z.of_nat (length (fv_payload v))));
    mret ({| fv_feature := fv_feature v; fv_len := fv_len v;
             fv_payload := data ++ drop (length data) (fv_payload v) |} :: l)
  end.

Definition ks_chan_update_from_nlmsg (chan : addr) (nlh : list Z) : L unit :=
  l ← lift (KS_ATTRS nlh);
  forM l (λ a,
    if (KS_CHANATTR_ID <=? attr_type a) && (attr_type a <=? KS_CHANATTR_TO) then mret tt
    else
      o ← the_chan chan;
      vs ← update_feature_value a (chan_features o);
      upd_chan chan (set_chan_features vs)).

Definition ks_chan_create_from_nlmsg (nlh : list Z) : L addr :=
  chan ← ks_chan_alloc;
  ks_chan_update_from_nlmsg chan nlh;;
  l ← lift (KS_ATTRS nlh);
  forM l (λ a,
    if attr_type a =? KS_CHANATTR_ID then
      id ← lift (get_u32 (KS_ATTR_DATA a)); upd_chan chan (set_chan_id id)
    else if attr_type a =? KS_CHANATTR_PATH then
      o ← the_chan chan;
      c_assert (negb (bool_decide (is_Some (chan_path o))));;
      path ← lift (attr_strndup a);
      upd_chan chan (set_chan_path (Some path))
    else if attr_type a =? KS_CHANATTR_FROM then
      o ← the_chan chan;
      c_assert (negb (bool_decide (is_Some (chan_from o))));;
      id ← lift (get_u32 (KS_ATTR_DATA a));
      node ← _ks_node_get_by_id id;
      upd_chan chan (set_chan_from node)
    else if attr_type a =? KS_CHANATTR_TO then
      o ← the_chan chan;
      c_assert (negb (bool_decide (is_Some (chan_to o))));;
      id ← lift (get_u32 (KS_ATTR_DATA a));
      node ← _ks_node_get_by_id id;
      upd_chan chan (set_chan_to node)
    else
      feature ← _ks_feature_get_by_id (attr_type a);
      match feature with
      | None => mret tt
      | Some feature =>
        ks_feature_get feature;;
        data ← lift (memcpy_from (KS_ATTR_DATA a) 0 (KS_ATTR_PAYLOAD a) (KS_ATTR_PAYLOAD a));
        upd_chan chan (λ o, set_chan_features
          ({| fv_feature := feature; fv_len := KS_ATTR_PAYLOAD a;
              fv_payload := data ++ replicate 4 0 |} :: chan_features o) o);;
        ks_feature_put feature
      end);;
  mret chan.

Definition ks_chan_handle_topology_update (nlh : list Z) : L unit :=
  h ← lift (nlmsg_hdr nlh);
  if nlmsg_type h =? KS_NETLINK_CHAN_NEW then
    chan ← ks_chan_create_from_nlmsg nlh;
    ks_chan_add chan;;
    ks_conn_topology_updated (nlmsg_type h) (obj_chan chan);;
    ks_chan_put chan
  else if (nlmsg_type h =? KS_NETLINK_CHAN_DEL) || (nlmsg_type h =? KS_NETLINK_CHAN_SET) then
    l ← lift (KS_ATTRS nlh);
    id ← nlh_to_id KS_CHANATTR_ID l;
    chan ← _ks_chan_get_by_id id;
    match chan with
    | None => mret tt
    | Some chan =>
      (if nlmsg_type h =? KS_NETLINK_CHAN_SET then ks_chan_update_from_nlmsg chan nlh
       else mret tt);;
      ks_conn_topology_updated (nlmsg_type h) (obj_chan chan);;
      (if nlmsg_type h =? KS_NETLINK_CHAN_DEL then ks_chan_del chan else mret tt);;
      ks_chan_put chan
    end
  else mret tt.

(** ** Pipelines *)

(** [assert(pipeline->refcnt > 0)] comes before the test for NULL *)
Definition ks_pipeline_get (pipeline : option addr) : L unit :=
  a ← deref pipeline;
  o ← the_pipeline a;
  c_assert (0 <? pipeline_refcnt o);;
  put_pipeline a (set_pipeline_refcnt (pipeline_refcnt o + 1) o).
Definition ks_pipeline_put (pipeline : addr) : L unit :=
  o ← the_pipeline pipeline;
  c_assert (0 <? pipeline_refcnt o);;
  if pipeline_refcnt o =? 1 then
    forM (pipeline_chans o) ks_chan_put;;
    modify (λ w, set_pipelines (delete pipeline (pipelines w)) w)
  else put_pipeline pipeline (set_pipeline_refcnt (pipeline_refcnt o - 1) o).

Definition ks_pipeline_alloc : L addr :=
  a ← new_addr;
  put_pipeline a {| pipeline_refcnt := 1; pipeline_conn := false; pipeline_id := 0;
                    pipeline_path := None; pipeline_status := KS_PIPELINE_STATUS_NULL;
                    pipeline_chans := [] |};;
  mret a.

Definition ks_pipeline_add (pipeline : addr) : L unit :=
  upd_pipeline pipeline (set_pipeline_conn true);;
  o ← the_pipeline pipeline;
  ks_pipeline_get (Some pipeline);;
  modify (λ w, set_pipelines_hash (hash_add pipeline (pipeline_id o) (pipelines_hash w)) w).
Definition ks_pipeline_del (pipeline : addr) : L unit :=
  modify (λ w, set_pipelines_hash (hash_del pipeline (pipelines_hash w)) w);;
  o ← the_pipeline pipeline;
  forM (pipeline_chans o) (λ c, upd_chan c (set_chan_pipeline None));;
  ks_pipeline_put pipeline.
(** the channels keep their pointers to the pipeline *)
Definition ks_pipeline_flush : L unit :=
  w ← get;
  forM (concat (pipelines_hash w)) (λ pipeline,
    modify (λ w, set_pipelines_hash (hash_del pipeline (pipelines_hash w)) w);;
    ks_pipeline_put pipeline).

Definition _ks_pipeline_get_by_id (id : Z) : L (option addr) :=
  w ← get;
  p ← find_id pipelines pipeline_id id (nth (bucket id) (pipelines_hash w) []);
  (match p with Some a => ks_pipeline_get (Some a) | None => mret tt end);; mret p.

(** [pipeline->chans[i] = chan] for the next [i] of the 32 *)
Definition add_chan (pipeline chan : addr) : L unit :=
  o ← the_pipeline pipeline;
  if 32 <=? Z.of_nat (length (pipeline_chans o)) then fail OutOfBounds
  else put_pipeline pipeline (set_pipeline_chans (pipeline_chans o ++ [chan]) o).

Definition ks_pipeline_create_from_nlmsg (nlh : list Z) : L addr :=
  pipeline ← ks_pipeline_alloc;
  l ← lift (KS_ATTRS nlh);
  forM l (λ a,
    if attr_type a =? KS_PIPELINEATTR_ID then
      id ← lift (get_u32 (KS_ATTR_DATA a)); upd_pipeline pipeline (set_pipeline_id id)
    else if attr_type a =? KS_PIPELINEATTR_STATUS then
      v ← lift (get_u32 (KS_ATTR_DATA a));
      upd_pipeline pipeline (set_pipeline_status (status_of_u32 v))
    else if attr_type a =? KS_PIPELINEATTR_PATH then
      path ← lift (attr_strndup a);
      upd_pipeline pipeline (set_pipeline_path (Some path))
    else if attr_type a =? KS_PIPELINEATTR_CHAN_ID then
      id ← lift (get_u32 (KS_ATTR_DATA a));
      chan ← _ks_chan_get_by_id id;
      match chan with
      | None => mret tt
      | Some chan =>
        ks_chan_get chan;;
        add_chan pipeline chan;;
        upd_chan chan (set_chan_pipeline (Some pipeline));;
        ks_chan_put chan
      end
    else mret tt);;
  mret pipeline.

(** the loop over the attributes of [ks_pipeline_update_from_nlmsg]; where the message
    and the pipeline disagree the reference to the channel is kept *)
Fixpoint pipeline_update_loop (pipeline : addr) (l : list ks_attr) (chans_cnt : Z) : L unit :=
  match l with
  | [] => mret tt
  | a :: l =>
    if attr_type a =? KS_PIPELINEATTR_ID then
      id ← lift (get_u32 (KS_ATTR_DATA a));
      upd_pipeline pipeline (set_pipeline_id id);;
      pipeline_update_loop pipeline l chans_cnt
    else if attr_type a =? KS_PIPELINEATTR_STATUS then
      v ← lift (get_u32 (KS_ATTR_DATA a));
      upd_pipeline pipeline (set_pipeline_status (status_of_u32 v));;
      pipeline_update_loop pipeline l chans_cnt
    else if attr_type a =? KS_PIPELINEATTR_PATH then
      path ← lift (attr_strndup a);
      upd_pipeline pipeline (set_pipeline_path (Some path));;
      pipeline_update_loop pipeline l chans_cnt
    else if attr_type a =? KS_PIPELINEATTR_CHAN_ID then
      id ← lift (get_u32 (KS_ATTR_DATA a));
      chan ← _ks_chan_get_by_id id;
      match chan with
      | None => pipeline_update_loop pipeline l chans_cnt
      | Some chan =>
        o ← the_pipeline pipeline;
        c ← the_chan chan;
        if bool_decide (pipeline_chans o !! Z.to_nat chans_cnt = Some chan)
           && negb (bool_decide (is_Some (chan_pipeline c))) then
          upd_chan chan (set_chan_pipeline (Some pipeline));;
          ks_chan_put chan;;
          pipeline_update_loop pipeline l (chans_cnt + 1)
        else pipeline_update_loop pipeline l chans_cnt
      end
    else pipeline_update_loop pipeline l chans_cnt
  end.
Definition ks_pipeline_update_from_nlmsg (pipeline : addr) (nlh : list Z) : L unit :=
  l ← lift (KS_ATTRS nlh); pipeline_update_loop pipeline l 0.

Definition ks_pipeline_handle_topology_update (nlh : list Z) : L unit :=
  h ← lift (nlmsg_hdr nlh);
  l ← lift (KS_ATTRS nlh);
  if nlmsg_type h =? KS_NETLINK_PIPELINE_NEW then
    id ← nlh_to_id KS_PIPELINEATTR_ID l;
    pipeline ← _ks_pipeline_get_by_id id;
    match pipeline with
    | Some pipeline => ks_pipeline_put pipeline
    | None =>
      pipeline ← ks_pipeline_create_from_nlmsg nlh;
      ks_pipeline_add pipeline;;
      ks_conn_topology_updated (nlmsg_type h) (obj_pipeline pipeline);;
      ks_pipeline_put pipeline
    end
  else if (nlmsg_type h =? KS_NETLINK_PIPELINE_DEL)
       || (nlmsg_type h =? KS_NETLINK_PIPELINE_SET) then
    id ← nlh_to_id KS_PIPELINEATTR_ID l;
    pipeline ← _ks_pipeline_get_by_id id;
    match pipeline with
    | None => mret tt
    | Some pipeline =>
      (if nlmsg_type h =? KS_NETLINK_PIPELINE_SET
       then ks_pipeline_update_from_nlmsg pipeline nlh else mret tt);;
      ks_conn_topology_updated (nlmsg_type h) (obj_pipeline pipeline);;
      (if nlmsg_type h =? KS_NETLINK_PIPELINE_DEL then ks_pipeline_del pipeline
       else mret tt);;
      ks_pipeline_put pipeline
    end
  else mret tt.

(** ** Messages about the topology *)

Definition ks_conn_set_topology_state (state : ks_topology_state) : L unit :=
  modify (set_topology_state state).

Definition ks_topology_update (nlh : list Z) : L unit :=
  h ← lift (nlmsg_hdr nlh);
  let t := nlmsg_type h in
  if (t =? KS_NETLINK_FEATURE_NEW) || (t =? KS_NETLINK_FEATURE_DEL)
     || (t =? KS_NETLINK_FEATURE_SET) then ks_feature_handle_topology_update nlh
  else if (t =? KS_NETLINK_NODE_NEW) || (t =? KS_NETLINK_NODE_DEL)
     || (t =? KS_NETLINK_NODE_SET) then ks_node_handle_topology_update nlh
  else if (t =? KS_NETLINK_CHAN_NEW) || (t =? KS_NETLINK_CHAN_DEL)
     || (t =? KS_NETLINK_CHAN_SET) then ks_chan_handle_topology_update nlh
  else if (t =? KS_NETLINK_PIPELINE_NEW) || (t =? KS_NETLINK_PIPELINE_DEL)
     || (t =? KS_NETLINK_PIPELINE_SET) then ks_pipeline_handle_topology_update nlh
  else mret tt.

(** the flushes of [ks_update_topology] and [ks_conn_disconnect] *)
Definition ks_topology_flush : L unit :=
  ks_pipeline_flush;; ks_chan_flush;; ks_node_flush;; ks_feature_flush.

(** ** Finding a route through the topology

    [src/libkstreamer/router.c], a shortest path search by Dijkstra's method over the
    hash tables of nodes and channels, and [ks_pipeline_autoroute] of [pipeline.c], which
    puts the route it found into a pipeline.

    An unvisited node costs [INT_MAX].  The search visits a node in every iteration, so
    that one iteration more than there are nodes is enough; so is one step more than
    there are nodes for the walk back along [router_prev]. *)

Definition INT_MAX : Z := 2147483647.
Definition EHOSTUNREACH : Z := 113.

(** the nodes and the channels in the order of the loops over the buckets *)
Definition all_nodes (w : ks_conn) : list addr := concat (nodes_hash w).
Definition all_chans (w : ks_conn) : list addr := concat (chans_hash w).

(** the initialisation of a node *)
Definition router_reset (n : ks_node) : ks_node :=
  set_router_prev_thru None (set_router_prev None
    (set_router_visited false (set_router_cost INT_MAX n))).

(** extract the node with lowest cost: the first of them in the order of the loop *)
Fixpoint min_cost_node (l : list addr) (min : option addr) : L (option addr) :=
  match l with
  | [] => mret min
  | node :: l =>
    n ← the_node node;
    better ← (if router_visited n then mret false
              else match min with
              | None => mret true
              | Some m => o ← the_node m; mret (router_cost n <? router_cost o)
              end);
    min_cost_node l (if better : bool then Some node else min)
  end.

(** the channel [arch] is tried from the node [min] *)
Definition relax (min arch : addr) : L unit :=
  c ← the_chan arch;
  if negb (bool_decide (chan_from c = Some min)) then mret tt
  else if bool_decide (is_Some (chan_pipeline c)) then mret tt
  else
    m ← the_node min;
    if (chan_cost c =? INT_MAX) || (router_cost m =? INT_MAX) then mret tt
    else
      to ← deref (chan_to c);
      t ← the_node to;
      if i32 (router_cost m + chan_cost c) <? router_cost t then
        put_node to (set_router_prev_thru (Some arch) (set_router_prev (Some min)
          (set_router_cost (i32 (router_cost m + chan_cost c)) t)))
      else mret tt.

(** [while(1)] *)
Fixpoint router_loop (fuel : nat) (to : addr) : L unit :=
  match fuel with
  | O => fail Diverges
  | S fuel =>
    w ← get;
    min ← min_cost_node (all_nodes w) None;
    match min with
    | None => mret tt
    | Some min =>
      if decide (min = to) then mret tt
      else
        upd_node min (set_router_visited true);;
        forM (all_chans w) (relax min);;
        router_loop fuel to
    end
  end.

Definition ks_router_run (start to : addr) : L unit :=
  s ← the_node start;
  t ← the_node to;
  c_assert (node_conn s);;
  c_assert (node_conn t);;
  w ← get;
  forM (all_nodes w) (λ node, upd_node node router_reset);;
  upd_node start (set_router_cost 0);;
  router_loop (S (length (all_nodes w))) to.

(** The walk from [node] back along [router_prev]: the node it ends at, and the channels
    passed, in the order from there. *)
Fixpoint walk_back (fuel : nat) (node : addr) (thru : list addr) : L (addr * list addr) :=
  match fuel with
  | O => fail Diverges
  | S fuel =>
    n ← the_node node;
    match router_prev n with
    | None => mret (node, thru)
    | Some prev => c ← deref (router_prev_thru n); walk_back fuel prev (c :: thru)
    end
  end.

(** [err]; the route goes behind the channels the pipeline has, of which there is room
    for 32 *)
Definition ks_pipeline_autoroute (pipeline src_node dst_node : addr) : L Z :=
  ks_router_run src_node dst_node;;
  w ← get;
  '(node, route) ← walk_back (S (length (all_nodes w))) dst_node [];
  if negb (bool_decide (node = src_node)) then mret (- EHOSTUNREACH)
  else
    p ← the_pipeline pipeline;
    if 32 <? Z.of_nat (length (pipeline_chans p) + length route) then fail OutOfBounds
    else
      forM (reverse route) ks_chan_get;;
      put_pipeline pipeline (set_pipeline_chans (pipeline_chans p ++ route) p);;
      mret 0.
