(* ===== verification/KsRouterThm.v ===== *)
(** * The route is a shortest one

    Dijkstra's invariant for [ks_router_run]: the labels of visited nodes are final, the
    label of a node is the cost of the route its [router_prev] leads along.  From it:
    [ks_pipeline_autoroute] ends, and it finds a cheapest route through channels that no
    pipeline has, or says that there is none. *)

From stdpp Require Import base list gmap.
From Stdlib Require Import ZArith Lia.
From S2P Require Import Prelude.
From S2P Require Import Bits.
From S2P Require Import KsProto.
From S2P Require Import KsLib.
Local Open Scope Z_scope.

(** ** Routes *)

(** the channel [c] leads from [u] to [v], costs [k], and no pipeline has it *)
Definition arch (w : ks_conn) (c u v : addr) (k : Z) : Prop :=
  c ∈ all_chans w ∧ ∃ o, chans w !! c = Some o ∧ chan_from o = Some u ∧
    chan_to o = Some v ∧ chan_pipeline o = None ∧ chan_cost o = k.

Inductive route (w : ks_conn) (u : addr) : list addr → addr → Z → Prop :=
| route_nil : route w u [] u 0
| route_snoc l v k c x j :
    route w u l v k → arch w c v x j → route w u (l ++ [c]) x (k + j).

(** a cheapest route from [u] to [v] *)
Definition shortest (w : ks_conn) (u : addr) (l : list addr) (v : addr) : Prop :=
  ∃ k, route w u l v k ∧ ∀ l' k', route w u l' v k' → k ≤ k'.

(** The topology is complete: the nodes of the channels are in the hash table.  Costs
    are positive, and no route through distinct nodes costs [INT_MAX]. *)
Record routable (C : Z) (w : ks_conn) : Prop := {
  routable_nodes : ∀ n, n ∈ all_nodes w → is_Some (nodes w !! n);
  routable_chans : ∀ c, c ∈ all_chans w → ∃ o u v, chans w !! c = Some o ∧
    chan_from o = Some u ∧ chan_to o = Some v ∧ u ∈ all_nodes w ∧ v ∈ all_nodes w ∧
    0 < chan_cost o ≤ C ∧ 0 < chan_refcnt o;
  routable_cost : 0 < C ∧ C * (Z.of_nat (length (all_nodes w)) + 1) < INT_MAX;
}.

(** ** Labels *)

Definition cost (m : gmap addr ks_node) (n : addr) : Z :=
  match m !! n with Some o => router_cost o | None => INT_MAX end.
Definition visited (m : gmap addr ks_node) (n : addr) : bool :=
  match m !! n with Some o => router_visited o | None => true end.
Definition prev (m : gmap addr ks_node) (n : addr) : option addr := m !! n ≫= router_prev.
Definition thru (m : gmap addr ks_node) (n : addr) : option addr := m !! n ≫= router_prev_thru.

Lemma INT_MAX_pos : 0 < INT_MAX.
Proof. done. Qed.

(** how many nodes of [l] have been visited *)
Definition visits (m : gmap addr ks_node) (l : list addr) : Z :=
  Z.of_nat (length (filter (λ n, visited m n = true) l)).

Lemma visits_mark m m' l u :
  u ∈ l → visited m u = false → visited m' u = true →
  (∀ n, n ≠ u → visited m' n = visited m n) → visits m l + 1 ≤ visits m' l.
Proof.
  intros Hu Hm Hm' Hne. unfold visits.
  assert (Hle : ∀ l, (length (filter (λ n, visited m n = true) l)
                      ≤ length (filter (λ n, visited m' n = true) l))%nat).
  { clear l Hu. intros l. induction l as [|n l IH]; [done|]. rewrite !filter_cons.
    destruct (decide (n = u)) as [->|Hn].
    - rewrite (decide_False _ _ (P := visited m u = true)) by congruence.
      rewrite decide_True by done. cbn. lia.
    - rewrite Hne by done. case_decide; cbn; lia. }
  revert Hu. induction l as [|n l IH]; intros Hu; [by apply elem_of_nil in Hu|].
  rewrite !filter_cons. specialize (Hle l). destruct (decide (n = u)) as [->|Hn].
  - rewrite (decide_False _ _ (P := visited m u = true)) by congruence.
    rewrite decide_True by done. cbn. lia.
  - apply elem_of_cons in Hu as [->|Hu]; [done|]. specialize (IH Hu).
    rewrite Hne by done. case_decide; cbn; lia.
Qed.

Lemma visits_le m l : 0 ≤ visits m l ≤ Z.of_nat (length l).
Proof. unfold visits. pose proof (length_filter (λ n, visited m n = true) l). lia. Qed.

Section dijkstra.
Context (C : Z) (w0 : ks_conn) (start to : addr).
Context (Hwf : routable C w0) (Hstart : start ∈ all_nodes w0) (Hto : to ∈ all_nodes w0).

Notation N := (all_nodes w0).
Notation at_ m := (set_nodes m w0).

(** The invariant of the search.  [u] is the node whose channels are being tried, those
    in [P] have been. *)
Record dij (u : addr) (P : list addr) (m : gmap addr ks_node) : Prop := {
  dij_dom : ∀ n, n ∈ N → is_Some (m !! n);
  dij_start : cost m start = 0 ∧ prev m start = None;
  dij_range : ∀ n, n ∈ N → 0 ≤ cost m n ≤ INT_MAX;
  dij_prev : ∀ n, n ∈ N → n ≠ start →
    cost m n = INT_MAX ∧ prev m n = None ∨
    ∃ x c k, prev m n = Some x ∧ thru m n = Some c ∧ arch w0 c x n k ∧ x ∈ N ∧
             visited m x = true ∧ cost m n = cost m x + k ∧ cost m n < INT_MAX;
  dij_relaxed : ∀ x c v k, visited m x = true → x ∈ N → arch w0 c x v k →
    (x = u → c ∈ P) → cost m x < INT_MAX → cost m v ≤ cost m x + k;
  dij_order : ∀ x y, x ∈ N → y ∈ N → visited m x = true → visited m y = false →
    cost m x ≤ cost m y;
  dij_bound : ∀ n, n ∈ N → cost m n < INT_MAX → cost m n ≤ C * visits m N;
}.

(** [u] has just been visited *)
Definition current (u : addr) (m : gmap addr ks_node) : Prop :=
  u ∈ N ∧ visited m u = true ∧ (∀ x, x ∈ N → visited m x = true → cost m x ≤ cost m u) ∧
  (cost m u < INT_MAX → cost m u ≤ C * (visits m N - 1)).

(** ** Single computations *)

Lemma wp_at_node m n o Q : m !! n = Some o → Q o (at_ m) → wp (the_node n) Q (at_ m).
Proof. intros Ho HQ. unfold wp, the_node, access, mbind, M_bind, get. cbn. by rewrite Ho. Qed.
Lemma wp_at_chan m c o Q : chans w0 !! c = Some o → Q o (at_ m) → wp (the_chan c) Q (at_ m).
Proof. intros Ho HQ. unfold wp, the_chan, access, mbind, M_bind, get. cbn. by rewrite Ho. Qed.
Lemma wp_upd_node m n o f Q :
  m !! n = Some o → Q tt (at_ (<[n := f o]> m)) → wp (upd_node n f) Q (at_ m).
Proof.
  intros Ho HQ. unfold upd_node. apply wp_bind, (wp_at_node _ _ o); [done|].
  unfold wp, put_node, modify. cbn. exact HQ.
Qed.

(** the node [min_cost_node] chooses *)
Definition is_min (m : gmap addr ks_node) (l : list addr) (min r : option addr) : Prop :=
  match r with
  | None => min = None ∧ ∀ x, x ∈ l → visited m x = true
  | Some b => visited m b = false ∧ (b ∈ l ∨ min = Some b) ∧
      (∀ x, x ∈ l → visited m x = false → cost m b ≤ cost m x) ∧
      (∀ a, min = Some a → cost m b ≤ cost m a)
  end.

Lemma wp_min_cost_node m l min :
  (∀ n, n ∈ l → is_Some (m !! n)) → (∀ a, min = Some a → visited m a = false) →
  wp (min_cost_node l min) (λ r w, w = at_ m ∧ is_min m l min r) (at_ m).
Proof.
  revert min. induction l as [|n l IH]; intros min Hl Hmin; cbn [min_cost_node].
  { apply wp_ret. split; [done|]. destruct min as [a|]; [|split; [done|]].
    - split_and!; [by apply Hmin|by right| |].
      + intros x Hx. by apply elem_of_nil in Hx.
      + intros ? [= ->]. done.
    - intros x Hx. by apply elem_of_nil in Hx. }
  destruct (Hl n) as [o Ho]; [by left|].
  assert (Hl' : ∀ x, x ∈ l → is_Some (m !! x)) by (intros x Hx; apply Hl; by right).
  assert (Hv : visited m n = router_visited o) by (unfold visited; by rewrite Ho).
  assert (Hc : cost m n = router_cost o) by (unfold cost; by rewrite Ho).
  apply wp_bind, (wp_at_node _ _ o); [done|]. apply wp_bind.
  (* the node replaces the candidate *)
  assert (Hnew : visited m n = false → (∀ a, min = Some a → cost m n < cost m a) →
    wp (min_cost_node l (Some n)) (λ r w, w = at_ m ∧ is_min m (n :: l) min r) (at_ m)).
  { intros Hvis Hlt. eapply wp_mono; [apply (IH (Some n) Hl'); by intros a [= <-]|].
    intros [b|] w [-> Hr]; [|by destruct Hr]. destruct Hr as (Hb & Hin & Hx & Ha).
    split; [done|]. specialize (Ha n eq_refl). split_and!; [done| | |].
    - destruct Hin as [Hin|[= ->]]; [left; by right|left; by left].
    - intros x Hx'%elem_of_cons Hxv. destruct Hx' as [->|Hx']; [done|by apply Hx].
    - intros a Hm. specialize (Hlt a Hm). lia. }
  (* the candidate stays *)
  assert (Hold : (visited m n = false → ∃ a, min = Some a ∧ cost m a ≤ cost m n) →
    wp (min_cost_node l min) (λ r w, w = at_ m ∧ is_min m (n :: l) min r) (at_ m)).
  { intros Hge. eapply wp_mono; [apply (IH min Hl' Hmin)|]. intros [b|] w [-> Hr].
    - destruct Hr as (Hb & Hin & Hx & Ha). split; [done|]. split_and!; [done| | |done].
      + destruct Hin as [Hin|Hin]; [left; by right|by right].
      + intros x Hx'%elem_of_cons Hxv. destruct Hx' as [->|Hx']; [|by apply Hx].
        destruct (Hge Hxv) as (a & Hm & Hle). specialize (Ha a Hm). lia.
    - destruct Hr as [-> Hr]. split; [done|]. split; [done|].
      intros x Hx%elem_of_cons. destruct Hx as [->|Hx]; [|by apply Hr].
      destruct (visited m n) eqn:E; [done|]. destruct (Hge eq_refl) as (? & [=] & _). }
  rewrite <- Hv. destruct (visited m n) eqn:Hvis.
  - apply wp_ret. cbn. by apply Hold.
  - destruct min as [a|].
    + assert (is_Some (m !! a)) as [oa Hoa].
      { specialize (Hmin a eq_refl). unfold visited in Hmin.
        destruct (m !! a); [by eexists|done]. }
      assert (Hca : cost m a = router_cost oa) by (unfold cost; by rewrite Hoa).
      apply wp_bind, (wp_at_node _ _ oa); [done|]. apply wp_ret. cbn.
      rewrite <- Hc, <- Hca. destruct (Z.ltb_spec (cost m n) (cost m a)).
      * apply Hnew; [done|]. by intros ? [= <-].
      * apply Hold. intros _. by exists a.
    + apply wp_ret. cbn. apply Hnew; [done|]. by intros ? [=].
Qed.

(** ** Trying a channel *)

(** the label of an unvisited node is lowered *)
Lemma dij_lower u P m c v k o :
  dij u P m → current u m → arch w0 c u v k → v ∈ N → m !! v = Some o → 0 < k ≤ C →
  cost m u < INT_MAX → cost m u + k < cost m v →
  let m' := <[v := set_router_prev_thru (Some c) (set_router_prev (Some u)
                     (set_router_cost (cost m u + k) o))]> m in
  dij u P m' ∧ current u m' ∧ visits m' N = visits m N.
Proof.
  intros Hm (Hu & Huv & Hmax & Hub) Ha Hv Ho Hk Hinf Hlt m'.
  assert (Hvn : visited m v = false).
  { destruct (visited m v) eqn:E; [|done]. specialize (Hmax v Hv E). lia. }
  assert (Hvu : v ≠ u) by congruence.
  assert (Hvs : v ≠ start).
  { intros ->. destruct (dij_start _ _ _ Hm) as [H0 _].
    pose proof (dij_range _ _ _ Hm u Hu). lia. }
  assert (Hc' : ∀ n, n ≠ v → cost m' n = cost m n).
  { intros n Hn. unfold cost, m'. by rewrite lookup_insert_ne. }
  assert (Hcv : cost m' v = cost m u + k) by (unfold cost at 1, m'; by rewrite lookup_insert_eq).
  assert (Hvis : ∀ n, visited m' n = visited m n).
  { intros n. unfold visited, m'. destruct (decide (n = v)) as [->|].
    - by rewrite lookup_insert_eq, Ho.
    - by rewrite lookup_insert_ne. }
  assert (Hp' : ∀ n, n ≠ v → prev m' n = prev m n ∧ thru m' n = thru m n).
  { intros n Hn. unfold prev, thru, m'. by rewrite lookup_insert_ne. }
  assert (Hvs' : visits m' N = visits m N).
  { unfold visits. f_equal. f_equal. apply list_filter_iff. intros n. by rewrite Hvis. }
  pose proof (dij_range _ _ _ Hm u Hu) as Hru. pose proof (dij_range _ _ _ Hm v Hv) as Hrv.
  split; [|split; [|done]].
  - split.
    + intros n Hn. unfold m'. destruct (decide (n = v)) as [->|].
      * rewrite lookup_insert_eq. by eexists.
      * rewrite lookup_insert_ne by done. by apply (dij_dom _ _ _ Hm).
    + destruct (Hp' start) as [-> _]; [done|]. rewrite Hc' by done. apply (dij_start _ _ _ Hm).
    + intros n Hn. destruct (decide (n = v)) as [->|Hne]; [lia|].
      rewrite Hc' by done. by apply (dij_range _ _ _ Hm).
    + intros n Hn Hns. destruct (decide (n = v)) as [->|Hne].
      * right. exists u, c, k. rewrite Hcv, Hvis, (Hc' u) by done.
        unfold prev, thru, m'. rewrite lookup_insert_eq. split_and!; try done. lia.
      * destruct (Hp' n Hne) as [-> ->]. rewrite (Hc' n Hne).
        destruct (dij_prev _ _ _ Hm n Hn Hns) as [?|(x & d & j & ?&?&?&?&Hx&?&?)]; [by left|].
        right. exists x, d, j. rewrite Hvis, Hc' by congruence. by split_and!.
    + intros x d y j Hxv Hx Hxa HxP Hxi. rewrite Hvis in Hxv.
      rewrite (Hc' x) in * by congruence.
      pose proof (dij_relaxed _ _ _ Hm x d y j Hxv Hx Hxa HxP Hxi).
      destruct (decide (y = v)) as [->|Hne]; [lia|]. by rewrite Hc'.
    + intros x y Hx Hy Hxv Hyv. rewrite Hvis in Hxv, Hyv. rewrite (Hc' x) by congruence.
      destruct (decide (y = v)) as [->|Hne].
      * specialize (Hmax x Hx Hxv). lia.
      * rewrite Hc' by done. by apply (dij_order _ _ _ Hm).
    + intros n Hn. rewrite Hvs'. destruct (decide (n = v)) as [->|Hne].
      * specialize (Hub Hinf). lia.
      * rewrite Hc' by done. by apply (dij_bound _ _ _ Hm).
  - rewrite <- Hvs' in Hub. split_and!; [done|by rewrite Hvis| |by rewrite (Hc' u) by done].
    intros x Hx Hxv. rewrite Hvis in Hxv. rewrite (Hc' u), (Hc' x) by congruence. by apply Hmax.
Qed.

(** a channel that is not worth it, or leads from elsewhere *)
Lemma dij_next u P m c :
  dij u P m → (∀ v k, arch w0 c u v k → cost m u < INT_MAX → cost m v ≤ cost m u + k) →
  dij u (c :: P) m.
Proof.
  intros Hm Hc. destruct Hm as [H1 H2 H3 H4 H5 H6 H7]. split; try done.
  intros x d v k Hx Hxn Ha HP Hi. destruct (decide (x = u)) as [->|Hne].
  - specialize (HP eq_refl). apply elem_of_cons in HP as [->|HP]; [by apply Hc|].
    by eapply H5.
  - eapply H5; try done.
Qed.

Lemma wp_relax u P m c :
  dij u P m → current u m → c ∈ all_chans w0 →
  wp (relax u c) (λ _ w, ∃ m', w = at_ m' ∧ dij u (c :: P) m' ∧ current u m' ∧
    visits m' N = visits m N) (at_ m).
Proof.
  intros Hm Hcur Hc. pose proof Hcur as (Hu & _ & _ & Hub).
  destruct (routable_chans _ _ Hwf c Hc) as (o & x & v & Ho & Hf & Ht & Hx & Hv & Hk & _).
  (* nothing happens *)
  assert (Hskip : (∀ v k, arch w0 c u v k → cost m u < INT_MAX → cost m v ≤ cost m u + k) →
    ∃ m', at_ m = at_ m' ∧ dij u (c :: P) m' ∧ current u m' ∧ visits m' N = visits m N).
  { intros Hs. exists m. split_and!; [done|by apply dij_next|done|done]. }
  unfold relax. apply wp_bind, (wp_at_chan _ _ o); [done|].
  destruct (bool_decide_reflect (chan_from o = Some u)) as [Hfu|Hfu]; cbn [negb].
  2: { apply wp_ret, Hskip. intros y k (_ & o' & Ho' & ? & _). congruence. }
  destruct (bool_decide_reflect (is_Some (chan_pipeline o))) as [Hp|Hp].
  { apply wp_ret, Hskip. intros y k (_ & o' & Ho' & _ & _ & Hn & _).
    rewrite Ho in Ho'. injection Ho' as <-. rewrite Hn in Hp. by destruct Hp. }
  assert (Hpn : chan_pipeline o = None).
  { destruct (chan_pipeline o); [|done]. destruct Hp. by eexists. }
  assert (Ha : arch w0 c u v (chan_cost o)) by (split; [done|]; by exists o).
  destruct (dij_dom _ _ _ Hm u Hu) as [ou Hou].
  assert (Hcu : cost m u = router_cost ou) by (unfold cost; by rewrite Hou).
  apply wp_bind, (wp_at_node _ _ ou); [done|]. rewrite <- Hcu.
  destruct (routable_cost _ _ Hwf) as [HC Hmax].
  pose proof (visits_le m N) as Hvis. pose proof (dij_range _ _ _ Hm u Hu) as Hru.
  destruct (Z.eqb_spec (chan_cost o) INT_MAX) as [E|_].
  { assert (1 ≤ Z.of_nat (length N)).
    { destruct N; [by apply elem_of_nil in Hu|cbn; lia]. }
    nia. }
  destruct (Z.eqb_spec (cost m u) INT_MAX) as [E|Hni]; cbn [orb].
  { apply wp_ret, Hskip. intros y k _. lia. }
  assert (Hinf : cost m u < INT_MAX) by lia.
  assert (Hsum : cost m u + chan_cost o < INT_MAX) by (specialize (Hub Hinf); nia).
  rewrite Ht. apply wp_bind, wp_ret.
  destruct (dij_dom _ _ _ Hm v Hv) as [ov Hov].
  assert (Hcv : cost m v = router_cost ov) by (unfold cost; by rewrite Hov).
  apply wp_bind, (wp_at_node _ _ ov); [done|]. rewrite <- Hcv.
  rewrite i32_small by (unfold INT_MAX in *; lia).
  destruct (Z.ltb_spec (cost m u + chan_cost o) (cost m v)).
  - destruct (dij_lower u P m c v (chan_cost o) ov) as (Hm' & Hcur' & Hv'); try done.
    unfold wp, put_node, modify. cbn. eexists. split; [done|]. split; [|split; [exact Hcur'|exact Hv']].
    apply dij_next; [exact Hm'|]. intros y k (_ & o' & Ho' & _ & Hy & _ & Hk').
    rewrite Ho in Ho'. injection Ho' as <-. rewrite Ht in Hy. injection Hy as <-. intros _.
    unfold cost at 1. rewrite lookup_insert_eq. cbn. rewrite <- Hk'.
    assert (u ≠ v) by (intros ->; lia).
    unfold cost. rewrite lookup_insert_ne by done. fold (cost m u). lia.
  - apply wp_ret, Hskip. intros y k (_ & o' & Ho' & _ & Hy & _ & Hk').
    rewrite Ho in Ho'. injection Ho' as <-. rewrite Ht in Hy. injection Hy as <-. lia.
Qed.

Lemma wp_relax_all u l P m :
  dij u P m → current u m → (∀ c, c ∈ l → c ∈ all_chans w0) →
  wp (forM l (relax u))
    (λ _ w, ∃ m', w = at_ m' ∧ dij u (reverse l ++ P) m' ∧ visits m' N = visits m N)
    (at_ m).
Proof.
  revert P m. induction l as [|c l IH]; intros P m Hm Hcur Hl; cbn [forM].
  { apply wp_ret. by exists m. }
  apply wp_bind. eapply wp_mono; [apply wp_relax; [done|done|apply Hl; by left]|].
  intros ? w1 (m1 & -> & Hm1 & Hc1 & Hv1). eapply wp_mono.
  - apply (IH _ _ Hm1 Hc1). intros d Hd. apply Hl. by right.
  - intros ? w2 (m2 & -> & Hm2 & Hv2). exists m2. split_and!; [done| |congruence].
    by rewrite reverse_cons, <- (assoc_L (++)).
Qed.
(** ** The search *)

(** every channel of every visited node has been tried *)
Definition settled (m : gmap addr ks_node) : Prop :=
  ∃ u P, dij u P m ∧ ∀ c, c ∈ all_chans w0 → c ∈ P.

Lemma visit_node m u o :
  settled m → u ∈ N → m !! u = Some o → visited m u = false →
  (∀ x, x ∈ N → visited m x = false → cost m u ≤ cost m x) →
  let m' := <[u := set_router_visited true o]> m in
  dij u [] m' ∧ current u m' ∧ visits m N + 1 ≤ visits m' N.
Proof.
  intros (z & P & Hm & HP) Hu Ho Hvu Hmin m'.
  assert (Hc' : ∀ n, cost m' n = cost m n).
  { intros n. unfold cost, m'. destruct (decide (n = u)) as [->|].
    - by rewrite lookup_insert_eq, Ho.
    - by rewrite lookup_insert_ne. }
  assert (Hp' : ∀ n, prev m' n = prev m n ∧ thru m' n = thru m n).
  { intros n. unfold prev, thru, m'. destruct (decide (n = u)) as [->|].
    - by rewrite lookup_insert_eq, Ho.
    - by rewrite lookup_insert_ne. }
  assert (Hvu' : visited m' u = true) by (unfold visited, m'; by rewrite lookup_insert_eq).
  assert (Hv' : ∀ n, n ≠ u → visited m' n = visited m n).
  { intros n Hn. unfold visited, m'. by rewrite lookup_insert_ne. }
  pose proof (visits_mark m m' N u Hu Hvu Hvu' Hv') as Hcount.
  destruct (routable_cost _ _ Hwf) as [HC _].
  split_and!; [| |done].
  - split.
    + intros n Hn. unfold m'. destruct (decide (n = u)) as [->|].
      * rewrite lookup_insert_eq. by eexists.
      * rewrite lookup_insert_ne by done. by apply (dij_dom _ _ _ Hm).
    + rewrite Hc'. destruct (Hp' start) as [-> _]. apply (dij_start _ _ _ Hm).
    + intros n Hn. rewrite Hc'. by apply (dij_range _ _ _ Hm).
    + intros n Hn Hns. rewrite Hc'. destruct (Hp' n) as [-> ->].
      destruct (dij_prev _ _ _ Hm n Hn Hns) as [?|(x & d & j & ?&?&?&?&Hx&?&?)]; [by left|].
      right. exists x, d, j. rewrite Hc'. split_and!; try done. by rewrite Hv' by congruence.
    + intros x d y j Hxv Hx Ha HxP Hxi. rewrite !Hc' in *.
      destruct (decide (x = u)) as [->|Hne]; [by specialize (HxP eq_refl); apply elem_of_nil in HxP|].
      rewrite Hv' in Hxv by done. eapply (dij_relaxed _ _ _ Hm); try done.
      intros _. apply HP. by destruct Ha.
    + intros x y Hx Hy Hxv Hyv. rewrite !Hc'. destruct (decide (y = u)) as [->|Hyu]; [congruence|].
      rewrite Hv' in Hyv by done. destruct (decide (x = u)) as [->|Hxu]; [by apply Hmin|].
      rewrite Hv' in Hxv by done. by apply (dij_order _ _ _ Hm).
    + intros n Hn. rewrite Hc'. intros Hi. pose proof (dij_bound _ _ _ Hm n Hn Hi). nia.
  - split_and!; [done|done| |].
    + intros x Hx Hxv. rewrite !Hc'. destruct (decide (x = u)) as [->|Hne]; [done|].
      rewrite Hv' in Hxv by done. by apply (dij_order _ _ _ Hm).
    + rewrite Hc'. intros Hi. pose proof (dij_bound _ _ _ Hm u Hu Hi). nia.
Qed.

(** how the search ends: nothing is left, or the cheapest node left is the destination *)
Definition found (m : gmap addr ks_node) : Prop :=
  settled m ∧
  ((∀ n, n ∈ N → visited m n = true) ∨
   visited m to = false ∧ ∀ n, n ∈ N → visited m n = false → cost m to ≤ cost m n).

Lemma wp_router_loop fuel m :
  settled m → Z.of_nat (length N) - visits m N < Z.of_nat fuel →
  wp (router_loop fuel to) (λ _ w, ∃ m', w = at_ m' ∧ found m') (at_ m).
Proof.
  revert m. induction fuel as [|fuel IH]; intros m Hm Hfuel; cbn [router_loop].
  { pose proof (visits_le m N). lia. }
  pose proof Hm as (z & P & Hd & HP).
  apply wp_bind. unfold wp at 1, get. apply wp_bind.
  eapply wp_mono; [apply wp_min_cost_node; [apply (dij_dom _ _ _ Hd)|by intros ? [=]]|].
  intros [u|] w [-> Hr].
  2: { apply wp_ret. exists m. split; [done|]. split; [done|]. left. apply Hr. }
  destruct Hr as (Hvu & [Hu|[=]] & Hmin & _).
  destruct (decide (u = to)) as [->|Hut].
  { apply wp_ret. exists m. split; [done|]. split; [done|]. by right. }
  destruct (dij_dom _ _ _ Hd u Hu) as [o Ho].
  destruct (visit_node m u o Hm Hu Ho Hvu Hmin) as (Hm' & Hc' & Hcount).
  apply wp_bind, (wp_upd_node _ _ o); [done|]. apply wp_bind.
  eapply wp_mono; [apply (wp_relax_all u _ [] _ Hm' Hc'); done|].
  intros ? w1 (m1 & -> & Hm1 & Hv1). apply IH; [|lia].
  exists u, (reverse (all_chans w0) ++ []). split; [done|]. intros c Hc.
  by rewrite app_nil_r, elem_of_reverse.
Qed.

(** ** What the search means *)

(** no route to an end of the search is cheaper than its label, or than the label of a
    node that is left *)
Lemma label_below m l x k :
  settled m → route w0 start l x k → x ∈ N ∧ 0 ≤ k ∧
  (cost m x ≤ k ∨ ∃ y, y ∈ N ∧ visited m y = false ∧ cost m y ≤ k).
Proof.
  intros (z & P & Hm & HP). induction 1 as [|l v k c x j Hr (Hv & Hk & IH) Ha].
  { destruct (dij_start _ _ _ Hm) as [H0 _]. split_and!; [done|lia|left; lia]. }
  pose proof Ha as (Hc & o & Ho & Hf & Ht & _ & Hj).
  destruct (routable_chans _ _ Hwf c Hc) as (o' & u' & x' & Ho' & Hf' & Ht' & _ & Hx & Hpos & _).
  rewrite Ho in Ho'. injection Ho' as <-. rewrite Ht in Ht'. injection Ht' as <-.
  split_and!; [done|lia|]. destruct IH as [IH|(y & Hy & Hyv & IH)].
  - destruct (visited m v) eqn:Hvv; [|right; exists v; split_and!; [done|done|lia]].
    destruct (decide (cost m v < INT_MAX)) as [Hi|Hi].
    + left. pose proof (dij_relaxed _ _ _ Hm v c x j Hvv Hv Ha (λ _, HP c Hc) Hi). lia.
    + left. pose proof (dij_range _ _ _ Hm x Hx). lia.
  - right. exists y. split_and!; [done|done|lia].
Qed.

Lemma found_below m l k : found m → route w0 start l to k → cost m to ≤ k.
Proof.
  intros [Hm Hend] Hr. destruct (label_below _ _ _ _ Hm Hr) as (_ & _ & [Hk|(y & Hy & Hyv & Hk)]);
    [done|]. destruct Hend as [Hall|[_ Hmin]].
  - specialize (Hall y Hy). congruence.
  - specialize (Hmin y Hy Hyv). lia.
Qed.

(** the end of a route has a label, or a node that is left has one *)
Lemma label_finite m l x k :
  settled m → route w0 start l x k → x ∈ N ∧
  (cost m x < INT_MAX ∨ ∃ y, y ∈ N ∧ visited m y = false ∧ cost m y < INT_MAX).
Proof.
  intros (z & P & Hm & HP). induction 1 as [|l v k c x j Hr (Hv & IH) Ha].
  { destruct (dij_start _ _ _ Hm) as [H0 _]. split; [done|left; rewrite H0; done]. }
  pose proof Ha as (Hc & o & Ho & Hf & Ht & _ & Hj).
  destruct (routable_chans _ _ Hwf c Hc) as (o' & u' & x' & Ho' & Hf' & Ht' & _ & Hx & Hpos & _).
  rewrite Ho in Ho'. injection Ho' as <-. rewrite Ht in Ht'. injection Ht' as <-.
  split; [done|]. destruct IH as [IH|(y & Hy & Hyv & IH)]; [|right; by exists y].
  destruct (visited m v) eqn:Hvv; [|right; by exists v]. left.
  pose proof (dij_relaxed _ _ _ Hm v c x j Hvv Hv Ha (λ _, HP c Hc) IH).
  pose proof (dij_bound _ _ _ Hm v Hv IH). pose proof (visits_le m N).
  destruct (routable_cost _ _ Hwf). nia.
Qed.

Lemma found_none m l k : found m → cost m to = INT_MAX → ¬ route w0 start l to k.
Proof.
  intros [Hm Hend] Hi Hr. destruct (label_finite _ _ _ _ Hm Hr) as (_ & [Hk|(y & Hy & Hyv & Hk)]);
    [lia|]. destruct Hend as [Hall|[_ Hmin]].
  - specialize (Hall y Hy). congruence.
  - specialize (Hmin y Hy Hyv). lia.
Qed.

(** how many nodes have a lower label *)
Definition below (m : gmap addr ks_node) (n : addr) : nat :=
  length (filter (λ x, cost m x < cost m n) N).

Lemma below_lt m x n : x ∈ N → cost m x < cost m n → (below m x < below m n)%nat.
Proof.
  intros Hx Hlt. unfold below. revert Hx. generalize N. intros l.
  assert (Hle : ∀ l, (length (filter (λ y, (cost m y < cost m x)%Z) l)
                      ≤ length (filter (λ y, (cost m y < cost m n)%Z) l))%nat).
  { clear l. intros l. induction l as [|y l IH]; [done|]. rewrite !filter_cons.
    repeat case_decide; cbn; lia. }
  induction l as [|y l IH]; intros Hx; [by apply elem_of_nil in Hx|].
  rewrite !filter_cons. specialize (Hle l). apply elem_of_cons in Hx as [->|Hx].
  - rewrite decide_False by lia. rewrite decide_True by done. cbn. lia.
  - specialize (IH Hx). repeat case_decide; cbn; lia.
Qed.

(** The walk back from a node with a label is a route of that cost. *)
Lemma wp_walk_back m fuel n suffix :
  settled m → n ∈ N → cost m n < INT_MAX → (below m n < fuel)%nat →
  wp (walk_back fuel n suffix) (λ r w, w = at_ m ∧ ∃ l, r = (start, l ++ suffix) ∧
    route w0 start l n (cost m n)) (at_ m).
Proof.
  intros (z & P & Hm & HP). revert n suffix.
  induction fuel as [|fuel IH]; intros n suffix Hn Hi Hfuel; [lia|]. cbn [walk_back].
  destruct (dij_dom _ _ _ Hm n Hn) as [o Ho]. apply wp_bind, (wp_at_node _ _ o); [done|].
  destruct (decide (n = start)) as [->|Hns].
  - destruct (dij_start _ _ _ Hm) as [H0 Hp]. unfold prev in Hp. rewrite Ho in Hp. cbn in Hp.
    rewrite Hp. apply wp_ret. split; [done|]. exists []. split; [done|].
    rewrite H0. constructor.
  - destruct (dij_prev _ _ _ Hm n Hn Hns) as [[? _]|(x & c & k & Hp & Ht & Ha & Hx & _ & Hk & _)];
      [lia|]. unfold prev in Hp. unfold thru in Ht. rewrite Ho in Hp, Ht. cbn in Hp, Ht.
    rewrite Hp, Ht. cbn [deref]. apply wp_bind, wp_ret.
    destruct (routable_chans _ _ Hwf c (proj1 Ha)) as (oc & ? & ? & Hoc & _ & _ & _ & _ & Hpos & _).
    destruct Ha as (Hc & oc' & Hoc' & Hf & Hto' & Hpl & Hk').
    rewrite Hoc in Hoc'. injection Hoc' as <-.
    assert (Hlt : cost m x < cost m n) by lia.
    eapply wp_mono; [apply (IH x (c :: suffix) Hx); [lia|]|].
    { pose proof (below_lt m x n Hx Hlt). lia. }
    intros r w [-> (l & -> & Hr)]. split; [done|]. exists (l ++ [c]).
    split; [by rewrite <- (assoc_L (++))|]. rewrite Hk. econstructor; [exact Hr|].
    split; [done|]. by exists oc.
Qed.

(** From a node without a label there is no way back. *)
Lemma wp_walk_back_none m fuel n :
  settled m → n ∈ N → n ≠ start → cost m n = INT_MAX →
  wp (walk_back (S fuel) n []) (λ r w, w = at_ m ∧ r = (n, [])) (at_ m).
Proof.
  intros (z & P & Hm & HP) Hn Hns Hi. cbn [walk_back].
  destruct (dij_dom _ _ _ Hm n Hn) as [o Ho]. apply wp_bind, (wp_at_node _ _ o); [done|].
  destruct (dij_prev _ _ _ Hm n Hn Hns) as [[_ Hp]|(x & c & k & _ & _ & _ & _ & _ & _ & ?)];
    [|lia]. unfold prev in Hp. rewrite Ho in Hp. cbn in Hp. rewrite Hp. by apply wp_ret.
Qed.

(** ** Running it *)

Lemma wp_reset l m :
  (∀ n, n ∈ l → is_Some (m !! n)) →
  wp (forM l (λ n, upd_node n router_reset))
    (λ _ w, ∃ m', w = at_ m' ∧ (∀ n, is_Some (m !! n) → is_Some (m' !! n)) ∧
       (∀ n, n ∈ l → cost m' n = INT_MAX ∧ visited m' n = false ∧ prev m' n = None) ∧
       (∀ n, cost m n = INT_MAX ∧ visited m n = false ∧ prev m n = None →
             cost m' n = INT_MAX ∧ visited m' n = false ∧ prev m' n = None)) (at_ m).
Proof.
  revert m. induction l as [|n l IH]; intros m Hl; cbn [forM].
  { apply wp_ret. exists m. split_and!; [done|done| |done].
    intros n Hn. by apply elem_of_nil in Hn. }
  destruct (Hl n) as [o Ho]; [by left|]. apply wp_bind, (wp_upd_node _ _ o); [done|].
  set (m1 := <[n := router_reset o]> m).
  assert (Hm1 : ∀ x, is_Some (m !! x) → is_Some (m1 !! x)).
  { intros x Hx. unfold m1. destruct (decide (x = n)) as [->|].
    - rewrite lookup_insert_eq. by eexists.
    - by rewrite lookup_insert_ne. }
  assert (Hn1 : cost m1 n = INT_MAX ∧ visited m1 n = false ∧ prev m1 n = None).
  { unfold cost, visited, prev, m1. by rewrite lookup_insert_eq. }
  assert (Hk1 : ∀ x, cost m x = INT_MAX ∧ visited m x = false ∧ prev m x = None →
                     cost m1 x = INT_MAX ∧ visited m1 x = false ∧ prev m1 x = None).
  { intros x Hx. destruct (decide (x = n)) as [->|]; [done|].
    unfold cost, visited, prev, m1 in *. by rewrite lookup_insert_ne. }
  eapply wp_mono; [apply (IH m1)|].
  { intros x Hx. apply Hm1, Hl. by right. }
  intros ? w (m2 & -> & H1 & H2 & H3). exists m2. split_and!; [done|auto| |auto].
  intros x Hx%elem_of_cons. destruct Hx as [->|Hx]; auto.
Qed.

Lemma settled_start m :
  (∀ n, n ∈ N → is_Some (m !! n)) → cost m start = 0 → prev m start = None →
  (∀ n, n ∈ N → visited m n = false) →
  (∀ n, n ∈ N → n ≠ start → cost m n = INT_MAX ∧ prev m n = None) → settled m.
Proof.
  intros Hd H0 Hp Hv Hi. exists start, (all_chans w0). split; [|done]. split; try done.
  - intros n Hn. destruct (decide (n = start)) as [->|Hne]; [by rewrite H0|].
    destruct (Hi n Hn Hne) as [-> _]. done.
  - intros n Hn Hne. left. by apply Hi.
  - intros x c v k Hx Hxn. rewrite Hv in Hx by done. done.
  - intros x y Hx Hy Hxv. rewrite Hv in Hxv by done. done.
  - intros n Hn Hlt. destruct (decide (n = start)) as [->|Hne].
    + rewrite H0. destruct (routable_cost _ _ Hwf). pose proof (visits_le m N). nia.
    + destruct (Hi n Hn Hne). lia.
Qed.

Lemma wp_router_run :
  (∃ o, nodes w0 !! start = Some o ∧ node_conn o = true) →
  (∃ o, nodes w0 !! to = Some o ∧ node_conn o = true) →
  wp (ks_router_run start to) (λ _ w, ∃ m, w = at_ m ∧ found m) w0.
Proof.
  intros (os & Hs & Hcs) (ot & Ht & Hct). unfold ks_router_run.
  assert (Ew : w0 = at_ (nodes w0)) by (by destruct w0).
  rewrite Ew at 1.
  apply wp_bind, (wp_at_node _ _ os); [done|]. apply wp_bind, (wp_at_node _ _ ot); [done|].
  rewrite Hcs, Hct. apply wp_bind, wp_ret, wp_bind, wp_ret.
  apply wp_bind. unfold wp at 1, get. apply wp_bind.
  eapply wp_mono; [apply wp_reset; apply (routable_nodes _ _ Hwf)|].
  intros ? w1 (m1 & -> & H1 & H2 & _).
  destruct (H1 start) as [o1 Ho1]; [by eexists|].
  apply wp_bind, (wp_upd_node _ _ o1); [done|]. set (m2 := <[start := _]> m1).
  assert (Hc2 : cost m2 start = 0) by (unfold cost, m2; by rewrite lookup_insert_eq).
  destruct (H2 start Hstart) as (_ & Hv1 & Hp1).
  unfold visited, prev in Hv1, Hp1. rewrite Ho1 in Hv1, Hp1. cbn in Hp1.
  apply wp_router_loop.
  - apply settled_start.
    + intros n Hn. unfold m2. destruct (decide (n = start)) as [->|].
      * rewrite lookup_insert_eq. by eexists.
      * rewrite lookup_insert_ne by done. by apply H1, (routable_nodes _ _ Hwf).
    + done.
    + unfold prev, m2. rewrite lookup_insert_eq. done.
    + intros n Hn. unfold visited, m2. destruct (decide (n = start)) as [->|].
      * rewrite lookup_insert_eq. done.
      * rewrite lookup_insert_ne by done. apply (H2 n Hn).
    + intros n Hn Hne. unfold cost, prev, m2. rewrite lookup_insert_ne by done.
      destruct (H2 n Hn) as (?&_&?). done.
  - pose proof (visits_le m2 N). unfold all_nodes in *. cbn in *. lia.
Qed.
End dijkstra.

(** ** The route in the pipeline *)

Lemma wp_chan_gets l w :
  (∀ c, c ∈ l → ∃ o, chans w !! c = Some o ∧ 0 < chan_refcnt o) →
  wp (forM l ks_chan_get) (λ _ w', ∃ m, w' = set_chans m w) w.
Proof.
  revert w. induction l as [|c l IH]; intros w Hl; cbn [forM].
  { apply wp_ret. exists (chans w). by destruct w. }
  destruct (Hl c) as (o & Ho & Hpos); [by left|].
  apply wp_bind. unfold ks_chan_get, the_chan, access, put_chan, wp, mbind, M_bind, get,
    modify, mret, M_ret. cbn. rewrite Ho.
  destruct (Z.ltb_spec 0 (chan_refcnt o)); [|lia]. cbn.
  set (w1 := set_chans _ w). fold (forM l ks_chan_get w1).
  eapply (wp_mono (forM l ks_chan_get) _ _ w1); [apply (IH w1)|].
  - intros d Hd. unfold w1. cbn. destruct (decide (d = c)) as [->|].
    + rewrite lookup_insert_eq. eexists. split; [done|]. cbn. lia.
    + rewrite lookup_insert_ne by done. apply Hl. by right.
  - intros ? w2 [m ->]. by exists m.
Qed.

Lemma route_chans w u l v k : route w u l v k → ∀ c, c ∈ l → c ∈ all_chans w.
Proof.
  induction 1 as [|l v k c x j Hr IH [Hc _]]; intros d Hd; [by apply elem_of_nil in Hd|].
  apply elem_of_app in Hd as [Hd|Hd]; [by apply IH|]. by apply list_elem_of_singleton in Hd as ->.
Qed.

(** what [ks_pipeline_autoroute] promises *)
Definition autorouted (w : ks_conn) (p src dst : addr) (o : ks_pipeline)
    (r : outcome (Z * ks_conn)) : Prop :=
  match r with
  | Done (err, w') =>
      (∃ l, shortest w src l dst ∧ err = 0 ∧
            pipelines w' = <[p := set_pipeline_chans (pipeline_chans o ++ l) o]> (pipelines w)) ∨
      (∀ l k, ¬ route w src l dst k) ∧ err = - EHOSTUNREACH ∧ pipelines w' = pipelines w
  | Fault f =>
      f = OutOfBounds ∧ ∃ l, shortest w src l dst ∧
        32 < Z.of_nat (length (pipeline_chans o) + length l)
  end.

(** C6. [ks_pipeline_autoroute] on a complete topology ends: the channels of a cheapest
    route from the source to the destination, through channels that no pipeline has, go
    behind those of the pipeline; or there is no route, which is reported as
    [EHOSTUNREACH] and leaves the pipeline alone; or the route does not fit into the 32
    channels of a pipeline, and the code writes behind the array. *)
Theorem autoroute_correct C w p o src dst :
  routable C w → src ∈ all_nodes w → dst ∈ all_nodes w → pipelines w !! p = Some o →
  (∀ n, n ∈ all_nodes w → ∃ x, nodes w !! n = Some x ∧ node_conn x = true) →
  autorouted w p src dst o (ks_pipeline_autoroute p src dst w).
Proof.
  intros Hwf Hsrc Hdst Ho Hconn. unfold ks_pipeline_autoroute.
  pose proof (wp_router_run C w src dst Hwf Hsrc Hdst (Hconn _ Hsrc) (Hconn _ Hdst)) as Hrun.
  unfold wp in Hrun. unfold mbind at 1, M_bind at 1.
  destruct (ks_router_run src dst w) as [[[] w1]|f]; [|done].
  destruct Hrun as (m & -> & Hfound). pose proof Hfound as [Hset _].
  unfold mbind at 1, M_bind at 1, get.
  pose proof Hset as (z & P & Hm & _). pose proof (dij_range _ _ _ _ _ _ Hm dst Hdst) as Hr.
  set (fuel := S (length (all_nodes (set_nodes m w)))).
  destruct (decide (cost m dst < INT_MAX)) as [Hi|Hi].
  - assert (Hb : (below w m dst < fuel)%nat).
    { unfold below, fuel. pose proof (length_filter (λ x, (cost m x < cost m dst)%Z) (all_nodes w)).
      unfold all_nodes in *. cbn in *. lia. }
    pose proof (wp_walk_back C w src Hwf m fuel dst [] Hset Hdst Hi Hb) as Hwalk.
    unfold wp in Hwalk. unfold mbind at 1, M_bind at 1.
    destruct (walk_back fuel dst [] (set_nodes m w)) as [[r w2]|f]; [|done].
    destruct Hwalk as (-> & l & -> & Hroute). rewrite app_nil_r.
    assert (Hsh : shortest w src l dst).
    { exists (cost m dst). split; [done|]. intros l' k' Hr'.
      exact (found_below C w src dst Hwf Hsrc m l' k' Hfound Hr'). }
    rewrite bool_decide_true by done. cbn [negb].
    unfold mbind at 1, M_bind at 1, the_pipeline, access, mbind at 1, M_bind at 1, get.
    cbn [pipelines set_nodes]. rewrite Ho. cbn [mret M_ret].
    destruct (Z.ltb_spec 32 (Z.of_nat (length (pipeline_chans o) + length l))).
    { split; [done|]. by exists l. }
    assert (Hg : wp (forM (reverse l) ks_chan_get)
              (λ _ w', ∃ mc, w' = set_chans mc (set_nodes m w)) (set_nodes m w)).
    { apply wp_chan_gets. intros c Hc. rewrite elem_of_reverse in Hc.
      destruct (routable_chans _ _ Hwf c) as (oc & ? & ? & Hoc & _ & _ & _ & _ & _ & Hpos).
      - by eapply route_chans.
      - by exists oc. }
    unfold wp in Hg. unfold mbind at 1, M_bind at 1.
    destruct (forM (reverse l) ks_chan_get (set_nodes m w)) as [[[] w3]|f]; [|done].
    destruct Hg as [mc ->]. cbn. left. by exists l.
  - assert (Hi' : cost m dst = INT_MAX) by lia.
    assert (Hne : dst ≠ src).
    { intros ->. destruct (dij_start _ _ _ _ _ _ Hm) as [H0 _]. rewrite H0 in Hi'. done. }
    pose proof (wp_walk_back_none C w src m (length (all_nodes (set_nodes m w))) dst Hset Hdst Hne Hi')
      as Hwalk.
    unfold wp in Hwalk. unfold mbind at 1, M_bind at 1.
    fold fuel in Hwalk. destruct (walk_back fuel dst [] (set_nodes m w)) as [[r w2]|f]; [|done].
    destruct Hwalk as (-> & ->). rewrite bool_decide_false by done. cbn. right.
    split_and!; [|done|done]. intros l k.
    exact (found_none C w src dst Hwf Hsrc m l k Hfound Hi').
Qed.

(** ** An example *)

(** four nodes; the way over the third is longer than the direct channel, which a
    pipeline has taken *)
Definition example_node (id : Z) : L addr :=
  n ← ks_node_alloc; upd_node n (set_node_id id);; ks_node_add n;; mret n.
Definition example_chan (id : Z) (from to : addr) (pipeline : option addr) : L addr :=
  c ← ks_chan_alloc;
  upd_chan c (λ o, set_chan_pipeline pipeline (set_chan_to (Some to)
    (set_chan_from (Some from) (set_chan_id id o))));;
  ks_chan_add c;; mret c.
Definition example_topology : L addr :=
  a ← example_node 1; b ← example_node 2; c ← example_node 3; d ← example_node 4;
  example_chan 1 a c (Some 99%nat);; example_chan 2 a b None;; example_chan 3 b c None;;
  example_chan 4 d c None;;
  ks_pipeline_alloc.
Definition example_conn : ks_conn :=
  match example_topology conn_init with Done (_, w) => w | Fault _ => conn_init end.
Definition example_pipeline : ks_pipeline :=
  mk_pipeline 1 false 0 None KS_PIPELINE_STATUS_NULL [].


Lemma example_routable : routable 1000 example_conn.
Proof.
  assert (En : all_nodes example_conn = [0; 2; 1; 3]%nat) by (vm_compute; reflexivity).
  assert (Ec : all_chans example_conn = [4; 6; 5; 7]%nat) by (vm_compute; reflexivity).
  split.
  - rewrite En. intros n Hn.
    repeat (apply elem_of_cons in Hn as [->|Hn]; [eexists; vm_compute; reflexivity|]).
    destruct (not_elem_of_nil _ Hn).
  - rewrite En, Ec. clear En Ec. intros c Hc.
    repeat (apply elem_of_cons in Hc as [->|Hc];
      [eexists _, _, _; split; [vm_compute; reflexivity|]; split; [reflexivity|];
       split; [reflexivity|]; split; [set_solver|]; split; [set_solver|]; by split|]).
    destruct (not_elem_of_nil _ Hc).
  - rewrite En. clear. cbn [length]. unfold INT_MAX. lia.
Qed.

Lemma autoroute_correct_witness :
  pipelines example_conn !! 8%nat = Some example_pipeline ∧
  autorouted example_conn 8%nat 0%nat 2%nat example_pipeline
    (ks_pipeline_autoroute 8%nat 0%nat 2%nat example_conn).
Proof.
  assert (En : all_nodes example_conn = [0; 2; 1; 3]%nat) by (vm_compute; reflexivity).
  split; [vm_compute; reflexivity|]. apply (autoroute_correct 1000).
  - apply example_routable.
  - rewrite En. clear. set_solver.
  - rewrite En. clear. set_solver.
  - vm_compute. reflexivity.
  - rewrite En. clear. intros n Hn.
    repeat (apply elem_of_cons in Hn as [->|Hn];
      [eexists; split; vm_compute; reflexivity|]).
    destruct (not_elem_of_nil _ Hn).
Defined.
