(* ===== verification/KsMirror.v ===== *)
(** * The library mirrors what the kernel announces

    The message the kernel writes about an object, given to [ks_topology_update] of the
    library, makes the library's object with the kernel's values. *)

From stdpp Require Import base list gmap.
From Stdlib Require Import ZArith Lia.
From S2P Require Import Prelude.
From S2P Require Import Bits.
From S2P Require Import KsProto.
From S2P Require Import KsKernel.
From S2P Require Import KsPipeline.
From S2P Require Import KsTopology.
From S2P Require Import KsInv.
From S2P Require Import KsStatus.
From S2P Require Import KsWire.
From S2P Require Import KsReach.
From S2P Require Import KsThm.
From S2P Require Import KsLib.
Local Open Scope Z_scope.

(** ** The attributes of the messages *)

Definition node_attrs (o : KsKernel.ks_node) : list (Z * list Z) :=
  [(KS_NODEATTR_ID, le 4 (u32 (KsKernel.node_id o)));
   (KS_NODEATTR_PATH, ks_kobj_make_path (KsKernel.node_path o))].

Definition chan_attrs (o : KsKernel.ks_chan) (from to : KsKernel.ks_node) : list (Z * list Z) :=
  [(KS_CHANATTR_ID, le 4 (u32 (KsKernel.chan_id o)));
   (KS_CHANATTR_PATH, ks_kobj_make_path (KsKernel.chan_path o));
   (KS_CHANATTR_FROM, le 4 (u32 (KsKernel.node_id from)));
   (KS_CHANATTR_TO, le 4 (u32 (KsKernel.node_id to)))].

Definition path_ok (path : list (list Z)) : Prop :=
  4 + Z.of_nat (length (ks_kobj_make_path path)) < 65536 ∧
  Forall (λ b, 0 < b < 256) (ks_kobj_make_path path).

Lemma path_attr_ok type path : 0 ≤ type < 65536 → path_ok path → attr_ok (type, ks_kobj_make_path path).
Proof. intros Ht [Hp _]. by split. Qed.

(** ** The kernel writes them *)

Section env.
Context `{KsEnv}.

Lemma wp_kaccess {A} (sel : ks_world → gmap addr A) a o Q w :
  sel w !! a = Some o → Q o w → wp (KsKernel.access sel a) Q w.
Proof.
  intros Ho HQ. unfold wp, KsKernel.access, mbind, M_bind, get. by rewrite Ho.
Qed.

(** [m] writes the message with the attributes [l], or leaves the buffer as it is *)
Definition writes (m : K (Z * sk_buff)) (skb : sk_buff) (type flags seq pid : Z)
    (l : list (Z * list Z)) (w : ks_world) : Prop :=
  wp m (λ r w', w' = w ∧ written skb (u16 type) (u16 flags) (u32 seq) (u32 pid) l r) w.

(** the buffer [skb1] has the header of the message behind what [skb] has *)
Definition begun (skb skb1 : sk_buff) (type flags seq pid : Z) : Prop :=
  skb_ok skb1 ∧ skb_size skb1 = skb_size skb ∧ skb_data skb1 = skb_data skb ++ nlmsghdr_bytes
    {| nlmsg_len := 16; nlmsg_type := u16 type; nlmsg_flags := u16 flags;
       nlmsg_seq := u32 seq; nlmsg_pid := u32 pid |}.

Lemma writes_put skb type flags seq pid l w (k : sk_buff → K (Z * sk_buff)) :
  skb_ok skb → (∀ skb1, begun skb skb1 type flags seq pid →
                 writes (k skb1) skb type flags seq pid l w) →
  writes (nlh ← lift (NLMSG_PUT skb pid seq type 0 (u16 flags));
          match nlh with
          | None => mret (- ENOBUFS, skb_trim skb (skb_len skb))
          | Some skb => k skb
          end) skb type flags seq pid l w.
Proof.
  intros Hok Hk. apply wp_bind.
  destruct (NLMSG_PUT_spec skb pid seq type (u16 flags) Hok)
    as [[_ E]|(skb1 & E & Hok1 & Hs1 & Hd1)]; unfold wp at 1, lift; rewrite E; [|by apply Hk].
  apply wp_ret. split; [done|]. destruct (skb_trim_ok skb (skb_len skb)) as (T1 & T2 & T3);
    [unfold skb_len; lia|done|].
  split; [exact T1|]. split; [exact T2|]. left. split; [done|]. cbn [snd]. rewrite T3.
  unfold skb_len. by rewrite Nat2Z.id, take_ge.
Qed.

Lemma writes_end skb skb1 type flags seq pid fs l w (k : Z * sk_buff → K (Z * sk_buff)) :
  skb_ok skb → skb_size skb < 4294967296 → begun skb skb1 type flags seq pid →
  Forall2 puts fs l → (∀ r, k r w = Done (end_nlmsg (skb_len skb) r, w)) →
  writes (r ← lift (put_attrs skb1 fs); k r) skb type flags seq pid l w.
Proof.
  intros Hok Hsize (Hok1 & Hs1 & Hd1) Hl Hk. apply wp_bind.
  destruct (end_nlmsg_spec skb skb1 (u16 type) (u16 flags) (u32 seq) (u32 pid) fs l)
    as (r & Er & Hr); [done..|].
  unfold wp at 1, lift. rewrite Er. unfold wp. by rewrite Hk.
Qed.

Lemma node_write node o skb type pid seq flags w :
  KsKernel.nodes w !! node = Some o → path_ok (KsKernel.node_path o) →
  skb_ok skb → skb_size skb < 4294967296 → type ≠ KS_NETLINK_NODE_DEL →
  writes (ks_node_write_to_nlmsg node skb type pid seq flags) skb type flags seq pid
    (node_attrs o) w.
Proof.
  intros Ho Hpath Hok Hsize Hdel. apply writes_put; [done|]. intros skb1 H1.
  apply wp_bind, (wp_kaccess _ _ o); [done|]. rewrite (proj2 (Z.eqb_neq _ _) Hdel).
  apply (writes_end _ _ _ _ _ _ _ (node_attrs o)); try done.
  apply Forall2_cons; split; [by apply puts_u32|].
  apply Forall2_cons; split; [by apply puts_path, path_attr_ok|constructor].
Qed.

(** a series of attributes in two parts *)
Lemma put_attrs_app skb fs gs :
  put_attrs skb (fs ++ gs)
  = ('(err, skb) ← put_attrs skb fs;
     if err <? 0 then Done (err, skb) else put_attrs skb gs).
Proof.
  revert skb. induction fs as [|f fs IH]; intros skb; cbn [put_attrs app]; [done|].
  destruct (f skb) as [[err skb1]|]; cbn [mbind outcome_bind]; [|done].
  destruct (err <? 0) eqn:E; cbn [mbind outcome_bind]; [by rewrite E|apply IH].
Qed.

(** the attributes of a driver are not among them *)
Lemma chan_write chan o from to skb type pid seq flags w :
  KsKernel.chans w !! chan = Some o → KsKernel.nodes w !! KsKernel.chan_from o = Some from →
  KsKernel.nodes w !! KsKernel.chan_to o = Some to → chan_has_get_attr o = false →
  path_ok (KsKernel.chan_path o) → skb_ok skb → skb_size skb < 4294967296 →
  type ≠ KS_NETLINK_CHAN_DEL →
  writes (ks_chan_write_to_nlmsg chan skb type pid seq flags) skb type flags seq pid
    (chan_attrs o from to) w.
Proof.
  intros Ho Hfrom Hto Hattr Hpath Hok Hsize Hdel. apply writes_put; [done|]. intros skb1 H1.
  set (gs := [λ skb, ks_netlink_put_attr_path skb KS_CHANATTR_PATH (KsKernel.chan_path o);
              put_u32 KS_CHANATTR_FROM (KsKernel.node_id from);
              put_u32 KS_CHANATTR_TO (KsKernel.node_id to)]).
  pose proof (writes_end skb skb1 type flags seq pid
    ([put_u32 KS_CHANATTR_ID (KsKernel.chan_id o)] ++ gs) (chan_attrs o from to) w
    (λ r, mret (end_nlmsg (skb_len skb) r)) Hok Hsize H1) as G.
  assert (Hgs : Forall2 puts ([put_u32 KS_CHANATTR_ID (KsKernel.chan_id o)] ++ gs)
                  (chan_attrs o from to)).
  { repeat (apply Forall2_cons; split; [first [by apply puts_u32|by apply puts_path, path_attr_ok]|]).
    constructor. }
  specialize (G Hgs (λ _, eq_refl)). unfold writes, wp in G |- *.
  rewrite put_attrs_app in G.
  unfold KsKernel.the_chan, KsKernel.the_node, KsKernel.access, mbind, M_bind, get, lift in *.
  rewrite Ho. cbn [mret M_ret] in *.
  destruct (put_attrs skb1 [_]) as [[err skb2]|]; cbn [outcome_bind] in *; [|done].
  destruct (err <? 0); [exact G|]. rewrite (proj2 (Z.eqb_neq _ _) Hdel), Hfrom. cbn [outcome_bind mret M_ret].
  rewrite Hto. cbn [outcome_bind mret M_ret].
  fold gs. destruct (put_attrs skb2 gs) as [[err2 skb3]|]; [|done].
  rewrite Hattr. cbn [end_nlmsg] in *. by destruct (err2 <? 0).
Qed.

Definition pipeline_attrs (o : KsKernel.ks_pipeline) (ids : list Z) : list (Z * list Z) :=
  (KS_PIPELINEATTR_ID, le 4 (u32 (KsKernel.pipeline_id o)))
  :: (KS_PIPELINEATTR_STATUS, le 4 (u32 (status_to_u32 (KsKernel.pipeline_status o))))
  :: (KS_PIPELINEATTR_PATH, ks_kobj_make_path (KsKernel.pipeline_path o))
  :: ((λ id, (KS_PIPELINEATTR_CHAN_ID, le 4 (u32 id))) <$> ids).

Lemma pipeline_write pipeline o cs skb type pid seq flags w :
  KsKernel.pipelines w !! pipeline = Some o →
  mapM (λ c, KsKernel.chans w !! c) (entries o) = Some cs →
  path_ok (KsKernel.pipeline_path o) → skb_ok skb → skb_size skb < 4294967296 →
  type ≠ KS_NETLINK_PIPELINE_DEL →
  writes (ks_pipeline_write_to_nlmsg pipeline skb type pid seq flags) skb type flags seq pid
    (pipeline_attrs o (KsKernel.chan_id <$> cs)) w.
Proof.
  intros Ho Hcs Hpath Hok Hsize Hdel. apply writes_put; [done|]. intros skb1 H1.
  apply wp_bind, (wp_kaccess _ _ o); [done|]. rewrite (proj2 (Z.eqb_neq _ _) Hdel).
  apply wp_bind. unfold wp at 1. rewrite Hcs.
  apply (writes_end _ _ _ _ _ _ _ (pipeline_attrs o (KsKernel.chan_id <$> cs))); try done.
  do 2 (apply Forall2_cons; split; [by apply puts_u32|]).
  apply Forall2_cons; split; [by apply puts_path, path_attr_ok|].
  clear. induction (KsKernel.chan_id <$> cs) as [|id ids IH]; constructor; [by apply puts_u32|done].
Qed.
End env.

(** ** The library reads them *)

Lemma attr_u32 a type v :
  attr_is a (type, le 4 (u32 v)) → get_u32 (KS_ATTR_DATA a) = Done (u32 v).
Proof.
  intros (_ & _ & Hd). cbn [snd] in Hd. rewrite le_length in Hd.
  rewrite <- (take_drop 4 (KS_ATTR_DATA a)), Hd.
  apply (get_le_app 4). apply u32_range.
Qed.

Lemma attr_string a type s :
  attr_is a (type, s) → Forall (λ b, 0 < b < 256) s → attr_strndup a = Done s.
Proof.
  intros (_ & Hp & Hd) Hs. cbn [snd] in *. unfold attr_strndup. rewrite Hp.
  rewrite <- (take_drop (length s) (KS_ATTR_DATA a)), Hd.
  rewrite (memcpy_from_app [] s (drop (length s) (KS_ATTR_DATA a))) by (done || lia).
  cbn [mbind outcome_bind].
  rewrite c_str_id; [done|]. eapply Forall_impl; [exact Hs|]. cbn. lia.
Qed.

(** one step of a computation of the library *)
Lemma lbind {A B} (m : L A) (k : A → L B) w a w' r :
  m w = Done (a, w') → k a w' = r → (m ≫= k) w = r.
Proof. intros E <-. unfold mbind, M_bind. by rewrite E. Qed.

Lemma lift_Done {A} (o : outcome A) a (w : ks_conn) : o = Done a → lift o w = Done (a, w).
Proof. by intros ->. Qed.

Lemma lookup_access {A} (sel : ks_conn → gmap addr A) a o w :
  sel w !! a = Some o → access sel a w = Done (o, w).
Proof. intros E. unfold access, mbind, M_bind, get. by rewrite E. Qed.

Lemma upd_node_run a f o w :
  nodes w !! a = Some o → upd_node a f w = Done (tt, set_nodes (<[a := f o]> (nodes w)) w).
Proof. intros E. unfold upd_node. by eapply lbind; [apply lookup_access|]. Qed.

(** closed tests *)
Ltac tests :=
  repeat match goal with |- context [?a =? ?b] =>
    let v := eval vm_compute in (a =? b) in
    match v with true => change (a =? b) with true | false => change (a =? b) with false end
  end; cbn [orb andb negb].

(** the library's copy of the node, referenced by the hash table *)
Definition mirror_node (o : KsKernel.ks_node) : ks_node :=
  {| node_refcnt := 1; node_conn := true; node_id := u32 (KsKernel.node_id o);
     node_path := Some (ks_kobj_make_path (KsKernel.node_path o)); node_features := [];
     router_cost := 0; router_visited := false; router_prev := None;
     router_prev_thru := None |}.

Definition with_node (n : ks_node) (w : ks_conn) : ks_conn :=
  let a := next_addr w in
  set_nodes (<[a := n]> (nodes w))
    (set_nodes_hash (hash_add a (node_id n) (nodes_hash w))
      (set_events ((KS_NETLINK_NODE_NEW, obj_node a) :: events w)
        (set_next_addr (S a) w))).

Lemma lib_node_new nlh h o l w :
  nlmsg_hdr nlh = Done h → nlmsg_type h = KS_NETLINK_NODE_NEW →
  KS_ATTRS nlh = Done l → Forall2 attr_is l (node_attrs o) → path_ok (KsKernel.node_path o) →
  ks_topology_update nlh w = Done (tt, with_node (mirror_node o) w).
Proof.
  intros Hh Ht Hl Ha [_ Hp]. unfold node_attrs in Ha.
  apply Forall2_cons_inv_r in Ha as (a1 & l1 & A1 & Ha & ->).
  apply Forall2_cons_inv_r in Ha as (a2 & l2 & A2 & Ha & ->).
  apply Forall2_nil_inv_r in Ha as ->.
  pose proof (attr_u32 _ _ _ A1) as V1. pose proof (attr_string _ _ _ A2 Hp) as V2.
  destruct A1 as (T1 & _ & _), A2 as (T2 & _ & _). cbn [fst] in T1, T2.
  unfold ks_topology_update. eapply lbind; [by apply lift_Done|].
  cbv zeta. rewrite Ht. tests. unfold ks_node_handle_topology_update.
  eapply lbind; [by apply lift_Done|]. rewrite Ht. tests.
  set (a := next_addr w).
  pose (st n := set_nodes (<[a := n]> (nodes w)) (set_next_addr (S a) w)).
  assert (Hthe : ∀ n, the_node a (st n) = Done (n, st n)).
  { intros n. apply lookup_access, lookup_insert_eq. }
  assert (Hput : ∀ n' n, put_node a n' (st n) = Done (tt, st n')).
  { intros n' n. unfold put_node, modify, st. cbn [set_nodes nodes]. by rewrite insert_insert_eq. }
  assert (Hupd : ∀ f n, upd_node a f (st n) = Done (tt, st (f n))).
  { intros f n. eapply lbind; [apply Hthe|apply Hput]. }
  eapply lbind.
  { unfold ks_node_create_from_nlmsg. eapply lbind; [reflexivity|]. fold a.
    change (set_nodes _ _) with (st (mk_node 1 false 0 None [] 0 false None None)).
    eapply lbind; [by apply lift_Done|].
    eapply lbind; [|reflexivity]. cbn [forM]. rewrite T1. tests.
    eapply lbind. { eapply lbind; [by apply lift_Done|apply Hupd]. }
    rewrite T2. tests. eapply lbind; [|reflexivity].
    eapply lbind; [apply Hthe|]. eapply lbind; [reflexivity|].
    eapply lbind; [by apply lift_Done|]. apply Hupd. }
  eapply lbind.
  { unfold ks_node_add. eapply lbind; [apply Hupd|]. eapply lbind; [apply Hthe|].
    eapply lbind; [|reflexivity]. unfold ks_node_get. eapply lbind; [apply Hthe|].
    eapply lbind; [reflexivity|]. apply Hput. }
  eapply lbind; [reflexivity|]. unfold ks_node_put.
  eapply lbind; [apply lookup_access, lookup_insert_eq|]. eapply lbind; [reflexivity|].
  cbn -[u32 hash_add]. unfold put_node, modify, with_node. cbn -[u32 hash_add].
  tests. unfold st, set_nodes, set_events, set_nodes_hash, set_next_addr.
  cbn -[u32 hash_add]. by rewrite insert_insert_eq.
Qed.

(** ** Channels *)

(** the bucket of the identifier has the node [a] first *)
Definition has_node (w : ks_conn) (id : Z) (a : addr) : Prop :=
  find_id nodes node_id id (nth (bucket id) (nodes_hash w) []) w = Done (Some a, w).

Lemma find_id_ext {A} (sel : ks_conn → gmap addr A) the_id id l r w w' :
  (∀ a, the_id <$> sel w' !! a = the_id <$> sel w !! a) →
  find_id sel the_id id l w = Done (r, w) → find_id sel the_id id l w' = Done (r, w').
Proof.
  intros Heq. induction l as [|a l IH]; cbn [find_id]; [by intros [= ->]|].
  specialize (Heq a). unfold mbind, M_bind, access, get, mret, M_ret in *. unfold mbind, M_bind.
  destruct (sel w !! a) as [o|], (sel w' !! a) as [o'|]; cbn in Heq; try done.
  injection Heq as E. rewrite E. destruct (the_id o =? u32 id); [by intros [= ->]|done].
Qed.

Definition bump (n : ks_node) : ks_node := set_node_refcnt (node_refcnt n + 1) n.

Lemma has_node_get w id a n :
  has_node w id a → nodes w !! a = Some n → 0 < node_refcnt n < 100000 →
  _ks_node_get_by_id id w = Done (Some a, set_nodes (<[a := bump n]> (nodes w)) w).
Proof.
  intros Ha Hn Hr. unfold _ks_node_get_by_id. eapply lbind; [reflexivity|].
  eapply lbind; [exact Ha|]. eapply lbind; [|reflexivity].
  unfold ks_node_get. eapply lbind; [by apply lookup_access|]. eapply lbind; [|reflexivity].
  unfold c_assert. destruct (Z.ltb_spec 0 (node_refcnt n)), (Z.ltb_spec (node_refcnt n) 100000);
    (reflexivity || lia).
Qed.

Definition mirror_chan (o : KsKernel.ks_chan) (f t : addr) : ks_chan :=
  {| chan_refcnt := 1; chan_conn := true; chan_id := u32 (KsKernel.chan_id o);
     chan_path := Some (ks_kobj_make_path (KsKernel.chan_path o));
     chan_from := Some f; chan_to := Some t; chan_pipeline := None; chan_features := [];
     chan_cost := 1000 |}.

Definition with_chan (c : ks_chan) (f t : addr) (w : ks_conn) : ks_conn :=
  let a := next_addr w in
  set_nodes (alter bump t (alter bump f (nodes w)))
    (set_chans (<[a := c]> (chans w))
      (set_chans_hash (hash_add a (chan_id c) (chans_hash w))
        (set_events ((KS_NETLINK_CHAN_NEW, obj_chan a) :: events w)
          (set_next_addr (S a) w)))).

(** there is room for the references *)
Definition countable_refs (w : ks_conn) (a : addr) : Prop :=
  ∃ n, nodes w !! a = Some n ∧ 0 < node_refcnt n < 99999.

Lemma alter_insert_lookup (a : addr) n (m : gmap addr ks_node) :
  m !! a = Some n → alter bump a m = <[a := bump n]> m.
Proof.
  intros E. apply map_eq. intros b. destruct (decide (b = a)) as [->|].
  - by rewrite lookup_alter_eq, E, lookup_insert_eq.
  - by rewrite lookup_alter_ne, lookup_insert_ne.
Qed.

Lemma lib_chan_new nlh h o from to l w f t :
  nlmsg_hdr nlh = Done h → nlmsg_type h = KS_NETLINK_CHAN_NEW →
  KS_ATTRS nlh = Done l → Forall2 attr_is l (chan_attrs o from to) →
  path_ok (KsKernel.chan_path o) →
  has_node w (u32 (KsKernel.node_id from)) f → has_node w (u32 (KsKernel.node_id to)) t →
  countable_refs w f → countable_refs w t →
  ks_topology_update nlh w = Done (tt, with_chan (mirror_chan o f t) f t w).
Proof.
  intros Hh Ht Hl Ha [_ Hp] Hf Hto (nf & Hnf & Rf) (nt & Hnt & Rt). unfold chan_attrs in Ha.
  apply Forall2_cons_inv_r in Ha as (a1 & l1 & A1 & Ha & ->).
  apply Forall2_cons_inv_r in Ha as (a2 & l2 & A2 & Ha & ->).
  apply Forall2_cons_inv_r in Ha as (a3 & l3 & A3 & Ha & ->).
  apply Forall2_cons_inv_r in Ha as (a4 & l4 & A4 & Ha & ->).
  apply Forall2_nil_inv_r in Ha as ->.
  pose proof (attr_u32 _ _ _ A1) as V1. pose proof (attr_string _ _ _ A2 Hp) as V2.
  pose proof (attr_u32 _ _ _ A3) as V3. pose proof (attr_u32 _ _ _ A4) as V4.
  destruct A1 as (T1 & _), A2 as (T2 & _), A3 as (T3 & _), A4 as (T4 & _).
  cbn [fst] in T1, T2, T3, T4.
  unfold ks_topology_update. eapply lbind; [by apply lift_Done|].
  cbv zeta. rewrite Ht. tests. unfold ks_chan_handle_topology_update.
  eapply lbind; [by apply lift_Done|]. rewrite Ht. tests.
  set (a := next_addr w).
  pose (st m n := set_nodes m (set_chans (<[a := n]> (chans w)) (set_next_addr (S a) w))).
  assert (Hthe : ∀ m n, the_chan a (st m n) = Done (n, st m n)).
  { intros m n. apply lookup_access, lookup_insert_eq. }
  assert (Hput : ∀ n' m n, put_chan a n' (st m n) = Done (tt, st m n')).
  { intros n' m n. unfold put_chan, modify, st. cbn [set_nodes set_chans chans].
    by rewrite insert_insert_eq. }
  assert (Hupd : ∀ f m n, upd_chan a f (st m n) = Done (tt, st m (f n))).
  { intros g m n. eapply lbind; [apply Hthe|apply Hput]. }
  assert (Hskip : ∀ s, ks_chan_update_from_nlmsg a nlh s = Done (tt, s)).
  { intros s. unfold ks_chan_update_from_nlmsg. eapply lbind; [by apply lift_Done|].
    cbn [forM]. rewrite T1, T2, T3, T4. reflexivity. }
  set (m1 := <[f := bump nf]> (nodes w)).
  set (m2 := alter bump t (alter bump f (nodes w))).
  assert (Hids : ∀ b, node_id <$> m1 !! b = node_id <$> nodes w !! b).
  { intros b. unfold m1. destruct (decide (b = f)) as [->|].
    - by rewrite lookup_insert_eq, Hnf.
    - by rewrite lookup_insert_ne. }
  assert (Hm2 : ∃ nt', m1 !! t = Some nt' ∧ 0 < node_refcnt nt' < 100000 ∧
                       m2 = <[t := bump nt']> m1).
  { unfold m2. rewrite (alter_insert_lookup f nf) by done. fold m1.
    destruct (decide (t = f)) as [->|].
    - exists (bump nf). unfold m1. rewrite lookup_insert_eq. split; [done|]. split; [cbn; lia|].
      apply alter_insert_lookup, lookup_insert_eq.
    - exists nt. unfold m1. rewrite lookup_insert_ne by done. split; [done|]. split; [lia|].
      apply alter_insert_lookup. by rewrite lookup_insert_ne. }
  eapply lbind.
  { unfold ks_chan_create_from_nlmsg. eapply lbind; [reflexivity|]. fold a.
    change (set_chans _ _) with (st (nodes w) (mk_chan 1 false 0 None None None None [] 1000)).
    eapply lbind; [apply Hskip|]. eapply lbind; [by apply lift_Done|].
    eapply lbind; [|reflexivity]. cbn [forM]. rewrite T1, T2, T3, T4. tests.
    eapply lbind. { eapply lbind; [by apply lift_Done|apply Hupd]. }
    eapply lbind.
    { eapply lbind; [apply Hthe|]. eapply lbind; [reflexivity|].
      eapply lbind; [by apply lift_Done|]. apply Hupd. }
    eapply lbind.
    { eapply lbind; [apply Hthe|]. eapply lbind; [reflexivity|].
      eapply lbind; [by apply lift_Done|].
      eapply lbind; [eapply (has_node_get _ _ f nf); [|done|lia]|].
      - eapply find_id_ext; [|exact Hf]. done.
      - apply (Hupd _ m1). }
    eapply lbind; [|reflexivity].
    destruct Hm2 as (nt' & Hnt' & Rt' & Em2).
    eapply lbind; [apply Hthe|]. eapply lbind; [reflexivity|].
    eapply lbind; [by apply lift_Done|].
    eapply lbind; [eapply (has_node_get _ _ t nt'); [|exact Hnt'|exact Rt']|].
    - eapply find_id_ext; [|exact Hto]. exact Hids.
    - cbn [st set_nodes nodes]. rewrite <- Em2. apply (Hupd _ m2). }
  eapply lbind.
  { unfold ks_chan_add. eapply lbind; [apply Hupd|]. eapply lbind; [apply Hthe|].
    eapply lbind; [|reflexivity]. unfold ks_chan_get. eapply lbind; [apply Hthe|].
    eapply lbind; [reflexivity|]. apply Hput. }
  eapply lbind; [reflexivity|]. unfold ks_chan_put.
  eapply lbind; [apply lookup_access, lookup_insert_eq|]. eapply lbind; [reflexivity|].
  cbn -[u32 hash_add m2]. unfold put_chan, modify, with_chan. cbn -[u32 hash_add m2].
  tests. unfold st, set_nodes, set_chans, set_events, set_chans_hash, set_next_addr.
  cbn -[u32 hash_add m2]. by rewrite insert_insert_eq.
Qed.

(** ** Pipelines *)

Definition has_chan (w : ks_conn) (id : Z) (a : addr) : Prop :=
  find_id chans chan_id id (nth (bucket id) (chans_hash w) []) w = Done (Some a, w).
Definition no_pipeline (w : ks_conn) (id : Z) : Prop :=
  find_id pipelines pipeline_id id (nth (bucket id) (pipelines_hash w) []) w = Done (None, w).

(** a channel that pipeline [p] takes *)
Definition take_by (p : addr) (c : ks_chan) : ks_chan :=
  set_chan_pipeline (Some p) (set_chan_refcnt (chan_refcnt c + 1) c).
Definition taken (p : addr) (cs : list addr) (m : gmap addr ks_chan) : gmap addr ks_chan :=
  foldl (λ m c, alter (take_by p) c m) m cs.

Definition mirror_pipeline (o : KsKernel.ks_pipeline) (cs : list addr) : ks_pipeline :=
  {| pipeline_refcnt := 1; pipeline_conn := true; pipeline_id := u32 (KsKernel.pipeline_id o);
     pipeline_path := Some (ks_kobj_make_path (KsKernel.pipeline_path o));
     pipeline_status := KsKernel.pipeline_status o; pipeline_chans := cs |}.

Definition with_pipeline (p : ks_pipeline) (w : ks_conn) : ks_conn :=
  let a := next_addr w in
  set_chans (taken a (pipeline_chans p) (chans w))
    (set_pipelines (<[a := p]> (pipelines w))
      (set_pipelines_hash (hash_add a (pipeline_id p) (pipelines_hash w))
        (set_events ((KS_NETLINK_PIPELINE_NEW, obj_pipeline a) :: events w)
          (set_next_addr (S a) w)))).

(** the body of the loop for the attribute of a channel *)
Definition take_attr (pipeline : addr) (a : ks_attr) : L unit :=
  id ← lift (get_u32 (KS_ATTR_DATA a));
  chan ← _ks_chan_get_by_id id;
  match chan with
  | None => mret tt
  | Some chan =>
    ks_chan_get chan;;
    add_chan pipeline chan;;
    upd_chan chan (set_chan_pipeline (Some pipeline));;
    ks_chan_put chan
  end.

Definition pst (w : ks_conn) (a : addr) (m : gmap addr ks_chan) (p : ks_pipeline) : ks_conn :=
  set_chans m (set_pipelines (<[a := p]> (pipelines w)) (set_next_addr (S a) w)).

Definition counted (m : gmap addr ks_chan) (c : addr) : Prop :=
  ∃ o, m !! c = Some o ∧ 0 < chan_refcnt o.

Lemma taken_counted p c d m : counted m d → counted (alter (take_by p) c m) d.
Proof.
  intros (o & Ho & Hr). unfold counted. destruct (decide (d = c)) as [->|].
  - rewrite lookup_alter_eq, Ho. eexists; split; [done|]. cbn. lia.
  - rewrite lookup_alter_ne by done. by exists o.
Qed.

Lemma take_attr_run w a m p at_ id c :
  attr_is at_ (KS_PIPELINEATTR_CHAN_ID, le 4 (u32 id)) → counted m c →
  has_chan (pst w a m p) (u32 id) c → (length (pipeline_chans p) < 32)%nat →
  take_attr a at_ (pst w a m p)
  = Done (tt, pst w a (alter (take_by a) c m) (set_pipeline_chans (pipeline_chans p ++ [c]) p)).
Proof.
  intros Ha (o & Ho & Hr) Hc Hlen. unfold take_attr.
  eapply lbind; [apply lift_Done; by eapply attr_u32|].
  assert (Hthe : ∀ n m' p, the_chan c (pst w a (<[c := n]> m') p) = Done (n, pst w a (<[c := n]> m') p)).
  { intros n m' p'. apply lookup_access, lookup_insert_eq. }
  assert (Hput : ∀ n' n m' p', put_chan c n' (pst w a (<[c := n]> m') p')
                          = Done (tt, pst w a (<[c := n']> m') p')).
  { intros n' n m' p'. unfold put_chan, modify, pst. cbn [set_chans set_pipelines chans].
    by rewrite insert_insert_eq. }
  assert (Hass : ∀ k, 0 < k → c_assert (0 <? k) = mret () :> L ()).
  { intros k Hk. unfold c_assert. destruct (Z.ltb_spec 0 k); [done|lia]. }
  eapply lbind.
  { unfold _ks_chan_get_by_id. eapply lbind; [reflexivity|]. eapply lbind; [exact Hc|].
    eapply lbind; [|reflexivity]. unfold ks_chan_get.
    eapply lbind; [apply lookup_access; exact Ho|]. rewrite Hass by done.
    by eapply lbind; [reflexivity|]. }
  change (set_chans _ _) with (pst w a (<[c := set_chan_refcnt (chan_refcnt o + 1) o]> m) p).
  eapply lbind.
  { unfold ks_chan_get. eapply lbind; [apply Hthe|]. rewrite Hass by (cbn; lia).
    eapply lbind; [reflexivity|apply Hput]. }
  eapply lbind.
  { unfold add_chan. eapply lbind; [apply lookup_access, lookup_insert_eq|].
    destruct (Z.leb_spec 32 (Z.of_nat (length (pipeline_chans p)))); [lia|].
    unfold put_pipeline, modify, pst. cbn [set_chans set_pipelines pipelines].
    rewrite insert_insert_eq.
    instantiate (1 := pst w a (<[c := _]> m) (set_pipeline_chans (pipeline_chans p ++ [c]) p)).
    reflexivity. }
  eapply lbind; [eapply lbind; [apply Hthe|apply Hput]|].
  unfold ks_chan_put. eapply lbind; [apply Hthe|]. rewrite Hass by (cbn; lia).
  eapply lbind; [reflexivity|]. cbn [chan_refcnt set_chan_pipeline set_chan_refcnt].
  destruct (Z.eqb_spec (chan_refcnt o + 1 + 1) 1); [lia|]. rewrite Hput.
  f_equal. f_equal. f_equal. apply map_eq. intros b. destruct (decide (b = c)) as [->|].
  - rewrite lookup_insert_eq, lookup_alter_eq, Ho. cbn. unfold take_by. do 2 f_equal. cbn.
    unfold set_chan_refcnt, set_chan_pipeline; cbn. f_equal. lia.
  - by rewrite lookup_insert_ne, lookup_alter_ne.
Qed.

Lemma alter_ids a (c : addr) (m : gmap addr ks_chan) (b : addr) : chan_id <$> alter (take_by a) c m !! b = chan_id <$> m !! b.
Proof.
  destruct (decide (b = c)) as [->|].
  - rewrite lookup_alter_eq. by destruct (m !! c).
  - by rewrite lookup_alter_ne.
Qed.

Lemma take_attrs_run w a f ats ids cs m p :
  (∀ at_, attr_type at_ = KS_PIPELINEATTR_CHAN_ID → f at_ = take_attr a at_) →
  Forall2 attr_is ats ((λ id, (KS_PIPELINEATTR_CHAN_ID, le 4 (u32 id))) <$> ids) →
  Forall2 (λ id c, has_chan w (u32 id) c) ids cs → Forall (counted m) cs →
  (∀ b, chan_id <$> m !! b = chan_id <$> chans w !! b) →
  (length (pipeline_chans p) + length cs ≤ 32)%nat →
  forM ats f (pst w a m p)
  = Done (tt, pst w a (taken a cs m) (set_pipeline_chans (pipeline_chans p ++ cs) p)).
Proof.
  intros Hf Hats Hcs. revert ats m p Hats.
  induction Hcs as [|id c ids cs Hc Hcs IH]; intros ats m p Hats Hm Hids Hlen; cbn [fmap list_fmap] in Hats.
  - apply Forall2_nil_inv_r in Hats as ->. cbn. rewrite app_nil_r. by destruct p.
  - apply Forall2_cons_inv_r in Hats as (at_ & ats' & A & Hats & ->). cbn [forM].
    apply Forall_cons in Hm as [Hmc Hm]. cbn [length] in Hlen.
    eapply lbind.
    + rewrite Hf by apply A. eapply take_attr_run; [exact A|exact Hmc| |lia].
      by eapply (find_id_ext chans chan_id); [exact Hids|].
    + rewrite IH; [|done| | |].
      * cbn [taken foldl]. do 3 f_equal. cbn. by rewrite <- (assoc_L (++)).
      * eapply Forall_impl; [exact Hm|]. intros d. apply taken_counted.
      * intros b. by rewrite alter_ids.
      * cbn. rewrite length_app. cbn. lia.
Qed.

Lemma lib_pipeline_new nlh h o ids cs l w :
  nlmsg_hdr nlh = Done h → nlmsg_type h = KS_NETLINK_PIPELINE_NEW →
  KS_ATTRS nlh = Done l → Forall2 attr_is l (pipeline_attrs o ids) →
  path_ok (KsKernel.pipeline_path o) → proper (KsKernel.pipeline_status o) →
  no_pipeline w (u32 (KsKernel.pipeline_id o)) →
  Forall2 (λ id c, has_chan w (u32 id) c) ids cs → Forall (counted (chans w)) cs →
  (length cs ≤ 32)%nat →
  ks_topology_update nlh w = Done (tt, with_pipeline (mirror_pipeline o cs) w).
Proof.
  intros Hh Ht Hl Ha [_ Hp] Hst Hno Hcs Hm Hlen. unfold pipeline_attrs in Ha.
  apply Forall2_cons_inv_r in Ha as (a1 & l1 & A1 & Ha & ->).
  apply Forall2_cons_inv_r in Ha as (a2 & l2 & A2 & Ha & ->).
  apply Forall2_cons_inv_r in Ha as (a3 & l3 & A3 & Ha & ->).
  pose proof (attr_u32 _ _ _ A1) as V1. pose proof (attr_u32 _ _ _ A2) as V2.
  pose proof (attr_string _ _ _ A3 Hp) as V3.
  destruct A1 as (T1 & _), A2 as (T2 & _), A3 as (T3 & _). cbn [fst] in T1, T2, T3.
  unfold ks_topology_update. eapply lbind; [by apply lift_Done|].
  cbv zeta. rewrite Ht. tests. unfold ks_pipeline_handle_topology_update.
  eapply lbind; [by apply lift_Done|]. eapply lbind; [by apply lift_Done|]. rewrite Ht. tests.
  eapply lbind. { cbn [nlh_to_id]. rewrite T1. tests. by apply lift_Done. }
  eapply lbind.
  { unfold _ks_pipeline_get_by_id. eapply lbind; [reflexivity|]. eapply lbind; [exact Hno|].
    reflexivity. }
  set (a := next_addr w).
  assert (Hthe : ∀ m p, the_pipeline a (pst w a m p) = Done (p, pst w a m p)).
  { intros m p. apply lookup_access, lookup_insert_eq. }
  assert (Hput : ∀ p' m p, put_pipeline a p' (pst w a m p) = Done (tt, pst w a m p')).
  { intros p' m p. unfold put_pipeline, modify, pst. cbn [set_chans set_pipelines pipelines].
    by rewrite insert_insert_eq. }
  assert (Hupd : ∀ g m p, upd_pipeline a g (pst w a m p) = Done (tt, pst w a m (g p))).
  { intros g m p. eapply lbind; [apply Hthe|apply Hput]. }
  eapply lbind.
  { unfold ks_pipeline_create_from_nlmsg. eapply lbind; [reflexivity|]. fold a.
    change (set_pipelines _ _) with
      (pst w a (chans w) (mk_pipeline 1 false 0 None KS_PIPELINE_STATUS_NULL [])).
    eapply lbind; [by apply lift_Done|]. eapply lbind; [|reflexivity].
    cbn [forM]. rewrite T1, T2, T3. tests.
    eapply lbind. { eapply lbind; [by apply lift_Done|apply Hupd]. }
    eapply lbind. { eapply lbind; [by apply lift_Done|apply Hupd]. }
    eapply lbind. { eapply lbind; [by apply lift_Done|apply Hupd]. }
    eapply take_attrs_run; [|exact Ha|exact Hcs|exact Hm|done|cbn; lia].
    intros at_ ->. reflexivity. }
  set (m := taken a cs (chans w)).
  eapply lbind.
  { unfold ks_pipeline_add. eapply lbind; [apply Hupd|]. eapply lbind; [apply Hthe|].
    eapply lbind; [|reflexivity]. unfold ks_pipeline_get. eapply lbind; [reflexivity|].
    eapply lbind; [apply Hthe|]. eapply lbind; [reflexivity|]. apply Hput. }
  eapply lbind; [reflexivity|]. unfold ks_pipeline_put.
  eapply lbind; [apply lookup_access, lookup_insert_eq|]. eapply lbind; [reflexivity|].
  unfold put_pipeline, modify, with_pipeline. cbn -[u32 hash_add m taken status_of_u32].
  tests. unfold pst, set_pipelines, set_chans, set_events, set_pipelines_hash, set_next_addr.
  cbn -[u32 hash_add m taken status_of_u32]. rewrite insert_insert_eq.
  assert (status_of_u32 (u32 (status_to_u32 (KsKernel.pipeline_status o)))
          = KsKernel.pipeline_status o) as -> by (by destruct (KsKernel.pipeline_status o)).
  reflexivity.
Qed.

(** ** From the kernel to the library *)

Lemma written_read skb type flags seq pid l r :
  written skb (u16 type) (u16 flags) (u32 seq) (u32 pid) l r → skb_size skb < 4294967296 →
  r.1 = - ENOBUFS ∧ skb_data r.2 = skb_data skb ∨
  r.1 = 0 ∧ ∃ msg, skb_data r.2 = skb_data skb ++ msg ∧ ∀ rest, ∃ h ats,
    nlmsg_hdr (msg ++ rest) = Done h ∧ nlmsg_type h = u16 type ∧
    KS_ATTRS (msg ++ rest) = Done ats ∧ Forall2 attr_is ats l.
Proof.
  intros (Hok & Hs & [Hr|(Hr & bs & Hbs & <- & Hd)]) Hsize; [by left|right].
  split; [done|]. eexists. split; [exact Hd|]. intros rest.
  assert (Hlen : 16 + Z.of_nat (length (concat (attr_bytes <$> bs))) < 4294967296).
  { revert Hok. unfold skb_ok, skb_len. rewrite Hs, Hd. unfold nl_message.
    rewrite !length_app, nlmsghdr_bytes_length. lia. }
  destruct (KS_ATTRS_message (u16 type) (u16 flags) (u32 seq) (u32 pid) bs rest)
    as (H1 & ats & H2 & H3); [|done|done|].
  - pose proof (u16_range type). pose proof (u16_range flags). pose proof (u32_range seq).
    pose proof (u32_range pid). done.
  - by eexists _, ats.
Qed.

(** the library has the nodes and channels the message is about *)
Definition knows_nodes (conn : ks_conn) (from to : KsKernel.ks_node) (f t : addr) : Prop :=
  has_node conn (u32 (KsKernel.node_id from)) f ∧ has_node conn (u32 (KsKernel.node_id to)) t ∧
  countable_refs conn f ∧ countable_refs conn t.

Definition knows_chans (conn : ks_conn) (kcs : list KsKernel.ks_chan) (cs : list addr) : Prop :=
  Forall2 (λ kc c, has_chan conn (u32 (KsKernel.chan_id kc)) c) kcs cs ∧
  Forall (counted (chans conn)) cs ∧ (length cs ≤ 32)%nat.

(** The result [r] of writing a message behind [skb]: there was no room and the buffer is
    as before, or the library does [f] when it gets the message. *)
Definition announces (skb : sk_buff) (r : Z * sk_buff) (f : ks_conn → ks_conn → Prop) : Prop :=
  r.1 = - ENOBUFS ∧ skb_data r.2 = skb_data skb ∨
  r.1 = 0 ∧ ∃ msg, skb_data r.2 = skb_data skb ++ msg ∧
    ∀ rest conn conn', f conn conn' → ks_topology_update (msg ++ rest) conn = Done (tt, conn').

Section env.
Context `{KsEnv}.

Lemma announces_intro m skb type flags seq pid l w (f : ks_conn → ks_conn → Prop) :
  writes m skb type flags seq pid l w → skb_size skb < 4294967296 →
  (∀ nlh h ats conn conn', nlmsg_hdr nlh = Done h → nlmsg_type h = u16 type →
     KS_ATTRS nlh = Done ats → Forall2 attr_is ats l → f conn conn' →
     ks_topology_update nlh conn = Done (tt, conn')) →
  ∃ r, m w = Done (r, w) ∧ announces skb r f.
Proof.
  intros Hw Hsize Hread. unfold writes, wp in Hw.
  destruct (m w) as [[r w']|]; [|done]. destruct Hw as [-> Hw]. exists r. split; [done|].
  destruct (written_read _ _ _ _ _ _ _ Hw Hsize) as [?|(? & msg & Hd & Hmsg)]; [by left|right].
  split; [done|]. exists msg. split; [done|]. intros rest conn conn' Hf.
  destruct (Hmsg rest) as (h & ats & E1 & E2 & E3 & E4). by eapply Hread.
Qed.

(** The message by which the kernel announces a node makes the library add a node
    with the same identifier and path to its table, and report it; a message that does
    not fit into the buffer leaves nothing behind. *)
Lemma node_mirrored node o skb pid seq flags w :
  KsKernel.nodes w !! node = Some o → path_ok (KsKernel.node_path o) →
  skb_ok skb → skb_size skb < 4294967296 →
  ∃ r, ks_node_write_to_nlmsg node skb KS_NETLINK_NODE_NEW pid seq flags w = Done (r, w) ∧
    announces skb r (λ conn conn', conn' = with_node (mirror_node o) conn).
Proof.
  intros Ho Hpath Hok Hsize.
  apply (announces_intro _ _ KS_NETLINK_NODE_NEW flags seq pid (node_attrs o)); [|done|].
  - by apply node_write.
  - intros nlh h ats conn ? Hh Ht Hl Ha ->. by eapply lib_node_new.
Qed.

(** The message by which the kernel announces a channel makes the library, where it
    knows the two nodes, add a channel with the same identifier and path between its
    copies of these nodes, which no pipeline has. *)
Theorem chan_mirrored chan o from to skb pid seq flags w :
  KsKernel.chans w !! chan = Some o → KsKernel.nodes w !! KsKernel.chan_from o = Some from →
  KsKernel.nodes w !! KsKernel.chan_to o = Some to → chan_has_get_attr o = false →
  path_ok (KsKernel.chan_path o) → skb_ok skb → skb_size skb < 4294967296 →
  ∃ r, ks_chan_write_to_nlmsg chan skb KS_NETLINK_CHAN_NEW pid seq flags w = Done (r, w) ∧
    announces skb r (λ conn conn', ∃ f t, knows_nodes conn from to f t ∧
      conn' = with_chan (mirror_chan o f t) f t conn).
Proof.
  intros Ho Hfrom Hto Hattr Hpath Hok Hsize.
  apply (announces_intro _ _ KS_NETLINK_CHAN_NEW flags seq pid (chan_attrs o from to)); [|done|].
  - by apply chan_write.
  - intros nlh h ats conn ? Hh Ht Hl Ha (f & t & (?&?&?&?) & ->). by eapply lib_chan_new.
Qed.

(** C16. The message by which the kernel announces a pipeline makes the library, where it
    knows the channels and has no pipeline with this identifier, add a pipeline with the
    same identifier, path and status through its copies of these channels, in the same
    order, and each of them refers to the pipeline. *)
Theorem pipeline_mirrored pipeline o kcs skb pid seq flags w :
  KsKernel.pipelines w !! pipeline = Some o →
  mapM (λ c, KsKernel.chans w !! c) (entries o) = Some kcs →
  path_ok (KsKernel.pipeline_path o) → proper (KsKernel.pipeline_status o) →
  skb_ok skb → skb_size skb < 4294967296 →
  ∃ r, ks_pipeline_write_to_nlmsg pipeline skb KS_NETLINK_PIPELINE_NEW pid seq flags w
       = Done (r, w) ∧
    announces skb r (λ conn conn', ∃ cs,
      no_pipeline conn (u32 (KsKernel.pipeline_id o)) ∧ knows_chans conn kcs cs ∧
      conn' = with_pipeline (mirror_pipeline o cs) conn).
Proof.
  intros Ho Hcs Hpath Hst Hok Hsize.
  apply (announces_intro _ _ KS_NETLINK_PIPELINE_NEW flags seq pid
           (pipeline_attrs o (KsKernel.chan_id <$> kcs))); [|done|].
  - by apply pipeline_write.
  - intros nlh h ats conn ? Hh Ht Hl Ha (cs & Hno & (Hk & Hm & Hlen) & ->).
    eapply lib_pipeline_new; try done. by apply Forall2_fmap_l.
Qed.
End env.

(** ** An example *)

Definition example_world : ks_world :=
  match after_inputs (H := env_ok) (setup ++ [new_pipeline 3]) with
  | Some st => st.1.1
  | None => ks_init
  end.
Definition example_skb : sk_buff :=
  {| skb_data := []; skb_mem := replicate 256 0; skb_size := 256 |}.

Definition example_kchan : KsKernel.ks_chan :=
  {| chan_refcount := 3; KsKernel.chan_path := [[99]]; KsKernel.chan_id := 1;
     chan_ops := all_ops; chan_has_get_attr := false; chan_has_set_attr := false;
     chan_duplex := false; KsKernel.chan_from := 0%nat; KsKernel.chan_to := 1%nat;
     chan_mtu := -1; KsKernel.chan_pipeline := Some 3%nat |}.
Definition example_knode (name id : Z) : KsKernel.ks_node :=
  {| node_refcount := 3; KsKernel.node_path := [[name]]; KsKernel.node_id := id;
     node_ops := all_ops |}.

Lemma path_ok_b path :
  forallb (λ b, (0 <? b) && (b <? 256)) (ks_kobj_make_path path)
  && (Z.of_nat (length (ks_kobj_make_path path)) <? 65532) = true → path_ok path.
Proof.
  intros [H1 H2]%andb_true_iff. split; [lia|]. rewrite forallb_forall in H1.
  apply Forall_forall. intros b Hb. apply list_elem_of_In, H1, andb_true_iff in Hb. lia.
Qed.

Lemma pipeline_mirrored_witness :
  ∃ r, ks_pipeline_write_to_nlmsg 3%nat example_skb KS_NETLINK_PIPELINE_NEW 0 5 0
         example_world = Done (r, example_world) ∧ r.1 = 0 ∧
    announces example_skb r (λ conn conn', ∃ cs, no_pipeline conn 1 ∧
      knows_chans conn [example_kchan] cs ∧
      conn' = with_pipeline (mirror_pipeline live_pipeline cs) conn).
Proof.
  destruct (pipeline_mirrored 3%nat live_pipeline [example_kchan] example_skb
              0 5 0 example_world) as (r & E & Hr).
  - vm_compute. reflexivity.
  - vm_compute. reflexivity.
  - apply path_ok_b. vm_compute. reflexivity.
  - exact I.
  - vm_compute. reflexivity.
  - reflexivity.
  - exists r. split; [exact E|]. split; [|exact Hr].
    assert (Hv : match ks_pipeline_write_to_nlmsg 3%nat example_skb
                   KS_NETLINK_PIPELINE_NEW 0 5 0 example_world with
                 | Done (r, _) => Some r.1 | Fault _ => None end = Some 0)
      by (vm_compute; reflexivity).
    rewrite E in Hv. injection Hv as Hv. exact Hv.
Defined.

Lemma chan_mirrored_witness :
  ∃ r, @ks_chan_write_to_nlmsg env_ok 2%nat example_skb KS_NETLINK_CHAN_NEW 0 5 0
         example_world = Done (r, example_world) ∧ r.1 = 0 ∧
    announces example_skb r (λ conn conn', ∃ f t,
      knows_nodes conn (example_knode 97 1) (example_knode 98 2) f t ∧
      conn' = with_chan (mirror_chan example_kchan f t) f t conn).
Proof.
  destruct (@chan_mirrored env_ok 2%nat example_kchan (example_knode 97 1)
              (example_knode 98 2) example_skb 0 5 0 example_world) as (r & E & Hr).
  - vm_compute. reflexivity.
  - vm_compute. reflexivity.
  - vm_compute. reflexivity.
  - reflexivity.
  - apply path_ok_b. vm_compute. reflexivity.
  - vm_compute. reflexivity.
  - reflexivity.
  - exists r. split; [exact E|]. split; [|exact Hr].
    assert (Hv : match @ks_chan_write_to_nlmsg env_ok 2%nat example_skb
                   KS_NETLINK_CHAN_NEW 0 5 0 example_world with
                 | Done (r, _) => Some r.1 | Fault _ => None end = Some 0)
      by (vm_compute; reflexivity).
    rewrite E in Hv. injection Hv as Hv. exact Hv.
Defined.
