(* ===== verification/KsConn.v ===== *)
(** * Requests of the library to the kernel

    [src/libkstreamer/]: requests and their references ([req.c]), the timers that give up
    on them ([timer.c]), the queues of a connection and the frames that answer requests or
    announce changes ([conn.c]), the operations of the application that ask the kernel for
    something and wait ([libkstreamer.c], [pipeline.c], [channel.c]).

    Requests are objects in a heap; a freed one is gone from it.  The state [ks_io] is the
    part of [struct ks_conn] the requests are in, with the topology [conn] of [KsLib].
    The thread of the protocol and the threads of the application take [requests_lock]
    for every access to the queues: what a thread does while it has the lock is one step,
    and whether the lock is left locked is part of the state.  An operation that waits for
    a request is split where it waits, and [ks_client] says where.

    [malloc] succeeds; what the memory holds is given by [ConnEnv].  Datagrams given to
    [sendmsg] are recorded, the pipe that wakes the thread, reports and dumps are left
    out.  No code of the library sets [response_callback]. *)

From stdpp Require Import base list gmap.
From Stdlib Require Import ZArith Lia.
From S2P Require Import Prelude.
From S2P Require Import Bits.
From S2P Require Import KsProto.
From S2P Require Import KsLib.
Local Open Scope Z_scope.

(** ** Requests and connections *)

(** [struct ks_req] with its timer *)
Record ks_req : Type := mk_req {
  req_refcnt : Z;
  req_id : Z;
  req_multi_seq : Z;
  timer_pending : bool;
  timer_expires : Z;
  timer_data : option addr;
  req_completed : bool;
  req_err : Z;
  req_skb : option sk_buff;
  req_type : Z;
  req_flags : Z;
  response_payload : option (list Z);  (** with its size *)
}.
Definition eta_ks_req (r : ks_req) : ks_req :=
  {| req_refcnt := req_refcnt r;
     req_id := req_id r;
     req_multi_seq := req_multi_seq r;
     timer_pending := timer_pending r;
     timer_expires := timer_expires r;
     timer_data := timer_data r;
     req_completed := req_completed r;
     req_err := req_err r;
     req_skb := req_skb r;
     req_type := req_type r;
     req_flags := req_flags r;
     response_payload := response_payload r |}.
Definition set_req_refcnt (v : Z) (r : ks_req) : ks_req :=
  ltac:(upd_field req_refcnt eta_ks_req v r).
Definition set_req_id (v : Z) (r : ks_req) : ks_req :=
  ltac:(upd_field req_id eta_ks_req v r).
Definition set_req_multi_seq (v : Z) (r : ks_req) : ks_req :=
  ltac:(upd_field req_multi_seq eta_ks_req v r).
Definition set_timer_pending (v : bool) (r : ks_req) : ks_req :=
  ltac:(upd_field timer_pending eta_ks_req v r).
Definition set_timer_expires (v : Z) (r : ks_req) : ks_req :=
  ltac:(upd_field timer_expires eta_ks_req v r).
Definition set_timer_data (v : option addr) (r : ks_req) : ks_req :=
  ltac:(upd_field timer_data eta_ks_req v r).
Definition set_req_completed (v : bool) (r : ks_req) : ks_req :=
  ltac:(upd_field req_completed eta_ks_req v r).
Definition set_req_err (v : Z) (r : ks_req) : ks_req :=
  ltac:(upd_field req_err eta_ks_req v r).
Definition set_req_skb (v : option sk_buff) (r : ks_req) : ks_req :=
  ltac:(upd_field req_skb eta_ks_req v r).
Definition set_req_type (v : Z) (r : ks_req) : ks_req :=
  ltac:(upd_field req_type eta_ks_req v r).
Definition set_req_flags (v : Z) (r : ks_req) : ks_req :=
  ltac:(upd_field req_flags eta_ks_req v r).
Definition set_response_payload (v : option (list Z)) (r : ks_req) : ks_req :=
  ltac:(upd_field response_payload eta_ks_req v r).

(** the part of [struct ks_conn] the requests are in *)
Record ks_io : Type := mk_io {
  reqs : gmap addr ks_req;
  next_req : addr;
  seqnum : Z;
  conn_pid : Z;
  requests_locked : bool;            (** [requests_lock] *)
  requests_pending : list addr;
  requests_waiting_ack : list addr;
  requests_multi : list addr;
  timers : list addr;                (** [timerset.timers] *)
  multicast_seqnum : Z;
  version : option (list Z);
  mallocs : nat;                     (** how many buffers were allocated *)
  sent : list (list Z);              (** datagrams, newest first *)
  conn : ks_conn;
}.
Definition eta_ks_io (r : ks_io) : ks_io :=
  {| reqs := reqs r;
     next_req := next_req r;
     seqnum := seqnum r;
     conn_pid := conn_pid r;
     requests_locked := requests_locked r;
     requests_pending := requests_pending r;
     requests_waiting_ack := requests_waiting_ack r;
     requests_multi := requests_multi r;
     timers := timers r;
     multicast_seqnum := multicast_seqnum r;
     version := version r;
     mallocs := mallocs r;
     sent := sent r;
     conn := conn r |}.
Definition set_reqs (v : gmap addr ks_req) (r : ks_io) : ks_io :=
  ltac:(upd_field reqs eta_ks_io v r).
Definition set_next_req (v : addr) (r : ks_io) : ks_io :=
  ltac:(upd_field next_req eta_ks_io v r).
Definition set_seqnum (v : Z) (r : ks_io) : ks_io :=
  ltac:(upd_field seqnum eta_ks_io v r).
Definition set_requests_locked (v : bool) (r : ks_io) : ks_io :=
  ltac:(upd_field requests_locked eta_ks_io v r).
Definition set_requests_pending (v : list addr) (r : ks_io) : ks_io :=
  ltac:(upd_field requests_pending eta_ks_io v r).
Definition set_requests_waiting_ack (v : list addr) (r : ks_io) : ks_io :=
  ltac:(upd_field requests_waiting_ack eta_ks_io v r).
Definition set_requests_multi (v : list addr) (r : ks_io) : ks_io :=
  ltac:(upd_field requests_multi eta_ks_io v r).
Definition set_timers (v : list addr) (r : ks_io) : ks_io :=
  ltac:(upd_field timers eta_ks_io v r).
Definition set_multicast_seqnum (v : Z) (r : ks_io) : ks_io :=
  ltac:(upd_field multicast_seqnum eta_ks_io v r).
Definition set_version (v : option (list Z)) (r : ks_io) : ks_io :=
  ltac:(upd_field version eta_ks_io v r).
Definition set_mallocs (v : nat) (r : ks_io) : ks_io :=
  ltac:(upd_field mallocs eta_ks_io v r).
Definition set_sent (v : list (list Z)) (r : ks_io) : ks_io :=
  ltac:(upd_field sent eta_ks_io v r).
Definition set_conn (v : ks_conn) (r : ks_io) : ks_io :=
  ltac:(upd_field conn eta_ks_io v r).

(** the connection [ks_conn_create] makes in the process [pid] *)
Definition ks_conn_create (pid : Z) : ks_io :=
  {| reqs := ∅; next_req := O; seqnum := 61898; conn_pid := pid; requests_locked := false;
     requests_pending := []; requests_waiting_ack := []; requests_multi := [];
     timers := []; multicast_seqnum := 0; version := None; mallocs := O; sent := [];
     conn := conn_init |}.

(** what the memory of the [n]th buffer holds behind its structure *)
Class ConnEnv : Type := {
  malloc_holds : nat → list Z;
  malloc_size n : length (malloc_holds n) = 4096%nat;
}.

Definition C := M ks_io.
#[global] Typeclasses Transparent C.

Definition SEC : Z := 1000000.
Definition EIO : Z := 5.
Definition ETIMEDOUT : Z := 110.

Section connection.
Context {E : ConnEnv}.

(** ** Accesses *)

Definition the_req (a : addr) : C ks_req :=
  w ← get; match reqs w !! a with Some o => mret o | None => fail UseAfterFree end.
Definition put_req (a : addr) (o : ks_req) : C unit :=
  modify (λ w, set_reqs (<[a := o]> (reqs w)) w).
Definition upd_req (a : addr) (f : ks_req → ks_req) : C unit :=
  o ← the_req a; put_req a (f o).

(** an operation on the topology *)
Definition topology {A} (m : L A) : C A := λ w,
  match m (conn w) with Done (a, c) => Done (a, set_conn c w) | Fault f => Fault f end.

(** [pthread_mutex_lock], [pthread_mutex_unlock] of [requests_lock] *)
Definition lock_requests : C unit :=
  w ← get;
  if requests_locked w then fail Deadlock else put (set_requests_locked true w).
Definition unlock_requests : C unit := modify (set_requests_locked false).

(** ** Requests *)

Definition ks_req_get (req : addr) : C unit :=
  o ← the_req req;
  c_assert (0 <? req_refcnt o);;
  put_req req (set_req_refcnt (req_refcnt o + 1) o).

Definition ks_req_put (req : addr) : C unit :=
  o ← the_req req;
  c_assert (0 <? req_refcnt o);;
  if req_refcnt o =? 1 then modify (λ w, set_reqs (delete req (reqs w)) w)
  else put_req req (set_req_refcnt (req_refcnt o - 1) o).

Definition ks_req_alloc : C addr :=
  w ← get;
  let req := next_req w in
  put (set_next_req (S req) w);;
  put_req req {| req_refcnt := 1; req_id := 0; req_multi_seq := 1;
                 timer_pending := false; timer_expires := 0; timer_data := None;
                 req_completed := false; req_err := 0; req_skb := None; req_type := 0;
                 req_flags := 0; response_payload := None |};;
  mret req.

Inductive ks_timer_action : Set := KS_TIMER_STARTED | KS_TIMER_STOPPED.

(** [ks_req_timer], for the two actions that a request is told with its timer locked *)
Definition ks_req_timer (timer : addr) (action : ks_timer_action)
    (start_data : option addr) : C unit :=
  match action with
  | KS_TIMER_STOPPED =>
    o ← the_req timer;
    req ← deref (timer_data o);
    ks_req_put req;;
    upd_req timer (set_timer_data None)
  | KS_TIMER_STARTED =>
    upd_req timer (set_timer_data start_data);;
    req ← deref start_data;
    ks_req_get req
  end.

(** ** Timers *)

(** the timer of [timer] is linked before the first that expires later *)
Fixpoint link_before (timer : addr) (expires : Z) (l : list addr) : C (list addr) :=
  match l with
  | [] => mret []
  | timert :: l =>
    o ← the_req timert;
    if expires <? timer_expires o then
      upd_req timer (set_timer_pending true);; mret (timer :: timert :: l)
    else l ← link_before timer expires l; mret (timert :: l)
  end.

Definition _ks_timer_add (timer : addr) (expires : Z) : C unit :=
  upd_req timer (set_timer_expires expires);;
  w ← get;
  at_end ← (match last (timers w) with
            | None => mret true
            | Some timert => o ← the_req timert; mret (timer_expires o <=? expires)
            end);
  (if at_end : bool then
     modify (λ w, set_timers (timers w ++ [timer]) w);;
     upd_req timer (set_timer_pending true)
   else
     l ← link_before timer expires (timers w);
     modify (set_timers l));;
  o ← the_req timer;
  c_assert (timer_pending o).

(** [list_del(&timer->node); timer->pending = FALSE] *)
Definition timer_unlink (timer : addr) : C unit :=
  modify (λ w, set_timers (filter (.≠ timer) (timers w)) w);;
  upd_req timer (set_timer_pending false).

Definition ks_timer_start (timer : addr) (expires : Z) (start_data : option addr) : C bool :=
  o ← the_req timer;
  if timer_pending o && (timer_expires o =? expires) then mret false
  else
    when (timer_pending o)
      (ks_req_timer timer KS_TIMER_STOPPED None;; timer_unlink timer);;
    _ks_timer_add timer expires;;
    ks_req_timer timer KS_TIMER_STARTED start_data;;
    mret (timer_pending o).

Definition ks_timer_stop (timer : addr) : C bool :=
  o ← the_req timer;
  when (timer_pending o)
    (timer_unlink timer;; ks_req_timer timer KS_TIMER_STOPPED None;;
     the_req timer;; mret tt);;
  mret (timer_pending o).

Definition ks_timer_start_delta (now : Z) (timer : addr) (delta : Z)
    (start_data : option addr) : C bool :=
  ks_timer_start timer (now + delta) start_data.

Definition ks_req_complete (req : addr) (err : Z) : C unit :=
  upd_req req (set_req_err err);;
  ks_timer_stop req;;
  upd_req req (set_req_completed true).

(** [ks_req_timer] of a timer that fired *)
Definition ks_req_timer_fired (timer : addr) : C unit :=
  o ← the_req timer;
  req ← deref (timer_data o);
  ks_req_complete req (- ETIMEDOUT);;
  ks_req_put req;;
  upd_req timer (set_timer_data None).

Fixpoint timerset_loop (fuel : nat) (now : Z) : C unit :=
  w ← get;
  match timers w with
  | [] => mret tt
  | timer :: _ =>
    o ← the_req timer;
    if timer_expires o <? now then
      match fuel with
      | O => fail Diverges
      | S fuel =>
        timer_unlink timer;;
        ks_req_timer_fired timer;;
        timerset_loop fuel now
      end
    else mret tt
  end.
(** every iteration takes a timer off the list *)
Definition ks_timerset_run (now : Z) : C unit :=
  w ← get; timerset_loop (length (timers w)) now.

(** [memcpy] of the message [nlh] behind the payload there is *)
Definition ks_req_resp_append_payload (req : addr) (nlh : list Z) : C unit :=
  h ← lift (nlmsg_hdr nlh);
  let n := NLMSG_ALIGN (nlmsg_len h) in
  l ← lift (memcpy_from nlh 0 n n);
  o ← the_req req;
  put_req req (set_response_payload (Some (default [] (response_payload o) ++ l)) o).

(** ** Sending *)

Definition ks_conn_queue_request (req : addr) : C unit :=
  lock_requests;;
  w ← get;
  upd_req req (set_req_id (u32 (Z.shiftl (seqnum w) 16)));;
  modify (set_seqnum (i32 (seqnum w + 1)));;
  ks_req_get req;;
  modify (λ w, set_requests_pending (requests_pending w ++ [req]) w);;
  unlock_requests.

Definition conn_alloc_skb : C sk_buff :=
  w ← get;
  put (set_mallocs (S (mallocs w)) w);;
  mret (alloc_skb 4096 (malloc_holds (mallocs w))).

Definition ks_conn_sendmsg (skb : sk_buff) : C unit :=
  modify (λ w, set_sent (skb_data skb :: sent w) w).

(** one request is added to the buffer; where it has no room, the buffer is sent and
    another one tried *)
Fixpoint send_request (fuel : nat) (req : addr) (skb : option sk_buff) : C sk_buff :=
  match fuel with
  | O => fail Diverges
  | S fuel =>
    skb ← (match skb with Some skb => mret skb | None => conn_alloc_skb end);
    w ← get;
    o ← the_req req;
    let oldtail := skb_len skb in
    r ← lift (ks_nlmsg_put skb (conn_pid w) (req_id o) (req_type o) (req_flags o) 0);
    match r with
    | None => ks_conn_sendmsg skb;; send_request fuel req None
    | Some skb =>
      match req_skb o with
      | None => mret (nlmsg_set_len skb oldtail)
      | Some payload =>
        if skb_tailroom skb <=? skb_len payload then
          ks_conn_sendmsg (skb_trim skb oldtail);; send_request fuel req None
        else
          skb ← lift (skb_put skb (skb_len payload) (skb_data payload));
          mret (nlmsg_set_len skb oldtail)
      end
    end
  end.

(** the third attempt is like the second, and so on for ever *)
Definition send_attempts : nat := 3.

Fixpoint send_requests_loop (now : Z) (l : list addr) (skb : option sk_buff)
    : C (option sk_buff) :=
  match l with
  | [] => mret skb
  | req :: l =>
    skb ← send_request send_attempts req skb;
    modify (λ w, set_requests_pending (filter (.≠ req) (requests_pending w)) w);;
    modify (λ w, set_requests_waiting_ack (requests_waiting_ack w ++ [req]) w);;
    ks_timer_start_delta now req (5 * SEC) (Some req);;
    send_requests_loop now l (Some skb)
  end.

Definition ks_conn_send_requests (now : Z) : C unit :=
  lock_requests;;
  w ← get;
  skb ← send_requests_loop now (requests_pending w) None;
  unlock_requests;;
  match skb with
  | Some skb => when (negb (skb_len skb =? 0)) (ks_conn_sendmsg skb)
  | None => mret tt
  end.

(** ** Receiving *)

(** the first of [l] that [p] holds for *)
Fixpoint find_req (p : ks_req → bool) (l : list addr) : C (option addr) :=
  match l with
  | [] => mret None
  | req :: l => o ← the_req req; if p o then mret (Some req) else find_req p l
  end.

(** a message with an error answers [req]: without a code it only drops a reference *)
Definition receive_error (req : addr) (h : nlmsghdr) (nlh : list Z) : C unit :=
  (if nlmsg_len h - NLMSG_SPACE 0 <? 4 then mret tt
   else code ← lift (get_u32 (NLMSG_DATA nlh)); ks_req_complete req (i32 (- code)));;
  ks_req_put req.

(** from the label [found] on *)
Definition acknowledge_found (now : Z) (req : addr) (h : nlmsghdr) (nlh : list Z) : C unit :=
  modify (λ w, set_requests_waiting_ack (filter (.≠ req) (requests_waiting_ack w)) w);;
  o ← the_req req;
  c_assert (bool_decide (response_payload o = None));;
  if nlmsg_type h =? NLMSG_ERROR then unlock_requests;; receive_error req h nlh
  else
    ks_req_resp_append_payload req nlh;;
    if negb (Z.land (nlmsg_flags h) NLM_F_MULTI =? 0) then
      modify (λ w, set_requests_multi (requests_multi w ++ [req]) w);;
      ks_timer_start_delta now req (5 * SEC) (Some req);;
      unlock_requests
    else
      unlock_requests;;
      ks_req_complete req 0;;
      ks_req_put req.

Definition ks_conn_receive_acknowledge (now : Z) (nlh : list Z) : C unit :=
  lock_requests;;
  w ← get;
  h ← lift (nlmsg_hdr nlh);
  if bool_decide (requests_waiting_ack w = []) then unlock_requests
  else
    found ← find_req (λ o, req_id o =? nlmsg_seq h) (requests_waiting_ack w);
    match found with
    | None => mret tt
    | Some req => acknowledge_found now req h nlh
    end.

(** the body of the loop, for the request it is about *)
Definition multi_found (req : addr) (h : nlmsghdr) (nlh : list Z) : C unit :=
  o ← the_req req;
  when (negb (Z.land (nlmsg_seq h) 65535 =? req_multi_seq o)) (ks_req_complete req (- EIO));;
  if nlmsg_type h =? NLMSG_ERROR then unlock_requests;; receive_error req h nlh
  else
    ks_req_resp_append_payload req nlh;;
    upd_req req (λ o, set_req_multi_seq (req_multi_seq o + 1) o);;
    when (nlmsg_type h =? NLMSG_DONE)
      (modify (λ w, set_requests_multi (filter (.≠ req) (requests_multi w)) w);;
       ks_req_complete req 0;;
       ks_req_put req);;
    unlock_requests.

Definition ks_conn_receive_multi (nlh : list Z) : C unit :=
  lock_requests;;
  w ← get;
  h ← lift (nlmsg_hdr nlh);
  found ← find_req (λ o, Z.shiftr (req_id o) 16 =? Z.shiftr (nlmsg_seq h) 16)
            (requests_multi w);
  match found with
  | None => unlock_requests
  | Some req => multi_found req h nlh
  end.

Definition ks_conn_receive_unicast (now : Z) (nlh : list Z) : C unit :=
  h ← lift (nlmsg_hdr nlh);
  if negb (Z.land (nlmsg_flags h) NLM_F_ACK =? 0) then ks_conn_receive_acknowledge now nlh
  else if negb (Z.land (nlmsg_flags h) NLM_F_MULTI =? 0) then ks_conn_receive_multi nlh
  else mret tt.

Definition ks_conn_receive_multicast (nlh : list Z) : C unit :=
  h ← lift (nlmsg_hdr nlh);
  w ← get;
  if negb (multicast_seqnum w =? 0) && negb (u32 (multicast_seqnum w) =? nlmsg_seq h) then
    topology (ks_conn_set_topology_state KS_TOPOLOGY_STATE_INVALID);;
    modify (set_multicast_seqnum 0)
  else
    when (multicast_seqnum w =? 0) (modify (set_multicast_seqnum (i32 (nlmsg_seq h))));;
    match topology_state (conn w) with
    | KS_TOPOLOGY_STATE_SYNCHED => topology (ks_topology_update nlh)
    | _ => mret tt
    end;;
    modify (λ w, set_multicast_seqnum (i32 (multicast_seqnum w + 1)) w).

Definition ks_conn_receive_msg (now : Z) (groups : bool) (nlh : list Z) : C unit :=
  if groups then ks_conn_receive_multicast nlh else ks_conn_receive_unicast now nlh.

(** The loop
      [for (nlh = buf; NLMSG_OK(nlh, len_left); nlh = NLMSG_NEXT(nlh, len_left))]
    over the memory [mem]; a message takes 16 octets or more. *)
Fixpoint nlmsg_loop (fuel : nat) (mem : list Z) (len_left : Z) (f : list Z → C unit)
    : C unit :=
  if len_left <? NLMSG_HDRLEN then mret tt
  else match fuel with
  | O => fail Diverges
  | S fuel =>
    h ← lift (nlmsg_hdr mem);
    if (nlmsg_len h <? NLMSG_HDRLEN) || (len_left <? nlmsg_len h) then mret tt
    else
      f mem;;
      nlmsg_loop fuel (drop (Z.to_nat (NLMSG_ALIGN (nlmsg_len h))) mem)
        (len_left - NLMSG_ALIGN (nlmsg_len h)) f
  end.
Definition for_each_nlmsg (mem : list Z) (len : Z) (f : list Z → C unit) : C unit :=
  nlmsg_loop (Z.to_nat len `div` 16) mem len f.

(** a datagram [l] from the kernel, or to the group of the topology; [recvmsg] cuts what
    the buffer has no room for *)
Definition ks_conn_receive (now : Z) (groups : bool) (l : list Z) : C unit :=
  let buf_size := Z.to_nat (NLMSG_SPACE 8192) in
  let buf := take buf_size (l ++ replicate buf_size 0) in
  for_each_nlmsg buf (Z.of_nat (length (take buf_size l))) (ks_conn_receive_msg now groups).

(** ** Operations of the application *)

Definition new_request (type : Z) : C addr :=
  req ← ks_req_alloc;
  upd_req req (λ o, set_req_flags NLM_F_REQUEST (set_req_type type o));;
  mret req.

(** a request without attributes is queued *)
Definition request (type : Z) : C addr :=
  req ← new_request type; ks_conn_queue_request req;; mret req.

(** attributes, each with its type, the memory of its data and its length *)
Fixpoint put_attrs (req : addr) (l : list (L (Z * list Z * Z))) : C Z :=
  match l with
  | [] => mret 0
  | m :: l =>
    '(type, data, data_len) ← topology m;
    o ← the_req req;
    skb ← deref (req_skb o);
    '(err, skb) ← lift (ks_netlink_put_attr skb type (Some data) data_len);
    put_req req (set_req_skb (Some skb) o);;
    if err <? 0 then mret err else put_attrs req l
  end.

(** a request with attributes is queued, unless they do not fit *)
Definition request_attrs (type : Z) (l : list (L (Z * list Z * Z))) : C (Z + addr) :=
  req ← new_request type;
  skb ← conn_alloc_skb;
  upd_req req (set_req_skb (Some skb));;
  err ← put_attrs req l;
  if err <? 0 then ks_req_put req;; mret (inl err)
  else ks_conn_queue_request req;; mret (inr req).

Definition attr_u32 (type : Z) (m : L Z) : L (Z * list Z * Z) :=
  v ← m; mret (type, le 4 (u32 v), 4).
Definition attr_pipeline_id (pipeline : addr) : L (Z * list Z * Z) :=
  attr_u32 KS_PIPELINEATTR_ID (p ← the_pipeline pipeline; mret (pipeline_id p)).
Definition attr_pipeline_status (pipeline : addr) : L (Z * list Z * Z) :=
  attr_u32 KS_PIPELINEATTR_STATUS
    (p ← the_pipeline pipeline; mret (status_to_u32 (pipeline_status p))).
Definition attr_chan (type : Z) (chan : addr) : L (Z * list Z * Z) :=
  attr_u32 type (c ← the_chan chan; mret (chan_id c)).
Definition attr_feature_value (v : ks_feature_value) : L (Z * list Z * Z) :=
  f ← the_feature (fv_feature v); mret (feature_id f, fv_payload v, fv_len v).

(** where an operation waits, and for which request *)
Inductive topology_phase : Set := phase_feature | phase_node | phase_chan | phase_pipeline.
Inductive ks_client : Set :=
| waits_answer (req : addr)       (** [ks_conn_sync], [ks_conn_remote_topology_*] *)
| waits_version (req : addr)
| waits_create (pipeline req : addr)
| waits_change (req : addr)       (** [ks_pipeline_update], [_destroy], [ks_chan_update] *)
| waits_restart (again : bool) (pipeline req : addr)
| waits_update_chans (pipeline : addr) (i : nat) (req : addr)
| waits_topology_lock (req : addr)
| waits_topology (phase : topology_phase) (feature node chan pipeline : addr)
| waits_topology_unlock (feature node chan pipeline req : addr)
| waits_topology_failed (err : Z) (req : addr).

(** an operation has come to a wait, or it has returned *)
Inductive progress : Set := waiting (c : ks_client) | returned (err : Z).

Definition waits_for (c : ks_client) : addr :=
  match c with
  | waits_answer req | waits_version req | waits_create _ req | waits_change req
  | waits_restart _ _ req | waits_update_chans _ _ req | waits_topology_lock req
  | waits_topology_unlock _ _ _ _ req | waits_topology_failed _ req => req
  | waits_topology phase_feature feature _ _ _ => feature
  | waits_topology phase_node _ node _ _ => node
  | waits_topology phase_chan _ _ chan _ => chan
  | waits_topology phase_pipeline _ _ _ pipeline => pipeline
  end.

Definition started (k : addr → ks_client) (r : Z + addr) : progress :=
  match r with inl err => returned err | inr req => waiting (k req) end.

Definition ks_conn_sync : C progress :=
  req ← request NLMSG_NOOP; mret (waiting (waits_answer req)).
Definition ks_conn_get_version : C progress :=
  req ← request KS_NETLINK_VERSION; mret (waiting (waits_version req)).
Definition ks_conn_remote_topology_lock : C progress :=
  req ← request KS_NETLINK_TOPOLOGY_LOCK; mret (waiting (waits_answer req)).
Definition ks_conn_remote_topology_trylock : C progress :=
  req ← request KS_NETLINK_TOPOLOGY_LOCK; mret (waiting (waits_answer req)).
Definition ks_conn_remote_topology_unlock : C progress :=
  req ← request KS_NETLINK_TOPOLOGY_UNLOCK; mret (waiting (waits_answer req)).

Definition ks_pipeline_create (pipeline : addr) : C progress :=
  p ← topology (the_pipeline pipeline);
  r ← request_attrs KS_NETLINK_PIPELINE_NEW
        (attr_pipeline_status pipeline
           :: (attr_chan KS_PIPELINEATTR_CHAN_ID <$> pipeline_chans p));
  mret (started (waits_create pipeline) r).
Definition pipeline_set (pipeline : addr) : C (Z + addr) :=
  request_attrs KS_NETLINK_PIPELINE_SET
    [attr_pipeline_id pipeline; attr_pipeline_status pipeline].
Definition ks_pipeline_update (pipeline : addr) : C progress :=
  r ← pipeline_set pipeline; mret (started waits_change r).
Definition ks_pipeline_destroy (pipeline : addr) : C progress :=
  r ← request_attrs KS_NETLINK_PIPELINE_DEL [attr_pipeline_id pipeline];
  mret (started waits_change r).

Definition chan_set (chan : addr) : C (Z + addr) :=
  c ← topology (the_chan chan);
  request_attrs KS_NETLINK_CHAN_SET
    (attr_chan KS_CHANATTR_ID chan :: (attr_feature_value <$> chan_features c)).
Definition ks_chan_update (chan : addr) : C progress :=
  r ← chan_set chan; mret (started waits_change r).

(** [ks_pipeline_restart], which looks at no result *)
Definition restart_flowing (pipeline : addr) : C progress :=
  topology (upd_pipeline pipeline (set_pipeline_status KS_PIPELINE_STATUS_FLOWING));;
  r ← pipeline_set pipeline;
  mret (match r with
        | inl _ => returned 0
        | inr req => waiting (waits_restart true pipeline req)
        end).
Definition ks_pipeline_restart (pipeline : addr) : C progress :=
  topology (upd_pipeline pipeline (set_pipeline_status KS_PIPELINE_STATUS_OPEN));;
  r ← pipeline_set pipeline;
  match r with
  | inl _ => restart_flowing pipeline
  | inr req => mret (waiting (waits_restart false pipeline req))
  end.

(** [ks_pipeline_update_chans] from the [i]th channel on *)
Definition ks_pipeline_update_chans (pipeline : addr) (i : nat) : C progress :=
  p ← topology (the_pipeline pipeline);
  match pipeline_chans p !! i with
  | None => mret (returned 0)
  | Some chan => r ← chan_set chan; mret (started (waits_update_chans pipeline i) r)
  end.

(** [ks_update_topology]: the kernel's lock, four requests at a time, their answers in
    order *)
Definition ks_update_topology : C progress :=
  req ← request KS_NETLINK_TOPOLOGY_LOCK; mret (waiting (waits_topology_lock req)).

Definition topology_requests : C progress :=
  topology (ks_conn_set_topology_state KS_TOPOLOGY_STATE_SYNCING;; ks_topology_flush);;
  req_feature ← request KS_NETLINK_FEATURE_GET;
  req_node ← request KS_NETLINK_NODE_GET;
  req_chan ← request KS_NETLINK_CHAN_GET;
  req_pipeline ← request KS_NETLINK_PIPELINE_GET;
  mret (waiting (waits_topology phase_feature req_feature req_node req_chan req_pipeline)).

(** the labels from [err_unlock_failed] to [err_req_alloc_feature] *)
Definition topology_failed (err : Z) (feature node chan pipeline : addr) : C progress :=
  ks_req_put pipeline;; ks_req_put chan;; ks_req_put node;; ks_req_put feature;;
  topology (ks_conn_set_topology_state KS_TOPOLOGY_STATE_INVALID);;
  req ← request KS_NETLINK_TOPOLOGY_UNLOCK;
  mret (waiting (waits_topology_failed err req)).

Definition phase_handler (phase : topology_phase) : list Z → L unit :=
  match phase with
  | phase_feature => ks_feature_handle_topology_update
  | phase_node => ks_node_handle_topology_update
  | phase_chan => ks_chan_handle_topology_update
  | phase_pipeline => ks_pipeline_handle_topology_update
  end.
Definition next_phase (phase : topology_phase) : option topology_phase :=
  match phase with
  | phase_feature => Some phase_node
  | phase_node => Some phase_chan
  | phase_chan => Some phase_pipeline
  | phase_pipeline => None
  end.

Definition topology_answered (phase : topology_phase) (feature node chan pipeline : addr)
    : C progress :=
  let req := waits_for (waits_topology phase feature node chan pipeline) in
  o ← the_req req;
  if req_err o <? 0 then
    ks_req_put req;; topology_failed (req_err o) feature node chan pipeline
  else
    let payload := default [] (response_payload o) in
    for_each_nlmsg payload (Z.of_nat (length payload))
      (λ nlh, topology (phase_handler phase nlh));;
    ks_req_put req;;
    match next_phase phase with
    | Some phase => mret (waiting (waits_topology phase feature node chan pipeline))
    | None =>
      topology (ks_conn_set_topology_state KS_TOPOLOGY_STATE_SYNCHED);;
      unlock ← request KS_NETLINK_TOPOLOGY_UNLOCK;
      mret (waiting (waits_topology_unlock feature node chan pipeline unlock))
    end.

(** [err] of a request, whose reference is given back *)
Definition take_result (req : addr) : C Z :=
  o ← the_req req;
  ks_req_put req;;
  mret (if req_err o <? 0 then req_err o else 0).

(** the end of [ks_pipeline_update], [ks_pipeline_destroy] and [ks_chan_update], which
    gives the reference back twice where the request failed *)
Definition change_result (req : addr) : C Z :=
  o ← the_req req;
  if req_err o <? 0 then ks_req_put req;; ks_req_put req;; mret (req_err o)
  else ks_req_put req;; mret 0.

(** what an operation does when its request is completed *)
Definition ks_client_resume (c : ks_client) : C progress :=
  match c with
  | waits_answer req => err ← take_result req; mret (returned err)
  | waits_version req =>
    o ← the_req req;
    (if req_err o <? 0 then mret tt
     else
       payload ← deref (response_payload o);
       v ← lift (memcpy_from (NLMSG_DATA payload) 0 4 4);
       modify (set_version (Some v)));;
    err ← take_result req; mret (returned err)
  | waits_create pipeline req =>
    o ← the_req req;
    (if req_err o <? 0 then mret tt
     else
       payload ← deref (response_payload o);
       topology (ks_pipeline_update_from_nlmsg pipeline payload;; ks_pipeline_add pipeline));;
    err ← take_result req; mret (returned err)
  | waits_change req => err ← change_result req; mret (returned err)
  | waits_restart again pipeline req =>
    change_result req;;
    if again then mret (returned 0) else restart_flowing pipeline
  | waits_update_chans pipeline i req =>
    err ← change_result req;
    if err <? 0 then mret (returned err) else ks_pipeline_update_chans pipeline (S i)
  | waits_topology_lock req =>
    err ← take_result req;
    if err <? 0 then mret (returned err) else topology_requests
  | waits_topology phase feature node chan pipeline =>
    topology_answered phase feature node chan pipeline
  | waits_topology_unlock feature node chan pipeline req =>
    err ← take_result req;
    if err <? 0 then topology_failed err feature node chan pipeline
    else mret (returned 0)
  | waits_topology_failed err req => take_result req;; mret (returned err)
  end.

(** ** The threads of an application *)

Inductive ks_op : Set :=
| op_sync | op_get_version | op_lock | op_trylock | op_unlock
| op_pipeline_create (pipeline : addr) | op_pipeline_update (pipeline : addr)
| op_pipeline_destroy (pipeline : addr) | op_pipeline_restart (pipeline : addr)
| op_pipeline_update_chans (pipeline : addr) | op_chan_update (chan : addr)
| op_update_topology.

Definition ks_call (op : ks_op) : C progress :=
  match op with
  | op_sync => ks_conn_sync
  | op_get_version => ks_conn_get_version
  | op_lock => ks_conn_remote_topology_lock
  | op_trylock => ks_conn_remote_topology_trylock
  | op_unlock => ks_conn_remote_topology_unlock
  | op_pipeline_create pipeline => ks_pipeline_create pipeline
  | op_pipeline_update pipeline => ks_pipeline_update pipeline
  | op_pipeline_destroy pipeline => ks_pipeline_destroy pipeline
  | op_pipeline_restart pipeline => ks_pipeline_restart pipeline
  | op_pipeline_update_chans pipeline => ks_pipeline_update_chans pipeline 0
  | op_chan_update chan => ks_chan_update chan
  | op_update_topology => ks_update_topology
  end.

(** what can happen: an application calls an operation, the [i]th operation that waits
    goes on, the thread of the protocol receives, looks at the timers, sends; the
    application changes objects of its own *)
Inductive ks_event : Type :=
| ev_call (op : ks_op)
| ev_resume (i : nat)
| ev_receive (now : Z) (groups : bool) (l : list Z)
| ev_timers (now : Z)
| ev_send (now : Z)
| ev_objects (c : ks_conn).

(** the operations that wait, and the connection *)
Definition ks_system : Type := list ks_client * ks_io.

Definition progressed (cs : list ks_client) (p : progress) : list ks_client :=
  match p with waiting c => c :: cs | returned _ => cs end.

(** a client goes on when its request is completed, and waits on when it is not *)
Definition client_step (cs : list ks_client) (i : nat) : C (list ks_client) :=
  match cs !! i with
  | None => mret cs
  | Some c =>
    o ← the_req (waits_for c);
    if req_completed o then p ← ks_client_resume c; mret (progressed (delete i cs) p)
    else mret cs
  end.

Definition ks_exec (cs : list ks_client) (e : ks_event) : C (list ks_client) :=
  match e with
  | ev_call op => p ← ks_call op; mret (progressed cs p)
  | ev_resume i => client_step cs i
  | ev_receive now groups l => ks_conn_receive now groups l;; mret cs
  | ev_timers now => ks_timerset_run now;; mret cs
  | ev_send now => ks_conn_send_requests now;; mret cs
  | ev_objects c => modify (set_conn c);; mret cs
  end.
End connection.
