(* ===== verification/KsConnInv.v ===== *)
(** * Requests of the library: the invariant

    [IoInv H X w]: the count of references of every request is what the queues, its timer
    and the holders [H] have; a request that is freed is in no queue; every request whose
    wait has not ended, except those of [X], is in the queue of requests to send or its
    timer runs.  The running code owns what it holds: taking a request off a queue moves
    a reference to [H].

    A change of one request is [inv_change]; the primitives of [req.c] and [timer.c] meet
    no fault where the invariant holds. *)

From stdpp Require Import base list gmap sorting.
From Stdlib Require Import ZArith Lia.
From S2P Require Import Prelude.
From S2P Require Import Bits.
From S2P Require Import KsProto.
From S2P Require Import KsLib.
From S2P Require Import KsConn.
Local Open Scope Z_scope.

(** ** Timers in order *)

Definition expiry (w : ks_io) (a : addr) : Z := from_option timer_expires 0 (reqs w !! a).
Definition by_expiry (w : ks_io) (a b : addr) : Prop := expiry w a ≤ expiry w b.

(** where [_ks_timer_add] links a timer *)
Fixpoint insert_timer (f : addr → Z) (a : addr) (e : Z) (l : list addr) : list addr :=
  match l with
  | [] => [a]
  | b :: l => if e <? f b then a :: b :: l else b :: insert_timer f a e l
  end.

Lemma insert_timer_perm f a e l : insert_timer f a e l ≡ₚ a :: l.
Proof.
  induction l as [|b l IH]; cbn; [done|]. destruct (_ <? _); [done|]. rewrite IH. apply perm_swap.
Qed.

Lemma insert_timer_sorted f a l :
  StronglySorted (λ b c, f b ≤ f c) l →
  StronglySorted (λ b c, f b ≤ f c) (insert_timer f a (f a) l).
Proof.
  induction 1 as [|b l Hl IH Hb]; cbn; [repeat constructor|].
  destruct (Z.ltb_spec (f a) (f b)).
  - constructor; [by constructor|]. constructor; [lia|].
    eapply Forall_impl; [done|]. cbn. lia.
  - constructor; [done|]. rewrite insert_timer_perm. by constructor.
Qed.

Lemma insert_timer_end f a e l : Forall (λ b, f b ≤ e) l → insert_timer f a e l = l ++ [a].
Proof.
  induction 1 as [|b l Hb _ IH]; cbn; [done|]. destruct (Z.ltb_spec e (f b)); [lia|]. by rewrite IH.
Qed.

Lemma insert_timer_ext f g a e l :
  (∀ b, b ∈ l → f b = g b) → insert_timer f a e l = insert_timer g a e l.
Proof.
  induction l as [|b l IH]; intros Hfg; cbn; [done|].
  rewrite (Hfg b) by apply list_elem_of_here. destruct (_ <? _); [done|].
  rewrite IH; [done|]. intros c Hc. apply Hfg. by apply list_elem_of_further.
Qed.

Lemma sorted_ext (f g : addr → Z) l :
  (∀ b, b ∈ l → f b = g b) →
  StronglySorted (λ b c, f b ≤ f c) l → StronglySorted (λ b c, g b ≤ g c) l.
Proof.
  intros Hfg Hl. induction Hl as [|b l Hl IH Hb]; [constructor|].
  constructor; [apply IH; intros c Hc; apply Hfg; by apply list_elem_of_further|].
  rewrite Forall_forall in *. intros c Hc.
  rewrite <- !Hfg by (apply elem_of_cons; tauto). by apply Hb.
Qed.

Lemma sorted_filter (R : addr → addr → Prop) (P : addr → Prop) `{∀ a, Decision (P a)} l :
  StronglySorted R l → StronglySorted R (filter P l).
Proof.
  induction 1 as [|b l Hl IH Hb]; [constructor|]. rewrite filter_cons. case_decide; [|done].
  constructor; [done|]. rewrite Forall_forall in *. intros c Hc.
  apply Hb. by apply list_elem_of_filter in Hc as [_ ?].
Qed.

(** ** The invariant *)

Definition queues (w : ks_io) : list addr :=
  requests_pending w ++ requests_waiting_ack w ++ requests_multi w.

(** a buffer of [alloc_skb(4096)] with messages in it: of the memory behind its structure,
    1016 octets are its own *)
Definition skb_ok (skb : sk_buff) : Prop :=
  skb_size skb = 4096 ∧ (length (skb_data skb) + length (skb_mem skb) = 1016)%nat ∧
  (4 | Z.of_nat (length (skb_data skb))).

Record req_fine (X : list addr) (w : ks_io) (a : addr) (o : ks_req) : Prop := {
  rf_fresh : (a < next_req w)%nat;
  rf_timer : timer_pending o = true ↔ a ∈ timers w;
  rf_data : timer_pending o = true → timer_data o = Some a;
  rf_armed : timer_pending o = true →
    a ∈ X ∨ a ∈ requests_waiting_ack w ++ requests_multi w;
  rf_unsent : a ∈ requests_pending w → timer_pending o = false;
  rf_unanswered : a ∈ requests_pending w ++ requests_waiting_ack w → response_payload o = None;
  rf_ends : a ∈ X ∨ req_completed o = true ∨ a ∈ requests_pending w ∨ timer_pending o = true;
  rf_skb skb : req_skb o = Some skb → skb_ok skb;
}.

Record IoInv (H X : list addr) (w : ks_io) : Prop := {
  io_refs a o : reqs w !! a = Some o →
    req_refcnt o = Z.of_nat (occ a H + occ a (queues w) + Nat.b2n (timer_pending o)) ∧
    0 < req_refcnt o;
  io_live a : a ∈ H ++ queues w ++ timers w → is_Some (reqs w !! a);
  io_queues : NoDup (queues w);
  io_timers : NoDup (timers w);
  io_sorted : StronglySorted (by_expiry w) (timers w);
  io_req a o : reqs w !! a = Some o → req_fine X w a o;
}.

Definition w_req (a : addr) (o : ks_req) (w : ks_io) : ks_io := set_reqs (<[a := o]> (reqs w)) w.

Lemma inv_held H X w a : IoInv H X w → a ∈ H → ∃ o, reqs w !! a = Some o.
Proof. intros I Ha. apply (io_live _ _ _ I). apply elem_of_app. by left. Qed.
Lemma inv_queued H X w a : IoInv H X w → a ∈ queues w → ∃ o, reqs w !! a = Some o.
Proof. intros I Ha. apply (io_live _ _ _ I). rewrite !elem_of_app. tauto. Qed.
Lemma inv_timed H X w a : IoInv H X w → a ∈ timers w → ∃ o, reqs w !! a = Some o.
Proof. intros I Ha. apply (io_live _ _ _ I). rewrite !elem_of_app. tauto. Qed.

Lemma expiry_ne w a o b : b ≠ a → expiry (w_req a o w) b = expiry w b.
Proof. intros Hb. unfold expiry, w_req. cbn. by rewrite lookup_insert_ne. Qed.
Lemma expiry_eq w a o : expiry (w_req a o w) a = timer_expires o.
Proof. unfold expiry, w_req. cbn. by rewrite lookup_insert_eq. Qed.

Lemma sorted_req w a o l :
  (a ∈ l → timer_expires o = expiry w a) →
  StronglySorted (by_expiry w) l → StronglySorted (by_expiry (w_req a o w)) l.
Proof.
  intros Ha. apply sorted_ext. intros b Hb. destruct (decide (b = a)) as [->|Hne].
  - rewrite expiry_eq. symmetry. by apply Ha.
  - by rewrite expiry_ne.
Qed.

(** what is not a request is as before *)
Definition rest (w : ks_io) : ks_io := set_timers [] (set_reqs ∅ w).
Lemma rest_queues w w' : rest w' = rest w → queues w' = queues w.
Proof.
  intros E. pose proof (f_equal requests_pending E) as E1.
  pose proof (f_equal requests_waiting_ack E) as E2. pose proof (f_equal requests_multi E) as E3.
  cbn in *. unfold queues. congruence.
Qed.

Lemma inv_perm H H' X w : H ≡ₚ H' → IoInv H X w → IoInv H' X w.
Proof.
  intros HH [I1 I2 I3 I4 I5 I6]. constructor; [|intros a; rewrite <- HH; apply I2|done..].
  intros a o Ho. rewrite <- (occ_perm a _ _ HH). by apply I1.
Qed.

Lemma req_fine_mono X X' w a o : X ⊆ X' → req_fine X w a o → req_fine X' w a o.
Proof. intros HX []. constructor; naive_solver. Qed.
Lemma inv_mono H X X' w : X ⊆ X' → IoInv H X w → IoInv H X' w.
Proof.
  intros HX [I1 I2 I3 I4 I5 I6]. constructor; [done..|].
  intros a o Ho. by eapply req_fine_mono; [|apply I6].
Qed.
Lemma inv_mono_cons H X a w : IoInv H X w → IoInv H (a :: X) w.
Proof. apply inv_mono. apply list_subseteq_cons. done. Qed.

(** [a] is as it should be *)
Lemma inv_settle H X a w :
  IoInv H (a :: X) w →
  (∀ o, reqs w !! a = Some o →
    (timer_pending o = true → a ∈ requests_waiting_ack w ++ requests_multi w) ∧
    (req_completed o = true ∨ a ∈ requests_pending w ∨ timer_pending o = true)) →
  IoInv H X w.
Proof.
  intros [I1 I2 I3 I4 I5 I6] Ha. constructor; [done..|].
  intros b o Ho. destruct (I6 b o Ho). constructor; try done.
  - intros Hp. destruct (rf_armed0 Hp) as [[->|?]%elem_of_cons|?]; [|by left|by right].
    right. by apply (Ha o Ho).
  - destruct rf_ends0 as [[->|?]%elem_of_cons|?]; [|by left|by right]. right. by apply (Ha o Ho).
Qed.

(** ** One request changes *)

(** nothing but [a] is concerned *)
Record elsewhere (a : addr) (H X : list addr) (w : ks_io) (H' X' : list addr) (w' : ks_io)
    : Prop := {
  el_reqs b : b ≠ a → reqs w' !! b = reqs w !! b;
  el_held b : b ≠ a → occ b H' = occ b H;
  el_pending b : b ≠ a → b ∈ requests_pending w' ↔ b ∈ requests_pending w;
  el_waiting b : b ≠ a → b ∈ requests_waiting_ack w' ↔ b ∈ requests_waiting_ack w;
  el_multi b : b ≠ a → b ∈ requests_multi w' ↔ b ∈ requests_multi w;
  el_timers b : b ≠ a → b ∈ timers w' ↔ b ∈ timers w;
  el_exempt b : b ≠ a → b ∈ X → b ∈ X';
  el_next : (next_req w ≤ next_req w')%nat;
}.

(** what is asked of [a] itself *)
Definition here (H X : list addr) (w : ks_io) (a : addr) : Prop :=
  match reqs w !! a with
  | Some o =>
    req_refcnt o = Z.of_nat (occ a H + occ a (queues w) + Nat.b2n (timer_pending o)) ∧
    0 < req_refcnt o ∧ req_fine X w a o
  | None => a ∉ H ++ queues w ++ timers w
  end.

Lemma here_some H X w a o :
  reqs w !! a = Some o →
  req_refcnt o = Z.of_nat (occ a H + occ a (queues w) + Nat.b2n (timer_pending o)) →
  0 < req_refcnt o → req_fine X w a o → here H X w a.
Proof. intros Ho Hr Hp Hf. unfold here. by rewrite Ho. Qed.

Lemma occ_nodup_iff a l k : NoDup l → NoDup k → (a ∈ l ↔ a ∈ k) → occ a l = occ a k.
Proof.
  intros Hl Hk Hlk. destruct (decide (a ∈ l)) as [Ha|Ha].
  - rewrite !occ_nodup; tauto.
  - assert (a ∉ k) as Hb by tauto. apply occ_not_elem in Ha, Hb. congruence.
Qed.

Lemma inv_change a H X w H' X' w' :
  IoInv H X w → elsewhere a H X w H' X' w' → here H' X' w' a →
  NoDup (queues w') → NoDup (timers w') → StronglySorted (by_expiry w') (timers w') →
  IoInv H' X' w'.
Proof.
  intros [I1 I2 I3 I4 I5 I6] [E1 E2 E3 E4 E5 E6 E7 E8] Ha Hq Ht Hs.
  assert (∀ b, b ≠ a → b ∈ queues w' ↔ b ∈ queues w) as Eq.
  { intros b Hb. unfold queues. rewrite !elem_of_app, E3, E4, E5; tauto. }
  constructor; try done.
  - intros b o Ho. destruct (decide (b = a)) as [->|Hb].
    + unfold here in Ha. rewrite Ho in Ha. tauto.
    + rewrite E1 in Ho by done. rewrite E2 by done.
      rewrite (occ_nodup_iff b (queues w') (queues w)) by auto. by apply I1.
  - intros b Hb. destruct (decide (b = a)) as [->|Hne].
    + unfold here in Ha. destruct (reqs w' !! a); [by eexists|done].
    + rewrite E1 by done. apply I2. rewrite !elem_of_app in *.
      rewrite Eq, E6 in Hb by done. destruct Hb as [Hb|?]; [|tauto]. left.
      apply occ_elem. rewrite <- E2 by done. by apply occ_elem.
  - intros b o Ho. destruct (decide (b = a)) as [->|Hb].
    + unfold here in Ha. rewrite Ho in Ha. tauto.
    + rewrite E1 in Ho by done. destruct (I6 b o Ho).
      constructor; rewrite ?elem_of_app, ?E3, ?E4, ?E5, ?E6 in * by done; try done.
      * lia.
      * intros Hp. destruct (rf_armed0 Hp); [left; auto|tauto].
      * destruct rf_ends0; [left; auto|tauto].
Qed.

(** the record of [a] only *)
Lemma inv_req a o H X w H' X' :
  IoInv H X w → (∀ b, b ≠ a → occ b H' = occ b H) → (∀ b, b ≠ a → b ∈ X → b ∈ X') →
  (a ∈ timers w → timer_expires o = expiry w a) →
  req_refcnt o = Z.of_nat (occ a H' + occ a (queues w) + Nat.b2n (timer_pending o)) →
  0 < req_refcnt o → req_fine X' w a o →
  IoInv H' X' (w_req a o w).
Proof.
  intros I HH HX He Hr Hp Hf. apply (inv_change a H X w); try apply I; try done.
  - constructor; try done. intros b Hb. cbn. by rewrite lookup_insert_ne.
  - unfold here. cbn. rewrite lookup_insert_eq. split_and!; [done..|].
    by destruct Hf; constructor.
  - apply sorted_req; [done|apply I].
Qed.

Lemma inv_plain a o o' H X w :
  IoInv H X w → reqs w !! a = Some o →
  req_refcnt o' = req_refcnt o → timer_pending o' = timer_pending o →
  timer_expires o' = timer_expires o →
  (timer_pending o = true → timer_data o' = timer_data o) →
  (req_completed o = true → req_completed o' = true) →
  (a ∈ requests_pending w ++ requests_waiting_ack w →
    response_payload o' = response_payload o) →
  req_skb o' = req_skb o →
  IoInv H X (w_req a o' w).
Proof.
  intros I Ho E1 E2 E3 E4 E5 E6 E7. destruct (io_refs _ _ _ I a o Ho). destruct (io_req _ _ _ I a o Ho).
  apply (inv_req a _ H X); try done.
  - intros _. unfold expiry. by rewrite Ho.
  - by rewrite E1, E2.
  - by rewrite E1.
  - constructor; rewrite ?E2; try done.
    + intros Hp. rewrite E4; auto.
    + intros Ha. rewrite E6; auto.
    + tauto.
    + rewrite E7. exact rf_skb0.
Qed.

Lemma inv_skb a o skb H X w :
  IoInv H X w → reqs w !! a = Some o → skb_ok skb →
  IoInv H X (w_req a (set_req_skb (Some skb) o) w).
Proof.
  intros I Ho Hs. destruct (io_refs _ _ _ I a o Ho). destruct (io_req _ _ _ I a o Ho).
  apply (inv_req a _ H X); try done.
  - intros _. unfold expiry. by rewrite Ho.
  - constructor; try done. cbn. by intros ? [= <-].
Qed.

Lemma io_inv_get a o H X w :
  IoInv H X w → reqs w !! a = Some o →
  IoInv (a :: H) X (w_req a (set_req_refcnt (req_refcnt o + 1) o) w).
Proof.
  intros I Ho. destruct (io_refs _ _ _ I a o Ho). pose proof (io_req _ _ _ I a o Ho) as F.
  apply (inv_req a _ H X); try done.
  - intros b Hb. by apply occ_tail.
  - intros _. unfold expiry. by rewrite Ho.
  - rewrite occ_head. cbn. lia.
  - cbn. lia.
  - by destruct F; constructor.
Qed.

Lemma io_inv_put a o H X w :
  IoInv (a :: H) X w → reqs w !! a = Some o → req_refcnt o ≠ 1 →
  IoInv H X (w_req a (set_req_refcnt (req_refcnt o - 1) o) w).
Proof.
  intros I Ho H1. destruct (io_refs _ _ _ I a o Ho). pose proof (io_req _ _ _ I a o Ho) as F.
  rewrite occ_head in *. apply (inv_req a _ (a :: H) X); try done.
  - intros b Hb. by rewrite occ_tail.
  - intros _. unfold expiry. by rewrite Ho.
  - cbn. lia.
  - cbn. lia.
  - by destruct F; constructor.
Qed.

Lemma inv_free a o H X w :
  IoInv (a :: H) X w → reqs w !! a = Some o → req_refcnt o = 1 →
  IoInv H X (set_reqs (delete a (reqs w)) w).
Proof.
  intros I Ho H1. destruct (io_refs _ _ _ I a o Ho) as [R _]. rewrite occ_head in R.
  destruct (timer_pending o) eqn:Hp; cbn in R; [lia|].
  assert (a ∉ timers w) as Ht.
  { intros Hin. apply (rf_timer _ _ _ _ (io_req _ _ _ I a o Ho)) in Hin. congruence. }
  apply (inv_change a (a :: H) X w); try apply I.
  - constructor; try done.
    + intros b Hb. cbn. by rewrite lookup_delete_ne.
    + intros b Hb. by rewrite occ_tail.
  - unfold here. cbn. rewrite lookup_delete_eq. change (a ∉ H ++ queues w ++ timers w).
    intros [Hin|[Hin|?]%elem_of_app]%elem_of_app; [apply occ_elem in Hin; lia..|done].
  - unfold by_expiry, expiry. cbn. eapply (sorted_ext (expiry w)); [|apply I].
    intros b Hb. unfold expiry. by rewrite lookup_delete_ne by congruence.
Qed.

(** ** Timers start and stop *)

(** the timer of [a] is taken off the list *)
Definition w_untimed (a : addr) (o : ks_req) (w : ks_io) : ks_io :=
  set_timers (filter (.≠ a) (timers w)) (w_req a o w).

Lemma inv_untimed a o o' H H' X w :
  IoInv H X w → reqs w !! a = Some o → timer_pending o = true →
  (∀ b, b ≠ a → occ b H' = occ b H) →
  timer_pending o' = false → response_payload o' = response_payload o →
  req_skb o' = req_skb o → req_refcnt o' = Z.of_nat (occ a H' + occ a (queues w)) → 0 < req_refcnt o' →
  IoInv H' (a :: X) (w_untimed a o' w).
Proof.
  intros I Ho Hp HH Hp' Hpay Hskb Hr Hpos. destruct (io_req _ _ _ I a o Ho).
  apply (inv_change a H X w); try apply I.
  - constructor; try done.
    + intros b Hb. cbn. by rewrite lookup_insert_ne.
    + intros b Hb. cbn. rewrite list_elem_of_filter. tauto.
    + intros b Hb. by apply list_elem_of_further.
  - apply (here_some _ _ _ _ o'); [apply lookup_insert_eq| |done|].
    { rewrite Hp', Nat.add_0_r. done. }
    constructor; cbn; rewrite ?Hp'; try done.
    + split; [done|]. rewrite list_elem_of_filter. tauto.
    + intros. rewrite Hpay. auto.
    + left. apply list_elem_of_here.
    + intros skb Hs. rewrite Hskb in Hs. by apply rf_skb0.
  - cbn. apply NoDup_filter, I.
  - cbn. eapply (sorted_ext (expiry w)); cycle 1.
    { apply (sorted_filter (by_expiry w) (.≠ a)), I. }
    intros b [Hb _]%list_elem_of_filter. symmetry. by apply (expiry_ne w a o').
Qed.

(** the timer of [a] is linked and expires at [e] *)
Definition w_timed (a : addr) (e : Z) (o : ks_req) (w : ks_io) : ks_io :=
  set_timers (insert_timer (expiry w) a e (timers w)) (w_req a o w).

Lemma insert_timer_in f a e l b : b ∈ insert_timer f a e l ↔ b = a ∨ b ∈ l.
Proof. rewrite insert_timer_perm. apply elem_of_cons. Qed.

Lemma inv_timed_at a e o o' H X w :
  IoInv H (a :: X) w → reqs w !! a = Some o → timer_pending o = false →
  a ∉ requests_pending w → timer_pending o' = true → timer_expires o' = e →
  timer_data o' = Some a → req_refcnt o' = req_refcnt o + 1 →
  response_payload o' = response_payload o → req_skb o' = req_skb o →
  IoInv H (a :: X) (w_timed a e o' w).
Proof.
  intros I Ho Hp Hq Hp' He Hd Hr Hpay Hskb. destruct (io_req _ _ _ I a o Ho).
  destruct (io_refs _ _ _ I a o Ho) as [Hc Hpos].
  assert (a ∉ timers w) as Ht by (intros Hin; apply rf_timer0 in Hin; congruence).
  apply (inv_change a H (a :: X) w); try apply I.
  - constructor; try done.
    + intros b Hb. cbn. by rewrite lookup_insert_ne.
    + intros b Hb. cbn. rewrite insert_timer_in. tauto.
  - apply (here_some _ _ _ _ o'); [apply lookup_insert_eq| |lia|].
    { rewrite Hr, Hc, Hp, Hp'. change (queues (w_timed a e o' w)) with (queues w). cbn. lia. }
    constructor; cbn; rewrite ?Hp'; try done.
    + split; [|done]. rewrite insert_timer_in. tauto.
    + intros _. left. apply list_elem_of_here.
    + intros. rewrite Hpay. auto.
    + left. apply list_elem_of_here.
    + intros skb Hs. rewrite Hskb in Hs. by apply rf_skb0.
  - cbn. rewrite insert_timer_perm. constructor; [done|apply I].
  - cbn. set (f := expiry (w_timed a e o' w)).
    assert (∀ b, b ∈ timers w → expiry w b = f b) as Hext.
    { intros b Hb. symmetry. apply (expiry_ne w a o'). congruence. }
    assert (f a = e) as Hf by (etrans; [apply (expiry_eq w a o')|done]).
    change (StronglySorted (λ b c, f b ≤ f c) (insert_timer (expiry w) a e (timers w))).
    rewrite (insert_timer_ext _ f) by done. clearbody f. rewrite <- Hf.
    apply (insert_timer_sorted f). eapply (sorted_ext (expiry w)); [done|apply I].
Qed.

(** ** Requests change their queue *)

Definition with_queues (p q m : list addr) (w : ks_io) : ks_io :=
  set_requests_multi m (set_requests_waiting_ack q (set_requests_pending p w)).

Lemma inv_requeue a p q m H X w H' :
  IoInv H X w → (∀ b, b ≠ a → occ b H' = occ b H) →
  (∀ b, b ≠ a → b ∈ p ↔ b ∈ requests_pending w) →
  (∀ b, b ≠ a → b ∈ q ↔ b ∈ requests_waiting_ack w) →
  (∀ b, b ≠ a → b ∈ m ↔ b ∈ requests_multi w) →
  NoDup (p ++ q ++ m) →
  (occ a H' + occ a (p ++ q ++ m) = occ a H + occ a (queues w))%nat →
  (∃ o, reqs w !! a = Some o ∧ (a ∈ p → timer_pending o = false) ∧
    (a ∈ p ++ q → response_payload o = None)) →
  IoInv H' (a :: X) (with_queues p q m w).
Proof.
  intros I HH Hp Hq Hm Hnd Hocc (o & Ho & Ht & Hpay). destruct (io_req _ _ _ I a o Ho).
  destruct (io_refs _ _ _ I a o Ho).
  apply (inv_change a H X w); try apply I; try done.
  - constructor; try done. intros b Hb. by apply list_elem_of_further.
  - apply (here_some _ _ _ _ o); [done| |done|].
    { change (queues (with_queues p q m w)) with (p ++ q ++ m). lia. }
    constructor; cbn; try done; intros; left; apply list_elem_of_here.
Qed.

(** only the request [a] and the list of timers differ *)
Definition touched (a : addr) (w w' : ks_io) : Prop :=
  rest w' = rest w ∧ ∀ b, b ≠ a → reqs w' !! b = reqs w !! b.

Lemma touched_refl a w : touched a w w.
Proof. done. Qed.
Lemma touched_trans a w1 w2 w3 : touched a w1 w2 → touched a w2 w3 → touched a w1 w3.
Proof. intros [R1 O1] [R2 O2]. split; [congruence|]. intros b Hb. by rewrite O2, O1. Qed.
Lemma touched_req a o w : touched a w (w_req a o w).
Proof. split; [done|]. intros b Hb. cbn. by rewrite lookup_insert_ne. Qed.
Lemma touched_timers a l w w' : touched a w w' → touched a w (set_timers l w').
Proof. intros [R O]. split; [exact R|exact O]. Qed.
Lemma touched_untimed a o w : touched a w (w_untimed a o w).
Proof. apply touched_timers, touched_req. Qed.
Lemma touched_timed a e o w : touched a w (w_timed a e o w).
Proof. apply touched_timers, touched_req. Qed.
Lemma touched_delete a w : touched a w (set_reqs (delete a (reqs w)) w).
Proof. split; [done|]. intros b Hb. cbn. by rewrite lookup_delete_ne. Qed.
Lemma touched_queues a w w' : touched a w w' → queues w' = queues w.
Proof. intros [R _]. by apply rest_queues. Qed.

(** ** References and timers *)

Section triples.
Context {E : ConnEnv}.

Lemma wp_run {S A B} (m : M S A) (k : A → M S B) a s s' Q :
  m s = Done (a, s') → wp (k a) Q s' → wp (m ≫= k) Q s.
Proof. intros Hm Hk. unfold wp, mbind, M_bind. by rewrite Hm. Qed.

Lemma w_req_twice a o o' w : w_req a o' (w_req a o w) = w_req a o' w.
Proof. unfold w_req, set_reqs. cbn. by rewrite insert_insert_eq. Qed.
Lemma w_req_at a o w : reqs (w_req a o w) !! a = Some o.
Proof. apply lookup_insert_eq. Qed.

Lemma the_req_eq a o w : reqs w !! a = Some o → the_req a w = Done (o, w).
Proof. intros Ho. unfold the_req, mbind, M_bind. cbn. by rewrite Ho. Qed.
Lemma upd_req_eq a f o w :
  reqs w !! a = Some o → upd_req a f w = Done (tt, w_req a (f o) w).
Proof. intros Ho. unfold upd_req, mbind, M_bind. by rewrite (the_req_eq a o). Qed.
Lemma ks_req_get_eq a o w :
  reqs w !! a = Some o → 0 < req_refcnt o →
  ks_req_get a w = Done (tt, w_req a (set_req_refcnt (req_refcnt o + 1) o) w).
Proof.
  intros Ho Hr. unfold ks_req_get, mbind, M_bind. rewrite (the_req_eq a o) by done.
  apply Z.ltb_lt in Hr. by rewrite Hr.
Qed.
Lemma ks_req_put_eq a o w :
  reqs w !! a = Some o → 1 < req_refcnt o →
  ks_req_put a w = Done (tt, w_req a (set_req_refcnt (req_refcnt o - 1) o) w).
Proof.
  intros Ho Hr. unfold ks_req_put, mbind, M_bind. rewrite (the_req_eq a o) by done.
  destruct (Z.ltb_spec 0 (req_refcnt o)); [|lia]. destruct (Z.eqb_spec (req_refcnt o) 1); [lia|].
  done.
Qed.
Lemma ks_req_put_last a o w :
  reqs w !! a = Some o → req_refcnt o = 1 →
  ks_req_put a w = Done (tt, set_reqs (delete a (reqs w)) w).
Proof.
  intros Ho Hr. unfold ks_req_put, mbind, M_bind. rewrite (the_req_eq a o) by done.
  by rewrite Hr.
Qed.

Lemma wp_req_get H X a w :
  IoInv H X w → is_Some (reqs w !! a) →
  wp (ks_req_get a) (λ _ w', IoInv (a :: H) X w' ∧ touched a w w') w.
Proof.
  intros I [o Ho]. unfold wp. rewrite (ks_req_get_eq a o) by (done || apply (io_refs _ _ _ I a o Ho)).
  split; [by apply io_inv_get|apply touched_req].
Qed.

Lemma wp_req_put H X a o w :
  IoInv (a :: H) X w → reqs w !! a = Some o →
  wp (ks_req_put a) (λ _ w', IoInv H X w' ∧ touched a w w' ∧
    ∀ o', reqs w' !! a = Some o' → o' = set_req_refcnt (req_refcnt o - 1) o) w.
Proof.
  intros I Ho.
  destruct (io_refs _ _ _ I a o Ho) as [_ Hr]. unfold wp.
  destruct (decide (req_refcnt o = 1)) as [H1|H1].
  - rewrite (ks_req_put_last a o) by done. split_and!; [by eapply inv_free|apply touched_delete|].
    intros o'. cbn. by rewrite lookup_delete_eq.
  - rewrite (ks_req_put_eq a o) by (done || lia). split_and!; [by apply io_inv_put|apply touched_req|].
    intros o'. rewrite w_req_at. by intros [= <-].
Qed.

Definition stopped (o : ks_req) : ks_req :=
  set_timer_data None (set_req_refcnt (req_refcnt o - 1) (set_timer_pending false o)).

Lemma timer_unlink_eq a o w :
  reqs w !! a = Some o →
  timer_unlink a w = Done (tt, w_untimed a (set_timer_pending false o) w).
Proof.
  intros Ho. unfold timer_unlink, mbind, M_bind. cbn. by rewrite (upd_req_eq a _ o).
Qed.

Lemma req_timer_stopped_eq a o w :
  reqs w !! a = Some o → timer_data o = Some a → 1 < req_refcnt o →
  ks_req_timer a KS_TIMER_STOPPED None w =
  Done (tt, w_req a (set_timer_data None (set_req_refcnt (req_refcnt o - 1) o)) w).
Proof.
  intros Ho Hd Hr. unfold ks_req_timer, mbind, M_bind. rewrite (the_req_eq a o) by done.
  rewrite Hd. cbn [deref mret M_ret]. rewrite (ks_req_put_eq a o) by done.
  rewrite (upd_req_eq a _ _ _ (w_req_at a _ w)). by rewrite w_req_twice.
Qed.

(** both orders of unlinking a timer and telling its request *)
Lemma stop_eq a o w :
  reqs w !! a = Some o → timer_data o = Some a → 1 < req_refcnt o →
  (timer_unlink a;; ks_req_timer a KS_TIMER_STOPPED None) w =
  Done (tt, w_untimed a (stopped o) w).
Proof.
  intros Ho Hd Hr. unfold mbind, M_bind. rewrite (timer_unlink_eq a o) by done.
  rewrite (req_timer_stopped_eq a (set_timer_pending false o)); [|apply w_req_at|done..].
  unfold w_req, w_untimed, set_reqs, set_timers. cbn. by rewrite insert_insert_eq.
Qed.
Lemma stop_eq' a o w :
  reqs w !! a = Some o → timer_data o = Some a → 1 < req_refcnt o →
  (ks_req_timer a KS_TIMER_STOPPED None;; timer_unlink a) w =
  Done (tt, w_untimed a (stopped o) w).
Proof.
  intros Ho Hd Hr. unfold mbind, M_bind. rewrite (req_timer_stopped_eq a o) by done.
  rewrite (timer_unlink_eq a _ _ (w_req_at a _ w)).
  unfold w_req, w_untimed, set_reqs, set_timers, stopped. cbn. by rewrite insert_insert_eq.
Qed.

Lemma inv_stopped a o H X w :
  IoInv H X w → a ∈ H ++ queues w → reqs w !! a = Some o → timer_pending o = true →
  1 < req_refcnt o ∧ timer_data o = Some a ∧ IoInv H (a :: X) (w_untimed a (stopped o) w).
Proof.
  intros I Ha Ho Hp. destruct (io_refs _ _ _ I a o Ho) as [Hr _]. rewrite Hp in Hr. cbn in Hr.
  apply occ_elem in Ha. rewrite occ_app in Ha. split_and!; [lia|by apply (rf_data _ _ _ _ (io_req _ _ _ I a o Ho))|].
  apply (inv_untimed a o _ H); try done; cbn; lia.
Qed.

(** what a request is told is the same *)
Definition same_answer (o o' : ks_req) : Prop :=
  req_id o' = req_id o ∧ req_multi_seq o' = req_multi_seq o ∧
  response_payload o' = response_payload o.

Lemma wp_timer_stop H X a o w :
  IoInv H X w → a ∈ H ++ queues w → reqs w !! a = Some o →
  wp (ks_timer_stop a) (λ _ w', IoInv H (a :: X) w' ∧ touched a w w' ∧
    ∃ o', reqs w' !! a = Some o' ∧ timer_pending o' = false ∧ same_answer o o' ∧
      req_err o' = req_err o) w.
Proof.
  intros I Ha Ho.
  unfold ks_timer_stop. eapply wp_run; [by apply the_req_eq|].
  destruct (timer_pending o) eqn:Hp; cbn [when].
  - destruct (inv_stopped a o H X w) as (Hr & Hd & I'); [done..|].
    unfold wp, mbind, M_bind. pose proof (stop_eq a o w Ho Hd Hr) as Hs.
    unfold mbind, M_bind in Hs.
    destruct (timer_unlink a w) as [[[] w1]|]; [|done]. rewrite Hs.
    rewrite (the_req_eq a (stopped o)) by apply w_req_at. cbn.
    split_and!; [done|apply touched_untimed|]. eexists. split; [apply w_req_at|done].
  - cbn. split_and!; [by apply inv_mono_cons|done|]. by exists o.
Qed.

Lemma wp_req_complete H X a o err w :
  IoInv H (a :: X) w → a ∈ H ++ queues w → reqs w !! a = Some o →
  wp (ks_req_complete a err) (λ _ w', IoInv H X w' ∧ touched a w w' ∧
    ∃ o', reqs w' !! a = Some o' ∧ timer_pending o' = false ∧ req_completed o' = true ∧
      req_err o' = err ∧ same_answer o o') w.
Proof.
  intros I Ha Ho.
  unfold ks_req_complete. eapply wp_run; [by apply upd_req_eq|].
  assert (IoInv H (a :: X) (w_req a (set_req_err err o) w)) as I1 by (by eapply inv_plain).
  eapply wp_bind, wp_mono; [by apply (wp_timer_stop _ _ _ _ _ I1 Ha (w_req_at a _ w))|].
  intros b w' (I2 & T2 & o2 & Ho2 & Hp2 & A2 & E2). unfold wp. rewrite (upd_req_eq a _ o2) by done.
  assert (IoInv H (a :: a :: X) (w_req a (set_req_completed true o2) w')) as I3
    by (by eapply inv_plain).
  do 2 (apply inv_settle in I3;
    [|rewrite w_req_at; intros ? [= <-]; cbn; rewrite Hp2; split; [done|by left]]).
  split_and!; [done| |].
  - eapply touched_trans, touched_req. eapply touched_trans; [apply touched_req|done].
  - eexists. split; [apply w_req_at|]. done.
Qed.

Lemma link_before_eq a o e l w :
  reqs w !! a = Some o → a ∉ l → (∀ b, b ∈ l → is_Some (reqs w !! b)) →
  (∃ b, b ∈ l ∧ e < expiry w b) →
  link_before a e l w =
  Done (insert_timer (expiry w) a e l, w_req a (set_timer_pending true o) w).
Proof.
  intros Ho Hal Hl (b & Hb & He). induction l as [|c l IH]; [by apply elem_of_nil in Hb|].
  apply not_elem_of_cons in Hal as [Hac Hal].
  destruct (Hl c) as [oc Hc]; [apply list_elem_of_here|].
  assert (expiry w c = timer_expires oc) as Ec by (unfold expiry; by rewrite Hc).
  cbn [link_before insert_timer]. unfold mbind, M_bind. rewrite (the_req_eq c oc) by done.
  rewrite Ec. destruct (Z.ltb_spec e (timer_expires oc)).
  - by rewrite (upd_req_eq a _ o).
  - unfold mbind, M_bind in IH. rewrite IH; [done|done| |].
    + intros d Hd. apply Hl. by apply list_elem_of_further.
    + apply elem_of_cons in Hb as [->|Hb]; [lia|done].
Qed.

Lemma last_sorted f l (t : addr) :
  StronglySorted (λ b c, f b ≤ f c) l → last l = Some t → Forall (λ b : addr, f b ≤ f t) l.
Proof.
  induction 1 as [|b l Hl IH Hb]; [done|]. rewrite last_cons.
  destruct (last l) as [u|] eqn:Hu; intros [= <-].
  - constructor; [|by apply IH]. rewrite Forall_forall in Hb. apply Hb. by apply last_Some_elem_of.
  - apply last_None in Hu. subst. by repeat constructor.
Qed.

Lemma timer_add_eq a e o H X w :
  IoInv H X w → reqs w !! a = Some o → timer_pending o = false →
  _ks_timer_add a e w =
  Done (tt, w_timed a e (set_timer_pending true (set_timer_expires e o)) w).
Proof.
  intros I Ho Hp. unfold _ks_timer_add, mbind, M_bind. rewrite (upd_req_eq a _ o) by done.
  cbn [get]. change (timers (w_req a _ w)) with (timers w).
  set (w1 := w_req a (set_timer_expires e o) w).
  assert (reqs w1 !! a = Some (set_timer_expires e o)) as Ho1 by apply w_req_at.
  assert (a ∉ timers w) as Ha.
  { intros Hin. apply (rf_timer _ _ _ _ (io_req _ _ _ I a o Ho)) in Hin. congruence. }
  assert (∀ b, b ∈ timers w → expiry w b = expiry w1 b) as Hext.
  { intros b Hb. symmetry. apply expiry_ne. congruence. }
  assert (∀ b, b ∈ timers w → is_Some (reqs w1 !! b)) as Hlive.
  { intros b Hb. destruct (inv_timed _ _ _ _ I Hb) as [ob Hob]. exists ob.
    unfold w1, w_req. cbn. rewrite lookup_insert_ne by congruence. done. }
  assert (∀ w2, w2 = w_timed a e (set_timer_pending true (set_timer_expires e o)) w →
    (o ← the_req a; c_assert (timer_pending o)) w2 =
    Done (tt, w_timed a e (set_timer_pending true (set_timer_expires e o)) w)) as Hend.
  { intros w2 ->. unfold mbind, M_bind.
    by rewrite (the_req_eq a (set_timer_pending true (set_timer_expires e o))) by apply w_req_at. }
  unfold mbind, M_bind in Hend.
  assert (StronglySorted (λ b c, expiry w b ≤ expiry w c) (timers w)) as Hs by apply I.
  destruct (last (timers w)) as [t|] eqn:Ht; cbn [mret M_ret].
  - assert (t ∈ timers w) as Htin by by apply last_Some_elem_of.
    destruct (Hlive t Htin) as [ot Hot]. rewrite (the_req_eq t ot) by done.
    assert (timer_expires ot = expiry w t) as Eot.
    { rewrite Hext by done. unfold expiry. by rewrite Hot. }
    rewrite Eot. cbn [mret M_ret]. destruct (Z.leb_spec (expiry w t) e).
    + cbn [modify]. rewrite (upd_req_eq a _ (set_timer_expires e o)) by done.
      apply Hend. unfold w_timed. rewrite insert_timer_end.
      * unfold w1, w_req, set_reqs, set_timers. cbn. by rewrite insert_insert_eq.
      * eapply Forall_impl; [by apply (last_sorted (expiry w) _ t)|]. cbn. lia.
    + rewrite (link_before_eq a (set_timer_expires e o)); [| done..|].
      2: { exists t. split; [done|]. rewrite <- Hext by done. lia. }
      cbn [modify]. apply Hend. unfold w_timed.
      rewrite <- (insert_timer_ext (expiry w) (expiry w1)) by done.
      unfold w1, w_req, set_reqs, set_timers. cbn. by rewrite insert_insert_eq.
  - apply last_None in Ht. cbn [modify].
    rewrite (upd_req_eq a _ (set_timer_expires e o)) by done.
    apply Hend. unfold w_timed. rewrite Ht. unfold w1, w_req, set_reqs, set_timers. cbn.
    by rewrite insert_insert_eq, Ht.
Qed.

Definition armed (a : addr) (e : Z) (o : ks_req) : ks_req :=
  set_req_refcnt (req_refcnt o + 1) (set_timer_data (Some a)
    (set_timer_pending true (set_timer_expires e o))).

Lemma wp_timer_arm a e o H X w :
  IoInv H (a :: X) w → reqs w !! a = Some o → timer_pending o = false →
  a ∉ requests_pending w → a ∈ requests_waiting_ack w ++ requests_multi w →
  wp (_ks_timer_add a e;; ks_req_timer a KS_TIMER_STARTED (Some a))
    (λ _ w', IoInv H X w' ∧ touched a w w' ∧
      ∃ o', reqs w' !! a = Some o' ∧ same_answer o o') w.
Proof.
  intros I Ho Hp Hq Hw. destruct (io_refs _ _ _ I a o Ho) as [_ Hr].
  eapply wp_run; [by eapply timer_add_eq|]. unfold ks_req_timer.
  set (o1 := set_timer_pending true (set_timer_expires e o)).
  assert (reqs (w_timed a e o1 w) !! a = Some o1) as Ho1 by apply w_req_at.
  eapply wp_run; [by apply upd_req_eq|]. cbn [deref].
  unfold wp, mbind, M_bind. cbn [mret M_ret].
  rewrite (ks_req_get_eq a (set_timer_data (Some a) o1)) by (apply w_req_at || done).
  assert (w_req a (armed a e o) (w_req a (set_timer_data (Some a) o1) (w_timed a e o1 w))
          = w_timed a e (armed a e o) w) as Ew.
  { unfold w_timed, w_req, set_reqs, set_timers. cbn. by rewrite !insert_insert_eq. }
  change (set_req_refcnt _ _) with (armed a e o). rewrite Ew.
  assert (reqs (w_timed a e (armed a e o) w) !! a = Some (armed a e o)) as Ha by apply w_req_at.
  split_and!; [|apply touched_timed|by exists (armed a e o)].
  apply inv_settle with a.
  - by apply (inv_timed_at a e o).
  - intros ? Hl. rewrite Ha in Hl. simplify_eq. split; [done|]. by do 2 right.
Qed.

Lemma wp_timer_start H X a e o w :
  IoInv H (a :: X) w → a ∈ H ++ queues w → reqs w !! a = Some o → a ∉ requests_pending w →
  a ∈ requests_waiting_ack w ++ requests_multi w →
  wp (ks_timer_start a e (Some a)) (λ _ w', IoInv H X w' ∧ touched a w w' ∧
    ∃ o', reqs w' !! a = Some o' ∧ same_answer o o') w.
Proof.
  intros I Ha Ho Hq Hw.
  unfold ks_timer_start. eapply wp_run; [by apply the_req_eq|].
  destruct (timer_pending o) eqn:Hp; cbn [andb when].
  - destruct (_ =? _).
    { cbn. split_and!; [|done|by exists o]. eapply inv_settle; [done|]. rewrite Ho.
      intros ? [= <-]. split; [done|]. by do 2 right. }
    destruct (inv_stopped a o H (a :: X) w) as (Hr & Hd & I'); [done..|].
    eapply wp_run; [by apply stop_eq'|].
    assert (IoInv H (a :: X) (w_untimed a (stopped o) w)) as I2.
    { revert I'. apply inv_mono. intros b. rewrite !elem_of_cons. tauto. }
    pose proof (wp_timer_arm a e (stopped o) H X _ I2 (w_req_at a _ w) eq_refl Hq Hw) as Hm.
    unfold wp, mbind, M_bind in *.
    destruct (_ks_timer_add _ _ _) as [[[] w1]|]; [|done].
    destruct (ks_req_timer _ _ _ _) as [[[] w2]|]; [|done]. cbn.
    destruct Hm as (? & T & ?). split_and!; [done| |done].
    eapply touched_trans; [apply touched_untimed|exact T].
  - pose proof (wp_timer_arm a e o H X w I Ho Hp Hq Hw) as Hm.
    unfold wp, mbind, M_bind in *. cbn [mret M_ret].
    destruct (_ks_timer_add _ _ _) as [[[] w1]|]; [|done].
    destruct (ks_req_timer _ _ _ _) as [[[] w2]|]; [|done]. cbn. exact Hm.
Qed.

(** ** Timers that fire *)

Lemma wp_fired H X a o w :
  IoInv H X w → reqs w !! a = Some o → timer_pending o = true → a ∈ queues w →
  wp (timer_unlink a;; ks_req_timer_fired a)
    (λ _ w', IoInv H X w' ∧ touched a w w' ∧ a ∉ timers w') w.
Proof.
  intros I Ho Hp Ha. destruct (io_refs _ _ _ I a o Ho) as [Hr Hpos].
  pose proof (rf_data _ _ _ _ (io_req _ _ _ I a o Ho) Hp) as Hd.
  eapply wp_run; [by apply timer_unlink_eq|].
  set (w1 := w_untimed a (set_timer_pending false o) w).
  assert (IoInv (a :: H) (a :: X) w1) as I1.
  { apply (inv_untimed a o _ H); try done.
    - intros b Hb. by apply occ_tail.
    - rewrite occ_head. rewrite Hp in Hr. cbn in *. lia. }
  unfold ks_req_timer_fired. eapply wp_run; [apply the_req_eq, w_req_at|].
  cbn [timer_data set_timer_pending]. rewrite Hd. cbn [deref].
  eapply wp_run; [done|].
  eapply wp_bind, wp_mono;
    [apply (wp_req_complete _ _ _ _ _ _ I1 (list_elem_of_here _ _) (w_req_at a _ w))|].
  intros [] w2 (I2 & T2 & o2 & Ho2 & Hp2 & _). eapply wp_bind, wp_mono; [by apply (wp_req_put H X a o2)|].
  intros [] w3 (I3 & T3 & Ho3).
  assert (touched a w w3) as T by (eapply touched_trans, T3; eapply touched_trans, T2; apply touched_untimed).
  destruct (inv_queued _ _ _ a I3) as [o3 E3]; [by rewrite (touched_queues _ _ _ T)|].
  pose proof (Ho3 o3 E3) as ->. unfold wp. rewrite (upd_req_eq a _ _ _ E3).
  split_and!.
  - eapply inv_plain; try done. cbn. rewrite Hp2. done.
  - eapply touched_trans; [exact T|apply touched_req].
  - intros Hin. apply (rf_timer _ _ _ _ (io_req _ _ _ I3 a _ E3)) in Hin. cbn in Hin. congruence.
Qed.

Lemma timers_after H X H' X' a w w' l :
  IoInv H X w → IoInv H' X' w' → touched a w w' → a ∉ timers w' → timers w = a :: l →
  timers w' ⊆ l.
Proof.
  intros I I' [_ O] Ha Hl b Hb. assert (b ≠ a) as Hba by (intros ->; done).
  destruct (inv_timed _ _ _ _ I' Hb) as [o Ho].
  pose proof Ho as Ho2. rewrite O in Ho2 by done.
  apply (rf_timer _ _ _ _ (io_req _ _ _ I' b o Ho)) in Hb.
  apply (rf_timer _ _ _ _ (io_req _ _ _ I b o Ho2)) in Hb. rewrite Hl in Hb.
  by apply elem_of_cons in Hb as [?|?].
Qed.

(** the timers that are left expire later, when they were to *)
Definition timers_run (now : Z) (w w' : ks_io) : Prop :=
  rest w' = rest w ∧ Forall (λ a, now ≤ expiry w' a) (timers w') ∧
  ∀ a, a ∈ timers w' → a ∈ timers w ∧ expiry w' a = expiry w a.

Lemma wp_timerset_loop H now fuel w :
  IoInv H [] w → (length (timers w) ≤ fuel)%nat →
  wp (timerset_loop fuel now) (λ _ w', IoInv H [] w' ∧ timers_run now w w') w.
Proof.
  assert (∀ w, timers w = [] → timers_run now w w) as Hnil.
  { intros w' Hw. split; [done|]. split; [by rewrite Hw|done]. }
  revert w. induction fuel as [|fuel IH]; intros w I Hlen; cbn [timerset_loop];
    (eapply wp_run; [done|]); destruct (timers w) as [|a l] eqn:Hl;
    [split; auto|cbn in Hlen; lia|split; auto|].
  assert (a ∈ timers w) as Ha by (rewrite Hl; apply list_elem_of_here).
  destruct (inv_timed _ _ _ _ I Ha) as [o Ho]. pose proof (io_req _ _ _ I a o Ho) as F.
  eapply wp_run; [by apply the_req_eq|]. destruct (Z.ltb_spec (timer_expires o) now).
  - assert (timer_pending o = true) as Hp by (by apply (rf_timer _ _ _ _ F)).
    assert (a ∈ queues w) as Hq.
    { destruct (rf_armed _ _ _ _ F Hp) as [Hin|Hin]; [by apply elem_of_nil in Hin|].
      apply elem_of_app. by right. }
    pose proof (wp_fired H [] a o w I Ho Hp Hq) as Hf.
    unfold wp, mbind, M_bind in *.
    destruct (timer_unlink a w) as [[[] w1]|]; [|done].
    destruct (ks_req_timer_fired a w1) as [[[] w2]|]; [|done].
    destruct Hf as (I2 & T & Ha2).
    pose proof (timers_after _ _ _ _ _ _ _ _ I I2 T Ha2 Hl) as Hsub.
    assert (length (timers w2) ≤ fuel)%nat as Hlen2.
    { pose proof Hsub as Hs. cbn in Hlen.
      apply NoDup_submseteq, submseteq_length in Hs; [lia|apply I2]. }
    pose proof (IH w2 I2 Hlen2) as Hm. unfold wp in Hm.
    destruct (timerset_loop fuel now w2) as [[[] w3]|]; [|done].
    destruct Hm as (I3 & R3 & F3 & E3). split; [done|].
    split; [exact (eq_trans R3 (proj1 T))|]. split; [done|].
    intros b Hb. destruct (E3 b Hb) as [Hb2 Eb].
    assert (b ≠ a) as Hba by (intros ->; done). split; [rewrite Hl; right; by apply Hsub|].
    rewrite Eb. unfold expiry. by rewrite (proj2 T b Hba).
  - cbn. split; [done|]. split; [done|]. split; [|done]. rewrite Hl.
    pose proof (io_sorted _ _ _ I) as Hs. rewrite Hl in Hs.
    apply StronglySorted_inv in Hs as [_ Hs].
    assert (expiry w a = timer_expires o) as Ea by (unfold expiry; by rewrite Ho).
    constructor; [lia|]. eapply Forall_impl; [exact Hs|]. unfold by_expiry. intros b Hb. cbn in Hb. lia.
Qed.

Lemma wp_timerset_run H now w :
  IoInv H [] w →
  wp (ks_timerset_run now) (λ _ w', IoInv H [] w' ∧ timers_run now w w') w.
Proof. intros I. eapply wp_run; [done|]. by apply wp_timerset_loop. Qed.

(** ** Allocation, and the queue of requests to send *)

Lemma io_inv_core H X w w' :
  reqs w' = reqs w → next_req w' = next_req w → timers w' = timers w →
  requests_pending w' = requests_pending w →
  requests_waiting_ack w' = requests_waiting_ack w → requests_multi w' = requests_multi w →
  IoInv H X w → IoInv H X w'.
Proof.
  intros. destruct w, w'. cbn in *. subst.
  destruct H6 as [I1 I2 I3 I4 I5 I6]. constructor; [exact I1|exact I2|exact I3|exact I4|exact I5|].
  intros a o Ho. destruct (I6 a o Ho). by constructor.
Qed.

(** [m] meets no fault but those of [F], and ends in [Q] *)
Definition wpf {S A} (F : fault → Prop) (m : M S A) (Q : A → S → Prop) (s : S) : Prop :=
  match m s with Done (a, s') => Q a s' | Fault f => F f end.

Lemma wpf_bind {S A B} F (m : M S A) (k : A → M S B) Q s :
  wpf F m (λ a, wpf F (k a) Q) s → wpf F (m ≫= k) Q s.
Proof. unfold wpf, mbind, M_bind. by destruct (m s) as [[a s']|]. Qed.
Lemma wpf_mono {S A} F (m : M S A) (P Q : A → S → Prop) s :
  wpf F m P s → (∀ a s', P a s' → Q a s') → wpf F m Q s.
Proof. unfold wpf. destruct (m s) as [[a s']|]; auto. Qed.
Lemma wpf_wp {S A} F (m : M S A) Q s : wp m Q s → wpf F m Q s.
Proof. unfold wp, wpf. by destruct (m s) as [[a s']|]. Qed.
Lemma wpf_run {S A B} F (m : M S A) (k : A → M S B) a s s' Q :
  m s = Done (a, s') → wpf F (k a) Q s' → wpf F (m ≫= k) Q s.
Proof. intros Hm Hk. unfold wpf, mbind, M_bind. by rewrite Hm. Qed.
Lemma wpf_wlp {S A} F (m : M S A) Q s : wpf F m Q s → wlp m Q s.
Proof. unfold wlp, wpf. by destruct (m s) as [[a s']|]. Qed.
(** the first part meets no fault *)
Lemma wpf_step {S A B} F (m : M S A) (k : A → M S B) P Q s :
  wp m P s → (∀ a s', P a s' → wpf F (k a) Q s') → wpf F (m ≫= k) Q s.
Proof. intros Hm Hk. apply wpf_bind. eapply wpf_mono; [by apply wpf_wp|]. done. Qed.

Definition new_req : ks_req :=
  {| req_refcnt := 1; req_id := 0; req_multi_seq := 1; timer_pending := false;
     timer_expires := 0; timer_data := None; req_completed := false; req_err := 0;
     req_skb := None; req_type := 0; req_flags := 0; response_payload := None |}.

Lemma alloc_eq w :
  ks_req_alloc w =
  Done (next_req w, w_req (next_req w) new_req (set_next_req (S (next_req w)) w)).
Proof. reflexivity. Qed.

Lemma inv_absent H X w a :
  IoInv H X w → reqs w !! a = None → occ a H = 0%nat ∧ occ a (queues w) = 0%nat ∧ a ∉ timers w.
Proof.
  intros I Ha. split_and!; [apply occ_not_elem|apply occ_not_elem|]; intros Hin;
    [destruct (inv_held _ _ _ _ I Hin)|destruct (inv_queued _ _ _ _ I Hin)
    |destruct (inv_timed _ _ _ _ I Hin)]; congruence.
Qed.

Lemma wp_req_alloc H X w :
  IoInv H X w →
  wp ks_req_alloc (λ a w', IoInv (a :: H) (a :: X) w' ∧ reqs w' !! a = Some new_req ∧
    a ∉ queues w' ∧ queues w' = queues w ∧ requests_locked w' = requests_locked w) w.
Proof.
  intros I. unfold wp. rewrite alloc_eq. set (a := next_req w).
  assert (reqs w !! a = None) as Ha.
  { destruct (reqs w !! a) as [o|] eqn:Ho; [|done].
    pose proof (rf_fresh _ _ _ _ (io_req _ _ _ I a o Ho)). unfold a in *. lia. }
  destruct (inv_absent _ _ _ _ I Ha) as (N1 & N2 & N3).
  split_and!; [|apply w_req_at|by apply occ_not_elem|done..].
  apply (inv_change a H X w); try apply I.
  - constructor; try done.
    + intros b Hb. cbn. by rewrite lookup_insert_ne.
    + intros b Hb. by apply occ_tail.
    + intros b Hb. by apply list_elem_of_further.
    + cbn. lia.
  - apply (here_some _ _ _ _ new_req); [apply w_req_at| |done|].
    { rewrite occ_head, N1. change (queues (w_req _ _ _)) with (queues w). rewrite N2. done. }
    constructor; cbn; try done; try (left; apply list_elem_of_here).
  - eapply (sorted_ext (expiry w)); [|apply I]. intros b Hb. symmetry. unfold expiry. cbn.
    rewrite lookup_insert_ne; [done|]. intros ->. done.
Qed.

Lemma wpf_lock {B} (F : fault → Prop) (k : unit → C B) Q w :
  (requests_locked w = true → F Deadlock) →
  (requests_locked w = false → wpf F (k tt) Q (set_requests_locked true w)) →
  wpf F (lock_requests ≫= k) Q w.
Proof.
  intros HF Hk. unfold lock_requests, wpf, mbind, M_bind. cbn.
  destruct (requests_locked w); [by apply HF|]. by apply Hk.
Qed.

Lemma inv_locked b H X w : IoInv H X w → IoInv H X (set_requests_locked b w).
Proof. by apply io_inv_core. Qed.

Lemma wpf_queue (F : fault → Prop) H a o w :
  F Deadlock → IoInv H [a] w → reqs w !! a = Some o → a ∉ queues w →
  timer_pending o = false → response_payload o = None →
  wpf F (ks_conn_queue_request a) (λ _ w', IoInv H [] w' ∧
    queues w' = (requests_pending w ++ [a]) ++ requests_waiting_ack w ++ requests_multi w) w.
Proof.
  intros HF I Ho Hq Hp Hpay. unfold ks_conn_queue_request. apply wpf_lock; [done|]. intros Hl.
  eapply wpf_run; [done|]. eapply wpf_run; [by apply upd_req_eq|].
  eapply wpf_run; [done|].
  match goal with |- wpf _ _ _ ?w1 => set (w1' := w1) end.
  set (o1 := set_req_id _ o) in *.
  assert (reqs w1' !! a = Some o1) as Ho1 by apply w_req_at.
  assert (IoInv H [a] w1') as I1.
  { eapply (io_inv_core _ _ (w_req a o1 w)); [done..|]. by eapply inv_plain. }
  eapply wpf_run; [apply (ks_req_get_eq a o1); [done|]; apply (io_refs _ _ _ I1 a o1 Ho1)|].
  pose proof (io_inv_get a o1 H [a] w1' I1 Ho1) as I2.
  set (w2 := w_req a _ w1') in *.
  unfold wpf. cbn. split; [|done]. apply inv_locked.
  change (set_requests_pending (requests_pending w1' ++ [a]) w2)
    with (with_queues (requests_pending w2 ++ [a]) (requests_waiting_ack w2) (requests_multi w2) w2).
  assert (reqs w2 !! a = Some (set_req_refcnt (req_refcnt o1 + 1) o1)) as Ho2 by apply w_req_at.
  assert (Permutation ((requests_pending w2 ++ [a]) ++ requests_waiting_ack w2 ++ requests_multi w2)
            (a :: queues w2)) as Hperm.
  { unfold queues. rewrite <- (assoc_L (++)). symmetry. apply Permutation_middle. }
  do 2 (apply inv_settle with a; cycle 1;
    [intros o3 Hl3; injection (eq_trans (eq_sym Ho2) Hl3) as <-; cbn; rewrite Hp; split; [done|]; right; left;
     exact (proj2 (elem_of_app (requests_pending w) [a] a) (or_intror (list_elem_of_here _ _)))|]).
  apply (inv_requeue a (requests_pending w2 ++ [a]) (requests_waiting_ack w2) (requests_multi w2)
    (a :: H) [a] w2 H); try done.
  - intros b Hb. by rewrite occ_tail.
  - intros b Hb. rewrite elem_of_app, list_elem_of_singleton. tauto.
  - rewrite Hperm. constructor; [exact Hq|apply I2].
  - rewrite (occ_perm a _ _ Hperm), !occ_head. lia.
  - eexists. split; [exact Ho2|]. done.
Qed.

(** ** Requests leave their queue and enter another *)

Lemma inv_dedup H X a w : IoInv H (a :: a :: X) w → IoInv H (a :: X) w.
Proof. apply inv_mono. intros b. rewrite !elem_of_cons. tauto. Qed.

Lemma elem_of_filter_ne (a b : addr) (l : list addr) : b ≠ a → b ∈ filter (.≠ a) l ↔ b ∈ l.
Proof. rewrite list_elem_of_filter. tauto. Qed.

Lemma inv_take_waiting H X a w :
  IoInv H X w → a ∈ requests_waiting_ack w →
  IoInv (a :: H) (a :: X)
    (set_requests_waiting_ack (filter (.≠ a) (requests_waiting_ack w)) w).
Proof.
  intros I Ha. destruct (inv_queued _ _ _ a I) as [o Ho]; [unfold queues; rewrite !elem_of_app; tauto|].
  destruct (io_req _ _ _ I a o Ho).
  apply (inv_requeue a (requests_pending w) (filter (.≠ a) (requests_waiting_ack w))
           (requests_multi w) H X w); try done.
  - intros b Hb. by apply occ_tail.
  - intros b Hb. by apply elem_of_filter_ne.
  - eapply sublist_NoDup; [apply I|]. unfold queues.
    apply sublist_app; [done|]. apply sublist_app; [apply sublist_filter|done].
  - pose proof (io_queues _ _ _ I) as Hn. unfold queues in *. rewrite !occ_app, occ_head, occ_filter_eq.
    rewrite (occ_nodup a (requests_waiting_ack w)); [lia| |done].
    by apply NoDup_app in Hn as (_ & _ & (? & _ & _)%NoDup_app).
  - exists o. split_and!; [done..|]. intros Hin. apply rf_unanswered0.
    apply elem_of_app. apply elem_of_app in Hin as [?|[_ ?]%list_elem_of_filter]; tauto.
Qed.

Lemma inv_take_multi H X a w :
  IoInv H X w → a ∈ requests_multi w →
  IoInv (a :: H) (a :: X) (set_requests_multi (filter (.≠ a) (requests_multi w)) w).
Proof.
  intros I Ha. destruct (inv_queued _ _ _ a I) as [o Ho]; [unfold queues; rewrite !elem_of_app; tauto|].
  destruct (io_req _ _ _ I a o Ho).
  apply (inv_requeue a (requests_pending w) (requests_waiting_ack w)
           (filter (.≠ a) (requests_multi w)) H X w); try done.
  - intros b Hb. by apply occ_tail.
  - intros b Hb. by apply elem_of_filter_ne.
  - eapply sublist_NoDup; [apply I|]. unfold queues.
    apply sublist_app; [done|]. apply sublist_app; [done|apply sublist_filter].
  - pose proof (io_queues _ _ _ I) as Hn. unfold queues in *. rewrite !occ_app, occ_head, occ_filter_eq.
    rewrite (occ_nodup a (requests_multi w)); [lia| |done].
    by apply NoDup_app in Hn as (_ & _ & (_ & _ & ?)%NoDup_app).
  - by exists o.
Qed.

Lemma inv_link_multi H X a w :
  IoInv (a :: H) (a :: X) w → a ∉ queues w →
  IoInv H (a :: X) (set_requests_multi (requests_multi w ++ [a]) w).
Proof.
  intros I Ha. destruct (inv_held _ _ _ a I) as [o Ho]; [apply list_elem_of_here|].
  destruct (io_req _ _ _ I a o Ho).
  assert (Permutation (requests_pending w ++ requests_waiting_ack w ++ requests_multi w ++ [a])
            (a :: queues w)) as Hperm.
  { unfold queues. rewrite !(assoc_L (++)). symmetry. apply Permutation_cons_append. }
  apply inv_dedup.
  apply (inv_requeue a (requests_pending w) (requests_waiting_ack w) (requests_multi w ++ [a])
           (a :: H) (a :: X) w); try done.
  - intros b Hb. by rewrite occ_tail.
  - intros b Hb. rewrite elem_of_app, list_elem_of_singleton. tauto.
  - rewrite Hperm. constructor; [done|apply I].
  - rewrite (occ_perm a _ _ Hperm), !occ_head. lia.
  - by exists o.
Qed.

(** a request is in one queue, once *)
Lemma taken_waiting H X a w :
  IoInv H X w → a ∈ requests_waiting_ack w →
  a ∉ queues (set_requests_waiting_ack (filter (.≠ a) (requests_waiting_ack w)) w).
Proof.
  intros I Ha. pose proof (io_queues _ _ _ I) as Hn. unfold queues in *. cbn.
  apply NoDup_app in Hn as (_ & D1 & (_ & D2 & _)%NoDup_app).
  rewrite !elem_of_app, list_elem_of_filter. intros [Hp|[[? _]|Hm]]; [|done|by apply (D2 a)].
  apply (D1 a Hp). apply elem_of_app. by left.
Qed.
Lemma taken_multi H X a w :
  IoInv H X w → a ∈ requests_multi w →
  a ∉ requests_pending w ++ requests_waiting_ack w.
Proof.
  intros I Ha. pose proof (io_queues _ _ _ I) as Hn. unfold queues in *.
  rewrite (assoc_L (++)) in Hn. apply NoDup_app in Hn as (_ & D & _). intros Hin. by apply (D a).
Qed.
Lemma waiting_not_pending H X a w :
  IoInv H X w → a ∈ requests_waiting_ack w ++ requests_multi w → a ∉ requests_pending w.
Proof.
  intros I Ha Hp. pose proof (io_queues _ _ _ I) as Hn.
  apply NoDup_app in Hn as (_ & D & _). by apply (D a).
Qed.

(** ** Messages *)

(** [h] is the header of the message [nlh], which is in memory as far as its length says *)
Definition in_memory (nlh : list Z) (h : nlmsghdr) : Prop :=
  nlmsg_hdr nlh = Done h ∧ NLMSG_HDRLEN ≤ nlmsg_len h ∧
  NLMSG_ALIGN (nlmsg_len h) ≤ Z.of_nat (length nlh).

(** what [ks_req_resp_append_payload] copies of it *)
Definition frame (nlh : list Z) (h : nlmsghdr) : list Z :=
  take (Z.to_nat (NLMSG_ALIGN (nlmsg_len h))) nlh.

(** the kernel says that a message is an error in answers only, and which error it is *)
Definition honest (h : nlmsghdr) : Prop :=
  nlmsg_type h = NLMSG_ERROR → Z.land (nlmsg_flags h) NLM_F_ACK ≠ 0 ∧ 20 ≤ nlmsg_len h.

Definition answered (nlh : list Z) (h : nlmsghdr) (o : ks_req) : ks_req :=
  set_response_payload (Some (default [] (response_payload o) ++ frame nlh h)) o.

Lemma append_eq a o nlh h w :
  reqs w !! a = Some o → in_memory nlh h →
  ks_req_resp_append_payload a nlh w = Done (tt, w_req a (answered nlh h o) w).
Proof.
  intros Ho (Hh & Hlen & Hmem). pose proof (NLMSG_ALIGN_bounds (nlmsg_len h)).
  unfold NLMSG_HDRLEN in Hlen.
  unfold ks_req_resp_append_payload, mbind, M_bind, lift. rewrite Hh. unfold memcpy_from.
  destruct (Z.ltb_spec (NLMSG_ALIGN (nlmsg_len h)) 0); [lia|]. rewrite Z.ltb_irrefl.
  destruct (Z.ltb_spec (Z.of_nat (length nlh)) (0 + NLMSG_ALIGN (nlmsg_len h))); [lia|].
  cbn [orb]. rewrite (the_req_eq a o) by done. done.
Qed.

Lemma inv_answered H X a o nlh h w :
  IoInv H X w → reqs w !! a = Some o → a ∉ requests_pending w ++ requests_waiting_ack w →
  IoInv H X (w_req a (answered nlh h o) w).
Proof. intros I Ho Ha. by eapply inv_plain. Qed.

Lemma find_req_eq p l w :
  (∀ a, a ∈ l → is_Some (reqs w !! a)) →
  ∃ r, find_req p l w = Done (r, w) ∧
    match r with
    | Some a => a ∈ l ∧ ∃ o, reqs w !! a = Some o ∧ p o = true
    | None => ∀ a o, a ∈ l → reqs w !! a = Some o → p o = false
    end.
Proof.
  induction l as [|a l IH]; intros Hl; cbn [find_req].
  { exists None. split; [done|]. intros ? ? Hin. by apply elem_of_nil in Hin. }
  destruct (Hl a) as [o Ho]; [apply list_elem_of_here|].
  unfold mbind, M_bind. rewrite (the_req_eq a o) by done.
  destruct (p o) eqn:Hp.
  - exists (Some a). split; [done|]. split; [apply list_elem_of_here|by exists o].
  - destruct IH as (r & Hr & Hm); [intros b Hb; apply Hl; by apply list_elem_of_further|].
    exists r. split; [done|]. destruct r as [b|].
    + destruct Hm as [? ?]. split; [by apply list_elem_of_further|done].
    + intros b ob [->|Hb]%elem_of_cons Hob; [congruence|by eapply Hm].
Qed.
End triples.
