(* ===== verification/KsConnOps.v ===== *)
(** * Requests of the library: answers, sending, operations

    What the code does to a request whose answer arrives, what is in the datagram it
    sends, and that the operations of the application keep the invariant wherever they
    wait. *)

From stdpp Require Import base list gmap sorting.
From Stdlib Require Import ZArith Lia.
From S2P Require Import Prelude.
From S2P Require Import Bits.
From S2P Require Import KsProto.
From S2P Require Import KsLib.
From S2P Require Import KsConn.
From S2P Require Import KsConnInv.
Local Open Scope Z_scope.

Section triples.
Context {E : ConnEnv}.

(** ** Answers *)

(** the queues are as before but for the one [a] leaves and the one it enters *)
Record answer_to (a : addr) (q m : list addr) (w w' : ks_io) : Prop := {
  an_locked : requests_locked w' = false;
  an_pending : requests_pending w' = requests_pending w;
  an_waiting : requests_waiting_ack w' = q;
  an_multi : requests_multi w' = m;
  an_others b : b ≠ a → reqs w' !! b = reqs w !! b;
}.

(** [a] was completed with [err], and is told [payload] *)
Definition ended (a : addr) (err : Z) (payload : option (list Z)) (w : ks_io) : Prop :=
  ∀ o, reqs w !! a = Some o →
    req_completed o = true ∧ req_err o = err ∧ response_payload o = payload.

Lemma touched_answer a w w' :
  touched a w w' → requests_locked w = false →
  answer_to a (requests_waiting_ack w) (requests_multi w) w w'.
Proof.
  intros [R O] Hl. unfold rest in R.
  pose proof (f_equal requests_locked R). pose proof (f_equal requests_pending R).
  pose proof (f_equal requests_waiting_ack R). pose proof (f_equal requests_multi R).
  cbn in *. constructor; [congruence..|exact O].
Qed.
Lemma touched_locked a b w w' :
  touched a w w' → touched a (set_requests_locked b w) (set_requests_locked b w').
Proof.
  intros [R O]. split; [|exact O].
  change (set_requests_locked b (rest w') = set_requests_locked b (rest w)). by rewrite R.
Qed.

Lemma answer_trans a q m q' m' w1 w2 w3 :
  answer_to a q m w2 w3 → requests_pending w2 = requests_pending w1 →
  (∀ b, b ≠ a → reqs w2 !! b = reqs w1 !! b) → q = q' → m = m' → answer_to a q' m' w1 w3.
Proof. intros [] ? Ho <- <-. constructor; try congruence. intros b Hb. by rewrite an_others0, Ho. Qed.

Lemma wp_complete_put H X a o err w :
  IoInv (a :: H) (a :: X) w → reqs w !! a = Some o →
  wp (ks_req_complete a err;; ks_req_put a) (λ _ w', IoInv H X w' ∧ touched a w w' ∧
    ended a err (response_payload o) w') w.
Proof.
  intros I Ho. eapply wp_bind, wp_mono; [apply (wp_req_complete (a :: H) X a o); [done| |done]|].
  { apply elem_of_app. left. apply list_elem_of_here. }
  intros [] w2 (I2 & T2 & o2 & Ho2 & Hp2 & Hc2 & He2 & _ & _ & A2).
  eapply wp_mono; [by apply (wp_req_put H X a o2)|].
  intros [] w3 (I3 & T3 & Ho3). split_and!; [done|by eapply touched_trans|].
  intros o3 ->%Ho3. done.
Qed.

(** the error of an answer is given to the request *)
Definition error_code (nlh : list Z) : Z := i32 (- le_val (take 4 (NLMSG_DATA nlh))).

Lemma wp_receive_error H X a o nlh h w :
  IoInv (a :: H) (a :: X) w → reqs w !! a = Some o → in_memory nlh h → 20 ≤ nlmsg_len h →
  wp (receive_error a h nlh) (λ _ w', IoInv H X w' ∧ touched a w w' ∧
    ended a (error_code nlh) (response_payload o) w') w.
Proof.
  intros I Ho (Hh & Hlen & Hmem) Hl. pose proof (NLMSG_ALIGN_bounds (nlmsg_len h)).
  unfold receive_error. rewrite NLMSG_SPACE_0. destruct (Z.ltb_spec (nlmsg_len h - 16) 4); [lia|].
  assert (get_u32 (NLMSG_DATA nlh) = Done (le_val (take 4 (NLMSG_DATA nlh)))) as Hc.
  { unfold get_u32, get_le, NLMSG_DATA. rewrite length_drop.
    destruct (Nat.ltb_spec (length nlh - 16) 4); [lia|done]. }
  rewrite Hc. cbn [lift].
  by apply wp_complete_put.
Qed.

Definition ack_ends (a : addr) (nlh : list Z) (h : nlmsghdr) (w w' : ks_io) : Prop :=
  let q := filter (.≠ a) (requests_waiting_ack w) in
  if nlmsg_type h =? NLMSG_ERROR then
    answer_to a q (requests_multi w) w w' ∧ ended a (error_code nlh) None w'
  else if negb (Z.land (nlmsg_flags h) NLM_F_MULTI =? 0) then
    answer_to a q (requests_multi w ++ [a]) w w' ∧
    ∃ o o', reqs w !! a = Some o ∧ reqs w' !! a = Some o' ∧
      same_answer (set_response_payload (Some (frame nlh h)) o) o'
  else answer_to a q (requests_multi w) w w' ∧ ended a 0 (Some (frame nlh h)) w'.

Lemma wp_acknowledge_found H X now a nlh h w :
  IoInv H X w → a ∈ requests_waiting_ack w → in_memory nlh h → honest h →
  wp (acknowledge_found now a h nlh) (λ _ w', IoInv H X w' ∧ ack_ends a nlh h w w') w.
Proof.
  intros I Ha Hm Hh. destruct (inv_queued _ _ _ a I) as [o Ho]; [unfold queues; rewrite !elem_of_app; tauto|].
  assert (response_payload o = None) as Hpay.
  { apply (rf_unanswered _ _ _ _ (io_req _ _ _ I a o Ho)). apply elem_of_app. by right. }
  pose proof (inv_take_waiting H X a w I Ha) as I1.
  pose proof (taken_waiting H X a w I Ha) as N1.
  unfold acknowledge_found. eapply wp_run; [done|].
  set (w1 := set_requests_waiting_ack _ w) in *.
  eapply wp_run; [by apply (the_req_eq a o)|]. rewrite Hpay.
  eapply wp_run; [done|]. unfold ack_ends. destruct (Z.eqb_spec (nlmsg_type h) NLMSG_ERROR) as [He|He].
  - destruct (Hh He) as [_ Hlen]. eapply wp_run; [done|].
    eapply wp_mono; [apply (wp_receive_error H X a o); [by apply inv_locked|done..]|].
    intros [] w2 (I2 & T2 & E2). split_and!; [done| |].
    + eapply answer_trans; [by apply touched_answer|done..].
    + by rewrite Hpay in E2.
  - assert (a ∉ requests_pending w1 ++ requests_waiting_ack w1) as N2.
    { intros Hin. apply N1. unfold queues. rewrite (assoc_L (++)). apply elem_of_app. by left. }
    eapply wp_run; [by apply (append_eq a o)|].
    pose proof (inv_answered _ _ a o nlh h w1 I1 Ho N2) as I2.
    set (w2 := w_req a (answered nlh h o) w1) in *.
    assert (reqs w2 !! a = Some (answered nlh h o)) as Ho2 by apply w_req_at.
    destruct (negb _).
    + eapply wp_run; [done|].
      pose proof (inv_link_multi H X a w2 I2 N1) as I3.
      set (w3 := set_requests_multi _ w2) in *.
      assert (a ∈ requests_multi w3) as Ha3 by (apply elem_of_app; right; apply list_elem_of_here).
      eapply wp_bind, wp_mono.
      { apply (wp_timer_start H X a (now + 5 * SEC) (answered nlh h o)); [done| |done|..].
        - unfold queues. rewrite !elem_of_app. tauto.
        - by eapply waiting_not_pending, elem_of_app; [|right].
        - apply elem_of_app. by right. }
      intros b w4 (I4 & T4 & o4 & Ho4 & A4). cbn. split_and!; [by apply inv_locked| |].
      * eapply answer_trans; [apply (touched_answer a (set_requests_locked false w3)); [|done]|..].
        -- by apply touched_locked.
        -- done.
        -- intros b' Hb. cbn. by rewrite lookup_insert_ne.
        -- done.
        -- done.
      * exists o, o4. split_and!; [done..|]. unfold answered in A4. by rewrite Hpay in A4.
    + eapply wp_run; [done|]. eapply wp_mono; [apply (wp_complete_put H X a (answered nlh h o))|].
      * by apply inv_locked.
      * done.
      * intros [] w3 (I3 & T3 & E3). split_and!; [done| |].
        -- eapply answer_trans; [by apply touched_answer|done| |done..].
           intros b Hb. cbn. by rewrite lookup_insert_ne.
        -- revert E3. unfold ended, answered. cbn. by rewrite Hpay.
Qed.

(** the request with a part added *)
Definition part_added (nlh : list Z) (h : nlmsghdr) (o o' : ks_req) : Prop :=
  req_id o' = req_id o ∧ req_multi_seq o' = req_multi_seq o + 1 ∧
  response_payload o' = Some (default [] (response_payload o) ++ frame nlh h).

Definition part_ends (a : addr) (nlh : list Z) (h : nlmsghdr) (o : ks_req) (w w' : ks_io) : Prop :=
  if nlmsg_type h =? NLMSG_DONE then
    answer_to a (requests_waiting_ack w) (filter (.≠ a) (requests_multi w)) w w' ∧
    ended a 0 (Some (default [] (response_payload o) ++ frame nlh h)) w'
  else
    answer_to a (requests_waiting_ack w) (requests_multi w) w w' ∧
    ∃ o', reqs w' !! a = Some o' ∧ part_added nlh h o o'.

(** an out-of-sequence part completes the request, which stays where it is *)
Lemma wp_out_of_sequence H X a o b w :
  IoInv H X w → a ∈ queues w → reqs w !! a = Some o →
  wp (when b (ks_req_complete a (- EIO))) (λ _ w', IoInv H X w' ∧ touched a w w' ∧
    ∃ o', reqs w' !! a = Some o' ∧ same_answer o o') w.
Proof.
  intros I Ha Ho. destruct b; cbn [when]; [|split_and!; [done..|by exists o]].
  eapply wp_mono; [apply (wp_req_complete H X a o); [by apply inv_mono_cons| |done]|].
  - apply elem_of_app. by right.
  - intros [] w2 (I2 & T2 & o2 & Ho2 & _ & _ & _ & A2). split_and!; [done..|]. by exists o2.
Qed.

Lemma touched_multi a w w' : touched a w w' → requests_multi w' = requests_multi w.
Proof. intros [R _]. exact (f_equal requests_multi R). Qed.
Lemma touched_waiting a w w' :
  touched a w w' → requests_waiting_ack w' = requests_waiting_ack w.
Proof. intros [R _]. exact (f_equal requests_waiting_ack R). Qed.

Lemma wp_multi_found H X a o nlh h w :
  IoInv H X w → a ∈ requests_multi w → reqs w !! a = Some o → in_memory nlh h →
  nlmsg_type h ≠ NLMSG_ERROR →
  wp (multi_found a h nlh) (λ _ w', IoInv H X w' ∧ part_ends a nlh h o w w') w.
Proof.
  intros I Ha Ho Hm He. unfold multi_found. eapply wp_run; [by apply (the_req_eq a o)|].
  eapply wp_bind, wp_mono.
  { apply (wp_out_of_sequence H X a o); [done| |done]. unfold queues. rewrite !elem_of_app. tauto. }
  intros [] w1 (I1 & T1 & o1 & Ho1 & A1).
  assert (a ∈ requests_multi w1) as Ha1 by (by rewrite (touched_multi _ _ _ T1)).
  destruct (Z.eqb_spec (nlmsg_type h) NLMSG_ERROR); [done|].
  eapply wp_run; [by apply (append_eq a o1)|].
  pose proof (inv_answered _ _ a o1 nlh h w1 I1 Ho1 (taken_multi _ _ _ _ I1 Ha1)) as I2.
  eapply wp_run; [apply upd_req_eq, w_req_at|]. rewrite w_req_twice.
  set (o3 := set_req_multi_seq _ _).
  assert (IoInv H X (w_req a o3 w1)) as I3.
  { rewrite <- (w_req_twice a (answered nlh h o1)).
    eapply (inv_plain a (answered nlh h o1)); [done|apply w_req_at|done..]. }
  set (w3 := w_req a o3 w1) in *.
  assert (reqs w3 !! a = Some o3) as Ho3 by apply w_req_at.
  assert (response_payload o3 = Some (default [] (response_payload o) ++ frame nlh h)) as P3.
  { destruct A1 as (_ & _ & A1). unfold o3, answered. cbn. by rewrite A1. }
  assert (touched a w w3) as T3 by (eapply touched_trans; [exact T1|apply touched_req]).
  unfold part_ends. destruct (nlmsg_type h =? NLMSG_DONE); cbn [when].
  - pose proof (inv_take_multi H X a w3 I3 Ha1) as I4.
    set (w4 := set_requests_multi _ w3) in *.
    assert (requests_multi w3 = requests_multi w) as M3 by by apply touched_multi in T3.
    eapply wp_bind, wp_run; [done|]. eapply wp_mono; [exact (wp_complete_put H X a o3 0 w4 I4 Ho3)|].
    intros [] w6 (I6 & T6 & E6).
    cbn. split_and!; [by apply inv_locked| |by rewrite <- P3].
    eapply answer_trans; [apply (touched_answer a (set_requests_locked false w4)); [|done]|..].
    + by apply touched_locked.
    + exact (f_equal requests_pending (proj1 T3)).
    + apply T3.
    + by apply touched_waiting in T3.
    + cbn. by rewrite <- M3.
  - cbn. split_and!; [by apply inv_locked| |].
    + eapply answer_trans; [apply (touched_answer a (set_requests_locked false w)); [|done]|done..].
      by apply touched_locked.
    + exists o3. split; [done|]. destruct A1 as (E1 & E2 & _). split_and!; [done| |done].
      unfold o3, answered. cbn. by rewrite E2.
Qed.

(** what the reception of a frame of an answer does *)
Lemma wpf_receive_unicast (F : fault → Prop) H now nlh h w :
  F Deadlock → IoInv H [] w → in_memory nlh h → honest h →
  wpf F (ks_conn_receive_unicast now nlh) (λ _ w', IoInv H [] w') w.
Proof.
  intros HF I Hm Hh. unfold ks_conn_receive_unicast.
  assert (lift (nlmsg_hdr nlh) = λ w : ks_io, Done (h, w)) as Hhdr.
  { unfold lift. destruct Hm as [-> _]. done. }
  rewrite Hhdr. eapply wpf_run; [done|].
  assert (∀ l, l ⊆ queues w → ∀ b w1, reqs w1 = reqs w → b ∈ l → is_Some (reqs w1 !! b)) as Hlive.
  { intros l Hl b w1 -> Hb. destruct (inv_queued _ _ _ b I) as [o Ho]; [by apply Hl|by exists o]. }
  destruct (negb (Z.land (nlmsg_flags h) NLM_F_ACK =? 0)) eqn:Hack;
    [|destruct (negb (Z.land (nlmsg_flags h) NLM_F_MULTI =? 0))].
  - unfold ks_conn_receive_acknowledge. apply wpf_lock; [done|]. intros Hl.
    eapply wpf_run; [done|]. rewrite Hhdr. eapply wpf_run; [done|].
    case_bool_decide; [exact (inv_locked false _ _ _ I)|].
    destruct (find_req_eq (λ o, req_id o =? nlmsg_seq h) (requests_waiting_ack w)
      (set_requests_locked true w)) as (r & Hr & Hp).
    { intros b Hb. eapply Hlive; [|done..]. intros c Hc. unfold queues. rewrite !elem_of_app. tauto. }
    eapply wpf_run; [exact Hr|]. destruct r as [a|]; [|exact (inv_locked true _ _ _ I)].
    apply wpf_wp. eapply wp_mono; [apply (wp_acknowledge_found H [] now a nlh h)|]; [..|by intros ?? [? _]].
    + by apply inv_locked.
    + apply Hp.
    + done.
    + done.
  - unfold ks_conn_receive_multi. apply wpf_lock; [done|]. intros Hl.
    eapply wpf_run; [done|]. rewrite Hhdr. eapply wpf_run; [done|].
    match goal with |- wpf _ (find_req ?p ?l ≫= _) _ ?w1 =>
      destruct (find_req_eq p l w1) as (r & Hr & Hp) end.
    { intros b Hb. eapply Hlive; [|done..]. intros c Hc. unfold queues. rewrite !elem_of_app. tauto. }
    eapply wpf_run; [exact Hr|]. destruct r as [a|]; [|exact (inv_locked false _ _ _ I)].
    destruct Hp as (Ha & o & Ho & _).
    apply wpf_wp. eapply wp_mono; [apply (wp_multi_found H [] a o nlh h)|]; [..|by intros ?? [? _]].
    + by apply inv_locked.
    + done.
    + done.
    + done.
    + intros He. destruct (Hh He) as [Hf _]. apply negb_false_iff, Z.eqb_eq in Hack. done.
  - exact I.
Qed.

(** ** The messages of a datagram *)

(** where the messages begin, each with the memory behind it *)
Fixpoint messages (fuel : nat) (mem : list Z) (len : Z) : list (list Z) :=
  match fuel with
  | O => []
  | S fuel =>
    match nlmsg_hdr mem with
    | Fault _ => []
    | Done h =>
      if (len <? NLMSG_HDRLEN) || (nlmsg_len h <? NLMSG_HDRLEN) || (len <? nlmsg_len h) then []
      else mem :: messages fuel (drop (Z.to_nat (NLMSG_ALIGN (nlmsg_len h))) mem)
                    (len - NLMSG_ALIGN (nlmsg_len h))
    end
  end.

(** the memory [ks_conn_receive] has a datagram in, and how much of it there is *)
Definition recv_buffer (l : list Z) : list Z := take (Z.to_nat 8208) (l ++ replicate (Z.to_nat 8208) 0).
Definition recv_len (l : list Z) : Z := Z.of_nat (length (take (Z.to_nat 8208) l)).
Definition messages_of (l : list Z) : list (list Z) :=
  messages (Z.to_nat (recv_len l) `div` 16) (recv_buffer l) (recv_len l).

Lemma nlmsg_loop_eq fuel mem len f w :
  len < 16 * (Z.of_nat fuel + 1) → len ≤ Z.of_nat (length mem) →
  nlmsg_loop fuel mem len f w = forM (messages fuel mem len) f w.
Proof.
  revert mem len w. induction fuel as [|fuel IH]; intros mem len w Hf Hlen;
    cbn [nlmsg_loop messages]; unfold NLMSG_HDRLEN; destruct (Z.ltb_spec len 16).
  - done.
  - lia.
  - by destruct (nlmsg_hdr mem).
  - unfold mbind, M_bind, lift. unfold nlmsg_hdr.
    destruct (Nat.ltb_spec (length mem) 16); [lia|]. set (h := mk_nlmsghdr _ _ _ _ _).
    cbn [orb]. destruct (Z.ltb_spec (nlmsg_len h) 16); [done|].
    destruct (Z.ltb_spec len (nlmsg_len h)); [done|]. cbn [orb forM].
    unfold mbind, M_bind. destruct (f mem w) as [[[] w']|]; [|done].
    pose proof (NLMSG_ALIGN_bounds (nlmsg_len h)).
    apply IH; [lia|]. rewrite length_drop. lia.
Qed.

Lemma messages_in_memory fuel mem len :
  len ≤ Z.of_nat (length mem) → (4 | Z.of_nat (length mem)) →
  Forall (λ m, ∃ h, in_memory m h) (messages fuel mem len).
Proof.
  revert mem len. induction fuel as [|fuel IH]; intros mem len Hlen H4; cbn [messages]; [constructor|].
  destruct (nlmsg_hdr mem) as [h|] eqn:Hh; [|constructor].
  destruct (_ || _) eqn:Hb; [constructor|].
  apply orb_false_iff in Hb as [Hb B3]. apply orb_false_iff in Hb as [B1 B2].
  apply Z.ltb_ge in B1, B2, B3. unfold NLMSG_HDRLEN in *.
  assert (NLMSG_ALIGN (nlmsg_len h) ≤ Z.of_nat (length mem)) as Hal.
  { destruct H4 as [k Hk]. rewrite NLMSG_ALIGN_eq. Z.to_euclidean_division_equations; lia. }
  constructor; [by exists h|].
  pose proof (NLMSG_ALIGN_bounds (nlmsg_len h)).
  apply IH; rewrite length_drop; [lia|]. rewrite Nat2Z.inj_sub by lia. rewrite Z2Nat.id by lia.
  apply Z.divide_sub_r; [done|]. rewrite NLMSG_ALIGN_eq. apply Z.divide_factor_l.
Qed.

Lemma recv_buffer_length l : Z.of_nat (length (recv_buffer l)) = 8208.
Proof. unfold recv_buffer. rewrite length_take, length_app, length_replicate. lia. Qed.
Lemma recv_len_le l : recv_len l ≤ 8208.
Proof. unfold recv_len. rewrite length_take. lia. Qed.

Lemma receive_eq now groups l w :
  ks_conn_receive now groups l w =
  forM (messages_of l) (ks_conn_receive_msg now groups) w.
Proof.
  pose proof (recv_len_le l) as Hl. pose proof (recv_buffer_length l) as Hb.
  assert (0 ≤ recv_len l) by (unfold recv_len; lia).
  apply (nlmsg_loop_eq (Z.to_nat (recv_len l) `div` 16) (recv_buffer l) (recv_len l));
    [|rewrite Hb; lia].
  rewrite Nat2Z.inj_div, Z2Nat.id by lia. Z.to_euclidean_division_equations; lia.
Qed.

Definition honest_datagram (l : list Z) : Prop :=
  Forall (λ m, ∀ h, nlmsg_hdr m = Done h → honest h) (messages_of l).

Lemma wpf_forM {S A} (F : fault → Prop) (I : S → Prop) (l : list A) (f : A → M S unit) s :
  I s → (∀ a s, a ∈ l → I s → wpf F (f a) (λ _, I) s) → wpf F (forM l f) (λ _, I) s.
Proof.
  revert s. induction l as [|a l IH]; intros s Hs Hf; cbn [forM]; [done|].
  apply wpf_bind. eapply wpf_mono; [apply Hf; [apply list_elem_of_here|done]|].
  intros [] s' Hs'. apply IH; [done|]. intros b s2 Hb. apply Hf. by apply list_elem_of_further.
Qed.

Lemma wpf_receive (F : fault → Prop) H now l w :
  F Deadlock → IoInv H [] w → honest_datagram l →
  wpf F (ks_conn_receive now false l) (λ _ w', IoInv H [] w') w.
Proof.
  intros HF I Hl. unfold wpf. rewrite receive_eq.
  apply (wpf_forM F (IoInv H [])); [done|]. intros m w1 Hm I1.
  assert (∃ h, in_memory m h) as [h Hin].
  { assert (Forall (λ m, ∃ h, in_memory m h) (messages_of l)) as Hall.
    { apply messages_in_memory; rewrite recv_buffer_length; [apply recv_len_le|by exists 2052]. }
    rewrite Forall_forall in Hall. by apply Hall. }
  unfold honest_datagram in Hl. rewrite Forall_forall in Hl.
  apply (wpf_receive_unicast F H now m h); try done. eapply Hl; [done|]. apply Hin.
Qed.

(** ** Sending *)

Definition payload_of (o : ks_req) : list Z := from_option skb_data [] (req_skb o).
(** the message of a request *)
Definition request_bytes (pid : Z) (o : ks_req) : list Z :=
  nlmsghdr_bytes {| nlmsg_len := 16 + Z.of_nat (length (payload_of o));
                    nlmsg_type := u16 (req_type o); nlmsg_flags := u16 (req_flags o);
                    nlmsg_seq := u32 (req_id o); nlmsg_pid := u32 pid |} ++ payload_of o.

Lemma request_bytes_length pid o : length (request_bytes pid o) = (16 + length (payload_of o))%nat.
Proof. unfold request_bytes. by rewrite length_app, nlmsghdr_bytes_length. Qed.

(** [bytes] take up [n] octets *)
Lemma skb_put_ok skb n bytes :
  skb_ok skb → Z.of_nat (length bytes) = n → (4 | n) →
  match skb_put skb n bytes with
  | Done skb' => skb_ok skb' ∧ skb_data skb' = skb_data skb ++ bytes
  | Fault f => f = OutOfBounds ∧ (1016 < length (skb_data skb) + length bytes)%nat
  end.
Proof.
  intros (Hs & Hm & H4) <- Hn. unfold skb_put. rewrite Nat2Z.id.
  destruct (Nat.ltb_spec (length (skb_mem skb)) (length bytes)); cbn [orb]; [split; [done|lia]|].
  rewrite Nat.ltb_irrefl. rewrite Nat.sub_diag. cbn [take]. rewrite app_nil_r.
  split; [|done]. split_and!; [done|cbn; rewrite length_app, length_drop; lia|].
  cbn. rewrite length_app, Nat2Z.inj_add. by apply Z.divide_add_r.
Qed.

Lemma nlmsg_put_ok skb pid seq type flags :
  skb_ok skb →
  match ks_nlmsg_put skb pid seq type flags 0 with
  | Done (Some skb') => skb_ok skb' ∧ skb_data skb' = skb_data skb ++
      nlmsghdr_bytes {| nlmsg_len := 16; nlmsg_type := u16 type; nlmsg_flags := u16 flags;
                        nlmsg_seq := u32 seq; nlmsg_pid := u32 pid |}
  | Done None => False
  | Fault f => f = OutOfBounds ∧ (1016 < length (skb_data skb) + 16)%nat
  end.
Proof.
  intros Hok. pose proof Hok as (Hs & Hm & _). unfold ks_nlmsg_put. change (NLMSG_LENGTH 0) with 16.
  change (NLMSG_ALIGN 16) with 16. rewrite Hs.
  destruct (Z.ltb_spec 4096 (skb_len skb + 16)); [unfold skb_len in *; lia|].
  set (h := mk_nlmsghdr _ _ _ _ _).
  pose proof (skb_put_ok skb 16 (nlmsghdr_bytes h) Hok) as Hp.
  rewrite nlmsghdr_bytes_length in Hp. specialize (Hp eq_refl (ex_intro _ 4 eq_refl)).
  destruct (skb_put skb 16 _) as [skb'|f]; cbn [mbind outcome_bind]; exact Hp.
Qed.

Lemma set_len_ok skb d h p :
  skb_ok skb → skb_data skb = d ++ nlmsghdr_bytes h ++ p → Z.of_nat (length p) < 4000000000 →
  skb_ok (nlmsg_set_len skb (Z.of_nat (length d))) ∧
  skb_data (nlmsg_set_len skb (Z.of_nat (length d))) =
    d ++ nlmsghdr_bytes {| nlmsg_len := 16 + Z.of_nat (length p); nlmsg_type := nlmsg_type h;
                           nlmsg_flags := nlmsg_flags h; nlmsg_seq := nlmsg_seq h;
                           nlmsg_pid := nlmsg_pid h |} ++ p.
Proof.
  intros (Hs & Hm & H4) Hd Hp. unfold nlmsg_set_len. cbn [skb_data]. rewrite Nat2Z.id.
  assert (skb_len skb - Z.of_nat (length d) = 16 + Z.of_nat (length p)) as Hl.
  { unfold skb_len. rewrite Hd, !length_app, nlmsghdr_bytes_length. lia. }
  rewrite Hl, u32_small by lia.
  assert (∀ n, length (take (length d) (skb_data skb) ++ le 4 n ++ drop (length d + 4) (skb_data skb))
    = length (skb_data skb)) as Hlen.
  { intros n. rewrite Hd at 1. rewrite take_app_length, !length_app, le_length, length_drop.
    rewrite Hd, !length_app, nlmsghdr_bytes_length. lia. }
  split.
  - split; [done|]. cbn [skb_data skb_mem]. rewrite Hlen. done.
  - rewrite Hd, take_app_length. rewrite drop_app_ge by lia.
    replace (length d + 4 - length d)%nat with 4%nat by lia.
    unfold nlmsghdr_bytes. cbn [nlmsg_len nlmsg_type nlmsg_flags nlmsg_seq nlmsg_pid].
    rewrite <- !(assoc_L (++)). rewrite drop_app_length' by (by rewrite le_length). done.
Qed.

Lemma alloc_skb_ok n : skb_ok (alloc_skb 4096 (malloc_holds n)).
Proof.
  split_and!; [done| |by exists 0]. cbn [skb_data skb_mem alloc_skb].
  rewrite length_drop, malloc_size. vm_compute. done.
Qed.

(** the octets a request takes *)
Definition request_size (o : ks_req) : nat := 16 + length (payload_of o).

Lemma send_request_ok fuel a o skb w :
  reqs w !! a = Some o → (∀ s, req_skb o = Some s → skb_ok s) → skb_ok skb →
  wpf (λ f, f = OutOfBounds ∧ (1016 < length (skb_data skb) + request_size o)%nat)
    (send_request (S fuel) a (Some skb))
    (λ skb' w', w' = w ∧ skb_ok skb' ∧
      skb_data skb' = skb_data skb ++ request_bytes (conn_pid w) o) w.
Proof.
  intros Ho Hpay Hok. cbn [send_request]. unfold request_size. eapply wpf_run; [done|].
  eapply wpf_run; [done|]. eapply wpf_run; [by apply the_req_eq|].
  pose proof (nlmsg_put_ok skb (conn_pid w) (req_id o) (req_type o) (req_flags o) Hok) as Hn.
  destruct (ks_nlmsg_put _ _ _ _ _ _) as [[skb1|]|f]; [|done|].
  2: { unfold wpf, mbind, M_bind, lift. destruct Hn. split; [done|lia]. }
  destruct Hn as [Hok1 Hd1]. eapply wpf_run; [done|].
  set (h := mk_nlmsghdr _ _ _ _ _) in *. unfold payload_of, request_bytes.
  destruct (req_skb o) as [p|] eqn:Hp; cbn [from_option].
  - destruct (Hpay p) as (Hps & Hpm & Hp4); [done|]. pose proof Hok1 as (Hs1 & Hm1 & _).
    assert (length (skb_data skb1) = (length (skb_data skb) + 16)%nat) as Hl1.
    { by rewrite Hd1, length_app, nlmsghdr_bytes_length. }
    destruct (Z.leb_spec (skb_tailroom skb1) (skb_len p)).
    { unfold skb_tailroom, skb_len in *. lia. }
    pose proof (skb_put_ok skb1 (skb_len p) (skb_data p) Hok1 eq_refl Hp4) as Hput.
    destruct (skb_put skb1 _ _) as [skb2|f].
    + destruct Hput as [Hok2 Hd2]. eapply wpf_run; [done|].
      rewrite Hd1, <- (assoc_L (++)) in Hd2.
      unfold wpf. split; [done|].
      assert (Z.of_nat (length (skb_data p)) < 4000000000) as Hsm by lia.
      destruct (set_len_ok skb2 _ _ _ Hok2 Hd2 Hsm) as [H1 H2]. split; [exact H1|].
      unfold skb_len. rewrite H2. unfold request_bytes, payload_of. by rewrite Hp.
    + unfold wpf, mbind, M_bind, lift. destruct Hput. split; [done|lia].
  - unfold wpf. split; [done|].
    assert (skb_data skb1 = skb_data skb ++ nlmsghdr_bytes h ++ []) as Hd2 by by rewrite app_nil_r.
    destruct (set_len_ok skb1 _ _ _ Hok1 Hd2) as [H1 H2]; [done|]. split; [exact H1|].
    unfold skb_len. rewrite H2. unfold request_bytes, payload_of. by rewrite Hp.
Qed.

Definition bytes_at (w : ks_io) (a : addr) : list Z :=
  from_option (request_bytes (conn_pid w)) [] (reqs w !! a).
Definition sizes_at (w : ks_io) (l : list addr) : nat :=
  sum_list (from_option request_size 0%nat ∘ (reqs w !!.) <$> l).
Definition buffered (skb : option sk_buff) : list Z := from_option skb_data [] skb.

Lemma touched_pid a w w' : touched a w w' → conn_pid w' = conn_pid w.
Proof. intros [R _]. exact (f_equal conn_pid R). Qed.
Lemma touched_pending a w w' : touched a w w' → requests_pending w' = requests_pending w.
Proof. intros [R _]. exact (f_equal requests_pending R). Qed.

Lemma bytes_touched a w w' l :
  conn_pid w' = conn_pid w → (∀ b, b ≠ a → reqs w' !! b = reqs w !! b) → a ∉ l →
  bytes_at w' <$> l = bytes_at w <$> l ∧ sizes_at w' l = sizes_at w l.
Proof.
  intros Hpid Hr Ha. unfold bytes_at, sizes_at. split; [|f_equal]; apply list_fmap_ext; intros i b Hb;
    (assert (b ≠ a) by (intros ->; apply Ha; by eapply list_elem_of_lookup_2));
    cbn; rewrite Hr by done; by rewrite ?Hpid.
Qed.

(** the request at the head of the queue has been written: it waits for its answer *)
Lemma wp_now_waiting H now a o l w :
  IoInv H [] w → requests_pending w = a :: l → reqs w !! a = Some o →
  wp (modify (λ w, set_requests_pending (filter (.≠ a) (requests_pending w)) w);;
      modify (λ w, set_requests_waiting_ack (requests_waiting_ack w ++ [a]) w);;
      ks_timer_start_delta now a (5 * SEC) (Some a))
    (λ _ w', IoInv H [] w' ∧ requests_pending w' = l ∧
      requests_waiting_ack w' = requests_waiting_ack w ++ [a] ∧
      requests_multi w' = requests_multi w ∧ requests_locked w' = requests_locked w ∧
      conn_pid w' = conn_pid w ∧ sent w' = sent w ∧
      ∀ b, b ≠ a → reqs w' !! b = reqs w !! b) w.
Proof.
  intros I Hl Ho. eapply wp_run; [done|]. eapply wp_run; [done|]. rewrite Hl.
  pose proof (io_queues _ _ _ I) as Hn. unfold queues in Hn. rewrite Hl in Hn.
  assert (a ∉ l) as Hal by (apply NoDup_cons in Hn as [Hn _]; intros ?; apply Hn, elem_of_app; tauto).
  assert (filter (.≠ a) (a :: l) = l) as ->.
  { rewrite filter_cons_False by (intros Hna; by apply Hna). by apply filter_ne_id. }
  set (w1 := set_requests_waiting_ack _ _).
  assert (IoInv H [a] w1) as I1.
  { pose proof (io_req _ _ _ I a o Ho) as F.
    assert (Permutation (l ++ (requests_waiting_ack w ++ [a]) ++ requests_multi w) (queues w)) as Hperm.
    { unfold queues. rewrite Hl. rewrite <- (assoc_L (++) _ [a]), (assoc_L (++) l).
      change ((a :: l) ++ ?x) with (a :: (l ++ x)).
      rewrite (assoc_L (++) l). symmetry. apply Permutation_middle. }
    change w1 with (with_queues l (requests_waiting_ack w ++ [a]) (requests_multi w) w).
    apply (inv_requeue a l (requests_waiting_ack w ++ [a]) (requests_multi w) H [] w); try done.
    - intros b Hb. rewrite Hl, elem_of_cons. tauto.
    - intros b Hb. rewrite elem_of_app, list_elem_of_singleton. tauto.
    - rewrite Hperm. apply I.
    - by rewrite (occ_perm a _ _ Hperm).
    - exists o. split_and!; [done| |].
      + intros _. apply (rf_unsent _ _ _ _ F). rewrite Hl. apply list_elem_of_here.
      + intros _. apply (rf_unanswered _ _ _ _ F). rewrite Hl. by left. }
  assert (a ∈ requests_waiting_ack w1) as Hw by (apply elem_of_app; right; apply list_elem_of_here).
  eapply wp_mono.
  { apply (wp_timer_start H [] a (now + 5 * SEC) o w1); [done| |done|done|].
    - unfold queues. rewrite !elem_of_app. tauto.
    - apply elem_of_app. by left. }
  intros b w2 (I2 & T2 & _). pose proof T2 as [R2 O2]. split_and!; [done|..].
  - by apply touched_pending in T2.
  - by apply touched_waiting in T2.
  - by apply touched_multi in T2.
  - exact (f_equal requests_locked R2).
  - exact (f_equal conn_pid R2).
  - exact (f_equal sent R2).
  - exact O2.
Qed.

Definition sent_ok (H : list addr) (l : list addr) (d : list Z) (w : ks_io)
    (r : option sk_buff) (w' : ks_io) : Prop :=
  IoInv H [] w' ∧ requests_pending w' = [] ∧
  requests_waiting_ack w' = requests_waiting_ack w ++ l ∧
  requests_multi w' = requests_multi w ∧ requests_locked w' = requests_locked w ∧
  sent w' = sent w ∧ buffered r = d ++ concat (bytes_at w <$> l) ∧ from_option skb_ok True r.

Lemma send_loop_ok H now l skb w :
  IoInv H [] w → requests_pending w = l → skb_ok skb →
  wpf (λ f, f = OutOfBounds ∧ (1016 < length (skb_data skb) + sizes_at w l)%nat)
    (send_requests_loop now l (Some skb)) (sent_ok H l (skb_data skb) w) w.
Proof.
  revert skb w. induction l as [|a l IH]; intros skb w I Hl Hok; cbn [send_requests_loop].
  { unfold wpf, sent_ok. cbn. rewrite !app_nil_r. done. }
  destruct (inv_queued _ _ _ a I) as [o Ho].
  { unfold queues. rewrite Hl. by left. }
  pose proof (io_req _ _ _ I a o Ho) as F.
  assert (a ∉ l) as Hal.
  { pose proof (io_queues _ _ _ I) as Hn. unfold queues in Hn. rewrite Hl in Hn.
    apply NoDup_cons in Hn as [Hn _]. intros ?. apply Hn, elem_of_app. tauto. }
  assert (sizes_at w (a :: l) = (request_size o + sizes_at w l)%nat) as Hsz.
  { unfold sizes_at. cbn. by rewrite Ho. }
  apply wpf_bind.
  pose proof (send_request_ok 2 a o skb w Ho (rf_skb _ _ _ _ F) Hok) as Hs. unfold wpf in *.
  change send_attempts with 3%nat.
  destruct (send_request 3 a (Some skb) w) as [[skb1 w1]|f]; [|destruct Hs; split; [done|lia]].
  destruct Hs as (-> & Hok1 & Hd1).
  pose proof (wp_now_waiting H now a o l w I Hl Ho) as Hn. unfold wp, mbind, M_bind in *.
  cbn [modify] in *. destruct (ks_timer_start_delta _ _ _ _ _) as [[b w2]|]; [|done].
  destruct Hn as (I2 & P2 & W2 & M2 & L2 & D2 & S2 & O2).
  destruct (bytes_touched a w w2 l D2 O2 Hal) as [Eb Es].
  pose proof (IH skb1 w2 I2 P2 Hok1) as Hm. unfold wpf in Hm.
  destruct (send_requests_loop now l (Some skb1) w2) as [[r w3]|f].
  - destruct Hm as (I3 & P3 & W3 & M3 & L3 & S3 & B3 & K3). split_and!; [done|done| |congruence..| |done].
    + rewrite W3, W2. by rewrite <- (assoc_L (++)).
    + rewrite B3, Hd1, Eb. cbn. unfold bytes_at at 2. rewrite Ho. cbn.
      by rewrite <- (assoc_L (++)).
  - destruct Hm as [-> Hm]. split; [done|].
    rewrite Es, Hd1, length_app, request_bytes_length in Hm. unfold request_size in *. lia.
Qed.

Definition send_ok (H : list addr) (w w' : ks_io) : Prop :=
  IoInv H [] w' ∧ requests_pending w' = [] ∧
  requests_waiting_ack w' = requests_waiting_ack w ++ requests_pending w ∧
  requests_multi w' = requests_multi w ∧ requests_locked w' = false ∧
  sent w' = match requests_pending w with
            | [] => sent w
            | l => concat (bytes_at w <$> l) :: sent w
            end ∧ (sizes_at w (requests_pending w) ≤ 1016)%nat.

Lemma sizes_concat H X w l :
  IoInv H X w → l ⊆ queues w → length (concat (bytes_at w <$> l)) = sizes_at w l.
Proof.
  intros I. induction l as [|a l IH]; intros Hl; [done|].
  destruct (inv_queued _ _ _ a I) as [o Ho]; [apply Hl; by left|].
  change (sizes_at w (a :: l)) with (from_option request_size 0%nat (reqs w !! a) + sizes_at w l)%nat.
  rewrite <- IH by (intros b Hb; apply Hl; by right). rewrite fmap_cons. cbn [concat].
  rewrite length_app. f_equal. unfold bytes_at. rewrite Ho. apply request_bytes_length.
Qed.

Lemma send_requests_ok H now w :
  IoInv H [] w →
  wpf (λ f, (f = Deadlock ∧ requests_locked w = true) ∨
            f = OutOfBounds ∧ (1016 < sizes_at w (requests_pending w))%nat)
    (ks_conn_send_requests now) (λ _, send_ok H w) w.
Proof.
  intros I. unfold ks_conn_send_requests. apply wpf_lock; [intros ?; by left|]. intros Hl.
  eapply wpf_run; [done|]. cbn [requests_pending set_requests_locked].
  set (w1 := set_requests_locked true w).
  assert (IoInv H [] w1) as I1 by by apply inv_locked.
  change (requests_pending w1) with (requests_pending w).
  destruct (requests_pending w) as [|a l] eqn:Hp.
  - unfold wpf, send_ok. cbn. rewrite Hp, app_nil_r. split_and!; try done; [by apply inv_locked|].
    cbn. lia.
  - set (w2 := set_mallocs (S (mallocs w)) w1).
    assert (send_requests_loop now (a :: l) None w1 =
      send_requests_loop now (a :: l) (Some (alloc_skb 4096 (malloc_holds (mallocs w)))) w2) as Hs
      by reflexivity.
    assert (IoInv H [] w2) as I2 by by apply (io_inv_core H [] w1).
    pose proof (send_loop_ok H now (a :: l) _ w2 I2 Hp (alloc_skb_ok (mallocs w))) as Hm.
    unfold wpf, mbind, M_bind in *. rewrite Hs.
    destruct (send_requests_loop _ _ _ _) as [[r w3]|f].
    + destruct Hm as (I3 & P3 & W3 & M3 & L3 & S3 & B3 & K3). cbn [unlock_requests modify].
      assert ((16 ≤ length (buffered r))%nat) as Hlen.
      { rewrite B3. cbn [skb_data alloc_skb app fmap list_fmap concat]. rewrite length_app.
        destruct (inv_queued _ _ _ a I) as [o Ho]; [unfold queues; rewrite Hp; by left|].
        assert (bytes_at w2 a = request_bytes (conn_pid w) o) as ->.
        { unfold bytes_at. change (reqs w2) with (reqs w). by rewrite Ho. }
        rewrite request_bytes_length. lia. }
      destruct r as [skb|]; [|cbn in Hlen; lia]. cbn [buffered from_option] in *.
      unfold skb_len. destruct (Z.eqb_spec (Z.of_nat (length (skb_data skb))) 0); [lia|].
      cbn. split_and!; try done; [by apply (io_inv_core H [] w3)|cbn; by rewrite Hp| |].
      * rewrite S3, Hp, B3. done.
      * destruct K3 as (_ & Hlen' & _). rewrite B3 in Hlen'.
        cbn [skb_data alloc_skb app] in Hlen'.
        rewrite (sizes_concat H [] w2) in Hlen'; [|done|].
        2: { change (queues w2) with (queues w). intros b Hb. unfold queues. rewrite Hp.
             apply elem_of_app. by left. }
        rewrite Hp. change (sizes_at w2 (a :: l)) with (sizes_at w (a :: l)) in Hlen'. lia.
    + destruct Hm as [-> Hm]. right. split; [done|]. exact Hm.
Qed.

(** ** Operations of the application *)

Lemma skb_put_keeps skb n bytes skb' :
  skb_ok skb → (4 | n) → skb_put skb n bytes = Done skb' → skb_ok skb'.
Proof.
  intros (Hs & Hm & H4) [k Hn] Hp. unfold skb_put in Hp.
  destruct (Nat.ltb_spec (length (skb_mem skb)) (Z.to_nat n)); [done|].
  destruct (Nat.ltb_spec (Z.to_nat n) (length bytes)); [done|]. injection Hp as <-.
  assert (length (bytes ++ take (Z.to_nat n - length bytes) (drop (length bytes) (skb_mem skb)))
    = Z.to_nat n) as Hl by (rewrite length_app, length_take, length_drop; lia).
  split_and!; [done|cbn; rewrite length_app, Hl, length_drop; lia|].
  cbn. rewrite length_app, Hl, Nat2Z.inj_add. apply Z.divide_add_r; [done|].
  exists (Z.max k 0). lia.
Qed.

Lemma put_attr_keeps skb type data len err skb' :
  skb_ok skb → ks_netlink_put_attr skb type data len = Done (err, skb') → skb_ok skb'.
Proof.
  intros Hok Hp. unfold ks_netlink_put_attr in Hp. destruct (_ <? _); [by injection Hp as <- <-|].
  destruct (match data with Some _ => _ | None => _ end); [|done]. cbn [mbind outcome_bind] in Hp.
  destruct (skb_put _ _ _) as [skb2|] eqn:H2; [|done]. injection Hp as <- <-.
  eapply skb_put_keeps; [done| |done]. rewrite KS_ATTR_SPACE_eq. exists (1 + (len + 3) / 4). lia.
Qed.

Lemma wlp_run {S A B} (m : M S A) (k : A → M S B) a s s' Q :
  m s = Done (a, s') → wlp (k a) Q s' → wlp (m ≫= k) Q s.
Proof. intros Hm Hk. unfold wlp, mbind, M_bind. by rewrite Hm. Qed.
Lemma wlp_wp {S A} (m : M S A) Q s : wp m Q s → wlp m Q s.
Proof. unfold wlp, wp. by destruct (m s) as [[a s']|]. Qed.

(** an operation on the topology leaves the requests alone *)
Lemma wlp_topology {A} (m : L A) w :
  wlp (topology m) (λ _ w', ∃ c, w' = set_conn c w) w.
Proof. unfold wlp, topology. destruct (m (conn w)) as [[a c]|]; [|done]. by exists c. Qed.
Lemma inv_conn c H X w : IoInv H X w → IoInv H X (set_conn c w).
Proof. by apply io_inv_core. Qed.

(** [a] is being prepared by an operation *)
Definition prepared (a : addr) (w : ks_io) : Prop :=
  a ∉ queues w ∧ ∃ o, reqs w !! a = Some o ∧ timer_pending o = false ∧
    response_payload o = None ∧ req_refcnt o = 1 ∧ is_Some (req_skb o).

Lemma wlp_new_request type H w :
  IoInv H [] w →
  wlp (new_request type) (λ a w', IoInv (a :: H) [a] w' ∧ a ∉ queues w' ∧
    ∃ o, reqs w' !! a = Some o ∧ timer_pending o = false ∧ response_payload o = None ∧
      req_refcnt o = 1) w.
Proof.
  intros I. unfold new_request. apply wlp_bind, wlp_wp.
  eapply wp_mono; [by apply (wp_req_alloc H [])|]. intros a w1 (I1 & Ho & Hq & _).
  eapply wlp_run; [by apply upd_req_eq|]. unfold wlp. cbn. split_and!.
  - by eapply inv_plain.
  - exact Hq.
  - eexists. split; [apply lookup_insert_eq|done].
Qed.

Lemma wlp_queue H a o w :
  IoInv H [a] w → reqs w !! a = Some o → a ∉ queues w →
  timer_pending o = false → response_payload o = None →
  wlp (ks_conn_queue_request a) (λ _, IoInv H []) w.
Proof.
  intros. apply (wpf_wlp (λ _, True)). eapply wpf_mono; [by eapply wpf_queue|]. by intros ?? [? _].
Qed.

Lemma wlp_request type H w :
  IoInv H [] w → wlp (request type) (λ a, IoInv (a :: H) []) w.
Proof.
  intros I. unfold request. apply wlp_bind.
  eapply wlp_mono; [by apply (wlp_new_request type H)|]. intros a w1 (I1 & Hq & o & Ho & Hp & Hr & _).
  apply wlp_bind. eapply wlp_mono; [by apply (wlp_queue (a :: H) a o)|]. by intros [] w2 I2.
Qed.

Lemma wlp_put_attrs a l H w :
  IoInv (a :: H) [a] w → prepared a w →
  wlp (put_attrs a l) (λ _ w', IoInv (a :: H) [a] w' ∧ prepared a w') w.
Proof.
  revert w. induction l as [|m l IH]; intros w I Hp; cbn [put_attrs]; [done|].
  apply wlp_bind. eapply wlp_mono; [apply wlp_topology|]. intros [[type data] len] w1 [c ->].
  destruct Hp as (Hq & o & Ho & Hpend & Hpay & Hr & skb & Hs).
  eapply wlp_run; [by apply (the_req_eq a o)|]. rewrite Hs. eapply wlp_run; [done|].
  pose proof (rf_skb _ _ _ _ (io_req _ _ _ I a o Ho) skb Hs) as Hok.
  unfold lift. destruct (ks_netlink_put_attr skb type (Some data) len) as [[err skb']|] eqn:Hput; [|done].
  eapply wlp_run; [done|]. eapply wlp_run; [done|].
  match goal with |- wlp _ _ ?w2 => assert (IoInv (a :: H) [a] w2 ∧ prepared a w2) as [I2 P2] end.
  { split.
    - apply inv_skb; [by apply inv_conn|done|]. by eapply put_attr_keeps.
    - split; [exact Hq|]. eexists. split; [apply lookup_insert_eq|done]. }
  destruct (err <? 0); [done|]. by apply IH.
Qed.

Lemma wlp_request_attrs type l H w :
  IoInv H [] w →
  wlp (request_attrs type l)
    (λ r w', match r with inl _ => IoInv H [] w' | inr a => IoInv (a :: H) [] w' end) w.
Proof.
  intros I. unfold request_attrs. apply wlp_bind.
  eapply wlp_mono; [by apply (wlp_new_request type H)|]. intros a w1 (I1 & Hq & o & Ho & Hp & Hr & H1).
  eapply wlp_run; [done|]. eapply wlp_run; [by apply upd_req_eq|]. apply wlp_bind.
  eapply wlp_mono; [apply (wlp_put_attrs a l H)|].
  - apply inv_skb; [|done|apply alloc_skb_ok]. by apply (io_inv_core _ _ w1).
  - split; [exact Hq|]. eexists. split; [apply lookup_insert_eq|]. by split_and!.
  - intros err w2 (I2 & Hq2 & o2 & Ho2 & Hp2 & Hr2 & H2 & _). destruct (err <? 0).
    + eapply wlp_run; [by apply (ks_req_put_last a o2)|]. apply (inv_settle _ _ a); [by eapply inv_free|].
      intros o3. cbn. by rewrite lookup_delete_eq.
    + apply wlp_bind. eapply wlp_mono; [by apply (wlp_queue (a :: H) a o2)|]. by intros [] w3 I3.
Qed.

(** ** Operations that wait *)

(** the requests an operation has references of *)
Definition held (c : ks_client) : list addr :=
  match c with
  | waits_topology phase_feature feature node chan pipeline => [feature; node; chan; pipeline]
  | waits_topology phase_node _ node chan pipeline => [node; chan; pipeline]
  | waits_topology phase_chan _ _ chan pipeline => [chan; pipeline]
  | waits_topology phase_pipeline _ _ _ pipeline => [pipeline]
  | c => [waits_for c]
  end.
Definition all_held (cs : list ks_client) : list addr := concat (held <$> cs).

Definition at_wait (H : list addr) (p : progress) (w : ks_io) : Prop :=
  match p with waiting c => IoInv (held c ++ H) [] w | returned _ => IoInv H [] w end.

Lemma wlp_started H k (m : C (Z + addr)) w :
  (∀ a, held (k a) = [a]) →
  wlp m (λ r w', match r with inl _ => IoInv H [] w' | inr a => IoInv (a :: H) [] w' end) w →
  wlp (r ← m; mret (started k r)) (at_wait H) w.
Proof.
  intros Hk Hm. apply wlp_bind. eapply wlp_mono; [exact Hm|]. intros [err|a] w' Hr; [done|].
  unfold wlp, at_wait. cbn. by rewrite Hk.
Qed.

Lemma wlp_waiting H k type w :
  IoInv H [] w → (∀ a, held (k a) = [a]) →
  wlp (req ← request type; mret (waiting (k req))) (at_wait H) w.
Proof.
  intros I Hk. apply wlp_bind. eapply wlp_mono; [by apply (wlp_request type H)|].
  intros a w' I'. unfold wlp, at_wait. cbn. by rewrite Hk.
Qed.

Lemma wlp_topology_then {A B} (m : L A) (k : A → C B) H X Q w :
  IoInv H X w → (∀ a w', IoInv H X w' → wlp (k a) Q w') → wlp (topology m ≫= k) Q w.
Proof.
  intros I Hk. apply wlp_bind. eapply wlp_mono; [apply wlp_topology|]. intros a w' [c ->].
  by apply Hk, inv_conn.
Qed.

Lemma wlp_pipeline_set pipeline H w :
  IoInv H [] w →
  wlp (pipeline_set pipeline)
    (λ r w', match r with inl _ => IoInv H [] w' | inr a => IoInv (a :: H) [] w' end) w.
Proof. apply wlp_request_attrs. Qed.
Lemma wlp_chan_set chan H w :
  IoInv H [] w →
  wlp (chan_set chan)
    (λ r w', match r with inl _ => IoInv H [] w' | inr a => IoInv (a :: H) [] w' end) w.
Proof.
  intros I. unfold chan_set. eapply wlp_topology_then; [done|]. intros c w' I'.
  by apply wlp_request_attrs.
Qed.

Lemma wlp_restart_flowing pipeline H w :
  IoInv H [] w → wlp (restart_flowing pipeline) (at_wait H) w.
Proof.
  intros I. unfold restart_flowing. eapply wlp_topology_then; [done|]. intros [] w1 I1.
  apply wlp_bind. eapply wlp_mono; [by apply wlp_pipeline_set|]. by intros [err|a] w2.
Qed.

Lemma wlp_update_chans pipeline i H w :
  IoInv H [] w → wlp (ks_pipeline_update_chans pipeline i) (at_wait H) w.
Proof.
  intros I. unfold ks_pipeline_update_chans. eapply wlp_topology_then; [done|]. intros p w1 I1.
  destruct (pipeline_chans p !! i); [|done]. apply wlp_started; [done|]. by apply wlp_chan_set.
Qed.

Lemma wlp_ks_call op H w : IoInv H [] w → wlp (ks_call op) (at_wait H) w.
Proof.
  intros I. destruct op; cbn [ks_call]; try (by apply wlp_waiting).
  - unfold ks_pipeline_create. eapply wlp_topology_then; [done|]. intros p w1 I1.
    apply wlp_started; [done|]. by apply wlp_request_attrs.
  - apply wlp_started; [done|]. by apply wlp_pipeline_set.
  - apply wlp_started; [done|]. by apply wlp_request_attrs.
  - unfold ks_pipeline_restart. eapply wlp_topology_then; [done|]. intros [] w1 I1.
    apply wlp_bind. eapply wlp_mono; [by apply wlp_pipeline_set|].
    intros [err|a] w2 I2; [by apply wlp_restart_flowing|done].
  - by apply wlp_update_chans.
  - apply wlp_started; [done|]. by apply wlp_chan_set.
Qed.

(** the operations that give a reference back twice go on only where nothing failed *)
Definition gives_back_once (c : ks_client) (w : ks_io) : Prop :=
  match c with
  | waits_answer _ | waits_version _ | waits_create _ _ | waits_topology_lock _
  | waits_topology_failed _ _ => True
  | _ => ∀ o, reqs w !! waits_for c = Some o → 0 ≤ req_err o
  end.

Lemma wlp_put H a w : IoInv (a :: H) [] w → wlp (ks_req_put a) (λ _, IoInv H []) w.
Proof.
  intros I. destruct (inv_held _ _ _ a I) as [o Ho]; [apply list_elem_of_here|].
  apply wlp_wp. eapply wp_mono; [by apply (wp_req_put H [] a o)|]. by intros ?? [? _].
Qed.
Lemma wlp_take_result H a w :
  IoInv (a :: H) [] w →
  wlp (take_result a) (λ err w', IoInv H [] w' ∧
    ((∀ o, reqs w !! a = Some o → 0 ≤ req_err o) → err = 0)) w.
Proof.
  intros I. destruct (inv_held _ _ _ a I) as [o Ho]; [apply list_elem_of_here|].
  unfold take_result. eapply wlp_run; [by apply (the_req_eq a o)|].
  apply wlp_bind. eapply wlp_mono; [by apply (wlp_put H a)|]. intros [] w' I'.
  split; [done|]. intros He. specialize (He o Ho). destruct (Z.ltb_spec (req_err o) 0); [lia|done].
Qed.
Lemma wlp_change_result H a w :
  IoInv (a :: H) [] w → (∀ o, reqs w !! a = Some o → 0 ≤ req_err o) →
  wlp (change_result a) (λ _, IoInv H []) w.
Proof.
  intros I He. destruct (inv_held _ _ _ a I) as [o Ho]; [apply list_elem_of_here|].
  unfold change_result. eapply wlp_run; [by apply (the_req_eq a o)|].
  destruct (Z.ltb_spec (req_err o) 0); [specialize (He o Ho); lia|].
  apply wlp_bind. eapply wlp_mono; [by apply (wlp_put H a)|]. by intros [] w' I'.
Qed.

Lemma preserves_nlmsg_loop (P : ks_io → Prop) fuel mem len f :
  (∀ m, preserves P (f m)) → preserves P (nlmsg_loop fuel mem len f).
Proof.
  intros Hf. revert mem len. induction fuel as [|fuel IH]; intros mem len w Hw; cbn [nlmsg_loop];
    destruct (len <? NLMSG_HDRLEN); try done.
  apply wlp_bind. eapply wlp_mono; [by apply preserves_lift|]. intros h w1 H1.
  destruct (_ || _); [done|]. apply wlp_bind. eapply wlp_mono; [by apply Hf|].
  intros [] w2 H2. by apply IH.
Qed.

Lemma wlp_topology_answered phase feature node chan pipeline H w
    (c := waits_topology phase feature node chan pipeline) :
  IoInv (held c ++ H) [] w → (∀ o, reqs w !! waits_for c = Some o → 0 ≤ req_err o) →
  wlp (topology_answered phase feature node chan pipeline) (at_wait H) w.
Proof.
  intros I He. unfold topology_answered. set (a := waits_for _) in *.
  set (rest := match next_phase phase with
               | Some phase => held (waits_topology phase feature node chan pipeline)
               | None => [] end).
  assert (held c = a :: rest) as Hc by (by destruct phase). rewrite Hc in I.
  destruct (inv_held _ _ _ a I) as [o Ho]; [by left|].
  eapply wlp_run; [by apply (the_req_eq a o)|].
  destruct (Z.ltb_spec (req_err o) 0); [specialize (He o Ho); lia|].
  apply wlp_bind. eapply wlp_mono.
  { apply (preserves_nlmsg_loop (IoInv ((a :: rest) ++ H) [])); [|done].
    intros m w1 I1. eapply wlp_mono; [apply wlp_topology|]. intros [] w2 [d ->]. by apply inv_conn. }
  intros [] w1 I1. apply wlp_bind. eapply wlp_mono; [by apply (wlp_put (rest ++ H) a)|].
  intros [] w2 I2. unfold rest in I2. destruct (next_phase phase); [exact I2|].
  eapply wlp_topology_then; [exact I2|]. intros [] w3 I3.
  by apply (wlp_waiting H (waits_topology_unlock feature node chan pipeline)).
Qed.

Lemma wlp_topology_requests H w : IoInv H [] w → wlp topology_requests (at_wait H) w.
Proof.
  intros I. unfold topology_requests. eapply wlp_topology_then; [done|]. intros [] w1 I1.
  apply wlp_bind. eapply wlp_mono; [by apply (wlp_request _ H)|]. intros a1 w2 I2.
  apply wlp_bind. eapply wlp_mono; [by apply (wlp_request _ (a1 :: H))|]. intros a2 w3 I3.
  apply wlp_bind. eapply wlp_mono; [by apply (wlp_request _ (a2 :: a1 :: H))|]. intros a3 w4 I4.
  apply wlp_bind. eapply wlp_mono; [by apply (wlp_request _ (a3 :: a2 :: a1 :: H))|]. intros a4 w5 I5.
  unfold wlp, at_wait. cbn. eapply inv_perm; [|exact I5].
  exact (Permutation_app_tail H (Permutation_rev [a4; a3; a2; a1])).
Qed.

Lemma wlp_resume c H w :
  IoInv (held c ++ H) [] w → gives_back_once c w → wlp (ks_client_resume c) (at_wait H) w.
Proof.
  intros I Hc. destruct c; cbn [ks_client_resume held waits_for gives_back_once app] in *.
  - apply wlp_bind. eapply wlp_mono; [by apply wlp_take_result|]. by intros err w1 [? _].
  - destruct (inv_held _ _ _ req I) as [o Ho]; [by left|].
    eapply wlp_run; [by apply (the_req_eq req o)|]. apply wlp_bind.
    apply (wlp_mono _ (λ _, IoInv (req :: H) [])).
    + destruct (req_err o <? 0); [done|]. destruct (response_payload o); [|done].
      eapply wlp_run; [done|]. unfold lift. destruct (memcpy_from _ _ _ _); [|done].
      eapply wlp_run; [done|]. by apply (io_inv_core _ _ w).
    + intros [] w1 I1. apply wlp_bind. eapply wlp_mono; [by apply wlp_take_result|]. by intros err w2 [? _].
  - destruct (inv_held _ _ _ req I) as [o Ho]; [by left|].
    eapply wlp_run; [by apply (the_req_eq req o)|]. apply wlp_bind.
    apply (wlp_mono _ (λ _, IoInv (req :: H) [])).
    + destruct (req_err o <? 0); [done|]. destruct (response_payload o); [|done].
      eapply wlp_run; [done|]. eapply wlp_mono; [apply wlp_topology|]. intros [] w1 [d ->].
      by apply inv_conn.
    + intros [] w1 I1. apply wlp_bind. eapply wlp_mono; [by apply wlp_take_result|]. by intros err w2 [? _].
  - apply wlp_bind. eapply wlp_mono; [by apply wlp_change_result|]. by intros err w1.
  - apply wlp_bind. eapply wlp_mono; [by apply wlp_change_result|]. intros err w1 I1.
    destruct again; [done|]. by apply wlp_restart_flowing.
  - apply wlp_bind. eapply wlp_mono; [by apply wlp_change_result|]. intros err w1 I1.
    destruct (err <? 0); [done|]. by apply wlp_update_chans.
  - apply wlp_bind. eapply wlp_mono; [by apply wlp_take_result|]. intros err w1 [I1 _].
    destruct (err <? 0); [done|]. by apply wlp_topology_requests.
  - by apply wlp_topology_answered.
  - apply wlp_bind. eapply wlp_mono; [by apply wlp_take_result|]. intros err w1 [I1 ->]; done.
  - apply wlp_bind. eapply wlp_mono; [by apply wlp_take_result|]. by intros e w1 [? _].
Qed.
End triples.
