(* ===== verification/KsConnThm.v ===== *)
(** * Requests of the library: the theorems

    Executions of an application and of the thread of the protocol ([execution], and
    [reached] without the operations that put a request twice); requests are counted, the
    thread is safe, no operation waits for ever, answers in parts are
    collected, requests reach the kernel as they are; and what goes wrong when the kernel
    refuses a change or sends an answer nobody asked for. *)

From stdpp Require Import base list gmap sorting.
From Stdlib Require Import ZArith Lia.
From S2P Require Import Prelude.
From S2P Require Import Bits.
From S2P Require Import KsProto.
From S2P Require Import KsLib.
From S2P Require Import KsConn.
From S2P Require Import KsConnInv.
From S2P Require Import KsConnOps.
Local Open Scope Z_scope.

Section theorems.
Context {E : ConnEnv}.

(** ** The kernel finds the requests in the datagram *)

(** the message at [m] is the request [o] *)
Definition reads (pid : Z) (m : list Z) (o : ks_req) : Prop :=
  nlmsg_hdr m = Done {| nlmsg_len := 16 + Z.of_nat (length (payload_of o));
                        nlmsg_type := u16 (req_type o); nlmsg_flags := u16 (req_flags o);
                        nlmsg_seq := u32 (req_id o); nlmsg_pid := u32 pid |} ∧
  take (length (payload_of o)) (NLMSG_DATA m) = payload_of o.

Lemma reads_request pid o rest :
  Z.of_nat (length (payload_of o)) < 4000000000 → reads pid (request_bytes pid o ++ rest) o.
Proof.
  intros Hl. unfold request_bytes. rewrite <- (assoc_L (++)). split.
  - rewrite nlmsg_hdr_bytes; [done|cbn [nlmsg_len]; lia|].
    split_and!; cbn [nlmsg_type nlmsg_flags nlmsg_seq nlmsg_pid];
      apply u16_range || apply u32_range.
  - unfold NLMSG_DATA. rewrite drop_app_length' by (by rewrite nlmsghdr_bytes_length).
    by rewrite take_app_length.
Qed.

Lemma NLMSG_ALIGN_aligned n : (4 | n) → NLMSG_ALIGN n = n.
Proof. intros [k ->]. rewrite NLMSG_ALIGN_eq. Z.to_euclidean_division_equations; lia. Qed.

Definition small_request (o : ks_req) : Prop :=
  Z.of_nat (length (payload_of o)) < 4000000000 ∧ (4 | Z.of_nat (length (payload_of o))).

Lemma messages_requests pid os fuel rest :
  Forall small_request os →
  (length (concat (request_bytes pid <$> os)) < 16 * (fuel + 1))%nat →
  Forall2 (reads pid)
    (messages fuel (concat (request_bytes pid <$> os) ++ rest)
       (Z.of_nat (length (concat (request_bytes pid <$> os))))) os.
Proof.
  intros Hos. revert fuel. induction Hos as [|o os [Hs H4] Hos IH]; intros fuel Hf.
  { destruct fuel; [constructor|]. cbn [messages]. destruct (nlmsg_hdr _); constructor. }
  rewrite fmap_cons in *. cbn [concat] in *. rewrite length_app, request_bytes_length in *.
  destruct fuel as [|fuel]; [lia|]. rewrite <- (assoc_L (++)). cbn [messages].
  set (tl := concat (request_bytes pid <$> os)) in *.
  destruct (reads_request pid o (tl ++ rest) Hs) as [Hh Hp]. rewrite Hh. cbn [nlmsg_len].
  assert (NLMSG_ALIGN (16 + Z.of_nat (length (payload_of o)))
    = Z.of_nat (length (request_bytes pid o))) as Hal.
  { rewrite NLMSG_ALIGN_aligned; [rewrite request_bytes_length; lia|].
    apply Z.divide_add_r; [by exists 4|done]. }
  unfold NLMSG_HDRLEN.
  destruct (Z.ltb_spec (Z.of_nat (16 + length (payload_of o) + length tl)) 16); [lia|].
  destruct (Z.ltb_spec (16 + Z.of_nat (length (payload_of o))) 16); [lia|].
  destruct (Z.ltb_spec (Z.of_nat (16 + length (payload_of o) + length tl))
              (16 + Z.of_nat (length (payload_of o)))); [lia|].
  cbn [orb]. constructor; [by split|].
  rewrite Hal, Nat2Z.id, drop_app_length, request_bytes_length.
  replace (Z.of_nat _ - Z.of_nat _) with (Z.of_nat (length tl)) by lia. apply IH. lia.
Qed.

(** ** Executions *)

(** what the theorems ask of an event: the kernel's datagrams are honest, and an operation
    that would give a reference back twice does not go on after an error *)
Definition benign (cs : list ks_client) (w : ks_io) (e : ks_event) : Prop :=
  match e with
  | ev_receive _ false l => honest_datagram l
  | ev_resume i => ∀ c, cs !! i = Some c → gives_back_once c w
  | _ => True
  end.

Inductive reached (pid : Z) : list ks_client → ks_io → Prop :=
| reached_start : reached pid [] (ks_conn_create pid)
| reached_step cs w e cs' w' :
    reached pid cs w → benign cs w e → ks_exec cs e w = Done (cs', w') →
    reached pid cs' w'.

Lemma inv_create pid : IoInv [] [] (ks_conn_create pid).
Proof.
  constructor; cbn; try (intros ??; rewrite lookup_empty; done); try constructor.
  - intros a Ha. by apply elem_of_nil in Ha.
Qed.

Lemma all_held_delete cs i c :
  cs !! i = Some c → all_held cs ≡ₚ held c ++ all_held (delete i cs).
Proof.
  intros Hi. unfold all_held. by rewrite (delete_Permutation _ _ _ Hi) at 1.
Qed.

Lemma progressed_inv cs p w : at_wait (all_held cs) p w → IoInv (all_held (progressed cs p)) [] w.
Proof. by destruct p. Qed.

Lemma preserves_receive_multicast H m :
  preserves (IoInv H []) (ks_conn_receive_multicast m).
Proof.
  intros w I. unfold ks_conn_receive_multicast. apply wlp_bind.
  eapply wlp_mono; [by apply (preserves_lift (IoInv H []))|]. intros h w1 I1. eapply wlp_run; [done|].
  destruct (_ && _).
  - eapply wlp_topology_then; [exact I1|]. intros [] w2 I2. by apply (io_inv_core _ _ w2).
  - apply wlp_bind, (wlp_mono _ (λ _, IoInv H [])).
    { unfold when. destruct (_ =? _); [by apply (io_inv_core _ _ w1)|done]. }
    intros [] w2 I2. apply wlp_bind, (wlp_mono _ (λ _, IoInv H [])).
    { destruct (topology_state (conn w1)); try done.
      eapply wlp_mono; [apply wlp_topology|]. intros [] w3 [c ->]. by apply inv_conn. }
    intros [] w3 I3. by apply (io_inv_core _ _ w3).
Qed.

Lemma exec_inv cs e w :
  IoInv (all_held cs) [] w → benign cs w e →
  wlp (ks_exec cs e) (λ cs' w', IoInv (all_held cs') [] w') w.
Proof.
  intros I Hb. destruct e as [op|i|now groups l|now|now|c]; cbn [ks_exec].
  - apply wlp_bind. eapply wlp_mono; [by apply wlp_ks_call|]. intros p w'. apply progressed_inv.
  - unfold client_step. destruct (cs !! i) as [c|] eqn:Hi; [|done].
    pose proof (inv_perm _ _ _ _ (all_held_delete cs i c Hi) I) as I'.
    apply wlp_bind. unfold wlp at 1. destruct (the_req _ w) as [[o w1]|] eqn:Ho; [|done].
    assert (w1 = w) as ->.
    { unfold the_req, mbind, M_bind in Ho. cbn in Ho.
      destruct (reqs w !! _); [by injection Ho as _ <-|done]. }
    destruct (req_completed o); [|done]. apply wlp_bind.
    eapply wlp_mono; [by apply (wlp_resume c (all_held (delete i cs))), Hb|].
    intros p w2. apply progressed_inv.
  - apply wlp_bind, (wlp_mono _ (λ _, IoInv (all_held cs) [])); [|by intros [] w' I'].
    destruct groups.
    + unfold wlp. rewrite receive_eq. apply (preserves_forM (IoInv (all_held cs) [])); [|done].
      intros m _. apply preserves_receive_multicast.
    + apply (wpf_wlp (λ _, True)). by apply wpf_receive.
  - apply wlp_bind, wlp_wp. eapply wp_mono; [by apply (wp_timerset_run (all_held cs))|].
    by intros [] w' (I' & _).
  - apply wlp_bind. eapply wlp_mono; [eapply wpf_wlp; by apply (send_requests_ok (all_held cs))|].
    by intros [] w' (I' & _).
  - by apply inv_conn.
Qed.

Lemma reached_inv pid cs w : reached pid cs w → IoInv (all_held cs) [] w.
Proof.
  induction 1 as [|cs w e cs' w' _ IH Hb He]; [apply inv_create|].
  pose proof (exec_inv cs e w IH Hb) as Hw. unfold wlp in Hw. by rewrite He in Hw.
Qed.

(** ** Operations that fail *)

(** the operations that give a reference back twice where their request failed *)
Definition puts_twice (c : ks_client) : bool :=
  match c with
  | waits_change _ | waits_restart _ _ _ | waits_update_chans _ _ _ | waits_topology _ _ _ _ _
  | waits_topology_unlock _ _ _ _ _ => true
  | waits_answer _ | waits_version _ | waits_create _ _ | waits_topology_lock _
  | waits_topology_failed _ _ => false
  end.

(** the step [e] is such an operation that goes on after its request has failed *)
Definition refused (cs : list ks_client) (w : ks_io) (e : ks_event) : bool :=
  match e with
  | ev_resume i =>
    match cs !! i with
    | Some c =>
      match reqs w !! waits_for c with
      | Some o => puts_twice c && req_completed o && (req_err o <? 0)
      | None => false
      end
    | None => false
    end
  | _ => false
  end.

(** what is asked of the kernel alone *)
Definition honest_event (e : ks_event) : Prop :=
  match e with ev_receive _ false l => honest_datagram l | _ => True end.

(** an execution, and the steps it consists of with the states they start from *)
Inductive execution (pid : Z) :
    list (list ks_client * ks_io * ks_event) → list ks_client → ks_io → Prop :=
| execution_start : execution pid [] [] (ks_conn_create pid)
| execution_step tr cs w e cs' w' :
    execution pid tr cs w → honest_event e → ks_exec cs e w = Done (cs', w') →
    execution pid ((cs, w, e) :: tr) cs' w'.

(** a step that is not one of those is benign, or nothing happens *)
Lemma step_benign cs w e cs' w' :
  honest_event e → refused cs w e = false → ks_exec cs e w = Done (cs', w') →
  benign cs w e ∨ (cs' = cs ∧ w' = w).
Proof.
  intros Hh Hf He. destruct e as [op|i|now groups l|now|now|c]; try by left.
  cbn [refused] in Hf. cbn [ks_exec] in He. unfold client_step in He. cbn [benign].
  destruct (cs !! i) as [c|] eqn:Hi; [|by left].
  destruct (reqs w !! waits_for c) as [o|] eqn:Ho.
  2: { left. intros c' [= <-]. unfold gives_back_once. destruct c; try done; intros o Ho'; congruence. }
  unfold mbind, M_bind in He. rewrite (the_req_eq (waits_for c) o w Ho) in He.
  destruct (req_completed o); [|right; injection He as <- <-; done].
  left. intros c' [= <-]. rewrite andb_true_r in Hf. unfold gives_back_once.
  destruct c; cbn [puts_twice andb] in Hf; try done;
    intros o' Ho'; rewrite Ho in Ho'; injection Ho' as <-; apply Z.ltb_ge, Hf.
Qed.

Lemma execution_reached pid tr cs w :
  execution pid tr cs w →
  (∃ cs0 w0 e0, (cs0, w0, e0) ∈ tr ∧ refused cs0 w0 e0 = true) ∨ reached pid cs w.
Proof.
  induction 1 as [|tr cs w e cs' w' _ IH Hh He]; [right; constructor|].
  destruct (refused cs w e) eqn:Hf; [left; exists cs, w, e; split; [left|done]|].
  destruct IH as [(cs0 & w0 & e0 & Hin & H0)|Hr]; [left; exists cs0, w0, e0; split; [by right|done]|].
  right. destruct (step_benign cs w e cs' w' Hh Hf He) as [Hb|[-> ->]]; [|done].
  by apply (reached_step pid cs w e).
Qed.

(** ** Multicasts *)

Lemma multicast_faults m (w : ks_io) f :
  (∃ h, nlmsg_hdr m = Done h) → ks_conn_receive_multicast m w = Fault f →
  topology_state (conn w) = KS_TOPOLOGY_STATE_SYNCHED ∧ ks_topology_update m (conn w) = Fault f.
Proof.
  intros [h Hh]. unfold ks_conn_receive_multicast, mbind, M_bind, lift. rewrite Hh. cbn.
  destruct (_ && _); [done|].
  assert (∀ w0 (k : unit → C unit), conn w0 = conn w → (∀ a w1, ∃ r, k a w1 = Done r) →
    match topology (ks_topology_update m) w0 with Done (a, s) => k a s | Fault g => Fault g end = Fault f →
    ks_topology_update m (conn w) = Fault f) as Ht.
  { intros w0 k Hc Hk. unfold topology. rewrite Hc.
    destruct (ks_topology_update m (conn w)) as [[a c]|]; [|by intros [= ->]].
    destruct (Hk a (set_conn c w0)) as [r ->]. done. }
  unfold when, modify. intros Hf.
  assert (topology_state (conn w) = KS_TOPOLOGY_STATE_SYNCHED) as Hs.
  { revert Hf. by destruct (topology_state (conn w)), (multicast_seqnum w =? 0). }
  split; [done|]. rewrite Hs in Hf. destruct (multicast_seqnum w =? 0); cbn in Hf;
    (eapply Ht in Hf; [done|done|]); intros a w1; by eexists.
Qed.

Lemma receive_multicast_faults now l (w : ks_io) f :
  ks_conn_receive now true l w = Fault f →
  ∃ before m after w', messages_of l = before ++ m :: after ∧
    forM before ks_conn_receive_multicast w = Done (tt, w') ∧
    topology_state (conn w') = KS_TOPOLOGY_STATE_SYNCHED ∧ ks_topology_update m (conn w') = Fault f.
Proof.
  rewrite receive_eq.
  assert (Forall (λ m, ∃ h, in_memory m h) (messages_of l)) as Hall.
  { apply messages_in_memory; rewrite recv_buffer_length; [apply recv_len_le|by exists 2052]. }
  revert w. induction Hall as [|m ms [h [Hm _]] _ IH]; intros w; cbn [forM]; [done|].
  unfold mbind, M_bind. destruct (ks_conn_receive_msg now true m w) as [[[] w']|f'] eqn:Hw.
  - intros Hf. destruct (IH w' Hf) as (before & m' & after & w2 & -> & Hb & H).
    exists (m :: before), m', after, w2. split; [done|]. cbn [forM ks_conn_receive_msg] in *.
    unfold mbind, M_bind. by rewrite Hw.
  - intros [= <-]. apply multicast_faults in Hw as [H1 H2]; [|by exists h].
    by exists [], m, ms, w.
Qed.

(** ** Parts of an answer *)

(** [b] is not taken for [a] by the parts of an answer *)
Definition only_multi (a : addr) (id : Z) (w : ks_io) : Prop :=
  ∀ b o, b ∈ requests_multi w → reqs w !! b = Some o →
    Z.shiftr (req_id o) 16 = Z.shiftr id 16 → b = a.

(** a part of the answer to a request with the identifier [id] *)
Definition part_of (id : Z) (x : list Z * nlmsghdr) : Prop :=
  in_memory x.1 x.2 ∧ Z.land (nlmsg_flags x.2) NLM_F_ACK = 0 ∧
  Z.land (nlmsg_flags x.2) NLM_F_MULTI ≠ 0 ∧ nlmsg_type x.2 ≠ NLMSG_ERROR ∧
  Z.shiftr (nlmsg_seq x.2) 16 = Z.shiftr id 16.

Lemma wp_part H now a o x w :
  IoInv H [] w → requests_locked w = false → a ∈ requests_multi w → reqs w !! a = Some o →
  only_multi a (req_id o) w → part_of (req_id o) x →
  wp (ks_conn_receive_unicast now x.1) (λ _ w', IoInv H [] w' ∧ part_ends a x.1 x.2 o w w') w.
Proof.
  destruct x as [m h]. intros I Hl Ha Ho Hu (Hm & Hack & Hmulti & He & Hseq). cbn [fst snd] in *.
  assert (lift (nlmsg_hdr m) = λ w : ks_io, Done (h, w)) as Hhdr.
  { unfold lift. destruct Hm as [-> _]. done. }
  unfold ks_conn_receive_unicast. rewrite Hhdr. eapply wp_run; [done|].
  rewrite Hack. cbn [negb Z.eqb]. apply Z.eqb_neq in Hmulti. rewrite Hmulti. cbn [negb].
  unfold ks_conn_receive_multi. eapply wp_run.
  { unfold lock_requests, mbind, M_bind. cbn. rewrite Hl. done. }
  eapply wp_run; [done|]. rewrite Hhdr. eapply wp_run; [done|].
  match goal with |- wp (find_req ?p ?l ≫= _) _ ?w1 =>
    destruct (find_req_eq p l w1) as (r & Hr & Hp) end.
  { intros b Hb. destruct (inv_queued H [] w b I) as [ob Hob]; [|by exists ob].
    unfold queues. rewrite !elem_of_app. auto. }
  eapply wp_run; [exact Hr|]. destruct r as [b|].
  - destruct Hp as (Hb & ob & Hob & Heq). apply Z.eqb_eq in Heq.
    assert (b = a) as -> by (eapply (Hu b ob); [done..|congruence]).
    eapply wp_mono; [apply (wp_multi_found H [] a o m h); [by apply inv_locked|done..]|].
    intros [] w' [I' P]. split; [done|]. unfold part_ends in *.
    destruct (nlmsg_type h =? NLMSG_DONE); destruct P as [P Q]; (split; [|done]);
      destruct P; by constructor.
  - specialize (Hp a o Ha Ho). cbn in Hp. apply Z.eqb_neq in Hp. congruence.
Qed.

(** parts, the last of which says that the answer is complete *)
Definition complete_answer (id : Z) (parts : list (list Z * nlmsghdr)) : Prop :=
  Forall (part_of id) parts ∧
  ∃ l x, parts = l ++ [x] ∧ nlmsg_type x.2 = NLMSG_DONE ∧
    Forall (λ y, nlmsg_type y.2 ≠ NLMSG_DONE) l.

Definition frames (parts : list (list Z * nlmsghdr)) : list Z :=
  concat ((λ x, frame x.1 x.2) <$> parts).

Lemma wp_parts H now a o payload parts w :
  IoInv H [] w → requests_locked w = false → a ∈ requests_multi w → reqs w !! a = Some o →
  response_payload o = Some payload →
  only_multi a (req_id o) w → complete_answer (req_id o) parts →
  wp (forM (parts.*1) (ks_conn_receive_unicast now)) (λ _ w', IoInv H [] w' ∧
    a ∉ requests_multi w' ∧ ended a 0 (Some (payload ++ frames parts)) w') w.
Proof.
  intros I Hl Ha Ho Hpay Hu (Hparts & l & x & -> & Hx & Hnd).
  revert o payload w I Hl Ha Ho Hpay Hu Hparts. induction Hnd as [|y l Hy Hnd IH];
    intros o payload w I Hl Ha Ho Hpay Hu Hparts; cbn [app fmap list_fmap forM];
    apply Forall_cons in Hparts as [Hp Hparts].
  - eapply wp_bind, wp_mono; [by apply (wp_part H now a o x)|]. intros [] w' [I' P].
    unfold part_ends in P. rewrite Hx in P. cbn in P. destruct P as [[an_locked0 an_pending0 an_waiting0 an_multi0 an_others0] P].
    cbn. split_and!; [done| |].
    + rewrite an_multi0, list_elem_of_filter. tauto.
    + unfold frames. cbn. rewrite app_nil_r. by rewrite Hpay in P.
  - eapply wp_bind, wp_mono; [by apply (wp_part H now a o y)|]. intros [] w' [I' P].
    unfold part_ends in P. apply Z.eqb_neq in Hy. rewrite Hy in P.
    destruct P as [[an_locked0 an_pending0 an_waiting0 an_multi0 an_others0] (o' & Ho' & Eid & _ & Epay)]. rewrite Hpay in Epay.
    eapply wp_mono; [apply (IH o' (payload ++ frame y.1 y.2) w')|]; try done.
    + by rewrite an_multi0.
    + intros b ob Hb Hob Hid. rewrite an_multi0 in Hb. rewrite Eid in Hid.
      destruct (decide (b = a)); [done|]. rewrite an_others0 in Hob by done. by eapply Hu.
    + by rewrite Eid.
    + intros [] w2 (I2 & Ha2 & E2). split_and!; [done..|]. unfold frames in *. cbn.
      by rewrite (assoc_L (++)).
Qed.

Lemma wp_ack H now a o m h w :
  IoInv H [] w → requests_locked w = false → a ∈ requests_waiting_ack w →
  reqs w !! a = Some o →
  (∀ b ob, b ∈ requests_waiting_ack w → reqs w !! b = Some ob → req_id ob = req_id o → b = a) →
  in_memory m h → honest h → nlmsg_seq h = req_id o → Z.land (nlmsg_flags h) NLM_F_ACK ≠ 0 →
  wp (ks_conn_receive_unicast now m) (λ _ w', IoInv H [] w' ∧ ack_ends a m h w w') w.
Proof.
  intros I Hl Ha Ho Hu Hm Hh Hseq Hack.
  assert (lift (nlmsg_hdr m) = λ w : ks_io, Done (h, w)) as Hhdr.
  { unfold lift. destruct Hm as [-> _]. done. }
  unfold ks_conn_receive_unicast. rewrite Hhdr. eapply wp_run; [done|].
  apply Z.eqb_neq in Hack. rewrite Hack. cbn [negb].
  unfold ks_conn_receive_acknowledge. eapply wp_run.
  { unfold lock_requests, mbind, M_bind. cbn. rewrite Hl. done. }
  eapply wp_run; [done|]. rewrite Hhdr. eapply wp_run; [done|].
  cbn [requests_waiting_ack set_requests_locked].
  rewrite bool_decide_false by (intros E0; rewrite E0 in Ha; by apply elem_of_nil in Ha).
  match goal with |- wp (find_req ?p ?l ≫= _) _ ?w1 =>
    destruct (find_req_eq p l w1) as (r & Hr & Hp) end.
  { intros b Hb. destruct (inv_queued H [] w b I) as [ob Hob]; [|by exists ob].
    unfold queues. rewrite !elem_of_app. auto. }
  eapply wp_run; [exact Hr|]. destruct r as [b|].
  - destruct Hp as (Hb & ob & Hob & Heq). apply Z.eqb_eq in Heq.
    assert (b = a) as -> by (eapply (Hu b ob); [done..|congruence]).
    eapply wp_mono; [apply (wp_acknowledge_found H [] now a m h); [by apply inv_locked|done..]|].
    intros [] w' [I' P]. split; [done|]. unfold ack_ends in *.
    destruct (nlmsg_type h =? NLMSG_ERROR); [|destruct (negb _)]; destruct P as [P Q];
      (split; [|done]); destruct P; by constructor.
  - specialize (Hp a o Ha Ho). cbn in Hp. apply Z.eqb_neq in Hp. congruence.
Qed.

(** ** The theorems *)

(** C7. Requests are counted exactly as long as no operation goes on after an error that
    makes it give a reference back twice.  In every execution in which the kernel's unicast
    datagrams are honest, whatever the applications call and the thread of the protocol
    does: either one of the steps was of an operation of [puts_twice] whose request had
    failed, refused by the kernel or timed out ([refused_change_uses_freed] is about one);
    or the count of references of each request is the number of operations that hold it,
    plus one if it is queued, plus one if its timer runs, and no operation, queue or list
    of timers has a request that was freed. *)
Theorem requests_counted pid tr cs w :
  execution pid tr cs w →
  (∃ cs0 w0 e0, (cs0, w0, e0) ∈ tr ∧ refused cs0 w0 e0 = true) ∨
  (∀ a o, reqs w !! a = Some o →
    req_refcnt o = Z.of_nat (occ a (all_held cs) + occ a (queues w) + Nat.b2n (timer_pending o)) ∧
    0 < req_refcnt o) ∧
  (∀ a, a ∈ all_held cs ++ queues w ++ timers w → is_Some (reqs w !! a)) ∧
  NoDup (queues w).
Proof.
  intros Hx. destruct (execution_reached pid tr cs w Hx) as [Hr|Hr]; [by left|right].
  destruct (reached_inv pid cs w Hr). done.
Qed.

(** C26. The thread of the protocol is safe, and its part in the faults of others.  In
    every state reached by benign events (the kernel's unicast datagrams are honest, and no
    operation has given a reference back twice): looking at the timers meets no fault and
    ends; receiving an honest unicast datagram meets no fault but a lock that was left
    locked; receiving any multicast meets no fault of its own, only one the update of the
    topology meets on one of its messages when those before it have been taken (there are
    such: the assertion that ends every update of a node, the array of 32 channels); sending meets no fault but a lock left
    locked, unless the requests that wait to be sent take more than the 1016 octets the
    buffer really has. *)
Theorem protocol_thread_safe pid cs w now :
  reached pid cs w →
  (∃ w', ks_timerset_run now w = Done (tt, w')) ∧
  (∀ l f, honest_datagram l → ks_conn_receive now false l w = Fault f → f = Deadlock) ∧
  (∀ l f, ks_conn_receive now true l w = Fault f →
    ∃ before m after w', messages_of l = before ++ m :: after ∧
      forM before ks_conn_receive_multicast w = Done (tt, w') ∧
      topology_state (conn w') = KS_TOPOLOGY_STATE_SYNCHED ∧
      ks_topology_update m (conn w') = Fault f) ∧
  (∀ f, ks_conn_send_requests now w = Fault f →
    (f = Deadlock ∧ requests_locked w = true) ∨
    f = OutOfBounds ∧ (1016 < sizes_at w (requests_pending w))%nat).
Proof.
  intros Hr. pose proof (reached_inv pid cs w Hr) as I. split_and!.
  - pose proof (wp_timerset_run _ now w I) as Hw. unfold wp in Hw.
    destruct (ks_timerset_run now w) as [[[] w']|]; [by exists w'|done].
  - intros l f Hl Hf.
    pose proof (wpf_receive (λ f, f = Deadlock) _ now l w eq_refl I Hl) as Hw.
    unfold wpf in Hw. by rewrite Hf in Hw.
  - intros l f. apply receive_multicast_faults.
  - intros f Hf. pose proof (send_requests_ok _ now w I) as Hw. unfold wpf in Hw.
    by rewrite Hf in Hw.
Qed.

(** C8. No operation waits for ever.  From any state reached by benign events, once the
    thread of the protocol has sent what is to be sent, and looks at the timers when all
    of them have expired, the requests of all operations that wait are completed: by
    their answers, or because they timed out. *)
Theorem waits_end pid cs w t w1 now :
  reached pid cs w → ks_conn_send_requests t w = Done (tt, w1) →
  (∀ a, a ∈ timers w1 → expiry w1 a < now) →
  ∃ w2, ks_timerset_run now w1 = Done (tt, w2) ∧
    ∀ c, c ∈ cs → ∃ o, reqs w2 !! waits_for c = Some o ∧ req_completed o = true.
Proof.
  intros Hr Hs Ht. pose proof (reached_inv pid cs w Hr) as I.
  pose proof (send_requests_ok _ t w I) as Hw. unfold wpf in Hw. rewrite Hs in Hw.
  destruct Hw as (I1 & P1 & _).
  pose proof (wp_timerset_run _ now w1 I1) as Hrun. unfold wp in Hrun.
  destruct (ks_timerset_run now w1) as [[[] w2]|]; [|done]. destruct Hrun as (I2 & R2 & F2 & E2).
  exists w2. split; [done|]. intros c Hc.
  assert (waits_for c ∈ all_held cs) as Hin.
  { unfold all_held. apply list_elem_of_In, in_concat. exists (held c). split.
    - by apply list_elem_of_In, list_elem_of_fmap_2.
    - apply list_elem_of_In. destruct c as [| | | | | | |[]| |]; by left. }
  destruct (inv_held _ _ _ _ I2 Hin) as [o Ho]. exists o. split; [done|].
  pose proof (io_req _ _ _ I2 _ o Ho) as F.
  destruct (rf_ends _ _ _ _ F) as [Hx|[?|[Hp|Hp]]]; [by apply elem_of_nil in Hx|done|exfalso..].
  - pose proof (f_equal requests_pending R2) as Ep. cbn in Ep. rewrite Ep, P1 in Hp.
    by apply elem_of_nil in Hp.
  - apply (rf_timer _ _ _ _ F) in Hp. destruct (E2 _ Hp) as [Hp1 Ee].
    rewrite Forall_forall in F2. specialize (F2 _ Hp). specialize (Ht _ Hp1). lia.
Qed.

(** C9. An answer in parts is collected.  The kernel acknowledges a request that waits
    with a message that says more will come, and then sends the parts, the last of them
    marked; whatever their numbers within the answer are, the request is completed
    without an error, has the acknowledgement and all parts, each padded to four octets,
    as its answer, and is in no queue any more. *)
Theorem multipart_collected pid cs w now a o m h parts :
  reached pid cs w → requests_locked w = false → a ∈ all_held cs →
  a ∈ requests_waiting_ack w → reqs w !! a = Some o →
  (∀ b ob, b ∈ requests_waiting_ack w → reqs w !! b = Some ob → req_id ob = req_id o → b = a) →
  only_multi a (req_id o) w →
  in_memory m h → nlmsg_type h ≠ NLMSG_ERROR → nlmsg_seq h = req_id o →
  Z.land (nlmsg_flags h) NLM_F_ACK ≠ 0 → Z.land (nlmsg_flags h) NLM_F_MULTI ≠ 0 →
  complete_answer (req_id o) parts →
  ∃ w' o', forM (m :: parts.*1) (ks_conn_receive_unicast now) w = Done (tt, w') ∧
    reqs w' !! a = Some o' ∧ req_completed o' = true ∧ req_err o' = 0 ∧
    response_payload o' = Some (frame m h ++ frames parts) ∧
    a ∉ requests_multi w'.
Proof.
  intros Hr Hl Hheld Ha Ho Hu1 Hu2 Hm He Hseq Hack Hmulti Hparts.
  pose proof (reached_inv pid cs w Hr) as I.
  assert (wp (forM (m :: parts.*1) (ks_conn_receive_unicast now)) (λ _ w',
    IoInv (all_held cs) [] w' ∧ a ∉ requests_multi w' ∧
    ended a 0 (Some (frame m h ++ frames parts)) w') w) as Hw.
  { cbn [forM]. apply wp_bind. eapply wp_mono; [by apply (wp_ack (all_held cs) now a o m h w)|].
    intros [] w1 [I1 A1]. unfold ack_ends in A1. apply Z.eqb_neq in He, Hmulti. rewrite He, Hmulti in A1.
    cbn [negb] in A1. destruct A1 as [[an_locked0 an_pending0 an_waiting0 an_multi0 an_others0] (o1 & o2 & Ho1 & Ho2 & Eid & _ & Ep)].
    simplify_eq. cbn in Ep, Eid.
    apply (wp_parts (all_held cs) now a o2); try done.
    - rewrite an_multi0. apply elem_of_app. right. by left.
    - intros b ob Hb Hob Hid. rewrite an_multi0 in Hb. destruct (decide (b = a)); [done|].
      rewrite an_others0 in Hob by done. apply elem_of_app in Hb as [Hb|Hb%list_elem_of_singleton]; [|done].
      eapply Hu2; [done..|]. by rewrite Hid, Eid.
    - by rewrite Eid. }
  unfold wp in Hw. destruct (forM _ _ w) as [[[] w']|]; [|done]. destruct Hw as (I' & N & En).
  destruct (inv_held _ _ _ a I' Hheld) as [o' Ho']. exists w', o'.
  destruct (En o' Ho') as (? & ? & ?). done.
Qed.

(** C25. Requests reach the kernel as they are, in order.  In a state reached by benign
    events whose lock is free: if the requests that wait to be sent fit into the 1016
    octets the buffer has, sending completes, all of them wait for an answer in their
    order, and in the one datagram that was sent the walk from message to message finds
    exactly them: type, flags, identifier, process and payload of each.  If they do not
    fit, the code writes behind the buffer. *)
Theorem requests_sent pid cs w now :
  reached pid cs w → requests_locked w = false →
  if decide (sizes_at w (requests_pending w) ≤ 1016)%nat then
    ∃ w', ks_conn_send_requests now w = Done (tt, w') ∧ requests_pending w' = [] ∧
      requests_waiting_ack w' = requests_waiting_ack w ++ requests_pending w ∧
      (requests_pending w ≠ [] → ∃ d, sent w' = d :: sent w ∧
        ∀ rest, Forall2 (reads (conn_pid w))
          (messages (length d `div` 16) (d ++ rest) (Z.of_nat (length d)))
          (omap (reqs w !!.) (requests_pending w)))
  else ks_conn_send_requests now w = Fault OutOfBounds.
Proof.
  intros Hr Hl. pose proof (reached_inv pid cs w Hr) as I.
  pose proof (send_requests_ok _ now w I) as Hw. unfold wpf in Hw.
  destruct (ks_conn_send_requests now w) as [[[] w']|f] eqn:Hs.
  2: { destruct Hw as [[_ Hw]|[-> Hw]]; [congruence|]. case_decide; [lia|done]. }
  destruct Hw as (I' & P' & W' & M' & L' & S' & Hle).
  rewrite decide_True by done. exists w'. split_and!; [done..|].
  intros Hne. assert (requests_pending w ⊆ queues w) as Hq.
  { intros b Hb. unfold queues. apply elem_of_app. by left. }
  pose proof (sizes_concat _ _ _ _ I Hq) as Hlen.
  assert (bytes_at w <$> requests_pending w
    = request_bytes (conn_pid w) <$> omap (reqs w !!.) (requests_pending w)
    ∧ Forall small_request (omap (reqs w !!.) (requests_pending w))) as [Hb Hsm].
  { clear -I Hq. induction (requests_pending w) as [|a l IH]; [done|].
    destruct (inv_queued _ _ _ a I) as [o Ho]; [apply Hq; by left|].
    destruct IH as [IH1 IH2]; [intros b Hb; apply Hq; by right|].
    rewrite fmap_cons. cbn. rewrite Ho, IH1. split.
    - cbn. unfold bytes_at. by rewrite Ho.
    - constructor; [|done]. pose proof (rf_skb _ _ _ _ (io_req _ _ _ I a o Ho)) as Hk.
      unfold small_request, payload_of. destruct (req_skb o) as [s|]; cbn; [|by split; [|exists 0]].
      destruct (Hk s eq_refl) as (_ & ? & ?). split; [lia|done]. }
  exists (concat (bytes_at w <$> requests_pending w)). split.
  - rewrite S'. by destruct (requests_pending w).
  - intros rest. rewrite Hb. apply messages_requests; [done|].
    rewrite <- Hb. pose proof (Nat.div_mod_eq (length (concat (bytes_at w <$> requests_pending w))) 16).
    pose proof (Nat.mod_upper_bound (length (concat (bytes_at w <$> requests_pending w))) 16). lia.
Qed.

(** C38. A change the kernel refuses is freed twice.  An operation that waits for the
    answer to [ks_pipeline_update], [ks_pipeline_destroy] or [ks_chan_update] and whose
    request the kernel answers with an error gives its reference back, which was the last,
    and then puts the freed request again. *)
Theorem refused_change_uses_freed pid cs w now i a o m h :
  reached pid cs w → requests_locked w = false → cs !! i = Some (waits_change a) →
  occ a (all_held cs) = 1%nat →
  a ∈ requests_waiting_ack w → reqs w !! a = Some o →
  (∀ b ob, b ∈ requests_waiting_ack w → reqs w !! b = Some ob → req_id ob = req_id o → b = a) →
  in_memory m h → nlmsg_type h = NLMSG_ERROR → 20 ≤ nlmsg_len h → nlmsg_seq h = req_id o →
  Z.land (nlmsg_flags h) NLM_F_ACK ≠ 0 → error_code m < 0 →
  ∃ w', ks_conn_receive_unicast now m w = Done (tt, w') ∧
    ks_exec cs (ev_resume i) w' = Fault UseAfterFree.
Proof.
  intros Hr Hl Hi Hocc Ha Ho Hu Hm He Hlen Hseq Hack Herr.
  pose proof (reached_inv pid cs w Hr) as I.
  assert (honest h) as Hh by done.
  pose proof (wp_ack (all_held cs) now a o m h w I Hl Ha Ho Hu Hm Hh Hseq Hack) as Hw.
  unfold wp in Hw. destruct (ks_conn_receive_unicast now m w) as [[[] w']|]; [|done].
  destruct Hw as [I' A]. unfold ack_ends in A. rewrite He in A. cbn in A. destruct A as [[an_locked0 an_pending0 an_waiting0 an_multi0 an_others0] En].
  exists w'. split; [done|].
  assert (a ∈ all_held cs) as Hin by (apply occ_elem; lia).
  destruct (inv_held _ _ _ a I' Hin) as [o' Ho']. destruct (En o' Ho') as (Hc & Hee & _).
  assert (req_refcnt o' = 1) as H1.
  { destruct (io_refs _ _ _ I' a o' Ho') as [Href _]. rewrite Href, Hocc.
    pose proof (io_queues _ _ _ I) as Hn.
    assert (a ∉ queues w') as Hq.
    { unfold queues in *. rewrite an_pending0, an_waiting0, an_multi0.
      apply NoDup_app in Hn as (_ & D1 & (_ & D2 & _)%NoDup_app).
      rewrite !elem_of_app, list_elem_of_filter. intros [Hp|[[? _]|Hmu]]; [|done|by apply (D2 a)].
      apply (D1 a Hp). apply elem_of_app. by left. }
    apply occ_not_elem in Hq. rewrite Hq. destruct (timer_pending o') eqn:Hp; [|done].
    destruct (rf_armed _ _ _ _ (io_req _ _ _ I' a o' Ho') Hp) as [Hx|Hx]; [by apply elem_of_nil in Hx|].
    exfalso. apply occ_not_elem in Hq. apply Hq. unfold queues. apply elem_of_app. by right. }
  cbn [ks_exec]. unfold client_step. rewrite Hi. cbn [waits_for].
  unfold mbind at 1, M_bind at 1. rewrite (the_req_eq a o' w') by done. rewrite Hc.
  cbn [ks_client_resume]. unfold change_result, mbind, M_bind. rewrite (the_req_eq a o' w') by done.
  rewrite Hee. apply Z.ltb_lt in Herr. rewrite Herr.
  rewrite (ks_req_put_last a o' w') by done.
  unfold ks_req_put at 1, the_req, mbind, M_bind. cbn. by rewrite lookup_delete_eq.
Qed.

(** An answer to no request stops the library.  A message that acknowledges no
    request, while others wait, leaves the lock of the requests locked: the next datagram
    with an acknowledgement, the next request of an application, whatever it is for, and
    the thread that wants to send wait for the lock for ever. *)
Theorem stray_answer_deadlocks pid cs w now m h :
  reached pid cs w → requests_locked w = false → requests_waiting_ack w ≠ [] →
  (∀ b ob, b ∈ requests_waiting_ack w → reqs w !! b = Some ob → req_id ob ≠ nlmsg_seq h) →
  in_memory m h → Z.land (nlmsg_flags h) NLM_F_ACK ≠ 0 →
  ∃ w', ks_conn_receive_unicast now m w = Done (tt, w') ∧
    ks_conn_receive_unicast now m w' = Fault Deadlock ∧
    (∀ t, ks_conn_send_requests t w' = Fault Deadlock) ∧
    (∀ type, request type w' = Fault Deadlock).
Proof.
  intros Hr Hl Hne Hu Hm Hack. pose proof (reached_inv pid cs w Hr) as I.
  assert (lift (nlmsg_hdr m) = λ w : ks_io, Done (h, w)) as Hhdr.
  { unfold lift. destruct Hm as [-> _]. done. }
  apply Z.eqb_neq in Hack. exists (set_requests_locked true w).
  assert (∀ w0, ks_conn_receive_unicast now m w0 = ks_conn_receive_acknowledge now m w0) as Hrecv.
  { intros w0. unfold ks_conn_receive_unicast, mbind, M_bind. by rewrite Hhdr, Hack. }
  rewrite !Hrecv. split_and!.
  - unfold ks_conn_receive_acknowledge, lock_requests, mbind, M_bind. cbn. rewrite Hl.
    cbn. rewrite Hhdr. rewrite bool_decide_false by done.
    destruct (find_req_eq (λ o, req_id o =? nlmsg_seq h) (requests_waiting_ack w)
      (set_requests_locked true w)) as (r & Hf & Hp).
    { intros b Hb. destruct (inv_queued _ _ _ b I) as [ob Hob]; [|by exists ob].
      unfold queues. rewrite !elem_of_app. auto. }
    rewrite Hf. destruct r as [b|]; [|done]. destruct Hp as (Hb & ob & Hob & Heq).
    apply Z.eqb_eq in Heq. by destruct (Hu b ob Hb Hob).
  - done.
  - done.
  - intros type. unfold request, new_request, mbind, M_bind. rewrite alloc_eq.
    rewrite (upd_req_eq _ _ _ _ (w_req_at _ _ _)). done.
Qed.
End theorems.

(** ** Concrete executions *)

(** memory that is zero *)
Definition zero_memory : ConnEnv :=
  {| malloc_holds := λ _, replicate 4096 0; malloc_size := λ _, length_replicate 4096 0 |}.

Definition the_system (o : outcome (list ks_client * ks_io)) : list ks_client * ks_io :=
  match o with Done s => s | Fault _ => ([], ks_conn_create 0) end.

(** an application has called [ks_conn_sync]; the request has been sent *)
Definition called : list ks_client * ks_io :=
  the_system (ks_exec (E := zero_memory) [] (ev_call op_sync) (ks_conn_create 7)).
Definition was_sent : list ks_client * ks_io :=
  the_system (ks_exec (E := zero_memory) called.1 (ev_send 100) called.2).

Lemma reached_called : reached (E := zero_memory) 7 called.1 called.2.
Proof.
  eapply (reached_step _ [] _ (ev_call op_sync)); [apply reached_start|exact I|].
  vm_compute. reflexivity.
Qed.
Lemma reached_sent : reached (E := zero_memory) 7 was_sent.1 was_sent.2.
Proof.
  eapply (reached_step _ _ _ (ev_send 100)); [apply reached_called|exact I|vm_compute; reflexivity].
Qed.

(** an application has asked for the end of a pipeline *)
Definition a_pipeline : ks_pipeline :=
  {| pipeline_refcnt := 1; pipeline_conn := true; pipeline_id := 5; pipeline_path := None;
     pipeline_status := KS_PIPELINE_STATUS_OPEN; pipeline_chans := [] |}.
Definition has_pipeline : ks_event := ev_objects (set_pipelines {[0%nat := a_pipeline]} conn_init).
Definition with_pipeline : list ks_client * ks_io :=
  the_system (ks_exec (E := zero_memory) [] has_pipeline (ks_conn_create 7)).
Definition destroying : list ks_client * ks_io :=
  the_system (ks_exec (E := zero_memory) with_pipeline.1 (ev_call (op_pipeline_destroy 0))
    with_pipeline.2).
Definition destroy_sent : list ks_client * ks_io :=
  the_system (ks_exec (E := zero_memory) destroying.1 (ev_send 100) destroying.2).

Lemma reached_with_pipeline : reached (E := zero_memory) 7 with_pipeline.1 with_pipeline.2.
Proof.
  apply (reached_step _ [] (ks_conn_create 7) has_pipeline); [apply reached_start|exact I|].
  reflexivity.
Qed.
Lemma reached_destroying : reached (E := zero_memory) 7 destroying.1 destroying.2.
Proof.
  apply (reached_step _ with_pipeline.1 with_pipeline.2 (ev_call (op_pipeline_destroy 0)));
    [apply reached_with_pipeline|exact I|].
  vm_compute. reflexivity.
Qed.
Lemma reached_destroy_sent : reached (E := zero_memory) 7 destroy_sent.1 destroy_sent.2.
Proof.
  apply (reached_step _ destroying.1 destroying.2 (ev_send 100));
    [apply reached_destroying|exact I|].
  vm_compute. reflexivity.
Qed.

(** the identifier of the first request *)
Definition first_id : Z := 61898 * 65536.
Definition message (type flags seq : Z) (data : list Z) : list Z * nlmsghdr :=
  let h := {| nlmsg_len := 16 + Z.of_nat (length data); nlmsg_type := type; nlmsg_flags := flags;
              nlmsg_seq := seq; nlmsg_pid := 7 |} in
  (nlmsghdr_bytes h ++ data, h).

Lemma message_in_memory type flags seq data :
  0 ≤ type < 65536 → 0 ≤ flags < 65536 → 0 ≤ seq < 4294967296 →
  Z.of_nat (length data) < 65536 → (4 | Z.of_nat (length data)) →
  in_memory (message type flags seq data).1 (message type flags seq data).2.
Proof.
  intros Ht Hf Hs Hd H4. unfold message. set (h := mk_nlmsghdr _ _ _ _ _). split_and!.
  - apply nlmsg_hdr_bytes; [cbn; lia|]. split_and!; cbn; lia.
  - unfold NLMSG_HDRLEN. cbn. lia.
  - cbn [fst snd nlmsg_len h]. rewrite length_app, nlmsghdr_bytes_length.
    rewrite NLMSG_ALIGN_aligned; [lia|]. apply Z.divide_add_r; [by exists 4|done].
Qed.
Ltac concrete_message :=
  apply message_in_memory; [split; vm_compute; [discriminate|reflexivity] ..|vm_compute; reflexivity|].

Definition the_request (s : list ks_client * ks_io) : ks_req := default new_req (reqs s.2 !! 0%nat).
Lemma sent_request : reqs was_sent.2 !! 0%nat = Some (the_request was_sent).
Proof. vm_compute. reflexivity. Qed.

Definition sent_steps : list (list ks_client * ks_io * ks_event) :=
  [(called.1, called.2, ev_send 100); ([], ks_conn_create 7, ev_call op_sync)].
Lemma execution_sent : execution (E := zero_memory) 7 sent_steps was_sent.1 was_sent.2.
Proof.
  apply execution_step; [|exact I|vm_compute; reflexivity].
  apply execution_step; [|exact I|vm_compute; reflexivity]. apply execution_start.
Qed.

Lemma requests_counted_witness :
  reqs was_sent.2 !! 0%nat = Some (the_request was_sent) ∧ req_refcnt (the_request was_sent) = 3.
Proof.
  destruct (requests_counted (E := zero_memory) 7 _ _ _ execution_sent)
    as [(cs0 & w0 & e0 & Hin & Hr)|[Hc _]].
  - unfold sent_steps in Hin. rewrite !elem_of_cons, elem_of_nil in Hin.
    destruct Hin as [[= -> -> ->]|[[= -> -> ->]|[]]]; discriminate.
  - split; [exact sent_request|]. rewrite (proj1 (Hc _ _ sent_request)). vm_compute. reflexivity.
Defined.

Lemma protocol_thread_safe_witness :
  ∃ w', ks_timerset_run 10000000 was_sent.2 = Done (tt, w').
Proof.
  destruct (protocol_thread_safe (E := zero_memory) 7 _ _ 10000000 reached_sent) as [Hr _]. exact Hr.
Defined.

Lemma waits_end_witness :
  ∃ w2, ks_timerset_run 10000000 was_sent.2 = Done (tt, w2) ∧
    ∀ c, c ∈ called.1 → ∃ o, reqs w2 !! waits_for c = Some o ∧ req_completed o = true.
Proof.
  apply (waits_end (E := zero_memory) 7 called.1 called.2 100 was_sent.2 10000000).
  - exact reached_called.
  - vm_compute. reflexivity.
  - intros a Ha. vm_compute in Ha. apply list_elem_of_singleton in Ha as ->. vm_compute. reflexivity.
Defined.

Lemma multipart_collected_witness (m := message KS_NETLINK_FEATURE_GET 6 first_id [])
    (parts := [message KS_NETLINK_FEATURE_NEW 2 (first_id + 1) [8; 0; 1; 0; 9; 0; 0; 0];
               message NLMSG_DONE 2 (first_id + 2) []]) :
  ∃ w' o', forM (m.1 :: parts.*1) (ks_conn_receive_unicast 200) was_sent.2 = Done (tt, w') ∧
    reqs w' !! 0%nat = Some o' ∧ req_completed o' = true ∧ req_err o' = 0 ∧
    response_payload o' = Some (frame m.1 m.2 ++ frames parts) ∧ 0%nat ∉ requests_multi w'.
Proof.
  apply (multipart_collected (E := zero_memory) 7 was_sent.1 was_sent.2 200 0%nat
           (the_request was_sent) m.1 m.2 parts).
  - exact reached_sent.
  - reflexivity.
  - vm_compute. apply list_elem_of_here.
  - vm_compute. apply list_elem_of_here.
  - exact sent_request.
  - intros b ob Hb _ _. vm_compute in Hb. by apply list_elem_of_singleton in Hb.
  - intros b ob Hb. vm_compute in Hb. by apply elem_of_nil in Hb.
  - concrete_message. by exists 0.
  - vm_compute. discriminate.
  - vm_compute. reflexivity.
  - vm_compute. discriminate.
  - vm_compute. discriminate.
  - split.
    + repeat apply Forall_cons_2; [| |apply Forall_nil_2];
        (split; [concrete_message; (by exists 0) || by exists 2|]);
        (split; [vm_compute; reflexivity|]); (split; [vm_compute; discriminate|]);
        (split; [vm_compute; discriminate|vm_compute; reflexivity]).
    + eexists [_], _. split; [reflexivity|]. split; [reflexivity|].
      repeat constructor. vm_compute. discriminate.
Defined.

Lemma requests_sent_witness :
  ∃ w', ks_conn_send_requests (E := zero_memory) 100 called.2 = Done (tt, w') ∧
    requests_pending w' = [] ∧ requests_waiting_ack w' = [0%nat].
Proof.
  pose proof (requests_sent (E := zero_memory) 7 called.1 called.2 100 reached_called eq_refl) as Hs.
  rewrite decide_True in Hs by (vm_compute; lia).
  destruct Hs as (w' & H1 & H2 & H3 & _). exists w'. split; [exact H1|]. split; [exact H2|].
  rewrite H3. vm_compute. reflexivity.
Defined.

Lemma refused_change_uses_freed_witness (m := message NLMSG_ERROR NLM_F_ACK first_id (le 4 22)) :
  ∃ w', ks_conn_receive_unicast 200 m.1 destroy_sent.2 = Done (tt, w') ∧
    ks_exec (E := zero_memory) destroy_sent.1 (ev_resume 0) w' = Fault UseAfterFree.
Proof.
  apply (refused_change_uses_freed (E := zero_memory) 7 destroy_sent.1 destroy_sent.2 200 0%nat
           0%nat (the_request destroy_sent) m.1 m.2).
  - exact reached_destroy_sent.
  - reflexivity.
  - vm_compute. reflexivity.
  - vm_compute. reflexivity.
  - vm_compute. apply list_elem_of_here.
  - vm_compute. reflexivity.
  - intros b ob Hb _ _. vm_compute in Hb. by apply list_elem_of_singleton in Hb.
  - concrete_message. by exists 1.
  - reflexivity.
  - vm_compute. discriminate.
  - vm_compute. reflexivity.
  - vm_compute. discriminate.
  - vm_compute. reflexivity.
Defined.

Lemma stray_answer_deadlocks_witness (m := message NLMSG_NOOP NLM_F_ACK 5 []) :
  ∃ w', ks_conn_receive_unicast 200 m.1 was_sent.2 = Done (tt, w') ∧
    ks_conn_receive_unicast 200 m.1 w' = Fault Deadlock ∧
    (∀ t, ks_conn_send_requests (E := zero_memory) t w' = Fault Deadlock) ∧
    (∀ type, request type w' = Fault Deadlock).
Proof.
  apply (stray_answer_deadlocks (E := zero_memory) 7 was_sent.1 was_sent.2 200 m.1 m.2).
  - exact reached_sent.
  - reflexivity.
  - vm_compute. discriminate.
  - intros b ob Hb Hob. vm_compute in Hb. apply list_elem_of_singleton in Hb as ->.
    rewrite sent_request in Hob. injection Hob as <-. vm_compute. discriminate.
  - concrete_message. by exists 0.
  - vm_compute. discriminate.
Defined.
